(* ===== verification/_CoqProject ===== *)
-Q . S2P
Prelude.v
Utf8.v
Prog.v
Api.v
Workloads.v
Messages.v
Kube.v
ApiServer.v
Codec.v
NetAddr.v
IpAddr.v
Plan.v
WireGuard.v
Registration.v
Directive.v
DirectiveState.v
Cache.v
Members.v
Topology.v
Status.v
AddressPlan.v
Rotation.v
Backups.v
Declarations.v
Admission.v
Policy.v
Restore.v
Upgrade.v
Instance.v
InstanceProps.v
Readiness.v
SiteRegistration.v
ControlServer.v
ControlReports.v
Client.v
RenderBase.v
MaintenanceJobs.v
Render.v
AgentBase.v
AgentCertificates.v
Patroni.v
Vault.v
Secrets.v
AgentOperations.v
Reconciler.v
Sql.v
Executor.v
SiteIdentity.v
Inventory.v
Bootstrap.v
RenderProps.v
SqlProps.v
RenderSecrets.v
SitePhases.v
SiteWrites.v
SiteSteps.v
OperationProps.v
ReconcilerProps.v
IdentityProps.v
EventNotes.v
ExecutorProps.v
Telemetry.v
SiteAgent.v
AgentProps.v
ControlListener.v
DevicePlugin.v
LeaseGate.v
