(* ===== verification/Prelude.v ===== *)
(** * mspsql: multi-site PostgreSQL operator, verification development

    The program is a Kubernetes operator (Go, under src/) that runs Patroni
    PostgreSQL clusters across several sites.  A hub holds the custom resources
    (instances, upgrades, restores, databases, users, site registrations) and
    turns each instance into one signed plan per site; an agent at every site
    fetches its plans over a control stream, verifies and caches them, applies
    them to its cluster, and reports what it has applied and observed, which the
    hub records in the instance's status.  Controllers on the hub drive upgrades,
    restores, credential rotations, address changes and backups by moving
    annotations of the instance, which change the plans.  One-off work (backups,
    database and user changes) travels as signed directives, which the agent
    turns into Jobs and whose results it records in ConfigMaps.  A site joins
    with a one-time token over HTTP, through which its agent gets a certificate,
    the hub's key and a WireGuard address.

    ** Files

    Language, libraries and data:
    - [Prelude]: comparison notations, record update, tactics, machine integers,
      times and durations, and the parts of Go's strings, strconv, slices and
      maps packages that the source uses; [Utf8], [NetAddr], [IpAddr]: code
      points, IPv4 networks and IP addresses; [Codec]: base64 and hex, and the
      interfaces for JSON, SHA-256, Ed25519 and time formats with reference
      implementations.
    - [Prog]: code that talks to its environment, as a tree of requests whose
      continuation takes any answer; [sat] states a property of all requests and
      of the result for every possible answer, [run] executes a tree against a
      handler.
    - [Api], [Workloads], [Messages]: the custom resources of src/api/v1alpha1,
      the Kubernetes objects of a site, and the messages of
      src/proto/control/v1/control.proto, with Go's field names behind a prefix.
    - [Kube]: the objects and requests of the client, what else the programs ask
      of their environment (files, streams, HTTP, clocks), the helpers of
      src/internal/controller/status.go, and the interface [KubeLib] of the
      controller libraries with its laws and a reference implementation.
    - [ApiServer]: what the API server promises (optimistic concurrency on
      resource versions, reads possibly out of date) as the class
      [ApiServerLaws], and [MemServer], a server that satisfies it.

    Shared by hub and agents:
    - [Plan], [Directive]: src/internal/plan, src/internal/directive: signed
      plans and directives, and the classification of plan changes.
    - [Members]: the names of members and statuses of sites.

    The hub:
    - [Admission]: src/internal/webhook/v1alpha1, defaulting and validation.
    - [Topology], [Status], [AddressPlan], [Rotation], [Policy]: parts of
      src/internal/controller/multisitepostgres_controller.go and policy.go: the
      topology published from the sites' reports and the readiness drawn from it,
      the merge of concurrent status writes, member addresses, credential
      rotation, site policy and the isolation of instances; [Backups]:
      backups.go; [Instance]: the reconcile and finalization that call them, and
      the signing key of plans.go; [InstanceProps], [Readiness]: its theorems.
    - [Upgrade], [Restore], [Declarations], [SiteRegistration]: the controllers
      of upgrades, restores, databases and users, and registrations
      (postgresupgrade_, postgresrestore_, postgresdatabase_, postgresuser_ and
      siteregistration_controller.go, directives.go).
    - [Registration], [WireGuard]: src/internal/registration and
      src/internal/wireguard: tokens, the HTTP server that binds a site,
      certificates, addresses and peers.
    - [ControlServer], [ControlReports], [ControlListener]: the control service,
      src/internal/control/server.go and runnable.go: handshake and sending,
      receiving and recording, the listener's configuration.

    The agent:
    - [Cache], [DirectiveState], [Client]: src/internal/agent/cache.go,
      src/internal/control/directive_state.go and client.go: the plan cache, the
      records of directives, the control stream with a worker per plan and per
      directive.
    - [RenderBase], [MaintenanceJobs], [Render]: src/internal/agent/render.go and
      the Jobs of major_upgrade.go and credentials.go: every object rendered for
      a site, with its scripts and configurations.
    - [AgentBase], [AgentCertificates], [Patroni], [Vault], [Secrets],
      [AgentOperations], [Reconciler]: src/internal/agent/reconcile.go with
      ownership.go, events.go, patroni.go, secrets.go, credentials.go and
      major_upgrade.go, and src/internal/vault: the pipeline that brings a site
      to its plan.
    - [Sql], [Executor]: src/internal/agent/directives.go.
    - [SiteIdentity], [Inventory], [Bootstrap], [SiteAgent]:
      src/internal/siteidentity, src/internal/agent/inventory.go and
      src/cmd/site-agent: identity, inventory, and the command that puts the
      parts together.
    - [RenderProps], [RenderSecrets], [SqlProps], [EventNotes], [SitePhases],
      [SiteWrites], [SiteSteps], [OperationProps], [ReconcilerProps],
      [ExecutorProps], [IdentityProps], [AgentProps]: theorems about the agent.

    Beside them: [Telemetry] (src/internal/telemetry), [DevicePlugin] and
    [LeaseGate] (src/cmd/tun-device-plugin and src/cmd/lease-gate).

    ** How the code is represented

    Strings are byte strings, [int32] and [int64] are integers whose overflowing
    operations wrap explicitly, times are nanoseconds since the Unix epoch,
    pointers are options, a read of a Go map is [m !!! k] with the zero value for
    a missing key, and enumerations that the source keeps as strings stay
    strings.  A function that mutates an object in memory returns the new object.
    A function that may fail returns [result]; reconcilers return an [Outcome], a
    requeue delay and an error.  Each request of a program is one call in the
    source.  Goroutines that run side by side ([Client.agent_step],
    [ControlReports.connection_step]) are step relations in which any of them may
    take the next step.  Libraries that are not part of the repository
    (client-go, controller-runtime, apimachinery, cron, encoding/json, crypto,
    X.509, URLs) are classes, with laws that state their documented behaviour
    where a theorem needs them; every theorem that uses laws has a witness at a
    concrete instance.  The texts of errors follow the source, except the offset
    in the message of a base64 error.

    Components meet at interfaces.  [Client] is proved against
    [ReconcilerLaws] and [ExecutorLaws], which [ReconcilerProps] and
    [ExecutorProps] discharge and [AgentProps] puts together; the Vault steps of
    [SiteSteps] are proved for any component that may read and log in ([Reads],
    [LogsIn]), and used by the reconciler and the executor.

    ** What the theorems show

    - Plans and directives ([Plan], [Directive], [Cache], [DirectiveState]): a
      signed plan is accepted by exactly its site and instance and read back
      unchanged, an accepted plan was signed by the hub, the cache of an agent
      never goes back to an older plan, and the record of a finished directive is
      final.
    - Admission: the webhooks accept exactly the resources that meet declarative
      rules, defaulting keeps them, and what is accepted can be planned.
    - Instances ([Topology], [Status], [AddressPlan], [Rotation], [Policy],
      [Members], [InstanceProps], [Readiness]): a primary is published only by
      consensus of fresh reports, concurrent status writes lose nothing,
      addresses move one at a time, old credentials are revoked only after every
      member has the new ones, accepted instances share neither backup
      repository nor keys; plans are written only after every check has passed,
      for the right site and revision; an instance is let go only after its
      sites have acknowledged the deletion and its plans are gone.
    - Backups: requested only when due; the catch-up loop ends for schedules that
      advance.
    - Restores and upgrades: whatever the server answers, every request of a
      reconcile is a step of the abstract state machine given as an inductive
      relation ([restore_edge], [upgrade_patch], [upgrade_end]); from it follow
      the order of the phases, the ownership of instances, what completion means,
      and that a deleted upgrade in its rollback phase never finishes.  A run on
      [MemServer] takes a restore and a major upgrade to completion.
    - Joining ([Registration], [WireGuard], [SiteRegistration]): certificates
      need a token, addresses are never shared, registrations are let go only
      when nothing refers to them.
    - The control stream ([ControlServer], [ControlReports], [Client]): a stream
      needs a matching certificate, the sending loop refines an abstract session,
      only trusted directives are sent, an agent changes only its own part of a
      status, has one worker per instance, and reports only what it may.
    - What is rendered ([RenderProps], [RenderSecrets], [SqlProps]): no phase of a
      major upgrade runs two major versions at a site, fields the API server does
      not let change are stable, every mounted Secret is provided, and no name in
      a declaration can leave its quotes or the here-document it is in.
    - The site ([ReconcilerProps], [ExecutorProps], [IdentityProps],
      [AgentProps]): the reconciler and the executor send only requests of the
      relations [site_write] and [executor_write]; Ready means applied and
      observed, a directive's success means a completed Job; a renewed identity
      never touches the one in use; and with all parts together, what the hub is
      told as applied was observed, whatever the interleaving, while an agent
      without its hub changes nothing that takes coordination.
    - The rest: metrics without duplicate series and with one primary
      ([Telemetry]), exact device allocation ([DevicePlugin]), a gateway marked
      active only when it is ready ([LeaseGate]), notes within their bound
      ([EventNotes]).

    Some theorems state a flaw of the code: a plan revision used twice when a
    status write fails, an endless catch-up for schedules without activations,
    names that collide, a rollback that a deletion blocks, conditions that are never
    set, records of directives that stop the reconciliation of the cache.

    ** Fuel

    Loops of the source that need not end take a number.  [ensureSigningKey] and
    [EnsureHubIdentity] start again when what they could not read exists after
    all, which one concurrent creation causes once; their fuel is the number of
    rounds, and running out of it is the value [None], which the theorems treat
    as divergence.  The catch-up loop over a cron schedule takes a fuel of one
    round per nanosecond between the first activation and now, enough for any
    schedule that advances; the search for a free address takes one round per
    address in use, after which a free one has been met.  For the loops that run
    as long as a stream, a context or a process lives ([sendPlans], [receive],
    [applyPlan], [waitForJob], [waitForFile]) the number says when that ends,
    and the theorems hold for every number; [reconcilePeriodically] and
    [runControlLoop] take the list of the ticks and of the random draws until
    then.  Loops over a text ([decode_runes], [bundle_fingerprints],
    [first_certificate], [replace_from]) take its length, as each round takes at
    least a byte.  [RetryOnConflict] is part of the library interface.  All
    other recursion is structural.

    ** Not modelled

    The hub's command (src/cmd/main.go) only configures controller-runtime's
    manager; of the agent's command the leader election, the activation file and
    the metrics server are left out, of the controllers their registration with
    the manager.  The mutex that serializes the reconciliations of an instance
    and errors of encoding an object for server-side apply are not modelled.
    Generated code (deep copies, protocol stubs) has no counterpart, as records
    are values here. *)

From Stdlib Require Export Ascii.
From Stdlib Require Import DecimalString DecimalZ.
From stdpp Require Export base gmap sets list strings sorting numbers.
From stdpp Require Import options.

(** ** Notations

    The comparison operators of the source, on any type with decidable
    equality.  They live in a scope of their own so that the files that model
    Go code read like it. *)
Declare Scope go_scope.
Delimit Scope go_scope with go.
Notation "x == y" := (bool_decide (x = y)) (at level 70, no associativity) : go_scope.
Notation "x != y" := (negb (bool_decide (x = y))) (at level 70, no associativity) : go_scope.
#[global] Open Scope go_scope.

Create HintDb mspsql.

(** ** Tactics *)

(** Turn boolean hypotheses into the propositions they decide. *)
Ltac bool_to_prop :=
  repeat match goal with
  | H : _ && _ = true |- _ => apply andb_prop in H; destruct H
  | H : Is_true (_ && _) |- _ => apply andb_prop_elim in H; destruct H
  | H : _ || _ = false |- _ => apply orb_false_elim in H; destruct H
  | H : negb _ = true |- _ => apply negb_true_iff in H
  | H : negb _ = false |- _ => apply negb_false_iff in H
  | H : bool_decide _ = true |- _ => apply bool_decide_eq_true in H
  | H : bool_decide _ = false |- _ => apply bool_decide_eq_false in H
  | H : (_ <? _)%Z = true |- _ => apply Z.ltb_lt in H
  | H : (_ <? _)%Z = false |- _ => apply Z.ltb_ge in H
  | H : (_ <=? _)%Z = true |- _ => apply Z.leb_le in H
  | H : (_ <=? _)%Z = false |- _ => apply Z.leb_gt in H
  end.

(** Split the goal and the hypotheses along every [match] and [if] in them. *)
Ltac break_match :=
  match goal with
  | |- context [match ?x with _ => _ end] => destruct x eqn:?
  end.
(** A closed decidable proposition, by evaluating its decision. *)
Ltac by_deciding := apply (bool_decide_unpack _); vm_compute; exact I.
Ltac break_match_in H :=
  match type of H with
  | context [match ?x with _ => _ end] => destruct x eqn:?
  end.

(** ** Record update

    [r <| f := v |>] is the record [r] with field [f] set to [v], and
    [r <| f ::= g |>] applies [g] to the field.  A record type declares its
    eta-expansion as an instance of [Settable]; the setter of a projection is
    found by abstracting the projection in it. *)
Class Settable (R : Type) := eta : R -> R.
Class Setter {R F : Type} (proj : R -> F) := set : (F -> F) -> R -> R.
Arguments set {R F} proj {_} _ _ /.
Arguments eta {R} _ /.

Ltac find_setter :=
  match goal with
  | |- @Setter ?R ?F ?proj =>
      let i := constr:(_ : Settable R) in
      let i := eval red in i in
      let p := eval pattern proj in i in
      match p with
      | ?f _ => let s := eval cbv beta in
                  (fun (g : F -> F) (r : R) => f (fun r => g (proj r)) r) in exact s
      end
  end.
#[global] Hint Extern 0 (Setter _) => find_setter : typeclass_instances.

Declare Scope record_scope.
#[global] Open Scope record_scope.
Notation "r <| f := v |>" := (set f (fun _ => v) r)
  (at level 1, f at next level, left associativity, format "r  <| f  :=  v |>") : record_scope.
Notation "r <| f ::= g |>" := (set f g r)
  (at level 1, f at next level, left associativity, format "r  <| f  ::=  g |>") : record_scope.

(** ** Machine integers

    An [int64] or [int32] of the source is a [Z]; the operations that can
    leave the range wrap around. *)
Section integers.
Local Open Scope Z_scope.

Definition wrap (w : Z) (z : Z) : Z := (z + 2 ^ (w - 1)) `mod` 2 ^ w - 2 ^ (w - 1).
Definition int64 (z : Z) : Z := wrap 64 z.
Definition int32 (z : Z) : Z := wrap 32 z.
Definition max_int64 : Z := 9223372036854775807.
Definition min_int64 : Z := -9223372036854775808.
Definition is_int64 (z : Z) : Prop := min_int64 <= z <= max_int64.

Lemma wrap_small w z :
  0 < w -> - 2 ^ (w - 1) <= z < 2 ^ (w - 1) -> wrap w z = z.
Proof.
  intros Hw Hz. unfold wrap.
  assert (2 ^ w = 2 * 2 ^ (w - 1)) as Hp.
  { rewrite <- Z.pow_succ_r by lia. f_equal; lia. }
  rewrite Z.mod_small; lia.
Qed.

Lemma int64_id z : is_int64 z -> int64 z = z.
Proof.
  intros Hz. apply wrap_small; [lia|].
  unfold is_int64, min_int64, max_int64 in Hz.
  change (2 ^ (64 - 1)) with 9223372036854775808. lia.
Qed.

Lemma int64_range z : is_int64 (int64 z).
Proof.
  unfold is_int64, int64, wrap, min_int64, max_int64.
  change (2 ^ (64 - 1)) with 9223372036854775808.
  change (2 ^ 64) with 18446744073709551616.
  pose proof (Z.mod_pos_bound (z + 9223372036854775808) 18446744073709551616). lia.
Qed.
End integers.

(** ** Times and durations

    A [time.Time] is its offset in nanoseconds from the Unix epoch; the zero
    [time.Time] is the first instant of year 1.  [time.Duration] is an
    [int64] count of nanoseconds and [Time.Sub] saturates at its bounds. *)
Definition Time := Z.
Definition Duration := Z.
Definition zero_time : Time := (-62135596800 * 1000000000)%Z.
Definition second : Duration := 1000000000%Z.
Definition minute : Duration := (60 * second)%Z.
Definition hour : Duration := (60 * minute)%Z.
Definition time_Sub (t u : Time) : Duration := Z.max min_int64 (Z.min max_int64 (t - u)).
Definition time_After (t u : Time) : bool := (u <? t)%Z.
Definition time_Before (t u : Time) : bool := (t <? u)%Z.
Definition time_Add (t : Time) (d : Duration) : Time := (t + d)%Z.
Definition time_IsZero (t : Time) : bool := t == zero_time.
Definition time_Unix (t : Time) : Z := (t `div` 1000000000)%Z.

Lemma time_Sub_le t u d :
  (min_int64 <= d < max_int64)%Z -> (time_Sub t u <= d)%Z <-> (t - u <= d)%Z.
Proof. unfold time_Sub, min_int64, max_int64. lia. Qed.

(** ** Strings

    The functions of package [strings] the source uses, on byte strings. *)
Definition HasPrefix (s p : string) : bool := String.prefix p s.

Fixpoint drop_string (n : nat) (s : string) : string :=
  match n, s with
  | O, _ => s
  | S n, String _ s => drop_string n s
  | S _, EmptyString => ""
  end.

Definition HasSuffix (s p : string) : bool :=
  (String.length p <=? String.length s)%nat &&
  (drop_string (String.length s - String.length p) s == p).

Fixpoint Contains (s sub : string) : bool :=
  String.prefix sub s ||
  match s with
  | EmptyString => false
  | String _ s => Contains s sub
  end.

Definition TrimPrefix (s p : string) : string :=
  if HasPrefix s p then drop_string (String.length p) s else s.

(** [strings.Split] by a separator of one byte: never the empty list. *)
Fixpoint Split (s : string) (sep : ascii) : list string :=
  match s with
  | EmptyString => [""]
  | String c s' =>
      let rest := Split s' sep in
      if c == sep then "" :: rest
      else match rest with
           | [] => [String c ""]
           | w :: ws => String c w :: ws
           end
  end.

Fixpoint Join (l : list string) (sep : string) : string :=
  match l with
  | [] => ""
  | [s] => s
  | s :: l => s +:+ sep +:+ Join l sep
  end.

(** [strings.Trim] with a cutset of one byte. *)
Fixpoint trim_left (s : string) (c : ascii) : string :=
  match s with
  | String d s' => if d == c then trim_left s' c else s
  | EmptyString => ""
  end.
Fixpoint rev_string_onto (s acc : string) : string :=
  match s with
  | EmptyString => acc
  | String c s => rev_string_onto s (String c acc)
  end.
Definition rev_string (s : string) : string := rev_string_onto s "".
Definition Trim (s : string) (c : ascii) : string :=
  rev_string (trim_left (rev_string (trim_left s c)) c).

Fixpoint in_string (c : ascii) (s : string) : bool :=
  match s with
  | EmptyString => false
  | String d s => (d == c) || in_string c s
  end.

(** [strconv.Quote], the [%q] of [fmt], on ASCII text. *)
Definition hex_nibble (n : N) : ascii :=
  if (n <? 10)%N then ascii_of_N (48 + n) else ascii_of_N (87 + n).
Definition quote_byte (c : ascii) : string :=
  let n := N_of_ascii c in
  let esc (d : ascii) := String "092" (String d "") in
  if (n =? 34)%N then esc "034"%char
  else if (n =? 92)%N then esc "092"%char
  else if (n =? 7)%N then esc "a"%char
  else if (n =? 8)%N then esc "b"%char
  else if (n =? 12)%N then esc "f"%char
  else if (n =? 10)%N then esc "n"%char
  else if (n =? 13)%N then esc "r"%char
  else if (n =? 9)%N then esc "t"%char
  else if (n =? 11)%N then esc "v"%char
  else if (32 <=? n)%N && (n <? 127)%N then String c ""
  else String "092" (String "x" (String (hex_nibble (n / 16)) (String (hex_nibble (n mod 16)) ""))).
Fixpoint quote_body (s : string) : string :=
  match s with
  | EmptyString => ""
  | String c s => quote_byte c +:+ quote_body s
  end.
Definition Quote (s : string) : string := String "034" (quote_body s +:+ String "034" "").

(** [strings.ContainsAny] *)
Fixpoint ContainsAny (s chars : string) : bool :=
  match s with
  | EmptyString => false
  | String c s => in_string c chars || ContainsAny s chars
  end.

Lemma app_nil_string s : (s +:+ "") = s.
Proof. induction s as [|c s IH]; [done|]. change (String c (s +:+ "") = String c s). by rewrite IH. Qed.

Lemma app_cons_string c s t : (String c s +:+ t) = String c (s +:+ t).
Proof. done. Qed.

Lemma app_assoc_string s t u : (s +:+ t +:+ u) = ((s +:+ t) +:+ u).
Proof. induction s as [|c s IH]; [done|]. rewrite !app_cons_string. by rewrite IH. Qed.

Lemma app_inj_r_string s t u : (s +:+ t) = (s +:+ u) -> t = u.
Proof. induction s as [|c s IH]; [done|]. rewrite !app_cons_string. intros [= H]. auto. Qed.

Lemma prefix_spec p s : String.prefix p s = true <-> exists t, s = (p +:+ t).
Proof.
  revert s. induction p as [|c p IH]; intros s.
  - split; [exists s; done | by destruct s].
  - destruct s as [|d s]; simpl; [split; [done|by intros (?&?)]|].
    destruct (ascii_dec c d) as [->|Hne].
    + rewrite IH. split; intros [t Ht]; exists t.
      * by rewrite app_cons_string, Ht.
      * rewrite app_cons_string in Ht. congruence.
    + split; [done|]. intros [t Ht]. rewrite app_cons_string in Ht. congruence.
Qed.

Lemma HasPrefix_app p t : HasPrefix (p +:+ t) p = true.
Proof. apply prefix_spec. by exists t. Qed.

(** Splitting at the last occurrence of a byte is unambiguous. *)
Lemma app_last_sep_inj a b x y (c : ascii) :
  in_string c x = false -> in_string c y = false ->
  (a +:+ String c x) = (b +:+ String c y) -> a = b /\ x = y.
Proof.
  assert (Haux : forall a x y, in_string c x = false -> String c x <> (a +:+ String c y) \/ a = "").
  { intros a' x' y' Hx. destruct a' as [|d a']; [by right|left].
    rewrite app_cons_string. intros [= _ Hx'].
    assert (in_string c x' = true); [|congruence].
    rewrite Hx'. clear. induction a' as [|e a' IH]; simpl.
    - by rewrite bool_decide_eq_true_2.
    - rewrite IH. apply orb_true_r. }
  revert b. induction a as [|d a IH]; intros b Hx Hy.
  - intros H. destruct (Haux b x y Hx) as [Hn| ->]; [done|].
    split; [done|]. by injection H.
  - rewrite app_cons_string. intros H.
    destruct b as [|e b].
    + destruct (Haux (String d a) y x Hy) as [Hn|Hn]; [|done].
      exfalso. apply Hn. by rewrite app_cons_string.
    + rewrite app_cons_string in H. injection H as -> H.
      destruct (IH b Hx Hy H) as [-> ->]. done.
Qed.

(** ** Decimal numbers: [strconv.FormatInt(v, 10)] and [strconv.ParseInt(s, 10, 64)] *)
Definition FormatInt (v : Z) : string := NilZero.string_of_int (Z.to_int v).

Definition parse_signed (s : string) : option Z :=
  match s with
  | String "+" s' => Z.of_int ∘ Decimal.Pos <$> NilZero.uint_of_string s'
  | _ => Z.of_int <$> NilZero.int_of_string s
  end.

(** [None] is any error of [strconv.ParseInt]: bad syntax or out of range. *)
Definition ParseInt (w : Z) (s : string) : option Z :=
  match parse_signed s with
  | Some v => if ((- 2 ^ (w - 1) <=? v) && (v <? 2 ^ (w - 1)))%Z then Some v else None
  | None => None
  end.

Lemma uint_string_no_hyphen d : in_string "-" (NilEmpty.string_of_uint d) = false.
Proof. by induction d. Qed.

Lemma pos_no_hyphen v : (0 <= v)%Z -> in_string "-" (FormatInt v) = false.
Proof.
  intros Hv. unfold FormatInt.
  destruct v as [|p|p]; [done| |lia]. simpl.
  unfold NilZero.string_of_uint.
  destruct (Pos.to_uint p); try done; apply (uint_string_no_hyphen (_ _)).
Qed.

Lemma to_int_not_nil v : Z.to_int v <> Decimal.Pos Decimal.Nil /\ Z.to_int v <> Decimal.Neg Decimal.Nil.
Proof.
  assert (Hp : forall p, Pos.to_uint p <> Decimal.Nil).
  { intros p. apply DecimalPos.Unsigned.to_uint_nonnil. }
  destruct v as [|p|p]; simpl; split; intros [= H]; by apply (Hp p).
Qed.

Lemma FormatInt_first v : match FormatInt v with String "+" _ => False | _ => True end.
Proof.
  unfold FormatInt. destruct (Z.to_int v) as [d|d]; simpl; [|done].
  destruct d; done.
Qed.

Lemma parse_signed_FormatInt v : parse_signed (FormatInt v) = Some v.
Proof.
  pose proof (FormatInt_first v) as Hf. unfold parse_signed.
  assert (Z.of_int <$> NilZero.int_of_string (FormatInt v) = Some v) as H.
  { unfold FormatInt. destruct (to_int_not_nil v) as [H1 H2].
    rewrite NilZero.isi by done. simpl. by rewrite of_to. }
  destruct (FormatInt v) as [|[[][][][][][][][]] s]; try exact H; done.
Qed.

(** Printing a 64-bit integer and parsing it back gives the integer. *)
Lemma ParseInt_FormatInt v : is_int64 v -> ParseInt 64 (FormatInt v) = Some v.
Proof.
  intros Hv. unfold ParseInt. rewrite parse_signed_FormatInt.
  unfold is_int64, min_int64, max_int64 in Hv.
  change (2 ^ (64 - 1))%Z with 9223372036854775808%Z.
  rewrite (proj2 (Z.leb_le _ _)), (proj2 (Z.ltb_lt _ _)) by lia. done.
Qed.

Lemma FormatInt_inj v w : FormatInt v = FormatInt w -> v = w.
Proof.
  intros H. pose proof (parse_signed_FormatInt v) as Hv.
  rewrite H, parse_signed_FormatInt in Hv. congruence.
Qed.

(** [Duration.String]: the largest units first, a fraction of the smallest one
    without trailing zeros. *)
Fixpoint strip_zeros (digits : list ascii) : list ascii :=
  match digits with
  | "0"%char :: digits => strip_zeros digits
  | _ => digits
  end.

Definition duration_fraction (digits : nat) (u : Z) : string :=
  let text := String.list_ascii_of_string (FormatInt (10 ^ Z.of_nat digits + u `mod` 10 ^ Z.of_nat digits)%Z) in
  match strip_zeros (rev (tail text)) with
  | [] => ""
  | kept => String "." (String.string_of_list_ascii (rev kept))
  end.

Definition Duration_String (d : Duration) : string :=
  let u := Z.abs d in
  let unit_of digits name := FormatInt (u `div` 10 ^ Z.of_nat digits)%Z +:+ duration_fraction digits u +:+ name in
  (if (d <? 0)%Z then "-" else "") +:+
  (if (u =? 0)%Z then "0s"
   else if (u <? 1000)%Z then unit_of 0 "ns"
   else if (u <? 1000000)%Z then unit_of 3 (String "194" (String "181" "s"))
   else if (u <? second)%Z then unit_of 6 "ms"
   else
     let seconds := (u `div` second)%Z in
     let minutes := (seconds `div` 60)%Z in
     (if (0 <? minutes `div` 60)%Z then FormatInt (minutes `div` 60)%Z +:+ "h" else "") +:+
     (if (0 <? minutes)%Z then FormatInt (minutes `mod` 60)%Z +:+ "m" else "") +:+
     FormatInt (seconds `mod` 60)%Z +:+ duration_fraction 9 u +:+ "s").

(** [maps.Copy(dst, src)] *)
Definition maps_Copy (dst src : gmap string string) : gmap string string := src ∪ dst.

(** ** Slices of strings: [slices.Sort], [slices.Compact], [slices.Contains] *)
Definition SortStrings (l : list string) : list string := merge_sort String.le l.

(** [x < y] on strings. *)
Definition string_less (x y : string) : bool := negb (bool_decide (String.le y x)).

Lemma string_less_false x y : string_less x y = false <-> String.le y x.
Proof. unfold string_less. rewrite negb_false_iff. apply bool_decide_eq_true. Qed.

Lemma string_less_true x y : string_less x y = true -> String.le x y.
Proof.
  unfold string_less. rewrite negb_true_iff, bool_decide_eq_false. intros H.
  by destruct (total String.le x y).
Qed.

Fixpoint Compact (l : list string) : list string :=
  match l with
  | x :: ((y :: _) as l') => if x == y then Compact l' else x :: Compact l'
  | _ => l
  end.

Definition slices_Contains (l : list string) (x : string) : bool := bool_decide (x ∈ l).

Lemma SortStrings_perm l : SortStrings l ≡ₚ l.
Proof. apply merge_sort_Permutation. Qed.

Lemma elem_of_SortStrings x l : x ∈ SortStrings l <-> x ∈ l.
Proof. by rewrite SortStrings_perm. Qed.

Lemma SortStrings_sorted l : StronglySorted String.le (SortStrings l).
Proof. apply StronglySorted_merge_sort; apply _. Qed.

Lemma NoDup_SortStrings l : NoDup (SortStrings l) <-> NoDup l.
Proof. by rewrite SortStrings_perm. Qed.

Lemma elem_of_Compact x l : x ∈ Compact l <-> x ∈ l.
Proof.
  induction l as [|y l IH]; [done|].
  destruct l as [|z l]; [done|].
  change (x ∈ (if bool_decide (y = z) then Compact (z :: l) else y :: Compact (z :: l)) <-> x ∈ y :: z :: l).
  case_bool_decide as Hyz.
  - subst. rewrite IH, !elem_of_cons. tauto.
  - rewrite !elem_of_cons in *. rewrite IH. done.
Qed.

(** On a sorted list [Compact] leaves no duplicates. *)
Lemma NoDup_Compact l : StronglySorted String.le l -> NoDup (Compact l).
Proof.
  induction l as [|y l IH]; intros Hs; [constructor|].
  inversion Hs as [|? ? Hs' Hall]; subst.
  destruct l as [|z l]; [apply NoDup_singleton|].
  change (NoDup (if bool_decide (y = z) then Compact (z :: l) else y :: Compact (z :: l))).
  case_bool_decide as Hyz; [by apply IH|].
  constructor; [|by apply IH].
  rewrite elem_of_Compact, elem_of_cons. intros [->|Hy]; [done|].
  inversion Hs' as [|? ? _ Hz]; subst.
  rewrite list.Forall_forall in Hz, Hall.
  apply Hyz. apply (anti_symm String.le).
  - apply Hall, elem_of_cons. by left.
  - by apply Hz.
Qed.

(** Sorting then compacting depends only on the set of members. *)
Definition sorted_set (l : list string) : list string := Compact (SortStrings l).

Lemma elem_of_sorted_set x l : x ∈ sorted_set l <-> x ∈ l.
Proof. unfold sorted_set. by rewrite elem_of_Compact, elem_of_SortStrings. Qed.

Lemma NoDup_sorted_set l : NoDup (sorted_set l).
Proof. apply NoDup_Compact, SortStrings_sorted. Qed.

#[export] Hint Resolve NoDup_sorted_set SortStrings_sorted int64_range : mspsql.

(** The head of a sorted list is its least member. *)
Lemma SortStrings_head x l l' :
  SortStrings l = x :: l' -> x ∈ l /\ forall y, y ∈ l -> String.le x y.
Proof.
  intros H. split.
  - apply elem_of_SortStrings. rewrite H, elem_of_cons. by left.
  - intros y Hy. rewrite <- elem_of_SortStrings in Hy.
    pose proof (SortStrings_sorted l) as Hs. rewrite H in Hs, Hy.
    inversion Hs as [|? ? _ Hall]; subst. rewrite list.Forall_forall in Hall.
    apply elem_of_cons in Hy as [->|Hy]; [reflexivity|]. by apply Hall.
Qed.

Lemma SortStrings_nil l : SortStrings l = [] -> l = [].
Proof. intros H. apply Permutation_nil. rewrite <- H. apply SortStrings_perm. Qed.
