(* ===== verification/Utf8.v ===== *)
(** * UTF-8

    The parts of Go's [unicode/utf8], [unicode] and [strings] that look at the
    code points of a string: [utf8.ValidString], [unicode.IsControl] and whether
    [strings.TrimSpace] leaves anything. *)

From S2P Require Import Prelude.

(** ** UTF-8

    [utf8.ValidString] and the code points of a valid string. *)
Definition code (c : ascii) : Z := Z.of_N (N_of_ascii c).
Definition continuation (c : ascii) : bool := (128 <=? code c)%Z && (code c <=? 191)%Z.

(** The code point at the start of a string, and the rest. *)
Definition decode_rune (s : string) : option (Z * string) :=
  match s with
  | String a s =>
      if (code a <=? 127)%Z then Some (code a, s)
      else match s with
      | String b s =>
          if negb (continuation b) then None
          else if (194 <=? code a)%Z && (code a <=? 223)%Z then Some (((code a - 192) * 64 + (code b - 128))%Z, s)
          else match s with
          | String c s =>
              if negb (continuation c) then None
              else
                let three := ((code a - 224) * 4096 + (code b - 128) * 64 + (code c - 128))%Z in
                if (224 <=? code a)%Z && (code a <=? 239)%Z then
                  if (2048 <=? three)%Z && negb ((55296 <=? three)%Z && (three <=? 57343)%Z) then Some (three, s) else None
                else match s with
                | String d s =>
                    if negb (continuation d) then None
                    else
                      let four := ((code a - 240) * 262144 + (code b - 128) * 4096 + (code c - 128) * 64 + (code d - 128))%Z in
                      if (240 <=? code a)%Z && (code a <=? 244)%Z && (65536 <=? four)%Z && (four <=? 1114111)%Z
                      then Some (four, s) else None
                | EmptyString => None
                end
          | EmptyString => None
          end
      | EmptyString => None
      end
  | EmptyString => None
  end.

Fixpoint decode_runes (fuel : nat) (s : string) : option (list Z) :=
  match s, fuel with
  | EmptyString, _ => Some []
  | _, O => None
  | _, S fuel =>
      match decode_rune s with
      | Some (r, s) => match decode_runes fuel s with Some l => Some (r :: l) | None => None end
      | None => None
      end
  end.
(** A code point takes at least one byte. *)
Definition runes (s : string) : option (list Z) := decode_runes (String.length s) s.
Definition utf8_ValidString (s : string) : bool := match runes s with Some _ => true | None => false end.

(** [unicode.IsControl] *)
Definition IsControl (r : Z) : bool := ((r <=? 31) || (127 <=? r) && (r <=? 159))%Z.


(** [unicode.IsSpace] *)
Definition IsSpace (r : Z) : bool :=
  ((9 <=? r) && (r <=? 13) || (r =? 32) || (r =? 133) || (r =? 160) || (r =? 5760) || (8192 <=? r) && (r <=? 8202) ||
   (r =? 8232) || (r =? 8233) || (r =? 8239) || (r =? 8287) || (r =? 12288))%Z.

(** [strings.TrimSpace(s) == ""] *)
Definition blank (s : string) : bool :=
  match runes s with Some l => forallb IsSpace l | None => false end.

(** A byte below 128 of a valid string is one of its code points. *)
Lemma decode_rune_ascii s r t : decode_rune s = Some (r, t) -> forall c,
  c ∈ String.list_ascii_of_string s -> (code c <= 127)%Z -> code c = r \/ c ∈ String.list_ascii_of_string t.
Proof.
  assert (Hc : forall c, continuation c = true -> (128 <= code c)%Z).
  { intros c H. unfold continuation in H. bool_to_prop. done. }
  destruct s as [|a s]; simpl; [done|].
  destruct (code a <=? 127)%Z eqn:Ea.
  { intros [= <- <-] c [->|Hin]%elem_of_cons; auto. }
  apply Z.leb_gt in Ea. intros H c Hin Hle.
  apply elem_of_cons in Hin as [->|Hin]; [lia|]. right.
  repeat (break_match_in H; try done); simplify_eq; bool_to_prop; simpl in Hin;
    repeat (apply elem_of_cons in Hin as [->|Hin]; [exfalso|]);
    repeat match goal with H : continuation _ = true |- _ => apply Hc in H end; done || lia.
Qed.

Lemma decode_runes_ascii fuel s l : decode_runes fuel s = Some l -> forall c,
  c ∈ String.list_ascii_of_string s -> (code c <= 127)%Z -> code c ∈ l.
Proof.
  revert s l. induction fuel as [|fuel IH]; intros s l H c Hin Hle.
  - destruct s; [|done]. by apply elem_of_nil in Hin.
  - destruct s as [|a s]; [by apply elem_of_nil in Hin|]. cbn [decode_runes] in H.
    destruct (decode_rune (String a s)) as [[r t]|] eqn:E; [|done].
    destruct (decode_runes fuel t) as [l'|] eqn:E'; [|done]. injection H as <-.
    destruct (decode_rune_ascii _ _ _ E c Hin Hle) as [->|Ht]; [apply list_elem_of_here|].
    apply list_elem_of_further. by eapply IH.
Qed.
