(* ===== verification/Prog.v ===== *)
(** * Effectful code

    A function of the source that talks to the Kubernetes API server is a
    tree of calls: each node is one request, and the continuation receives
    whatever the server answers.  The server itself is never defined.  A
    theorem about such a function either quantifies over every possible answer
    ([sat]) or over every handler that answers the requests ([run]). *)

From S2P Require Import Prelude.

(** ** Results and errors *)

(** The codes of [google.golang.org/grpc/codes] the source uses. *)
Inductive Code :=
  InvalidArgument | NotFound | PermissionDenied | ResourceExhausted | FailedPrecondition | Internal | Unauthenticated.
#[global] Instance Code_eq_dec : EqDecision Code.
Proof. solve_decision. Defined.

(** The reasons the code distinguishes with [apierrors.IsNotFound] and its
    like, [io.EOF], [context.Canceled] and gRPC statuses; [ErrInternal] is any
    other error. *)
Inductive ErrReason :=
  ErrNotFound | ErrConflict | ErrAlreadyExists | ErrInvalid | ErrInternal
| ErrNotRegistered | ErrNoMatch | ErrNotExist | ErrEOF | ErrCanceled | ErrStatus (code : Code).
#[global] Instance ErrReason_eq_dec : EqDecision ErrReason.
Proof. solve_decision. Defined.

Record Error := mkError { err_reason : ErrReason; err_text : string }.
#[global] Instance Error_eq_dec : EqDecision Error.
Proof. solve_decision. Defined.

Inductive result (A : Type) := Ok (a : A) | Err (e : Error).
Arguments Ok {A} a.
Arguments Err {A} e.

(** [errors.New] and [fmt.Errorf] without [%w]. *)
Definition errors_New (msg : string) : Error := mkError ErrInternal msg.
(** [fmt.Errorf("prefix: %w", err)] keeps the reason of the wrapped error. *)
Definition wrap_error (prefix : string) (e : Error) : Error :=
  mkError (err_reason e) (prefix +:+ ": " +:+ err_text e).

Definition IsNotFound (e : Error) : bool := err_reason e == ErrNotFound.
Definition IsConflict (e : Error) : bool := err_reason e == ErrConflict.
Definition IsNotRegisteredError (e : Error) : bool := err_reason e == ErrNotRegistered.
(** [meta.IsNoMatchError]: the cluster does not serve the kind. *)
Definition IsNoMatchError (e : Error) : bool := err_reason e == ErrNoMatch.
(** [os.IsNotExist] *)
Definition os_IsNotExist (e : Error) : bool := err_reason e == ErrNotExist.
(** [status.Error] *)
Definition status_Error (code : Code) (msg : string) : Error := mkError (ErrStatus code) msg.
(** [status.Code(err) != codes.Unknown] *)
Definition has_status (e : Error) : bool := match err_reason e with ErrStatus _ => true | _ => false end.
Definition IsAlreadyExists (e : Error) : bool := err_reason e == ErrAlreadyExists.

(** [client.IgnoreNotFound] *)
Definition IgnoreNotFound (e : Error) : option Error := if IsNotFound e then None else Some e.

Definition result_bind {A B} (x : result A) (f : A -> result B) : result B :=
  match x with Ok a => f a | Err e => Err e end.

Declare Scope result_scope.
Delimit Scope result_scope with result.
Notation "'let?' x := m 'in' k" := (result_bind m (fun x => k))
  (at level 10, x pattern, k at level 200) : result_scope.

Lemma result_bind_Ok {A B} (m : result A) (f : A -> result B) b :
  result_bind m f = Ok b -> exists a, m = Ok a /\ f a = Ok b.
Proof. destruct m as [a|e]; simpl; [eauto|done]. Qed.

(** ** Programs *)
Section prog.
Context {Req : Type} {Resp : Req -> Type}.

Inductive prog (A : Type) : Type :=
| Ret (a : A)
| Call (r : Req) (k : Resp r -> prog A).

Arguments Ret {A} a.
Arguments Call {A} r k.

Fixpoint bind {A B} (p : prog A) (f : A -> prog B) : prog B :=
  match p with
  | Ret a => f a
  | Call r k => Call r (fun x => bind (k x) f)
  end.

Definition call (r : Req) : prog (Resp r) := Call r Ret.

(** One exchange with the server, and the exchanges so far, latest first. *)
Definition Event := {r : Req & Resp r}.
Definition history := list Event.

(** [sat P Q h p]: after the exchanges [h], whatever the server answers, every
    request [r] the program issues satisfies [P] of the exchanges before it,
    and the program returns with a value satisfying [Q]. *)
Fixpoint sat (P : history -> Req -> Prop) {A} (Q : history -> A -> Prop)
  (h : history) (p : prog A) : Prop :=
  match p with
  | Ret a => Q h a
  | Call r k => P h r /\ forall x, sat P Q (existT r x :: h) (k x)
  end.

Lemma sat_bind P {A B} (Q : history -> B -> Prop) h (p : prog A) (f : A -> prog B) :
  sat P Q h (bind p f) <-> sat P (fun h' a => sat P Q h' (f a)) h p.
Proof.
  revert h. induction p as [a|r k IH]; intros h; [done|].
  simpl. split; intros [HP Hk]; split; try done; intros x; by apply IH.
Qed.

Lemma sat_mono (P P' : history -> Req -> Prop) {A} (Q Q' : history -> A -> Prop) h p :
  (forall h r, P h r -> P' h r) -> (forall h a, Q h a -> Q' h a) ->
  sat P Q h p -> sat P' Q' h p.
Proof.
  intros HP HQ. revert h. induction p as [a|r k IH]; intros h; simpl; [auto|].
  intros [H1 H2]. auto.
Qed.

(** The history only grows. *)
Lemma sat_extends P {A} (Q : history -> A -> Prop) h p :
  sat P Q h p -> sat P (fun h' a => Q h' a /\ forall e, e ∈ h -> e ∈ h') h p.
Proof.
  revert h. induction p as [a|r k IH]; intros h; simpl; [done|].
  intros [HP Hk]. split; [done|]. intros x. eapply sat_mono; [| |apply IH, Hk]; [done|].
  intros h' a [HQ Hin]. split; [done|]. intros e He. apply Hin, elem_of_cons. by right.
Qed.

(** What is known of the requests and of the result may use that the history is
    a later one. *)
Lemma sat_mono_later (P P' : history -> Req -> Prop) {A} (Q Q' : history -> A -> Prop) h p :
  (forall h' r, (forall e, e ∈ h -> e ∈ h') -> P h' r -> P' h' r) ->
  (forall h' a, (forall e, e ∈ h -> e ∈ h') -> Q h' a -> Q' h' a) ->
  sat P Q h p -> sat P' Q' h p.
Proof.
  revert h. induction p as [a|r k IH]; intros h HP HQ; simpl; [by apply HQ|].
  intros [H1 H2]. split; [by apply HP|]. intros x. apply IH; [| |done]; intros h' y Hin.
  - apply HP. intros e He. apply Hin, elem_of_cons. by right.
  - apply HQ. intros e He. apply Hin, elem_of_cons. by right.
Qed.

(** What a program adds to the history are exchanges of its own requests. *)
Lemma sat_new (P : Req -> Prop) {A} (Q : history -> A -> Prop) h p :
  sat (fun _ => P) Q h p -> sat (fun _ => P) (fun h' a => Q h' a /\ forall e, e ∈ h' -> e ∈ h \/ P (projT1 e)) h p.
Proof.
  revert h. induction p as [a|r k IH]; intros h; simpl; [by auto|]. intros [HP Hk]. split; [done|]. intros x.
  eapply sat_mono; [| |apply IH, Hk]; [done|]. intros h' a [HQ Hnew]. split; [done|].
  intros e [He|?]%Hnew; [|by right]. apply elem_of_cons in He as [->|He]; [by right|by left].
Qed.

Lemma sat_all (P : history -> Req -> Prop) {A} (Q : history -> A -> Prop) h p :
  (forall h' r, (forall e, e ∈ h -> e ∈ h') -> P h' r) -> (forall h' a, (forall e, e ∈ h -> e ∈ h') -> Q h' a) -> sat P Q h p.
Proof.
  revert h. induction p as [a|r k IH]; intros h HP HQ; simpl; [by apply HQ|]. split; [by apply HP|]. intros x.
  apply IH; intros h' y Hin; [apply HP|apply HQ]; intros e He; apply Hin, elem_of_cons; by right.
Qed.

Lemma sat_call (P : history -> Req -> Prop) (r : Req) (Q : history -> Resp r -> Prop) h :
  P h r -> (forall x, Q (existT r x :: h) x) -> sat P Q h (call r).
Proof. by split. Qed.

(** A postcondition on its own: no constraint on the requests. *)
Definition post {A} (Q : A -> Prop) (p : prog A) : Prop :=
  forall h, sat (fun _ _ => True) (fun _ a => Q a) h p.

(** A property of all requests, whatever the history and the result. *)
Definition requests {A} (P : Req -> Prop) (p : prog A) : Prop :=
  forall h, sat (fun _ r => P r) (fun _ _ => True) h p.

Lemma sat_and P P' {A} (Q Q' : history -> A -> Prop) h p :
  sat P Q h p -> sat P' Q' h p ->
  sat (fun h r => P h r /\ P' h r) (fun h a => Q h a /\ Q' h a) h p.
Proof.
  revert h. induction p as [a|r k IH]; intros h; simpl; [auto|].
  intros [H1 H2] [H3 H4]. auto.
Qed.

Lemma requests_bind {A B} P (p : prog A) (f : A -> prog B) :
  requests P p -> (forall a, requests P (f a)) -> requests P (bind p f).
Proof.
  intros Hp Hf h. apply sat_bind. eapply sat_mono; [| |apply Hp]; [done|].
  intros h' a _. apply Hf.
Qed.

(** ** Execution against a handler *)
Section run.
Context {S : Type} (handle : forall r : Req, S -> Resp r * S).

(** The result, the final server state and the exchanges, latest first. *)
Fixpoint run {A} (p : prog A) (s : S) (h : history) : A * S * history :=
  match p with
  | Ret a => (a, s, h)
  | Call r k => let '(x, s') := handle r s in run (k x) s' (existT r x :: h)
  end.

(** Every handler's runs satisfy what [sat] states of all answers. *)
Lemma sat_run P {A} (Q : history -> A -> Prop) p s h a s' h' :
  sat P Q h p -> run p s h = (a, s', h') -> Q h' a.
Proof.
  revert s h. induction p as [b|r k IH]; intros s h; simpl.
  - by intros HQ [= -> -> ->].
  - intros [_ Hk]. destruct (handle r s) as [x s1]. intros Hr. eapply IH; eauto.
Qed.

(** And every exchange of the run had its precondition. *)
Lemma sat_run_requests P {A} (Q : history -> A -> Prop) p s h a s' h' :
  sat P Q h p -> run p s h = (a, s', h') ->
  exists new, h' = new ++ h /\
    forall e pre suf, new = suf ++ e :: pre -> P (pre ++ h) (projT1 e).
Proof.
  revert s h. induction p as [b|r k IH]; intros s h; simpl.
  - intros _ [= -> -> ->]. exists []. split; [done|]. by intros e pre [|].
  - intros [HP Hk]. destruct (handle r s) as [x s1]. intros Hr.
    destruct (IH x s1 _ (Hk x) Hr) as (new & -> & Hnew).
    exists (new ++ [existT r x]). split; [by rewrite <- app_assoc|].
    intros e pre suf Heq.
    destruct pre as [|e' pre _] using rev_ind.
    + apply app_inj_tail in Heq as [_ <-]. exact HP.
    + rewrite app_comm_cons, app_assoc in Heq. apply app_inj_tail in Heq as [-> <-].
      rewrite <- app_assoc. by eapply Hnew.
Qed.

Lemma sat_run_lookup P {A} (Q : history -> A -> Prop) p s n e :
  sat P Q [] p -> (run p s []).2 !! n = Some e -> P (drop (1 + n) (run p s []).2) (projT1 e).
Proof.
  destruct (run p s []) as [[a s'] h] eqn:Hr. intros Hp Hn.
  destruct (sat_run_requests P Q p s [] a s' h Hp Hr) as (new & -> & Hnew).
  rewrite app_nil_r in *. cbn [snd] in *. rewrite <- (app_nil_r (drop _ _)).
  eapply (Hnew _ _ (take n new)). by rewrite take_drop_middle.
Qed.

(** The exchanges with the server state each of them met, in order. *)
Fixpoint log {A} (p : prog A) (s : S) : list (S * Event) :=
  match p with
  | Ret _ => []
  | Call r k => let '(x, s') := handle r s in (s, existT r x) :: log (k x) s'
  end.

(** What [sat] states of a request, at the state the request meets: any
    relation [J] between the server state and the history that every exchange
    preserves holds there too. *)
Lemma sat_log P {A} (Q : history -> A -> Prop) (J : S -> history -> Prop) p s h :
  (forall r s h, J s h -> let '(x, s') := handle r s in J s' (existT r x :: h)) ->
  sat P Q h p -> J s h ->
  Forall (fun e => exists h', J e.1 h' /\ P h' (projT1 e.2)) (log p s).
Proof.
  intros HJ. revert s h. induction p as [b|r k IH]; intros s h; simpl; [constructor|].
  intros [HP Hk] Hs. specialize (HJ r s h Hs). destruct (handle r s) as [x s1].
  constructor; [by exists h|]. eapply IH; eauto.
Qed.

Lemma log_answer {A} (p : prog A) s0 s e :
  (s, e) ∈ log p s0 -> projT2 e = (handle (projT1 e) s).1.
Proof.
  revert s0. induction p as [a|r k IH]; intros s0; simpl; [by rewrite elem_of_nil|].
  destruct (handle r s0) as [x s1] eqn:E. rewrite elem_of_cons. intros [[= -> ->]|H]; [|eauto].
  cbn. by rewrite E.
Qed.
End run.
End prog.

Arguments prog {Req} Resp A.
Arguments Ret {Req Resp A} a.
Arguments Call {Req Resp A} r k.

Declare Scope prog_scope.
Delimit Scope prog_scope with prog.
Notation "'let*' x := p 'in' k" := (bind p (fun x => k))
  (at level 10, x pattern, k at level 200) : prog_scope.
(** Continue on success; on an error return what the error handler gives. *)
Notation "'let!' x := p 'onerr' e => f 'in' k" :=
  (bind p (fun y => match y with Ok x => k | Err e => f end))
  (at level 10, x pattern, e name, k at level 200) : prog_scope.
#[global] Open Scope prog_scope.

(** One step of a proof by [sat]: into a sequence, over a call, or over the
    cases of a branch. *)
Ltac sat_step :=
  lazymatch goal with
  | |- sat _ _ _ (bind _ _) => apply sat_bind
  | |- sat _ _ _ (call _) => apply sat_call; [|intros ?]
  | |- sat _ _ _ (Ret _) => cbn [sat]
  | |- sat _ _ _ (match ?x with _ => _ end) => destruct x eqn:?
  end.
