(* ===== verification/Api.v ===== *)
(** * API types

    The custom resources of [src/api/v1alpha1] and the parts of the Kubernetes
    core types the controllers use.  Every struct is a record with the struct's
    fields in the struct's order; a field [F] of a type with prefix [p] is the
    projection [p_F].  A pointer to a struct or to a time is an [option], a
    [map[string]string] is a [gmap string string] (an absent key reads as the
    empty string, written [m !!! k]), string enumerations are strings with the
    named constants of the source, [int32] and [int64] fields are integers, and
    a [resource.Quantity] is its value in billionths, its smallest unit.  [zero_T] is the zero
    value of the struct [T]. *)

From S2P Require Import Prelude.

Definition Quantity := Z.
(** [resource.NewQuantity] of a whole number, and [Quantity.Value], which rounds up. *)
Definition NewQuantity (value : Z) : Quantity := (value * 1000000000)%Z.
Definition quantity_Value (q : Quantity) : Z := (- ((- q) `div` 1000000000))%Z.

(** Named string constants of [common_types.go] and of [metav1]. *)
Definition DeletionPolicyRetain : string := "Retain".
Definition DeletionPolicyDelete : string := "Delete".
Definition SiteRoleData : string := "Data".
Definition SiteRoleWitness : string := "Witness".
Definition ConditionTrue : string := "True".
Definition ConditionFalse : string := "False".
Definition ConditionUnknown : string := "Unknown".

Record IssuerReference := mkIssuerReference {
  ir_Name : string;
  ir_Kind : string;
  ir_Group : string
}.
#[global] Instance IssuerReference_eq_dec : EqDecision IssuerReference.
Proof. solve_decision. Defined.
Definition zero_IssuerReference : IssuerReference := mkIssuerReference "" "" "".
#[global] Instance eta_IssuerReference : Settable IssuerReference := fun r =>
  mkIssuerReference (ir_Name r) (ir_Kind r) (ir_Group r).

Record StorageClassPolicy := mkStorageClassPolicy {
  scp_Etcd : list string;
  scp_Postgres : list string;
  scp_RestoreWorkspace : list string
}.
#[global] Instance StorageClassPolicy_eq_dec : EqDecision StorageClassPolicy.
Proof. solve_decision. Defined.
Definition zero_StorageClassPolicy : StorageClassPolicy := mkStorageClassPolicy [] [] [].

Record IssuerPolicy := mkIssuerPolicy {
  ip_Etcd : list IssuerReference;
  ip_Postgres : list IssuerReference;
  ip_Pgpool : list IssuerReference;
  ip_Backup : list IssuerReference
}.
#[global] Instance IssuerPolicy_eq_dec : EqDecision IssuerPolicy.
Proof. solve_decision. Defined.
Definition zero_IssuerPolicy : IssuerPolicy := mkIssuerPolicy [] [] [] [].

Record StorageClassInventory := mkStorageClassInventory {
  sci_Name : string;
  sci_Provisioner : string;
  sci_ReclaimPolicy : string;
  sci_VolumeBindingMode : string;
  sci_AllowVolumeExpansion : bool;
  sci_AllowedTopologies : list string;
  sci_AccessModes : list string
}.
#[global] Instance StorageClassInventory_eq_dec : EqDecision StorageClassInventory.
Proof. solve_decision. Defined.
Definition zero_StorageClassInventory : StorageClassInventory := mkStorageClassInventory "" "" "" "" false [] [].

Record VolumeSnapshotClassInventory := mkVolumeSnapshotClassInventory {
  vsci_Name : string;
  vsci_Driver : string;
  vsci_DeletionPolicy : string
}.
#[global] Instance VolumeSnapshotClassInventory_eq_dec : EqDecision VolumeSnapshotClassInventory.
Proof. solve_decision. Defined.
Definition zero_VolumeSnapshotClassInventory : VolumeSnapshotClassInventory := mkVolumeSnapshotClassInventory "" "" "".

Record StorageRollbackPolicy := mkStorageRollbackPolicy {
  srp_StorageClassName : string;
  srp_Strategy : string;
  srp_VolumeSnapshotClassName : string
}.
#[global] Instance StorageRollbackPolicy_eq_dec : EqDecision StorageRollbackPolicy.
Proof. solve_decision. Defined.
Definition zero_StorageRollbackPolicy : StorageRollbackPolicy := mkStorageRollbackPolicy "" "" "".

Record SiteComponents := mkSiteComponents {
  sc_EtcdReplicas : Z;
  sc_PostgresReplicas : Z;
  sc_PgpoolReplicas : Z
}.
#[global] Instance SiteComponents_eq_dec : EqDecision SiteComponents.
Proof. solve_decision. Defined.
Definition zero_SiteComponents : SiteComponents := mkSiteComponents 0%Z 0%Z 0%Z.
#[global] Instance eta_SiteComponents : Settable SiteComponents := fun r =>
  mkSiteComponents (sc_EtcdReplicas r) (sc_PostgresReplicas r) (sc_PgpoolReplicas r).

Record StorageRequest := mkStorageRequest {
  sr_StorageClassName : string;
  sr_Size : Quantity
}.
#[global] Instance StorageRequest_eq_dec : EqDecision StorageRequest.
Proof. solve_decision. Defined.
Definition zero_StorageRequest : StorageRequest := mkStorageRequest "" 0%Z.

Record SiteStorage := mkSiteStorage {
  ss_Etcd : option StorageRequest;
  ss_Postgres : option StorageRequest;
  ss_RestoreWorkspace : option StorageRequest
}.
#[global] Instance SiteStorage_eq_dec : EqDecision SiteStorage.
Proof. solve_decision. Defined.
Definition zero_SiteStorage : SiteStorage := mkSiteStorage None None None.

Record LoadBalancerSpec := mkLoadBalancerSpec {
  lb_AddressPool : string;
  lb_PeerSourceAddresses : list string
}.
#[global] Instance LoadBalancerSpec_eq_dec : EqDecision LoadBalancerSpec.
Proof. solve_decision. Defined.
Definition zero_LoadBalancerSpec : LoadBalancerSpec := mkLoadBalancerSpec "" [].

Record SecretKeyReference := mkSecretKeyReference {
  skr_Name : string;
  skr_Key : string
}.
#[global] Instance SecretKeyReference_eq_dec : EqDecision SecretKeyReference.
Proof. solve_decision. Defined.
Definition zero_SecretKeyReference : SecretKeyReference := mkSecretKeyReference "" "".

Record VaultAuthSpec := mkVaultAuthSpec {
  va_Address : string;
  va_AuthMount : string;
  va_AuthRole : string;
  va_CABundleSecretRef : option SecretKeyReference
}.
#[global] Instance VaultAuthSpec_eq_dec : EqDecision VaultAuthSpec.
Proof. solve_decision. Defined.
Definition zero_VaultAuthSpec : VaultAuthSpec := mkVaultAuthSpec "" "" "" None.

Record SiteCertificateSpec := mkSiteCertificateSpec {
  crt_EtcdIssuerRef : IssuerReference;
  crt_EtcdPeerIssuerRef : IssuerReference;
  crt_EtcdClientIssuerRef : IssuerReference;
  crt_PostgresIssuerRef : IssuerReference;
  crt_PgpoolIssuerRef : IssuerReference;
  crt_BackupIssuerRef : IssuerReference
}.
#[global] Instance SiteCertificateSpec_eq_dec : EqDecision SiteCertificateSpec.
Proof. solve_decision. Defined.
Definition zero_SiteCertificateSpec : SiteCertificateSpec := mkSiteCertificateSpec zero_IssuerReference zero_IssuerReference zero_IssuerReference zero_IssuerReference zero_IssuerReference zero_IssuerReference.
#[global] Instance eta_SiteCertificateSpec : Settable SiteCertificateSpec := fun r =>
  mkSiteCertificateSpec (crt_EtcdIssuerRef r) (crt_EtcdPeerIssuerRef r) (crt_EtcdClientIssuerRef r) (crt_PostgresIssuerRef r) (crt_PgpoolIssuerRef r) (crt_BackupIssuerRef r).

Record PostgresSiteSpec := mkPostgresSiteSpec {
  site_Name : string;
  site_SiteRegistrationRef : string;
  site_Namespace : string;
  site_Role : string;
  site_PrimaryPreference : Z;
  site_Components : SiteComponents;
  site_Storage : SiteStorage;
  site_LoadBalancer : option LoadBalancerSpec;
  site_VaultAuth : option VaultAuthSpec;
  site_Certificates : SiteCertificateSpec
}.
#[global] Instance PostgresSiteSpec_eq_dec : EqDecision PostgresSiteSpec.
Proof. solve_decision. Defined.
Definition zero_PostgresSiteSpec : PostgresSiteSpec := mkPostgresSiteSpec "" "" "" "" 0%Z zero_SiteComponents zero_SiteStorage None None zero_SiteCertificateSpec.
#[global] Instance eta_PostgresSiteSpec : Settable PostgresSiteSpec := fun r =>
  mkPostgresSiteSpec (site_Name r) (site_SiteRegistrationRef r) (site_Namespace r) (site_Role r) (site_PrimaryPreference r) (site_Components r) (site_Storage r) (site_LoadBalancer r) (site_VaultAuth r) (site_Certificates r).

Record TDEVaultSpec := mkTDEVaultSpec {
  tv_KVMount : string;
  tv_KeyPath : string;
  tv_ProviderName : string;
  tv_PrincipalKeyName : string
}.
#[global] Instance TDEVaultSpec_eq_dec : EqDecision TDEVaultSpec.
Proof. solve_decision. Defined.
Definition zero_TDEVaultSpec : TDEVaultSpec := mkTDEVaultSpec "" "" "" "".

Record TDESpec := mkTDESpec {
  tde_Enabled : bool;
  tde_Vault : option TDEVaultSpec
}.
#[global] Instance TDESpec_eq_dec : EqDecision TDESpec.
Proof. solve_decision. Defined.
Definition zero_TDESpec : TDESpec := mkTDESpec false None.

Record VaultSecretReference := mkVaultSecretReference {
  vs_Mount : string;
  vs_Path : string;
  vs_Key : string
}.
#[global] Instance VaultSecretReference_eq_dec : EqDecision VaultSecretReference.
Proof. solve_decision. Defined.
Definition zero_VaultSecretReference : VaultSecretReference := mkVaultSecretReference "" "" "".

Record InstanceCredentialsSpec := mkInstanceCredentialsSpec {
  ics_PostgresVaultRef : VaultSecretReference;
  ics_PgpoolVaultRef : VaultSecretReference
}.
#[global] Instance InstanceCredentialsSpec_eq_dec : EqDecision InstanceCredentialsSpec.
Proof. solve_decision. Defined.
Definition zero_InstanceCredentialsSpec : InstanceCredentialsSpec := mkInstanceCredentialsSpec zero_VaultSecretReference zero_VaultSecretReference.

Record BackupRepositorySpec := mkBackupRepositorySpec {
  br_Type : string;
  br_Bucket : string;
  br_Prefix : string;
  br_Endpoint : string;
  br_Region : string;
  br_URIStyle : string;
  br_CABundleSecretRef : option SecretKeyReference;
  br_CredentialVaultRef : VaultSecretReference
}.
#[global] Instance BackupRepositorySpec_eq_dec : EqDecision BackupRepositorySpec.
Proof. solve_decision. Defined.
Definition zero_BackupRepositorySpec : BackupRepositorySpec := mkBackupRepositorySpec "" "" "" "" "" "" None zero_VaultSecretReference.
#[global] Instance eta_BackupRepositorySpec : Settable BackupRepositorySpec := fun r =>
  mkBackupRepositorySpec (br_Type r) (br_Bucket r) (br_Prefix r) (br_Endpoint r) (br_Region r) (br_URIStyle r) (br_CABundleSecretRef r) (br_CredentialVaultRef r).

Record BackupSchedules := mkBackupSchedules {
  bsch_Full : string;
  bsch_Differential : string;
  bsch_Incremental : string;
  bsch_Timezone : string
}.
#[global] Instance BackupSchedules_eq_dec : EqDecision BackupSchedules.
Proof. solve_decision. Defined.
Definition zero_BackupSchedules : BackupSchedules := mkBackupSchedules "" "" "" "".

Record BackupRetention := mkBackupRetention {
  bret_Duration : Duration;
  bret_WALDuration : Duration
}.
#[global] Instance BackupRetention_eq_dec : EqDecision BackupRetention.
Proof. solve_decision. Defined.
Definition zero_BackupRetention : BackupRetention := mkBackupRetention 0%Z 0%Z.
#[global] Instance eta_BackupRetention : Settable BackupRetention := fun r =>
  mkBackupRetention (bret_Duration r) (bret_WALDuration r).

Record BackupSpec := mkBackupSpec {
  bk_Repository : BackupRepositorySpec;
  bk_Schedules : BackupSchedules;
  bk_Retention : BackupRetention
}.
#[global] Instance BackupSpec_eq_dec : EqDecision BackupSpec.
Proof. solve_decision. Defined.
Definition zero_BackupSpec : BackupSpec := mkBackupSpec zero_BackupRepositorySpec zero_BackupSchedules zero_BackupRetention.
#[global] Instance eta_BackupSpec : Settable BackupSpec := fun r =>
  mkBackupSpec (bk_Repository r) (bk_Schedules r) (bk_Retention r).

Record OperationProgressStatus := mkOperationProgressStatus {
  op_OperationUID : string;
  op_Phase : string;
  op_Attempt : Z;
  op_Worker : string;
  op_Site : string;
  op_NextRetryAt : option Time;
  op_DeadlineAt : option Time;
  op_LastErrorReason : string;
  op_LastErrorMessage : string;
  op_Terminal : bool;
  op_ManualInterventionRequired : bool
}.
#[global] Instance OperationProgressStatus_eq_dec : EqDecision OperationProgressStatus.
Proof. solve_decision. Defined.
Definition zero_OperationProgressStatus : OperationProgressStatus := mkOperationProgressStatus "" "" 0%Z "" "" None None "" "" false false.
#[global] Instance eta_OperationProgressStatus : Settable OperationProgressStatus := fun r =>
  mkOperationProgressStatus (op_OperationUID r) (op_Phase r) (op_Attempt r) (op_Worker r) (op_Site r) (op_NextRetryAt r) (op_DeadlineAt r) (op_LastErrorReason r) (op_LastErrorMessage r) (op_Terminal r) (op_ManualInterventionRequired r).

(** [metav1.Condition], without its [LastTransitionTime], which no code of the repository reads. *)
Record Condition := mkCondition {
  cond_Type : string;
  cond_Status : string;
  cond_ObservedGeneration : Z;
  cond_Reason : string;
  cond_Message : string
}.
#[global] Instance Condition_eq_dec : EqDecision Condition.
Proof. solve_decision. Defined.
Definition zero_Condition : Condition := mkCondition "" "" 0%Z "" "".

Record SiteRevisionStatus := mkSiteRevisionStatus {
  srs_Name : string;
  srs_SiteRegistrationRef : string;
  srs_DesiredRevision : Z;
  srs_AcknowledgedRevision : Z;
  srs_AppliedRevision : Z;
  srs_Phase : string;
  srs_Addresses : gmap string string;
  srs_Primary : string;
  srs_SynchronousStandbys : list string;
  srs_TopologyObservedAt : option Time;
  srs_LastHeartbeatTime : option Time;
  srs_Conditions : list Condition
}.
#[global] Instance SiteRevisionStatus_eq_dec : EqDecision SiteRevisionStatus.
Proof. solve_decision. Defined.
Definition zero_SiteRevisionStatus : SiteRevisionStatus := mkSiteRevisionStatus "" "" 0%Z 0%Z 0%Z "" ∅ "" [] None None [].
#[global] Instance eta_SiteRevisionStatus : Settable SiteRevisionStatus := fun r =>
  mkSiteRevisionStatus (srs_Name r) (srs_SiteRegistrationRef r) (srs_DesiredRevision r) (srs_AcknowledgedRevision r) (srs_AppliedRevision r) (srs_Phase r) (srs_Addresses r) (srs_Primary r) (srs_SynchronousStandbys r) (srs_TopologyObservedAt r) (srs_LastHeartbeatTime r) (srs_Conditions r).

Record PostgresSpec := mkPostgresSpec {
  pg_MajorVersion : Z;
  pg_Image : string;
  pg_SynchronousStandbyCount : Z;
  pg_Parameters : gmap string string
}.
#[global] Instance PostgresSpec_eq_dec : EqDecision PostgresSpec.
Proof. solve_decision. Defined.
Definition zero_PostgresSpec : PostgresSpec := mkPostgresSpec 0%Z "" 0%Z ∅.
#[global] Instance eta_PostgresSpec : Settable PostgresSpec := fun r =>
  mkPostgresSpec (pg_MajorVersion r) (pg_Image r) (pg_SynchronousStandbyCount r) (pg_Parameters r).

Record MultiSitePostgresSpec := mkMultiSitePostgresSpec {
  spec_DeletionPolicy : string;
  spec_Postgres : PostgresSpec;
  spec_Sites : list PostgresSiteSpec;
  spec_TDE : TDESpec;
  spec_Backup : option BackupSpec;
  spec_Credentials : InstanceCredentialsSpec
}.
#[global] Instance MultiSitePostgresSpec_eq_dec : EqDecision MultiSitePostgresSpec.
Proof. solve_decision. Defined.
Definition zero_MultiSitePostgresSpec : MultiSitePostgresSpec := mkMultiSitePostgresSpec "" zero_PostgresSpec [] zero_TDESpec None zero_InstanceCredentialsSpec.
#[global] Instance eta_MultiSitePostgresSpec : Settable MultiSitePostgresSpec := fun r =>
  mkMultiSitePostgresSpec (spec_DeletionPolicy r) (spec_Postgres r) (spec_Sites r) (spec_TDE r) (spec_Backup r) (spec_Credentials r).

Record BackupScheduleStatus := mkBackupScheduleStatus {
  bss_Type : string;
  bss_LastScheduledAt : option Time;
  bss_NextScheduledAt : option Time;
  bss_Operation : option OperationProgressStatus
}.
#[global] Instance BackupScheduleStatus_eq_dec : EqDecision BackupScheduleStatus.
Proof. solve_decision. Defined.
Definition zero_BackupScheduleStatus : BackupScheduleStatus := mkBackupScheduleStatus "" None None None.
#[global] Instance eta_BackupScheduleStatus : Settable BackupScheduleStatus := fun r =>
  mkBackupScheduleStatus (bss_Type r) (bss_LastScheduledAt r) (bss_NextScheduledAt r) (bss_Operation r).

Record MultiSitePostgresStatus := mkMultiSitePostgresStatus {
  st_ObservedGeneration : Z;
  st_ActiveRevision : Z;
  st_PlanFingerprint : string;
  st_Phase : string;
  st_Primary : string;
  st_SynchronousStandbys : list string;
  st_Sites : list SiteRevisionStatus;
  st_LastBackupTime : option Time;
  st_RecoveryWindowStart : option Time;
  st_RestoreDrillLastVerifiedAt : option Time;
  st_RestoreDrillBackupSet : string;
  st_Operation : option OperationProgressStatus;
  st_BackupSchedules : list BackupScheduleStatus;
  st_Conditions : list Condition
}.
#[global] Instance MultiSitePostgresStatus_eq_dec : EqDecision MultiSitePostgresStatus.
Proof. solve_decision. Defined.
Definition zero_MultiSitePostgresStatus : MultiSitePostgresStatus := mkMultiSitePostgresStatus 0%Z 0%Z "" "" "" [] [] None None None "" None [] [].
#[global] Instance eta_MultiSitePostgresStatus : Settable MultiSitePostgresStatus := fun r =>
  mkMultiSitePostgresStatus (st_ObservedGeneration r) (st_ActiveRevision r) (st_PlanFingerprint r) (st_Phase r) (st_Primary r) (st_SynchronousStandbys r) (st_Sites r) (st_LastBackupTime r) (st_RecoveryWindowStart r) (st_RestoreDrillLastVerifiedAt r) (st_RestoreDrillBackupSet r) (st_Operation r) (st_BackupSchedules r) (st_Conditions r).

(** The fields of [metav1.OwnerReference] the repository reads or writes. *)
Record OwnerReference := mkOwnerReference {
  or_APIVersion : string;
  or_Kind : string;
  or_Name : string;
  or_UID : string;
  or_Controller : option bool
}.
#[global] Instance OwnerReference_eq_dec : EqDecision OwnerReference.
Proof. solve_decision. Defined.
Definition zero_OwnerReference : OwnerReference := mkOwnerReference "" "" "" "" None.

(** The fields of [metav1.ObjectMeta] the repository reads or writes. *)
Record ObjectMeta := mkObjectMeta {
  meta_Name : string;
  meta_Namespace : string;
  meta_UID : string;
  meta_ResourceVersion : string;
  meta_Generation : Z;
  meta_CreationTimestamp : Time;
  meta_DeletionTimestamp : option Time;
  meta_Finalizers : list string;
  meta_Annotations : gmap string string;
  meta_Labels : gmap string string;
  meta_OwnerReferences : list OwnerReference
}.
#[global] Instance ObjectMeta_eq_dec : EqDecision ObjectMeta.
Proof. solve_decision. Defined.
Definition zero_ObjectMeta : ObjectMeta := mkObjectMeta "" "" "" "" 0%Z zero_time None [] ∅ ∅ [].
#[global] Instance eta_ObjectMeta : Settable ObjectMeta := fun r =>
  mkObjectMeta (meta_Name r) (meta_Namespace r) (meta_UID r) (meta_ResourceVersion r) (meta_Generation r) (meta_CreationTimestamp r) (meta_DeletionTimestamp r) (meta_Finalizers r) (meta_Annotations r) (meta_Labels r) (meta_OwnerReferences r).

Record MultiSitePostgres := mkMultiSitePostgres {
  msp_Meta : ObjectMeta;
  msp_Spec : MultiSitePostgresSpec;
  msp_Status : MultiSitePostgresStatus
}.
#[global] Instance MultiSitePostgres_eq_dec : EqDecision MultiSitePostgres.
Proof. solve_decision. Defined.
Definition zero_MultiSitePostgres : MultiSitePostgres := mkMultiSitePostgres zero_ObjectMeta zero_MultiSitePostgresSpec zero_MultiSitePostgresStatus.
#[global] Instance eta_MultiSitePostgres : Settable MultiSitePostgres := fun r =>
  mkMultiSitePostgres (msp_Meta r) (msp_Spec r) (msp_Status r).

Record MajorUpgradeBenchmark := mkMajorUpgradeBenchmark {
  bm_TestedAt : Time;
  bm_EstimatedWriteOutage : Duration;
  bm_UpgradeImage : string;
  bm_SourceMajorVersion : Z;
  bm_TargetMajorVersion : Z;
  bm_TDEEnabled : bool;
  bm_PostgresStorageClasses : list string;
  bm_Evidence : string
}.
#[global] Instance MajorUpgradeBenchmark_eq_dec : EqDecision MajorUpgradeBenchmark.
Proof. solve_decision. Defined.
Definition zero_MajorUpgradeBenchmark : MajorUpgradeBenchmark := mkMajorUpgradeBenchmark zero_time 0%Z "" 0%Z 0%Z false [] "".

Record PostgresUpgradeSpec := mkPostgresUpgradeSpec {
  us_InstanceRef : string;
  us_TargetImage : string;
  us_TargetMajorVersion : Z;
  us_UpgradeImage : string;
  us_ServiceRestorationTarget : Duration;
  us_RollbackRetention : Duration;
  us_Benchmark : option MajorUpgradeBenchmark
}.
#[global] Instance PostgresUpgradeSpec_eq_dec : EqDecision PostgresUpgradeSpec.
Proof. solve_decision. Defined.
Definition zero_PostgresUpgradeSpec : PostgresUpgradeSpec := mkPostgresUpgradeSpec "" "" 0%Z "" 0%Z 0%Z None.
#[global] Instance eta_PostgresUpgradeSpec : Settable PostgresUpgradeSpec := fun r =>
  mkPostgresUpgradeSpec (us_InstanceRef r) (us_TargetImage r) (us_TargetMajorVersion r) (us_UpgradeImage r) (us_ServiceRestorationTarget r) (us_RollbackRetention r) (us_Benchmark r).

Record PostgresUpgradeStatus := mkPostgresUpgradeStatus {
  ust_ObservedGeneration : Z;
  ust_Phase : string;
  ust_StartedAt : option Time;
  ust_PreflightBackupRequestedAt : option Time;
  ust_PostUpgradeBackupRequestedAt : option Time;
  ust_PostUpgradeBackupAttempt : Z;
  ust_WriteOutageStartedAt : option Time;
  ust_WriteServiceRestoredAt : option Time;
  ust_UpgradedMembers : list string;
  ust_Operation : option OperationProgressStatus;
  ust_Conditions : list Condition
}.
#[global] Instance PostgresUpgradeStatus_eq_dec : EqDecision PostgresUpgradeStatus.
Proof. solve_decision. Defined.
Definition zero_PostgresUpgradeStatus : PostgresUpgradeStatus := mkPostgresUpgradeStatus 0%Z "" None None None 0%Z None None [] None [].
#[global] Instance eta_PostgresUpgradeStatus : Settable PostgresUpgradeStatus := fun r =>
  mkPostgresUpgradeStatus (ust_ObservedGeneration r) (ust_Phase r) (ust_StartedAt r) (ust_PreflightBackupRequestedAt r) (ust_PostUpgradeBackupRequestedAt r) (ust_PostUpgradeBackupAttempt r) (ust_WriteOutageStartedAt r) (ust_WriteServiceRestoredAt r) (ust_UpgradedMembers r) (ust_Operation r) (ust_Conditions r).

Record PostgresUpgrade := mkPostgresUpgrade {
  upg_Meta : ObjectMeta;
  upg_Spec : PostgresUpgradeSpec;
  upg_Status : PostgresUpgradeStatus
}.
#[global] Instance PostgresUpgrade_eq_dec : EqDecision PostgresUpgrade.
Proof. solve_decision. Defined.
Definition zero_PostgresUpgrade : PostgresUpgrade := mkPostgresUpgrade zero_ObjectMeta zero_PostgresUpgradeSpec zero_PostgresUpgradeStatus.
#[global] Instance eta_PostgresUpgrade : Settable PostgresUpgrade := fun r =>
  mkPostgresUpgrade (upg_Meta r) (upg_Spec r) (upg_Status r).

Record PostgresRestoreSpec := mkPostgresRestoreSpec {
  rs_SourceInstanceRef : string;
  rs_TargetInstanceRef : string;
  rs_TargetTime : Time;
  rs_BackupSet : string;
  rs_RestoreTopology : list PostgresSiteSpec;
  rs_TargetBackup : option BackupSpec
}.
#[global] Instance PostgresRestoreSpec_eq_dec : EqDecision PostgresRestoreSpec.
Proof. solve_decision. Defined.
Definition zero_PostgresRestoreSpec : PostgresRestoreSpec := mkPostgresRestoreSpec "" "" zero_time "" [] None.

Record PostgresRestoreStatus := mkPostgresRestoreStatus {
  rst_ObservedGeneration : Z;
  rst_Phase : string;
  rst_SelectedBackupSet : string;
  rst_RecoveredTo : option Time;
  rst_Operation : option OperationProgressStatus;
  rst_Conditions : list Condition
}.
#[global] Instance PostgresRestoreStatus_eq_dec : EqDecision PostgresRestoreStatus.
Proof. solve_decision. Defined.
Definition zero_PostgresRestoreStatus : PostgresRestoreStatus := mkPostgresRestoreStatus 0%Z "" "" None None [].
#[global] Instance eta_PostgresRestoreStatus : Settable PostgresRestoreStatus := fun r =>
  mkPostgresRestoreStatus (rst_ObservedGeneration r) (rst_Phase r) (rst_SelectedBackupSet r) (rst_RecoveredTo r) (rst_Operation r) (rst_Conditions r).

Record PostgresRestore := mkPostgresRestore {
  res_Meta : ObjectMeta;
  res_Spec : PostgresRestoreSpec;
  res_Status : PostgresRestoreStatus
}.
#[global] Instance PostgresRestore_eq_dec : EqDecision PostgresRestore.
Proof. solve_decision. Defined.
Definition zero_PostgresRestore : PostgresRestore := mkPostgresRestore zero_ObjectMeta zero_PostgresRestoreSpec zero_PostgresRestoreStatus.
#[global] Instance eta_PostgresRestore : Settable PostgresRestore := fun r =>
  mkPostgresRestore (res_Meta r) (res_Spec r) (res_Status r).

Record RoleQuotas := mkRoleQuotas {
  rq_ConnectionLimit : option Z;
  rq_StatementTimeout : option Duration;
  rq_LockTimeout : option Duration;
  rq_IdleInTransactionSessionTimeout : option Duration;
  rq_TempFileLimit : option Quantity
}.
#[global] Instance RoleQuotas_eq_dec : EqDecision RoleQuotas.
Proof. solve_decision. Defined.
Definition zero_RoleQuotas : RoleQuotas := mkRoleQuotas None None None None None.

Record DatabaseQuotas := mkDatabaseQuotas {
  dq_RoleQuotas : RoleQuotas;
  dq_StorageAlertThreshold : option Quantity
}.
#[global] Instance DatabaseQuotas_eq_dec : EqDecision DatabaseQuotas.
Proof. solve_decision. Defined.
Definition zero_DatabaseQuotas : DatabaseQuotas := mkDatabaseQuotas zero_RoleQuotas None.

Record RoleMembership := mkRoleMembership {
  rm_DatabaseRef : string;
  rm_Role : string
}.
#[global] Instance RoleMembership_eq_dec : EqDecision RoleMembership.
Proof. solve_decision. Defined.
Definition zero_RoleMembership : RoleMembership := mkRoleMembership "" "".

Record PostgresUserSpec := mkPostgresUserSpec {
  usrs_InstanceRef : string;
  usrs_RoleName : string;
  usrs_DeletionPolicy : string;
  usrs_MemberOf : list RoleMembership;
  usrs_PasswordVaultRef : VaultSecretReference;
  usrs_Quotas : RoleQuotas
}.
#[global] Instance PostgresUserSpec_eq_dec : EqDecision PostgresUserSpec.
Proof. solve_decision. Defined.
Definition zero_PostgresUserSpec : PostgresUserSpec := mkPostgresUserSpec "" "" "" [] zero_VaultSecretReference zero_RoleQuotas.
#[global] Instance eta_PostgresUserSpec : Settable PostgresUserSpec := fun r =>
  mkPostgresUserSpec (usrs_InstanceRef r) (usrs_RoleName r) (usrs_DeletionPolicy r) (usrs_MemberOf r) (usrs_PasswordVaultRef r) (usrs_Quotas r).

Record PostgresUserStatus := mkPostgresUserStatus {
  usrst_ObservedGeneration : Z;
  usrst_Phase : string;
  usrst_CredentialVersion : Z;
  usrst_Operation : option OperationProgressStatus;
  usrst_Conditions : list Condition
}.
#[global] Instance PostgresUserStatus_eq_dec : EqDecision PostgresUserStatus.
Proof. solve_decision. Defined.
Definition zero_PostgresUserStatus : PostgresUserStatus := mkPostgresUserStatus 0%Z "" 0%Z None [].
#[global] Instance eta_PostgresUserStatus : Settable PostgresUserStatus := fun r =>
  mkPostgresUserStatus (usrst_ObservedGeneration r) (usrst_Phase r) (usrst_CredentialVersion r) (usrst_Operation r) (usrst_Conditions r).

Record PostgresUser := mkPostgresUser {
  usr_Meta : ObjectMeta;
  usr_Spec : PostgresUserSpec;
  usr_Status : PostgresUserStatus
}.
#[global] Instance PostgresUser_eq_dec : EqDecision PostgresUser.
Proof. solve_decision. Defined.
Definition zero_PostgresUser : PostgresUser := mkPostgresUser zero_ObjectMeta zero_PostgresUserSpec zero_PostgresUserStatus.
#[global] Instance eta_PostgresUser : Settable PostgresUser := fun r =>
  mkPostgresUser (usr_Meta r) (usr_Spec r) (usr_Status r).

Record DatabaseRole := mkDatabaseRole {
  dr_Name : string;
  dr_Profile : string
}.
#[global] Instance DatabaseRole_eq_dec : EqDecision DatabaseRole.
Proof. solve_decision. Defined.
Definition zero_DatabaseRole : DatabaseRole := mkDatabaseRole "" "".

Record PostgresDatabaseSpec := mkPostgresDatabaseSpec {
  dbs_InstanceRef : string;
  dbs_DatabaseName : string;
  dbs_DeletionPolicy : string;
  dbs_Schemas : list string;
  dbs_Roles : list DatabaseRole;
  dbs_Quotas : DatabaseQuotas
}.
#[global] Instance PostgresDatabaseSpec_eq_dec : EqDecision PostgresDatabaseSpec.
Proof. solve_decision. Defined.
Definition zero_PostgresDatabaseSpec : PostgresDatabaseSpec := mkPostgresDatabaseSpec "" "" "" [] [] zero_DatabaseQuotas.
#[global] Instance eta_PostgresDatabaseSpec : Settable PostgresDatabaseSpec := fun r =>
  mkPostgresDatabaseSpec (dbs_InstanceRef r) (dbs_DatabaseName r) (dbs_DeletionPolicy r) (dbs_Schemas r) (dbs_Roles r) (dbs_Quotas r).

Record PostgresDatabaseStatus := mkPostgresDatabaseStatus {
  dbst_ObservedGeneration : Z;
  dbst_Phase : string;
  dbst_TDEVerified : bool;
  dbst_ObservedSize : Quantity;
  dbst_OrphanedDeclarations : list string;
  dbst_Operation : option OperationProgressStatus;
  dbst_Conditions : list Condition
}.
#[global] Instance PostgresDatabaseStatus_eq_dec : EqDecision PostgresDatabaseStatus.
Proof. solve_decision. Defined.
Definition zero_PostgresDatabaseStatus : PostgresDatabaseStatus := mkPostgresDatabaseStatus 0%Z "" false 0%Z [] None [].
#[global] Instance eta_PostgresDatabaseStatus : Settable PostgresDatabaseStatus := fun r =>
  mkPostgresDatabaseStatus (dbst_ObservedGeneration r) (dbst_Phase r) (dbst_TDEVerified r) (dbst_ObservedSize r) (dbst_OrphanedDeclarations r) (dbst_Operation r) (dbst_Conditions r).

Record PostgresDatabase := mkPostgresDatabase {
  db_Meta : ObjectMeta;
  db_Spec : PostgresDatabaseSpec;
  db_Status : PostgresDatabaseStatus
}.
#[global] Instance PostgresDatabase_eq_dec : EqDecision PostgresDatabase.
Proof. solve_decision. Defined.
Definition zero_PostgresDatabase : PostgresDatabase := mkPostgresDatabase zero_ObjectMeta zero_PostgresDatabaseSpec zero_PostgresDatabaseStatus.
#[global] Instance eta_PostgresDatabase : Settable PostgresDatabase := fun r =>
  mkPostgresDatabase (db_Meta r) (db_Spec r) (db_Status r).

Record SiteRegistrationSpec := mkSiteRegistrationSpec {
  regs_DisplayName : string;
  regs_Revoked : bool;
  regs_PermittedStorageClasses : StorageClassPolicy;
  regs_StorageRollbackPolicies : list StorageRollbackPolicy;
  regs_PermittedIssuers : IssuerPolicy;
  regs_MetallbAddressPools : list string
}.
#[global] Instance SiteRegistrationSpec_eq_dec : EqDecision SiteRegistrationSpec.
Proof. solve_decision. Defined.
Definition zero_SiteRegistrationSpec : SiteRegistrationSpec := mkSiteRegistrationSpec "" false zero_StorageClassPolicy [] zero_IssuerPolicy [].
#[global] Instance eta_SiteRegistrationSpec : Settable SiteRegistrationSpec := fun r =>
  mkSiteRegistrationSpec (regs_DisplayName r) (regs_Revoked r) (regs_PermittedStorageClasses r) (regs_StorageRollbackPolicies r) (regs_PermittedIssuers r) (regs_MetallbAddressPools r).

Record SiteRegistrationStatus := mkSiteRegistrationStatus {
  regst_ObservedGeneration : Z;
  regst_ClusterUID : string;
  regst_Phase : string;
  regst_RegistrationURL : string;
  regst_RegistrationExpiresAt : option Time;
  regst_LastHeartbeatTime : option Time;
  regst_AgentCertificateExpiresAt : option Time;
  regst_AgentVersion : string;
  regst_DiscoveredStorageClasses : list StorageClassInventory;
  regst_DiscoveredVolumeSnapshotClasses : list VolumeSnapshotClassInventory;
  regst_DiscoveredIssuers : list IssuerReference;
  regst_Capabilities : list string;
  regst_Conditions : list Condition
}.
#[global] Instance SiteRegistrationStatus_eq_dec : EqDecision SiteRegistrationStatus.
Proof. solve_decision. Defined.
Definition zero_SiteRegistrationStatus : SiteRegistrationStatus := mkSiteRegistrationStatus 0%Z "" "" "" None None None "" [] [] [] [] [].
#[global] Instance eta_SiteRegistrationStatus : Settable SiteRegistrationStatus := fun r =>
  mkSiteRegistrationStatus (regst_ObservedGeneration r) (regst_ClusterUID r) (regst_Phase r) (regst_RegistrationURL r) (regst_RegistrationExpiresAt r) (regst_LastHeartbeatTime r) (regst_AgentCertificateExpiresAt r) (regst_AgentVersion r) (regst_DiscoveredStorageClasses r) (regst_DiscoveredVolumeSnapshotClasses r) (regst_DiscoveredIssuers r) (regst_Capabilities r) (regst_Conditions r).

Record SiteRegistration := mkSiteRegistration {
  reg_Meta : ObjectMeta;
  reg_Spec : SiteRegistrationSpec;
  reg_Status : SiteRegistrationStatus
}.
#[global] Instance SiteRegistration_eq_dec : EqDecision SiteRegistration.
Proof. solve_decision. Defined.
Definition zero_SiteRegistration : SiteRegistration := mkSiteRegistration zero_ObjectMeta zero_SiteRegistrationSpec zero_SiteRegistrationStatus.
#[global] Instance eta_SiteRegistration : Settable SiteRegistration := fun r =>
  mkSiteRegistration (reg_Meta r) (reg_Spec r) (reg_Status r).

(** The part of [corev1.ConfigMap] the repository uses. *)
Record ConfigMap := newConfigMap {
  cm_Meta : ObjectMeta;
  cm_Immutable : option bool;
  cm_Data : gmap string string
}.
#[global] Instance ConfigMap_eq_dec : EqDecision ConfigMap.
Proof. solve_decision. Defined.
Definition zero_ConfigMap : ConfigMap := newConfigMap zero_ObjectMeta None ∅.
#[global] Instance eta_ConfigMap : Settable ConfigMap := fun r =>
  newConfigMap (cm_Meta r) (cm_Immutable r) (cm_Data r).

(** A literal without [Immutable]. *)
Definition mkConfigMap (meta : ObjectMeta) (data : gmap string string) : ConfigMap := newConfigMap meta None data.

(** The part of [corev1.Secret] the repository uses; its data are byte strings. *)
Record Secret := mkSecret {
  sec_Meta : ObjectMeta;
  sec_Immutable : option bool;
  sec_Data : gmap string string
}.
#[global] Instance Secret_eq_dec : EqDecision Secret.
Proof. solve_decision. Defined.
Definition zero_Secret : Secret := mkSecret zero_ObjectMeta None ∅.
#[global] Instance eta_Secret : Settable Secret := fun r =>
  mkSecret (sec_Meta r) (sec_Immutable r) (sec_Data r).
