(* ===== verification/Workloads.v ===== *)
(** * Kubernetes objects of a site

    The parts of the Kubernetes workload, service, storage and policy types the
    site agent renders, applies or reads back; what the repository neither
    writes nor reads of them is left out.  Specification and status of an object
    are fields of one record.  An [intstr.IntOrString] that is a number is a
    [Z], one that is a name a string; a one-of struct of pointers is an
    inductive type.  An unstructured object is its metadata and the rest of its
    map. *)

From S2P Require Import Prelude Api.

(** ** Untyped values *)
#[local] Unset Elimination Schemes.
Inductive Value := VStr (s : string) | VInt (z : Z) | VBool (b : bool) | VList (l : list Value) | VMap (m : list (string * Value)).
#[local] Set Elimination Schemes.

Definition strs (l : list string) : Value := VList (VStr <$> l).

(** The value of a field: [m[key]] of a [map[string]any]. *)
Fixpoint field (m : list (string * Value)) (key : string) : option Value :=
  match m with
  | [] => None
  | (k, v) :: m => if k == key then Some v else field m key
  end.

(** [unstructured.NestedFieldNoCopy]: [None] is the error of a field that is not a map. *)
Fixpoint nested (m : list (string * Value)) (path : list string) : option (option Value) :=
  match path with
  | [] => Some (Some (VMap m))
  | [key] => Some (field m key)
  | key :: path =>
      match field m key with
      | None => Some None
      | Some (VMap m) => nested m path
      | Some _ => None
      end
  end.
Definition NestedString (m : list (string * Value)) (path : list string) : option (option string) :=
  match nested m path with
  | Some None => Some None
  | Some (Some (VStr s)) => Some (Some s)
  | _ => None
  end.
Definition NestedBool (m : list (string * Value)) (path : list string) : option (option bool) :=
  match nested m path with
  | Some None => Some None
  | Some (Some (VBool b)) => Some (Some b)
  | _ => None
  end.
Definition NestedSlice (m : list (string * Value)) (path : list string) : option (option (list Value)) :=
  match nested m path with
  | Some None => Some None
  | Some (Some (VList l)) => Some (Some l)
  | _ => None
  end.
Definition NestedStringSlice (m : list (string * Value)) (path : list string) : option (option (list string)) :=
  match NestedSlice m path with
  | Some None => Some None
  | Some (Some l) => Some <$> mapM (fun v => match v with VStr s => Some s | _ => None end) l
  | None => None
  end.

(** ** Pods *)

Record VolumeMount := mkVolumeMount {
  vm_Name : string;
  vm_MountPath : string;
  vm_ReadOnly : bool
}.
Definition zero_VolumeMount : VolumeMount := mkVolumeMount "" "" false.

(** [corev1.VolumeSource]: a Secret with its mode and the keys projected, a
    ConfigMap with its mode, an empty directory, a claim, or any other source. *)
Inductive VolumeSource :=
| VolSecret (name : string) (mode : option Z) (items : list (string * string))
| VolConfigMap (name : string) (mode : option Z)
| VolEmptyDir
| VolClaim (claim : string)
| VolOther.
#[global] Instance VolumeSource_eq_dec : EqDecision VolumeSource.
Proof. solve_decision. Defined.


Record Volume := mkVolume {
  vol_Name : string;
  vol_Source : VolumeSource
}.
#[global] Instance Volume_eq_dec : EqDecision Volume.
Proof. solve_decision. Defined.
Definition zero_Volume : Volume := mkVolume "" VolOther.

(** [corev1.EnvVar]: a value, or a key of a Secret. *)
Inductive EnvVar := EnvValue (name value : string) | EnvSecret (name secret key : string).

Inductive ProbeHandler := ProbeExec (command : list string) | ProbeTCP (port : string).
Record Probe := mkProbe { prb_Handler : ProbeHandler; prb_PeriodSeconds : Z; prb_FailureThreshold : Z }.


Record SecurityContext := mkSecurityContext {
  sctx_AllowPrivilegeEscalation : option bool;
  sctx_ReadOnlyRootFilesystem : option bool;
  sctx_Drop : list string;
  sctx_RunAsUser : option Z;
  sctx_RunAsGroup : option Z
}.
Definition zero_SecurityContext : SecurityContext := mkSecurityContext None None [] None None.
#[global] Instance eta_SecurityContext : Settable SecurityContext := fun r =>
  mkSecurityContext (sctx_AllowPrivilegeEscalation r) (sctx_ReadOnlyRootFilesystem r) (sctx_Drop r) (sctx_RunAsUser r) (sctx_RunAsGroup r).

Record PodSecurityContext := mkPodSecurityContext {
  psc_RunAsNonRoot : option bool;
  psc_RunAsUser : option Z;
  psc_RunAsGroup : option Z;
  psc_FSGroup : option Z;
  psc_FSGroupChangePolicy : option string;
  psc_Seccomp : string
}.
Definition zero_PodSecurityContext : PodSecurityContext := mkPodSecurityContext None None None None None "".
#[global] Instance eta_PodSecurityContext : Settable PodSecurityContext := fun r =>
  mkPodSecurityContext (psc_RunAsNonRoot r) (psc_RunAsUser r) (psc_RunAsGroup r) (psc_FSGroup r) (psc_FSGroupChangePolicy r) (psc_Seccomp r).

(** Requests and limits as written: resource name and quantity. *)
Record ResourceRequirements := mkResources {
  rr_Requests : list (string * string);
  rr_Limits : list (string * string)
}.
Definition zero_ResourceRequirements : ResourceRequirements := mkResources [] [].

Record Container := mkContainer {
  ctr_Name : string;
  ctr_Image : string;
  ctr_Command : list string;
  ctr_Args : list string;
  ctr_Ports : list (string * Z);
  ctr_Env : list EnvVar;
  ctr_ReadinessProbe : option Probe;
  ctr_SecurityContext : option SecurityContext;
  ctr_Resources : ResourceRequirements;
  ctr_VolumeMounts : list VolumeMount;
  ctr_TerminationMessagePolicy : string
}.
Definition zero_Container : Container := mkContainer "" "" [] [] [] [] None None zero_ResourceRequirements [] "".
#[global] Instance eta_Container : Settable Container := fun r =>
  mkContainer (ctr_Name r) (ctr_Image r) (ctr_Command r) (ctr_Args r) (ctr_Ports r) (ctr_Env r) (ctr_ReadinessProbe r) (ctr_SecurityContext r) (ctr_Resources r) (ctr_VolumeMounts r) (ctr_TerminationMessagePolicy r).

(** [corev1.Affinity]: the preferred pod anti-affinity the renderer uses. *)
Record Affinity := mkAffinity { aff_Weight : Z; aff_TopologyKey : string; aff_MatchLabels : gmap string string }.


Record PodSpec := mkPodSpec {
  pod_RestartPolicy : string;
  pod_ServiceAccountName : string;
  pod_AutomountServiceAccountToken : option bool;
  pod_TerminationGracePeriodSeconds : option Z;
  pod_SecurityContext : option PodSecurityContext;
  pod_Affinity : option Affinity;
  pod_InitContainers : list Container;
  pod_Containers : list Container;
  pod_Volumes : list Volume
}.
Definition zero_PodSpec : PodSpec := mkPodSpec "" "" None None None None [] [] [].
#[global] Instance eta_PodSpec : Settable PodSpec := fun r =>
  mkPodSpec (pod_RestartPolicy r) (pod_ServiceAccountName r) (pod_AutomountServiceAccountToken r) (pod_TerminationGracePeriodSeconds r) (pod_SecurityContext r) (pod_Affinity r) (pod_InitContainers r) (pod_Containers r) (pod_Volumes r).

Record PodTemplateSpec := mkPodTemplate {
  pt_Labels : gmap string string;
  pt_Annotations : gmap string string;
  pt_Spec : PodSpec
}.
Definition zero_PodTemplateSpec : PodTemplateSpec := mkPodTemplate ∅ ∅ zero_PodSpec.
#[global] Instance eta_PodTemplateSpec : Settable PodTemplateSpec := fun r =>
  mkPodTemplate (pt_Labels r) (pt_Annotations r) (pt_Spec r).

(** The terminated state of a container. *)
Record Terminated := mkTerminated {
  term_Message : string;
  term_ExitCode : Z;
  term_Reason : string
}.
Definition zero_Terminated : Terminated := mkTerminated "" 0%Z "".

Record ContainerStatus := mkContainerStatus {
  cs_Name : string;
  cs_Terminated : option Terminated
}.
Definition zero_ContainerStatus : ContainerStatus := mkContainerStatus "" None.

Record Pod := mkPod {
  pd_Meta : ObjectMeta;
  pd_Spec : PodSpec;
  pd_ContainerStatuses : list ContainerStatus
}.
Definition zero_Pod : Pod := mkPod zero_ObjectMeta zero_PodSpec [].
#[global] Instance eta_Pod : Settable Pod := fun r =>
  mkPod (pd_Meta r) (pd_Spec r) (pd_ContainerStatuses r).

(** ** Storage *)

(** [corev1.TypedLocalObjectReference] *)
Record DataSource := mkDataSource {
  ds_APIGroup : option string;
  ds_Kind : string;
  ds_Name : string
}.
Definition zero_DataSource : DataSource := mkDataSource None "" "".

Record PersistentVolumeClaim := mkPVC {
  pvc_Meta : ObjectMeta;
  pvc_AccessModes : list string;
  pvc_StorageClassName : option string;
  pvc_Storage : Quantity;
  pvc_DataSource : option DataSource;
  pvc_Phase : string
}.
Definition zero_PersistentVolumeClaim : PersistentVolumeClaim := mkPVC zero_ObjectMeta [] None 0%Z None "".
#[global] Instance eta_PersistentVolumeClaim : Settable PersistentVolumeClaim := fun r =>
  mkPVC (pvc_Meta r) (pvc_AccessModes r) (pvc_StorageClassName r) (pvc_Storage r) (pvc_DataSource r) (pvc_Phase r).

Record TopologySelector := mkTopologySelector {
  tps_Key : string;
  tps_Values : list string
}.
Definition zero_TopologySelector : TopologySelector := mkTopologySelector "" [].

Record StorageClass := mkStorageClass {
  scl_Meta : ObjectMeta;
  scl_Provisioner : string;
  scl_ReclaimPolicy : option string;
  scl_VolumeBindingMode : option string;
  scl_AllowVolumeExpansion : option bool;
  scl_AllowedTopologies : list (list TopologySelector)
}.
Definition zero_StorageClass : StorageClass := mkStorageClass zero_ObjectMeta "" None None None [].
#[global] Instance eta_StorageClass : Settable StorageClass := fun r =>
  mkStorageClass (scl_Meta r) (scl_Provisioner r) (scl_ReclaimPolicy r) (scl_VolumeBindingMode r) (scl_AllowVolumeExpansion r) (scl_AllowedTopologies r).

(** ** Workloads *)

Record StatefulSet := mkStatefulSet {
  sts_Meta : ObjectMeta;
  sts_ServiceName : string;
  sts_Replicas : option Z;
  sts_Selector : gmap string string;
  sts_Template : PodTemplateSpec;
  sts_VolumeClaimTemplates : list PersistentVolumeClaim;
  sts_ObservedGeneration : Z;
  sts_ReadyReplicas : Z;
  sts_UpdatedReplicas : Z;
  sts_CurrentRevision : string;
  sts_UpdateRevision : string
}.
Definition zero_StatefulSet : StatefulSet := mkStatefulSet zero_ObjectMeta "" None ∅ zero_PodTemplateSpec [] 0%Z 0%Z 0%Z "" "".
#[global] Instance eta_StatefulSet : Settable StatefulSet := fun r =>
  mkStatefulSet (sts_Meta r) (sts_ServiceName r) (sts_Replicas r) (sts_Selector r) (sts_Template r) (sts_VolumeClaimTemplates r) (sts_ObservedGeneration r) (sts_ReadyReplicas r) (sts_UpdatedReplicas r) (sts_CurrentRevision r) (sts_UpdateRevision r).

Record Deployment := mkDeployment {
  dep_Meta : ObjectMeta;
  dep_Replicas : option Z;
  dep_Selector : gmap string string;
  dep_Template : PodTemplateSpec;
  dep_ObservedGeneration : Z;
  dep_UpdatedReplicas : Z;
  dep_AvailableReplicas : Z
}.
Definition zero_Deployment : Deployment := mkDeployment zero_ObjectMeta None ∅ zero_PodTemplateSpec 0%Z 0%Z 0%Z.
#[global] Instance eta_Deployment : Settable Deployment := fun r =>
  mkDeployment (dep_Meta r) (dep_Replicas r) (dep_Selector r) (dep_Template r) (dep_ObservedGeneration r) (dep_UpdatedReplicas r) (dep_AvailableReplicas r).

Record JobCondition := mkJobCondition {
  jc_Type : string;
  jc_Status : string;
  jc_Message : string
}.
Definition zero_JobCondition : JobCondition := mkJobCondition "" "" "".

Record Job := mkJob {
  job_Meta : ObjectMeta;
  job_BackoffLimit : option Z;
  job_ActiveDeadlineSeconds : option Z;
  job_TTLSecondsAfterFinished : option Z;
  job_Template : PodTemplateSpec;
  job_Conditions : list JobCondition
}.
Definition zero_Job : Job := mkJob zero_ObjectMeta None None None zero_PodTemplateSpec [].
#[global] Instance eta_Job : Settable Job := fun r =>
  mkJob (job_Meta r) (job_BackoffLimit r) (job_ActiveDeadlineSeconds r) (job_TTLSecondsAfterFinished r) (job_Template r) (job_Conditions r).

(** Only listed and deleted. *)
Record CronJob := mkCronJob {
  cj_Meta : ObjectMeta
}.
Definition zero_CronJob : CronJob := mkCronJob zero_ObjectMeta.
#[global] Instance eta_CronJob : Settable CronJob := fun r =>
  mkCronJob (cj_Meta r).

(** ** Services and policies *)

Record ServicePort := mkServicePort {
  svp_Name : string;
  svp_Port : Z;
  svp_TargetPort : Z
}.
Definition zero_ServicePort : ServicePort := mkServicePort "" 0%Z 0%Z.

Record LoadBalancerIngress := mkIngress {
  ing_IP : string;
  ing_Hostname : string
}.
Definition zero_LoadBalancerIngress : LoadBalancerIngress := mkIngress "" "".

Record Service := mkService {
  svc_Meta : ObjectMeta;
  svc_Type : string;
  svc_ExternalTrafficPolicy : string;
  svc_Selector : gmap string string;
  svc_Ports : list ServicePort;
  svc_PublishNotReadyAddresses : bool;
  svc_Ingress : list LoadBalancerIngress
}.
Definition zero_Service : Service := mkService zero_ObjectMeta "" "" ∅ [] false [].
#[global] Instance eta_Service : Settable Service := fun r =>
  mkService (svc_Meta r) (svc_Type r) (svc_ExternalTrafficPolicy r) (svc_Selector r) (svc_Ports r) (svc_PublishNotReadyAddresses r) (svc_Ingress r).

(** A peer of a network policy: pods of the same namespace, or of the namespaces selected. *)
Record NetworkPolicyPeer := mkPeer {
  npp_PodSelector : option (gmap string string);
  npp_NamespaceSelector : option (gmap string string)
}.
Definition zero_NetworkPolicyPeer : NetworkPolicyPeer := mkPeer None None.

Record NetworkPolicyIngressRule := mkIngressRule {
  npr_From : list NetworkPolicyPeer;
  npr_Ports : list Z
}.
Definition zero_NetworkPolicyIngressRule : NetworkPolicyIngressRule := mkIngressRule [] [].

Record NetworkPolicy := mkNetworkPolicy {
  np_Meta : ObjectMeta;
  np_PodSelector : gmap string string;
  np_PolicyTypes : list string;
  np_Ingress : list NetworkPolicyIngressRule
}.
Definition zero_NetworkPolicy : NetworkPolicy := mkNetworkPolicy zero_ObjectMeta ∅ [] [].
#[global] Instance eta_NetworkPolicy : Settable NetworkPolicy := fun r =>
  mkNetworkPolicy (np_Meta r) (np_PodSelector r) (np_PolicyTypes r) (np_Ingress r).

Record ServiceAccount := mkServiceAccount {
  sa_Meta : ObjectMeta
}.
Definition zero_ServiceAccount : ServiceAccount := mkServiceAccount zero_ObjectMeta.
#[global] Instance eta_ServiceAccount : Settable ServiceAccount := fun r =>
  mkServiceAccount (sa_Meta r).

Record Namespace := mkNamespace {
  ns_Meta : ObjectMeta
}.
Definition zero_Namespace : Namespace := mkNamespace zero_ObjectMeta.
#[global] Instance eta_Namespace : Settable Namespace := fun r =>
  mkNamespace (ns_Meta r).

(** ** Unstructured objects *)

Record Unstructured := mkUnstructured {
  us_Meta : ObjectMeta;
  us_Object : list (string * Value)
}.
Definition zero_Unstructured : Unstructured := mkUnstructured zero_ObjectMeta [].
#[global] Instance eta_Unstructured : Settable Unstructured := fun r =>
  mkUnstructured (us_Meta r) (us_Object r).
