(* ===== verification/Messages.v ===== *)
(** * Messages between the hub and the agents

    The protocol of [src/proto/control/v1/control.proto]: one record per message,
    one constructor per alternative of a [oneof].  Byte fields are byte strings,
    timestamps are times; the transition time of a condition is left out, as in
    [Api.Condition]. *)

From S2P Require Import Prelude Api.

Record AgentHello := mkAgentHello {
  ah_RegistrationUid : string;
  ah_ClusterUid : string;
  ah_AgentVersion : string;
  ah_Capabilities : list string;
  ah_ProtocolVersion : string
}.
#[global] Instance AgentHello_eq_dec : EqDecision AgentHello.
Proof. solve_decision. Defined.
Definition zero_AgentHello : AgentHello := mkAgentHello "" "" "" [] "".

Record AgentHeartbeat := mkAgentHeartbeat {
  hb_ActiveRevisions : gmap string Z;
  hb_HubRttMilliseconds : Z;
  hb_SentAt : option Time
}.
#[global] Instance AgentHeartbeat_eq_dec : EqDecision AgentHeartbeat.
Proof. solve_decision. Defined.
Definition zero_AgentHeartbeat : AgentHeartbeat := mkAgentHeartbeat ∅ 0%Z None.

Record PlanAcknowledgement := mkPlanAcknowledgement {
  pa_InstanceUid : string;
  pa_Revision : Z;
  pa_Accepted : bool;
  pa_ValidationErrors : list string
}.
#[global] Instance PlanAcknowledgement_eq_dec : EqDecision PlanAcknowledgement.
Proof. solve_decision. Defined.
Definition zero_PlanAcknowledgement : PlanAcknowledgement := mkPlanAcknowledgement "" 0%Z false [].

Record PlanProgress := mkPlanProgress {
  pp_OperationUid : string;
  pp_InstanceUid : string;
  pp_Revision : Z;
  pp_Phase : string;
  pp_ResourceSummaries : gmap string string
}.
#[global] Instance PlanProgress_eq_dec : EqDecision PlanProgress.
Proof. solve_decision. Defined.
Definition zero_PlanProgress : PlanProgress := mkPlanProgress "" "" 0%Z "" ∅.

(** The [Condition] message. *)
Record WireCondition := mkWireCondition {
  wc_Type : string;
  wc_Status : string;
  wc_Reason : string;
  wc_Message : string
}.
#[global] Instance WireCondition_eq_dec : EqDecision WireCondition.
Proof. solve_decision. Defined.
Definition zero_WireCondition : WireCondition := mkWireCondition "" "" "" "".

Record PlanResult := mkPlanResult {
  pr_OperationUid : string;
  pr_InstanceUid : string;
  pr_AppliedRevision : Z;
  pr_Conditions : list WireCondition
}.
#[global] Instance PlanResult_eq_dec : EqDecision PlanResult.
Proof. solve_decision. Defined.
Definition zero_PlanResult : PlanResult := mkPlanResult "" "" 0%Z [].

Record InventoryUpdate := mkInventoryUpdate {
  iu_InventoryJson : string
}.
#[global] Instance InventoryUpdate_eq_dec : EqDecision InventoryUpdate.
Proof. solve_decision. Defined.
Definition zero_InventoryUpdate : InventoryUpdate := mkInventoryUpdate "".

Record CertificateSigningRequest := mkCertificateSigningRequest {
  csr_RequestId : string;
  csr_CsrPem : string
}.
#[global] Instance CertificateSigningRequest_eq_dec : EqDecision CertificateSigningRequest.
Proof. solve_decision. Defined.
Definition zero_CertificateSigningRequest : CertificateSigningRequest := mkCertificateSigningRequest "" "".

Record DesiredSitePlan := mkDesiredSitePlan {
  dsp_InstanceUid : string;
  dsp_Revision : Z;
  dsp_EnvelopeJson : string
}.
#[global] Instance DesiredSitePlan_eq_dec : EqDecision DesiredSitePlan.
Proof. solve_decision. Defined.
Definition zero_DesiredSitePlan : DesiredSitePlan := mkDesiredSitePlan "" 0%Z "".

Record OperationDirective := mkOperationDirective {
  od_OperationUid : string;
  od_InstanceUid : string;
  od_Type : string;
  od_DirectiveJson : string
}.
#[global] Instance OperationDirective_eq_dec : EqDecision OperationDirective.
Proof. solve_decision. Defined.
Definition zero_OperationDirective : OperationDirective := mkOperationDirective "" "" "" "".

Record CertificateResponse := mkCertificateResponse {
  crs_CertificatePem : string;
  crs_CaBundlePem : string;
  crs_WireguardPeerConfiguration : string;
  crs_RequestId : string;
  crs_NotAfter : option Time
}.
#[global] Instance CertificateResponse_eq_dec : EqDecision CertificateResponse.
Proof. solve_decision. Defined.
Definition zero_CertificateResponse : CertificateResponse := mkCertificateResponse "" "" "" "" None.

Record CancelOperation := mkCancelOperation {
  co_OperationUid : string;
  co_Reason : string
}.
#[global] Instance CancelOperation_eq_dec : EqDecision CancelOperation.
Proof. solve_decision. Defined.
Definition zero_CancelOperation : CancelOperation := mkCancelOperation "" "".

(** From an agent to the hub. *)
Inductive AgentMessage :=
| Msg_Hello (hello : AgentHello)
| Msg_Heartbeat (heartbeat : AgentHeartbeat)
| Msg_Acknowledgement (acknowledgement : PlanAcknowledgement)
| Msg_Progress (progress : PlanProgress)
| Msg_Result (result : PlanResult)
| Msg_Inventory (inventory : InventoryUpdate)
| Msg_CertificateSigningRequest (request : CertificateSigningRequest)
| Msg_AgentEmpty.
#[global] Instance AgentMessage_eq_dec : EqDecision AgentMessage.
Proof. solve_decision. Defined.

(** From the hub to an agent. *)
Inductive HubMessage :=
| Msg_Plan (plan : DesiredSitePlan)
| Msg_Directive (directive : OperationDirective)
| Msg_Certificate (certificate : CertificateResponse)
| Msg_Cancel (cancel : CancelOperation)
| Msg_HubEmpty.
#[global] Instance HubMessage_eq_dec : EqDecision HubMessage.
Proof. solve_decision. Defined.
