(* ===== verification/Kube.v ===== *)
(** * The Kubernetes API as the controllers use it

    The requests of a controller-runtime [client.Client], the clock and the
    event recorder; the helper functions of apimachinery, client-go and
    controller-runtime the code calls, as an interface with their documented
    laws; and a reference implementation of both, used to run the model on
    concrete clusters.  No theorem about the controllers depends on the
    reference implementation. *)

From S2P Require Import Prelude Prog Api Workloads Messages.

(** ** Requests *)
Inductive Kind :=
  KInstance | KRegistration | KUpgrade | KRestore | KDatabase | KUser | KConfigMap | KSecret | KDeployment
| KNamespace | KServiceAccount | KService | KStatefulSet | KJob | KCronJob | KPod | KPersistentVolumeClaim
| KNetworkPolicy | KStorageClass | KCertificate | KVolumeSnapshot | KIssuer | KClusterIssuer | KVolumeSnapshotClass.
#[global] Instance Kind_eq_dec : EqDecision Kind.
Proof. solve_decision. Defined.

Definition Object (k : Kind) : Type :=
  match k with
  | KInstance => MultiSitePostgres
  | KRegistration => SiteRegistration
  | KUpgrade => PostgresUpgrade
  | KRestore => PostgresRestore
  | KDatabase => PostgresDatabase
  | KUser => PostgresUser
  | KConfigMap => ConfigMap
  | KSecret => Secret
  | KDeployment => Deployment
  | KNamespace => Namespace
  | KServiceAccount => ServiceAccount
  | KService => Service
  | KStatefulSet => StatefulSet
  | KJob => Job
  | KCronJob => CronJob
  | KPod => Pod
  | KPersistentVolumeClaim => PersistentVolumeClaim
  | KNetworkPolicy => NetworkPolicy
  | KStorageClass => StorageClass
  | KCertificate | KVolumeSnapshot | KIssuer | KClusterIssuer | KVolumeSnapshotClass => Unstructured
  end.

Definition object_meta {k : Kind} : Object k -> ObjectMeta :=
  match k with
  | KInstance => msp_Meta
  | KRegistration => reg_Meta
  | KUpgrade => upg_Meta
  | KRestore => res_Meta
  | KDatabase => db_Meta
  | KUser => usr_Meta
  | KConfigMap => cm_Meta
  | KSecret => sec_Meta
  | KDeployment => dep_Meta
  | KNamespace => ns_Meta
  | KServiceAccount => sa_Meta
  | KService => svc_Meta
  | KStatefulSet => sts_Meta
  | KJob => job_Meta
  | KCronJob => cj_Meta
  | KPod => pd_Meta
  | KPersistentVolumeClaim => pvc_Meta
  | KNetworkPolicy => np_Meta
  | KStorageClass => scl_Meta
  | KCertificate | KVolumeSnapshot | KIssuer | KClusterIssuer | KVolumeSnapshotClass => us_Meta
  end.

(** A [client.Object] of any kind. *)
Definition AnyObject : Type := {k : Kind & Object k}.
Definition any {k : Kind} (o : Object k) : AnyObject := existT k o.
Definition any_meta (o : AnyObject) : ObjectMeta := object_meta (projT2 o).

(** ** The agent's other calls

    [ServerSideApply] is a patch of type [application/apply-patch+yaml] with the
    field owner [mspsql-agent], answered with the object as stored; [HTTPDo]
    sends a request over TLS with the given roots and client certificate;
    [RequestToken] asks for a projected token of a service account;
    [LoadObserved] and [StoreObserved] access the map of the event reporter for
    an instance, [LoadPending] and [StorePending] the field of the certificate
    rotator; [Stat] gives the size of a file. *)
Record TLSConfig := mkTLSConfig { tls_Roots : string; tls_Certificate : string; tls_Key : string }.
Record HTTPRequest := mkHTTPRequest {
  hr_Method : string; hr_URL : string; hr_Token : string; hr_Body : option string; hr_TLS : option TLSConfig }.
Record HTTPResponse := mkHTTPResponse { hrs_StatusCode : Z; hrs_Body : result string }.

(** The request for a certificate the agent waits on: its identifier and the key it made. *)
Record PendingRequest := mkPendingRequest { pr_id : string; pr_keyPEM : string }.

Inductive SiteReq :=
| ServerSideApply (k : Kind) (o : Object k)
| HTTPDo (request : HTTPRequest)
| RequestToken (namespace serviceAccount : string)
| LoadObserved (instanceUID : string)
| StoreObserved (instanceUID : string) (observed : gmap string string)
| LoadPending
| StorePending (pending : option PendingRequest)
| Stat (path : string).

Definition SiteResp (r : SiteReq) : Type :=
  match r with
  | ServerSideApply k _ => result (Object k)
  | HTTPDo _ => result HTTPResponse
  | RequestToken _ _ => result string
  | LoadObserved _ => gmap string string
  | StoreObserved _ _ => unit
  | LoadPending => option PendingRequest
  | StorePending _ => unit
  | Stat _ => result Z
  end.

(** What is not the API server: files, the control stream between hub and agent
    as seen by the hub ([SendHub], [RecvAgent]) and by the agent ([SendAgent],
    [RecvHub]), waiting for a ticker until the context is cancelled, and the
    map from instances to applied revisions the goroutines of an agent share. *)
Inductive EnvReq :=
| ReadFile (path : string)
| SendHub (message : HubMessage)
| RecvAgent
| SendAgent (message : AgentMessage)
| RecvHub
| WaitTick (period : Duration)
| StoreActive (instanceUID : string) (revision : Z)
| LoadActive
| Site (r : SiteReq).

Definition EnvResp (e : EnvReq) : Type :=
  match e with
  | ReadFile _ => result string
  | SendHub _ | SendAgent _ => result unit
  | RecvAgent => result AgentMessage
  | RecvHub => result HubMessage
  | WaitTick _ => result unit
  | StoreActive _ _ => unit
  | LoadActive => gmap string Z
  | Site r => SiteResp r
  end.

(** [Update] writes an object, [UpdateStatus] its status subresource, [Patch]
    and [PatchStatus] send the merge patch between two versions of it;
    [RandomBytes] reads the operating system's randomness, [ListHasLabel] lists
    the objects that have a label, [ListField] those an index gives for a value
    of a field. *)
Inductive Req :=
| Get (k : Kind) (namespace name : string)
| List (k : Kind) (namespace : option string) (labels : gmap string string)
| Create (k : Kind) (o : Object k)
| Update (k : Kind) (o : Object k)
| UpdateStatus (k : Kind) (o : Object k)
| Patch (k : Kind) (base o : Object k)
| PatchStatus (k : Kind) (base o : Object k)
| Delete (k : Kind) (o : Object k)
| Eventf (k : Kind) (o : Object k) (etype reason action note : string)
| Now
| RandomBytes (n : nat)
| ListHasLabel (k : Kind) (label : string)
| ListField (k : Kind) (namespace : option string) (field value : string)
| Env (e : EnvReq).

Definition Resp (r : Req) : Type :=
  match r with
  | Get k _ _ => result (Object k)
  | List k _ _ => result (list (Object k))
  | Create k _ | Update k _ | UpdateStatus k _ | Patch k _ _ | PatchStatus k _ _ => result (Object k)
  | Delete _ _ => result unit
  | Eventf _ _ _ _ _ _ => unit
  | Now => Time
  | RandomBytes _ => result string
  | ListHasLabel k _ | ListField k _ _ _ => result (list (Object k))
  | Env e => EnvResp e
  end.

Abbreviation kprog := (prog Resp).
Abbreviation khistory := (@history Req Resp).

(** [ctrl.Result] with the error a reconciler returns. *)
Record ctrl_Result := mkResult { RequeueAfter : Duration }.
#[global] Instance ctrl_Result_eq_dec : EqDecision ctrl_Result.
Proof. solve_decision. Defined.
Definition Done : ctrl_Result := mkResult 0%Z.
Definition Outcome : Type := ctrl_Result * option Error.

(** [return ctrl.Result{}, err] where [err] is the error of a write. *)
Definition finish {A} (x : result A) : Outcome :=
  match x with Ok _ => (Done, None) | Err e => (Done, Some e) end.

(** The kinds as the scheme registers them. *)
Definition GroupVersion : string := "multisite-postgres.dev/v1alpha1".
Definition kind_name (k : Kind) : string :=
  match k with
  | KInstance => "MultiSitePostgres"
  | KRegistration => "SiteRegistration"
  | KUpgrade => "PostgresUpgrade"
  | KRestore => "PostgresRestore"
  | KDatabase => "PostgresDatabase"
  | KUser => "PostgresUser"
  | KConfigMap => "ConfigMap"
  | KSecret => "Secret"
  | KDeployment => "Deployment"
  | KNamespace => "Namespace"
  | KServiceAccount => "ServiceAccount"
  | KService => "Service"
  | KStatefulSet => "StatefulSet"
  | KJob => "Job"
  | KCronJob => "CronJob"
  | KPod => "Pod"
  | KPersistentVolumeClaim => "PersistentVolumeClaim"
  | KNetworkPolicy => "NetworkPolicy"
  | KStorageClass => "StorageClass"
  | KCertificate => "Certificate"
  | KVolumeSnapshot => "VolumeSnapshot"
  | KIssuer => "Issuer"
  | KClusterIssuer => "ClusterIssuer"
  | KVolumeSnapshotClass => "VolumeSnapshotClass"
  end.
Definition kind_version (k : Kind) : string :=
  match k with
  | KConfigMap | KSecret | KNamespace | KServiceAccount | KService | KPod | KPersistentVolumeClaim => "v1"
  | KDeployment | KStatefulSet => "apps/v1"
  | KJob | KCronJob => "batch/v1"
  | KNetworkPolicy => "networking.k8s.io/v1"
  | KStorageClass => "storage.k8s.io/v1"
  | KCertificate | KIssuer | KClusterIssuer => "cert-manager.io/v1"
  | KVolumeSnapshot | KVolumeSnapshotClass => "snapshot.storage.k8s.io/v1"
  | _ => GroupVersion
  end.

(** A controller reference to the object. *)
Definition controls {k} (o : Object k) (r : OwnerReference) : Prop :=
  or_APIVersion r = kind_version k /\ or_Kind r = kind_name k /\ or_Name r = meta_Name (object_meta o) /\
  or_UID r = meta_UID (object_meta o) /\ or_Controller r = Some true.

(** ** Library interface *)
Class KubeLib := {
  (** [meta.SetStatusCondition], [meta.FindStatusCondition] *)
  SetStatusCondition : list Condition -> Condition -> list Condition;
  FindStatusCondition : list Condition -> string -> option Condition;
  (** [controllerutil.{Contains,Add,Remove}Finalizer] *)
  ContainsFinalizer : ObjectMeta -> string -> bool;
  AddFinalizer : ObjectMeta -> string -> ObjectMeta;
  RemoveFinalizer : ObjectMeta -> string -> ObjectMeta;
  (** [controllerutil.SetControllerReference] (owner, object) *)
  SetControllerReference : forall {k : Kind}, Object k -> ObjectMeta -> result ObjectMeta;
  (** [metav1.GetControllerOf] *)
  GetControllerOf : ObjectMeta -> option OwnerReference;
  (** [retry.RetryOnConflict(retry.DefaultRetry, fn)] *)
  RetryOnConflict : forall {A}, kprog (result A) -> kprog (result A);
  (** the same of a function that assigns variables outside it *)
  RetryAssigning : forall {V A}, (V -> kprog (V * result A)) -> V -> kprog (V * result A);
}.

Class KubeLaws (K : KubeLib) := {
  find_type cs t c : FindStatusCondition cs t = Some c -> cond_Type c = t;
  find_set_same cs c : FindStatusCondition (SetStatusCondition cs c) (cond_Type c) = Some c;
  find_set_other cs c t :
    t <> cond_Type c -> FindStatusCondition (SetStatusCondition cs c) t = FindStatusCondition cs t;
  find_member cs t c : FindStatusCondition cs t = Some c -> c ∈ cs;
  set_members cs c d : d ∈ SetStatusCondition cs c -> d = c \/ d ∈ cs;
  contains_add m f : ContainsFinalizer (AddFinalizer m f) f = true;
  contains_remove m f : ContainsFinalizer (RemoveFinalizer m f) f = false;
  contains_add_other m f g : f <> g ->
    ContainsFinalizer (AddFinalizer m f) g = ContainsFinalizer m g;
  contains_remove_other m f g : f <> g ->
    ContainsFinalizer (RemoveFinalizer m f) g = ContainsFinalizer m g;
  set_controller {k} (o : Object k) m m' : SetControllerReference o m = Ok m' ->
    (exists refs, m' = (m <| meta_OwnerReferences := refs |>)) /\
    exists r, GetControllerOf m' = Some r /\ controls o r;
  set_controller_only {k} (o : Object k) m m' : SetControllerReference o m = Ok m' -> meta_OwnerReferences m = [] ->
    exists r, meta_OwnerReferences m' = [r];
  controller_listed m r : GetControllerOf m = Some r -> r ∈ meta_OwnerReferences m;
  (** The function runs at least once, is run again only from a state it left,
      and the result is that of its last run. *)
  retry_sat {A} (P : khistory -> Req -> Prop) (I : khistory -> Prop)
    (Q : khistory -> result A -> Prop) (fn : kprog (result A)) :
    (forall h, I h -> sat P (fun h' x => I h' /\ Q h' x) h fn) ->
    forall h, I h -> sat P Q h (RetryOnConflict fn);
  retry_assigning_sat {V A} (P : khistory -> Req -> Prop) (I : V -> khistory -> Prop)
    (Q : khistory -> V * result A -> Prop) (fn : V -> kprog (V * result A)) :
    (forall v h, I v h -> sat P (fun h' x => I x.1 h' /\ Q h' x) h (fn v)) ->
    forall v h, I v h -> sat P Q h (RetryAssigning fn v);
}.

(** [setCondition] and [conditionTrue] of [internal/controller/status.go]. *)
Section status.
Context `{K : KubeLib}.

Definition setCondition (conditions : list Condition) (generation : Z)
  (conditionType status reason message : string) : list Condition :=
  SetStatusCondition conditions (mkCondition conditionType status generation reason message).

Definition conditionTrue (conditions : list Condition) (conditionType : string) : bool :=
  match FindStatusCondition conditions conditionType with
  | Some c => cond_Status c == ConditionTrue
  | None => false
  end.

Context {L : KubeLaws K}.

Lemma find_setCondition cs g t s r m t' :
  FindStatusCondition (setCondition cs g t s r m) t' =
  if bool_decide (t' = t) then Some (mkCondition t s g r m) else FindStatusCondition cs t'.
Proof.
  unfold setCondition. case_bool_decide as H.
  - subst. apply (find_set_same _ (mkCondition t s g r m)).
  - by apply find_set_other.
Qed.

Lemma conditionTrue_setCondition cs g t s r m t' :
  conditionTrue (setCondition cs g t s r m) t' =
  if bool_decide (t' = t) then s == ConditionTrue else conditionTrue cs t'.
Proof. unfold conditionTrue. rewrite find_setCondition. by case_bool_decide. Qed.
End status.

(** The object was read in this run. *)
Definition was_read {k : Kind} (h : khistory) (o : Object k) : Prop :=
  exists namespace name, existT (Get k namespace name) (Ok o) ∈ h.

Lemma was_read_extends {k} (h h' : khistory) (o : Object k) :
  (forall e, e ∈ h -> e ∈ h') -> was_read h o -> was_read h' o.
Proof. intros Hin (ns & n & H). exists ns, n. by apply Hin. Qed.

(** A later history. *)
Definition extends (h h' : khistory) : Prop := forall e, e ∈ h -> e ∈ h'.

Lemma extends_cons h e : extends h (e :: h).
Proof. intros x Hx. apply elem_of_cons. by right. Qed.

Lemma extends_trans h1 h2 h3 : extends h1 h2 -> extends h2 h3 -> extends h1 h3.
Proof. unfold extends. auto. Qed.

Definition done_ {A} (h : khistory) (x : A) : Prop := True.

Lemma extends_refl h : extends h h.
Proof. by intros e. Qed.
Lemma extends_cons_r h h' e : extends h h' -> extends h (e :: h').
Proof. intros H x Hx. apply elem_of_cons. right. by apply H. Qed.
(** The current history is a later one. *)
Ltac keep_history := cbn [sat]; first [apply extends_refl|assumption|apply extends_cons_r; keep_history].

Definition deleting (m : ObjectMeta) : Prop := is_Some (meta_DeletionTimestamp m).

(** The finalizers and annotations of [status.go]. *)
Definition instanceFinalizer : string := "multisite-postgres.dev/instance-protection".
Definition childFinalizer : string := "multisite-postgres.dev/declaration-protection".
Definition operationFinalizer : string := "multisite-postgres.dev/operation-protection".
Definition siteFinalizer : string := "multisite-postgres.dev/site-protection".
Definition forceAbandonAnnotation : string := "multisite-postgres.dev/force-abandon".
Definition forceOrphanAnnotation : string := "multisite-postgres.dev/force-orphan".
Definition capabilityMajorUpgradeSyncBeforeWrites : string := "major-upgrade-sync-before-writes".

(** ** Reference implementation of the library *)
Module Ref.
Fixpoint set_condition (cs : list Condition) (c : Condition) : list Condition :=
  match cs with
  | [] => [c]
  | d :: cs => if cond_Type d == cond_Type c then c :: cs else d :: set_condition cs c
  end.

Definition find_condition (cs : list Condition) (t : string) : option Condition :=
  List.find (fun c => cond_Type c == t) cs.

Definition contains_finalizer (m : ObjectMeta) (f : string) : bool :=
  slices_Contains (meta_Finalizers m) f.

Definition add_finalizer (m : ObjectMeta) (f : string) : ObjectMeta :=
  if contains_finalizer m f then m else m <| meta_Finalizers := meta_Finalizers m ++ [f] |>.

Definition remove_finalizer (m : ObjectMeta) (f : string) : ObjectMeta :=
  m <| meta_Finalizers := filter (.≠ f) (meta_Finalizers m) |>.

Definition set_controller_reference {k} (owner : Object k) (m : ObjectMeta) : result ObjectMeta :=
  Ok (m <| meta_OwnerReferences :=
    [mkOwnerReference (kind_version k) (kind_name k) (meta_Name (object_meta owner)) (meta_UID (object_meta owner))
       (Some true)] |>).

Definition controller_of (m : ObjectMeta) : option OwnerReference :=
  List.find (fun r => or_Controller r == Some true) (meta_OwnerReferences m).

Fixpoint retry {A} (steps : nat) (fn : kprog (result A)) : kprog (result A) :=
  bind fn (fun x =>
    match x, steps with
    | Err e, S steps => if IsConflict e then retry steps fn else Ret x
    | _, _ => Ret x
    end).

Fixpoint retry_assigning {V A} (steps : nat) (fn : V -> kprog (V * result A)) (v : V) : kprog (V * result A) :=
  bind (fn v) (fun x =>
    match x.2, steps with
    | Err e, S steps => if IsConflict e then retry_assigning steps fn x.1 else Ret x
    | _, _ => Ret x
    end).

#[global] Instance lib : KubeLib := {|
  SetStatusCondition := set_condition;
  FindStatusCondition := find_condition;
  ContainsFinalizer := contains_finalizer;
  AddFinalizer := add_finalizer;
  RemoveFinalizer := remove_finalizer;
  SetControllerReference := @set_controller_reference;
  GetControllerOf := controller_of;
  RetryOnConflict := fun A => retry 4;
  RetryAssigning := fun V A => retry_assigning 4;
|}.

Lemma find_set_condition cs c t :
  find_condition (set_condition cs c) t =
  if bool_decide (t = cond_Type c) then Some c else find_condition cs t.
Proof.
  unfold find_condition. induction cs as [|d cs IH]; simpl.
  - repeat case_bool_decide; congruence.
  - destruct (bool_decide (cond_Type d = cond_Type c)) eqn:Hd; simpl; bool_to_prop.
    + repeat case_bool_decide; congruence.
    + rewrite IH. repeat case_bool_decide; congruence.
Qed.

Lemma retry_steps_sat {A} P (I : khistory -> Prop) Q (fn : kprog (result A)) :
  (forall h, I h -> sat P (fun h' x => I h' /\ Q h' x) h fn) ->
  forall n h, I h -> sat P Q h (retry n fn).
Proof.
  intros Hfn. induction n as [|n IH]; intros h Hh; simpl; apply sat_bind;
    (eapply sat_mono; [| |apply Hfn, Hh]; [done|]); intros h' [a|e] [HI HQ]; simpl; auto.
  destruct (IsConflict e); simpl; auto.
Qed.

Lemma retry_assigning_steps_sat {V A} P (I : V -> khistory -> Prop) Q (fn : V -> kprog (V * result A)) :
  (forall v h, I v h -> sat P (fun h' x => I x.1 h' /\ Q h' x) h (fn v)) ->
  forall n v h, I v h -> sat P Q h (retry_assigning n fn v).
Proof.
  intros Hfn. induction n as [|n IH]; intros v h Hh; simpl; apply sat_bind;
    (eapply sat_mono; [| |apply Hfn, Hh]; [done|]); intros h' [w [a|e]] [HI HQ]; simpl; auto.
  destruct (IsConflict e); simpl; auto.
Qed.

#[global] Instance laws : KubeLaws lib.
Proof.
  split; simpl.
  - intros cs t c H. apply List.find_some in H as [_ H]. by apply bool_decide_eq_true in H.
  - intros cs c. rewrite find_set_condition. by rewrite bool_decide_eq_true_2.
  - intros cs c t H. rewrite find_set_condition. by rewrite bool_decide_eq_false_2.
  - intros cs t c H. apply List.find_some in H as [H _]. by apply list_elem_of_In.
  - intros cs c d. induction cs as [|c' cs IH]; simpl; [set_solver|]. case_bool_decide; set_solver.
  - intros m f. unfold add_finalizer. destruct (contains_finalizer m f) eqn:E; [done|].
    unfold contains_finalizer, slices_Contains. simpl. apply bool_decide_eq_true. set_solver.
  - intros m f. unfold contains_finalizer, slices_Contains, remove_finalizer. simpl.
    apply bool_decide_eq_false. rewrite list_elem_of_filter. naive_solver.
  - intros m f g H. unfold add_finalizer. destruct (contains_finalizer m f); [done|].
    unfold contains_finalizer, slices_Contains. simpl. apply bool_decide_ext. set_solver.
  - intros m f g H. unfold contains_finalizer, slices_Contains, remove_finalizer. simpl.
    apply bool_decide_ext. rewrite list_elem_of_filter. naive_solver.
  - intros k o m m' [= <-]. split; [by eexists|]. by eexists.
  - intros k o m m' [= <-] _. by eexists.
  - intros m r H. apply List.find_some in H as [H _]. by apply list_elem_of_In.
  - intros A P I Q fn Hfn h. exact (retry_steps_sat P I Q fn Hfn 4 h).
  - intros V A P I Q fn Hfn v h. exact (retry_assigning_steps_sat P I Q fn Hfn 4 v h).
Qed.
End Ref.
