(* ===== verification/ApiServer.v ===== *)
(** * What the controllers rely on from the API server

    Reads may be stale and other clients may write between any two requests of
    a program.  What the server does promise is optimistic concurrency: every
    stored version of an object has its own resource version, and an update
    that carries a resource version succeeds only if that version is still the
    stored one.  The second half of the file is a reference server, used to
    run the controllers on concrete clusters. *)

From Stdlib Require Import Eqdep_dec.
From S2P Require Import Prelude Prog Api Workloads Kube.

Definition key_of {k} (o : Object k) : string * string :=
  (meta_Namespace (object_meta o), meta_Name (object_meta o)).
Definition version_of {k} (o : Object k) : string := meta_ResourceVersion (object_meta o).

(** ** The interface *)
Class ApiServer := {
  srv : Type;
  handle : forall r : Req, srv -> Resp r * srv;
  (** the stored version of an object *)
  stored : srv -> forall k : Kind, string * string -> option (Object k);
  (** the versions of an object the server has held so far *)
  held : srv -> forall k : Kind, Object k -> Prop;
}.

(** The writes guarded by a resource version. *)
Definition guarded (r : Req) : option {k & Object k} :=
  match r with
  | Update k o | UpdateStatus k o => Some (existT k o)
  | _ => None
  end.

Class ApiServerLaws (A : ApiServer) := {
  held_stable r s k (o : Object k) : held s k o -> held (handle r s).2 k o;
  held_stored s k key (o : Object k) : stored s k key = Some o -> held s k o;
  held_versioned s k (o : Object k) : held s k o -> version_of o <> "";
  held_version s k (o o' : Object k) :
    held s k o -> held s k o' -> key_of o = key_of o' -> version_of o = version_of o' -> o = o';
  get_held s k ns n o s' :
    handle (Get k ns n) s = (Ok o, s') -> held s' k o /\ key_of o = (ns, n);
  update_current s k o o' s' :
    handle (Update k o) s = (Ok o', s') -> version_of o <> "" ->
    exists cur, stored s k (key_of o) = Some cur /\ key_of cur = key_of o /\ version_of cur = version_of o;
  update_status_current s k o o' s' :
    handle (UpdateStatus k o) s = (Ok o', s') -> version_of o <> "" ->
    exists cur, stored s k (key_of o) = Some cur /\ key_of cur = key_of o /\ version_of cur = version_of o;
}.

(** The exchanges of a program with a server. *)
Definition exchanges {A : ApiServer} {T} (p : kprog T) (s : srv) : list (srv * @Event Req Resp) :=
  log handle p s.

Section guarded_writes.
Context {A : ApiServer} {AL : ApiServerLaws A}.

(** Every object a read of the history returned is a version the server held. *)
Definition reads_held (s : srv) (h : khistory) : Prop :=
  Forall (fun e : @Event Req Resp =>
    match e with
    | existT (Get k ns n) (Ok o) => held s k o /\ key_of o = (ns, n)
    | _ => True
    end) h.

Lemma reads_held_step r s h :
  reads_held s h -> let '(x, s') := handle r s in reads_held s' (existT r x :: h).
Proof.
  intros H. destruct (handle r s) as [x s'] eqn:E.
  assert (s' = (handle r s).2) as Hs' by (by rewrite E).
  constructor.
  - destruct r; try done. cbn in x. destruct x as [o|e]; [|done]. eapply get_held. exact E.
  - eapply Forall_impl; [|exact H]. intros [[] y] Hy; try done.
    cbn in y. destruct y as [o|]; [|done]. destruct Hy as [Hh Hk]. split; [|done].
    rewrite Hs'. by apply held_stable.
Qed.

(** The object an update was prepared from, if the update is accepted, is the
    stored one: nothing another client wrote in between is lost. *)
Definition prepared_from {k} (o : Object k) (base : Object k) (h : khistory) : Prop :=
  (exists ns n, existT (Get k ns n) (Ok base) ∈ h) /\
  key_of base = key_of o /\ version_of base = version_of o.

Lemma prepared_held {k} (o base : Object k) s h :
  reads_held s h -> prepared_from o base h -> held s k base.
Proof.
  intros Hr [(ns & n & Hin) _]. unfold reads_held in Hr. rewrite list.Forall_forall in Hr.
  by destruct (Hr _ Hin).
Qed.

Lemma accepted_status_base {k} (o base o' : Object k) s h :
  reads_held s h -> prepared_from o base h ->
  (handle (UpdateStatus k o) s).1 = Ok o' -> stored s k (key_of o) = Some base.
Proof.
  intros Hr Hp Hh. destruct (handle _ s) as [x s'] eqn:Heq. cbn in Hh. subst x. rename Heq into Hh. pose proof (prepared_held _ _ _ _ Hr Hp) as Hb.
  destruct Hp as (_ & Hkb & Hvb). pose proof (held_versioned _ _ _ Hb) as Hv. rewrite Hvb in Hv.
  destruct (update_status_current _ _ _ _ _ Hh Hv) as (cur & Hcur & Hk & Hver).
  rewrite Hcur. f_equal. eapply held_version; eauto using held_stored; congruence.
Qed.

Lemma accepted_base {k} (o base o' : Object k) s h :
  reads_held s h -> prepared_from o base h ->
  (handle (Update k o) s).1 = Ok o' -> stored s k (key_of o) = Some base.
Proof.
  intros Hr Hp Hh. destruct (handle _ s) as [x s'] eqn:Heq. cbn in Hh. subst x. rename Heq into Hh. pose proof (prepared_held _ _ _ _ Hr Hp) as Hb.
  destruct Hp as (_ & Hkb & Hvb). pose proof (held_versioned _ _ _ Hb) as Hv. rewrite Hvb in Hv.
  destruct (update_current _ _ _ _ _ Hh Hv) as (cur & Hcur & Hk & Hver).
  rewrite Hcur. f_equal. eapply held_version; eauto using held_stored; congruence.
Qed.

(** [sat] against this server. *)
Lemma sat_exchanges P {T} (Q : khistory -> T -> Prop) (p : kprog T) s :
  sat P Q [] p ->
  Forall (fun e => exists h, reads_held e.1 h /\ P h (projT1 e.2)) (exchanges p s).
Proof.
  intros Hs. eapply (sat_log handle P Q reads_held p s []); [apply reads_held_step|exact Hs|constructor].
Qed.
End guarded_writes.

(** ** A server nobody else writes to

    The agent is the only writer of the objects in its own namespace, and reads
    them uncached.  Requests may still fail; a failed write changes nothing. *)
Definition same_payload {k} : Object k -> Object k -> Prop :=
  match k return Object k -> Object k -> Prop with
  | KConfigMap => fun o o' => cm_Data o' = cm_Data o
  | KSecret => fun o o' => sec_Data o' = sec_Data o
  | _ => fun _ _ => True
  end.

Class QuietLaws (A : ApiServer) := {
  stored_key s k key (o : Object k) : stored s k key = Some o -> key_of o = key;
  quiet_get s k ns n x s' :
    handle (Get k ns n) s = (x, s') ->
    (forall k' key, stored s' k' key = stored s k' key) /\
    match x with
    | Ok o => stored s k (ns, n) = Some o
    | Err e => IsNotFound e = true -> stored s k (ns, n) = None
    end;
  quiet_now s x s' : handle Now s = (x, s') -> forall k key, stored s' k key = stored s k key;
  quiet_create s k o x s' :
    handle (Create k o) s = (x, s') ->
    match x with
    | Ok o' => stored s k (key_of o) = None /\ stored s' k (key_of o) = Some o' /\ same_payload o o'
    | Err _ => forall k' key, stored s' k' key = stored s k' key
    end;
  quiet_update s k o x s' :
    handle (Update k o) s = (x, s') ->
    match x with
    | Ok o' => stored s' k (key_of o) = Some o' /\ same_payload o o'
    | Err _ => forall k' key, stored s' k' key = stored s k' key
    end;
}.

(** ** Reference server

    One writer at a time, reads up to date, resource versions counted. *)
Module MemServer.
Record mem := mkMem {
  objs : forall k : Kind, list (Object k);
  past : forall k : Kind, list (Object k);
  next : Z;
  clock : Time
}.

Definition upd (f : forall k, list (Object k)) (k : Kind) (l : list (Object k)) : forall k, list (Object k) :=
  fun k' => match decide (k = k') with
            | left E => eq_rect k (fun k => list (Object k)) l k' E
            | right _ => f k'
            end.

Definition set_meta {k} : ObjectMeta -> Object k -> Object k :=
  match k return ObjectMeta -> Object k -> Object k with
  | KInstance => fun m o => o <| msp_Meta := m |>
  | KRegistration => fun m o => o <| reg_Meta := m |>
  | KUpgrade => fun m o => o <| upg_Meta := m |>
  | KRestore => fun m o => o <| res_Meta := m |>
  | KDatabase => fun m o => o <| db_Meta := m |>
  | KUser => fun m o => o <| usr_Meta := m |>
  | KConfigMap => fun m o => o <| cm_Meta := m |>
  | KSecret => fun m o => o <| sec_Meta := m |>
  | KDeployment => fun m o => o <| dep_Meta := m |>
  | KNamespace => fun m o => o <| ns_Meta := m |>
  | KServiceAccount => fun m o => o <| sa_Meta := m |>
  | KService => fun m o => o <| svc_Meta := m |>
  | KStatefulSet => fun m o => o <| sts_Meta := m |>
  | KJob => fun m o => o <| job_Meta := m |>
  | KCronJob => fun m o => o <| cj_Meta := m |>
  | KPod => fun m o => o <| pd_Meta := m |>
  | KPersistentVolumeClaim => fun m o => o <| pvc_Meta := m |>
  | KNetworkPolicy => fun m o => o <| np_Meta := m |>
  | KStorageClass => fun m o => o <| scl_Meta := m |>
  | KCertificate => fun m o => o <| us_Meta := m |>
  | KVolumeSnapshot => fun m o => o <| us_Meta := m |>
  | KIssuer => fun m o => o <| us_Meta := m |>
  | KClusterIssuer => fun m o => o <| us_Meta := m |>
  | KVolumeSnapshotClass => fun m o => o <| us_Meta := m |>
  end.

(** The stored object with the status of another version of it. *)
Definition set_status {k} : Object k -> Object k -> Object k :=
  match k return Object k -> Object k -> Object k with
  | KInstance => fun o n => o <| msp_Status := msp_Status n |>
  | KRegistration => fun o n => o <| reg_Status := reg_Status n |>
  | KUpgrade => fun o n => o <| upg_Status := upg_Status n |>
  | KRestore => fun o n => o <| res_Status := res_Status n |>
  | KDatabase => fun o n => o <| db_Status := db_Status n |>
  | KUser => fun o n => o <| usr_Status := usr_Status n |>
  | KDeployment => fun o n => o <| dep_ObservedGeneration := dep_ObservedGeneration n |>
      <| dep_UpdatedReplicas := dep_UpdatedReplicas n |> <| dep_AvailableReplicas := dep_AvailableReplicas n |>
  | KService => fun o n => o <| svc_Ingress := svc_Ingress n |>
  | KStatefulSet => fun o n => o <| sts_ObservedGeneration := sts_ObservedGeneration n |> <| sts_ReadyReplicas := sts_ReadyReplicas n |>
      <| sts_UpdatedReplicas := sts_UpdatedReplicas n |> <| sts_CurrentRevision := sts_CurrentRevision n |>
      <| sts_UpdateRevision := sts_UpdateRevision n |>
  | KJob => fun o n => o <| job_Conditions := job_Conditions n |>
  | KPod => fun o n => o <| pd_ContainerStatuses := pd_ContainerStatuses n |>
  | KPersistentVolumeClaim => fun o n => o <| pvc_Phase := pvc_Phase n |>
  | _ => fun o n => n
  end.

Definition find_obj {k} (key : string * string) (l : list (Object k)) : option (Object k) :=
  List.find (fun o => key_of o == key) l.

Definition not_found : Error := mkError ErrNotFound "not found".
Definition conflict : Error := mkError ErrConflict "the object has been modified".
Definition exists_error : Error := mkError ErrAlreadyExists "already exists".

Definition no_index : Error := mkError ErrInternal "no index for the field".

(** No other servers, and no events reported before. *)
Definition no_site (r : SiteReq) : SiteResp r :=
  match r with
  | ServerSideApply _ _ => Err no_index
  | HTTPDo _ => Err (mkError ErrInternal "connection refused")
  | RequestToken _ _ => Err (mkError ErrInternal "no token")
  | LoadObserved _ => ∅
  | StoreObserved _ _ => tt
  | LoadPending => None
  | StorePending _ => tt
  | Stat _ => Err (mkError ErrNotExist "no such file")
  end.

(** No files, no stream. *)
Definition no_environment (e : EnvReq) : EnvResp e :=
  match e with
  | ReadFile _ => Err (mkError ErrInternal "no such file")
  | RecvAgent => Err (mkError ErrEOF "EOF")
  | RecvHub => Err (mkError ErrEOF "EOF")
  | SendHub _ | SendAgent _ => Err (mkError ErrEOF "EOF")
  | WaitTick _ => Err (mkError ErrCanceled "context canceled")
  | StoreActive _ _ => tt
  | LoadActive => ∅
  | Site r => no_site r
  end.

(** Store a new version of an object. *)
Definition put {k} (o : Object k) (s : mem) : Object k * mem :=
  let o := set_meta ((object_meta o) <| meta_ResourceVersion := FormatInt (next s) |>) o in
  (o, mkMem (upd (objs s) k (o :: filter (fun p => key_of p <> key_of o) (objs s k)))
            (upd (past s) k (o :: past s k)) (next s + 1) (clock s)).

(** Replace the stored version by [f] of it, if the version sent is current. *)
Definition replace {k} (o : Object k) (f : Object k -> Object k) (s : mem) : result (Object k) * mem :=
  match find_obj (key_of o) (objs s k) with
  | None => (Err not_found, s)
  | Some cur =>
      if (version_of o != "") && (version_of o != version_of cur) then (Err conflict, s)
      else let '(o', s') := put (f cur) s in (Ok o', s')
  end.

Definition labels_match (labels : gmap string string) (m : ObjectMeta) : bool :=
  bool_decide (map_Forall (fun k v => meta_Labels m !! k = Some v) labels).

Definition in_namespace (ns : option string) (m : ObjectMeta) : bool :=
  match ns with None => true | Some ns => meta_Namespace m == ns end.

Definition serve (r : Req) (s : mem) : Resp r * mem :=
  match r return Resp r * mem with
  | Get k ns n =>
      (match find_obj (ns, n) (objs s k) with Some o => Ok o | None => Err not_found end, s)
  | List k ns labels =>
      (Ok (List.filter (fun o => in_namespace ns (object_meta o) && labels_match labels (object_meta o))
                       (objs s k)), s)
  | Create k o =>
      match find_obj (key_of o) (objs s k) with
      | Some _ => (Err exists_error, s)
      | None => let '(o', s') := put o s in (Ok o', s')
      end
  | Update k o => replace o (fun _ => o) s
  | UpdateStatus k o => replace o (fun cur => set_status cur o) s
  | Patch k base o => replace o (fun _ => o) s
  | PatchStatus k base o => replace o (fun cur => set_status cur o) s
  | Delete k o =>
      (Ok tt, mkMem (upd (objs s) k (filter (fun p => key_of p <> key_of o) (objs s k)))
                    (past s) (next s) (clock s))
  | Eventf _ _ _ _ _ _ => (tt, s)
  | Now => (clock s, s)
  | RandomBytes n => (Ok (String.concat "" (replicate n "r")), s)
  | ListHasLabel k label =>
      (Ok (List.filter (fun o => bool_decide (is_Some (meta_Labels (object_meta o) !! label))) (objs s k)), s)
  | ListField k ns field value => (Err no_index, s)
  | Env e => (no_environment e, s)
  end.

(** *** The laws hold of it *)
Definition wf (s : mem) : Prop :=
  (0 <= next s)%Z /\
  (forall k o, o ∈ objs s k -> o ∈ past s k) /\
  (forall k o, o ∈ past s k -> exists v, version_of o = FormatInt v /\ (0 <= v < next s)%Z) /\
  (forall k o o', o ∈ past s k -> o' ∈ past s k -> version_of o = version_of o' -> o = o').

Lemma upd_same f k l : upd f k l k = l.
Proof.
  unfold upd. destruct (decide (k = k)) as [E|]; [|done].
  by rewrite (UIP_dec (fun a b : Kind => decide (a = b)) E eq_refl).
Qed.

Lemma object_meta_set_meta {k} m (o : Object k) : object_meta (set_meta m o) = m.
Proof. by destruct k. Qed.

Lemma version_put {k} (o : Object k) s : version_of (put o s).1 = FormatInt (next s).
Proof. unfold version_of. cbn. by rewrite object_meta_set_meta. Qed.

Lemma key_put {k} (o : Object k) s : key_of (put o s).1 = key_of o.
Proof. unfold key_of. cbn. by rewrite object_meta_set_meta. Qed.

Lemma put_objs {k} (o : Object k) s k' p :
  p ∈ objs (put o s).2 k' -> p ∈ objs s k' \/ existT k' p = existT k (put o s).1.
Proof.
  cbn. unfold upd. destruct (decide (k = k')) as [<-|]; [|by left]. cbn.
  rewrite elem_of_cons, list_elem_of_filter. intros [->|[_ ?]]; [by right|by left].
Qed.

Lemma put_past {k} (o : Object k) s k' p :
  p ∈ past (put o s).2 k' <-> p ∈ past s k' \/ existT k' p = existT k (put o s).1.
Proof.
  cbn. unfold upd. destruct (decide (k = k')) as [<-|Hne]; cbn.
  - rewrite elem_of_cons. split; [intros [->|?]; auto|]. intros [?|H]; [auto|].
    apply (inj_pair2_eq_dec _ (fun a b : Kind => decide (a = b))) in H. auto.
  - split; [auto|]. intros [?|H]; [done|]. apply eq_sigT_fst in H. congruence.
Qed.

Lemma FormatInt_nonempty v : FormatInt v <> "".
Proof. intros H. pose proof (parse_signed_FormatInt v) as Hp. rewrite H in Hp. done. Qed.

Lemma wf_put {k} (o : Object k) s : wf s -> wf (put o s).2.
Proof.
  intros (Hn & H1 & H2 & H3). split; [cbn; lia|]. split; [|split].
  - intros k' p Hp. apply put_past. apply put_objs in Hp as [Hp|]; [left; by apply H1|by right].
  - intros k' p Hp. rewrite put_past in Hp. cbn [next put snd]. destruct Hp as [Hp|E].
    + destruct (H2 _ _ Hp) as (v & -> & Hv). exists v. split; [done|]. simpl. lia.
    + pose proof (eq_sigT_fst E) as ->.
      apply (inj_pair2_eq_dec _ (fun a b : Kind => decide (a = b))) in E as ->.
      exists (next s). split; [apply version_put|]. simpl. lia.
  - assert (Hfresh : forall k' (p : Object k') q, p ∈ past s k' -> existT k' q = existT k (put o s).1 ->
      version_of p <> version_of q).
    { intros k' p q Hp E. pose proof (eq_sigT_fst E) as ->.
      apply (inj_pair2_eq_dec _ (fun a b : Kind => decide (a = b))) in E as ->.
      rewrite version_put. destruct (H2 _ _ Hp) as (v & -> & Hv). intros ->%FormatInt_inj. lia. }
    intros k' p q Hp Hq Hv. rewrite put_past in Hp, Hq. destruct Hp as [Hp|Hp], Hq as [Hq|Hq].
    + eauto.
    + by destruct (Hfresh _ _ _ Hp Hq).
    + by destruct (Hfresh _ _ _ Hq Hp).
    + rewrite <- Hp in Hq. by apply (inj_pair2_eq_dec _ (fun a b : Kind => decide (a = b))) in Hq.
Qed.

Lemma find_obj_some {k} key (l : list (Object k)) o : find_obj key l = Some o -> o ∈ l /\ key_of o = key.
Proof.
  intros H. apply List.find_some in H as [Hin Hk]. apply bool_decide_eq_true in Hk.
  split; [by apply list_elem_of_In|done].
Qed.

Lemma replace_spec {k} (o : Object k) f s :
  (replace o f s).2 = s \/ exists cur, (replace o f s).2 = (put (f cur) s).2.
Proof.
  unfold replace. destruct (find_obj _ _) as [cur|]; [|by left]. destruct (_ && _); [by left|].
  right. exists cur. by destruct (put (f cur) s).
Qed.

Lemma serve_put r s :
  (objs (serve r s).2 = objs s /\ past (serve r s).2 = past s /\ next (serve r s).2 = next s) \/
  (exists k (o : Object k), (serve r s).2 = (put o s).2) \/
  (exists k o, r = Delete k o).
Proof.
  destruct r; cbn; eauto 6;
    match goal with
    | |- context [replace ?o ?f ?s] => destruct (replace_spec o f s) as [->|[cur ->]]; eauto 6
    | _ => destruct (find_obj _ _); cbn; eauto 6
    end.
Qed.

Lemma serve_wf r s : wf s -> wf (serve r s).2.
Proof.
  intros Hwf. destruct (serve_put r s) as [(H1 & H2 & H3)|[(k & o & ->)|(k & o & ->)]].
  - unfold wf. by rewrite H1, H2, H3.
  - by apply wf_put.
  - destruct Hwf as (Hn & Ho & Hp & Hv). split; [done|]. split; [|done]. cbn.
    intros k' p. unfold upd. destruct (decide (k = k')) as [<-|]; [|apply Ho]. cbn.
    rewrite list_elem_of_filter. intros [_ ?]. by apply Ho.
Qed.

Definition server : Type := {s : mem | wf s}.

#[global] Instance api : ApiServer := {|
  srv := server;
  handle r s := ((serve r (`s)).1, exist wf _ (serve_wf r (`s) (proj2_sig s)));
  stored s k key := find_obj key (objs (`s) k);
  held s k o := o ∈ past (`s) k;
|}.

Lemma serve_past r s k (o : Object k) : o ∈ past s k -> o ∈ past (serve r s).2 k.
Proof.
  intros Ho. destruct (serve_put r s) as [(_ & -> & _)|[(k' & p & ->)|(k' & p & ->)]];
    [done| |done]. apply put_past. by left.
Qed.

Lemma replace_current {k} (o o' : Object k) f s s' :
  replace o f s = (Ok o', s') -> version_of o <> "" ->
  exists cur, find_obj (key_of o) (objs s k) = Some cur /\ key_of cur = key_of o /\
              version_of cur = version_of o.
Proof.
  unfold replace. destruct (find_obj _ _) as [cur|] eqn:E; [|done].
  destruct (_ && _) eqn:Hc; [done|]. intros _ Hv. exists cur.
  split; [done|]. split; [by apply find_obj_some in E as [_ ->]|].
  rewrite andb_false_iff, !negb_false_iff, !bool_decide_eq_true in Hc. naive_solver.
Qed.

#[global] Instance api_laws : ApiServerLaws api.
Proof.
  split; cbn -[serve].
  - intros r s k o. apply serve_past.
  - intros [s Hs] k key o H%find_obj_some. pose proof Hs as (_ & Ho & _). apply Ho, H.
  - intros [s Hs] k o Ho. pose proof Hs as (_ & _ & Hp & _).
    destruct (Hp _ _ Ho) as (v & -> & _). apply FormatInt_nonempty.
  - intros [s Hs] k o o' Ho Ho' _. pose proof Hs as (_ & _ & _ & Hv). by apply Hv.
  - intros [s Hs] k ns n o s' [= Ho <-]. cbn in *.
    destruct (find_obj (ns, n) (objs s k)) as [o1|] eqn:E; [|done]. injection Ho as ->.
    apply find_obj_some in E as [Hin Hk]. split; [|done]. pose proof Hs as (_ & Hp & _). by apply Hp.
  - intros [s Hs] k o o' s' [= Ho <-] Hv. cbn in *.
    destruct (replace o _ s) as [x s1] eqn:E. cbn in Ho. subst x. by eapply replace_current.
  - intros [s Hs] k o o' s' [= Ho <-] Hv. cbn in *.
    destruct (replace o _ s) as [x s1] eqn:E. cbn in Ho. subst x. by eapply replace_current.
Qed.

Lemma same_payload_set_meta {k} m (o : Object k) : same_payload o (set_meta m o).
Proof. by destruct k. Qed.

Lemma find_obj_put {k} (o : Object k) s :
  find_obj (key_of o) (objs (put o s).2 k) = Some (put o s).1.
Proof.
  cbn. rewrite upd_same. unfold find_obj. cbn [List.find].
  rewrite bool_decide_eq_true_2; [done|]. apply (key_put o s).
Qed.

Lemma replace_ok {k} (o o' : Object k) s s' :
  replace o (fun _ => o) s = (Ok o', s') ->
  find_obj (key_of o) (objs s' k) = Some o' /\ same_payload o o'.
Proof.
  unfold replace. destruct (find_obj _ _) as [cur|]; [|done]. destruct (_ && _); [done|].
  intros [= <- <-]. split; [apply find_obj_put|apply same_payload_set_meta].
Qed.

Lemma replace_err {k} (o : Object k) f s e s' : replace o f s = (Err e, s') -> s' = s.
Proof. unfold replace. repeat case_match; naive_solver. Qed.

#[global] Instance api_quiet : QuietLaws api.
Proof.
  split; cbn -[serve].
  - intros s k key o H. by apply find_obj_some in H as [_ ->].
  - intros [s Hs] k ns n x s' [= <- <-]. cbn. split; [done|].
    by destruct (find_obj (ns, n) (objs s k)).
  - by intros [s Hs] x s' [= <- <-].
  - intros [s Hs] k o x s' [= <- <-]. cbn [serve proj1_sig fst snd].
    destruct (find_obj (key_of o) (objs s k)) as [cur|] eqn:E; [done|]. cbn -[put].
    split; [done|]. split; [apply find_obj_put|apply same_payload_set_meta].
  - intros [s Hs] k o x s' [= <- <-]. cbn [serve proj1_sig fst snd].
    destruct (replace o (fun _ => o) s) as [[o'|e] s1] eqn:E; cbn.
    + by apply replace_ok in E.
    + by apply replace_err in E as ->.
Qed.

Definition empty : server.
Proof.
  refine (exist wf (mkMem (fun _ => []) (fun _ => []) 1 0%Z) _).
  split; [cbn; lia|]. repeat split; cbn; intros; by rewrite ?elem_of_nil in *.
Defined.

(** A cluster holding the given objects. *)
Definition add {k} (o : Object k) (s : server) : server := (handle (Create k o) s).2.
End MemServer.
