(* ===== verification/Codec.v ===== *)
(** * Encodings and cryptography

    The parts of Go's [encoding/base64], [encoding/hex], [encoding/json],
    [crypto/ed25519] and [crypto/sha256] the repository uses.  The base-64 and
    hexadecimal codecs are modelled byte for byte.  The JSON codec, the
    signature scheme and the hash are interfaces with the laws the code relies
    on; each has a reference instance so that theorems can be run. *)

From Stdlib Require Import DecimalString.
From S2P Require Import Prelude Prog.

(** ** base64.RawStdEncoding *)
Module Base64.
Definition alphabet : list ascii :=
  String.list_ascii_of_string "ABCDEFGHIJKLMNOPQRSTUVWXYZabcdefghijklmnopqrstuvwxyz0123456789+/".

Definition digit (n : N) : ascii := default "A"%char (alphabet !! N.to_nat n).

Fixpoint index_of (c : ascii) (l : list ascii) : option nat :=
  match l with
  | [] => None
  | d :: l => if d == c then Some O else S <$> index_of c l
  end.
Definition value (c : ascii) : option N := N.of_nat <$> index_of c alphabet.

Definition byte (n : N) : ascii := ascii_of_N (n mod 256).

(** [EncodeToString]: three bytes give four digits; a final group of one or two
    bytes gives two or three digits, without padding. *)
Fixpoint EncodeToString (s : string) : string :=
  match s with
  | String a (String b (String c s)) =>
      let n := (N_of_ascii a * 65536 + N_of_ascii b * 256 + N_of_ascii c)%N in
      String (digit (n / 262144)) (String (digit (n / 4096 mod 64))
        (String (digit (n / 64 mod 64)) (String (digit (n mod 64)) (EncodeToString s))))
  | String a (String b EmptyString) =>
      let n := (N_of_ascii a * 65536 + N_of_ascii b * 256)%N in
      String (digit (n / 262144)) (String (digit (n / 4096 mod 64))
        (String (digit (n / 64 mod 64)) EmptyString))
  | String a EmptyString =>
      let n := (N_of_ascii a * 65536)%N in
      String (digit (n / 262144)) (String (digit (n / 4096 mod 64)) EmptyString)
  | EmptyString => EmptyString
  end.

Fixpoint values (s : string) : option (list N) :=
  match s with
  | EmptyString => Some []
  | String c s =>
      (* the decoder skips carriage returns and line feeds *)
      if (c == "010"%char) || (c == "013"%char) then values s
      else match value c, values s with
           | Some v, Some vs => Some (v :: vs)
           | _, _ => None
           end
  end.

Fixpoint decode_values (vs : list N) : option string :=
  match vs with
  | a :: b :: c :: d :: vs =>
      let n := (a * 262144 + b * 4096 + c * 64 + d)%N in
      match decode_values vs with
      | Some s => Some (String (byte (n / 65536)) (String (byte (n / 256)) (String (byte n) s)))
      | None => None
      end
  | [a; b; c] =>
      let n := (a * 262144 + b * 4096 + c * 64)%N in
      Some (String (byte (n / 65536)) (String (byte (n / 256)) EmptyString))
  | [a; b] =>
      let n := (a * 262144 + b * 4096)%N in
      Some (String (byte (n / 65536)) EmptyString)
  | [_] => None
  | [] => Some EmptyString
  end.

Definition DecodeString (s : string) : option string :=
  match values s with
  | Some vs => decode_values vs
  | None => None
  end.

Lemma N_of_ascii_bound c : (N_of_ascii c < 256)%N.
Proof. apply N_ascii_bounded. Qed.

Lemma byte_N_of_ascii n c : (n mod 256 = N_of_ascii c)%N -> byte n = c.
Proof. intros H. unfold byte. rewrite H. apply ascii_N_embedding. Qed.

(** Each of the 64 digits reads back as its value and is not a line break. *)
Definition digit_ok (n : N) : bool :=
  (value (digit n) == Some n) &&
  negb ((digit n == "010"%char) || (digit n == "013"%char)).

Lemma digits_ok : forallb (fun k => digit_ok (N.of_nat k)) (seq 0 64) = true.
Proof. vm_compute. reflexivity. Qed.

Lemma values_digit n s vs :
  (n < 64)%N -> values s = Some vs -> values (String (digit n) s) = Some (n :: vs).
Proof.
  intros Hn Hs. pose proof digits_ok as H. rewrite forallb_forall in H.
  specialize (H (N.to_nat n)). rewrite N2Nat.id in H.
  assert (digit_ok n = true) as Hd by (apply H, in_seq; lia).
  unfold digit_ok in Hd. apply andb_prop in Hd as [Hv Hl].
  apply bool_decide_eq_true in Hv. apply negb_true_iff in Hl.
  cbn [values]. rewrite Hl, Hv, Hs. done.
Qed.

Lemma div_lt_64 a n : (a < n * 64)%N -> (0 < n)%N -> (a / n < 64)%N.
Proof. intros H Hn. apply N.Div0.div_lt_upper_bound. lia. Qed.

(** The numeric content of one group of three bytes. *)
Lemma group_regroup n :
  (n < 16777216)%N ->
  (n / 262144 * 262144 + (n / 4096) mod 64 * 4096 + (n / 64) mod 64 * 64 + n mod 64 = n)%N.
Proof. intros H. zify. Z.to_euclidean_division_equations. lia. Qed.

Lemma string_ind3 (P : string -> Prop) :
  P "" -> (forall a, P (String a "")) -> (forall a b, P (String a (String b ""))) ->
  (forall a b c s, P s -> P (String a (String b (String c s)))) -> forall s, P s.
Proof.
  intros H0 H1 H2 H3 s.
  assert (P s /\ (forall a, P (String a s)) /\ (forall a b, P (String a (String b s)))) as [H _];
    [|exact H].
  induction s as [|c s (IH0 & IH1 & IH2)]; [auto|]. repeat split; auto.
Qed.

(** The values of an encoding, group by group. *)
Lemma values_Encode3 a b c s vs :
  values (EncodeToString s) = Some vs ->
  let n := (N_of_ascii a * 65536 + N_of_ascii b * 256 + N_of_ascii c)%N in
  values (EncodeToString (String a (String b (String c s)))) =
  Some ((n / 262144) :: (n / 4096) mod 64 :: (n / 64) mod 64 :: n mod 64 :: vs)%N.
Proof.
  intros Hs n. pose proof (N_of_ascii_bound a). pose proof (N_of_ascii_bound b).
  pose proof (N_of_ascii_bound c). cbn [EncodeToString]. fold n.
  repeat (apply values_digit; [first [by apply N.mod_lt | apply div_lt_64; unfold n; lia]|]).
  exact Hs.
Qed.

(** Decoding an encoded string gives the string. *)
Lemma Decode_Encode s : DecodeString (EncodeToString s) = Some s.
Proof.
  assert (exists vs, values (EncodeToString s) = Some vs /\ decode_values vs = Some s)
    as (vs & H1 & H2); [|unfold DecodeString; by rewrite H1].
  induction s as [|a|a b|a b c s (vs & IH1 & IH2)] using string_ind3.
  - by exists [].
  - pose proof (N_of_ascii_bound a). set (n := (N_of_ascii a * 65536)%N).
    exists [n / 262144; (n / 4096) mod 64]%N. split.
    + cbn [EncodeToString]. fold n.
      apply values_digit; [apply div_lt_64; unfold n; lia|].
      apply values_digit; [by apply N.mod_lt|done].
    + cbn [decode_values]. do 2 f_equal. apply byte_N_of_ascii. unfold n.
      zify. Z.to_euclidean_division_equations. lia.
  - pose proof (N_of_ascii_bound a). pose proof (N_of_ascii_bound b).
    set (n := (N_of_ascii a * 65536 + N_of_ascii b * 256)%N).
    exists [n / 262144; (n / 4096) mod 64; (n / 64) mod 64]%N. split.
    + cbn [EncodeToString]. fold n.
      apply values_digit; [apply div_lt_64; unfold n; lia|].
      do 2 (apply values_digit; [by apply N.mod_lt|]). done.
    + cbn [decode_values].
      replace (n / 262144 * 262144 + (n / 4096) mod 64 * 4096 + (n / 64) mod 64 * 64)%N with n
        by (unfold n; zify; Z.to_euclidean_division_equations; lia).
      do 2 f_equal; [|f_equal]; apply byte_N_of_ascii; unfold n;
        zify; Z.to_euclidean_division_equations; lia.
  - pose proof (N_of_ascii_bound a). pose proof (N_of_ascii_bound b). pose proof (N_of_ascii_bound c).
    eexists. split; [by apply values_Encode3|]. cbn [decode_values]. rewrite IH2.
    rewrite group_regroup by lia.
    do 2 f_equal; [|f_equal; [|f_equal]]; apply byte_N_of_ascii;
      zify; Z.to_euclidean_division_equations; lia.
Qed.

(** [base64.StdEncoding]: the same digits, padded to groups of four.  The
    decoder skips line breaks anywhere. *)
Definition padding (n : nat) : string :=
  match (n mod 4)%nat with 2 => "==" | 3 => "=" | _ => "" end%nat.
Definition std_EncodeToString (s : string) : string :=
  let digits := EncodeToString s in digits +:+ padding (String.length digits).

Fixpoint without_breaks (s : string) : string :=
  match s with
  | EmptyString => ""
  | String c s => if (c == "010"%char) || (c == "013"%char) then without_breaks s else String c (without_breaks s)
  end.
Definition std_DecodeString (s : string) : option string :=
  let t := without_breaks s in
  let n := String.length t in
  if negb (n mod 4 =? 0)%nat then None
  else if HasSuffix t "==" then DecodeString (String.substring 0 (n - 2) t)
  else if HasSuffix t "=" then DecodeString (String.substring 0 (n - 1) t)
  else DecodeString t.

(** [base64.RawURLEncoding.EncodeToString] *)
Fixpoint url_digits (s : string) : string :=
  match s with
  | EmptyString => ""
  | String c s => String (if c == "+"%char then "-"%char else if c == "/"%char then "_"%char else c) (url_digits s)
  end.
Definition url_EncodeToString (s : string) : string := url_digits (EncodeToString s).
End Base64.

(** ** hex.EncodeToString *)
Definition hex_digit (n : N) : ascii := default "0"%char (String.list_ascii_of_string "0123456789abcdef" !! N.to_nat n).
Fixpoint hex_EncodeToString (s : string) : string :=
  match s with
  | EmptyString => ""
  | String c s =>
      String (hex_digit (N_of_ascii c / 16)) (String (hex_digit (N_of_ascii c mod 16)) (hex_EncodeToString s))
  end.

(** ** base32.StdEncoding without padding *)
Definition base32_alphabet : list ascii := String.list_ascii_of_string "ABCDEFGHIJKLMNOPQRSTUVWXYZ234567".
(** The bits of a byte, highest first. *)
Definition byte_bits (c : ascii) : list bool :=
  (fun i => N.testbit (N_of_ascii c) i) <$> [7; 6; 5; 4; 3; 2; 1; 0]%N.
Definition bits_value (bits : list bool) : N := foldl (fun n (b : bool) => 2 * n + (if b then 1 else 0))%N 0%N bits.
(** A digit for every five bits, the last group filled with zeros. *)
Fixpoint base32_digits (fuel : nat) (bits : list bool) : string :=
  match fuel, bits with
  | _, [] | O, _ => ""
  | S fuel, _ =>
      String (default "A"%char (base32_alphabet !! N.to_nat (bits_value (resize 5 false bits))))
        (base32_digits fuel (drop 5 bits))
  end.
Definition base32_EncodeToString (s : string) : string :=
  let bits := concat (byte_bits <$> String.list_ascii_of_string s) in base32_digits (length bits) bits.

(** [strings.ToLower] of ASCII text *)
Definition lower (c : ascii) : ascii :=
  let n := N_of_ascii c in if ((65 <=? n) && (n <=? 90))%N then ascii_of_N (n + 32) else c.
Fixpoint ToLower (s : string) : string :=
  match s with EmptyString => "" | String c s => String (lower c) (ToLower s) end.

(** ** Signatures and hashes *)
Class Crypto := {
  ed25519_NewKeyFromSeed : string -> string;
  ed25519_Public : string -> string;
  ed25519_Sign : string -> string -> string;
  ed25519_Verify : string -> string -> string -> bool;
  sha256 : string -> string;
}.
Definition ed25519_SeedSize : nat := 32.
Definition ed25519_PrivateKeySize : nat := 64.
Definition ed25519_PublicKeySize : nat := 32.

Class CryptoLaws (C : Crypto) := {
  private_size seed : String.length seed = ed25519_SeedSize ->
    String.length (ed25519_NewKeyFromSeed seed) = ed25519_PrivateKeySize;
  public_size sk : String.length sk = ed25519_PrivateKeySize ->
    String.length (ed25519_Public sk) = ed25519_PublicKeySize;
  verify_sign sk m : String.length sk = ed25519_PrivateKeySize ->
    ed25519_Verify (ed25519_Public sk) m (ed25519_Sign sk m) = true;
}.

(** ** JSON

    [json_Marshal] is the encoding of a value, which [json_Compact] leaves as
    it is; [json_Unmarshal] reads it back.  [json_wire] is the value as it is read back: fields tagged
    [json:"-"] are not transmitted.  [json_text] states that every string of
    the value is valid UTF-8, which [encoding/json] needs to transmit it
    unchanged. *)
Class Json (T : Type) := {
  json_Marshal : T -> result string;
  json_Compact : string -> result string;
  json_Unmarshal : string -> result T;
  json_wire : T -> T;
  json_text : T -> Prop;
}.

Class JsonLaws T (J : Json T) := {
  compact_marshal x s : json_Marshal x = Ok s -> json_Compact s = Ok s;
  unmarshal_marshal x s :
    json_text x -> json_Marshal x = Ok s -> json_Unmarshal s = Ok (json_wire x);
  unmarshal_error s e : json_Unmarshal s = Err e -> err_reason e = ErrInternal;
}.

Lemma marshal_inj `{JsonLaws T} x y s :
  json_text x -> json_text y -> json_Marshal x = Ok s -> json_Marshal y = Ok s ->
  json_wire x = json_wire y.
Proof.
  intros Hx Hy Hmx Hmy. apply unmarshal_marshal in Hmx, Hmy; [congruence|done|done].
Qed.

(** ** Times as text: [time.RFC3339Nano], and [time.RFC3339] to the second *)
Class TimeText := {
  FormatTime : Time -> string;
  FormatSeconds : Time -> string;
  ParseTime : string -> option Time;
}.
Class TimeTextLaws (T : TimeText) := {
  parse_format t : ParseTime (FormatTime t) = Some t;
}.

(** ** Reference instances *)
Module RefCodec.
Definition public (sk : string) : string := String.substring 0 32 sk.
#[global] Instance crypto : Crypto := {|
  ed25519_NewKeyFromSeed seed := seed +:+ seed;
  ed25519_Public := public;
  ed25519_Sign sk m := public sk +:+ m;
  ed25519_Verify pk m s := s == (pk +:+ m);
  sha256 m := m;
|}.

Lemma substring_length n s : (n <= String.length s)%nat -> String.length (String.substring 0 n s) = n.
Proof.
  revert s. induction n as [|n IH]; intros [|c s] H; simpl in *; [done|done|lia|].
  rewrite IH; lia.
Qed.

#[global] Instance crypto_laws : CryptoLaws crypto.
Proof.
  split.
  - intros seed H. cbn [ed25519_NewKeyFromSeed crypto].
    assert (E : forall a b, String.length (a +:+ b) = (String.length a + String.length b)%nat).
    { induction a as [|c a IH]; intros b; [done|]. change (S (String.length (a +:+ b)) = S (String.length a + String.length b)). f_equal. apply IH. }
    by rewrite E, H.
  - intros sk H. simpl. apply substring_length. rewrite H. vm_compute. lia.
  - intros sk m _. simpl. by apply bool_decide_eq_true.
Qed.

#[global] Instance time_text : TimeText := {|
  FormatTime := FormatInt;
  FormatSeconds t := FormatInt (time_Unix t);
  ParseTime := parse_signed;
|}.
#[global] Instance time_text_laws : TimeTextLaws time_text.
Proof. constructor. exact parse_signed_FormatInt. Qed.

(** A self-delimiting text format for the reference instances. *)
Class Serial (T : Type) := {
  ser : T -> string;
  par : string -> option (T * string);
  par_ser x rest : par (ser x +:+ rest) = Some (x, rest);
}.

Fixpoint ser_string (s : string) : string :=
  match s with EmptyString => "0" | String c s => String "1" (String c (ser_string s)) end.
Fixpoint par_string (s : string) : option (string * string) :=
  match s with
  | String "0" rest => Some ("", rest)
  | String "1" (String c s) =>
      match par_string s with Some (w, rest) => Some (String c w, rest) | None => None end
  | _ => None
  end.
#[global] Instance serial_string : Serial string.
Proof.
  refine ({| ser := ser_string; par := par_string |}).
  intros x rest. induction x as [|c x IH]; [done|].
  cbn [ser_string]. rewrite !app_cons_string. cbn [par_string]. by rewrite IH.
Defined.

(** A type whose values are read back from another's. *)
Definition serial_iso {A B} `{Serial B} (f : A -> B) (g : B -> option A)
  (Hgf : forall x, g (f x) = Some x) : Serial A.
Proof.
  refine {| ser x := ser (f x);
            par s := match par s with
                     | Some (y, rest) => match g y with Some x => Some (x, rest) | None => None end
                     | None => None
                     end |}.
  intros x rest. by rewrite par_ser, Hgf.
Defined.

#[global] Instance serial_Z : Serial Z := serial_iso FormatInt parse_signed parse_signed_FormatInt.

#[global] Instance serial_bool : Serial bool.
Proof.
  refine ({|
  ser (b : bool) := if b then "t" else "f";
  par s := match s with
           | String "t" rest => Some (true, rest)
           | String "f" rest => Some (false, rest)
           | _ => None
           end
|}).
  by intros [] rest.
Defined.

#[global] Instance serial_prod `{Serial A, Serial B} : Serial (A * B).
Proof.
  refine ({|
  ser (p : A * B) := ser p.1 +:+ ser p.2;
  par s := match par s with
           | Some (a, s) => match par s with Some (b, rest) => Some ((a, b), rest) | None => None end
           | None => None
           end
|}).
  intros [a b] rest. cbn [fst snd]. by rewrite <- app_assoc_string, !par_ser. 
Defined.

#[global] Instance serial_option `{Serial A} : Serial (option A).
Proof.
  refine ({|
  ser (o : option A) := match o with None => "0" | Some a => String "1" (ser a) end;
  par s := match s with
           | String "0" rest => Some (None, rest)
           | String "1" s => match par s with Some (a, rest) => Some (Some a, rest) | None => None end
           | _ => None
           end
|}).
  intros [a|] rest; [|done]. rewrite app_cons_string. by rewrite par_ser. 
Defined.

Section serial_list.
Context `{Serial A}.
Fixpoint ser_list (l : list A) : string :=
  match l with [] => "0" | x :: l => String "1" (ser x +:+ ser_list l) end.
Fixpoint par_list (fuel : nat) (s : string) : option (list A * string) :=
  match fuel, s with
  | _, String "0" rest => Some ([], rest)
  | S fuel, String "1" s =>
      match par s with
      | Some (x, s) =>
          match par_list fuel s with Some (l, rest) => Some (x :: l, rest) | None => None end
      | None => None
      end
  | _, _ => None
  end.

Lemma par_ser_list l n rest : (length l <= n)%nat -> par_list n (ser_list l +:+ rest) = Some (l, rest).
Proof.
  revert n. induction l as [|x l IH]; intros n Hn; [by destruct n|].
  destruct n as [|n]; [simpl in Hn; lia|]. cbn [ser_list]. rewrite app_cons_string.
  cbn [par_list]. rewrite <- app_assoc_string, par_ser, IH; [done|]. simpl in Hn. lia.
Qed.

Lemma string_app_length a b : String.length (a +:+ b) = (String.length a + String.length b)%nat.
Proof. induction a as [|c a IH]; [done|]. rewrite app_cons_string. simpl. by rewrite IH. Qed.

Lemma ser_list_length l rest : (length l <= String.length (ser_list l +:+ rest))%nat.
Proof.
  induction l as [|x l IH]; [simpl; lia|]. cbn [ser_list].
  rewrite app_cons_string, <- app_assoc_string. simpl. rewrite string_app_length. lia.
Qed.

#[global] Instance serial_list : Serial (list A).
Proof.
refine ({|
  ser := ser_list; par s := par_list (String.length s) s
|}).
intros x rest. apply par_ser_list, ser_list_length. 
Defined.
End serial_list.

#[global] Instance serial_gmap `{Serial A} : Serial (gmap string A) :=
  serial_iso map_to_list (fun l => Some (list_to_map l))
    (fun m => f_equal Some (list_to_map_to_list m)).

(** A JSON codec of any such type, with the fields [w] leaves out. *)
Definition json_of `{Serial T} (w : T -> T) : Json T := {|
  json_Marshal x := Ok (ser (w x));
  json_Compact s := Ok s;
  json_Unmarshal s :=
    match par s with
    | Some (x, EmptyString) => Ok x
    | _ => Err (errors_New "invalid JSON")
    end;
  json_wire := w;
  json_text _ := True;
|}.

Lemma json_of_laws `{Serial T} (w : T -> T) : JsonLaws T (json_of w).
Proof.
  constructor; [done| |].
  - intros x s _ H'. injection H' as <-. cbn [json_Unmarshal json_of json_wire].
    pose proof (par_ser (w x) "") as Hp. rewrite app_nil_string in Hp. by rewrite Hp.
  - intros s e. cbn. destruct (par s) as [[x [|]]|]; intros [= <-]; done.
Qed.
End RefCodec.
