(* ===== verification/NetAddr.v ===== *)
(** * IPv4 addresses

    The parts of Go's [net/netip] and [net] the repository uses: IPv4 addresses
    and networks as text, the next address, membership in a network, and
    host:port pairs.  An address is its 32-bit number.  The callers refuse every
    address that is not an IPv4 address, so parsing returns [None] for IPv6
    addresses and for text that is no address alike. *)

From S2P Require Import Prelude Prog.

Definition Addr := Z.
Definition is_addr (a : Addr) : Prop := (0 <= a < 4294967296)%Z.

(** [addr.String()] *)
Definition addr_octets (a : Addr) : list Z :=
  [(a `div` 16777216)%Z; ((a `div` 65536) `mod` 256)%Z; ((a `div` 256) `mod` 256)%Z; (a `mod` 256)%Z].
Definition addr_String (a : Addr) : string := Join (FormatInt <$> addr_octets a) ".".

(** A decimal field without sign and leading zeros, at most [max]. *)
Definition is_digit (c : ascii) : bool := let n := N_of_ascii c in ((48 <=? n) && (n <=? 57))%N.
Definition digits (s : string) : bool := forallb is_digit (String.list_ascii_of_string s).
Definition digits_value (s : string) : Z :=
  foldl (fun n c => 10 * n + (Z.of_N (N_of_ascii c) - 48))%Z 0%Z (String.list_ascii_of_string s).
Definition parse_field (max : Z) (s : string) : option Z :=
  match s with
  | EmptyString => None
  | String c rest =>
      if negb (digits s) || ((c == "0"%char) && (rest != "")) then None
      else if (digits_value s <=? max)%Z then Some (digits_value s) else None
  end.

(** [netip.ParseAddr], of an IPv4 address. *)
Definition ParseAddr (s : string) : option Addr :=
  match mapM (parse_field 255) (Split s ".") with
  | Some [a; b; c; d] => Some (a * 16777216 + b * 65536 + c * 256 + d)%Z
  | _ => None
  end.

(** [netip.Prefix] with an IPv4 address. *)
Record Prefix := mkPrefix { pfx_Addr : Addr; pfx_Bits : Z }.
#[global] Instance Prefix_eq_dec : EqDecision Prefix.
Proof. solve_decision. Defined.

Definition prefix_size (p : Prefix) : Z := (2 ^ (32 - pfx_Bits p))%Z.
Definition prefix_Masked (p : Prefix) : Prefix := mkPrefix (pfx_Addr p - (pfx_Addr p `mod` prefix_size p))%Z (pfx_Bits p).
Definition prefix_Contains (p : Prefix) (a : Addr) : bool :=
  bool_decide (a - (a `mod` prefix_size p) = pfx_Addr p - (pfx_Addr p `mod` prefix_size p))%Z.
Definition prefix_String (p : Prefix) : string := addr_String (pfx_Addr p) +:+ "/" +:+ FormatInt (pfx_Bits p).

(** The text before and after the last occurrence of a byte. *)
Fixpoint cut_last (s : string) (sep : ascii) : option (string * string) :=
  match s with
  | EmptyString => None
  | String c rest =>
      match cut_last rest sep with
      | Some (a, b) => Some (String c a, b)
      | None => if c == sep then Some ("", rest) else None
      end
  end.

(** [netip.ParsePrefix], of an IPv4 network. *)
Definition ParsePrefix (s : string) : option Prefix :=
  match cut_last s "/" with
  | Some (ip, bits) =>
      match ParseAddr ip, parse_field 32 bits with
      | Some a, Some b => Some (mkPrefix a b)
      | _, _ => None
      end
  | None => None
  end.

(** [net.SplitHostPort]: the host, without the brackets of an IPv6 literal, and
    the port after the last colon. *)
Definition SplitHostPort (s : string) : option (string * string) :=
  match cut_last s ":" with
  | None => None
  | Some (host, port) =>
      let bare := in_string "[" port || in_string "]" port in
      match host with
      | String "[" inner =>
          (* the first closing bracket must be the last byte of the host *)
          match cut_last inner "]" with
          | Some (literal, "") =>
              if bare || in_string "[" literal || in_string "]" literal then None else Some (literal, port)
          | _ => None
          end
      | _ => if bare || in_string ":" host || in_string "[" host || in_string "]" host then None else Some (host, port)
      end
  end.

(** ** URLs *)

(** The parts of [net/url.URL] the source reads. *)
Record URL := mkURL { url_Scheme : string; url_Host : string; url_Hostname : string; url_Port : string }.
Class UrlLib := { url_Parse : string -> result URL }.

(** ** Lemmas *)
Lemma digits_value_nonneg l n : (0 <= n)%Z -> forallb is_digit l = true ->
  (0 <= foldl (fun n c => 10 * n + (Z.of_N (N_of_ascii c) - 48))%Z n l)%Z.
Proof.
  revert n. induction l as [|c l IH]; intros n Hn Hd; [done|].
  simpl in *. bool_to_prop. apply IH; [|done]. unfold is_digit in *. bool_to_prop.
  match goal with H : (48 <=? _)%N = true |- _ => apply N.leb_le in H end. lia.
Qed.

Lemma parse_field_bounds max s v : parse_field max s = Some v -> (0 <= v <= max)%Z.
Proof.
  unfold parse_field. destruct s as [|c rest]; [done|]. destruct (digits (String c rest)) eqn:Hd; [|done].
  destruct (_ && _); [done|]. cbn [negb orb]. destruct (_ <=? _)%Z eqn:Hm; [|done]. intros [= <-].
  apply Z.leb_le in Hm. split; [|done]. by apply digits_value_nonneg.
Qed.

Lemma ParseAddr_range s a : ParseAddr s = Some a -> is_addr a.
Proof.
  unfold ParseAddr. destruct (mapM _ _) as [l|] eqn:E; [|done]. apply mapM_Some in E.
  assert (Hl : Forall (fun v => (0 <= v <= 255)%Z) l).
  { eapply Forall2_Forall_r; [exact E|]. apply list.Forall_forall. intros x _ v. apply parse_field_bounds. }
  destruct l as [|a0 [|b [|c [|d []]]]]; try done. intros [= <-].
  rewrite !list.Forall_cons in Hl. unfold is_addr. lia.
Qed.

Lemma ParsePrefix_range s p : ParsePrefix s = Some p -> is_addr (pfx_Addr p) /\ (0 <= pfx_Bits p <= 32)%Z.
Proof.
  unfold ParsePrefix. destruct (cut_last s "/") as [[ip bits]|]; [|done].
  destruct (ParseAddr ip) as [a|] eqn:Ea; [|done]. destruct (parse_field 32 bits) as [b|] eqn:Eb; [|done].
  intros [= <-]. split; [by eapply ParseAddr_range|by eapply parse_field_bounds].
Qed.

(** ** Round trip *)
Lemma Split_app s t sep : in_string sep s = false -> Split (s +:+ String sep "" +:+ t) sep = s :: Split t sep.
Proof.
  change (String sep "" +:+ t) with (String sep t). induction s as [|c s IH]; intros H.
  - simpl. by rewrite bool_decide_eq_true_2.
  - rewrite app_cons_string. simpl in *. apply orb_false_iff in H as [Hc H]. rewrite IH by done.
    apply bool_decide_eq_false in Hc. by rewrite bool_decide_eq_false_2.
Qed.
Lemma Split_alone s sep : in_string sep s = false -> Split s sep = [s].
Proof.
  induction s as [|c s IH]; [done|]. simpl. intros [Hc H]%orb_false_iff. rewrite IH by done.
  apply bool_decide_eq_false in Hc. by rewrite bool_decide_eq_false_2.
Qed.

Definition octet_ok (v : Z) : bool :=
  negb (in_string "." (FormatInt v)) && (parse_field 255 (FormatInt v) == Some v).
Lemma octets_ok : forallb (fun k => octet_ok (Z.of_nat k)) (seq 0 256) = true.
Proof. vm_compute. reflexivity. Qed.
Lemma octet_spec v : (0 <= v < 256)%Z -> in_string "." (FormatInt v) = false /\ parse_field 255 (FormatInt v) = Some v.
Proof.
  intros Hv. pose proof octets_ok as H. rewrite forallb_forall in H.
  specialize (H (Z.to_nat v)). rewrite Z2Nat.id in H by lia. unfold octet_ok in H.
  assert (Hin : In (Z.to_nat v) (seq 0 256)) by (apply in_seq; lia). specialize (H Hin). bool_to_prop. done.
Qed.

Lemma addr_octets_range a : is_addr a -> Forall (fun v => (0 <= v < 256)%Z) (addr_octets a).
Proof.
  unfold is_addr, addr_octets. intros Ha. repeat constructor; Z.to_euclidean_division_equations; lia.
Qed.

Lemma ParseAddr_String a : is_addr a -> ParseAddr (addr_String a) = Some a.
Proof.
  intros Ha. pose proof (addr_octets_range a Ha) as Hr. unfold ParseAddr, addr_String.
  unfold addr_octets in *. rewrite !list.Forall_cons in Hr. destruct Hr as (H1 & H2 & H3 & H4 & _).
  apply octet_spec in H1 as [D1 P1], H2 as [D2 P2], H3 as [D3 P3], H4 as [D4 P4].
  cbn [fmap list_fmap Join]. rewrite !(Split_app _ _ "."), Split_alone by done.
  cbn [mapM]. rewrite P1, P2, P3, P4. cbn. f_equal.
  unfold is_addr in Ha. Z.to_euclidean_division_equations. lia.
Qed.

Lemma addr_String_inj a b : is_addr a -> is_addr b -> addr_String a = addr_String b -> a = b.
Proof. intros Ha Hb E. pose proof (ParseAddr_String a Ha) as H. rewrite E, ParseAddr_String in H by done. by injection H. Qed.

(** ** Canonical networks *)
Definition canonical (p : Prefix) : Prop := is_addr (pfx_Addr p) /\ (0 <= pfx_Bits p <= 32)%Z /\ prefix_Masked p = p.

Lemma prefix_size_pos p : (0 <= pfx_Bits p <= 32)%Z -> (0 < prefix_size p)%Z.
Proof. intros H. unfold prefix_size. apply Z.pow_pos_nonneg; lia. Qed.

Lemma canonical_contains p a : canonical p ->
  prefix_Contains p a = true <-> (pfx_Addr p <= a < pfx_Addr p + prefix_size p)%Z.
Proof.
  intros (_ & Hb & Hm). pose proof (prefix_size_pos p Hb) as Hs. unfold prefix_Contains. rewrite bool_decide_eq_true.
  assert (E : (pfx_Addr p - (pfx_Addr p `mod` prefix_size p) = pfx_Addr p)%Z) by exact (f_equal pfx_Addr Hm).
  rewrite E. pose proof (Z.mod_pos_bound a (prefix_size p) Hs) as Hma.
  split; [lia|]. intros Ha.
  assert (a `mod` prefix_size p = a - pfx_Addr p)%Z; [|lia].
  assert (Hp0 : (pfx_Addr p `mod` prefix_size p = 0)%Z) by lia.
  replace a with (pfx_Addr p + (a - pfx_Addr p))%Z at 1 by lia.
  rewrite Zplus_mod, Hp0, Z.add_0_l, Zmod_mod. apply Z.mod_small. lia.
Qed.

(** The last address of a canonical network is an address. *)
Lemma canonical_bound p : canonical p -> (pfx_Addr p + prefix_size p <= 4294967296)%Z.
Proof.
  intros ([Ha1 Ha2] & Hb & Hm). pose proof (prefix_size_pos p Hb) as Hs.
  assert (E : (pfx_Addr p `mod` prefix_size p = 0)%Z).
  { pose proof (f_equal pfx_Addr Hm) as H. simpl in H. lia. }
  assert (Hd : (4294967296 = prefix_size p * 2 ^ pfx_Bits p)%Z).
  { unfold prefix_size. rewrite <- Z.pow_add_r by lia. by replace (32 - pfx_Bits p + pfx_Bits p)%Z with 32%Z by lia. }
  apply Z.div_exact in E; [|lia]. rewrite E in Ha2 |- *. rewrite Hd in *.
  assert (pfx_Addr p `div` prefix_size p < 2 ^ pfx_Bits p)%Z by nia. nia.
Qed.
