(* ===== verification/IpAddr.v ===== *)
(** * IP addresses as text

    Go's [net.IP], IPv4 and IPv6 alike: [net.ParseIP], [IP.Equal] and
    [IP.String].  An address is its sixteen bytes, an IPv4 address the one
    mapped into IPv6, as [net.ParseIP] returns it. *)

From S2P Require Import Prelude Prog NetAddr.

Definition IP := list Z.
Definition v4_prefix : IP := [0; 0; 0; 0; 0; 0; 0; 0; 0; 0; 255; 255]%Z.

(** ** [net.ParseIP] *)
Definition ParseIPv4 (s : string) : option IP := addr_octets <$> ParseAddr s.

Definition hex_value (c : ascii) : option Z :=
  let n := Z.of_N (N_of_ascii c) in
  (if (48 <=? n) && (n <=? 57) then Some (n - 48)
   else if (97 <=? n) && (n <=? 102) then Some (n - 87)
   else if (65 <=? n) && (n <=? 70) then Some (n - 55)
   else None)%Z.

(** The hexadecimal digits at the start: their number, their value, the rest. *)
Fixpoint hex_field (s : string) (off : nat) (acc : Z) : nat * Z * string :=
  match s with
  | String c rest =>
      match hex_value c with
      | Some d => hex_field rest (S off) (16 * acc + d)%Z
      | None => (off, acc, s)
      end
  | EmptyString => (off, acc, "")
  end.

(** The fields of an IPv6 address: at most eight of two bytes, the last two
    possibly an IPv4 address.  [ellipsis] is the offset of a double colon. *)
Fixpoint ipv6_fields (fuel : nat) (s : string) (ip : IP) (ellipsis : option nat) : option (IP * option nat * string) :=
  match fuel with
  | O => Some (ip, ellipsis, s)
  | S fuel =>
      let '(off, acc, rest) := hex_field s 0 0%Z in
      if (off =? 0)%nat || (4 <? off)%nat then None
      else match rest with
      | EmptyString => Some (ip ++ [(acc `div` 256)%Z; (acc `mod` 256)%Z], ellipsis, "")
      | String "." _ =>
          if (bool_decide (ellipsis = None) && negb (length ip =? 12)%nat) || (12 <? length ip)%nat then None
          else match ParseIPv4 s with
               | Some v4 => Some (ip ++ v4, ellipsis, "")
               | None => None
               end
      | String ":" rest =>
          let ip := ip ++ [(acc `div` 256)%Z; (acc `mod` 256)%Z] in
          match rest with
          | EmptyString => None
          | String ":" rest =>
              if bool_decide (is_Some ellipsis) then None
              else if rest == "" then Some (ip, Some (length ip), "")
              else ipv6_fields fuel rest ip (Some (length ip))
          | _ => ipv6_fields fuel rest ip ellipsis
          end
      | _ => None
      end
  end.

Definition ParseIPv6 (s : string) : option IP :=
  let '(s, ellipsis) := if HasPrefix s "::" then (drop_string 2 s, Some 0%nat) else (s, None) in
  if bool_decide (is_Some ellipsis) && (s == "") then Some (replicate 16 0%Z)
  else match ipv6_fields 8 s [] ellipsis with
       | Some (ip, ellipsis, "") =>
           match ellipsis with
           | None => if (length ip =? 16)%nat then Some ip else None
           | Some e =>
               if (length ip <? 16)%nat then Some (take e ip ++ replicate (16 - length ip) 0%Z ++ drop e ip) else None
           end
       | _ => None
       end.

(** The first dot or colon decides between the two forms. *)
Fixpoint ip_form (s : string) : option ascii :=
  match s with
  | EmptyString => None
  | String c s => if (c == "."%char) || (c == ":"%char) then Some c else if c == "%"%char then None else ip_form s
  end.
Definition ParseIP (s : string) : option IP :=
  match ip_form s with
  | Some "."%char => app v4_prefix <$> ParseIPv4 s
  | Some _ => ParseIPv6 s
  | None => None
  end.

(** ** [IP.String] *)
Definition is_v4 (ip : IP) : bool := bool_decide (take 12 ip = v4_prefix).

Fixpoint groups (ip : IP) : list Z :=
  match ip with
  | a :: b :: ip => (256 * a + b)%Z :: groups ip
  | _ => []
  end.

Fixpoint hex_digits (fuel : nat) (n : Z) (acc : string) : string :=
  match fuel with
  | O => acc
  | S fuel =>
      let acc := String (hex_nibble (Z.to_N (n `mod` 16))) acc in
      if (n <? 16)%Z then acc else hex_digits fuel (n `div` 16)%Z acc
  end.
(** A group in lower-case hexadecimal without leading zeros. *)
Definition group_String (n : Z) : string := hex_digits 4 n "".

Fixpoint zeros (l : list Z) : nat :=
  match l with 0%Z :: l => S (zeros l) | _ => O end.
(** The first longest run of zero groups: offset and length. *)
Fixpoint longest_run (l : list Z) (i best_i best_n : nat) : nat * nat :=
  match l with
  | [] => (best_i, best_n)
  | _ :: l' => if (best_n <? zeros l)%nat then longest_run l' (S i) i (zeros l) else longest_run l' (S i) best_i best_n
  end.

Definition IP_String (ip : IP) : string :=
  if is_v4 ip then Join (FormatInt <$> drop 12 ip) "."
  else
    let gs := groups ip in
    let '(i, n) := longest_run gs 0 0 0 in
    let text l := Join (group_String <$> l) ":" in
    if (n <? 2)%nat then text gs else text (take i gs) +:+ "::" +:+ text (drop (i + n) gs).

(** [IP.Equal] *)
Definition IP_Equal (a b : IP) : bool := a == b.

(** *** Checks against Go *)
Lemma parse_ip_examples :
  ParseIP "10.0.0.1" = Some (v4_prefix ++ [10; 0; 0; 1]%Z) /\
  ParseIP "2001:db8::1" = Some ([32; 1; 13; 184] ++ replicate 11 0 ++ [1])%Z /\
  ParseIP "::ffff:10.0.0.1" = ParseIP "10.0.0.1" /\
  ParseIP "fe80::1%eth0" = None /\ ParseIP "1::2::3" = None /\ ParseIP "postgres.example" = None /\
  (IP_String <$> ParseIP "2001:0DB8:0:0:1::1") = Some "2001:db8::1:0:0:1" /\
  (IP_String <$> ParseIP "::") = Some "::" /\ (IP_String <$> ParseIP "1.2.3.4") = Some "1.2.3.4".
Proof. vm_compute. repeat split. Qed.
