(* ===== verification/Plan.v ===== *)
(** * Signed site plans

    Package [internal/plan]: the plan the hub computes for one site, its
    canonical encoding, the signed envelope it travels in, and the
    classification of the change from one plan to the next. *)

From S2P Require Import Prelude Prog Api Codec.

Definition ProtocolVersion : string := "v1alpha1".

Record CredentialRotationPlan := mkCredentialRotationPlan {
  crp_Version : Z;
  crp_PreviousVersion : Z;
  crp_Phase : string;
  crp_TargetMember : string;
  crp_UpdatedMembers : list string
}.
#[global] Instance CredentialRotationPlan_eq_dec : EqDecision CredentialRotationPlan.
Proof. solve_decision. Defined.
Definition zero_CredentialRotationPlan : CredentialRotationPlan := mkCredentialRotationPlan 0%Z 0%Z "" "" [].

Record AddressMigrationPlan := mkAddressMigrationPlan {
  amp_OperationUID : string;
  amp_Member : string;
  amp_OldAddress : string;
  amp_NewAddress : string
}.
#[global] Instance AddressMigrationPlan_eq_dec : EqDecision AddressMigrationPlan.
Proof. solve_decision. Defined.
Definition zero_AddressMigrationPlan : AddressMigrationPlan := mkAddressMigrationPlan "" "" "" "".

Record RestorePlan := mkRestorePlan {
  rp_OperationUID : string;
  rp_SourceInstanceUID : string;
  rp_SourceBackup : BackupSpec;
  rp_TargetTime : Time;
  rp_BackupSet : string;
  rp_SeedSite : string;
  rp_SeedMember : string;
  rp_Phase : string
}.
#[global] Instance RestorePlan_eq_dec : EqDecision RestorePlan.
Proof. solve_decision. Defined.
Definition zero_RestorePlan : RestorePlan := mkRestorePlan "" "" zero_BackupSpec zero_time "" "" "" "".

Record UpgradePlan := mkUpgradePlan {
  up_OperationUID : string;
  up_TargetImage : string;
  up_TargetMember : string;
  up_UpgradedMembers : list string;
  up_FromPrimary : string;
  up_Candidate : string;
  up_Phase : string
}.
#[global] Instance UpgradePlan_eq_dec : EqDecision UpgradePlan.
Proof. solve_decision. Defined.
Definition zero_UpgradePlan : UpgradePlan := mkUpgradePlan "" "" "" [] "" "" "".

Record MajorUpgradePlan := mkMajorUpgradePlan {
  mup_OperationUID : string;
  mup_Phase : string;
  mup_Primary : string;
  mup_SourceMajor : Z;
  mup_TargetMajor : Z;
  mup_TargetImage : string;
  mup_UpgradeImage : string;
  mup_RollbackRetention : Duration;
  mup_RollbackPolicies : gmap string StorageRollbackPolicy
}.
#[global] Instance MajorUpgradePlan_eq_dec : EqDecision MajorUpgradePlan.
Proof. solve_decision. Defined.
Definition zero_MajorUpgradePlan : MajorUpgradePlan := mkMajorUpgradePlan "" "" "" 0%Z 0%Z "" "" 0%Z ∅.

Record DeletionPlan := mkDeletionPlan {
  dp_Policy : string
}.
#[global] Instance DeletionPlan_eq_dec : EqDecision DeletionPlan.
Proof. solve_decision. Defined.
Definition zero_DeletionPlan : DeletionPlan := mkDeletionPlan "".

Record SitePlan := mkSitePlan {
  sp_ProtocolVersion : string;
  sp_SiteUID : string;
  sp_InstanceUID : string;
  sp_HubNamespace : string;
  sp_HubName : string;
  sp_Revision : Z;
  sp_GeneratedAt : Time;
  sp_Site : PostgresSiteSpec;
  sp_Postgres : PostgresSpec;
  sp_TDE : TDESpec;
  sp_TDEKeyCreator : bool;
  sp_Backup : option BackupSpec;
  sp_Credentials : InstanceCredentialsSpec;
  sp_MemberAddresses : gmap string string;
  sp_AddressCandidates : gmap string string;
  sp_AddressMigration : option AddressMigrationPlan;
  sp_CredentialRotation : option CredentialRotationPlan;
  sp_RequiredCapabilities : list string;
  sp_RuntimeCredentialVersion : Z;
  sp_RuntimeCertificateHashes : gmap string string;
  sp_Restore : option RestorePlan;
  sp_Upgrade : option UpgradePlan;
  sp_MajorUpgrade : option MajorUpgradePlan;
  sp_Deletion : option DeletionPlan
}.
#[global] Instance SitePlan_eq_dec : EqDecision SitePlan.
Proof. solve_decision. Defined.
Definition zero_SitePlan : SitePlan := mkSitePlan "" "" "" "" "" 0%Z zero_time zero_PostgresSiteSpec zero_PostgresSpec zero_TDESpec false None zero_InstanceCredentialsSpec ∅ ∅ None None [] 0%Z ∅ None None None None.
#[global] Instance eta_SitePlan : Settable SitePlan := fun r =>
  mkSitePlan (sp_ProtocolVersion r) (sp_SiteUID r) (sp_InstanceUID r) (sp_HubNamespace r) (sp_HubName r) (sp_Revision r) (sp_GeneratedAt r) (sp_Site r) (sp_Postgres r) (sp_TDE r) (sp_TDEKeyCreator r) (sp_Backup r) (sp_Credentials r) (sp_MemberAddresses r) (sp_AddressCandidates r) (sp_AddressMigration r) (sp_CredentialRotation r) (sp_RequiredCapabilities r) (sp_RuntimeCredentialVersion r) (sp_RuntimeCertificateHashes r) (sp_Restore r) (sp_Upgrade r) (sp_MajorUpgrade r) (sp_Deletion r).

Record Envelope := mkEnvelope {
  env_Plan : string;
  env_Signature : string
}.
#[global] Instance Envelope_eq_dec : EqDecision Envelope.
Proof. solve_decision. Defined.
Definition zero_Envelope : Envelope := mkEnvelope "" "".


(** The phases of the coordinated operations. *)
Definition CredentialRotationPhaseCatalog : string := "Catalog".
Definition CredentialRotationPhaseMember : string := "Member".
Definition CredentialRotationPhaseRevoke : string := "Revoke".
Definition CredentialRotationPhaseFinalize : string := "Finalize".
Definition RestorePhaseSeed : string := "Seed".
Definition RestorePhaseReplicas : string := "Replicas".
Definition RestorePhaseVerify : string := "Verify".
Definition UpgradePhaseMember : string := "Member".
Definition UpgradePhaseSwitchover : string := "Switchover".
Definition UpgradePhaseFinalize : string := "Finalize".
Definition MajorUpgradePhasePreflight : string := "MajorPreflight".
Definition MajorUpgradePhaseDrain : string := "MajorDrain".
Definition MajorUpgradePhaseStop : string := "MajorStop".
Definition MajorUpgradePhaseSnapshot : string := "MajorSnapshot".
Definition MajorUpgradePhaseUpgradePrimary : string := "MajorUpgradePrimary".
Definition MajorUpgradePhaseStanzaUpgrade : string := "MajorStanzaUpgrade".
Definition MajorUpgradePhaseStartPrimary : string := "MajorStartPrimary".
Definition MajorUpgradePhaseRestoreWrites : string := "MajorRestoreWrites".
Definition MajorUpgradePhaseReplicas : string := "MajorReplicas".
Definition MajorUpgradePhaseFinalize : string := "MajorFinalize".
Definition MajorUpgradePhaseRollback : string := "MajorRollback".
Definition MajorUpgradePhaseRollbackStart : string := "MajorRollbackStart".
Definition MajorUpgradePhaseRollbackRestoreWrites : string := "MajorRollbackRestoreWrites".

(** ** Canonical encoding and signatures *)
Section canonical.
Context {T : Type} {J : Json T}.

Definition Canonical (value : T) : result string :=
  match json_Marshal value with
  | Err e => Err (wrap_error "marshal canonical JSON" e)
  | Ok data =>
      match json_Compact data with
      | Err e => Err (wrap_error "compact canonical JSON" e)
      | Ok compact => Ok compact
      end
  end.

(** [None] is a panic. *)
Definition mustCanonical (value : T) : option string :=
  match Canonical value with Ok data => Some data | Err _ => None end.

Context {JL : JsonLaws T J}.

Lemma Canonical_Ok x s : Canonical x = Ok s <-> json_Marshal x = Ok s.
Proof.
  unfold Canonical. split; intros H.
  - destruct (json_Marshal x) as [d|e] eqn:E; [|done].
    rewrite (compact_marshal _ _ E) in H. congruence.
  - rewrite H. by rewrite (compact_marshal _ _ H).
Qed.

Lemma mustCanonical_inj x y s :
  json_text x -> json_text y -> mustCanonical x = Some s -> mustCanonical y = Some s ->
  json_wire x = json_wire y.
Proof.
  unfold mustCanonical. intros Hx Hy.
  destruct (Canonical x) eqn:Ex, (Canonical y) eqn:Ey; intros [= <-] [= ->].
  apply Canonical_Ok in Ex, Ey. by eapply marshal_inj.
Qed.
End canonical.

Section sign.
Context {C : Crypto} {J : Json SitePlan}.

Definition Sign (privateKey : string) (desired : SitePlan) : result Envelope :=
  if negb (String.length privateKey =? ed25519_PrivateKeySize)%nat then
    Err (errors_New "invalid Ed25519 private key")
  else if (sp_Revision desired <? 1)%Z || (sp_SiteUID desired == "") || (sp_InstanceUID desired == "") then
    Err (errors_New "plan identity and positive revision are required")
  else
    let desired := desired <| sp_ProtocolVersion := ProtocolVersion |> in
    match Canonical desired with
    | Err e => Err e
    | Ok payload =>
        Ok (mkEnvelope payload (Base64.EncodeToString (ed25519_Sign privateKey payload)))
    end.

Definition Verify (publicKey : string) (envelope : Envelope)
  (expectedSiteUID expectedInstanceUID : string) (minimumRevision : Z) : result SitePlan :=
  if negb (String.length publicKey =? ed25519_PublicKeySize)%nat then
    Err (errors_New "invalid Ed25519 public key")
  else match Base64.DecodeString (env_Signature envelope) with
  | None => Err (errors_New "decode signature: illegal base64 data")
  | Some signature =>
      if negb (ed25519_Verify publicKey (env_Plan envelope) signature) then
        Err (errors_New "plan signature is invalid")
      else match json_Unmarshal (env_Plan envelope) with
      | Err e => Err (wrap_error "decode plan" e)
      | Ok desired =>
          if sp_ProtocolVersion desired != ProtocolVersion then
            Err (errors_New ("unsupported protocol version " +:+ Quote (sp_ProtocolVersion desired)))
          else if (sp_SiteUID desired != expectedSiteUID) || (sp_InstanceUID desired != expectedInstanceUID) then
            Err (errors_New "plan identity does not match this site and instance")
          else if (sp_Revision desired <? minimumRevision)%Z then
            Err (errors_New ("plan revision " +:+ FormatInt (sp_Revision desired) +:+
                             " is older than " +:+ FormatInt minimumRevision))
          else Ok desired
      end
  end.
End sign.

(** The fields tagged [json:"-"] do not travel with the plan. *)
Definition plan_wire (p : SitePlan) : SitePlan :=
  p <| sp_RuntimeCredentialVersion := 0%Z |> <| sp_RuntimeCertificateHashes := ∅ |>.

(** ** Classification of a change *)
Inductive MutationClass := MutationSafe | MutationCoordinated.
#[global] Instance MutationClass_eq_dec : EqDecision MutationClass.
Proof. solve_decision. Defined.

(** The codecs of the parts of a plan [Classify] compares. *)
Class PlanJson := {
  json_storage :: Json SiteStorage;
  json_backup :: Json (option BackupSpec);
  json_tde :: Json TDESpec;
  json_credentials :: Json InstanceCredentialsSpec;
  json_candidates :: Json (gmap string string);
  json_migration :: Json (option AddressMigrationPlan);
  json_rotation :: Json (option CredentialRotationPlan);
  json_restore :: Json (option RestorePlan);
  json_upgrade :: Json (option UpgradePlan);
  json_major :: Json (option MajorUpgradePlan);
  json_deletion :: Json (option DeletionPlan);
}.

(** [!bytes.Equal(mustCanonical(a), mustCanonical(b))]; [None] is a panic. *)
Definition canonical_differ {T} `{Json T} (a b : T) : option bool :=
  match mustCanonical a, mustCanonical b with
  | Some x, Some y => Some (x != y)
  | _, _ => None
  end.

(** Short-circuit disjunction of tests that can panic. *)
Fixpoint any_differ (tests : list (option bool)) : option bool :=
  match tests with
  | [] => Some false
  | None :: _ => None
  | Some true :: _ => Some true
  | Some false :: tests => any_differ tests
  end.

Definition is_nil {A} (x : option A) : bool := match x with None => true | Some _ => false end.

Section classify.
Context {P : PlanJson}.

Definition Classify (previous next : SitePlan) : option MutationClass :=
  if sp_Revision previous == 0%Z then Some MutationCoordinated
  else if (pg_Image (sp_Postgres previous) != pg_Image (sp_Postgres next))
    || (pg_MajorVersion (sp_Postgres previous) != pg_MajorVersion (sp_Postgres next))
    || (site_Components (sp_Site previous) != site_Components (sp_Site next))
    || (site_Certificates (sp_Site previous) != site_Certificates (sp_Site next))
    || (is_nil (site_LoadBalancer (sp_Site previous)) != is_nil (site_LoadBalancer (sp_Site next)))
  then Some MutationCoordinated
  else match canonical_differ (site_Storage (sp_Site previous)) (site_Storage (sp_Site next)) with
  | None => None
  | Some true => Some MutationCoordinated
  | Some false =>
      if match site_LoadBalancer (sp_Site previous), site_LoadBalancer (sp_Site next) with
         | Some p, Some n => lb_AddressPool p != lb_AddressPool n
         | _, _ => false
         end then Some MutationCoordinated
      else match any_differ [
          canonical_differ (sp_Backup previous) (sp_Backup next);
          canonical_differ (sp_TDE previous) (sp_TDE next);
          canonical_differ (sp_Credentials previous) (sp_Credentials next);
          canonical_differ (sp_AddressCandidates previous) (sp_AddressCandidates next);
          canonical_differ (sp_AddressMigration previous) (sp_AddressMigration next);
          canonical_differ (sp_CredentialRotation previous) (sp_CredentialRotation next);
          canonical_differ (sp_Restore previous) (sp_Restore next);
          canonical_differ (sp_Upgrade previous) (sp_Upgrade next);
          canonical_differ (sp_MajorUpgrade previous) (sp_MajorUpgrade next);
          canonical_differ (sp_Deletion previous) (sp_Deletion next)] with
      | None => None
      | Some true => Some MutationCoordinated
      | Some false => Some MutationSafe
      end
  end.
End classify.

(** ** Properties of signed plans *)
Section sign_theorems.
Context {C : Crypto} {CL : CryptoLaws C} {J : Json SitePlan} {JL : JsonLaws SitePlan J}.

Lemma Sign_Ok sk d env :
  Sign sk d = Ok env ->
  String.length sk = ed25519_PrivateKeySize /\ (1 <= sp_Revision d)%Z /\
  sp_SiteUID d <> "" /\ sp_InstanceUID d <> "" /\
  json_Marshal (d <| sp_ProtocolVersion := ProtocolVersion |>) = Ok (env_Plan env) /\
  env_Signature env = Base64.EncodeToString (ed25519_Sign sk (env_Plan env)).
Proof.
  unfold Sign. destruct (_ =? _)%nat eqn:Hk; [|done]. apply Nat.eqb_eq in Hk.
  destruct (_ || _) eqn:Hid; [done|]. bool_to_prop.
  destruct (Canonical _) as [payload|] eqn:HC; [|done]. intros [= <-].
  apply Canonical_Ok in HC. done.
Qed.

Lemma Verify_Ok pk env site inst m p :
  Verify pk env site inst m = Ok p ->
  String.length pk = ed25519_PublicKeySize /\
  (exists sg, Base64.DecodeString (env_Signature env) = Some sg /\
              ed25519_Verify pk (env_Plan env) sg = true) /\
  json_Unmarshal (env_Plan env) = Ok p /\ sp_ProtocolVersion p = ProtocolVersion /\
  sp_SiteUID p = site /\ sp_InstanceUID p = inst /\ (m <= sp_Revision p)%Z.
Proof.
  unfold Verify. destruct (_ =? _)%nat eqn:Hk; [|done]; cbn [negb]. apply Nat.eqb_eq in Hk.
  destruct (Base64.DecodeString _) as [sg|] eqn:Hd; [|done]; cbn [negb].
  destruct (ed25519_Verify _ _ _) eqn:Hv; [|done]; cbn [negb].
  destruct (json_Unmarshal _) as [q|] eqn:Hu; [|done]; cbn [negb].
  destruct (negb _) eqn:Hp; [done|]. destruct (_ || _) eqn:Hid; [done|].
  destruct (_ <? _)%Z eqn:Hr; [done|]. intros [= <-]. bool_to_prop. eauto 10.
Qed.

(** Round trip of a site plan. Whatever the hub signs for a site and an
    instance, the agent of that site accepts under the hub's public key, for
    every minimum revision up to the plan's own, and reads exactly the plan
    without its runtime-only fields. *)
Theorem sign_verify_roundtrip sk d env m :
  (forall p, json_wire p = plan_wire p) ->
  json_text (d <| sp_ProtocolVersion := ProtocolVersion |>) ->
  Sign sk d = Ok env -> (m <= sp_Revision d)%Z ->
  Verify (ed25519_Public sk) env (sp_SiteUID d) (sp_InstanceUID d) m =
    Ok (plan_wire (d <| sp_ProtocolVersion := ProtocolVersion |>)).
Proof.
  intros Hw Ht HS Hm. apply Sign_Ok in HS as (Hk & _ & _ & _ & HM & Hs).
  unfold Verify. rewrite (public_size _ Hk), Nat.eqb_refl. cbn [negb].
  rewrite Hs, Base64.Decode_Encode, verify_sign by done. cbn [negb].
  rewrite (unmarshal_marshal _ _ Ht HM), Hw.
  unfold plan_wire. cbn. rewrite !bool_decide_eq_true_2 by done. cbn.
  by rewrite (proj2 (Z.ltb_ge _ _)).
Qed.

(** C16: Authenticity and binding. Suppose the envelope is not a forgery: if
    some signature of its content verifies, the hub signed that content. Then
    a plan an agent accepts is one the hub signed, it names exactly the site
    and the instance the agent asked for, its revision is positive and at least
    the agent's minimum: a plan signed for another site, another instance or
    an older revision is never accepted. *)
Theorem verify_authentic sk (signed : SitePlan -> Prop) env site inst m p :
  (forall q, json_wire q = plan_wire q) ->
  (forall sg, ed25519_Verify (ed25519_Public sk) (env_Plan env) sg = true ->
     exists d e, signed d /\ json_text (d <| sp_ProtocolVersion := ProtocolVersion |>) /\
                 Sign sk d = Ok e /\ env_Plan e = env_Plan env) ->
  Verify (ed25519_Public sk) env site inst m = Ok p ->
  exists d, signed d /\ p = plan_wire (d <| sp_ProtocolVersion := ProtocolVersion |>) /\
    sp_SiteUID d = site /\ sp_InstanceUID d = inst /\ (Z.max 1 m <= sp_Revision d)%Z.
Proof.
  intros Hw Hunf HV. apply Verify_Ok in HV as (_ & (sg & _ & Hv) & Hu & _ & Hs & Hi & Hm).
  destruct (Hunf _ Hv) as (d & e & Hd & Ht & HS & He).
  apply Sign_Ok in HS as (_ & Hr & _ & _ & HM & _).
  rewrite He in HM. rewrite (unmarshal_marshal _ _ Ht HM), Hw in Hu. injection Hu as <-.
  exists d. split; [done|]. split; [done|]. cbn in Hs, Hi, Hm. repeat split; [done|done|lia].
Qed.

(** The hub signs a plan exactly when its key has the Ed25519 size, the
    revision is positive, both identities are present and the plan encodes;
    otherwise it returns an error and no envelope. *)
Theorem sign_defined sk d :
  (exists env, Sign sk d = Ok env) <->
  String.length sk = ed25519_PrivateKeySize /\ (1 <= sp_Revision d)%Z /\
  sp_SiteUID d <> "" /\ sp_InstanceUID d <> "" /\
  exists payload, json_Marshal (d <| sp_ProtocolVersion := ProtocolVersion |>) = Ok payload.
Proof.
  split.
  - intros [env HS]. apply Sign_Ok in HS as (? & ? & ? & ? & ? & _). eauto 10.
  - intros (Hk & Hr & Hs & Hi & payload & HM). unfold Sign.
    rewrite Hk, Nat.eqb_refl. cbn [negb].
    rewrite (proj2 (Z.ltb_ge _ _)), !bool_decide_eq_false_2 by done. cbn [orb].
    rewrite (proj2 (Canonical_Ok _ _) HM). eauto.
Qed.
End sign_theorems.

(** Codec laws of the parts [Classify] compares. *)
Class PlanJsonLaws (P : PlanJson) := {
  storage_laws :: JsonLaws _ json_storage;
  backup_laws :: JsonLaws _ json_backup;
  tde_laws :: JsonLaws _ json_tde;
  credentials_laws :: JsonLaws _ json_credentials;
  candidates_laws :: JsonLaws _ json_candidates;
  migration_laws :: JsonLaws _ json_migration;
  rotation_laws :: JsonLaws _ json_rotation;
  restore_laws :: JsonLaws _ json_restore;
  upgrade_laws :: JsonLaws _ json_upgrade;
  major_laws :: JsonLaws _ json_major;
  deletion_laws :: JsonLaws _ json_deletion;
}.

(** A codec that transmits every value of its type as it is. *)
Definition faithful {T} (J : Json T) : Prop :=
  forall x : T, json_text x /\ json_wire x = x /\ exists s, json_Marshal x = Ok s.

Lemma canonical_differ_false {T} {J : Json T} {JL : JsonLaws T J} (a b : T) :
  faithful J -> canonical_differ a b = Some false <-> a = b.
Proof.
  intros HF. unfold canonical_differ. split.
  - destruct (mustCanonical a) eqn:Ea, (mustCanonical b) eqn:Eb; try done.
    intros [= H%negb_false_iff%bool_decide_eq_true]. subst.
    destruct (HF a) as (Ta & <- & _), (HF b) as (Tb & <- & _). by eapply mustCanonical_inj.
  - intros <-. destruct (HF a) as (_ & _ & s & Hs). unfold mustCanonical.
    rewrite (proj2 (Canonical_Ok _ _) Hs). by rewrite bool_decide_eq_true_2.
Qed.

Lemma any_differ_false tests : any_differ tests = Some false <-> Forall (.= Some false) tests.
Proof.
  induction tests as [|[[]|] tests IH]; simpl; rewrite ?list.Forall_cons, ?list.Forall_nil;
    try rewrite IH; naive_solver.
Qed.

(** The codecs of a plan's parts are faithful. *)
Definition plan_faithful (P : PlanJson) : Prop :=
  faithful json_storage /\ faithful json_backup /\ faithful json_tde /\
  faithful json_credentials /\ faithful json_candidates /\ faithful json_migration /\
  faithful json_rotation /\ faithful json_restore /\ faithful json_upgrade /\
  faithful json_major /\ faithful json_deletion.

(** What a rolling reconciliation must not change. *)
Definition undisruptive (previous next : SitePlan) : Prop :=
  pg_Image (sp_Postgres previous) = pg_Image (sp_Postgres next) /\
  pg_MajorVersion (sp_Postgres previous) = pg_MajorVersion (sp_Postgres next) /\
  site_Components (sp_Site previous) = site_Components (sp_Site next) /\
  site_Certificates (sp_Site previous) = site_Certificates (sp_Site next) /\
  site_Storage (sp_Site previous) = site_Storage (sp_Site next) /\
  (lb_AddressPool <$> site_LoadBalancer (sp_Site previous)) =
    (lb_AddressPool <$> site_LoadBalancer (sp_Site next)) /\
  sp_Backup previous = sp_Backup next /\ sp_TDE previous = sp_TDE next /\
  sp_Credentials previous = sp_Credentials next /\
  sp_AddressCandidates previous = sp_AddressCandidates next /\
  sp_AddressMigration previous = sp_AddressMigration next /\
  sp_CredentialRotation previous = sp_CredentialRotation next /\
  sp_Restore previous = sp_Restore next /\ sp_Upgrade previous = sp_Upgrade next /\
  sp_MajorUpgrade previous = sp_MajorUpgrade next /\ sp_Deletion previous = sp_Deletion next.

Section classify_theorems.
Context {P : PlanJson} {PL : PlanJsonLaws P}.

Lemma classify_safe_sound previous next :
  plan_faithful P -> Classify previous next = Some MutationSafe ->
  sp_Revision previous <> 0%Z /\ undisruptive previous next.
Proof.
  intros (? & ? & ? & ? & ? & ? & ? & ? & ? & ? & ?). unfold Classify.
  destruct (bool_decide (sp_Revision previous = _)) eqn:Hr; [done|].
  destruct (_ || _) eqn:Hd; [done|]. bool_to_prop.
  destruct (canonical_differ (site_Storage _) _) as [[]|] eqn:Hs; try done.
  rewrite canonical_differ_false in Hs by done.
  destruct (match site_LoadBalancer (sp_Site previous) with Some _ => _ | None => _ end) eqn:Hlb; [done|].
  destruct (any_differ _) as [[]|] eqn:Ha; try done. rewrite any_differ_false in Ha.
  rewrite !list.Forall_cons in Ha. destruct_and!. intros _.
  repeat match goal with
  | H : canonical_differ _ _ = Some false |- _ => rewrite canonical_differ_false in H by done
  end.
  split; [done|]. unfold undisruptive. repeat split; try done.
  destruct (site_LoadBalancer (sp_Site previous)), (site_LoadBalancer (sp_Site next)); try done.
  bool_to_prop. cbn. congruence.
Qed.

Lemma classify_safe_complete previous next :
  plan_faithful P -> sp_Revision previous <> 0%Z -> undisruptive previous next ->
  Classify previous next = Some MutationSafe.
Proof.
  intros (Fs & ? & ? & ? & ? & ? & ? & ? & ? & ? & ?) Hr
    (Hi & Hm & Hc & Hce & Hst & Hlb & Hb & Ht & Hcr & Hca & Hmi & Hro & Hre & Hu & Hmu & Hde).
  unfold Classify. rewrite bool_decide_eq_false_2 by done.
  assert (is_nil (site_LoadBalancer (sp_Site previous)) = is_nil (site_LoadBalancer (sp_Site next))) as Hn.
  { destruct (site_LoadBalancer (sp_Site previous)), (site_LoadBalancer (sp_Site next)); done. }
  rewrite !(bool_decide_eq_true_2 (_ = _)) by done. cbn [orb negb].
  rewrite (proj2 (canonical_differ_false _ _ Fs) Hst).
  replace (match site_LoadBalancer (sp_Site previous) with Some _ => _ | None => _ end) with false.
  2:{ destruct (site_LoadBalancer (sp_Site previous)), (site_LoadBalancer (sp_Site next)); try done.
      injection Hlb as Hlb. by rewrite bool_decide_eq_true_2. }
  rewrite (proj2 (any_differ_false _)); [done|].
  rewrite !list.Forall_cons, list.Forall_nil. repeat split; by apply canonical_differ_false.
Qed.

(** The classification of a plan change is exact. A change is safe, and
    may be applied without coordination, precisely when there is a previous
    plan and the image, major version, replica counts, certificates, storage,
    address pool, backup, encryption, credentials, address candidates and every
    coordinated operation (migration, rotation, restore, upgrades, deletion)
    are unchanged. *)
Theorem classify_exact previous next :
  plan_faithful P ->
  Classify previous next = Some MutationSafe <->
  sp_Revision previous <> 0%Z /\ undisruptive previous next.
Proof.
  intros HF. split; [by apply classify_safe_sound|].
  intros [Hr Hu]. by apply classify_safe_complete.
Qed.
End classify_theorems.

(** ** Reference codecs and witnesses *)
Module RefPlan.
Import RefCodec.
#[global] Instance serial_IssuerReference : Serial IssuerReference.
Proof.
  refine (serial_iso (fun r => (ir_Name r, ir_Kind r, ir_Group r))
    (fun '(x0, x1, x2) => Some (mkIssuerReference x0 x1 x2)) _).
  by intros [].
Defined.
#[global] Instance serial_StorageRollbackPolicy : Serial StorageRollbackPolicy.
Proof.
  refine (serial_iso (fun r => (srp_StorageClassName r, srp_Strategy r, srp_VolumeSnapshotClassName r))
    (fun '(x0, x1, x2) => Some (mkStorageRollbackPolicy x0 x1 x2)) _).
  by intros [].
Defined.
#[global] Instance serial_SiteComponents : Serial SiteComponents.
Proof.
  refine (serial_iso (fun r => (sc_EtcdReplicas r, sc_PostgresReplicas r, sc_PgpoolReplicas r))
    (fun '(x0, x1, x2) => Some (mkSiteComponents x0 x1 x2)) _).
  by intros [].
Defined.
#[global] Instance serial_StorageRequest : Serial StorageRequest.
Proof.
  refine (serial_iso (fun r => (sr_StorageClassName r, sr_Size r))
    (fun '(x0, x1) => Some (mkStorageRequest x0 x1)) _).
  by intros [].
Defined.
#[global] Instance serial_SiteStorage : Serial SiteStorage.
Proof.
  refine (serial_iso (fun r => (ss_Etcd r, ss_Postgres r, ss_RestoreWorkspace r))
    (fun '(x0, x1, x2) => Some (mkSiteStorage x0 x1 x2)) _).
  by intros [].
Defined.
#[global] Instance serial_LoadBalancerSpec : Serial LoadBalancerSpec.
Proof.
  refine (serial_iso (fun r => (lb_AddressPool r, lb_PeerSourceAddresses r))
    (fun '(x0, x1) => Some (mkLoadBalancerSpec x0 x1)) _).
  by intros [].
Defined.
#[global] Instance serial_SecretKeyReference : Serial SecretKeyReference.
Proof.
  refine (serial_iso (fun r => (skr_Name r, skr_Key r))
    (fun '(x0, x1) => Some (mkSecretKeyReference x0 x1)) _).
  by intros [].
Defined.
#[global] Instance serial_VaultAuthSpec : Serial VaultAuthSpec.
Proof.
  refine (serial_iso (fun r => (va_Address r, va_AuthMount r, va_AuthRole r, va_CABundleSecretRef r))
    (fun '(x0, x1, x2, x3) => Some (mkVaultAuthSpec x0 x1 x2 x3)) _).
  by intros [].
Defined.
#[global] Instance serial_SiteCertificateSpec : Serial SiteCertificateSpec.
Proof.
  refine (serial_iso (fun r => (crt_EtcdIssuerRef r, crt_EtcdPeerIssuerRef r, crt_EtcdClientIssuerRef r, crt_PostgresIssuerRef r, crt_PgpoolIssuerRef r, crt_BackupIssuerRef r))
    (fun '(x0, x1, x2, x3, x4, x5) => Some (mkSiteCertificateSpec x0 x1 x2 x3 x4 x5)) _).
  by intros [].
Defined.
#[global] Instance serial_PostgresSiteSpec : Serial PostgresSiteSpec.
Proof.
  refine (serial_iso (fun r => (site_Name r, site_SiteRegistrationRef r, site_Namespace r, site_Role r, site_PrimaryPreference r, site_Components r, site_Storage r, site_LoadBalancer r, site_VaultAuth r, site_Certificates r))
    (fun '(x0, x1, x2, x3, x4, x5, x6, x7, x8, x9) => Some (mkPostgresSiteSpec x0 x1 x2 x3 x4 x5 x6 x7 x8 x9)) _).
  by intros [].
Defined.
#[global] Instance serial_TDEVaultSpec : Serial TDEVaultSpec.
Proof.
  refine (serial_iso (fun r => (tv_KVMount r, tv_KeyPath r, tv_ProviderName r, tv_PrincipalKeyName r))
    (fun '(x0, x1, x2, x3) => Some (mkTDEVaultSpec x0 x1 x2 x3)) _).
  by intros [].
Defined.
#[global] Instance serial_TDESpec : Serial TDESpec.
Proof.
  refine (serial_iso (fun r => (tde_Enabled r, tde_Vault r))
    (fun '(x0, x1) => Some (mkTDESpec x0 x1)) _).
  by intros [].
Defined.
#[global] Instance serial_VaultSecretReference : Serial VaultSecretReference.
Proof.
  refine (serial_iso (fun r => (vs_Mount r, vs_Path r, vs_Key r))
    (fun '(x0, x1, x2) => Some (mkVaultSecretReference x0 x1 x2)) _).
  by intros [].
Defined.
#[global] Instance serial_InstanceCredentialsSpec : Serial InstanceCredentialsSpec.
Proof.
  refine (serial_iso (fun r => (ics_PostgresVaultRef r, ics_PgpoolVaultRef r))
    (fun '(x0, x1) => Some (mkInstanceCredentialsSpec x0 x1)) _).
  by intros [].
Defined.
#[global] Instance serial_BackupRepositorySpec : Serial BackupRepositorySpec.
Proof.
  refine (serial_iso (fun r => (br_Type r, br_Bucket r, br_Prefix r, br_Endpoint r, br_Region r, br_URIStyle r, br_CABundleSecretRef r, br_CredentialVaultRef r))
    (fun '(x0, x1, x2, x3, x4, x5, x6, x7) => Some (mkBackupRepositorySpec x0 x1 x2 x3 x4 x5 x6 x7)) _).
  by intros [].
Defined.
#[global] Instance serial_BackupSchedules : Serial BackupSchedules.
Proof.
  refine (serial_iso (fun r => (bsch_Full r, bsch_Differential r, bsch_Incremental r, bsch_Timezone r))
    (fun '(x0, x1, x2, x3) => Some (mkBackupSchedules x0 x1 x2 x3)) _).
  by intros [].
Defined.
#[global] Instance serial_BackupRetention : Serial BackupRetention.
Proof.
  refine (serial_iso (fun r => (bret_Duration r, bret_WALDuration r))
    (fun '(x0, x1) => Some (mkBackupRetention x0 x1)) _).
  by intros [].
Defined.
#[global] Instance serial_BackupSpec : Serial BackupSpec.
Proof.
  refine (serial_iso (fun r => (bk_Repository r, bk_Schedules r, bk_Retention r))
    (fun '(x0, x1, x2) => Some (mkBackupSpec x0 x1 x2)) _).
  by intros [].
Defined.
#[global] Instance serial_PostgresSpec : Serial PostgresSpec.
Proof.
  refine (serial_iso (fun r => (pg_MajorVersion r, pg_Image r, pg_SynchronousStandbyCount r, pg_Parameters r))
    (fun '(x0, x1, x2, x3) => Some (mkPostgresSpec x0 x1 x2 x3)) _).
  by intros [].
Defined.
#[global] Instance serial_CredentialRotationPlan : Serial CredentialRotationPlan.
Proof.
  refine (serial_iso (fun r => (crp_Version r, crp_PreviousVersion r, crp_Phase r, crp_TargetMember r, crp_UpdatedMembers r))
    (fun '(x0, x1, x2, x3, x4) => Some (mkCredentialRotationPlan x0 x1 x2 x3 x4)) _).
  by intros [].
Defined.
#[global] Instance serial_AddressMigrationPlan : Serial AddressMigrationPlan.
Proof.
  refine (serial_iso (fun r => (amp_OperationUID r, amp_Member r, amp_OldAddress r, amp_NewAddress r))
    (fun '(x0, x1, x2, x3) => Some (mkAddressMigrationPlan x0 x1 x2 x3)) _).
  by intros [].
Defined.
#[global] Instance serial_RestorePlan : Serial RestorePlan.
Proof.
  refine (serial_iso (fun r => (rp_OperationUID r, rp_SourceInstanceUID r, rp_SourceBackup r, rp_TargetTime r, rp_BackupSet r, rp_SeedSite r, rp_SeedMember r, rp_Phase r))
    (fun '(x0, x1, x2, x3, x4, x5, x6, x7) => Some (mkRestorePlan x0 x1 x2 x3 x4 x5 x6 x7)) _).
  by intros [].
Defined.
#[global] Instance serial_UpgradePlan : Serial UpgradePlan.
Proof.
  refine (serial_iso (fun r => (up_OperationUID r, up_TargetImage r, up_TargetMember r, up_UpgradedMembers r, up_FromPrimary r, up_Candidate r, up_Phase r))
    (fun '(x0, x1, x2, x3, x4, x5, x6) => Some (mkUpgradePlan x0 x1 x2 x3 x4 x5 x6)) _).
  by intros [].
Defined.
#[global] Instance serial_MajorUpgradePlan : Serial MajorUpgradePlan.
Proof.
  refine (serial_iso (fun r => (mup_OperationUID r, mup_Phase r, mup_Primary r, mup_SourceMajor r, mup_TargetMajor r, mup_TargetImage r, mup_UpgradeImage r, mup_RollbackRetention r, mup_RollbackPolicies r))
    (fun '(x0, x1, x2, x3, x4, x5, x6, x7, x8) => Some (mkMajorUpgradePlan x0 x1 x2 x3 x4 x5 x6 x7 x8)) _).
  by intros [].
Defined.
#[global] Instance serial_DeletionPlan : Serial DeletionPlan.
Proof.
  refine (serial_iso (fun r => dp_Policy r) (fun x0 => Some (mkDeletionPlan x0)) _).
  by intros [].
Defined.
#[global] Instance serial_SitePlan : Serial SitePlan.
Proof.
  refine (serial_iso (fun r => (sp_ProtocolVersion r, sp_SiteUID r, sp_InstanceUID r, sp_HubNamespace r, sp_HubName r, sp_Revision r, sp_GeneratedAt r, sp_Site r, sp_Postgres r, sp_TDE r, sp_TDEKeyCreator r, sp_Backup r, sp_Credentials r, sp_MemberAddresses r, sp_AddressCandidates r, sp_AddressMigration r, sp_CredentialRotation r, sp_RequiredCapabilities r, sp_RuntimeCredentialVersion r, sp_RuntimeCertificateHashes r, sp_Restore r, sp_Upgrade r, sp_MajorUpgrade r, sp_Deletion r))
    (fun '(x0, x1, x2, x3, x4, x5, x6, x7, x8, x9, x10, x11, x12, x13, x14, x15, x16, x17, x18, x19, x20, x21, x22, x23) => Some (mkSitePlan x0 x1 x2 x3 x4 x5 x6 x7 x8 x9 x10 x11 x12 x13 x14 x15 x16 x17 x18 x19 x20 x21 x22 x23)) _).
  by intros [].
Defined.
#[global] Instance serial_Envelope : Serial Envelope.
Proof.
  refine (serial_iso (fun r => (env_Plan r, env_Signature r))
    (fun '(x0, x1) => Some (mkEnvelope x0 x1)) _).
  by intros [].
Defined.
#[global] Instance json_plan : Json SitePlan := RefCodec.json_of plan_wire.
#[global] Instance json_plan_laws : JsonLaws SitePlan json_plan := RefCodec.json_of_laws plan_wire.
#[global] Instance json_envelope : Json Envelope := RefCodec.json_of id.
#[global] Instance json_envelope_laws : JsonLaws Envelope json_envelope := RefCodec.json_of_laws id.
#[global] Instance json_parts : PlanJson := {|
  json_storage := RefCodec.json_of id; json_backup := RefCodec.json_of id;
  json_tde := RefCodec.json_of id; json_credentials := RefCodec.json_of id;
  json_candidates := RefCodec.json_of id; json_migration := RefCodec.json_of id;
  json_rotation := RefCodec.json_of id; json_restore := RefCodec.json_of id;
  json_upgrade := RefCodec.json_of id; json_major := RefCodec.json_of id;
  json_deletion := RefCodec.json_of id;
|}.
#[global] Instance json_parts_laws : PlanJsonLaws json_parts.
Proof. split; apply RefCodec.json_of_laws. Qed.

Lemma json_of_faithful `{Serial T} : faithful (RefCodec.json_of (T:=T) id).
Proof. intros x. split; [exact I|]. split; [done|]. by eexists. Qed.

Lemma parts_faithful : plan_faithful json_parts.
Proof. unfold plan_faithful. do 10 (split; [apply json_of_faithful|]). apply json_of_faithful. Qed.

Definition sk : string := "0123456789abcdef0123456789abcdef0123456789abcdef0123456789abcdef".
Definition plan3 : SitePlan :=
  zero_SitePlan <| sp_SiteUID := "s1" |> <| sp_InstanceUID := "i1" |> <| sp_Revision := 3%Z |>.
End RefPlan.

Lemma sign_verify_roundtrip_witness : exists env,
  Sign RefPlan.sk RefPlan.plan3 = Ok env /\
  Verify (ed25519_Public RefPlan.sk) env "s1" "i1" 2 =
    Ok (plan_wire (RefPlan.plan3 <| sp_ProtocolVersion := ProtocolVersion |>)).
Proof.
  eexists. split; [vm_compute; reflexivity|].
  apply (sign_verify_roundtrip RefPlan.sk RefPlan.plan3);
    [reflexivity|exact I|vm_compute; reflexivity|vm_compute; discriminate].
Defined.

Lemma verify_authentic_witness : exists env,
  Sign RefPlan.sk RefPlan.plan3 = Ok env /\
  exists d, d = RefPlan.plan3 /\
    plan_wire (RefPlan.plan3 <| sp_ProtocolVersion := ProtocolVersion |>) =
      plan_wire (d <| sp_ProtocolVersion := ProtocolVersion |>) /\
    sp_SiteUID d = "s1" /\ sp_InstanceUID d = "i1" /\ (Z.max 1 2 <= sp_Revision d)%Z.
Proof.
  eexists. split; [vm_compute; reflexivity|].
  eapply (verify_authentic RefPlan.sk (.= RefPlan.plan3)).
  - reflexivity.
  - intros sg _. exists RefPlan.plan3. eexists. split; [reflexivity|]. split; [exact I|].
    split; [vm_compute; reflexivity|reflexivity].
  - vm_compute. reflexivity.
Defined.

Lemma classify_exact_witness :
  Classify RefPlan.plan3 (RefPlan.plan3 <| sp_Revision := 4%Z |>) = Some MutationSafe <->
  (3 <> 0)%Z /\ undisruptive RefPlan.plan3 (RefPlan.plan3 <| sp_Revision := 4%Z |>).
Proof. apply (classify_exact RefPlan.plan3 _ RefPlan.parts_faithful). Defined.

Lemma sign_defined_witness :
  (exists env, Sign RefPlan.sk RefPlan.plan3 = Ok env) <->
  String.length RefPlan.sk = ed25519_PrivateKeySize /\ (1 <= sp_Revision RefPlan.plan3)%Z /\
  sp_SiteUID RefPlan.plan3 <> "" /\ sp_InstanceUID RefPlan.plan3 <> "" /\
  exists payload, json_Marshal (RefPlan.plan3 <| sp_ProtocolVersion := ProtocolVersion |>) = Ok payload.
Proof. apply (sign_defined RefPlan.sk RefPlan.plan3). Defined.
