(* ===== verification/WireGuard.v ===== *)
(** * WireGuard peers

    [internal/wireguard/config.go]: the hub's WireGuard identity, one address per
    site registration out of the configured network, the authorized peers as
    Secrets, and the gateway's configuration rendered from them. *)

From S2P Require Import Prelude Utf8 Prog Api Workloads Kube ApiServer Codec NetAddr Plan.

Definition DefaultNetworkCIDR : string := "10.254.0.0/16".
Definition IdentitySecretName : string := "mspsql-wireguard-identity".
Definition PeersConfigMapName : string := "mspsql-wireguard-peers".
Definition GatewayDeploymentName : string := "mspsql-wireguard".
Definition PeersHashAnnotation : string := "multisite-postgres.dev/wireguard-peers-hash".
Definition allocationsName : string := "mspsql-wireguard-addresses".
Definition peerLabel : string := "multisite-postgres.dev/wireguard-peer".

(** [golang.org/x/crypto/curve25519]: [X25519(scalar, Basepoint)] *)
Class Curve := { X25519_base : string -> result string }.
Definition curve25519_ScalarSize : nat := 32.
Definition curve25519_PointSize : nat := 32.

Record HubIdentity := mkHubIdentity { hid_PublicKey : string; hid_Address : Addr; hid_Prefix : Prefix }.

Definition parseNetwork (value : string) : result Prefix :=
  match ParsePrefix value with
  | None => Err (errors_New "WireGuard network must be an IPv4 CIDR with at least six usable addresses")
  | Some prefix =>
      if (29 <? pfx_Bits prefix)%Z then
        Err (errors_New "WireGuard network must be an IPv4 CIDR with at least six usable addresses")
      else if prefix != prefix_Masked prefix then
        Err (errors_New "WireGuard network must use its canonical network address")
      else Ok prefix
  end.

Definition validateEndpoint (value : string) : result unit :=
  match SplitHostPort value with
  | None => Err (errors_New "WireGuard endpoint must be a host:port")
  | Some (host, portValue) =>
      if blank host then Err (errors_New "WireGuard endpoint must be a host:port")
      else match ParseInt 64 portValue with
           | None => Err (errors_New "WireGuard endpoint port is invalid")
           | Some port =>
               if (port <? 1)%Z || (65535 <? port)%Z then Err (errors_New "WireGuard endpoint port is invalid") else Ok tt
           end
  end.

(** [addr.Next()]; the callers stay below the last address. *)
Definition addr_Next (a : Addr) : Addr := (a + 1)%Z.

(** [privateKey[0] &= 248; privateKey[31] &= 127; privateKey[31] |= 64] *)
Definition clamp (key : string) : string :=
  let first c := ascii_of_N (N.land (N_of_ascii c) 248) in
  let last c := ascii_of_N (N.lor (N.land (N_of_ascii c) 127) 64) in
  String.string_of_list_ascii (alter last 31 (alter first 0 (String.list_ascii_of_string key))).

Definition lf : string := String "010" "".

Section wireguard.
Context {K : KubeLib} {C : Crypto} {Cu : Curve}.

Definition generateKeyPair : kprog (result (string * string)) :=
  let! random := call (RandomBytes curve25519_ScalarSize) onerr e => Ret (Err e) in
  let privateKey := clamp random in
  match X25519_base privateKey with
  | Err e => Ret (Err e)
  | Ok publicKey => Ret (Ok (Base64.std_EncodeToString privateKey, Base64.std_EncodeToString publicKey))
  end.

Definition keyID (publicKey : string) : string := hex_EncodeToString (String.substring 0 8 (sha256 publicKey)).
Definition RenderedPeerHash (rendered : string) : string := hex_EncodeToString (sha256 rendered).

(** [None]: not returned within [fuel] rounds.  A round starts over only when the
    server reports that the secret it did not return exists. *)
Fixpoint EnsureHubIdentity (fuel : nat) (namespace cidr : string) : kprog (option (result HubIdentity)) :=
  match fuel with
  | O => Ret None
  | S fuel =>
      let cidr := if cidr == "" then DefaultNetworkCIDR else cidr in
      match parseNetwork cidr with
      | Err e => Ret (Some (Err e))
      | Ok prefix =>
          let address := addr_Next (pfx_Addr prefix) in
          let* got := call (Get KSecret namespace IdentitySecretName) in
          match got with
          | Ok secret =>
              let data := sec_Data secret in
              if (data !!! "networkCIDR" != prefix_String prefix) || (data !!! "address" != addr_String address) ||
                 (data !!! "publicKey" == "") || (data !!! "interface.conf" == "") then
                Ret (Some (Err (errors_New (namespace +:+ "/" +:+ IdentitySecretName +:+
                  " contains an incompatible WireGuard identity"))))
              else Ret (Some (Ok (mkHubIdentity (data !!! "publicKey") address prefix)))
          | Err e =>
              if negb (IsNotFound e) then Ret (Some (Err e))
              else
                let! keys := generateKeyPair onerr e => Ret (Some (Err e)) in
                let '(privateKey, publicKey) := keys in
                let secret := mkSecret
                  (zero_ObjectMeta <| meta_Namespace := namespace |> <| meta_Name := IdentitySecretName |>) (Some true)
                  (list_to_map [("privateKey", privateKey); ("publicKey", publicKey); ("keyID", keyID publicKey);
                     ("revocationEpoch", "0"); ("networkCIDR", prefix_String prefix); ("address", addr_String address);
                     ("interface.conf", "[Interface]" +:+ lf +:+ "PrivateKey = " +:+ privateKey +:+ lf +:+ "Address = " +:+
                        addr_String address +:+ "/" +:+ FormatInt (pfx_Bits prefix) +:+ lf +:+ "ListenPort = 51820" +:+ lf)]) in
                let* x := call (Create KSecret secret) in
                match x with
                | Ok _ => Ret (Some (Ok (mkHubIdentity publicKey address prefix)))
                | Err e => if IsAlreadyExists e then EnsureHubIdentity fuel namespace cidr else Ret (Some (Err e))
                end
          end
      end
  end.

(** ** Addresses *)

(** The search for a free address; [None] when the rounds do not suffice. *)
Fixpoint free_address (fuel : nat) (prefix : Prefix) (used : list string) (candidate : Addr) : option (option Addr) :=
  if negb (prefix_Contains prefix (addr_Next candidate)) then Some None
  else if slices_Contains used (addr_String candidate) then
    match fuel with
    | O => None
    | S fuel => free_address fuel prefix used (addr_Next candidate)
    end
  else Some (Some candidate).

Definition first_candidate (prefix : Prefix) : Addr := addr_Next (addr_Next (pfx_Addr prefix)).

(** The values of the allocations, and the address the search gives.  Every round
    that goes on has found one more of the values. *)
Definition map_values (m : gmap string string) : list string := (map_to_list m).*2.
Definition next_address (prefix : Prefix) (allocations : gmap string string) : option Addr :=
  let used := map_values allocations in
  match free_address (length used) prefix used (first_candidate prefix) with Some r => r | None => None end.

Definition reserve_once (namespace : string) (prefix : Prefix) (uid : string) : kprog (result Addr) :=
  let* got := call (Get KConfigMap namespace allocationsName) in
  match got with
  | Err e =>
      if IsNotFound e then
        let candidate := first_candidate prefix in
        let configMap := mkConfigMap (zero_ObjectMeta <| meta_Namespace := namespace |> <| meta_Name := allocationsName |>)
          {[uid := addr_String candidate]} in
        let! _ := call (Create KConfigMap configMap) onerr e =>
          Ret (Err (if IsAlreadyExists e then mkError ErrConflict (err_text e) else e)) in
        Ret (Ok candidate)
      else Ret (Err e)
  | Ok configMap =>
      let value := cm_Data configMap !!! uid in
      if value != "" then
        match ParseAddr value with
        | Some address =>
            if prefix_Contains prefix address then Ret (Ok address)
            else Ret (Err (errors_New ("stored WireGuard allocation for " +:+ uid +:+ " is invalid")))
        | None => Ret (Err (errors_New ("stored WireGuard allocation for " +:+ uid +:+ " is invalid")))
        end
      else match next_address prefix (cm_Data configMap) with
      | None => Ret (Err (errors_New ("WireGuard network " +:+ prefix_String prefix +:+ " has no available peer addresses")))
      | Some candidate =>
          let! _ := call (Update KConfigMap (configMap <| cm_Data ::= insert uid (addr_String candidate) |>))
            onerr e => Ret (Err e) in
          Ret (Ok candidate)
      end
  end.
Definition reserveAddress (namespace : string) (prefix : Prefix) (uid : string) : kprog (result Addr) :=
  RetryOnConflict (reserve_once namespace prefix uid).

Definition release_once (namespace uid : string) : kprog (result unit) :=
  let* got := call (Get KConfigMap namespace allocationsName) in
  match got with
  | Err e => Ret (match IgnoreNotFound e with Some e => Err e | None => Ok tt end)
  | Ok configMap =>
      match cm_Data configMap !! uid with
      | None => Ret (Ok tt)
      | Some _ =>
          let! _ := call (Update KConfigMap (configMap <| cm_Data ::= delete uid |>)) onerr e => Ret (Err e) in
          Ret (Ok tt)
      end
  end.
Definition releaseAddress (namespace uid : string) : kprog (result unit) := RetryOnConflict (release_once namespace uid).

(** ** The gateway's configuration *)
Definition update_hash_once (namespace hash : string) : kprog (result unit) :=
  let* got := call (Get KDeployment namespace GatewayDeploymentName) in
  match got with
  | Err e => if IsNotFound e || IsNotRegisteredError e then Ret (Ok tt) else Ret (Err e)
  | Ok deployment =>
      if pt_Annotations (dep_Template deployment) !!! PeersHashAnnotation == hash then Ret (Ok tt)
      else
        let! _ := call (Update KDeployment (deployment <| dep_Template ::= set pt_Annotations (insert PeersHashAnnotation hash) |>))
          onerr e => Ret (Err e) in
        Ret (Ok tt)
  end.
Definition updateGatewayPeerHash (namespace rendered : string) : kprog (result unit) :=
  RetryOnConflict (update_hash_once namespace (RenderedPeerHash rendered)).

Definition peer_stanza (siteName publicKey : string) (address : Addr) : string :=
  "# " +:+ siteName +:+ lf +:+ "[Peer]" +:+ lf +:+ "PublicKey = " +:+ publicKey +:+ lf +:+
  "AllowedIPs = " +:+ addr_String address +:+ "/32" +:+ lf.

(** One round of the loop over the peers. *)
Definition render_peer (secret : Secret) : result (option string) :=
  if sec_Data secret !!! "state" != "authorized" then Ok None
  else
    let publicKey := sec_Data secret !!! "publicKey" in
    match ParseAddr (sec_Data secret !!! "address") with
    | Some address =>
        if publicKey == "" then Err (errors_New ("peer Secret " +:+ meta_Name (sec_Meta secret) +:+ " has invalid key or address"))
        else Ok (Some (peer_stanza (sec_Data secret !!! "siteName") publicKey address))
    | None => Err (errors_New ("peer Secret " +:+ meta_Name (sec_Meta secret) +:+ " has invalid key or address"))
    end.
Fixpoint render_all (secrets : list Secret) : result (list string) :=
  match secrets with
  | [] => Ok []
  | secret :: secrets =>
      match render_peer secret with
      | Err e => Err e
      | Ok stanza =>
          match render_all secrets with
          | Err e => Err e
          | Ok peers => Ok (match stanza with Some stanza => stanza :: peers | None => peers end)
          end
      end
  end.
Definition rendered_peers (peers : list string) : string := Join (SortStrings peers) lf.

Definition RenderPeers (namespace : string) : kprog (result unit) :=
  let! secrets := call (List KSecret (Some namespace) {[peerLabel := "true"]}) onerr e => Ret (Err e) in
  match render_all secrets with
  | Err e => Ret (Err e)
  | Ok peers =>
      let rendered := rendered_peers peers in
      let* got := call (Get KConfigMap namespace PeersConfigMapName) in
      match got with
      | Err e =>
          if IsNotFound e then
            let! _ := call (Create KConfigMap (mkConfigMap
                (zero_ObjectMeta <| meta_Namespace := namespace |> <| meta_Name := PeersConfigMapName |>)
                {["peers.conf" := rendered]})) onerr e => Ret (Err e) in
            updateGatewayPeerHash namespace rendered
          else Ret (Err e)
      | Ok configMap =>
          if cm_Data configMap !!! "peers.conf" != rendered then
            let! _ := call (Update KConfigMap (configMap <| cm_Data := {["peers.conf" := rendered]} |>))
              onerr e => Ret (Err e) in
            updateGatewayPeerHash namespace rendered
          else updateGatewayPeerHash namespace rendered
      end
  end.

(** ** Peers *)
Definition peer_name (uid : string) : string := "wireguard-peer-" +:+ uid.

(** What an agent must send to be authorized. *)
Definition validate_peer_key (publicKey : string) : result unit :=
  match Base64.std_DecodeString publicKey with
  | None => Err (errors_New "WireGuard public key is not valid base64: illegal base64 data")
  | Some decodedKey =>
      if negb (String.length decodedKey =? curve25519_PointSize)%nat
      then Err (errors_New ("WireGuard public key must decode to " +:+ FormatInt (Z.of_nat curve25519_PointSize) +:+ " bytes"))
      else Ok tt
  end.

Definition peer_secret (namespace : string) (site : SiteRegistration) (publicKey : string) (address : Addr) : Secret :=
  mkSecret (zero_ObjectMeta <| meta_Namespace := namespace |> <| meta_Name := peer_name (meta_UID (reg_Meta site)) |>
      <| meta_Labels := {[peerLabel := "true"]} |>
      <| meta_OwnerReferences := [mkOwnerReference GroupVersion "SiteRegistration" (meta_Name (reg_Meta site))
           (meta_UID (reg_Meta site)) (Some true)] |>) None
    (list_to_map [("publicKey", publicKey); ("address", addr_String address); ("keyID", keyID publicKey);
       ("revocationEpoch", "0"); ("siteName", meta_Name (reg_Meta site)); ("state", "authorized")]).

Definition peer_configuration (hub : HubIdentity) (endpoint : string) (address : Addr) : string :=
  "Address = " +:+ addr_String address +:+ "/32" +:+ lf +:+ lf +:+ "[Peer]" +:+ lf +:+ "PublicKey = " +:+
  hid_PublicKey hub +:+ lf +:+ "Endpoint = " +:+ endpoint +:+ lf +:+ "AllowedIPs = " +:+
  addr_String (hid_Address hub) +:+ "/32" +:+ lf +:+ "PersistentKeepalive = 25" +:+ lf.

Definition AuthorizePeer (fuel : nat) (namespace cidr endpoint : string) (site : SiteRegistration) (publicKey : string) :
  kprog (option (result string)) :=
  match validateEndpoint endpoint, validate_peer_key publicKey with
  | Err e, _ => Ret (Some (Err e))
  | Ok _, Err e => Ret (Some (Err e))
  | Ok _, Ok _ =>
      let* found := EnsureHubIdentity fuel namespace cidr in
      match found with
      | None => Ret None
      | Some (Err e) => Ret (Some (Err e))
      | Some (Ok hub) =>
          let! address := reserveAddress namespace (hid_Prefix hub) (meta_UID (reg_Meta site))
            onerr e => Ret (Some (Err e)) in
          let peer := peer_secret namespace site publicKey address in
          let* created := call (Create KSecret peer) in
          let* problem :=
            match created with
            | Ok _ => Ret None
            | Err e =>
                if negb (IsAlreadyExists e) then Ret (Some e)
                else
                  let! existing := call (Get KSecret namespace (peer_name (meta_UID (reg_Meta site)))) onerr e => Ret (Some e) in
                  if (sec_Data existing !!! "publicKey" != publicKey) || (sec_Data existing !!! "address" != addr_String address)
                  then Ret (Some (errors_New "site already has a different authorized WireGuard key"))
                  else Ret None
            end in
          match problem with
          | Some e => Ret (Some (Err e))
          | None =>
              let! _ := RenderPeers namespace onerr e => Ret (Some (Err e)) in
              Ret (Some (Ok (peer_configuration hub endpoint address)))
          end
      end
  end.

Definition RevokePeer (namespace uid : string) : kprog (result unit) :=
  let* deleted := call (Delete KSecret (mkSecret
    (zero_ObjectMeta <| meta_Namespace := namespace |> <| meta_Name := peer_name uid |>) None ∅)) in
  match (match deleted with Ok _ => None | Err e => IgnoreNotFound e end) with
  | Some e => Ret (Err e)
  | None =>
      let! _ := releaseAddress namespace uid onerr e => Ret (Err e) in
      RenderPeers namespace
  end.
End wireguard.

(** ** Networks *)
Definition peer_network (p : Prefix) : Prop := canonical p /\ (pfx_Bits p <= 29)%Z.

(** Not the network's address, the hub's, or the broadcast address. *)
Definition usable (p : Prefix) (a : Addr) : Prop :=
  (pfx_Addr p + 2 <= a)%Z /\ (a + 1 < pfx_Addr p + prefix_size p)%Z.

Lemma usable_addr p a : canonical p -> usable p a -> is_addr a.
Proof.
  intros Hc [H1 H2]. pose proof (canonical_bound p Hc). destruct Hc as ([? ?] & _). unfold is_addr. lia.
Qed.

Lemma parseNetwork_Ok value p : parseNetwork value = Ok p -> peer_network p.
Proof.
  unfold parseNetwork. destruct (ParsePrefix value) as [q|] eqn:E; [|done]. apply ParsePrefix_range in E as [Ha Hb].
  destruct (29 <? pfx_Bits q)%Z eqn:H29; [done|]. destruct (_ != _) eqn:Hm; [done|]. intros [= <-]. bool_to_prop.
  split; [|done]. split; [done|]. split; [done|by symmetry].
Qed.

Lemma peer_network_first p : peer_network p -> usable p (first_candidate p).
Proof.
  intros [(Ha & Hb & _) H29]. unfold usable, first_candidate, addr_Next.
  assert (8 <= prefix_size p)%Z; [|lia]. unfold prefix_size.
  change 8%Z with (2 ^ 3)%Z. apply Z.pow_le_mono_r; lia.
Qed.

(** ** The search *)
Lemma free_address_spec p used c fuel : canonical p -> (pfx_Addr p <= c)%Z ->
  match free_address fuel p used c with
  | Some (Some a) => (c <= a)%Z /\ (a + 1 < pfx_Addr p + prefix_size p)%Z /\ addr_String a ∉ used
  | Some None => forall a, (c <= a)%Z -> (a + 1 < pfx_Addr p + prefix_size p)%Z -> addr_String a ∈ used
  | None => forall a, (c <= a <= c + Z.of_nat fuel)%Z -> addr_String a ∈ used /\ is_addr a
  end.
Proof.
  intros Hc. revert c. induction fuel as [|fuel IH]; intros c Hcl; cbn [free_address];
    destruct (prefix_Contains p (addr_Next c)) eqn:Ec; cbn [negb];
    [|intros a H1 H2; apply not_true_iff_false in Ec; rewrite canonical_contains in Ec by done; unfold addr_Next in Ec; lia| |
      intros a H1 H2; apply not_true_iff_false in Ec; rewrite canonical_contains in Ec by done; unfold addr_Next in Ec; lia];
    rewrite canonical_contains in Ec by done; unfold addr_Next in Ec;
    (destruct (slices_Contains used (addr_String c)) eqn:Eu;
      [apply bool_decide_eq_true in Eu|apply bool_decide_eq_false in Eu; split; [lia|]; split; [lia|done]]).
  - intros a Ha. replace a with c by lia. split; [done|]. pose proof (canonical_bound p Hc). destruct Hc as ([? ?] & _). unfold is_addr. lia.
  - specialize (IH (addr_Next c)). unfold addr_Next in *. destruct (free_address fuel p used (c + 1)%Z) as [[a|]|].
    + destruct IH as (? & ? & ?); [lia|]. split; [lia|done].
    + intros a H1 H2. destruct (decide (a = c)) as [->|]; [done|]. apply IH; lia.
    + intros a Ha. destruct (decide (a = c)) as [->|]; [|apply IH; lia].
      split; [done|]. pose proof (canonical_bound p Hc). destruct Hc as ([? ?] & _). unfold is_addr. lia.
Qed.

(** A round that goes on has found one more of the used addresses. *)
Lemma free_address_fuel p used c : canonical p -> (pfx_Addr p <= c)%Z -> free_address (length used) p used c <> None.
Proof.
  intros Hc Hcl E. pose proof (free_address_spec p used c (length used) Hc Hcl) as H. rewrite E in H.
  set (l := (fun k => addr_String (c + Z.of_nat k)%Z) <$> seq 0 (S (length used))).
  assert (Hl : length l = S (length used)) by (unfold l; by rewrite length_fmap, length_seq).
  assert (Hn : NoDup l).
  { unfold l. apply NoDup_fmap_2_strong; [|apply NoDup_seq].
    intros x y Hx%elem_of_seq Hy%elem_of_seq Exy. apply addr_String_inj in Exy; [lia|apply H; lia|apply H; lia]. }
  assert (Hs : l ⊆ used).
  { intros s. unfold l. rewrite list_elem_of_fmap. intros (k & -> & Hk%elem_of_seq). apply H. lia. }
  pose proof (submseteq_length _ _ (NoDup_submseteq _ _ Hn Hs)). lia.
Qed.

Lemma next_address_spec p m : canonical p ->
  match next_address p m with
  | Some a => usable p a /\ addr_String a ∉ map_values m
  | None => forall a, usable p a -> addr_String a ∈ map_values m
  end.
Proof.
  intros Hc. unfold next_address.
  assert (Hf : (pfx_Addr p <= first_candidate p)%Z) by (unfold first_candidate, addr_Next; lia).
  pose proof (free_address_spec p (map_values m) (first_candidate p) (length (map_values m)) Hc Hf) as H.
  destruct (free_address _ _ _ _) as [[a|]|] eqn:E.
  - destruct H as (H1 & H2 & H3). split; [|done]. unfold usable, first_candidate, addr_Next in *. lia.
  - intros a [H1 H2]. apply H; unfold first_candidate, addr_Next; lia.
  - by apply free_address_fuel in E.
Qed.

(** ** Allocations *)

(** Every registration has a usable address of its own. *)
Definition alloc_ok (p : Prefix) (m : gmap string string) : Prop :=
  (forall uid v, m !! uid = Some v -> exists a, usable p a /\ v = addr_String a) /\
  (forall uid uid' v, m !! uid = Some v -> m !! uid' = Some v -> uid = uid').

Lemma elem_of_map_values m v : v ∈ map_values m <-> exists uid, m !! uid = Some v.
Proof.
  unfold map_values. rewrite list_elem_of_fmap. split.
  - intros ([uid w] & -> & H%elem_of_map_to_list). by exists uid.
  - intros [uid H]. exists (uid, v). split; [done|]. by apply elem_of_map_to_list.
Qed.

Lemma alloc_ok_insert p m uid a : alloc_ok p m -> usable p a -> addr_String a ∉ map_values m ->
  alloc_ok p (<[uid := addr_String a]> m).
Proof.
  intros [Hu Hi] Ha Hf. rewrite elem_of_map_values in Hf. split.
  - intros uid' v. rewrite lookup_insert_Some. naive_solver.
  - intros u1 u2 v. rewrite !lookup_insert_Some. naive_solver.
Qed.
Lemma alloc_ok_delete p m uid : alloc_ok p m -> alloc_ok p (delete uid m).
Proof.
  intros [Hu Hi]. split.
  - intros uid' v. rewrite lookup_delete_Some. naive_solver.
  - intros u1 u2 v. rewrite !lookup_delete_Some. naive_solver.
Qed.
Lemma alloc_ok_empty p : alloc_ok p ∅.
Proof. split; intros *; by rewrite lookup_empty. Qed.

Section allocations.
Context {K : KubeLib} {L : KubeLaws K}.

(** A write of the allocations changes those it was prepared from, without
    giving an address twice, for no registration but [uid]. *)
Definition alloc_request (p : Prefix) (namespace uid : string) (h : khistory) (r : Req) : Prop :=
  match r with
  | Get KConfigMap ns n => (ns, n) = (namespace, allocationsName)
  | Create KConfigMap cm => alloc_ok p (cm_Data cm)
  | Update KConfigMap cm => exists base : ConfigMap, prepared_from (k:=KConfigMap) cm base h /\
      (alloc_ok p (cm_Data base) -> alloc_ok p (cm_Data cm)) /\
      forall uid', uid' <> uid -> cm_Data cm !! uid' = cm_Data base !! uid'
  | _ => False
  end.

Lemma reserve_requests p namespace uid h : peer_network p ->
  sat (alloc_request p namespace uid)
    (fun h' x => forall a, x = Ok a -> (forall cm, was_read (k:=KConfigMap) h' cm -> alloc_ok p (cm_Data cm)) -> usable p a)
    h (reserveAddress namespace p uid).
Proof.
  intros Hp. pose proof Hp as [Hc _]. apply (retry_sat _ (fun _ => True)); [|done]. intros h1 _. unfold reserve_once.
  sat_step. sat_step; [done|]. destruct x as [cm|e].
  2:{ destruct (IsNotFound e); [|by split]. sat_step. sat_step.
      - apply (alloc_ok_insert p ∅ uid); [apply alloc_ok_empty|by apply peer_network_first|].
        rewrite elem_of_map_values. intros [u Hu]. by rewrite lookup_empty in Hu.
      - destruct x as [cm|e']; (split; [done|]); [|done]. intros a [= <-] _. by apply peer_network_first. }
  destruct (_ != _) eqn:Ev.
  - destruct (ParseAddr _) as [address|] eqn:Ea; [|by split]. destruct (prefix_Contains _ _); [|by split].
    split; [done|]. intros a [= <-] Hall. bool_to_prop.
    destruct (Hall cm) as [Hu _]; [eexists _, _; by apply elem_of_cons; left|].
    rewrite lookup_total_alt in Ea, Ev. destruct (cm_Data cm !! uid) as [v|] eqn:El; [|done]. simpl in *.
    destruct (Hu _ _ El) as (a' & Ha' & ->). rewrite ParseAddr_String in Ea by (by eapply usable_addr). by injection Ea as <-.
  - pose proof (next_address_spec p (cm_Data cm) Hc) as Hn. destruct (next_address p (cm_Data cm)) as [a|]; [|by split].
    destruct Hn as [Hu Hf]. sat_step. sat_step.
    + exists cm. split; [|split].
      * split; [eexists _, _; by apply elem_of_cons; left|done].
      * intros Hok. by apply alloc_ok_insert.
      * intros uid' Hne. cbn. by rewrite lookup_insert_ne.
    + destruct x as [cm'|e]; (split; [done|]); [|done]. by intros a' [= <-] _.
Qed.

Lemma release_requests p namespace uid h :
  sat (alloc_request p namespace uid) (fun _ _ => True) h (releaseAddress namespace uid).
Proof.
  apply (retry_sat _ (fun _ => True)); [|done]. intros h1 _. unfold release_once.
  sat_step. sat_step; [done|]. destruct x as [cm|e]; [|by split].
  destruct (cm_Data cm !! uid); [|by split]. sat_step. sat_step.
  - exists cm. split; [|split].
    + split; [eexists _, _; by apply elem_of_cons; left|done].
    + apply alloc_ok_delete.
    + intros uid' Hne. cbn. by rewrite lookup_delete_ne.
  - by destruct x; split.
Qed.

Context {A : ApiServer} {AL : ApiServerLaws A}.

End allocations.

(** A registration is refused an address only when the network is
    exhausted: the search for a free address ends, gives the lowest usable
    address that no registration has, and fails exactly when every usable
    address is taken. *)
Theorem address_search_exact p m : canonical p ->
  (next_address p m = None <-> forall a, usable p a -> addr_String a ∈ map_values m) /\
  forall a, next_address p m = Some a ->
    usable p a /\ (addr_String a ∉ map_values m) /\
    forall b, usable p b -> (b < a)%Z -> addr_String b ∈ map_values m.
Proof.
  intros Hc. pose proof (next_address_spec p m Hc) as H. split.
  - destruct (next_address p m) as [a|]; [|done]. split; [done|]. intros Hall. destruct H as [Hu Hf].
    destruct Hf. by apply Hall.
  - intros a E. rewrite E in H. destruct H as [Hu Hf]. split; [done|]. split; [done|]. clear Hu Hf.
    unfold next_address in E. remember (length (map_values m)) as fuel eqn:Efuel. clear Efuel.
    assert (Hlow : forall c, (forall b, (pfx_Addr p + 2 <= b)%Z -> (b < c)%Z -> addr_String b ∈ map_values m) ->
      match free_address fuel p (map_values m) c with Some r => r | None => None end = Some a ->
      forall b, usable p b -> (b < a)%Z -> addr_String b ∈ map_values m).
    { clear E. induction fuel as [|fuel IH]; intros c Hb; cbn [free_address]; destruct (negb _); try done;
        destruct (slices_Contains _ _) eqn:Eu; try done.
      - intros [= ->] b [Hb1 _] Hlt. by apply Hb.
      - apply IH. intros b Hb1 Hlt. unfold addr_Next in Hlt. apply bool_decide_eq_true in Eu.
        destruct (decide (b = c)) as [->|]; [done|]. apply Hb; lia.
      - intros [= ->] b [Hb1 _] Hlt. by apply Hb. }
    apply (Hlow (first_candidate p)); [|done]. unfold first_candidate, addr_Next. lia.
Qed.

(** ** The configuration *)
Section gateway.
Context {K : KubeLib} {L : KubeLaws K} {C : Crypto}.

Definition authorized (secret : Secret) : Prop := sec_Data secret !!! "state" = "authorized".

(** The stanza of an authorized peer. *)
Definition stanza_of (secret : Secret) (stanza : string) : Prop :=
  authorized secret /\ exists a, ParseAddr (sec_Data secret !!! "address") = Some a /\
    stanza = peer_stanza (sec_Data secret !!! "siteName") (sec_Data secret !!! "publicKey") a.

Lemma render_all_spec secrets peers : render_all secrets = Ok peers ->
  forall stanza, stanza ∈ peers <-> exists secret, secret ∈ secrets /\ stanza_of secret stanza.
Proof.
  revert peers. induction secrets as [|secret secrets IH]; intros peers; simpl.
  - intros [= <-] stanza. rewrite elem_of_nil. split; [done|]. by intros (s & Hs%elem_of_nil & _).
  - destruct (render_peer secret) as [x|] eqn:Er; [|done]. destruct (render_all secrets) as [l|] eqn:El; [|done].
    specialize (IH l eq_refl). intros [= <-] stanza.
    assert (Hx : x = Some stanza <-> stanza_of secret stanza).
    { unfold render_peer in Er. unfold stanza_of, authorized. case_bool_decide as Hs; simpl in Er; [|naive_solver].
      destruct (ParseAddr _) as [a|]; [|done]. case_bool_decide; [done|]. naive_solver. }
    setoid_rewrite elem_of_cons. destruct x as [s0|]; rewrite ?elem_of_cons, IH; naive_solver.
Qed.

Lemma rendered_peers_perm l l' : l ≡ₚ l' -> rendered_peers l = rendered_peers l'.
Proof.
  intros H. unfold rendered_peers. f_equal.
  apply (StronglySorted_unique String.le); [apply SortStrings_sorted..|].
  by rewrite !SortStrings_perm.
Qed.

(** What the gateway is given: the authorized peers among those the server
    listed last, in an order that does not depend on the listing. *)
Definition gateway_write (h : khistory) (data : gmap string string) : Prop :=
  exists secrets peers ns labels, existT (List KSecret ns labels) (Ok secrets) ∈ h /\ data = {["peers.conf" := rendered_peers peers]} /\
    forall stanza, stanza ∈ peers <-> exists secret, secret ∈ secrets /\ stanza_of secret stanza.

Definition gateway_request (h : khistory) (r : Req) : Prop :=
  match r with
  | Create KConfigMap cm | Update KConfigMap cm => gateway_write h (cm_Data cm)
  | Update KDeployment d => exists (d0 : Deployment) rendered, was_read (k:=KDeployment) h d0 /\
      gateway_write h {["peers.conf" := rendered]} /\
      d = (d0 <| dep_Template ::= set pt_Annotations (insert PeersHashAnnotation (RenderedPeerHash rendered)) |>)
  | Get _ _ _ | List _ _ _ => True
  | _ => False
  end.

Lemma gateway_write_cons h e data : gateway_write h data -> gateway_write (e :: h) data.
Proof. intros (s & p & ns & l & Hin & Hd & Hs). exists s, p, ns, l. split; [by apply elem_of_cons; right|done]. Qed.

Lemma updateGatewayPeerHash_sat namespace rendered h :
  gateway_write h {["peers.conf" := rendered]} ->
  sat gateway_request done_ h (updateGatewayPeerHash namespace rendered).
Proof.
  apply (retry_sat _ (fun h => gateway_write h {["peers.conf" := rendered]})). clear h. intros h Hw. unfold update_hash_once.
  sat_step. sat_step; [done|]. destruct x as [d|e].
  - case_bool_decide; [by split; [apply gateway_write_cons|]|]. sat_step. sat_step.
    + exists d, rendered. split; [eexists _, _; by apply elem_of_cons; left|]. split; [by apply gateway_write_cons|done].
    + destruct x; (split; [by do 2 apply gateway_write_cons|done]).
  - destruct (_ || _); (split; [by apply gateway_write_cons|done]).
Qed.

(** Whatever the server answers, the configuration written for the
    gateway lists exactly the authorized peers the server returned, each with
    its own key and its own single address, and does not depend on the order
    they were returned in; the gateway's Deployment is changed only to carry the
    hash of the written configuration. *)
Theorem gateway_lists_authorized_peers namespace h :
  (forall l l', l ≡ₚ l' -> rendered_peers l = rendered_peers l') /\
  sat gateway_request done_ h (RenderPeers namespace).
Proof.
  split; [apply rendered_peers_perm|]. unfold RenderPeers. sat_step. sat_step; [done|].
  destruct x as [secrets|e]; [|done]. destruct (render_all secrets) as [peers|] eqn:E; [|done].
  assert (Hw : gateway_write (existT (List KSecret (Some namespace) {[peerLabel := "true"]}) (Ok secrets) :: h)
    {["peers.conf" := rendered_peers peers]}).
  { eexists secrets, peers, _, _. split; [by apply elem_of_cons; left|]. split; [done|]. by apply render_all_spec. }
  sat_step. sat_step; [done|]. destruct x as [cm|e].
  - destruct (_ != _); [|by apply updateGatewayPeerHash_sat, gateway_write_cons].
    sat_step. sat_step; [by apply gateway_write_cons|]. destruct x; [|done].
    by apply updateGatewayPeerHash_sat; do 2 apply gateway_write_cons.
  - destruct (IsNotFound e); [|done]. sat_step. sat_step; [by apply gateway_write_cons|]. destruct x; [|done].
    by apply updateGatewayPeerHash_sat; do 2 apply gateway_write_cons.
Qed.
End gateway.

(** ** Keys

    The base-64 decoder skips line breaks, so a key that is accepted can break
    the line of the configuration it is written to. *)
Definition broken_key : string := "AAAAAAAAAAAAAAAAAAAAAAAAAAAAAAAAAAAAAAAAAAA" +:+ lf +:+ "=".

(** The check of an agent's WireGuard key accepts a key with a line
    break, and the stanza rendered for it has a line that is neither a comment,
    a section nor an assignment, which the WireGuard tools reject together with
    the configuration of all other peers. *)
Theorem peer_key_may_break_configuration siteName address :
  validate_peer_key broken_key = Ok tt /\
  exists before after, peer_stanza siteName broken_key address = before +:+ lf +:+ "=" +:+ lf +:+ after.
Proof.
  split; [vm_compute; reflexivity|]. unfold peer_stanza, broken_key.
  exists ("# " +:+ siteName +:+ lf +:+ "[Peer]" +:+ lf +:+ "PublicKey = " +:+ "AAAAAAAAAAAAAAAAAAAAAAAAAAAAAAAAAAAAAAAAAAA"),
    ("AllowedIPs = " +:+ addr_String address +:+ "/32" +:+ lf).
  by rewrite <- !app_assoc_string.
Qed.

(** ** Witnesses *)
Module RefWireGuard.
Definition network : Prefix := mkPrefix 184418304%Z 29%Z.
Lemma network_ok : peer_network network.
Proof. split; [|vm_compute; discriminate]. split; [by vm_compute; split|]. split; [by vm_compute; split|vm_compute; reflexivity]. Qed.
Definition full : gmap string string :=
  list_to_map [("a", "10.254.0.2"); ("b", "10.254.0.3"); ("c", "10.254.0.4"); ("d", "10.254.0.6")].
Definition cluster : MemServer.server := MemServer.add (k:=KConfigMap)
  (mkConfigMap (zero_ObjectMeta <| meta_Namespace := "ns" |> <| meta_Name := allocationsName |>) full) MemServer.empty.
End RefWireGuard.


Lemma address_search_exact_witness :
  next_address RefWireGuard.network (<["e" := "10.254.0.5"]> RefWireGuard.full) = None /\
  addr_String 184418307%Z ∈ map_values (<["e" := "10.254.0.5"]> RefWireGuard.full).
Proof.
  assert (E : next_address RefWireGuard.network (<["e" := "10.254.0.5"]> RefWireGuard.full) = None) by (vm_compute; reflexivity).
  split; [exact E|].
  destruct (address_search_exact RefWireGuard.network (<["e" := "10.254.0.5"]> RefWireGuard.full)
    (proj1 RefWireGuard.network_ok)) as [H _]. apply (proj1 H E). vm_compute. split; [discriminate|reflexivity].
Defined.

Lemma gateway_lists_authorized_peers_witness :
  sat gateway_request done_ [] (RenderPeers (K:=Ref.lib) (C:=RefCodec.crypto) "ns").
Proof. apply (gateway_lists_authorized_peers "ns" []). Defined.

(** ** Requests of the package *)
Definition wireguard_request (r : Req) : Prop :=
  match r with
  | Get k _ _ | Create k _ | Update k _ => k = KSecret \/ k = KConfigMap \/ k = KDeployment
  | List KSecret _ _ | RandomBytes _ => True
  | _ => False
  end.

Section wireguard_requests.
Context {K : KubeLib} {L : KubeLaws K} {C : Crypto} {Cu : Curve}.

Ltac harmless := repeat (sat_step; try first [exact I|cbn; tauto]).

Lemma retry_harmless {A} (fn : kprog (result A)) h :
  (forall h, sat (fun _ r => wireguard_request r) done_ h fn) ->
  sat (fun _ r => wireguard_request r) done_ h (RetryOnConflict fn).
Proof.
  intros Hfn. apply (retry_sat _ (fun _ => True)); [|done]. intros h1 _.
  eapply sat_mono; [| |apply Hfn]; [intros ? ? H; exact H|by split].
Qed.

Lemma RenderPeers_harmless namespace h : sat (fun _ r => wireguard_request r) done_ h (RenderPeers namespace).
Proof.
  assert (Hh : forall rendered h, sat (fun _ r => wireguard_request r) done_ h (updateGatewayPeerHash namespace rendered)).
  { intros rendered h1. apply retry_harmless. intros h2. unfold update_hash_once. harmless. }
  unfold RenderPeers. repeat (sat_step; try first [exact I|cbn; tauto]; try apply Hh).
Qed.

Lemma EnsureHubIdentity_harmless fuel namespace cidr h :
  sat (fun _ r => wireguard_request r) done_ h (EnsureHubIdentity fuel namespace cidr).
Proof.
  revert cidr h. induction fuel as [|fuel IH]; intros cidr h; [done|]. cbn [EnsureHubIdentity]. unfold generateKeyPair.
  repeat (sat_step; try first [exact I|cbn; tauto]; try apply IH).
Qed.

Lemma AuthorizePeer_harmless fuel namespace cidr endpoint site publicKey h :
  sat (fun _ r => wireguard_request r) done_ h (AuthorizePeer fuel namespace cidr endpoint site publicKey).
Proof.
  unfold AuthorizePeer. destruct (validateEndpoint _); [|done]. destruct (validate_peer_key _); [|done].
  sat_step. eapply sat_mono; [intros ? ? H; exact H| |apply EnsureHubIdentity_harmless]. intros h1 [[hub|]|] _; [|done..].
  sat_step. eapply sat_mono; [intros ? ? H; exact H| |apply retry_harmless].
  - intros h2 [address|] _; [|done]. sat_step. sat_step; [cbn; tauto|]. sat_step.
    assert (Hend : forall h (problem : option Error), sat (fun _ r => wireguard_request r) done_ h
      match problem with
      | Some e => Ret (Some (Err e))
      | None => let! _ := RenderPeers namespace onerr e => Ret (Some (Err e)) in
                Ret (Some (Ok (peer_configuration hub endpoint address)))
      end).
    { intros h3 [e|]; [done|]. sat_step. eapply sat_mono; [intros ? ? H; exact H| |apply RenderPeers_harmless]. by intros h4 [] _. }
    repeat (sat_step; try first [exact I|cbn; tauto]; try apply Hend).
  - intros h2. unfold reserve_once. harmless.
Qed.

Lemma RevokePeer_harmless namespace uid h :
  sat (fun _ r => wireguard_request r \/ exists o : Secret, r = Delete KSecret o /\ meta_Name (sec_Meta o) = peer_name uid) done_ h
    (RevokePeer namespace uid).
Proof.
  unfold RevokePeer. sat_step. sat_step; [right; by eexists|].
  set (failure := match x with Ok _ => None | Err e => IgnoreNotFound e end). destruct failure; [done|].
  sat_step. eapply sat_mono; [| |apply retry_harmless]; [by left| |].
  - intros h1 [[]|] _; [|done]. eapply sat_mono; [| |apply RenderPeers_harmless]; [by left|done].
  - intros h1. unfold release_once. harmless.
Qed.
End wireguard_requests.
