(* ===== verification/Registration.v ===== *)
(** * Registration of a site

    [internal/registration]: one-time registration tokens, the HTTP server that
    hands out the agent's manifests and binds a Kubernetes cluster to a
    registration, the claims that keep a cluster from being bound twice, and the
    certificates of the agents.  PEM, X.509 and YAML are interfaces; a key is an
    opaque text. *)

From S2P Require Import Prelude Utf8 Prog Api Workloads Kube ApiServer Codec NetAddr Plan WireGuard.

(** ** Tokens *)
Definition TokenLifetime : Duration := (10 * minute)%Z.
Definition sha256_Size : nat := 32.

Record Token := mkToken { tok_Value : string; tok_Hash : string; tok_ExpiresAt : Time }.

Section token.
Context {C : Crypto}.

Definition NewToken (now : Time) : kprog (result Token) :=
  let! value := call (RandomBytes 32) onerr e => Ret (Err e) in
  let encoded := Base64.url_EncodeToString value in
  Ret (Ok (mkToken encoded (sha256 encoded) (time_Add now TokenLifetime))).

Definition Verify (value expectedHash : string) (expiresAt now : Time) : result unit :=
  if negb (String.length expectedHash =? sha256_Size)%nat then Err (errors_New "registration token hash is invalid")
  else if negb (time_Before now expiresAt) then Err (errors_New "registration token has expired")
  else if sha256 value != expectedHash then Err (errors_New "registration token is invalid")
  else Ok tt.
End token.

(** ** Certificates *)
Record PemBlock := mkPemBlock { pem_Type : string; pem_Bytes : string }.

(** A public key: an ECDSA key with the name of its curve, or another kind. *)
Inductive PublicKey := EcdsaKey (curve key : string) | OtherKey (key : string).

Record CertificateRequest := mkCSR { csr_PublicKey : PublicKey; csr_SignatureValid : bool }.

Inductive KeyUsage := DigitalSignature | KeyEncipherment | CertSign | CRLSign.
#[global] Instance KeyUsage_eq_dec : EqDecision KeyUsage.
Proof. solve_decision. Defined.
Inductive ExtKeyUsage := ClientAuth | ServerAuth.
#[global] Instance ExtKeyUsage_eq_dec : EqDecision ExtKeyUsage.
Proof. solve_decision. Defined.

(** The parts of [x509.Certificate] the repository reads; an IP address is its sixteen bytes. *)
Record Certificate := newCertificate {
  crt_SerialNumber : string;
  crt_CommonName : string;
  crt_URIs : list string;
  crt_NotBefore : Time;
  crt_NotAfter : Time;
  crt_IsCA : bool;
  crt_KeyUsage : list KeyUsage;
  crt_ExtKeyUsage : list ExtKeyUsage;
  crt_PublicKey : PublicKey;
  crt_IPAddresses : list (list Z)
}.
(** A template without addresses. *)
Definition mkCertificate (serial commonName : string) (uris : list string) (notBefore notAfter : Time) (isCA : bool)
  (usage : list KeyUsage) (extUsage : list ExtKeyUsage) (key : PublicKey) : Certificate :=
  newCertificate serial commonName uris notBefore notAfter isCA usage extUsage key [].

Class X509 := {
  pem_Decode : string -> option (PemBlock * string);
  pem_EncodeToMemory : PemBlock -> string;
  ParseCertificateRequest : string -> result CertificateRequest;
  ParseCertificate : string -> result Certificate;
  ParseECPrivateKey : string -> result string;
  MarshalECPrivateKey : string -> result string;
  (** [ecdsa.GenerateKey(P256)] from random bytes, and its public key *)
  GenerateKey : string -> result string;
  PublicOf : string -> PublicKey;
  (** [x509.CreateCertificate] (template, parent, public key, signing key) *)
  CreateCertificate : Certificate -> Certificate -> PublicKey -> string -> result string;
}.

Class X509Laws (X : X509) := {
  pem_roundtrip b : exists rest, pem_Decode (pem_EncodeToMemory b) = Some (b, rest);
  (** the certificate has the subject, the names and the usages of the template
      and the given key *)
  created_parsed template parent pub key der :
    CreateCertificate template parent pub key = Ok der ->
    exists c, ParseCertificate der = Ok c /\ crt_CommonName c = crt_CommonName template /\
      crt_URIs c = crt_URIs template /\ crt_IsCA c = crt_IsCA template /\
      crt_ExtKeyUsage c = crt_ExtKeyUsage template /\ crt_PublicKey c = pub;
}.

(** ** Manifests *)
Class Yaml := { yaml_Marshal : Value -> result string }.

(** *** Access of the agent *)
Record PolicyRule := mkPolicyRule {
  pr_Groups : list string;
  pr_Resources : list string;
  pr_ResourceNames : option (list string);
  pr_Verbs : list string
}.
Definition rule (groups resources verbs : list string) : PolicyRule := mkPolicyRule groups resources None verbs.
Definition namedRule (groups resources resourceNames verbs : list string) : PolicyRule :=
  mkPolicyRule groups resources (Some resourceNames) verbs.
Definition rule_Value (r : PolicyRule) : Value :=
  VMap ([("apiGroups", strs (pr_Groups r)); ("resources", strs (pr_Resources r))] ++
        match pr_ResourceNames r with Some names => [("resourceNames", strs names)] | None => [] end ++
        [("verbs", strs (pr_Verbs r))]).

Definition site_secret_names (siteName : string) : list string :=
  concat ((fun ordinal =>
    let etcd := "etcd-" +:+ siteName +:+ "-" +:+ FormatInt (Z.of_nat ordinal) in
    let postgres := "postgres-" +:+ siteName +:+ "-" +:+ FormatInt (Z.of_nat ordinal) in
    [etcd +:+ "-tls"; postgres +:+ "-tls"; postgres +:+ "-pgbackrest-tls"]) <$> seq 0 16).

Definition agentSecretResourceNames (siteName : string) : list string :=
  let names := ["etcd-maintenance-client-tls"; "minio-ca"; "mspsql-agent-bootstrap"; "mspsql-agent-identity";
    "mspsql-agent-identity-a"; "mspsql-agent-identity-b"; "patroni-api-client-tls"; "patroni-etcd-client-tls";
    "pg-tde-vault"; "pgbackrest-client-tls"; "pgbackrest-repository"; "pgpool-auth"; "postgres-auth";
    "postgres-auth-pending"; "postgres-auth-previous"; "vault-ca"] in
  let names := if siteName != "" then names ++ ["pgpool-" +:+ siteName +:+ "-tls"] ++ site_secret_names siteName else names in
  sorted_set names.

Definition agentClusterRoleRules (siteName : string) : list PolicyRule :=
  let mutate := ["get"; "list"; "watch"; "create"; "update"; "patch"; "delete"] in
  let secretMutate := ["get"; "update"; "patch"; "delete"] in
  [rule [""] ["namespaces"; "services"; "serviceaccounts"; "configmaps"; "persistentvolumeclaims"; "pods"] mutate;
   rule [""] ["secrets"] ["create"];
   namedRule [""] ["secrets"] (agentSecretResourceNames siteName) secretMutate;
   rule [""] ["serviceaccounts/token"] ["create"];
   rule ["apps"] ["deployments"; "statefulsets"] mutate;
   rule ["batch"] ["jobs"; "cronjobs"] mutate;
   rule ["coordination.k8s.io"] ["leases"] mutate;
   rule ["networking.k8s.io"] ["networkpolicies"] mutate;
   rule ["cert-manager.io"] ["certificates"] mutate;
   rule ["cert-manager.io"] ["issuers"; "clusterissuers"] ["get"; "list"; "watch"];
   rule ["storage.k8s.io"] ["storageclasses"] ["get"; "list"; "watch"];
   rule ["snapshot.storage.k8s.io"] ["volumesnapshotclasses"] ["get"; "list"; "watch"];
   rule ["snapshot.storage.k8s.io"] ["volumesnapshots"] mutate;
   rule [""] ["events"] ["create"; "patch"];
   rule ["events.k8s.io"] ["events"] ["create"; "patch"]].

(** *** Network policy *)
Definition defaultPort (scheme : string) : Z := if scheme == "http" then 80%Z else 443%Z.

(** The set of ports with the port of an address, or the fallback when the
    address has none. *)
Definition addAddressPort (ports : gset Z) (address : string) (fallback : Z) : gset Z :=
  match SplitHostPort address with
  | None => {[fallback]} ∪ ports
  | Some (_, value) =>
      match ParseInt 64 value with
      | Some port => if (0 <? port)%Z && (port <=? 65535)%Z then {[port]} ∪ ports else ports
      | None => ports
      end
  end.

(** Lists in ascending order without repetition, from a set. *)
Definition sorted_ports (ports : gset Z) : list Z := merge_sort Z.le (elements ports).

Section manifests.
Context {U : UrlLib}.

Definition tcp_ports (registrationURL hubAddress : string) : gset Z :=
  let ports : gset Z := {[443%Z; 6443%Z; 8008%Z; 8082%Z; 8200%Z; 9444%Z]} in
  let ports := match url_Parse registrationURL with
    | Ok parsed => addAddressPort ports (url_Host parsed) (defaultPort (url_Scheme parsed))
    | Err _ => ports
    end in
  addAddressPort ports hubAddress 9444%Z.

Definition protocol_port (protocol : string) (port : Z) : Value := VMap [("protocol", VStr protocol); ("port", VInt port)].
Definition agentLabels : Value := VMap [("app.kubernetes.io/name", VStr "mspsql-agent")].

Definition agentNetworkPolicy (registrationURL hubAddress : string) : Value :=
  let tcpPorts := VList (protocol_port "TCP" <$> sorted_ports (tcp_ports registrationURL hubAddress)) in
  VMap [("apiVersion", VStr "networking.k8s.io/v1"); ("kind", VStr "NetworkPolicy");
    ("metadata", VMap [("name", VStr "mspsql-agent"); ("namespace", VStr "mspsql-agent")]);
    ("spec", VMap [
      ("podSelector", VMap [("matchLabels", agentLabels)]);
      ("policyTypes", strs ["Ingress"; "Egress"]);
      ("ingress", VList [VMap [
         ("from", VList [VMap [("namespaceSelector", VMap [("matchLabels", VMap [("metrics", VStr "enabled")])])]]);
         ("ports", VList [protocol_port "TCP" 8080])]]);
      ("egress", VList [VMap [("ports", tcpPorts)];
         VMap [("ports", VList [protocol_port "UDP" 51820; protocol_port "TCP" 53; protocol_port "UDP" 53])]])])].

Definition agentMetricsService : Value :=
  VMap [("apiVersion", VStr "v1"); ("kind", VStr "Service");
    ("metadata", VMap [("name", VStr "mspsql-agent-metrics"); ("namespace", VStr "mspsql-agent"); ("labels", agentLabels)]);
    ("spec", VMap [("selector", agentLabels);
       ("ports", VList [VMap [("name", VStr "metrics"); ("port", VInt 8080); ("targetPort", VStr "metrics")]])])].

Definition field_env (name path : string) : Value :=
  VMap [("name", VStr name); ("valueFrom", VMap [("fieldRef", VMap [("fieldPath", VStr path)])])].
Definition secret_env (name key : string) : Value :=
  VMap [("name", VStr name); ("valueFrom", VMap [("secretKeyRef",
    VMap [("name", VStr "mspsql-agent-bootstrap"); ("key", VStr key)])])].
Definition read_only_mount (name path : string) : Value :=
  VMap [("name", VStr name); ("mountPath", VStr path); ("readOnly", VBool true)].
Definition mount (name path : string) : Value := VMap [("name", VStr name); ("mountPath", VStr path)].
Definition resources (cpu memory : string) : list (string * Value) := [("cpu", VStr cpu); ("memory", VStr memory)].
Definition tun : string * Value := ("multisite-postgres.dev/tun", VInt 1).

Definition agent_container (site : SiteRegistration) (agentImage : string) : Value :=
  VMap [("name", VStr "site-agent"); ("image", VStr agentImage);
    ("ports", VList [VMap [("name", VStr "metrics"); ("containerPort", VInt 8080); ("protocol", VStr "TCP")]]);
    ("args", strs ["--hub-address=$(HUB_ADDRESS)"; "--hub-domain=$(HUB_DOMAIN)";
       "--registration-uid=" +:+ meta_UID (reg_Meta site)]);
    ("env", VList [field_env "POD_NAME" "metadata.name"; field_env "POD_NAMESPACE" "metadata.namespace";
       secret_env "HUB_ADDRESS" "hub-address"; secret_env "HUB_DOMAIN" "hub-domain"]);
    ("volumeMounts", VList [read_only_mount "bootstrap" "/etc/mspsql/bootstrap";
       read_only_mount "identity" "/etc/mspsql/identity"; mount "runtime" "/run/mspsql"]);
    ("readinessProbe", VMap [("exec", VMap [("command", strs ["/site-agent"; "--check-ready=/etc/mspsql/identity/tls.crt"])]);
       ("periodSeconds", VInt 2)]);
    ("resources", VMap [("requests", VMap (resources "100m" "128Mi")); ("limits", VMap (resources "1" "512Mi"))]);
    ("securityContext", VMap [("allowPrivilegeEscalation", VBool false); ("readOnlyRootFilesystem", VBool true);
       ("runAsNonRoot", VBool true); ("capabilities", VMap [("drop", strs ["ALL"])])])].

Definition wireguard_script : string :=
  "while [ ! -f /run/mspsql/leader ]; do sleep 1; done; " +:+
  "mkdir -p /run/mspsql/wireguard; " +:+
  "cp /etc/wireguard/wg0.conf /run/mspsql/wireguard/wg0.conf; " +:+
  "chmod 0600 /run/mspsql/wireguard/wg0.conf; " +:+
  "wg-quick down /run/mspsql/wireguard/wg0.conf 2>/dev/null || " +:+
  "ip link delete wg0 2>/dev/null || true; " +:+
  "export WG_QUICK_USERSPACE_IMPLEMENTATION=wireguard-go; " +:+
  "wg-quick up /run/mspsql/wireguard/wg0.conf; " +:+
  "cleanup() { wg-quick down /run/mspsql/wireguard/wg0.conf 2>/dev/null || true; " +:+
  "ip link delete wg0 2>/dev/null || true; }; " +:+
  "trap cleanup EXIT; trap 'exit 0' TERM INT; " +:+
  "while [ -f /run/mspsql/leader ]; do sleep 1; done".

Definition wireguard_container (wireGuardImage : string) : Value :=
  VMap [("name", VStr "wireguard"); ("image", VStr wireGuardImage);
    ("command", strs ["/bin/sh"; "-ec"; wireguard_script]);
    ("securityContext", VMap [("allowPrivilegeEscalation", VBool false); ("readOnlyRootFilesystem", VBool true);
       ("capabilities", VMap [("drop", strs ["ALL"]); ("add", strs ["NET_ADMIN"])])]);
    ("resources", VMap [("requests", VMap (resources "25m" "32Mi" ++ [tun])); ("limits", VMap (resources "250m" "128Mi" ++ [tun]))]);
    ("volumeMounts", VList [read_only_mount "identity" "/etc/wireguard"; mount "runtime" "/run/mspsql";
       mount "wireguard-runtime" "/run/wireguard"])].

Definition memory_volume (name : string) : Value := VMap [("name", VStr name); ("emptyDir", VMap [("medium", VStr "Memory")])].

Definition agentDeployment (site : SiteRegistration) (agentImage wireGuardImage : string) : Value :=
  let containers := [agent_container site agentImage] in
  let volumes := [
    VMap [("name", VStr "bootstrap"); ("secret", VMap [("secretName", VStr "mspsql-agent-bootstrap"); ("defaultMode", VInt 288)])];
    VMap [("name", VStr "identity"); ("secret", VMap [("secretName", VStr "mspsql-agent-identity"); ("optional", VBool true);
       ("defaultMode", VInt 288)])];
    memory_volume "runtime"] in
  let containers := if wireGuardImage != "" then containers ++ [wireguard_container wireGuardImage] else containers in
  let volumes := if wireGuardImage != "" then volumes ++ [memory_volume "wireguard-runtime"] else volumes in
  VMap [("apiVersion", VStr "apps/v1"); ("kind", VStr "Deployment");
    ("metadata", VMap [("name", VStr "mspsql-agent"); ("namespace", VStr "mspsql-agent")]);
    ("spec", VMap [("replicas", VInt 2);
      ("strategy", VMap [("rollingUpdate", VMap [("maxUnavailable", VInt 0); ("maxSurge", VInt 1)])]);
      ("selector", VMap [("matchLabels", agentLabels)]);
      ("template", VMap [("metadata", VMap [("labels", agentLabels)]);
        ("spec", VMap [("serviceAccountName", VStr "mspsql-agent"); ("terminationGracePeriodSeconds", VInt 30);
          ("securityContext", VMap [("fsGroup", VInt 65532); ("seccompProfile", VMap [("type", VStr "RuntimeDefault")])]);
          ("affinity", VMap [("podAntiAffinity", VMap [("preferredDuringSchedulingIgnoredDuringExecution",
             VList [VMap [("weight", VInt 100); ("podAffinityTerm", VMap [("topologyKey", VStr "kubernetes.io/hostname");
               ("labelSelector", VMap [("matchLabels", agentLabels)])])]])])]);
          ("containers", VList containers); ("volumes", VList volumes)])])])].
End manifests.

(** ** The server *)
Record BindRequest := mkBindRequest { bq_ClusterUID : string; bq_CSRPEM : string; bq_WireGuardPublicKey : string }.
Record BindResponse := mkBindResponse {
  bp_CertificatePEM : string;
  bp_CABundlePEM : string;
  bp_PlanPublicKey : string;
  bp_PlanPublicKeyID : string;
  bp_WireGuardKeyID : string;
  bp_RevocationEpoch : string;
  bp_WireGuardPeerState : string
}.

Record HTTPServer := mkHTTPServer {
  srv_SystemNamespace : string;
  srv_PublicURL : string;
  srv_HubDomain : string;
  srv_HubAddress : string;
  srv_AgentImage : string;
  srv_WireGuardImage : string;
  srv_WireGuardNetworkCIDR : string;
  srv_WireGuardEndpoint : string
}.

(** What the client gets: an error with its status, the manifests, or the
    agent's identity. *)
Inductive Reply := HttpError (code : Z) (message : string) | Manifests (text : string) | Bound (response : BindResponse).

(** [json.NewDecoder(http.MaxBytesReader(response, body, 64<<10)).Decode] *)
Class BodyCodec := { DecodeBinding : string -> result BindRequest }.

Definition registrationCASecret : string := "mspsql-registration-ca".

(** [strings.TrimRight(s, "/")] *)
Definition trim_right_slash (s : string) : string := rev_string (trim_left (rev_string s) "/").

Definition parseCapabilityPath (path : string) : option (string * string) :=
  match Split (Trim path "/") "/" with
  | [token; action] => if token != "" then Some (token, action) else None
  | _ => None
  end.

Section server.
Context {K : KubeLib} {C : Crypto} {Cu : Curve} {X : X509} {Y : Yaml} {U : UrlLib} {TT : TimeText} {B : BodyCodec}.
Context (s : HTTPServer).

(** The loop over the owners of a secret whose token matches. *)
Fixpoint authorize_owner (secret : Secret) (owners : list OwnerReference) :
  kprog (option (result (SiteRegistration * Secret))) :=
  match owners with
  | [] => Ret None
  | owner :: owners =>
      if or_Kind owner != "SiteRegistration" then authorize_owner secret owners
      else
        let! site := call (Get KRegistration "" (or_Name owner)) onerr e => Ret (Some (Err e)) in
        if meta_UID (reg_Meta site) != or_UID owner then Ret (Some (Err (errors_New "registration owner UID changed")))
        else if regs_Revoked (reg_Spec site) then Ret (Some (Err (errors_New "site registration is revoked")))
        else Ret (Some (Ok (site, secret)))
  end.

Fixpoint authorize_secrets (value : string) (secrets : list Secret) : kprog (result (SiteRegistration * Secret)) :=
  match secrets with
  | [] => Ret (Err (errors_New "registration token not found"))
  | secret :: secrets =>
      if negb (HasPrefix (meta_Name (sec_Meta secret)) "registration-") then authorize_secrets value secrets
      else match ParseTime (sec_Data secret !!! "expiresAt") with
      | None => authorize_secrets value secrets
      | Some expiresAt =>
          let* now := call Now in
          match Verify value (sec_Data secret !!! "sha256") expiresAt now with
          | Err _ => authorize_secrets value secrets
          | Ok _ =>
              let* found := authorize_owner secret (meta_OwnerReferences (sec_Meta secret)) in
              match found with
              | Some answer => Ret answer
              | None => authorize_secrets value secrets
              end
          end
      end
  end.

Definition authorize (value : string) : kprog (result (SiteRegistration * Secret)) :=
  let! secrets := call (List KSecret (Some (srv_SystemNamespace s)) ∅) onerr e => Ret (Err e) in
  authorize_secrets value secrets.

(** *** Manifests *)
Definition bundle_objects (site : SiteRegistration) (token : string) : list Value := [
  VMap [("apiVersion", VStr "v1"); ("kind", VStr "Namespace"); ("metadata", VMap [("name", VStr "mspsql-agent")])];
  VMap [("apiVersion", VStr "v1"); ("kind", VStr "ServiceAccount");
    ("metadata", VMap [("name", VStr "mspsql-agent"); ("namespace", VStr "mspsql-agent")])];
  agentMetricsService;
  agentNetworkPolicy (srv_PublicURL s) (srv_HubAddress s);
  VMap [("apiVersion", VStr "rbac.authorization.k8s.io/v1"); ("kind", VStr "ClusterRole");
    ("metadata", VMap [("name", VStr "mspsql-agent")]);
    ("rules", VList (rule_Value <$> agentClusterRoleRules (meta_Name (reg_Meta site))))];
  VMap [("apiVersion", VStr "rbac.authorization.k8s.io/v1"); ("kind", VStr "ClusterRoleBinding");
    ("metadata", VMap [("name", VStr "mspsql-agent")]);
    ("roleRef", VMap [("apiGroup", VStr "rbac.authorization.k8s.io"); ("kind", VStr "ClusterRole"); ("name", VStr "mspsql-agent")]);
    ("subjects", VList [VMap [("kind", VStr "ServiceAccount"); ("name", VStr "mspsql-agent"); ("namespace", VStr "mspsql-agent")]])];
  VMap [("apiVersion", VStr "v1"); ("kind", VStr "Secret");
    ("metadata", VMap [("name", VStr "mspsql-agent-bootstrap"); ("namespace", VStr "mspsql-agent")]);
    ("stringData", VMap [("registration-token", VStr token); ("registration-url", VStr (trim_right_slash (srv_PublicURL s)));
       ("registration-uid", VStr (meta_UID (reg_Meta site))); ("hub-domain", VStr (srv_HubDomain s));
       ("hub-address", VStr (srv_HubAddress s))])];
  agentDeployment site (srv_AgentImage s) (srv_WireGuardImage s)].

Fixpoint marshal_all (first : bool) (objects : list Value) : result string :=
  match objects with
  | [] => Ok ""
  | object :: objects =>
      match yaml_Marshal object with
      | Err e => Err e
      | Ok encoded =>
          match marshal_all false objects with
          | Err e => Err e
          | Ok rest => Ok ((if first then "" else "---" +:+ lf) +:+ encoded +:+ rest)
          end
      end
  end.
Definition bundle (site : SiteRegistration) (token : string) : result string := marshal_all true (bundle_objects site token).

(** *** Claims of cluster UIDs *)
Definition clusterUIDHash (clusterUID : string) : string := hex_EncodeToString (sha256 clusterUID).
Definition clusterUIDClaimName (clusterUID : string) : string :=
  "cluster-uid-" +:+ ToLower (String.substring 0 40 (base32_EncodeToString (clusterUIDHash clusterUID))).

Definition claim_data (clusterUID : string) (site : SiteRegistration) : gmap string string :=
  list_to_map [("clusterUIDHash", clusterUIDHash clusterUID); ("ownerName", meta_Name (reg_Meta site));
    ("ownerUID", meta_UID (reg_Meta site))].

Definition acquireClusterUIDClaim (clusterUID : string) (site : SiteRegistration) : kprog (result bool) :=
  let name := clusterUIDClaimName clusterUID in
  let claim := newConfigMap (zero_ObjectMeta <| meta_Namespace := srv_SystemNamespace s |> <| meta_Name := name |>
    <| meta_Labels := {["multisite-postgres.dev/cluster-uid-claim" := "true"]} |>) (Some true) (claim_data clusterUID site) in
  let* created := call (Create KConfigMap claim) in
  match created with
  | Ok _ => Ret (Ok true)
  | Err e =>
      if negb (IsAlreadyExists e) then Ret (Err e)
      else
        let! existing := call (Get KConfigMap (srv_SystemNamespace s) name) onerr e => Ret (Err e) in
        if (cm_Data existing !!! "ownerUID" == meta_UID (reg_Meta site)) &&
           (cm_Data existing !!! "ownerName" == meta_Name (reg_Meta site)) &&
           (cm_Data existing !!! "clusterUIDHash" == clusterUIDHash clusterUID) then Ret (Ok false)
        else Ret (Err (mkError ErrAlreadyExists ("configmaps " +:+ Quote name +:+ " already exists")))
  end.

Definition releaseClusterUIDClaim (clusterUID : string) (site : SiteRegistration) : kprog (result unit) :=
  let* got := call (Get KConfigMap (srv_SystemNamespace s) (clusterUIDClaimName clusterUID)) in
  match got with
  | Err e => Ret (match IgnoreNotFound e with Some e => Err e | None => Ok tt end)
  | Ok claim =>
      if cm_Data claim !!! "ownerUID" != meta_UID (reg_Meta site) then Ret (Ok tt)
      else call (Delete KConfigMap claim)
  end.

(** *** Certificates *)

(** The CA's certificate, key and PEM bundle. *)
Definition ensureCA : kprog (result (Certificate * string * string)) :=
  let* got := call (Get KSecret (srv_SystemNamespace s) registrationCASecret) in
  match got with
  | Ok secret =>
      match pem_Decode (sec_Data secret !!! "tls.crt"), pem_Decode (sec_Data secret !!! "tls.key") with
      | Some (certBlock, _), Some (keyBlock, _) =>
          match ParseCertificate (pem_Bytes certBlock) with
          | Err e => Ret (Err e)
          | Ok certificate =>
              match ParseECPrivateKey (pem_Bytes keyBlock) with
              | Err e => Ret (Err e)
              | Ok privateKey => Ret (Ok (certificate, privateKey, sec_Data secret !!! "tls.crt"))
              end
          end
      | _, _ => Ret (Err (errors_New "registration CA Secret is invalid"))
      end
  | Err e =>
      if negb (IsNotFound e) then Ret (Err e)
      else
        let! seed := call (RandomBytes 32) onerr e => Ret (Err e) in
        match GenerateKey seed with
        | Err e => Ret (Err e)
        | Ok privateKey =>
            let! serial := call (RandomBytes 16) onerr e => Ret (Err e) in
            let* before := call Now in
            let* after := call Now in
            let template := mkCertificate serial "mspsql registration CA" [] (time_Add before (- (5 * minute))%Z)
              (time_Add after (10 * 365 * 24 * hour)%Z) true [CertSign; CRLSign; DigitalSignature] [] (PublicOf privateKey) in
            match CreateCertificate template template (PublicOf privateKey) privateKey with
            | Err e => Ret (Err e)
            | Ok der =>
                match MarshalECPrivateKey privateKey with
                | Err e => Ret (Err e)
                | Ok keyDER =>
                    let certPEM := pem_EncodeToMemory (mkPemBlock "CERTIFICATE" der) in
                    let keyPEM := pem_EncodeToMemory (mkPemBlock "EC PRIVATE KEY" keyDER) in
                    let! _ := call (Create KSecret (mkSecret (zero_ObjectMeta <| meta_Namespace := srv_SystemNamespace s |>
                        <| meta_Name := registrationCASecret |>) (Some true)
                        (list_to_map [("tls.crt", certPEM); ("tls.key", keyPEM)]))) onerr e => Ret (Err e) in
                    match ParseCertificate der with
                    | Err e => Ret (Err e)
                    | Ok certificate => Ret (Ok (certificate, privateKey, certPEM))
                    end
                end
            end
        end
  end.

Definition site_identity (uid : string) : string := "spiffe://multisite-postgres.dev/site/" +:+ uid.

(** The request in a PEM text, if it may be signed. *)
Definition check_csr (csrPEM : string) : result CertificateRequest :=
  match pem_Decode csrPEM with
  | None => Err (errors_New "CSR PEM is invalid")
  | Some (block, trailing) =>
      if pem_Type block != "CERTIFICATE REQUEST" then Err (errors_New "CSR PEM is invalid")
      else if negb (blank trailing) then Err (errors_New "CSR PEM contains trailing data")
      else match ParseCertificateRequest (pem_Bytes block) with
      | Err _ => Err (errors_New "CSR signature is invalid")
      | Ok csr =>
          if negb (csr_SignatureValid csr) then Err (errors_New "CSR signature is invalid")
          else match csr_PublicKey csr with
          | EcdsaKey curve _ => if curve != "P-256" then Err (errors_New "CSR must use an ECDSA P-256 key") else Ok csr
          | OtherKey _ => Err (errors_New "CSR must use an ECDSA P-256 key")
          end
      end
  end.

Definition SignCSR (site : SiteRegistration) (csrPEM : string) : kprog (result (string * string)) :=
  let! ca := ensureCA onerr e => Ret (Err e) in
  let '(caCertificate, caKey, caPEM) := ca in
  match check_csr csrPEM with
  | Err e => Ret (Err e)
  | Ok csr =>
      let! serial := call (RandomBytes 16) onerr e => Ret (Err e) in
      let* before := call Now in
      let* after := call Now in
      let template := mkCertificate serial (meta_UID (reg_Meta site)) [site_identity (meta_UID (reg_Meta site))]
        (time_Add before (- (5 * minute))%Z) (time_Add after (24 * hour)%Z) false [DigitalSignature] [ClientAuth]
        (csr_PublicKey csr) in
      match CreateCertificate template caCertificate (csr_PublicKey csr) caKey with
      | Err e => Ret (Err e)
      | Ok der => Ret (Ok (pem_EncodeToMemory (mkPemBlock "CERTIFICATE" der), caPEM))
      end
  end.

(** *** Binding *)
Definition bindingKeyID (publicKey : string) : string := hex_EncodeToString (String.substring 0 8 (sha256 publicKey)).

(** [None]: the creation of the WireGuard identity did not end. *)
Definition bind_site (fuel : nat) (body : string) (site : SiteRegistration) (tokenSecret : Secret) : kprog (option Reply) :=
  match DecodeBinding body with
  | Err _ => Ret (Some (HttpError 400 "invalid binding request"))
  | Ok binding =>
      if (bq_ClusterUID binding == "") || (bq_CSRPEM binding == "") || (bq_WireGuardPublicKey binding == "") then
        Ret (Some (HttpError 400 "clusterUID, csrPEM and wireGuardPublicKey are required"))
      else if (regst_ClusterUID (reg_Status site) != "") && (regst_ClusterUID (reg_Status site) != bq_ClusterUID binding) then
        Ret (Some (HttpError 409 "registration is bound to another cluster"))
      else
        let! claimCreated := acquireClusterUIDClaim (bq_ClusterUID binding) site onerr e =>
          Ret (Some (if IsAlreadyExists e then HttpError 409 "cluster UID is already registered"
                     else HttpError 500 "could not validate cluster identity")) in
        let release : kprog unit :=
          if claimCreated then let* _ := releaseClusterUIDClaim (bq_ClusterUID binding) site in Ret tt else Ret tt in
        let! signed := SignCSR site (bq_CSRPEM binding) onerr _e =>
          (let* _ := release in Ret (Some (HttpError 400 "CSR validation or signing failed"))) in
        let '(certificatePEM, caPEM) := signed in
        let* authorized :=
          if srv_WireGuardImage s != "" then
            AuthorizePeer fuel (srv_SystemNamespace s) (srv_WireGuardNetworkCIDR s) (srv_WireGuardEndpoint s) site
              (bq_WireGuardPublicKey binding)
          else Ret (Some (Ok "")) in
        match authorized with
        | None => Ret None
        | Some (Err _) =>
            let* _ := release in Ret (Some (HttpError 500 "could not authorize WireGuard peer"))
        | Some (Ok peerConfiguration) =>
            let site := site <| reg_Status ::= fun st => st <| regst_ClusterUID := bq_ClusterUID binding |>
              <| regst_Phase := "Registered" |> |> in
            let! _ := call (UpdateStatus KRegistration site) onerr _e =>
              Ret (Some (HttpError 500 "could not bind cluster identity")) in
            let! _ := call (Delete KSecret tokenSecret) onerr _e =>
              Ret (Some (HttpError 500 "could not consume registration token")) in
            let! signingKey := call (Get KSecret (srv_SystemNamespace s) "mspsql-plan-signing-key") onerr _e =>
              Ret (Some (HttpError 503 "plan signing key is not initialized")) in
            Ret (Some (Bound (mkBindResponse certificatePEM caPEM (sec_Data signingKey !!! "publicKey")
              (sec_Data signingKey !!! "keyID") (bindingKeyID (bq_WireGuardPublicKey binding)) "0" peerConfiguration)))
        end
  end.

Definition http_handle (fuel : nat) (method path body : string) : kprog (option Reply) :=
  match parseCapabilityPath path with
  | None => Ret (Some (HttpError 404 "404 page not found"))
  | Some (token, action) =>
      let! found := authorize token onerr _e =>
        Ret (Some (HttpError 401 "registration capability is invalid or expired")) in
      let '(site, secret) := found in
      if (method == "GET") && (action == "registration.yaml") then
        Ret (Some (match bundle site token with
          | Ok text => Manifests text
          | Err _ => HttpError 500 "could not generate registration bundle"
          end))
      else if (method == "POST") && (action == "bind") then bind_site fuel body site secret
      else Ret (Some (HttpError 405 "method or action is not supported"))
  end.
End server.

(** ** Tokens *)
Lemma token_Verify_Ok {C : Crypto} value hash expiresAt now :
  Verify value hash expiresAt now = Ok tt <->
  String.length hash = sha256_Size /\ (now < expiresAt)%Z /\ sha256 value = hash.
Proof.
  unfold Verify, time_Before. destruct (_ =? _)%nat eqn:El; cbn [negb]; [apply Nat.eqb_eq in El|apply Nat.eqb_neq in El; naive_solver].
  destruct (now <? expiresAt)%Z eqn:Et; cbn [negb]; bool_to_prop; [|naive_solver lia]. case_bool_decide; naive_solver.
Qed.

(** A registration token is good for exactly ten minutes and for nothing
    else: whatever random bytes it is made of, the token that was issued at a
    time is accepted until ten minutes later and not from then on, and any text
    that is accepted has the hash of the token. *)
Theorem token_lifetime {C : Crypto} issued h :
  (forall text, String.length (sha256 text) = sha256_Size) ->
  sat (fun _ r => r = RandomBytes 32) (fun _ x => forall token, x = Ok token ->
      forall value now, Verify value (tok_Hash token) (tok_ExpiresAt token) now = Ok tt <->
        (now < issued + 10 * minute)%Z /\ sha256 value = sha256 (tok_Value token))
    h (NewToken issued).
Proof.
  intros Hs. unfold NewToken. sat_step. sat_step; [done|]. destruct x as [v|e]; [|done].
  intros token [= <-] value now. rewrite token_Verify_Ok. cbn. unfold time_Add, TokenLifetime. rewrite Hs. tauto.
Qed.

(** ** Access of the agent *)

(** Whether the rules allow a verb on a named resource. *)
Definition allows (rules : list PolicyRule) (group resource name verb : string) : Prop :=
  exists r, r ∈ rules /\ group ∈ pr_Groups r /\ resource ∈ pr_Resources r /\ verb ∈ pr_Verbs r /\
    match pr_ResourceNames r with Some names => name ∈ names | None => True end.

(** The agent's cluster role gives access to existing Secrets by name
    only: it may create Secrets, may get, update, patch or delete exactly the
    agent's own Secrets and those of its site's members with an ordinal below
    16, may not list or watch any, and has no access to roles and bindings. *)
Theorem agent_secret_access siteName name verb :
  siteName <> "" ->
  (allows (agentClusterRoleRules siteName) "" "secrets" name verb <->
    verb = "create" \/ verb ∈ ["get"; "update"; "patch"; "delete"] /\ name ∈ agentSecretResourceNames siteName) /\
  (forall component ordinal, component ∈ ["etcd"; "postgres"] -> (ordinal < 16)%nat ->
     (component +:+ "-" +:+ siteName +:+ "-" +:+ FormatInt (Z.of_nat ordinal) +:+ "-tls") ∈ agentSecretResourceNames siteName) /\
  ~ allows (agentClusterRoleRules siteName) "rbac.authorization.k8s.io" "clusterroles" name verb.
Proof.
  intros Hne. split; [|split].
  - unfold allows, agentClusterRoleRules. split.
    + intros (r & Hr & Hg & Hres & Hv & Hn).
      repeat (apply elem_of_cons in Hr as [->|Hr]; [cbn -[agentSecretResourceNames] in *; try set_solver|]). by apply elem_of_nil in Hr.
    + intros [->|[Hv Hn]].
      * exists (rule [""] ["secrets"] ["create"]). repeat split; set_solver.
      * exists (namedRule [""] ["secrets"] (agentSecretResourceNames siteName) ["get"; "update"; "patch"; "delete"]).
        cbn -[agentSecretResourceNames]. repeat split; set_solver.
  - intros component ordinal Hc Ho. unfold agentSecretResourceNames. rewrite elem_of_sorted_set.
    rewrite bool_decide_eq_false_2 by done. cbn [negb]. rewrite !elem_of_app. right; right. unfold site_secret_names.
    apply list_elem_of_In, in_concat. eexists. split; [apply in_map_iff; exists ordinal; split; [reflexivity|apply in_seq; lia]|].
    apply elem_of_cons in Hc as [->|Hc]; [left|apply list_elem_of_singleton in Hc as ->; right; left];
      by rewrite <- !app_assoc_string.
  - intros (r & Hr & Hg & _). unfold agentClusterRoleRules in Hr.
    repeat (apply elem_of_cons in Hr as [->|Hr]; [cbn in Hg; repeat (apply elem_of_cons in Hg as [Hg|Hg]; [done|]); by apply elem_of_nil in Hg|]).
    by apply elem_of_nil in Hr.
Qed.

(** ** What a request of an agent needs *)
Section binding.
Context {K : KubeLib} {L : KubeLaws K} {C : Crypto} {Cu : Curve} {X : X509} {Y : Yaml} {U : UrlLib} {TT : TimeText} {B : BodyCodec}.
Context (s : HTTPServer).

(** The token is that of an unexpired secret owned by a registration that was
    read, has the owner's UID and is not revoked. *)
Definition token_accepted (h : khistory) (value : string) (site : SiteRegistration) (secret : Secret) : Prop :=
  exists secrets ns labels expiresAt now owner,
    existT (List KSecret ns labels) (Ok secrets) ∈ h /\ secret ∈ secrets /\
    HasPrefix (meta_Name (sec_Meta secret)) "registration-" = true /\
    ParseTime (sec_Data secret !!! "expiresAt") = Some expiresAt /\ existT Now now ∈ h /\ (now < expiresAt)%Z /\
    sha256 value = sec_Data secret !!! "sha256" /\
    owner ∈ meta_OwnerReferences (sec_Meta secret) /\ or_Kind owner = "SiteRegistration" /\
    or_UID owner = meta_UID (reg_Meta site) /\ existT (Get KRegistration "" (or_Name owner)) (Ok site) ∈ h /\
    regs_Revoked (reg_Spec site) = false.

(** The cluster is claimed for the registration. *)
Definition claim_held (h : khistory) (clusterUID : string) (site : SiteRegistration) : Prop :=
  (exists claim o : ConfigMap, existT (Create KConfigMap claim) (Ok o) ∈ h /\
     meta_Name (cm_Meta claim) = clusterUIDClaimName clusterUID /\ cm_Data claim = claim_data clusterUID site) \/
  (exists (claim : ConfigMap) ns, existT (Get KConfigMap ns (clusterUIDClaimName clusterUID)) (Ok claim) ∈ h /\
     cm_Data claim !!! "ownerUID" = meta_UID (reg_Meta site) /\ cm_Data claim !!! "clusterUIDHash" = clusterUIDHash clusterUID).

(** A certificate that identifies the registration, for the key of the request. *)
Definition certificate_for (site : SiteRegistration) (csrPEM certificatePEM : string) : Prop :=
  exists csr block rest c, check_csr csrPEM = Ok csr /\ pem_Decode certificatePEM = Some (block, rest) /\
    ParseCertificate (pem_Bytes block) = Ok c /\ crt_CommonName c = meta_UID (reg_Meta site) /\
    crt_URIs c = [site_identity (meta_UID (reg_Meta site))] /\ crt_IsCA c = false /\ crt_ExtKeyUsage c = [ClientAuth] /\
    crt_PublicKey c = csr_PublicKey csr.

(** A registration's status is written only to bind the cluster of the request,
    which is claimed for it, to a registration that is unbound or bound to the
    same cluster; a claim is deleted only if it is the registration's own, and a
    secret only if it is the token. *)
Definition binding_request (value : string) (h : khistory) (r : Req) : Prop :=
  match r with
  | UpdateStatus KRegistration o => exists site secret,
      token_accepted h value site secret /\ claim_held h (regst_ClusterUID (reg_Status o)) site /\
      reg_Meta o = reg_Meta site /\ reg_Spec o = reg_Spec site /\
      (regst_ClusterUID (reg_Status site) = "" \/ regst_ClusterUID (reg_Status site) = regst_ClusterUID (reg_Status o))
  | Delete KConfigMap claim => exists site secret, token_accepted h value site secret /\
      cm_Data claim !!! "ownerUID" = meta_UID (reg_Meta site)
  | Delete KSecret o => exists site, token_accepted h value site o
  | Create k _ | Update k _ => k = KSecret \/ k = KConfigMap \/ k = KDeployment
  | Get _ _ _ | List KSecret _ _ | Now | RandomBytes _ => True
  | _ => False
  end.

Lemma token_accepted_extends h h' value site secret : extends h h' -> token_accepted h value site secret -> token_accepted h' value site secret.
Proof.
  intros He (l & ns & lb & ex & now & ow & ? & ? & ? & ? & ? & ? & ? & ? & ? & ? & ? & ?).
  exists l, ns, lb, ex, now, ow. split_and!; try done; by apply He.
Qed.
Lemma claim_held_extends h h' uid site : extends h h' -> claim_held h uid site -> claim_held h' uid site.
Proof.
  intros He [(c & o & ? & ? & ?)|(c & ns & ? & ? & ?)]; [left; exists c, o|right; exists c, ns]; split_and!; try done; by apply He.
Qed.

(** The owners of a secret with the token. *)
Lemma authorize_owner_sat secret h owners P :
  (forall h' n, P h' (Get KRegistration "" n)) ->
  sat P (fun h' x => extends h h' /\ forall site secret', x = Some (Ok (site, secret')) -> secret' = secret /\
      exists owner, owner ∈ owners /\ or_Kind owner = "SiteRegistration" /\ or_UID owner = meta_UID (reg_Meta site) /\
        existT (Get KRegistration "" (or_Name owner)) (Ok site) ∈ h' /\ regs_Revoked (reg_Spec site) = false)
    h (authorize_owner secret owners).
Proof.
  intros HP. induction owners as [|owner owners IH]; [split; [apply extends_refl|done]|]. cbn [authorize_owner].
  case_bool_decide as Hk; cbn [negb].
  2:{ eapply sat_mono; [| |exact IH]; [done|]. intros h' x [He Hx]. split; [done|]. intros site secret' E.
      destruct (Hx _ _ E) as (-> & ow & ? & ?). split; [done|]. exists ow. split; [by apply elem_of_cons; right|done]. }
  sat_step. sat_step; [apply HP|]. destruct x as [site|e]; [|by split; [keep_history|]].
  case_bool_decide as Hu; cbn [negb]; [|by split; [keep_history|]].
  destruct (regs_Revoked _) eqn:Hr; [by split; [keep_history|]|]. split; [keep_history|].
  intros site' secret' [= <- <-]. split; [done|]. exists owner. split_and!; try done; by apply elem_of_cons; left.
Qed.

Lemma authorize_secrets_sat value secrets ns labels l : (forall x, x ∈ l -> x ∈ secrets) ->
  forall h, existT (List KSecret ns labels) (Ok secrets) ∈ h ->
  sat (binding_request value) (fun h' x => forall site secret, x = Ok (site, secret) -> token_accepted h' value site secret)
    h (authorize_secrets value l).
Proof.
  induction l as [|secret l IH]; intros Hsub h Hin; [done|].
  assert (Hl : forall x, x ∈ l -> x ∈ secrets) by (intros x Hx; apply Hsub; by apply elem_of_cons; right).
  cbn [authorize_secrets]. destruct (HasPrefix _ _) eqn:Hp; cbn [negb]; [|by apply IH].
  destruct (ParseTime _) as [expiresAt|] eqn:Ht; [|by apply IH].
  sat_step. sat_step; [done|]. destruct (Verify _ _ _ _) as [[]|] eqn:Hv; [|by apply IH; [|apply elem_of_cons; right]].
  apply token_Verify_Ok in Hv as (_ & Hnow & Hhash). sat_step.
  eapply sat_mono; [| |apply authorize_owner_sat]; [intros ? ? H; exact H| |done].
  intros h1 x1 [He Hx]. destruct x1 as [x1|]; [|by apply IH; [|apply He, elem_of_cons; right]].
  intros site secret' ->. destruct (Hx _ _ eq_refl) as (-> & owner & ? & ? & ? & ? & ?).
  exists secrets, ns, labels, expiresAt, x, owner. split_and!; try done.
  - by apply He, elem_of_cons; right.
  - by apply Hsub, elem_of_cons; left.
  - by apply He, elem_of_cons; left.
Qed.

Lemma authorize_sat value h :
  sat (binding_request value) (fun h' x => forall site secret, x = Ok (site, secret) -> token_accepted h' value site secret)
    h (authorize s value).
Proof.
  unfold authorize. sat_step. sat_step; [done|]. destruct x as [secrets|e]; [|done].
  eapply authorize_secrets_sat; [|by apply elem_of_cons; left]. done.
Qed.

Lemma acquire_sat value site uid h :
  sat (binding_request value) (fun h' x => extends h h' /\ forall b, x = Ok b -> claim_held h' uid site)
    h (acquireClusterUIDClaim s uid site).
Proof.
  unfold acquireClusterUIDClaim. sat_step. sat_step; [cbn; tauto|]. destruct x as [o|e].
  { split; [keep_history|]. intros b _. left. eexists _, o. split; [by apply elem_of_cons; left|done]. }
  destruct (IsAlreadyExists e); cbn [negb]; [|by split; [keep_history|]].
  sat_step. sat_step; [done|]. destruct x as [claim|e']; [|by split; [keep_history|]].
  destruct (_ && _ && _) eqn:Em; [|by split; [keep_history|]]. split; [keep_history|]. intros b _. right.
  bool_to_prop. eexists claim, _. split; [by apply elem_of_cons; left|done].
Qed.

Lemma release_sat value site secret uid h : token_accepted h value site secret ->
  sat (binding_request value) (fun h' _ => extends h h') h (releaseClusterUIDClaim s uid site).
Proof.
  intros Ht. unfold releaseClusterUIDClaim. sat_step. sat_step; [done|]. destruct x as [claim|e]; [|keep_history].
  case_bool_decide as Ho; cbn [negb]; [|keep_history].
  split; [|intros x; cbn [sat]; keep_history].
  exists site, secret. split; [eapply token_accepted_extends; [|done]; keep_history|done].
Qed.

Lemma ensureCA_sat value h : sat (binding_request value) (fun h' _ => extends h h') h (ensureCA s).
Proof.
  unfold ensureCA. sat_step. sat_step; [done|]. destruct x as [secret|e].
  { repeat case_match; keep_history. }
  destruct (IsNotFound e); cbn [negb]; [|keep_history]. sat_step. sat_step; [done|]. destruct x as [seed|]; [|keep_history].
  destruct (GenerateKey _); [|keep_history]. sat_step. sat_step; [done|]. destruct x as [serial|]; [|keep_history].
  sat_step. sat_step; [done|]. sat_step. sat_step; [done|].
  destruct (CreateCertificate _ _ _ _); [|keep_history]. destruct (MarshalECPrivateKey _); [|keep_history].
  sat_step. sat_step; [cbn; tauto|]. repeat case_match; keep_history.
Qed.

Context {XL : X509Laws X}.

Lemma SignCSR_sat value site csrPEM h :
  sat (binding_request value) (fun h' x => extends h h' /\ forall cert ca, x = Ok (cert, ca) -> certificate_for site csrPEM cert)
    h (SignCSR s site csrPEM).
Proof.
  unfold SignCSR. sat_step. eapply sat_mono; [intros ? ? H; exact H| |apply ensureCA_sat].
  intros h1 [[[caCert caKey] caPEM]|e] He; [|by split; [keep_history|]].
  destruct (check_csr csrPEM) as [csr|] eqn:Ec; [|by split; [keep_history|]].
  sat_step. sat_step; [done|]. destruct x as [serial|]; [|by split; [keep_history|]].
  sat_step. sat_step; [done|]. sat_step. sat_step; [done|].
  destruct (CreateCertificate _ _ _ _) as [der|] eqn:Ecr; [|by split; [keep_history|]].
  split; [keep_history|]. intros cert ca [= <- <-].
  apply created_parsed in Ecr as (c & Hc & ? & ? & ? & ? & ?).
  destruct (pem_roundtrip (mkPemBlock "CERTIFICATE" der)) as [rest Hr].
  exists csr, (mkPemBlock "CERTIFICATE" der), rest, c. by split_and!.
Qed.

Lemma AuthorizePeer_binding value fuel namespace cidr endpoint site publicKey h :
  sat (binding_request value) (fun h' _ => extends h h') h (AuthorizePeer fuel namespace cidr endpoint site publicKey).
Proof.
  eapply sat_mono; [| |apply sat_extends, AuthorizePeer_harmless].
  - intros h' [] H; cbn in *; try done; by destruct k.
  - intros h' x [_ He]. exact He.
Qed.

(** What stands behind a certificate that was given out. *)
Definition bound (h : khistory) (value : string) (response : BindResponse) : Prop :=
  exists site secret clusterUID csrPEM o u,
    token_accepted h value site secret /\ claim_held h clusterUID site /\
    certificate_for site csrPEM (bp_CertificatePEM response) /\
    existT (UpdateStatus KRegistration (site <| reg_Status ::= fun st => st <| regst_ClusterUID := clusterUID |>
      <| regst_Phase := "Registered" |> |>)) (Ok o) ∈ h /\
    existT (Delete KSecret secret) (Ok u) ∈ h.

Lemma release_then value site secret uid h (b : bool) (r : Reply) : token_accepted h value site secret ->
  (forall response, r <> Bound response) ->
  sat (binding_request value) (fun h' x => forall response, x = Some (Bound response) -> bound h' value response) h
    (let* _ := if b then let* _ := releaseClusterUIDClaim s uid site in Ret tt else Ret tt in Ret (Some r)).
Proof.
  intros Ht Hr. sat_step. destruct b; [|intros response [= ->]; by destruct (Hr response)].
  sat_step. eapply sat_mono; [intros ? ? H; exact H| |by eapply release_sat].
  intros h' ? _ response [= ->]. by destruct (Hr response).
Qed.

Lemma bind_site_sat value fuel body site secret h : token_accepted h value site secret ->
  sat (binding_request value) (fun h' x => forall response, x = Some (Bound response) -> bound h' value response)
    h (bind_site s fuel body site secret).
Proof.
  intros Ht. unfold bind_site. destruct (DecodeBinding body) as [binding|]; [|done].
  destruct (_ || _ || _); [done|]. destruct (_ && _) eqn:Eb; [done|].
  sat_step. eapply sat_mono; [intros ? ? H; exact H| |apply acquire_sat].
  intros h1 [created|e] [He1 Hc]; [|by destruct (IsAlreadyExists e)]. specialize (Hc _ eq_refl). assert (Ht1 := token_accepted_extends _ _ _ _ _ He1 Ht).
  sat_step. eapply sat_mono; [intros ? ? H; exact H| |apply SignCSR_sat].
  intros h2 [[certificatePEM caPEM]|e] [He2 Hs]; [|apply (release_then _ _ secret); [by eapply token_accepted_extends|done]].
  specialize (Hs _ _ eq_refl). assert (Ht2 := token_accepted_extends _ _ _ _ _ He2 Ht1).
  sat_step. eapply (sat_mono _ _ (fun h' _ => extends h2 h')); [intros ? ? H; exact H| |].
  2:{ destruct (srv_WireGuardImage s != ""); [apply AuthorizePeer_binding|apply extends_refl]. }
  intros h3 [[peer|e]|] He3; [|apply (release_then _ _ secret); [by eapply token_accepted_extends|done]|done].
  assert (Ht3 := token_accepted_extends _ _ _ _ _ He3 Ht2).
  assert (Hc3 : claim_held h3 (bq_ClusterUID binding) site) by (eapply claim_held_extends; [|done]; eapply extends_trans; eassumption).
  sat_step. sat_step.
  { exists site, secret. split_and!; try done. cbn [reg_Status regst_ClusterUID set].
    revert Eb. repeat case_bool_decide; cbn [negb andb]; [by left|by left|by right|done]. }
  destruct x as [o|]; [|done]. sat_step. sat_step.
  { exists site. eapply token_accepted_extends; [|done]. keep_history. }
  destruct x as [u|]; [|done]. sat_step. sat_step; [done|]. destruct x as [key|]; [|done].
  intros response [= <-]. exists site, secret, (bq_ClusterUID binding), (bq_CSRPEM binding), o, u.
  split_and!; [eapply token_accepted_extends; [|done]; keep_history|eapply claim_held_extends; [|done]; keep_history|done|set_solver|set_solver].
Qed.

End binding.

(** ** Reference instances *)
Module RefRegistration.
Import RefCodec.

(** A hash of 32 bytes. *)
Definition pad : string := "00000000000000000000000000000000".
#[local] Instance crypto : Crypto := {|
  ed25519_NewKeyFromSeed := @ed25519_NewKeyFromSeed RefCodec.crypto;
  ed25519_Public := @ed25519_Public RefCodec.crypto;
  ed25519_Sign := @ed25519_Sign RefCodec.crypto;
  ed25519_Verify := @ed25519_Verify RefCodec.crypto;
  sha256 m := String.substring 0 32 (m +:+ pad);
|}.
Lemma sha256_length m : String.length (sha256 m) = sha256_Size.
Proof.
  apply substring_length. rewrite string_app_length. change (String.length pad) with 32%nat. apply Nat.le_add_l.
Qed.

#[local] Instance serial_KeyUsage : Serial KeyUsage.
Proof.
  refine (serial_iso (fun u => match u with DigitalSignature => 0%Z | KeyEncipherment => 1%Z | CertSign => 2%Z | CRLSign => 3%Z end)
    (fun z => Some (if (z =? 0)%Z then DigitalSignature else if (z =? 1)%Z then KeyEncipherment else if (z =? 2)%Z then CertSign else CRLSign)) _).
  by intros [].
Defined.
#[local] Instance serial_ExtKeyUsage : Serial ExtKeyUsage.
Proof. refine (serial_iso (fun u => match u with ClientAuth => true | ServerAuth => false end) (fun b : bool => Some (if b then ClientAuth else ServerAuth)) _). by intros []. Defined.
#[local] Instance serial_PublicKey : Serial PublicKey.
Proof.
  refine (serial_iso (fun k => match k with EcdsaKey c k => (true, c, k) | OtherKey k => (false, "", k) end)
    (fun '(b, c, k) => Some (if b : bool then EcdsaKey c k else OtherKey k)) _).
  by intros [].
Defined.
#[local] Instance serial_PemBlock : Serial PemBlock.
Proof. refine (serial_iso (fun b => (pem_Type b, pem_Bytes b)) (fun '(t, b) => Some (mkPemBlock t b)) _). by intros []. Defined.
#[local] Instance serial_Certificate : Serial Certificate.
Proof.
  refine (serial_iso (fun c => (crt_SerialNumber c, crt_CommonName c, crt_URIs c, crt_NotBefore c, crt_NotAfter c, crt_IsCA c,
      crt_KeyUsage c, crt_ExtKeyUsage c, crt_PublicKey c, crt_IPAddresses c))
    (fun '(x0, x1, x2, x3, x4, x5, x6, x7, x8, x9) => Some (newCertificate x0 x1 x2 x3 x4 x5 x6 x7 x8 x9)) _).
  by intros [].
Defined.

Definition parse {A} `{Serial A} (text : string) : result A :=
  match par text with Some (x, _) => Ok x | None => Err (errors_New "malformed") end.
Lemma parse_ser {A} `{Serial A} (x : A) : parse (ser x) = Ok x.
Proof. unfold parse. rewrite <- (app_nil_string (ser x)). by rewrite par_ser. Qed.

Definition issued (template : Certificate) (pub : PublicKey) : Certificate :=
  newCertificate (crt_SerialNumber template) (crt_CommonName template) (crt_URIs template) (crt_NotBefore template)
    (crt_NotAfter template) (crt_IsCA template) (crt_KeyUsage template) (crt_ExtKeyUsage template) pub (crt_IPAddresses template).

#[local] Instance x509 : X509 := {|
  pem_Decode := par;
  pem_EncodeToMemory := ser;
  ParseCertificateRequest text := Ok (mkCSR (EcdsaKey "P-256" text) true);
  ParseCertificate := parse;
  ParseECPrivateKey := Ok;
  MarshalECPrivateKey := Ok;
  GenerateKey := Ok;
  PublicOf := EcdsaKey "P-256";
  CreateCertificate template _ pub _ := Ok (ser (issued template pub));
|}.
#[local] Instance x509_laws : X509Laws x509.
Proof.
  split.
  - intros b. exists "". change (par (ser b) = Some (b, "")). rewrite <- (app_nil_string (ser b)). apply par_ser.
  - intros template parent pub key der E. exists (issued template pub). split; [|by repeat split].
    assert (E' : der = ser (issued template pub)) by (cbv [CreateCertificate x509] in E; congruence). rewrite E'. apply parse_ser.
Qed.

#[local] Instance yaml : Yaml := {| yaml_Marshal _ := Ok "manifest" |}.
#[local] Instance url : UrlLib := {| url_Parse _ := Err (errors_New "not a URL") |}.
#[local] Instance curve : Curve := {| X25519_base key := Ok key |}.
#[local] Instance body_codec : BodyCodec := {| DecodeBinding text :=
  match parse text with Ok (uid, csr, key) => Ok (mkBindRequest uid csr key) | Err e => Err e end |}.

Definition server : HTTPServer := mkHTTPServer "mspsql" "" "" "" "agent:1" "" "" "".
Definition body : string := ser ("cluster", ser (mkPemBlock "CERTIFICATE REQUEST" "key"), "peer").
Definition site : SiteRegistration := zero_SiteRegistration
  <| reg_Meta := zero_ObjectMeta <| meta_Name := "a" |> <| meta_UID := "uid" |> |>.
Definition token : Secret := mkSecret
  (zero_ObjectMeta <| meta_Namespace := "mspsql" |> <| meta_Name := "registration-a" |>
    <| meta_OwnerReferences := [mkOwnerReference GroupVersion "SiteRegistration" "a" "uid" (Some true)] |>) None
  (list_to_map [("sha256", sha256 "token"); ("expiresAt", FormatTime (10 * minute)%Z)]).
Definition signing : Secret := mkSecret
  (zero_ObjectMeta <| meta_Namespace := "mspsql" |> <| meta_Name := "mspsql-plan-signing-key" |>) None ∅.
Definition cluster : MemServer.server :=
  MemServer.add (k:=KSecret) signing (MemServer.add (k:=KSecret) token (MemServer.add (k:=KRegistration) site MemServer.empty)).
Definition bind : kprog (option Reply) := http_handle server 3 "POST" "/token/bind" body.
End RefRegistration.


Lemma token_lifetime_witness :
  sat (fun _ r => r = RandomBytes 32) (fun _ x => forall token, x = Ok token ->
      Verify (C:=RefRegistration.crypto) (tok_Value token) (tok_Hash token) (tok_ExpiresAt token) (9 * minute)%Z = Ok tt /\
      Verify (C:=RefRegistration.crypto) (tok_Value token) (tok_Hash token) (tok_ExpiresAt token) (10 * minute)%Z <> Ok tt)
    [] (NewToken (C:=RefRegistration.crypto) 0%Z).
Proof.
  eapply sat_mono; [intros ? ? H; exact H| |apply (token_lifetime 0%Z [] RefRegistration.sha256_length)].
  intros h x Hx token ->. split; [apply (Hx _ eq_refl); by split|]. intros Hv. by apply (Hx _ eq_refl) in Hv as [? _].
Defined.

Lemma agent_secret_access_witness :
  allows (agentClusterRoleRules "a") "" "secrets" "mspsql-agent-identity" "get" /\
  ~ allows (agentClusterRoleRules "a") "" "secrets" "postgres-b-0-tls" "get".
Proof.
  assert (Hne : "a" <> "") by discriminate. split.
  - apply (agent_secret_access "a" _ _ Hne). right. split; by_deciding.
  - intros H. apply (agent_secret_access "a" _ _ Hne) in H as [|[_ H]]; [discriminate|]. revert H. by_deciding.
Defined.
