(* ===== verification/Directive.v ===== *)
(** * Signed directives

    Package [internal/directive]: the payload of a one-off operation (a backup,
    a database or user declaration, a switchover) the hub sends to a site, signed
    with the same key as the plans and bound to the operation it belongs to. *)

From S2P Require Import Prelude Prog Api Codec Plan.

Record Payload := mkPayload {
  pl_ProtocolVersion : string;
  pl_SiteUID : string;
  pl_InstanceUID : string;
  pl_ObjectUID : string;
  pl_OperationUID : string;
  pl_Type : string;
  pl_Primary : string;
  pl_BackupSource : string;
  pl_BackupType : string;
  pl_Deleting : bool;
  pl_GeneratedAt : Time;
  pl_Spec : string
}.
#[global] Instance Payload_eq_dec : EqDecision Payload.
Proof. solve_decision. Defined.
Definition zero_Payload : Payload := mkPayload "" "" "" "" "" "" "" "" "" false zero_time "".
#[global] Instance eta_Payload : Settable Payload := fun r =>
  mkPayload (pl_ProtocolVersion r) (pl_SiteUID r) (pl_InstanceUID r) (pl_ObjectUID r) (pl_OperationUID r)
    (pl_Type r) (pl_Primary r) (pl_BackupSource r) (pl_BackupType r) (pl_Deleting r) (pl_GeneratedAt r)
    (pl_Spec r).

Module Directive.
Section directive.
Context {C : Crypto} {J : Json Payload}.

Definition Sign (privateKey : string) (payload : Payload) : result Envelope :=
  if negb (String.length privateKey =? ed25519_PrivateKeySize)%nat then
    Err (errors_New "invalid Ed25519 private key")
  else if (pl_SiteUID payload == "") || (pl_InstanceUID payload == "") || (pl_ObjectUID payload == "")
    || (pl_OperationUID payload == "") || (pl_Type payload == "") then
    Err (errors_New "directive identity is incomplete")
  else
    let payload := payload <| pl_ProtocolVersion := ProtocolVersion |> in
    match Canonical payload with
    | Err e => Err e
    | Ok encoded =>
        Ok (mkEnvelope encoded (Base64.EncodeToString (ed25519_Sign privateKey encoded)))
    end.

Definition Verify (publicKey : string) (envelope : Envelope)
  (siteUID instanceUID operationUID : string) : result Payload :=
  if negb (String.length publicKey =? ed25519_PublicKeySize)%nat then
    Err (errors_New "invalid Ed25519 public key")
  else match Base64.DecodeString (env_Signature envelope) with
  | None => Err (errors_New "decode signature: illegal base64 data")
  | Some signature =>
      if negb (ed25519_Verify publicKey (env_Plan envelope) signature) then
        Err (errors_New "directive signature is invalid")
      else match json_Unmarshal (env_Plan envelope) with
      | Err e => Err (wrap_error "decode directive" e)
      | Ok payload =>
          if pl_ProtocolVersion payload != ProtocolVersion then
            Err (errors_New ("unsupported protocol version " +:+ Quote (pl_ProtocolVersion payload)))
          else if (pl_SiteUID payload != siteUID) || (pl_InstanceUID payload != instanceUID)
            || (pl_OperationUID payload != operationUID) then
            Err (errors_New "directive identity does not match this site and operation")
          else Ok payload
      end
  end.

Context {CL : CryptoLaws C} {JL : JsonLaws Payload J}.

Lemma directive_Sign_Ok sk d env :
  Sign sk d = Ok env ->
  String.length sk = ed25519_PrivateKeySize /\
  pl_SiteUID d <> "" /\ pl_InstanceUID d <> "" /\ pl_ObjectUID d <> "" /\
  pl_OperationUID d <> "" /\ pl_Type d <> "" /\
  json_Marshal (d <| pl_ProtocolVersion := ProtocolVersion |>) = Ok (env_Plan env) /\
  env_Signature env = Base64.EncodeToString (ed25519_Sign sk (env_Plan env)).
Proof.
  unfold Sign. destruct (_ =? _)%nat eqn:Hk; [|done]. apply Nat.eqb_eq in Hk. cbn [negb].
  destruct (_ || _) eqn:Hid; [done|]. bool_to_prop.
  destruct (Canonical _) as [payload|] eqn:HC; [|done]. intros [= <-].
  apply Canonical_Ok in HC. repeat split; done.
Qed.

(** A directive is usable for exactly the operation it was signed for. The
    hub's directive is accepted by the site, for the instance and the operation
    it names, and read back unchanged; presented for any other site, instance or
    operation the same envelope is refused. *)
Theorem directive_bound sk d env site inst op :
  (forall p : Payload, json_wire p = p) -> json_text (d <| pl_ProtocolVersion := ProtocolVersion |>) ->
  Sign sk d = Ok env ->
  Verify (ed25519_Public sk) env site inst op =
  if (pl_SiteUID d == site) && (pl_InstanceUID d == inst) && (pl_OperationUID d == op)
  then Ok (d <| pl_ProtocolVersion := ProtocolVersion |>)
  else Err (errors_New "directive identity does not match this site and operation").
Proof.
  intros Hw Ht HS. apply directive_Sign_Ok in HS as (Hk & _ & _ & _ & _ & _ & HM & Hs).
  unfold Verify. rewrite (public_size _ Hk), Nat.eqb_refl. cbn [negb].
  rewrite Hs, Base64.Decode_Encode, verify_sign by done. cbn [negb].
  rewrite (unmarshal_marshal _ _ Ht HM), Hw. cbn.
  repeat case_bool_decide; cbn; done.
Qed.
End directive.
End Directive.

Module RefDirective.
Import RefCodec.
#[global] Instance serial_Payload : Serial Payload.
Proof.
  refine (serial_iso (fun r => (pl_ProtocolVersion r, pl_SiteUID r, pl_InstanceUID r, pl_ObjectUID r,
    pl_OperationUID r, pl_Type r, pl_Primary r, pl_BackupSource r, pl_BackupType r, pl_Deleting r,
    pl_GeneratedAt r, pl_Spec r))
    (fun '(x0, x1, x2, x3, x4, x5, x6, x7, x8, x9, x10, x11) =>
      Some (mkPayload x0 x1 x2 x3 x4 x5 x6 x7 x8 x9 x10 x11)) _).
  by intros [].
Defined.
#[global] Instance json_payload : Json Payload := json_of id.
#[global] Instance json_payload_laws : JsonLaws Payload json_payload := json_of_laws id.
Definition payload1 : Payload :=
  zero_Payload <| pl_SiteUID := "s1" |> <| pl_InstanceUID := "i1" |> <| pl_ObjectUID := "o1" |>
    <| pl_OperationUID := "op1" |> <| pl_Type := "Backup" |>.
End RefDirective.

Lemma directive_bound_witness : exists env,
  Directive.Sign RefPlan.sk RefDirective.payload1 = Ok env /\
  Directive.Verify (ed25519_Public RefPlan.sk) env "s1" "i1" "op2" =
    Err (errors_New "directive identity does not match this site and operation").
Proof.
  eexists. split; [vm_compute; reflexivity|].
  apply (Directive.directive_bound RefPlan.sk RefDirective.payload1);
    [reflexivity|exact I|vm_compute; reflexivity].
Defined.
