(* ===== verification/DirectiveState.v ===== *)
(** * Directive state of an agent

    [internal/control/directive_state.go]: the agent records in a ConfigMap per
    operation whether a directive is running or has ended, so that a directive
    that ended is never executed or reported differently again, across restarts
    and concurrent writers. *)

From S2P Require Import Prelude Prog Api Kube Codec ApiServer.

Definition directiveStateRunning : string := "Running".
Definition directiveStateSucceeded : string := "Succeeded".
Definition directiveStateFailed : string := "Failed".

Record DirectiveState := mkDirectiveState {
  ds_OperationUID : string;
  ds_InstanceUID : string;
  ds_Phase : string;
  ds_Conditions : list Condition
}.
Definition zero_DirectiveState : DirectiveState := mkDirectiveState "" "" "" [].

Definition terminal_phase (phase : string) : bool :=
  (phase == directiveStateSucceeded) || (phase == directiveStateFailed).

Section store.
Context {K : KubeLib} {C : Crypto} {TT : TimeText} {J : Json (list Condition)}.
(** The store's namespace. *)
Context (Namespace : string).

Definition directiveStateName (operationUID : string) : string :=
  "mspsql-directive-" +:+ String.substring 0 24 (hex_EncodeToString (sha256 operationUID)).

Definition encodeDirectiveState (state : DirectiveState) (now : Time) : result (gmap string string) :=
  match json_Marshal (ds_Conditions state) with
  | Err e => Err (wrap_error "encode directive conditions" e)
  | Ok conditions =>
      Ok (list_to_map [("operationUID", ds_OperationUID state); ("instanceUID", ds_InstanceUID state);
                       ("phase", ds_Phase state); ("conditions.json", conditions);
                       ("updated-at", FormatTime now)])
  end.

Definition decodeDirectiveState (data : gmap string string) : result DirectiveState :=
  let state := mkDirectiveState (data !!! "operationUID") (data !!! "instanceUID") (data !!! "phase") [] in
  if data !!! "conditions.json" != "" then
    match json_Unmarshal (data !!! "conditions.json") with
    | Err e => Err (wrap_error "decode directive conditions" e)
    | Ok conditions =>
        Ok (mkDirectiveState (ds_OperationUID state) (ds_InstanceUID state) (ds_Phase state) conditions)
    end
  else Ok state.

(** [Load]: the state, and whether there is one. *)
Definition Load (operationUID : string) : kprog (result (DirectiveState * bool)) :=
  let* x := call (Get KConfigMap Namespace (directiveStateName operationUID)) in
  match x with
  | Err e => if IsNotFound e then Ret (Ok (zero_DirectiveState, false)) else Ret (Err e)
  | Ok configMap =>
      match decodeDirectiveState (cm_Data configMap) with
      | Ok state => Ret (Ok (state, true))
      | Err e => Ret (Err e)
      end
  end.

Definition state_labels (state : DirectiveState) (labels : gmap string string) : gmap string string :=
  <["multisite-postgres.dev/instance-uid" := ds_InstanceUID state]>
  (<["multisite-postgres.dev/directive-state" := "true"]>
  (<["app.kubernetes.io/managed-by" := "mspsql-agent"]> labels)).

(** One attempt of [upsert]: the function passed to [RetryOnConflict]. *)
Definition upsert_attempt (state : DirectiveState) (data : gmap string string) : kprog (result unit) :=
  let name := directiveStateName (ds_OperationUID state) in
  let* x := call (Get KConfigMap Namespace name) in
  match x with
  | Err e =>
      if IsNotFound e then
        let configMap := mkConfigMap
          (zero_ObjectMeta <| meta_Namespace := Namespace |> <| meta_Name := name |>
             <| meta_Labels := state_labels state ∅ |>) data in
        let* y := call (Create KConfigMap configMap) in
        Ret (match y with Ok _ => Ok tt | Err e => Err e end)
      else Ret (Err e)
  | Ok configMap =>
      if terminal_phase (cm_Data configMap !!! "phase") then Ret (Ok tt)
      else
        let configMap := configMap
          <| cm_Meta := (cm_Meta configMap) <| meta_Labels := state_labels state (meta_Labels (cm_Meta configMap)) |> |>
          <| cm_Data := data |> in
        let* y := call (Update KConfigMap configMap) in
        Ret (match y with Ok _ => Ok tt | Err e => Err e end)
  end.

Definition upsert (state : DirectiveState) : kprog (result unit) :=
  let* now := call Now in
  match encodeDirectiveState state now with
  | Err e => Ret (Err e)
  | Ok data => RetryOnConflict (upsert_attempt state data)
  end.

Definition MarkRunning (operationUID instanceUID : string) : kprog (result unit) :=
  upsert (mkDirectiveState operationUID instanceUID directiveStateRunning []).

Definition terminal_outcome (conditions : list Condition) : string :=
  if existsb (fun c => (cond_Type c == "Succeeded") && (cond_Status c == ConditionFalse)) conditions
  then directiveStateFailed else directiveStateSucceeded.

Definition MarkTerminal (operationUID instanceUID : string) (conditions : list Condition) :
  kprog (result unit) :=
  upsert (mkDirectiveState operationUID instanceUID (terminal_outcome conditions) conditions).

(** ** Properties *)
Context {JL : JsonLaws _ J}.

(** Round trip of the directive state: what is encoded for an operation,
    at any time, decodes to the same operation, instance, phase and conditions. *)
Theorem directive_state_roundtrip state now data :
  json_text (ds_Conditions state) -> json_wire (ds_Conditions state) = ds_Conditions state ->
  json_Marshal (ds_Conditions state) <> Ok "" ->
  encodeDirectiveState state now = Ok data -> decodeDirectiveState data = Ok state.
Proof.
  intros Ht Hw Hne. unfold encodeDirectiveState.
  destruct (json_Marshal _) as [s|e] eqn:Hm; [|done]. intros [= <-].
  unfold decodeDirectiveState. rewrite !lookup_total_alt. simplify_map_eq. cbn.
  rewrite bool_decide_eq_false_2 by congruence. cbn.
  rewrite (unmarshal_marshal _ _ Ht Hm), Hw. by destruct state.
Qed.

(** The requests of the store: the only writes are the creation of an absent
    record and the update of a record that was read and is not terminal. *)
Definition store_request (name : string) (h : khistory) (r : Req) : Prop :=
  match r with
  | Get KConfigMap ns n => ns = Namespace /\ n = name
  | Create KConfigMap o => key_of (k:=KConfigMap) o = (Namespace, name)
  | Update KConfigMap o =>
      exists base : ConfigMap, prepared_from (k:=KConfigMap) o base h /\
        terminal_phase (cm_Data base !!! "phase") = false
  | Now => True
  | _ => False
  end.

Lemma upsert_attempt_requests state data h :
  sat (store_request (directiveStateName (ds_OperationUID state))) (fun _ _ => True) h
    (upsert_attempt state data).
Proof.
  unfold upsert_attempt. cbn. split; [done|]. intros [cm|e].
  - destruct (terminal_phase _) eqn:Ht; [done|]. cbn. split; [|done].
    exists cm. split; [|done]. split; [|done].
    eexists _, _. rewrite elem_of_cons. by left.
  - destruct (IsNotFound e); [|done]. cbn. done.
Qed.

Context {KL : KubeLaws K}.

Lemma upsert_requests state h :
  sat (store_request (directiveStateName (ds_OperationUID state))) (fun _ _ => True) h (upsert state).
Proof.
  unfold upsert. cbn. split; [done|]. intros now.
  destruct (encodeDirectiveState state now) as [data|]; [|done].
  apply (retry_sat _ (fun _ => True)); [|done]. intros h' _.
  eapply sat_mono; [| |apply upsert_attempt_requests]; auto.
Qed.

Context {A : ApiServer} {AL : ApiServerLaws A}.

(** A terminal directive record is final. Whatever the server answers and
    whatever other clients write in between, every update of the store that the
    server accepts replaces a record whose phase was not yet terminal: once an
    operation has succeeded or failed, recording it again (as running or with
    another outcome) never changes the record. *)
Theorem terminal_record_final state s0 s o o' :
  (s, existT (Update KConfigMap o) (Ok o')) ∈ exchanges (upsert state) s0 ->
  exists cur, stored s KConfigMap (key_of (k:=KConfigMap) o) = Some cur /\
    terminal_phase (cm_Data cur !!! "phase") = false.
Proof.
  intros Hin. pose proof (log_answer _ _ _ _ _ Hin) as Hh. cbn in Hh. symmetry in Hh.
  pose proof (sat_exchanges _ _ _ s0 (upsert_requests state [])) as Hall.
  rewrite list.Forall_forall in Hall. destruct (Hall _ Hin) as (h & Hr & base & Hp & Ht).
  exists base. split; [|done]. by eapply (accepted_base (k:=KConfigMap)).
Qed.
End store.

(** ** Witnesses *)
Module RefDirectiveState.
Import RefCodec.
#[global] Instance serial_Condition : Serial Condition.
Proof.
  refine (serial_iso (fun c => (cond_Type c, cond_Status c, cond_ObservedGeneration c, cond_Reason c, cond_Message c))
    (fun '(x0, x1, x2, x3, x4) => Some (mkCondition x0 x1 x2 x3 x4)) _).
  by intros [].
Defined.
#[global] Instance json_conditions : Json (list Condition) := json_of id.
#[global] Instance json_conditions_laws : JsonLaws _ json_conditions := json_of_laws id.

Definition ended : DirectiveState :=
  mkDirectiveState "op" "i1" directiveStateFailed [mkCondition "Succeeded" ConditionFalse 1 "Error" "disk full"].

(** A cluster in which operation [op] is recorded as running. *)
Definition cluster : MemServer.server :=
  MemServer.add (k:=KConfigMap) (mkConfigMap
    (zero_ObjectMeta <| meta_Namespace := "agent" |> <| meta_Name := directiveStateName "op" |>)
    {["phase" := directiveStateRunning]}) MemServer.empty.
End RefDirectiveState.

Lemma directive_state_roundtrip_witness : exists data,
  encodeDirectiveState RefDirectiveState.ended 5%Z = Ok data /\
  decodeDirectiveState data = Ok RefDirectiveState.ended.
Proof.
  eexists. split; [reflexivity|].
  eapply (directive_state_roundtrip RefDirectiveState.ended 5%Z);
    [exact I|reflexivity|vm_compute; discriminate|reflexivity].
Defined.

Lemma terminal_record_final_witness : exists s o o' cur,
  (s, existT (Update KConfigMap o) (Ok o')) ∈
    exchanges (upsert "agent" RefDirectiveState.ended) RefDirectiveState.cluster /\
  stored s KConfigMap (key_of (k:=KConfigMap) o) = Some cur /\
  terminal_phase (cm_Data cur !!! "phase") = false.
Proof.
  eassert (Hin : (_, existT (Update KConfigMap _) (Ok _)) ∈ exchanges (upsert "agent" RefDirectiveState.ended) RefDirectiveState.cluster).
  { apply list_elem_of_lookup. exists 2%nat. reflexivity. }
  destruct (terminal_record_final (A:=MemServer.api) "agent" RefDirectiveState.ended
    RefDirectiveState.cluster _ _ _ Hin)
    as (cur & Hcur & Ht).
  eexists _, _, _, cur. split; [exact Hin|]. split; [exact Hcur|exact Ht].
Defined.
