(* ===== verification/Cache.v ===== *)
(** * The agent's plan cache

    [internal/agent/cache.go]: the last plan accepted for each instance is kept
    in a ConfigMap, so that the agent can go on reconciling while the hub is
    unreachable.  A plan is verified when it is stored and again whenever it is
    loaded. *)

From S2P Require Import Prelude Prog Api Kube Codec Plan ApiServer.

(** [strings.ToLower] on ASCII and [strings.ReplaceAll(s, "_", "-")]. *)
Definition lower_byte (c : ascii) : ascii :=
  let n := N_of_ascii c in
  if (65 <=? n)%N && (n <=? 90)%N then ascii_of_N (n + 32) else c.
Fixpoint map_string (f : ascii -> ascii) (s : string) : string :=
  match s with EmptyString => "" | String c s => String (f c) (map_string f s) end.
Definition ToLower (s : string) : string := map_string lower_byte s.

Definition cacheName (instanceUID : string) : string :=
  let normalized := ToLower instanceUID in
  let normalized := map_string (fun c => if c == "_"%char then "-"%char else c) normalized in
  let normalized := if (40 <? String.length normalized)%nat then String.substring 0 40 normalized else normalized in
  "multisite-postgres-plan-" +:+ normalized.

(** A [json.RawMessage] as a JSON value of its own: encoding it compacts it,
    decoding into it copies the text of the value. *)
Class RawJson := {
  raw_Marshal : string -> result string;
  raw_Unmarshal : string -> result string;
}.
Class RawJsonLaws (R : RawJson) (J : Json SitePlan) := {
  raw_roundtrip p j : raw_Marshal p = Ok j -> raw_Unmarshal j = Ok j;
  raw_error s e : raw_Unmarshal s = Err e -> err_reason e = ErrInternal;
  raw_canonical p s : json_Marshal (T:=SitePlan) p = Ok s -> raw_Marshal s = Ok s;
}.

Section cache.
Context {C : Crypto} {J : Json SitePlan} {R : RawJson} {TT : TimeText}.
(** The fields of [Cache]. *)
Context (Namespace PublicKey SiteUID : string).

(** The part of [Load] after the ConfigMap has been read. *)
Definition load_record (instanceUID : string) (configMap : ConfigMap) : result SitePlan :=
  match raw_Unmarshal (cm_Data configMap !!! "site-plan.json") with
  | Err e => Err (wrap_error "decode cached plan" e)
  | Ok raw =>
      Verify PublicKey (mkEnvelope raw (cm_Data configMap !!! "signature")) SiteUID instanceUID 1
  end.

Definition Load (instanceUID : string) : kprog (result SitePlan) :=
  let! configMap := call (Get KConfigMap Namespace (cacheName instanceUID)) onerr e => Ret (Err e) in
  Ret (load_record instanceUID configMap).

Definition record_data (desired : SitePlan) (planJSON signature : string) (now : Time) : gmap string string :=
  list_to_map [("revision", FormatInt (sp_Revision desired)); ("site-plan.json", planJSON);
               ("signature", signature); ("received-at", FormatTime now)].

(** The part of [Store] after the plan has been verified. *)
Definition store_verified (envelope : Envelope) (instanceUID : string) (desired : SitePlan) :
  kprog (result SitePlan) :=
  match raw_Marshal (env_Plan envelope) with
  | Err e => Ret (Err e)
  | Ok planJSON =>
    let name := cacheName instanceUID in
    let* now := call Now in
    let data := record_data desired planJSON (env_Signature envelope) now in
    let* x := call (Get KConfigMap Namespace name) in
    match x with
    | Err e =>
        if IsNotFound e then
          let configMap := mkConfigMap
            (zero_ObjectMeta <| meta_Namespace := Namespace |> <| meta_Name := name |>
               <| meta_Labels := list_to_map [("app.kubernetes.io/managed-by", "mspsql-agent");
                                              ("multisite-postgres.dev/instance-uid", instanceUID)] |>) data in
          let! _ := call (Create KConfigMap configMap) onerr e => Ret (Err e) in
          Ret (Ok desired)
        else Ret (Err e)
    | Ok configMap =>
        let old := cm_Data configMap in
        if (old !!! "revision" == data !!! "revision") && (old !!! "site-plan.json" == data !!! "site-plan.json")
           && (old !!! "signature" == data !!! "signature") then Ret (Ok desired)
        else if old !!! "revision" == data !!! "revision" then
          Ret (Err (errors_New ("cached plan revision " +:+ FormatInt (sp_Revision desired) +:+
                                " changed contents or signature")))
        else
          let! _ := call (Update KConfigMap (configMap <| cm_Data := data |>)) onerr e => Ret (Err e) in
          Ret (Ok desired)
    end
  end.

Definition Store (envelope : Envelope) (instanceUID : string) : kprog (result SitePlan) :=
  let* current := Load instanceUID in
  let minimumRevision :=
    match current with
    | Ok current => Ok (sp_Revision current)
    | Err e => if IsNotFound e then Ok 1%Z else Err e
    end in
  match minimumRevision with
  | Err e => Ret (Err e)
  | Ok minimumRevision =>
      match Verify PublicKey envelope SiteUID instanceUID minimumRevision with
      | Err e => Ret (Err e)
      | Ok desired => store_verified envelope instanceUID desired
      end
  end.

Definition Age (instanceUID : string) : kprog (result Duration) :=
  let! configMap := call (Get KConfigMap Namespace (cacheName instanceUID)) onerr e => Ret (Err e) in
  match ParseTime (cm_Data configMap !!! "received-at") with
  | None => Ret (Err (errors_New "parsing time"))
  | Some receivedAt =>
      let* now := call Now in
      Ret (Ok (time_Sub now receivedAt))
  end.

Fixpoint load_all (configMaps : list ConfigMap) (plans : list SitePlan) : kprog (result (list SitePlan)) :=
  match configMaps with
  | [] => Ret (Ok plans)
  | configMap :: configMaps =>
      let instanceUID := meta_Labels (cm_Meta configMap) !!! "multisite-postgres.dev/instance-uid" in
      let! desired := Load instanceUID onerr e => Ret (Err e) in
      load_all configMaps (plans ++ [desired])
  end.

Definition ListPlans : kprog (result (list SitePlan)) :=
  let! configMaps := call (List KConfigMap (Some Namespace)
      {["app.kubernetes.io/managed-by" := "mspsql-agent"]}) onerr e => Ret (Err e) in
  load_all configMaps [].

(** ** Correctness on a server only the agent writes to *)

(** The plan a record caches, if the record is there and verifies. *)
Definition cached {A : ApiServer} (s : srv) (instanceUID : string) : option SitePlan :=
  match stored s KConfigMap (Namespace, cacheName instanceUID) with
  | Some configMap =>
      match load_record instanceUID configMap with Ok p => Some p | Err _ => None end
  | None => None
  end.

(** A record states the revision of the plan it caches. *)
Definition record_ok (instanceUID : string) (configMap : ConfigMap) : Prop :=
  forall p, load_record instanceUID configMap = Ok p ->
    cm_Data configMap !!! "revision" = FormatInt (sp_Revision p).

Definition records_ok {A : ApiServer} (s : srv) (instanceUID : string) : Prop :=
  forall configMap, stored s KConfigMap (Namespace, cacheName instanceUID) = Some configMap ->
    record_ok instanceUID configMap.

Context {JL : JsonLaws SitePlan J} {RL : RawJsonLaws R J}.
Context {A : ApiServer} {Q : QuietLaws A}.

Lemma record_data_fields desired j sg now :
  record_data desired j sg now !!! "revision" = FormatInt (sp_Revision desired) /\
  record_data desired j sg now !!! "site-plan.json" = j /\
  record_data desired j sg now !!! "signature" = sg.
Proof. unfold record_data. rewrite !lookup_total_alt. simplify_map_eq. done. Qed.

(** A record with the content of a verified envelope loads as its plan. *)
Lemma load_record_fields cm env instanceUID desired m :
  Verify PublicKey env SiteUID instanceUID m = Ok desired -> (1 <= m)%Z ->
  raw_Marshal (env_Plan env) = Ok (env_Plan env) ->
  cm_Data cm !!! "site-plan.json" = env_Plan env -> cm_Data cm !!! "signature" = env_Signature env ->
  load_record instanceUID cm = Ok desired.
Proof.
  intros HV Hm Hraw Hp Hs. unfold load_record. rewrite Hp, Hs, (raw_roundtrip _ _ Hraw).
  destruct env as [p sg]. cbn in *. unfold Verify in *. destruct (negb _); [done|].
  cbn [env_Plan env_Signature] in *.
  destruct (Base64.DecodeString _); [|done]. destruct (negb _); [done|].
  destruct (json_Unmarshal _); [|done]. destruct (negb _); [done|]. destruct (_ || _); [done|].
  destruct (_ <? m)%Z eqn:E; [done|]. injection HV as ->. bool_to_prop.
  by rewrite (proj2 (Z.ltb_ge _ _)) by lia.
Qed.

Lemma load_record_data cm env instanceUID desired m now :
  Verify PublicKey env SiteUID instanceUID m = Ok desired -> (1 <= m)%Z ->
  raw_Marshal (env_Plan env) = Ok (env_Plan env) ->
  cm_Data cm = record_data desired (env_Plan env) (env_Signature env) now ->
  load_record instanceUID cm = Ok desired /\ record_ok instanceUID cm.
Proof.
  intros HV Hm Hraw Hd.
  destruct (record_data_fields desired (env_Plan env) (env_Signature env) now) as (Hr & Hp & Hs).
  assert (load_record instanceUID cm = Ok desired) as HL
    by (eapply load_record_fields; rewrite ?Hd; eauto).
  split; [done|]. intros p Hl. rewrite Hd, Hr. congruence.
Qed.

(** What [Store] does once the plan is verified against a minimum revision that
    is at least the cached one. *)
Definition store_effect (s s' : srv) (instanceUID : string) (x : result SitePlan) : Prop :=
  match x with
  | Ok p =>
      cached s' instanceUID = Some p /\ records_ok s' instanceUID /\
      forall p0, cached s instanceUID = Some p0 ->
        (sp_Revision p0 <= sp_Revision p)%Z /\ (sp_Revision p0 = sp_Revision p -> p0 = p)
  | Err _ =>
      stored s' KConfigMap (Namespace, cacheName instanceUID) =
      stored s KConfigMap (Namespace, cacheName instanceUID)
  end.

Lemma cached_stored s instanceUID cm p :
  stored s KConfigMap (Namespace, cacheName instanceUID) = Some cm ->
  load_record instanceUID cm = Ok p -> cached s instanceUID = Some p.
Proof. unfold cached. intros -> ->. done. Qed.

Lemma store_effect_written s s' instanceUID env desired m now cm' :
  Verify PublicKey env SiteUID instanceUID m = Ok desired -> (1 <= m)%Z ->
  raw_Marshal (env_Plan env) = Ok (env_Plan env) ->
  (forall p0, cached s instanceUID = Some p0 ->
     (sp_Revision p0 <= m)%Z /\ sp_Revision p0 <> sp_Revision desired) ->
  stored s' KConfigMap (Namespace, cacheName instanceUID) = Some cm' ->
  cm_Data cm' = record_data desired (env_Plan env) (env_Signature env) now ->
  store_effect s s' instanceUID (Ok desired).
Proof.
  intros HV Hm Hraw Hprev Hs' Hd. destruct (load_record_data _ _ _ _ _ _ HV Hm Hraw Hd) as [HL Hok].
  apply Verify_Ok in HV as (_ & _ & _ & _ & _ & _ & Hr). split; [|split].
  - by eapply cached_stored.
  - intros cm. rewrite Hs'. by intros [= <-].
  - intros p0 Hp0. destruct (Hprev _ Hp0). lia.
Qed.

Lemma store_effect_same s s' instanceUID env desired m cm :
  Verify PublicKey env SiteUID instanceUID m = Ok desired -> (1 <= m)%Z ->
  raw_Marshal (env_Plan env) = Ok (env_Plan env) -> records_ok s instanceUID ->
  stored s' KConfigMap (Namespace, cacheName instanceUID) = Some cm ->
  stored s KConfigMap (Namespace, cacheName instanceUID) = Some cm ->
  cm_Data cm !!! "site-plan.json" = env_Plan env -> cm_Data cm !!! "signature" = env_Signature env ->
  store_effect s s' instanceUID (Ok desired).
Proof.
  intros HV Hm Hraw Hok Hs' Hs Hp Hsg.
  pose proof (load_record_fields _ _ _ _ _ HV Hm Hraw Hp Hsg) as HL. split; [|split].
  - by eapply cached_stored.
  - intros cm1. rewrite Hs', <- Hs. apply Hok.
  - intros p0. rewrite (cached_stored _ _ _ _ Hs HL). intros [= <-]. split; [lia|done].
Qed.

Lemma store_verified_spec env instanceUID desired m s h x s' h' :
  records_ok s instanceUID ->
  Verify PublicKey env SiteUID instanceUID m = Ok desired -> (1 <= m)%Z ->
  raw_Marshal (env_Plan env) = Ok (env_Plan env) ->
  (forall p0, cached s instanceUID = Some p0 -> (sp_Revision p0 <= m)%Z) ->
  run handle (store_verified env instanceUID desired) s h = (x, s', h') ->
  store_effect s s' instanceUID x.
Proof.
  intros Hok HV Hm Hraw Hprev. unfold store_verified. rewrite Hraw. cbn -[record_data].
  destruct (handle Now s) as [now s1] eqn:E1. pose proof (quiet_now _ _ _ E1) as Q1.
  destruct (handle (Get _ _ _) s1) as [y s2] eqn:E2. destruct (quiet_get _ _ _ _ _ _ E2) as [Q2 Hy].
  rewrite Q1 in Hy. destruct (record_data_fields desired (env_Plan env) (env_Signature env) now) as (Fr & Fp & Fs).
  destruct y as [cm|e].
  - rewrite Fr, Fp, Fs. destruct (_ && _) eqn:Hsame; bool_to_prop.
    { intros [= <- <- <-]. eapply (store_effect_same _ _ _ env); eauto. by rewrite Q2, Q1. }
    case_bool_decide as Hrev; [intros [= <- <- <-]; cbn; by rewrite Q2, Q1|]. cbn -[record_data].
    destruct (handle (Update _ _) s2) as [z s3] eqn:E3. pose proof (quiet_update _ _ _ _ _ E3) as Hz.
    pose proof (stored_key _ _ _ _ Hy) as Hkey.
    destruct z as [cm'|e]; intros [= <- <- <-].
    + destruct Hz as [Hst Hpay]. cbn in Hpay.
      assert (stored s3 KConfigMap (Namespace, cacheName instanceUID) = Some cm') as Hst'
        by (rewrite <- Hkey; exact Hst).
      eapply (store_effect_written _ _ _ env); eauto.
      intros p0 Hp0. split; [eauto|]. intros Heq. apply Hrev. rewrite <- Heq.
      unfold cached in Hp0. rewrite Hy in Hp0. destruct (load_record _ cm) eqn:HL; [|done].
      injection Hp0 as ->. by apply (Hok _ Hy).
    + cbn. by rewrite Hz, Q2, Q1.
  - destruct (IsNotFound e) eqn:He; [|intros [= <- <- <-]; cbn; by rewrite Q2, Q1]. cbn -[record_data].
    destruct (handle (Create _ _) s2) as [z s3] eqn:E3. pose proof (quiet_create _ _ _ _ _ E3) as Hz.
    destruct z as [cm'|e']; intros [= <- <- <-].
    + destruct Hz as (_ & Hst & Hpay). cbn in Hpay, Hst.
      eapply (store_effect_written _ _ _ env); eauto.
      intros p0 Hp0. unfold cached in Hp0. by rewrite (Hy eq_refl) in Hp0.
    + cbn. by rewrite Hz, Q2, Q1.
Qed.

Lemma load_record_error instanceUID cm e : load_record instanceUID cm = Err e -> IsNotFound e = false.
Proof.
  unfold load_record, IsNotFound. destruct (raw_Unmarshal _) as [raw|e1] eqn:Hr.
  - unfold Verify. destruct (negb _); [by intros [= <-]|]. destruct (Base64.DecodeString _); [|by intros [= <-]].
    destruct (negb _); [by intros [= <-]|]. destruct (json_Unmarshal _) as [d|e2] eqn:Hj.
    + repeat case_match; by intros [= <-].
    + intros [= <-]. cbn. rewrite (unmarshal_error _ _ Hj). done.
  - intros [= <-]. cbn. rewrite (raw_error _ _ Hr). done.
Qed.

Lemma store_spec env instanceUID s h x s' h' :
  records_ok s instanceUID -> raw_Marshal (env_Plan env) = Ok (env_Plan env) ->
  run handle (Store env instanceUID) s h = (x, s', h') -> store_effect s s' instanceUID x.
Proof.
  intros Hok Hraw. unfold Store, Load. cbn -[Verify store_verified].
  destruct (handle (Get _ _ _) s) as [y s1] eqn:E1. destruct (quiet_get _ _ _ _ _ _ E1) as [Q1 Hy].
  assert (Hok1 : records_ok s1 instanceUID) by (intros cm; rewrite Q1; apply Hok).
  assert (Hc1 : cached s1 instanceUID = cached s instanceUID) by (unfold cached; by rewrite Q1).
  assert (Heff : forall x s', store_effect s1 s' instanceUID x -> store_effect s s' instanceUID x).
  { intros x0 s0. unfold store_effect. by rewrite Hc1, Q1. }
  assert (Hfail : forall e, store_effect s s1 instanceUID (Err e)) by (intros e; cbn; by rewrite Q1).
  destruct y as [cm|e]; cbn -[Verify store_verified].
  - destruct (load_record instanceUID cm) as [cur|e] eqn:HL.
    + destruct (Verify _ env _ _ _) as [d|e] eqn:HV; [|intros [= <- <- <-]; apply Hfail].
      intros Hrun. apply Heff. pose proof (cached_stored _ _ _ _ Hy HL) as Hc.
      assert (1 <= sp_Revision cur)%Z.
      { unfold load_record in HL. destruct (raw_Unmarshal _); [|done]. apply Verify_Ok in HL. naive_solver. }
      eapply store_verified_spec; eauto. rewrite Hc1, Hc. intros p0 [= <-]. lia.
    + rewrite (load_record_error _ _ _ HL). intros [= <- <- <-]. apply Hfail.
  - destruct (IsNotFound e) eqn:He; [|intros [= <- <- <-]; apply Hfail].
    destruct (Verify _ env _ _ _) as [d|e'] eqn:HV; [|intros [= <- <- <-]; apply Hfail].
    intros Hrun. apply Heff. eapply store_verified_spec; eauto; [lia|].
    rewrite Hc1. unfold cached. by rewrite (Hy eq_refl).
Qed.

(** ** Sequences of plans *)
Fixpoint store_all (envelopes : list Envelope) (instanceUID : string) : kprog unit :=
  match envelopes with
  | [] => Ret tt
  | envelope :: envelopes =>
      let* _ := Store envelope instanceUID in store_all envelopes instanceUID
  end.

Definition advances (s s' : srv) (instanceUID : string) : Prop :=
  forall p0, cached s instanceUID = Some p0 -> exists p, cached s' instanceUID = Some p /\
    (sp_Revision p0 <= sp_Revision p)%Z /\ (sp_Revision p0 = sp_Revision p -> p0 = p).

Lemma store_effect_advances s s' instanceUID x :
  records_ok s instanceUID -> store_effect s s' instanceUID x ->
  records_ok s' instanceUID /\ advances s s' instanceUID.
Proof.
  intros Hok. destruct x as [p|e]; cbn.
  - intros (Hc & Hok' & Hp). split; [done|]. intros p0 Hp0. exists p. split; [done|]. by apply Hp.
  - intros Hst. split; [intros cm; rewrite Hst; apply Hok|].
    intros p0 Hp0. exists p0. unfold cached in *. rewrite Hst. split; [done|]. split; [lia|done].
Qed.

Lemma run_bind {S T U} (hd : forall r : Req, S -> Resp r * S) (p : kprog T) (f : T -> kprog U) s h :
  run hd (bind p f) s h = let '(a, s', h') := run hd p s h in run hd (f a) s' h'.
Proof. revert s h. induction p as [a|r k IH]; intros s h; simpl; [done|]. by destruct (hd r s). Qed.

(** C6: The plan cache never goes back. Whatever envelopes reach an agent, in
    whatever order and however often (replays, duplicates, forgeries, plans for
    other sites, failed writes), the plan it has cached for an instance
    is afterwards the same or one with a greater revision: the revision never
    decreases, and a revision never changes its content. *)
Theorem cache_never_goes_back envelopes instanceUID s h u s' h' :
  records_ok s instanceUID ->
  Forall (fun env => raw_Marshal (env_Plan env) = Ok (env_Plan env)) envelopes ->
  run handle (store_all envelopes instanceUID) s h = (u, s', h') ->
  advances s s' instanceUID.
Proof.
  revert s h. induction envelopes as [|env envs IH]; intros s h Hok Hraw; cbn -[Store].
  - intros [= <- <- <-] p0 Hp0. exists p0. split; [done|]. split; [lia|done].
  - rewrite run_bind. destruct (run handle (Store env instanceUID) s h) as [[x s1] h1] eqn:E.
    inversion Hraw; subst. intros Hrun.
    destruct (store_effect_advances s s1 instanceUID x Hok) as [Hok1 Hadv]; [by eapply store_spec|].
    specialize (IH s1 h1 Hok1 ltac:(done) Hrun). intros p0 Hp0.
    destruct (Hadv _ Hp0) as (p1 & Hp1 & Hle1 & Heq1). destruct (IH _ Hp1) as (p2 & Hp2 & Hle2 & Heq2).
    exists p2. split; [done|]. split; [lia|]. intros Heq. rewrite Heq1, Heq2; auto; lia.
Qed.

Lemma store_returns_verified env instanceUID :
  post (fun x => forall p, x = Ok p ->
    exists m, (1 <= m)%Z /\ Verify PublicKey env SiteUID instanceUID m = Ok p) (Store env instanceUID).
Proof.
  intros h. unfold Store, Load. cbn -[Verify store_verified]. split; [done|]. intros y.
  assert (Hv : forall m d h, (1 <= m)%Z -> Verify PublicKey env SiteUID instanceUID m = Ok d ->
    sat (fun _ _ => True) (fun _ x => forall p, x = Ok p ->
      exists m, (1 <= m)%Z /\ Verify PublicKey env SiteUID instanceUID m = Ok p) h
      (store_verified env instanceUID d)).
  { intros m d h' Hm Hd. unfold store_verified.
    assert (Hd' : forall p, Ok d = Ok p -> exists m, (1 <= m)%Z /\ Verify PublicKey env SiteUID instanceUID m = Ok p)
      by (intros p [= <-]; eauto).
    destruct (raw_Marshal _); [|done]. cbn. split; [done|]. intros now. split; [done|]. intros [cm|e].
    - destruct (_ && _); [done|]. case_bool_decide; [done|]. cbn. split; [done|]. by intros [].
    - destruct (IsNotFound e); [|done]. cbn. split; [done|]. by intros []. }
  destruct y as [cm|e]; cbn -[Verify store_verified].
  - destruct (load_record instanceUID cm) as [cur|e] eqn:HL; [|by destruct (IsNotFound e); [|]; simpl;
      [destruct (Verify _ _ _ _ _) eqn:HV; [eapply Hv; eauto; lia|]|] ].
    assert (1 <= sp_Revision cur)%Z.
    { unfold load_record in HL. destruct (raw_Unmarshal _); [|done]. apply Verify_Ok in HL. naive_solver. }
    destruct (Verify _ _ _ _ _) eqn:HV; [by eapply Hv|done].
  - destruct (IsNotFound e); [|done]. destruct (Verify _ _ _ _ _) eqn:HV; [eapply Hv; eauto; lia|done].
Qed.

(** Storing a plan and loading it. If [Store] accepts an envelope, the
    plan it returns is the one the envelope carries, verified for this site and
    instance, and a following [Load] returns that plan unless its read fails. *)
Theorem store_then_load env instanceUID s h p s' h' y s'' h'' :
  records_ok s instanceUID -> raw_Marshal (env_Plan env) = Ok (env_Plan env) ->
  run handle (Store env instanceUID) s h = (Ok p, s', h') ->
  run handle (Load instanceUID) s' h' = (y, s'', h'') ->
  (exists m, (1 <= m)%Z /\ Verify PublicKey env SiteUID instanceUID m = Ok p) /\
  (y = Ok p \/ exists e, y = Err e /\ IsNotFound e = false).
Proof.
  intros Hok Hraw HS HL. split.
  { eapply (sat_run _ _ _ _ _ _ _ _ _ (store_returns_verified env instanceUID h) HS); done. }
  apply (store_spec _ _ _ _ _ _ _ Hok Hraw) in HS as (Hc & _ & _).
  unfold Load in HL. cbn -[load_record] in HL.
  destruct (handle (Get _ _ _) s') as [z s1] eqn:E1. destruct (quiet_get _ _ _ _ _ _ E1) as [_ Hz].
  unfold cached in Hc. destruct z as [cm|e]; cbn -[load_record] in HL; injection HL as <- <- <-.
  - rewrite Hz in Hc. destruct (load_record instanceUID cm); [left; congruence|done].
  - right. exists e. split; [done|]. destruct (IsNotFound e) eqn:He; [|done].
    by rewrite (Hz eq_refl) in Hc.
Qed.
End cache.

(** ** Witnesses *)
Module RefCache.
#[global] Instance raw : RawJson := {| raw_Marshal s := Ok s; raw_Unmarshal s := Ok s |}.
#[global] Instance raw_laws : RawJsonLaws raw RefPlan.json_plan.
Proof. by split. Qed.

Definition pk : string := ed25519_Public RefPlan.sk.
Definition sign (p : SitePlan) : Envelope :=
  match Sign RefPlan.sk p with Ok e => e | Err _ => mkEnvelope "" "" end.
Definition env3 : Envelope := sign RefPlan.plan3.
Definition env4 : Envelope := sign (RefPlan.plan3 <| sp_Revision := 4%Z |>).
(** Another plan with revision 4: the hub changed the image without a new revision. *)
Definition env4' : Envelope :=
  sign (RefPlan.plan3 <| sp_Revision := 4%Z |> <| sp_HubName := "other" |>).

(** The cluster after the agent stored revision 3. *)
Definition after3 : MemServer.server :=
  (run handle (Store "agent" pk "s1" env3 "i1") (MemServer.empty : srv) []).1.2.

Lemma empty_ok : records_ok "agent" pk "s1" (MemServer.empty : srv) "i1".
Proof. by intros cm. Qed.

Lemma after3_ok : records_ok "agent" pk "s1" after3 "i1".
Proof.
  unfold after3. destruct (run _ _ _ _) as [[x s1] h1] eqn:E. cbn.
  apply (store_effect_advances "agent" pk "s1" _ s1 "i1" x empty_ok).
  exact (store_spec "agent" pk "s1" env3 "i1" _ [] _ _ h1 empty_ok eq_refl E).
Qed.
End RefCache.

(** Revision 3, revision 4, a replay of revision 3, revision 4 with other content. *)
Lemma cache_never_goes_back_witness :
  let s' := (run handle (store_all "agent" RefCache.pk "s1"
    [RefCache.env3; RefCache.env4; RefCache.env3; RefCache.env4'] "i1") RefCache.after3 []).1.2 in
  advances "agent" RefCache.pk "s1" RefCache.after3 s' "i1" /\
  sp_Revision <$> cached "agent" RefCache.pk "s1" RefCache.after3 "i1" = Some 3%Z /\
  sp_Revision <$> cached "agent" RefCache.pk "s1" s' "i1" = Some 4%Z /\
  sp_HubName <$> cached "agent" RefCache.pk "s1" s' "i1" = Some "".
Proof.
  intros s'. split; [|split; [|split]; vm_compute; reflexivity].
  unfold s'. destruct (run _ _ _ _) as [[u s1] h1] eqn:E.
  refine (cache_never_goes_back "agent" RefCache.pk "s1" _ "i1" _ _ _ _ _ RefCache.after3_ok _ E).
  repeat constructor.
Defined.

Lemma store_then_load_witness :
  let '(x, s', h') := run handle (Store "agent" RefCache.pk "s1" RefCache.env3 "i1")
    (MemServer.empty : srv) [] in
  exists p, x = Ok p /\
  let '(y, _, _) := run handle (Load "agent" RefCache.pk "s1" "i1") s' h' in
  y = Ok p \/ exists e, y = Err e /\ IsNotFound e = false.
Proof.
  assert (Hok : exists p, (run handle (Store "agent" RefCache.pk "s1" RefCache.env3 "i1")
    (MemServer.empty : srv) []).1.1 = Ok p) by (eexists; vm_compute; reflexivity).
  destruct (run _ _ _ _) as [[x s1] h1] eqn:E1. destruct Hok as [p Hp]. cbn in Hp. subst x.
  exists p. split; [reflexivity|].
  destruct (run handle (Load _ _ _ _) s1 h1) as [[y s2] h2] eqn:E2.
  apply (store_then_load "agent" RefCache.pk "s1" RefCache.env3 "i1" _ _ _ _ _ _ _ _
    RefCache.empty_ok eq_refl E1 E2).
Defined.
