(* ===== verification/Members.v ===== *)
(** * Members and site statuses

    The helper functions the hub controllers share: the names of the members of
    an instance, the lookup of a site's status, and the selection of the next
    member of a rolling operation
    ([multisitepostgres_controller.go], [postgresupgrade_controller.go]). *)

From S2P Require Import Prelude Prog Api Kube.

(** Annotations of a coordinated operation on an instance. *)
Definition upgradeUIDAnnotation : string := "multisite-postgres.dev/upgrade-uid".
Definition upgradeNameAnnotation : string := "multisite-postgres.dev/upgrade-name".
Definition upgradePhaseAnnotation : string := "multisite-postgres.dev/upgrade-phase".
Definition upgradeMemberAnnotation : string := "multisite-postgres.dev/upgrade-member".
Definition upgradeMembersAnnotation : string := "multisite-postgres.dev/upgraded-members".
Definition upgradeFromAnnotation : string := "multisite-postgres.dev/upgrade-from-primary".
Definition upgradeCandidateAnnotation : string := "multisite-postgres.dev/upgrade-candidate".
Definition upgradeSwitchedAnnotation : string := "multisite-postgres.dev/upgrade-switched".
Definition upgradeRevisionAnnotation : string := "multisite-postgres.dev/upgrade-expected-revision".
Definition upgradeSourceMajorAnnotation : string := "multisite-postgres.dev/upgrade-source-major".
Definition restoreUIDAnnotation : string := "multisite-postgres.dev/restore-uid".
Definition restoreNameAnnotation : string := "multisite-postgres.dev/restore-name".
Definition restoreSourceUIDAnnotation : string := "multisite-postgres.dev/restore-source-uid".
Definition restorePhaseAnnotation : string := "multisite-postgres.dev/restore-phase".
Definition restoreDrillAnnotation : string := "multisite-postgres.dev/restore-drill".

Definition annotation (instance : MultiSitePostgres) (key : string) : string :=
  meta_Annotations (msp_Meta instance) !!! key.

(** ** Names *)

(** [fmt.Sprintf("postgres-%s-%d", site, ordinal)] and its like. *)
Definition member_name (component site : string) (ordinal : Z) : string :=
  component +:+ "-" +:+ site +:+ "-" +:+ FormatInt ordinal.

(** The ordinals of [for ordinal := int32(0); ordinal < n; ordinal++]. *)
Definition ordinals (n : Z) : list Z := Z.of_nat <$> seq 0 (Z.to_nat n).

Definition site_members (site : PostgresSiteSpec) : list string :=
  (member_name "etcd" (site_Name site) <$> ordinals (sc_EtcdReplicas (site_Components site))) ++
  (member_name "postgres" (site_Name site) <$> ordinals (sc_PostgresReplicas (site_Components site))) ++
  (if (0 <? sc_PgpoolReplicas (site_Components site))%Z then ["pgpool-" +:+ site_Name site] else []).

Definition expectedAddressMembers (sites : list PostgresSiteSpec) : list string :=
  SortStrings (concat (site_members <$> sites)).

Definition postgresMembers (sites : list PostgresSiteSpec) : list string :=
  SortStrings (concat ((fun site =>
    member_name "postgres" (site_Name site) <$> ordinals (sc_PostgresReplicas (site_Components site))) <$> sites)).

Definition splitMembers (value : string) : list string :=
  if value == "" then [] else Compact (SortStrings (Split value ",")).

Definition appendUnique (members : list string) (member : string) : list string :=
  SortStrings (if slices_Contains members member then members else members ++ [member]).

Definition addressesComplete (addresses : gmap string string) (expected : list string) : bool :=
  match expected with
  | [] => false
  | _ => forallb (fun member => addresses !!! member != "") expected
  end.

(** ** Site statuses *)
Definition previousSiteStatus (statuses : list SiteRevisionStatus) (name : string) : SiteRevisionStatus :=
  default zero_SiteRevisionStatus (List.find (fun status => srs_Name status == name) statuses).

Definition allSitesApplied (statuses : list SiteRevisionStatus) (revision : Z) : bool :=
  match statuses with
  | [] => false
  | _ => forallb (fun status => srs_AppliedRevision status == revision) statuses
  end.

Definition dataSitesApplied (instance : MultiSitePostgres) : bool :=
  forallb (fun site =>
    if site_Role site != SiteRoleData then true
    else srs_AppliedRevision (previousSiteStatus (st_Sites (msp_Status instance)) (site_Name site))
         == st_ActiveRevision (msp_Status instance))
    (spec_Sites (msp_Spec instance)).

Definition statusCondition (conditions : list Condition) (conditionType : string) : option Condition :=
  List.find (fun c => cond_Type c == conditionType) conditions.

Definition siteRoleForName (instance : MultiSitePostgres) (name : string) : string :=
  match List.find (fun site => site_Name site == name) (spec_Sites (msp_Spec instance)) with
  | Some site => site_Role site
  | None => ""
  end.

(** ** Rolling upgrades: the next member *)
Definition selectUpgradeCandidate (instance : MultiSitePostgres) (upgraded : list string) : string :=
  let status := msp_Status instance in
  let candidates :=
    match upgraded with
    | [] => filter (fun standby => standby <> st_Primary status) (st_SynchronousStandbys status)
    | _ => filter (fun member => member <> st_Primary status /\ member ∉ upgraded)
             (postgresMembers (spec_Sites (msp_Spec instance)))
    end in
  match SortStrings candidates with
  | [] => ""
  | candidate :: _ => candidate
  end.

(** ** Properties *)
Lemma elem_of_ordinals i n : i ∈ ordinals n <-> (0 <= i < n)%Z.
Proof.
  unfold ordinals. rewrite list_elem_of_fmap. setoid_rewrite elem_of_seq. split.
  - intros (k & -> & Hk). lia.
  - intros Hi. exists (Z.to_nat i). lia.
Qed.

Lemma NoDup_ordinals n : NoDup (ordinals n).
Proof. apply NoDup_fmap_2; [apply _|]. apply NoDup_seq. Qed.

Lemma member_name_inj comp s i s' i' :
  (0 <= i)%Z -> (0 <= i')%Z -> member_name comp s i = member_name comp s' i' -> s = s' /\ i = i'.
Proof.
  intros Hi Hi' H. unfold member_name in H.
  apply app_inj_r_string, app_inj_r_string in H.
  change ((s +:+ String "-" (FormatInt i)) = (s' +:+ String "-" (FormatInt i'))) in H.
  apply app_last_sep_inj in H as [-> H]; [|by apply pos_no_hyphen..].
  by apply FormatInt_inj in H as ->.
Qed.

Lemma elem_of_site_members m site :
  m ∈ site_members site <->
  (exists i, (0 <= i < sc_EtcdReplicas (site_Components site))%Z /\ m = member_name "etcd" (site_Name site) i) \/
  (exists i, (0 <= i < sc_PostgresReplicas (site_Components site))%Z /\ m = member_name "postgres" (site_Name site) i) \/
  ((0 < sc_PgpoolReplicas (site_Components site))%Z /\ m = "pgpool-" +:+ site_Name site).
Proof.
  unfold site_members. rewrite !elem_of_app, !list_elem_of_fmap. setoid_rewrite elem_of_ordinals.
  destruct (Z.ltb_spec 0 (sc_PgpoolReplicas (site_Components site))).
  - rewrite list_elem_of_singleton. naive_solver.
  - rewrite elem_of_nil. naive_solver lia.
Qed.

(** A member name determines the site it belongs to. *)
Lemma site_members_disjoint m site site' :
  m ∈ site_members site -> m ∈ site_members site' -> site_Name site = site_Name site'.
Proof.
  rewrite !elem_of_site_members. unfold member_name.
  intros [(i & Hi & ->)|[(i & Hi & ->)|[_ ->]]] [(j & Hj & Hm)|[(j & Hj & Hm)|[_ Hm]]];
    try discriminate Hm.
  - eapply (member_name_inj "etcd"); [..|exact Hm]; lia.
  - eapply (member_name_inj "postgres"); [..|exact Hm]; lia.
  - by apply app_inj_r_string in Hm.
Qed.

Lemma NoDup_site_members site : NoDup (site_members site).
Proof.
  assert (Hinj : forall comp n, NoDup (member_name comp (site_Name site) <$> ordinals n)).
  { intros comp n. apply NoDup_fmap_2_strong; [|apply NoDup_ordinals].
    intros i j Hi%elem_of_ordinals Hj%elem_of_ordinals H. apply member_name_inj in H; lia || naive_solver. }
  unfold site_members. rewrite !list.NoDup_app. split; [apply Hinj|]. split; [|split; [apply Hinj|split]].
  - intros x (i & -> & _)%list_elem_of_fmap [(j & Hx & _)%list_elem_of_fmap|Hx]%elem_of_app; [done|].
    destruct (_ <? _)%Z; [|by apply elem_of_nil in Hx]. by apply list_elem_of_singleton in Hx.
  - intros x (i & -> & _)%list_elem_of_fmap Hx.
    destruct (_ <? _)%Z; [|by apply elem_of_nil in Hx]. by apply list_elem_of_singleton in Hx.
  - destruct (_ <? _)%Z; [apply NoDup_singleton|constructor].
Qed.

Lemma elem_of_concat_fmap {A B} (f : A -> list B) l y : y ∈ concat (f <$> l) <-> exists x, x ∈ l /\ y ∈ f x.
Proof.
  induction l as [|a l IH]; simpl; [rewrite elem_of_nil; set_solver|].
  rewrite elem_of_app, IH. set_solver.
Qed.

Lemma NoDup_concat_fmap {A B} (f : A -> list B) (l : list A) :
  NoDup l -> (forall x, x ∈ l -> NoDup (f x)) ->
  (forall x y z, x ∈ l -> y ∈ l -> z ∈ f x -> z ∈ f y -> x = y) -> NoDup (concat (f <$> l)).
Proof.
  induction l as [|a l IH]; intros Hl Hf Hd; simpl; [constructor|].
  inversion Hl; subst. apply list.NoDup_app. split; [|split].
  - apply Hf. set_solver.
  - intros z Hz (x & Hx & Hzx)%elem_of_concat_fmap.
    rewrite (Hd a x z) in H1; set_solver.
  - apply IH; [done|set_solver|]. intros x y z Hx Hy. apply Hd; set_solver.
Qed.

(** Member names are unique. If the sites of an instance have different
    names, the members the hub expects an address for (every etcd, PostgreSQL
    and Pgpool member of every site) have pairwise different names, whatever
    hyphens and digits the site names contain, and each of them is expected once. *)
Theorem expected_members_unique sites :
  NoDup (site_Name <$> sites) -> NoDup (expectedAddressMembers sites).
Proof.
  intros Hn. unfold expectedAddressMembers. rewrite NoDup_SortStrings.
  apply NoDup_concat_fmap.
  - by eapply NoDup_fmap_1.
  - intros site _. apply NoDup_site_members.
  - intros x y z Hx Hy Hzx Hzy. pose proof (site_members_disjoint _ _ _ Hzx Hzy) as Hname.
    apply list_elem_of_lookup in Hx as [i Hi], Hy as [j Hj].
    assert (i = j) as ->; [|congruence].
    eapply (NoDup_lookup (site_Name <$> sites)); [done| |]; rewrite list_lookup_fmap.
    + by rewrite Hi.
    + by rewrite Hj, Hname.
Qed.

Lemma elem_of_expected m sites :
  m ∈ expectedAddressMembers sites <-> exists site, site ∈ sites /\ m ∈ site_members site.
Proof. unfold expectedAddressMembers. rewrite elem_of_SortStrings. apply elem_of_concat_fmap. Qed.

Lemma elem_of_postgresMembers m sites :
  m ∈ postgresMembers sites <-> exists site i, site ∈ sites /\
    (0 <= i < sc_PostgresReplicas (site_Components site))%Z /\ m = member_name "postgres" (site_Name site) i.
Proof.
  unfold postgresMembers. rewrite elem_of_SortStrings, elem_of_concat_fmap.
  setoid_rewrite list_elem_of_fmap. setoid_rewrite elem_of_ordinals. naive_solver.
Qed.

Lemma allSitesApplied_spec statuses revision :
  allSitesApplied statuses revision = true <->
  statuses <> [] /\ Forall (fun status => srs_AppliedRevision status = revision) statuses.
Proof.
  unfold allSitesApplied. destruct statuses as [|s l]; [split; [done|by intros [? _]]|].
  rewrite forallb_forall, list.Forall_forall. setoid_rewrite bool_decide_eq_true.
  setoid_rewrite list_elem_of_In. naive_solver.
Qed.

(** The members the selection is made of. *)
Definition upgrade_eligible (instance : MultiSitePostgres) (upgraded : list string) (m : string) : Prop :=
  m <> st_Primary (msp_Status instance) /\
  match upgraded with
  | [] => m ∈ st_SynchronousStandbys (msp_Status instance)
  | _ => m ∈ postgresMembers (spec_Sites (msp_Spec instance)) /\ m ∉ upgraded
  end.

Lemma selectUpgradeCandidate_cases instance upgraded :
  (selectUpgradeCandidate instance upgraded = "" /\ forall m, ~ upgrade_eligible instance upgraded m) \/
  (upgrade_eligible instance upgraded (selectUpgradeCandidate instance upgraded) /\
   forall m, upgrade_eligible instance upgraded m -> String.le (selectUpgradeCandidate instance upgraded) m).
Proof.
  unfold selectUpgradeCandidate. set (candidates := match upgraded with [] => _ | _ => _ end).
  assert (Hel : forall m, m ∈ candidates <-> upgrade_eligible instance upgraded m).
  { intros m. unfold candidates, upgrade_eligible. destruct upgraded; rewrite list_elem_of_filter; naive_solver. }
  destruct (SortStrings candidates) as [|c l] eqn:Hs.
  - left. split; [done|]. intros m Hm%Hel. apply SortStrings_nil in Hs. rewrite Hs in Hm. by apply elem_of_nil in Hm.
  - right. apply SortStrings_head in Hs as [Hc Hmin]. split; [by apply Hel|]. intros m Hm. by apply Hmin, Hel.
Qed.

(** The next member of a rolling minor upgrade. The first member is a
    synchronous standby and every later one is a member that is not upgraded yet;
    it is never the current primary, it is the first such member in name order,
    and the selection is empty only when no such member is left. *)
Theorem upgrade_candidate_sound instance upgraded :
  "" ∉ st_SynchronousStandbys (msp_Status instance) ->
  (selectUpgradeCandidate instance upgraded <> "" ->
     upgrade_eligible instance upgraded (selectUpgradeCandidate instance upgraded) /\
     forall m, upgrade_eligible instance upgraded m -> String.le (selectUpgradeCandidate instance upgraded) m) /\
  (selectUpgradeCandidate instance upgraded = "" -> forall m, ~ upgrade_eligible instance upgraded m).
Proof.
  intros Hempty. destruct (selectUpgradeCandidate_cases instance upgraded) as [[-> Hn]|[He Hmin]]; [done|].
  split; [done|]. intros Hc. rewrite Hc in He. destruct He as [_ He].
  destruct upgraded; [done|]. destruct He as [He _].
  apply elem_of_postgresMembers in He as (st & i & _ & _ & Hm). discriminate Hm.
Qed.

(** ** Witnesses *)
Module RefMembers.
Definition site (name role : string) (etcd postgres pgpool : Z) : PostgresSiteSpec :=
  mkPostgresSiteSpec name ("reg-" +:+ name) ("ns-" +:+ name) role 0 (mkSiteComponents etcd postgres pgpool)
    (mkSiteStorage None None None) None None
    (mkSiteCertificateSpec zero_IssuerReference zero_IssuerReference zero_IssuerReference
       zero_IssuerReference zero_IssuerReference zero_IssuerReference).
(** Two data sites, one with a name that extends the other's, and a witness. *)
Definition sites : list PostgresSiteSpec :=
  [site "a" SiteRoleData 1 2 1; site "a-0" SiteRoleData 1 2 1; site "w" SiteRoleWitness 1 0 0].
Definition instance : MultiSitePostgres :=
  zero_MultiSitePostgres
    <| msp_Spec := zero_MultiSitePostgresSpec <| spec_Sites := sites |> |>
    <| msp_Status := zero_MultiSitePostgresStatus <| st_Primary := "postgres-a-0" |>
         <| st_SynchronousStandbys := ["postgres-a-0-1"] |> |>.
End RefMembers.

Lemma expected_members_unique_witness :
  NoDup (expectedAddressMembers RefMembers.sites) /\
  expectedAddressMembers RefMembers.sites =
    ["etcd-a-0"; "etcd-a-0-0"; "etcd-w-0"; "pgpool-a"; "pgpool-a-0"; "postgres-a-0"; "postgres-a-0-0";
     "postgres-a-0-1"; "postgres-a-1"].
Proof.
  split; [|vm_compute; reflexivity].
  apply (expected_members_unique RefMembers.sites). apply (bool_decide_unpack _). vm_compute. exact I.
Defined.

Lemma upgrade_candidate_sound_witness :
  selectUpgradeCandidate RefMembers.instance ["postgres-a-0-1"] = "postgres-a-0-0" /\
  "postgres-a-0-0" <> "postgres-a-0" /\
  "postgres-a-0-0" ∈ postgresMembers RefMembers.sites /\ "postgres-a-0-0" ∉ ["postgres-a-0-1"].
Proof.
  assert (E : selectUpgradeCandidate RefMembers.instance ["postgres-a-0-1"] = "postgres-a-0-0")
    by (vm_compute; reflexivity).
  split; [exact E|].
  destruct (upgrade_candidate_sound RefMembers.instance ["postgres-a-0-1"]) as [H _].
  - apply (bool_decide_unpack _). vm_compute. exact I.
  - rewrite E in H. apply H. discriminate.
Defined.
