(* ===== verification/Topology.v ===== *)
(** * Topology consensus and readiness of an instance

    [aggregateTopology], [setSynchronousReplicationCondition] and
    [setAppliedInstanceReady] of [multisitepostgres_controller.go]: how the hub
    turns the observations of the sites into the primary, the synchronous
    standbys and the conditions of an instance. *)

From S2P Require Import Prelude Prog Api Kube Plan Members.

Section topology.
Context {K : KubeLib}.

(** [setCondition(&instance.Status.Conditions, instance.Generation, ...)] *)
Definition set_instance_condition (instance : MultiSitePostgres) (ctype status reason message : string) :
  MultiSitePostgres :=
  instance <| msp_Status ::= fun st => st <| st_Conditions :=
    setCondition (st_Conditions st) (meta_Generation (msp_Meta instance)) ctype status reason message |> |>.

Definition set_phase (instance : MultiSitePostgres) (phase : string) : MultiSitePostgres :=
  instance <| msp_Status ::= fun st => st <| st_Phase := phase |> |>.

Definition instanceTrue (instance : MultiSitePostgres) (ctype : string) : bool :=
  conditionTrue (st_Conditions (msp_Status instance)) ctype.

Definition setSynchronousReplicationCondition (instance : MultiSitePostgres) : MultiSitePostgres :=
  let required := pg_SynchronousStandbyCount (spec_Postgres (msp_Spec instance)) in
  let observed := Z.of_nat (length (st_SynchronousStandbys (msp_Status instance))) in
  if (observed <? required)%Z then
    set_instance_condition instance "SynchronousReplicationReady" ConditionFalse "StandbysPending"
      ("Observed " +:+ FormatInt observed +:+ " of " +:+ FormatInt required +:+ " required synchronous standbys")
  else
    set_instance_condition instance "SynchronousReplicationReady" ConditionTrue "RequiredStandbysReady"
      ("Observed all " +:+ FormatInt required +:+ " required synchronous standbys").

(** The branches that publish no topology. *)
Definition withhold_topology (instance : MultiSitePostgres) (reason message : string) : MultiSitePostgres :=
  let instance := instance <| msp_Status ::= fun st =>
    st <| st_Primary := "" |> <| st_SynchronousStandbys := [] |> |> in
  setSynchronousReplicationCondition
    (set_instance_condition instance "TopologyReady" ConditionFalse reason message).

(** [counts[key]++] on a [map[string]int]. *)
Definition count (counts : gmap string Z) (key : string) : gmap string Z :=
  <[key := (default 0 (counts !! key) + 1)%Z]> counts.

Definition stopped_phase (phase : string) : bool :=
  (phase == MajorUpgradePhaseStop) || (phase == MajorUpgradePhaseSnapshot) ||
  (phase == MajorUpgradePhaseUpgradePrimary) || (phase == MajorUpgradePhaseStanzaUpgrade) ||
  (phase == MajorUpgradePhaseRollback).

(** Whether a site's observation counts: it names a primary and is at most two
    minutes old. *)
Definition current_observation (now : Time) (site : SiteRevisionStatus) : bool :=
  (srs_Primary site != "") &&
  match srs_TopologyObservedAt site with
  | None => false
  | Some observedAt => negb (2 * minute <? time_Sub now observedAt)%Z
  end.

Definition observed_sites (majorPrimaryOnly : bool) (from : string) (now : Time)
  (sites : list SiteRevisionStatus) : list SiteRevisionStatus :=
  List.filter (fun site =>
    (negb majorPrimaryOnly || HasPrefix from ("postgres-" +:+ srs_Name site +:+ "-"))
    && current_observation now site) sites.

Definition data_site_count (sites : list PostgresSiteSpec) : Z :=
  Z.of_nat (length (List.filter (fun site => site_Role site == SiteRoleData) sites)).

Definition aggregateTopology (instance : MultiSitePostgres) (now : Time) : MultiSitePostgres :=
  let seedRestore := annotation instance restorePhaseAnnotation == RestorePhaseSeed in
  let majorPhase := annotation instance upgradePhaseAnnotation in
  if stopped_phase majorPhase then
    withhold_topology instance "PostgreSQLStopped"
      "Topology observation is suspended while PostgreSQL is intentionally stopped"
  else
    let majorPrimaryOnly := majorPhase == MajorUpgradePhaseStartPrimary in
    let dataSites :=
      if seedRestore || majorPrimaryOnly then 1%Z else data_site_count (spec_Sites (msp_Spec instance)) in
    let observed := observed_sites majorPrimaryOnly (annotation instance upgradeFromAnnotation) now
      (st_Sites (msp_Status instance)) in
    let primaryCounts := foldl count ∅ (srs_Primary <$> observed) in
    if Z.of_nat (length observed) != dataSites then
      withhold_topology instance "InsufficientObservations"
        ("Received " +:+ FormatInt (Z.of_nat (length observed)) +:+ " of " +:+ FormatInt dataSites +:+
         " current data-site topology observations")
    else
      match map_to_list primaryCounts with
      | [(primary, _)] =>
          let standbyCounts := foldl count ∅ (concat (srs_SynchronousStandbys <$> observed)) in
          let standbys := SortStrings (fst <$> filter (fun kv => kv.2 = dataSites) (map_to_list standbyCounts)) in
          let instance := instance <| msp_Status ::= fun st =>
            st <| st_Primary := primary |> <| st_SynchronousStandbys := standbys |> |> in
          setSynchronousReplicationCondition
            (set_instance_condition instance "TopologyReady" ConditionTrue "ObserverConsensus"
               "All data sites report the same Patroni leader")
      | _ =>
          withhold_topology instance "ConflictingObservations"
            "Data sites disagree about the current Patroni leader"
      end.

(** ** Readiness *)
Definition disruptive_phase (phase : string) : bool :=
  slices_Contains [MajorUpgradePhaseDrain; MajorUpgradePhaseStop; MajorUpgradePhaseSnapshot;
    MajorUpgradePhaseUpgradePrimary; MajorUpgradePhaseStanzaUpgrade; MajorUpgradePhaseStartPrimary;
    MajorUpgradePhaseReplicas; MajorUpgradePhaseRestoreWrites; MajorUpgradePhaseFinalize;
    MajorUpgradePhaseRollback; MajorUpgradePhaseRollbackStart] phase.

Definition not_ready (instance : MultiSitePostgres) (phase reason message : string) : MultiSitePostgres :=
  set_instance_condition (set_phase instance phase) "Ready" ConditionFalse reason message.

Definition setAppliedInstanceReady (instance : MultiSitePostgres) (restorePlan : option RestorePlan)
  (majorUpgradePlan : option MajorUpgradePlan) : MultiSitePostgres :=
  if match restorePlan with Some p => rp_Phase p != RestorePhaseVerify | None => false end then
    not_ready instance "Restoring" "RestoreInProgress"
      "The restore target is not available until recovery and replica seeding complete"
  else if match majorUpgradePlan with Some p => disruptive_phase (mup_Phase p) | None => false end then
    not_ready instance "Upgrading" "WriteServiceUnavailable"
      "The major-upgrade operation is still converging and accepting writes is not yet complete"
  else if negb (is_nil (spec_Backup (msp_Spec instance))) && negb (instanceTrue instance "BackupTLSReady") then
    not_ready instance "Reconciling" "BackupTrustPending"
      "Waiting for a common pgBackRest trust bundle across all data sites"
  else if negb (instanceTrue instance "EtcdTLSReady") then
    not_ready instance "Reconciling" "EtcdTrustPending"
      "Waiting for a common etcd trust bundle across all sites"
  else if negb (instanceTrue instance "TopologyReady") then
    not_ready instance "Reconciling" "TopologyPending"
      "Waiting for current topology consensus across all data sites"
  else if (0 <? pg_SynchronousStandbyCount (spec_Postgres (msp_Spec instance)))%Z
    && negb (instanceTrue instance "SynchronousReplicationReady") then
    not_ready instance "Reconciling" "SynchronousReplicationPending"
      "Waiting for the configured synchronous standby count"
  else
    set_instance_condition (set_phase instance "Ready") "Ready" ConditionTrue "AllSitesReady"
      "All sites applied the active revision".

Definition backupSchedulingReady (instance : MultiSitePostgres) (restorePlan : option RestorePlan)
  (upgradePlan : option UpgradePlan) (majorUpgradePlan : option MajorUpgradePlan) (operationActive : bool) : bool :=
  dataSitesApplied instance && instanceTrue instance "TopologyReady" &&
  (is_nil (spec_Backup (msp_Spec instance)) || instanceTrue instance "BackupTLSReady") &&
  is_nil restorePlan && is_nil upgradePlan && is_nil majorUpgradePlan && negb operationActive.

Definition topologyChangingOperationPending (restorePlan : option RestorePlan)
  (upgradePlan : option UpgradePlan) (majorUpgradePlan : option MajorUpgradePlan) : bool :=
  negb (is_nil restorePlan) || negb (is_nil upgradePlan) || negb (is_nil majorUpgradePlan).

Definition tdeKeyCreatorName (enabled : bool) (sites : list PostgresSiteSpec) : string :=
  if negb enabled then ""
  else match List.find (fun site => site_Role site == SiteRoleData) sites with
       | Some site => site_Name site
       | None => ""
       end.

Definition requiredPlanCapabilities (majorUpgradePlan : option MajorUpgradePlan) : list string :=
  match majorUpgradePlan with
  | None => []
  | Some _ => [capabilityMajorUpgradeSyncBeforeWrites]
  end.

Definition missingPlanCapabilities (instance : MultiSitePostgres)
  (registrations : gmap string SiteRegistration) (majorUpgradePlan : option MajorUpgradePlan) : list string :=
  let required := requiredPlanCapabilities majorUpgradePlan in
  SortStrings (concat ((fun site =>
    (fun capability => site_Name site +:+ "/" +:+ site_SiteRegistrationRef site +:+ ":" +:+ capability) <$>
    List.filter (fun capability =>
      match registrations !! site_Name site with
      | None => true
      | Some registration => negb (slices_Contains (regst_Capabilities (reg_Status registration)) capability)
      end) required) <$> spec_Sites (msp_Spec instance))).
(** ** Counting *)
Definition occurrences (k : string) (l : list string) : nat := length (filter (k =.) l).

Lemma occurrences_app k l l' : occurrences k (l ++ l') = (occurrences k l + occurrences k l')%nat.
Proof. unfold occurrences. by rewrite list.filter_app, length_app. Qed.

Lemma occurrences_zero k l : occurrences k l = 0%nat <-> k ∉ l.
Proof.
  unfold occurrences. rewrite length_zero_iff_nil. split.
  - intros Hf Hk. assert (k ∈ filter (k =.) l) as Hin by (by apply list_elem_of_filter).
    rewrite Hf in Hin. by apply elem_of_nil in Hin.
  - intros Hk. destruct (filter (k =.) l) as [|x r] eqn:E; [done|].
    assert (x ∈ filter (k =.) l) as [-> Hx]%list_elem_of_filter by (rewrite E, elem_of_cons; by left). done.
Qed.

Lemma occurrences_NoDup k l : NoDup l -> (occurrences k l <= 1)%nat.
Proof.
  induction 1 as [|x l Hx Hl IH]; [cbn; lia|]. unfold occurrences in *. rewrite list.filter_cons.
  case_decide as E; [|done]. subst. cbn.
  assert (length (filter (x =.) l) = 0%nat) as -> by (by apply occurrences_zero). lia.
Qed.

Lemma foldl_count l counts k :
  default 0%Z (foldl count counts l !! k) = (default 0 (counts !! k) + Z.of_nat (occurrences k l))%Z /\
  (is_Some (foldl count counts l !! k) <-> is_Some (counts !! k) \/ k ∈ l).
Proof.
  revert counts. induction l as [|x l IH]; intros counts; cbn [foldl].
  - rewrite elem_of_nil. unfold occurrences. cbn. split; [lia|naive_solver].
  - destruct (IH (count counts x)) as [IH1 IH2]. rewrite IH1, IH2. unfold count, occurrences.
    rewrite list.filter_cons, elem_of_cons. destruct (decide (k = x)) as [->|Hne].
    + rewrite lookup_insert_eq. cbn. split; [lia|naive_solver].
    + rewrite lookup_insert_ne by done. split; [done|naive_solver].
Qed.

Lemma counts_lookup l k n :
  foldl count ∅ l !! k = Some n <-> k ∈ l /\ n = Z.of_nat (occurrences k l).
Proof.
  destruct (foldl_count l ∅ k) as [H1 H2]. rewrite lookup_empty in *. cbn in H1. split.
  - intros Hl. rewrite Hl in H1, H2. cbn in H1. split; [|lia].
    destruct (proj1 H2) as [[? ?]|?]; eauto; done.
  - intros [Hk ->]. destruct (proj2 H2 (or_intror Hk)) as [m Hm]. rewrite Hm in *. cbn in H1. f_equal. lia.
Qed.

(** A single key counted: the list holds only that key. *)
Lemma counts_single l p n :
  map_to_list (foldl count ∅ l) = [(p, n)] -> l <> [] /\ Forall (.= p) l.
Proof.
  intros Hm. assert (Hk : forall k, k ∈ l <-> k = p).
  { intros k. split.
    - intros Hk. assert (foldl count ∅ l !! k = Some (Z.of_nat (occurrences k l))) as Hl
        by (by apply counts_lookup).
      apply elem_of_map_to_list in Hl. rewrite Hm in Hl. apply list_elem_of_singleton in Hl. congruence.
    - intros ->. assert ((p, n) ∈ map_to_list (foldl count ∅ l)) as Hl
        by (rewrite Hm; by apply list_elem_of_singleton).
      apply elem_of_map_to_list, counts_lookup in Hl. naive_solver. }
  split; [intros ->; by apply (not_elem_of_nil p), Hk|].
  apply list.Forall_forall. intros x. by apply Hk.
Qed.

(** A key counted once per list, in as many lists as there are, is in each. *)
Lemma occurrences_everywhere {A} (f : A -> list string) (l : list A) k :
  Forall (fun x => NoDup (f x)) l ->
  occurrences k (concat (f <$> l)) = length l -> Forall (fun x => k ∈ f x) l.
Proof.
  assert (Hle : forall l : list A, Forall (fun x => NoDup (f x)) l ->
    (occurrences k (concat (f <$> l)) <= length l)%nat).
  { induction 1 as [|x r Hx Hr IH]; [cbn; lia|]. rewrite fmap_cons. cbn [concat length]. rewrite occurrences_app.
    pose proof (occurrences_NoDup k _ Hx). lia. }
  induction 1 as [|x r Hx Hr IH]; [constructor|]. rewrite fmap_cons. cbn [concat length].
  rewrite occurrences_app. intros Heq.
  pose proof (occurrences_NoDup k _ Hx). pose proof (Hle _ Hr).
  constructor; [|apply IH; lia].
  destruct (decide (k ∈ f x)) as [?|Hn]; [done|]. apply occurrences_zero in Hn. lia.
Qed.

(** ** Properties of the consensus *)
Context {KL : KubeLaws K}.

Lemma instanceTrue_set instance t status reason message t' :
  instanceTrue (set_instance_condition instance t status reason message) t' =
  if bool_decide (t' = t) then status == ConditionTrue else instanceTrue instance t'.
Proof. apply conditionTrue_setCondition. Qed.

Lemma sync_condition_status instance :
  exists c, setSynchronousReplicationCondition instance =
    set_instance_condition instance "SynchronousReplicationReady" c.1.1 c.1.2 c.2.
Proof. unfold setSynchronousReplicationCondition. case_match; by eexists (_, _, _). Qed.

Lemma instanceTrue_sync instance t :
  t <> "SynchronousReplicationReady" ->
  instanceTrue (setSynchronousReplicationCondition instance) t = instanceTrue instance t.
Proof.
  intros Ht. destruct (sync_condition_status instance) as [c ->].
  rewrite instanceTrue_set. by rewrite bool_decide_eq_false_2.
Qed.

Lemma sync_status_fields instance :
  st_Primary (msp_Status (setSynchronousReplicationCondition instance)) = st_Primary (msp_Status instance) /\
  st_SynchronousStandbys (msp_Status (setSynchronousReplicationCondition instance)) =
    st_SynchronousStandbys (msp_Status instance).
Proof. by destruct (sync_condition_status instance) as [c ->]. Qed.

Lemma withhold_spec instance reason message :
  let i' := withhold_topology instance reason message in
  st_Primary (msp_Status i') = "" /\ st_SynchronousStandbys (msp_Status i') = [] /\
  instanceTrue i' "TopologyReady" = false.
Proof.
  intros i'. unfold i', withhold_topology. rewrite instanceTrue_sync, instanceTrue_set by done.
  destruct (sync_status_fields (set_instance_condition
    (instance <| msp_Status ::= fun st => st <| st_Primary := "" |> <| st_SynchronousStandbys := [] |> |>)
    "TopologyReady" ConditionFalse reason message)) as [-> ->]. done.
Qed.

(** The observations the aggregation uses, and how many it needs. *)
Definition observers (instance : MultiSitePostgres) (now : Time) : list SiteRevisionStatus :=
  observed_sites (annotation instance upgradePhaseAnnotation == MajorUpgradePhaseStartPrimary)
    (annotation instance upgradeFromAnnotation) now (st_Sites (msp_Status instance)).

Definition required_observers (instance : MultiSitePostgres) : Z :=
  if (annotation instance restorePhaseAnnotation == RestorePhaseSeed) ||
     (annotation instance upgradePhaseAnnotation == MajorUpgradePhaseStartPrimary)
  then 1%Z else data_site_count (spec_Sites (msp_Spec instance)).

(** What a published topology stands for. *)
Definition consensus (instance : MultiSitePostgres) (now : Time) (primary : string) (standbys : list string) : Prop :=
  stopped_phase (annotation instance upgradePhaseAnnotation) = false /\ primary <> "" /\
  Z.of_nat (length (observers instance now)) = required_observers instance /\
  Forall (fun site => srs_Primary site = primary) (observers instance now) /\
  standbys = SortStrings standbys /\ NoDup standbys /\
  forall m, m ∈ standbys <->
    m ∈ concat (srs_SynchronousStandbys <$> observers instance now) /\
    Z.of_nat (occurrences m (concat (srs_SynchronousStandbys <$> observers instance now))) =
      required_observers instance.

Lemma observers_current instance now :
  Forall (fun site => current_observation now site = true) (observers instance now).
Proof.
  apply list.Forall_forall. intros site Hin. apply list_elem_of_In, filter_In in Hin as [_ H].
  by bool_to_prop.
Qed.

Lemma SortStrings_idemp l : SortStrings (SortStrings l) = SortStrings l.
Proof.
  apply (StronglySorted_unique String.le); [apply SortStrings_sorted..|apply SortStrings_perm].
Qed.

Lemma consensus_standbys l n m :
  m ∈ SortStrings (fst <$> filter (fun kv => kv.2 = n) (map_to_list (foldl count ∅ l))) <->
  m ∈ l /\ Z.of_nat (occurrences m l) = n.
Proof.
  rewrite elem_of_SortStrings, list_elem_of_fmap. split.
  - intros ([k v] & -> & [Hv Hkv]%list_elem_of_filter). cbn in *. subst.
    apply elem_of_map_to_list, counts_lookup in Hkv. naive_solver.
  - intros [Hm Hn]. exists (m, n). split; [done|]. apply list_elem_of_filter. split; [done|].
    apply elem_of_map_to_list, counts_lookup. naive_solver.
Qed.

Lemma consensus_standbys_NoDup l n :
  NoDup (SortStrings (fst <$> filter (fun kv => kv.2 = n) (map_to_list (foldl count ∅ l)))).
Proof.
  rewrite NoDup_SortStrings. eapply sublist_NoDup; [apply (NoDup_fst_map_to_list (foldl count ∅ l))|].
  apply fmap_sublist, sublist_filter.
Qed.

Lemma aggregate_cases instance now :
  let i' := aggregateTopology instance now in
  (st_Primary (msp_Status i') = "" /\ st_SynchronousStandbys (msp_Status i') = [] /\
   instanceTrue i' "TopologyReady" = false) \/
  (instanceTrue i' "TopologyReady" = true /\
   consensus instance now (st_Primary (msp_Status i')) (st_SynchronousStandbys (msp_Status i'))).
Proof.
  intros i'. unfold i', aggregateTopology. fold (observers instance now). fold (required_observers instance).
  destruct (stopped_phase _) eqn:Hstop; [left; apply withhold_spec|].
  case_bool_decide as Hlen; [|left; apply withhold_spec]. cbn [negb].
  destruct (map_to_list (foldl count ∅ (srs_Primary <$> _))) as [|[p n] [|]] eqn:Hp;
    [left; apply withhold_spec| |left; apply withhold_spec].
  right. rewrite instanceTrue_sync, instanceTrue_set by done. split; [done|].
  match goal with |- context [setSynchronousReplicationCondition ?i] =>
    destruct (sync_status_fields i) as [-> ->] end. cbn.
  apply counts_single in Hp as [Hne Hall]. rewrite Forall_fmap in Hall.
  unfold consensus. split; [done|]. split; [|split; [done|split; [done|split; [|split]]]].
  - pose proof (observers_current instance now) as Hc.
    destruct (observers instance now) as [|site l]; [done|].
    inversion Hc as [|? ? H1 _]; inversion Hall as [|? ? H2 _]; subst.
    unfold current_observation in H1. cbn in H2. bool_to_prop. congruence.
  - by rewrite SortStrings_idemp.
  - apply consensus_standbys_NoDup.
  - intros m. apply consensus_standbys.
Qed.


Lemma sublist_List_filter {A} (f : A -> bool) l : List.filter f l `sublist_of` l.
Proof.
  induction l as [|x l IH]; simpl; [constructor|].
  destruct (f x); [by apply sublist_skip|by apply sublist_cons].
Qed.

Lemma data_sites_observed instance now :
  NoDup (site_Name <$> spec_Sites (msp_Spec instance)) ->
  NoDup (srs_Name <$> st_Sites (msp_Status instance)) ->
  (forall status, status ∈ observers instance now -> exists site,
     site ∈ spec_Sites (msp_Spec instance) /\ site_Role site = SiteRoleData /\ site_Name site = srs_Name status) ->
  Z.of_nat (length (observers instance now)) = data_site_count (spec_Sites (msp_Spec instance)) ->
  forall site, site ∈ spec_Sites (msp_Spec instance) -> site_Role site = SiteRoleData ->
  exists status, status ∈ observers instance now /\ srs_Name status = site_Name site.
Proof.
  intros Hspec Hst Hdata Hlen site Hsite Hrole.
  set (data := List.filter (fun s => site_Role s == SiteRoleData) (spec_Sites (msp_Spec instance))).
  assert (Hel : forall s, s ∈ data <-> s ∈ spec_Sites (msp_Spec instance) /\ site_Role s = SiteRoleData).
  { intros s. unfold data. rewrite !list_elem_of_In, filter_In, bool_decide_eq_true. done. }
  assert (Hobs : NoDup (srs_Name <$> observers instance now)).
  { eapply sublist_NoDup; [exact Hst|]. apply fmap_sublist. unfold observers, observed_sites.
    apply sublist_List_filter. }
  assert (Hperm : srs_Name <$> observers instance now ≡ₚ site_Name <$> data).
  { apply submseteq_length_Permutation.
    - apply NoDup_submseteq; [done|]. intros n (status & -> & Hs)%list_elem_of_fmap.
      destruct (Hdata _ Hs) as (s & H1 & H2 & <-). apply list_elem_of_fmap. exists s. split; [done|]. by apply Hel.
    - rewrite !length_fmap. unfold data_site_count in Hlen. fold data in Hlen. lia. }
  assert (site_Name site ∈ site_Name <$> data) as Hin
    by (apply list_elem_of_fmap; exists site; split; [done|by apply Hel]).
  rewrite <- Hperm in Hin. apply list_elem_of_fmap in Hin as (status & Hn & Hs). eauto.
Qed.

(** Every data site stands behind the published topology. In normal
    operation (no restore seeding, no upgraded primary starting), if only data
    sites report a primary and site names are unique, then TopologyReady means
    that each data site of the specification, without exception, reported the
    published primary no more than two minutes ago, and lists every published
    synchronous standby. *)
Theorem every_data_site_agrees instance now :
  let i' := aggregateTopology instance now in
  annotation instance restorePhaseAnnotation <> RestorePhaseSeed ->
  annotation instance upgradePhaseAnnotation <> MajorUpgradePhaseStartPrimary ->
  NoDup (site_Name <$> spec_Sites (msp_Spec instance)) ->
  NoDup (srs_Name <$> st_Sites (msp_Status instance)) ->
  Forall (fun status => NoDup (srs_SynchronousStandbys status)) (st_Sites (msp_Status instance)) ->
  (forall status, status ∈ observers instance now -> exists site,
     site ∈ spec_Sites (msp_Spec instance) /\ site_Role site = SiteRoleData /\ site_Name site = srs_Name status) ->
  instanceTrue i' "TopologyReady" = true ->
  forall site, site ∈ spec_Sites (msp_Spec instance) -> site_Role site = SiteRoleData ->
  exists status observedAt, status ∈ st_Sites (msp_Status instance) /\ srs_Name status = site_Name site /\
    srs_Primary status = st_Primary (msp_Status i') /\
    srs_TopologyObservedAt status = Some observedAt /\ (now - observedAt <= 2 * minute)%Z /\
    forall m, m ∈ st_SynchronousStandbys (msp_Status i') -> m ∈ srs_SynchronousStandbys status.
Proof.
  intros i' Hseed Hstart Hspec Hst Hnd Hdata Hready site Hsite Hrole.
  pose proof (aggregate_cases instance now) as Hcases. cbv zeta in Hcases. fold i' in Hcases.
  destruct Hcases as [(_ & _ & Ht)|(_ & Hc)]; [congruence|].
  destruct Hc as (_ & _ & Hlen & Hprim & _ & _ & Hstby).
  assert (Hreq : required_observers instance = data_site_count (spec_Sites (msp_Spec instance)))
    by (unfold required_observers; by rewrite !bool_decide_eq_false_2).
  rewrite Hreq in Hlen.
  destruct (data_sites_observed instance now Hspec Hst Hdata Hlen site Hsite Hrole) as (status & Hs & Hname).
  assert (Hsub : forall x, x ∈ observers instance now -> x ∈ st_Sites (msp_Status instance)).
  { intros x Hx. apply list_elem_of_In, filter_In in Hx as [Hx _]. by apply list_elem_of_In. }
  pose proof (observers_current instance now) as Hcur. rewrite list.Forall_forall in Hcur, Hprim.
  specialize (Hcur _ Hs). unfold current_observation in Hcur.
  destruct (srs_TopologyObservedAt status) as [t|] eqn:Hobs; bool_to_prop; [|done].
  exists status, t. split; [by apply Hsub|]. split; [done|]. split; [by apply Hprim|]. split; [done|].
  split; [apply time_Sub_le; [vm_compute; split; done|]; lia|].
  intros m [Hm Hocc]%Hstby. rewrite Hreq, <- Hlen in Hocc.
  assert (Forall (fun x => m ∈ srs_SynchronousStandbys x) (observers instance now)) as Hall.
  { apply (occurrences_everywhere srs_SynchronousStandbys); [|lia].
    rewrite list.Forall_forall in Hnd |- *. intros x Hx. by apply Hnd, Hsub. }
  rewrite list.Forall_forall in Hall. by apply Hall.
Qed.

(** The synchronous replication condition is exact: after aggregation it
    is true exactly when the number of published synchronous standbys is at
    least the configured one. *)
Theorem synchronous_replication_exact instance now :
  let i' := aggregateTopology instance now in
  instanceTrue i' "SynchronousReplicationReady" = true <->
  (pg_SynchronousStandbyCount (spec_Postgres (msp_Spec i')) <=
     Z.of_nat (length (st_SynchronousStandbys (msp_Status i'))))%Z.
Proof.
  intros i'. assert (Hi : exists j, i' = setSynchronousReplicationCondition j).
  { unfold i', aggregateTopology, withhold_topology. repeat case_match; eauto. }
  destruct Hi as [j ->]. destruct (sync_status_fields j) as [_ ->].
  assert (spec_Postgres (msp_Spec (setSynchronousReplicationCondition j)) = spec_Postgres (msp_Spec j)) as ->
    by (by destruct (sync_condition_status j) as [c ->]).
  unfold setSynchronousReplicationCondition. case_match eqn:E; rewrite instanceTrue_set;
    rewrite bool_decide_eq_true_2 by done; bool_to_prop.
  - split; [done|lia].
  - by split.
Qed.

Lemma instanceTrue_phase instance phase t : instanceTrue (set_phase instance phase) t = instanceTrue instance t.
Proof. done. Qed.

Lemma not_ready_spec instance phase reason message :
  instanceTrue (not_ready instance phase reason message) "Ready" = false /\
  st_Phase (msp_Status (not_ready instance phase reason message)) = phase.
Proof. split; [|done]. unfold not_ready. rewrite instanceTrue_set. done. Qed.

(** Readiness is exact. Once every site applied the active revision, the
    instance becomes Ready (phase and condition together) exactly when no restore
    is before its verification, no major upgrade is in a phase that interrupts
    writes, the etcd trust and, with backups configured, the backup trust are
    established, the topology is ready, and the configured synchronous standbys
    are there; in every other case it is reported not ready. *)
Theorem applied_instance_ready_exact instance restorePlan majorUpgradePlan :
  let i' := setAppliedInstanceReady instance restorePlan majorUpgradePlan in
  let ready :=
    (forall p, restorePlan = Some p -> rp_Phase p = RestorePhaseVerify) /\
    (forall p, majorUpgradePlan = Some p -> disruptive_phase (mup_Phase p) = false) /\
    (spec_Backup (msp_Spec instance) <> None -> instanceTrue instance "BackupTLSReady" = true) /\
    instanceTrue instance "EtcdTLSReady" = true /\ instanceTrue instance "TopologyReady" = true /\
    ((0 < pg_SynchronousStandbyCount (spec_Postgres (msp_Spec instance)))%Z ->
       instanceTrue instance "SynchronousReplicationReady" = true) in
  (instanceTrue i' "Ready" = true <-> ready) /\ (st_Phase (msp_Status i') = "Ready" <-> ready).
Proof.
  intros i' ready. unfold i', setAppliedInstanceReady.
  assert (Hno : forall phase reason message, phase <> "Ready" -> ~ ready ->
    (instanceTrue (not_ready instance phase reason message) "Ready" = true <-> ready) /\
    (st_Phase (msp_Status (not_ready instance phase reason message)) = "Ready" <-> ready)).
  { intros phase reason message Hph Hn. destruct (not_ready_spec instance phase reason message) as [-> ->].
    split; split; try done; intros; by destruct Hn. }
  repeat match goal with
  | |- context [if ?b then not_ready _ _ _ _ else _] =>
      let E := fresh "E" in destruct b eqn:E; [apply Hno; [done|]|]
  end.
  - intros (Hr & _). destruct restorePlan as [p|]; [|done]. rewrite (Hr p eq_refl) in E.
    by rewrite bool_decide_eq_true_2 in E.
  - intros (_ & Hm & _). destruct majorUpgradePlan as [p|]; [|done]. by rewrite (Hm p eq_refl) in E0.
  - intros (_ & _ & Hb & _). bool_to_prop. destruct (spec_Backup _); [|done].
    rewrite Hb in *; done.
  - intros (_ & _ & _ & He & _). by rewrite He in E2.
  - intros (_ & _ & _ & _ & Ht & _). by rewrite Ht in E3.
  - intros (_ & _ & _ & _ & _ & Hs). bool_to_prop. rewrite Hs in *; done.
  - assert ready as Hr.
    { unfold ready. split; [|split; [|split; [|split; [|split]]]].
      - intros p ->. by bool_to_prop.
      - by intros p ->.
      - destruct (spec_Backup _); [|done]. intros _. by apply negb_false_iff in E1.
      - by apply negb_false_iff in E2.
      - by apply negb_false_iff in E3.
      - intros Hpos. rewrite (proj2 (Z.ltb_lt _ _) Hpos) in E4. by apply negb_false_iff in E4. }
    rewrite instanceTrue_set. split; by split.
Qed.
End topology.

(** ** Witnesses *)
Module RefTopology.
Definition status (name primary : string) (standbys : list string) (observed : option Time) : SiteRevisionStatus :=
  zero_SiteRevisionStatus <| srs_Name := name |> <| srs_Primary := primary |>
    <| srs_SynchronousStandbys := standbys |> <| srs_TopologyObservedAt := observed |>.
Definition statusA := status "a" "postgres-a-0" ["postgres-b-0"; "postgres-a-1"] (Some (100 * second)%Z).
Definition statusB := status "b" "postgres-a-0" ["postgres-b-0"] (Some (110 * second)%Z).
Definition statusW := status "w" "" [] None.
Definition instance : MultiSitePostgres :=
  zero_MultiSitePostgres
    <| msp_Spec := zero_MultiSitePostgresSpec
         <| spec_Sites := [RefMembers.site "a" SiteRoleData 1 2 1; RefMembers.site "b" SiteRoleData 1 1 1;
                           RefMembers.site "w" SiteRoleWitness 1 0 0] |>
         <| spec_Postgres := mkPostgresSpec 16 "pg:16" 1 ∅ |> |>
    <| msp_Status := zero_MultiSitePostgresStatus <| st_Sites := [statusA; statusB; statusW] |> |>.
Definition now : Time := (120 * second)%Z.

Lemma observers_ab : observers instance now = [statusA; statusB].
Proof. vm_compute. reflexivity. Qed.
End RefTopology.


Lemma every_data_site_agrees_witness : exists status observedAt,
  srs_Name status = "b" /\ srs_Primary status = "postgres-a-0" /\
  srs_TopologyObservedAt status = Some observedAt /\ (RefTopology.now - observedAt <= 2 * minute)%Z.
Proof.
  destruct (every_data_site_agrees RefTopology.instance RefTopology.now) with
    (site := RefMembers.site "b" SiteRoleData 1 1 1) as (s & t & _ & Hn & Hpr & Ht & Hage & _).
  - vm_compute. discriminate.
  - vm_compute. discriminate.
  - apply (bool_decide_unpack _). vm_compute. exact I.
  - apply (bool_decide_unpack _). vm_compute. exact I.
  - apply (bool_decide_unpack _). vm_compute. exact I.
  - rewrite RefTopology.observers_ab. intros s.
    rewrite elem_of_cons, list_elem_of_singleton. intros [->| ->].
    + exists (RefMembers.site "a" SiteRoleData 1 2 1). split; [|split; reflexivity]. cbn. rewrite !elem_of_cons. auto.
    + exists (RefMembers.site "b" SiteRoleData 1 1 1). split; [|split; reflexivity]. cbn. rewrite !elem_of_cons. auto.
  - vm_compute. reflexivity.
  - cbn. rewrite !elem_of_cons. auto.
  - reflexivity.
  - exists s, t. split; [exact Hn|]. split; [|split; [exact Ht|exact Hage]].
    rewrite Hpr. vm_compute. reflexivity.
Defined.

Lemma synchronous_replication_exact_witness :
  let i' := aggregateTopology RefTopology.instance RefTopology.now in
  instanceTrue i' "SynchronousReplicationReady" = true <->
  (pg_SynchronousStandbyCount (spec_Postgres (msp_Spec i')) <=
     Z.of_nat (length (st_SynchronousStandbys (msp_Status i'))))%Z.
Proof. apply (synchronous_replication_exact RefTopology.instance RefTopology.now). Defined.

Lemma applied_instance_ready_exact_witness :
  let i := set_instance_condition (aggregateTopology RefTopology.instance RefTopology.now)
    "EtcdTLSReady" ConditionTrue "Ok" "" in
  instanceTrue (setAppliedInstanceReady i None None) "Ready" = true.
Proof.
  intros i. apply (applied_instance_ready_exact i None None).
  repeat split; try (vm_compute; reflexivity || discriminate); try discriminate; vm_compute; congruence.
Defined.
