(* ===== verification/Status.v ===== *)
(** * Writing the status of an instance

    [updateInstanceStatus] and the merge functions of
    [multisitepostgres_controller.go].  The hub's reconciler and the streams of
    the site agents write the same status object; the merge decides which fields
    the reconciler owns. *)

From S2P Require Import Prelude Prog Api Kube ApiServer Members.

Section status_merge.
Context {K : KubeLib}.

Definition conditionTransitions (current desired : list Condition) : list Condition :=
  List.filter (fun condition =>
    match FindStatusCondition current (cond_Type condition) with
    | None => true
    | Some previous =>
        (cond_Status previous != cond_Status condition) || (cond_Reason previous != cond_Reason condition)
    end) desired.

Definition merge_site (current : list SiteRevisionStatus) (wanted : SiteRevisionStatus) : SiteRevisionStatus :=
  let observed := previousSiteStatus current (srs_Name wanted) in
  let observed := if srs_Name observed == "" then wanted else observed in
  let observed := observed <| srs_Name := srs_Name wanted |>
    <| srs_SiteRegistrationRef := srs_SiteRegistrationRef wanted |>
    <| srs_DesiredRevision := srs_DesiredRevision wanted |> in
  if (srs_Phase wanted == "DeletionPlanIssued") && (srs_Phase observed != "Deleted")
  then observed <| srs_Phase := srs_Phase wanted |> else observed.

Definition mergeReconciledSites (current desired : list SiteRevisionStatus) : list SiteRevisionStatus :=
  merge_site current <$> desired.

Definition mergeReconciledStatus (current desired : MultiSitePostgresStatus) : MultiSitePostgresStatus :=
  current
    <| st_ObservedGeneration := st_ObservedGeneration desired |>
    <| st_ActiveRevision := if (st_ActiveRevision current <? st_ActiveRevision desired)%Z
                            then st_ActiveRevision desired else st_ActiveRevision current |>
    <| st_PlanFingerprint := st_PlanFingerprint desired |>
    <| st_Phase := st_Phase desired |>
    <| st_Primary := st_Primary desired |>
    <| st_SynchronousStandbys := st_SynchronousStandbys desired |>
    <| st_Operation := match st_Operation desired with Some op => Some op | None => st_Operation current end |>
    <| st_BackupSchedules := st_BackupSchedules desired |>
    <| st_Conditions := foldl SetStatusCondition (st_Conditions current) (st_Conditions desired) |>
    <| st_Sites := mergeReconciledSites (st_Sites current) (st_Sites desired) |>.

(** One attempt: read, merge, write; the transitions are those of the attempt. *)
Definition update_status_attempt (instance : MultiSitePostgres) : kprog (result (list Condition)) :=
  let desired := msp_Status instance in
  let! current := call (Get KInstance (meta_Namespace (msp_Meta instance)) (meta_Name (msp_Meta instance)))
    onerr e => Ret (Err e) in
  let transitions := conditionTransitions (st_Conditions (msp_Status current)) (st_Conditions desired) in
  let current := current <| msp_Status := mergeReconciledStatus (msp_Status current) desired |> in
  let! _ := call (UpdateStatus KInstance current) onerr e => Ret (Err e) in
  Ret (Ok transitions).

Fixpoint record_transitions (instance : MultiSitePostgres) (transitions : list Condition) : kprog unit :=
  match transitions with
  | [] => Ret tt
  | condition :: transitions =>
      let eventType := if cond_Status condition == ConditionFalse then "Warning" else "Normal" in
      let* _ := call (Eventf KInstance instance eventType (cond_Reason condition) "ConditionChanged"
        (cond_Type condition +:+ ": " +:+ cond_Message condition)) in
      record_transitions instance transitions
  end.

(** [recorder] is whether the reconciler has an event recorder. *)
Definition updateInstanceStatus (recorder : bool) (instance : MultiSitePostgres) : kprog (option Error) :=
  let* x := RetryOnConflict (update_status_attempt instance) in
  match x with
  | Err e => Ret (Some e)
  | Ok transitions =>
      if recorder then let* _ := record_transitions instance transitions in Ret None else Ret None
  end.

(** ** What the merge keeps *)

(** The fields of a site's status only its agent's stream writes. *)
Definition same_agent_report (a b : SiteRevisionStatus) : Prop :=
  srs_AcknowledgedRevision a = srs_AcknowledgedRevision b /\ srs_AppliedRevision a = srs_AppliedRevision b /\
  srs_Addresses a = srs_Addresses b /\ srs_Primary a = srs_Primary b /\
  srs_SynchronousStandbys a = srs_SynchronousStandbys b /\
  srs_TopologyObservedAt a = srs_TopologyObservedAt b /\ srs_LastHeartbeatTime a = srs_LastHeartbeatTime b /\
  srs_Conditions a = srs_Conditions b.

(** What a write of the reconciler does to the stored status. *)
Definition merged_onto (old new : MultiSitePostgresStatus) : Prop :=
  (st_ActiveRevision old <= st_ActiveRevision new)%Z /\
  st_LastBackupTime new = st_LastBackupTime old /\ st_RecoveryWindowStart new = st_RecoveryWindowStart old /\
  st_RestoreDrillLastVerifiedAt new = st_RestoreDrillLastVerifiedAt old /\
  st_RestoreDrillBackupSet new = st_RestoreDrillBackupSet old /\
  forall site, site ∈ st_Sites new -> srs_Name site <> "" ->
    forall before, before = previousSiteStatus (st_Sites old) (srs_Name site) -> srs_Name before <> "" ->
    same_agent_report site before /\
    (srs_Phase before = "Deleted" -> srs_Phase site = "Deleted") /\
    (srs_Phase site = srs_Phase before \/ srs_Phase site = "DeletionPlanIssued").

Lemma previousSiteStatus_name statuses name :
  srs_Name (previousSiteStatus statuses name) = name \/ previousSiteStatus statuses name = zero_SiteRevisionStatus.
Proof.
  unfold previousSiteStatus. destruct (List.find _ statuses) eqn:E; [|by right]. left.
  apply List.find_some in E as [_ E]. by bool_to_prop.
Qed.

Lemma merge_site_keeps current wanted :
  srs_Name wanted <> "" -> srs_Name (previousSiteStatus current (srs_Name wanted)) <> "" ->
  let site := merge_site current wanted in
  let before := previousSiteStatus current (srs_Name wanted) in
  same_agent_report site before /\ (srs_Phase before = "Deleted" -> srs_Phase site = "Deleted") /\
  (srs_Phase site = srs_Phase before \/ srs_Phase site = "DeletionPlanIssued").
Proof.
  intros Hw Hb site before. unfold site, merge_site. fold before.
  rewrite (bool_decide_eq_false_2 (srs_Name before = "")) by done.
  destruct (_ && _) eqn:E; cbn in E |- *; bool_to_prop; repeat split; auto; intros; by bool_to_prop.
Qed.

Lemma merge_site_name current wanted : srs_Name (merge_site current wanted) = srs_Name wanted.
Proof. unfold merge_site. by destruct (_ && _). Qed.

Lemma merge_merged_onto current desired :
  merged_onto current (mergeReconciledStatus current desired).
Proof.
  unfold merged_onto. cbn. split; [destruct (_ <? _)%Z eqn:E; bool_to_prop; lia|].
  do 4 (split; [done|]). intros site Hin Hn before -> Hb.
  unfold mergeReconciledSites in Hin. apply list_elem_of_fmap in Hin as (wanted & -> & _).
  rewrite merge_site_name in *. by apply merge_site_keeps.
Qed.

(** ** Writes are merges onto the stored status *)
Definition status_write (h : khistory) (r : Req) : Prop :=
  match r with
  | UpdateStatus KInstance o =>
      exists base : MultiSitePostgres, prepared_from (k:=KInstance) o base h /\
        msp_Meta o = msp_Meta base /\ msp_Spec o = msp_Spec base /\
        merged_onto (msp_Status base) (msp_Status o)
  | Get KInstance _ _ | Eventf KInstance _ _ _ _ _ => True
  | _ => False
  end.

Lemma update_status_attempt_writes instance h :
  sat status_write (fun _ _ => True) h (update_status_attempt instance).
Proof.
  unfold update_status_attempt. cbn -[mergeReconciledStatus conditionTransitions]. split; [done|].
  intros [cur|e]; [|done]. cbn -[mergeReconciledStatus conditionTransitions].
  split; [|by intros []]. exists cur. split; [|split; [done|split; [done|]]].
  - split; [|done]. eexists _, _. rewrite elem_of_cons. by left.
  - apply merge_merged_onto.
Qed.

Lemma record_transitions_writes instance transitions h :
  sat status_write (fun _ _ => True) h (record_transitions instance transitions).
Proof. revert h. induction transitions as [|c l IH]; intros h; cbn; [done|]. split; [done|]. intros x. apply IH. Qed.

Context {KL : KubeLaws K}.

Lemma updateInstanceStatus_writes recorder instance h :
  sat status_write (fun _ _ => True) h (updateInstanceStatus recorder instance).
Proof.
  unfold updateInstanceStatus. apply sat_bind.
  apply (retry_sat _ (fun _ => True)); [|done]. intros h1 _.
  eapply sat_mono; [| |apply update_status_attempt_writes]; [done|]. intros h2 x _. split; [done|].
  destruct x as [transitions|e]; [|done]. destruct recorder; [|done]. apply sat_bind.
  eapply sat_mono; [| |apply record_transitions_writes]; done.
Qed.

Context {A : ApiServer} {AL : ApiServerLaws A}.

End status_merge.

(** ** Witness *)
Module RefStatus.
(** The agent of site [a] has reported revision 4 while the reconciler, which
    still holds an older copy, writes the status for revision 5. *)
Definition meta : ObjectMeta := zero_ObjectMeta <| meta_Namespace := "ns" |> <| meta_Name := "pg" |>.
Definition site4 : SiteRevisionStatus :=
  zero_SiteRevisionStatus <| srs_Name := "a" |> <| srs_AppliedRevision := 4%Z |>.
Definition current : MultiSitePostgres :=
  mkMultiSitePostgres meta zero_MultiSitePostgresSpec
    (zero_MultiSitePostgresStatus <| st_ActiveRevision := 4%Z |> <| st_Sites := [site4] |>).
Definition reconciled : MultiSitePostgres :=
  mkMultiSitePostgres meta zero_MultiSitePostgresSpec
    (zero_MultiSitePostgresStatus <| st_ActiveRevision := 5%Z |>
       <| st_Sites := [zero_SiteRevisionStatus <| srs_Name := "a" |> <| srs_AppliedRevision := 3%Z |>
                         <| srs_DesiredRevision := 5%Z |>] |>).
Definition cluster : MemServer.server := MemServer.add (k:=KInstance) current MemServer.empty.
End RefStatus.

