(* ===== verification/AddressPlan.v ===== *)
(** * Active plan and member addresses

    [activeSitePlan] and [addressPlan] of [multisitepostgres_controller.go]: the
    hub reads back the plan it issued last and moves the addresses of the
    members, at most one of them per revision. *)

From S2P Require Import Prelude Prog Api Kube Codec Plan Members.

(** [fmt.Sprintf("mspsql-plan-%s-%s", instance.Name, site)] *)
Definition plan_name (instance site : string) : string := "mspsql-plan-" +:+ instance +:+ "-" +:+ site.

Section address_plan.
Context {C : Crypto} {J : Json SitePlan} {JE : Json Envelope}.

Definition activeSitePlan (instance : MultiSitePostgres) : kprog (result SitePlan) :=
  match spec_Sites (msp_Spec instance) with
  | [] => Ret (Ok zero_SitePlan)
  | site :: _ =>
      let* x := call (Get KConfigMap (meta_Namespace (msp_Meta instance))
        (plan_name (meta_Name (msp_Meta instance)) (site_Name site))) in
      match x with
      | Err e => if IsNotFound e then Ret (Ok zero_SitePlan) else Ret (Err e)
      | Ok configMap =>
          match json_Unmarshal (T:=Envelope) (cm_Data configMap !!! "envelope.json") with
          | Err e => Ret (Err (wrap_error "decode active site plan envelope" e))
          | Ok envelope =>
              match json_Unmarshal (T:=SitePlan) (env_Plan envelope) with
              | Err e => Ret (Err (wrap_error "decode active site plan" e))
              | Ok desired => Ret (Ok desired)
              end
          end
      end
  end.

(** The member addresses, the candidates and the migration of one revision. *)
Definition AddressDecision : Type := gmap string string * gmap string string * option AddressMigrationPlan.

Definition observed_addresses (instance : MultiSitePostgres) : gmap string string :=
  foldl (fun observed site => maps_Copy observed (srs_Addresses site)) ∅ (st_Sites (msp_Status instance)).

Definition changed_members (expected : list string) (observed addresses : gmap string string) : list string :=
  List.filter (fun member =>
    (observed !!! member != "") && (observed !!! member != addresses !!! member)) expected.

Definition migration_uid (instance : MultiSitePostgres) (member oldAddress newAddress : string) : string :=
  hex_EncodeToString (String.substring 0 16 (sha256 (meta_UID (msp_Meta instance) +:+ String "000" member
    +:+ String "000" oldAddress +:+ String "000" newAddress))).

(** [addressPlan] once the previous plan has been read. *)
Definition decide_addresses (instance : MultiSitePostgres) (previous : SitePlan) : AddressDecision :=
  let observed := observed_addresses instance in
  let status := msp_Status instance in
  if negb (is_nil (sp_AddressMigration previous)) &&
     negb (allSitesApplied (st_Sites status) (st_ActiveRevision status)) then
    (sp_MemberAddresses previous, observed, sp_AddressMigration previous)
  else
    let expected := expectedAddressMembers (spec_Sites (msp_Spec instance)) in
    if negb (addressesComplete (sp_MemberAddresses previous) expected) then (observed, observed, None)
    else
      let addresses := sp_MemberAddresses previous in
      match SortStrings (changed_members expected observed addresses) with
      | [] => (addresses, observed, None)
      | member :: _ =>
          let oldAddress := addresses !!! member in
          let newAddress := observed !!! member in
          (<[member := newAddress]> addresses, observed,
           Some (mkAddressMigrationPlan (migration_uid instance member oldAddress newAddress)
                   member oldAddress newAddress))
      end.

Definition addressPlan (instance : MultiSitePostgres) : kprog (result AddressDecision) :=
  let! previous := activeSitePlan instance onerr e => Ret (Err e) in
  Ret (Ok (decide_addresses instance previous)).

(** ** Properties *)

Lemma addressesComplete_spec addresses expected :
  addressesComplete addresses expected = true <->
  expected <> [] /\ forall m, m ∈ expected -> addresses !!! m <> "".
Proof.
  unfold addressesComplete. destruct expected as [|x l]; [split; [done|by intros [? _]]|].
  rewrite forallb_forall. setoid_rewrite negb_true_iff. setoid_rewrite bool_decide_eq_false.
  setoid_rewrite list_elem_of_In. naive_solver.
Qed.

Lemma elem_of_changed m expected observed addresses :
  m ∈ changed_members expected observed addresses <->
  m ∈ expected /\ observed !!! m <> "" /\ observed !!! m <> addresses !!! m.
Proof.
  unfold changed_members. rewrite !list_elem_of_In, filter_In, andb_true_iff, !negb_true_iff,
    !bool_decide_eq_false. tauto.
Qed.

(** One member moves at a time. Once the hub has issued a complete set of
    addresses, the set of the next plan differs from it in at most one member: a
    migration names that member with its previous and its new address, the new
    one being the address the site reports; all other members keep their
    addresses, so the set stays complete. While a migration is not applied by
    every site the previous decision is repeated unchanged. *)
Theorem one_address_moves_at_a_time instance previous addresses candidates migration :
  addressesComplete (sp_MemberAddresses previous)
    (expectedAddressMembers (spec_Sites (msp_Spec instance))) = true ->
  decide_addresses instance previous = (addresses, candidates, migration) ->
  candidates = observed_addresses instance /\
  addressesComplete addresses (expectedAddressMembers (spec_Sites (msp_Spec instance))) = true /\
  (sp_AddressMigration previous <> None ->
   allSitesApplied (st_Sites (msp_Status instance)) (st_ActiveRevision (msp_Status instance)) = false ->
   addresses = sp_MemberAddresses previous /\ migration = sp_AddressMigration previous) /\
  (sp_AddressMigration previous = None \/
   allSitesApplied (st_Sites (msp_Status instance)) (st_ActiveRevision (msp_Status instance)) = true ->
   match migration with
   | None => addresses = sp_MemberAddresses previous
   | Some m =>
       amp_Member m ∈ expectedAddressMembers (spec_Sites (msp_Spec instance)) /\
       amp_OldAddress m = sp_MemberAddresses previous !!! amp_Member m /\
       amp_NewAddress m = candidates !!! amp_Member m /\ amp_NewAddress m <> amp_OldAddress m /\
       addresses = <[amp_Member m := amp_NewAddress m]> (sp_MemberAddresses previous)
   end).
Proof.
  intros Hcomplete. unfold decide_addresses.
  destruct (negb _ && negb _) eqn:Hpending; cbn [negb].
  - intros [= <- <- <-]. bool_to_prop.
    split; [done|]. split; [done|]. split; [done|].
    intros [Hn|Ha]; [by rewrite Hn in *|congruence].
  - rewrite Hcomplete. cbn [negb]. intros Hdec.
    assert (Hrepeat : sp_AddressMigration previous <> None ->
      allSitesApplied (st_Sites (msp_Status instance)) (st_ActiveRevision (msp_Status instance)) = false -> False).
    { intros Hm Ha. rewrite Ha in Hpending. by destruct (sp_AddressMigration previous). }
    destruct (SortStrings _) as [|member rest] eqn:Hsort; injection Hdec as <- <- <-.
    + repeat split; try done; intros; exfalso; eauto.
    + apply SortStrings_head in Hsort as [Hmem _].
      apply elem_of_changed in Hmem as (Hexp & Hne & Hdiff).
      split; [done|]. split; [|split; [intros; exfalso; eauto|intros _; cbn; done]].
      apply addressesComplete_spec in Hcomplete as [Hnn Hall]. apply addressesComplete_spec.
      split; [done|]. intros m Hm. destruct (decide (m = member)) as [->|Hm'].
      * by rewrite lookup_total_insert_eq.
      * rewrite lookup_total_insert_ne by done. by apply Hall.
Qed.

(** Two different plans can get the same name. The name under which the hub
    stores the plan of a site joins the instance and the site with a hyphen, so
    instances [pg] with site [eu-1] and [pg-eu] with site [1] of one namespace
    share one ConfigMap. *)
Theorem plan_names_collide :
  exists instance site instance' site',
    (instance, site) <> (instance', site') /\ plan_name instance site = plan_name instance' site'.
Proof. exists "pg", "eu-1", "pg-eu", "1". split; [congruence|reflexivity]. Qed.
End address_plan.

(** ** Witness *)
Module RefAddress.
Definition members : list string := ["etcd-a-0"; "pgpool-a"; "postgres-a-0"].
Definition instance : MultiSitePostgres :=
  zero_MultiSitePostgres
    <| msp_Spec := zero_MultiSitePostgresSpec <| spec_Sites := [RefMembers.site "a" SiteRoleData 1 1 1] |> |>
    <| msp_Status := zero_MultiSitePostgresStatus <| st_Sites :=
         [zero_SiteRevisionStatus <| srs_Name := "a" |>
            <| srs_Addresses := list_to_map [("etcd-a-0", "10.0.0.1"); ("pgpool-a", "10.0.0.9"); ("postgres-a-0", "10.0.0.8")] |>] |> |>.
Definition previous : SitePlan :=
  zero_SitePlan <| sp_MemberAddresses :=
    list_to_map [("etcd-a-0", "10.0.0.1"); ("pgpool-a", "10.0.0.2"); ("postgres-a-0", "10.0.0.3")] |>.
End RefAddress.

(** Two members report new addresses; only the first of them moves. *)
Lemma one_address_moves_at_a_time_witness : exists m,
  (decide_addresses RefAddress.instance RefAddress.previous).2 = Some m /\ amp_Member m = "pgpool-a" /\
  amp_OldAddress m = sp_MemberAddresses RefAddress.previous !!! amp_Member m /\
  (decide_addresses RefAddress.instance RefAddress.previous).1.1 =
    <[amp_Member m := amp_NewAddress m]> (sp_MemberAddresses RefAddress.previous).
Proof.
  assert (Hm : amp_Member <$> (decide_addresses RefAddress.instance RefAddress.previous).2 = Some "pgpool-a")
    by (vm_compute; reflexivity).
  destruct (decide_addresses RefAddress.instance RefAddress.previous) as [[a c] m] eqn:E.
  destruct (one_address_moves_at_a_time RefAddress.instance RefAddress.previous a c m)
    as (_ & _ & _ & H); [vm_compute; reflexivity|exact E|].
  destruct m as [m|]; [|discriminate Hm]. injection Hm as Hm.
  destruct H as (_ & Hold & _ & _ & Ha); [left; reflexivity|].
  exists m. repeat split; assumption.
Defined.
