(* ===== verification/Rotation.v ===== *)
(** * Rotation of the database credentials

    [credentialRotationPlan] and its helpers of
    [multisitepostgres_controller.go]: new credentials are written to the
    catalog, then taken up by one member after the other with the primary last,
    then the previous ones are revoked, then the rotation ends. *)

From S2P Require Import Prelude Prog Api Kube Codec Plan Members AddressPlan.

(** [condition != nil && condition.Status == metav1.ConditionTrue] *)
Definition condition_is_true (condition : option Condition) : bool :=
  match condition with Some c => cond_Status c == ConditionTrue | None => false end.
Definition condition_message (condition : option Condition) : string :=
  match condition with Some c => cond_Message c | None => "" end.

(** The site [primary] belongs to answers [conditionType] with this version. *)
Definition primary_site_confirms (conditionType : string) (instance : MultiSitePostgres) (version : Z) : bool :=
  match List.find (fun site => HasPrefix (st_Primary (msp_Status instance)) ("postgres-" +:+ srs_Name site +:+ "-"))
          (st_Sites (msp_Status instance)) with
  | None => false
  | Some site =>
      let condition := statusCondition (srs_Conditions site) conditionType in
      condition_is_true condition && (condition_message condition == FormatInt version)
  end.

Definition previousCredentialsRevoked := primary_site_confirms "PreviousCredentialsRevoked".
Definition credentialCatalogUpdated := primary_site_confirms "CredentialCatalogUpdated".

(** The version all sites but the witnesses agree on, from one condition;
    [None] when one of them does not report a positive version, or they differ.
    The count is of the sites that had to agree. *)
Fixpoint agreed_version (conditionType : string) (instance : MultiSitePostgres)
  (sites : list SiteRevisionStatus) (version : Z) (applicable : nat) : option (Z * nat) :=
  match sites with
  | [] => Some (version, applicable)
  | site :: sites =>
      if siteRoleForName instance (srs_Name site) == SiteRoleWitness then
        agreed_version conditionType instance sites version applicable
      else
        let condition := statusCondition (srs_Conditions site) conditionType in
        if negb (condition_is_true condition) then None
        else match ParseInt 64 (condition_message condition) with
             | None => None
             | Some siteVersion =>
                 if (siteVersion <? 1)%Z || ((version != 0%Z) && (siteVersion != version)) then None
                 else agreed_version conditionType instance sites siteVersion (S applicable)
             end
  end.

Definition activeCredentialVersion (instance : MultiSitePostgres) : Z :=
  match agreed_version "PostgresCredentialsActive" instance (st_Sites (msp_Status instance)) 0 0 with
  | Some (version, _) => version
  | None => 0%Z
  end.

Definition commonStagedCredentialVersion (instance : MultiSitePostgres) : Z * bool :=
  match agreed_version "CredentialRotationPending" instance (st_Sites (msp_Status instance)) 0 0 with
  | Some (version, applicable) => (version, (0 <? applicable)%nat)
  | None => (0%Z, false)
  end.

Definition credentialUpdatedMembers (instance : MultiSitePostgres) (version : Z) : list string :=
  let prefix := FormatInt version +:+ ":" in
  let set := foldl (fun (set : gset string) site =>
    let condition := statusCondition (srs_Conditions site) "CredentialMembersUpdated" in
    if negb (condition_is_true condition) || negb (HasPrefix (condition_message condition) prefix) then set
    else set ∪ list_to_set (splitMembers (TrimPrefix (condition_message condition) prefix)))
    ∅ (st_Sites (msp_Status instance)) in
  SortStrings (elements set).

(** The body of the loop over the expected members. *)
Definition add_member (primary : string) (order : list string) (member : string) : list string :=
  if HasPrefix member "postgres-" && (member != primary) && negb (slices_Contains order member)
  then order ++ [member] else order.

Definition credentialMemberOrder (instance : MultiSitePostgres) : list string :=
  let primary := st_Primary (msp_Status instance) in
  let order := SortStrings (st_SynchronousStandbys (msp_Status instance)) in
  let order := foldl (add_member primary) order (expectedAddressMembers (spec_Sites (msp_Spec instance))) in
  if primary != "" then order ++ [primary] else order.

Section rotation.
Context {J : Json SitePlan} {JE : Json Envelope}.

(** [credentialRotationPlan] once the active plan has been read. *)
Definition decide_rotation (instance : MultiSitePostgres) (active : SitePlan)
  (addressMigration : option AddressMigrationPlan) (restorePlan : option RestorePlan)
  (upgradePlan : option UpgradePlan) (majorUpgradePlan : option MajorUpgradePlan) :
  option CredentialRotationPlan :=
  let status := msp_Status instance in
  if negb (is_nil (sp_CredentialRotation active)) &&
     negb (allSitesApplied (st_Sites status) (st_ActiveRevision status)) then sp_CredentialRotation active
  else if negb (is_nil addressMigration) || negb (is_nil restorePlan) || negb (is_nil upgradePlan)
    || negb (is_nil majorUpgradePlan) then None
  else
    let '(version, staged) := commonStagedCredentialVersion instance in
    if negb staged then None
    else
      let previousVersion :=
        match sp_CredentialRotation active with
        | Some rotation => crp_PreviousVersion rotation
        | None => activeCredentialVersion instance
        end in
      if (previousVersion <? 1)%Z || (previousVersion == version) then None
      else if negb (credentialCatalogUpdated instance version) then
        Some (mkCredentialRotationPlan version previousVersion CredentialRotationPhaseCatalog "" [])
      else
        let updated := credentialUpdatedMembers instance version in
        match List.find (fun member => negb (slices_Contains updated member)) (credentialMemberOrder instance) with
        | Some member =>
            Some (mkCredentialRotationPlan version previousVersion CredentialRotationPhaseMember member updated)
        | None =>
            if negb (previousCredentialsRevoked instance version) then
              Some (mkCredentialRotationPlan version previousVersion CredentialRotationPhaseRevoke "" updated)
            else Some (mkCredentialRotationPlan version previousVersion CredentialRotationPhaseFinalize "" updated)
        end.

Definition credentialRotationPlan (instance : MultiSitePostgres)
  (addressMigration : option AddressMigrationPlan) (restorePlan : option RestorePlan)
  (upgradePlan : option UpgradePlan) (majorUpgradePlan : option MajorUpgradePlan) :
  kprog (result (option CredentialRotationPlan)) :=
  let! active := activeSitePlan instance onerr e => Ret (Err e) in
  Ret (Ok (decide_rotation instance active addressMigration restorePlan upgradePlan majorUpgradePlan)).
End rotation.

(** ** Properties *)
Lemma elem_of_add_members primary l order x :
  x ∈ foldl (add_member primary) order l <->
  x ∈ order \/ (x ∈ l /\ HasPrefix x "postgres-" = true /\ x <> primary).
Proof.
  revert order. induction l as [|m l IH]; intros order; cbn [foldl]; [rewrite elem_of_nil; tauto|].
  rewrite IH, elem_of_cons. unfold add_member, slices_Contains.
  destruct (HasPrefix m "postgres-") eqn:Hp; cbn; [|naive_solver congruence].
  case_bool_decide as Hm; cbn; [naive_solver|]. case_bool_decide as Ho; cbn.
  - naive_solver.
  - rewrite elem_of_app, list_elem_of_singleton. naive_solver.
Qed.

Lemma NoDup_add_members primary l order : NoDup order -> NoDup (foldl (add_member primary) order l).
Proof.
  revert order. induction l as [|m l IH]; intros order Ho; cbn [foldl]; [done|]. apply IH.
  unfold add_member, slices_Contains. destruct (_ && _) eqn:E; [|done]. bool_to_prop.
  apply list.NoDup_app. split; [done|]. split; [|apply NoDup_singleton].
  intros x Hx Hm%list_elem_of_singleton. by subst.
Qed.

Lemma postgres_member_prefix site i : HasPrefix (member_name "postgres" site i) "postgres-" = true.
Proof. apply (HasPrefix_app "postgres-"). Qed.

Lemma postgres_member_expected m sites : m ∈ postgresMembers sites ->
  m ∈ expectedAddressMembers sites /\ HasPrefix m "postgres-" = true.
Proof.
  intros (site & i & Hs & Hi & ->)%elem_of_postgresMembers.
  split; [|apply postgres_member_prefix]. apply elem_of_expected. exists site. split; [done|].
  apply elem_of_site_members. naive_solver.
Qed.

Lemma member_order_complete instance m :
  m ∈ postgresMembers (spec_Sites (msp_Spec instance)) -> m ∈ credentialMemberOrder instance.
Proof.
  intros [He Hp]%postgres_member_expected. unfold credentialMemberOrder.
  set (primary := st_Primary (msp_Status instance)).
  assert (Hin : m <> primary -> m ∈ foldl (add_member primary)
    (SortStrings (st_SynchronousStandbys (msp_Status instance)))
    (expectedAddressMembers (spec_Sites (msp_Spec instance))))
    by (intros Hne; apply elem_of_add_members; auto).
  case_bool_decide as E; cbn.
  - destruct (decide (m = primary)) as [->|]; [|auto]. by rewrite E in Hp.
  - rewrite elem_of_app, list_elem_of_singleton. destruct (decide (m = primary)); auto.
Qed.

Lemma member_order_primary_last instance :
  let primary := st_Primary (msp_Status instance) in
  primary <> "" -> primary ∉ st_SynchronousStandbys (msp_Status instance) ->
  exists others, credentialMemberOrder instance = others ++ [primary] /\ primary ∉ others.
Proof.
  intros primary Hp Hs. unfold credentialMemberOrder. fold primary.
  rewrite bool_decide_eq_false_2 by done. cbn. eexists. split; [done|].
  rewrite elem_of_add_members, elem_of_SortStrings. naive_solver.
Qed.

(** A find over a list: everything before what is found fails the test. *)
Lemma find_first {A} (f : A -> bool) l x :
  List.find f l = Some x -> exists before after, l = before ++ x :: after /\ f x = true /\
    forall y, y ∈ before -> f y = false.
Proof.
  induction l as [|a l IH]; simpl; [done|]. destruct (f a) eqn:E.
  - intros [= ->]. exists [], l. split; [done|]. split; [done|]. intros y. by rewrite elem_of_nil.
  - intros (before & after & -> & Hx & Hb)%IH. exists (a :: before), after. split; [done|]. split; [done|].
    intros y [->|?]%elem_of_cons; auto.
Qed.

Lemma find_none_all l updated :
  List.find (fun member => negb (slices_Contains updated member)) l = None -> forall m, m ∈ l -> m ∈ updated.
Proof.
  intros Hf m Hm. pose proof (List.find_none _ _ Hf m (proj1 (list_elem_of_In _ _) Hm)) as H.
  unfold slices_Contains in H. by bool_to_prop.
Qed.

Section rotation_properties.
Context (instance : MultiSitePostgres) (active : SitePlan).
Context (addressMigration : option AddressMigrationPlan) (restorePlan : option RestorePlan).
Context (upgradePlan : option UpgradePlan) (majorUpgradePlan : option MajorUpgradePlan).

Let decision := decide_rotation instance active addressMigration restorePlan upgradePlan majorUpgradePlan.
(** The active rotation is still being applied: its step is repeated. *)
Let repeating := negb (is_nil (sp_CredentialRotation active)) &&
  negb (allSitesApplied (st_Sites (msp_Status instance)) (st_ActiveRevision (msp_Status instance))).

(** The facts a fresh step of a rotation rests on. *)
Definition rotation_step (p : CredentialRotationPlan) : Prop :=
  let updated := credentialUpdatedMembers instance (crp_Version p) in
  let order := credentialMemberOrder instance in
  (crp_Phase p = CredentialRotationPhaseCatalog /\ credentialCatalogUpdated instance (crp_Version p) = false) \/
  (crp_Phase p = CredentialRotationPhaseMember /\ credentialCatalogUpdated instance (crp_Version p) = true /\
   (crp_TargetMember p ∉ updated) /\
   exists before after, order = before ++ crp_TargetMember p :: after /\ forall m, m ∈ before -> m ∈ updated) \/
  (crp_Phase p = CredentialRotationPhaseRevoke /\ credentialCatalogUpdated instance (crp_Version p) = true /\
   (forall m, m ∈ order -> m ∈ updated) /\ previousCredentialsRevoked instance (crp_Version p) = false) \/
  (crp_Phase p = CredentialRotationPhaseFinalize /\ credentialCatalogUpdated instance (crp_Version p) = true /\
   (forall m, m ∈ order -> m ∈ updated) /\ previousCredentialsRevoked instance (crp_Version p) = true).

Lemma rotation_cases p :
  decision = Some p -> repeating = false ->
  (addressMigration = None /\ restorePlan = None /\ upgradePlan = None /\ majorUpgradePlan = None) /\
  (1 <= crp_PreviousVersion p)%Z /\ crp_PreviousVersion p <> crp_Version p /\
  commonStagedCredentialVersion instance = (crp_Version p, true) /\ rotation_step p.
Proof.
  unfold decision, decide_rotation. fold repeating. intros Hd Hr. rewrite Hr in Hd.
  destruct (negb (is_nil addressMigration) || _ || _ || _) eqn:Hops; [done|].
  destruct (commonStagedCredentialVersion instance) as [version staged] eqn:Hstaged.
  destruct staged; [|done]. cbn [negb] in Hd.
  match type of Hd with context [(?pv <? 1)%Z] => set (prev := pv) in * end.
  destruct (_ || (_ == _)) eqn:Hv; [done|].
  assert (Hnone : addressMigration = None /\ restorePlan = None /\ upgradePlan = None /\ majorUpgradePlan = None).
  { bool_to_prop. by destruct addressMigration, restorePlan, upgradePlan, majorUpgradePlan. }
  split; [done|]. clear Hops. bool_to_prop. unfold rotation_step.
  destruct (credentialCatalogUpdated instance version) eqn:Hcat; cbn [negb] in Hd.
  2:{ injection Hd as <-. cbn. repeat split; auto. }
  destruct (List.find _ _) as [member|] eqn:Hf.
  - injection Hd as <-. cbn. repeat split; auto. right; left. repeat split; auto.
    + apply List.find_some in Hf as [_ Hf]. unfold slices_Contains in Hf. by bool_to_prop.
    + apply find_first in Hf as (b & a & Ho & _ & Hb). exists b, a. split; [done|].
      intros m Hm%Hb. unfold slices_Contains in Hm. by bool_to_prop.
  - pose proof (find_none_all _ _ Hf) as Hall.
    destruct (previousCredentialsRevoked instance version) eqn:Hrev; cbn [negb] in Hd; injection Hd as <-;
      cbn; repeat split; auto 10.
Qed.


(** The primary is rotated last, and nothing else moves meanwhile. A member
    step of a rotation targets a member that has not taken up the new version,
    and the current primary only after every other PostgreSQL member has; no
    rotation step is started during an address migration, a restore or an
    upgrade. *)
Theorem primary_rotated_last p :
  decision = Some p -> repeating = false -> crp_Phase p = CredentialRotationPhaseMember ->
  st_Primary (msp_Status instance) ∉ st_SynchronousStandbys (msp_Status instance) ->
  (crp_TargetMember p ∉ credentialUpdatedMembers instance (crp_Version p)) /\
  (crp_TargetMember p = st_Primary (msp_Status instance) -> st_Primary (msp_Status instance) <> "" ->
   forall m, m ∈ postgresMembers (spec_Sites (msp_Spec instance)) -> m <> st_Primary (msp_Status instance) ->
     m ∈ credentialUpdatedMembers instance (crp_Version p)) /\
  addressMigration = None /\ restorePlan = None /\ upgradePlan = None /\ majorUpgradePlan = None.
Proof.
  intros Hd Hr Hph Hs. destruct (rotation_cases p Hd Hr) as (Hnone & _ & _ & _ & Hstep).
  destruct Hstep as [[E _]|[(_ & _ & Hn & before & after & Ho & Hb)|[[E _]|[E _]]]];
    try by rewrite E in Hph.
  split; [done|]. split; [|done]. intros Ht Hp m Hm Hne. apply Hb.
  apply member_order_complete in Hm.
  destruct (member_order_primary_last instance Hp Hs) as (others & Ho' & Hnot).
  rewrite Ht, Ho' in Ho. rewrite Ho', elem_of_app, list_elem_of_singleton in Hm.
  assert (others = before) as ->; [|naive_solver].
  destruct after as [|y after _] using rev_ind; [by apply app_inj_tail in Ho as [? _]|].
  exfalso. apply Hnot. rewrite app_comm_cons, app_assoc in Ho. apply app_inj_tail in Ho as [-> _].
  rewrite elem_of_app, elem_of_cons. auto.
Qed.
End rotation_properties.

(** ** Witnesses *)
Module RefRotation.
Definition conditions (updated : string) : list Condition :=
  [mkCondition "CredentialRotationPending" ConditionTrue 0 "" "2";
   mkCondition "PostgresCredentialsActive" ConditionTrue 0 "" "1";
   mkCondition "CredentialCatalogUpdated" ConditionTrue 0 "" "2";
   mkCondition "CredentialMembersUpdated" ConditionTrue 0 "" ("2:" +:+ updated)].
Definition instance (updated : string) : MultiSitePostgres :=
  zero_MultiSitePostgres
    <| msp_Spec := zero_MultiSitePostgresSpec <| spec_Sites := [RefMembers.site "a" SiteRoleData 1 2 1] |> |>
    <| msp_Status := zero_MultiSitePostgresStatus <| st_Primary := "postgres-a-0" |>
         <| st_SynchronousStandbys := ["postgres-a-1"] |>
         <| st_Sites := [zero_SiteRevisionStatus <| srs_Name := "a" |> <| srs_Conditions := conditions updated |>] |> |>.
Definition revoke : CredentialRotationPlan :=
  mkCredentialRotationPlan 2 1 CredentialRotationPhaseRevoke "" ["postgres-a-0"; "postgres-a-1"].
Definition last_member : CredentialRotationPlan :=
  mkCredentialRotationPlan 2 1 CredentialRotationPhaseMember "postgres-a-0" ["postgres-a-1"].
End RefRotation.


Lemma primary_rotated_last_witness :
  decide_rotation (RefRotation.instance "postgres-a-1") zero_SitePlan None None None None =
    Some RefRotation.last_member /\
  forall m, m ∈ postgresMembers [RefMembers.site "a" SiteRoleData 1 2 1] -> m <> "postgres-a-0" ->
    m ∈ credentialUpdatedMembers (RefRotation.instance "postgres-a-1") 2.
Proof.
  split; [vm_compute; reflexivity|].
  destruct (primary_rotated_last (RefRotation.instance "postgres-a-1") zero_SitePlan
    None None None None RefRotation.last_member) as (_ & H & _).
  - vm_compute. reflexivity.
  - vm_compute. reflexivity.
  - reflexivity.
  - apply (bool_decide_unpack _). vm_compute. exact I.
  - apply H; [reflexivity|discriminate].
Defined.
