(* ===== verification/Backups.v ===== *)
(** * Scheduled backups

    [internal/controller/backups.go]: the configured schedules of an instance,
    the directive for an activation that is due, and the time of the next
    reconciliation.  The cron library is an interface: a schedule is its
    function [Next]. *)

From S2P Require Import Prelude Prog Api Kube Codec Plan Members Topology.

(** [cron.Schedule] *)
Record Schedule := mkSchedule { Next : Time -> Time }.

Class CronLib := {
  (** [time.LoadLocation], [cron.ParseStandard] *)
  LoadLocation : string -> result unit;
  ParseStandard : string -> result Schedule;
}.

(** [Schedule.Next] is documented to return an activation later than the given
    time, or the zero time when the schedule has none. *)
Definition next_documented (schedule : Schedule) : Prop :=
  forall t, Next schedule t = zero_time \/ (t < Next schedule t)%Z.

Definition defaultWeeklyBackupSchedule : string := "30 6 * * 0".

Record backupSchedule := mkBackupSchedule { backupType : string; expression : string }.

Definition configuredBackupSchedules (backup : BackupSpec) (defaultSchedule : string) : list backupSchedule :=
  let s := bk_Schedules backup in
  let schedules :=
    (if bsch_Full s != "" then [mkBackupSchedule "full" (bsch_Full s)] else []) ++
    (if bsch_Differential s != "" then [mkBackupSchedule "diff" (bsch_Differential s)] else []) ++
    (if bsch_Incremental s != "" then [mkBackupSchedule "incr" (bsch_Incremental s)] else []) in
  match schedules with
  | [] => [mkBackupSchedule "full" (if defaultSchedule == "" then defaultWeeklyBackupSchedule else defaultSchedule)]
  | _ => schedules
  end.

Definition previousBackupScheduleStatus (statuses : list BackupScheduleStatus) (backupType : string) :
  BackupScheduleStatus :=
  default zero_BackupScheduleStatus (List.find (fun status => bss_Type status == backupType) statuses).

Definition minimumPositiveDuration (current candidate : Duration) : Duration :=
  let candidate := if (candidate <? second)%Z then second else candidate in
  if (current == 0%Z) || (candidate <? current)%Z then candidate else current.

Definition scheduledBackupOperationUID (instance : MultiSitePostgres) (backupType : string) (scheduledAt : Time) : string :=
  meta_UID (msp_Meta instance) +:+ "-backup-" +:+ backupType +:+ "-" +:+ FormatInt (time_Unix scheduledAt).

Definition scheduledBackupOperation (instance : MultiSitePostgres) (backupType : string) (scheduledAt : Time) :
  OperationProgressStatus :=
  zero_OperationProgressStatus <| op_OperationUID := scheduledBackupOperationUID instance backupType scheduledAt |>
    <| op_Phase := "ScheduledBackup" |> <| op_Attempt := 1%Z |> <| op_Terminal := false |>.

(** [fmt.Sprintf("mspsql-backup-%s-%d", backupType, scheduledAt.Unix())] *)
Definition backup_directive_name (backupType : string) (scheduledAt : Time) : string :=
  "mspsql-backup-" +:+ backupType +:+ "-" +:+ FormatInt (time_Unix scheduledAt).

(** The loop [for !next.After(now) { due = next; next = schedule.Next(next) }],
    for at most [fuel] rounds; [None] when it has not ended by then. *)
Fixpoint catch_up (schedule : Schedule) (now : Time) (fuel : nat) (due next : Time) : option (Time * Time) :=
  if time_After next now then Some (due, next)
  else match fuel with
       | O => None
       | S fuel => catch_up schedule now fuel next (Next schedule next)
       end.

(** Enough rounds for a schedule that advances: every round moves [next] on by a
    nanosecond at least. *)
Definition catch_up_fuel (now next : Time) : nat := Z.to_nat (now - next + 1).

Section backups.
Context {K : KubeLib} {Cr : CronLib} {TT : TimeText} {JM : Json (gmap string string)}.

Definition parseBackupSchedule (expression timezone : string) : result Schedule :=
  let timezone := if timezone == "" then "UTC" else timezone in
  match LoadLocation timezone with
  | Err e => Err (wrap_error ("load backup timezone " +:+ Quote timezone) e)
  | Ok _ =>
      match ParseStandard ("CRON_TZ=" +:+ timezone +:+ " " +:+ expression) with
      | Err e => Err (wrap_error ("parse backup schedule " +:+ Quote expression) e)
      | Ok schedule => Ok schedule
      end
  end.

Definition reconcileBackupDirective (instance : MultiSitePostgres) (backupType : string) (scheduledAt : Time) :
  kprog (result unit) :=
  let name := backup_directive_name backupType scheduledAt in
  match json_Marshal (T:=gmap string string)
    (list_to_map [("backupType", backupType); ("scheduledAt", FormatSeconds scheduledAt)]) with
  | Err e => Ret (Err e)
  | Ok spec =>
      let data := list_to_map [("type", "Backup"); ("instanceRef", meta_Name (msp_Meta instance));
        ("deleting", "false"); ("operationUID", scheduledBackupOperationUID instance backupType scheduledAt);
        ("spec.json", spec)] in
      let* x := call (Get KConfigMap (meta_Namespace (msp_Meta instance)) name) in
      match x with
      | Ok _ => Ret (Ok tt)
      | Err e =>
          if IsNotFound e then
            let meta := zero_ObjectMeta <| meta_Namespace := meta_Namespace (msp_Meta instance) |>
              <| meta_Name := name |>
              <| meta_Labels := list_to_map [("multisite-postgres.dev/directive", "Backup");
                   ("multisite-postgres.dev/instance-ref", meta_Name (msp_Meta instance));
                   ("multisite-postgres.dev/instance-uid", meta_UID (msp_Meta instance))] |> in
            match SetControllerReference (k:=KInstance) instance meta with
            | Err e => Ret (Err e)
            | Ok meta =>
                let! _ := call (Create KConfigMap (mkConfigMap meta data)) onerr e => Ret (Err e) in
                Ret (Ok tt)
            end
          else Ret (Err e)
      end
  end.

(** One round of the loop over the schedules: the status of the schedule and the
    requeue delay; [None] when the catch-up loop does not end. *)
Definition reconcile_schedule (instance : MultiSitePostgres) (now : Time) (canRun : bool)
  (backup : BackupSpec) (configured : backupSchedule) (nextReconcile : Duration) :
  kprog (option (result (BackupScheduleStatus * Duration))) :=
  match parseBackupSchedule (expression configured) (bsch_Timezone (bk_Schedules backup)) with
  | Err e => Ret (Some (Err e))
  | Ok schedule =>
      let status := (previousBackupScheduleStatus (st_BackupSchedules (msp_Status instance)) (backupType configured))
        <| bss_Type := backupType configured |> in
      match bss_NextScheduledAt status with
      | None =>
          let next := Next schedule now in
          Ret (Some (Ok (status <| bss_NextScheduledAt := Some next |>,
                         minimumPositiveDuration nextReconcile (time_Sub next now))))
      | Some scheduled =>
          if time_After scheduled now then
            Ret (Some (Ok (status, minimumPositiveDuration nextReconcile (time_Sub scheduled now))))
          else if negb canRun then
            Ret (Some (Ok (status, minimumPositiveDuration nextReconcile (30 * second)%Z)))
          else
            let next := Next schedule scheduled in
            match catch_up schedule now (catch_up_fuel now next) scheduled next with
            | None => Ret None
            | Some (due, next) =>
                let! _ := reconcileBackupDirective instance (backupType configured) due
                  onerr e => Ret (Some (Err e)) in
                let status := status <| bss_LastScheduledAt := Some due |> <| bss_NextScheduledAt := Some next |>
                  <| bss_Operation := Some (scheduledBackupOperation instance (backupType configured) due) |> in
                Ret (Some (Ok (status, minimumPositiveDuration nextReconcile (time_Sub next now))))
            end
      end
  end.

Fixpoint reconcile_schedules (instance : MultiSitePostgres) (now : Time) (canRun : bool) (backup : BackupSpec)
  (schedules : list backupSchedule) (statuses : list BackupScheduleStatus) (nextReconcile : Duration) :
  kprog (option (result (list BackupScheduleStatus * Duration))) :=
  match schedules with
  | [] => Ret (Some (Ok (statuses, nextReconcile)))
  | configured :: schedules =>
      let* x := reconcile_schedule instance now canRun backup configured nextReconcile in
      match x with
      | None => Ret None
      | Some (Err e) => Ret (Some (Err e))
      | Some (Ok (status, nextReconcile)) =>
          reconcile_schedules instance now canRun backup schedules (statuses ++ [status]) nextReconcile
      end
  end.

(** [defaultSchedule] is the reconciler's [DefaultBackupSchedule]; the result is
    the instance with its schedules' statuses and the requeue delay. *)
Definition reconcileBackupSchedules (defaultSchedule : string) (instance : MultiSitePostgres) (now : Time)
  (canRun : bool) : kprog (option (result (MultiSitePostgres * Duration))) :=
  match spec_Backup (msp_Spec instance) with
  | None => Ret (Some (Ok (instance <| msp_Status ::= fun st => st <| st_BackupSchedules := [] |> |>, 0%Z)))
  | Some backup =>
      let* x := reconcile_schedules instance now canRun backup (configuredBackupSchedules backup defaultSchedule) [] 0%Z in
      match x with
      | None => Ret None
      | Some (Err e) => Ret (Some (Err e))
      | Some (Ok (statuses, nextReconcile)) =>
          Ret (Some (Ok (instance <| msp_Status ::= fun st => st <| st_BackupSchedules := statuses |> |>, nextReconcile)))
      end
  end.
End backups.

(** ** The catch-up loop *)
Definition advancing (schedule : Schedule) : Prop := forall t, (t < Next schedule t)%Z.

Lemma catch_up_fuel_enough schedule now fuel due next :
  advancing schedule -> (now - next < Z.of_nat fuel)%Z ->
  exists due' next', catch_up schedule now fuel due next = Some (due', next').
Proof.
  intros Hadv. revert due next. induction fuel as [|fuel IH]; intros due next Hf; cbn;
    unfold time_After; destruct (now <? next)%Z eqn:E; eauto; bool_to_prop; [lia|].
  apply IH. pose proof (Hadv next). lia.
Qed.

Lemma catch_up_result schedule now fuel due next due' next' :
  next = Next schedule due -> (due <= now)%Z ->
  catch_up schedule now fuel due next = Some (due', next') ->
  (due' <= now < next')%Z /\ next' = Next schedule due' /\ exists n, due' = Nat.iter n (Next schedule) due.
Proof.
  revert due next. induction fuel as [|fuel IH]; intros due next Hn Hd; cbn;
    unfold time_After; destruct (now <? next)%Z eqn:E; bool_to_prop; try done.
  - intros [= <- <-]. split; [lia|]. split; [done|]. by exists 0%nat.
  - intros [= <- <-]. split; [lia|]. split; [done|]. by exists 0%nat.
  - intros H. destruct (IH next (Next schedule next)) as (H1 & H2 & n & H3); [done|lia|done|].
    split; [done|]. split; [done|]. exists (S n). rewrite Nat.iter_succ_r. by rewrite <- Hn.
Qed.

(** C37: Missed activations are made up by one backup. For a schedule whose
    activations advance, catching up from a scheduled time that has passed ends,
    and it selects the latest activation that is due: an activation of the
    schedule at or before now whose successor, stored as the next one, lies
    strictly in the future. *)
Theorem catch_up_selects_latest schedule now scheduled :
  advancing schedule -> (scheduled <= now)%Z ->
  exists due next,
    catch_up schedule now (catch_up_fuel now (Next schedule scheduled)) scheduled (Next schedule scheduled) =
      Some (due, next) /\
    (due <= now < next)%Z /\ next = Next schedule due /\ (exists n, due = Nat.iter n (Next schedule) scheduled).
Proof.
  intros Hadv Hs.
  destruct (catch_up_fuel_enough schedule now (catch_up_fuel now (Next schedule scheduled)) scheduled
    (Next schedule scheduled) Hadv) as (due & next & H).
  { unfold catch_up_fuel. lia. }
  exists due, next. split; [done|]. by eapply catch_up_result.
Qed.

(** An unsatisfiable schedule hangs the reconciler. The cron library
    answers the zero time for a schedule without activations (such as the 30th of
    February, which it accepts); from then on the catch-up loop does not end, for
    any number of rounds. *)
Theorem unsatisfiable_schedule_never_ends schedule now fuel due :
  (forall t, Next schedule t = zero_time) -> (zero_time <= now)%Z ->
  next_documented schedule /\ catch_up schedule now fuel due (Next schedule now) = None.
Proof.
  intros Hz Hnow. split; [intros t; left; apply Hz|]. rewrite Hz. revert due.
  induction fuel as [|fuel IH]; intros due; cbn; unfold time_After; rewrite (proj2 (Z.ltb_ge _ _)) by done; [done|].
  rewrite Hz. apply IH.
Qed.

(** ** Requeue delay *)
Lemma minimumPositiveDuration_bounds current candidate :
  current = 0%Z \/ (second <= current)%Z ->
  (second <= minimumPositiveDuration current candidate <= Z.max second candidate)%Z /\
  (current <> 0%Z -> (minimumPositiveDuration current candidate <= current)%Z).
Proof.
  intros Hc. unfold minimumPositiveDuration, second in *.
  destruct (candidate <? 1000000000)%Z eqn:E1; bool_to_prop;
    (destruct (_ || _) eqn:E2; [apply orb_true_iff in E2 as [E2|E2]|]); bool_to_prop; lia.
Qed.

(** ** The requests *)
Section backups_properties.
Context {K : KubeLib} {Cr : CronLib} {TT : TimeText} {JM : Json (gmap string string)}.

(** The only requests are the lookup and the creation of the directive of an
    activation (and not of a plan). *)
Definition directive_request (instance : MultiSitePostgres) (now : Time) (h : khistory) (r : Req) : Prop :=
  match r with
  | Get KConfigMap ns n => ns = meta_Namespace (msp_Meta instance)
  | Create KConfigMap cm =>
      exists backupType due, (due <= now)%Z /\
        cm_Data cm !!! "operationUID" = scheduledBackupOperationUID instance backupType due /\
        cm_Data cm !!! "type" = "Backup" /\ cm_Data cm !! "envelope.json" = None
  | _ => False
  end.

Lemma reconcileBackupDirective_requests instance now backupType due h :
  (due <= now)%Z ->
  sat (directive_request instance now) (fun _ _ => True) h (reconcileBackupDirective instance backupType due).
Proof.
  intros Hdue. unfold reconcileBackupDirective. destruct (json_Marshal _) as [spec|]; [|done].
  cbn -[list_to_map]. split; [done|]. intros [cm|e]; [done|]. destruct (IsNotFound e); [|done].
  destruct (SetControllerReference _ _) as [meta|]; [|done]. cbn -[list_to_map].
  split; [|by intros []]. exists backupType, due. split; [done|].
  rewrite !lookup_total_alt. simplify_map_eq. done.
Qed.

(** The status a schedule gets. *)
Definition schedule_advanced (now : Time) (canRun : bool) (old new : BackupScheduleStatus) : Prop :=
  bss_LastScheduledAt new = bss_LastScheduledAt old /\ bss_Operation new = bss_Operation old \/
  canRun = true /\ exists due next, bss_LastScheduledAt new = Some due /\ bss_NextScheduledAt new = Some next /\
    (due <= now < next)%Z.

Lemma reconcile_schedule_spec instance now canRun backup configured delay h :
  sat (fun h r => directive_request instance now h r /\ canRun = true)
    (fun _ x => forall status d, x = Some (Ok (status, d)) ->
       schedule_advanced now canRun
         (previousBackupScheduleStatus (st_BackupSchedules (msp_Status instance)) (backupType configured)) status /\
       ((delay = 0 \/ second <= delay)%Z -> (second <= d)%Z /\ (delay <> 0%Z -> d <= delay)%Z))
    h (reconcile_schedule instance now canRun backup configured delay).
Proof.
  assert (Hmin : forall c, (delay = 0 \/ second <= delay)%Z ->
    (second <= minimumPositiveDuration delay c)%Z /\ (delay <> 0%Z -> minimumPositiveDuration delay c <= delay)%Z).
  { intros c Hd. destruct (minimumPositiveDuration_bounds delay c Hd) as [? ?]. split; [lia|done]. }
  unfold reconcile_schedule. destruct (parseBackupSchedule _ _) as [schedule|]; [|done].
  set (prev := previousBackupScheduleStatus _ _).
  change (bss_NextScheduledAt (prev <| bss_Type := backupType configured |>)) with (bss_NextScheduledAt prev).
  destruct (bss_NextScheduledAt prev) as [scheduled|] eqn:Hns.
  2:{ intros s d [= <- <-]. split; [by left|apply Hmin]. }
  destruct (time_After scheduled now) eqn:Haft.
  { intros s d [= <- <-]. split; [by left|apply Hmin]. }
  destruct canRun; [|intros s d [= <- <-]; split; [by left|apply Hmin]].
  cbn [negb]. unfold time_After in Haft. bool_to_prop.
  destruct (catch_up _ _ _ _ _) as [[due next]|] eqn:Hc; [|done].
  apply catch_up_result in Hc as (Hb & _ & _); [|done|lia]. apply sat_bind.
  eapply sat_mono; [| |apply (reconcileBackupDirective_requests instance now); lia]; [done|].
  intros h' [u|e] _; [|done]. intros s d [= <- <-]. split; [|apply Hmin].
  right. split; [done|]. exists due, next. done.
Qed.

Lemma reconcile_schedules_requests instance now canRun backup schedules statuses delay h :
  sat (fun h r => directive_request instance now h r /\ canRun = true)
    (fun _ x => forall l d, x = Some (Ok (l, d)) -> (delay = 0 \/ second <= delay)%Z ->
       (d = delay /\ schedules = [] \/ second <= d)%Z)
    h (reconcile_schedules instance now canRun backup schedules statuses delay).
Proof.
  revert statuses delay h. induction schedules as [|c l IH]; intros statuses delay h.
  - intros s d [= <- <-] _. by left.
  - cbn -[reconcile_schedule]. apply sat_bind.
    eapply sat_mono; [| |apply reconcile_schedule_spec]; [done|].
    intros h' [[[s d]|e]|] Hx; try done.
    eapply sat_mono; [| |apply IH]; [done|].
    intros h2 x Hq l' d' -> Hd. right. destruct (Hx s d eq_refl) as [_ Hbound].
    destruct (Hbound Hd) as [Hb _]. destruct (Hq _ _ eq_refl) as [[-> _]|?]; [by right|done|done].
Qed.

(** Backups are requested only when they may run and are due. Whatever the
    API server answers, reconciling the backup schedules of an instance makes no
    request at all unless backups may run; then its only write is the creation of
    a backup directive of this instance for an activation that is not in the
    future; and when backups are configured the reconciliation is repeated, but
    not before a second has passed. *)
Theorem backups_requested_when_due defaultSchedule instance now canRun h :
  sat (fun h r => directive_request instance now h r /\ canRun = true)
    (fun _ x => forall i d, x = Some (Ok (i, d)) ->
       msp_Spec i = msp_Spec instance /\ msp_Meta i = msp_Meta instance /\
       match spec_Backup (msp_Spec instance) with
       | None => d = 0%Z
       | Some _ => (second <= d)%Z
       end)
    h (reconcileBackupSchedules defaultSchedule instance now canRun).
Proof.
  unfold reconcileBackupSchedules. destruct (spec_Backup (msp_Spec instance)) as [backup|] eqn:Hb.
  2:{ intros i d [= <- <-]. done. }
  apply sat_bind. eapply sat_mono; [| |apply reconcile_schedules_requests]; [done|].
  intros h' [[[l d]|e]|] Hx; try done. intros i d' [= <- <-]. split; [done|]. split; [done|].
  destruct (Hx l d eq_refl) as [[_ Hn]|?]; [by left| |done].
  exfalso. unfold configuredBackupSchedules in Hn. case_match; done.
Qed.

Lemma reconcile_schedule_ends instance now canRun backup configured delay h :
  (forall e schedule, ParseStandard e = Ok schedule -> advancing schedule) ->
  sat (fun _ _ => True) (fun _ x => x <> None) h
    (reconcile_schedule instance now canRun backup configured delay).
Proof.
  intros Hadv. unfold reconcile_schedule.
  destruct (parseBackupSchedule _ _) as [schedule|] eqn:Hp; [|done].
  assert (advancing schedule) as Ha.
  { unfold parseBackupSchedule in Hp. repeat (case_match; [|done]). injection Hp as <-. by eapply Hadv. }
  set (status := set bss_Type _ _).
  destruct (bss_NextScheduledAt status) as [scheduled|]; [|done]. destruct (time_After _ _); [done|].
  destruct canRun; [|done]. cbn [negb].
  destruct (catch_up_fuel_enough schedule now (catch_up_fuel now (Next schedule scheduled)) scheduled
    (Next schedule scheduled) Ha) as (due & next & ->); [unfold catch_up_fuel; lia|].
  apply sat_bind. unfold reconcileBackupDirective. destruct (json_Marshal _); [|done]. cbn. split; [done|].
  intros [cm|e]; [done|]. destruct (IsNotFound e); [|done]. destruct (SetControllerReference _ _); [|done].
  cbn. split; [done|]. by intros [].
Qed.

(** Reconciling backup schedules ends. If the activations of every
    schedule the cron library parses advance, the reconciliation of the schedules
    returns, with a result or an error, whatever the API server answers and
    however long the schedules were not reconciled. *)
Theorem schedules_reconciliation_ends defaultSchedule instance now canRun h :
  (forall e schedule, ParseStandard e = Ok schedule -> advancing schedule) ->
  sat (fun _ _ => True) (fun _ x => x <> None) h
    (reconcileBackupSchedules defaultSchedule instance now canRun).
Proof.
  intros Hadv. unfold reconcileBackupSchedules. destruct (spec_Backup _) as [backup|]; [|done].
  apply sat_bind.
  assert (Hl : forall l statuses delay h, sat (fun _ _ => True) (fun _ x => x <> None) h
    (reconcile_schedules instance now canRun backup l statuses delay)).
  { induction l as [|c l IH]; intros statuses delay h1; [done|]. cbn -[reconcile_schedule]. apply sat_bind.
    eapply sat_mono; [| |by apply reconcile_schedule_ends]; [done|].
    intros h2 [[[s d]|e]|] Hx; [apply IH|done..]. }
  eapply sat_mono; [| |apply Hl]; [done|]. by intros h' [[[l d]|e]|] Hx.
Qed.

(** Backup directives of different instances share their name. The name of
    a directive holds the type and the time of the activation but not the
    instance, so when two instances of a namespace have an activation at the same
    second (as with the default schedule), the directive of the first makes the
    reconciler report success for the second without requesting its backup. *)
Theorem backup_directive_shared_by_instances first second_ backupType due cm spec :
  meta_Namespace (msp_Meta first) = meta_Namespace (msp_Meta second_) ->
  json_Marshal (T:=gmap string string)
    (list_to_map [("backupType", backupType); ("scheduledAt", FormatSeconds due)]) = Ok spec ->
  cm_Data cm !!! "instanceRef" = meta_Name (msp_Meta first) ->
  exists k, reconcileBackupDirective second_ backupType due =
    Call (Get KConfigMap (meta_Namespace (msp_Meta first)) (backup_directive_name backupType due)) k /\
    k (Ok cm) = Ret (Ok tt).
Proof.
  intros Hns Hm _. unfold reconcileBackupDirective. rewrite Hm, <- Hns. eexists. split; [reflexivity|done].
Qed.
End backups_properties.

(** ** Witnesses *)
Module RefBackups.
(** Activations at every full hour. *)
Definition hourly : Schedule := mkSchedule (fun t => ((t `div` hour + 1) * hour)%Z).
(** A schedule without activations. *)
Definition never : Schedule := mkSchedule (fun _ => zero_time).
#[global] Instance cron : CronLib := {| LoadLocation _ := Ok tt; ParseStandard _ := Ok hourly |}.
#[global] Instance json_map : Json (gmap string string) := RefCodec.json_of id.

Lemma hourly_advancing : advancing hourly.
Proof.
  intros t. cbn. pose proof (Z.mod_pos_bound t hour). pose proof (Z.div_mod t hour).
  unfold hour, minute, second in *. lia.
Qed.

Definition instance (name : string) : MultiSitePostgres :=
  zero_MultiSitePostgres
    <| msp_Meta := zero_ObjectMeta <| meta_Namespace := "ns" |> <| meta_Name := name |> <| meta_UID := "uid-" +:+ name |> |>
    <| msp_Spec := zero_MultiSitePostgresSpec <| spec_Backup := Some zero_BackupSpec |> |>.
End RefBackups.

Lemma catch_up_selects_latest_witness : exists due next,
  catch_up RefBackups.hourly (3 * hour + minute)%Z
    (catch_up_fuel (3 * hour + minute)%Z hour) 0%Z hour = Some (due, next) /\
  (due <= 3 * hour + minute < next)%Z.
Proof.
  destruct (catch_up_selects_latest RefBackups.hourly (3 * hour + minute)%Z 0%Z RefBackups.hourly_advancing)
    as (due & next & H & Hb & _); [vm_compute; discriminate|].
  exists due, next. split; [exact H|exact Hb].
Defined.

Lemma unsatisfiable_schedule_never_ends_witness :
  catch_up RefBackups.never 1000%Z 1000 zero_time (Next RefBackups.never 1000%Z) = None.
Proof.
  apply (unsatisfiable_schedule_never_ends RefBackups.never 1000%Z 1000 zero_time);
    [reflexivity|vm_compute; discriminate].
Defined.

Lemma schedules_reconciliation_ends_witness :
  sat (fun _ _ => True) (fun _ x => x <> None) []
    (reconcileBackupSchedules "" (RefBackups.instance "a") 0%Z true).
Proof.
  apply (schedules_reconciliation_ends "" (RefBackups.instance "a") 0%Z true []).
  intros e schedule H. injection H as <-. exact RefBackups.hourly_advancing.
Defined.

Lemma backup_directive_shared_by_instances_witness :
  exists k, reconcileBackupDirective (RefBackups.instance "b") "full" 0%Z =
    Call (Get KConfigMap "ns" (backup_directive_name "full" 0%Z)) k /\
    k (Ok (mkConfigMap zero_ObjectMeta {["instanceRef" := "a"]})) = Ret (Ok tt).
Proof.
  eapply (backup_directive_shared_by_instances (RefBackups.instance "a") (RefBackups.instance "b") "full" 0%Z
    (mkConfigMap zero_ObjectMeta {["instanceRef" := "a"]})); reflexivity.
Defined.
