(* ===== verification/Declarations.v ===== *)
(** * Databases and users

    [internal/controller/directives.go], [postgresdatabase_controller.go] and
    [postgresuser_controller.go]: the declarations of databases and login roles,
    each turned into a directive for the agent at the primary's site and held by
    a finalizer until the agent has removed what it declared. *)

From S2P Require Import Prelude Prog Api Kube ApiServer Codec Plan.

(** ** Directives *)
Definition boolString (value : bool) : string := if value then "true" else "false".

(** [fmt.Sprintf("%s-%d-%t", uid, generation, deleting)] *)
Definition directiveOperationUID (owner : ObjectMeta) (deleting : bool) : string :=
  meta_UID owner +:+ "-" +:+ FormatInt (meta_Generation owner) +:+ "-" +:+ boolString deleting.

Definition directiveOperation (owner : ObjectMeta) (phase : string) (deleting : bool) : OperationProgressStatus :=
  zero_OperationProgressStatus <| op_OperationUID := directiveOperationUID owner deleting |> <| op_Phase := phase |>
    <| op_Attempt := 1%Z |> <| op_Terminal := false |>.

Definition mapsEqual (left right : gmap string string) : bool :=
  (size left =? size right)%nat && bool_decide (map_Forall (fun key value => right !!! key = value) left).

Section directives.
Context {K : KubeLib}.

Definition directive_data (owner : ObjectMeta) (directiveType instanceRef : string) (encoded : string)
  (deleting : bool) : gmap string string :=
  list_to_map [("type", directiveType); ("instanceRef", instanceRef); ("deleting", boolString deleting);
    ("spec.json", encoded); ("operationUID", directiveOperationUID owner deleting)].

Definition reconcileDirective {k : Kind} {T} {J : Json T} (owner : Object k)
  (name directiveType instanceRef : string) (spec : T) (deleting : bool) : kprog (result unit) :=
  match json_Marshal spec with
  | Err e => Ret (Err e)
  | Ok encoded =>
      let owner_meta := object_meta owner in
      let data := directive_data owner_meta directiveType instanceRef encoded deleting in
      let* x := call (Get KConfigMap (meta_Namespace owner_meta) name) in
      match x with
      | Err e =>
          if IsNotFound e then
            let meta := zero_ObjectMeta <| meta_Namespace := meta_Namespace owner_meta |> <| meta_Name := name |>
              <| meta_Labels := list_to_map [("multisite-postgres.dev/directive", directiveType);
                   ("multisite-postgres.dev/instance-ref", instanceRef)] |> in
            match SetControllerReference owner meta with
            | Err e => Ret (Err e)
            | Ok meta =>
                let! _ := call (Create KConfigMap (mkConfigMap meta data)) onerr e => Ret (Err e) in
                Ret (Ok tt)
            end
          else Ret (Err e)
      | Ok configMap =>
          if mapsEqual (cm_Data configMap) data then Ret (Ok tt)
          else
            let! _ := call (Update KConfigMap (configMap <| cm_Data := data |>)) onerr e => Ret (Err e) in
            Ret (Ok tt)
      end
  end.
End directives.

(** ** Databases *)
Section reconcile.
Context {K : KubeLib} {JD : Json PostgresDatabaseSpec} {JU : Json PostgresUserSpec}.

Definition databaseInstanceRefField : string := ".spec.instanceRef".
Definition userDatabaseRefField : string := ".spec.memberOf.databaseRef".

Definition set_database_condition (database : PostgresDatabase) (ctype status reason message : string) : PostgresDatabase :=
  database <| db_Status ::= fun st => st <| dbst_Conditions ::= fun conditions =>
    setCondition conditions (meta_Generation (db_Meta database)) ctype status reason message |> |>.

Definition delete_database (ns n : string) (database : PostgresDatabase) : kprog Outcome :=
  let generation := meta_Generation (db_Meta database) in
  if (dbs_DeletionPolicy (db_Spec database) == DeletionPolicyRetain) || (dbst_Phase (db_Status database) == "Deleted") then
    let* x := call (Update KDatabase (database <| db_Meta ::= fun m => RemoveFinalizer m childFinalizer |>)) in
    Ret (finish x)
  else
    let* x := call (Get KInstance (meta_Namespace (db_Meta database)) (dbs_InstanceRef (db_Spec database))) in
    match x with
    | Err e =>
        if IsNotFound e then
          let database := database <| db_Status ::= fun st => st <| dbst_ObservedGeneration := generation |>
            <| dbst_Phase := "Orphaned" |> |> in
          let database := set_database_condition database "DeletionBlocked" ConditionTrue "ParentUnavailable"
            "Parent instance is unavailable; set multisite-postgres.dev/force-orphan=true to abandon residual database cleanup" in
          if meta_Annotations (db_Meta database) !!! forceOrphanAnnotation != "true" then
            let* x := call (UpdateStatus KDatabase database) in Ret (finish x)
          else
            let database := set_database_condition database "DeletionBlocked" ConditionFalse "ForceOrphaned"
              "Residual database cleanup was force-orphaned after parent loss" in
            let! _ := call (UpdateStatus KDatabase database) onerr e => Ret (Done, Some e) in
            let! current := call (Get KDatabase ns n) onerr e => Ret (Done, IgnoreNotFound e) in
            let* x := call (Update KDatabase (current <| db_Meta ::= fun m => RemoveFinalizer m childFinalizer |>)) in
            Ret (finish x)
        else Ret (Done, Some e)
    | Ok _ =>
        let! _ := reconcileDirective (k:=KDatabase) database ("mspsql-database-" +:+ meta_Name (db_Meta database)) "Database"
          (dbs_InstanceRef (db_Spec database)) (db_Spec database) true onerr e => Ret (Done, Some e) in
        let database := database <| db_Status ::= fun st => st <| dbst_ObservedGeneration := generation |>
          <| dbst_Phase := "Deleting" |> <| dbst_Operation := Some (directiveOperation (db_Meta database) "Deleting" true) |> |> in
        let database := set_database_condition database "DeletionBlocked" ConditionTrue "DeletionDirectiveIssued"
          "Waiting for a site agent to delete the database declaration" in
        let* x := call (UpdateStatus KDatabase database) in Ret (finish x)
    end.

Definition apply_database (database : PostgresDatabase) : kprog Outcome :=
  let generation := meta_Generation (db_Meta database) in
  let observedCurrentGeneration := dbst_ObservedGeneration (db_Status database) == generation in
  let* x := call (Get KInstance (meta_Namespace (db_Meta database)) (dbs_InstanceRef (db_Spec database))) in
  match x with
  | Err e =>
      let database := database <| db_Status ::= fun st => st <| dbst_Phase := "Pending" |> |> in
      let database := set_database_condition database "Ready" ConditionFalse "InstanceUnavailable" (err_text e) in
      let* x := call (UpdateStatus KDatabase database) in Ret (finish x)
  | Ok instance =>
      let! _ := reconcileDirective (k:=KDatabase) database ("mspsql-database-" +:+ meta_Name (db_Meta database)) "Database"
        (dbs_InstanceRef (db_Spec database)) (db_Spec database) false onerr e => Ret (Done, Some e) in
      if observedCurrentGeneration && conditionTrue (dbst_Conditions (db_Status database)) "Succeeded" then
        if (dbst_Phase (db_Status database) == "Ready") && conditionTrue (dbst_Conditions (db_Status database)) "Ready"
        then Ret (Done, None)
        else
          let database := database <| db_Status ::= fun st => st <| dbst_Phase := "Ready" |> |> in
          let database := set_database_condition database "Ready" ConditionTrue "DatabaseReconciled"
            "The database declaration is applied and audited" in
          let* x := call (UpdateStatus KDatabase database) in Ret (finish x)
      else
        let database := database <| db_Status ::= fun st => st <| dbst_ObservedGeneration := generation |>
          <| dbst_Phase := "Pending" |> <| dbst_Operation := Some (directiveOperation (db_Meta database) "Reconciling" false) |> |> in
        let database := set_database_condition database "Ready" ConditionFalse "DeclarationIssued"
          "Waiting for a site agent to reconcile the database" in
        let database := if conditionTrue (st_Conditions (msp_Status instance)) "Ready"
          then database <| db_Status ::= fun st => st <| dbst_Phase := "Reconciling" |> |> else database in
        let* x := call (UpdateStatus KDatabase database) in Ret (finish x)
  end.

Definition database_Reconcile (ns n : string) : kprog Outcome :=
  let! database := call (Get KDatabase ns n) onerr e => Ret (Done, IgnoreNotFound e) in
  if is_nil (meta_DeletionTimestamp (db_Meta database)) && negb (ContainsFinalizer (db_Meta database) childFinalizer) then
    let* x := call (Update KDatabase (database <| db_Meta ::= fun m => AddFinalizer m childFinalizer |>)) in
    Ret (finish x)
  else if negb (is_nil (meta_DeletionTimestamp (db_Meta database))) then delete_database ns n database
  else apply_database database.

(** The databases to reconcile when an instance changes. *)
Definition databasesForInstance (instance : ObjectMeta) : kprog (list (string * string)) :=
  let! databases := call (ListField KDatabase (Some (meta_Namespace instance)) databaseInstanceRefField (meta_Name instance))
    onerr _e => Ret [] in
  Ret ((fun d => (meta_Namespace (db_Meta d), meta_Name (db_Meta d))) <$> databases).

(** ** Users *)
Definition set_user_condition (user : PostgresUser) (ctype status reason message : string) : PostgresUser :=
  user <| usr_Status ::= fun st => st <| usrst_Conditions ::= fun conditions =>
    setCondition conditions (meta_Generation (usr_Meta user)) ctype status reason message |> |>.

Definition delete_user (ns n : string) (user : PostgresUser) : kprog Outcome :=
  let generation := meta_Generation (usr_Meta user) in
  if (usrs_DeletionPolicy (usr_Spec user) == DeletionPolicyRetain) || (usrst_Phase (usr_Status user) == "Deleted") then
    let* x := call (Update KUser (user <| usr_Meta ::= fun m => RemoveFinalizer m childFinalizer |>)) in
    Ret (finish x)
  else
    let* x := call (Get KInstance (meta_Namespace (usr_Meta user)) (usrs_InstanceRef (usr_Spec user))) in
    match x with
    | Err e =>
        if IsNotFound e then
          let user := user <| usr_Status ::= fun st => st <| usrst_ObservedGeneration := generation |>
            <| usrst_Phase := "Orphaned" |> |> in
          let user := set_user_condition user "DeletionBlocked" ConditionTrue "ParentUnavailable"
            "Parent instance is unavailable; set multisite-postgres.dev/force-orphan=true to abandon residual user cleanup" in
          if meta_Annotations (usr_Meta user) !!! forceOrphanAnnotation != "true" then
            let* x := call (UpdateStatus KUser user) in Ret (finish x)
          else
            let user := set_user_condition user "DeletionBlocked" ConditionFalse "ForceOrphaned"
              "Residual user cleanup was force-orphaned after parent loss" in
            let! _ := call (UpdateStatus KUser user) onerr e => Ret (Done, Some e) in
            let! current := call (Get KUser ns n) onerr e => Ret (Done, IgnoreNotFound e) in
            let* x := call (Update KUser (current <| usr_Meta ::= fun m => RemoveFinalizer m childFinalizer |>)) in
            Ret (finish x)
        else Ret (Done, Some e)
    | Ok _ =>
        let! _ := reconcileDirective (k:=KUser) user ("mspsql-user-" +:+ meta_Name (usr_Meta user)) "User"
          (usrs_InstanceRef (usr_Spec user)) (usr_Spec user) true onerr e => Ret (Done, Some e) in
        let user := user <| usr_Status ::= fun st => st <| usrst_ObservedGeneration := generation |>
          <| usrst_Phase := "Deleting" |> <| usrst_Operation := Some (directiveOperation (usr_Meta user) "Deleting" true) |> |> in
        let user := set_user_condition user "DeletionBlocked" ConditionTrue "DeletionDirectiveIssued"
          "Waiting for a site agent to delete the user declaration" in
        let* x := call (UpdateStatus KUser user) in Ret (finish x)
    end.

(** One round of the loop over the memberships: the reason and message of a
    membership that cannot be granted yet. *)
Definition check_user_membership (user : PostgresUser) (membership : RoleMembership) : kprog (option (string * string)) :=
  let* x := call (Get KDatabase (meta_Namespace (usr_Meta user)) (rm_DatabaseRef membership)) in
  match x with
  | Err e => Ret (Some ("DatabaseUnavailable", err_text e))
  | Ok database =>
      if dbs_InstanceRef (db_Spec database) != usrs_InstanceRef (usr_Spec user) then
        Ret (Some ("DatabaseInstanceMismatch", "Database " +:+ rm_DatabaseRef membership +:+ " belongs to another instance"))
      else if negb (existsb (fun role => dr_Name role == rm_Role membership) (dbs_Roles (db_Spec database))) then
        Ret (Some ("DatabaseRoleUnavailable",
          "Database " +:+ rm_DatabaseRef membership +:+ " does not declare role " +:+ rm_Role membership))
      else if negb (conditionTrue (dbst_Conditions (db_Status database)) "Ready") then
        Ret (Some ("DatabaseNotReady", "Waiting for database " +:+ rm_DatabaseRef membership +:+ " to be reconciled"))
      else Ret None
  end.

Fixpoint check_user_memberships (user : PostgresUser) (memberships : list RoleMembership) : kprog (option (string * string)) :=
  match memberships with
  | [] => Ret None
  | membership :: memberships =>
      let* x := check_user_membership user membership in
      match x with Some problem => Ret (Some problem) | None => check_user_memberships user memberships end
  end.

Definition apply_user (user : PostgresUser) : kprog Outcome :=
  let generation := meta_Generation (usr_Meta user) in
  let observedCurrentGeneration := usrst_ObservedGeneration (usr_Status user) == generation in
  let* x := check_user_memberships user (usrs_MemberOf (usr_Spec user)) in
  match x with
  | Some (reason, message) =>
      let user := user <| usr_Status ::= fun st => st <| usrst_Phase := "Pending" |> |> in
      let user := set_user_condition user "Ready" ConditionFalse reason message in
      let* x := call (UpdateStatus KUser user) in Ret (finish x)
  | None =>
      let! _ := reconcileDirective (k:=KUser) user ("mspsql-user-" +:+ meta_Name (usr_Meta user)) "User"
        (usrs_InstanceRef (usr_Spec user)) (usr_Spec user) false onerr e => Ret (Done, Some e) in
      if observedCurrentGeneration && conditionTrue (usrst_Conditions (usr_Status user)) "Succeeded" then
        if (usrst_Phase (usr_Status user) == "Ready") && conditionTrue (usrst_Conditions (usr_Status user)) "Ready"
        then Ret (Done, None)
        else
          let user := user <| usr_Status ::= fun st => st <| usrst_Phase := "Ready" |> |> in
          let user := set_user_condition user "Ready" ConditionTrue "UserReconciled"
            "The login role and credentials are applied" in
          let* x := call (UpdateStatus KUser user) in Ret (finish x)
      else
        let user := user <| usr_Status ::= fun st => st <| usrst_ObservedGeneration := generation |>
          <| usrst_Phase := "Reconciling" |> <| usrst_Operation := Some (directiveOperation (usr_Meta user) "Reconciling" false) |> |> in
        let user := set_user_condition user "Ready" ConditionFalse "DeclarationIssued"
          "Waiting for a site agent to reconcile the login role" in
        let* x := call (UpdateStatus KUser user) in Ret (finish x)
  end.

Definition user_Reconcile (ns n : string) : kprog Outcome :=
  let! user := call (Get KUser ns n) onerr e => Ret (Done, IgnoreNotFound e) in
  if is_nil (meta_DeletionTimestamp (usr_Meta user)) && negb (ContainsFinalizer (usr_Meta user) childFinalizer) then
    let* x := call (Update KUser (user <| usr_Meta ::= fun m => AddFinalizer m childFinalizer |>)) in
    Ret (finish x)
  else if negb (is_nil (meta_DeletionTimestamp (usr_Meta user))) then delete_user ns n user
  else apply_user user.

(** The users to reconcile when an instance or a database changes. *)
Definition usersForField (namespace field value : string) : kprog (list (string * string)) :=
  let! users := call (ListField KUser (Some namespace) field value) onerr _e => Ret [] in
  Ret ((fun u => (meta_Namespace (usr_Meta u), meta_Name (usr_Meta u))) <$> users).
Definition usersForInstance (object : ObjectMeta) : kprog (list (string * string)) :=
  usersForField (meta_Namespace object) databaseInstanceRefField (meta_Name object).
Definition usersForDatabase (object : ObjectMeta) : kprog (list (string * string)) :=
  usersForField (meta_Namespace object) userDatabaseRefField (meta_Name object).
End reconcile.

(** ** What a reconcile may ask of the server *)

(** What the two declarations have in common. *)
Class Declaration (k : Kind) := {
  decl_policy : Object k -> string;
  decl_ref : Object k -> string;
  decl_phase : Object k -> string;
  decl_observed : Object k -> Z;
  decl_conditions : Object k -> list Condition;
}.
#[global] Instance database_declaration : Declaration KDatabase :=
  Build_Declaration KDatabase (fun o => dbs_DeletionPolicy (db_Spec o)) (fun o => dbs_InstanceRef (db_Spec o))
    (fun o => dbst_Phase (db_Status o)) (fun o => dbst_ObservedGeneration (db_Status o))
    (fun o => dbst_Conditions (db_Status o)).
#[global] Instance user_declaration : Declaration KUser :=
  Build_Declaration KUser (fun o => usrs_DeletionPolicy (usr_Spec o)) (fun o => usrs_InstanceRef (usr_Spec o))
    (fun o => usrst_Phase (usr_Status o)) (fun o => usrst_ObservedGeneration (usr_Status o))
    (fun o => usrst_Conditions (usr_Status o)).

(** The object was read under this name. *)
Definition read_as {k : Kind} (h : khistory) (namespace name : string) (o : Object k) : Prop :=
  existT (Get k namespace name) (Ok o) ∈ h.

Section requests.
Context {K : KubeLib} {JD : Json PostgresDatabaseSpec} {JU : Json PostgresUserSpec}.

(** The declaration may be let go: it is being deleted and either is to be
    retained, or the agent has removed it, or its instance is gone and the user
    has asked to abandon it. *)
Definition releasable {k} {D : Declaration k} (h : khistory) (o : Object k) : Prop :=
  deleting (object_meta o) /\
  (decl_policy o = DeletionPolicyRetain \/ decl_phase o = "Deleted" \/
   meta_Annotations (object_meta o) !!! forceOrphanAnnotation = "true" /\
   exists namespace e, existT (Get KInstance namespace (decl_ref o)) (Err e) ∈ h /\ IsNotFound e = true).

(** The finalizer of a declaration is set while it lives and removed only when
    it may be let go. *)
Definition finalizer_write {k} {D : Declaration k} (h : khistory) (namespace name : string) (m : ObjectMeta) : Prop :=
  exists o : Object k, read_as h namespace name o /\
    (~ deleting (object_meta o) /\ m = AddFinalizer (object_meta o) childFinalizer \/
     m = RemoveFinalizer (object_meta o) childFinalizer /\
     exists o' : Object k, read_as h namespace name o' /\ releasable h o').

(** A status write newly reports a declaration as ready only at the generation
    whose success is recorded, and never reports it as deleted. *)
Definition status_write {k} {D : Declaration k} (o o' : Object k) : Prop :=
  object_meta o' = object_meta o /\ decl_phase o' <> "Deleted" /\
  (conditionTrue (decl_conditions o') "Ready" = true -> conditionTrue (decl_conditions o) "Ready" = true \/
   ~ deleting (object_meta o) /\ decl_observed o = meta_Generation (object_meta o) /\
   conditionTrue (decl_conditions o) "Succeeded" = true).

(** The directive of a declaration, which asks for deletion exactly when the
    declaration is being deleted and not to be retained. *)
Definition directive_write {k T} {D : Declaration k} {J : Json T} (h : khistory) (directiveType : string) (o : Object k)
  (spec : T) (data : gmap string string) : Prop :=
  exists encoded del, json_Marshal spec = Ok encoded /\
    data = directive_data (object_meta o) directiveType (decl_ref o) encoded del /\
    (del = true <-> deleting (object_meta o)) /\ (del = true -> decl_policy o <> DeletionPolicyRetain).

Definition database_request (namespace name : string) (h : khistory) (r : Req) : Prop :=
  match r with
  | Get _ _ _ => True
  | Update KDatabase o => finalizer_write (k:=KDatabase) h namespace name (db_Meta o)
  | UpdateStatus KDatabase o' => exists o : PostgresDatabase,
      read_as (k:=KDatabase) h namespace name o /\ status_write (k:=KDatabase) o o' /\ db_Spec o' = db_Spec o
  | Create KConfigMap cm | Update KConfigMap cm => exists o : PostgresDatabase,
      read_as (k:=KDatabase) h namespace name o /\ directive_write (k:=KDatabase) h "Database" o (db_Spec o) (cm_Data cm)
  | _ => False
  end.

(** A membership is granted only in a database of the same instance that
    declares the role and is ready. *)
Definition grantable (h : khistory) (user : PostgresUser) (membership : RoleMembership) : Prop :=
  exists database : PostgresDatabase,
    read_as (k:=KDatabase) h (meta_Namespace (usr_Meta user)) (rm_DatabaseRef membership) database /\
    dbs_InstanceRef (db_Spec database) = usrs_InstanceRef (usr_Spec user) /\
    rm_Role membership ∈ (dr_Name <$> dbs_Roles (db_Spec database)) /\
    conditionTrue (dbst_Conditions (db_Status database)) "Ready" = true.

Definition user_request (namespace name : string) (h : khistory) (r : Req) : Prop :=
  match r with
  | Get _ _ _ => True
  | Update KUser o => finalizer_write (k:=KUser) h namespace name (usr_Meta o)
  | UpdateStatus KUser o' => exists o : PostgresUser,
      read_as (k:=KUser) h namespace name o /\ status_write (k:=KUser) o o' /\ usr_Spec o' = usr_Spec o
  | Create KConfigMap cm | Update KConfigMap cm => exists o : PostgresUser,
      read_as (k:=KUser) h namespace name o /\ directive_write (k:=KUser) h "User" o (usr_Spec o) (cm_Data cm) /\
      (~ deleting (usr_Meta o) -> Forall (grantable h o) (usrs_MemberOf (usr_Spec o)))
  | _ => False
  end.

Lemma reconcileDirective_sat (P : khistory -> Req -> Prop) {k T} {J : Json T} (o : Object k) name ty ref (spec : T) del h :
  (forall h' ns n, P h' (Get KConfigMap ns n)) ->
  (forall h' encoded cm, extends h h' -> json_Marshal spec = Ok encoded ->
     cm_Data cm = directive_data (object_meta o) ty ref encoded del -> P h' (Create KConfigMap cm) /\ P h' (Update KConfigMap cm)) ->
  sat P (fun h' _ => extends h h') h (reconcileDirective o name ty ref spec del).
Proof.
  intros HG HW. unfold reconcileDirective. destruct (json_Marshal spec) as [encoded|] eqn:E; [|by intros x Hx].
  cbn -[directive_data]. split; [apply HG|]. intros [cm|e].
  - destruct (mapsEqual _ _); cbn -[directive_data]; [keep_history|].
    split; [by apply (HW _ encoded); [keep_history| |]|]. intros []; keep_history.
  - destruct (IsNotFound e); [|keep_history]. destruct (SetControllerReference _ _) as [m|]; cbn -[directive_data]; [|keep_history].
    split; [by apply (HW _ encoded); [keep_history| |]|]. intros []; keep_history.
Qed.

Lemma is_nil_deleting (m : ObjectMeta) : is_nil (meta_DeletionTimestamp m) = true <-> ~ deleting m.
Proof. unfold deleting. destruct (meta_DeletionTimestamp m); simpl; split; try done. intros H. by destruct H. Qed.

Context {L : KubeLaws K}.

(** A status write that leaves the Ready condition, or sets it to false. *)
Ltac status_unready :=
  split; [done|]; split; [done|]; cbn; unfold set_database_condition, set_user_condition; cbn;
  rewrite !conditionTrue_setCondition; cbn; (by left || done).
Ltac in_history := repeat first [assumption|apply elem_of_cons; first [by left|right]].

Lemma delete_database_sat ns n database h :
  read_as (k:=KDatabase) h ns n database -> deleting (db_Meta database) ->
  sat (database_request ns n) done_ h (delete_database ns n database).
Proof.
  intros Hr Hd. unfold delete_database.
  destruct (_ || _) eqn:Ep.
  { sat_step. sat_step; [|done]. exists database. split; [done|]. right. split; [done|].
    exists database. split; [done|]. split; [done|]. apply orb_true_iff in Ep as [E|E]; apply bool_decide_eq_true in E; auto. }
  bool_to_prop. sat_step. sat_step; [done|]. destruct x as [instance|e].
  - sat_step. eapply sat_mono; [done| |apply (reconcileDirective_sat (database_request ns n)); [done|]].
    + intros h' [[]|e] Hext; [|done]. sat_step. sat_step; [|done].
      exists database. split; [apply Hext; in_history|]. split; [status_unready|done].
    + intros h' encoded cm Hext Hm Hcm. split; (exists database; split; [apply Hext; in_history|]);
        exists encoded, true; split_and!; done.
  - destruct (IsNotFound e) eqn:Hn; [|done]. destruct (_ != _) eqn:Ea.
    + sat_step. sat_step; [|done]. exists database. split; [in_history|]. split; [status_unready|done].
    + sat_step. sat_step; [exists database; split; [in_history|]; split; [status_unready|done]|].
      destruct x as [o|e']; [|done]. sat_step. sat_step; [done|]. destruct x as [current|e']; [|done].
      sat_step. sat_step; [|done]. exists current. split; [in_history|]. right. split; [done|].
      exists database. split; [in_history|]. split; [done|]. right; right.
      bool_to_prop. split; [done|]. eexists _, e. split; [in_history|done].
Qed.

Lemma apply_database_sat ns n database h :
  read_as (k:=KDatabase) h ns n database -> ~ deleting (db_Meta database) ->
  sat (database_request ns n) done_ h (apply_database database).
Proof.
  intros Hr Hd. unfold apply_database. sat_step. sat_step; [done|]. destruct x as [instance|e].
  2:{ sat_step. sat_step; [|done]. exists database. split; [in_history|]. split; [status_unready|done]. }
  sat_step. eapply sat_mono; [done| |apply (reconcileDirective_sat (database_request ns n)); [done|]].
  - intros h' [[]|e] Hext; [|done].
    destruct ((dbst_ObservedGeneration _ == _) && _) eqn:Es.
    + destruct ((dbst_Phase _ == _) && _); [done|]. apply andb_prop in Es as [Eg Es]. apply bool_decide_eq_true in Eg.
      sat_step. sat_step; [|done]. exists database. split; [apply Hext; in_history|]. split; [|done].
      split; [done|]. split; [done|]. intros _. by right.
    + sat_step. sat_step; [|done]. exists database. split; [apply Hext; in_history|].
      destruct (conditionTrue (st_Conditions _) _); (split; [status_unready|done]).
  - intros h' encoded cm Hext Hm Hcm. split; (exists database; split; [apply Hext; in_history|]);
      exists encoded, false; split_and!; naive_solver.
Qed.

(** Whatever the server answers, reconciling a database lets the
    database go only while it is being deleted and is to be retained, or has
    been removed by an agent, or has lost its instance and is to be abandoned;
    newly reports it ready only when the recorded generation is current and a
    success is recorded; never reports it deleted; and writes no directive but
    its own, which asks for deletion exactly when the database is being deleted
    and not to be retained. *)
Theorem database_reconcile_safe ns n :
  sat (database_request ns n) done_ [] (database_Reconcile ns n).
Proof.
  unfold database_Reconcile. sat_step. sat_step; [done|]. destruct x as [database|e]; [|done].
  destruct (is_nil _) eqn:Ed; cbn [andb negb].
  - apply is_nil_deleting in Ed. destruct (ContainsFinalizer _ _); cbn [negb]; [apply apply_database_sat; [in_history|done]|].
    sat_step. sat_step; [|done]. exists database. split; [in_history|]. by left.
  - apply delete_database_sat; [in_history|]. unfold deleting. by destruct (meta_DeletionTimestamp _).
Qed.
Lemma delete_user_sat ns n user h :
  read_as (k:=KUser) h ns n user -> deleting (usr_Meta user) ->
  sat (user_request ns n) done_ h (delete_user ns n user).
Proof.
  intros Hr Hd. unfold delete_user.
  destruct (_ || _) eqn:Ep.
  { sat_step. sat_step; [|done]. exists user. split; [done|]. right. split; [done|].
    exists user. split; [done|]. split; [done|]. apply orb_true_iff in Ep as [E|E]; apply bool_decide_eq_true in E; auto. }
  bool_to_prop. sat_step. sat_step; [done|]. destruct x as [instance|e].
  - sat_step. eapply sat_mono; [done| |apply (reconcileDirective_sat (user_request ns n)); [done|]].
    + intros h' [[]|e] Hext; [|done]. sat_step. sat_step; [|done].
      exists user. split; [apply Hext; in_history|]. split; [status_unready|done].
    + intros h' encoded cm Hext Hm Hcm. split; (exists user; split; [apply Hext; in_history|]);
        (split; [|by intros []]); exists encoded, true; split_and!; done.
  - destruct (IsNotFound e) eqn:Hn; [|done]. destruct (_ != _) eqn:Ea.
    + sat_step. sat_step; [|done]. exists user. split; [in_history|]. split; [status_unready|done].
    + sat_step. sat_step; [exists user; split; [in_history|]; split; [status_unready|done]|].
      destruct x as [o|e']; [|done]. sat_step. sat_step; [done|]. destruct x as [current|e']; [|done].
      sat_step. sat_step; [|done]. exists current. split; [in_history|]. right. split; [done|].
      exists user. split; [in_history|]. split; [done|]. right; right.
      bool_to_prop. split; [done|]. eexists _, e. split; [in_history|done].
Qed.

(** The memberships are grantable when the loop finds no problem. *)
Lemma check_user_memberships_sat ns n user l h :
  sat (user_request ns n) (fun h' x => extends h h' /\ (x = None -> Forall (grantable h' user) l)) h
    (check_user_memberships user l).
Proof.
  revert h. induction l as [|m l IH]; intros h; [split; [apply extends_refl|done]|].
  cbn [check_user_memberships]. unfold check_user_membership. sat_step. sat_step. sat_step; [done|].
  destruct x as [database|e]; [|by split; [keep_history|]].
  repeat (sat_step; [by sat_step; split; [keep_history|]|]). sat_step.
  eapply sat_mono; [done| |apply IH]. intros h' x [Hext Hl]. split; [intros z Hz; apply Hext; in_history|].
  intros ->. constructor; [|by apply Hl]. exists database. bool_to_prop. apply existsb_exists in Heqb0 as (role & Hin & Er).
  apply bool_decide_eq_true in Er.
  split_and!; [apply Hext; in_history|done| |done]. rewrite <- Er. by apply list_elem_of_fmap_2, list_elem_of_In.
Qed.

Lemma apply_user_sat ns n user h :
  read_as (k:=KUser) h ns n user -> ~ deleting (usr_Meta user) ->
  sat (user_request ns n) done_ h (apply_user user).
Proof.
  intros Hr Hd. unfold apply_user. sat_step.
  eapply sat_mono; [done| |apply check_user_memberships_sat]. intros h1 [[reason message]|] [He1 Hl].
  { sat_step. sat_step; [|done]. exists user. split; [by apply He1|]. split; [status_unready|done]. }
  specialize (Hl eq_refl).
  sat_step. eapply sat_mono; [done| |apply (reconcileDirective_sat (user_request ns n)); [done|]].
  - intros h' [[]|e] Hext; [|done].
    destruct ((usrst_ObservedGeneration _ == _) && _) eqn:Es.
    + destruct ((usrst_Phase _ == _) && _); [done|]. apply andb_prop in Es as [Eg Es]. apply bool_decide_eq_true in Eg.
      sat_step. sat_step; [|done]. exists user. split; [by apply Hext, He1|]. split; [|done].
      split; [done|]. split; [done|]. intros _. by right.
    + sat_step. sat_step; [|done]. exists user. split; [by apply Hext, He1|]. split; [status_unready|done].
  - intros h' encoded cm Hext Hm Hcm.
    assert (Forall (grantable h' user) (usrs_MemberOf (usr_Spec user))).
    { eapply Forall_impl; [|exact Hl]. intros m (database & Hread & Hrest). exists database. split; [by apply Hext|done]. }
    split; (exists user; split; [by apply Hext, He1|]); (split; [|done]);
      exists encoded, false; split_and!; naive_solver.
Qed.

(** Whatever the server answers, reconciling a user lets the user go only
    while it is being deleted and is to be retained, or has been removed by an
    agent, or has lost its instance and is to be abandoned; newly reports it
    ready only when the recorded generation is current and a success is
    recorded; and writes no directive but its own, of a living user only after
    every database it is to be a member of was found to belong to the same
    instance, to declare the role and to be ready. *)
Theorem user_reconcile_safe ns n :
  sat (user_request ns n) done_ [] (user_Reconcile ns n).
Proof.
  unfold user_Reconcile. sat_step. sat_step; [done|]. destruct x as [user|e]; [|done].
  destruct (is_nil _) eqn:Ed; cbn [andb negb].
  - apply is_nil_deleting in Ed. destruct (ContainsFinalizer _ _); cbn [negb]; [apply apply_user_sat; [in_history|done]|].
    sat_step. sat_step; [|done]. exists user. split; [in_history|]. by left.
  - apply delete_user_sat; [in_history|]. unfold deleting. by destruct (meta_DeletionTimestamp _).
Qed.
End requests.

(** ** Equality of maps *)

(** A missing key reads as the empty string, so the comparison is exact for maps
    without empty values. *)
Lemma mapsEqual_exact left right :
  map_Forall (fun _ value => value <> "") left -> mapsEqual left right = true <-> left = right.
Proof.
  intros Hne. unfold mapsEqual. rewrite andb_true_iff, Nat.eqb_eq, bool_decide_eq_true. split.
  - intros [Hs Hm]. apply map_subseteq_size_eq; [|lia]. apply map_subseteq_spec. intros k v Hk.
    specialize (Hm k v Hk). specialize (Hne k v Hk). simpl in Hm, Hne. rewrite lookup_total_alt in Hm.
    destruct (right !! k) as [w|]; simpl in Hm; [by subst|]. by subst.
  - intros ->. split; [done|]. intros k v Hk. by rewrite lookup_total_alt, Hk.
Qed.

(** ** Readiness after an edit

    A hub on which nobody else writes: it holds one database and its directive. *)
Section edited.
Context {K : KubeLib} {L : KubeLaws K} {JD : Json PostgresDatabaseSpec}.

Definition failed : Error := errors_New "not served".
Definition quiet_hub (instance : MultiSitePostgres) (r : Req) (s : PostgresDatabase * ConfigMap) :
  Resp r * (PostgresDatabase * ConfigMap) :=
  match r return Resp r * _ with
  | Get KDatabase _ _ => (Ok s.1, s)
  | Get KInstance _ _ => (Ok instance, s)
  | Get KConfigMap _ _ => (Ok s.2, s)
  | UpdateStatus KDatabase o => (Ok o, (o, s.2))
  | Update KConfigMap cm => (Ok cm, (s.1, cm))
  | Get _ _ _ | Create _ _ | Update _ _ | UpdateStatus _ _ | Patch _ _ _ | PatchStatus _ _ _ => (Err failed, s)
  | List _ _ _ | ListHasLabel _ _ | ListField _ _ _ _ => (Err failed, s)
  | Delete _ _ => (Err failed, s)
  | Eventf _ _ _ _ _ _ => (tt, s)
  | Now => (0%Z, s)
  | RandomBytes _ => (Err failed, s)
  | Env e => (MemServer.no_environment e, s)
  end.

Definition after (instance : MultiSitePostgres) (ns n : string) (s : PostgresDatabase * ConfigMap) : PostgresDatabase * ConfigMap :=
  (run (quiet_hub instance) (database_Reconcile ns n) s []).1.2.

(** The database after one reconcile while it lives. *)
Lemma after_apply instance ns n database cm encoded :
  meta_DeletionTimestamp (db_Meta database) = None -> ContainsFinalizer (db_Meta database) childFinalizer = true ->
  json_Marshal (db_Spec database) = Ok encoded ->
  let current := dbst_ObservedGeneration (db_Status database) == meta_Generation (db_Meta database) in
  let succeeded := conditionTrue (dbst_Conditions (db_Status database)) "Succeeded" in
  let database' := (after instance ns n (database, cm)).1 in
  db_Meta database' = db_Meta database /\ db_Spec database' = db_Spec database /\
  (forall t, t <> "Ready" -> FindStatusCondition (dbst_Conditions (db_Status database')) t =
     FindStatusCondition (dbst_Conditions (db_Status database)) t) /\
  dbst_ObservedGeneration (db_Status database') = meta_Generation (db_Meta database) /\
  (current && succeeded = true -> dbst_Phase (db_Status database') = "Ready" /\
     conditionTrue (dbst_Conditions (db_Status database')) "Ready" = true).
Proof.
  intros Hd Hf Hj current succeeded. unfold after, database_Reconcile. cbn [bind call run quiet_hub fst snd].
  rewrite Hd, Hf. cbn [is_nil negb andb]. unfold apply_database, reconcileDirective. rewrite Hj.
  cbn -[directive_data bool_decide set_database_condition].
  assert (Hfind : forall db status reason message t, t <> "Ready" ->
    FindStatusCondition (dbst_Conditions (db_Status (set_database_condition db "Ready" status reason message))) t =
    FindStatusCondition (dbst_Conditions (db_Status db)) t).
  { intros. cbn. rewrite find_setCondition. by rewrite bool_decide_eq_false_2. }
  destruct (mapsEqual _ _); cbn -[directive_data bool_decide set_database_condition];
    fold current; fold succeeded;
    (destruct (current && succeeded) eqn:Ec;
     [apply andb_prop in Ec as [Ec _]; apply bool_decide_eq_true in Ec;
      destruct ((dbst_Phase _ == _) && _) eqn:Er; cbn -[bool_decide set_database_condition];
      [apply andb_prop in Er as [Er ?]; apply bool_decide_eq_true in Er; done|]
     |destruct (conditionTrue (st_Conditions _) _); cbn -[bool_decide set_database_condition]]);
    (split; [done|]; split; [done|]; split; [intros; by rewrite Hfind|]; split; [done|]; try done);
    (intros _; split; [done|]; cbn; by rewrite conditionTrue_setCondition).
Qed.

(** A database that was applied once and is then edited is reported
    ready before any agent has applied the edit: as soon as it is reconciled
    twice, with no result recorded in between, its status claims the new
    generation and is Ready, on the strength of the success of the old one. *)
Theorem edited_database_ready_before_applied instance ns n database cm encoded :
  meta_DeletionTimestamp (db_Meta database) = None -> ContainsFinalizer (db_Meta database) childFinalizer = true ->
  json_Marshal (db_Spec database) = Ok encoded ->
  conditionTrue (dbst_Conditions (db_Status database)) "Succeeded" = true ->
  let twice := (after instance ns n (after instance ns n (database, cm))).1 in
  FindStatusCondition (dbst_Conditions (db_Status twice)) "Succeeded" =
    FindStatusCondition (dbst_Conditions (db_Status database)) "Succeeded" /\
  dbst_ObservedGeneration (db_Status twice) = meta_Generation (db_Meta database) /\
  dbst_Phase (db_Status twice) = "Ready" /\ conditionTrue (dbst_Conditions (db_Status twice)) "Ready" = true.
Proof.
  intros Hd Hf Hj Hs. destruct (after instance ns n (database, cm)) as [d1 cm1] eqn:E1.
  destruct (after_apply instance ns n database cm encoded Hd Hf Hj) as (Hm & Hsp & Hc & Hg & _).
  rewrite E1 in *. cbn [fst] in *.
  destruct (after_apply instance ns n d1 cm1 encoded) as (Hm2 & _ & Hc2 & Hg2 & Hr2); [congruence..|].
  cbn [fst]. rewrite Hc2, Hc, Hg2, Hm by done. split; [done|]. split; [done|]. apply Hr2.
  rewrite Hg, Hm, bool_decide_eq_true_2 by done. unfold conditionTrue in *. by rewrite Hc.
Qed.
End edited.

(** ** Witnesses *)
Module RefDeclarations.
Import RefCodec.
#[global] Instance serial_RoleQuotas : Serial RoleQuotas.
Proof.
  refine (serial_iso (fun r => (rq_ConnectionLimit r, rq_StatementTimeout r, rq_LockTimeout r, rq_IdleInTransactionSessionTimeout r, rq_TempFileLimit r))
    (fun '(x0, x1, x2, x3, x4) => Some (mkRoleQuotas x0 x1 x2 x3 x4)) _).
  by intros [].
Defined.
#[global] Instance serial_DatabaseQuotas : Serial DatabaseQuotas.
Proof.
  refine (serial_iso (fun r => (dq_RoleQuotas r, dq_StorageAlertThreshold r))
    (fun '(x0, x1) => Some (mkDatabaseQuotas x0 x1)) _).
  by intros [].
Defined.
#[global] Instance serial_DatabaseRole : Serial DatabaseRole.
Proof.
  refine (serial_iso (fun r => (dr_Name r, dr_Profile r))
    (fun '(x0, x1) => Some (mkDatabaseRole x0 x1)) _).
  by intros [].
Defined.
#[global] Instance serial_PostgresDatabaseSpec : Serial PostgresDatabaseSpec.
Proof.
  refine (serial_iso (fun r => (dbs_InstanceRef r, dbs_DatabaseName r, dbs_DeletionPolicy r, dbs_Schemas r, dbs_Roles r, dbs_Quotas r))
    (fun '(x0, x1, x2, x3, x4, x5) => Some (mkPostgresDatabaseSpec x0 x1 x2 x3 x4 x5)) _).
  by intros [].
Defined.
#[global] Instance serial_RoleMembership : Serial RoleMembership.
Proof.
  refine (serial_iso (fun r => (rm_DatabaseRef r, rm_Role r))
    (fun '(x0, x1) => Some (mkRoleMembership x0 x1)) _).
  by intros [].
Defined.
#[global] Instance serial_PostgresUserSpec : Serial PostgresUserSpec.
Proof.
  refine (serial_iso (fun r => (usrs_InstanceRef r, usrs_RoleName r, usrs_DeletionPolicy r, usrs_MemberOf r, usrs_PasswordVaultRef r, usrs_Quotas r))
    (fun '(x0, x1, x2, x3, x4, x5) => Some (mkPostgresUserSpec x0 x1 x2 x3 x4 x5)) _).
  by intros [].
Defined.
#[global] Instance json_database : Json PostgresDatabaseSpec := json_of id.
#[global] Instance json_user : Json PostgresUserSpec := json_of id.
#[global] Instance json_database_laws : JsonLaws PostgresDatabaseSpec json_database := json_of_laws id.
#[global] Instance json_user_laws : JsonLaws PostgresUserSpec json_user := json_of_laws id.

(** Applied at generation 1 and edited since. *)
Definition edited : PostgresDatabase := mkPostgresDatabase
  (zero_ObjectMeta <| meta_Namespace := "ns" |> <| meta_Name := "orders" |> <| meta_UID := "u" |>
     <| meta_Generation := 2%Z |> <| meta_Finalizers := [childFinalizer] |>)
  (mkPostgresDatabaseSpec "main" "orders" DeletionPolicyRetain ["audit"] [] zero_DatabaseQuotas)
  (zero_PostgresDatabaseStatus <| dbst_ObservedGeneration := 1%Z |> <| dbst_Phase := "Ready" |>
     <| dbst_Conditions := [mkCondition "Succeeded" ConditionTrue 1 "SQLApplied" "";
          mkCondition "Ready" ConditionTrue 1 "DatabaseReconciled" ""] |>).
Definition applied : ConfigMap := mkConfigMap (zero_ObjectMeta <| meta_Namespace := "ns" |> <| meta_Name := "mspsql-database-orders" |>) ∅.
End RefDeclarations.

Lemma database_reconcile_safe_witness :
  sat (database_request "ns" "orders") done_ [] (database_Reconcile "ns" "orders").
Proof. apply (database_reconcile_safe "ns" "orders"). Defined.

Lemma user_reconcile_safe_witness :
  sat (user_request "ns" "app") done_ [] (user_Reconcile "ns" "app").
Proof. apply (user_reconcile_safe "ns" "app"). Defined.

Lemma edited_database_ready_before_applied_witness :
  let twice := (after zero_MultiSitePostgres "ns" "orders" (after zero_MultiSitePostgres "ns" "orders"
    (RefDeclarations.edited, RefDeclarations.applied))).1 in
  dbst_ObservedGeneration (db_Status RefDeclarations.edited) = 1%Z /\
  dbst_ObservedGeneration (db_Status twice) = 2%Z /\ dbst_Phase (db_Status twice) = "Ready".
Proof.
  destruct (json_Marshal (db_Spec RefDeclarations.edited)) as [encoded|e] eqn:E; [|vm_compute in E; discriminate].
  destruct (edited_database_ready_before_applied zero_MultiSitePostgres "ns" "orders" RefDeclarations.edited
    RefDeclarations.applied encoded) as (_ & H1 & H2 & _); [reflexivity|reflexivity|exact E|reflexivity|].
  split; [reflexivity|]. split; [exact H1|exact H2].
Defined.
