(* ===== verification/Admission.v ===== *)
(** * Admission

    [internal/webhook/v1alpha1]: the defaults and checks applied to a resource
    when it is created or updated.  A check returns the list of field errors;
    an object is admitted when the list is empty.  A field error holds the kind
    of the error, the path and the detail; the offending value, which is only
    printed, is left out.  Loops over map literals run in an unspecified order
    in Go and in the order of the literal here. *)

From S2P Require Import Prelude Utf8 Prog Api Kube Codec NetAddr Plan Members Topology Backups.

(** ** Libraries *)

(** [k8s.io/apimachinery/pkg/util/validation]: the messages for a value that is
    not a DNS label or subdomain. *)
Class NameRules := {
  IsDNS1123Label : string -> list string;
  IsDNS1123Subdomain : string -> list string;
}.

Definition is_lower_alnum (c : ascii) : bool :=
  let n := N_of_ascii c in ((97 <=? n) && (n <=? 122) || (48 <=? n) && (n <=? 57))%N.
Definition all_chars (p : ascii -> bool) (s : string) : bool := forallb p (String.list_ascii_of_string s).

(** Lower case letters, digits and hyphens, starting and ending with a letter or
    digit. *)
Definition label_text (s : string) : bool :=
  match String.list_ascii_of_string s with
  | [] => false
  | c :: l => is_lower_alnum c && is_lower_alnum (List.last l c) && all_chars (fun c => is_lower_alnum c || (c == "-"%char)) s
  end.
Definition dns_label (s : string) : bool := label_text s && (String.length s <=? 63)%nat.
Definition dns_subdomain (s : string) : bool := forallb label_text (Split s ".") && (String.length s <=? 253)%nat.

Class NameLaws (N : NameRules) := {
  label_exact s : IsDNS1123Label s = [] <-> dns_label s = true;
  subdomain_exact s : IsDNS1123Subdomain s = [] <-> dns_subdomain s = true;
}.

(** ** Field errors *)
Inductive ErrorType := Required | Invalid | Duplicate | Forbidden | TooLong.
Record FieldError := mkFieldError { fe_Type : ErrorType; fe_Path : string; fe_Detail : string }.

(** [path.Child(name)] and [path.Index(i)] *)
Definition Child (path name : string) : string := path +:+ "." +:+ name.
Definition Index (path : string) (i : nat) : string := path +:+ "[" +:+ FormatInt (Z.of_nat i) +:+ "]".

(** One error if the condition holds. *)
Definition when (b : bool) (e : FieldError) : list FieldError := if b then [e] else [].

(** What the API server is told. *)
Inductive Refusal := Fields (errs : list FieldError) | BadRequest (message : string) | Refused (message : string).

(** [errs.ToAggregate()] *)
Definition ToAggregate (errs : list FieldError) : option Refusal :=
  match errs with [] => None | _ => Some (Fields errs) end.

Section admission.
Context {N : NameRules} {U : UrlLib} {Cr : CronLib}.

(** ** Site registrations *)

(** One round of the loop over the rollback policies; [seen] are the storage
    classes before it. *)
Definition check_rollback_policy (permitted : list string) (policyPath : string) (seen : list string)
  (policy : StorageRollbackPolicy) : list FieldError :=
  when (slices_Contains seen (srp_StorageClassName policy))
    (mkFieldError Duplicate (Child policyPath "storageClassName") "") ++
  when (negb (slices_Contains permitted (srp_StorageClassName policy)))
    (mkFieldError Invalid (Child policyPath "storageClassName") "must be a permitted PostgreSQL StorageClass") ++
  when ((srp_Strategy policy == "VolumeSnapshot") && (srp_VolumeSnapshotClassName policy == ""))
    (mkFieldError Required (Child policyPath "volumeSnapshotClassName") "required for VolumeSnapshot rollback") ++
  when ((srp_Strategy policy == "PVCClone") && (srp_VolumeSnapshotClassName policy != ""))
    (mkFieldError Forbidden (Child policyPath "volumeSnapshotClassName") "PVCClone does not use a VolumeSnapshotClass").

(** A loop over a list with its indices and the keys seen so far. *)
Fixpoint each {A} (key : A -> string) (check : nat -> list string -> A -> list FieldError)
  (i : nat) (seen : list string) (l : list A) : list FieldError :=
  match l with
  | [] => []
  | x :: l => check i seen x ++ each key check (S i) (key x :: seen) l
  end.

Definition validateSiteRegistration (obj : SiteRegistration) : list FieldError :=
  each srp_StorageClassName
    (fun i => check_rollback_policy (scp_Postgres (regs_PermittedStorageClasses (reg_Spec obj)))
       (Index "spec.storageRollbackPolicies" i)) 0 [] (regs_StorageRollbackPolicies (reg_Spec obj)).

(** ** Defaults *)
Definition defaultIssuer (ref : IssuerReference) : IssuerReference :=
  let ref := if ir_Kind ref == "" then ref <| ir_Kind := "ClusterIssuer" |> else ref in
  if ir_Group ref == "" then ref <| ir_Group := "cert-manager.io" |> else ref.

Definition default_certificates (c : SiteCertificateSpec) : SiteCertificateSpec :=
  let c := c <| crt_EtcdIssuerRef ::= defaultIssuer |> <| crt_EtcdPeerIssuerRef ::= defaultIssuer |>
    <| crt_EtcdClientIssuerRef ::= defaultIssuer |> <| crt_PostgresIssuerRef ::= defaultIssuer |>
    <| crt_PgpoolIssuerRef ::= defaultIssuer |> in
  let c := if ir_Name (crt_BackupIssuerRef c) == "" then c <| crt_BackupIssuerRef := crt_PostgresIssuerRef c |> else c in
  c <| crt_BackupIssuerRef ::= defaultIssuer |>.

Definition default_backup (b : BackupSpec) : BackupSpec :=
  let b := if bret_Duration (bk_Retention b) == 0%Z
    then b <| bk_Retention ::= fun r => r <| bret_Duration := (7 * 24 * hour)%Z |> |> else b in
  let b := if bret_WALDuration (bk_Retention b) == 0%Z
    then b <| bk_Retention ::= fun r => r <| bret_WALDuration := (7 * 24 * hour)%Z |> |> else b in
  let b := if br_Region (bk_Repository b) == ""
    then b <| bk_Repository ::= fun r => r <| br_Region := "us-east-1" |> |> else b in
  if br_URIStyle (bk_Repository b) == ""
  then b <| bk_Repository ::= fun r => r <| br_URIStyle := "host" |> |> else b.

Definition defaultInstance (obj : MultiSitePostgres) : MultiSitePostgres :=
  let obj := if spec_DeletionPolicy (msp_Spec obj) == ""
    then obj <| msp_Spec ::= fun s => s <| spec_DeletionPolicy := DeletionPolicyRetain |> |> else obj in
  obj <| msp_Spec ::= fun s => s <| spec_Backup ::= fmap default_backup |>
    <| spec_Sites ::= fmap (fun site => site <| site_Certificates ::= default_certificates |>) |> |>.

(** ** Vault references *)
Definition nul : ascii := "000".
Definition cr : ascii := "013".
Definition lf : ascii := "010".
Definition line_breaks : string := String cr (String lf "").
Definition line_breaks_nul : string := String nul line_breaks.

Definition validateVaultPath (valuePath value : string) : list FieldError :=
  let problem := mkFieldError Invalid valuePath "must be a normalized single-line Vault path" in
  if value == "" then [mkFieldError Required valuePath "required"]
  else if (1024 <? String.length value)%nat || (Trim value "/" != value) || ContainsAny value line_breaks_nul ||
    Contains value "//" then [problem]
  else when (existsb (fun segment => (segment == "") || (segment == ".") || (segment == "..")) (Split value "/")) problem.

Definition validateVaultSecretReference (referencePath : string) (reference : VaultSecretReference)
  (requireKey : bool) : list FieldError :=
  validateVaultPath (Child referencePath "mount") (vs_Mount reference) ++
  validateVaultPath (Child referencePath "path") (vs_Path reference) ++
  (if requireKey || (vs_Key reference != "") then
     if vs_Key reference == "" then [mkFieldError Required (Child referencePath "key") "required"]
     else when ((253 <? String.length (vs_Key reference))%nat || ContainsAny (vs_Key reference) line_breaks_nul)
       (mkFieldError Invalid (Child referencePath "key") "must be a single-line key no longer than 253 bytes")
   else []).

(** [ref != nil && ref.Name == ""] *)
Definition unnamed (ref : option SecretKeyReference) : bool :=
  match ref with Some ref => skr_Name ref == "" | None => false end.

(** ** Backups *)
Definition validateBackupRepository (repository : BackupRepositorySpec) (repositoryPath : string) : list FieldError :=
  mjoin ((fun '(name, value) => when (ContainsAny value line_breaks)
      (mkFieldError Invalid (Child repositoryPath name) "must be a single line")) <$>
    [("bucket", br_Bucket repository); ("prefix", br_Prefix repository); ("region", br_Region repository)]) ++
  (if br_Endpoint repository != "" then
     match url_Parse (br_Endpoint repository) with
     | Ok endpoint => when ((url_Scheme endpoint != "https") || (url_Hostname endpoint == ""))
         (mkFieldError Invalid (Child repositoryPath "endpoint") "must be an absolute HTTPS URL")
     | Err _ => [mkFieldError Invalid (Child repositoryPath "endpoint") "must be an absolute HTTPS URL"]
     end
   else []) ++
  when (unnamed (br_CABundleSecretRef repository))
    (mkFieldError Required (Child (Child repositoryPath "caBundleSecretRef") "name") "required") ++
  validateVaultSecretReference (Child repositoryPath "credentialVaultRef") (br_CredentialVaultRef repository) false.

Definition validateBackupSchedules (schedules : BackupSchedules) (schedulesPath : string) : list FieldError :=
  let timezone := if bsch_Timezone schedules == "" then "UTC" else bsch_Timezone schedules in
  match LoadLocation timezone with
  | Err _ => [mkFieldError Invalid (Child schedulesPath "timezone") "must be an IANA timezone"]
  | Ok _ =>
      mjoin ((fun '(name, expression) =>
          if expression == "" then []
          else match ParseStandard ("CRON_TZ=" +:+ timezone +:+ " " +:+ expression) with
               | Ok _ => []
               | Err e => [mkFieldError Invalid (Child schedulesPath name) (err_text e)]
               end) <$>
        [("full", bsch_Full schedules); ("differential", bsch_Differential schedules);
         ("incremental", bsch_Incremental schedules)])
  end.

(** ** Instances *)
Definition validateDataSite (site : PostgresSiteSpec) (sitePath : string) : list FieldError :=
  let components := site_Components site in
  if site_Role site == SiteRoleWitness then
    when ((sc_PostgresReplicas components != 0%Z) || (sc_PgpoolReplicas components != 0%Z))
      (mkFieldError Invalid (Child sitePath "components") "witness sites cannot run PostgreSQL or Pgpool")
  else
    when (sc_PostgresReplicas components == 0%Z)
      (mkFieldError Invalid (Child (Child sitePath "components") "postgresReplicas")
         "data sites require at least one PostgreSQL replica") ++
    when (is_nil (ss_Postgres (site_Storage site)) || is_nil (ss_Etcd (site_Storage site)))
      (mkFieldError Required (Child sitePath "storage") "data sites require etcd and PostgreSQL storage") ++
    match site_VaultAuth site with
    | None => [mkFieldError Required (Child sitePath "vaultAuth") "data sites require Vault authentication"]
    | Some vault =>
        let vaultPath := Child sitePath "vaultAuth" in
        match url_Parse (va_Address vault) with
        | Ok address => when ((url_Scheme address != "https") || (url_Host address == ""))
            (mkFieldError Invalid (Child vaultPath "address") "must be an absolute HTTPS URL")
        | Err _ => [mkFieldError Invalid (Child vaultPath "address") "must be an absolute HTTPS URL"]
        end ++
        when (va_AuthMount vault == "") (mkFieldError Required (Child vaultPath "authMount") "required") ++
        when (va_AuthRole vault == "") (mkFieldError Required (Child vaultPath "authRole") "required") ++
        when (unnamed (va_CABundleSecretRef vault))
          (mkFieldError Required (Child (Child vaultPath "caBundleSecretRef") "name") "required")
    end.

Definition namespace_key (site : PostgresSiteSpec) : string :=
  site_SiteRegistrationRef site +:+ "/" +:+ site_Namespace site.

(** The loop over the sites, with the names and the namespaces seen so far. *)
Fixpoint validate_sites (i : nat) (siteNames siteNamespaces : list string) (sites : list PostgresSiteSpec) :
  list FieldError :=
  match sites with
  | [] => []
  | site :: sites =>
      let p := Index "spec.sites" i in
      when (slices_Contains siteNames (site_Name site)) (mkFieldError Duplicate (Child p "name") "") ++
      when (slices_Contains siteNamespaces (namespace_key site)) (mkFieldError Duplicate (Child p "namespace") "") ++
      ((fun msg => mkFieldError Invalid (Child p "namespace") msg) <$> IsDNS1123Label (site_Namespace site)) ++
      validateDataSite site p ++
      validate_sites (S i) (site_Name site :: siteNames) (namespace_key site :: siteNamespaces) sites
  end.

(** [sum += f(site)] over the sites, in 32 bits. *)
Definition sum32 (f : PostgresSiteSpec -> Z) (sites : list PostgresSiteSpec) : Z :=
  foldl (fun sum site => int32 (sum + f site)) 0%Z sites.
Definition total_etcd : list PostgresSiteSpec -> Z := sum32 (fun site => sc_EtcdReplicas (site_Components site)).
Definition total_postgres : list PostgresSiteSpec -> Z := sum32 (fun site => sc_PostgresReplicas (site_Components site)).

Definition validate_tde (tde : TDESpec) : list FieldError :=
  let tdePath := "spec.tde.vault" in
  if negb (tde_Enabled tde) then []
  else match tde_Vault tde with
  | None => [mkFieldError Required tdePath "TDE requires a Vault key identity"]
  | Some vault =>
      validateVaultPath (Child tdePath "kvMount") (tv_KVMount vault) ++
      validateVaultPath (Child tdePath "keyPath") (tv_KeyPath vault) ++
      mjoin ((fun '(name, value) =>
          if value == "" then [mkFieldError Required (Child tdePath name) "required"]
          else when ((63 <? String.length value)%nat || ContainsAny value line_breaks)
            (mkFieldError Invalid (Child tdePath name) "must be a single-line name no longer than 63 bytes")) <$>
        [("providerName", tv_ProviderName vault); ("principalKeyName", tv_PrincipalKeyName vault)])
  end.

Definition validateInstance (obj : MultiSitePostgres) : list FieldError :=
  let spec := msp_Spec obj in
  let sites := spec_Sites spec in
  let etcd := total_etcd sites in
  let postgres := total_postgres sites in
  when (negb (Contains (pg_Image (spec_Postgres spec)) "@sha256:"))
    (mkFieldError Invalid "spec.postgres.image" "must be pinned by sha256 digest") ++
  validate_sites 0 [] [] sites ++
  when ((etcd <? 3)%Z || (Z.rem etcd 2 == 0%Z))
    (mkFieldError Invalid "spec.sites" "total etcd voters must be odd and at least three") ++
  when (postgres <? 2)%Z (mkFieldError Invalid "spec.sites" "at least two PostgreSQL replicas are required") ++
  when (postgres <=? pg_SynchronousStandbyCount (spec_Postgres spec))%Z
    (mkFieldError Invalid "spec.postgres.synchronousStandbyCount" "must be lower than total PostgreSQL replicas") ++
  validate_tde (spec_TDE spec) ++
  validateVaultSecretReference "spec.credentials.postgresVaultRef" (ics_PostgresVaultRef (spec_Credentials spec)) false ++
  (if existsb (fun site => (0 <? sc_PgpoolReplicas (site_Components site))%Z) sites then
     validateVaultSecretReference "spec.credentials.pgpoolVaultRef" (ics_PgpoolVaultRef (spec_Credentials spec)) false
   else []) ++
  match spec_Backup spec with
  | None => []
  | Some backup =>
      when (Trim (br_Prefix (bk_Repository backup)) "/" == "")
        (mkFieldError Required "spec.backup.repository.prefix" "backup prefix must identify this instance") ++
      validateBackupRepository (bk_Repository backup) "spec.backup.repository" ++
      validateBackupSchedules (bk_Schedules backup) "spec.backup.schedules"
  end.

(** ** Declarations *)
Definition protectedRoles : list string := ["postgres"; "replication"; "patroni"; "pgbackrest"; "pgpool"].
Definition protectedRole (name : string) : bool := slices_Contains protectedRoles name || HasPrefix name "mspsql_".

Definition validateSQLIdentifier (identifierPath value : string) : list FieldError :=
  if value == "" then [mkFieldError Required identifierPath "required"]
  else if (63 <? String.length value)%nat then [mkFieldError TooLong identifierPath ""]
  else match runes value with
  | None => [mkFieldError Invalid identifierPath "must be valid UTF-8"]
  | Some characters => when (existsb (fun c => (c == 0%Z) || IsControl c) characters)
      (mkFieldError Invalid identifierPath "must not contain NUL or control characters")
  end.

(** A subdomain check whose messages are joined into one error. *)
Definition check_subdomain (path value : string) : list FieldError :=
  match IsDNS1123Subdomain value with [] => [] | msgs => [mkFieldError Invalid path (Join msgs "; ")] end.

Definition check_role (i : nat) (seen : list string) (role : DatabaseRole) : list FieldError :=
  let p := Child (Index "spec.roles" i) "name" in
  validateSQLIdentifier p (dr_Name role) ++
  when (protectedRole (dr_Name role)) (mkFieldError Forbidden p "infrastructure role is protected") ++
  when (slices_Contains seen (dr_Name role)) (mkFieldError Duplicate p "").

Definition owners (roles : list DatabaseRole) : nat := length (List.filter (fun role => dr_Profile role == "Owner") roles).

Definition validateDatabase (obj : PostgresDatabase) : list FieldError :=
  let spec := db_Spec obj in
  when (dbs_InstanceRef spec == "") (mkFieldError Required "spec.instanceRef" "instance is required") ++
  check_subdomain "spec.databaseName" (dbs_DatabaseName spec) ++
  validateSQLIdentifier "spec.databaseName" (dbs_DatabaseName spec) ++
  each dr_Name check_role 0 [] (dbs_Roles spec) ++
  when (1 <? owners (dbs_Roles spec))%nat (mkFieldError Invalid "spec.roles" "at most one Owner role is permitted") ++
  each id (fun i _ schema => validateSQLIdentifier (Index "spec.schemas" i) schema) 0 [] (dbs_Schemas spec).

Definition membership_key (m : RoleMembership) : string := rm_DatabaseRef m +:+ String nul (rm_Role m).

Definition check_membership (i : nat) (seen : list string) (membership : RoleMembership) : list FieldError :=
  let membershipPath := Index "spec.memberOf" i in
  check_subdomain (Child membershipPath "databaseRef") (rm_DatabaseRef membership) ++
  validateSQLIdentifier (Child membershipPath "role") (rm_Role membership) ++
  when (slices_Contains seen (membership_key membership)) (mkFieldError Duplicate membershipPath "").

Definition validateUser (obj : PostgresUser) : list FieldError :=
  let spec := usr_Spec obj in
  when (usrs_InstanceRef spec == "") (mkFieldError Required "spec.instanceRef" "instance is required") ++
  validateSQLIdentifier "spec.roleName" (usrs_RoleName spec) ++
  when (protectedRole (usrs_RoleName spec)) (mkFieldError Forbidden "spec.roleName" "infrastructure role is protected") ++
  validateVaultSecretReference "spec.passwordVaultRef" (usrs_PasswordVaultRef spec) true ++
  each membership_key check_membership 0 [] (usrs_MemberOf spec).

(** ** Operations *)
Definition validateRestore (obj : PostgresRestore) : list FieldError :=
  let spec := res_Spec obj in
  mjoin ((fun '(name, value) =>
      if value == "" then [mkFieldError Required (Child "spec" name) "required"]
      else mkFieldError Invalid (Child "spec" name) <$> IsDNS1123Subdomain value) <$>
    [("sourceInstanceRef", rs_SourceInstanceRef spec); ("targetInstanceRef", rs_TargetInstanceRef spec)]) ++
  when (rs_SourceInstanceRef spec == rs_TargetInstanceRef spec)
    (mkFieldError Invalid "spec.targetInstanceRef" "in-place restore is forbidden") ++
  when (time_IsZero (rs_TargetTime spec)) (mkFieldError Required "spec.targetTime" "time-based PITR target is required") ++
  match rs_TargetBackup spec with
  | None => []
  | Some backup =>
      when (Trim (br_Prefix (bk_Repository backup)) "/" == "")
        (mkFieldError Required "spec.targetBackup.repository.prefix" "backup prefix must identify the restored instance") ++
      validateBackupRepository (bk_Repository backup) "spec.targetBackup.repository" ++
      validateBackupSchedules (bk_Schedules backup) "spec.targetBackup.schedules"
  end.

Definition pinned (image : string) : bool := Contains image "@sha256:".

Definition validate_upgrade_benchmark (benchmark : MajorUpgradeBenchmark) : option Refusal :=
  let path := "spec.benchmark" in
  let refuse ty p d := Some (Fields [mkFieldError ty p d]) in
  if time_IsZero (bm_TestedAt benchmark) then refuse Required (Child path "testedAt") "a benchmark timestamp is required"
  else if (bm_EstimatedWriteOutage benchmark <=? 0)%Z then
    refuse Invalid (Child path "estimatedWriteOutage") "must be positive"
  else if (bm_UpgradeImage benchmark == "") || (bm_Evidence benchmark == "") then
    refuse Required path "upgradeImage and evidence are required"
  else if negb (pinned (bm_UpgradeImage benchmark)) || negb (pinned (bm_Evidence benchmark)) then
    refuse Invalid path "upgradeImage and evidence must be immutable sha256 references"
  else if (bm_SourceMajorVersion benchmark <? 14)%Z || (bm_TargetMajorVersion benchmark <=? bm_SourceMajorVersion benchmark)%Z then
    refuse Invalid path "sourceMajorVersion must be supported and lower than targetMajorVersion"
  else if bm_PostgresStorageClasses benchmark == [] then
    refuse Required (Child path "postgresStorageClasses") "at least one tested StorageClass is required"
  else None.

Definition validateUpgrade (obj : PostgresUpgrade) : option Refusal :=
  let spec := upg_Spec obj in
  let refuse ty p d := Some (Fields [mkFieldError ty p d]) in
  if (us_InstanceRef spec == "") || (us_TargetImage spec == "") then
    Some (Refused "instanceRef and targetImage are required")
  else if negb (pinned (us_TargetImage spec)) then refuse Invalid "spec.targetImage" "must be pinned by sha256 digest"
  else if (us_UpgradeImage spec != "") && negb (pinned (us_UpgradeImage spec)) then
    refuse Invalid "spec.upgradeImage" "must be pinned by sha256 digest"
  else if (us_ServiceRestorationTarget spec <=? 0)%Z then refuse Invalid "spec.serviceRestorationTarget" "must be positive"
  else if (us_RollbackRetention spec <=? 0)%Z then refuse Invalid "spec.rollbackRetention" "must be positive"
  else match us_Benchmark spec with None => None | Some benchmark => validate_upgrade_benchmark benchmark end.

(** ** The webhooks

    [Default] and the validators of creations and updates; deletions are always
    admitted. *)
Definition default_database (obj : PostgresDatabase) : PostgresDatabase :=
  if dbs_DeletionPolicy (db_Spec obj) == ""
  then obj <| db_Spec ::= fun s => s <| dbs_DeletionPolicy := DeletionPolicyRetain |> |> else obj.
Definition default_user (obj : PostgresUser) : PostgresUser :=
  if usrs_DeletionPolicy (usr_Spec obj) == ""
  then obj <| usr_Spec ::= fun s => s <| usrs_DeletionPolicy := DeletionPolicyRetain |> |> else obj.
Definition default_upgrade (obj : PostgresUpgrade) : PostgresUpgrade :=
  let obj := if us_ServiceRestorationTarget (upg_Spec obj) == 0%Z
    then obj <| upg_Spec ::= fun s => s <| us_ServiceRestorationTarget := (15 * minute)%Z |> |> else obj in
  if us_RollbackRetention (upg_Spec obj) == 0%Z
  then obj <| upg_Spec ::= fun s => s <| us_RollbackRetention := (24 * hour)%Z |> |> else obj.

Definition instance_ValidateCreate (obj : MultiSitePostgres) : option Refusal := ToAggregate (validateInstance obj).
Definition instance_ValidateUpdate (oldObj newObj : MultiSitePostgres) : option Refusal := ToAggregate (validateInstance newObj).
Definition database_ValidateCreate (obj : PostgresDatabase) : option Refusal := ToAggregate (validateDatabase obj).
Definition database_ValidateUpdate (oldObj newObj : PostgresDatabase) : option Refusal := ToAggregate (validateDatabase newObj).
Definition user_ValidateCreate (obj : PostgresUser) : option Refusal := ToAggregate (validateUser obj).
Definition user_ValidateUpdate (oldObj newObj : PostgresUser) : option Refusal := ToAggregate (validateUser newObj).
Definition restore_ValidateCreate (obj : PostgresRestore) : option Refusal := ToAggregate (validateRestore obj).
Definition restore_ValidateUpdate (oldObj newObj : PostgresRestore) : option Refusal :=
  if res_Spec oldObj != res_Spec newObj then Some (BadRequest "PostgresRestore spec is immutable")
  else ToAggregate (validateRestore newObj).
Definition upgrade_ValidateCreate (obj : PostgresUpgrade) : option Refusal := validateUpgrade obj.
Definition upgrade_ValidateUpdate (oldObj newObj : PostgresUpgrade) : option Refusal :=
  if upg_Spec oldObj != upg_Spec newObj then Some (BadRequest "PostgresUpgrade spec is immutable")
  else validateUpgrade newObj.
Definition registration_ValidateCreate (obj : SiteRegistration) : option Refusal := ToAggregate (validateSiteRegistration obj).
Definition registration_ValidateUpdate (oldObj newObj : SiteRegistration) : option Refusal :=
  if (regst_ClusterUID (reg_Status oldObj) != "") &&
     (regst_ClusterUID (reg_Status newObj) != regst_ClusterUID (reg_Status oldObj)) then
    Some (Fields [mkFieldError Forbidden "status.clusterUID" "cluster binding is immutable"])
  else if regs_Revoked (reg_Spec oldObj) && negb (regs_Revoked (reg_Spec newObj)) then
    Some (Fields [mkFieldError Forbidden "spec.revoked" "revocation is irreversible; create a new registration"])
  else ToAggregate (validateSiteRegistration newObj).
End admission.

(** ** Lemmas *)
Lemma when_nil b e : when b e = [] <-> b = false.
Proof. by destruct b. Qed.

Lemma ToAggregate_None errs : ToAggregate errs = None <-> errs = [].
Proof. by destruct errs. Qed.

Lemma NoDup_fmap_cons {A} (key : A -> string) x l (seen : list string) :
  ((key x ∉ seen) /\ NoDup (key <$> l) /\ forall k, k ∈ key <$> l -> k ∉ (key x :: seen)) <->
  (NoDup (key <$> (x :: l)) /\ forall k, k ∈ key <$> (x :: l) -> k ∉ seen).
Proof. rewrite fmap_cons, list.NoDup_cons. set_solver. Qed.

(** A loop that looks at one element at a time, and one that also rejects keys
    it has seen. *)
Lemma each_plain {A} (key : A -> string) check (P : A -> Prop) i seen l :
  (forall j seen x, check j seen x = [] <-> P x) -> each key check i seen l = [] <-> Forall P l.
Proof.
  intros HP. revert i seen. induction l as [|y l IH]; intros i seen; simpl; [done|].
  by rewrite app_nil, HP, IH, list.Forall_cons.
Qed.
Lemma each_distinct {A} (key : A -> string) check (P : A -> Prop) i seen l :
  (forall j seen x, check j seen x = [] <-> P x /\ key x ∉ seen) ->
  each key check i seen l = [] <-> Forall P l /\ NoDup (key <$> l) /\ forall k, k ∈ key <$> l -> k ∉ seen.
Proof.
  intros HP. revert i seen. induction l as [|y l IH]; intros i seen; cbn [each].
  - split; [|done]. intros _. split; [constructor|]. split; [apply NoDup_nil_2|set_solver].
  - rewrite app_nil, HP, IH, list.Forall_cons, <- NoDup_fmap_cons. tauto.
Qed.
Lemma each_distinct_top {A} (key : A -> string) check (P : A -> Prop) i l :
  (forall j seen x, check j seen x = [] <-> P x /\ key x ∉ seen) ->
  each key check i [] l = [] <-> Forall P l /\ NoDup (key <$> l).
Proof. intros HP. rewrite (each_distinct _ _ P) by done. set_solver. Qed.

Lemma slices_Contains_false l x : slices_Contains l x = false <-> x ∉ l.
Proof. apply bool_decide_eq_false. Qed.

Lemma NoDup_fmap_same {A B C} (f : A -> B) (g : A -> C) l :
  (forall x y, x ∈ l -> y ∈ l -> f x = f y <-> g x = g y) -> NoDup (f <$> l) <-> NoDup (g <$> l).
Proof.
  induction l as [|x l IH]; intros H; [split; constructor|].
  rewrite !fmap_cons, !list.NoDup_cons, IH, !list_elem_of_fmap by set_solver.
  assert ((exists y, f x = f y /\ y ∈ l) <-> (exists y, g x = g y /\ y ∈ l)) as ->; [|done].
  split; intros (y & E & Hy); exists y; (split; [apply H in E|]); set_solver.
Qed.

(** *** Strings *)
Lemma rev_onto s acc : rev_string_onto s acc = (rev_string s +:+ acc).
Proof.
  unfold rev_string. revert acc. induction s as [|c s IH]; intros acc; simpl; [done|].
  rewrite IH, (IH (String c "")), <- app_assoc_string. done.
Qed.
Lemma rev_cons c s : rev_string (String c s) = (rev_string s +:+ String c "").
Proof. unfold rev_string at 1. simpl. apply rev_onto. Qed.
Lemma rev_app s t : rev_string (s +:+ t) = (rev_string t +:+ rev_string s).
Proof.
  induction s as [|c s IH]; [by rewrite app_nil_string|].
  rewrite app_cons_string, !rev_cons, IH. by rewrite app_assoc_string.
Qed.
Lemma rev_involutive s : rev_string (rev_string s) = s.
Proof.
  induction s as [|c s IH]; [done|]. rewrite rev_cons, rev_app, IH. done.
Qed.

Lemma Split_cons c s sep : exists w ws, Split s sep = w :: ws /\
  Split (String c s) sep = if c == sep then "" :: w :: ws else String c w :: ws.
Proof.
  simpl. destruct (Split s sep) as [|w ws] eqn:E; [|by exists w, ws].
  destruct s as [|d s]; simpl in E; [done|]. case_bool_decide; [done|]. by destruct (Split s sep).
Qed.

Lemma Split_trailing s sep : exists w ws, Split (s +:+ String sep "") sep = w :: ws ++ [""].
Proof.
  induction s as [|c s (w & ws & IH)].
  - exists "", []. simpl. by rewrite bool_decide_eq_true_2.
  - rewrite app_cons_string. destruct (Split_cons c (s +:+ String sep "") sep) as (w' & ws' & E & ->).
    rewrite E in IH. simplify_eq. case_bool_decide; [by exists "", (w :: ws)|by exists (String c w), ws].
Qed.

Lemma Split_double s : Contains s "//" = true -> "" ∈ tail (Split s "/").
Proof.
  induction s as [|c s IH]; [done|]. intros H.
  destruct (Split_cons c s "/") as (w & ws & E & ->).
  change (String.prefix "//" (String c s) || Contains s "//" = true) in H.
  apply orb_true_iff in H as [H|H].
  - apply prefix_spec in H as [t H]. injection H as -> ->.
    destruct (Split_cons "/" t "/") as (w' & ws' & _ & E'). rewrite bool_decide_eq_true_2 in E' by done.
    change ("/" +:+ t) with (String "/" t) in E. rewrite E in E'. simplify_eq.
    rewrite bool_decide_eq_true_2 by done. simpl. set_solver.
  - specialize (IH H). rewrite E in IH. case_bool_decide; simpl in *; set_solver.
Qed.

Lemma trim_left_id s c : (forall t, s <> String c t) -> trim_left s c = s.
Proof. destruct s as [|d s]; [done|]. simpl. intros H. rewrite bool_decide_eq_false_2; [done|]. intros ->. by eapply H. Qed.

(** *** Vault paths *)
Definition segment_ok (segment : string) : bool := (segment != "") && (segment != ".") && (segment != "..").
(** At most 1024 bytes on one line, whose segments between slashes are neither
    empty nor a reference to the current or the parent directory. *)
Definition vault_path (value : string) : bool :=
  (String.length value <=? 1024)%nat && negb (ContainsAny value line_breaks_nul) && forallb segment_ok (Split value "/").

Lemma segments_trimmed value : "" ∉ Split value "/" -> Trim value "/" = value /\ Contains value "//" = false /\ value <> "".
Proof.
  intros H. split; [|split].
  - unfold Trim. rewrite (trim_left_id value).
    + rewrite trim_left_id, rev_involutive; [done|]. intros t E. apply H.
      rewrite <- (rev_involutive value), E, rev_cons.
      destruct (Split_trailing (rev_string t) "/") as (w & ws & ->). set_solver.
    + intros t ->. apply H. destruct (Split_cons "/" t "/") as (w & ws & _ & ->).
      rewrite bool_decide_eq_true_2 by done. set_solver.
  - destruct (Contains value "//") eqn:E; [|done]. apply Split_double in E.
    destruct H. destruct (Split value "/"); simpl in *; set_solver.
  - intros ->. apply H. set_solver.
Qed.

Lemma validateVaultPath_exact valuePath value :
  validateVaultPath valuePath value = [] <-> vault_path value = true.
Proof.
  unfold validateVaultPath, vault_path. rewrite !andb_true_iff, forallb_forall, Nat.leb_le, negb_true_iff.
  assert (Hseg : forall segment, (segment == "") || (segment == ".") || (segment == "..") = negb (segment_ok segment)).
  { intros segment. unfold segment_ok. by repeat case_bool_decide. }
  case_bool_decide as He; [subst; split; [done|]|].
  { intros [_ H]. by specialize (H "" (or_introl eq_refl)). }
  destruct (_ || _) eqn:Eg.
  - split; [done|]. intros [[Hl Hb] Hs].
    destruct (segments_trimmed value) as (Ht & Hd & _).
    { intros Hin%list_elem_of_In%Hs. done. }
    rewrite Ht, Hb, Hd, bool_decide_eq_true_2 in Eg by done. simpl in Eg.
    rewrite !orb_false_r in Eg. apply Nat.ltb_lt in Eg. lia.
  - rewrite when_nil. bool_to_prop. apply Nat.ltb_ge in H. split.
    + intros Hs. split; [split; [done|by bool_to_prop]|]. intros x Hx.
      destruct (segment_ok x) eqn:Ex; [done|].
      assert (existsb (fun segment => (segment == "") || (segment == ".") || (segment == "..")) (Split value "/") = true); [|congruence].
      apply existsb_exists. exists x. by rewrite Hseg, Ex.
    + intros [_ Hs]. apply not_true_iff_false. rewrite existsb_exists. intros (x & Hx & E).
      rewrite Hseg, Hs in E by done. done.
Qed.

Definition vault_key (value : string) : bool :=
  (value != "") && (String.length value <=? 253)%nat && negb (ContainsAny value line_breaks_nul).
Definition vault_reference (reference : VaultSecretReference) (requireKey : bool) : bool :=
  vault_path (vs_Mount reference) && vault_path (vs_Path reference) &&
  (negb requireKey && (vs_Key reference == "") || vault_key (vs_Key reference)).

Lemma validateVaultSecretReference_exact path reference requireKey :
  validateVaultSecretReference path reference requireKey = [] <-> vault_reference reference requireKey = true.
Proof.
  unfold validateVaultSecretReference, vault_reference, vault_key.
  rewrite !app_nil, !validateVaultPath_exact, !andb_true_iff.
  assert (forall P Q R S : Prop, (R <-> S) -> (P /\ Q /\ R) <-> ((P /\ Q) /\ S)) as Hc by tauto.
  apply Hc. clear Hc. rewrite Nat.ltb_antisym.
  destruct requireKey, (decide (vs_Key reference = "")) as [E|E]; simpl;
    rewrite ?(bool_decide_eq_true_2 _ E), ?(bool_decide_eq_false_2 _ E); simpl; try done;
    rewrite when_nil; destruct (_ <=? _)%nat, (ContainsAny _ _); done.
Qed.

(** *** Identifiers *)
Definition sql_identifier (value : string) : bool :=
  (1 <=? String.length value)%nat && (String.length value <=? 63)%nat &&
  match runes value with Some characters => forallb (fun c => negb (IsControl c)) characters | None => false end.

Lemma validateSQLIdentifier_exact path value : validateSQLIdentifier path value = [] <-> sql_identifier value = true.
Proof.
  unfold validateSQLIdentifier, sql_identifier. rewrite Nat.ltb_antisym.
  case_bool_decide as He; [by subst|].
  assert ((1 <=? String.length value)%nat = true) as -> by (by destruct value).
  destruct (String.length value <=? 63)%nat; simpl; [|done]. destruct (runes value) as [characters|]; [|done].
  rewrite when_nil. induction characters as [|r l IH]; [done|]. simpl.
  rewrite orb_false_iff, andb_true_iff, IH, negb_true_iff.
  assert ((r == 0%Z) || IsControl r = IsControl r) as ->; [|done].
  case_bool_decide; [by subst|done].
Qed.

Lemma sql_identifier_printable value : sql_identifier value = true ->
  forall c, c ∈ String.list_ascii_of_string value -> (32 <= code c)%Z /\ code c <> 127%Z.
Proof.
  unfold sql_identifier. intros H c Hin. bool_to_prop.
  destruct (runes value) as [l|] eqn:E; [|done].
  destruct (decide (code c <= 127)%Z) as [Hle|]; [|lia].
  pose proof (decode_runes_ascii _ _ _ E c Hin Hle) as Hl.
  rewrite forallb_forall in *. match goal with H : forall _, _ |- _ => specialize (H _ (proj1 (list_elem_of_In _ _) Hl)) end.
  unfold IsControl in *. bool_to_prop. 
  match goal with H : (_ && _) = false |- _ => apply andb_false_iff in H as [H|H]; bool_to_prop; lia end.
Qed.

(** ** Declarations *)
Definition user_admissible (obj : PostgresUser) : Prop :=
  let spec := usr_Spec obj in
  usrs_InstanceRef spec <> "" /\
  sql_identifier (usrs_RoleName spec) = true /\ protectedRole (usrs_RoleName spec) = false /\
  vault_reference (usrs_PasswordVaultRef spec) true = true /\
  Forall (fun m => dns_subdomain (rm_DatabaseRef m) = true /\ sql_identifier (rm_Role m) = true) (usrs_MemberOf spec) /\
  NoDup ((fun m => (rm_DatabaseRef m, rm_Role m)) <$> usrs_MemberOf spec).

Definition database_admissible (obj : PostgresDatabase) : Prop :=
  let spec := db_Spec obj in
  dbs_InstanceRef spec <> "" /\
  dns_subdomain (dbs_DatabaseName spec) = true /\ sql_identifier (dbs_DatabaseName spec) = true /\
  Forall (fun role => sql_identifier (dr_Name role) = true /\ protectedRole (dr_Name role) = false) (dbs_Roles spec) /\
  NoDup (dr_Name <$> dbs_Roles spec) /\ (owners (dbs_Roles spec) <= 1)%nat /\
  Forall (fun schema => sql_identifier schema = true) (dbs_Schemas spec).

Definition registration_admissible (obj : SiteRegistration) : Prop :=
  let policies := regs_StorageRollbackPolicies (reg_Spec obj) in
  NoDup (srp_StorageClassName <$> policies) /\
  Forall (fun policy =>
    srp_StorageClassName policy ∈ scp_Postgres (regs_PermittedStorageClasses (reg_Spec obj)) /\
    (srp_Strategy policy = "VolumeSnapshot" -> srp_VolumeSnapshotClassName policy <> "") /\
    (srp_Strategy policy = "PVCClone" -> srp_VolumeSnapshotClassName policy = "")) policies.

Section declarations.
Context {N : NameRules} {NL : NameLaws N}.

Lemma check_subdomain_exact path value : check_subdomain path value = [] <-> dns_subdomain value = true.
Proof. rewrite <- subdomain_exact. unfold check_subdomain. by destruct (IsDNS1123Subdomain value). Qed.

Lemma sql_identifier_nul value : sql_identifier value = true -> in_string nul value = false.
Proof.
  intros H. pose proof (sql_identifier_printable _ H) as Hp. clear H.
  induction value as [|c value IH]; [done|]. simpl in *. rewrite IH by set_solver.
  rewrite orb_false_r. apply bool_decide_eq_false. intros E.
  destruct (Hp nul) as [Hn _]; [set_solver|]. by vm_compute in Hn.
Qed.

Lemma membership_key_inj m m' : sql_identifier (rm_Role m) = true -> sql_identifier (rm_Role m') = true ->
  membership_key m = membership_key m' <-> (rm_DatabaseRef m, rm_Role m) = (rm_DatabaseRef m', rm_Role m').
Proof.
  intros H H'. unfold membership_key. split; [|by intros [= -> ->]].
  intros [-> ->]%app_last_sep_inj; [done| |]; by apply sql_identifier_nul.
Qed.

(** A user is admitted, on creation and update, exactly when it names an
    instance, its role is a printable SQL identifier that is not an
    infrastructure role, its password is a well-formed Vault reference with a
    key, and its memberships name a database and a role and are pairwise
    different. *)
Theorem user_admission_exact old obj :
  user_ValidateUpdate old obj = user_ValidateCreate obj /\
  (user_ValidateCreate obj = None <-> user_admissible obj).
Proof.
  split; [done|]. unfold user_ValidateCreate, validateUser, user_admissible.
  rewrite ToAggregate_None, !app_nil, !when_nil, bool_decide_eq_false, validateSQLIdentifier_exact,
    validateVaultSecretReference_exact.
  rewrite (each_distinct_top _ _ (fun m => dns_subdomain (rm_DatabaseRef m) = true /\ sql_identifier (rm_Role m) = true)).
  2: { intros j seen x. unfold check_membership.
       rewrite !app_nil, when_nil, slices_Contains_false, check_subdomain_exact, validateSQLIdentifier_exact. tauto. }
  assert (forall P Q Q', (P -> Q <-> Q') -> (P /\ Q <-> P /\ Q')) as Hc by tauto.
  repeat (apply Hc; intros ?). apply NoDup_fmap_same. intros x y Hx Hy.
  rewrite list.Forall_forall in *. by apply membership_key_inj; apply H3.
Qed.

(** A database is admitted, on creation and update, exactly when it names
    an instance, its name is a DNS subdomain and a printable SQL identifier, its
    roles are pairwise different printable identifiers outside the
    infrastructure roles with at most one owner, and its schemas are printable
    identifiers. *)
Theorem database_admission_exact old obj :
  database_ValidateUpdate old obj = database_ValidateCreate obj /\
  (database_ValidateCreate obj = None <-> database_admissible obj).
Proof.
  split; [done|]. unfold database_ValidateCreate, validateDatabase, database_admissible.
  rewrite ToAggregate_None, !app_nil, !when_nil, bool_decide_eq_false, validateSQLIdentifier_exact, check_subdomain_exact.
  rewrite (each_distinct_top _ _ (fun role => sql_identifier (dr_Name role) = true /\ protectedRole (dr_Name role) = false)).
  2: { intros j seen x. unfold check_role.
       rewrite !app_nil, !when_nil, slices_Contains_false, validateSQLIdentifier_exact. tauto. }
  rewrite (each_plain _ _ (fun schema => sql_identifier schema = true)) by (intros; apply validateSQLIdentifier_exact).
  rewrite Nat.ltb_ge. tauto.
Qed.
End declarations.

(** ** Registrations *)
Lemma registration_exact obj : validateSiteRegistration obj = [] <-> registration_admissible obj.
Proof.
  unfold validateSiteRegistration, registration_admissible.
  rewrite (each_distinct_top _ _ (fun policy =>
    srp_StorageClassName policy ∈ scp_Postgres (regs_PermittedStorageClasses (reg_Spec obj)) /\
    (srp_Strategy policy = "VolumeSnapshot" -> srp_VolumeSnapshotClassName policy <> "") /\
    (srp_Strategy policy = "PVCClone" -> srp_VolumeSnapshotClassName policy = ""))); [tauto|].
  intros j seen x. unfold check_rollback_policy.
  rewrite !app_nil, !when_nil, slices_Contains_false, negb_false_iff. unfold slices_Contains.
  rewrite !andb_false_iff, negb_false_iff, bool_decide_eq_true, !bool_decide_eq_false, bool_decide_eq_true.
  destruct (decide (srp_Strategy x = "VolumeSnapshot")), (decide (srp_Strategy x = "PVCClone")); tauto || congruence.
Qed.

(** The specs and statuses a registration goes through when every update is
    admitted. *)
Definition registration_update (old new : SiteRegistration) : Prop := registration_ValidateUpdate old new = None.

(** Along any sequence of admitted updates of a registration a
    revocation is never taken back, a recorded cluster UID never changes, and
    the rollback policies of the last version are well formed. *)
Theorem registration_history first last :
  rtc registration_update first last ->
  (regs_Revoked (reg_Spec first) = true -> regs_Revoked (reg_Spec last) = true) /\
  (regst_ClusterUID (reg_Status first) <> "" ->
    regst_ClusterUID (reg_Status last) = regst_ClusterUID (reg_Status first)) /\
  (registration_admissible first -> registration_admissible last).
Proof.
  induction 1 as [x|x y z Hxy _ (IHr & IHc & IHp)]; [done|].
  unfold registration_update, registration_ValidateUpdate in Hxy.
  destruct ((_ != _) && _) eqn:Ec in Hxy; [done|]. destruct (regs_Revoked _ && _) eqn:Er in Hxy; [done|].
  apply ToAggregate_None, registration_exact in Hxy.
  split; [|split; [|auto]].
  - intros Hr. rewrite Hr in Er. simpl in Er. apply IHr. by apply negb_false_iff in Er.
  - intros Hc. apply andb_false_iff in Ec as [Ec|Ec]; bool_to_prop; [done|]. rewrite <- Ec. apply IHc. congruence.
Qed.

(** ** Instances *)
Definition total (f : PostgresSiteSpec -> Z) (sites : list PostgresSiteSpec) : Z := foldr (fun site sum => (f site + sum)%Z) 0%Z sites.
Definition etcd_replicas (site : PostgresSiteSpec) : Z := sc_EtcdReplicas (site_Components site).
Definition postgres_replicas (site : PostgresSiteSpec) : Z := sc_PostgresReplicas (site_Components site).
Definition is_int32 (z : Z) : Prop := (- 2147483648 <= z <= 2147483647)%Z.

Lemma int32_add a b : int32 (int32 a + b) = int32 (a + b).
Proof.
  unfold int32, wrap. f_equal.
  replace ((a + 2 ^ (32 - 1)) `mod` 2 ^ 32 - 2 ^ (32 - 1) + b + 2 ^ (32 - 1))%Z
    with ((a + 2 ^ (32 - 1)) `mod` 2 ^ 32 + b)%Z by lia.
  rewrite Zplus_mod_idemp_l. f_equal. lia.
Qed.

(** The sum wraps once at the end, whatever happens in between. *)
Lemma sum32_wrap f sites : sum32 f sites = int32 (total f sites).
Proof.
  assert (H : forall acc, foldl (fun sum site => int32 (sum + f site)) (int32 acc) sites = int32 (acc + total f sites)%Z).
  { induction sites as [|site sites IH]; intros acc; simpl; [by rewrite Z.add_0_r|].
    rewrite int32_add, IH. f_equal. lia. }
  exact (H 0%Z).
Qed.
Lemma sum32_exact f sites : is_int32 (total f sites) -> sum32 f sites = total f sites.
Proof.
  intros H. rewrite sum32_wrap. apply wrap_small; [lia|]. unfold is_int32 in H.
  change (2 ^ (32 - 1))%Z with 2147483648%Z. lia.
Qed.

Section instances.
Context {N : NameRules} {NL : NameLaws N} {U : UrlLib} {Cr : CronLib}.

(** An absolute HTTPS URL; [host] is the part that must be there. *)
Definition https_url (host : URL -> string) (text : string) : Prop :=
  exists u, url_Parse text = Ok u /\ url_Scheme u = "https" /\ host u <> "".

Definition named (ref : option SecretKeyReference) : Prop := forall r, ref = Some r -> skr_Name r <> "".

Definition vault_auth_admissible (vault : VaultAuthSpec) : Prop :=
  https_url url_Host (va_Address vault) /\ va_AuthMount vault <> "" /\ va_AuthRole vault <> "" /\
  named (va_CABundleSecretRef vault).

Definition site_admissible (site : PostgresSiteSpec) : Prop :=
  let components := site_Components site in
  dns_label (site_Namespace site) = true /\
  (site_Role site = SiteRoleWitness -> sc_PostgresReplicas components = 0%Z /\ sc_PgpoolReplicas components = 0%Z) /\
  (site_Role site <> SiteRoleWitness ->
    sc_PostgresReplicas components <> 0%Z /\ ss_Postgres (site_Storage site) <> None /\ ss_Etcd (site_Storage site) <> None /\
    exists vault, site_VaultAuth site = Some vault /\ vault_auth_admissible vault).

Definition single_line (s : string) : Prop := ContainsAny s line_breaks = false.

Definition schedules_admissible (schedules : BackupSchedules) : Prop :=
  let timezone := if bsch_Timezone schedules == "" then "UTC" else bsch_Timezone schedules in
  LoadLocation timezone = Ok tt /\
  Forall (fun expression => expression <> "" ->
      exists s, ParseStandard ("CRON_TZ=" +:+ timezone +:+ " " +:+ expression) = Ok s)
    [bsch_Full schedules; bsch_Differential schedules; bsch_Incremental schedules].

Definition repository_admissible (repository : BackupRepositorySpec) : Prop :=
  Trim (br_Prefix repository) "/" <> "" /\
  Forall single_line [br_Bucket repository; br_Prefix repository; br_Region repository] /\
  (br_Endpoint repository <> "" -> https_url url_Hostname (br_Endpoint repository)) /\
  named (br_CABundleSecretRef repository) /\
  vault_reference (br_CredentialVaultRef repository) false = true.

Definition key_name (name : string) : Prop := name <> "" /\ (String.length name <= 63)%nat /\ single_line name.
Definition tde_admissible (tde : TDESpec) : Prop :=
  tde_Enabled tde = true -> exists vault, tde_Vault tde = Some vault /\
    vault_path (tv_KVMount vault) = true /\ vault_path (tv_KeyPath vault) = true /\
    key_name (tv_ProviderName vault) /\ key_name (tv_PrincipalKeyName vault).

Record instance_admissible (obj : MultiSitePostgres) : Prop := {
  adm_image : pinned (pg_Image (spec_Postgres (msp_Spec obj))) = true;
  adm_sites : Forall site_admissible (spec_Sites (msp_Spec obj));
  adm_names : NoDup (site_Name <$> spec_Sites (msp_Spec obj));
  adm_namespaces : NoDup ((fun site => (site_SiteRegistrationRef site, site_Namespace site)) <$> spec_Sites (msp_Spec obj));
  adm_voters : (3 <= total etcd_replicas (spec_Sites (msp_Spec obj)))%Z /\ Z.Odd (total etcd_replicas (spec_Sites (msp_Spec obj)));
  adm_replicas : (2 <= total postgres_replicas (spec_Sites (msp_Spec obj)))%Z;
  adm_standbys : (pg_SynchronousStandbyCount (spec_Postgres (msp_Spec obj)) < total postgres_replicas (spec_Sites (msp_Spec obj)))%Z;
  adm_tde : tde_admissible (spec_TDE (msp_Spec obj));
  adm_postgres : vault_reference (ics_PostgresVaultRef (spec_Credentials (msp_Spec obj))) false = true;
  adm_pgpool : (exists site, site ∈ spec_Sites (msp_Spec obj) /\ (0 < sc_PgpoolReplicas (site_Components site))%Z) ->
    vault_reference (ics_PgpoolVaultRef (spec_Credentials (msp_Spec obj))) false = true;
  adm_backup : forall backup, spec_Backup (msp_Spec obj) = Some backup ->
    repository_admissible (bk_Repository backup) /\ schedules_admissible (bk_Schedules backup);
}.

Lemma unnamed_exact ref : unnamed ref = false <-> named ref.
Proof.
  unfold unnamed, named. destruct ref as [r|]; [|naive_solver]. rewrite bool_decide_eq_false. naive_solver.
Qed.

Lemma url_check host text e :
  match url_Parse text with
  | Ok u => when ((url_Scheme u != "https") || (host u == "")) e
  | Err _ => [e]
  end = [] <-> https_url host text.
Proof.
  unfold https_url. destruct (url_Parse text) as [u|]; [|naive_solver].
  rewrite when_nil, orb_false_iff, negb_false_iff, bool_decide_eq_true, bool_decide_eq_false. naive_solver.
Qed.

Lemma fmap_is_nil {A B} (f : A -> B) (l : list A) : f <$> l = [] <-> l = [].
Proof. by destruct l. Qed.
Lemma is_nil_false {A} (x : option A) : is_nil x = false <-> x <> None.
Proof. by destruct x. Qed.

Lemma site_exact i site :
  ((fun msg => mkFieldError Invalid (Child i "namespace") msg) <$> IsDNS1123Label (site_Namespace site)) = [] /\
  validateDataSite site i = [] <-> site_admissible site.
Proof.
  unfold site_admissible, validateDataSite. rewrite fmap_is_nil, label_exact.
  case_bool_decide as Hw.
  - rewrite when_nil, orb_false_iff, !negb_false_iff, !bool_decide_eq_true. tauto.
  - rewrite !app_nil, !when_nil, bool_decide_eq_false, orb_false_iff, !is_nil_false.
    destruct (site_VaultAuth site) as [vault|]; [|naive_solver].
    rewrite !app_nil, !when_nil, !bool_decide_eq_false, unnamed_exact, url_check.
    unfold vault_auth_admissible. naive_solver.
Qed.

Lemma in_string_elem c s : in_string c s = true -> c ∈ String.list_ascii_of_string s.
Proof.
  induction s as [|d s IH]; [done|]. simpl. intros [E|E]%orb_true_iff; [apply bool_decide_eq_true in E|]; set_solver.
Qed.
Lemma label_no_slash s : dns_label s = true -> in_string "/" s = false.
Proof.
  intros H. apply not_true_iff_false. intros Hin%in_string_elem.
  unfold dns_label, label_text in H. bool_to_prop. destruct (String.list_ascii_of_string s) as [|c l] eqn:E; [done|].
  bool_to_prop. unfold all_chars in *. rewrite E, forallb_forall in *.
  match goal with H : forall _, _ |- _ => specialize (H _ (proj1 (list_elem_of_In _ _) Hin)); by vm_compute in H end.
Qed.

Lemma namespace_key_inj x y : dns_label (site_Namespace x) = true -> dns_label (site_Namespace y) = true ->
  namespace_key x = namespace_key y <->
  (site_SiteRegistrationRef x, site_Namespace x) = (site_SiteRegistrationRef y, site_Namespace y).
Proof.
  intros Hx Hy. unfold namespace_key. split; [|by intros [= -> ->]].
  intros [-> ->]%app_last_sep_inj; [done| |]; by apply label_no_slash.
Qed.

Lemma validate_sites_exact i names nss sites :
  validate_sites i names nss sites = [] <->
  Forall site_admissible sites /\
  (NoDup (site_Name <$> sites) /\ forall k, k ∈ site_Name <$> sites -> k ∉ names) /\
  (NoDup (namespace_key <$> sites) /\ forall k, k ∈ namespace_key <$> sites -> k ∉ nss).
Proof.
  revert i names nss. induction sites as [|site sites IH]; intros i names nss; cbn [validate_sites].
  - split; [|done]. intros _. split; [constructor|]. split; (split; [constructor|set_solver]).
  - rewrite !app_nil, !when_nil, !slices_Contains_false, IH, list.Forall_cons, <- !NoDup_fmap_cons.
    rewrite <- (site_exact (Index "spec.sites" i)). tauto.
Qed.

Lemma sites_exact sites :
  validate_sites 0 [] [] sites = [] <->
  Forall site_admissible sites /\ NoDup (site_Name <$> sites) /\
  NoDup ((fun site => (site_SiteRegistrationRef site, site_Namespace site)) <$> sites).
Proof.
  rewrite validate_sites_exact.
  assert (Forall site_admissible sites -> NoDup (namespace_key <$> sites) <->
    NoDup ((fun site => (site_SiteRegistrationRef site, site_Namespace site)) <$> sites)) as H; [|set_solver].
  intros H. rewrite list.Forall_forall in H. apply NoDup_fmap_same. intros x y Hx Hy.
  apply namespace_key_inj; by apply H.
Qed.

Lemma tde_exact tde : validate_tde tde = [] <-> tde_admissible tde.
Proof.
  unfold validate_tde, tde_admissible. destruct (tde_Enabled tde); [|done]. simpl negb. cbv iota.
  destruct (tde_Vault tde) as [vault|]; [|naive_solver].
  rewrite !app_nil, !validateVaultPath_exact. cbn [fmap list_fmap mjoin list_join]. rewrite !app_nil.
  assert (Hn : forall name value, (if value == "" then [mkFieldError Required (Child "spec.tde.vault" name) "required"]
    else when ((63 <? String.length value)%nat || ContainsAny value line_breaks)
      (mkFieldError Invalid (Child "spec.tde.vault" name) "must be a single-line name no longer than 63 bytes")) = [] <->
    key_name value).
  { intros name value. unfold key_name, single_line. case_bool_decide; [naive_solver|].
    rewrite when_nil, orb_false_iff, Nat.ltb_ge. tauto. }
  rewrite !Hn. naive_solver.
Qed.

Lemma repository_exact repository path :
  Trim (br_Prefix repository) "/" <> "" /\ validateBackupRepository repository path = [] <-> repository_admissible repository.
Proof.
  unfold validateBackupRepository, repository_admissible.
  rewrite !app_nil, when_nil, unnamed_exact, validateVaultSecretReference_exact.
  cbn [fmap list_fmap mjoin list_join]. rewrite !app_nil, !when_nil, !list.Forall_cons. unfold single_line at 1 2 3.
  assert ((if br_Endpoint repository != "" then
     match url_Parse (br_Endpoint repository) with
     | Ok endpoint => when ((url_Scheme endpoint != "https") || (url_Hostname endpoint == ""))
         (mkFieldError Invalid (Child path "endpoint") "must be an absolute HTTPS URL")
     | Err _ => [mkFieldError Invalid (Child path "endpoint") "must be an absolute HTTPS URL"]
     end
   else []) = [] <-> (br_Endpoint repository <> "" -> https_url url_Hostname (br_Endpoint repository))) as ->.
  { case_bool_decide; simpl; [naive_solver|]. rewrite url_check. tauto. }
  pose proof (list.Forall_nil_2 single_line). tauto.
Qed.

Lemma schedules_exact schedules path : validateBackupSchedules schedules path = [] <-> schedules_admissible schedules.
Proof.
  unfold validateBackupSchedules, schedules_admissible.
  set (timezone := if bsch_Timezone schedules == "" then _ else _).
  destruct (LoadLocation timezone) as [[]|e]; [|naive_solver].
  cbn [fmap list_fmap mjoin list_join]. rewrite !app_nil, !list.Forall_cons.
  assert (Hn : forall name expression, (if expression == "" then []
    else match ParseStandard ("CRON_TZ=" +:+ timezone +:+ " " +:+ expression) with
         | Ok _ => []
         | Err e => [mkFieldError Invalid (Child path name) (err_text e)]
         end) = [] <-> (expression <> "" ->
      exists s, ParseStandard ("CRON_TZ=" +:+ timezone +:+ " " +:+ expression) = Ok s)).
  { intros name expression. case_bool_decide; [naive_solver|]. destruct (ParseStandard _); naive_solver. }
  rewrite !Hn, list.Forall_nil. tauto.
Qed.

Lemma voters_exact n : (n <? 3)%Z || (Z.rem n 2 == 0%Z) = false <-> (3 <= n)%Z /\ Z.Odd n.
Proof.
  rewrite orb_false_iff, Z.ltb_ge, bool_decide_eq_false. split; intros [Hn H]; (split; [done|]).
  - rewrite Z.rem_mod_nonneg in H by lia. apply Z.odd_spec. rewrite Zodd_mod. apply Z.eqb_eq.
    pose proof (Z.mod_pos_bound n 2). lia.
  - rewrite Z.rem_mod_nonneg by lia. apply Z.odd_spec in H. rewrite Zodd_mod in H. apply Z.eqb_eq in H. lia.
Qed.

Lemma pgpool_exact path reference sites :
  (if existsb (fun site => (0 <? sc_PgpoolReplicas (site_Components site))%Z) sites
   then validateVaultSecretReference path reference false else []) = [] <->
  ((exists site, site ∈ sites /\ (0 < sc_PgpoolReplicas (site_Components site))%Z) -> vault_reference reference false = true).
Proof.
  assert (existsb (fun site => (0 <? sc_PgpoolReplicas (site_Components site))%Z) sites = true <->
    exists site, site ∈ sites /\ (0 < sc_PgpoolReplicas (site_Components site))%Z) as H.
  { rewrite existsb_exists. by setoid_rewrite list_elem_of_In; setoid_rewrite Z.ltb_lt. }
  destruct (existsb _ sites); rewrite ?validateVaultSecretReference_exact, <- H; naive_solver.
Qed.

Lemma backup_exact (spec : option BackupSpec) p q r e :
  match spec with
  | None => []
  | Some backup =>
      when (Trim (br_Prefix (bk_Repository backup)) "/" == "") (mkFieldError Required p e) ++
      validateBackupRepository (bk_Repository backup) q ++ validateBackupSchedules (bk_Schedules backup) r
  end = [] <-> forall backup, spec = Some backup ->
    repository_admissible (bk_Repository backup) /\ schedules_admissible (bk_Schedules backup).
Proof.
  destruct spec as [backup|]; [|naive_solver].
  rewrite !app_nil, when_nil, bool_decide_eq_false, schedules_exact, (assoc and), repository_exact. naive_solver.
Qed.

(** C27: As long as the replica counts add up to 32-bit numbers, an instance
    is admitted, on creation and update, exactly when its image is pinned, its
    sites are well formed with different names and different namespaces per
    registration, it has an odd number of at least three etcd voters and more
    PostgreSQL replicas, at least two, than synchronous standbys, and its
    encryption, credentials and backups are well formed. *)
Theorem instance_admission_exact old obj :
  is_int32 (total etcd_replicas (spec_Sites (msp_Spec obj))) ->
  is_int32 (total postgres_replicas (spec_Sites (msp_Spec obj))) ->
  instance_ValidateUpdate old obj = instance_ValidateCreate obj /\
  (instance_ValidateCreate obj = None <-> instance_admissible obj).
Proof.
  intros He Hp. split; [done|]. unfold instance_ValidateCreate, validateInstance.
  unfold total_etcd, total_postgres. fold etcd_replicas postgres_replicas.
  rewrite (sum32_exact etcd_replicas), (sum32_exact postgres_replicas) by done.
  rewrite ToAggregate_None, !app_nil, !when_nil, sites_exact, tde_exact, validateVaultSecretReference_exact.
  rewrite negb_false_iff, voters_exact, pgpool_exact, backup_exact, Z.ltb_ge, Z.leb_gt.
  split; [|by intros []]. intros (? & (? & ? & ?) & ? & ? & ? & ? & ? & ? & ?). by constructor.
Qed.
End instances.

(** ** Defaults and composition *)
Section defaults.
Context {N : NameRules} {U : UrlLib} {Cr : CronLib}.

Definition default_site (site : PostgresSiteSpec) : PostgresSiteSpec := site <| site_Certificates ::= default_certificates |>.

(** The value [d] for a field that is [zero]. *)
Definition fill {A} `{EqDecision A} (zero d x : A) : A := if x == zero then d else x.
Lemma fill_idemp {A} `{EqDecision A} (zero d x : A) : fill zero d (fill zero d x) = fill zero d x.
Proof. unfold fill. by repeat case_bool_decide. Qed.

Lemma defaultIssuer_fill r :
  defaultIssuer r = mkIssuerReference (ir_Name r) (fill "" "ClusterIssuer" (ir_Kind r)) (fill "" "cert-manager.io" (ir_Group r)).
Proof.
  destruct r as [n k g]. unfold defaultIssuer, fill. cbn -[bool_decide].
  destruct (k == ""); cbn -[bool_decide]; by destruct (g == "").
Qed.
Lemma defaultIssuer_idemp r : defaultIssuer (defaultIssuer r) = defaultIssuer r.
Proof. rewrite !defaultIssuer_fill. cbn. by rewrite !fill_idemp. Qed.

Lemma default_certificates_eq c : default_certificates c =
  mkSiteCertificateSpec (defaultIssuer (crt_EtcdIssuerRef c)) (defaultIssuer (crt_EtcdPeerIssuerRef c))
    (defaultIssuer (crt_EtcdClientIssuerRef c)) (defaultIssuer (crt_PostgresIssuerRef c))
    (defaultIssuer (crt_PgpoolIssuerRef c))
    (defaultIssuer (if ir_Name (crt_BackupIssuerRef c) == "" then crt_PostgresIssuerRef c else crt_BackupIssuerRef c)).
Proof.
  destruct c as [? ? ? p ? b]. unfold default_certificates. cbn -[bool_decide].
  destruct (ir_Name b == ""); cbn -[bool_decide]; by rewrite ?defaultIssuer_idemp.
Qed.
Lemma default_certificates_idemp c : default_certificates (default_certificates c) = default_certificates c.
Proof.
  assert (Hname : forall r, ir_Name (defaultIssuer r) = ir_Name r) by (intros r; by rewrite defaultIssuer_fill).
  rewrite !default_certificates_eq. cbn -[bool_decide]. rewrite !defaultIssuer_idemp, !Hname. f_equal.
  destruct (ir_Name (crt_BackupIssuerRef c) == "") eqn:E; rewrite ?E; [|apply defaultIssuer_idemp].
  destruct (ir_Name (crt_PostgresIssuerRef c) == ""); by rewrite !defaultIssuer_idemp.
Qed.

Definition week : Duration := (7 * 24 * hour)%Z.
Lemma default_backup_fill b : default_backup b =
  b <| bk_Retention ::= fun r => r <| bret_Duration ::= fill 0%Z week |> <| bret_WALDuration ::= fill 0%Z week |> |>
    <| bk_Repository ::= fun r => r <| br_Region ::= fill "" "us-east-1" |> <| br_URIStyle ::= fill "" "host" |> |>.
Proof.
  assert (Hd : forall b, (if bret_Duration (bk_Retention b) == 0%Z then b <| bk_Retention ::= fun r => r <| bret_Duration := week |> |> else b)
    = b <| bk_Retention ::= fun r => r <| bret_Duration ::= fill 0%Z week |> |>).
  { intros [? ? []]. unfold fill. cbn -[bool_decide week]. by repeat case_bool_decide. }
  assert (Hw : forall b, (if bret_WALDuration (bk_Retention b) == 0%Z then b <| bk_Retention ::= fun r => r <| bret_WALDuration := week |> |> else b)
    = b <| bk_Retention ::= fun r => r <| bret_WALDuration ::= fill 0%Z week |> |>).
  { intros [? ? []]. unfold fill. cbn -[bool_decide week]. by repeat case_bool_decide. }
  assert (Hr : forall b, (if br_Region (bk_Repository b) == "" then b <| bk_Repository ::= fun r => r <| br_Region := "us-east-1" |> |> else b)
    = b <| bk_Repository ::= fun r => r <| br_Region ::= fill "" "us-east-1" |> |>).
  { intros [[] ? ?]. unfold fill. cbn -[bool_decide]. by repeat case_bool_decide. }
  assert (Hs : forall b, (if br_URIStyle (bk_Repository b) == "" then b <| bk_Repository ::= fun r => r <| br_URIStyle := "host" |> |> else b)
    = b <| bk_Repository ::= fun r => r <| br_URIStyle ::= fill "" "host" |> |>).
  { intros [[] ? ?]. unfold fill. cbn -[bool_decide]. by repeat case_bool_decide. }
  unfold default_backup. fold week. rewrite Hd, Hw, Hr, Hs. reflexivity.
Qed.

Lemma validate_default_sites i names nss sites :
  validate_sites i names nss (default_site <$> sites) = validate_sites i names nss sites.
Proof. revert i names nss. induction sites as [|site sites IH]; intros; simpl; [done|]. by rewrite <- IH. Qed.

Lemma sum32_default f sites : (forall site, f (default_site site) = f site) -> sum32 f (default_site <$> sites) = sum32 f sites.
Proof.
  intros Hf. unfold sum32. generalize 0%Z. induction sites as [|site sites IH]; intros acc; simpl; [done|].
  by rewrite Hf, IH.
Qed.

Lemma fill_single_line d s : ContainsAny d line_breaks = false ->
  ContainsAny (fill "" d s) line_breaks = ContainsAny s line_breaks.
Proof. unfold fill. case_bool_decide; [by subst|done]. Qed.

Lemma validate_default_backup b p q :
  br_Prefix (bk_Repository (default_backup b)) = br_Prefix (bk_Repository b) /\
  validateBackupRepository (bk_Repository (default_backup b)) p = validateBackupRepository (bk_Repository b) p /\
  validateBackupSchedules (bk_Schedules (default_backup b)) q = validateBackupSchedules (bk_Schedules b) q.
Proof.
  rewrite default_backup_fill. split; [done|]. split; [|done]. unfold validateBackupRepository. cbn -[ContainsAny fill].
  by rewrite fill_single_line.
Qed.

Lemma default_backup_idemp b : default_backup (default_backup b) = default_backup b.
Proof. rewrite !default_backup_fill. cbn -[fill week]. by rewrite !fill_idemp. Qed.

Lemma defaultInstance_fill obj : defaultInstance obj = obj <| msp_Spec ::= fun s =>
  s <| spec_DeletionPolicy ::= fill "" DeletionPolicyRetain |> <| spec_Backup ::= fmap default_backup |>
    <| spec_Sites ::= fmap default_site |> |>.
Proof.
  destruct obj as [? [] ?]. unfold defaultInstance, fill. cbn -[bool_decide default_backup].
  destruct (spec_DeletionPolicy == ""); reflexivity.
Qed.

(** C38: The defaults applied before the checks never decide an admission:
    the errors found in a defaulted instance are those of the instance as it was
    submitted; and defaulting again changes nothing. *)
Theorem defaults_preserve_admission obj :
  validateInstance (defaultInstance obj) = validateInstance obj /\
  defaultInstance (defaultInstance obj) = defaultInstance obj.
Proof.
  split.
  - rewrite defaultInstance_fill.
    unfold validateInstance, total_etcd, total_postgres. simpl.
    rewrite validate_default_sites, !sum32_default by done.
    assert (forall g : PostgresSiteSpec -> bool, (forall s, g (default_site s) = g s) -> forall l,
      existsb g (default_site <$> l) = existsb g l) as Hex.
    { intros g Hg l. induction l as [|x l IH]; [done|]. rewrite fmap_cons. cbn [existsb]. by rewrite Hg, <- IH. }
    rewrite Hex by done. destruct (spec_Backup (msp_Spec obj)) as [b|]; cbn [fmap option_fmap option_map]; [|reflexivity].
    destruct (validate_default_backup b "spec.backup.repository" "spec.backup.schedules") as (-> & -> & ->). reflexivity.
  - rewrite (defaultInstance_fill (defaultInstance obj)), (defaultInstance_fill obj).
    destruct obj as [? [] ?]. cbn -[fill default_backup]. rewrite fill_idemp. do 2 f_equal.
    + induction spec_Sites as [|[] sites IH]; [done|]. rewrite !fmap_cons. f_equal; [|done].
      unfold default_site. cbn -[default_certificates]. by rewrite default_certificates_idemp.
    + destruct spec_Backup as [b|]; [|done]. cbn -[default_backup]. by rewrite default_backup_idemp.
Qed.

Lemma schedules_parse backup defaultSchedule configured :
  schedules_admissible (bk_Schedules backup) -> configured ∈ configuredBackupSchedules backup defaultSchedule ->
  expression configured = (if defaultSchedule == "" then defaultWeeklyBackupSchedule else defaultSchedule) \/
  exists schedule, parseBackupSchedule (expression configured) (bsch_Timezone (bk_Schedules backup)) = Ok schedule.
Proof.
  intros [Hz Hp] Hin. rewrite !list.Forall_cons in Hp. destruct Hp as (Hf & Hd & Hi & _).
  assert (Hok : forall e, e <> "" -> (e <> "" -> exists s, ParseStandard
      ("CRON_TZ=" +:+ (if bsch_Timezone (bk_Schedules backup) == "" then "UTC" else bsch_Timezone (bk_Schedules backup)) +:+ " " +:+ e) = Ok s) ->
    exists schedule, parseBackupSchedule e (bsch_Timezone (bk_Schedules backup)) = Ok schedule).
  { intros e He [s Hs]%(fun H => H He). exists s. unfold parseBackupSchedule. by rewrite Hz, Hs. }
  unfold configuredBackupSchedules in Hin.
  destruct (_ ++ _) as [|c l] eqn:E in Hin.
  { apply list_elem_of_singleton in Hin as ->. by left. }
  right. rewrite <- E in Hin. clear E.
  assert (Hc : forall ty e, configured ∈ (if e != "" then [mkBackupSchedule ty e] else []) -> e <> "" /\ expression configured = e).
  { intros ty e. destruct (e == "") eqn:E; simpl; [by intros ?%elem_of_nil|]. apply bool_decide_eq_false in E.
    by intros ->%list_elem_of_singleton. }
  rewrite !elem_of_app in Hin. destruct Hin as [[He ->]%Hc|[[He ->]%Hc|[He ->]%Hc]]; by apply Hok.
Qed.

(** An instance that passes admission can be planned and backed up: the
    members of its sites have pairwise different names, and every schedule the
    backup reconciliation uses is either the operator's default or parses in
    the timezone of the instance. *)
Theorem admission_suffices_for_planning {NL : NameLaws N} obj :
  instance_ValidateCreate obj = None ->
  NoDup (expectedAddressMembers (spec_Sites (msp_Spec obj))) /\
  forall backup defaultSchedule configured, spec_Backup (msp_Spec obj) = Some backup ->
    configured ∈ configuredBackupSchedules backup defaultSchedule ->
    expression configured = (if defaultSchedule == "" then defaultWeeklyBackupSchedule else defaultSchedule) \/
    exists schedule, parseBackupSchedule (expression configured) (bsch_Timezone (bk_Schedules backup)) = Ok schedule.
Proof.
  unfold instance_ValidateCreate, validateInstance.
  rewrite ToAggregate_None, !app_nil, sites_exact, backup_exact.
  intros (_ & (_ & Hn & _) & _ & _ & _ & _ & _ & _ & Hb). split; [by apply expected_members_unique|].
  intros backup defaultSchedule configured Hs. apply schedules_parse. by apply (Hb backup Hs).
Qed.
End defaults.

(** ** Witnesses *)
Module RefAdmission.
#[global] Instance names : NameRules := {|
  IsDNS1123Label s := if dns_label s then [] else ["must be a DNS label"];
  IsDNS1123Subdomain s := if dns_subdomain s then [] else ["must be a DNS subdomain"];
|}.
#[global] Instance name_laws : NameLaws names.
Proof. split; intros s; simpl; [destruct (dns_label s)|destruct (dns_subdomain s)]; done. Qed.

(** The scheme before the slashes and the host between them. *)
#[global] Instance urls : UrlLib := {|
  url_Parse s := match Split s "/" with
    | scheme :: "" :: host :: _ => Ok (mkURL (Trim scheme ":") host host "")
    | _ => Err (errors_New "missing scheme")
    end
|}.
Definition vault (key : string) : VaultSecretReference := mkVaultSecretReference "kv" "team/db" key.

Definition user : PostgresUser := zero_PostgresUser <| usr_Spec := mkPostgresUserSpec "main" "reporter" ""
  [mkRoleMembership "db-a" "reader"; mkRoleMembership "db-b" "reader"] (vault "password") zero_RoleQuotas |>.
Definition database : PostgresDatabase := zero_PostgresDatabase <| db_Spec := mkPostgresDatabaseSpec "main" "orders" ""
  ["audit"] [mkDatabaseRole "orders_owner" "Owner"; mkDatabaseRole "reader" "ReadOnly"] zero_DatabaseQuotas |>.

Definition registration (uid : string) (revoked : bool) : SiteRegistration := zero_SiteRegistration
  <| reg_Spec ::= fun s => s <| regs_Revoked := revoked |> |> <| reg_Status ::= fun s => s <| regst_ClusterUID := uid |> |>.

Definition storage : SiteStorage := mkSiteStorage (Some zero_StorageRequest) (Some zero_StorageRequest) None.
Definition site (name role : string) (etcd postgres pgpool : Z) : PostgresSiteSpec :=
  (RefMembers.site name role etcd postgres pgpool) <| site_Storage := storage |>
    <| site_VaultAuth := Some (mkVaultAuthSpec "https://vault.example" "kubernetes" "mspsql" None) |>.
Definition backup : BackupSpec := zero_BackupSpec
  <| bk_Repository := mkBackupRepositorySpec "" "backups" "main" "https://s3.example/" "" "" None (vault "") |>
  <| bk_Schedules := mkBackupSchedules "30 6 * * 0" "" "" "Europe/Berlin" |>.
Definition instance : MultiSitePostgres := zero_MultiSitePostgres <| msp_Spec := zero_MultiSitePostgresSpec
  <| spec_Postgres := mkPostgresSpec 17 "postgres@sha256:1" 1 ∅ |>
  <| spec_Sites := [site "a" SiteRoleData 1 2 1; site "b" SiteRoleData 1 2 0; site "w" SiteRoleWitness 1 0 0] |>
  <| spec_Backup := Some backup |> <| spec_TDE := mkTDESpec true (Some (mkTDEVaultSpec "kv" "keys/main" "vault" "main")) |>
  <| spec_Credentials := mkInstanceCredentialsSpec (vault "") (vault "") |> |>.
End RefAdmission.

Lemma user_admission_exact_witness :
  user_admissible RefAdmission.user /\
  user_ValidateCreate (RefAdmission.user <| usr_Spec ::= fun s => s <| usrs_RoleName := "mspsql_x" |> |>) <> None.
Proof.
  split; [|vm_compute; discriminate].
  apply (user_admission_exact RefAdmission.user RefAdmission.user). vm_compute. reflexivity.
Defined.

Lemma database_admission_exact_witness :
  database_admissible RefAdmission.database /\
  database_ValidateCreate (RefAdmission.database <| db_Spec ::= fun s => s <| dbs_Schemas := [String nul ""] |> |>) <> None.
Proof.
  split; [|vm_compute; discriminate].
  apply (database_admission_exact RefAdmission.database RefAdmission.database). vm_compute. reflexivity.
Defined.

Lemma registration_history_witness :
  regs_Revoked (reg_Spec (RefAdmission.registration "cluster" true)) = true /\
  regst_ClusterUID (reg_Status (RefAdmission.registration "cluster" true)) = "cluster".
Proof.
  destruct (registration_history (RefAdmission.registration "cluster" false) (RefAdmission.registration "cluster" true))
    as (_ & H & _).
  - apply rtc_once. reflexivity.
  - split; [reflexivity|]. apply H. discriminate.
Defined.

Lemma instance_admission_exact_witness : instance_admissible RefAdmission.instance.
Proof.
  apply (instance_admission_exact RefAdmission.instance RefAdmission.instance);
    [vm_compute; split; discriminate|vm_compute; split; discriminate|vm_compute; reflexivity].
Defined.

Lemma admission_suffices_for_planning_witness :
  NoDup (expectedAddressMembers (spec_Sites (msp_Spec RefAdmission.instance))).
Proof. apply (admission_suffices_for_planning RefAdmission.instance). vm_compute. reflexivity. Defined.
