(* ===== verification/Policy.v ===== *)
(** * Site policy and isolation of instances

    [internal/controller/policy.go] (what a site's registration permits) and the
    claim checks of [multisitepostgres_controller.go] (two instances never share
    a backup repository, backup credentials or an encryption key). *)

From S2P Require Import Prelude Prog Api Kube Plan Members.

Definition contains (values : list string) (wanted : string) : bool := slices_Contains values wanted.

Definition issuerAllowed (allowed : list IssuerReference) (requested : IssuerReference) : bool :=
  existsb (fun item => (ir_Name item == ir_Name requested) && (ir_Kind item == ir_Kind requested)
                       && (ir_Group item == ir_Group requested)) allowed.

Definition discoveredStorageClass (inventory : list StorageClassInventory) (requested : option StorageRequest) : bool :=
  match requested with
  | None => true
  | Some requested => existsb (fun item => sci_Name item == sr_StorageClassName requested) inventory
  end.

(** The first violated rule's message, if any. *)
Definition validateSitePolicy (site : PostgresSiteSpec) (registration : SiteRegistration) : option string :=
  let spec := reg_Spec registration in
  let certificates := site_Certificates site in
  let refused (what : string) (name : string) := Some (what +:+ " " +:+ Quote name +:+ " is not permitted") in
  let storage_refused (request : option StorageRequest) (permitted : list string) :=
    match request with Some r => negb (contains permitted (sr_StorageClassName r)) | None => false end in
  let class_name (request : option StorageRequest) :=
    match request with Some r => sr_StorageClassName r | None => "" end in
  if regs_Revoked spec then
    Some ("site registration " +:+ Quote (meta_Name (reg_Meta registration)) +:+ " is revoked")
  else if storage_refused (ss_Etcd (site_Storage site)) (scp_Etcd (regs_PermittedStorageClasses spec)) then
    refused "etcd StorageClass" (class_name (ss_Etcd (site_Storage site)))
  else if storage_refused (ss_Postgres (site_Storage site)) (scp_Postgres (regs_PermittedStorageClasses spec)) then
    refused "PostgreSQL StorageClass" (class_name (ss_Postgres (site_Storage site)))
  else if match site_LoadBalancer site with
          | Some lb => negb (contains (regs_MetallbAddressPools spec) (lb_AddressPool lb))
          | None => false
          end then
    refused "MetalLB address pool"
      (match site_LoadBalancer site with Some lb => lb_AddressPool lb | None => "" end)
  else if negb (issuerAllowed (ip_Etcd (regs_PermittedIssuers spec)) (crt_EtcdIssuerRef certificates)) then
    refused "etcd issuer" (ir_Name (crt_EtcdIssuerRef certificates))
  else if (ir_Name (crt_EtcdPeerIssuerRef certificates) != "") &&
    negb (issuerAllowed (ip_Etcd (regs_PermittedIssuers spec)) (crt_EtcdPeerIssuerRef certificates)) then
    refused "etcd peer issuer" (ir_Name (crt_EtcdPeerIssuerRef certificates))
  else if (ir_Name (crt_EtcdClientIssuerRef certificates) != "") &&
    negb (issuerAllowed (ip_Etcd (regs_PermittedIssuers spec)) (crt_EtcdClientIssuerRef certificates)) then
    refused "etcd client issuer" (ir_Name (crt_EtcdClientIssuerRef certificates))
  else if (site_Role site == SiteRoleData) &&
    negb (issuerAllowed (ip_Postgres (regs_PermittedIssuers spec)) (crt_PostgresIssuerRef certificates)) then
    refused "PostgreSQL issuer" (ir_Name (crt_PostgresIssuerRef certificates))
  else if (site_Role site == SiteRoleData) &&
    negb (issuerAllowed (ip_Pgpool (regs_PermittedIssuers spec)) (crt_PgpoolIssuerRef certificates)) then
    refused "pgpool issuer" (ir_Name (crt_PgpoolIssuerRef certificates))
  else if (site_Role site == SiteRoleData) && (ir_Name (crt_BackupIssuerRef certificates) != "") &&
    negb (issuerAllowed (match ip_Backup (regs_PermittedIssuers spec) with
                         | [] => ip_Postgres (regs_PermittedIssuers spec)
                         | permitted => permitted
                         end) (crt_BackupIssuerRef certificates)) then
    refused "backup issuer" (ir_Name (crt_BackupIssuerRef certificates))
  else if negb (discoveredStorageClass (regst_DiscoveredStorageClasses (reg_Status registration)) (ss_Etcd (site_Storage site)))
    || negb (discoveredStorageClass (regst_DiscoveredStorageClasses (reg_Status registration)) (ss_Postgres (site_Storage site))) then
    Some "requested StorageClass is not present in the site inventory"
  else None.

(** ** Claims *)
Definition backupClaimsConflict (lhs rhs : option BackupSpec) : bool :=
  match lhs, rhs with
  | Some lhs, Some rhs =>
      let l := bk_Repository lhs in
      let r := bk_Repository rhs in
      let sameRepository := (br_Type l == br_Type r) && (br_Bucket l == br_Bucket r) &&
        (Trim (br_Prefix l) "/" == Trim (br_Prefix r) "/") in
      let sameCredentials := (vs_Mount (br_CredentialVaultRef l) == vs_Mount (br_CredentialVaultRef r)) &&
        (vs_Path (br_CredentialVaultRef l) == vs_Path (br_CredentialVaultRef r)) in
      sameRepository || sameCredentials
  | _, _ => false
  end.

Definition tdeClaimsConflict (lhs rhs : TDESpec) : bool :=
  if negb (tde_Enabled lhs) || negb (tde_Enabled rhs) then false
  else match tde_Vault lhs, tde_Vault rhs with
       | Some l, Some r => (tv_KVMount l == tv_KVMount r) && (tv_KeyPath l == tv_KeyPath r) &&
           (tv_ProviderName l == tv_ProviderName r) && (tv_PrincipalKeyName l == tv_PrincipalKeyName r)
       | _, _ => false
       end.

(** The loop of [validateInstanceClaims] over the listed instances. *)
Fixpoint claims_conflict (instance : MultiSitePostgres) (instances : list MultiSitePostgres) : option Error :=
  match instances with
  | [] => None
  | other :: instances =>
      let name := meta_Namespace (msp_Meta other) +:+ "/" +:+ meta_Name (msp_Meta other) in
      if (meta_UID (msp_Meta other) == meta_UID (msp_Meta instance))
         || negb (is_nil (meta_DeletionTimestamp (msp_Meta other))) then claims_conflict instance instances
      else if backupClaimsConflict (spec_Backup (msp_Spec instance)) (spec_Backup (msp_Spec other)) then
        Some (errors_New ("backup repository claim conflicts with " +:+ name))
      else if tdeClaimsConflict (spec_TDE (msp_Spec instance)) (spec_TDE (msp_Spec other)) &&
        (annotation instance restoreSourceUIDAnnotation != meta_UID (msp_Meta other)) then
        Some (errors_New ("TDE key identity conflicts with " +:+ name))
      else claims_conflict instance instances
  end.

Definition validateInstanceClaims (instance : MultiSitePostgres) : kprog (option Error) :=
  let! instances := call (List KInstance None ∅) onerr e => Ret (Some e) in
  Ret (claims_conflict instance instances).

(** ** Properties *)
Lemma issuerAllowed_spec allowed requested : issuerAllowed allowed requested = true <-> requested ∈ allowed.
Proof.
  unfold issuerAllowed. rewrite existsb_exists. split.
  - intros (item & Hin & H). bool_to_prop. apply list_elem_of_In.
    destruct item, requested; cbn in *; by subst.
  - intros Hin. exists requested. split; [by apply list_elem_of_In|]. by rewrite !bool_decide_eq_true_2.
Qed.

Lemma discovered_spec inventory requested :
  discoveredStorageClass inventory requested = true <->
  forall r, requested = Some r -> sr_StorageClassName r ∈ sci_Name <$> inventory.
Proof.
  unfold discoveredStorageClass. destruct requested as [r|]; [|naive_solver].
  rewrite existsb_exists. setoid_rewrite bool_decide_eq_true. split.
  - intros (item & Hin & Hn) r' [= <-]. apply list_elem_of_fmap. exists item. split; [done|by apply list_elem_of_In].
  - intros H. specialize (H r eq_refl). apply list_elem_of_fmap in H as (item & -> & Hin).
    exists item. split; [by apply list_elem_of_In|done].
Qed.

(** What a registration permits a site of an instance to use. *)
Definition permitted (site : PostgresSiteSpec) (registration : SiteRegistration) : Prop :=
  let spec := reg_Spec registration in
  let certificates := site_Certificates site in
  let issuers := regs_PermittedIssuers spec in
  let inventory := sci_Name <$> regst_DiscoveredStorageClasses (reg_Status registration) in
  regs_Revoked spec = false /\
  (forall r, ss_Etcd (site_Storage site) = Some r ->
     sr_StorageClassName r ∈ scp_Etcd (regs_PermittedStorageClasses spec) /\ sr_StorageClassName r ∈ inventory) /\
  (forall r, ss_Postgres (site_Storage site) = Some r ->
     sr_StorageClassName r ∈ scp_Postgres (regs_PermittedStorageClasses spec) /\ sr_StorageClassName r ∈ inventory) /\
  (forall lb, site_LoadBalancer site = Some lb -> lb_AddressPool lb ∈ regs_MetallbAddressPools spec) /\
  crt_EtcdIssuerRef certificates ∈ ip_Etcd issuers /\
  (ir_Name (crt_EtcdPeerIssuerRef certificates) <> "" -> crt_EtcdPeerIssuerRef certificates ∈ ip_Etcd issuers) /\
  (ir_Name (crt_EtcdClientIssuerRef certificates) <> "" -> crt_EtcdClientIssuerRef certificates ∈ ip_Etcd issuers) /\
  (site_Role site = SiteRoleData ->
     crt_PostgresIssuerRef certificates ∈ ip_Postgres issuers /\ crt_PgpoolIssuerRef certificates ∈ ip_Pgpool issuers /\
     (ir_Name (crt_BackupIssuerRef certificates) <> "" ->
        (ip_Backup issuers <> [] -> crt_BackupIssuerRef certificates ∈ ip_Backup issuers) /\
        (ip_Backup issuers = [] -> crt_BackupIssuerRef certificates ∈ ip_Postgres issuers))).

Lemma if_Some_None (b : bool) (x : string) (r : option string) :
  (if b then Some x else r) = None <-> b = false /\ r = None.
Proof. destruct b; naive_solver. Qed.

Lemma storage_permitted (request : option StorageRequest) permitted :
  match request with Some r => negb (contains permitted (sr_StorageClassName r)) | None => false end = false <->
  forall r, request = Some r -> sr_StorageClassName r ∈ permitted.
Proof.
  destruct request as [r|]; [|naive_solver]. unfold contains, slices_Contains.
  rewrite negb_false_iff, bool_decide_eq_true. naive_solver.
Qed.

Lemma pool_permitted (lb : option LoadBalancerSpec) pools :
  match lb with Some lb => negb (contains pools (lb_AddressPool lb)) | None => false end = false <->
  forall l, lb = Some l -> lb_AddressPool l ∈ pools.
Proof.
  destruct lb as [r|]; [|naive_solver]. unfold contains, slices_Contains.
  rewrite negb_false_iff, bool_decide_eq_true. naive_solver.
Qed.

Lemma guarded_issuer (guard : bool) (P : Prop) allowed requested :
  (guard = true <-> P) ->
  guard && negb (issuerAllowed allowed requested) = false <-> (P -> requested ∈ allowed).
Proof.
  intros HP. rewrite andb_false_iff, negb_false_iff, issuerAllowed_spec.
  destruct guard; [|split; [intros _ H; apply HP in H; done|by left]].
  split; [intros [?|?]; [done|auto]|]. intros H. right. apply H. by apply HP.
Qed.

(** Site policy is exact. A site of an instance passes validation against
    its registration exactly when the registration is not revoked, its storage
    classes are permitted for their use and present in the site's inventory, its
    address pool is permitted, and every certificate issuer it names is permitted
    for its purpose (for backups: among the backup issuers, or among the
    PostgreSQL issuers where no backup issuer is configured). *)
Theorem site_policy_exact site registration :
  validateSitePolicy site registration = None <-> permitted site registration.
Proof.
  unfold validateSitePolicy, permitted. cbv zeta. rewrite !if_Some_None, !storage_permitted, pool_permitted.
  rewrite negb_false_iff, issuerAllowed_spec.
  rewrite !(guarded_issuer (negb (bool_decide _)) (_ <> ""))
    by (rewrite negb_true_iff; apply bool_decide_eq_false).
  rewrite !(guarded_issuer (bool_decide (site_Role site = _)) (site_Role site = SiteRoleData))
    by apply bool_decide_eq_true.
  rewrite (guarded_issuer (_ && _) (site_Role site = SiteRoleData /\ ir_Name (crt_BackupIssuerRef (site_Certificates site)) <> ""))
    by (rewrite andb_true_iff, negb_true_iff, bool_decide_eq_true, bool_decide_eq_false; done).
  rewrite orb_false_iff, !negb_false_iff, !discovered_spec.
  destruct (ip_Backup (regs_PermittedIssuers (reg_Spec registration))); naive_solver.
Qed.

Lemma claims_conflict_none instance instances :
  claims_conflict instance instances = None ->
  forall other, other ∈ instances -> meta_UID (msp_Meta other) <> meta_UID (msp_Meta instance) ->
    meta_DeletionTimestamp (msp_Meta other) = None ->
    backupClaimsConflict (spec_Backup (msp_Spec instance)) (spec_Backup (msp_Spec other)) = false /\
    (tdeClaimsConflict (spec_TDE (msp_Spec instance)) (spec_TDE (msp_Spec other)) = true ->
       annotation instance restoreSourceUIDAnnotation = meta_UID (msp_Meta other)).
Proof.
  induction instances as [|o l IH]; [intros _ other Hin; by apply elem_of_nil in Hin|]. cbn.
  destruct (_ || _) eqn:Hskip.
  { intros Hl other [->|Hin]%elem_of_cons; [|by apply IH]. intros Hne Hdel.
    rewrite Hdel in Hskip. by rewrite bool_decide_eq_false_2 in Hskip. }
  destruct (backupClaimsConflict _ _) eqn:Hb; [done|].
  destruct (_ && _) eqn:Ht; [done|]. intros Hl other [->|Hin]%elem_of_cons; [|by apply IH].
  intros _ _. split; [done|]. intros Htde. rewrite Htde in Ht. cbn in Ht. by bool_to_prop.
Qed.

(** Instances are isolated. When the claims of an instance pass, no other
    instance of the cluster that is not being deleted uses the same backup
    repository (type, bucket and path, up to surrounding slashes) or the same
    backup credentials, and none uses the same encryption key unless it is the
    declared source this instance is restored from. *)
Theorem instance_claims_isolated instance instances other b b' :
  claims_conflict instance instances = None -> other ∈ instances ->
  meta_UID (msp_Meta other) <> meta_UID (msp_Meta instance) -> meta_DeletionTimestamp (msp_Meta other) = None ->
  spec_Backup (msp_Spec instance) = Some b -> spec_Backup (msp_Spec other) = Some b' ->
  (br_Type (bk_Repository b), br_Bucket (bk_Repository b), Trim (br_Prefix (bk_Repository b)) "/") <>
    (br_Type (bk_Repository b'), br_Bucket (bk_Repository b'), Trim (br_Prefix (bk_Repository b')) "/") /\
  (vs_Mount (br_CredentialVaultRef (bk_Repository b)), vs_Path (br_CredentialVaultRef (bk_Repository b))) <>
    (vs_Mount (br_CredentialVaultRef (bk_Repository b')), vs_Path (br_CredentialVaultRef (bk_Repository b'))) /\
  (tdeClaimsConflict (spec_TDE (msp_Spec instance)) (spec_TDE (msp_Spec other)) = true ->
     annotation instance restoreSourceUIDAnnotation = meta_UID (msp_Meta other)).
Proof.
  intros Hc Hin Hne Hdel Hb Hb'. destruct (claims_conflict_none _ _ Hc _ Hin Hne Hdel) as [Hbk Ht].
  rewrite Hb, Hb' in Hbk. unfold backupClaimsConflict in Hbk. apply orb_false_iff in Hbk as [H1 H2].
  split; [|split; [|done]].
  - intros [= E1 E2 E3]. rewrite E1, E2, E3 in H1. by rewrite !bool_decide_eq_true_2 in H1.
  - intros [= E1 E2]. rewrite E1, E2 in H2. by rewrite !bool_decide_eq_true_2 in H2.
Qed.

(** ** Witness *)
Module RefPolicy.
Definition instance (name prefix path : string) : MultiSitePostgres :=
  zero_MultiSitePostgres
    <| msp_Meta := zero_ObjectMeta <| meta_Name := name |> <| meta_UID := name |> |>
    <| msp_Spec := zero_MultiSitePostgresSpec <| spec_Backup := Some (mkBackupSpec
         (mkBackupRepositorySpec "S3" "bucket" prefix "" "" "" None (mkVaultSecretReference "kv" path ""))
         zero_BackupSchedules zero_BackupRetention) |> |>.
End RefPolicy.

(** The same prefix with another number of slashes is the same repository. *)
Lemma instance_claims_isolated_witness :
  claims_conflict (RefPolicy.instance "a" "/db/" "x") [RefPolicy.instance "b" "db" "y"] <> None /\
  claims_conflict (RefPolicy.instance "a" "/db/" "x") [RefPolicy.instance "b" "db2" "y"] = None /\
  ("kv", "x") <> ("kv", "y").
Proof.
  split; [vm_compute; discriminate|]. split; [vm_compute; reflexivity|].
  edestruct (instance_claims_isolated (RefPolicy.instance "a" "/db/" "x") [RefPolicy.instance "b" "db2" "y"]
    (RefPolicy.instance "b" "db2" "y")) as (_ & H & _);
    [vm_compute; reflexivity|by apply list_elem_of_singleton|vm_compute; discriminate|reflexivity|reflexivity|reflexivity|].
  exact H.
Defined.
