(* ===== verification/Restore.v ===== *)
(** * Point-in-time restore

    [internal/controller/postgresrestore_controller.go]: the state machine that
    creates an isolated target instance, waits for the seed to recover, for the
    replicas, for acceptance, and ends; with its preflight checks and its
    cancellation. *)

From S2P Require Import Prelude Prog Api Kube ApiServer Codec Plan Members.

(** [validation.IsDNS1123Label] (the problems of a name) and
    [apiequality.Semantic.DeepEqual] on a restore's status. *)
Class RestoreLib := {
  IsDNS1123Label : string -> list string;
  DeepEqual : PostgresRestoreStatus -> PostgresRestoreStatus -> bool;
}.

Definition restoreProgressRequeue : Duration := (10 * second)%Z.

(** The better of two seeds: the higher preference, then the smaller name. *)
Definition better_seed (site selected : PostgresSiteSpec) : bool :=
  (site_PrimaryPreference selected <? site_PrimaryPreference site)%Z ||
  (site_PrimaryPreference site == site_PrimaryPreference selected) &&
  string_less (site_Name site) (site_Name selected).

Definition select_seed (sites : list PostgresSiteSpec) : option PostgresSiteSpec :=
  foldl (fun selected site =>
    if (site_Role site != SiteRoleData) || (sc_PostgresReplicas (site_Components site) <? 1)%Z then selected
    else match selected with
         | None => Some site
         | Some current => if better_seed site current then Some site else selected
         end) None sites.

Definition selectRestoreSeed (sites : list PostgresSiteSpec) : result (string * string) :=
  match select_seed sites with
  | None => Err (errors_New "restore topology has no PostgreSQL member")
  | Some selected => Ok (site_Name selected, member_name "postgres" (site_Name selected) 0)
  end.

Definition restoreProgressOrError (err : option Error) : Outcome :=
  match err with
  | Some e => (Done, Some e)
  | None => (mkResult restoreProgressRequeue, None)
  end.

(** [metav1.Time.Before] on pointers: false when either is nil. *)
Definition time_ptr_Before (t u : option Time) : bool :=
  match t, u with Some t, Some u => time_Before t u | _, _ => false end.

Definition op_end (op : OperationProgressStatus) : OperationProgressStatus :=
  op <| op_Terminal := true |> <| op_ManualInterventionRequired := false |>
     <| op_LastErrorReason := "" |> <| op_LastErrorMessage := "" |> <| op_NextRetryAt := None |>.

Section restore.
Context {K : KubeLib} {L : RestoreLib} {TT : TimeText}.

Definition set_restore_condition (restore : PostgresRestore) (ctype status reason message : string) : PostgresRestore :=
  restore <| res_Status ::= fun st => st <| rst_Conditions :=
    setCondition (rst_Conditions st) (meta_Generation (res_Meta restore)) ctype status reason message |> |>.

Definition set_restore_operation (restore : PostgresRestore)
  (f : OperationProgressStatus -> OperationProgressStatus) : PostgresRestore :=
  restore <| res_Status ::= fun st => st <| rst_Operation := f <$> rst_Operation st |> |>.

Definition ensureRestoreOperation (restore : PostgresRestore) (phase : string) : kprog PostgresRestore :=
  let uid := meta_UID (res_Meta restore) in
  let* restore :=
    match rst_Operation (res_Status restore) with
    | Some _ => Ret restore
    | None =>
        let* now := call Now in
        Ret (restore <| res_Status ::= fun st => st <| rst_Operation := Some
          (zero_OperationProgressStatus <| op_OperationUID := uid |> <| op_Attempt := 1%Z |>
             <| op_DeadlineAt := Some (time_Add now (24 * hour)%Z) |>) |> |>)
    end in
  Ret (set_restore_operation restore (fun op =>
    op <| op_OperationUID := uid |> <| op_Phase := phase |>
       <| op_Attempt := if op_Attempt op == 0%Z then 1%Z else op_Attempt op |>)).

(** [r.Status().Update(ctx, restore)]: the object in memory afterwards. *)
Definition write_restore_status (restore : PostgresRestore) : kprog (PostgresRestore * option Error) :=
  let* x := call (UpdateStatus KRestore restore) in
  match x with Ok restore' => Ret (restore', None) | Err e => Ret (restore, Some e) end.

(** The common part of [setRestorePhase] and [restoreBlocked]. *)
Definition report_restore (restore : PostgresRestore) (phase errReason errMessage reason message : string) :
  kprog (PostgresRestore * option Error) :=
  let before := res_Status restore in
  let restore := restore <| res_Status ::= fun st =>
    st <| rst_ObservedGeneration := meta_Generation (res_Meta restore) |> <| rst_Phase := phase |> |> in
  let* restore := ensureRestoreOperation restore phase in
  let restore := set_restore_operation restore (fun op =>
    op <| op_Terminal := false |> <| op_LastErrorReason := errReason |> <| op_LastErrorMessage := errMessage |>) in
  let restore := set_restore_condition restore "Ready" ConditionFalse reason message in
  if DeepEqual before (res_Status restore) then Ret (restore, None) else write_restore_status restore.

Definition setRestorePhase (restore : PostgresRestore) (phase reason message : string) :
  kprog (PostgresRestore * option Error) :=
  report_restore restore phase "" "" reason message.

Definition restoreBlocked (restore : PostgresRestore) (reason message : string) :
  kprog (PostgresRestore * option Error) :=
  report_restore restore "Preflight" reason message reason message.

(** [return restoreProgressOrError(r.restoreBlocked(...))] and its like. *)
Definition progress (p : kprog (PostgresRestore * option Error)) : kprog Outcome :=
  let* x := p in Ret (restoreProgressOrError x.2).

Definition setTargetPhase (target : MultiSitePostgres) (phase : string) : kprog (option Error) :=
  let changed := target <| msp_Meta ::= fun m =>
    m <| meta_Annotations := <[restorePhaseAnnotation := phase]> (meta_Annotations m) |> |> in
  let* x := call (Patch KInstance target changed) in
  match x with Ok _ => Ret None | Err e => Ret (Some e) end.

Definition operationConflict (namespace instanceRef operationName operationKind : string) : kprog (result string) :=
  let active phase := (phase != "Completed") && (phase != "Failed") in
  let! upgrades := call (List KUpgrade (Some namespace) ∅) onerr e => Ret (Err e) in
  if existsb (fun u => (us_InstanceRef (upg_Spec u) == instanceRef) && active (ust_Phase (upg_Status u))) upgrades
  then Ret (Ok "another upgrade targets this instance")
  else
    let! restores := call (List KRestore (Some namespace) ∅) onerr e => Ret (Err e) in
    if existsb (fun r => (rs_TargetInstanceRef (res_Spec r) == instanceRef) &&
         ((operationKind != "restore") || (meta_Name (res_Meta r) != operationName)) &&
         active (rst_Phase (res_Status r))) restores
    then Ret (Ok "another restore targets this instance")
    else Ret (Ok "").

Definition is_drill (restore : PostgresRestore) : bool :=
  meta_Annotations (res_Meta restore) !!! restoreDrillAnnotation == "true".

(** The checks of [preflight] on the source and the requested time, [None] if
    they pass. *)
Definition preflight_source (restore : PostgresRestore) (source : MultiSitePostgres) : option string :=
  let status := msp_Status source in
  let true_ := conditionTrue (st_Conditions status) in
  if is_nil (spec_Backup (msp_Spec source)) then Some "source has no pgBackRest repository"
  else if negb (true_ "Ready") || is_nil (st_RecoveryWindowStart status) then
    Some "source must be Ready with a verified recovery window"
  else if is_drill restore && negb (true_ "BackupReady") then
    Some "source must have archived WAL metadata before a disposable restore drill"
  else if negb (is_drill restore) && negb (true_ "RecoveryWindowAvailable") then
    Some "source must be Ready with a verified recovery window"
  else if is_nil (st_RestoreDrillLastVerifiedAt status) && negb (is_drill restore) then
    Some "source recovery window has no disposable restore verification"
  else if time_ptr_Before (st_RestoreDrillLastVerifiedAt status) (st_RecoveryWindowStart status) then
    Some "source disposable restore verification predates the recovery window"
  else if time_ptr_Before (Some (rs_TargetTime (res_Spec restore))) (st_RecoveryWindowStart status) then
    Some "target time precedes the verified recovery window"
  else None.

Definition preflight (restore : PostgresRestore) (source : MultiSitePostgres) : kprog (option Error) :=
  match preflight_source restore source with
  | Some message => Ret (Some (errors_New message))
  | None =>
      let* now := call Now in
      if time_After (rs_TargetTime (res_Spec restore)) now then
        Ret (Some (errors_New "target time is in the future"))
      else
        let! conflict := operationConflict (meta_Namespace (res_Meta restore))
          (rs_TargetInstanceRef (res_Spec restore)) (meta_Name (res_Meta restore)) "restore"
          onerr e => Ret (Some e) in
        if conflict != "" then Ret (Some (errors_New conflict)) else Ret None
  end.

(** [newTarget] renames the namespaces of the source's sites unless the restore
    has a topology of its own. *)
Definition newTarget (restore : PostgresRestore) (source : MultiSitePostgres) : result MultiSitePostgres :=
  let sites :=
    match rs_RestoreTopology (res_Spec restore) with
    | [] => (fun site => mkPostgresSiteSpec (site_Name site) (site_SiteRegistrationRef site)
               (rs_TargetInstanceRef (res_Spec restore) +:+ "-" +:+ site_Name site)
               (site_Role site) (site_PrimaryPreference site) (site_Components site) (site_Storage site)
               (site_LoadBalancer site) (site_VaultAuth site) (site_Certificates site))
            <$> spec_Sites (msp_Spec source)
    | topology => topology
    end in
  let spec := (msp_Spec source) <| spec_Backup := rs_TargetBackup (res_Spec restore) |> <| spec_Sites := sites |> in
  match selectRestoreSeed sites with
  | Err e => Err e
  | Ok _ =>
      match List.find (fun site => negb (is_nil (head (IsDNS1123Label (site_Namespace site))))) sites with
      | Some site =>
          Err (errors_New ("target namespace " +:+ Quote (site_Namespace site) +:+ " is invalid: " +:+
                           default "" (head (IsDNS1123Label (site_Namespace site)))))
      | None =>
          Ok (mkMultiSitePostgres
            (zero_ObjectMeta <| meta_Namespace := meta_Namespace (res_Meta restore) |>
               <| meta_Name := rs_TargetInstanceRef (res_Spec restore) |>
               <| meta_Annotations := list_to_map [
                    (restoreUIDAnnotation, meta_UID (res_Meta restore));
                    (restoreNameAnnotation, meta_Name (res_Meta restore));
                    (restoreSourceUIDAnnotation, meta_UID (msp_Meta source));
                    (restorePhaseAnnotation, RestorePhaseSeed)] |>)
            spec zero_MultiSitePostgresStatus)
      end
  end.

Definition recordRestoreDrillEvidence (restore : PostgresRestore) : kprog (option Error) :=
  let! source := call (Get KInstance (meta_Namespace (res_Meta restore)) (rs_SourceInstanceRef (res_Spec restore)))
    onerr e => Ret (Some e) in
  let* verifiedAt := call Now in
  let status := msp_Status source in
  let status := status <| st_RestoreDrillLastVerifiedAt := Some verifiedAt |> in
  let status := status <| st_RestoreDrillBackupSet :=
    if rs_BackupSet (res_Spec restore) != "" then rs_BackupSet (res_Spec restore)
    else if rst_SelectedBackupSet (res_Status restore) != "" then rst_SelectedBackupSet (res_Status restore)
    else st_RestoreDrillBackupSet status |> in
  let status :=
    if negb (is_nil (st_RecoveryWindowStart status)) &&
       negb (time_ptr_Before (st_RestoreDrillLastVerifiedAt status) (st_RecoveryWindowStart status)) then
      status <| st_Conditions := setCondition (st_Conditions status) (meta_Generation (msp_Meta source))
        "RecoveryWindowAvailable" ConditionTrue "DisposableRestoreVerified"
        "Archived WAL continuity and a recent disposable restore drill prove the recovery window" |>
    else status in
  let* x := call (UpdateStatus KInstance (source <| msp_Status := status |>)) in
  match x with Ok _ => Ret None | Err e => Ret (Some e) end.

Definition completeRestore (restore : PostgresRestore) : kprog (option Error) :=
  let restore := restore <| res_Status ::= fun st =>
    st <| rst_ObservedGeneration := meta_Generation (res_Meta restore) |> <| rst_Phase := "Completed" |> |> in
  let* restore := ensureRestoreOperation restore "Completed" in
  let restore := set_restore_operation restore op_end in
  let restore := restore <| res_Status ::= fun st =>
    st <| rst_RecoveredTo := Some (rs_TargetTime (res_Spec restore)) |>
       <| rst_SelectedBackupSet := if rs_BackupSet (res_Spec restore) != "" then rs_BackupSet (res_Spec restore)
                                   else rst_SelectedBackupSet st |> |> in
  let restore := set_restore_condition restore "Ready" ConditionTrue "RestoreCompleted"
    "The target instance passed restore acceptance" in
  let* now := call Now in
  let restore := set_restore_condition restore "Completed" ConditionTrue "AcceptancePassed"
    ("Point-in-time recovery completed at " +:+ FormatSeconds now) in
  let* err := if is_drill restore then recordRestoreDrillEvidence restore else Ret None in
  match err with
  | Some e => Ret (Some e)
  | None => let* x := write_restore_status restore in Ret x.2
  end.

(** The last two statements of several branches of the deletion. *)
Definition release_restore (restore : PostgresRestore) : kprog Outcome :=
  let* x := call (Update KRestore
    (restore <| res_Meta := RemoveFinalizer (res_Meta restore) operationFinalizer |>)) in
  Ret (finish x).

Definition disown_target (target : MultiSitePostgres) : MultiSitePostgres :=
  target <| msp_Meta ::= fun m => m <| meta_Annotations ::= fun a =>
    delete restorePhaseAnnotation (delete restoreSourceUIDAnnotation
      (delete restoreNameAnnotation (delete restoreUIDAnnotation a))) |> |>.

Definition reconcileRestoreDeletion (restore : PostgresRestore) : kprog Outcome :=
  if negb (ContainsFinalizer (res_Meta restore) operationFinalizer) then Ret (Done, None)
  else if (rst_Phase (res_Status restore) == "Completed") || (rst_Phase (res_Status restore) == "") then
    release_restore restore
  else
    let* got := call (Get KInstance (meta_Namespace (res_Meta restore)) (rs_TargetInstanceRef (res_Spec restore))) in
    match got with
    | Err e => if IsNotFound e then release_restore restore else Ret (Done, Some e)
    | Ok target =>
        let owned := annotation target restoreUIDAnnotation == meta_UID (res_Meta restore) in
        if meta_Annotations (res_Meta restore) !!! forceAbandonAnnotation == "true" then
          let* err :=
            if owned then
              let* x := call (Patch KInstance target (disown_target target)) in
              Ret (match x with Ok _ => None | Err e => Some e end)
            else Ret None in
          match err with
          | Some e => Ret (Done, Some e)
          | None =>
              let* x := restoreBlocked restore "ForceAbandoned"
                "Restore deletion was force-abandoned; residual target resources require operator review" in
              release_restore x.1
          end
        else if negb owned then release_restore restore
        else
          let* err :=
            match meta_DeletionTimestamp (msp_Meta target) with
            | Some _ => Ret None
            | None =>
                let* x := call (Delete KInstance target) in
                Ret (match x with
                     | Err e => if IsNotFound e then None else Some e
                     | Ok _ => None
                     end)
            end in
          match err with
          | Some e => Ret (Done, Some e)
          | None => progress (restoreBlocked restore "CancellationInProgress"
              "Deleting the isolated restore target before removing operation state")
          end
    end.

(** [setTargetPhase], then what follows it when it succeeds. *)
Definition advance_target (target : MultiSitePostgres) (phase : string) (next : kprog Outcome) : kprog Outcome :=
  let* err := setTargetPhase target phase in
  match err with Some e => Ret (Done, Some e) | None => next end.

Definition finish_restore (restore : PostgresRestore) : kprog Outcome :=
  let* err := completeRestore restore in Ret (Done, err).

(** The acceptance conditions of the three phases. *)
Definition seed_promoted (target : MultiSitePostgres) (seedMember : string) : bool :=
  (st_Primary (msp_Status target) == seedMember) &&
  conditionTrue (st_Conditions (msp_Status target)) "TopologyReady".

Definition replicas_ready (target : MultiSitePostgres) : bool :=
  conditionTrue (st_Conditions (msp_Status target)) "TopologyReady" &&
  negb (int32 (Z.of_nat (length (st_SynchronousStandbys (msp_Status target)))) <?
        pg_SynchronousStandbyCount (spec_Postgres (msp_Spec target)))%Z.

Definition restore_accepted (source target : MultiSitePostgres) : bool :=
  let true_ := conditionTrue (st_Conditions (msp_Status target)) in
  true_ "Ready" && true_ "TopologyReady" &&
  negb (tde_Enabled (spec_TDE (msp_Spec source)) && negb (true_ "TDEVerified")).

(** The [switch] over the target's restore phase. *)
Definition drive_target (restore : PostgresRestore) (source target : MultiSitePostgres) : kprog Outcome :=
  let phase := annotation target restorePhaseAnnotation in
  if phase == RestorePhaseSeed then
    match selectRestoreSeed (spec_Sites (msp_Spec target)) with
    | Err e => progress (restoreBlocked restore "InvalidTarget" (err_text e))
    | Ok (seedSite, seedMember) =>
        if negb (seed_promoted target seedMember) then
          progress (setRestorePhase restore "Restoring" "SeedRecoveryInProgress"
            ("Waiting for " +:+ seedSite +:+ "/" +:+ seedMember +:+ " to recover and promote"))
        else
          advance_target target RestorePhaseReplicas
            (progress (setRestorePhase restore "SeedingReplicas" "SeedPromoted"
               "Point-in-time recovery completed; replicas are now being cloned"))
    end
  else if phase == RestorePhaseReplicas then
    if negb (replicas_ready target) then
      progress (setRestorePhase restore "SeedingReplicas" "ReplicationConverging"
        "Waiting for the required synchronous replicas")
    else
      advance_target target RestorePhaseVerify
        (progress (setRestorePhase restore "Verifying" "ReplicationReady"
           "Synchronous replication is ready; acceptance checks are running"))
  else if phase == RestorePhaseVerify then
    if negb (restore_accepted source target) then
      progress (setRestorePhase restore "Verifying" "AcceptancePending"
        "Waiting for target topology, Pgpool and TDE acceptance")
    else advance_target target "Completed" (finish_restore restore)
  else if phase == "Completed" then finish_restore restore
  else progress (restoreBlocked restore "InvalidTarget" "target instance has an unknown restore phase").

(** Create the target, or drive the one that exists. *)
Definition reconcile_target (restore : PostgresRestore) (source : MultiSitePostgres) : kprog Outcome :=
  let* got := call (Get KInstance (meta_Namespace (res_Meta restore)) (rs_TargetInstanceRef (res_Spec restore))) in
  match got with
  | Err e =>
      if IsNotFound e then
        match newTarget restore source with
        | Err e => progress (restoreBlocked restore "InvalidTarget" (err_text e))
        | Ok target =>
            let! _ := call (Create KInstance target) onerr e => Ret (Done, Some e) in
            progress (setRestorePhase restore "Provisioning" "TargetCreated"
              "The isolated restore target has been created")
        end
      else Ret (Done, Some e)
  | Ok target =>
      if (annotation target restoreUIDAnnotation != meta_UID (res_Meta restore)) ||
         (annotation target restoreSourceUIDAnnotation != meta_UID (msp_Meta source)) then
        progress (restoreBlocked restore "TargetExists"
          "target instance exists and is not an empty placeholder owned by this restore")
      else drive_target restore source target
  end.

Definition Reconcile (namespace name : string) : kprog Outcome :=
  let! restore := call (Get KRestore namespace name) onerr e => Ret (Done, IgnoreNotFound e) in
  match meta_DeletionTimestamp (res_Meta restore) with
  | Some _ => reconcileRestoreDeletion restore
  | None =>
      if rst_Phase (res_Status restore) == "Completed" then
        if ContainsFinalizer (res_Meta restore) operationFinalizer then release_restore restore
        else Ret (Done, None)
      else if negb (ContainsFinalizer (res_Meta restore) operationFinalizer) then
        let* x := call (Update KRestore
          (restore <| res_Meta := AddFinalizer (res_Meta restore) operationFinalizer |>)) in
        Ret (finish x)
      else
        let! source := call (Get KInstance (meta_Namespace (res_Meta restore)) (rs_SourceInstanceRef (res_Spec restore)))
          onerr e => progress (restoreBlocked restore "SourceUnavailable" (err_text e)) in
        let* err := preflight restore source in
        match err with
        | Some e => progress (restoreBlocked restore "PreflightFailed" (err_text e))
        | None => reconcile_target restore source
        end
  end.
End restore.

(** ** The seed *)
Definition eligible_seed (site : PostgresSiteSpec) : Prop :=
  site_Role site = SiteRoleData /\ (1 <= sc_PostgresReplicas (site_Components site))%Z.

(** No worse a seed. *)
Definition seed_le (site best : PostgresSiteSpec) : Prop :=
  (site_PrimaryPreference site < site_PrimaryPreference best)%Z \/
  site_PrimaryPreference site = site_PrimaryPreference best /\ String.le (site_Name best) (site_Name site).

Lemma better_seed_spec site selected :
  if better_seed site selected then seed_le selected site else seed_le site selected.
Proof.
  unfold better_seed, seed_le. destruct (_ <? _)%Z eqn:Hp; cbn [orb]; bool_to_prop; [by left|].
  destruct (_ == _) eqn:He; cbn [andb]; bool_to_prop.
  - destruct (string_less _ _) eqn:Hl.
    + right. split; [done|]. by apply string_less_true.
    + right. split; [done|]. by apply string_less_false.
  - left. lia.
Qed.

Lemma seed_le_trans a b c : seed_le a b -> seed_le b c -> seed_le a c.
Proof.
  unfold seed_le. intros [H|[H Hn]] [H'|[H' Hn']]; try (left; lia). right. split; [congruence|].
  by transitivity (site_Name b).
Qed.

(** [seed] is the best of [sites], or no site of [sites] is eligible. *)
Definition best_seed (sites : list PostgresSiteSpec) (seed : option PostgresSiteSpec) : Prop :=
  match seed with
  | Some s => s ∈ sites /\ eligible_seed s /\ forall s', s' ∈ sites -> eligible_seed s' -> seed_le s' s
  | None => forall s, s ∈ sites -> ~ eligible_seed s
  end.

Lemma select_seed_best sites : best_seed sites (select_seed sites).
Proof.
  unfold select_seed. induction sites as [|site sites IH] using rev_ind; [by intros s ?%elem_of_nil|].
  rewrite foldl_app. cbn. destruct (_ || _) eqn:Hel.
  - assert (Hn : ~ eligible_seed site).
    { intros [Hr Hc]. apply orb_true_iff in Hel as [Hel|Hel]; bool_to_prop; [done|lia]. }
    destruct (foldl _ _ _) as [s|]; cbn in *.
    + destruct IH as (Hs & He & Hmax). split_and!; [set_solver|done|].
      intros s' [H| ->%list_elem_of_singleton]%elem_of_app; [auto|done].
    + intros s [H| ->%list_elem_of_singleton]%elem_of_app; auto.
  - assert (Hy : eligible_seed site) by (bool_to_prop; split; [done|lia]).
    destruct (foldl _ _ _) as [s|]; cbn in *.
    + destruct IH as (Hs & He & Hmax). pose proof (better_seed_spec site s) as Hb.
      destruct (better_seed site s); (split_and!; [set_solver|done|]);
        (intros s' [H| ->%list_elem_of_singleton]%elem_of_app Hs'; [eauto using seed_le_trans|]); [|done].
      right. split; reflexivity.
    + split_and!; [set_solver|done|]. intros s' [H| ->%list_elem_of_singleton]%elem_of_app Hs'.
      * by destruct (IH s' H).
      * right. split; reflexivity.
Qed.

(** The member a restore recovers first is the first PostgreSQL member of
    the data site with the highest primary preference, and of the smallest name
    among those; the selection fails exactly when no data site has a PostgreSQL
    replica. *)
Theorem restore_seed_best sites :
  match selectRestoreSeed sites with
  | Ok (site, member) => exists s, s ∈ sites /\ eligible_seed s /\
      site = site_Name s /\ member = "postgres-" +:+ site_Name s +:+ "-0" /\
      forall s', s' ∈ sites -> eligible_seed s' -> seed_le s' s
  | Err _ => forall s, s ∈ sites -> ~ eligible_seed s
  end.
Proof.
  unfold selectRestoreSeed. pose proof (select_seed_best sites) as H.
  destruct (select_seed sites) as [s|]; [|exact H]. destruct H as (Hs & He & Hm). by exists s.
Qed.

(** ** What a reconcile may ask of the server *)

Section restore_properties.
Context {K : KubeLib} {L : RestoreLib} {TT : TimeText}.

Definition owned_by (restore : PostgresRestore) (target : MultiSitePostgres) : Prop :=
  annotation target restoreUIDAnnotation = meta_UID (res_Meta restore).

Definition with_restore_phase (target : MultiSitePostgres) (phase : string) : MultiSitePostgres :=
  target <| msp_Meta ::= fun m =>
    m <| meta_Annotations := <[restorePhaseAnnotation := phase]> (meta_Annotations m) |> |>.

(** The phases of a restore target, and what each step requires of it. *)
Inductive restore_edge (source target : MultiSitePostgres) : string -> string -> Prop :=
| edge_seed site member :
    selectRestoreSeed (spec_Sites (msp_Spec target)) = Ok (site, member) ->
    st_Primary (msp_Status target) = member ->
    conditionTrue (st_Conditions (msp_Status target)) "TopologyReady" = true ->
    restore_edge source target RestorePhaseSeed RestorePhaseReplicas
| edge_replicas :
    conditionTrue (st_Conditions (msp_Status target)) "TopologyReady" = true ->
    (pg_SynchronousStandbyCount (spec_Postgres (msp_Spec target)) <=
      int32 (Z.of_nat (length (st_SynchronousStandbys (msp_Status target)))))%Z ->
    restore_edge source target RestorePhaseReplicas RestorePhaseVerify
| edge_verify :
    conditionTrue (st_Conditions (msp_Status target)) "Ready" = true ->
    conditionTrue (st_Conditions (msp_Status target)) "TopologyReady" = true ->
    (tde_Enabled (spec_TDE (msp_Spec source)) = true ->
     conditionTrue (st_Conditions (msp_Status target)) "TDEVerified" = true) ->
    restore_edge source target RestorePhaseVerify "Completed".

(** The reconcile of [restore], not being deleted, has read its source, and the
    requested time passed the preflight at a time [now] it read. *)
Definition cleared (h : khistory) (restore : PostgresRestore) (source : MultiSitePostgres) : Prop :=
  was_read (k:=KRestore) h restore /\ was_read (k:=KInstance) h source /\
  meta_DeletionTimestamp (res_Meta restore) = None /\
  preflight_source restore source = None /\
  (exists now, existT Now now ∈ h /\ (rs_TargetTime (res_Spec restore) <= now)%Z) /\
  (exists restores, existT (List KRestore (Some (meta_Namespace (res_Meta restore))) ∅) (Ok restores) ∈ h /\
     forall other, other ∈ restores -> rs_TargetInstanceRef (res_Spec other) = rs_TargetInstanceRef (res_Spec restore) ->
       meta_Name (res_Meta other) = meta_Name (res_Meta restore) \/
       rst_Phase (res_Status other) = "Completed" \/ rst_Phase (res_Status other) = "Failed").

Definition drives (h : khistory) (restore : PostgresRestore) (source target : MultiSitePostgres) : Prop :=
  cleared h restore source /\ was_read (k:=KInstance) h target /\ owned_by restore target /\
  annotation target restoreSourceUIDAnnotation = meta_UID (msp_Meta source).

(** The restore may end: its target is at the last phase, or was just moved there. *)
Definition may_complete (h : khistory) (restore : PostgresRestore) (source target : MultiSitePostgres) : Prop :=
  drives h restore source target /\
  (annotation target restorePhaseAnnotation = "Completed" \/
   restore_edge source target (annotation target restorePhaseAnnotation) "Completed" /\
   exists x, existT (Patch KInstance target (with_restore_phase target "Completed")) (Ok x) ∈ h).

Definition restore_request (h : khistory) (r : Req) : Prop :=
  match r with
  | Get _ _ _ | List _ _ _ | Now | Update KRestore _ => True
  | UpdateStatus KRestore o =>
      rst_Phase (res_Status o) = "Completed" ->
      exists restore source target, may_complete h restore source target /\
        meta_UID (res_Meta o) = meta_UID (res_Meta restore)
  | Create KInstance o => exists restore source, cleared h restore source /\ newTarget restore source = Ok o
  | Patch KInstance base o => exists restore, owned_by restore base /\ was_read (k:=KInstance) h base /\
      ((exists source phase, drives h restore source base /\
          restore_edge source base (annotation base restorePhaseAnnotation) phase /\
          o = with_restore_phase base phase) \/
       (was_read (k:=KRestore) h restore /\ deleting (res_Meta restore) /\ o = disown_target base))
  | Delete KInstance o => exists restore, was_read (k:=KRestore) h restore /\ deleting (res_Meta restore) /\
      owned_by restore o /\ was_read (k:=KInstance) h o
  | UpdateStatus KInstance o => exists restore source target, drives h restore source target /\
      meta_Annotations (res_Meta restore) !!! restoreDrillAnnotation = "true"
  | _ => False
  end.

(** A reconcile that neither fails nor asks to run again has nothing left to do. *)
Definition settled (h : khistory) (out : Outcome) : Prop :=
  out = (Done, None) ->
  (exists namespace name e, existT (Get KRestore namespace name) (Err e) ∈ h /\ IsNotFound e = true) \/
  (exists restore, was_read (k:=KRestore) h restore /\
     (rst_Phase (res_Status restore) = "Completed" \/
      deleting (res_Meta restore) /\ ContainsFinalizer (res_Meta restore) operationFinalizer = false)) \/
  (exists o o', existT (Update KRestore o) (Ok o') ∈ h) \/
  (exists o o', existT (UpdateStatus KRestore o) (Ok o') ∈ h /\ rst_Phase (res_Status o) = "Completed").

Lemma was_read_cons {k} (h : khistory) e (o : Object k) : was_read h o -> was_read (e :: h) o.
Proof. intros (ns & n & H). exists ns, n. by apply elem_of_cons; right. Qed.

Lemma was_read_here {k} (h : khistory) ns n (o : Object k) : was_read (existT (Get k ns n) (Ok o) :: h) o.
Proof. exists ns, n. apply elem_of_cons. by left. Qed.

Lemma cleared_cons h e restore source : cleared h restore source -> cleared (e :: h) restore source.
Proof.
  intros (? & ? & ? & ? & (now & ? & ?) & (l & ? & ?)).
  split_and!; try by (apply was_read_cons || idtac).
  - exists now. split; [by apply elem_of_cons; right|done].
  - exists l. split; [by apply elem_of_cons; right|done].
Qed.

Lemma drives_cons h e restore source target : drives h restore source target -> drives (e :: h) restore source target.
Proof. intros (? & ? & ? & ?). split_and!; auto using cleared_cons, was_read_cons. Qed.


Lemma ensureRestoreOperation_sat restore phase h (Q : khistory -> PostgresRestore -> Prop) :
  (forall h' f, Q h' (restore <| res_Status ::= fun st => st <| rst_Operation := f |> |>)) ->
  sat restore_request Q h (ensureRestoreOperation restore phase).
Proof.
  intros HQ. unfold ensureRestoreOperation. sat_step.
  destruct restore as [m s [? ? ? ? [op|] ?]]; cbn.
  - apply HQ.
  - split; [done|]. intros now. apply HQ.
Qed.

Lemma report_restore_sat restore phase er em reason message h (Q : khistory -> PostgresRestore * option Error -> Prop) :
  phase <> "Completed" -> (forall h' x, Q h' x) ->
  sat restore_request Q h (report_restore restore phase er em reason message).
Proof.
  intros Hp HQ. unfold report_restore, write_restore_status. sat_step.
  apply ensureRestoreOperation_sat. intros h' f. sat_step; [apply HQ|].
  sat_step. sat_step; [by cbn|]. sat_step; apply HQ.
Qed.

(** Reporting progress or an obstacle only writes the restore's status, and the
    reconcile runs again or fails. *)
Lemma progress_sat restore phase er em reason message h :
  phase <> "Completed" ->
  sat restore_request settled h (progress (report_restore restore phase er em reason message)).
Proof.
  intros Hp. unfold progress. sat_step. apply report_restore_sat; [done|].
  intros h' [o [e|]]; by intros [=].
Qed.

Lemma may_complete_cons h e restore source target :
  may_complete h restore source target -> may_complete (e :: h) restore source target.
Proof.
  intros [Hd [H|(He & x & Hx)]]; (split; [by apply drives_cons|]); [by left|right].
  split; [done|]. exists x. by apply elem_of_cons; right.
Qed.

Lemma recordRestoreDrillEvidence_sat restore0 restore source target h (Q : khistory -> option Error -> Prop) :
  may_complete h restore0 source target ->
  meta_Annotations (res_Meta restore0) !!! restoreDrillAnnotation = "true" ->
  (forall h' x, may_complete h' restore0 source target -> Q h' x) ->
  sat restore_request Q h (recordRestoreDrillEvidence restore).
Proof.
  intros Hm Hd HQ. unfold recordRestoreDrillEvidence. sat_step. sat_step; [done|].
  sat_step; [|by apply HQ, may_complete_cons].
  sat_step. sat_step; [done|]. sat_step. sat_step.
  - exists restore0, source, target. split; [|done]. by do 2 apply drives_cons; destruct Hm.
  - sat_step; apply HQ; by do 3 apply may_complete_cons.
Qed.

Lemma finish_restore_sat restore source target h :
  may_complete h restore source target -> sat restore_request settled h (finish_restore restore).
Proof.
  intros Hm. unfold finish_restore, completeRestore, write_restore_status. do 2 sat_step.
  set (r0 := restore <| res_Status ::= _ |>).
  apply (sat_mono restore_request _ (fun h' o => may_complete h' restore source target /\
    exists f, o = r0 <| res_Status ::= fun st => st <| rst_Operation := f |> |>)); [done| |].
  2:{ unfold ensureRestoreOperation. sat_step. subst r0. destruct restore as [m s [? ? ? ? [op|] ?]]; cbn.
      - split; [done|]. by eexists.
      - split; [done|]. intros now. split; [by apply may_complete_cons|]. by eexists. }
  intros h1 o1 [Hm1 [f ->]]. sat_step. sat_step; [done|]. sat_step.
  match goal with |- sat _ ?Q ?h _ => assert (HQ : forall err h', may_complete h' restore source target -> Q h' err) end.
  { intros [e|] h' Hm'; [done|]. do 2 sat_step. sat_step.
    - intros _. by exists restore, source, target.
    - sat_step; cbn; [|done]. intros _. right. right. right. eexists _, _. split; [apply elem_of_cons; by left|done]. }
  destruct (is_drill _) eqn:Hd.
  - eapply (recordRestoreDrillEvidence_sat restore); [by apply may_complete_cons| |auto].
    unfold is_drill in Hd. cbn in Hd. by bool_to_prop.
  - apply HQ. by apply may_complete_cons.
Qed.

Lemma advance_target_sat restore source target phase next h :
  drives h restore source target ->
  restore_edge source target (annotation target restorePhaseAnnotation) phase ->
  (forall x, sat restore_request settled
     (existT (Patch KInstance target (with_restore_phase target phase)) (Ok x) :: h) next) ->
  sat restore_request settled h (advance_target target phase next).
Proof.
  intros Hd He Hn. unfold advance_target, setTargetPhase. do 3 sat_step.
  - exists restore. destruct Hd as (Hc & Hr & Ho & Hs). split_and!; try done. left.
    exists source, phase. by split_and!.
  - sat_step; cbn [sat]; [|done]. apply Hn.
Qed.

Lemma drive_target_sat restore source target h :
  drives h restore source target -> sat restore_request settled h (drive_target restore source target).
Proof.
  intros Hd. unfold drive_target.
  destruct (_ == RestorePhaseSeed) eqn:H1; [|destruct (_ == RestorePhaseReplicas) eqn:H2;
    [|destruct (_ == RestorePhaseVerify) eqn:H3; [|destruct (_ == "Completed") eqn:H4]]]; bool_to_prop.
  - destruct (selectRestoreSeed _) as [[site member]|e] eqn:Hs; [|by apply progress_sat].
    destruct (seed_promoted _ _) eqn:Hp; cbn [negb]; [|by apply progress_sat].
    unfold seed_promoted in Hp. bool_to_prop.
    eapply advance_target_sat; [done|rewrite H1; by econstructor|]. intros x. by apply progress_sat.
  - destruct (replicas_ready _) eqn:Hp; cbn [negb]; [|by apply progress_sat].
    unfold replicas_ready in Hp. bool_to_prop.
    eapply advance_target_sat; [done|rewrite H2; by constructor|]. intros x. by apply progress_sat.
  - destruct (restore_accepted _ _) eqn:Hp; cbn [negb]; [|by apply progress_sat].
    assert (He : restore_edge source target (annotation target restorePhaseAnnotation) "Completed").
    { rewrite H3. unfold restore_accepted in Hp. bool_to_prop. constructor; try done. intros Ht.
      rewrite Ht in *. cbn in *. by bool_to_prop. }
    eapply advance_target_sat; [done|exact He|]. intros x. eapply finish_restore_sat.
    split; [by apply drives_cons|]. right. split; [done|]. exists x. apply elem_of_cons. by left.
  - eapply finish_restore_sat. split; [done|]. by left.
  - by apply progress_sat.
Qed.

Lemma release_restore_sat restore h : sat restore_request settled h (release_restore restore).
Proof.
  unfold release_restore. do 2 sat_step; [done|]. cbn [sat]. intros Hx. right. right. left.
  destruct x as [o|e]; [|done]. eexists _, o. apply elem_of_cons. by left.
Qed.

Lemma reconcileRestoreDeletion_sat restore h :
  was_read (k:=KRestore) h restore -> deleting (res_Meta restore) ->
  sat restore_request settled h (reconcileRestoreDeletion restore).
Proof.
  intros Hr Hdel. unfold reconcileRestoreDeletion. sat_step.
  { sat_step. intros _. right. left. exists restore. bool_to_prop. by auto. }
  sat_step; [apply release_restore_sat|]. sat_step. sat_step; [done|].
  destruct x as [target|e]; [|sat_step; [apply release_restore_sat|done]].
  destruct (_ == "true") eqn:Hf; bool_to_prop.
  - sat_step. apply (sat_mono restore_request _ (fun _ _ => True)); [done| |].
    + intros h' [e|] _; [done|]. sat_step. apply report_restore_sat; [done|].
      intros h'' [o e]. apply release_restore_sat.
    + destruct (_ == _) eqn:Ho; [|done]. bool_to_prop. sat_step. sat_step; [|by destruct x].
      exists restore. split_and!; [done|apply was_read_here|]. right. split_and!; [by apply was_read_cons|done..].
  - destruct (_ == _) eqn:Ho; cbn [negb]; [|apply release_restore_sat]. bool_to_prop.
    sat_step. apply (sat_mono restore_request _ (fun _ _ => True)); [done| |].
    + intros h' [e|] _; [done|]. by apply progress_sat.
    + destruct (meta_DeletionTimestamp _); [done|]. sat_step. sat_step; [|done].
      exists restore. split_and!; [by apply was_read_cons|done|done|apply was_read_here].
Qed.

Lemma preflight_sat restore source h :
  was_read (k:=KRestore) h restore -> was_read (k:=KInstance) h source ->
  meta_DeletionTimestamp (res_Meta restore) = None ->
  sat restore_request (fun h' err => err = None -> cleared h' restore source) h (preflight restore source).
Proof.
  intros Hr Hs Hdel. unfold preflight. destruct (preflight_source _ _) eqn:Hp; [done|].
  do 2 sat_step; [done|]. rename x into now. destruct (time_After _ _) eqn:Hnow; [done|].
  sat_step. unfold operationConflict. sat_step. sat_step; [done|]. destruct x as [ups|e]; [|done].
  sat_step; [done|]. sat_step. sat_step; [done|].
  destruct x as [restores|e]; [|done]. destruct (existsb _ (_ : list PostgresRestore)) eqn:Hex; [done|]. cbn. intros _.
  split_and!; try by (do 3 apply was_read_cons || done).
  - exists now. split; [set_solver|]. unfold time_After in Hnow. bool_to_prop. lia.
  - exists restores. split; [set_solver|]. intros other Hin Href.
    rewrite <- not_true_iff_false, existsb_exists in Hex.
    destruct (decide (meta_Name (res_Meta other) = meta_Name (res_Meta restore))); [by left|].
    destruct (decide (rst_Phase (res_Status other) = "Completed")); [by auto|].
    destruct (decide (rst_Phase (res_Status other) = "Failed")); [by auto|].
    destruct Hex. exists other. split; [by apply list_elem_of_In|].
    repeat case_bool_decide; done.
Qed.

Lemma Reconcile_sat namespace name : sat restore_request settled [] (Reconcile namespace name).
Proof.
  unfold Reconcile. sat_step. sat_step; [done|]. destruct x as [restore|e].
  2:{ cbn. unfold IgnoreNotFound. destruct (IsNotFound e) eqn:He; [|done]. intros _. left.
      exists namespace, name, e. split; [set_solver|done]. }
  assert (Hr : was_read (k:=KRestore) [existT (Get KRestore namespace name) (Ok restore)] restore)
    by apply was_read_here.
  destruct (meta_DeletionTimestamp _) as [d|] eqn:Hdel.
  { apply reconcileRestoreDeletion_sat; [done|]. by exists d. }
  destruct (_ == "Completed") eqn:Hc; bool_to_prop.
  { sat_step; [apply release_restore_sat|]. intros _. right. left. exists restore. by auto. }
  sat_step.
  { sat_step. sat_step; [done|]. cbn [sat]. intros Hx. right. right. left.
    destruct x as [o|e]; [|done]. eexists _, o. apply elem_of_cons. by left. }
  sat_step. sat_step; [done|]. destruct x as [source|e]; [|by apply progress_sat].
  sat_step. eapply sat_mono; [done| |apply preflight_sat;
    [by apply was_read_cons|apply was_read_here|done]].
  intros h' [e|] Hpre; [by apply progress_sat|]. specialize (Hpre eq_refl).
  unfold reconcile_target. sat_step. sat_step; [done|]. destruct x as [target|e].
  - sat_step; [by apply progress_sat|]. bool_to_prop. apply drive_target_sat.
    split_and!; [by apply cleared_cons|apply was_read_here|done|done].
  - sat_step; [|done]. sat_step; [|by apply progress_sat]. sat_step. sat_step.
    + exists restore, source. split; [by apply cleared_cons|done].
    + sat_step; [by apply progress_sat|done].
Qed.

Lemma newTarget_owned restore source target :
  newTarget restore source = Ok target ->
  owned_by restore target /\ annotation target restoreSourceUIDAnnotation = meta_UID (msp_Meta source) /\
  annotation target restorePhaseAnnotation = RestorePhaseSeed /\
  exists seed, selectRestoreSeed (spec_Sites (msp_Spec target)) = Ok seed.
Proof.
  unfold newTarget. set (sites := match rs_RestoreTopology _ with [] => _ | _ => _ end).
  destruct (selectRestoreSeed sites) as [seed|] eqn:Hs; [|done]. destruct (List.find _ _); [done|].
  intros [= <-]. unfold owned_by, annotation. cbn. rewrite !lookup_total_alt. simplify_map_eq.
  split_and!; try done. by exists seed.
Qed.

Lemma preflight_source_None restore source :
  preflight_source restore source = None ->
  conditionTrue (st_Conditions (msp_Status source)) "Ready" = true /\
  exists start, st_RecoveryWindowStart (msp_Status source) = Some start /\
    (start <= rs_TargetTime (res_Spec restore))%Z /\
    (is_drill restore = true \/ exists verified,
       st_RestoreDrillLastVerifiedAt (msp_Status source) = Some verified /\ (start <= verified)%Z /\
       conditionTrue (st_Conditions (msp_Status source)) "RecoveryWindowAvailable" = true).
Proof.
  unfold preflight_source. destruct (is_nil (spec_Backup _)); [done|].
  destruct (conditionTrue _ "Ready"); [|done]. cbn [negb orb].
  destruct (st_RecoveryWindowStart _) as [start|]; [|done]. cbn [is_nil].
  destruct (is_drill restore) eqn:Hd; cbn [andb negb].
  - destruct (conditionTrue _ "BackupReady"); [|done]. cbn [negb]. rewrite andb_false_r.
    destruct (time_ptr_Before (st_RestoreDrillLastVerifiedAt _) _); [done|].
    destruct (time_ptr_Before (Some _) _) eqn:Hb; [done|]. unfold time_ptr_Before, time_Before in Hb.
    bool_to_prop. intros _. split; [done|]. exists start. split_and!; [done|lia|by left].
  - destruct (conditionTrue _ "RecoveryWindowAvailable"); [|done]. cbn [negb]. rewrite andb_true_r.
    destruct (st_RestoreDrillLastVerifiedAt _) as [v|]; [|done]. cbn [is_nil].
    unfold time_ptr_Before, time_Before. destruct (v <? start)%Z eqn:Hv; [done|].
    destruct (rs_TargetTime _ <? start)%Z eqn:Hb; [done|]. bool_to_prop. intros _. split; [done|].
    exists start. split_and!; [done|lia|]. right. exists v. by split_and!.
Qed.

(** The requests a restore may make of the instances. *)
Definition isolated (h : khistory) (r : Req) : Prop :=
  match r with
  | Get _ _ _ | List _ _ _ | Now | Update KRestore _ | UpdateStatus KRestore _ => True
  | Create KInstance target => exists restore source start now,
      was_read (k:=KRestore) h restore /\ was_read (k:=KInstance) h source /\ owned_by restore target /\
      annotation target restorePhaseAnnotation = RestorePhaseSeed /\
      conditionTrue (st_Conditions (msp_Status source)) "Ready" = true /\
      st_RecoveryWindowStart (msp_Status source) = Some start /\ existT Now now ∈ h /\
      (start <= rs_TargetTime (res_Spec restore) <= now)%Z /\
      (is_drill restore = true \/ exists verified,
         st_RestoreDrillLastVerifiedAt (msp_Status source) = Some verified /\ (start <= verified)%Z)
  | Patch KInstance target _ | Delete KInstance target => exists restore,
      was_read (k:=KRestore) h restore /\ was_read (k:=KInstance) h target /\ owned_by restore target
  | UpdateStatus KInstance _ => exists restore, was_read (k:=KRestore) h restore /\ is_drill restore = true
  | _ => False
  end.

(** A restore works on an isolated target. Whatever the server answers, the
    only instance a reconcile patches or deletes is one it has read and that
    carries the restore's own UID, it writes another instance's status only to
    record a drill, and it creates the target only for a source it has read as
    Ready, for a time inside the source's recovery window and not in the future,
    with a verified drill no older than the window unless the restore is itself
    the drill. *)
Theorem restore_isolated namespace name :
  sat isolated (fun _ _ => True) [] (Reconcile namespace name).
Proof.
  eapply sat_mono; [| |apply Reconcile_sat]; [|done].
  intros h r H. destruct r as [| |[] o|[] o|[] o|[] base o|[] base o|[] o| | | | | |]; cbn in *; try done.
  - destruct H as (restore & source & Hc & Hn). apply newTarget_owned in Hn as (Ho & _ & Hp & _).
    destruct Hc as (Hr & Hs & _ & Hpre & (now & Hnow & Ht) & _).
    apply preflight_source_None in Hpre as (Hready & start & Hst & Hle & Hdrill).
    exists restore, source, start, now. split_and!; try done.
    destruct Hdrill as [Hd|(v & Hv & Hvs & _)]; [by left|right; by exists v].
  - destruct H as (restore & source & target & Hd & Hdrill). destruct Hd as ((Hr & _) & _).
    exists restore. split; [done|]. unfold is_drill. by apply bool_decide_eq_true.
  - destruct H as (restore & Ho & Hb & H). exists restore. split_and!; try done.
    destruct H as [(source & phase & (Hc & _) & _)|(Hr & _)]; [by destruct Hc|done].
  - destruct H as (restore & Hr & _ & Ho & Hread). by exists restore.
Qed.

(** The order of a restore. *)
Definition in_order (h : khistory) (r : Req) : Prop :=
  match r with
  | Patch KInstance target o =>
      (exists source phase, was_read (k:=KInstance) h source /\
         annotation target restoreSourceUIDAnnotation = meta_UID (msp_Meta source) /\
         restore_edge source target (annotation target restorePhaseAnnotation) phase /\
         o = with_restore_phase target phase) \/
      (exists restore, was_read (k:=KRestore) h restore /\ deleting (res_Meta restore) /\ o = disown_target target)
  | UpdateStatus KRestore o => rst_Phase (res_Status o) = "Completed" ->
      exists restore source target, may_complete h restore source target /\
        meta_UID (res_Meta o) = meta_UID (res_Meta restore)
  | _ => True
  end.

(** C22: A restore runs in order. The target's restore phase only ever moves from
    seed to replicas once the selected seed is the observed primary, from replicas
    to verification once the required synchronous standbys are there, and from
    verification to completion once the target is Ready with its topology and,
    where the source is encrypted, its encryption verified; nothing else of the
    target changes, and the restore is reported as completed only after its
    target's last step has been recorded. *)
Theorem restore_in_order namespace name :
  sat in_order (fun _ _ => True) [] (Reconcile namespace name).
Proof.
  eapply sat_mono; [| |apply Reconcile_sat]; [|done].
  intros h r H. destruct r as [| |[] o|[] o|[] o|[] base o|[] base o|[] o| | | | | |]; cbn in *; try done.
  destruct H as (restore & Ho & Hb & [(source & phase & Hd & He & Hx)|(Hr & Hdel & Hx)]).
  - left. exists source, phase. destruct Hd as ((_ & Hs & _) & _ & _ & Hsu). by split_and!.
  - right. by exists restore.
Qed.

(** No restore is forgotten. Whatever the server answers, a reconcile that
    returns without an error and without asking to run again has found the
    restore gone, completed or released, has recorded its completion, or has
    written the restore itself, which triggers the next reconcile. *)
Theorem restore_never_forgotten namespace name :
  sat (fun _ _ => True) settled [] (Reconcile namespace name).
Proof. eapply sat_mono; [| |apply Reconcile_sat]; done. Qed.
End restore_properties.

(** ** A restore from its creation to its completion *)
Module RefRestore.
#[global] Instance restore_lib : RestoreLib := {|
  IsDNS1123Label s := if s == "" then ["a lowercase RFC 1123 label must consist of lower case characters"] else [];
  DeepEqual a b := a == b;
|}.

Definition ready (types : list string) : list Condition :=
  (fun t => mkCondition t ConditionTrue 1 "Ok" "") <$> types.
Definition source : MultiSitePostgres :=
  mkMultiSitePostgres
    (zero_ObjectMeta <| meta_Namespace := "ns" |> <| meta_Name := "pg" |> <| meta_UID := "source" |>)
    (zero_MultiSitePostgresSpec <| spec_Sites := RefMembers.sites |> <| spec_Backup := Some zero_BackupSpec |>)
    (zero_MultiSitePostgresStatus <| st_Conditions := ready ["Ready"; "BackupReady"; "RecoveryWindowAvailable"] |>
       <| st_RecoveryWindowStart := Some 100%Z |> <| st_RestoreDrillLastVerifiedAt := Some 150%Z |>).
Definition restore : PostgresRestore :=
  zero_PostgresRestore
    <| res_Meta := zero_ObjectMeta <| meta_Namespace := "ns" |> <| meta_Name := "r" |> <| meta_UID := "restore" |> |>
    <| res_Spec := mkPostgresRestoreSpec "pg" "copy" 200%Z "" [] None |>.
Definition start : MemServer.mem :=
  (MemServer.put (k:=KRestore) restore (MemServer.put (k:=KInstance) source
    (MemServer.mkMem (fun _ => []) (fun _ => []) 1 1000%Z)).2).2.

Definition reconcile (s : MemServer.mem) : MemServer.mem :=
  (run MemServer.serve (Reconcile "ns" "r") s []).1.2.

(** The agents of the target's sites report. *)
Definition report (conditions : list string) (s : MemServer.mem) : MemServer.mem :=
  match MemServer.find_obj (k:=KInstance) ("ns", "copy") (MemServer.objs s KInstance) with
  | None => s
  | Some target => (MemServer.put (k:=KInstance) (target <| msp_Status ::= fun st =>
      st <| st_Primary := "postgres-a-0" |> <| st_Conditions := ready conditions |> |>) s).2
  end.

Definition phases (s : MemServer.mem) : option string * option string :=
  ((fun r => rst_Phase (res_Status r)) <$> MemServer.find_obj (k:=KRestore) ("ns", "r") (MemServer.objs s KRestore),
   (fun t => annotation t restorePhaseAnnotation) <$>
     MemServer.find_obj (k:=KInstance) ("ns", "copy") (MemServer.objs s KInstance)).

Definition s1 := reconcile (reconcile start).
Definition s2 := reconcile (reconcile (report ["TopologyReady"] s1)).
Definition s3 := reconcile (report ["TopologyReady"; "Ready"] s2).
End RefRestore.

(** Two reconciles protect the restore and create the target; once the seed is
    promoted the replicas follow, and acceptance completes the restore. *)
Example restore_reaches_completion :
  RefRestore.phases RefRestore.s1 = (Some "Provisioning", Some RestorePhaseSeed) /\
  RefRestore.phases RefRestore.s2 = (Some "Verifying", Some RestorePhaseVerify) /\
  RefRestore.phases RefRestore.s3 = (Some "Completed", Some "Completed").
Proof. vm_compute. auto. Qed.
