(* ===== verification/Upgrade.v ===== *)
(** * Upgrades

    [internal/controller/postgresupgrade_controller.go]: the rolling minor
    upgrade, which moves the members one by one with a switchover in between,
    and the major upgrade, a state machine with rollback storage, a fresh backup
    before it and a verified one after it. *)

From S2P Require Import Prelude Prog Api Kube ApiServer Codec Plan Members Restore.

Definition maxPostUpgradeBackupAttempts : Z := 5.
Definition postUpgradeBackupRetryBase : Duration := minute.
Definition postUpgradeBackupRetryMax : Duration := (30 * minute)%Z.
Definition postUpgradeBackupDeadline : Duration := (24 * hour)%Z.

(** ** The retry delay *)

(** [hash/fnv.New32a] *)
Definition fnv32a_write (hash : Z) (bytes : string) : Z :=
  foldl (fun h c => (Z.lxor h (Z.of_N (Ascii.N_of_ascii c)) * 16777619) `mod` 2 ^ 32)%Z hash
    (String.list_ascii_of_string bytes).
Definition fnv32a_init : Z := 2166136261.

(** [byte(v)] *)
Definition byte_of (v : Z) : Ascii.ascii := Ascii.ascii_of_N (Z.to_N (v `mod` 256)%Z).

(** The loop that doubles the delay up to its maximum. *)
Fixpoint backoff (rounds : nat) (delay : Duration) : Duration :=
  match rounds with
  | O => delay
  | S rounds =>
      let delay := int64 (delay * 2) in
      if (postUpgradeBackupRetryMax <=? delay)%Z then postUpgradeBackupRetryMax else backoff rounds delay
  end.

Definition postUpgradeBackupRetryDelay (operation : string) (attempt : Z) : Duration :=
  let attempt := if (attempt <? 1)%Z then 1%Z else attempt in
  let delay := backoff (Z.to_nat (attempt - 1)) postUpgradeBackupRetryBase in
  let hash := fnv32a_write (fnv32a_write fnv32a_init operation) (String (byte_of attempt) "") in
  let jitter := int64 (hash `mod` (postUpgradeBackupRetryBase `div` second) * second)%Z in
  let delay := int64 (delay + jitter) in
  if (postUpgradeBackupRetryMax <? delay)%Z then postUpgradeBackupRetryMax else delay.

(** ** The instance's part *)

(** [fmt.Sprintf("%d", instance.Status.ActiveRevision+1)] *)
Definition next_revision (instance : MultiSitePostgres) : string :=
  FormatInt (int64 (st_ActiveRevision (msp_Status instance) + 1)).

Definition with_annotations (instance : MultiSitePostgres) (values : gmap string string) : MultiSitePostgres :=
  instance <| msp_Meta ::= fun m => m <| meta_Annotations := maps_Copy (meta_Annotations m) values |> |>.

Definition clearUpgradeAnnotations (instance : MultiSitePostgres) : MultiSitePostgres :=
  instance <| msp_Meta ::= fun m => m <| meta_Annotations := foldl (fun a key => delete key a) (meta_Annotations m)
    [upgradeUIDAnnotation; upgradeNameAnnotation; upgradePhaseAnnotation; upgradeMemberAnnotation;
     upgradeMembersAnnotation; upgradeFromAnnotation; upgradeCandidateAnnotation; upgradeSwitchedAnnotation;
     upgradeRevisionAnnotation; upgradeSourceMajorAnnotation] |> |>.

Definition majorUpgradeFailed (instance : MultiSitePostgres) : bool :=
  existsb (fun site =>
    match statusCondition (srs_Conditions site) "MajorUpgradeBlocked" with
    | Some condition => (cond_Status condition == ConditionTrue) && HasSuffix (cond_Reason condition) "Failed"
    | None => false
    end) (st_Sites (msp_Status instance)).

Definition majorPhaseApplied (instance : MultiSitePostgres) : bool :=
  match ParseInt 64 (annotation instance upgradeRevisionAnnotation) with
  | None => false
  | Some expected =>
      (expected <=? st_ActiveRevision (msp_Status instance))%Z &&
      allSitesApplied (st_Sites (msp_Status instance)) (st_ActiveRevision (msp_Status instance))
  end.

Definition rollbackPolicy (policies : list StorageRollbackPolicy) (storageClass : string) :
  option StorageRollbackPolicy :=
  List.find (fun policy => srp_StorageClassName policy == storageClass) policies.

Definition snapshotClassDiscovered (classes : list VolumeSnapshotClassInventory) (name : string) : bool :=
  if name == "" then false
  else existsb (fun c => (vsci_Name c == name) && (vsci_Driver c != "")) classes.

(** A phase annotation and the expected revision of its plan. *)
Definition phase_values (instance : MultiSitePostgres) (phase : string) : gmap string string :=
  list_to_map [(upgradePhaseAnnotation, phase); (upgradeRevisionAnnotation, next_revision instance)].

Definition patch_instance (base changed : MultiSitePostgres) : kprog (option Error) :=
  let* x := call (Patch KInstance base changed) in
  Ret (match x with Ok _ => None | Err e => Some e end).

Definition patchUpgradeAnnotations (instance : MultiSitePostgres) (values : gmap string string) :
  kprog (option Error) :=
  patch_instance instance (with_annotations instance values).

(** [return ctrl.Result{}, err] *)
Definition done_with (p : kprog (option Error)) : kprog Outcome :=
  let* err := p in Ret (Done, err).

(** Continue unless there is an error. *)
Definition and_then (p : kprog (option Error)) (next : kprog Outcome) : kprog Outcome :=
  let* err := p in
  match err with Some e => Ret (Done, Some e) | None => next end.

Section upgrade.
Context {K : KubeLib} {TT : TimeText} {JM : Json (gmap string string)}.

Definition instanceReadyForOperation (instance : MultiSitePostgres) : bool :=
  majorPhaseApplied instance &&
  (st_ObservedGeneration (msp_Status instance) == meta_Generation (msp_Meta instance)) &&
  conditionTrue (st_Conditions (msp_Status instance)) "Ready" &&
  conditionTrue (st_Conditions (msp_Status instance)) "TopologyReady".

(** ** The upgrade's status *)
Definition set_upgrade_condition (upgrade : PostgresUpgrade) (ctype status reason message : string) : PostgresUpgrade :=
  upgrade <| upg_Status ::= fun st => st <| ust_Conditions :=
    setCondition (ust_Conditions st) (meta_Generation (upg_Meta upgrade)) ctype status reason message |> |>.

Definition set_upgrade_operation (upgrade : PostgresUpgrade)
  (f : OperationProgressStatus -> OperationProgressStatus) : PostgresUpgrade :=
  upgrade <| upg_Status ::= fun st => st <| ust_Operation := f <$> ust_Operation st |> |>.

(** The generation and the phase of the status. *)
Definition in_phase (upgrade : PostgresUpgrade) (phase : string) : PostgresUpgrade :=
  upgrade <| upg_Status ::= fun st =>
    st <| ust_ObservedGeneration := meta_Generation (upg_Meta upgrade) |> <| ust_Phase := phase |> |>.

(** [r.Status().Update(ctx, upgrade)]: the object in memory afterwards. *)
Definition write_upgrade_status (upgrade : PostgresUpgrade) : kprog (PostgresUpgrade * option Error) :=
  let* x := call (UpdateStatus KUpgrade upgrade) in
  match x with Ok upgrade' => Ret (upgrade', None) | Err e => Ret (upgrade, Some e) end.

Definition status_error (upgrade : PostgresUpgrade) : kprog (option Error) :=
  let* x := write_upgrade_status upgrade in Ret x.2.

Definition setUpgradePhase (upgrade : PostgresUpgrade) (phase reason message : string) (now : Time) :
  kprog (option Error) :=
  let upgrade := upgrade <| upg_Status ::= fun st =>
    st <| ust_StartedAt := match ust_StartedAt st with None => Some now | started => started end |> |> in
  status_error (set_upgrade_condition (in_phase upgrade phase) "Ready" ConditionFalse reason message).

Definition upgradeBlocked (upgrade : PostgresUpgrade) (reason message : string) :
  kprog (PostgresUpgrade * option Error) :=
  write_upgrade_status (set_upgrade_condition (in_phase upgrade "Preflight") "Ready" ConditionFalse reason message).

Definition blocked (upgrade : PostgresUpgrade) (reason message : string) : kprog Outcome :=
  let* x := upgradeBlocked upgrade reason message in Ret (Done, x.2).

Definition completeUpgrade (upgrade : PostgresUpgrade) : kprog (option Error) :=
  status_error (set_upgrade_condition (in_phase upgrade "Completed") "Ready" ConditionTrue
    "UpgradeCompleted" "All PostgreSQL members run the requested image").

Definition release_upgrade (upgrade : PostgresUpgrade) : kprog Outcome :=
  let* x := call (Update KUpgrade
    (upgrade <| upg_Meta := RemoveFinalizer (upg_Meta upgrade) operationFinalizer |>)) in
  Ret (finish x).

Definition owns (upgrade : PostgresUpgrade) (instance : MultiSitePostgres) : bool :=
  annotation instance upgradeUIDAnnotation == meta_UID (upg_Meta upgrade).

Definition upgrade_ended (upgrade : PostgresUpgrade) : bool :=
  (ust_Phase (upg_Status upgrade) == "Completed") || (ust_Phase (upg_Status upgrade) == "Failed").

Definition reconcileTerminalUpgrade (upgrade : PostgresUpgrade) (instance : MultiSitePostgres) :
  kprog (bool * option Error) :=
  if negb (upgrade_ended upgrade) then Ret (false, None)
  else if owns upgrade instance then
    let* err := patch_instance instance (clearUpgradeAnnotations instance) in Ret (true, err)
  else Ret (true, None).

Definition advanceMajorPhase (upgrade : PostgresUpgrade) (instance : MultiSitePostgres)
  (next statusPhase reason message : string) (now : Time) (startOutage : bool) : kprog Outcome :=
  and_then (patchUpgradeAnnotations instance (phase_values instance next))
    (let upgrade :=
       if startOutage && is_nil (ust_WriteOutageStartedAt (upg_Status upgrade)) then
         upgrade <| upg_Status ::= fun st => st <| ust_WriteOutageStartedAt := Some now |> |>
       else upgrade in
     done_with (setUpgradePhase upgrade statusPhase reason message now)).

(** ** Backups around a major upgrade *)
Definition upgrade_backup_directive (upgrade : PostgresUpgrade) (name operationUID phase spec : string) :
  result ConfigMap :=
  let meta := zero_ObjectMeta <| meta_Namespace := meta_Namespace (upg_Meta upgrade) |> <| meta_Name := name |>
    <| meta_Labels := list_to_map [("multisite-postgres.dev/directive", "Backup");
         ("multisite-postgres.dev/instance-ref", us_InstanceRef (upg_Spec upgrade))] |> in
  match SetControllerReference (k:=KUpgrade) upgrade meta with
  | Err e => Err e
  | Ok meta => Ok (mkConfigMap meta (list_to_map
      [("type", "Backup"); ("instanceRef", us_InstanceRef (upg_Spec upgrade)); ("deleting", "false");
       ("operationUID", operationUID); ("upgradeBackupPhase", phase); ("spec.json", spec)]))
  end.

(** Read the directive of the given name, and create it if there is none. *)
Definition request_upgrade_backup (upgrade : PostgresUpgrade) (name operationUID phase : string) (requestedAt : Time) :
  kprog (option Error) :=
  let* x := call (Get KConfigMap (meta_Namespace (upg_Meta upgrade)) name) in
  match x with
  | Ok _ => Ret None
  | Err e =>
      if negb (IsNotFound e) then Ret (Some e)
      else
        match json_Marshal (T:=gmap string string)
          (list_to_map [("backupType", "full"); ("scheduledAt", FormatSeconds requestedAt)]) with
        | Err e => Ret (Some e)
        | Ok spec =>
            match upgrade_backup_directive upgrade name operationUID phase spec with
            | Err e => Ret (Some e)
            | Ok directive =>
                let* y := call (Create KConfigMap directive) in
                Ret (match y with Ok _ => None | Err e => Some e end)
            end
        end
  end.

(** [condition != nil && condition.Status == status && condition.Reason == reason] *)
Definition condition_is (condition : option Condition) (status reason : string) : bool :=
  match condition with
  | Some c => (cond_Status c == status) && (cond_Reason c == reason)
  | None => false
  end.

Definition condition_status_is (condition : option Condition) (status : string) : bool :=
  match condition with Some c => cond_Status c == status | None => false end.

Definition condition_message (condition : option Condition) : string :=
  match condition with Some c => cond_Message c | None => "" end.

(** [true] when the fresh backup is there, with the error of what it did. *)
Definition ensureFreshUpgradeBackup (upgrade : PostgresUpgrade) (now : Time) : kprog (bool * option Error) :=
  let uid := meta_UID (upg_Meta upgrade) in
  let no (p : kprog (option Error)) : kprog (bool * option Error) := let* err := p in Ret (false, err) in
  let condition := statusCondition (ust_Conditions (upg_Status upgrade)) "FreshBackupReady" in
  if condition_status_is condition ConditionTrue then Ret (true, None)
  else if condition_is condition ConditionFalse "BackupFailed" then
    let* x := upgradeBlocked upgrade "FreshBackupFailed" (condition_message condition) in Ret (false, x.2)
  else
    match ust_PreflightBackupRequestedAt (upg_Status upgrade) with
    | None =>
        let upgrade := upgrade <| upg_Status ::= fun st => st <| ust_PreflightBackupRequestedAt := Some now |> |> in
        no (status_error (set_upgrade_condition (in_phase upgrade "Preflight") "FreshBackupReady" ConditionFalse
          "BackupRequested" "Waiting for a new full backup and archived WAL verification"))
    | Some requestedAt =>
        let* err := request_upgrade_backup upgrade ("mspsql-upgrade-backup-" +:+ uid)
          (uid +:+ "-preflight-backup") "preflight" requestedAt in
        match err with
        | Some e => Ret (false, Some e)
        | None => no (setUpgradePhase upgrade "Preflight" "FreshBackupProgressing"
            "Waiting for the preflight full backup to complete" now)
        end
    end.

Definition ensureUpgradeOperationProgress (upgrade : PostgresUpgrade) (operationUID : string) (now : Time) :
  PostgresUpgrade :=
  let deadline := Some (time_Add now postUpgradeBackupDeadline) in
  let upgrade :=
    match ust_Operation (upg_Status upgrade) with
    | Some _ => upgrade
    | None => upgrade <| upg_Status ::= fun st => st <| ust_Operation := Some
        (zero_OperationProgressStatus <| op_OperationUID := operationUID |> <| op_Phase := "PostUpgradeBackup" |>
           <| op_DeadlineAt := deadline |>) |> |>
    end in
  set_upgrade_operation upgrade (fun op =>
    op <| op_DeadlineAt := match op_DeadlineAt op with None => deadline | some => some end |>).

(** [fmt.Sprintf("%s-post-upgrade-backup-%d", ...)] *)
Definition post_backup_uid (upgrade : PostgresUpgrade) : string :=
  meta_UID (upg_Meta upgrade) +:+ "-post-upgrade-backup-" +:+
  FormatInt (ust_PostUpgradeBackupAttempt (upg_Status upgrade)).

(** The attempt failed: another one after a delay, or the operator. *)
Definition retry_post_backup (upgrade : PostgresUpgrade) (condition : option Condition) (now : Time) :
  kprog (PostgresUpgrade * Outcome) :=
  let attempt := ust_PostUpgradeBackupAttempt (upg_Status upgrade) in
  let upgrade := set_upgrade_operation upgrade (fun op =>
    op <| op_Attempt := attempt |> <| op_LastErrorReason := "BackupFailed" |>
       <| op_LastErrorMessage := condition_message condition |>) in
  if (maxPostUpgradeBackupAttempts <=? attempt)%Z then
    let upgrade := set_upgrade_operation upgrade (fun op =>
      op <| op_Terminal := true |> <| op_ManualInterventionRequired := true |> <| op_NextRetryAt := None |>) in
    let upgrade := set_upgrade_condition upgrade "PostUpgradeBackupReady" ConditionFalse "ManualInterventionRequired"
      "Post-upgrade backup retry limit reached; fix repository access and request operator repair" in
    let upgrade := set_upgrade_condition upgrade "Ready" ConditionFalse "ManualInterventionRequired"
      "Major upgrade is blocked until the required post-upgrade backup is repaired" in
    let upgrade := upgrade <| upg_Status ::= fun st => st <| ust_Phase := "Finalizing" |> |> in
    let* x := write_upgrade_status upgrade in Ret (x.1, (Done, x.2))
  else
    let attempt := int32 (attempt + 1) in
    let upgrade := upgrade <| upg_Status ::= fun st =>
      st <| ust_PostUpgradeBackupAttempt := attempt |> <| ust_PostUpgradeBackupRequestedAt := None |> |> in
    let next := time_Add now (postUpgradeBackupRetryDelay (meta_UID (upg_Meta upgrade)) attempt) in
    let upgrade := set_upgrade_operation upgrade (fun op =>
      op <| op_OperationUID := post_backup_uid upgrade |> <| op_Attempt := attempt |>
         <| op_NextRetryAt := Some next |> <| op_Terminal := false |> <| op_ManualInterventionRequired := false |>) in
    let upgrade := set_upgrade_condition upgrade "PostUpgradeBackupReady" ConditionFalse "BackupRetryRequested"
      "Retrying the required post-upgrade full backup" in
    let* x := write_upgrade_status upgrade in Ret (x.1, (mkResult (time_Sub next now), x.2)).

(** The time left before the next attempt, if one has been announced. *)
Definition retry_pending (upgrade : PostgresUpgrade) (condition : option Condition) (now : Time) : option Duration :=
  match ust_Operation (upg_Status upgrade) ≫= op_NextRetryAt with
  | Some next =>
      if condition_is condition ConditionFalse "BackupRetryRequested" && time_Before now next
      then Some (time_Sub next now) else None
  | None => None
  end.

(** [inl upgrade] when the backup is verified, with the upgrade in memory;
    [inr] the outcome of the reconcile otherwise. *)
Definition ensurePostUpgradeBackup (upgrade : PostgresUpgrade) (now : Time) : kprog (PostgresUpgrade + Outcome) :=
  let operationUID := post_backup_uid upgrade in
  let upgrade := ensureUpgradeOperationProgress upgrade operationUID now in
  let attempt := ust_PostUpgradeBackupAttempt (upg_Status upgrade) in
  let condition := statusCondition (ust_Conditions (upg_Status upgrade)) "PostUpgradeBackupReady" in
  if condition_status_is condition ConditionTrue then Ret (inl (set_upgrade_operation upgrade op_end))
  else if condition_is condition ConditionFalse "BackupFailed" then
    let* x := retry_post_backup upgrade condition now in Ret (inr x.2)
  else
    match retry_pending upgrade condition now with
    | Some remaining => Ret (inr (mkResult remaining, None))
    | None =>
        match ust_PostUpgradeBackupRequestedAt (upg_Status upgrade) with
        | None =>
            let upgrade := upgrade <| upg_Status ::= fun st =>
              st <| ust_PostUpgradeBackupRequestedAt := Some now |> |> in
            let upgrade := set_upgrade_operation upgrade (fun op =>
              op <| op_OperationUID := operationUID |> <| op_Phase := "PostUpgradeBackup" |>
                 <| op_Attempt := attempt |> <| op_NextRetryAt := None |>) in
            let* x := done_with (status_error (set_upgrade_condition upgrade "PostUpgradeBackupReady" ConditionFalse
              "BackupRequested" "Waiting for the post-upgrade full backup and archived WAL verification")) in
            Ret (inr x)
        | Some requestedAt =>
            let* x := and_then
              (request_upgrade_backup upgrade
                 ("mspsql-post-upgrade-backup-" +:+ meta_UID (upg_Meta upgrade) +:+ "-" +:+ FormatInt attempt)
                 operationUID "post-upgrade" requestedAt)
              (done_with (setUpgradePhase upgrade "Finalizing" "PostUpgradeBackupProgressing"
                 "Waiting for the post-upgrade full backup" now)) in
            Ret (inr x)
        end
    end.

(** ** Major upgrades *)

(** Take the instance for this upgrade. *)
Definition start_major (upgrade : PostgresUpgrade) (instance : MultiSitePostgres) (now : Time) : kprog Outcome :=
  if (st_Primary (msp_Status instance) == "") ||
     negb (conditionTrue (st_Conditions (msp_Status instance)) "TopologyReady") then
    blocked upgrade "TopologyUnavailable" "major upgrade requires an observed primary and synchronous topology"
  else
    and_then (patchUpgradeAnnotations instance (list_to_map [
        (upgradeUIDAnnotation, meta_UID (upg_Meta upgrade)); (upgradeNameAnnotation, meta_Name (upg_Meta upgrade));
        (upgradePhaseAnnotation, MajorUpgradePhasePreflight);
        (upgradeFromAnnotation, st_Primary (msp_Status instance));
        (upgradeSourceMajorAnnotation, FormatInt (pg_MajorVersion (spec_Postgres (msp_Spec instance))));
        (upgradeRevisionAnnotation, next_revision instance)]))
      (done_with (setUpgradePhase upgrade "Preflight" "PreflightIssued"
         "Validating upgrade binaries and rollback capabilities" now)).

(** The stable specification of the target version, in the last phase. *)
Definition with_target_version (spec : PostgresUpgradeSpec) (instance : MultiSitePostgres) : MultiSitePostgres :=
  (with_annotations instance (phase_values instance MajorUpgradePhaseFinalize)) <| msp_Spec ::= fun s =>
    s <| spec_Postgres ::= fun p => p <| pg_MajorVersion := us_TargetMajorVersion spec |>
                                      <| pg_Image := us_TargetImage spec |> |> |>.

Definition restore_writes (upgrade : PostgresUpgrade) (instance : MultiSitePostgres) (now : Time) : kprog Outcome :=
  let upgrade := upgrade <| upg_Status ::= fun st => st <| ust_WriteServiceRestoredAt :=
    match ust_WriteServiceRestoredAt st with None => Some now | some => some end |> |> in
  and_then (patch_instance instance (with_target_version (upg_Spec upgrade) instance))
    (done_with (setUpgradePhase upgrade "Finalizing" "ReplicasReady"
       "Running final acceptance with the stable target specification" now)).

Definition finalize_major (upgrade : PostgresUpgrade) (instance : MultiSitePostgres) (now : Time) : kprog Outcome :=
  let* backup := ensurePostUpgradeBackup upgrade now in
  match backup with
  | inr outcome => Ret outcome
  | inl upgrade =>
      and_then (completeUpgrade upgrade)
        (done_with (patch_instance instance (clearUpgradeAnnotations instance)))
  end.

Definition end_rollback (upgrade : PostgresUpgrade) (instance : MultiSitePostgres) (now : Time) : kprog Outcome :=
  let upgrade := (in_phase upgrade "Failed") <| upg_Status ::= fun st =>
    st <| ust_WriteServiceRestoredAt := Some now |> |> in
  and_then (status_error (set_upgrade_condition upgrade "Ready" ConditionFalse "RolledBack"
      "The failed major upgrade was rolled back to the source version"))
    (done_with (patch_instance instance (clearUpgradeAnnotations instance))).

(** The [switch] over the phase once every site has applied it. *)
Definition next_major_phase (upgrade : PostgresUpgrade) (instance : MultiSitePostgres) (phase : string) (now : Time) :
  kprog Outcome :=
  let advance next statusPhase reason message := advanceMajorPhase upgrade instance next statusPhase reason message now false in
  if phase == MajorUpgradePhasePreflight then
    advanceMajorPhase upgrade instance MajorUpgradePhaseDrain "DrainingWrites" "PreflightPassed"
      "Removing Pgpool write endpoints" now true
  else if phase == MajorUpgradePhaseDrain then
    advance MajorUpgradePhaseStop "Stopping" "WritesDrained" "Stopping every PostgreSQL member cleanly"
  else if phase == MajorUpgradePhaseStop then
    advance MajorUpgradePhaseSnapshot "CapturingRollback" "MembersStopped" "Capturing rollback storage"
  else if phase == MajorUpgradePhaseSnapshot then
    advance MajorUpgradePhaseUpgradePrimary "UpgradingPrimary" "RollbackCaptured"
      "Converting the former primary data directory"
  else if phase == MajorUpgradePhaseUpgradePrimary then
    advance MajorUpgradePhaseStanzaUpgrade "UpgradingBackupStanza" "PrimaryConverted"
      "Updating pgBackRest repository metadata for the target PostgreSQL version"
  else if phase == MajorUpgradePhaseStanzaUpgrade then
    advance MajorUpgradePhaseStartPrimary "RestoringService" "BackupStanzaUpgraded"
      "Starting and verifying the upgraded primary"
  else if phase == MajorUpgradePhaseStartPrimary then
    advance MajorUpgradePhaseReplicas "ReseedingReplicas" "PrimaryAccepted"
      "Recloning every standby from the upgraded primary before write service is restored"
  else if phase == MajorUpgradePhaseReplicas then
    if negb (conditionTrue (st_Conditions (msp_Status instance)) "TopologyReady") ||
       (0 <? pg_SynchronousStandbyCount (spec_Postgres (msp_Spec instance)))%Z &&
       negb (conditionTrue (st_Conditions (msp_Status instance)) "SynchronousReplicationReady") then
      done_with (setUpgradePhase upgrade "ReseedingReplicas" "ReplicaSyncPending"
        "Waiting for a target-version standby to catch up and become synchronous before restoring writes" now)
    else
      advance MajorUpgradePhaseRestoreWrites "RestoringWrites" "ReplicaSyncVerified"
        "Starting Pgpool write service after synchronous replay proof"
  else if phase == MajorUpgradePhaseRestoreWrites then restore_writes upgrade instance now
  else if phase == MajorUpgradePhaseFinalize then finalize_major upgrade instance now
  else if phase == MajorUpgradePhaseRollback then
    advance MajorUpgradePhaseRollbackStart "VerifyingRollback" "RollbackStorageRestored"
      "Starting and verifying the source PostgreSQL version"
  else if phase == MajorUpgradePhaseRollbackStart then
    advance MajorUpgradePhaseRollbackRestoreWrites "RestoringWrites" "RollbackAccepted"
      "Starting Pgpool on the restored source version"
  else if phase == MajorUpgradePhaseRollbackRestoreWrites then end_rollback upgrade instance now
  else blocked upgrade "InvalidState" "instance has an unknown major-upgrade phase".

(** The phases a failure rolls back, and the phases of the rollback. *)
Definition rollback_phases : list string :=
  [MajorUpgradePhaseUpgradePrimary; MajorUpgradePhaseStanzaUpgrade; MajorUpgradePhaseStartPrimary].
Definition rolling_back : list string :=
  [MajorUpgradePhaseRollback; MajorUpgradePhaseRollbackStart; MajorUpgradePhaseRollbackRestoreWrites].

Definition reconcileMajorUpgrade (upgrade : PostgresUpgrade) (instance : MultiSitePostgres) (now : Time) :
  kprog Outcome :=
  if annotation instance upgradeUIDAnnotation == "" then start_major upgrade instance now
  else if negb (owns upgrade instance) then
    blocked upgrade "OperationConflict" "instance is owned by another upgrade operation"
  else
    let phase := annotation instance upgradePhaseAnnotation in
    if majorUpgradeFailed instance && slices_Contains rollback_phases phase then
      advanceMajorPhase upgrade instance MajorUpgradePhaseRollback "RollingBack" "PhaseFailed"
        "Restoring every PostgreSQL PVC from rollback storage" now false
    else if majorUpgradeFailed instance && negb (slices_Contains rolling_back phase) then
      done_with (setUpgradePhase upgrade phase "ForwardRepairRequired"
        "Automatic rollback is unsafe or no complete rollback checkpoint exists for this phase" now)
    else if negb (majorPhaseApplied instance) then
      done_with (setUpgradePhase upgrade phase "PhaseProgressing"
        ("Waiting for all sites to complete " +:+ phase) now)
    else next_major_phase upgrade instance phase now.

(** ** The contract of a major upgrade *)

(** The checks on the upgrade, its instance and the benchmark, in order. *)
Definition validate_benchmark (upgrade : PostgresUpgrade) (instance : MultiSitePostgres) (now : Time) :
  result MajorUpgradeBenchmark :=
  let spec := upg_Spec upgrade in
  let postgres := spec_Postgres (msp_Spec instance) in
  let fail {A} message : result A := Err (errors_New message) in
  if (us_TargetMajorVersion spec <? pg_MajorVersion postgres)%Z then fail "major-version downgrade is not supported"
  else if us_UpgradeImage spec == "" then fail "major upgrade requires a purpose-built upgradeImage"
  else if negb (Contains (us_UpgradeImage spec) "@sha256:") then fail "upgradeImage must be pinned by sha256 digest"
  else if negb (Contains (us_TargetImage spec) "@sha256:") then fail "targetImage must be pinned by sha256 digest"
  else if (us_RollbackRetention spec <=? 0)%Z then fail "rollbackRetention must be positive"
  else if is_nil (spec_Backup (msp_Spec instance)) then
    fail "major upgrade requires a configured pgBackRest repository"
  else
    match us_Benchmark spec with
    | None => fail "major upgrade requires a qualified benchmark"
    | Some benchmark =>
        if (bm_EstimatedWriteOutage benchmark <=? 0)%Z || (bm_Evidence benchmark == "") then
          fail "benchmark must include a positive outage estimate and evidence reference"
        else if negb (Contains (bm_Evidence benchmark) "@sha256:") then
          fail "benchmark evidence must be pinned by sha256 digest"
        else if time_After (bm_TestedAt benchmark) (time_Add now (5 * minute)%Z) then
          fail "benchmark testedAt is in the future"
        else if (30 * 24 * hour <? time_Sub now (bm_TestedAt benchmark))%Z then fail "benchmark is older than 30 days"
        else if bm_UpgradeImage benchmark != us_UpgradeImage spec then
          fail "benchmark upgradeImage does not match this operation"
        else if (bm_SourceMajorVersion benchmark != pg_MajorVersion postgres) ||
                (bm_TargetMajorVersion benchmark != us_TargetMajorVersion spec) then
          fail "benchmark PostgreSQL versions do not match this operation"
        else if bm_TDEEnabled benchmark != tde_Enabled (spec_TDE (msp_Spec instance)) then
          fail "benchmark TDE mode does not match this instance"
        else if (us_ServiceRestorationTarget spec <? bm_EstimatedWriteOutage benchmark)%Z then
          fail ("benchmarked write outage " +:+ Duration_String (bm_EstimatedWriteOutage benchmark) +:+
                " exceeds restoration target " +:+ Duration_String (us_ServiceRestorationTarget spec))
        else Ok benchmark
    end.

(** The loop over the sites: their storage classes are benchmarked and have a
    rollback policy that the site can carry out. *)
Fixpoint validate_rollback_sites (benchmark : MajorUpgradeBenchmark) (sites : list PostgresSiteSpec) :
  kprog (option Error) :=
  match sites with
  | [] => Ret None
  | site :: sites =>
      match ss_Postgres (site_Storage site) with
      | None => validate_rollback_sites benchmark sites
      | Some storage =>
          let class := sr_StorageClassName storage in
          let fail message := Ret (Some (errors_New message)) in
          if site_Role site != SiteRoleData then validate_rollback_sites benchmark sites
          else if negb (slices_Contains (bm_PostgresStorageClasses benchmark) class) then
            fail ("benchmark does not cover site " +:+ site_Name site +:+ " StorageClass " +:+ class)
          else
            let! registration := call (Get KRegistration "" (site_SiteRegistrationRef site))
              onerr e => Ret (Some (wrap_error ("read site " +:+ site_Name site +:+ " registration") e)) in
            match rollbackPolicy (regs_StorageRollbackPolicies (reg_Spec registration)) class with
            | None =>
                fail ("site " +:+ site_Name site +:+ " has no rollback policy for StorageClass " +:+ class)
            | Some policy =>
                if (srp_Strategy policy == "VolumeSnapshot") &&
                   negb (snapshotClassDiscovered (regst_DiscoveredVolumeSnapshotClasses (reg_Status registration))
                           (srp_VolumeSnapshotClassName policy)) then
                  fail ("site " +:+ site_Name site +:+ " VolumeSnapshotClass " +:+
                        srp_VolumeSnapshotClassName policy +:+ " is not discovered")
                else validate_rollback_sites benchmark sites
            end
      end
  end.

Definition validateMajorUpgradeContract (upgrade : PostgresUpgrade) (instance : MultiSitePostgres) (now : Time) :
  kprog (option Error) :=
  match validate_benchmark upgrade instance now with
  | Err e => Ret (Some e)
  | Ok benchmark => validate_rollback_sites benchmark (spec_Sites (msp_Spec instance))
  end.

(** ** Minor upgrades *)
Definition with_upgraded (upgrade : PostgresUpgrade) (members : list string) : PostgresUpgrade :=
  upgrade <| upg_Status ::= fun st => st <| ust_UpgradedMembers := members |> |>.

(** Take the instance for this upgrade and select the first standby. *)
Definition start_minor (upgrade : PostgresUpgrade) (instance : MultiSitePostgres) (now : Time) : kprog Outcome :=
  let candidate := selectUpgradeCandidate instance [] in
  if candidate == "" then
    blocked upgrade "NoUpgradeCandidate" "a healthy synchronous standby is required for the first rollout"
  else
    and_then (patchUpgradeAnnotations instance (list_to_map [
        (upgradeUIDAnnotation, meta_UID (upg_Meta upgrade)); (upgradeNameAnnotation, meta_Name (upg_Meta upgrade));
        (upgradePhaseAnnotation, UpgradePhaseMember); (upgradeMemberAnnotation, candidate);
        (upgradeMembersAnnotation, ""); (upgradeRevisionAnnotation, next_revision instance)]))
      (done_with (setUpgradePhase upgrade "RollingReplicas" "ReplicaSelected"
         ("Upgrading synchronous standby " +:+ candidate) now)).

(** The stable image, in the last phase. *)
Definition with_target_image (spec : PostgresUpgradeSpec) (instance : MultiSitePostgres) : MultiSitePostgres :=
  (with_annotations instance (phase_values instance UpgradePhaseFinalize)) <| msp_Spec ::= fun s =>
    s <| spec_Postgres ::= fun p => p <| pg_Image := us_TargetImage spec |> |> |>.

Definition roll_member (upgrade : PostgresUpgrade) (instance : MultiSitePostgres) (now : Time) : kprog Outcome :=
  let member := annotation instance upgradeMemberAnnotation in
  if member == "" then blocked upgrade "InvalidState" "member rollout phase has no target member"
  else if negb (instanceReadyForOperation instance) then
    done_with (setUpgradePhase upgrade "RollingReplicas" "MemberProgressing"
      ("Waiting for verified rollout of " +:+ member) now)
  else
    let upgraded := appendUnique (splitMembers (annotation instance upgradeMembersAnnotation)) member in
    if annotation instance upgradeSwitchedAnnotation != "true" then
      and_then (patchUpgradeAnnotations instance (list_to_map [
          (upgradePhaseAnnotation, UpgradePhaseSwitchover); (upgradeMembersAnnotation, Join upgraded ",");
          (upgradeFromAnnotation, st_Primary (msp_Status instance)); (upgradeCandidateAnnotation, member);
          (upgradeRevisionAnnotation, next_revision instance)]))
        (done_with (setUpgradePhase (with_upgraded upgrade upgraded) "SwitchingOver" "ReplicaVerified"
           ("Requesting Patroni switchover to " +:+ member) now))
    else
      let next := selectUpgradeCandidate instance upgraded in
      if next == "" then
        and_then (patch_instance instance (with_target_image (upg_Spec upgrade) instance))
          (done_with (setUpgradePhase (with_upgraded upgrade upgraded) "Finalizing" "MembersVerified"
             "Reconciling the stable target image plan" now))
      else
        and_then (patchUpgradeAnnotations instance (list_to_map [
            (upgradeMemberAnnotation, next); (upgradeMembersAnnotation, Join upgraded ",");
            (upgradeRevisionAnnotation, next_revision instance)]))
          (done_with (setUpgradePhase (with_upgraded upgrade upgraded) "RollingMembers" "MemberVerified"
             ("Upgrading member " +:+ next) now)).

Definition roll_switchover (upgrade : PostgresUpgrade) (instance : MultiSitePostgres) (now : Time) : kprog Outcome :=
  let upgraded := splitMembers (annotation instance upgradeMembersAnnotation) in
  let candidate := annotation instance upgradeCandidateAnnotation in
  if (candidate == "") || (annotation instance upgradeFromAnnotation == "") then
    blocked upgrade "InvalidState" "switchover phase is missing primary or candidate"
  else if (st_Primary (msp_Status instance) != candidate) ||
          negb (conditionTrue (st_Conditions (msp_Status instance)) "TopologyReady") then
    done_with (setUpgradePhase upgrade "SwitchingOver" "SwitchoverProgressing"
      ("Waiting for Patroni to promote " +:+ candidate) now)
  else
    let next := selectUpgradeCandidate instance upgraded in
    if next == "" then blocked upgrade "InvalidState" "no remaining member was found after switchover"
    else
      and_then (patchUpgradeAnnotations instance (list_to_map [
          (upgradePhaseAnnotation, UpgradePhaseMember); (upgradeMemberAnnotation, next);
          (upgradeSwitchedAnnotation, "true"); (upgradeRevisionAnnotation, next_revision instance)]))
        (done_with (setUpgradePhase (with_upgraded upgrade upgraded) "RollingMembers" "SwitchoverVerified"
           ("Primary moved safely; upgrading member " +:+ next) now)).

Definition reconcileMinorUpgrade (upgrade : PostgresUpgrade) (instance : MultiSitePostgres) (now : Time) :
  kprog Outcome :=
  let uid := annotation instance upgradeUIDAnnotation in
  if (us_TargetImage (upg_Spec upgrade) == pg_Image (spec_Postgres (msp_Spec instance))) && (uid == "") then
    done_with (completeUpgrade upgrade)
  else if uid == "" then start_minor upgrade instance now
  else if negb (owns upgrade instance) then
    blocked upgrade "OperationConflict" "instance is owned by another upgrade operation"
  else
    let phase := annotation instance upgradePhaseAnnotation in
    if phase == UpgradePhaseMember then roll_member upgrade instance now
    else if phase == UpgradePhaseSwitchover then roll_switchover upgrade instance now
    else if phase == UpgradePhaseFinalize then
      if negb (instanceReadyForOperation instance) then
        done_with (setUpgradePhase upgrade "Finalizing" "StablePlanProgressing"
          "Waiting for every site to apply the stable target image" now)
      else
        and_then (completeUpgrade upgrade)
          (done_with (patch_instance instance (clearUpgradeAnnotations instance)))
    else blocked upgrade "InvalidState" "instance has an unknown minor-upgrade phase".

(** ** Deletion *)

(** The phases a deletion rolls back. *)
Definition deletion_rolls_back : list string :=
  [MajorUpgradePhaseDrain; MajorUpgradePhaseStop; MajorUpgradePhaseSnapshot; MajorUpgradePhaseUpgradePrimary;
   MajorUpgradePhaseStanzaUpgrade; MajorUpgradePhaseStartPrimary].

(** The [switch] of [reconcileUpgradeDeletion] over the major phase. *)
Definition delete_in_phase (upgrade : PostgresUpgrade) (instance : MultiSitePostgres) : kprog Outcome :=
  let phase := annotation instance upgradePhaseAnnotation in
  let statusPhase := ust_Phase (upg_Status upgrade) in
  if phase == MajorUpgradePhasePreflight then
    and_then (patch_instance instance (clearUpgradeAnnotations instance)) (release_upgrade upgrade)
  else if slices_Contains deletion_rolls_back phase then
    let* now := call Now in
    let* outcome := advanceMajorPhase upgrade instance MajorUpgradePhaseRollback "RollingBack" "DeletionRequested"
      "Rolling back before accepting operation deletion" now false in
    match outcome.2 with
    | Some e => Ret (Done, Some e)
    | None => Ret (mkResult restoreProgressRequeue, None)
    end
  else if slices_Contains rolling_back phase then
    let* now := call Now in
    let* err := setUpgradePhase upgrade statusPhase "CancellationInProgress"
      "Waiting for rollback to complete before deletion" now in
    Ret (mkResult restoreProgressRequeue, err)
  else
    let* now := call Now in
    done_with (setUpgradePhase upgrade statusPhase "ForwardRepairRequired"
      "Upgrade deletion is blocked after writes may have resumed; repair forward or force-abandon with explicit approval" now).

Definition reconcileUpgradeDeletion (upgrade : PostgresUpgrade) : kprog Outcome :=
  if negb (ContainsFinalizer (upg_Meta upgrade) operationFinalizer) then Ret (Done, None)
  else
    let* got := call (Get KInstance (meta_Namespace (upg_Meta upgrade)) (us_InstanceRef (upg_Spec upgrade))) in
    match got with
    | Err e => if IsNotFound e then release_upgrade upgrade else Ret (Done, Some e)
    | Ok instance =>
        if meta_Annotations (upg_Meta upgrade) !!! forceAbandonAnnotation == "true" then
          and_then
            (if owns upgrade instance then patch_instance instance (clearUpgradeAnnotations instance) else Ret None)
            (let* x := upgradeBlocked upgrade "ForceAbandoned"
               "Upgrade deletion was force-abandoned; residual resources require operator review" in
             release_upgrade x.1)
        else if negb (owns upgrade instance) || (ust_Phase (upg_Status upgrade) == "") || upgrade_ended upgrade then
          release_upgrade upgrade
        else delete_in_phase upgrade instance
    end.

(** ** Reconciliation *)
Definition release_if_held (upgrade : PostgresUpgrade) : kprog Outcome :=
  if ContainsFinalizer (upg_Meta upgrade) operationFinalizer then release_upgrade upgrade else Ret (Done, None).

Definition active_phase (phase : string) : bool := (phase != "Completed") && (phase != "Failed").

(** A major upgrade needs a fresh backup and a qualified platform. *)
Definition qualify_major (upgrade : PostgresUpgrade) (instance : MultiSitePostgres) : kprog Outcome :=
  let* now := call Now in
  let* fresh := ensureFreshUpgradeBackup upgrade now in
  match fresh.2 with
  | Some e => Ret (Done, Some e)
  | None =>
      if negb fresh.1 then Ret (Done, None)
      else
        let* now := call Now in
        let* err := validateMajorUpgradeContract upgrade instance now in
        match err with
        | Some e => blocked upgrade "PlatformContractRejected" (err_text e)
        | None =>
            let upgrade := set_upgrade_condition upgrade "ServiceRestorationTargetAtRisk" ConditionFalse
              "BenchmarkWithinTarget"
              "the qualified upgrade path is within the requested service-restoration target" in
            let* now := call Now in
            reconcileMajorUpgrade upgrade instance now
        end
  end.

(** The checks before an upgrade takes the instance, then the upgrade. *)
Definition begin_upgrade (upgrade : PostgresUpgrade) (instance : MultiSitePostgres) (lastBackup : Time) :
  kprog Outcome :=
  let namespace := meta_Namespace (upg_Meta upgrade) in
  let ref := us_InstanceRef (upg_Spec upgrade) in
  let* now := call Now in
  if (24 * hour <? time_Sub now lastBackup)%Z then
    blocked upgrade "BackupTooOld" "the most recent verified backup is older than 24 hours"
  else
    let! upgrades := call (List KUpgrade (Some namespace) ∅) onerr e => Ret (Done, Some e) in
    if existsb (fun other => (meta_Name (upg_Meta other) != meta_Name (upg_Meta upgrade)) &&
         (us_InstanceRef (upg_Spec other) == ref) && active_phase (ust_Phase (upg_Status other))) upgrades then
      blocked upgrade "OperationConflict" "another upgrade targets this instance"
    else
      let! restores := call (List KRestore (Some namespace) ∅) onerr e => Ret (Done, Some e) in
      if existsb (fun restore => (rs_TargetInstanceRef (res_Spec restore) == ref) &&
           active_phase (rst_Phase (res_Status restore))) restores then
        blocked upgrade "OperationConflict" "a restore targets this instance"
      else if us_TargetMajorVersion (upg_Spec upgrade) != pg_MajorVersion (spec_Postgres (msp_Spec instance)) then
        qualify_major upgrade instance
      else
        let* now := call Now in
        reconcileMinorUpgrade upgrade instance now.

Definition reconcile_instance (upgrade : PostgresUpgrade) (instance : MultiSitePostgres) : kprog Outcome :=
  let* terminal := reconcileTerminalUpgrade upgrade instance in
  if (terminal.1 : bool) then
    match terminal.2 with Some e => Ret (Done, Some e) | None => release_if_held upgrade end
  else if HasPrefix (annotation instance upgradePhaseAnnotation) "Major" && owns upgrade instance then
    let* now := call Now in reconcileMajorUpgrade upgrade instance now
  else if (us_TargetMajorVersion (upg_Spec upgrade) == pg_MajorVersion (spec_Postgres (msp_Spec instance))) &&
          owns upgrade instance then
    let* now := call Now in reconcileMinorUpgrade upgrade instance now
  else
    let conditions := st_Conditions (msp_Status instance) in
    match st_LastBackupTime (msp_Status instance) with
    | Some lastBackup =>
        if conditionTrue conditions "Ready" && conditionTrue conditions "BackupReady"
        then begin_upgrade upgrade instance lastBackup
        else blocked upgrade "PreflightFailed"
          "instance, synchronous replication and a recent verified backup must be healthy"
    | None => blocked upgrade "PreflightFailed"
        "instance, synchronous replication and a recent verified backup must be healthy"
    end.

Definition Reconcile (namespace name : string) : kprog Outcome :=
  let! upgrade := call (Get KUpgrade namespace name) onerr e => Ret (Done, IgnoreNotFound e) in
  let get_instance := Get KInstance (meta_Namespace (upg_Meta upgrade)) (us_InstanceRef (upg_Spec upgrade)) in
  match meta_DeletionTimestamp (upg_Meta upgrade) with
  | Some _ => reconcileUpgradeDeletion upgrade
  | None =>
      if upgrade_ended upgrade then
        let* got := call get_instance in
        match got with
        | Err e => if IsNotFound e then release_if_held upgrade else Ret (Done, Some e)
        | Ok instance =>
            let* x := reconcileTerminalUpgrade upgrade instance in
            match x.2 with Some e => Ret (Done, Some e) | None => release_if_held upgrade end
        end
      else if negb (ContainsFinalizer (upg_Meta upgrade) operationFinalizer) then
        let* x := call (Update KUpgrade
          (upgrade <| upg_Meta := AddFinalizer (upg_Meta upgrade) operationFinalizer |>)) in
        Ret (finish x)
      else
        let! instance := call get_instance onerr e =>
          if upgrade_ended upgrade && ContainsFinalizer (upg_Meta upgrade) operationFinalizer
          then release_upgrade upgrade
          else blocked upgrade "InstanceUnavailable" (err_text e) in
        reconcile_instance upgrade instance
  end.
End upgrade.

(** ** The steps of an upgrade *)

(** The moves of a major upgrade that only need the phase applied everywhere. *)
Definition major_forward : list (string * string) :=
  [(MajorUpgradePhasePreflight, MajorUpgradePhaseDrain); (MajorUpgradePhaseDrain, MajorUpgradePhaseStop);
   (MajorUpgradePhaseStop, MajorUpgradePhaseSnapshot); (MajorUpgradePhaseSnapshot, MajorUpgradePhaseUpgradePrimary);
   (MajorUpgradePhaseUpgradePrimary, MajorUpgradePhaseStanzaUpgrade);
   (MajorUpgradePhaseStanzaUpgrade, MajorUpgradePhaseStartPrimary);
   (MajorUpgradePhaseStartPrimary, MajorUpgradePhaseReplicas)].
Definition major_backward : list (string * string) :=
  [(MajorUpgradePhaseRollback, MajorUpgradePhaseRollbackStart);
   (MajorUpgradePhaseRollbackStart, MajorUpgradePhaseRollbackRestoreWrites)].

Definition has_ended (h : khistory) (upgrade : PostgresUpgrade) : Prop :=
  upgrade_ended upgrade = true \/
  exists o o', existT (UpdateStatus KUpgrade o) (Ok o') ∈ h /\
    upg_Meta o = upg_Meta upgrade /\ upgrade_ended o = true.

Section upgrade_properties.
Context {K : KubeLib} {TT : TimeText} {JM : Json (gmap string string)}.

Definition instance_true (instance : MultiSitePostgres) (ctype : string) : Prop :=
  conditionTrue (st_Conditions (msp_Status instance)) ctype = true.

Inductive major_step (instance : MultiSitePostgres) : string -> string -> Prop :=
| step_forward p q :
    (p, q) ∈ major_forward -> majorPhaseApplied instance = true -> majorUpgradeFailed instance = false ->
    major_step instance p q
| step_writes :
    majorPhaseApplied instance = true -> majorUpgradeFailed instance = false ->
    instance_true instance "TopologyReady" ->
    ((0 < pg_SynchronousStandbyCount (spec_Postgres (msp_Spec instance)))%Z ->
     instance_true instance "SynchronousReplicationReady") ->
    major_step instance MajorUpgradePhaseReplicas MajorUpgradePhaseRestoreWrites
| step_failed p :
    p ∈ rollback_phases -> majorUpgradeFailed instance = true ->
    major_step instance p MajorUpgradePhaseRollback
| step_backward p q :
    (p, q) ∈ major_backward -> majorPhaseApplied instance = true -> major_step instance p q.

(** The upgrade may take the instance: it has passed the checks on what this
    reconcile has read. *)
Definition may_take (h : khistory) (upgrade : PostgresUpgrade) (instance : MultiSitePostgres) : Prop :=
  meta_DeletionTimestamp (upg_Meta upgrade) = None /\
  instance_true instance "Ready" /\ instance_true instance "BackupReady" /\
  (exists lastBackup now, st_LastBackupTime (msp_Status instance) = Some lastBackup /\ existT Now now ∈ h /\
     (now - lastBackup <= 24 * hour)%Z) /\
  (exists upgrades, existT (List KUpgrade (Some (meta_Namespace (upg_Meta upgrade))) ∅) (Ok upgrades) ∈ h /\
     forall other, other ∈ upgrades -> us_InstanceRef (upg_Spec other) = us_InstanceRef (upg_Spec upgrade) ->
       meta_Name (upg_Meta other) = meta_Name (upg_Meta upgrade) \/ upgrade_ended other = true) /\
  (exists restores, existT (List KRestore (Some (meta_Namespace (upg_Meta upgrade))) ∅) (Ok restores) ∈ h /\
     forall restore, restore ∈ restores -> rs_TargetInstanceRef (res_Spec restore) = us_InstanceRef (upg_Spec upgrade) ->
       rst_Phase (res_Status restore) = "Completed" \/ rst_Phase (res_Status restore) = "Failed").

(** The site can roll its PostgreSQL storage back. *)
Definition can_roll_back (h : khistory) (benchmark : MajorUpgradeBenchmark) (site : PostgresSiteSpec) : Prop :=
  forall storage, site_Role site = SiteRoleData -> ss_Postgres (site_Storage site) = Some storage ->
  sr_StorageClassName storage ∈ bm_PostgresStorageClasses benchmark /\
  exists registration policy,
    existT (Get KRegistration "" (site_SiteRegistrationRef site)) (Ok registration) ∈ h /\
    rollbackPolicy (regs_StorageRollbackPolicies (reg_Spec registration)) (sr_StorageClassName storage) = Some policy /\
    (srp_Strategy policy = "VolumeSnapshot" ->
     snapshotClassDiscovered (regst_DiscoveredVolumeSnapshotClasses (reg_Status registration))
       (srp_VolumeSnapshotClassName policy) = true).

Definition major_qualified (h : khistory) (upgrade : PostgresUpgrade) (instance : MultiSitePostgres) : Prop :=
  condition_status_is (statusCondition (ust_Conditions (upg_Status upgrade)) "FreshBackupReady") ConditionTrue = true /\
  exists now benchmark, existT Now now ∈ h /\ validate_benchmark upgrade instance now = Ok benchmark /\
    forall site, site ∈ spec_Sites (msp_Spec instance) -> can_roll_back h benchmark site.

(** What an upgrade may make of its instance. *)
Inductive upgrade_patch (h : khistory) (upgrade : PostgresUpgrade) (base : MultiSitePostgres) :
  MultiSitePostgres -> Prop :=
| patch_take_major :
    annotation base upgradeUIDAnnotation = "" -> may_take h upgrade base -> major_qualified h upgrade base ->
    us_TargetMajorVersion (upg_Spec upgrade) <> pg_MajorVersion (spec_Postgres (msp_Spec base)) ->
    st_Primary (msp_Status base) <> "" -> instance_true base "TopologyReady" ->
    upgrade_patch h upgrade base (with_annotations base (list_to_map [
      (upgradeUIDAnnotation, meta_UID (upg_Meta upgrade)); (upgradeNameAnnotation, meta_Name (upg_Meta upgrade));
      (upgradePhaseAnnotation, MajorUpgradePhasePreflight);
      (upgradeFromAnnotation, st_Primary (msp_Status base));
      (upgradeSourceMajorAnnotation, FormatInt (pg_MajorVersion (spec_Postgres (msp_Spec base))));
      (upgradeRevisionAnnotation, next_revision base)]))
| patch_take_minor candidate :
    annotation base upgradeUIDAnnotation = "" -> may_take h upgrade base ->
    us_TargetMajorVersion (upg_Spec upgrade) = pg_MajorVersion (spec_Postgres (msp_Spec base)) ->
    candidate = selectUpgradeCandidate base [] -> candidate <> "" ->
    upgrade_patch h upgrade base (with_annotations base (list_to_map [
      (upgradeUIDAnnotation, meta_UID (upg_Meta upgrade)); (upgradeNameAnnotation, meta_Name (upg_Meta upgrade));
      (upgradePhaseAnnotation, UpgradePhaseMember); (upgradeMemberAnnotation, candidate);
      (upgradeMembersAnnotation, ""); (upgradeRevisionAnnotation, next_revision base)]))
| patch_major q :
    owns upgrade base = true -> major_step base (annotation base upgradePhaseAnnotation) q ->
    upgrade_patch h upgrade base (with_annotations base (phase_values base q))
| patch_cancel :
    owns upgrade base = true -> deleting (upg_Meta upgrade) ->
    annotation base upgradePhaseAnnotation ∈ deletion_rolls_back ->
    upgrade_patch h upgrade base (with_annotations base (phase_values base MajorUpgradePhaseRollback))
| patch_version :
    owns upgrade base = true -> annotation base upgradePhaseAnnotation = MajorUpgradePhaseRestoreWrites ->
    majorPhaseApplied base = true -> majorUpgradeFailed base = false ->
    upgrade_patch h upgrade base (with_target_version (upg_Spec upgrade) base)
| patch_switchover member upgraded :
    owns upgrade base = true -> annotation base upgradePhaseAnnotation = UpgradePhaseMember ->
    instanceReadyForOperation base = true -> annotation base upgradeSwitchedAnnotation <> "true" ->
    member = annotation base upgradeMemberAnnotation -> member <> "" ->
    upgraded = appendUnique (splitMembers (annotation base upgradeMembersAnnotation)) member ->
    upgrade_patch h upgrade base (with_annotations base (list_to_map [
      (upgradePhaseAnnotation, UpgradePhaseSwitchover); (upgradeMembersAnnotation, Join upgraded ",");
      (upgradeFromAnnotation, st_Primary (msp_Status base)); (upgradeCandidateAnnotation, member);
      (upgradeRevisionAnnotation, next_revision base)]))
| patch_switched next :
    owns upgrade base = true -> annotation base upgradePhaseAnnotation = UpgradePhaseSwitchover ->
    st_Primary (msp_Status base) = annotation base upgradeCandidateAnnotation -> instance_true base "TopologyReady" ->
    next = selectUpgradeCandidate base (splitMembers (annotation base upgradeMembersAnnotation)) -> next <> "" ->
    upgrade_patch h upgrade base (with_annotations base (list_to_map [
      (upgradePhaseAnnotation, UpgradePhaseMember); (upgradeMemberAnnotation, next);
      (upgradeSwitchedAnnotation, "true"); (upgradeRevisionAnnotation, next_revision base)]))
| patch_next_member upgraded next :
    owns upgrade base = true -> annotation base upgradePhaseAnnotation = UpgradePhaseMember ->
    instanceReadyForOperation base = true -> annotation base upgradeSwitchedAnnotation = "true" ->
    upgraded = appendUnique (splitMembers (annotation base upgradeMembersAnnotation))
                 (annotation base upgradeMemberAnnotation) ->
    next = selectUpgradeCandidate base upgraded -> next <> "" ->
    upgrade_patch h upgrade base (with_annotations base (list_to_map [
      (upgradeMemberAnnotation, next); (upgradeMembersAnnotation, Join upgraded ",");
      (upgradeRevisionAnnotation, next_revision base)]))
| patch_image :
    owns upgrade base = true -> annotation base upgradePhaseAnnotation = UpgradePhaseMember ->
    instanceReadyForOperation base = true -> annotation base upgradeSwitchedAnnotation = "true" ->
    selectUpgradeCandidate base (appendUnique (splitMembers (annotation base upgradeMembersAnnotation))
      (annotation base upgradeMemberAnnotation)) = "" ->
    upgrade_patch h upgrade base (with_target_image (upg_Spec upgrade) base)
| patch_release :
    owns upgrade base = true ->
    (has_ended h upgrade \/ deleting (upg_Meta upgrade) /\
       (meta_Annotations (upg_Meta upgrade) !!! forceAbandonAnnotation = "true" \/
        annotation base upgradePhaseAnnotation = MajorUpgradePhasePreflight)) ->
    upgrade_patch h upgrade base (clearUpgradeAnnotations base)
(** The server gives every object a UID; without one, instances that belong to
    no upgrade would appear to belong to this one. *)
| patch_unidentified o : meta_UID (upg_Meta upgrade) = "" -> upgrade_patch h upgrade base o.

(** When an upgrade may be reported as ended. *)
Inductive upgrade_end (h : khistory) (upgrade : PostgresUpgrade) (instance : MultiSitePostgres) : string -> Prop :=
| end_nothing_to_do :
    annotation instance upgradeUIDAnnotation = "" -> may_take h upgrade instance ->
    us_TargetMajorVersion (upg_Spec upgrade) = pg_MajorVersion (spec_Postgres (msp_Spec instance)) ->
    us_TargetImage (upg_Spec upgrade) = pg_Image (spec_Postgres (msp_Spec instance)) ->
    upgrade_end h upgrade instance "Completed"
| end_minor :
    owns upgrade instance = true -> annotation instance upgradePhaseAnnotation = UpgradePhaseFinalize ->
    instanceReadyForOperation instance = true -> upgrade_end h upgrade instance "Completed"
| end_major :
    owns upgrade instance = true -> annotation instance upgradePhaseAnnotation = MajorUpgradePhaseFinalize ->
    majorPhaseApplied instance = true -> majorUpgradeFailed instance = false ->
    condition_status_is (statusCondition (ust_Conditions (upg_Status upgrade)) "PostUpgradeBackupReady")
      ConditionTrue = true ->
    upgrade_end h upgrade instance "Completed"
| end_rolled_back :
    owns upgrade instance = true ->
    annotation instance upgradePhaseAnnotation = MajorUpgradePhaseRollbackRestoreWrites ->
    majorPhaseApplied instance = true -> upgrade_end h upgrade instance "Failed"
| end_labelled phase :
    annotation instance upgradePhaseAnnotation = phase -> upgrade_end h upgrade instance phase
| end_unidentified phase : meta_UID (upg_Meta upgrade) = "" -> upgrade_end h upgrade instance phase.

Definition upgrade_request (h : khistory) (r : Req) : Prop :=
  match r with
  | Get _ _ _ | List _ _ _ | Now | Update KUpgrade _ | Create KConfigMap _ => True
  | UpdateStatus KUpgrade o => upgrade_ended o = true ->
      exists upgrade instance, was_read (k:=KUpgrade) h upgrade /\ was_read (k:=KInstance) h instance /\
        upg_Meta o = upg_Meta upgrade /\ upgrade_end h upgrade instance (ust_Phase (upg_Status o))
  | Patch KInstance base o => exists upgrade,
      was_read (k:=KUpgrade) h upgrade /\ was_read (k:=KInstance) h base /\ upgrade_patch h upgrade base o
  | _ => False
  end.

Definition any {A} (h : khistory) (x : A) : Prop := True.

(** The two objects a reconcile works on; [u] is the upgrade in memory. *)
Definition working (h : khistory) (upgrade u : PostgresUpgrade) (instance : MultiSitePostgres) : Prop :=
  was_read (k:=KUpgrade) h upgrade /\ was_read (k:=KInstance) h instance /\
  upg_Meta u = upg_Meta upgrade /\ upg_Spec u = upg_Spec upgrade.

Lemma working_cons h e upgrade u instance : working h upgrade u instance -> working (e :: h) upgrade u instance.
Proof. intros (? & ? & ? & ?). split_and!; auto using was_read_cons. Qed.

Lemma working_extends h h' upgrade u instance :
  (forall e, e ∈ h -> e ∈ h') -> working h upgrade u instance -> working h' upgrade u instance.
Proof. intros Hin (? & ? & ? & ?). split_and!; eauto using was_read_extends. Qed.

Lemma done_with_sat h p : sat upgrade_request any h p -> sat upgrade_request any h (done_with p).
Proof. intros H. unfold done_with. sat_step. by eapply sat_mono; [| |apply H]. Qed.

Lemma and_then_sat h p next :
  sat upgrade_request (fun h' err => err = None -> sat upgrade_request any h' next) h p ->
  sat upgrade_request any h (and_then p next).
Proof.
  intros H. unfold and_then. sat_step. eapply sat_mono; [| |apply H]; [done|].
  intros h' [e|] Hn; [done|]. by apply Hn.
Qed.

Lemma patch_instance_sat upgrade base o h (Q : khistory -> option Error -> Prop) :
  was_read (k:=KUpgrade) h upgrade -> was_read (k:=KInstance) h base -> upgrade_patch h upgrade base o ->
  (forall x, Q (existT (Patch KInstance base o) x :: h) (match x with Ok _ => None | Err e => Some e end)) ->
  sat upgrade_request Q h (patch_instance base o).
Proof. intros Hu Hb Hp HQ. unfold patch_instance. sat_step. sat_step; [by exists upgrade|]. apply HQ. Qed.

Lemma write_upgrade_status_sat o h (Q : khistory -> PostgresUpgrade * option Error -> Prop) :
  (upgrade_ended o = true -> exists upgrade instance,
     was_read (k:=KUpgrade) h upgrade /\ was_read (k:=KInstance) h instance /\
     upg_Meta o = upg_Meta upgrade /\ upgrade_end h upgrade instance (ust_Phase (upg_Status o))) ->
  (forall x, Q (existT (UpdateStatus KUpgrade o) x :: h)
     (match x with Ok u => (u, None) | Err e => (o, Some e) end)) ->
  sat upgrade_request Q h (write_upgrade_status o).
Proof.
  intros Ho HQ. unfold write_upgrade_status. sat_step. sat_step; [exact Ho|].
  specialize (HQ x). by destruct x.
Qed.

Definition phase_end (phase : string) : bool := (phase == "Completed") || (phase == "Failed").

Lemma setUpgradePhase_sat u phase reason message now h :
  (phase_end phase = true -> exists upgrade instance, working h upgrade u instance /\
     annotation instance upgradePhaseAnnotation = phase) ->
  sat upgrade_request any h (setUpgradePhase u phase reason message now).
Proof.
  intros H. unfold setUpgradePhase, status_error. sat_step. apply write_upgrade_status_sat; [|done].
  cbn. intros He. destruct H as (upgrade & instance & (Hu & Hi & Hm & _) & Hp); [exact He|].
  exists upgrade, instance. split_and!; [done|done|exact Hm|]. by apply end_labelled.
Qed.

Lemma blocked_sat u reason message h : sat upgrade_request any h (blocked u reason message).
Proof. unfold blocked, upgradeBlocked. sat_step. by apply write_upgrade_status_sat. Qed.

Lemma release_upgrade_sat u h : sat upgrade_request any h (release_upgrade u).
Proof. by unfold release_upgrade; do 2 sat_step. Qed.

Lemma release_if_held_sat u h : sat upgrade_request any h (release_if_held u).
Proof. unfold release_if_held. sat_step; [apply release_upgrade_sat|done]. Qed.

Lemma advanceMajorPhase_sat upgrade u instance next sp reason message now outage h :
  working h upgrade u instance -> phase_end sp = false ->
  upgrade_patch h upgrade instance (with_annotations instance (phase_values instance next)) ->
  sat upgrade_request any h (advanceMajorPhase u instance next sp reason message now outage).
Proof.
  intros (Hu & Hi & Hm & Hs) Hsp Hp. apply and_then_sat. eapply patch_instance_sat; [done..|]. intros x _.
  apply done_with_sat, setUpgradePhase_sat. by rewrite Hsp.
Qed.

Lemma request_upgrade_backup_sat u name uid phase at_ h : sat upgrade_request any h (request_upgrade_backup u name uid phase at_).
Proof.
  unfold request_upgrade_backup. sat_step. sat_step; [done|]. by repeat (sat_step; try done).
Qed.

Lemma ensureFreshUpgradeBackup_sat u now h :
  sat upgrade_request (fun _ x => x.1 = true ->
    condition_status_is (statusCondition (ust_Conditions (upg_Status u)) "FreshBackupReady") ConditionTrue = true) h
    (ensureFreshUpgradeBackup u now).
Proof.
  unfold ensureFreshUpgradeBackup. sat_step; [done|]. sat_step.
  { sat_step. by apply write_upgrade_status_sat. }
  sat_step; sat_step.
  - eapply sat_mono; [done| |apply request_upgrade_backup_sat]. intros h' [e|] _; [done|]. sat_step.
    by eapply sat_mono; [| |by apply setUpgradePhase_sat].
  - unfold status_error. sat_step. by apply write_upgrade_status_sat.
Qed.

Lemma ensureUpgradeOperationProgress_same u uid now :
  let u' := ensureUpgradeOperationProgress u uid now in
  upg_Meta u' = upg_Meta u /\ upg_Spec u' = upg_Spec u /\
  ust_Conditions (upg_Status u') = ust_Conditions (upg_Status u) /\
  ust_Phase (upg_Status u') = ust_Phase (upg_Status u).
Proof. unfold ensureUpgradeOperationProgress. by destruct (ust_Operation _). Qed.

Lemma retry_post_backup_sat u condition now h :
  upgrade_ended u = false -> sat upgrade_request any h (retry_post_backup u condition now).
Proof.
  intros Hu. unfold retry_post_backup. sat_step; sat_step; (apply write_upgrade_status_sat; [|done]).
  - by intros [=].
  - cbn. intros He. unfold upgrade_ended in *. cbn in *. congruence.
Qed.

(** The backup after the upgrade is reported verified only if the upgrade's
    condition says so. *)
Lemma ensurePostUpgradeBackup_sat u now h :
  upgrade_ended u = false ->
  sat upgrade_request (fun _ x => forall u', x = inl u' ->
    upg_Meta u' = upg_Meta u /\ upg_Spec u' = upg_Spec u /\
    condition_status_is (statusCondition (ust_Conditions (upg_Status u)) "PostUpgradeBackupReady") ConditionTrue = true)
    h (ensurePostUpgradeBackup u now).
Proof.
  intros Hu. unfold ensurePostUpgradeBackup.
  destruct (ensureUpgradeOperationProgress_same u (post_backup_uid u) now) as (Hm & Hs & Hc & Hp).
  set (u1 := ensureUpgradeOperationProgress _ _ _) in *. clearbody u1. cbv zeta.
  assert (Hu1 : upgrade_ended u1 = false) by (unfold upgrade_ended in *; by rewrite Hp).
  rewrite Hc. sat_step.
  { sat_step. intros u' [= <-]. by split_and!. }
  sat_step. { sat_step. eapply sat_mono; [done| |by apply retry_post_backup_sat]. done. }
  sat_step; [done|]. sat_step; sat_step.
  - eapply sat_mono; [done| |apply and_then_sat]; [done|].
    eapply sat_mono; [done| |apply request_upgrade_backup_sat]. intros h' err _ _.
    by apply done_with_sat, setUpgradePhase_sat.
  - eapply sat_mono; [done| |apply done_with_sat]; [done|]. unfold status_error. sat_step.
    apply write_upgrade_status_sat; [|done]. cbn. intros He.
    unfold upgrade_ended in *. cbn in *. congruence.
Qed.

Lemma has_ended_here h (upgrade o : PostgresUpgrade) o' :
  upg_Meta o = upg_Meta upgrade -> upgrade_ended o = true ->
  has_ended (existT (UpdateStatus KUpgrade o) (Ok o') :: h) upgrade.
Proof. intros Hm He. right. exists o, o'. split; [apply elem_of_cons; by left|done]. Qed.

(** Report the end, then release the instance. *)
Lemma end_and_release_sat upgrade u instance o h :
  working h upgrade u instance -> owns upgrade instance = true ->
  upg_Meta o = upg_Meta upgrade -> upgrade_ended o = true ->
  upgrade_end h upgrade instance (ust_Phase (upg_Status o)) ->
  sat upgrade_request any h (and_then (status_error o)
    (done_with (patch_instance instance (clearUpgradeAnnotations instance)))).
Proof.
  intros (Hu & Hi & Hm & Hs) Hown Ho He Hend. apply and_then_sat. unfold status_error. sat_step.
  apply write_upgrade_status_sat; [intros _; by exists upgrade, instance|].
  intros [o'|e]; cbn [sat snd]; [intros _|done].
  apply done_with_sat, (patch_instance_sat upgrade); [by apply was_read_cons..| |done].
  apply patch_release; [done|]. left. by apply has_ended_here.
Qed.

Lemma finalize_major_sat upgrade u instance now h :
  working h upgrade u instance -> owns upgrade instance = true -> upgrade_ended u = false ->
  ust_Conditions (upg_Status u) = ust_Conditions (upg_Status upgrade) ->
  annotation instance upgradePhaseAnnotation = MajorUpgradePhaseFinalize ->
  majorPhaseApplied instance = true -> majorUpgradeFailed instance = false ->
  sat upgrade_request any h (finalize_major u instance now).
Proof.
  intros Hw Hown Hu Hc Hp Ha Hf. unfold finalize_major. sat_step.
  eapply sat_mono; [done| |by apply sat_extends, ensurePostUpgradeBackup_sat].
  intros h' [u'|out] [H Hext]; [|done]. destruct (H u' eq_refl) as (Hm & Hs & Hb). rewrite Hc in Hb.
  apply (working_extends h h') in Hw; [|done]. pose proof Hw as (Hr & Hi & Hum & Hus).
  eapply end_and_release_sat; [exact Hw|done| | |]; [cbn; congruence|done|by apply end_major].
Qed.

Lemma next_major_phase_sat upgrade u instance phase now h :
  working h upgrade u instance -> owns upgrade instance = true -> upgrade_ended u = false ->
  ust_Conditions (upg_Status u) = ust_Conditions (upg_Status upgrade) ->
  annotation instance upgradePhaseAnnotation = phase -> majorPhaseApplied instance = true ->
  (majorUpgradeFailed instance = true -> phase ∈ rolling_back) ->
  sat upgrade_request any h (next_major_phase u instance phase now).
Proof.
  intros Hw Hown Hu Hc Hp Ha Hf. pose proof Hw as (Hr & Hi & Hm & Hs).
  assert (Hfwd : phase ∉ rolling_back -> majorUpgradeFailed instance = false)
    by (destruct (majorUpgradeFailed instance); naive_solver).
  assert (Hstep : forall q, major_step instance phase q ->
    upgrade_patch h upgrade instance (with_annotations instance (phase_values instance q))).
  { intros q Hq. apply patch_major; [done|]. by rewrite Hp. }
  unfold next_major_phase.
  repeat (let E := fresh in destruct (phase == _) eqn:E; [bool_to_prop; rewrite E in Hp, Hf, Hfwd, Hstep|clear E]);
    try (eapply advanceMajorPhase_sat; [exact Hw|done|apply Hstep];
         first [apply step_forward; [by_deciding|done|apply Hfwd; by_deciding]
               |apply step_backward; [by_deciding|done]]).
  - destruct (_ || _) eqn:Hs'; [by apply done_with_sat, setUpgradePhase_sat|].
    apply orb_false_elim in Hs' as [Ht Hsync]. bool_to_prop. eapply advanceMajorPhase_sat; [exact Hw|done|apply Hstep].
    apply step_writes; [done|apply Hfwd; by_deciding|done|]. intros Hn.
    apply andb_false_iff in Hsync as [Hsync|Hsync]; bool_to_prop; [lia|done].
  - unfold restore_writes. apply and_then_sat. eapply patch_instance_sat; [exact Hr|exact Hi| |].
    + cbn. rewrite Hs. apply patch_version; try done. apply Hfwd; by_deciding.
    + intros x _. by apply done_with_sat, setUpgradePhase_sat.
  - eapply finalize_major_sat; try done. apply Hfwd; by_deciding.
  - unfold end_rollback. eapply end_and_release_sat; [exact Hw|done|done|done|by apply end_rolled_back].
  - apply blocked_sat.
Qed.

Lemma owns_spec (upgrade : PostgresUpgrade) (instance : MultiSitePostgres) :
  owns upgrade instance = true -> annotation instance upgradeUIDAnnotation = meta_UID (upg_Meta upgrade).
Proof. unfold owns. intros H. by bool_to_prop. Qed.

Lemma owns_meta (u upgrade : PostgresUpgrade) (instance : MultiSitePostgres) :
  upg_Meta u = upg_Meta upgrade -> owns u instance = owns upgrade instance.
Proof. unfold owns. by intros ->. Qed.

Lemma start_major_sat upgrade u instance now h :
  working h upgrade u instance -> annotation instance upgradeUIDAnnotation = "" ->
  (meta_UID (upg_Meta upgrade) = "" \/
   may_take h upgrade instance /\ major_qualified h upgrade instance /\
   us_TargetMajorVersion (upg_Spec upgrade) <> pg_MajorVersion (spec_Postgres (msp_Spec instance))) ->
  sat upgrade_request any h (start_major u instance now).
Proof.
  intros (Hr & Hi & Hm & Hs) Huid Hq. unfold start_major. sat_step; [apply blocked_sat|]. bool_to_prop.
  apply and_then_sat. eapply patch_instance_sat; [exact Hr|exact Hi| |].
  - rewrite Hm. destruct Hq as [Hq|(Ht & Hq & Hv)]; [by apply patch_unidentified|by apply patch_take_major].
  - intros x _. by apply done_with_sat, setUpgradePhase_sat.
Qed.

Lemma reconcileMajorUpgrade_sat upgrade u instance now h :
  working h upgrade u instance -> upgrade_ended u = false ->
  (owns upgrade instance = true -> HasPrefix (annotation instance upgradePhaseAnnotation) "Major" = true ->
   ust_Conditions (upg_Status u) = ust_Conditions (upg_Status upgrade)) ->
  (annotation instance upgradeUIDAnnotation = "" -> meta_UID (upg_Meta upgrade) = "" \/
   may_take h upgrade instance /\ major_qualified h upgrade instance /\
   us_TargetMajorVersion (upg_Spec upgrade) <> pg_MajorVersion (spec_Postgres (msp_Spec instance))) ->
  sat upgrade_request any h (reconcileMajorUpgrade u instance now).
Proof.
  intros Hw Hu Hc Hq. pose proof Hw as (Hr & Hi & Hm & Hs). unfold reconcileMajorUpgrade.
  destruct (_ == "") eqn:Huid; bool_to_prop; [by eapply start_major_sat; eauto|].
  rewrite (owns_meta u upgrade) by done. destruct (owns upgrade instance) eqn:Hown; cbn [negb]; [|apply blocked_sat].
  set (phase := annotation instance upgradePhaseAnnotation) in *.
  assert (Hend : forall reason message, sat upgrade_request any h (done_with (setUpgradePhase u phase reason message now))).
  { intros reason message. apply done_with_sat, setUpgradePhase_sat. intros _. by exists upgrade, instance. }
  destruct (majorUpgradeFailed instance) eqn:Hf; cbn [andb].
  - destruct (slices_Contains rollback_phases phase) eqn:Hrb.
    { unfold slices_Contains in Hrb. bool_to_prop. eapply advanceMajorPhase_sat; [exact Hw|done|].
      apply patch_major; [done|]. by apply step_failed. }
    destruct (slices_Contains rolling_back phase) eqn:Hrg; cbn [negb]; [|apply Hend].
    destruct (majorPhaseApplied instance) eqn:Ha; cbn [negb]; [|apply Hend].
    unfold slices_Contains in Hrg. bool_to_prop. eapply next_major_phase_sat; eauto.
    apply Hc; [done|]. revert Hrg. unfold rolling_back. rewrite !elem_of_cons, elem_of_nil. fold phase.
    by intros [->|[->|[->|[]]]].
  - destruct (majorPhaseApplied instance) eqn:Ha; cbn [negb]; [|apply Hend].
    destruct (HasPrefix phase "Major") eqn:Hpre; [eapply next_major_phase_sat; eauto; congruence|].
    unfold next_major_phase.
    repeat (let E := fresh in destruct (phase == _) eqn:E; [bool_to_prop; by rewrite E in Hpre|clear E]).
    apply blocked_sat.
Qed.

(** A patch of the instance, then a report of progress. *)
Lemma patch_and_report_sat upgrade u u' instance o phase reason message now h :
  working h upgrade u instance -> upgrade_patch h upgrade instance o -> phase_end phase = false ->
  sat upgrade_request any h (and_then (patch_instance instance o)
    (done_with (setUpgradePhase u' phase reason message now))).
Proof.
  intros (Hr & Hi & _) Hp He. apply and_then_sat. eapply patch_instance_sat; [exact Hr|exact Hi|exact Hp|].
  intros x _. apply done_with_sat, setUpgradePhase_sat. by rewrite He.
Qed.

Lemma roll_member_sat upgrade u instance now h :
  working h upgrade u instance -> owns upgrade instance = true ->
  annotation instance upgradePhaseAnnotation = UpgradePhaseMember ->
  sat upgrade_request any h (roll_member u instance now).
Proof.
  intros Hw Hown Hp. pose proof Hw as (_ & _ & _ & Hs). unfold roll_member.
  destruct (_ == "") eqn:Hmem; [apply blocked_sat|]. bool_to_prop.
  destruct (instanceReadyForOperation instance) eqn:Hr; cbn [negb]; [|by apply done_with_sat, setUpgradePhase_sat].
  destruct (_ == "true") eqn:Hsw; cbn [negb]; bool_to_prop.
  - destruct (_ == "") eqn:Hn; bool_to_prop.
    + eapply patch_and_report_sat; [exact Hw| |done]. rewrite Hs. by apply patch_image.
    + eapply patch_and_report_sat; [exact Hw| |done]. by eapply patch_next_member.
  - eapply patch_and_report_sat; [exact Hw| |done]. by eapply patch_switchover.
Qed.

Lemma roll_switchover_sat upgrade u instance now h :
  working h upgrade u instance -> owns upgrade instance = true ->
  annotation instance upgradePhaseAnnotation = UpgradePhaseSwitchover ->
  sat upgrade_request any h (roll_switchover u instance now).
Proof.
  intros Hw Hown Hp. unfold roll_switchover. sat_step; [apply blocked_sat|].
  sat_step; [by apply done_with_sat, setUpgradePhase_sat|]. sat_step; [apply blocked_sat|]. bool_to_prop.
  eapply patch_and_report_sat; [exact Hw| |done]. by eapply patch_switched.
Qed.

Lemma reconcileMinorUpgrade_sat upgrade u instance now h :
  working h upgrade u instance ->
  us_TargetMajorVersion (upg_Spec upgrade) = pg_MajorVersion (spec_Postgres (msp_Spec instance)) ->
  (annotation instance upgradeUIDAnnotation = "" -> meta_UID (upg_Meta upgrade) = "" \/ may_take h upgrade instance) ->
  sat upgrade_request any h (reconcileMinorUpgrade u instance now).
Proof.
  intros Hw Hv Hq. pose proof Hw as (Hr & Hi & Hm & Hs). unfold reconcileMinorUpgrade. rewrite Hs.
  destruct (annotation instance upgradeUIDAnnotation == "") eqn:Huid; bool_to_prop.
  - rewrite andb_true_r. specialize (Hq Huid). sat_step; bool_to_prop.
    + apply done_with_sat. unfold completeUpgrade, status_error. sat_step.
      apply write_upgrade_status_sat; [|done]. intros _. exists upgrade, instance. split_and!; [done..|exact Hm|].
      destruct Hq as [Hq|Hq]; [by apply end_unidentified|by apply end_nothing_to_do].
    + unfold start_minor. sat_step; [apply blocked_sat|]. bool_to_prop.
      eapply patch_and_report_sat; [exact Hw| |done]. rewrite Hm.
      destruct Hq as [Hq|Hq]; [by apply patch_unidentified|by eapply patch_take_minor].
  - rewrite andb_false_r, (owns_meta u upgrade) by done.
    destruct (owns upgrade instance) eqn:Hown; cbn [negb]; [|apply blocked_sat].
    sat_step; bool_to_prop; [by eapply roll_member_sat|].
    sat_step; bool_to_prop; [by eapply roll_switchover_sat|].
    sat_step; bool_to_prop; [|apply blocked_sat].
    sat_step; bool_to_prop; [by apply done_with_sat, setUpgradePhase_sat|].
    eapply end_and_release_sat; [exact Hw|done|exact Hm|done|by apply end_minor].
Qed.

Lemma validate_rollback_sites_sat benchmark sites h :
  sat upgrade_request (fun h' err => err = None -> forall site, site ∈ sites -> can_roll_back h' benchmark site) h
    (validate_rollback_sites benchmark sites).
Proof.
  revert h. induction sites as [|site sites IH]; intros h; cbn [validate_rollback_sites].
  { intros _ site Hin. by apply elem_of_nil in Hin. }
  assert (Hskip : forall h0, (forall h', (forall e, e ∈ h0 -> e ∈ h') -> can_roll_back h' benchmark site) ->
    sat upgrade_request (fun h' err => err = None -> forall s, s ∈ site :: sites -> can_roll_back h' benchmark s) h0
      (validate_rollback_sites benchmark sites)).
  { intros h0 Hsite. eapply sat_mono; [done| |apply sat_extends, IH]. intros h' err [Hall Hext] He s.
    rewrite elem_of_cons. intros [->|Hs]; [by apply Hsite|by apply Hall]. }
  destruct (ss_Postgres _) as [storage|] eqn:Hst.
  2:{ apply Hskip. intros h' _ storage _ Hs. by rewrite Hst in Hs. }
  destruct (site_Role site == SiteRoleData) eqn:Hrole; cbn [negb]; bool_to_prop.
  2:{ apply Hskip. intros h' _ s Hs. by destruct Hrole. }
  destruct (slices_Contains _ _) eqn:Hcl; cbn [negb]; [|done]. unfold slices_Contains in Hcl. bool_to_prop.
  sat_step. sat_step; [done|]. destruct x as [registration|e]; [|done].
  destruct (rollbackPolicy _ _) as [policy|] eqn:Hpol; [|done].
  destruct (_ && _) eqn:Hsnap; [done|]. apply Hskip. intros h' Hext storage' _ Hs'.
  rewrite Hst in Hs'. injection Hs' as <-. split; [done|]. exists registration, policy.
  split_and!; [apply Hext, elem_of_cons; by left|done|]. intros Hstr. rewrite Hstr in Hsnap.
  destruct (snapshotClassDiscovered _ _); [done|]. by rewrite bool_decide_eq_true_2 in Hsnap.
Qed.

Lemma may_take_extends h h' upgrade instance :
  (forall e, e ∈ h -> e ∈ h') -> may_take h upgrade instance -> may_take h' upgrade instance.
Proof.
  intros Hext (? & ? & ? & (lb & now & ? & ? & ?) & (us & ? & ?) & (rs & ? & ?)). split_and!; try done.
  - exists lb, now. split_and!; auto.
  - exists us. split; auto.
  - exists rs. split; auto.
Qed.

Lemma existsb_none {A} (f : A -> bool) l x : existsb f l = false -> x ∈ l -> f x = false.
Proof.
  intros H Hin. destruct (f x) eqn:E; [|done]. rewrite <- not_true_iff_false, existsb_exists in H.
  destruct H. exists x. split; [by apply list_elem_of_In|done].
Qed.

(** The major upgrade of an instance that passed the checks. *)
Lemma qualify_major_sat upgrade instance h :
  working h upgrade upgrade instance -> upgrade_ended upgrade = false -> may_take h upgrade instance ->
  ~ (owns upgrade instance = true /\ HasPrefix (annotation instance upgradePhaseAnnotation) "Major" = true) ->
  us_TargetMajorVersion (upg_Spec upgrade) <> pg_MajorVersion (spec_Postgres (msp_Spec instance)) ->
  sat upgrade_request any h (qualify_major upgrade instance).
Proof.
  intros Hw Hu Ht Hmaj Hv. unfold qualify_major. sat_step. sat_step; [done|]. sat_step.
  eapply sat_mono; [done| |apply sat_extends, ensureFreshUpgradeBackup_sat].
  intros h1 [ready err] [Hfresh Hext1]. cbn [fst snd] in *. sat_step; [done|].
  destruct ready; [|done]. cbn [negb]. specialize (Hfresh eq_refl). sat_step. sat_step; [done|]. rename x0 into now.
  sat_step. unfold validateMajorUpgradeContract.
  destruct (validate_benchmark _ _ _) as [benchmark|e] eqn:Hb; [|apply blocked_sat].
  eapply sat_mono; [done| |apply sat_extends, validate_rollback_sites_sat].
  intros h2 [e|] [Hsites Hext2]; [apply blocked_sat|]. specialize (Hsites eq_refl).
  sat_step. sat_step; [done|].
  assert (Hext : forall e, e ∈ h -> e ∈ existT Now x0 :: h2).
  { intros e He. apply elem_of_cons. right. apply Hext2, elem_of_cons. right. apply Hext1, elem_of_cons. by right. }
  eapply (reconcileMajorUpgrade_sat upgrade).
  - destruct Hw as (Hr & Hi & _). split_and!; [by eapply was_read_extends; [exact Hext|]..|done|done].
  - exact Hu.
  - intros Ho Hp. by destruct Hmaj.
  - intros _. right. split_and!; [by eapply may_take_extends| |done]. split; [done|].
    exists now, benchmark. split_and!; [apply elem_of_cons; right; apply Hext2, elem_of_cons; by left|done|].
    intros site Hin storage Hrole Hst. destruct (Hsites site Hin storage Hrole Hst) as (Hc & reg & pol & Hreg & Hpol).
    split; [done|]. exists reg, pol. split; [|done]. apply elem_of_cons. by right.
Qed.

Lemma begin_upgrade_sat upgrade instance lastBackup h :
  working h upgrade upgrade instance -> upgrade_ended upgrade = false ->
  meta_DeletionTimestamp (upg_Meta upgrade) = None ->
  instance_true instance "Ready" -> instance_true instance "BackupReady" ->
  st_LastBackupTime (msp_Status instance) = Some lastBackup ->
  ~ (owns upgrade instance = true /\ HasPrefix (annotation instance upgradePhaseAnnotation) "Major" = true) ->
  sat upgrade_request any h (begin_upgrade upgrade instance lastBackup).
Proof.
  intros Hw Hu Hdel Hrd Hbr Hlb Hmaj. unfold begin_upgrade. sat_step. sat_step; [done|]. rename x into now.
  destruct (_ <? _)%Z eqn:Hage; [apply blocked_sat|]. bool_to_prop.
  apply time_Sub_le in Hage; [|unfold min_int64, max_int64, hour, minute, second; lia].
  sat_step. sat_step; [done|]. destruct x as [upgrades|e]; [|done].
  destruct (existsb _ (_ : list PostgresUpgrade)) eqn:Hups; [apply blocked_sat|].
  sat_step. sat_step; [done|]. destruct x as [restores|e]; [|done].
  destruct (existsb _ (_ : list PostgresRestore)) eqn:Hres; [apply blocked_sat|].
  match goal with |- sat _ _ ?h' _ => assert (Ht : may_take h' upgrade instance);
    [|assert (Hw' : working h' upgrade upgrade instance) by (by do 3 apply working_cons)] end.
  { split_and!; try done.
    - exists lastBackup, now. split_and!; [done| |done]. rewrite !elem_of_cons. auto.
    - exists upgrades. split; [rewrite !elem_of_cons; auto|]. intros other Hin Href.
      apply (existsb_none _ _ other) in Hups; [|done]. unfold upgrade_ended, active_phase in *.
      destruct (decide (meta_Name (upg_Meta other) = meta_Name (upg_Meta upgrade))); [by left|right].
      destruct (ust_Phase _ == "Completed"), (ust_Phase _ == "Failed"); try done.
      by repeat case_bool_decide.
    - exists restores. split; [rewrite !elem_of_cons; auto|]. intros r Hin Href.
      apply (existsb_none _ _ r) in Hres; [|done]. unfold active_phase in *.
      rewrite (bool_decide_eq_true_2 _ Href) in Hres. cbn in Hres.
      apply andb_false_iff in Hres as [E|E]; bool_to_prop; auto. }
  sat_step; bool_to_prop; [by eapply qualify_major_sat|].
  sat_step. sat_step; [done|]. eapply (reconcileMinorUpgrade_sat upgrade); [by apply working_cons|done|].
  intros _. right. eapply may_take_extends; [|exact Ht]. intros e He. apply elem_of_cons. by right.
Qed.

Lemma reconcileTerminalUpgrade_sat upgrade instance h :
  working h upgrade upgrade instance ->
  sat upgrade_request (fun _ x => x.1 = upgrade_ended upgrade) h (reconcileTerminalUpgrade upgrade instance).
Proof.
  intros (Hr & Hi & _). unfold reconcileTerminalUpgrade.
  destruct (upgrade_ended upgrade) eqn:He; cbn [negb]; [|done].
  destruct (owns upgrade instance) eqn:Ho; [|done]. sat_step.
  eapply patch_instance_sat; [exact Hr|exact Hi| |by intros []].
  apply patch_release; [done|]. left. by left.
Qed.

Lemma reconcile_instance_sat upgrade instance h :
  working h upgrade upgrade instance -> upgrade_ended upgrade = false ->
  meta_DeletionTimestamp (upg_Meta upgrade) = None ->
  sat upgrade_request any h (reconcile_instance upgrade instance).
Proof.
  intros Hw Hu Hdel. unfold reconcile_instance. sat_step.
  eapply sat_mono; [done| |by apply sat_extends, reconcileTerminalUpgrade_sat].
  intros h' [handled err] [He Hext]. cbn in He. rewrite Hu in He. subst handled. cbn [fst].
  apply (working_extends h h') in Hw; [|done].
  destruct (HasPrefix _ _ && owns _ _) eqn:Hmaj.
  { apply andb_true_iff in Hmaj as [Hpre Hown]. sat_step. sat_step; [done|].
    eapply (reconcileMajorUpgrade_sat upgrade); [by apply working_cons|done|done|].
    intros Huid. left. apply owns_spec in Hown. by rewrite <- Hown. }
  destruct ((_ == _) && owns _ _) eqn:Hmin.
  { apply andb_true_iff in Hmin as [Hv Hown]. bool_to_prop. sat_step. sat_step; [done|].
    eapply (reconcileMinorUpgrade_sat upgrade); [by apply working_cons|done|].
    intros Huid. left. apply owns_spec in Hown. by rewrite <- Hown. }
  destruct (st_LastBackupTime _) as [lb|] eqn:Hlb; [|apply blocked_sat].
  destruct (conditionTrue _ _ && _) eqn:Hrd; [|apply blocked_sat]. apply andb_true_iff in Hrd as [Hrd Hbr].
  apply begin_upgrade_sat; try done. intros [Ho Hp]. by rewrite Ho, Hp in Hmaj.
Qed.

Lemma delete_in_phase_sat upgrade instance h :
  working h upgrade upgrade instance -> owns upgrade instance = true -> upgrade_ended upgrade = false ->
  deleting (upg_Meta upgrade) -> sat upgrade_request any h (delete_in_phase upgrade instance).
Proof.
  intros Hw Hown He Hdel. pose proof Hw as (Hr & Hi & _). unfold delete_in_phase.
  assert (Hst : forall reason message now h', sat upgrade_request any h'
    (setUpgradePhase upgrade (ust_Phase (upg_Status upgrade)) reason message now)).
  { intros. apply setUpgradePhase_sat. unfold phase_end. unfold upgrade_ended in He. by rewrite He. }
  destruct (_ == MajorUpgradePhasePreflight) eqn:Hp; bool_to_prop.
  { apply and_then_sat. eapply patch_instance_sat; [exact Hr|exact Hi| |].
    - apply patch_release; [done|]. right. split; [done|]. by right.
    - intros x _. apply release_upgrade_sat. }
  destruct (slices_Contains deletion_rolls_back _) eqn:Hrb; unfold slices_Contains in Hrb; bool_to_prop.
  { sat_step. sat_step; [done|]. sat_step.
    eapply sat_mono; [done| |eapply advanceMajorPhase_sat; [by apply working_cons|done|by apply patch_cancel]].
    intros h' out _. by sat_step. }
  sat_step; (sat_step; sat_step; [done|]).
  - sat_step. by eapply sat_mono; [done| |apply Hst].
  - by apply done_with_sat.
Qed.

Lemma reconcileUpgradeDeletion_sat upgrade h :
  was_read (k:=KUpgrade) h upgrade -> deleting (upg_Meta upgrade) ->
  sat upgrade_request any h (reconcileUpgradeDeletion upgrade).
Proof.
  intros Hr Hdel. unfold reconcileUpgradeDeletion. sat_step; [done|]. sat_step. sat_step; [done|].
  destruct x as [instance|e]; [|sat_step; [apply release_upgrade_sat|done]].
  match goal with |- sat _ _ ?h' _ => assert (Hw : working h' upgrade upgrade instance)
    by (split_and!; [by apply was_read_cons|apply was_read_here|done..]) end.
  destruct (_ == "true") eqn:Hf; bool_to_prop.
  - apply and_then_sat. eapply (sat_mono _ _ any); [done| |].
    + intros h' err _ _. sat_step. apply write_upgrade_status_sat; [done|]. intros x. apply release_upgrade_sat.
    + destruct (owns upgrade instance) eqn:Ho; [|done].
      destruct Hw as (Hr' & Hi & _). eapply patch_instance_sat; [exact Hr'|exact Hi| |done].
      apply patch_release; [done|]. right. split; [done|]. by left.
  - destruct (negb _ || _ || _) eqn:Hc; [apply release_upgrade_sat|]. bool_to_prop. by apply delete_in_phase_sat.
Qed.

(** Every request of a reconcile is a step of the upgrade. *)
Lemma upgrade_Reconcile_sat namespace name : sat upgrade_request any [] (Reconcile namespace name).
Proof.
  unfold Reconcile. sat_step. sat_step; [done|]. destruct x as [upgrade|e]; [|done].
  match goal with |- sat _ _ ?h' _ => assert (Hr : was_read (k:=KUpgrade) h' upgrade) by apply was_read_here end.
  destruct (meta_DeletionTimestamp _) as [d|] eqn:Hdel.
  { apply reconcileUpgradeDeletion_sat; [done|]. by exists d. }
  assert (Hw : forall h' (instance : MultiSitePostgres) ns n, was_read (k:=KUpgrade) h' upgrade ->
    working (existT (Get KInstance ns n) (Ok instance) :: h') upgrade upgrade instance).
  { intros. split_and!; [by apply was_read_cons|apply (was_read_here (k:=KInstance))|done..]. }
  destruct (upgrade_ended upgrade) eqn:He.
  { sat_step. sat_step; [done|]. destruct x as [instance|e].
    - sat_step. eapply sat_mono; [done| |by apply reconcileTerminalUpgrade_sat, Hw].
      intros h' x _. sat_step; [done|apply release_if_held_sat].
    - sat_step; [apply release_if_held_sat|done]. }
  sat_step; [sat_step; by sat_step|].
  sat_step. sat_step; [done|]. destruct x as [instance|e].
  - apply reconcile_instance_sat; [by apply Hw|done..].
  - sat_step; [apply release_upgrade_sat|apply blocked_sat].
Qed.

(** ** What the steps mean *)
Lemma annotation_with instance values key :
  annotation (with_annotations instance values) key =
  match values !! key with Some v => v | None => annotation instance key end.
Proof.
  unfold annotation, with_annotations, maps_Copy. cbn. rewrite lookup_total_alt, lookup_union, lookup_total_alt.
  by destruct (values !! key), (meta_Annotations (msp_Meta instance) !! key).
Qed.

Lemma annotation_clear instance key :
  key ∈ [upgradeUIDAnnotation; upgradePhaseAnnotation; upgradeMemberAnnotation] ->
  annotation (clearUpgradeAnnotations instance) key = "".
Proof.
  unfold annotation, clearUpgradeAnnotations. cbn. rewrite !elem_of_cons, elem_of_nil.
  intros [->|[->|[->|[]]]]; rewrite lookup_total_alt;
    repeat first [rewrite lookup_delete_eq; reflexivity|rewrite lookup_delete_ne by discriminate].
Qed.

(** The upgrades read carry the UID the server gave them. *)
Definition identified (h : khistory) : Prop :=
  forall upgrade, was_read (k:=KUpgrade) h upgrade -> meta_UID (upg_Meta upgrade) <> "".

Lemma patch_phase h upgrade base o :
  meta_UID (upg_Meta upgrade) <> "" -> upgrade_patch h upgrade base o ->
  let phase := annotation o upgradePhaseAnnotation in
  phase ∈ [""; UpgradePhaseMember; UpgradePhaseSwitchover; UpgradePhaseFinalize; MajorUpgradePhasePreflight] \/
  owns upgrade base = true /\
  (major_step base (annotation base upgradePhaseAnnotation) phase \/
   phase = MajorUpgradePhaseRollback /\ deleting (upg_Meta upgrade) /\
     annotation base upgradePhaseAnnotation ∈ deletion_rolls_back \/
   phase = MajorUpgradePhaseFinalize /\ annotation base upgradePhaseAnnotation = MajorUpgradePhaseRestoreWrites /\
     majorPhaseApplied base = true /\ majorUpgradeFailed base = false).
Proof.
  intros Huid Hp phase. subst phase.
  destruct Hp as [| |q Hown Hstep|Hown Hdel Hin|Hown Hph Ha Hf|member upgraded Hown Hph|next Hown Hph
    |upgraded next Hown Hph|Hown Hph|Hown|]; [left|left|right|right|right|left|left|left|left|left|done].
  - rewrite annotation_with. by_deciding.
  - rewrite annotation_with. by_deciding.
  - rewrite annotation_with. split; [done|]. left. exact Hstep.
  - rewrite annotation_with. split; [done|]. right. left. done.
  - split; [done|]. right. right. split_and!; try done.
    change (annotation (with_annotations base (phase_values base MajorUpgradePhaseFinalize)) upgradePhaseAnnotation =
      MajorUpgradePhaseFinalize). by rewrite annotation_with.
  - rewrite annotation_with. by_deciding.
  - rewrite annotation_with. by_deciding.
  - rewrite annotation_with, Hph. by_deciding.
  - change (annotation (with_target_image (upg_Spec upgrade) base) upgradePhaseAnnotation) with
      (annotation (with_annotations base (phase_values base UpgradePhaseFinalize)) upgradePhaseAnnotation).
    rewrite annotation_with. by_deciding.
  - rewrite annotation_clear by by_deciding. by_deciding.
Qed.

(** The order of a major upgrade, for a patch of an instance from [base] to [o]. *)
Definition major_order (h : khistory) (r : Req) : Prop :=
  match r with
  | Patch KInstance base o => identified h ->
      let was := annotation base upgradePhaseAnnotation in
      let becomes := annotation o upgradePhaseAnnotation in
      (becomes = MajorUpgradePhaseUpgradePrimary -> was = MajorUpgradePhaseSnapshot /\ majorPhaseApplied base = true) /\
      (becomes = MajorUpgradePhaseSnapshot -> was = MajorUpgradePhaseStop /\ majorPhaseApplied base = true) /\
      (becomes = MajorUpgradePhaseRestoreWrites -> was = MajorUpgradePhaseReplicas /\ majorPhaseApplied base = true /\
         majorUpgradeFailed base = false /\ instance_true base "TopologyReady" /\
         ((0 < pg_SynchronousStandbyCount (spec_Postgres (msp_Spec base)))%Z ->
          instance_true base "SynchronousReplicationReady")) /\
      (becomes = MajorUpgradePhaseFinalize -> was = MajorUpgradePhaseRestoreWrites /\ majorPhaseApplied base = true) /\
      (becomes = MajorUpgradePhaseRollback ->
         was ∈ rollback_phases /\ majorUpgradeFailed base = true \/
         was ∈ deletion_rolls_back /\ exists upgrade, was_read (k:=KUpgrade) h upgrade /\ deleting (upg_Meta upgrade))
  | _ => True
  end.

Lemma step_source instance p q :
  major_step instance p q ->
  (q = MajorUpgradePhaseRollback -> p ∈ rollback_phases /\ majorUpgradeFailed instance = true) /\
  q <> MajorUpgradePhaseFinalize /\ q <> UpgradePhaseSwitchover /\
  (q = MajorUpgradePhaseRestoreWrites -> p = MajorUpgradePhaseReplicas /\ majorPhaseApplied instance = true /\
     majorUpgradeFailed instance = false /\ instance_true instance "TopologyReady" /\
     ((0 < pg_SynchronousStandbyCount (spec_Postgres (msp_Spec instance)))%Z ->
      instance_true instance "SynchronousReplicationReady")) /\
  (q = MajorUpgradePhaseUpgradePrimary -> p = MajorUpgradePhaseSnapshot /\ majorPhaseApplied instance = true) /\
  (q = MajorUpgradePhaseSnapshot -> p = MajorUpgradePhaseStop /\ majorPhaseApplied instance = true).
Proof.
  intros [p' q' Hin Ha Hf|Ha Hf Ht Hs|p' Hin Hf|p' q' Hin Ha].
  - unfold major_forward in Hin. rewrite !elem_of_cons, elem_of_nil in Hin.
    destruct_or! Hin; simplify_eq; split_and!; (done || by intros [=]).
  - split_and!; (done || by intros [=]).
  - split_and!; (done || by intros [=]).
  - unfold major_backward in Hin. rewrite !elem_of_cons, elem_of_nil in Hin.
    destruct_or! Hin; simplify_eq; split_and!; (done || by intros [=]).
Qed.

(** C1: A major upgrade runs in order. Whatever the server answers, the data
    directories are converted only after every site has captured the rollback
    storage, which happens only after every member has stopped; write service is
    restored only from the replica phase, applied everywhere and without a
    failure, with the topology and (if the instance has synchronous standbys) the
    synchronous replication observed ready; the instance takes the new version
    only after that; and a rollback begins only on a failure between conversion
    and the start of the primary, or when the upgrade is being deleted before
    writes may have resumed. *)
Theorem major_upgrade_in_order namespace name :
  sat major_order (fun _ _ => True) [] (Reconcile namespace name).
Proof.
  eapply sat_mono; [| |apply upgrade_Reconcile_sat]; [|done].
  intros h r H. destruct r as [| | | | |[] base o| | | | | | | |]; cbn [upgrade_request major_order] in H |- *; try done. intros Hid.
  destruct H as (upgrade & Hu & Hb & Hp). specialize (Hid upgrade Hu). cbv zeta.
  pose proof (patch_phase _ _ _ _ Hid Hp) as Hphase. cbv zeta in Hphase.
  set (becomes := annotation o upgradePhaseAnnotation) in *. clearbody becomes.
  destruct Hphase as [Hin|[_ [Hs|[(-> & Hdel & Hin)|(-> & Hw & Ha & _)]]]].
  - rewrite !elem_of_cons, elem_of_nil in Hin. destruct_or! Hin; subst; split_and!; done || by intros [=].
  - apply step_source in Hs as (H1 & H2 & _ & H3 & H4 & H5). split_and!; auto; done.
  - split_and!; try by intros [=]. intros _. right. split; [done|]. by exists upgrade.
  - split_and!; done || by intros [=].
Qed.

(** Completion, for a write of the upgrade's status. *)
Definition completion (h : khistory) (r : Req) : Prop :=
  match r with
  | UpdateStatus KUpgrade o => ust_Phase (upg_Status o) = "Completed" -> identified h ->
      exists upgrade instance, was_read (k:=KUpgrade) h upgrade /\ was_read (k:=KInstance) h instance /\
        upg_Meta o = upg_Meta upgrade /\
        (annotation instance upgradePhaseAnnotation <> "Completed" ->
         (annotation instance upgradeUIDAnnotation = "" /\
          us_TargetImage (upg_Spec upgrade) = pg_Image (spec_Postgres (msp_Spec instance)) /\
          us_TargetMajorVersion (upg_Spec upgrade) = pg_MajorVersion (spec_Postgres (msp_Spec instance))) \/
         (annotation instance upgradeUIDAnnotation = meta_UID (upg_Meta upgrade) /\
          ((annotation instance upgradePhaseAnnotation = UpgradePhaseFinalize /\
            instanceReadyForOperation instance = true) \/
           (annotation instance upgradePhaseAnnotation = MajorUpgradePhaseFinalize /\
            majorPhaseApplied instance = true /\ majorUpgradeFailed instance = false /\
            condition_status_is (statusCondition (ust_Conditions (upg_Status upgrade)) "PostUpgradeBackupReady")
              ConditionTrue = true))))
  | _ => True
  end.


(** Ownership, for any request that changes an instance. *)
Definition exclusive (h : khistory) (r : Req) : Prop :=
  match r with
  | Patch KInstance base o => identified h -> exists upgrade,
      was_read (k:=KUpgrade) h upgrade /\ was_read (k:=KInstance) h base /\
      (annotation base upgradeUIDAnnotation = meta_UID (upg_Meta upgrade) \/
       annotation base upgradeUIDAnnotation = "" /\
       annotation o upgradeUIDAnnotation = meta_UID (upg_Meta upgrade) /\ may_take h upgrade base /\
       (us_TargetMajorVersion (upg_Spec upgrade) <> pg_MajorVersion (spec_Postgres (msp_Spec base)) ->
        major_qualified h upgrade base))
  | Create KInstance _ | Update KInstance _ | UpdateStatus KInstance _ | Delete KInstance _ => False
  | _ => True
  end.

(** C11: An instance is upgraded by one upgrade at a time, and only when it is
    fit for it. A reconcile changes only an instance it has read that already
    belongs to its own upgrade, or a free one that it takes; it takes a free one
    only if the instance is Ready with a backup at most 24 hours old and no other
    upgrade or restore of it is unfinished, and for a new major version only with
    a fresh verified backup, a qualified benchmark, and on every data site a
    rollback policy for its storage class that the site can carry out. *)
Theorem upgrade_exclusive namespace name :
  sat exclusive (fun _ _ => True) [] (Reconcile namespace name).
Proof.
  eapply sat_mono; [| |apply upgrade_Reconcile_sat]; [|done]. intros h r H.
  destruct r as [| |[] o|[] o|[] o|[] base o| |[] o| | | | | |]; cbn [upgrade_request exclusive] in H |- *; try done.
  intros Hid. destruct H as (upgrade & Hu & Hb & Hp). exists upgrade. split_and!; try done.
  specialize (Hid upgrade Hu).
  destruct Hp as [Huid Ht Hq|c Huid Ht Hv|? Ho|Ho|Ho|? ? Ho|? Ho|? ? Ho|Ho|Ho|];
    try (left; by apply owns_spec); right; (split_and!; [done|by rewrite annotation_with|done|done]).
Qed.

(** The members a rolling upgrade restarts, for a patch of the instance. *)
Definition rolls_standbys (h : khistory) (r : Req) : Prop :=
  match r with
  | Patch KInstance base o => identified h ->
      let member := annotation o upgradeMemberAnnotation in
      (member <> "" -> member <> annotation base upgradeMemberAnnotation ->
       member <> st_Primary (msp_Status base) /\
       (annotation base upgradeUIDAnnotation = "" /\ member ∈ st_SynchronousStandbys (msp_Status base) \/
        annotation base upgradeUIDAnnotation <> "" /\
        member ∉ splitMembers (annotation base upgradeMembersAnnotation))) /\
      (annotation o upgradePhaseAnnotation = UpgradePhaseSwitchover ->
       annotation o upgradeCandidateAnnotation = annotation base upgradeMemberAnnotation /\
       annotation base upgradePhaseAnnotation = UpgradePhaseMember /\ instanceReadyForOperation base = true)
  | _ => True
  end.

Lemma eligible_next instance upgraded :
  selectUpgradeCandidate instance upgraded <> "" ->
  upgrade_eligible instance upgraded (selectUpgradeCandidate instance upgraded).
Proof. intros H. by destruct (selectUpgradeCandidate_cases instance upgraded) as [[? _]|[? _]]. Qed.

Lemma eligible_not_upgraded instance upgraded member :
  upgrade_eligible instance upgraded member -> member ∉ upgraded.
Proof. intros [_ H]. destruct upgraded; [by intros ?%elem_of_nil|by destruct H]. Qed.

Lemma elem_of_appendUnique m members member : m ∈ members -> m ∈ appendUnique members member.
Proof. unfold appendUnique. intros H. destruct (slices_Contains _ _); rewrite elem_of_SortStrings; set_solver. Qed.

Lemma member_kept base o phase :
  annotation o upgradeMemberAnnotation = annotation base upgradeMemberAnnotation ->
  annotation o upgradePhaseAnnotation = phase -> phase <> UpgradePhaseSwitchover ->
  forall P Q : Prop,
  (annotation o upgradeMemberAnnotation <> "" ->
   annotation o upgradeMemberAnnotation <> annotation base upgradeMemberAnnotation -> P) /\
  (annotation o upgradePhaseAnnotation = UpgradePhaseSwitchover -> Q).
Proof. intros Hm Hp Hne P Q. split; [done|]. intros H. congruence. Qed.

(** C34: A rolling minor upgrade restarts only standbys. The member selected for
    the rollout is never the current primary: the first is a synchronous standby,
    and every later one has not been upgraded before; and the primary is moved
    only to the member that has just been upgraded and verified on every site. *)
Theorem minor_upgrade_rolls_standbys namespace name :
  sat rolls_standbys (fun _ _ => True) [] (Reconcile namespace name).
Proof.
  eapply sat_mono; [| |apply upgrade_Reconcile_sat]; [|done]. intros h r H.
  destruct r as [| | | | |[] base o| | | | | | | |]; cbn [upgrade_request rolls_standbys] in H |- *; try done.
  intros Hid. destruct H as (upgrade & Hu & Hb & Hp). specialize (Hid upgrade Hu). cbv zeta.
  assert (Hne : owns upgrade base = true -> annotation base upgradeUIDAnnotation <> "")
    by (intros Ho; by rewrite (owns_spec _ _ Ho)).
  destruct Hp as [|c Huid Ht Hv -> Hc|q Ho Hs|Ho Hd Hi|Ho|member upgraded Ho Hph Hr Hsw -> Hm ->|next Ho Hph _ _ -> Hn
    |upgraded next Ho Hph Hr Hsw -> -> Hn|Ho|Ho|]; try done.
  - by eapply member_kept; rewrite ?annotation_with.
  - rewrite !annotation_with. split; [|by intros [=]]. intros _ _. cbn. apply eligible_next in Hc as [? Hstand]. auto.
  - eapply member_kept; rewrite ?annotation_with; try done.
    apply step_source in Hs as (_ & _ & Hq & _). exact Hq.
  - by eapply member_kept; rewrite ?annotation_with.
  - by eapply (member_kept base (with_annotations base (phase_values base MajorUpgradePhaseFinalize)));
      rewrite ?annotation_with.
  - rewrite !annotation_with. split; [done|]. by intros _.
  - rewrite !annotation_with. split; [|by intros [=]]. intros _ _. cbn. apply eligible_next in Hn.
    split; [by destruct Hn|right]. split; [auto|]. by eapply eligible_not_upgraded.
  - rewrite !annotation_with, Hph. split; [|by intros [=]]. intros _ _. cbn. apply eligible_next in Hn.
    split; [by destruct Hn|right]. split; [auto|]. apply eligible_not_upgraded in Hn.
    intros Hin. by apply Hn, elem_of_appendUnique.
  - by eapply (member_kept base (with_annotations base (phase_values base UpgradePhaseFinalize)));
      rewrite ?annotation_with.
  - rewrite !annotation_clear by by_deciding. split; [done|]. by intros [=].
Qed.
End upgrade_properties.

(** ** The retry delay *)
Lemma backoff_exact rounds delay :
  (0 < delay <= postUpgradeBackupRetryMax)%Z ->
  backoff rounds delay = Z.min postUpgradeBackupRetryMax (delay * 2 ^ Z.of_nat rounds).
Proof.
  unfold postUpgradeBackupRetryMax, minute, second.
  revert delay. induction rounds as [|n IH]; intros delay Hd; cbn [backoff].
  { change (Z.of_nat 0) with 0%Z. rewrite Z.pow_0_r. lia. }
  rewrite int64_id by (unfold is_int64, min_int64, max_int64; lia).
  rewrite Nat2Z.inj_succ, Z.pow_succ_r by lia.
  assert (0 < 2 ^ Z.of_nat n)%Z by (apply Z.pow_pos_nonneg; lia). unfold postUpgradeBackupRetryMax, minute, second.
  destruct (_ <=? _)%Z eqn:Hle; bool_to_prop; [nia|]. rewrite IH by lia. f_equal. lia.
Qed.

(** The delay before another attempt at the post-upgrade backup doubles with
    every attempt from one minute up to thirty minutes, and the jitter added to it
    is below one minute and never takes it above the maximum. *)
Theorem retry_delay_bounds operation attempt :
  let doubled := Z.min postUpgradeBackupRetryMax (postUpgradeBackupRetryBase * 2 ^ (Z.max 1 attempt - 1)) in
  (doubled <= postUpgradeBackupRetryDelay operation attempt
     <= Z.min postUpgradeBackupRetryMax (doubled + 59 * second))%Z /\
  (minute <= postUpgradeBackupRetryDelay operation attempt <= 30 * minute)%Z.
Proof.
  intros doubled. unfold postUpgradeBackupRetryDelay.
  replace (if (attempt <? 1)%Z then 1%Z else attempt) with (Z.max 1 attempt)
    by (destruct (attempt <? 1)%Z eqn:E; bool_to_prop; lia).
  rewrite backoff_exact by (unfold postUpgradeBackupRetryBase, postUpgradeBackupRetryMax, minute, second; lia).
  rewrite Z2Nat.id by lia. fold doubled.
  assert (Hd : (minute <= doubled <= 30 * minute)%Z).
  { unfold doubled, postUpgradeBackupRetryBase, postUpgradeBackupRetryMax, minute, second.
    assert (0 < 2 ^ (Z.max 1 attempt - 1))%Z by (apply Z.pow_pos_nonneg; lia). lia. }
  set (hash := fnv32a_write _ _). clearbody doubled hash.
  pose proof (Z.mod_pos_bound hash (postUpgradeBackupRetryBase `div` second) ltac:(reflexivity)) as Hj.
  change (postUpgradeBackupRetryBase `div` second)%Z with 60%Z in *. set (j := (hash `mod` 60)%Z) in *. clearbody j.
  unfold postUpgradeBackupRetryMax, minute, second in *.
  rewrite (int64_id (j * _)) by (unfold is_int64, min_int64, max_int64; lia).
  rewrite int64_id by (unfold is_int64, min_int64, max_int64; lia).
  destruct (_ <? _)%Z eqn:E; bool_to_prop; lia.
Qed.

Section upgrade_deletion.
Context {K : KubeLib} {TT : TimeText} {JM : Json (gmap string string)}.

(** C40: A rollback begun by a deletion never finishes. Once a deleted upgrade's
    instance is in the rollback phase, a reconcile reads the two objects, reports
    the progress in the upgrade's status under the phase it already has, and asks
    to run again, whatever the sites have applied: it neither moves the instance
    on to the next phase of the rollback nor releases it or the upgrade. *)
Theorem deletion_rollback_stuck namespace name upgrade instance :
  is_Some (meta_DeletionTimestamp (upg_Meta upgrade)) ->
  ContainsFinalizer (upg_Meta upgrade) operationFinalizer = true ->
  meta_Annotations (upg_Meta upgrade) !!! forceAbandonAnnotation <> "true" ->
  annotation instance upgradeUIDAnnotation = meta_UID (upg_Meta upgrade) ->
  annotation instance upgradePhaseAnnotation = MajorUpgradePhaseRollback ->
  ust_Phase (upg_Status upgrade) = "RollingBack" ->
  exists k, Reconcile namespace name = Call (Get KUpgrade namespace name) k /\
  exists k', k (Ok upgrade) = Call (Get KInstance (meta_Namespace (upg_Meta upgrade)) (us_InstanceRef (upg_Spec upgrade))) k' /\
  forall h, sat (fun _ r => match r with
                            | Now => True
                            | UpdateStatus KUpgrade o => ust_Phase (upg_Status o) = "RollingBack" /\ upg_Meta o = upg_Meta upgrade
                            | _ => False
                            end)
    (fun _ out => exists err, out = (mkResult restoreProgressRequeue, err)) h (k' (Ok instance)).
Proof.
  intros [d Hd] Hf Ha Huid Hp Hs. eexists. split; [reflexivity|]. cbn beta iota.
  eexists. split; [cbn [bind call]; rewrite Hd; unfold reconcileUpgradeDeletion; rewrite Hf; reflexivity|].
  intros h. cbn beta iota. rewrite bool_decide_eq_false_2 by done. unfold owns, upgrade_ended.
  rewrite Hs, (bool_decide_eq_true_2 _ Huid). cbn [negb orb].
  unfold delete_in_phase. rewrite Hp, Hs. cbn. split; [done|]. intros now. split; [done|].
  intros [o|e]; cbn; eauto.
Qed.
End upgrade_deletion.

(** ** A major upgrade, and a deletion in its rollback *)
Module RefUpgrade.
#[global] Instance json_map : Json (gmap string string) := RefCodec.json_of id.

Definition storage : SiteStorage := mkSiteStorage None (Some (mkStorageRequest "fast" 10%Z)) None.
Definition data_site : PostgresSiteSpec :=
  mkPostgresSiteSpec "a" "reg-a" "ns-a" SiteRoleData 0 (mkSiteComponents 1 2 1) storage None None
    (mkSiteCertificateSpec zero_IssuerReference zero_IssuerReference zero_IssuerReference
       zero_IssuerReference zero_IssuerReference zero_IssuerReference).
Definition registration : SiteRegistration :=
  zero_SiteRegistration <| reg_Meta := zero_ObjectMeta <| meta_Name := "reg-a" |> |>
    <| reg_Spec := mkSiteRegistrationSpec "" false zero_StorageClassPolicy
         [mkStorageRollbackPolicy "fast" "LogicalCopy" ""] zero_IssuerPolicy [] |>.
Definition ready : list Condition :=
  (fun t => mkCondition t ConditionTrue 1 "Ok" "") <$> ["Ready"; "BackupReady"; "TopologyReady"].
Definition instance : MultiSitePostgres :=
  mkMultiSitePostgres
    (zero_ObjectMeta <| meta_Namespace := "ns" |> <| meta_Name := "pg" |> <| meta_UID := "instance" |>)
    (zero_MultiSitePostgresSpec <| spec_Sites := [data_site] |> <| spec_Backup := Some zero_BackupSpec |>
       <| spec_Postgres ::= fun p => p <| pg_MajorVersion := 16%Z |> <| pg_Image := "pg@sha256:16" |> |>)
    (zero_MultiSitePostgresStatus <| st_Conditions := ready |> <| st_LastBackupTime := Some 0%Z |>
       <| st_Primary := "postgres-a-0" |> <| st_ActiveRevision := 1%Z |>
       <| st_Sites := [zero_SiteRevisionStatus <| srs_Name := "a" |> <| srs_AppliedRevision := 1%Z |>] |>).
Definition upgrade : PostgresUpgrade :=
  zero_PostgresUpgrade
    <| upg_Meta := zero_ObjectMeta <| meta_Namespace := "ns" |> <| meta_Name := "up" |> <| meta_UID := "upgrade" |>
         <| meta_Finalizers := [operationFinalizer] |> |>
    <| upg_Spec := mkPostgresUpgradeSpec "pg" "pg@sha256:17" 17 "tool@sha256:1" (10 * minute)%Z hour
         (Some (mkMajorUpgradeBenchmark 0%Z minute "tool@sha256:1" 16 17 false ["fast"] "report@sha256:2")) |>
    <| upg_Status := zero_PostgresUpgradeStatus <| ust_Conditions :=
         (fun t => mkCondition t ConditionTrue 1 "Verified" "") <$> ["FreshBackupReady"; "PostUpgradeBackupReady"] |> |>.
Definition start : MemServer.mem :=
  (MemServer.put (k:=KUpgrade) upgrade (MemServer.put (k:=KInstance) instance
    (MemServer.put (k:=KRegistration) registration
      (MemServer.mkMem (fun _ => []) (fun _ => []) 1 1000%Z)).2).2).2.

(** One reconcile, after which the sites apply the next revision. *)
Definition round (s : MemServer.mem) : MemServer.mem :=
  let s := (run MemServer.serve (Reconcile "ns" "up") s []).1.2 in
  match MemServer.find_obj (k:=KInstance) ("ns", "pg") (MemServer.objs s KInstance) with
  | None => s
  | Some i => (MemServer.put (k:=KInstance) (i <| msp_Status ::= fun st =>
      let revision := (st_ActiveRevision st + 1)%Z in
      st <| st_ActiveRevision := revision |>
         <| st_Sites := (fun site => site <| srs_AppliedRevision := revision |>) <$> st_Sites st |> |>) s).2
  end.

Definition state (s : MemServer.mem) : option (string * string * Z) * option string :=
  ((fun i => (annotation i upgradePhaseAnnotation, pg_Image (spec_Postgres (msp_Spec i)),
              pg_MajorVersion (spec_Postgres (msp_Spec i)))) <$>
     MemServer.find_obj (k:=KInstance) ("ns", "pg") (MemServer.objs s KInstance),
   (fun u => ust_Phase (upg_Status u)) <$> MemServer.find_obj (k:=KUpgrade) ("ns", "up") (MemServer.objs s KUpgrade)).

(** The upgrade deleted while it rolls back. *)
Definition deleted : PostgresUpgrade :=
  upgrade <| upg_Meta ::= fun m => m <| meta_DeletionTimestamp := Some 5%Z |> |>
    <| upg_Status ::= fun st => st <| ust_Phase := "RollingBack" |> |>.
Definition rolling_back_instance : MultiSitePostgres :=
  with_annotations instance (list_to_map [(upgradeUIDAnnotation, "upgrade");
    (upgradePhaseAnnotation, MajorUpgradePhaseRollback); (upgradeRevisionAnnotation, "1")]).
End RefUpgrade.

(** The first round takes the instance, the ninth restores write service, and the
    eleventh completes the upgrade on the new version. *)
Example major_upgrade_reaches_completion :
  RefUpgrade.state (Nat.iter 1 RefUpgrade.round RefUpgrade.start) =
    (Some (MajorUpgradePhasePreflight, "pg@sha256:16", 16%Z), Some "Preflight") /\
  RefUpgrade.state (Nat.iter 9 RefUpgrade.round RefUpgrade.start) =
    (Some (MajorUpgradePhaseRestoreWrites, "pg@sha256:16", 16%Z), Some "RestoringWrites") /\
  RefUpgrade.state (Nat.iter 11 RefUpgrade.round RefUpgrade.start) = (Some ("", "pg@sha256:17", 17%Z), Some "Completed").
Proof. vm_compute. auto. Qed.

Lemma deletion_rollback_stuck_witness :
  majorPhaseApplied RefUpgrade.rolling_back_instance = true /\
  exists k, Reconcile "ns" "up" = Call (Get KUpgrade "ns" "up") k /\
  exists k', k (Ok RefUpgrade.deleted) = Call (Get KInstance "ns" "pg") k'.
Proof.
  split; [vm_compute; reflexivity|].
  destruct (deletion_rollback_stuck "ns" "up" RefUpgrade.deleted RefUpgrade.rolling_back_instance)
    as (k & Hk & k' & Hk' & _).
  - exists 5%Z. reflexivity.
  - vm_compute. reflexivity.
  - vm_compute. discriminate.
  - vm_compute. reflexivity.
  - vm_compute. reflexivity.
  - reflexivity.
  - exists k. split; [exact Hk|]. exists k'. exact Hk'.
Defined.
