(* ===== verification/Instance.v ===== *)
(** * The instance reconciler

    [internal/controller/multisitepostgres_controller.go] and [plans.go]: the
    reconcile that validates an instance's sites, signs one plan per site and
    publishes the status, and the finalization that deletes an instance. *)

From S2P Require Import Prelude Prog Api Kube ApiServer Codec Plan Members Topology Status AddressPlan.
From S2P Require Import Rotation Backups Policy Restore Upgrade.

Definition signingKeySecretName : string := "mspsql-plan-signing-key".

(** The struct whose encoding is hashed in [planFingerprint]. *)
Record FingerprintInput := mkFingerprintInput {
  fp_Generation : Z;
  fp_Addresses : gmap string string;
  fp_AddressCandidates : gmap string string;
  fp_AddressMigration : option AddressMigrationPlan;
  fp_CredentialRotation : option CredentialRotationPlan;
  fp_RestoreUID : string;
  fp_RestorePhase : string;
  fp_UpgradeUID : string;
  fp_UpgradePhase : string;
  fp_UpgradeMember : string;
  fp_UpgradedMembers : string
}.

(** The major phases [upgradePlans] accepts. *)
Definition major_phases : list string :=
  [MajorUpgradePhasePreflight; MajorUpgradePhaseDrain; MajorUpgradePhaseStop; MajorUpgradePhaseSnapshot;
   MajorUpgradePhaseUpgradePrimary; MajorUpgradePhaseStanzaUpgrade; MajorUpgradePhaseStartPrimary;
   MajorUpgradePhaseRestoreWrites; MajorUpgradePhaseReplicas; MajorUpgradePhaseFinalize; MajorUpgradePhaseRollback;
   MajorUpgradePhaseRollbackStart; MajorUpgradePhaseRollbackRestoreWrites].

Definition instanceDeletionOperationUID (instance : MultiSitePostgres) : string :=
  meta_UID (msp_Meta instance) +:+ "-delete-" +:+ FormatInt (meta_Generation (msp_Meta instance)).

Definition instanceDeletionOperation (instance : MultiSitePostgres) (phase : string) : OperationProgressStatus :=
  zero_OperationProgressStatus <| op_OperationUID := instanceDeletionOperationUID instance |>
    <| op_Phase := phase |> <| op_Attempt := 1%Z |> <| op_Terminal := false |>.

Definition childForceOrphaned (meta : ObjectMeta) : bool :=
  negb (is_nil (meta_DeletionTimestamp meta)) && (meta_Annotations meta !!! forceOrphanAnnotation == "true").

(** [instance.Status.ActiveRevision++], never zero. *)
Definition advance_revision (instance : MultiSitePostgres) : MultiSitePostgres :=
  instance <| msp_Status ::= fun st => st <| st_ActiveRevision :=
    let revision := int64 (st_ActiveRevision st + 1) in if revision == 0%Z then 1%Z else revision |> |>.

Section plans.
Context {C : Crypto} {JE : Json Envelope}.

Definition signingKeyID (publicKey : string) : string :=
  hex_EncodeToString (String.substring 0 8 (sha256 publicKey)).

Definition envelopeData (value : Envelope) : result (gmap string string) :=
  match json_Marshal value with
  | Err e => Err e
  | Ok encoded => Ok {["envelope.json" := encoded]}
  end.

(** [None]: not returned within [fuel] rounds.  A round ends without a result
    only when the server reports that a secret it did not return exists. *)
Fixpoint ensureSigningKey (fuel : nat) (namespace : string) : kprog (option (result string)) :=
  match fuel with
  | O => Ret None
  | S fuel =>
      let* got := call (Get KSecret namespace signingKeySecretName) in
      match got with
      | Ok secret =>
          match Base64.DecodeString (sec_Data secret !!! "privateKey") with
          | Some privateKey =>
              if (String.length privateKey =? ed25519_PrivateKeySize)%nat then Ret (Some (Ok privateKey))
              else Ret (Some (Err (errors_New "plan signing Secret contains an invalid private key")))
          | None => Ret (Some (Err (errors_New "plan signing Secret contains an invalid private key")))
          end
      | Err e =>
          if negb (IsNotFound e) then Ret (Some (Err e))
          else
            let! seed := call (RandomBytes ed25519_SeedSize) onerr e => Ret (Some (Err e)) in
            let privateKey := ed25519_NewKeyFromSeed seed in
            let publicKey := ed25519_Public privateKey in
            let secret := mkSecret
              (zero_ObjectMeta <| meta_Namespace := namespace |> <| meta_Name := signingKeySecretName |>)
              (Some true)
              (list_to_map [("privateKey", Base64.EncodeToString privateKey);
                            ("publicKey", Base64.EncodeToString publicKey);
                            ("keyID", signingKeyID publicKey); ("revocationEpoch", "0")]) in
            let* x := call (Create KSecret secret) in
            match x with
            | Ok _ => Ret (Some (Ok privateKey))
            | Err e => if IsAlreadyExists e then ensureSigningKey fuel namespace else Ret (Some (Err e))
            end
      end
  end.
End plans.

Section instance.
Context {K : KubeLib} {C : Crypto} {Cr : CronLib} {TT : TimeText}.
Context {J : Json SitePlan} {JE : Json Envelope} {JF : Json FingerprintInput} {JM : Json (gmap string string)}.

(** The fields of the reconciler. *)
Context (SystemNamespace DefaultBackupSchedule : string) (recorder : bool).

Definition system_namespace : string := if SystemNamespace == "" then "mspsql-system" else SystemNamespace.

Definition lifecycleOperationActive (instance : MultiSitePostgres) : kprog (result bool) :=
  let namespace := meta_Namespace (msp_Meta instance) in
  let name := meta_Name (msp_Meta instance) in
  let! upgrades := call (List KUpgrade (Some namespace) ∅) onerr e => Ret (Err e) in
  if existsb (fun upgrade => (us_InstanceRef (upg_Spec upgrade) == name) &&
       is_nil (meta_DeletionTimestamp (upg_Meta upgrade)) && active_phase (ust_Phase (upg_Status upgrade))) upgrades
  then Ret (Ok true)
  else
    let! restores := call (List KRestore (Some namespace) ∅) onerr e => Ret (Err e) in
    Ret (Ok (existsb (fun restore => (rs_TargetInstanceRef (res_Spec restore) == name) &&
      is_nil (meta_DeletionTimestamp (res_Meta restore)) && active_phase (rst_Phase (res_Status restore))) restores)).

(** One declaration: not of this instance, reconciled, or pending. *)
Definition declaration_counts (instance : MultiSitePostgres) (meta : ObjectMeta) (ref : string) (observed : Z)
  (conditions : list Condition) : nat * nat :=
  if (ref != meta_Name (msp_Meta instance)) || negb (is_nil (meta_DeletionTimestamp meta)) then (0, 0)
  else if (observed != meta_Generation meta) || negb (conditionTrue conditions "Ready") then (1, 1) else (1, 0).

Definition aggregateDeclarationAndUpgradeStatus (instance : MultiSitePostgres) : kprog (result MultiSitePostgres) :=
  let namespace := Some (meta_Namespace (msp_Meta instance)) in
  let name := meta_Name (msp_Meta instance) in
  let! databases := call (List KDatabase namespace ∅) onerr e => Ret (Err e) in
  let! users := call (List KUser namespace ∅) onerr e => Ret (Err e) in
  let counts :=
    ((fun d : PostgresDatabase => declaration_counts instance (db_Meta d) (dbs_InstanceRef (db_Spec d))
        (dbst_ObservedGeneration (db_Status d)) (dbst_Conditions (db_Status d))) <$> databases) ++
    ((fun u : PostgresUser => declaration_counts instance (usr_Meta u) (usrs_InstanceRef (usr_Spec u))
        (usrst_ObservedGeneration (usr_Status u)) (usrst_Conditions (usr_Status u))) <$> users) in
  let declarations := FormatInt (Z.of_nat (sum_list (fst <$> counts))) in
  let pending := sum_list (snd <$> counts) in
  let instance :=
    if (0 <? pending)%nat then
      set_instance_condition instance "DatabasesReconciled" ConditionFalse "DeclarationsPending"
        ("Waiting for " +:+ FormatInt (Z.of_nat pending) +:+ " of " +:+ declarations +:+
         " database or user declarations")
    else
      set_instance_condition instance "DatabasesReconciled" ConditionTrue "AllDeclarationsReady"
        ("All " +:+ declarations +:+ " database and user declarations are reconciled") in
  let! upgrades := call (List KUpgrade namespace ∅) onerr e => Ret (Err e) in
  Ret (Ok (match List.find (fun upgrade => (us_InstanceRef (upg_Spec upgrade) == name) &&
             is_nil (meta_DeletionTimestamp (upg_Meta upgrade)) && active_phase (ust_Phase (upg_Status upgrade))) upgrades with
           | Some upgrade =>
               set_instance_condition instance "UpgradeInProgress" ConditionTrue "UpgradeActive"
                 ("Upgrade " +:+ meta_Name (upg_Meta upgrade) +:+ " is in phase " +:+ ust_Phase (upg_Status upgrade))
           | None =>
               set_instance_condition instance "UpgradeInProgress" ConditionFalse "NoUpgradeActive"
                 "No upgrade operation is active"
           end)).

(** ** Plans *)
Definition planEnvelopeEqual (currentJSON : string) (desired : Envelope) : bool :=
  match json_Unmarshal (T:=Envelope) currentJSON with
  | Err _ => false
  | Ok current =>
      match json_Unmarshal (T:=SitePlan) (env_Plan current), json_Unmarshal (T:=SitePlan) (env_Plan desired) with
      | Ok currentPlan, Ok desiredPlan =>
          match Canonical (currentPlan <| sp_GeneratedAt := zero_time |>),
                Canonical (desiredPlan <| sp_GeneratedAt := zero_time |>) with
          | Ok currentCanonical, Ok desiredCanonical => currentCanonical == desiredCanonical
          | _, _ => false
          end
      | _, _ => false
      end
  end.

Definition reconcilePlan (instance : MultiSitePostgres) (siteName siteUID : string) (envelope : Envelope) :
  kprog (option Error) :=
  let live := is_nil (meta_DeletionTimestamp (msp_Meta instance)) in
  let namespace := meta_Namespace (msp_Meta instance) in
  let name := plan_name (meta_Name (msp_Meta instance)) siteName in
  match envelopeData envelope with
  | Err e => Ret (Some e)
  | Ok data =>
      let* got := call (Get KConfigMap namespace name) in
      match got with
      | Err e =>
          if IsNotFound e then
            let meta := zero_ObjectMeta <| meta_Namespace := namespace |> <| meta_Name := name |>
              <| meta_Labels := list_to_map [
                   ("multisite-postgres.dev/instance-uid", meta_UID (msp_Meta instance));
                   ("multisite-postgres.dev/site-name", siteName);
                   ("multisite-postgres.dev/site-registration-uid", siteUID)] |> in
            match (if live then SetControllerReference (k:=KInstance) instance meta else Ok meta) with
            | Err e => Ret (Some e)
            | Ok meta =>
                let* x := call (Create KConfigMap (mkConfigMap meta data)) in
                Ret (match x with Ok _ => None | Err e => Some e end)
            end
          else Ret (Some e)
      | Ok configMap =>
          if planEnvelopeEqual (cm_Data configMap !!! "envelope.json") envelope then Ret None
          else
            let configMap := if live then configMap
              else configMap <| cm_Meta ::= fun m => m <| meta_OwnerReferences := [] |> |> in
            let* x := call (Update KConfigMap (configMap <| cm_Data := data |>)) in
            Ret (match x with Ok _ => None | Err e => Some e end)
      end
  end.

Definition planFingerprint (instance : MultiSitePostgres) (addresses candidates : gmap string string)
  (migration : option AddressMigrationPlan) (credentialRotation : option CredentialRotationPlan) : result string :=
  match json_Marshal (mkFingerprintInput (meta_Generation (msp_Meta instance)) addresses candidates migration
    credentialRotation (annotation instance restoreUIDAnnotation) (annotation instance restorePhaseAnnotation)
    (annotation instance upgradeUIDAnnotation) (annotation instance upgradePhaseAnnotation)
    (annotation instance upgradeMemberAnnotation) (annotation instance upgradeMembersAnnotation)) with
  | Err e => Err e
  | Ok payload => Ok (hex_EncodeToString (sha256 payload))
  end.

Definition restorePlan (instance : MultiSitePostgres) : kprog (result (option RestorePlan)) :=
  let namespace := meta_Namespace (msp_Meta instance) in
  let restoreName := annotation instance restoreNameAnnotation in
  let phase := annotation instance restorePhaseAnnotation in
  if (restoreName == "") || (phase == "Completed") then Ret (Ok None)
  else
    let! restore := call (Get KRestore namespace restoreName)
      onerr e => Ret (Err (wrap_error "read owning restore" e)) in
    let! source := call (Get KInstance namespace (rs_SourceInstanceRef (res_Spec restore)))
      onerr e => Ret (Err (wrap_error "read restore source" e)) in
    match spec_Backup (msp_Spec source) with
    | None => Ret (Err (errors_New "restore source has no backup repository"))
    | Some backup =>
        match selectRestoreSeed (spec_Sites (msp_Spec instance)) with
        | Err e => Ret (Err e)
        | Ok (seedSite, seedMember) =>
            if slices_Contains [RestorePhaseSeed; RestorePhaseReplicas; RestorePhaseVerify] phase then
              Ret (Ok (Some (mkRestorePlan (meta_UID (res_Meta restore)) (meta_UID (msp_Meta source)) backup
                (rs_TargetTime (res_Spec restore)) (rs_BackupSet (res_Spec restore)) seedSite seedMember phase)))
            else Ret (Err (errors_New ("unsupported restore phase " +:+ Quote phase)))
        end
    end.

(** The rollback policies of the data sites, by site name. *)
Fixpoint rollback_policies (sites : list PostgresSiteSpec) (policies : gmap string StorageRollbackPolicy) :
  kprog (result (gmap string StorageRollbackPolicy)) :=
  match sites with
  | [] => Ret (Ok policies)
  | site :: sites =>
      match ss_Postgres (site_Storage site) with
      | None => rollback_policies sites policies
      | Some storage =>
          if site_Role site != SiteRoleData then rollback_policies sites policies
          else
            let! registration := call (Get KRegistration "" (site_SiteRegistrationRef site))
              onerr e => Ret (Err (wrap_error ("read site " +:+ site_Name site +:+ " registration") e)) in
            match rollbackPolicy (regs_StorageRollbackPolicies (reg_Spec registration)) (sr_StorageClassName storage) with
            | None => Ret (Err (errors_New ("site " +:+ site_Name site +:+ " rollback policy is unavailable")))
            | Some policy => rollback_policies sites (<[site_Name site := policy]> policies)
            end
      end
  end.

Definition upgradePlans (instance : MultiSitePostgres) :
  kprog (result (option UpgradePlan * option MajorUpgradePlan)) :=
  let upgradeName := annotation instance upgradeNameAnnotation in
  let phase := annotation instance upgradePhaseAnnotation in
  if upgradeName == "" then Ret (Ok (None, None))
  else
    let! upgrade := call (Get KUpgrade (meta_Namespace (msp_Meta instance)) upgradeName)
      onerr e => Ret (Err (wrap_error "read owning upgrade" e)) in
    let spec := upg_Spec upgrade in
    if HasPrefix phase "Major" then
      if negb (slices_Contains major_phases phase) then
        Ret (Err (errors_New ("unsupported major-upgrade phase " +:+ Quote phase)))
      else
        let! policies := rollback_policies (spec_Sites (msp_Spec instance)) ∅ onerr e => Ret (Err e) in
        match ParseInt 32 (annotation instance upgradeSourceMajorAnnotation) with
        | None => Ret (Err (errors_New "major upgrade source version is invalid"))
        | Some sourceMajor =>
            Ret (Ok (None, Some (mkMajorUpgradePlan (meta_UID (upg_Meta upgrade)) phase
              (annotation instance upgradeFromAnnotation) sourceMajor (us_TargetMajorVersion spec)
              (us_TargetImage spec) (us_UpgradeImage spec) (us_RollbackRetention spec) policies)))
        end
    else if negb (slices_Contains [UpgradePhaseMember; UpgradePhaseSwitchover; UpgradePhaseFinalize] phase) then
      Ret (Err (errors_New ("unsupported minor-upgrade phase " +:+ Quote phase)))
    else
      Ret (Ok (Some (mkUpgradePlan (meta_UID (upg_Meta upgrade)) (us_TargetImage spec)
        (annotation instance upgradeMemberAnnotation) (splitMembers (annotation instance upgradeMembersAnnotation))
        (annotation instance upgradeFromAnnotation) (annotation instance upgradeCandidateAnnotation) phase), None)).

(** ** Reconciliation *)

(** [return ctrl.Result{}, r.updateInstanceStatus(ctx, &instance)] *)
Definition publish (instance : MultiSitePostgres) : kprog (option Outcome) :=
  let* err := updateInstanceStatus recorder instance in Ret (Some (Done, err)).

Definition not_ready_in (instance : MultiSitePostgres) (phase reason message : string) : MultiSitePostgres :=
  set_phase (set_instance_condition instance "Ready" ConditionFalse reason message) phase.

(** What the loop over the sites finds: the registrations by site name, and the
    numbers of disconnected data sites and of other disconnected sites. *)
Record SiteCheck := mkSiteCheck {
  registrations : gmap string SiteRegistration;
  disconnectedDataSites : nat;
  disconnectedControlSites : nat
}.

(** The loop itself; [inl] is the instance to publish when a site is missing or
    rejected. *)
Fixpoint check_sites (instance : MultiSitePostgres) (sites : list PostgresSiteSpec) (found : SiteCheck) :
  kprog (MultiSitePostgres + SiteCheck) :=
  match sites with
  | [] => Ret (inr found)
  | site :: sites =>
      let! registration := call (Get KRegistration "" (site_SiteRegistrationRef site)) onerr e =>
        (let i := set_instance_condition instance "SitesRegistered" ConditionFalse "SiteNotFound" (err_text e) in
         let i := set_instance_condition i "StorageValidated" ConditionFalse "SiteUnavailable"
           "Site policy cannot be validated" in
         let i := set_instance_condition i "AgentsConnected" ConditionFalse "SiteUnavailable"
           "A referenced site is unavailable" in
         Ret (inl (not_ready_in i "ValidatingSites" "SiteNotFound" (err_text e)))) in
      match validateSitePolicy site registration with
      | Some problem =>
          let message := site_Name site +:+ ": " +:+ problem in
          let i := set_instance_condition instance "SitesRegistered" ConditionFalse "SiteValidationIncomplete"
            "A referenced site does not satisfy the instance policy" in
          let i := set_instance_condition i "StorageValidated" ConditionFalse "SitePolicyRejected" message in
          Ret (inl (not_ready_in i "ValidatingSites" "SitePolicyRejected" message))
      | None =>
          let connected := regst_Phase (reg_Status registration) == "Connected" in
          let data := site_Role site == SiteRoleData in
          check_sites instance sites (mkSiteCheck
            (<[site_Name site := registration]> (registrations found))
            (disconnectedDataSites found + if negb connected && data then 1 else 0)
            (disconnectedControlSites found + if negb connected && negb data then 1 else 0))
      end
  end.

(** The operations a plan carries. *)
Record Operations := mkOperations {
  opRestore : option RestorePlan;
  opUpgrade : option UpgradePlan;
  opMajorUpgrade : option MajorUpgradePlan
}.

(** The plan for one site. *)
Definition desired_plan (instance : MultiSitePostgres) (site : PostgresSiteSpec) (registration : SiteRegistration)
  (generatedAt : Time) (addresses : AddressDecision) (rotation : option CredentialRotationPlan) (ops : Operations) :
  SitePlan :=
  let '(memberAddresses, addressCandidates, addressMigration) := addresses in
  zero_SitePlan
    <| sp_SiteUID := meta_UID (reg_Meta registration) |>
    <| sp_InstanceUID := meta_UID (msp_Meta instance) |>
    <| sp_HubNamespace := meta_Namespace (msp_Meta instance) |>
    <| sp_HubName := meta_Name (msp_Meta instance) |>
    <| sp_Revision := st_ActiveRevision (msp_Status instance) |>
    <| sp_GeneratedAt := generatedAt |>
    <| sp_Site := site |>
    <| sp_Postgres := spec_Postgres (msp_Spec instance) |>
    <| sp_TDE := spec_TDE (msp_Spec instance) |>
    <| sp_TDEKeyCreator := site_Name site ==
         tdeKeyCreatorName (tde_Enabled (spec_TDE (msp_Spec instance))) (spec_Sites (msp_Spec instance)) |>
    <| sp_Backup := spec_Backup (msp_Spec instance) |>
    <| sp_Credentials := spec_Credentials (msp_Spec instance) |>
    <| sp_MemberAddresses := memberAddresses |>
    <| sp_AddressCandidates := addressCandidates |>
    <| sp_AddressMigration := addressMigration |>
    <| sp_CredentialRotation := rotation |>
    <| sp_RequiredCapabilities := requiredPlanCapabilities (opMajorUpgrade ops) |>
    <| sp_Restore := opRestore ops |>
    <| sp_Upgrade := opUpgrade ops |>
    <| sp_MajorUpgrade := opMajorUpgrade ops |>.

(** The status of a site once its plan is issued. *)
Definition issued_status (instance : MultiSitePostgres) (site : PostgresSiteSpec) : SiteRevisionStatus :=
  let status := (previousSiteStatus (st_Sites (msp_Status instance)) (site_Name site))
    <| srs_Name := site_Name site |> <| srs_SiteRegistrationRef := site_SiteRegistrationRef site |>
    <| srs_DesiredRevision := st_ActiveRevision (msp_Status instance) |> in
  if srs_Phase status == "" then status <| srs_Phase := "PlanIssued" |> else status.

(** The loop that signs and writes one plan per site. *)
Fixpoint issue_plans (instance : MultiSitePostgres) (privateKey : string) (regs : gmap string SiteRegistration)
  (addresses : AddressDecision) (rotation : option CredentialRotationPlan) (ops : Operations)
  (sites : list PostgresSiteSpec) : kprog (option Error) :=
  match sites with
  | [] => Ret None
  | site :: sites =>
      let registration := default zero_SiteRegistration (regs !! site_Name site) in
      let* now := call Now in
      match Sign privateKey (desired_plan instance site registration now addresses rotation ops) with
      | Err e => Ret (Some e)
      | Ok envelope =>
          let* err := reconcilePlan instance (site_Name site) (meta_UID (reg_Meta registration)) envelope in
          match err with
          | Some e => Ret (Some e)
          | None => issue_plans instance privateKey regs addresses rotation ops sites
          end
      end
  end.

(** Everything after the plans are issued: the status, and the backups. *)
Definition publish_revision (instance : MultiSitePostgres) (ops : Operations) : kprog (option Outcome) :=
  let instance := instance <| msp_Status ::= fun st =>
    st <| st_Sites := issued_status instance <$> spec_Sites (msp_Spec instance) |> |> in
  let* now := call Now in
  let instance := aggregateTopology instance now in
  let instance := instance <| msp_Status ::= fun st =>
    st <| st_ObservedGeneration := meta_Generation (msp_Meta instance) |> <| st_Phase := "Reconciling" |> |> in
  let instance := set_instance_condition instance "Ready" ConditionFalse "PlansIssued"
    "Waiting for all sites to apply the active revision" in
  let instance :=
    if allSitesApplied (st_Sites (msp_Status instance)) (st_ActiveRevision (msp_Status instance))
    then setAppliedInstanceReady instance (opRestore ops) (opMajorUpgrade ops) else instance in
  let! operationActive := lifecycleOperationActive instance onerr e => Ret (Some (Done, Some e)) in
  let* now := call Now in
  let* scheduled := reconcileBackupSchedules DefaultBackupSchedule instance now
    (backupSchedulingReady instance (opRestore ops) (opUpgrade ops) (opMajorUpgrade ops) operationActive) in
  match scheduled with
  | None => Ret None
  | Some (Err e) =>
      publish (set_instance_condition instance "BackupReady" ConditionFalse "ScheduleInvalid" (err_text e))
  | Some (Ok (instance, backupRequeue)) =>
      let* err := updateInstanceStatus recorder instance in
      match err with
      | Some e => Ret (Some (Done, Some e))
      | None => Ret (Some (mkResult backupRequeue, None))
      end
  end.

(** The plan of the revision: the operations, the addresses and the credentials,
    then the signing key and the plans. *)
Definition plan_revision (fuel : nat) (instance : MultiSitePostgres) (found : SiteCheck) (ops : Operations) :
  kprog (option Outcome) :=
  let! addresses := addressPlan instance onerr e => Ret (Some (Done, Some e)) in
  let! rotation := credentialRotationPlan instance addresses.2 (opRestore ops) (opUpgrade ops) (opMajorUpgrade ops)
    onerr e => Ret (Some (Done, Some e)) in
  match planFingerprint instance addresses.1.1 addresses.1.2 addresses.2 rotation with
  | Err e => Ret (Some (Done, Some e))
  | Ok fingerprint =>
      let instance :=
        if st_PlanFingerprint (msp_Status instance) != fingerprint then
          (advance_revision instance) <| msp_Status ::= fun st => st <| st_PlanFingerprint := fingerprint |> |>
        else instance in
      let* key := ensureSigningKey fuel system_namespace in
      match key with
      | None => Ret None
      | Some (Err e) => Ret (Some (Done, Some e))
      | Some (Ok privateKey) =>
          let* err := issue_plans instance privateKey (registrations found) addresses rotation ops
            (spec_Sites (msp_Spec instance)) in
          match err with
          | Some e => Ret (Some (Done, Some e))
          | None => publish_revision instance ops
          end
      end
  end.

(** The restore and upgrade the instance takes part in, and whether its sites can
    carry them out. *)
Definition plan_operations (fuel : nat) (instance : MultiSitePostgres) (found : SiteCheck) : kprog (option Outcome) :=
  let! restore := restorePlan instance
    onerr e => publish (not_ready_in instance "Restoring" "RestoreContractInvalid" (err_text e)) in
  let! upgrades := upgradePlans instance
    onerr e => publish (not_ready_in instance "Upgrading" "UpgradeContractInvalid" (err_text e)) in
  let ops := mkOperations restore upgrades.1 upgrades.2 in
  if (0 <? disconnectedControlSites found)%nat && topologyChangingOperationPending restore upgrades.1 upgrades.2 then
    let instance := set_instance_condition instance "TopologyAuthoritative" ConditionFalse "ControlPlaneDegraded"
      "Topology-changing restore and upgrade plans require every observer site to be connected" in
    publish (not_ready_in instance "Blocked" "ControlPlaneDegraded"
      "Topology-changing operation is blocked until disconnected observer sites recover")
  else
    match missingPlanCapabilities instance (registrations found) upgrades.2 with
    | [] => plan_revision fuel instance found ops
    | missing =>
        publish (not_ready_in instance "Blocked" "AgentCapabilityMissing"
          ("Plan requires newer site-agent capabilities: " +:+ Join missing ", "))
    end.

(** The conditions on the agents' connections. *)
Definition report_control_sites (instance : MultiSitePostgres) (disconnected : nat) : MultiSitePostgres :=
  if (0 <? disconnected)%nat then
    set_instance_condition
      (set_instance_condition instance "AgentsConnected" ConditionFalse "ControlPlaneDegraded"
         "One or more non-data site agents are disconnected; topology-changing operations remain guarded")
      "ControlPlaneDegraded" ConditionTrue "WitnessDisconnected"
      "Safe data-site reconciliation can continue while a witness/control-only site is disconnected"
  else
    set_instance_condition
      (set_instance_condition instance "AgentsConnected" ConditionTrue "AllAgentsConnected"
         "All site agents are connected")
      "ControlPlaneDegraded" ConditionFalse "AllAgentsConnected" "All site agents are connected".

Definition reconcile_live (fuel : nat) (instance : MultiSitePostgres) : kprog (option Outcome) :=
  let instance := instance <| msp_Status ::= fun st =>
    st <| st_ObservedGeneration := meta_Generation (msp_Meta instance) |> |> in
  let! instance := aggregateDeclarationAndUpgradeStatus instance onerr e => Ret (Some (Done, Some e)) in
  let* checked := check_sites instance (spec_Sites (msp_Spec instance)) (mkSiteCheck ∅ 0 0) in
  match checked with
  | inl rejected => publish rejected
  | inr found =>
      let instance := set_instance_condition instance "SitesRegistered" ConditionTrue "AllSitesRegistered"
        "All referenced sites are registered" in
      let instance := set_instance_condition instance "StorageValidated" ConditionTrue "SitePolicyAccepted"
        "StorageClasses, issuers and address pools are permitted" in
      let* claims := validateInstanceClaims instance in
      match claims with
      | Some e => publish (not_ready_in instance "ValidatingSites" "InstanceIsolationConflict" (err_text e))
      | None =>
          if (0 <? disconnectedDataSites found)%nat then
            let instance := set_instance_condition instance "AgentsConnected" ConditionFalse "AgentDisconnected"
              "One or more site agents are disconnected" in
            let instance := instance <| msp_Status ::= fun st =>
              st <| st_Primary := "" |> <| st_SynchronousStandbys := [] |> |> in
            let instance := set_instance_condition instance "TopologyReady" ConditionFalse "AgentDisconnected"
              "Topology requires every data-site observer" in
            publish (not_ready_in instance "Pending" "AgentDisconnected" "One or more site agents are disconnected")
          else plan_operations fuel (report_control_sites instance (disconnectedControlSites found)) found
      end
  end.

(** ** Finalization *)
Fixpoint delete_all (configMaps : list ConfigMap) : kprog (option Error) :=
  match configMaps with
  | [] => Ret None
  | configMap :: configMaps =>
      let* x := call (Delete KConfigMap configMap) in
      match x with
      | Err e => if IsNotFound e then delete_all configMaps else Ret (Some e)
      | Ok _ => delete_all configMaps
      end
  end.

Definition deletePlanConfigMaps (instance : MultiSitePostgres) : kprog (option Error) :=
  let! plans := call (List KConfigMap (Some (meta_Namespace (msp_Meta instance)))
    {["multisite-postgres.dev/instance-uid" := meta_UID (msp_Meta instance)]}) onerr e => Ret (Some e) in
  delete_all plans.

Definition referencingDeclarations (instance : MultiSitePostgres) : kprog (result (list string)) :=
  let namespace := Some (meta_Namespace (msp_Meta instance)) in
  let name := meta_Name (msp_Meta instance) in
  let! databases := call (List KDatabase namespace ∅) onerr e => Ret (Err e) in
  let! users := call (List KUser namespace ∅) onerr e => Ret (Err e) in
  Ret (Ok (SortStrings (
    ((fun d : PostgresDatabase => "PostgresDatabase/" +:+ meta_Name (db_Meta d)) <$>
       List.filter (fun d => (dbs_InstanceRef (db_Spec d) == name) && negb (childForceOrphaned (db_Meta d))) databases) ++
    ((fun u : PostgresUser => "PostgresUser/" +:+ meta_Name (usr_Meta u)) <$>
       List.filter (fun u => (usrs_InstanceRef (usr_Spec u) == name) && negb (childForceOrphaned (usr_Meta u))) users)))).

Definition set_deletion_operation (instance : MultiSitePostgres) (op : OperationProgressStatus) : MultiSitePostgres :=
  instance <| msp_Status ::= fun st => st <| st_Phase := "Deleting" |> <| st_Operation := Some op |> |>.

(** The loop that signs and writes one deletion plan per site. *)
Fixpoint issue_deletions (instance : MultiSitePostgres) (privateKey policy : string)
  (memberAddresses : gmap string string) (sites : list PostgresSiteSpec) (statuses : list SiteRevisionStatus) :
  kprog (result (list SiteRevisionStatus)) :=
  match sites with
  | [] => Ret (Ok statuses)
  | site :: sites =>
      let! registration := call (Get KRegistration "" (site_SiteRegistrationRef site)) onerr e => Ret (Err e) in
      let* now := call Now in
      let desired := zero_SitePlan
        <| sp_SiteUID := meta_UID (reg_Meta registration) |> <| sp_InstanceUID := meta_UID (msp_Meta instance) |>
        <| sp_HubNamespace := meta_Namespace (msp_Meta instance) |> <| sp_HubName := meta_Name (msp_Meta instance) |>
        <| sp_Revision := st_ActiveRevision (msp_Status instance) |> <| sp_GeneratedAt := now |> <| sp_Site := site |>
        <| sp_Postgres := spec_Postgres (msp_Spec instance) |> <| sp_TDE := spec_TDE (msp_Spec instance) |>
        <| sp_Backup := spec_Backup (msp_Spec instance) |> <| sp_Credentials := spec_Credentials (msp_Spec instance) |>
        <| sp_MemberAddresses := memberAddresses |> <| sp_Deletion := Some (mkDeletionPlan policy) |> in
      match Sign privateKey desired with
      | Err e => Ret (Err e)
      | Ok envelope =>
          let* err := reconcilePlan instance (site_Name site) (meta_UID (reg_Meta registration)) envelope in
          match err with
          | Some e => Ret (Err e)
          | None =>
              let status := (previousSiteStatus (st_Sites (msp_Status instance)) (site_Name site))
                <| srs_Name := site_Name site |> <| srs_SiteRegistrationRef := site_SiteRegistrationRef site |>
                <| srs_DesiredRevision := st_ActiveRevision (msp_Status instance) |>
                <| srs_Phase := "DeletionPlanIssued" |> in
              issue_deletions instance privateKey policy memberAddresses sites (statuses ++ [status])
          end
      end
  end.

Definition issueDeletionPlans (fuel : nat) (instance : MultiSitePostgres) : kprog (option (option Error)) :=
  let* key := ensureSigningKey fuel system_namespace in
  match key with
  | None => Ret None
  | Some (Err e) => Ret (Some (Some e))
  | Some (Ok privateKey) =>
      let policy := if spec_DeletionPolicy (msp_Spec instance) == "" then DeletionPolicyRetain
                    else spec_DeletionPolicy (msp_Spec instance) in
      let instance := advance_revision instance in
      let* issued := issue_deletions instance privateKey policy (observed_addresses instance)
        (spec_Sites (msp_Spec instance)) [] in
      match issued with
      | Err e => Ret (Some (Some e))
      | Ok statuses =>
          let instance := instance <| msp_Status ::= fun st =>
            st <| st_Sites := statuses |> <| st_PlanFingerprint := "deleting" |> |> in
          let instance := set_deletion_operation instance (instanceDeletionOperation instance "AwaitingSites") in
          let* err := updateInstanceStatus recorder (set_instance_condition instance "DeletionBlocked" ConditionTrue
            "AwaitingSites" "Waiting for all sites to acknowledge remote cleanup") in
          Ret (Some err)
      end
  end.

(** Delete the plans and let the instance go. *)
Definition release_instance (instance : MultiSitePostgres) : kprog (option Outcome) :=
  let* err := deletePlanConfigMaps instance in
  match err with
  | Some e => Ret (Some (Done, Some e))
  | None =>
      let* x := call (Update KInstance
        (instance <| msp_Meta := RemoveFinalizer (msp_Meta instance) instanceFinalizer |>)) in
      Ret (Some (finish x))
  end.

Definition deletion_blocked (instance : MultiSitePostgres) (reason lastError message : string) : kprog (option Outcome) :=
  let op := (instanceDeletionOperation instance "DeletionBlocked")
    <| op_LastErrorReason := reason |> <| op_LastErrorMessage := lastError |> in
  publish (set_instance_condition (set_deletion_operation instance op) "DeletionBlocked" ConditionTrue reason message).

Definition finalize (fuel : nat) (instance : MultiSitePostgres) : kprog (option Outcome) :=
  if negb (ContainsFinalizer (msp_Meta instance) instanceFinalizer) then Ret (Some (Done, None))
  else if annotation instance forceOrphanAnnotation == "true" then release_instance instance
  else
    let! children := referencingDeclarations instance onerr e => Ret (Some (Done, Some e)) in
    if negb (is_nil (head children)) then
      deletion_blocked instance "ChildDeclarationsPresent" "Child declarations still reference the instance"
        ("Delete or force-orphan child declarations before deleting the parent: " +:+ Join children ", ")
    else if st_PlanFingerprint (msp_Status instance) != "deleting" then
      if (spec_DeletionPolicy (msp_Spec instance) == DeletionPolicyDelete) &&
         negb (conditionTrue (st_Conditions (msp_Status instance)) "BackupReady") then
        deletion_blocked instance "BackupNotVerified" "Delete policy requires a verified backup"
          "Delete policy requires a verified backup before remote cleanup begins"
      else
        let* issued := issueDeletionPlans fuel instance in
        match issued with
        | None => Ret None
        | Some err => Ret (Some (Done, err))
        end
    else
      match srs_Name <$> List.filter (fun site => srs_Phase site != "Deleted") (st_Sites (msp_Status instance)) with
      | [] => release_instance instance
      | waiting =>
          let instance := set_deletion_operation instance (instanceDeletionOperation instance "AwaitingSites") in
          publish (set_instance_condition instance "DeletionBlocked" ConditionTrue "AwaitingSites"
            ("Waiting for deletion acknowledgement from: " +:+ Join waiting ", "))
      end.

(** [None]: does not return, see [ensureSigningKey] and the schedules. *)
Definition Reconcile (fuel : nat) (namespace name : string) : kprog (option Outcome) :=
  let! instance := call (Get KInstance namespace name) onerr e => Ret (Some (Done, IgnoreNotFound e)) in
  match meta_DeletionTimestamp (msp_Meta instance) with
  | Some _ => finalize fuel instance
  | None =>
      if negb (ContainsFinalizer (msp_Meta instance) instanceFinalizer) then
        let* x := call (Update KInstance
          (instance <| msp_Meta := AddFinalizer (msp_Meta instance) instanceFinalizer |>)) in
        Ret (Some (finish x))
      else reconcile_live fuel instance
  end.
End instance.
