(* ===== verification/InstanceProps.v ===== *)
(** * What the instance reconciler guarantees

    The requests of [Instance.Reconcile], whatever the server answers: when a
    plan is issued, for whom and after which checks, and when an instance is let
    go. *)

From S2P Require Import Prelude Prog Api Kube ApiServer Codec Plan Members Topology Status AddressPlan.
From S2P Require Import Rotation Backups Policy Restore Upgrade Instance Cache.

Section instance_properties.
Context {K : KubeLib} {KL : KubeLaws K} {C : Crypto} {Cr : CronLib} {TT : TimeText}.
Context {J : Json SitePlan} {JE : Json Envelope} {JF : Json FingerprintInput} {JM : Json (gmap string string)}.
Context (SystemNamespace DefaultBackupSchedule : string) (recorder : bool).

(** The registration a site refers to, as read in this reconcile. *)
Definition site_read (h : khistory) (site : PostgresSiteSpec) (registration : SiteRegistration) : Prop :=
  existT (Get KRegistration "" (site_SiteRegistrationRef site)) (Ok registration) ∈ h.

Definition connected (registration : SiteRegistration) : Prop :=
  regst_Phase (reg_Status registration) = "Connected".

(** Every site of the instance satisfies its registration's policy, and every
    data site is connected. *)
Definition sites_accepted (h : khistory) (instance : MultiSitePostgres) : Prop :=
  forall site, site ∈ spec_Sites (msp_Spec instance) ->
  exists registration, site_read h site registration /\ validateSitePolicy site registration = None /\
    (site_Role site = SiteRoleData -> connected registration).

Definition all_connected (h : khistory) (instance : MultiSitePostgres) : Prop :=
  forall site, site ∈ spec_Sites (msp_Spec instance) ->
  exists registration, site_read h site registration /\ connected registration.

(** The plan is for a site of the instance, under the UID of the registration
    of that site's name. *)
Definition plan_identity (h : khistory) (instance : MultiSitePostgres) (plan : SitePlan) : Prop :=
  sp_InstanceUID plan = meta_UID (msp_Meta instance) /\
  sp_Site plan ∈ spec_Sites (msp_Spec instance) /\
  (exists site registration, site ∈ spec_Sites (msp_Spec instance) /\
     site_Name site = site_Name (sp_Site plan) /\ site_read h site registration /\
     sp_SiteUID plan = meta_UID (reg_Meta registration)) /\
  (sp_Revision plan = st_ActiveRevision (msp_Status instance) \/
   sp_Revision plan = st_ActiveRevision (msp_Status (advance_revision instance))).

Definition live_plan (h : khistory) (instance : MultiSitePostgres) (plan : SitePlan) : Prop :=
  meta_DeletionTimestamp (msp_Meta instance) = None /\ sp_Deletion plan = None /\
  sites_accepted h instance /\
  (exists instances, existT (List KInstance None ∅) (Ok instances) ∈ h /\ claims_conflict instance instances = None) /\
  (is_Some (sp_Restore plan) \/ is_Some (sp_Upgrade plan) \/ is_Some (sp_MajorUpgrade plan) -> all_connected h instance).

(** No declaration refers to the instance. *)
Definition no_children (h : khistory) (instance : MultiSitePostgres) : Prop :=
  exists databases users,
    existT (List KDatabase (Some (meta_Namespace (msp_Meta instance))) ∅) (Ok databases) ∈ h /\
    existT (List KUser (Some (meta_Namespace (msp_Meta instance))) ∅) (Ok users) ∈ h /\
    (forall d, d ∈ databases -> dbs_InstanceRef (db_Spec d) = meta_Name (msp_Meta instance) ->
       childForceOrphaned (db_Meta d) = true) /\
    (forall u, u ∈ users -> usrs_InstanceRef (usr_Spec u) = meta_Name (msp_Meta instance) ->
       childForceOrphaned (usr_Meta u) = true).

Definition deletion_plan (h : khistory) (instance : MultiSitePostgres) (plan : SitePlan) : Prop :=
  deleting (msp_Meta instance) /\ no_children h instance /\
  exists policy, sp_Deletion plan = Some (mkDeletionPlan policy) /\
    (policy = DeletionPolicyDelete -> conditionTrue (st_Conditions (msp_Status instance)) "BackupReady" = true).

(** The text is a plan signed for a site of an instance that was read. *)
Definition plan_issued (h : khistory) (text : string) : Prop :=
  exists instance privateKey plan envelope, was_read (k:=KInstance) h instance /\
    Sign privateKey plan = Ok envelope /\ json_Marshal envelope = Ok text /\
    plan_identity h instance plan /\ (live_plan h instance plan \/ deletion_plan h instance plan).

(** The instance may be let go. *)
Definition releasable (h : khistory) (instance : MultiSitePostgres) : Prop :=
  deleting (msp_Meta instance) /\
  (annotation instance forceOrphanAnnotation = "true" \/
   no_children h instance /\ st_PlanFingerprint (msp_Status instance) = "deleting" /\
   forall site, site ∈ st_Sites (msp_Status instance) -> srs_Phase site = "Deleted") /\
  exists plans, existT (List KConfigMap (Some (meta_Namespace (msp_Meta instance)))
      {["multisite-postgres.dev/instance-uid" := meta_UID (msp_Meta instance)]}) (Ok plans) ∈ h /\
    forall cm, cm ∈ plans -> exists x, existT (Delete KConfigMap cm) x ∈ h /\
      match x with Ok _ => True | Err e => IsNotFound e = true end.

Definition instance_request (h : khistory) (r : Req) : Prop :=
  match r with
  | Get _ _ _ | List _ _ _ | Now | RandomBytes _ | Eventf _ _ _ _ _ _ | UpdateStatus KInstance _ | Create KSecret _ => True
  | Create KConfigMap cm | Update KConfigMap cm =>
      forall text, cm_Data cm !! "envelope.json" = Some text -> plan_issued h text
  | Delete KConfigMap _ => exists instance, was_read (k:=KInstance) h instance /\ deleting (msp_Meta instance)
  | Update KInstance o => exists instance, was_read (k:=KInstance) h instance /\
      (o = instance <| msp_Meta := AddFinalizer (msp_Meta instance) instanceFinalizer |> \/
       o = instance <| msp_Meta := RemoveFinalizer (msp_Meta instance) instanceFinalizer |> /\ releasable h instance)
  | _ => False
  end.

(** ** Evidence is kept *)
Lemma sites_accepted_extends h h' instance : extends h h' -> sites_accepted h instance -> sites_accepted h' instance.
Proof. intros He H site Hs. destruct (H site Hs) as (r & Hr & ? & ?). exists r. split_and!; auto. by apply He. Qed.

(** ** Status writes *)
Lemma updateInstanceStatus_sat rec instance h :
  sat instance_request done_ h (updateInstanceStatus rec instance).
Proof.
  eapply sat_mono; [| |apply updateInstanceStatus_writes]; [|done].
  intros h' r Hr. by destruct r as [| | | |[] o| | | |[] | | | | |].
Qed.

Lemma publish_sat instance h : sat instance_request done_ h (publish recorder instance).
Proof. unfold publish. sat_step. by eapply sat_mono; [| |apply updateInstanceStatus_sat]. Qed.

(** The instance in memory differs from the one read in its conditions and the
    like only. *)
Definition same_instance (i instance : MultiSitePostgres) : Prop :=
  msp_Meta i = msp_Meta instance /\ msp_Spec i = msp_Spec instance /\
  st_ActiveRevision (msp_Status i) = st_ActiveRevision (msp_Status instance).

(** ** The checks of the sites *)
Definition found_in (h : khistory) (sites : list PostgresSiteSpec) (found : SiteCheck) : Prop :=
  forall name registration, registrations found !! name = Some registration ->
  exists site, site ∈ sites /\ site_Name site = name /\ site_read h site registration.

Lemma check_sites_sat instance sites found all h :
  found_in h all found -> sites ⊆ all ->
  sat instance_request (fun h' x => forall found', x = inr found' ->
    found_in h' all found' /\
    (forall name, is_Some (registrations found !! name) -> is_Some (registrations found' !! name)) /\
    (disconnectedDataSites found <= disconnectedDataSites found')%nat /\
    (disconnectedControlSites found <= disconnectedControlSites found')%nat /\
    forall site, site ∈ sites -> is_Some (registrations found' !! site_Name site) /\
      exists registration, site_read h' site registration /\ validateSitePolicy site registration = None /\
      (connected registration \/
       (site_Role site = SiteRoleData /\ 0 < disconnectedDataSites found')%nat \/
       (site_Role site <> SiteRoleData /\ 0 < disconnectedControlSites found')%nat)) h
    (check_sites instance sites found).
Proof.
  revert found h. induction sites as [|site sites IH]; intros found h Hf Hsub; cbn [check_sites].
  { intros f' [= <-]. split_and!; auto. by intros s ?%elem_of_nil. }
  sat_step. sat_step; [done|]. destruct x as [registration|e]; [|done].
  destruct (validateSitePolicy site registration) eqn:Hv; [done|].
  match goal with |- sat _ _ ?h1 _ => set (h' := h1) end.
  assert (Hread : site_read h' site registration) by (apply elem_of_cons; by left).
  eapply sat_mono; [done| |apply sat_extends, IH].
  - intros h2 x [H Hext] found' ->. destruct (H found' eq_refl) as (Hf' & Hreg & Hd & Hc & Hall).
    cbn [registrations disconnectedDataSites disconnectedControlSites] in *. split_and!; [done| |lia|lia|].
    + intros name [r Hr]. apply Hreg. rewrite lookup_insert.
      destruct (decide (site_Name site = name)); [by eexists|]. rewrite Hr. by eexists.
    + intros s. rewrite elem_of_cons. intros [->|Hs]; [|by apply Hall]. split.
      * apply Hreg. rewrite lookup_insert_eq. by eexists.
      * exists registration. split_and!; [by apply Hext|done|].
        unfold connected in *. destruct (decide (regst_Phase (reg_Status registration) = "Connected")) as [E|E]; [by left|].
        rewrite (bool_decide_eq_false_2 _ E) in *. cbn [negb andb] in *. right.
        destruct (decide (site_Role site = SiteRoleData)) as [R|R];
          [rewrite (bool_decide_eq_true_2 _ R) in *|rewrite (bool_decide_eq_false_2 _ R) in *]; cbn [negb] in *;
          [left|right]; (split; [done|lia]).
  - intros name r. cbn [registrations]. rewrite lookup_insert. destruct (decide (site_Name site = name)) as [E|E].
    + intros [= <-]. exists site. split_and!; [set_solver|done|done].
    + intros Hr. destruct (Hf name r Hr) as (s & ? & ? & ?). exists s. split_and!; try done. by apply extends_cons.
  - set_solver.
Qed.

(** ** Plans *)
Lemma plan_identity_extends h h' instance plan :
  extends h h' -> plan_identity h instance plan -> plan_identity h' instance plan.
Proof.
  intros He (? & ? & (site & r & ? & ? & Hr & ?) & ?). split_and!; try done.
  exists site, r. split_and!; try done. by apply He.
Qed.

Lemma live_plan_extends h h' instance plan : extends h h' -> live_plan h instance plan -> live_plan h' instance plan.
Proof.
  intros He (? & ? & Hs & (l & Hl & ?) & Hc). split_and!; try done.
  - by eapply sites_accepted_extends.
  - exists l. split; [by apply He|done].
  - intros Hop site Hin. destruct (Hc Hop site Hin) as (r & ? & ?). exists r. split; [by apply He|done].
Qed.

Lemma no_children_extends h h' instance : extends h h' -> no_children h instance -> no_children h' instance.
Proof. intros He (ds & us & ? & ? & ? & ?). exists ds, us. split_and!; try done; by apply He. Qed.

Lemma deletion_plan_extends h h' instance plan :
  extends h h' -> deletion_plan h instance plan -> deletion_plan h' instance plan.
Proof. intros He (? & ? & ?). split_and!; try done. by eapply no_children_extends. Qed.

Lemma plan_issued_extends h h' text : extends h h' -> plan_issued h text -> plan_issued h' text.
Proof.
  intros He (i & sk & plan & env & Hr & ? & ? & ? & Hp). exists i, sk, plan, env.
  split_and!; try done; [by eapply was_read_extends|by eapply plan_identity_extends|].
  destruct Hp; [left; by eapply live_plan_extends|right; by eapply deletion_plan_extends].
Qed.

(** Writing a plan that may be issued. *)
Lemma reconcilePlan_sat i siteName siteUID envelope h :
  (forall text, json_Marshal envelope = Ok text -> plan_issued h text) ->
  sat instance_request done_ h (reconcilePlan i siteName siteUID envelope).
Proof.
  intros Hp. unfold reconcilePlan, envelopeData.
  destruct (json_Marshal envelope) as [text|e] eqn:Hm; [|done]. specialize (Hp text eq_refl).
  assert (Hissue : forall e cm, cm_Data cm = {["envelope.json" := text]} -> forall text',
    cm_Data cm !! "envelope.json" = Some text' -> plan_issued (e :: h) text').
  { intros e cm -> text' Hl. rewrite lookup_singleton_eq in Hl. injection Hl as <-.
    eapply plan_issued_extends; [apply extends_cons|done]. }
  sat_step. sat_step; [done|]. destruct x as [cm|e].
  - sat_step; [done|]. sat_step. sat_step; [by refine (Hissue _ _ _)|]. by sat_step.
  - sat_step; [|done]. sat_step; [|done]. sat_step. sat_step; [by refine (Hissue _ _ _)|]. by sat_step.
Qed.

Lemma ensureSigningKey_sat fuel namespace h :
  sat instance_request done_ h (ensureSigningKey fuel namespace).
Proof.
  revert h. induction fuel as [|fuel IH]; intros h; [done|]. cbn [ensureSigningKey].
  sat_step. sat_step; [done|]. destruct x as [secret|e]; [by repeat sat_step|].
  sat_step; [done|]. sat_step. sat_step; [done|]. destruct x as [seed|e']; [|done].
  sat_step. sat_step; [done|]. destruct x as [o|e']; [done|]. sat_step; [apply IH|done].
Qed.

Lemma issue_plans_sat instance i privateKey regs addresses rotation ops sites h :
  was_read (k:=KInstance) h instance -> msp_Meta i = msp_Meta instance -> msp_Spec i = msp_Spec instance ->
  (st_ActiveRevision (msp_Status i) = st_ActiveRevision (msp_Status instance) \/
   st_ActiveRevision (msp_Status i) = st_ActiveRevision (msp_Status (advance_revision instance))) ->
  sites ⊆ spec_Sites (msp_Spec instance) ->
  (forall site, site ∈ sites -> exists r s, regs !! site_Name site = Some r /\
     s ∈ spec_Sites (msp_Spec instance) /\ site_Name s = site_Name site /\ site_read h s r) ->
  (forall plan, sp_Deletion plan = None -> sp_Restore plan = opRestore ops -> sp_Upgrade plan = opUpgrade ops ->
     sp_MajorUpgrade plan = opMajorUpgrade ops -> live_plan h instance plan) ->
  sat instance_request done_ h (issue_plans i privateKey regs addresses rotation ops sites).
Proof.
  intros Hr Hm Hs Hrev. revert h Hr. induction sites as [|site sites IH]; intros h Hr Hsub Hregs Hlive; [done|].
  cbn [issue_plans]. destruct (Hregs site) as (r & s & Hreg & Hs' & Hn & Hread); [set_solver|]. rewrite Hreg.
  cbn [default]. sat_step. sat_step; [done|]. rename x into now.
  destruct (Sign _ _) as [envelope|e] eqn:Hsign; [|done]. sat_step.
  eapply sat_mono; [done| |apply sat_extends, reconcilePlan_sat].
  - intros h' [e|] [_ Hext]; [done|]. assert (He : extends h h') by (intros e Hin; apply Hext, elem_of_cons; by right).
    apply IH; [by eapply was_read_extends|set_solver|..].
    + intros s2 Hs2. destruct (Hregs s2) as (r2 & s3 & ? & ? & ? & Hr2); [set_solver|].
      exists r2, s3. split_and!; try done. by apply He.
    + intros. eapply live_plan_extends; [done|]. by apply Hlive.
  - intros text Htext. eapply plan_issued_extends; [apply extends_cons|].
    exists instance, privateKey, (desired_plan i site r now addresses rotation ops), envelope. split_and!; [done|exact Hsign|done| |].
    + unfold plan_identity, desired_plan. destruct addresses as [[ma ac] am]. cbn. rewrite Hm. split_and!; [done|set_solver| |done].
      by exists s, r.
    + left. unfold desired_plan. destruct addresses as [[ma ac] am]. by apply Hlive.
Qed.

(** ** From the checks to the plans *)
Lemma activeSitePlan_sat i h : sat instance_request done_ h (activeSitePlan i).
Proof. unfold activeSitePlan. repeat sat_step; done. Qed.

Lemma addressPlan_sat i h : sat instance_request done_ h (addressPlan i).
Proof.
  unfold addressPlan. sat_step. eapply sat_mono; [| |apply activeSitePlan_sat]; [done|]. by intros h' [?|?] _.
Qed.

Lemma credentialRotationPlan_sat i migration restore upgrade major h :
  sat instance_request done_ h (credentialRotationPlan i migration restore upgrade major).
Proof.
  unfold credentialRotationPlan. sat_step. eapply sat_mono; [| |apply activeSitePlan_sat]; [done|].
  by intros h' [?|?] _.
Qed.

Lemma restorePlan_sat i h : sat instance_request done_ h (restorePlan i).
Proof. unfold restorePlan. repeat sat_step; done. Qed.

Lemma rollback_policies_sat sites policies h : sat instance_request done_ h (rollback_policies sites policies).
Proof.
  revert policies h. induction sites as [|site sites IH]; intros policies h; cbn [rollback_policies]; [done|].
  repeat sat_step; first [done|apply IH].
Qed.

Lemma upgradePlans_sat i h : sat instance_request done_ h (upgradePlans i).
Proof.
  unfold upgradePlans. do 6 (try sat_step); try done.
  sat_step. eapply sat_mono; [| |apply rollback_policies_sat]; [done|].
  intros h' [?|?] _; repeat sat_step; done.
Qed.

Lemma lifecycleOperationActive_sat i h : sat instance_request done_ h (lifecycleOperationActive i).
Proof. unfold lifecycleOperationActive. repeat sat_step; done. Qed.

Lemma reconcileBackupSchedules_sat i now canRun h :
  sat instance_request done_ h (reconcileBackupSchedules DefaultBackupSchedule i now canRun).
Proof.
  unfold reconcileBackupSchedules. destruct (spec_Backup _) as [backup|]; [|done]. sat_step.
  eapply sat_mono; [| |apply reconcile_schedules_requests].
  - intros h' r [Hr _]. destruct r as [[] | | [] cm | | | | | | | | | | |]; try done.
    destruct Hr as (? & ? & ? & ? & ? & He). intros text. by rewrite He.
  - by intros h' [[[? ?]|?]|] _.
Qed.

Lemma publish_revision_sat i ops h :
  sat instance_request done_ h (publish_revision DefaultBackupSchedule recorder i ops).
Proof.
  unfold publish_revision. sat_step. sat_step; [done|]. sat_step.
  eapply sat_mono; [| |apply lifecycleOperationActive_sat]; [done|]. intros h1 [active|e] _; [|done].
  sat_step. sat_step; [done|]. sat_step.
  eapply sat_mono; [| |apply reconcileBackupSchedules_sat]; [done|]. intros h2 [[[i' requeue]|e]|] _; [|apply publish_sat|done].
  sat_step. eapply sat_mono; [| |apply updateInstanceStatus_sat]; [done|]. by intros h3 [?|] _.
Qed.

(** What the plans of [i], the instance with its new conditions, rest on. *)
Definition plans_allowed (h : khistory) (instance : MultiSitePostgres) (found : SiteCheck) (ops : Operations) : Prop :=
  was_read (k:=KInstance) h instance /\ found_in h (spec_Sites (msp_Spec instance)) found /\
  (forall site, site ∈ spec_Sites (msp_Spec instance) -> is_Some (registrations found !! site_Name site)) /\
  (forall plan, sp_Deletion plan = None -> sp_Restore plan = opRestore ops -> sp_Upgrade plan = opUpgrade ops ->
     sp_MajorUpgrade plan = opMajorUpgrade ops -> live_plan h instance plan).

Lemma found_in_extends h h' sites found : extends h h' -> found_in h sites found -> found_in h' sites found.
Proof.
  intros He Hf name r Hr. destruct (Hf name r Hr) as (s & ? & ? & ?). exists s. split_and!; try done. by apply He.
Qed.

Lemma plans_allowed_extends h h' instance found ops :
  extends h h' -> plans_allowed h instance found ops -> plans_allowed h' instance found ops.
Proof.
  intros He (? & ? & ? & Hl). split_and!; [by eapply was_read_extends|by eapply found_in_extends|done|].
  intros. eapply live_plan_extends; [done|]. by apply Hl.
Qed.

Lemma issue_revision_sat instance i privateKey found addresses rotation ops h :
  plans_allowed h instance found ops -> msp_Meta i = msp_Meta instance -> msp_Spec i = msp_Spec instance ->
  (st_ActiveRevision (msp_Status i) = st_ActiveRevision (msp_Status instance) \/
   st_ActiveRevision (msp_Status i) = st_ActiveRevision (msp_Status (advance_revision instance))) ->
  sat instance_request done_ h
    (issue_plans i privateKey (registrations found) addresses rotation ops (spec_Sites (msp_Spec i))).
Proof.
  intros (Hr & Hf & Hs & Hl) Hm Hsp Hrev. eapply issue_plans_sat; eauto; rewrite Hsp; [done|].
  intros site Hin. destruct (Hs site Hin) as [r Hreg]. destruct (Hf _ _ Hreg) as (s & ? & ? & ?).
  exists r, s. split_and!; done.
Qed.

Lemma plan_revision_sat fuel instance i found ops h :
  plans_allowed h instance found ops -> same_instance i instance ->
  sat instance_request done_ h (plan_revision SystemNamespace DefaultBackupSchedule recorder fuel i found ops).
Proof.
  intros Ha (Hm & Hs & Hrev). unfold plan_revision. sat_step.
  eapply sat_mono; [| |apply sat_extends, addressPlan_sat]; [done|]. intros h1 [addresses|e] [_ He1]; [|done].
  sat_step. eapply sat_mono; [| |apply sat_extends, credentialRotationPlan_sat]; [done|].
  intros h2 [rotation|e] [_ He2]; [|done]. destruct (planFingerprint _ _ _ _ _) as [fingerprint|e]; [|done].
  sat_step. eapply sat_mono; [| |apply sat_extends, ensureSigningKey_sat]; [done|].
  intros h3 [[privateKey|e]|] [_ He3]; try done.
  sat_step. eapply sat_mono; [| |eapply issue_revision_sat]; [done| |eapply plans_allowed_extends; [|done]|..].
  - intros h4 [e|] _; [done|]. apply publish_revision_sat.
  - by do 2 (eapply extends_trans; [eassumption|]).
  - by destruct (_ != _).
  - by destruct (_ != _).
  - destruct (_ != _); [right|by left]. unfold advance_revision. cbn. by rewrite Hrev.
Qed.

(** The checks a live instance has passed before its operations are planned. *)
Definition checks_passed (h : khistory) (instance : MultiSitePostgres) (found : SiteCheck) : Prop :=
  was_read (k:=KInstance) h instance /\ meta_DeletionTimestamp (msp_Meta instance) = None /\
  found_in h (spec_Sites (msp_Spec instance)) found /\
  (forall site, site ∈ spec_Sites (msp_Spec instance) -> is_Some (registrations found !! site_Name site)) /\
  sites_accepted h instance /\
  (exists instances, existT (List KInstance None ∅) (Ok instances) ∈ h /\ claims_conflict instance instances = None) /\
  (disconnectedControlSites found = 0%nat -> all_connected h instance).

Lemma checks_passed_extends h h' instance found :
  extends h h' -> checks_passed h instance found -> checks_passed h' instance found.
Proof.
  intros He (? & ? & ? & ? & ? & (l & Hl & ?) & Hc).
  split_and!; [by eapply was_read_extends|done|by eapply found_in_extends|done|by eapply sites_accepted_extends| |].
  - exists l. split; [by apply He|done].
  - intros Hz site Hs. destruct (Hc Hz site Hs) as (r & ? & ?). exists r. split; [by apply He|done].
Qed.

Lemma plan_operations_sat fuel instance i found h :
  checks_passed h instance found -> same_instance i instance ->
  sat instance_request done_ h (plan_operations SystemNamespace DefaultBackupSchedule recorder fuel i found).
Proof.
  intros Hc Hi. unfold plan_operations. sat_step.
  eapply sat_mono; [| |apply sat_extends, restorePlan_sat]; [done|]. intros h1 [restore|e] [_ He1]; [|apply publish_sat].
  sat_step. eapply sat_mono; [| |apply sat_extends, upgradePlans_sat]; [done|].
  intros h2 [[upgrade major]|e] [_ He2]; [|apply publish_sat]. cbn [fst snd].
  eapply checks_passed_extends in Hc; [|by eapply extends_trans].
  destruct ((0 <? _)%nat && _) eqn:Hpend; [apply publish_sat|]. apply andb_false_iff in Hpend.
  destruct (missingPlanCapabilities _ _ _); [|apply publish_sat].
  eapply plan_revision_sat; [|done]. destruct Hc as (? & ? & ? & ? & ? & ? & Hall). split_and!; try done.
  intros plan Hdel Hr Hu Hm. split_and!; try done. cbn in Hr, Hu, Hm. rewrite Hr, Hu, Hm. intros Hop.
  destruct Hpend as [Hz|Hp]; [apply Hall; apply Nat.ltb_ge in Hz; lia|].
  unfold topologyChangingOperationPending in Hp. by destruct restore, upgrade, major, Hop as [[]|[[]|[]]].
Qed.

Lemma same_instance_condition i instance ctype status reason message :
  same_instance i instance -> same_instance (set_instance_condition i ctype status reason message) instance.
Proof. done. Qed.

Lemma aggregateDeclarationAndUpgradeStatus_sat i h :
  sat instance_request (fun _ x => forall i', x = Ok i' -> same_instance i' i) h
    (aggregateDeclarationAndUpgradeStatus i).
Proof.
  unfold aggregateDeclarationAndUpgradeStatus. do 3 (sat_step; sat_step; [done|]; sat_step; [|done]). sat_step.
  intros i' [= <-]. repeat case_match; done.
Qed.

Lemma claims_conflict_same i instance instances :
  msp_Meta i = msp_Meta instance -> msp_Spec i = msp_Spec instance ->
  claims_conflict i instances = claims_conflict instance instances.
Proof.
  intros Hm Hs. induction instances as [|other l IH]; cbn [claims_conflict]; [done|].
  unfold annotation. by rewrite Hm, Hs, IH.
Qed.

Lemma validateInstanceClaims_sat i instance h :
  msp_Meta i = msp_Meta instance -> msp_Spec i = msp_Spec instance ->
  sat instance_request (fun h' x => x = None -> exists instances,
    existT (List KInstance None ∅) (Ok instances) ∈ h' /\ claims_conflict instance instances = None) h
    (validateInstanceClaims i).
Proof.
  intros Hm Hs. unfold validateInstanceClaims. sat_step. sat_step; [done|]. sat_step; [|done]. sat_step.
  intros Hc. rewrite (claims_conflict_same _ _ _ Hm Hs) in Hc. eexists. split; [|done]. apply elem_of_cons. by left.
Qed.

Lemma reconcile_live_sat fuel instance h :
  was_read (k:=KInstance) h instance -> meta_DeletionTimestamp (msp_Meta instance) = None ->
  sat instance_request done_ h (reconcile_live SystemNamespace DefaultBackupSchedule recorder fuel instance).
Proof.
  intros Hr Hd. unfold reconcile_live. sat_step.
  eapply sat_mono; [| |apply sat_extends, aggregateDeclarationAndUpgradeStatus_sat]; [done|].
  intros h1 [i|e] [Hi He1]; [|done]. specialize (Hi i eq_refl).
  assert (Hi' : same_instance i instance) by done. clear Hi. sat_step.
  eapply sat_mono; [| |apply sat_extends, (check_sites_sat i _ _ (spec_Sites (msp_Spec instance)))]; [done| | |].
  2: { intros name r H. cbn [registrations] in H. by rewrite lookup_empty in H. }
  2: { by destruct Hi' as (_ & -> & _). }
  intros h2 [rejected|found] [Hf He2]; [apply publish_sat|].
  destruct (Hf found eq_refl) as (Hfound & _ & _ & _ & Hall). clear Hf. rewrite (proj1 (proj2 Hi')) in Hall. sat_step.
  eapply sat_mono; [| |apply sat_extends, (validateInstanceClaims_sat _ instance); apply Hi']; [done|].
  intros h3 [e|] [Hclaims He3]; [apply publish_sat|].
  destruct (0 <? disconnectedDataSites found)%nat eqn:Hdata; [apply publish_sat|]. apply Nat.ltb_ge in Hdata.
  eapply (plan_operations_sat _ instance); [|unfold report_control_sites; by destruct (_ <? _)%nat].
  split_and!; [apply (was_read_extends h h3); [naive_solver|done]|done|by eapply found_in_extends| |  |by apply Hclaims|].
  - intros site Hs. by apply Hall.
  - intros site Hs. destruct (Hall site Hs) as (_ & r & Hread & Hv & Hcon). exists r. split_and!; [by apply He3|done|].
    intros Hrole. destruct Hcon as [?|[[_ ?]|[? _]]]; [done|lia|done].
  - intros H0 site Hs. destruct (Hall site Hs) as (_ & r & Hread & Hv & Hcon). exists r. split; [by apply He3|].
    destruct Hcon as [?|[[_ ?]|[_ ?]]]; [done|lia|lia].
Qed.

(** ** Deletion *)
Definition deleted_in (h : khistory) (cm : ConfigMap) : Prop :=
  exists x, existT (Delete KConfigMap cm) x ∈ h /\ match x with Ok _ => True | Err e => IsNotFound e = true end.

Lemma delete_all_sat instance configMaps h :
  was_read (k:=KInstance) h instance -> deleting (msp_Meta instance) ->
  sat instance_request (fun h' x => x = None -> forall cm, cm ∈ configMaps -> deleted_in h' cm) h (delete_all configMaps).
Proof.
  intros Hr Hd. revert h Hr. induction configMaps as [|cm l IH]; intros h Hr; cbn [delete_all].
  { intros _ cm H. by apply elem_of_nil in H. }
  sat_step. sat_step; [by exists instance|].
  assert (Hnext : match x with Ok _ => True | Err e => IsNotFound e = true end ->
    sat instance_request (fun h' r => r = None -> forall cm', cm' ∈ cm :: l -> deleted_in h' cm')
      (existT (Delete KConfigMap cm) x :: h) (delete_all l)).
  { intros Hx. eapply sat_mono; [done| |apply sat_extends, IH, was_read_cons, Hr].
    intros h' r [H Hext] Hn cm'. rewrite elem_of_cons. intros [->|Hin]; [|by apply H].
    exists x. split; [apply Hext, elem_of_cons; by left|done]. }
  destruct x as [u|e]; [by apply Hnext|]. destruct (IsNotFound e) eqn:He; [by apply Hnext|done].
Qed.

Lemma release_instance_sat instance h :
  was_read (k:=KInstance) h instance -> deleting (msp_Meta instance) ->
  (annotation instance forceOrphanAnnotation = "true" \/
   no_children h instance /\ st_PlanFingerprint (msp_Status instance) = "deleting" /\
   forall site, site ∈ st_Sites (msp_Status instance) -> srs_Phase site = "Deleted") ->
  sat instance_request done_ h (release_instance instance).
Proof.
  intros Hr Hd Hallowed. unfold release_instance, deletePlanConfigMaps. do 2 sat_step. sat_step; [done|].
  destruct x as [plans|e]; [|done].
  eapply sat_mono; [done| |apply sat_extends, (delete_all_sat instance), Hd; by apply was_read_cons].
  intros h' [e|] [Hdel Hext]; [done|].
  assert (He : extends h h') by (intros e Hin; apply Hext, elem_of_cons; by right).
  sat_step. sat_step; [|by sat_step]. exists instance. split; [by eapply was_read_extends|]. right. split; [done|].
  split_and!; [done| |].
  - destruct Hallowed as [?|(? & ? & ?)]; [by left|right]. split_and!; try done. by eapply no_children_extends.
  - exists plans. split; [apply Hext, elem_of_cons; by left|by apply Hdel].
Qed.

(** A declaration that refers to the instance and is not orphaned is listed. *)
Lemma unlisted_orphaned {A} (f : A -> string) (refers orphaned : A -> bool) l a :
  f a ∉ (f <$> List.filter (fun a => refers a && negb (orphaned a)) l) -> a ∈ l -> refers a = true -> orphaned a = true.
Proof.
  intros Hf Hin Hr. destruct (orphaned a) eqn:Ho; [done|]. destruct Hf. apply list_elem_of_fmap_2.
  apply list_elem_of_In, filter_In. rewrite Hr, Ho. split; [by apply list_elem_of_In|done].
Qed.

Lemma referencingDeclarations_sat instance h :
  sat instance_request (fun h' x => x = Ok [] -> no_children h' instance) h (referencingDeclarations instance).
Proof.
  unfold referencingDeclarations. sat_step. sat_step; [done|]. destruct x as [databases|]; [|done].
  sat_step. sat_step; [done|]. destruct x as [users|]; [|done]. sat_step. intros [= Hnil].
  match type of Hnil with SortStrings (?l1 ++ ?l2) = _ => assert (forall s, (s ∉ l1) /\ (s ∉ l2)) as Hno end.
  { intros s. apply not_elem_of_app. rewrite <- elem_of_SortStrings, Hnil. apply not_elem_of_nil. }
  exists databases, users. split_and!.
  - apply elem_of_cons; right. apply elem_of_cons; by left.
  - apply elem_of_cons; by left.
  - intros d Hin Hn. eapply (unlisted_orphaned _ _ (fun d => childForceOrphaned (db_Meta d))); [apply Hno|done|].
    by apply bool_decide_eq_true.
  - intros u Hin Hn. eapply (unlisted_orphaned _ _ (fun u => childForceOrphaned (usr_Meta u))); [apply Hno|done|].
    by apply bool_decide_eq_true.
Qed.

Lemma issue_deletions_sat instance privateKey policy addresses sites statuses h :
  was_read (k:=KInstance) h instance -> deleting (msp_Meta instance) -> no_children h instance ->
  (policy = DeletionPolicyDelete -> conditionTrue (st_Conditions (msp_Status instance)) "BackupReady" = true) ->
  sites ⊆ spec_Sites (msp_Spec instance) ->
  sat instance_request done_ h (issue_deletions (advance_revision instance) privateKey policy addresses sites statuses).
Proof.
  intros Hr Hd Hn Hp. revert statuses h Hr Hn.
  induction sites as [|site sites IH]; intros statuses h Hr Hn Hsub; cbn [issue_deletions]; [done|].
  sat_step. sat_step; [done|]. destruct x as [registration|]; [|done]. sat_step. sat_step; [done|].
  destruct (Sign _ _) as [envelope|] eqn:Hsign; [|done]. sat_step.
  match goal with |- sat _ _ ?h1 _ => set (h' := h1) end.
  assert (He : extends h h') by (intros e Hin; do 2 (apply elem_of_cons; right); done).
  eapply sat_mono; [done| |apply sat_extends, reconcilePlan_sat].
  - intros h2 [e|] [_ Hext]; [done|]. assert (He2 : extends h h2) by (by eapply extends_trans).
    apply IH; [by eapply was_read_extends|by eapply no_children_extends|set_solver].
  - intros text Htext. eexists instance, privateKey, _, envelope.
    split_and!; [by eapply was_read_extends|exact Hsign|done| |right].
    + split_and!; [done|cbn; set_solver| |by right]. exists site, registration.
      split_and!; [set_solver|done| |done]. apply elem_of_cons; right. apply elem_of_cons; by left.
    + split_and!; [done|by eapply no_children_extends|]. by exists policy.
Qed.

Lemma issueDeletionPlans_sat fuel instance h :
  was_read (k:=KInstance) h instance -> deleting (msp_Meta instance) -> no_children h instance ->
  (spec_DeletionPolicy (msp_Spec instance) = DeletionPolicyDelete ->
     conditionTrue (st_Conditions (msp_Status instance)) "BackupReady" = true) ->
  sat instance_request done_ h (issueDeletionPlans SystemNamespace recorder fuel instance).
Proof.
  intros Hr Hd Hn Hp. unfold issueDeletionPlans. sat_step.
  eapply sat_mono; [| |apply sat_extends, ensureSigningKey_sat]; [done|].
  intros h1 [[privateKey|e]|] [_ He]; try done. sat_step.
  eapply sat_mono; [done| |apply issue_deletions_sat].
  - intros h2 [statuses|e] _; [|done]. sat_step. by eapply sat_mono; [| |apply updateInstanceStatus_sat].
  - by eapply was_read_extends.
  - done.
  - by eapply no_children_extends.
  - case_match; [done|]. apply Hp.
  - done.
Qed.

Lemma finalize_sat fuel instance h :
  was_read (k:=KInstance) h instance -> deleting (msp_Meta instance) ->
  sat instance_request done_ h (finalize SystemNamespace recorder fuel instance).
Proof.
  intros Hr Hd. unfold finalize. sat_step; [done|]. clear Heqb. sat_step.
  { apply release_instance_sat; [done|done|left]. by apply bool_decide_eq_true in Heqb. }
  sat_step. eapply sat_mono; [| |apply sat_extends, referencingDeclarations_sat]; [done|].
  intros h1 [children|e] [Hc He]; [|done]. sat_step; [apply publish_sat|].
  assert (Hn : no_children h1 instance). { apply Hc. by destruct children. }
  eapply was_read_extends in Hr; [|done]. sat_step.
  - sat_step; [apply publish_sat|]. sat_step. eapply sat_mono; [done| |apply issueDeletionPlans_sat; try done].
    + by intros h2 [err|] _.
    + intros Hpol. apply andb_false_iff in Heqb2 as [Hf|Hf].
      * by apply bool_decide_eq_false in Hf.
      * by apply negb_false_iff in Hf.
  - destruct (srs_Name <$> _) eqn:Hw; [|apply publish_sat]. apply fmap_nil_inv in Hw.
    apply release_instance_sat; [done|done|right]. split_and!; [done| |].
    + by apply negb_false_iff, bool_decide_eq_true in Heqb1.
    + intros site Hs. destruct (decide (srs_Phase site = "Deleted")) as [|Hne]; [done|]. exfalso.
      apply (not_elem_of_nil site). rewrite <- Hw. apply list_elem_of_In, filter_In.
      split; [by apply list_elem_of_In|]. by apply negb_true_iff, bool_decide_eq_false.
Qed.

Lemma instance_Reconcile_sat fuel namespace name h :
  sat instance_request done_ h (Reconcile SystemNamespace DefaultBackupSchedule recorder fuel namespace name).
Proof.
  unfold Reconcile. sat_step. sat_step; [done|]. destruct x as [instance|e]; [|done].
  pose proof (was_read_here (k:=KInstance) h namespace name instance) as Hr.
  destruct (meta_DeletionTimestamp _) eqn:Hd; [apply finalize_sat; [done|by eexists]|].
  sat_step; [|by apply reconcile_live_sat]. sat_step. sat_step; [|by sat_step].
  exists instance. split; [done|by left].
Qed.

(** ** Results *)

(** C12: whatever the server answers, the instance reconciler writes a plan
    envelope only when it is signed for a site of the instance it read, under
    the UID of the registration of that site, with the recorded revision or its
    successor; for a live instance, only after every site satisfied its
    registration's policy, every data site was connected, no other instance
    claimed its backups or keys, and, if the plan carries a restore or an
    upgrade, every site was connected; for a deleted one, only after no
    declaration referred to it and, if data is to be deleted, a backup was
    verified. *)
Theorem plans_issued_after_checks fuel namespace name :
  sat (fun h r => match r with
       | Create KConfigMap cm | Update KConfigMap cm =>
           forall text, cm_Data cm !! "envelope.json" = Some text -> plan_issued h text
       | Patch KConfigMap _ _ | UpdateStatus KConfigMap _ | PatchStatus KConfigMap _ _ => False
       | _ => True
       end) done_ [] (Reconcile SystemNamespace DefaultBackupSchedule recorder fuel namespace name).
Proof.
  eapply sat_mono; [| |apply instance_Reconcile_sat]; [|done]. intros h r.
  by destruct r as [| |[]|[]|[]|[]|[]| | | | | | |].
Qed.

(** C21: whatever the server answers, the instance reconciler deletes plans
    only of an instance that is being deleted, and its only writes of the
    instance itself add the finalizer or take it away; it is taken away only when
    the instance is being deleted, it was force-orphaned or no declaration refers
    to it and every site has acknowledged its deletion plan, and every plan
    listed for it has been deleted. *)
Theorem instance_released_after_cleanup fuel namespace name :
  sat (fun h r => match r with
       | Update KInstance o => exists instance, was_read (k:=KInstance) h instance /\
           (o = instance <| msp_Meta := AddFinalizer (msp_Meta instance) instanceFinalizer |> \/
            o = instance <| msp_Meta := RemoveFinalizer (msp_Meta instance) instanceFinalizer |> /\ releasable h instance)
       | Delete KConfigMap _ => exists instance, was_read (k:=KInstance) h instance /\ deleting (msp_Meta instance)
       | Create KInstance _ | Patch KInstance _ _ | PatchStatus KInstance _ _ | Delete KInstance _ => False
       | _ => True
       end) done_ [] (Reconcile SystemNamespace DefaultBackupSchedule recorder fuel namespace name).
Proof.
  eapply sat_mono; [| |apply instance_Reconcile_sat]; [|done]. intros h r.
  by destruct r as [| |[]|[]|[]|[]|[]|[]| | | | | |].
Qed.
End instance_properties.

(** ** Runs *)
Module RefInstance.
Import RefCodec.
#[global] Instance serial_FingerprintInput : Serial FingerprintInput.
Proof.
  refine (serial_iso (fun r => (fp_Generation r, fp_Addresses r, fp_AddressCandidates r, fp_AddressMigration r,
      fp_CredentialRotation r, fp_RestoreUID r, fp_RestorePhase r, fp_UpgradeUID r, fp_UpgradePhase r,
      fp_UpgradeMember r, fp_UpgradedMembers r))
    (fun '(x0, x1, x2, x3, x4, x5, x6, x7, x8, x9, x10) =>
       Some (mkFingerprintInput x0 x1 x2 x3 x4 x5 x6 x7 x8 x9 x10)) _).
  by intros [].
Defined.
#[global] Instance json_fingerprint : Json FingerprintInput := RefCodec.json_of id.

Definition issuer : IssuerReference := zero_IssuerReference.
Definition registration : SiteRegistration :=
  zero_SiteRegistration
    <| reg_Meta := zero_ObjectMeta <| meta_Name := "reg-a" |> <| meta_UID := "uid-a" |> |>
    <| reg_Spec := mkSiteRegistrationSpec "" false (mkStorageClassPolicy [] ["fast"] []) []
         (mkIssuerPolicy [issuer] [issuer] [issuer] []) [] |>
    <| reg_Status ::= fun st => st <| regst_Phase := "Connected" |>
         <| regst_DiscoveredStorageClasses := [mkStorageClassInventory "fast" "" "" "" false [] []] |> |>.
Definition instance : MultiSitePostgres :=
  mkMultiSitePostgres
    (zero_ObjectMeta <| meta_Namespace := "ns" |> <| meta_Name := "pg" |> <| meta_UID := "instance" |>
       <| meta_Generation := 1%Z |> <| meta_Finalizers := [instanceFinalizer] |>)
    (zero_MultiSitePostgresSpec <| spec_Sites := [RefUpgrade.data_site] |>
       <| spec_Postgres ::= fun p => p <| pg_MajorVersion := 16%Z |> <| pg_Image := "pg@sha256:1" |> |>)
    zero_MultiSitePostgresStatus.
Definition start : MemServer.mem :=
  (MemServer.put (k:=KInstance) instance (MemServer.put (k:=KRegistration) registration
    (MemServer.mkMem (fun _ => []) (fun _ => []) 1 1000%Z)).2).2.

(** A server that accepts no status. *)
Definition unavailable : Error := mkError ErrInternal "the server is currently unable to handle the request".
Definition flaky (r : Req) (s : MemServer.mem) : Resp r * MemServer.mem :=
  match r return Resp r * MemServer.mem with
  | UpdateStatus k o => (Err unavailable, s)
  | r => MemServer.serve r s
  end.

Definition reconcile : kprog (option Outcome) := Reconcile "" "" false 2 "ns" "pg".
Definition round (server : forall r : Req, MemServer.mem -> Resp r * MemServer.mem) (s : MemServer.mem) : MemServer.mem :=
  (run server reconcile s []).1.2.

Definition stored_instance (s : MemServer.mem) : option MultiSitePostgres :=
  MemServer.find_obj (k:=KInstance) ("ns", "pg") (MemServer.objs s KInstance).

(** A change by a user. *)
Definition edit (f : MultiSitePostgres -> MultiSitePostgres) (s : MemServer.mem) : MemServer.mem :=
  match stored_instance s with Some i => (MemServer.put (k:=KInstance) (f i) s).2 | None => s end.
Definition new_image (i : MultiSitePostgres) : MultiSitePostgres :=
  i <| msp_Meta ::= fun m => m <| meta_Generation := (meta_Generation m + 1)%Z |> |>
    <| msp_Spec ::= fun sp => sp <| spec_Postgres ::= fun p => p <| pg_Image := "pg@sha256:2" |> |> |>.

Definition deleted (i : MultiSitePostgres) : MultiSitePostgres :=
  i <| msp_Meta ::= fun m => m <| meta_DeletionTimestamp := Some 2000%Z |> |>.
Definition acknowledged (i : MultiSitePostgres) : MultiSitePostgres :=
  i <| msp_Status ::= fun st => st <| st_Sites ::= fmap (fun site => site <| srs_Phase := "Deleted" |>) |> |>.

(** The envelope of site [a] and the plan in it. *)
Definition envelope (s : MemServer.mem) : option Envelope :=
  cm ← MemServer.find_obj (k:=KConfigMap) ("ns", plan_name "pg" "a") (MemServer.objs s KConfigMap);
  match json_Unmarshal (T:=Envelope) (cm_Data cm !!! "envelope.json") with Ok e => Some e | Err _ => None end.
Definition plan (s : MemServer.mem) : option SitePlan :=
  e ← envelope s; match json_Unmarshal (T:=SitePlan) (env_Plan e) with Ok p => Some p | Err _ => None end.

Definition issued (s : MemServer.mem) : option (Z * string) :=
  (fun p => (sp_Revision p, pg_Image (sp_Postgres p))) <$> plan s.

(** The deleted instance, once its site has cleaned up. *)
Definition done : MemServer.mem :=
  edit acknowledged (round MemServer.serve (edit deleted (round MemServer.serve start))).

(** The key the first reconcile generates, and an agent without plans. *)
Definition public_key : string := ed25519_Public (ed25519_NewKeyFromSeed (String.concat "" (replicate 32 "r"))).
Definition agent : MemServer.mem := MemServer.mkMem (fun _ => []) (fun _ => []) 1 1000%Z.
End RefInstance.

(** A live instance is planned; deleted, its site is told to clean up; once the
    site has acknowledged, the plan is deleted and the instance let go. *)
Example instance_runs :
  let live := RefInstance.round MemServer.serve RefInstance.start in
  let told := RefInstance.round MemServer.serve (RefInstance.edit RefInstance.deleted live) in
  let waiting := RefInstance.round MemServer.serve told in
  let released := RefInstance.round MemServer.serve (RefInstance.edit RefInstance.acknowledged waiting) in
  RefInstance.issued live = Some (1%Z, "pg@sha256:1") /\
  (sp_Deletion <$> RefInstance.plan told) = Some (Some (mkDeletionPlan DeletionPolicyRetain)) /\
  (meta_Finalizers ∘ msp_Meta <$> RefInstance.stored_instance waiting) = Some [instanceFinalizer] /\
  (meta_Finalizers ∘ msp_Meta <$> RefInstance.stored_instance released) = Some [] /\
  RefInstance.plan released = None.
Proof. vm_compute. auto. Qed.

(** The first reconcile creates the plan of site [a]. *)
Lemma plans_issued_after_checks_witness :
  let h := (run MemServer.serve RefInstance.reconcile RefInstance.start []).2 in
  exists cm text x, h !! 6%nat = Some (existT (Create KConfigMap cm) x) /\
    cm_Data cm !! "envelope.json" = Some text /\ plan_issued (drop 7 h) text.
Proof.
  eassert (Hn : (run MemServer.serve RefInstance.reconcile RefInstance.start []).2 !! 6%nat =
    Some (existT (Create KConfigMap _) _)) by (vm_compute; reflexivity).
  pose proof (sat_run_lookup _ _ _ _ _ _ _ (plans_issued_after_checks "" "" false 2 "ns" "pg") Hn) as H.
  eexists _, _, _. split; [exact Hn|]. split; [vm_compute; reflexivity|]. apply H. vm_compute. reflexivity.
Defined.

(** The last one lets the deleted instance go. *)
Lemma instance_released_after_cleanup_witness :
  let h := (run MemServer.serve RefInstance.reconcile RefInstance.done []).2 in
  exists o x instance, h !! 0%nat = Some (existT (Update KInstance o) x) /\
    ContainsFinalizer (msp_Meta o) instanceFinalizer = false /\ releasable (drop 1 h) instance.
Proof.
  eassert (Hn : (run MemServer.serve RefInstance.reconcile RefInstance.done []).2 !! 0%nat =
    Some (existT (Update KInstance _) _)) by (vm_compute; reflexivity).
  pose proof (sat_run_lookup _ _ _ _ _ _ _ (instance_released_after_cleanup "" "" false 2 "ns" "pg") Hn) as H.
  destruct H as (instance & _ & H). eexists _, _, instance. split; [exact Hn|]. split; [vm_compute; reflexivity|].
  destruct H as [H|[_ H]]; [|exact H]. exfalso.
  assert (Hc : ContainsFinalizer (msp_Meta (instance <| msp_Meta := AddFinalizer (msp_Meta instance) instanceFinalizer |>))
    instanceFinalizer = true) by exact (contains_add (msp_Meta instance) instanceFinalizer).
  rewrite <- H in Hc. vm_compute in Hc. discriminate Hc.
Defined.

(** the plans of a revision are written before the revision is recorded.
    When the status cannot be written after the plans, and the specification is
    changed before the next reconcile, the reconciler issues a different plan
    under the revision it has issued already, and records that revision; an
    agent that cached the first plan refuses the second. *)
Theorem plan_revision_reused :
  let first := RefInstance.round RefInstance.flaky RefInstance.start in
  let second := RefInstance.round MemServer.serve (RefInstance.edit RefInstance.new_image first) in
  RefInstance.issued first = Some (1%Z, "pg@sha256:1") /\
  RefInstance.issued second = Some (1%Z, "pg@sha256:2") /\
  (st_ActiveRevision ∘ msp_Status <$> RefInstance.stored_instance second) = Some 1%Z /\
  match RefInstance.envelope first, RefInstance.envelope second with
  | Some envelope1, Some envelope2 =>
      let store := Store "agent" RefInstance.public_key "uid-a" in
      let '(x1, agent, _) := run MemServer.serve (store envelope1 "instance") RefInstance.agent [] in
      let '(x2, _, _) := run MemServer.serve (store envelope2 "instance") agent [] in
      (exists p, x1 = Ok p) /\
      x2 = Err (errors_New "cached plan revision 1 changed contents or signature")
  | _, _ => False
  end.
Proof. vm_compute. split_and!; try reflexivity. by eexists. Qed.
