(* ===== verification/Readiness.v ===== *)
(** * When an instance becomes ready

    [internal/controller] reports an instance [Ready] only when its own
    [EtcdTLSReady] condition holds (see [Topology]), which is meant to say that
    all sites publish the same etcd trust bundle.  This file follows that
    condition through the instance controller: no status it writes makes the
    condition true, so that an instance that starts without it never becomes
    ready by the controller alone.  [ControlReports] shows that a site's plan
    reports do not set it either. *)
From S2P Require Import Prelude Prog Api Kube ApiServer Codec Plan Members Topology Status AddressPlan Rotation Backups Policy Instance InstanceProps.

(** No condition of the type is true. *)
Definition lacks (cs : list Condition) (conditionType : string) : Prop :=
  forall c, c ∈ cs -> cond_Type c = conditionType -> cond_Status c <> ConditionTrue.

Section lacks.
Context {K : KubeLib} {L : KubeLaws K}.

Lemma lacks_nil t : lacks [] t.
Proof. by intros c H%elem_of_nil. Qed.

Lemma lacks_insert cs c t : lacks cs t -> (cond_Type c = t -> cond_Status c <> ConditionTrue) -> lacks (SetStatusCondition cs c) t.
Proof. intros Hl Hc d Hd Ht. apply set_members in Hd as [->|Hd]; [by apply Hc|by apply (Hl d)]. Qed.

Lemma lacks_set cs g ctype status reason message t : lacks cs t -> ctype <> t \/ status <> ConditionTrue ->
  lacks (setCondition cs g ctype status reason message) t.
Proof. intros Hl Hc. apply lacks_insert; [done|]. cbn. intros E. by destruct Hc. Qed.

Lemma lacks_merge cs ds t : lacks cs t -> lacks ds t -> lacks (foldl SetStatusCondition cs ds) t.
Proof.
  revert cs. induction ds as [|d ds IH]; intros cs Hc Hd; [done|]. cbn [foldl]. apply IH.
  - apply lacks_insert; [done|]. apply Hd. by apply elem_of_cons; left.
  - intros c Hin. apply Hd. by apply elem_of_cons; right.
Qed.

Lemma lacks_false cs t : lacks cs t -> conditionTrue cs t = false.
Proof.
  intros Hl. unfold conditionTrue. destruct (FindStatusCondition cs t) as [c|] eqn:E; [|done].
  apply bool_decide_eq_false. apply Hl; [by eapply find_member|by eapply find_type].
Qed.
End lacks.

(** Neither ready nor trusted. *)
Definition unready (i : MultiSitePostgres) : Prop :=
  lacks (st_Conditions (msp_Status i)) "EtcdTLSReady" /\ lacks (st_Conditions (msp_Status i)) "Ready".

Section readiness.
Context {K : KubeLib} {L : KubeLaws K} {C : Crypto} {Cr : CronLib} {TT : TimeText}.
Context {J : Json SitePlan} {JE : Json Envelope} {JF : Json FingerprintInput} {JM : Json (gmap string string)}.
Context (SystemNamespace DefaultBackupSchedule : string) (recorder : bool).

(** Every instance read so far is unready. *)
Definition reads_unready (h : khistory) : Prop := forall i, was_read (k:=KInstance) h i -> unready i.

Definition unready_request (h : khistory) (r : Req) : Prop :=
  reads_unready h -> match r with UpdateStatus KInstance o => unready o | _ => True end.

Lemma reads_earlier h h' : extends h h' -> reads_unready h' -> reads_unready h.
Proof. intros He Hu i (ns & n & Hi). apply Hu. exists ns, n. by apply He. Qed.

(** ** What keeps an instance unready *)
Lemma unready_condition i ctype status reason message : unready i -> ctype <> "EtcdTLSReady" -> ctype <> "Ready" \/ status <> ConditionTrue ->
  unready (set_instance_condition i ctype status reason message).
Proof. intros [H1 H2] Hn Hr. split; cbn -[setCondition]; apply lacks_set; auto. Qed.

Lemma unready_status i f : (forall st, st_Conditions (f st) = st_Conditions st) -> unready i -> unready (i <| msp_Status ::= f |>).
Proof. intros Hf. unfold unready. cbn [msp_Status set]. by rewrite Hf. Qed.

Lemma unready_phase i phase : unready i -> unready (set_phase i phase).
Proof. by apply unready_status. Qed.

Ltac unready :=
  repeat first
    [ assumption
    | apply unready_condition; [|discriminate|first [left; discriminate|right; discriminate]]
    | apply unready_phase
    | apply unready_status; [reflexivity|] ].

Lemma not_ready_in_unready i phase reason message : unready i -> unready (not_ready_in i phase reason message).
Proof. intros H. unfold not_ready_in. unready. Qed.

Lemma withhold_unready i reason message : unready i -> unready (withhold_topology i reason message).
Proof. intros H. unfold withhold_topology, setSynchronousReplicationCondition. destruct (_ <? _)%Z; unready. Qed.

Lemma topology_unready i now : unready i -> unready (aggregateTopology i now).
Proof.
  intros H. unfold aggregateTopology. destruct (stopped_phase _); [by apply withhold_unready|].
  match goal with |- unready (if ?b then _ else _) => destruct b end; [by apply withhold_unready|]. destruct (map_to_list _) as [|[p n] [|]]; [by apply withhold_unready| |by apply withhold_unready].
  unfold setSynchronousReplicationCondition. destruct (_ <? _)%Z; unready.
Qed.

Lemma applied_unready i restore major : unready i -> unready (setAppliedInstanceReady i restore major).
Proof.
  intros H. unfold setAppliedInstanceReady, not_ready.
  do 3 (match goal with |- unready (if ?b then _ else _) => destruct b end; [unready|]).
  assert (E : instanceTrue i "EtcdTLSReady" = false) by (apply lacks_false, H). rewrite E. cbn [negb]. unready.
Qed.

(** ** Parts that write no status *)
Definition quiet (r : Req) : Prop := match r with UpdateStatus KInstance _ => False | _ => True end.
Ltac quiet := repeat (sat_step; try exact I).

Lemma quiet_unready {A} (p : kprog A) h : sat (fun _ r => quiet r) done_ h p -> sat unready_request (fun h' _ => extends h h') h p.
Proof.
  apply sat_mono_later; [|by intros h' a He _]. intros h' r _ Hq Hu. destruct r as [| | | |k o| | | | | | | | |]; try done. by destruct k.
Qed.

Lemma activeSitePlan_quiet i h : sat (fun _ r => quiet r) done_ h (activeSitePlan i).
Proof. unfold activeSitePlan. quiet. Qed.
Lemma addressPlan_quiet i h : sat (fun _ r => quiet r) done_ h (addressPlan i).
Proof. unfold addressPlan. sat_step. eapply sat_mono; [intros ? ? H; exact H| |apply activeSitePlan_quiet]. by intros h' [?|?] _. Qed.
Lemma rotation_quiet i a b c d h : sat (fun _ r => quiet r) done_ h (credentialRotationPlan i a b c d).
Proof. unfold credentialRotationPlan. sat_step. eapply sat_mono; [intros ? ? H; exact H| |apply activeSitePlan_quiet]. by intros h' [?|?] _. Qed.
Lemma restorePlan_quiet i h : sat (fun _ r => quiet r) done_ h (restorePlan i).
Proof. unfold restorePlan. quiet. Qed.
Lemma rollback_policies_quiet sites policies h : sat (fun _ r => quiet r) done_ h (rollback_policies sites policies).
Proof.
  revert policies h. induction sites as [|site sites IH]; intros policies h; cbn [rollback_policies]; [done|].
  repeat (sat_step; try first [exact I|apply IH]).
Qed.
Lemma upgradePlans_quiet i h : sat (fun _ r => quiet r) done_ h (upgradePlans i).
Proof.
  unfold upgradePlans. do 6 (try (sat_step; try exact I)). sat_step.
  eapply sat_mono; [intros ? ? H; exact H| |apply rollback_policies_quiet]. intros h' [?|?] _; quiet.
Qed.
Lemma lifecycle_quiet i h : sat (fun _ r => quiet r) done_ h (lifecycleOperationActive i).
Proof. unfold lifecycleOperationActive. quiet. Qed.
Lemma ensureSigningKey_quiet fuel namespace h : sat (fun _ r => quiet r) done_ h (ensureSigningKey fuel namespace).
Proof.
  revert h. induction fuel as [|fuel IH]; intros h; [done|]. cbn [ensureSigningKey]. repeat (sat_step; try first [exact I|apply IH]).
Qed.
Lemma reconcilePlan_quiet i name uid envelope h : sat (fun _ r => quiet r) done_ h (reconcilePlan i name uid envelope).
Proof. unfold reconcilePlan. quiet. Qed.
Lemma issue_plans_quiet i key regs addresses rotation ops sites h :
  sat (fun _ r => quiet r) done_ h (issue_plans i key regs addresses rotation ops sites).
Proof.
  revert h. induction sites as [|site sites IH]; intros h; [done|]. cbn [issue_plans]. sat_step. sat_step; [done|]. sat_step; [|done].
  sat_step. eapply sat_mono; [intros ? ? H; exact H| |apply reconcilePlan_quiet]. intros h' [e|] _; [done|apply IH].
Qed.
Lemma issue_deletions_quiet i key policy addresses sites statuses h :
  sat (fun _ r => quiet r) done_ h (issue_deletions i key policy addresses sites statuses).
Proof.
  revert statuses h. induction sites as [|site sites IH]; intros statuses h; [done|]. cbn [issue_deletions].
  sat_step. sat_step; [done|]. destruct x as [reg|]; [|done]. sat_step. sat_step; [done|]. sat_step; [|done].
  sat_step. eapply sat_mono; [intros ? ? H; exact H| |apply reconcilePlan_quiet]. intros h' [e|] _; [done|apply IH].
Qed.
Lemma release_quiet i h : sat (fun _ r => quiet r) done_ h (release_instance i).
Proof.
  unfold release_instance, deletePlanConfigMaps. sat_step. sat_step. sat_step; [done|]. destruct x as [l|]; [|done].
  assert (Hd : forall l h, sat (fun _ r => quiet r) done_ h (delete_all l)).
  { clear. induction l as [|cm l IH]; intros h; cbn [delete_all]; [done|]. repeat (sat_step; try first [exact I|apply IH]). }
  eapply sat_mono; [intros ? ? H; exact H| |apply Hd]. intros h' [e|] _; [done|]. quiet.
Qed.

(** ** Status writes *)
Lemma status_sat i h : (reads_unready h -> unready i) ->
  sat unready_request (fun h' _ => extends h h') h (updateInstanceStatus recorder i).
Proof.
  intros Hi. unfold updateInstanceStatus. sat_step. apply (retry_sat _ (fun h' => extends h h')); [|apply extends_refl].
  intros h1 He. unfold update_status_attempt. sat_step. sat_step; [done|]. destruct x as [cur|e]; [|by split; [keep_history|]; keep_history].
  sat_step. sat_step.
  { intros Hu. assert (Hcur : unready cur) by (apply Hu; do 2 eexists; by apply elem_of_cons; left).
    assert (Hd : unready i) by (apply Hi; eapply reads_earlier; [|exact Hu]; keep_history).
    destruct Hcur, Hd. split; cbn [msp_Status set st_Conditions mergeReconciledStatus]; by apply lacks_merge. }
  destruct x as [o|e]; (split; [keep_history|]); [|keep_history]. sat_step; [|keep_history].
  sat_step. eapply sat_mono; [intros ? ? H; exact H| |apply quiet_unready]. { intros h2 [] He2. eapply extends_trans; [|exact He2]. keep_history. }
  match goal with |- sat _ _ ?h2 _ => generalize h2 end. induction (conditionTransitions _ _) as [|c l IH]; intros h2; cbn [record_transitions]; [done|].
  sat_step. sat_step; [done|]. apply IH.
Qed.

Lemma publish_unready i h : (reads_unready h -> unready i) -> sat unready_request done_ h (publish recorder i).
Proof. intros Hi. unfold publish. sat_step. eapply sat_mono; [intros ? ? H; exact H| |by apply status_sat]. done. Qed.

(** ** The reconciler *)
Lemma schedules_unready i now canRun h :
  sat unready_request (fun h' x => extends h h' /\ forall i' d, x = Some (Ok (i', d)) -> st_Conditions (msp_Status i') = st_Conditions (msp_Status i))
    h (reconcileBackupSchedules DefaultBackupSchedule i now canRun).
Proof.
  unfold reconcileBackupSchedules. destruct (spec_Backup _) as [backup|].
  2:{ split; [apply extends_refl|]. by intros i' d [= <- <-]. }
  sat_step. eapply sat_mono_later; [| |apply reconcile_schedules_requests].
  - intros h' r _ [Hr _] _. destruct r as [| | | |k o| | | | | | | | |]; try done.
  - intros h' [[[l d]|e]|] He _; (split; [exact He|]); [|done..]. by intros i' d' [= <- <-].
Qed.

Lemma publish_revision_unready i ops h : (reads_unready h -> unready i) ->
  sat unready_request done_ h (publish_revision DefaultBackupSchedule recorder i ops).
Proof.
  intros Hi. unfold publish_revision. sat_step. sat_step; [done|].
  match goal with |- context[if allSitesApplied ?a ?b then setAppliedInstanceReady ?k _ _ else ?k] => set (i' := if allSitesApplied a b then _ else k) end.
  assert (Hi' : unready i -> unready i').
  { intros H. unfold i'. match goal with |- unready (if ?b then _ else _) => destruct b end; [apply applied_unready|];
      (apply unready_condition; [|discriminate|right; discriminate]); (apply unready_status; [reflexivity|]);
      apply topology_unready; by apply unready_status. }
  sat_step. eapply sat_mono; [intros ? ? H; exact H| |apply quiet_unready, lifecycle_quiet]. intros h1 [active|e] He1; [|done].
  sat_step. sat_step; [done|]. sat_step. eapply sat_mono; [intros ? ? H; exact H| |apply schedules_unready].
  intros h2 x1 [He2 Hx].
  assert (Hr : reads_unready h2 -> unready i').
  { intros Hu. apply Hi', Hi. eapply reads_earlier; [|exact Hu]. eapply extends_trans; [|exact He2]. apply extends_cons_r.
    eapply extends_trans; [|exact He1]. apply extends_cons. }
  destruct x1 as [[[i2 requeue]|e]|]; [|apply publish_unready|done].
  - sat_step. eapply sat_mono; [intros ? ? H; exact H| |apply status_sat]; [by intros h3 [?|] _|].
    intros Hu. specialize (Hr Hu). specialize (Hx _ _ eq_refl). unfold unready in *. by rewrite Hx.
  - intros Hu. apply unready_condition; [by apply Hr|discriminate|right; discriminate].
Qed.

Lemma plan_revision_unready fuel i found ops h : (reads_unready h -> unready i) ->
  sat unready_request done_ h (plan_revision SystemNamespace DefaultBackupSchedule recorder fuel i found ops).
Proof.
  intros Hi. unfold plan_revision. sat_step. eapply sat_mono; [intros ? ? H; exact H| |apply quiet_unready, addressPlan_quiet].
  intros h1 [addresses|e] He1; [|done]. sat_step. eapply sat_mono; [intros ? ? H; exact H| |apply quiet_unready, rotation_quiet].
  intros h2 [rotation|e] He2; [|done]. destruct (planFingerprint _ _ _ _ _) as [fp|]; [|done].
  match goal with |- context[if ?b then ?x else i] => set (i' := if b then x else i) end.
  sat_step. eapply sat_mono; [intros ? ? H; exact H| |apply quiet_unready, ensureSigningKey_quiet].
  intros h3 [[key|e]|] He3; [|done..]. sat_step. eapply sat_mono; [intros ? ? H; exact H| |apply quiet_unready, issue_plans_quiet].
  intros h4 [e|] He4; [done|]. apply publish_revision_unready. intros Hu.
  assert (unready i) as H. { apply Hi. eapply reads_earlier; [|exact Hu]. do 3 (eapply extends_trans; [eassumption|]). done. }
  unfold i'. destruct (_ != _); [|done]. apply unready_status; [reflexivity|]. by apply unready_status.
Qed.

Lemma plan_operations_unready fuel i found h : (reads_unready h -> unready i) ->
  sat unready_request done_ h (plan_operations SystemNamespace DefaultBackupSchedule recorder fuel i found).
Proof.
  intros Hi. unfold plan_operations. sat_step. eapply sat_mono; [intros ? ? H; exact H| |apply quiet_unready, restorePlan_quiet].
  intros h1 x He1. assert (H1 : reads_unready h1 -> unready i) by (intros Hu; apply Hi, (reads_earlier h h1); [exact He1|exact Hu]).
  destruct x as [restore|e]; [|apply publish_unready; intros Hu; by apply not_ready_in_unready, H1].
  sat_step. eapply sat_mono; [intros ? ? H; exact H| |apply quiet_unready, upgradePlans_quiet].
  intros h2 x He2. assert (H2 : reads_unready h2 -> unready i) by (intros Hu; apply H1, (reads_earlier h1 h2); [exact He2|exact Hu]).
  destruct x as [upgrades|e]; [|apply publish_unready; intros Hu; by apply not_ready_in_unready, H2].
  destruct (_ && _).
  { apply publish_unready. intros Hu. apply not_ready_in_unready. apply unready_condition; [by apply H2|discriminate|right; discriminate]. }
  destruct (missingPlanCapabilities _ _ _); [by apply plan_revision_unready|].
  apply publish_unready. intros Hu. by apply not_ready_in_unready, H2.
Qed.

Lemma check_sites_unready i sites found h :
  sat unready_request (fun h' x => extends h h' /\ forall i', x = inl i' -> unready i -> unready i') h (check_sites i sites found).
Proof.
  revert found h. induction sites as [|site sites IH]; intros found h; cbn [check_sites]; [by split; [apply extends_refl|]|].
  sat_step. sat_step; [done|]. destruct x as [reg|e].
  2:{ split; [keep_history|]. intros i' [= <-] H. apply not_ready_in_unready. unready. }
  destruct (validateSitePolicy site reg).
  { split; [keep_history|]. intros i' [= <-] H. apply not_ready_in_unready. unready. }
  eapply sat_mono; [intros ? ? H; exact H| |apply IH]. intros h' x [He Hx]. split; [|done]. eapply extends_trans; [apply extends_cons|exact He].
Qed.

Lemma declarations_unready i h :
  sat unready_request (fun h' x => extends h h' /\ forall i', x = Ok i' -> unready i -> unready i') h (aggregateDeclarationAndUpgradeStatus i).
Proof.
  unfold aggregateDeclarationAndUpgradeStatus.
  do 3 (sat_step; sat_step; [done|]; match goal with |- sat _ _ _ (match ?x with _ => _ end) => destruct x end; [|by split; [keep_history|]]).
  split; [keep_history|]. intros i' [= <-] H. destruct (0 <? _)%nat; destruct (List.find _ _); unready.
Qed.

Lemma reconcile_live_unready fuel i h : (reads_unready h -> unready i) ->
  sat unready_request done_ h (reconcile_live SystemNamespace DefaultBackupSchedule recorder fuel i).
Proof.
  intros Hi. unfold reconcile_live. sat_step. eapply sat_mono; [intros ? ? H; exact H| |apply declarations_unready].
  intros h1 [i1|e] [He1 H1]; [|done]. specialize (H1 _ eq_refl).
  assert (Hi1 : reads_unready h1 -> unready i1).
  { intros Hu. apply H1. apply unready_status; [reflexivity|]. by apply Hi, (reads_earlier h h1). }
  sat_step. eapply sat_mono; [intros ? ? H; exact H| |apply check_sites_unready]. intros h2 x [He2 H2].
  assert (Hi2 : reads_unready h2 -> unready i1) by (intros Hu; by apply Hi1, (reads_earlier h1 h2)).
  destruct x as [rejected|found]; [apply publish_unready; intros Hu; by apply (H2 _ eq_refl), Hi2|].
  unfold validateInstanceClaims. sat_step. sat_step. sat_step; [done|]. destruct x as [instances|e]; cbn [sat].
  2:{ apply publish_unready. intros Hu. apply not_ready_in_unready. assert (unready i1) by (apply Hi2; eapply reads_earlier; [apply extends_cons|exact Hu]). unready. }
  match goal with |- sat _ _ ?h3 _ => assert (Hi3 : reads_unready h3 -> unready i1) by
    (intros Hu; apply Hi2; eapply reads_earlier; [apply extends_cons|exact Hu]) end.
  destruct (claims_conflict _ _).
  { apply publish_unready. intros Hu. specialize (Hi3 Hu). apply not_ready_in_unready. unready. }
  destruct (0 <? _)%nat.
  { apply publish_unready. intros Hu. specialize (Hi3 Hu). apply not_ready_in_unready. unready. }
  apply plan_operations_unready. intros Hu. specialize (Hi3 Hu). unfold report_control_sites. destruct (0 <? _)%nat; unready.
Qed.

Lemma finalize_unready fuel i h : (reads_unready h -> unready i) -> sat unready_request done_ h (finalize SystemNamespace recorder fuel i).
Proof.
  intros Hi. unfold finalize. destruct (negb _); [done|].
  assert (Hrel : forall h, sat unready_request done_ h (release_instance i)).
  { intros h1. eapply sat_mono; [intros ? ? H; exact H| |apply quiet_unready, release_quiet]. done. }
  destruct (_ == "true"); [apply Hrel|]. sat_step.
  eapply sat_mono; [intros ? ? H; exact H| |apply quiet_unready]; [|unfold referencingDeclarations; quiet].
  intros h1 x He1. assert (H1 : reads_unready h1 -> unready i) by (intros Hu; apply Hi, (reads_earlier h h1); [exact He1|exact Hu]).
  assert (Hblock : forall reason e m, sat unready_request done_ h1 (deletion_blocked recorder i reason e m)).
  { intros. apply publish_unready. intros Hu. specialize (H1 Hu). unfold set_deletion_operation. unready. }
  destruct x as [children|e]; [|done]. destruct (negb _); [apply Hblock|]. destruct (_ != _).
  - destruct (_ && _); [apply Hblock|]. unfold issueDeletionPlans. sat_step. sat_step.
    eapply sat_mono; [intros ? ? H; exact H| |apply quiet_unready, ensureSigningKey_quiet]. intros h2 [[key|e]|] He2; [|done..].
    sat_step. eapply sat_mono; [intros ? ? H; exact H| |apply quiet_unready, issue_deletions_quiet]. intros h3 [statuses|e] He3; [|done].
    sat_step. eapply sat_mono; [intros ? ? H; exact H| |apply status_sat]; [done|]. intros Hu.
    assert (unready i). { apply H1, (reads_earlier h1 h2); [exact He2|]. apply (reads_earlier h2 h3); [exact He3|exact Hu]. }
    unfold set_deletion_operation, advance_revision. unready.
  - destruct (srs_Name <$> _); [apply Hrel|]. apply publish_unready. intros Hu. specialize (H1 Hu). unfold set_deletion_operation. unready.
Qed.

(** The instance controller never makes an instance ready whose
    [EtcdTLSReady] condition is not already true: as long as the instances it
    reads have neither that condition nor [Ready], no status it writes has
    either of them. The condition is required for readiness, and no code of the
    controller computes it. *)
Theorem controller_never_reports_trust fuel namespace name :
  sat unready_request done_ [] (Reconcile SystemNamespace DefaultBackupSchedule recorder fuel namespace name).
Proof.
  unfold Reconcile. sat_step. sat_step; [done|]. destruct x as [i|e]; [|done].
  match goal with |- sat _ _ ?h _ => assert (Hi : reads_unready h -> unready i) by (intros Hu; apply Hu; do 2 eexists; by apply elem_of_cons; left) end.
  destruct (meta_DeletionTimestamp _); [by apply finalize_unready|]. destruct (negb _); [|by apply reconcile_live_unready].
  sat_step. by sat_step.
Qed.
End readiness.

Lemma controller_never_reports_trust_witness : exists o x,
  (run MemServer.serve RefInstance.reconcile RefInstance.start []).2 !! 0%nat = Some (existT (UpdateStatus KInstance o) x) /\
  reads_unready (drop 1 (run MemServer.serve RefInstance.reconcile RefInstance.start []).2) /\ unready o.
Proof.
  eassert (Hn : (run MemServer.serve RefInstance.reconcile RefInstance.start []).2 !! 0%nat =
    Some (existT (UpdateStatus KInstance _) _)) by (vm_compute; reflexivity).
  pose proof (sat_run_lookup _ _ _ _ _ _ _ (controller_never_reports_trust "" "" false 2 "ns" "pg") Hn) as H.
  assert (Hu : reads_unready (drop 1 (run MemServer.serve RefInstance.reconcile RefInstance.start []).2)).
  { intros i (ns & n & Hi). revert Hi.
    assert (Hall : Forall (fun e => match e with existT (Get KInstance _ _) (Ok i) => st_Conditions (msp_Status i) = [] | _ => True end)
      (drop 1 (run MemServer.serve RefInstance.reconcile RefInstance.start []).2)) by (vm_compute; repeat constructor).
    rewrite list.Forall_forall in Hall. intros Hi. specialize (Hall _ Hi). cbn in Hall. unfold unready. rewrite Hall. split; apply lacks_nil. }
  eexists _, _. split; [exact Hn|]. split; [exact Hu|]. exact (H Hu).
Defined.
