(* ===== verification/SiteRegistration.v ===== *)
(** * The site registration controller

    [internal/controller/siteregistration_controller.go]: the controller of a
    [SiteRegistration] issues the registration token, keeps the health of the
    agent's connection in the status, revokes the site's access, and releases a
    deleted registration when nothing uses it any more.

    [Reconcile] returns [None] where the creation of the WireGuard identity or of
    the signing key does not end within the fuel. *)
From S2P Require Import Prelude Prog Api Workloads Kube ApiServer Codec NetAddr Plan WireGuard Registration Admission Instance.

Record SiteRegistrationReconciler := mkSiteRegistrationReconciler {
  srr_SystemNamespace : string;
  srr_RegistrationPublicURL : string;
  srr_WireGuardNetworkCIDR : string
}.

Definition siteHeartbeatTimeout : Duration := (150 * second)%Z.

Definition minPositive (current candidate : Duration) : Duration :=
  if (candidate <=? 0)%Z then current
  else if (current =? 0)%Z || (candidate <? current)%Z then candidate else current.

Definition token_name (uid : string) : string := "registration-" +:+ uid.

Section controller.
Context {K : KubeLib} {C : Crypto} {Cu : Curve} {TT : TimeText}.

Definition tokenExpired (data : gmap string string) (now : Time) : bool :=
  let encoded := data !!! "expiresAt" in
  if (data !!! "sha256" == "") || (encoded == "") then true
  else match ParseTime encoded with
  | None => true
  | Some expiresAt => negb (time_Before now expiresAt)
  end.

Definition set_registration_condition (site : SiteRegistration) (conditionType status reason message : string) : SiteRegistration :=
  site <| reg_Status ::= fun st => st <| regst_Conditions ::= fun cs =>
    setCondition cs (meta_Generation (reg_Meta site)) conditionType status reason message |> |>.
Definition set_phase (phase : string) (site : SiteRegistration) : SiteRegistration :=
  site <| reg_Status ::= fun st => st <| regst_Phase := phase |> |>.
Definition observe_generation (site : SiteRegistration) : SiteRegistration :=
  site <| reg_Status ::= fun st => st <| regst_ObservedGeneration := meta_Generation (reg_Meta site) |> |>.

Definition refreshRegistrationHealth (site : SiteRegistration) (now : Time) : SiteRegistration * Duration :=
  let site := set_registration_condition (set_phase "Pending" site) "Registered" ConditionFalse "AwaitingAgent"
    "Waiting for the site agent to bind this registration" in
  if regst_ClusterUID (reg_Status site) == "" then (site, 0%Z)
  else
    let site := set_registration_condition (set_phase "Registered" site) "Registered" ConditionTrue "ClusterBound"
      "Registration is bound to an immutable Kubernetes cluster UID" in
    let stale := (set_registration_condition site "Connected" ConditionFalse "HeartbeatStale"
      "No authenticated site agent heartbeat is current", 0%Z) in
    let '(site, requeueAfter) :=
      match regst_LastHeartbeatTime (reg_Status site) with
      | Some heartbeat =>
          if (time_Sub now heartbeat <=? siteHeartbeatTimeout)%Z then
            (set_registration_condition (set_phase "Connected" site) "Connected" ConditionTrue "HeartbeatCurrent"
               "The authenticated site agent heartbeat is current",
             int64 (siteHeartbeatTimeout - time_Sub now heartbeat))
          else stale
      | None => stale
      end in
    match regst_AgentCertificateExpiresAt (reg_Status site) with
    | None => (set_registration_condition site "IdentityReady" ConditionFalse "CertificateExpiryUnknown"
        "The agent has not reported its certificate expiry", requeueAfter)
    | Some expiresAt =>
        if negb (time_Before now expiresAt) then
          (set_registration_condition site "IdentityReady" ConditionFalse "CertificateExpired"
             "The agent mTLS certificate has expired", requeueAfter)
        else if time_After (time_Add now (2 * hour)%Z) expiresAt then
          (set_registration_condition site "IdentityReady" ConditionFalse "CertificateExpiring"
             "The agent mTLS certificate is approaching expiry", minPositive requeueAfter (time_Sub expiresAt now))
        else
          (set_registration_condition site "IdentityReady" ConditionTrue "CertificateCurrent"
             "The agent mTLS certificate is current",
           minPositive requeueAfter (time_Sub (time_Add expiresAt (- (2 * hour))%Z) now))
    end.

Section reconciler.
Context (r : SiteRegistrationReconciler).

(** [retry.RetryOnConflict] of a status update of the registration as it is
    stored. *)
Definition update_site_status {A} (site : SiteRegistration) (change : SiteRegistration -> SiteRegistration * A) : kprog (result A) :=
  RetryOnConflict (
    let! current := call (Get KRegistration (meta_Namespace (reg_Meta site)) (meta_Name (reg_Meta site))) onerr e => Ret (Err e) in
    let '(current, a) := change (observe_generation current) in
    let! _ := call (UpdateStatus KRegistration current) onerr e => Ret (Err e) in
    Ret (Ok a)).

Definition updateControllerStatus (desired : SiteRegistration) (now : Time) (peerReady : bool) : kprog (result Duration) :=
  let registrationURL := regst_RegistrationURL (reg_Status desired) in
  let registrationExpiresAt := regst_RegistrationExpiresAt (reg_Status desired) in
  update_site_status desired (fun current =>
    let current :=
      if registrationURL != "" then
        current <| reg_Status ::= fun st => st <| regst_RegistrationURL := registrationURL |>
          <| regst_RegistrationExpiresAt := registrationExpiresAt |> |>
      else current in
    let '(current, requeueAfter) := refreshRegistrationHealth current now in
    (if peerReady then
       set_registration_condition current "WireGuardReady" ConditionTrue "PeerAuthorized"
         "The site WireGuard peer is present in the gateway configuration"
     else
       set_registration_condition current "WireGuardReady" ConditionFalse "AwaitingPeer"
         "Waiting for the site agent to authorize its WireGuard key",
     requeueAfter)).

Definition setSiteDeletionBlocked (site : SiteRegistration) (blocking : list string) : kprog (result unit) :=
  update_site_status site (fun current =>
    (set_registration_condition (set_phase "DeletionBlocked" current) "DeletionBlocked" ConditionTrue "ReferencedByInstances"
       ("Site is still referenced by: " +:+ Join blocking ", "), tt)).

Definition setSiteGatewayObservationPending (site : SiteRegistration) : kprog (result unit) :=
  update_site_status site (fun current =>
    (set_registration_condition (set_phase "Revoking" current) "WireGuardReady" ConditionFalse "GatewayObservationPending"
       "Waiting for gateway replicas to observe the rendered peer removal", tt)).

Definition revoked_status (current : SiteRegistration) : SiteRegistration :=
  let current := set_phase "Revoked" current <| reg_Status ::= fun st =>
    st <| regst_RegistrationURL := "" |> <| regst_RegistrationExpiresAt := None |> |> in
  let current := set_registration_condition current "Registered" ConditionFalse "AdministrativelyRevoked"
    "The site identity has been revoked" in
  let current := set_registration_condition current "Connected" ConditionFalse "AdministrativelyRevoked"
    "Control connections from this site are rejected" in
  let current := set_registration_condition current "IdentityReady" ConditionFalse "AdministrativelyRevoked"
    "The site identity has been revoked" in
  set_registration_condition current "WireGuardReady" ConditionFalse "AdministrativelyRevoked"
    "The WireGuard peer has been removed".

Definition reconcileRevoked (site : SiteRegistration) (systemNamespace : string) : kprog (result unit) :=
  let* deleted := call (Delete KSecret (mkSecret (zero_ObjectMeta <| meta_Namespace := systemNamespace |>
    <| meta_Name := token_name (meta_UID (reg_Meta site)) |>) None ∅)) in
  match (match deleted with Ok _ => None | Err e => IgnoreNotFound e end) with
  | Some e => Ret (Err e)
  | None =>
      let! _ := RevokePeer systemNamespace (meta_UID (reg_Meta site)) onerr e => Ret (Err e) in
      update_site_status site (fun current => (revoked_status current, tt))
  end.

(** Whether an instance still needs the registration. *)
Definition references_site (siteName : string) (instance : MultiSitePostgres) : bool :=
  negb (negb (is_nil (meta_DeletionTimestamp (msp_Meta instance))) &&
        (meta_Annotations (msp_Meta instance) !!! forceOrphanAnnotation == "true")) &&
  existsb (fun site => site_SiteRegistrationRef site == siteName) (spec_Sites (msp_Spec instance)).

Definition referencingInstances (siteName : string) : kprog (result (list string)) :=
  let! instances := call (List KInstance None ∅) onerr e => Ret (Err e) in
  Ret (Ok ((fun instance : MultiSitePostgres => meta_Namespace (msp_Meta instance) +:+ "/" +:+ meta_Name (msp_Meta instance)) <$>
    List.filter (references_site siteName) instances)).

(** The gateway was rolled out with the rendered peers. *)
Definition gateway_current (deployment : Deployment) (peers : ConfigMap) : bool :=
  (pt_Annotations (dep_Template deployment) !!! PeersHashAnnotation == RenderedPeerHash (cm_Data peers !!! "peers.conf")) &&
  (meta_Generation (dep_Meta deployment) <=? dep_ObservedGeneration deployment)%Z &&
  (default 1 (dep_Replicas deployment) <=? dep_AvailableReplicas deployment)%Z.

Definition gatewayObservedRevocation (systemNamespace : string) : kprog (result bool) :=
  let! configMap := call (Get KConfigMap systemNamespace PeersConfigMapName) onerr e =>
    Ret (if IsNotFound e then Ok true else Err e) in
  let! deployment := call (Get KDeployment systemNamespace GatewayDeploymentName) onerr e =>
    Ret (if IsNotFound e then Ok true else Err e) in
  Ret (Ok (gateway_current deployment configMap)).

Definition release_registration_once (site : SiteRegistration) : kprog (result unit) :=
  let! current := call (Get KRegistration (meta_Namespace (reg_Meta site)) (meta_Name (reg_Meta site))) onerr e => Ret (Err e) in
  let! _ := call (Update KRegistration (current <| reg_Meta ::= fun m => RemoveFinalizer m siteFinalizer |>)) onerr e => Ret (Err e) in
  Ret (Ok tt).

Definition reconcileSiteDeletion (site : SiteRegistration) (systemNamespace : string) : kprog Outcome :=
  if negb (ContainsFinalizer (reg_Meta site) siteFinalizer) then Ret (Done, None)
  else
    let! blocking := referencingInstances (meta_Name (reg_Meta site)) onerr e => Ret (Done, Some e) in
    if (0 <? length blocking)%nat then
      let* x := setSiteDeletionBlocked site blocking in
      Ret (mkResult (siteHeartbeatTimeout `div` 2)%Z, match x with Ok _ => None | Err e => Some e end)
    else
      let! _ := reconcileRevoked site systemNamespace onerr e => Ret (Done, Some e) in
      let! observed := gatewayObservedRevocation systemNamespace onerr e => Ret (Done, Some e) in
      if negb observed then
        let* x := setSiteGatewayObservationPending site in
        Ret (mkResult (5 * second)%Z, match x with Ok _ => None | Err e => Some e end)
      else
        let* x := RetryOnConflict (release_registration_once site) in
        Ret (finish x).

Definition system_namespace_of : string :=
  if srr_SystemNamespace r == "" then "mspsql-system" else srr_SystemNamespace r.

(** The Secret of a token. *)
Definition token_secret (site : SiteRegistration) (systemNamespace : string) (token : Token) : Secret :=
  mkSecret (zero_ObjectMeta <| meta_Namespace := systemNamespace |> <| meta_Name := token_name (meta_UID (reg_Meta site)) |>)
    (Some true) (list_to_map [("sha256", tok_Hash token); ("expiresAt", FormatTime (tok_ExpiresAt token))]).

Definition registration_url (token : Token) : string :=
  (if srr_RegistrationPublicURL r == "" then "https://registration.invalid" else srr_RegistrationPublicURL r) +:+
  "/" +:+ tok_Value token +:+ "/registration.yaml".

(** A new token, where the old one was found ([existing]) or not. *)
Definition issue_token (site : SiteRegistration) (systemNamespace : string) (existing : bool) : kprog (result SiteRegistration) :=
  let* now := call Now in
  let! token := NewToken now onerr e => Ret (Err e) in
  let secret := token_secret site systemNamespace token in
  let! _ := (if existing then call (Delete KSecret secret) else Ret (Ok tt)) onerr e => Ret (Err e) in
  match SetControllerReference (k:=KRegistration) site (sec_Meta secret) with
  | Err e => Ret (Err e)
  | Ok meta =>
      let! _ := call (Create KSecret (secret <| sec_Meta := meta |>)) onerr e => Ret (Err e) in
      Ret (Ok (site <| reg_Status ::= fun st => st <| regst_RegistrationURL := registration_url token |>
        <| regst_RegistrationExpiresAt := Some (tok_ExpiresAt token) |> |>))
  end.

(** The registration with its token: a new one if there is none or it expired. *)
Definition ensure_token (site : SiteRegistration) (systemNamespace : string) : kprog (result SiteRegistration) :=
  let* got := call (Get KSecret systemNamespace (token_name (meta_UID (reg_Meta site)))) in
  let* expired :=
    match got with
    | Err e => if IsNotFound e then Ret true else let* now := call Now in Ret (tokenExpired ∅ now)
    | Ok secret => let* now := call Now in Ret (tokenExpired (sec_Data secret) now)
    end in
  let! site := (if expired then issue_token site systemNamespace (match got with Ok _ => true | Err _ => false end)
                else Ret (Ok site)) onerr e => Ret (Err e) in
  match got with
  | Err e => if IsNotFound e then Ret (Ok site) else Ret (Err e)
  | Ok _ => Ret (Ok site)
  end.

Definition registration_Reconcile (fuel : nat) (namespace name : string) : kprog (option Outcome) :=
  let! site := call (Get KRegistration namespace name) onerr e => Ret (Some (Done, IgnoreNotFound e)) in
  let systemNamespace := system_namespace_of in
  if negb (is_nil (meta_DeletionTimestamp (reg_Meta site))) then
    let* x := reconcileSiteDeletion site systemNamespace in Ret (Some x)
  else if negb (ContainsFinalizer (reg_Meta site) siteFinalizer) then
    let* x := call (Update KRegistration (site <| reg_Meta ::= fun m => AddFinalizer m siteFinalizer |>)) in
    Ret (Some (finish x))
  else if regs_Revoked (reg_Spec site) then
    let* x := reconcileRevoked site systemNamespace in Ret (Some (finish x))
  else
    let site := observe_generation site in
    let* hub := EnsureHubIdentity fuel systemNamespace (srr_WireGuardNetworkCIDR r) in
    match hub with
    | None => Ret None
    | Some (Err e) => Ret (Some (Done, Some e))
    | Some (Ok _) =>
        let! _ := RenderPeers systemNamespace onerr e => Ret (Some (Done, Some e)) in
        let* key := ensureSigningKey fuel systemNamespace in
        match key with
        | None => Ret None
        | Some (Err e) => Ret (Some (Done, Some e))
        | Some (Ok _) =>
            let! site := ensure_token site systemNamespace onerr e => Ret (Some (Done, Some e)) in
            let* peer := call (Get KSecret systemNamespace (peer_name (meta_UID (reg_Meta site)))) in
            match (match peer with Ok _ => None | Err e => IgnoreNotFound e end) with
            | Some e => Ret (Some (Done, Some e))
            | None =>
                let* now := call Now in
                let* x := updateControllerStatus site now (match peer with Ok _ => true | Err _ => false end) in
                Ret (Some (match x with Ok requeueAfter => (mkResult requeueAfter, None) | Err e => (Done, Some e) end))
            end
        end
    end.
End reconciler.
End controller.

(** ** Health *)
Section health.
Context {K : KubeLib} {L : KubeLaws K}.

(** Within 146 years of each other. *)
Definition near (t u : Time) : Prop := (Z.abs (t - u) < 2 ^ 62)%Z.
Definition times_near (site : SiteRegistration) (now : Time) : Prop :=
  (forall heartbeat, regst_LastHeartbeatTime (reg_Status site) = Some heartbeat -> near now heartbeat) /\
  (forall expiresAt, regst_AgentCertificateExpiresAt (reg_Status site) = Some expiresAt -> near now expiresAt).

Lemma time_Sub_near t u : (Z.abs (t - u) < 2 ^ 63)%Z -> time_Sub t u = (t - u)%Z.
Proof. unfold time_Sub, min_int64, max_int64. lia. Qed.

Lemma minPositive_le a b : (0 <= a)%Z -> (0 < minPositive a b)%Z ->
  (a = 0 \/ minPositive a b <= a)%Z /\ ((b <= 0)%Z \/ (minPositive a b <= b)%Z).
Proof.
  unfold minPositive. intros Ha. destruct (b <=? 0)%Z eqn:E; [lia|].
  destruct (a =? 0)%Z eqn:Ea; destruct (b <? a)%Z eqn:Eb; cbn [orb]; lia.
Qed.

(** The agent's heartbeat is at most 150 s old. *)
Definition heartbeat_current (site : SiteRegistration) (now : Time) : Prop :=
  exists heartbeat, regst_LastHeartbeatTime (reg_Status site) = Some heartbeat /\ (now - heartbeat <= 150 * second)%Z.
(** The agent's certificate is valid for two hours more. *)
Definition identity_current (site : SiteRegistration) (now : Time) : Prop :=
  exists expiresAt, regst_AgentCertificateExpiresAt (reg_Status site) = Some expiresAt /\ (now + 2 * hour <= expiresAt)%Z.

(** The two facts the health is made of. *)
Definition fresh (site : SiteRegistration) (now : Time) : bool :=
  match regst_LastHeartbeatTime (reg_Status site) with
  | Some heartbeat => (time_Sub now heartbeat <=? siteHeartbeatTimeout)%Z
  | None => false
  end.
Inductive CertificateState := Unknown | Expired | Expiring | Current.
Definition certificate_state (site : SiteRegistration) (now : Time) : CertificateState :=
  match regst_AgentCertificateExpiresAt (reg_Status site) with
  | None => Unknown
  | Some expiresAt =>
      if negb (time_Before now expiresAt) then Expired
      else if time_After (time_Add now (2 * hour)%Z) expiresAt then Expiring else Current
  end.
Definition with_health (site : SiteRegistration) (connected : bool) (certificate : CertificateState) : SiteRegistration :=
  let site := set_registration_condition (set_phase "Pending" site) "Registered" ConditionFalse "AwaitingAgent"
    "Waiting for the site agent to bind this registration" in
  let site := set_registration_condition (set_phase "Registered" site) "Registered" ConditionTrue "ClusterBound"
    "Registration is bound to an immutable Kubernetes cluster UID" in
  let site :=
    if connected then set_registration_condition (set_phase "Connected" site) "Connected" ConditionTrue "HeartbeatCurrent"
      "The authenticated site agent heartbeat is current"
    else set_registration_condition site "Connected" ConditionFalse "HeartbeatStale"
      "No authenticated site agent heartbeat is current" in
  match certificate with
  | Unknown => set_registration_condition site "IdentityReady" ConditionFalse "CertificateExpiryUnknown"
      "The agent has not reported its certificate expiry"
  | Expired => set_registration_condition site "IdentityReady" ConditionFalse "CertificateExpired"
      "The agent mTLS certificate has expired"
  | Expiring => set_registration_condition site "IdentityReady" ConditionFalse "CertificateExpiring"
      "The agent mTLS certificate is approaching expiry"
  | Current => set_registration_condition site "IdentityReady" ConditionTrue "CertificateCurrent"
      "The agent mTLS certificate is current"
  end.
(** Until the heartbeat is stale, and until the certificate's state changes. *)
Definition heartbeat_left (site : SiteRegistration) (now : Time) : Duration :=
  match regst_LastHeartbeatTime (reg_Status site) with
  | Some heartbeat => if fresh site now then int64 (siteHeartbeatTimeout - time_Sub now heartbeat) else 0%Z
  | None => 0%Z
  end.
Definition certificate_left (site : SiteRegistration) (now : Time) : Duration :=
  match regst_AgentCertificateExpiresAt (reg_Status site), certificate_state site now with
  | Some expiresAt, Expiring => time_Sub expiresAt now
  | Some expiresAt, Current => time_Sub (time_Add expiresAt (- (2 * hour))%Z) now
  | _, _ => 0%Z
  end.

Lemma refresh_split site now : regst_ClusterUID (reg_Status site) <> "" ->
  refreshRegistrationHealth site now =
  (with_health site (fresh site now) (certificate_state site now),
   minPositive (heartbeat_left site now) (certificate_left site now)).
Proof.
  intros Hb. unfold refreshRegistrationHealth, fresh, certificate_state, heartbeat_left, certificate_left, fresh, certificate_state.
  destruct site as [m sp [g uid ph url ex hb ce v sc vs iss cp cs]]. cbn [reg_Status regst_ClusterUID] in Hb.
  cbn -[time_Sub time_After time_Before time_Add minPositive siteHeartbeatTimeout hour int64 with_health setCondition Z.leb].
  rewrite bool_decide_eq_false_2 by done.
  destruct hb as [hb|]; [destruct (time_Sub now hb <=? siteHeartbeatTimeout)%Z|];
    cbn -[time_Sub time_After time_Before time_Add minPositive siteHeartbeatTimeout hour int64 with_health setCondition Z.leb];
    (destruct ce as [ce|]; [destruct (negb (time_Before now ce)); [|destruct (time_After _ _)]|]); reflexivity.
Qed.

Lemma health_conditions site connected certificate :
  let site' := with_health site connected certificate in
  conditionTrue (regst_Conditions (reg_Status site')) "Connected" = connected /\
  (conditionTrue (regst_Conditions (reg_Status site')) "IdentityReady" = true <-> certificate = Current) /\
  (regst_Phase (reg_Status site') = "Connected" <-> connected = true).
Proof.
  destruct connected, certificate; cbn -[setCondition conditionTrue]; rewrite !conditionTrue_setCondition; cbn;
    split_and!; (reflexivity || by split).
Qed.

Lemma fresh_exact site now : times_near site now -> fresh site now = true <-> heartbeat_current site now.
Proof.
  intros [Hn _]. unfold fresh, heartbeat_current, siteHeartbeatTimeout. destruct (regst_LastHeartbeatTime _) as [hb|]; [|naive_solver].
  specialize (Hn _ eq_refl). unfold near in Hn. rewrite time_Sub_near by lia. rewrite Z.leb_le. naive_solver.
Qed.

Lemma current_exact site now : certificate_state site now = Current <-> identity_current site now.
Proof.
  unfold certificate_state, identity_current, time_Before, time_After, time_Add.
  destruct (regst_AgentCertificateExpiresAt _) as [e|]; [|naive_solver].
  assert (Hh : (0 < 2 * hour)%Z) by reflexivity.
  destruct (now <? e)%Z eqn:E1; cbn [negb]; bool_to_prop; [destruct (e <? now + 2 * hour)%Z eqn:E2; bool_to_prop|]; naive_solver lia.
Qed.

(** The heartbeat stays current, or stale, until the time it has left. *)
Lemma fresh_until site now t : times_near site now -> (now <= t)%Z ->
  (0 < heartbeat_left site now)%Z /\ (t < now + heartbeat_left site now)%Z \/ heartbeat_left site now = 0%Z /\ fresh site now = false ->
  (t < now + 2 ^ 62)%Z -> fresh site t = fresh site now.
Proof.
  intros [Hn _]. unfold heartbeat_left, fresh, siteHeartbeatTimeout. destruct (regst_LastHeartbeatTime _) as [hb|]; [|done].
  specialize (Hn _ eq_refl). unfold near in Hn. intros Ht Hd Hb. revert Hd. rewrite !time_Sub_near by lia.
  assert (Hs : (0 < 150 * second < 2 ^ 40)%Z) by (by vm_compute).
  destruct (now - hb <=? 150 * second)%Z eqn:E; bool_to_prop.
  - rewrite int64_id by (unfold is_int64, min_int64, max_int64; lia). intros [[_ Hd]|[_ ?]]; [|done]. apply Z.leb_le. lia.
  - intros _. apply Z.leb_gt. lia.
Qed.

Lemma certificate_until site now t : times_near site now -> (now <= t)%Z ->
  (0 < certificate_left site now)%Z /\ (t < now + certificate_left site now)%Z \/
    (certificate_state site now = Unknown \/ certificate_state site now = Expired) ->
  certificate_state site t = certificate_state site now.
Proof.
  intros [_ Hn]. unfold certificate_left, certificate_state, time_Before, time_After, time_Add.
  destruct (regst_AgentCertificateExpiresAt _) as [e|]; [|done]. specialize (Hn _ eq_refl). unfold near in Hn. intros Ht.
  assert (Hs : (0 < 2 * hour < 2 ^ 60)%Z) by (by vm_compute).
  destruct (now <? e)%Z eqn:E1; cbn [negb]; bool_to_prop.
  - destruct (e <? now + 2 * hour)%Z eqn:E2; bool_to_prop; (intros [[_ Hd]|[?|?]]; [|done..]); rewrite time_Sub_near in Hd by lia.
    + replace (t <? e)%Z with true by lia. cbn [negb]. by replace (e <? t + 2 * hour)%Z with true by lia.
    + replace (t <? e)%Z with true by lia. cbn [negb]. by replace (e <? t + 2 * hour)%Z with false by lia.
  - intros _. by replace (t <? e)%Z with false by lia.
Qed.

(** A time to check again that leaves no change unseen: neither fact is on the
    instant of its deadline. *)
Definition off_deadline (site : SiteRegistration) (now : Time) : Prop :=
  (forall heartbeat, regst_LastHeartbeatTime (reg_Status site) = Some heartbeat -> (now <> heartbeat + 150 * second)%Z) /\
  (forall expiresAt, regst_AgentCertificateExpiresAt (reg_Status site) = Some expiresAt -> (now + 2 * hour <> expiresAt)%Z).

Lemma left_positive site now : times_near site now -> off_deadline site now ->
  (0 <= heartbeat_left site now)%Z /\ (heartbeat_left site now < 2 ^ 63)%Z /\
  (heartbeat_left site now = 0%Z -> fresh site now = false) /\
  ((certificate_left site now <= 0)%Z -> certificate_state site now = Unknown \/ certificate_state site now = Expired).
Proof.
  intros [Hn Hc] [Ho1 Ho2]. split_and!.
  1,2,3: unfold heartbeat_left, fresh, siteHeartbeatTimeout; destruct (regst_LastHeartbeatTime _) as [hb|]; [|done];
    specialize (Hn _ eq_refl); specialize (Ho1 _ eq_refl); unfold near in Hn; rewrite !time_Sub_near by lia;
    assert (Hs : (0 < 150 * second < 2 ^ 40)%Z) by (by vm_compute);
    destruct (now - hb <=? 150 * second)%Z eqn:E; bool_to_prop;
    rewrite ?int64_id by (unfold is_int64, min_int64, max_int64; lia); lia || done.
  unfold certificate_left, certificate_state, time_Before, time_After, time_Add.
  destruct (regst_AgentCertificateExpiresAt _) as [e|]; [|by left]. specialize (Hc _ eq_refl). specialize (Ho2 _ eq_refl). unfold near in Hc.
  assert (Hs : (0 < 2 * hour < 2 ^ 60)%Z) by (by vm_compute).
  destruct (now <? e)%Z eqn:E1; cbn [negb]; bool_to_prop; [|by right].
  destruct (e <? now + 2 * hour)%Z eqn:E2; bool_to_prop; rewrite time_Sub_near by lia; lia.
Qed.

(** C39: A bound registration is reported connected exactly while its last
    heartbeat is at most 150 s old and its identity ready exactly while the
    certificate is valid for two more hours; and the time after which the
    controller looks again is the time of the next change: until then the
    report computed at any moment is the one that was written, and where no
    time is given it stays so (unless it is computed on the very instant of a
    deadline). *)
Theorem registration_health site now :
  times_near site now -> regst_ClusterUID (reg_Status site) <> "" ->
  let '(site', requeueAfter) := refreshRegistrationHealth site now in
  (conditionTrue (regst_Conditions (reg_Status site')) "Connected" = true <-> heartbeat_current site now) /\
  (conditionTrue (regst_Conditions (reg_Status site')) "IdentityReady" = true <-> identity_current site now) /\
  (regst_Phase (reg_Status site') = "Connected" <-> heartbeat_current site now) /\
  (off_deadline site now -> forall t, (now <= t)%Z -> (t < now + 2 ^ 62)%Z ->
     requeueAfter = 0%Z \/ (t < now + requeueAfter)%Z -> (refreshRegistrationHealth site t).1 = site').
Proof.
  intros Hn Hb. rewrite refresh_split by done.
  destruct (health_conditions site (fresh site now) (certificate_state site now)) as (H1 & H2 & H3).
  rewrite H1, H2, H3, fresh_exact, current_exact by done. split_and!; [done..|].
  intros Ho t Ht Hfar Hr. rewrite refresh_split by done. cbn [fst].
  destruct (left_positive site now Hn Ho) as (Hp & Hpb & Hz & Hc). revert Hr. unfold minPositive.
  destruct (certificate_left site now <=? 0)%Z eqn:Ecl; bool_to_prop.
  - intros Hr. rewrite (certificate_until site now t) by auto. f_equal. apply fresh_until; try done.
    destruct (Z.eq_dec (heartbeat_left site now) 0%Z); [right; auto|left; lia].
  - destruct ((heartbeat_left site now =? 0)%Z || (certificate_left site now <? heartbeat_left site now)%Z) eqn:Emin; bool_to_prop; intros Hr;
      rewrite (certificate_until site now t) by (try done; left; lia); f_equal; apply fresh_until; try done.
    + destruct (Z.eq_dec (heartbeat_left site now) 0%Z); [right; auto|left; lia].
    + left. lia.
Qed.
End health.

(** ** What the controller does *)
Section safety.
Context {K : KubeLib} {L : KubeLaws K} {C : Crypto} {Cu : Curve} {TT : TimeText}.
Context (r : SiteRegistrationReconciler).

(** The secret was deleted, or was not there. *)
Definition secret_gone (h : khistory) (name : string) : Prop :=
  exists (o : Secret) x, existT (Delete KSecret o) x ∈ h /\ meta_Name (sec_Meta o) = name /\
    (x = Ok tt \/ exists e, x = Err e /\ IsNotFound e = true).

(** The gateway runs with the peers that are rendered, or there is none. *)
Definition gateway_observed (h : khistory) : Prop :=
  (exists ns e, existT (Get KConfigMap ns PeersConfigMapName) (Err e) ∈ h /\ IsNotFound e = true) \/
  (exists ns e, existT (Get KDeployment ns GatewayDeploymentName) (Err e) ∈ h /\ IsNotFound e = true) \/
  (exists ns peers deployment, existT (Get KConfigMap ns PeersConfigMapName) (Ok peers) ∈ h /\
     existT (Get KDeployment ns GatewayDeploymentName) (Ok deployment) ∈ h /\ gateway_current deployment peers = true).

(** A deleted registration that no instance needs, whose token and peer are
    gone. *)
Definition site_released (h : khistory) : Prop :=
  exists site instances, was_read (k:=KRegistration) h site /\ deleting (reg_Meta site) /\
    existT (List KInstance None ∅) (Ok instances) ∈ h /\
    (forall instance, instance ∈ instances -> references_site (meta_Name (reg_Meta site)) instance = false) /\
    secret_gone h (token_name (meta_UID (reg_Meta site))) /\ secret_gone h (peer_name (meta_UID (reg_Meta site))) /\
    gateway_observed h.

(** The registration no longer has access. *)
Definition withdrawn (site : SiteRegistration) : Prop := deleting (reg_Meta site) \/ regs_Revoked (reg_Spec site) = true.

(** The fields of the status the agent's side of the hub owns. *)
Definition same_agent_status (st st' : SiteRegistrationStatus) : Prop :=
  regst_ClusterUID st = regst_ClusterUID st' /\ regst_LastHeartbeatTime st = regst_LastHeartbeatTime st' /\
  regst_AgentCertificateExpiresAt st = regst_AgentCertificateExpiresAt st' /\ regst_AgentVersion st = regst_AgentVersion st' /\
  regst_DiscoveredStorageClasses st = regst_DiscoveredStorageClasses st' /\
  regst_DiscoveredVolumeSnapshotClasses st = regst_DiscoveredVolumeSnapshotClasses st' /\
  regst_DiscoveredIssuers st = regst_DiscoveredIssuers st' /\ regst_Capabilities st = regst_Capabilities st'.

Definition site_request (h : khistory) (q : Req) : Prop :=
  match q with
  | Update KRegistration o => exists cur, was_read (k:=KRegistration) h cur /\ reg_Spec o = reg_Spec cur /\ reg_Status o = reg_Status cur /\
      (reg_Meta o = AddFinalizer (reg_Meta cur) siteFinalizer \/
       reg_Meta o = RemoveFinalizer (reg_Meta cur) siteFinalizer /\ site_released h)
  | UpdateStatus KRegistration o => exists cur, was_read (k:=KRegistration) h cur /\ reg_Meta o = reg_Meta cur /\
      reg_Spec o = reg_Spec cur /\ same_agent_status (reg_Status o) (reg_Status cur)
  | Delete KSecret o => exists site, was_read (k:=KRegistration) h site /\
      (meta_Name (sec_Meta o) = token_name (meta_UID (reg_Meta site)) /\
         (withdrawn site \/ exists ns secret now, existT (Get KSecret ns (token_name (meta_UID (reg_Meta site)))) (Ok secret) ∈ h /\
            existT Now now ∈ h /\ tokenExpired (sec_Data secret) now = true) \/
       meta_Name (sec_Meta o) = peer_name (meta_UID (reg_Meta site)) /\ withdrawn site)
  | Create KSecret o => exists site, was_read (k:=KRegistration) h site /\ ~ withdrawn site
  | Create k _ | Update k _ => k = KSecret \/ k = KConfigMap \/ k = KDeployment
  | List KInstance None _ | List KSecret _ _ | Get _ _ _ | Now | RandomBytes _ => True
  | _ => False
  end.

Lemma secret_gone_extends h h' name : extends h h' -> secret_gone h name -> secret_gone h' name.
Proof. intros He (o & x & H & ?). exists o, x. split; [by apply He|done]. Qed.

Lemma gone_after (o : Secret) (x : result unit) h : match x with Ok _ => None | Err e => IgnoreNotFound e end = None ->
  secret_gone (existT (Delete KSecret o) x :: h) (meta_Name (sec_Meta o)).
Proof.
  intros Ex. exists o, x. split; [by apply elem_of_cons; left|]. split; [done|].
  destruct x as [[]|e]; [by left|right]. exists e. split; [done|]. unfold IgnoreNotFound in Ex. by destruct (IsNotFound e).
Qed.

(** Updates of the status. *)
Definition keeps_agent_status {A} (change : SiteRegistration -> SiteRegistration * A) : Prop :=
  forall o, reg_Meta (change o).1 = reg_Meta o /\ reg_Spec (change o).1 = reg_Spec o /\
    same_agent_status (reg_Status (change o).1) (reg_Status o).

Lemma update_site_status_sat {A} site (change : SiteRegistration -> SiteRegistration * A) h : keeps_agent_status change ->
  sat site_request (fun h' _ => extends h h') h (update_site_status site change).
Proof.
  intros Hch. unfold update_site_status. apply (retry_sat _ (fun h' => extends h h')); [|apply extends_refl]. intros h1 He.
  sat_step. sat_step; [done|]. destruct x as [cur|e]; [|by split; keep_history].
  destruct (change (observe_generation cur)) as [o a] eqn:E. sat_step. sat_step.
  { exists cur. specialize (Hch (observe_generation cur)). rewrite E in Hch. cbn in Hch. destruct Hch as (-> & -> & Hs).
    split_and!; [|done..]. do 2 eexists. by apply elem_of_cons; left. }
  destruct x; split; keep_history.
Qed.

Lemma revoked_keeps : keeps_agent_status (fun current => (revoked_status current, tt)).
Proof. by repeat split. Qed.

Lemma health_keeps site now : let site' := (refreshRegistrationHealth site now).1 in
  reg_Meta site' = reg_Meta site /\ reg_Spec site' = reg_Spec site /\ same_agent_status (reg_Status site') (reg_Status site).
Proof.
  destruct (decide (regst_ClusterUID (reg_Status site) = "")) as [E|E].
  - unfold refreshRegistrationHealth. cbn -[setCondition]. rewrite bool_decide_eq_true_2 by done. by repeat split.
  - rewrite refresh_split by done. cbn [fst]. unfold with_health. destruct (fresh site now), (certificate_state site now); by repeat split.
Qed.

Lemma updateControllerStatus_sat desired now ready h :
  sat site_request (fun h' _ => extends h h') h (updateControllerStatus desired now ready).
Proof.
  apply update_site_status_sat. intros o. cbv beta zeta.
  match goal with |- context[refreshRegistrationHealth ?x now] => pose proof (health_keeps x now) as Hk; destruct (refreshRegistrationHealth x now) as [o' d] end.
  cbn [fst] in *. destruct ready; cbn -[setCondition same_agent_status]; destruct (_ != ""); exact Hk.
Qed.

(** Rendering the peers and releasing an address create no secret. *)
Ltac plain := repeat (sat_step; try first [exact I|cbn; tauto]).
Lemma retry_plain {A} (fn : kprog (result A)) h : (forall h, sat site_request done_ h fn) -> sat site_request done_ h (RetryOnConflict fn).
Proof.
  intros Hfn. apply (retry_sat _ (fun _ => True)); [|done]. intros h1 _.
  eapply sat_mono; [| |apply Hfn]; [intros ? ? H; exact H|by split].
Qed.
Lemma RenderPeers_sat namespace h : sat site_request done_ h (RenderPeers namespace).
Proof.
  assert (Hh : forall rendered h, sat site_request done_ h (updateGatewayPeerHash namespace rendered)).
  { intros rendered h1. apply retry_plain. intros h2. unfold update_hash_once. plain. }
  unfold RenderPeers. repeat (sat_step; try first [exact I|cbn; tauto]; try apply Hh).
Qed.

Lemma RevokePeer_sat namespace site h : was_read (k:=KRegistration) h site -> withdrawn site ->
  sat site_request (fun h' x => extends h h' /\ (x = Ok tt -> secret_gone h' (peer_name (meta_UID (reg_Meta site)))))
    h (RevokePeer namespace (meta_UID (reg_Meta site))).
Proof.
  intros Hr Hw. unfold RevokePeer. sat_step. sat_step; [exists site; split; [done|by right]|].
  destruct (match x with Ok _ => None | Err e => IgnoreNotFound e end) as [e|] eqn:Ex; [by split; [keep_history|]|].
  match goal with |- sat _ _ ?h1 _ => set (h1' := h1) end.
  assert (Hg : secret_gone h1' (peer_name (meta_UID (reg_Meta site)))) by (by apply gone_after).
  eapply sat_mono; [intros ? ? H; exact H| |apply (sat_extends _ done_)].
  - intros h2 y [_ He]. split; [|intros _; by eapply secret_gone_extends].
    eapply extends_trans; [|exact He]. apply extends_cons.
  - sat_step. eapply sat_mono; [intros ? ? H; exact H| |apply retry_plain].
    + intros h2 [[]|] _; [apply RenderPeers_sat|done].
    + intros h2. unfold WireGuard.release_once. plain.
Qed.

Lemma reconcileRevoked_sat site namespace h : was_read (k:=KRegistration) h site -> withdrawn site ->
  sat site_request (fun h' x => extends h h' /\ (x = Ok tt -> secret_gone h' (token_name (meta_UID (reg_Meta site))) /\
      secret_gone h' (peer_name (meta_UID (reg_Meta site))))) h (reconcileRevoked site namespace).
Proof.
  intros Hr Hw. unfold reconcileRevoked. sat_step. sat_step; [exists site; split; [done|left; split; [done|by left]]|].
  destruct (match x with Ok _ => None | Err e => IgnoreNotFound e end) as [e|] eqn:Ex; [by split; [keep_history|]|].
  match goal with |- sat _ _ ?h1 _ => set (h1' := h1) end.
  assert (He1 : extends h h1') by apply extends_cons.
  assert (Hg : secret_gone h1' (token_name (meta_UID (reg_Meta site)))) by (by apply gone_after).
  sat_step. eapply sat_mono; [intros ? ? H; exact H| |apply RevokePeer_sat; [by eapply was_read_extends|done]].
  intros h2 [[]|e] [He2 Hp]; [|by split; [eapply extends_trans; eassumption|]].
  eapply sat_mono; [intros ? ? H; exact H| |apply update_site_status_sat, revoked_keeps].
  intros h3 y He3. split; [do 2 (eapply extends_trans; [eassumption|]); done|].
  intros _. split; eapply secret_gone_extends; [| |exact He3|by apply Hp]; [|exact Hg]. by eapply extends_trans.
Qed.

Lemma gateway_sat namespace h :
  sat site_request (fun h' x => extends h h' /\ (x = Ok true -> gateway_observed h')) h (gatewayObservedRevocation namespace).
Proof.
  unfold gatewayObservedRevocation. sat_step. sat_step; [done|]. destruct x as [peers|e].
  2:{ split; [keep_history|]. destruct (IsNotFound e) eqn:E; [|done]. intros _. left. do 2 eexists. split; [by apply elem_of_cons; left|done]. }
  sat_step. sat_step; [done|]. destruct x as [deployment|e].
  2:{ split; [keep_history|]. destruct (IsNotFound e) eqn:E; [|done]. intros _. right; left. do 2 eexists.
      split; [by apply elem_of_cons; left|done]. }
  split; [keep_history|]. intros [= Hg]. right; right. eexists _, peers, deployment. split_and!; [|by apply elem_of_cons; left|done].
  by apply elem_of_cons; right; apply elem_of_cons; left.
Qed.

Lemma release_registration_sat site h : site_released h ->
  sat site_request done_ h (RetryOnConflict (release_registration_once site)).
Proof.
  intros Hrel. apply (retry_sat _ (fun h' => extends h h')); [|apply extends_refl]. intros h1 He. unfold release_registration_once.
  sat_step. sat_step; [done|]. destruct x as [cur|e]; [|by split; [keep_history|]]. sat_step. sat_step.
  { exists cur. split_and!; [by do 2 eexists; apply elem_of_cons; left|done..|]. right. split; [done|].
    destruct Hrel as (st & is' & Hr & Hd & Hl & Hi & Ht & Hp & Hg). exists st, is'.
    assert (He' : extends h (existT (Get KRegistration (meta_Namespace (reg_Meta site)) (meta_Name (reg_Meta site))) (Ok cur) :: h1)) by keep_history.
    split_and!; [by eapply was_read_extends|done|by apply He'|done|by eapply secret_gone_extends..|].
    destruct Hg as [(ns & e & Hg & ?)|[(ns & e & Hg & ?)|(ns & pe & de & Hg1 & Hg2 & ?)]];
      [left; exists ns, e|right; left; exists ns, e|right; right; exists ns, pe, de]; split_and!; try done; by apply He'. }
  destruct x; split; try exact I; keep_history.
Qed.

Lemma deletion_sat site namespace h : was_read (k:=KRegistration) h site -> deleting (reg_Meta site) ->
  sat site_request done_ h (reconcileSiteDeletion site namespace).
Proof.
  intros Hr Hd. unfold reconcileSiteDeletion. destruct (negb _); [done|].
  unfold referencingInstances. sat_step. sat_step. sat_step; [done|]. destruct x as [instances|e]; [|done]. cbn [sat].
  match goal with |- sat _ _ ?h1 _ => set (h1' := h1) end. assert (He1 : extends h h1') by apply extends_cons.
  destruct (0 <? _)%nat eqn:Hb.
  { sat_step. eapply sat_mono; [intros ? ? H; exact H| |apply update_site_status_sat; by repeat split]. by intros ? []. }
  assert (Hi : forall i, i ∈ instances -> references_site (meta_Name (reg_Meta site)) i = false).
  { intros i Hi. destruct (references_site _ i) eqn:E; [|done]. apply Nat.ltb_ge in Hb. rewrite length_fmap in Hb.
    assert (Hin : List.In i (List.filter (references_site (meta_Name (reg_Meta site))) instances)) by (apply filter_In; split; [by apply list_elem_of_In|done]).
    destruct (List.filter _ _); [done|cbn in Hb; lia]. }
  sat_step. eapply sat_mono; [intros ? ? H; exact H| |apply reconcileRevoked_sat; [by eapply was_read_extends|by left]].
  intros h2 [[]|e] [He2 Hg]; [|done]. destruct (Hg eq_refl) as [Hg1 Hg2].
  sat_step. eapply sat_mono; [intros ? ? H; exact H| |apply gateway_sat].
  intros h3 [[]|e] [He3 Ho]; cbn [negb]; [| |done].
  - sat_step. eapply sat_mono; [intros ? ? H; exact H| |apply release_registration_sat]; [by intros ? ? _|].
    assert (He : extends h1' h3) by (by eapply extends_trans).
    exists site, instances. split_and!; [|done| |done|by apply (secret_gone_extends h2)..|by apply Ho].
    + eapply was_read_extends; [|exact Hr]. by eapply extends_trans.
    + apply He. by apply elem_of_cons; left.
  - sat_step. eapply sat_mono; [intros ? ? H; exact H| |apply update_site_status_sat; by repeat split]. by intros ? [].
Qed.

(** Creating the hub's identity and the signing key. *)
Lemma ensureSigningKey_harmless fuel namespace h : sat (fun _ q => wireguard_request q) done_ h (ensureSigningKey fuel namespace).
Proof.
  revert h. induction fuel as [|fuel IH]; intros h; [done|]. cbn [ensureSigningKey].
  repeat (sat_step; try first [exact I|cbn; tauto]; try apply IH).
Qed.

Lemma harmless_sat {A} site (p : kprog A) h : was_read (k:=KRegistration) h site -> ~ withdrawn site ->
  sat (fun _ q => wireguard_request q) done_ h p -> sat site_request (fun h' _ => extends h h') h p.
Proof.
  intros Hr Hw. apply sat_mono_later; [|by intros h' a He _].
  intros h' q He. destruct q as [| |k o|k o| | | | | | | | | |]; try done; destruct k; cbn; try tauto;
    try (by intros [?|[?|?]]). intros _. exists site. split; [by eapply was_read_extends|done].
Qed.

Lemma issue_token_sat site cur namespace existing h : was_read (k:=KRegistration) h cur -> ~ withdrawn cur -> reg_Meta site = reg_Meta cur ->
  (existing = true -> exists ns secret now, existT (Get KSecret ns (token_name (meta_UID (reg_Meta cur)))) (Ok secret) ∈ h /\
     existT Now now ∈ h /\ tokenExpired (sec_Data secret) now = true) ->
  sat site_request (fun h' x => extends h h' /\ forall site', x = Ok site' -> reg_Meta site' = reg_Meta cur)
    h (issue_token r site namespace existing).
Proof.
  intros Hr Hw Hm Hex. unfold issue_token. sat_step. sat_step; [done|]. unfold NewToken. sat_step. sat_step. sat_step; [done|].
  destruct x0 as [value|e]; [|by split; [keep_history|]]. cbn [sat]. sat_step.
  eapply (sat_mono _ _ (fun h' _ => extends h h')); [intros ? ? H; exact H| |].
  2:{ destruct existing; [|keep_history]. split; [|intros y; cbn [sat]; keep_history].
      exists cur. split; [eapply was_read_extends; [|done]; keep_history|]. left. cbn. rewrite Hm. split; [done|right].
      destruct (Hex eq_refl) as (ns & secret & now & H1 & H2 & H3). exists ns, secret, now. split_and!; [set_solver..|done]. }
  intros h1 [[]|e] He; [|by split]. destruct (SetControllerReference _ _) as [m|e]; [|by split].
  sat_step. sat_step; [exists cur; split; [by eapply was_read_extends|done]|]. destruct x0 as [o|e]; [|by split; [keep_history|]].
  split; [keep_history|]. by intros site' [= <-].
Qed.

Lemma ensure_token_sat site cur namespace h : was_read (k:=KRegistration) h cur -> ~ withdrawn cur -> reg_Meta site = reg_Meta cur ->
  sat site_request (fun h' x => extends h h' /\ forall site', x = Ok site' -> reg_Meta site' = reg_Meta cur)
    h (ensure_token r site namespace).
Proof.
  intros Hr Hw Hm. unfold ensure_token. sat_step. sat_step; [done|]. sat_step.
  eapply (sat_mono _ _ (fun h' expired => extends (existT (Get KSecret namespace (token_name (meta_UID (reg_Meta site)))) x :: h) h' /\
    (expired = true -> forall secret, x = Ok secret -> exists now, existT Now now ∈ h' /\ tokenExpired (sec_Data secret) now = true)));
    [intros ? ? H; exact H| |].
  2:{ destruct x as [secret|e]; [|destruct (IsNotFound e)]; [|split; [keep_history|by intros]|].
      - sat_step. sat_step; [done|]. split; [keep_history|]. intros Ht s' [= <-]. exists x. split; [by apply elem_of_cons; left|done].
      - sat_step. sat_step; [done|]. split; [keep_history|by intros]. }
  intros h1 expired [He Hx]. assert (He' : extends h h1) by (eapply extends_trans; [apply extends_cons|done]).
  sat_step. eapply (sat_mono _ _ (fun h' y => extends h h' /\ forall site', y = Ok site' -> reg_Meta site' = reg_Meta cur));
    [intros ? ? H; exact H| |].
  - intros h2 [site'|e] [He2 Hs]; [|by split]. destruct x as [secret|e]; [|destruct (IsNotFound e)]; by split.
  - destruct expired; [|by split; [done|intros ? [= <-]]].
    eapply sat_mono; [intros ? ? H; exact H| |apply (issue_token_sat site cur); [by eapply was_read_extends|done|done|]].
    + intros h2 y [He2 Hs]. split; [by eapply extends_trans|done].
    + destruct x as [secret|]; [|done]. intros _. destruct (Hx eq_refl _ eq_refl) as (now & Hn & Ht).
      exists namespace, secret, now. rewrite <- Hm. split_and!; [|done..]. apply He. by apply elem_of_cons; left.
Qed.

End safety.

(** ** The token between the controller and the registration server *)
Section token.
Context {K : KubeLib} {L : KubeLaws K} {C : Crypto} {Cu : Curve} {X : X509} {Y : Yaml} {U : UrlLib} {B : BodyCodec} {TT : TimeText} {TL : TimeTextLaws TT}.

Lemma url_digits_slash s : in_string "/" (Base64.url_digits s) = false.
Proof.
  induction s as [|c s IH]; [done|]. cbn -[bool_decide]. rewrite IH, orb_false_r.
  destruct (c == "+"%char) eqn:E1; [done|]. destruct (c == "/"%char) eqn:E2; [done|]. exact E2.
Qed.

Lemma url_encoded_nonempty v : v <> "" -> Base64.url_EncodeToString v <> "".
Proof. intros Hv. destruct v as [|c [|d [|e v]]]; [done|..]; unfold Base64.url_EncodeToString; cbn; done. Qed.

Lemma capability_path v : v <> "" ->
  parseCapabilityPath ("/" +:+ Base64.url_EncodeToString v +:+ "/registration.yaml") = Some (Base64.url_EncodeToString v, "registration.yaml").
Proof.
  intros Hv. apply url_encoded_nonempty in Hv. set (value := Base64.url_EncodeToString v) in *.
  assert (Hs : Split (value +:+ "/registration.yaml") "/" = [value; "registration.yaml"]).
  { change "/registration.yaml" with (String "/" "" +:+ "registration.yaml"). by rewrite Split_app by apply url_digits_slash. }
  assert (Ht : Trim (value +:+ "/registration.yaml") "/" = (value +:+ "/registration.yaml")).
  { apply segments_trimmed. rewrite Hs. set_solver. }
  unfold parseCapabilityPath. change (Trim ("/" +:+ value +:+ "/registration.yaml") "/") with (Trim (value +:+ "/registration.yaml") "/").
  rewrite Ht, Hs. by rewrite bool_decide_eq_false_2.
Qed.

(** The URL the controller publishes is one the registration server
    serves, for exactly as long as it says: where the server lists the secret
    the controller wrote for a token issued at a time, a request for the URL's
    path gets the manifests of that registration until ten minutes later, and
    is refused from then on. *)
Theorem published_url_served {St} (handle : forall q : Req, St -> Resp q * St) (s : HTTPServer) site systemNamespace bytes issued meta fuel body (now : Time) st :
  let value := Base64.url_EncodeToString bytes in
  let token := mkToken value (sha256 value) (time_Add issued TokenLifetime) in
  let secret := token_secret site systemNamespace token in
  (forall text, String.length (sha256 text) = sha256_Size) -> bytes <> "" ->
  SetControllerReference (k:=KRegistration) site (sec_Meta secret) = Ok meta -> regs_Revoked (reg_Spec site) = false ->
  (forall ns labels st, (handle (List KSecret ns labels) st).1 = Ok [secret <| sec_Meta := meta |>]) ->
  (forall st, (handle Now st).1 = now) -> (forall st, (handle (Get KRegistration "" (meta_Name (reg_Meta site))) st).1 = Ok site) ->
  (run handle (http_handle s fuel "GET" ("/" +:+ value +:+ "/registration.yaml") body) st []).1.1 =
  Some (if (now <? issued + 10 * minute)%Z then
          match bundle s site value with Ok text => Manifests text | Err _ => HttpError 500 "could not generate registration bundle" end
        else HttpError 401 "registration capability is invalid or expired").
Proof.
  intros value token secret Hs Hb Hc Hr Hlist Hnow Hget.
  destruct (set_controller_only (k:=KRegistration) _ _ _ Hc eq_refl) as [owner Ho].
  destruct (set_controller (k:=KRegistration) _ _ _ Hc) as [[refs Em] [r [Hctl (Ha & Hk & Hn & Hu & _)]]]. apply controller_listed in Hctl. rewrite Ho in Hctl.
  apply list_elem_of_singleton in Hctl as <-. cbn in Hk, Hn, Hu.
  assert (Hp : parseCapabilityPath ("/" +:+ value +:+ "/registration.yaml") = Some (value, "registration.yaml")) by (by apply capability_path).
  unfold http_handle. rewrite Hp. unfold authorize. cbn [bind call run].
  specialize (Hlist (Some (srv_SystemNamespace s)) ∅ st). destruct (handle (List _ _ _) st) as [x st1]. cbn [fst] in Hlist. subst x.
  cbn [authorize_secrets bind run].
  assert (Hname : HasPrefix (meta_Name (sec_Meta (secret <| sec_Meta := meta |>))) "registration-" = true).
  { rewrite Em. cbn. unfold token_name. apply HasPrefix_app. }
  rewrite Hname. cbn [negb].
  assert (Hexp : ParseTime (sec_Data (secret <| sec_Meta := meta |>) !!! "expiresAt") = Some (issued + 10 * minute)%Z).
  { change (ParseTime (FormatTime (issued + 10 * minute)%Z) = Some (issued + 10 * minute)%Z). apply parse_format. }
  rewrite Hexp. cbn [bind call run].
  specialize (Hnow st1). destruct (handle Now st1) as [x st2]. cbn [fst] in Hnow. subst x.
  assert (Hv : Verify value (sec_Data (secret <| sec_Meta := meta |>) !!! "sha256") (issued + 10 * minute)%Z now = Ok tt <-> (now < issued + 10 * minute)%Z).
  { rewrite token_Verify_Ok. change (sec_Data (secret <| sec_Meta := meta |>) !!! "sha256") with (sha256 value). rewrite Hs. tauto. }
  destruct (Verify _ _ _ _) as [[]|e].
  - replace (now <? issued + 10 * minute)%Z with true by (symmetry; apply Z.ltb_lt; tauto).
    change (sec_Meta (secret <| sec_Meta := meta |>)) with meta. rewrite Ho. cbn [authorize_owner].
    rewrite (bool_decide_eq_true_2 (or_Kind r = _)) by done. cbn [negb bind call run]. rewrite Hn.
    specialize (Hget st2). destruct (handle (Get _ _ _) st2) as [x st3]. cbn [fst] in Hget. subst x.
    rewrite (bool_decide_eq_true_2 (_ = or_UID r)) by done. rewrite Hr. done.
  - replace (now <? issued + 10 * minute)%Z with false; [done|]. symmetry. apply Z.ltb_ge. destruct (Z.lt_ge_cases now (issued + 10 * minute)%Z); [|done].
    by apply Hv in H.
Qed.
End token.

(** ** Concrete cases *)
Module RefSiteRegistration.
Import RefCodec.
Definition bound_site : SiteRegistration := zero_SiteRegistration
  <| reg_Meta := zero_ObjectMeta <| meta_Name := "a" |> <| meta_UID := "uid" |> |>
  <| reg_Status := zero_SiteRegistrationStatus <| regst_ClusterUID := "cluster" |>
       <| regst_LastHeartbeatTime := Some 0%Z |> <| regst_AgentCertificateExpiresAt := Some (2 * hour + minute)%Z |> |>.
Definition reconciler : SiteRegistrationReconciler := mkSiteRegistrationReconciler "mspsql" "https://hub" "10.254.0.0/24".

(** A deleted registration, with its token. *)
Definition deleted_site : SiteRegistration := bound_site
  <| reg_Meta := zero_ObjectMeta <| meta_Name := "a" |> <| meta_UID := "uid" |> <| meta_Finalizers := [siteFinalizer] |>
       <| meta_DeletionTimestamp := Some 0%Z |> |>.
Definition cluster : MemServer.server := MemServer.add (k:=KRegistration) deleted_site MemServer.empty.
Definition release : kprog (option Outcome) := registration_Reconcile (Cu:=RefRegistration.curve) reconciler 3 "" "a".

Definition bytes : string := "0123456789".
#[local] Instance crypto : Crypto := RefRegistration.crypto.
Definition token : Token :=
  let value := Base64.url_EncodeToString bytes in mkToken value (sha256 value) (time_Add 0 TokenLifetime)%Z.
Definition secret : Secret := token_secret bound_site "mspsql" token.
Definition owned : Secret := secret <| sec_Meta := (sec_Meta secret) <| meta_OwnerReferences :=
  [mkOwnerReference GroupVersion "SiteRegistration" "a" "uid" (Some true)] |> |>.
End RefSiteRegistration.

Lemma registration_health_witness :
  let '(site', requeueAfter) := refreshRegistrationHealth RefSiteRegistration.bound_site (30 * second)%Z in
  requeueAfter = (30 * second)%Z /\ conditionTrue (regst_Conditions (reg_Status site')) "Connected" = true /\
  (refreshRegistrationHealth RefSiteRegistration.bound_site (59 * second)%Z).1 = site'.
Proof.
  assert (Hn : times_near RefSiteRegistration.bound_site (30 * second)%Z) by (by split; intros t [= <-]; vm_compute).
  assert (Ho : off_deadline RefSiteRegistration.bound_site (30 * second)%Z) by (by split; intros t [= <-]; vm_compute).
  assert (Hb : regst_ClusterUID (reg_Status RefSiteRegistration.bound_site) <> "") by discriminate.
  pose proof (registration_health RefSiteRegistration.bound_site (30 * second)%Z Hn Hb) as H.
  destruct (refreshRegistrationHealth RefSiteRegistration.bound_site (30 * second)%Z) as [site' requeueAfter] eqn:E.
  destruct H as (Hc & _ & _ & Hs).
  assert (Hr : requeueAfter = (30 * second)%Z) by (apply (f_equal snd) in E; cbn [snd] in E; rewrite <- E; vm_compute; reflexivity).
  split_and!; [exact Hr|apply Hc; exists 0%Z; split; [reflexivity|by vm_compute]|].
  apply (Hs Ho); [by vm_compute|by vm_compute|]. right. rewrite Hr. by vm_compute.
Defined.


Lemma published_url_served_witness :
  exists st text, (run (fun q (_ : unit) => (match q return Resp q with
      | List KSecret _ _ => Ok [RefSiteRegistration.owned]
      | Get KRegistration _ _ => Ok RefSiteRegistration.bound_site
      | q => (MemServer.serve q (proj1_sig MemServer.empty)).1
      end, tt))
    (http_handle (C:=RefRegistration.crypto) (Cu:=RefRegistration.curve) (X:=RefRegistration.x509) (Y:=RefRegistration.yaml)
       (U:=RefRegistration.url) (B:=RefRegistration.body_codec) RefRegistration.server 1 "GET"
       ("/" +:+ Base64.url_EncodeToString RefSiteRegistration.bytes +:+ "/registration.yaml") "") st []).1.1 = Some text /\
  text <> HttpError 401 "registration capability is invalid or expired".
Proof.
  exists tt. eexists. split.
  - apply (published_url_served (L:=Ref.laws) (TL:=RefCodec.time_text_laws) (C:=RefRegistration.crypto) (Cu:=RefRegistration.curve)
      (X:=RefRegistration.x509) (Y:=RefRegistration.yaml) (U:=RefRegistration.url) (B:=RefRegistration.body_codec)
      _ RefRegistration.server RefSiteRegistration.bound_site "mspsql" RefSiteRegistration.bytes 0%Z
      (sec_Meta RefSiteRegistration.owned) 1 "" 0%Z tt RefRegistration.sha256_length); by vm_compute.
  - vm_compute. discriminate.
Defined.
