(* ===== verification/ControlServer.v ===== *)
(** * The hub's control server: connections, plans and directives

    The first half of [internal/control/server.go]: the handshake of an agent's
    stream ([Connect], [validatePeerIdentity], [bindSite]) and the loop that
    sends the site its signed plans and the directives meant for it
    ([sendPlans], [sendDirectives] and the checks of who owns a directive).
    [ControlReports] models the other half, what the hub records of an agent's
    messages.

    [sendPlans] runs until the stream fails or its context ends; [fuel] bounds
    the rounds that are modelled, and [None] is a loop that is still running. *)
From S2P Require Import Prelude Prog Api Messages Kube ApiServer Codec NetAddr Plan Directive Registration Declarations.

Record Server := mkServer {
  srv_Namespace : string;
  srv_MaxDirectivesPerSync : Z
}.

Definition defaultMaxDirectivesPerSync : Z := 100.
Definition maxDirectivesPerSync (s : Server) : Z :=
  if (0 <? srv_MaxDirectivesPerSync s)%Z then srv_MaxDirectivesPerSync s else defaultMaxDirectivesPerSync.

(** ** Identity of the peer *)

(** What the transport knows of the peer: nothing, no TLS state, or the
    certificates it presented. *)
Inductive PeerInfo := NoPeer | NoTLS | TLSPeer (certificates : list Certificate).

Definition certificateHasURI (certificate : Certificate) (identity : string) : bool :=
  existsb (fun uri => uri == "spiffe://multisite-postgres.dev/site/" +:+ identity) (crt_URIs certificate).

Definition validatePeerIdentity (peer : PeerInfo) (registrationUID : string) : result Certificate :=
  match peer with
  | NoPeer => Err (errors_New "mTLS peer information is missing")
  | NoTLS | TLSPeer [] => Err (errors_New "mTLS client certificate is missing")
  | TLSPeer (certificate :: _) =>
      if (crt_CommonName certificate == registrationUID) || certificateHasURI certificate registrationUID then Ok certificate
      else Err (errors_New "mTLS certificate identity does not match registration UID")
  end.

(** ** Which site a directive is for *)
Fixpoint member_site (sites : list SiteRevisionStatus) (member : string) : string :=
  match sites with
  | [] => ""
  | observed :: sites => if bool_decide (is_Some (srs_Addresses observed !! member)) then srs_Name observed else member_site sites member
  end.
Definition memberSite (instance : MultiSitePostgres) (member : string) : string :=
  member_site (st_Sites (msp_Status instance)) member.

Definition selectBackupSource (instance : MultiSitePostgres) : string :=
  match List.find (fun standby => memberSite instance standby != "") (SortStrings (st_SynchronousStandbys (msp_Status instance))) with
  | Some standby => standby
  | None =>
      if memberSite instance (st_Primary (msp_Status instance)) != "" then st_Primary (msp_Status instance) else ""
  end.

(** The registration of the site with a name is the given one. *)
Definition registered_as (instance : MultiSitePostgres) (name siteName : string) : option bool :=
  match List.find (fun desired => site_Name desired == name) (spec_Sites (msp_Spec instance)) with
  | Some desired => Some (site_SiteRegistrationRef desired == siteName)
  | None => None
  end.

Definition memberTargetsSite (instance : MultiSitePostgres) (member siteName : string) : bool :=
  match registered_as instance (memberSite instance member) siteName with Some targets => targets | None => false end.

Fixpoint primary_targets (instance : MultiSitePostgres) (siteName : string) (sites : list SiteRevisionStatus) : bool :=
  match sites with
  | [] => false
  | observed :: sites =>
      if bool_decide (is_Some (srs_Addresses observed !! st_Primary (msp_Status instance))) then
        match registered_as instance (srs_Name observed) siteName with
        | Some targets => targets
        | None => primary_targets instance siteName sites
        end
      else primary_targets instance siteName sites
  end.
Definition directiveTargetsSite (instance : MultiSitePostgres) (directiveType siteName : string) : bool :=
  if (directiveType != "Database") && (directiveType != "User") then true
  else if st_Primary (msp_Status instance) == "" then false
  else primary_targets instance siteName (st_Sites (msp_Status instance)).

(** The JSON of a backup directive's specification. *)
Record BackupDirective := mkBackupDirective { bd_BackupType : string }.
Record ScheduledBackup := mkScheduledBackup { sb_BackupType : string; sb_ScheduledAt : string }.

Section server.
Context {K : KubeLib} {C : Crypto} {TT : TimeText}.
Context {JE : Json Envelope} {JP : Json SitePlan} {JD : Json Payload}.
Context {JB : Json BackupDirective} {JS : Json ScheduledBackup} {JDB : Json PostgresDatabaseSpec} {JU : Json PostgresUserSpec}.
Context (s : Server).

(** ** Whether a directive is the one its owner declares *)
Definition declarationDirectiveTrusted {T} {J : Json T} (configMap : ConfigMap) (owner : OwnerReference) (instance : MultiSitePostgres)
  (object : ObjectMeta) (instanceRef deletionPolicy : string) (spec : T) : result bool :=
  let deleting := cm_Data configMap !!! "deleting" == "true" in
  if (meta_UID object != or_UID owner) || (instanceRef != meta_Name (msp_Meta instance)) ||
     (cm_Data configMap !!! "operationUID" !=
        meta_UID object +:+ "-" +:+ FormatInt (meta_Generation object) +:+ "-" +:+ boolString deleting) ||
     negb (Bool.eqb deleting (negb (is_nil (meta_DeletionTimestamp object)))) ||
     (deleting && (deletionPolicy != DeletionPolicyDelete))
  then Ok false
  else match json_Marshal spec with
  | Ok encoded => Ok (encoded == cm_Data configMap !!! "spec.json")
  | Err e => Err e
  end.

Definition databaseDirectiveTrusted (configMap : ConfigMap) (owner : OwnerReference) (instance : MultiSitePostgres) : kprog (result bool) :=
  if (cm_Data configMap !!! "type" != "Database") || (meta_Name (cm_Meta configMap) != "mspsql-database-" +:+ or_Name owner) then
    Ret (Ok false)
  else
    let! object := call (Get KDatabase (meta_Namespace (cm_Meta configMap)) (or_Name owner)) onerr e =>
      Ret (match IgnoreNotFound e with Some e => Err e | None => Ok false end) in
    Ret (declarationDirectiveTrusted configMap owner instance (db_Meta object) (dbs_InstanceRef (db_Spec object))
      (dbs_DeletionPolicy (db_Spec object)) (db_Spec object)).

Definition userDirectiveTrusted (configMap : ConfigMap) (owner : OwnerReference) (instance : MultiSitePostgres) : kprog (result bool) :=
  if (cm_Data configMap !!! "type" != "User") || (meta_Name (cm_Meta configMap) != "mspsql-user-" +:+ or_Name owner) then
    Ret (Ok false)
  else
    let! object := call (Get KUser (meta_Namespace (cm_Meta configMap)) (or_Name owner)) onerr e =>
      Ret (match IgnoreNotFound e with Some e => Err e | None => Ok false end) in
    Ret (declarationDirectiveTrusted configMap owner instance (usr_Meta object) (usrs_InstanceRef (usr_Spec object))
      (usrs_DeletionPolicy (usr_Spec object)) (usr_Spec object)).

Definition scheduledBackupDirectiveTrusted (configMap : ConfigMap) (owner : OwnerReference) (instance : MultiSitePostgres) : bool :=
  if (cm_Data configMap !!! "type" != "Backup") || (or_UID owner != meta_UID (msp_Meta instance)) ||
     (or_Name owner != meta_Name (msp_Meta instance)) || (cm_Data configMap !!! "deleting" != "false") then false
  else match json_Unmarshal (cm_Data configMap !!! "spec.json") with
  | Err _ => false
  | Ok scheduled =>
      match ParseTime (sb_ScheduledAt scheduled) with
      | None => false
      | Some scheduledAt =>
          match List.find (fun scheduleStatus => (bss_Type scheduleStatus == sb_BackupType scheduled) &&
                             (bss_LastScheduledAt scheduleStatus == Some scheduledAt))
                  (st_BackupSchedules (msp_Status instance)) with
          | Some _ =>
              (meta_Name (cm_Meta configMap) ==
                 "mspsql-backup-" +:+ sb_BackupType scheduled +:+ "-" +:+ FormatInt (time_Unix scheduledAt)) &&
              (cm_Data configMap !!! "operationUID" ==
                 meta_UID (msp_Meta instance) +:+ "-backup-" +:+ sb_BackupType scheduled +:+ "-" +:+ FormatInt (time_Unix scheduledAt))
          | None => false
          end
      end
  end.

Definition upgradeBackupDirectiveTrusted (configMap : ConfigMap) (owner : OwnerReference) (instance : MultiSitePostgres) : kprog (result bool) :=
  if (cm_Data configMap !!! "type" != "Backup") || (cm_Data configMap !!! "deleting" != "false") then Ret (Ok false)
  else
    let! object := call (Get KUpgrade (meta_Namespace (cm_Meta configMap)) (or_Name owner)) onerr e =>
      Ret (match IgnoreNotFound e with Some e => Err e | None => Ok false end) in
    let uid := meta_UID (upg_Meta object) in
    let attempt := FormatInt (ust_PostUpgradeBackupAttempt (upg_Status object)) in
    if (uid != or_UID owner) || (us_InstanceRef (upg_Spec object) != meta_Name (msp_Meta instance)) then Ret (Ok false)
    else if cm_Data configMap !!! "upgradeBackupPhase" == "preflight" then
      Ret (Ok (negb (is_nil (ust_PreflightBackupRequestedAt (upg_Status object))) &&
        (meta_Name (cm_Meta configMap) == "mspsql-upgrade-backup-" +:+ uid) &&
        (cm_Data configMap !!! "operationUID" == uid +:+ "-preflight-backup")))
    else if cm_Data configMap !!! "upgradeBackupPhase" == "post-upgrade" then
      Ret (Ok (negb (is_nil (ust_PostUpgradeBackupRequestedAt (upg_Status object))) &&
        (meta_Name (cm_Meta configMap) == "mspsql-post-upgrade-backup-" +:+ uid +:+ "-" +:+ attempt) &&
        (cm_Data configMap !!! "operationUID" == uid +:+ "-post-upgrade-backup-" +:+ attempt)))
    else Ret (Ok false).

Definition directiveOwnerTrusted (configMap : ConfigMap) (owner : option OwnerReference) (instance : MultiSitePostgres) : kprog (result bool) :=
  match owner with
  | None => Ret (Ok false)
  | Some owner =>
      if (or_APIVersion owner != GroupVersion) || (or_UID owner == "") ||
         (cm_Data configMap !!! "instanceRef" != meta_Name (msp_Meta instance)) then Ret (Ok false)
      else if or_Kind owner == "PostgresDatabase" then databaseDirectiveTrusted configMap owner instance
      else if or_Kind owner == "PostgresUser" then userDirectiveTrusted configMap owner instance
      else if or_Kind owner == "MultiSitePostgres" then Ret (Ok (scheduledBackupDirectiveTrusted configMap owner instance))
      else if or_Kind owner == "PostgresUpgrade" then upgradeBackupDirectiveTrusted configMap owner instance
      else Ret (Ok false)
  end.

(** ** Sending *)
Definition signingKey : kprog (result string) :=
  let namespace := if srv_Namespace s == "" then "mspsql-system" else srv_Namespace s in
  let! secret := call (Get KSecret namespace "mspsql-plan-signing-key") onerr e => Ret (Err e) in
  Ret (match Base64.DecodeString (sec_Data secret !!! "privateKey") with
    | Some privateKey =>
        if (String.length privateKey =? ed25519_PrivateKeySize)%nat then Ok privateKey
        else Err (errors_New "plan signing Secret contains an invalid private key")
    | None => Err (errors_New "plan signing Secret contains an invalid private key")
    end).

Definition ensureSiteActive (name uid : string) : kprog (result unit) :=
  let! site := call (Get KRegistration "" name) onerr e =>
    Ret (Err (if IsNotFound e then status_Error PermissionDenied "site registration no longer exists" else e)) in
  Ret (if (meta_UID (reg_Meta site) != uid) || regs_Revoked (reg_Spec site) then
         Err (status_Error PermissionDenied "site registration is revoked")
       else Ok tt).

(** The source and type of the backup a directive asks for; [None]: the
    directive is not for this site. *)
Definition directive_target (configMap : ConfigMap) (instance : MultiSitePostgres) (siteName : string) : result (option (string * string)) :=
  if cm_Data configMap !!! "type" == "Backup" then
    match json_Unmarshal (cm_Data configMap !!! "spec.json") with
    | Err e => Err (wrap_error ("decode backup directive " +:+ meta_Name (cm_Meta configMap)) e)
    | Ok backupSpec =>
        let backupSource := selectBackupSource instance in
        if (backupSource == "") || negb (memberTargetsSite instance backupSource siteName) then Ok None
        else Ok (Some (backupSource, bd_BackupType backupSpec))
    end
  else if negb (directiveTargetsSite instance (cm_Data configMap !!! "type") siteName) then Ok None
  else Ok (Some ("", "")).

Definition directive_payload (siteUID : string) (configMap : ConfigMap) (owner : OwnerReference) (instance : MultiSitePostgres)
  (backup : string * string) (now : Time) : Payload :=
  zero_Payload <| pl_SiteUID := siteUID |> <| pl_InstanceUID := meta_UID (msp_Meta instance) |>
    <| pl_OperationUID := cm_Data configMap !!! "operationUID" |> <| pl_ObjectUID := or_UID owner |>
    <| pl_Type := cm_Data configMap !!! "type" |> <| pl_Primary := st_Primary (msp_Status instance) |>
    <| pl_BackupSource := backup.1 |> <| pl_BackupType := backup.2 |>
    <| pl_Deleting := cm_Data configMap !!! "deleting" == "true" |> <| pl_GeneratedAt := now |>
    <| pl_Spec := cm_Data configMap !!! "spec.json" |>.

(** Sign and send one directive. *)
Definition send_directive (siteUID privateKey : string) (configMap : ConfigMap) (owner : OwnerReference) (instance : MultiSitePostgres)
  (backup : string * string) : kprog (result unit) :=
  let* now := call Now in
  match Directive.Sign privateKey (directive_payload siteUID configMap owner instance backup now) with
  | Err e => Ret (Err (wrap_error ("sign directive " +:+ meta_Name (cm_Meta configMap)) e))
  | Ok envelope =>
      match json_Marshal envelope with
      | Err e => Ret (Err e)
      | Ok encoded =>
          let! _ := call (Env (SendHub (Msg_Directive (mkOperationDirective (cm_Data configMap !!! "operationUID")
            (meta_UID (msp_Meta instance)) (cm_Data configMap !!! "type") encoded)))) onerr e => Ret (Err e) in
          Ret (Ok tt)
      end
  end.

(** The loop over the directives, with the operations sent so far, the key if it
    was loaded and the number sent in this round. *)
Fixpoint send_directives (siteName siteUID : string) (configMaps : list ConfigMap) (sent : gset string)
  (privateKey : option string) (sentThisSync : Z) : kprog (result (gset string)) :=
  match configMaps with
  | [] => Ret (Ok sent)
  | configMap :: configMaps =>
      let operationUID := cm_Data configMap !!! "operationUID" in
      let skip := send_directives siteName siteUID configMaps sent privateKey sentThisSync in
      if (operationUID == "") || bool_decide (operationUID ∈ sent) then skip
      else
        let! instance := call (Get KInstance (meta_Namespace (cm_Meta configMap)) (cm_Data configMap !!! "instanceRef")) onerr e =>
          (if IsNotFound e then skip else Ret (Err e)) in
        match directive_target configMap instance siteName with
        | Err e => Ret (Err e)
        | Ok None => skip
        | Ok (Some backup) =>
            let owner := GetControllerOf (cm_Meta configMap) in
            let! trusted := directiveOwnerTrusted configMap owner instance onerr e => Ret (Err e) in
            match trusted, owner with
            | true, Some owner =>
                let! key := (match privateKey with Some key => Ret (Ok key) | None => signingKey end) onerr e => Ret (Err e) in
                let! _ := send_directive siteUID key configMap owner instance backup onerr e => Ret (Err e) in
                let sent := {[operationUID]} ∪ sent in
                if (maxDirectivesPerSync s <=? sentThisSync + 1)%Z then Ret (Ok sent)
                else send_directives siteName siteUID configMaps sent (Some key) (sentThisSync + 1)
            | _, _ => skip
            end
        end
  end.

Definition sendDirectives (siteName siteUID : string) (sent : gset string) : kprog (result (gset string)) :=
  let! configMaps := call (ListHasLabel KConfigMap "multisite-postgres.dev/directive") onerr e => Ret (Err e) in
  send_directives siteName siteUID configMaps sent None 0.

(** The loop over the plans of the site, with the revisions sent so far. *)
Fixpoint send_plans (configMaps : list ConfigMap) (sent : gmap string Z) : kprog (result (gmap string Z)) :=
  match configMaps with
  | [] => Ret (Ok sent)
  | configMap :: configMaps =>
      match json_Unmarshal (cm_Data configMap !!! "envelope.json") with
      | Err e => Ret (Err (wrap_error ("decode plan ConfigMap " +:+ meta_Name (cm_Meta configMap)) e))
      | Ok envelope =>
          match json_Unmarshal (env_Plan envelope) with
          | Err e => Ret (Err (wrap_error ("decode desired plan " +:+ meta_Name (cm_Meta configMap)) e))
          | Ok desired =>
              if (sp_Revision desired <=? default 0 (sent !! sp_InstanceUID desired))%Z then send_plans configMaps sent
              else match json_Marshal envelope with
              | Err e => Ret (Err e)
              | Ok encoded =>
                  let! _ := call (Env (SendHub (Msg_Plan (mkDesiredSitePlan (sp_InstanceUID desired) (sp_Revision desired) encoded))))
                    onerr e => Ret (Err e) in
                  send_plans configMaps (<[sp_InstanceUID desired := sp_Revision desired]> sent)
              end
          end
      end
  end.

Definition send_round (siteName siteUID : string) (sent : gmap string Z) (sentDirectives : gset string) :
  kprog (result (gmap string Z * gset string)) :=
  let! _ := ensureSiteActive siteName siteUID onerr e => Ret (Err e) in
  let! configMaps := call (List KConfigMap None {["multisite-postgres.dev/site-registration-uid" := siteUID]}) onerr e => Ret (Err e) in
  let! sent := send_plans configMaps sent onerr e => Ret (Err e) in
  let! sentDirectives := sendDirectives siteName siteUID sentDirectives onerr e => Ret (Err e) in
  Ret (Ok (sent, sentDirectives)).

Fixpoint sendPlans_from (fuel : nat) (siteName siteUID : string) (sent : gmap string Z) (sentDirectives : gset string) :
  kprog (option Error) :=
  match fuel with
  | O => Ret None
  | S fuel =>
      let! x := send_round siteName siteUID sent sentDirectives onerr e => Ret (Some e) in
      let! _ := call (Env (WaitTick (5 * second)%Z)) onerr e => Ret (Some e) in
      sendPlans_from fuel siteName siteUID x.1 x.2
  end.
Definition sendPlans (fuel : nat) (siteName siteUID : string) : kprog (option Error) := sendPlans_from fuel siteName siteUID ∅ ∅.

(** ** The handshake *)
Definition setSiteCondition (conditions : list Condition) (conditionType conditionStatus reason message : string) : list Condition :=
  SetStatusCondition conditions (mkCondition conditionType conditionStatus 0 reason message).

Definition updateSiteStatus (siteName : string) (mutate : SiteRegistration -> kprog (result SiteRegistration)) : kprog (result SiteRegistration) :=
  RetryOnConflict (
    let! current := call (Get KRegistration "" siteName) onerr e => Ret (Err e) in
    let! current := mutate current onerr e => Ret (Err e) in
    let! current := call (UpdateStatus KRegistration current) onerr e => Ret (Err e) in
    Ret (Ok current)).

Definition bind_status (hello : AgentHello) (certificateNotAfter : Time) (current : SiteRegistration) : kprog (result SiteRegistration) :=
  if (regst_ClusterUID (reg_Status current) != "") && (regst_ClusterUID (reg_Status current) != ah_ClusterUid hello) then
    Ret (Err (status_Error PermissionDenied "registration is permanently bound to another Kubernetes cluster UID"))
  else
    let* now := call Now in
    Ret (Ok (current <| reg_Status ::= fun st => st <| regst_ClusterUID := ah_ClusterUid hello |> <| regst_Phase := "Connected" |>
      <| regst_AgentVersion := ah_AgentVersion hello |> <| regst_Capabilities := ah_Capabilities hello |>
      <| regst_LastHeartbeatTime := Some now |> <| regst_AgentCertificateExpiresAt := Some certificateNotAfter |>
      <| regst_Conditions ::= fun cs =>
           setSiteCondition (setSiteCondition cs "Connected" ConditionTrue "ControlStreamEstablished"
               "The authenticated agent control stream is active")
             "IdentityReady" ConditionTrue "CertificateAuthenticated"
             "The agent presented a valid site identity certificate" |> |>)).

Definition bindSite (hello : AgentHello) (certificateNotAfter : Time) : kprog (result SiteRegistration) :=
  let! sites := call (List KRegistration None ∅) onerr e => Ret (Err (status_Error Internal (err_text e))) in
  match List.find (fun site : SiteRegistration => meta_UID (reg_Meta site) == ah_RegistrationUid hello) sites with
  | None => Ret (Err (status_Error NotFound "site registration UID was not found"))
  | Some site =>
      if regs_Revoked (reg_Spec site) then Ret (Err (status_Error PermissionDenied "site registration is revoked"))
      else
        let! updated := updateSiteStatus (meta_Name (reg_Meta site)) (bind_status hello certificateNotAfter) onerr e =>
          Ret (Err (if has_status e then e else status_Error Internal (err_text e))) in
        Ret (Ok updated)
  end.

(** [Connect] up to the two loops it starts: the registration of the site. *)
Definition Connect_site (peer : PeerInfo) : kprog (result SiteRegistration) :=
  let! first := call (Env RecvAgent) onerr e => Ret (Err e) in
  match first with
  | Msg_Hello hello =>
      if ah_ProtocolVersion hello != ProtocolVersion then
        Ret (Err (status_Error FailedPrecondition ("unsupported protocol version " +:+ Quote (ah_ProtocolVersion hello))))
      else match validatePeerIdentity peer (ah_RegistrationUid hello) with
      | Err e => Ret (Err (status_Error Unauthenticated (err_text e)))
      | Ok peerCertificate => bindSite hello (crt_NotAfter peerCertificate)
      end
  | _ => Ret (Err (status_Error InvalidArgument "first message must be AgentHello"))
  end.
End server.

(** ** The handshake *)
Lemma certificateHasURI_exact certificate identity :
  certificateHasURI certificate identity = true <-> site_identity identity ∈ crt_URIs certificate.
Proof.
  unfold certificateHasURI. rewrite existsb_exists. setoid_rewrite bool_decide_eq_true. setoid_rewrite <- list_elem_of_In.
  unfold site_identity. naive_solver.
Qed.

Lemma validatePeerIdentity_Ok peer uid certificate : validatePeerIdentity peer uid = Ok certificate <->
  (exists rest, peer = TLSPeer (certificate :: rest)) /\
  (crt_CommonName certificate = uid \/ site_identity uid ∈ crt_URIs certificate).
Proof.
  destruct peer as [| |[|c rest]]; cbn [validatePeerIdentity]; [naive_solver..|].
  rewrite <- certificateHasURI_exact. destruct (_ || _) eqn:E.
  - apply orb_true_iff in E. rewrite bool_decide_eq_true in E. naive_solver.
  - apply orb_false_iff in E. rewrite bool_decide_eq_false in E. naive_solver congruence.
Qed.

(** The certificate the registration server signs for a site is the one
    the control server takes for that site, and for no other: a peer that
    presents it is identified by a UID exactly if it is the registration's. *)
Theorem issued_certificate_identifies {X : X509} site csrPEM certificatePEM block rest certificate others uid :
  certificate_for site csrPEM certificatePEM -> pem_Decode certificatePEM = Some (block, rest) ->
  ParseCertificate (pem_Bytes block) = Ok certificate ->
  validatePeerIdentity (TLSPeer (certificate :: others)) uid = Ok certificate <-> uid = meta_UID (reg_Meta site).
Proof.
  intros (csr & block' & rest' & c & _ & Hd & Hp & Hcn & Huri & _) Hd' Hp'. rewrite Hd in Hd'. injection Hd' as <- <-. rewrite Hp in Hp'. injection Hp' as <-.
  rewrite validatePeerIdentity_Ok, Hcn, Huri, list_elem_of_singleton. unfold site_identity. split; [|naive_solver].
  intros [_ [->|E]]; [done|]. by apply app_inj_r_string in E.
Qed.

Section handshake.
Context {K : KubeLib} {L : KubeLaws K}.

(** The registration the agent asked for, with a certificate that identifies
    it. *)
Definition identified (h : khistory) (peer : PeerInfo) (hello : AgentHello) (site : SiteRegistration) : Prop :=
  existT (Env RecvAgent) (Ok (Msg_Hello hello)) ∈ h /\ ah_ProtocolVersion hello = ProtocolVersion /\
  (exists certificate, validatePeerIdentity peer (ah_RegistrationUid hello) = Ok certificate) /\
  (exists sites, existT (List KRegistration None ∅) (Ok sites) ∈ h /\ site ∈ sites) /\
  meta_UID (reg_Meta site) = ah_RegistrationUid hello /\ regs_Revoked (reg_Spec site) = false.

Definition handshake_request (peer : PeerInfo) (h : khistory) (r : Req) : Prop :=
  match r with
  | UpdateStatus KRegistration o => exists hello site cur,
      identified h peer hello site /\ existT (Get KRegistration "" (meta_Name (reg_Meta site))) (Ok cur) ∈ h /\
      reg_Meta o = reg_Meta cur /\ reg_Spec o = reg_Spec cur /\ regst_ClusterUID (reg_Status o) = ah_ClusterUid hello /\
      (regst_ClusterUID (reg_Status cur) = "" \/ regst_ClusterUID (reg_Status cur) = ah_ClusterUid hello)
  | Get KRegistration _ _ | List KRegistration None _ | Env RecvAgent | Now => True
  | _ => False
  end.

Lemma identified_extends h h' peer hello site : extends h h' -> identified h peer hello site -> identified h' peer hello site.
Proof.
  intros He (H1 & Hv & Hc & (sites & H2 & Hin) & Hu & Hr). unfold identified. split_and!; [by apply He|assumption..| |assumption|assumption].
  exists sites. split; [by apply He|done].
Qed.

End handshake.

(** ** The sending loop as a state machine

    What the hub promises an agent about a stream: in each round it first sees
    that the registration is active, sends plans whose revision is above those
    it sent for the same instance, and directives it has not sent, at most so
    many per round. *)
Record session := mkSession {
  ss_active : bool;
  ss_plans : gmap string Z;
  ss_directives : gset string;
  ss_sent : Z
}.
Definition new_session : session := mkSession false ∅ ∅ 0.

Section machine.
Context (siteName siteUID : string) (limit : Z).

Definition is_active (site : SiteRegistration) : bool :=
  (meta_UID (reg_Meta site) == siteUID) && negb (regs_Revoked (reg_Spec site)).

(** The effect of an exchange. *)
Definition session_step (st : session) (r : Req) : Resp r -> session :=
  match r return Resp r -> session with
  | Get KRegistration ns name => fun x =>
      match x with
      | Ok site => mkSession ((ns == "") && (name == siteName) && is_active site) (ss_plans st) (ss_directives st) (ss_sent st)
      | Err _ => mkSession false (ss_plans st) (ss_directives st) (ss_sent st)
      end
  | Env (SendHub (Msg_Plan d)) => fun x =>
      match x with
      | Ok _ => mkSession (ss_active st) (<[dsp_InstanceUid d := Z.max (dsp_Revision d) (default 0%Z (ss_plans st !! dsp_InstanceUid d))]> (ss_plans st))
                  (ss_directives st) (ss_sent st)
      | Err _ => st
      end
  | Env (SendHub (Msg_Directive d)) => fun x =>
      match x with
      | Ok _ => mkSession (ss_active st) (ss_plans st) ({[od_OperationUid d]} ∪ ss_directives st) (ss_sent st + 1)
      | Err _ => st
      end
  | Env (WaitTick _) => fun _ => mkSession false (ss_plans st) (ss_directives st) 0
  | _ => fun _ => st
  end.

Definition session_of (h : khistory) : session := foldr (fun e st => session_step st (projT1 e) (projT2 e)) new_session h.

(** What may be asked in a state. *)
Definition session_allows (st : session) (r : Req) : Prop :=
  match r with
  | Env (SendHub (Msg_Plan d)) => ss_active st = true /\ (default 0 (ss_plans st !! dsp_InstanceUid d) < dsp_Revision d)%Z
  | Env (SendHub (Msg_Directive d)) => ss_active st = true /\ od_OperationUid d <> "" /\ (od_OperationUid d ∉ ss_directives st) /\
      (ss_sent st < limit)%Z
  | Env (WaitTick _) | Get _ _ _ | List _ _ _ | ListHasLabel _ _ | Now => True
  | _ => False
  end.

(** The machine keeps its promise. *)
Lemma session_plans h d : existT (Env (SendHub (Msg_Plan d))) (Ok tt) ∈ h ->
  exists revision, ss_plans (session_of h) !! dsp_InstanceUid d = Some revision /\ (dsp_Revision d <= revision)%Z.
Proof.
  induction h as [|e h IH]; [by rewrite elem_of_nil|]. rewrite elem_of_cons. cbn [session_of foldr]. fold (session_of h).
  intros [<-|Hin].
  - cbn [projT1 projT2 session_step ss_plans].
    rewrite lookup_insert_eq. eexists. split; [done|]. lia.
  - destruct (IH Hin) as (rev & Hrev & Hle). clear IH Hin. destruct e as [r x]. cbn [projT1 projT2].
    destruct r as [k| | | | | | | | | | | | |e]; cbn [session_step]; try by exists rev.
    + destruct k; try by exists rev. destruct x; by exists rev.
    + destruct e as [|[d'|d'| | |]| | | | | | |]; cbn [session_step]; try by exists rev.
      * destruct x; [|by exists rev]. cbn [ss_plans]. destruct (decide (dsp_InstanceUid d = dsp_InstanceUid d')) as [E|E].
        -- rewrite <- E, lookup_insert_eq, Hrev. eexists. split; [done|]. cbn. lia.
        -- rewrite lookup_insert_ne by done. by exists rev.
      * destruct x; by exists rev.
Qed.

Lemma session_directives h d : existT (Env (SendHub (Msg_Directive d))) (Ok tt) ∈ h -> od_OperationUid d ∈ ss_directives (session_of h).
Proof.
  induction h as [|e h IH]; [by rewrite elem_of_nil|]. rewrite elem_of_cons. cbn [session_of foldr]. fold (session_of h).
  intros [<-|Hin].
  - cbn [projT1 projT2 session_step ss_directives]. set_solver.
  - specialize (IH Hin). clear Hin. destruct e as [r x]. cbn [projT1 projT2]. destruct r as [k| | | | | | | | | | | | |e]; cbn [session_step]; try done.
    + destruct k; try done. by destruct x.
    + destruct e as [|[d'|d'| | |]| | | | | | |]; cbn [session_step]; try done; destruct x; try done. cbn [ss_directives]. set_solver.
Qed.
End machine.

(** ** What the loop sends *)
Section sending.
Context {K : KubeLib} {C : Crypto} {TT : TimeText}.
Context {JE : Json Envelope} {JP : Json SitePlan} {JD : Json Payload}.
Context {JB : Json BackupDirective} {JS : Json ScheduledBackup} {JDB : Json PostgresDatabaseSpec} {JU : Json PostgresUserSpec}.
Context (s : Server) (siteName siteUID : string).

(** The object that owns a directive declares it. *)
Definition trust_evidence (h : khistory) (configMap : ConfigMap) (owner : OwnerReference) (instance : MultiSitePostgres) : Prop :=
  or_APIVersion owner = GroupVersion /\ cm_Data configMap !!! "instanceRef" = meta_Name (msp_Meta instance) /\
  (or_Kind owner = "PostgresDatabase" /\ (exists object : PostgresDatabase,
     existT (Get KDatabase (meta_Namespace (cm_Meta configMap)) (or_Name owner)) (Ok object) ∈ h /\
     declarationDirectiveTrusted configMap owner instance (db_Meta object) (dbs_InstanceRef (db_Spec object))
       (dbs_DeletionPolicy (db_Spec object)) (db_Spec object) = Ok true) \/
   or_Kind owner = "PostgresUser" /\ (exists object : PostgresUser,
     existT (Get KUser (meta_Namespace (cm_Meta configMap)) (or_Name owner)) (Ok object) ∈ h /\
     declarationDirectiveTrusted configMap owner instance (usr_Meta object) (usrs_InstanceRef (usr_Spec object))
       (usrs_DeletionPolicy (usr_Spec object)) (usr_Spec object) = Ok true) \/
   or_Kind owner = "MultiSitePostgres" /\ scheduledBackupDirectiveTrusted configMap owner instance = true \/
   or_Kind owner = "PostgresUpgrade" /\ (exists object : PostgresUpgrade,
     existT (Get KUpgrade (meta_Namespace (cm_Meta configMap)) (or_Name owner)) (Ok object) ∈ h /\
     meta_UID (upg_Meta object) = or_UID owner /\ us_InstanceRef (upg_Spec object) = meta_Name (msp_Meta instance))).

Definition plan_justified (h : khistory) (d : DesiredSitePlan) : Prop :=
  exists configMaps configMap envelope desired,
    existT (List KConfigMap None {["multisite-postgres.dev/site-registration-uid" := siteUID]}) (Ok configMaps) ∈ h /\
    configMap ∈ configMaps /\ json_Unmarshal (cm_Data configMap !!! "envelope.json") = Ok envelope /\
    json_Unmarshal (env_Plan envelope) = Ok desired /\ json_Marshal envelope = Ok (dsp_EnvelopeJson d) /\
    dsp_InstanceUid d = sp_InstanceUID desired /\ dsp_Revision d = sp_Revision desired.

Definition directive_justified (h : khistory) (d : OperationDirective) : Prop :=
  exists configMaps configMap instance owner key backup now envelope,
    existT (ListHasLabel KConfigMap "multisite-postgres.dev/directive") (Ok configMaps) ∈ h /\ configMap ∈ configMaps /\
    existT (Get KInstance (meta_Namespace (cm_Meta configMap)) (cm_Data configMap !!! "instanceRef")) (Ok instance) ∈ h /\
    directive_target configMap instance siteName = Ok (Some backup) /\ GetControllerOf (cm_Meta configMap) = Some owner /\
    trust_evidence h configMap owner instance /\
    Directive.Sign key (directive_payload siteUID configMap owner instance backup now) = Ok envelope /\
    json_Marshal envelope = Ok (od_DirectiveJson d) /\
    od_OperationUid d = cm_Data configMap !!! "operationUID" /\ od_InstanceUid d = meta_UID (msp_Meta instance).

Definition justified (h : khistory) (r : Req) : Prop :=
  match r with
  | Env (SendHub (Msg_Plan d)) => plan_justified h d
  | Env (SendHub (Msg_Directive d)) => directive_justified h d
  | _ => True
  end.

Definition sending_request (h : khistory) (r : Req) : Prop :=
  session_allows (maxDirectivesPerSync s) (session_of siteName siteUID h) r /\ justified h r.

Abbreviation state h := (session_of siteName siteUID h).

Lemma maxDirectivesPerSync_pos : (0 < maxDirectivesPerSync s)%Z.
Proof. unfold maxDirectivesPerSync. destruct (0 <? _)%Z eqn:E; [by apply Z.ltb_lt|done]. Qed.

Lemma send_plans_sat all l sent : (forall cm, cm ∈ l -> cm ∈ all) -> forall h,
  existT (List KConfigMap None {["multisite-postgres.dev/site-registration-uid" := siteUID]}) (Ok all) ∈ h ->
  ss_active (state h) = true -> ss_plans (state h) = sent ->
  sat sending_request (fun h' x => forall sent', x = Ok sent' ->
      state h' = mkSession true sent' (ss_directives (state h)) (ss_sent (state h)))
    h (send_plans l sent).
Proof.
  revert sent. induction l as [|cm l IH]; intros sent Hl h Hin Ha Hp; cbn [send_plans].
  { intros sent' [= <-]. destruct (state h) as [a p d n]; cbn in *; by subst. }
  assert (Hl' : forall cm, cm ∈ l -> cm ∈ all) by (intros; apply Hl; by apply elem_of_cons; right).
  destruct (json_Unmarshal (cm_Data cm !!! _)) as [envelope|e] eqn:E1; [|done].
  destruct (json_Unmarshal (env_Plan envelope)) as [desired|e] eqn:E2; [|done].
  destruct (_ <=? _)%Z eqn:Er; [by apply IH|]. apply Z.leb_gt in Er.
  destruct (json_Marshal envelope) as [encoded|e] eqn:E3; [|done].
  sat_step. sat_step.
  { split; [split; [done|]; cbn; by rewrite Hp|]. exists all, cm, envelope, desired. split_and!; try done. by apply Hl, elem_of_cons; left. }
  destruct x as [[]|e]; [|done].
  match goal with |- sat _ _ ?h1 _ => assert (Hs : state h1 = mkSession true (<[sp_InstanceUID desired := sp_Revision desired]> sent)
    (ss_directives (state h)) (ss_sent (state h))) end.
  { cbn [session_of foldr projT1 projT2 session_step dsp_InstanceUid dsp_Revision]. fold (state h). rewrite Ha, Hp. by rewrite Z.max_l by lia. }
  eapply sat_mono; [intros ? ? H; exact H| |apply (IH (<[sp_InstanceUID desired := sp_Revision desired]> sent) Hl')].
  - intros h' x Hx sent' E. rewrite (Hx _ E), Hs. done.
  - by apply elem_of_cons; right.
  - by rewrite Hs.
  - by rewrite Hs.
Qed.

(** An exchange the machine does not see. *)
Definition unseen (h h' : khistory) : Prop := extends h h' /\ state h' = state h.
Lemma unseen_refl h : unseen h h.
Proof. by split; [apply extends_refl|]. Qed.
Lemma unseen_cons h h' e : (forall st, session_step siteName siteUID st (projT1 e) (projT2 e) = st) -> unseen h h' -> unseen h (e :: h').
Proof. intros He [Hx Hs]. split; [by apply extends_cons_r|]. cbn [session_of foldr]. fold (state h'). by rewrite He. Qed.
Ltac unseen := cbn [sat]; repeat (apply unseen_cons; [intros st; reflexivity|]); first [apply unseen_refl|assumption].

Lemma trust_evidence_extends h h' cm owner instance : extends h h' -> trust_evidence h cm owner instance -> trust_evidence h' cm owner instance.
Proof.
  intros He (Ha & Hi & H). split_and!; [done|done|].
  destruct H as [(? & o & Ho & ?)|[(? & o & Ho & ?)|[?|(? & o & Ho & ?)]]];
    [left|right; left|right; right; left|right; right; right]; try done; (split; [done|]); exists o; split; try done; by apply He.
Qed.

Lemma trusted_sat cm owner instance h :
  sat sending_request (fun h' x => unseen h h' /\ (x = Ok true -> exists o, owner = Some o /\ trust_evidence h' cm o instance))
    h (directiveOwnerTrusted cm owner instance).
Proof.
  unfold directiveOwnerTrusted. destruct owner as [owner|]; [|by split; [apply unseen_refl|]].
  destruct (_ || _ || _) eqn:Eg; [by split; [apply unseen_refl|]|].
  assert (Hb : or_APIVersion owner = GroupVersion /\ cm_Data cm !!! "instanceRef" = meta_Name (msp_Meta instance)).
  { revert Eg. repeat case_bool_decide; cbn [negb orb]; done. }
  destruct Hb as [Ha Hi]. clear Eg.
  destruct (or_Kind owner == "PostgresDatabase") eqn:E1; [|destruct (or_Kind owner == "PostgresUser") eqn:E2;
    [|destruct (or_Kind owner == "MultiSitePostgres") eqn:E3; [|destruct (or_Kind owner == "PostgresUpgrade") eqn:E4]]]; bool_to_prop.
  - unfold databaseDirectiveTrusted. destruct (_ || _); [by split; [apply unseen_refl|]|]. sat_step. sat_step; [done|].
    destruct x as [object|e]; [|by split; [unseen|destruct (IgnoreNotFound e)]]. split; [unseen|]. intros Ht.
    exists owner. split; [done|]. split_and!; [done|done|]. left. split; [done|]. exists object. split; [by apply elem_of_cons; left|done].
  - unfold userDirectiveTrusted. destruct (_ || _); [by split; [apply unseen_refl|]|]. sat_step. sat_step; [done|].
    destruct x as [object|e]; [|by split; [unseen|destruct (IgnoreNotFound e)]]. split; [unseen|]. intros Ht.
    exists owner. split; [done|]. split_and!; [done|done|]. right; left. split; [done|]. exists object. split; [by apply elem_of_cons; left|done].
  - split; [apply unseen_refl|]. intros [= Ht]. exists owner. split; [done|]. split_and!; [done|done|]. by right; right; left.
  - unfold upgradeBackupDirectiveTrusted. destruct (_ || _); [by split; [apply unseen_refl|]|]. sat_step. sat_step; [done|].
    destruct x as [object|e]; [|by split; [unseen|destruct (IgnoreNotFound e)]].
    destruct (_ || _) eqn:Eu; [by split; [unseen|]|].
    match goal with |- sat _ _ ?h1 _ => assert (Hev : trust_evidence h1 cm owner instance) end.
    { split_and!; [done|done|]. right; right; right. split; [done|]. exists object. split; [by apply elem_of_cons; left|].
      revert Eu. repeat case_bool_decide; cbn [negb orb]; done. }
    destruct (_ == "preflight"); [|destruct (_ == "post-upgrade")]; (split; [unseen|]); intros _; by exists owner.
  - by split; [apply unseen_refl|].
Qed.

Lemma send_directive_sat all cm key owner instance backup h :
  existT (ListHasLabel KConfigMap "multisite-postgres.dev/directive") (Ok all) ∈ h -> cm ∈ all ->
  existT (Get KInstance (meta_Namespace (cm_Meta cm)) (cm_Data cm !!! "instanceRef")) (Ok instance) ∈ h ->
  directive_target cm instance siteName = Ok (Some backup) -> GetControllerOf (cm_Meta cm) = Some owner ->
  trust_evidence h cm owner instance -> ss_active (state h) = true -> cm_Data cm !!! "operationUID" <> "" ->
  (cm_Data cm !!! "operationUID" ∉ ss_directives (state h)) -> (ss_sent (state h) < maxDirectivesPerSync s)%Z ->
  sat sending_request (fun h' x => x = Ok tt -> extends h h' /\
      state h' = mkSession true (ss_plans (state h)) ({[cm_Data cm !!! "operationUID"]} ∪ ss_directives (state h)) (ss_sent (state h) + 1))
    h (send_directive siteUID key cm owner instance backup).
Proof.
  intros Hall Hcm Hi Ht Ho Hev Ha Hne Hnew Hlim. unfold send_directive. sat_step. sat_step; [done|].
  destruct (Directive.Sign _ _) as [envelope|e] eqn:Es; [|done]. destruct (json_Marshal envelope) as [encoded|e] eqn:Em; [|done].
  sat_step. sat_step.
  - split; [done|]. eexists all, cm, instance, owner, key, backup, x, envelope. split_and!; try done; try (by apply elem_of_cons; right).
    eapply trust_evidence_extends; [|exact Hev]. apply extends_cons.
  - destruct x0 as [[]|e]; [|done]. intros _. split; [keep_history|]. cbn [session_of foldr projT1 projT2 session_step].
    fold (state h). by rewrite Ha.
Qed.

Lemma signingKey_sat h : sat sending_request (fun h' _ => unseen h h') h (signingKey s).
Proof. unfold signingKey. sat_step. sat_step; [done|]. destruct x; unseen. Qed.

(** Where the loop over the directives stands. *)
Definition directives_state (h : khistory) (plans : gmap string Z) (sent : gset string) (n : Z) : Prop :=
  state h = mkSession true plans sent n.

Lemma send_directives_sat all plans l : (forall cm, cm ∈ l -> cm ∈ all) -> forall sent key n h,
  existT (ListHasLabel KConfigMap "multisite-postgres.dev/directive") (Ok all) ∈ h ->
  directives_state h plans sent n -> (n < maxDirectivesPerSync s)%Z ->
  sat sending_request (fun h' x => forall sent', x = Ok sent' -> exists n', directives_state h' plans sent' n')
    h (send_directives s siteName siteUID l sent key n).
Proof.
  induction l as [|cm l IH]; intros Hl sent key n h Hin Hst Hn; cbn [send_directives]; [by intros sent' [= <-]; exists n|].
  assert (Hl' : forall cm, cm ∈ l -> cm ∈ all) by (intros; apply Hl; by apply elem_of_cons; right).
  assert (Hskip : forall h', unseen h h' -> sat sending_request (fun h' x => forall sent', x = Ok sent' -> exists n', directives_state h' plans sent' n')
    h' (send_directives s siteName siteUID l sent key n)).
  { intros h' [He Hs]. apply IH; [done|by apply He| |done]. unfold directives_state in *. by rewrite Hs. }
  destruct (_ || _) eqn:Eo; [by apply Hskip, unseen_refl|]. sat_step. sat_step; [done|].
  destruct x as [instance|e]; [|destruct (IsNotFound e); [apply Hskip; unseen|done]].
  destruct (directive_target cm instance siteName) as [[backup|]|e] eqn:Et; [|apply Hskip; unseen|done].
  sat_step. match goal with |- sat _ _ ?h1 _ => set (h1' := h1) end.
  assert (Hu1 : unseen h h1') by unseen.
  eapply sat_mono; [intros ? ? H; exact H| |apply trusted_sat].
  intros h2 [trusted|e] [Hu2 Hev]; [|done].
  assert (Hu : unseen h h2) by (destruct Hu1 as [? E1], Hu2 as [? E2]; split; [by eapply extends_trans|by rewrite E2]).
  destruct trusted; [|by apply Hskip]. destruct (Hev eq_refl) as (owner & Ho & Hev'). rewrite Ho.
  sat_step. eapply (sat_mono _ _ (fun h' _ => unseen h2 h')); [intros ? ? H; exact H| |].
  2:{ destruct key; [apply unseen_refl|apply signingKey_sat]. }
  intros h3 [k|e] Hu3; [|done]. destruct Hu as [He Hs], Hu3 as [He3 Hs3].
  assert (Hst3 : directives_state h3 plans sent n) by (unfold directives_state in *; by rewrite Hs3, Hs).
  assert (Hop : cm_Data cm !!! "operationUID" <> "" /\ (cm_Data cm !!! "operationUID" ∉ sent)).
  { revert Eo. repeat case_bool_decide; cbn [orb]; done. }
  sat_step. eapply sat_mono; [intros ? ? H; exact H| |apply (send_directive_sat all)].
  - intros h4 [[]|e] Hx; [|done]. destruct (Hx eq_refl) as [He4 Hs4]. rewrite Hst3 in Hs4. cbn in Hs4.
    destruct (_ <=? _)%Z eqn:El; [intros sent' [= <-]; by exists (n + 1)%Z|]. apply Z.leb_gt in El.
    apply IH; [done| |exact Hs4|done]. by apply He4, He3, He.
  - by apply He3, He.
  - by apply Hl, elem_of_cons; left.
  - apply He3. destruct Hu2 as [He2 _]. by apply He2, elem_of_cons; left.
  - done.
  - exact Ho.
  - by eapply trust_evidence_extends.
  - by rewrite Hst3.
  - apply Hop.
  - rewrite Hst3. apply Hop.
  - by rewrite Hst3.
Qed.

Lemma round_sat plans sent h : ss_plans (state h) = plans -> ss_directives (state h) = sent -> ss_sent (state h) = 0%Z ->
  sat sending_request (fun h' x => forall y, x = Ok y -> exists n, state h' = mkSession true y.1 y.2 n)
    h (send_round s siteName siteUID plans sent).
Proof.
  intros Hp Hd Hn. unfold send_round, ensureSiteActive. sat_step. sat_step. sat_step; [done|]. destruct x as [site|e]; [|by destruct (IsNotFound e)].
  cbn [sat]. destruct (_ || _) eqn:Ea; [done|].
  match goal with |- sat _ _ ?h1 _ => assert (Hs1 : state h1 = mkSession true plans sent 0) end.
  { cbn [session_of foldr projT1 projT2 session_step]. fold (state h). rewrite Hp, Hd, Hn.
    unfold is_active. rewrite !bool_decide_eq_true_2 by done. apply orb_false_iff in Ea as [E1 ->].
    apply negb_false_iff in E1. by rewrite E1. }
  sat_step. sat_step; [done|]. destruct x as [configMaps|e]; [|done]. sat_step.
  match goal with |- sat _ _ ?h2 _ => set (h2' := h2); assert (Hs2 : state h2' = mkSession true plans sent 0) by exact Hs1 end.
  eapply sat_mono; [intros ? ? H; exact H| |apply (send_plans_sat configMaps)]; [|done|by apply elem_of_cons; left|by rewrite Hs2|by rewrite Hs2].
  intros h3 [plans'|e] Hx; [|done]. specialize (Hx _ eq_refl). rewrite Hs2 in Hx. cbn in Hx.
  unfold sendDirectives. sat_step. sat_step. sat_step; [done|]. destruct x as [directives|e]; [|done].
  eapply sat_mono; [intros ? ? H; exact H| |apply (send_directives_sat directives plans')]; [|done|by apply elem_of_cons; left|exact Hx|apply maxDirectivesPerSync_pos].
  intros h4 [sent'|e] Hy; [|done]. destruct (Hy _ eq_refl) as [n Hs4]. intros y [= <-]. by exists n.
Qed.

(** The loop, with what was sent before. *)
Lemma sendPlans_sat fuel plans sent h : ss_plans (state h) = plans -> ss_directives (state h) = sent -> ss_sent (state h) = 0%Z ->
  sat sending_request done_ h (sendPlans_from s fuel siteName siteUID plans sent).
Proof.
  revert plans sent h. induction fuel as [|fuel IH]; intros plans sent h Hp Hd Hn; [done|]. cbn [sendPlans_from].
  sat_step. eapply sat_mono; [intros ? ? H; exact H| |by apply round_sat]. intros h1 [y|e] Hx; [|done].
  destruct (Hx _ eq_refl) as [n Hs]. sat_step. sat_step; [done|]. destruct x as [[]|e]; [|done].
  apply IH; cbn [session_of foldr projT1 projT2 session_step]; fold (state h1); by rewrite Hs.
Qed.

(** C7: The loop that sends plans and directives implements the session the
    hub promises an agent: after any exchanges, whatever it asks next is what
    the state machine of the stream allows. So each round first sees that the
    registration is active and not revoked, a plan is sent only with a revision
    above those sent for its instance, a directive only once per stream and at
    most the configured number per round, and nothing is written. *)
Theorem sendPlans_refines_session fuel :
  sat (fun h r => session_allows (maxDirectivesPerSync s) (session_of siteName siteUID h) r) done_ [] (sendPlans s fuel siteName siteUID).
Proof. eapply sat_mono; [|intros ? ? H; exact H|by apply sendPlans_sat]. by intros h r [H _]. Qed.

End sending.

(** ** Directives between the controllers and the server *)
Section declared.
Context {K : KubeLib} {L : KubeLaws K} {TT : TimeText}.
Context {JS : Json ScheduledBackup} {JDB : Json PostgresDatabaseSpec} {JU : Json PostgresUserSpec}.

Lemma directive_data_trusted {T} {J : Json T} (object : ObjectMeta) directiveType instanceRef policy (spec : T) encoded configMap owner instance :
  let deleting := negb (is_nil (meta_DeletionTimestamp object)) in
  json_Marshal spec = Ok encoded -> (deleting = true -> policy = DeletionPolicyDelete) ->
  cm_Data configMap = directive_data object directiveType instanceRef encoded deleting ->
  or_UID owner = meta_UID object -> meta_Name (msp_Meta instance) = instanceRef ->
  declarationDirectiveTrusted configMap owner instance object instanceRef policy spec = Ok true.
Proof.
  intros deleting Hj Hp Hd Ho Hi. unfold declarationDirectiveTrusted. rewrite Hd, Hj.
  change (directive_data object directiveType instanceRef encoded deleting !!! "deleting") with (boolString deleting).
  change (directive_data object directiveType instanceRef encoded deleting !!! "spec.json") with encoded.
  change (directive_data object directiveType instanceRef encoded deleting !!! "operationUID") with (directiveOperationUID object deleting).
  assert (Hb : (boolString deleting == "true") = deleting) by (by destruct deleting). rewrite Hb.
  rewrite Ho, Hi. unfold directiveOperationUID. fold deleting.
  rewrite !bool_decide_eq_true_2 by done. cbn [negb orb].
  rewrite Bool.eqb_reflx. cbn [negb orb]. destruct deleting; cbn [andb orb]; [rewrite (Hp eq_refl)|]; by rewrite ?bool_decide_eq_true_2.
Qed.

(** A directive that the database controller creates for a declaration
    is one the control server accepts from it: as long as the declaration is
    unchanged and is deleted only under the policy [Delete], the server trusts
    the ConfigMap the controller wrote. *)
Theorem declared_directive_trusted {St} (handle : forall q : Req, St -> Resp q * St) (object : PostgresDatabase) instance st h :
  let deleting := negb (is_nil (meta_DeletionTimestamp (db_Meta object))) in
  (deleting = true -> dbs_DeletionPolicy (db_Spec object) = DeletionPolicyDelete) -> meta_UID (db_Meta object) <> "" ->
  meta_Name (msp_Meta instance) = dbs_InstanceRef (db_Spec object) ->
  (forall st, (handle (Get KDatabase (meta_Namespace (db_Meta object)) (meta_Name (db_Meta object))) st).1 = Ok object) ->
  sat (fun _ r => match r with
       | Create KConfigMap cm => (run handle (directiveOwnerTrusted cm (GetControllerOf (cm_Meta cm)) instance) st []).1.1 = Ok true
       | _ => True
       end) done_ h
    (reconcileDirective (k:=KDatabase) object ("mspsql-database-" +:+ meta_Name (db_Meta object)) "Database"
       (dbs_InstanceRef (db_Spec object)) (db_Spec object) deleting).
Proof.
  intros deleting Hp Hu Hi Hget. unfold reconcileDirective. destruct (json_Marshal _) as [encoded|e] eqn:Hj; [|done].
  sat_step. sat_step; [done|]. destruct x as [cm|e]; [destruct (mapsEqual _ _); [done|]; sat_step; sat_step; [done|]; by destruct x|].
  destruct (IsNotFound e); [|done]. destruct (SetControllerReference _ _) as [m|e'] eqn:Hm; [|done].
  apply (set_controller (k:=KDatabase)) in Hm as [[refs Em] [owner [Hc (Ha & Hk & Hn & Hou & _)]]].
  sat_step. sat_step; [|by destruct x]. lazy beta iota. cbn in Hk, Hn, Hou, Ha.
  set (cm := mkConfigMap m _).
  assert (Hname : meta_Name (cm_Meta cm) = "mspsql-database-" +:+ or_Name owner) by (rewrite Hn; cbn; by rewrite Em).
  assert (Hns : meta_Namespace (cm_Meta cm) = meta_Namespace (db_Meta object)) by (cbn; by rewrite Em).
  change (GetControllerOf (cm_Meta cm)) with (GetControllerOf m). rewrite Hc. unfold directiveOwnerTrusted.
  change (cm_Data cm !!! "instanceRef") with (dbs_InstanceRef (db_Spec object)).
  rewrite Ha, Hou, Hi, Hk. rewrite !bool_decide_eq_true_2 by done. rewrite (bool_decide_eq_false_2 _ Hu). cbn [negb orb].
  unfold databaseDirectiveTrusted. change (cm_Data cm !!! "type") with "Database". rewrite Hname, Hns, Hn.
  rewrite !bool_decide_eq_true_2 by done. cbn [negb orb bind call run].
  specialize (Hget st). destruct (handle (Get _ _ _) st) as [x st']. cbn [fst] in Hget. subst x. cbn [run fst].
  by eapply directive_data_trusted.
Qed.
End declared.

(** ** Concrete cases *)
Module RefControlServer.
Import RefCodec.
#[global] Instance serial_BackupDirective : Serial BackupDirective.
Proof. refine (serial_iso bd_BackupType (fun t => Some (mkBackupDirective t)) _). by intros []. Defined.
#[global] Instance serial_ScheduledBackup : Serial ScheduledBackup.
Proof. refine (serial_iso (fun b => (sb_BackupType b, sb_ScheduledAt b)) (fun '(t, a) => Some (mkScheduledBackup t a)) _). by intros []. Defined.
#[global] Instance json_BackupDirective : Json BackupDirective := json_of id.
#[global] Instance json_ScheduledBackup : Json ScheduledBackup := json_of id.

Definition site : SiteRegistration := zero_SiteRegistration
  <| reg_Meta := zero_ObjectMeta <| meta_Name := "a" |> <| meta_UID := "uid" |> |>.
Definition certificate (uid : string) : Certificate :=
  mkCertificate "1" uid [site_identity uid] 0%Z hour false [DigitalSignature] [ClientAuth] (EcdsaKey "P-256" "key").
Definition peer : PeerInfo := TLSPeer [certificate "uid"].
(** The agent says hello and the registration is as stored. *)
Definition answer (r : Req) : unit -> Resp r * unit := fun _ =>
  (match r return Resp r with
   | Env RecvAgent => Ok (Msg_Hello (mkAgentHello "uid" "cluster" "v1" [] ProtocolVersion))
   | List KRegistration _ _ => Ok [site]
   | Get KRegistration _ _ => Ok site
   | UpdateStatus KRegistration o => Ok o
   | r => (MemServer.serve r (proj1_sig MemServer.empty)).1
   end, tt).

Definition pem : string := @pem_EncodeToMemory RefRegistration.x509 (mkPemBlock "CERTIFICATE" (@ser _ RefRegistration.serial_Certificate (certificate "uid"))).
Definition csr_pem : string := @pem_EncodeToMemory RefRegistration.x509 (mkPemBlock "CERTIFICATE REQUEST" "key").

Definition database : PostgresDatabase := zero_PostgresDatabase
  <| db_Meta := zero_ObjectMeta <| meta_Namespace := "ns" |> <| meta_Name := "d" |> <| meta_UID := "uid" |> |>
  <| db_Spec ::= fun sp => sp <| dbs_InstanceRef := "i" |> |>.
Definition instance : MultiSitePostgres := zero_MultiSitePostgres <| msp_Meta := zero_ObjectMeta <| meta_Name := "i" |> |>.
Definition stored (r : Req) : unit -> Resp r * unit := fun _ =>
  (match r return Resp r with
   | Get KDatabase _ _ => Ok database
   | r => (MemServer.serve r (proj1_sig MemServer.empty)).1
   end, tt).
End RefControlServer.


Lemma issued_certificate_identifies_witness :
  validatePeerIdentity (TLSPeer [RefControlServer.certificate "uid"]) "uid" = Ok (RefControlServer.certificate "uid") /\
  validatePeerIdentity (TLSPeer [RefControlServer.certificate "uid"]) "other" <> Ok (RefControlServer.certificate "uid").
Proof.
  assert (Hc : certificate_for (X:=RefRegistration.x509) RefControlServer.site RefControlServer.csr_pem RefControlServer.pem).
  { eexists _, _, _, _. split_and!; vm_compute; reflexivity. }
  eassert (Hd : @pem_Decode RefRegistration.x509 RefControlServer.pem = Some (_, _)) by (vm_compute; reflexivity).
  split.
  - apply (issued_certificate_identifies (X:=RefRegistration.x509) _ _ _ _ _ (RefControlServer.certificate "uid") [] "uid" Hc Hd);
      vm_compute; reflexivity.
  - intros H. apply (issued_certificate_identifies (X:=RefRegistration.x509) _ _ _ _ _ (RefControlServer.certificate "uid") [] "other" Hc Hd) in H;
      [discriminate H|vm_compute; reflexivity].
Defined.

Lemma declared_directive_trusted_witness :
  sat (fun _ r => match r with
       | Create KConfigMap cm =>
           (run RefControlServer.stored (directiveOwnerTrusted cm (GetControllerOf (cm_Meta cm)) RefControlServer.instance) tt []).1.1 = Ok true
       | _ => True
       end) done_ []
    (reconcileDirective (k:=KDatabase) RefControlServer.database "mspsql-database-d" "Database" "i" (db_Spec RefControlServer.database) false).
Proof.
  apply (declared_directive_trusted (L:=Ref.laws) RefControlServer.stored RefControlServer.database RefControlServer.instance tt []);
    [discriminate|discriminate|reflexivity|reflexivity].
Defined.
