(* ===== verification/ControlReports.v ===== *)
(** * The hub's control server: what agents report

    The second half of [internal/control/server.go]: [receive] and the
    functions that record an agent's messages in the status of its
    registration, of the instances its site is part of and of the objects whose
    directives it carried out; and [Connect] as a whole, whose two loops run
    side by side.

    [receive] runs until the stream fails; [fuel] bounds the messages that are
    modelled, and [None] is a loop that is still running. The order in which Go
    visits the summaries of a progress report is unspecified; here it is that of
    [map_to_list]. *)
From S2P Require Import Prelude Prog Api Messages Kube ApiServer Codec NetAddr Plan Directive Registration Declarations.
From S2P Require Import Members Topology Status Instance InstanceProps Readiness ControlServer.

Definition InstanceUIDField : string := ".metadata.uid".

(** [strings.CutPrefix] *)
Definition CutPrefix (s p : string) : option string :=
  if HasPrefix s p then Some (drop_string (String.length p) s) else None.

(** The JSON of a condition in a progress report, and of an inventory. *)
Record ReportedCondition := mkReportedCondition { rc_Status : string; rc_Reason : string; rc_Message : string }.
Record Inventory := mkInventory {
  inv_StorageClasses : list StorageClassInventory;
  inv_VolumeSnapshotClasses : list VolumeSnapshotClassInventory;
  inv_Issuers : list IssuerReference
}.

(** ** Directive results *)
Fixpoint directive_succeeded (found : bool) (reported : list WireCondition) : bool :=
  match reported with
  | [] => found
  | condition :: reported =>
      if wc_Type condition == "Succeeded" then
        if wc_Status condition != ConditionTrue then false else directive_succeeded true reported
      else directive_succeeded found reported
  end.
Definition directiveSucceeded (reported : list WireCondition) : bool := directive_succeeded false reported.

Definition directiveFailure (conditions : list WireCondition) : string * string :=
  match List.find (fun condition => wc_Status condition == ConditionFalse) conditions with
  | Some condition => (wc_Reason condition, wc_Message condition)
  | None => ("DirectiveFailed", "The site agent reported directive failure")
  end.

Definition directiveResultOperation (result : PlanResult) (phase siteName : string) : OperationProgressStatus :=
  let operation := zero_OperationProgressStatus <| op_OperationUID := pr_OperationUid result |> <| op_Phase := phase |>
    <| op_Attempt := 1%Z |> <| op_Site := siteName |> <| op_Terminal := true |> in
  if directiveSucceeded (pr_Conditions result) then operation
  else
    let failure := directiveFailure (pr_Conditions result) in
    operation <| op_LastErrorReason := failure.1 |> <| op_LastErrorMessage := failure.2 |>.

(** The first schedule whose operation is the one that ended. *)
Fixpoint mark_schedule (result : PlanResult) (siteName : string) (schedules : list BackupScheduleStatus) : list BackupScheduleStatus :=
  match schedules with
  | [] => []
  | schedule :: schedules =>
      match bss_Operation schedule with
      | Some operation =>
          if op_OperationUID operation == pr_OperationUid result then
            (schedule <| bss_Operation := Some (directiveResultOperation result "ScheduledBackup" siteName) |>) :: schedules
          else schedule :: mark_schedule result siteName schedules
      | None => schedule :: mark_schedule result siteName schedules
      end
  end.
Definition markBackupScheduleOperation (result : PlanResult) (siteName : string) (st : MultiSitePostgresStatus) : MultiSitePostgresStatus :=
  st <| st_BackupSchedules ::= mark_schedule result siteName |>.

Section evidence.
Context {TT : TimeText}.
Definition update_evidence (st : MultiSitePostgresStatus) (condition : WireCondition) : MultiSitePostgresStatus :=
  let parsed (set_time : Time -> MultiSitePostgresStatus) : MultiSitePostgresStatus :=
    match ParseTime (wc_Message condition) with Some value => set_time value | None => st end in
  if wc_Type condition == "BackupCompletedAt" then parsed (fun t => st <| st_LastBackupTime := Some t |>)
  else if wc_Type condition == "RecoveryWindowStart" then parsed (fun t => st <| st_RecoveryWindowStart := Some t |>)
  else if wc_Type condition == "DisposableRestoreVerifiedAt" then parsed (fun t => st <| st_RestoreDrillLastVerifiedAt := Some t |>)
  else if wc_Type condition == "RestoreDrillBackupSet" then st <| st_RestoreDrillBackupSet := wc_Message condition |>
  else st.
Definition updateBackupEvidence (st : MultiSitePostgresStatus) (conditions : list WireCondition) : MultiSitePostgresStatus :=
  foldl update_evidence st conditions.
End evidence.

Section reports.
Context {K : KubeLib} {TT : TimeText} {X : X509}.
Context {JC : Json ReportedCondition} {JI : Json Inventory} {JL : Json (list string)}.
(** [Server.SignCertificate] *)
Context (SignCertificate : option (SiteRegistration -> string -> kprog (result (string * string)))).

Definition setInstanceCondition (instance : MultiSitePostgres) (conditionType conditionStatus reason message : string) : MultiSitePostgres :=
  instance <| msp_Status ::= fun st => st <| st_Conditions ::= fun cs =>
    SetStatusCondition cs (mkCondition conditionType conditionStatus (meta_Generation (msp_Meta instance)) reason message) |> |>.

Definition setRecoveryWindowCondition (instance : MultiSitePostgres) : MultiSitePostgres :=
  if is_nil (st_RecoveryWindowStart (msp_Status instance)) then instance
  else if negb (is_nil (st_RestoreDrillLastVerifiedAt (msp_Status instance))) then
    setInstanceCondition instance "RecoveryWindowAvailable" ConditionTrue "DisposableRestoreVerified"
      "Archived WAL continuity and a recent disposable restore drill prove the recovery window"
  else
    setInstanceCondition instance "RecoveryWindowAvailable" ConditionFalse "RestoreDrillRequired"
      "Archived WAL continuity is present but a disposable restore drill has not verified recoverability".

Definition observed_at (c : Condition) (generation : Z) : Condition :=
  mkCondition (cond_Type c) (cond_Status c) generation (cond_Reason c) (cond_Message c).
(** The first condition of a type, observed at a generation. *)
Fixpoint observe_condition (cs : list Condition) (conditionType : string) (generation : Z) : list Condition :=
  match cs with
  | [] => []
  | c :: cs => if cond_Type c == conditionType then observed_at c generation :: cs
               else c :: observe_condition cs conditionType generation
  end.

Definition apply_reported (generation : Z) (cs : list Condition) (condition : WireCondition) : list Condition :=
  observe_condition (setSiteCondition cs (wc_Type condition) (wc_Status condition) (wc_Reason condition) (wc_Message condition))
    (wc_Type condition) generation.

(** The phase and the conditions. *)
Definition applyDirectiveStatus (conditions : list Condition) (deleting : bool) (generation : Z) (reported : list WireCondition) :
  string * list Condition :=
  (if negb (directiveSucceeded reported) then "Failed" else if deleting then "Deleted" else "Ready",
   foldl (apply_reported generation) conditions reported).

(** ** Reports on a site of an instance *)
Definition instancesByUID (instanceUID : string) : kprog (result (list MultiSitePostgres)) :=
  let* indexed := call (ListField KInstance None InstanceUIDField instanceUID) in
  match indexed with
  | Ok items => Ret (Ok items)
  | Err _ => let! items := call (List KInstance None ∅) onerr e => Ret (Err e) in Ret (Ok items)
  end.

Definition find_instance (instanceUID : string) (instances : list MultiSitePostgres) : option MultiSitePostgres :=
  List.find (fun instance => meta_UID (msp_Meta instance) == instanceUID) instances.

(** The status of the first site with the name, and the statuses before and
    after it. *)
Fixpoint find_site (siteName : string) (sites : list SiteRevisionStatus) :
  option (list SiteRevisionStatus * SiteRevisionStatus * list SiteRevisionStatus) :=
  match sites with
  | [] => None
  | site :: sites =>
      if srs_Name site == siteName then Some ([], site, sites)
      else match find_site siteName sites with Some (pre, found, post) => Some (site :: pre, found, post) | None => None end
  end.

Definition observed_conditions (generation : Z) (site : SiteRevisionStatus) : SiteRevisionStatus :=
  site <| srs_Conditions ::= fmap (fun c => observed_at c generation) |>.

(** One attempt; [V] is what the update assigns outside it. *)
Definition update_site_once {V} (instanceUID siteName : string) (update : V -> SiteRevisionStatus -> kprog (V * SiteRevisionStatus)) (v : V) :
  kprog (V * result unit) :=
  let! instances := instancesByUID instanceUID onerr e => Ret (v, Err e) in
  match find_instance instanceUID instances with
  | None => Ret (v, Err (status_Error NotFound "instance UID was not found"))
  | Some instance =>
      match find_site siteName (st_Sites (msp_Status instance)) with
      | None => Ret (v, Err (status_Error NotFound "site is not part of the instance"))
      | Some (pre, before, post) =>
          let* updated := update v before in
          let after := observed_conditions (meta_Generation (msp_Meta instance)) updated.2 in
          if before == after then Ret (updated.1, Ok tt)
          else
            let! _ := call (UpdateStatus KInstance (instance <| msp_Status ::= fun st => st <| st_Sites := pre ++ after :: post |> |>))
              onerr e => Ret (updated.1, Err e) in
            Ret (updated.1, Ok tt)
      end
  end.
Definition updateInstanceSite {V} (instanceUID siteName : string) (update : V -> SiteRevisionStatus -> kprog (V * SiteRevisionStatus)) (v : V) :
  kprog (V * result unit) := RetryAssigning (update_site_once instanceUID siteName update) v.

Definition set_site_condition (site : SiteRevisionStatus) (conditionType status reason message : string) : SiteRevisionStatus :=
  site <| srs_Conditions ::= fun cs => setSiteCondition cs conditionType status reason message |>.

Definition observation_annotation : string := "multisite-postgres.dev/address-observation".
Definition trigger_once (instanceUID : string) : kprog (result unit) :=
  let! instances := instancesByUID instanceUID onerr e => Ret (Err e) in
  match find_instance instanceUID instances with
  | None => Ret (Err (status_Error NotFound "instance UID was not found"))
  | Some instance =>
      let* now := call Now in
      let! _ := call (Patch KInstance instance (instance <| msp_Meta ::= fun m => m <| meta_Annotations ::=
        <[observation_annotation := FormatTime now]> |> |>)) onerr e => Ret (Err e) in
      Ret (Ok tt)
  end.
Definition triggerInstanceReconcile (instanceUID : string) : kprog (result unit) := RetryOnConflict (trigger_once instanceUID).

Definition acknowledge (ack : PlanAcknowledgement) (site : SiteRevisionStatus) : SiteRevisionStatus :=
  if pa_Revision ack != srs_DesiredRevision site then site
  else if pa_Accepted ack then site <| srs_AcknowledgedRevision := pa_Revision ack |> <| srs_Phase := "Applying" |>
  else set_site_condition (site <| srs_Phase := "Rejected" |>) "PlanAccepted" ConditionFalse "ValidationFailed"
    (Join (pa_ValidationErrors ack) "; ").

Definition recordAcknowledgement (siteName : string) (ack : PlanAcknowledgement) : kprog (result unit) :=
  let* x := updateInstanceSite (pa_InstanceUid ack) siteName (fun _ site => Ret (tt, acknowledge ack site)) tt in Ret x.2.

(** One summary of a progress report, with what was seen: addresses and
    conditions. *)
Definition progress_summary (acc : SiteRevisionStatus * (bool * bool)) (summary : string * string) : SiteRevisionStatus * (bool * bool) :=
  let '(site, (hasAddresses, hasConditions)) := acc in
  let '(key, value) := summary in
  let '(site, hasAddresses) :=
    match CutPrefix key "address/" with
    | Some member => (site <| srs_Addresses ::= <[member := value]> |>, true)
    | None => (site, hasAddresses)
    end in
  match CutPrefix key "condition/" with
  | Some conditionType =>
      match json_Unmarshal value with
      | Ok condition => (set_site_condition site conditionType (rc_Status condition) (rc_Reason condition) (rc_Message condition),
                         (hasAddresses, true))
      | Err _ => (site, (hasAddresses, hasConditions))
      end
  | None => (site, (hasAddresses, hasConditions))
  end.

Definition healthy_standby (summary : string * string) : option string :=
  match CutPrefix summary.1 "topology/synchronous/" with
  | Some member => if summary.2 == "healthy" then Some member else None
  | None => None
  end.
Definition synchronous_standbys (progress : PlanProgress) : list string :=
  SortStrings (omap healthy_standby (map_to_list (pp_ResourceSummaries progress))).
Definition has_topology (progress : PlanProgress) : bool :=
  bool_decide (is_Some (pp_ResourceSummaries progress !! "topology/primary")) ||
  negb (bool_decide (synchronous_standbys progress = [])).

Definition apply_progress (progress : PlanProgress) (flags : bool * bool) (site : SiteRevisionStatus) :
  kprog ((bool * bool) * SiteRevisionStatus) :=
  if pp_Revision progress != srs_DesiredRevision site then Ret (flags, site)
  else
    let '(site, flags) := foldl progress_summary (site <| srs_Phase := pp_Phase progress |>, flags) (map_to_list (pp_ResourceSummaries progress)) in
    if has_topology progress then
      let* now := call Now in
      Ret (flags, site <| srs_Primary := pp_ResourceSummaries progress !!! "topology/primary" |>
        <| srs_SynchronousStandbys := synchronous_standbys progress |> <| srs_TopologyObservedAt := Some now |>)
    else Ret (flags, site).

Definition recordProgress (siteName : string) (progress : PlanProgress) : kprog (result unit) :=
  let* x := updateInstanceSite (pp_InstanceUid progress) siteName (apply_progress progress) (false, false) in
  match x.2 with
  | Err e => Ret (Err e)
  | Ok _ =>
      if negb x.1.1 && negb (has_topology progress) && negb x.1.2 then Ret (Ok tt)
      else triggerInstanceReconcile (pp_InstanceUid progress)
  end.

Definition result_condition (site : SiteRevisionStatus) (condition : WireCondition) : SiteRevisionStatus :=
  let site := set_site_condition site (wc_Type condition) (wc_Status condition) (wc_Reason condition) (wc_Message condition) in
  if (wc_Type condition == "Deleted") && (wc_Status condition == ConditionTrue) then site <| srs_Phase := "Deleted" |> else site.
Definition apply_result (result : PlanResult) (site : SiteRevisionStatus) : SiteRevisionStatus :=
  if pr_AppliedRevision result != srs_DesiredRevision site then site
  else foldl result_condition (site <| srs_AppliedRevision := pr_AppliedRevision result |> <| srs_Phase := "Ready" |>) (pr_Conditions result).

(** ** Results of directives *)
Definition record_instance_once (namespace name siteName : string) (result : PlanResult) : kprog (Prog.result unit) :=
  let! object := call (Get KInstance namespace name) onerr e => Ret (Err e) in
  let succeeded := directiveSucceeded (pr_Conditions result) in
  let object := foldl (fun o c => setInstanceCondition o (wc_Type c) (wc_Status c) (wc_Reason c) (wc_Message c)) object (pr_Conditions result) in
  let object :=
    if succeeded then
      let object := object <| msp_Status ::= fun st =>
        markBackupScheduleOperation result siteName (updateBackupEvidence st (pr_Conditions result)) |> in
      setRecoveryWindowCondition (setInstanceCondition object "BackupReady" ConditionTrue "BackupVerified"
        "pgBackRest completed a backup and verified archived WAL metadata")
    else
      setInstanceCondition (object <| msp_Status ::= markBackupScheduleOperation result siteName |>) "BackupReady" ConditionFalse
        "BackupFailed" "The scheduled pgBackRest operation failed" in
  let! _ := call (UpdateStatus KInstance object) onerr e => Ret (Err e) in
  Ret (Ok tt).
Definition recordInstanceDirectiveResult (configMap : ConfigMap) (name siteName : string) (result : PlanResult) : kprog (Prog.result unit) :=
  RetryOnConflict (record_instance_once (meta_Namespace (cm_Meta configMap)) name siteName result).

(** What a database's status takes from a condition that holds. *)
Definition database_condition (st : PostgresDatabaseStatus) (condition : WireCondition) : PostgresDatabaseStatus :=
  if wc_Status condition != ConditionTrue then st
  else if wc_Type condition == "ObservedSize" then
    match ParseInt 64 (wc_Message condition) with
    | Some size => if (0 <? size)%Z then st <| dbst_ObservedSize := NewQuantity size |> else st
    | None => st
    end
  else if wc_Type condition == "TDEVerified" then st <| dbst_TDEVerified := true |>
  else if wc_Type condition == "OrphanedDeclarations" then
    match json_Unmarshal (wc_Message condition) with
    | Ok declarations => st <| dbst_OrphanedDeclarations := declarations |>
    | Err _ => st
    end
  else st.
Definition database_result (deleting : bool) (siteName : string) (result : PlanResult) (object : PostgresDatabase) : PostgresDatabase :=
  let generation := meta_Generation (db_Meta object) in
  object <| db_Status ::= fun st =>
    let applied := applyDirectiveStatus (dbst_Conditions st) deleting generation (pr_Conditions result) in
    let st := st <| dbst_Phase := applied.1 |> <| dbst_Conditions := applied.2 |>
      <| dbst_Operation := Some (directiveResultOperation result applied.1 siteName) |> in
    (foldl database_condition st (pr_Conditions result)) <| dbst_ObservedGeneration := generation |> |>.
Definition record_database_once (namespace name : string) (deleting : bool) (siteName : string) (result : PlanResult) : kprog (Prog.result unit) :=
  let! object := call (Get KDatabase namespace name) onerr e => Ret (Err e) in
  let! _ := call (UpdateStatus KDatabase (database_result deleting siteName result object)) onerr e => Ret (Err e) in
  Ret (Ok tt).
Definition recordDatabaseDirectiveResult (configMap : ConfigMap) (name siteName : string) (result : PlanResult) : kprog (Prog.result unit) :=
  RetryOnConflict (record_database_once (meta_Namespace (cm_Meta configMap)) name (cm_Data configMap !!! "deleting" == "true") siteName result).

Definition user_condition (st : PostgresUserStatus) (condition : WireCondition) : PostgresUserStatus :=
  if (wc_Type condition == "CredentialVersion") && (wc_Status condition == ConditionTrue) then
    match ParseInt 64 (wc_Message condition) with Some version => st <| usrst_CredentialVersion := version |> | None => st end
  else st.
Definition user_result (deleting : bool) (siteName : string) (result : PlanResult) (object : PostgresUser) : PostgresUser :=
  let generation := meta_Generation (usr_Meta object) in
  object <| usr_Status ::= fun st =>
    let applied := applyDirectiveStatus (usrst_Conditions st) deleting generation (pr_Conditions result) in
    let st := st <| usrst_Phase := applied.1 |> <| usrst_Conditions := applied.2 |>
      <| usrst_Operation := Some (directiveResultOperation result applied.1 siteName) |> in
    (foldl user_condition st (pr_Conditions result)) <| usrst_ObservedGeneration := generation |> |>.
Definition record_user_once (namespace name : string) (deleting : bool) (siteName : string) (result : PlanResult) : kprog (Prog.result unit) :=
  let! object := call (Get KUser namespace name) onerr e => Ret (Err e) in
  let! _ := call (UpdateStatus KUser (user_result deleting siteName result object)) onerr e => Ret (Err e) in
  Ret (Ok tt).
Definition recordUserDirectiveResult (configMap : ConfigMap) (name siteName : string) (result : PlanResult) : kprog (Prog.result unit) :=
  RetryOnConflict (record_user_once (meta_Namespace (cm_Meta configMap)) name (cm_Data configMap !!! "deleting" == "true") siteName result).

Definition record_restore_once (namespace name : string) (result : PlanResult) : kprog (Prog.result unit) :=
  let! object := call (Get KRestore namespace name) onerr e => Ret (Err e) in
  let generation := meta_Generation (res_Meta object) in
  let applied := applyDirectiveStatus (rst_Conditions (res_Status object)) false generation (pr_Conditions result) in
  let! _ := call (UpdateStatus KRestore (object <| res_Status ::= fun st => st <| rst_Phase := applied.1 |>
    <| rst_Conditions := applied.2 |> <| rst_ObservedGeneration := generation |> |>)) onerr e => Ret (Err e) in
  Ret (Ok tt).
Definition recordRestoreDirectiveResult (configMap : ConfigMap) (name : string) (result : PlanResult) : kprog (Prog.result unit) :=
  RetryOnConflict (record_restore_once (meta_Namespace (cm_Meta configMap)) name result).

Definition set_upgrade_condition (object : PostgresUpgrade) (conditionType status reason message : string) : PostgresUpgrade :=
  object <| upg_Status ::= fun st => st <| ust_Conditions ::= fun cs =>
    SetStatusCondition cs (mkCondition conditionType status (meta_Generation (upg_Meta object)) reason message) |> |>.
Definition record_upgrade_backup_once (namespace name phase : string) (result : PlanResult) : kprog (Prog.result unit) :=
  let! object := call (Get KUpgrade namespace name) onerr e => Ret (Err e) in
  let post := phase == "post-upgrade" in
  let conditionType := if post then "PostUpgradeBackupReady" else "FreshBackupReady" in
  let successMessage := if post then "pgBackRest completed the post-upgrade full backup and verified archived WAL"
                        else "pgBackRest completed a fresh full backup and verified archived WAL" in
  let! _ := call (UpdateStatus KUpgrade (
    if directiveSucceeded (pr_Conditions result) then
      set_upgrade_condition object conditionType ConditionTrue "BackupVerified" successMessage
    else set_upgrade_condition object conditionType ConditionFalse "BackupFailed" "The required full backup or WAL verification failed"))
    onerr e => Ret (Err e) in
  Ret (Ok tt).
Definition record_backup_evidence_once (namespace instanceRef : string) (result : PlanResult) : kprog (Prog.result unit) :=
  let! instance := call (Get KInstance namespace instanceRef) onerr e => Ret (Err e) in
  let instance := instance <| msp_Status ::= fun st => updateBackupEvidence st (pr_Conditions result) |> in
  let! _ := call (UpdateStatus KInstance (setRecoveryWindowCondition (setInstanceCondition instance "BackupReady" ConditionTrue
    "BackupVerified" "pgBackRest completed a backup and verified archived WAL metadata"))) onerr e => Ret (Err e) in
  Ret (Ok tt).
Definition recordUpgradeBackupResult (configMap : ConfigMap) (name : string) (result : PlanResult) : kprog (Prog.result unit) :=
  let* x := RetryOnConflict (record_upgrade_backup_once (meta_Namespace (cm_Meta configMap)) name
    (cm_Data configMap !!! "upgradeBackupPhase") result) in
  match x with
  | Err e => Ret (Err e)
  | Ok _ =>
      if negb (directiveSucceeded (pr_Conditions result)) then Ret (Ok tt)
      else RetryOnConflict (record_backup_evidence_once (meta_Namespace (cm_Meta configMap)) (cm_Data configMap !!! "instanceRef") result)
  end.

Definition record_upgrade_once (namespace name : string) (result : PlanResult) : kprog (Prog.result unit) :=
  let! object := call (Get KUpgrade namespace name) onerr e => Ret (Err e) in
  let generation := meta_Generation (upg_Meta object) in
  let applied := applyDirectiveStatus (ust_Conditions (upg_Status object)) false generation (pr_Conditions result) in
  let! _ := call (UpdateStatus KUpgrade (object <| upg_Status ::= fun st => st <| ust_Phase := applied.1 |>
    <| ust_Conditions := applied.2 |> <| ust_ObservedGeneration := generation |> |>)) onerr e => Ret (Err e) in
  Ret (Ok tt).
Definition recordUpgradeDirectiveResult (configMap : ConfigMap) (name : string) (result : PlanResult) : kprog (Prog.result unit) :=
  if cm_Data configMap !!! "type" == "Backup" then recordUpgradeBackupResult configMap name result
  else RetryOnConflict (record_upgrade_once (meta_Namespace (cm_Meta configMap)) name result).

Definition directive_not_found : Error := status_Error NotFound "directive operation was not found".

Definition recordOwnedDirectiveResult (configMap : ConfigMap) (owner : OwnerReference) (siteName : string) (result : PlanResult) :
  kprog (Prog.result unit) :=
  if or_Kind owner == "MultiSitePostgres" then recordInstanceDirectiveResult configMap (or_Name owner) siteName result
  else if or_Kind owner == "PostgresDatabase" then recordDatabaseDirectiveResult configMap (or_Name owner) siteName result
  else if or_Kind owner == "PostgresUser" then recordUserDirectiveResult configMap (or_Name owner) siteName result
  else if or_Kind owner == "PostgresRestore" then recordRestoreDirectiveResult configMap (or_Name owner) result
  else if or_Kind owner == "PostgresUpgrade" then recordUpgradeDirectiveResult configMap (or_Name owner) result
  else Ret (Err directive_not_found).

(** The ConfigMap of an operation, with its first owner. *)
Fixpoint operation_owner (operationUID : string) (configMaps : list ConfigMap) : option (ConfigMap * OwnerReference) :=
  match configMaps with
  | [] => None
  | configMap :: configMaps =>
      match meta_OwnerReferences (cm_Meta configMap) with
      | owner :: _ => if cm_Data configMap !!! "operationUID" == operationUID then Some (configMap, owner)
                      else operation_owner operationUID configMaps
      | [] => operation_owner operationUID configMaps
      end
  end.
Definition recordDirectiveResult (siteName : string) (result : PlanResult) : kprog (Prog.result unit) :=
  let! configMaps := call (ListHasLabel KConfigMap "multisite-postgres.dev/directive") onerr e => Ret (Err e) in
  match operation_owner (pr_OperationUid result) configMaps with
  | Some (configMap, owner) => recordOwnedDirectiveResult configMap owner siteName result
  | None => Ret (Err directive_not_found)
  end.

Definition recordResult (siteName : string) (result : PlanResult) : kprog (Prog.result unit) :=
  if pr_OperationUid result != "" then recordDirectiveResult siteName result
  else
    let* x := updateInstanceSite (pr_InstanceUid result) siteName (fun _ site => Ret (tt, apply_result result site)) tt in
    match x.2 with
    | Err e => Ret (Err e)
    | Ok _ => triggerInstanceReconcile (pr_InstanceUid result)
    end.

(** ** Reports on the site *)
Definition rotateCertificate (site : SiteRegistration) (request : CertificateSigningRequest) : kprog (Prog.result unit) :=
  match SignCertificate with
  | None => Ret (Err (status_Error FailedPrecondition "certificate renewal is not configured"))
  | Some sign =>
      if (csr_RequestId request == "") || (128 <? Z.of_nat (String.length (csr_RequestId request)))%Z || (csr_CsrPem request == "") ||
         (16 * 1024 <? Z.of_nat (String.length (csr_CsrPem request)))%Z then
        Ret (Err (status_Error InvalidArgument "certificate signing request is invalid"))
      else
        let! _ := ensureSiteActive (meta_Name (reg_Meta site)) (meta_UID (reg_Meta site)) onerr e => Ret (Err e) in
        let! signed := sign site (csr_CsrPem request) onerr e => Ret (Err (status_Error InvalidArgument (err_text e))) in
        let '(certificatePEM, caPEM) := signed in
        match pem_Decode certificatePEM with
        | None => Ret (Err (status_Error Internal "certificate signer returned invalid PEM"))
        | Some (block, _) =>
            match ParseCertificate (pem_Bytes block) with
            | Err _ => Ret (Err (status_Error Internal "certificate signer returned an invalid certificate"))
            | Ok certificate =>
                let! _ := call (Env (SendHub (Msg_Certificate (mkCertificateResponse certificatePEM caPEM "" (csr_RequestId request)
                  (Some (crt_NotAfter certificate)))))) onerr e => Ret (Err e) in
                let! _ := updateSiteStatus (meta_Name (reg_Meta site)) (fun current => Ret (Ok (current <| reg_Status ::= fun st =>
                  st <| regst_Conditions ::= fun cs => setSiteCondition cs "IdentityReady" ConditionTrue "CertificateIssued"
                    "A renewed agent mTLS certificate was issued over the authenticated stream" |> |>))) onerr e => Ret (Err e) in
                Ret (Ok tt)
            end
        end
  end.

Definition recordHeartbeat (siteName : string) : kprog (Prog.result unit) :=
  let* now := call Now in
  let! _ := updateSiteStatus siteName (fun site => Ret (Ok (site <| reg_Status ::= fun st =>
    st <| regst_LastHeartbeatTime := Some now |> <| regst_Phase := "Connected" |>
       <| regst_Conditions ::= fun cs => setSiteCondition cs "Connected" ConditionTrue "HeartbeatReceived"
            "The site agent heartbeat is current" |> |>))) onerr e => Ret (Err e) in
  Ret (Ok tt).

Definition recordInventory (siteName : string) (update : InventoryUpdate) : kprog (Prog.result unit) :=
  if (1024 * 1024 <? Z.of_nat (String.length (iu_InventoryJson update)))%Z then
    Ret (Err (status_Error ResourceExhausted "inventory exceeds one MiB"))
  else match json_Unmarshal (iu_InventoryJson update) with
  | Err _ => Ret (Err (status_Error InvalidArgument "inventory JSON is invalid"))
  | Ok inventory =>
      let! _ := updateSiteStatus siteName (fun site => Ret (Ok (site <| reg_Status ::= fun st =>
        st <| regst_DiscoveredStorageClasses := inv_StorageClasses inventory |>
           <| regst_DiscoveredVolumeSnapshotClasses := inv_VolumeSnapshotClasses inventory |>
           <| regst_DiscoveredIssuers := inv_Issuers inventory |> |>))) onerr e => Ret (Err e) in
      Ret (Ok tt)
  end.

Definition record_message (site : SiteRegistration) (message : AgentMessage) : kprog (Prog.result unit) :=
  let siteName := meta_Name (reg_Meta site) in
  match message with
  | Msg_CertificateSigningRequest request => rotateCertificate site request
  | Msg_Heartbeat _ => recordHeartbeat siteName
  | Msg_Acknowledgement ack => recordAcknowledgement siteName ack
  | Msg_Progress progress => recordProgress siteName progress
  | Msg_Result result => recordResult siteName result
  | Msg_Inventory inventory => recordInventory siteName inventory
  | Msg_Hello _ | Msg_AgentEmpty => Ret (Ok tt)
  end.

Fixpoint receive (fuel : nat) (site : SiteRegistration) : kprog (option Error) :=
  match fuel with
  | O => Ret None
  | S fuel =>
      let! message := call (Env RecvAgent) onerr e => Ret (Some e) in
      let! _ := record_message site message onerr e => Ret (Some e) in
      receive fuel site
  end.
End reports.

(** ** What a report may change *)
Section confinement.
Context {K : KubeLib} {L : KubeLaws K} {TT : TimeText} {X : X509}.
Context {JC : Json ReportedCondition} {JI : Json Inventory} {JL : Json (list string)}.
Context (SignCertificate : option (SiteRegistration -> string -> kprog (result (string * string)))).

(** What signing a certificate asks of the cluster. *)
Definition signing_request (r : Req) : Prop :=
  match r with Get _ _ _ | RandomBytes _ | Now | Create KSecret _ => True | _ => False end.
Hypothesis sign_requests : forall sign, SignCertificate = Some sign ->
  forall site csr h, sat (fun _ r => signing_request r) done_ h (sign site csr).

Context (site : SiteRegistration).
Abbreviation siteName := (meta_Name (reg_Meta site)).

(** A report leaves what the hub desires alone, and reports as acknowledged or
    applied only the revision the hub desires. *)
Definition report_ok (before after : SiteRevisionStatus) : Prop :=
  srs_Name after = srs_Name before /\ srs_SiteRegistrationRef after = srs_SiteRegistrationRef before /\
  srs_DesiredRevision after = srs_DesiredRevision before /\ srs_LastHeartbeatTime after = srs_LastHeartbeatTime before /\
  (srs_AcknowledgedRevision after = srs_AcknowledgedRevision before \/ srs_AcknowledgedRevision after = srs_DesiredRevision before) /\
  (srs_AppliedRevision after = srs_AppliedRevision before \/ srs_AppliedRevision after = srs_DesiredRevision before).

(** The instance with a report on the site in its status. *)
Definition site_report (i o : MultiSitePostgres) : Prop :=
  exists pre before after post, st_Sites (msp_Status i) = pre ++ before :: post /\ srs_Name before = siteName /\ report_ok before after /\
    o = (i <| msp_Status ::= fun st => st <| st_Sites := pre ++ after :: post |> |>).

(** The result of a directive in an instance's status: backups and
    conditions. *)
Definition backup_report (i o : MultiSitePostgres) : Prop :=
  msp_Meta o = msp_Meta i /\ msp_Spec o = msp_Spec i /\ st_Sites (msp_Status o) = st_Sites (msp_Status i) /\
  st_ActiveRevision (msp_Status o) = st_ActiveRevision (msp_Status i) /\ st_PlanFingerprint (msp_Status o) = st_PlanFingerprint (msp_Status i) /\
  st_Primary (msp_Status o) = st_Primary (msp_Status i) /\ st_Phase (msp_Status o) = st_Phase (msp_Status i) /\
  st_Operation (msp_Status o) = st_Operation (msp_Status i).

(** A directive exists whose first owner is of the kind and has the name. *)
Definition directive_owner (h : khistory) (kind name : string) : Prop :=
  exists configMaps configMap owner, existT (ListHasLabel KConfigMap "multisite-postgres.dev/directive") (Ok configMaps) ∈ h /\
    configMap ∈ configMaps /\ head (meta_OwnerReferences (cm_Meta configMap)) = Some owner /\ or_Kind owner = kind /\ or_Name owner = name.

Definition read_as_owner {k} (h : khistory) (kind : string) (o : Object k) : Prop :=
  exists ns name, existT (Get k ns name) (Ok o) ∈ h /\ directive_owner h kind name.

Definition listed (h : khistory) (i : MultiSitePostgres) : Prop :=
  exists l, i ∈ l /\ ((exists field value, existT (ListField KInstance None field value) (Ok l) ∈ h) \/ existT (List KInstance None ∅) (Ok l) ∈ h).

Definition report_request (h : khistory) (r : Req) : Prop :=
  match r with
  | UpdateStatus KRegistration o => exists cur, existT (Get KRegistration "" siteName) (Ok cur) ∈ h /\ reg_Meta o = reg_Meta cur /\
      reg_Spec o = reg_Spec cur /\ regst_ClusterUID (reg_Status o) = regst_ClusterUID (reg_Status cur)
  | UpdateStatus KInstance o => exists i, listed h i /\ site_report i o \/ was_read (k:=KInstance) h i /\ backup_report i o
  | UpdateStatus KDatabase o => exists cur, read_as_owner (k:=KDatabase) h "PostgresDatabase" cur /\ db_Meta o = db_Meta cur /\ db_Spec o = db_Spec cur
  | UpdateStatus KUser o => exists cur, read_as_owner (k:=KUser) h "PostgresUser" cur /\ usr_Meta o = usr_Meta cur /\ usr_Spec o = usr_Spec cur
  | UpdateStatus KRestore o => exists cur, read_as_owner (k:=KRestore) h "PostgresRestore" cur /\ res_Meta o = res_Meta cur /\ res_Spec o = res_Spec cur
  | UpdateStatus KUpgrade o => exists cur, read_as_owner (k:=KUpgrade) h "PostgresUpgrade" cur /\ upg_Meta o = upg_Meta cur /\ upg_Spec o = upg_Spec cur
  | Patch KInstance i o => listed h i /\ exists text,
      o = (i <| msp_Meta ::= fun m => m <| meta_Annotations ::= <[observation_annotation := text]> |> |>)
  | Env (SendHub (Msg_Certificate _)) => exists cur, existT (Get KRegistration "" siteName) (Ok cur) ∈ h /\
      meta_UID (reg_Meta cur) = meta_UID (reg_Meta site) /\ regs_Revoked (reg_Spec cur) = false
  | Create k _ => k = KSecret
  | Get _ _ _ | List _ _ _ | ListField _ _ _ _ | ListHasLabel _ _ | Now | RandomBytes _ | Env RecvAgent => True
  | _ => False
  end.

(** *** Updates of a site *)
Lemma report_ok_refl b : report_ok b b.
Proof. unfold report_ok. auto 10. Qed.
Lemma report_ok_observed g b a : report_ok b a -> report_ok b (observed_conditions g a).
Proof. done. Qed.

Lemma find_site_Some name sites pre found post : find_site name sites = Some (pre, found, post) ->
  sites = pre ++ found :: post /\ srs_Name found = name.
Proof.
  revert pre. induction sites as [|s0 sites IH]; intros pre; cbn [find_site]; [done|]. case_bool_decide as E.
  - intros [= <- <- <-]. done.
  - destruct (find_site name sites) as [[[p f] q]|]; [|done]. intros [= <- <- <-]. destruct (IH _ eq_refl) as [-> ?]. done.
Qed.

Lemma instancesByUID_sat uid h :
  sat report_request (fun h' x => extends h h' /\ forall l i, x = Ok l -> i ∈ l -> listed h' i) h (instancesByUID uid).
Proof.
  unfold instancesByUID. sat_step. sat_step; [done|]. destruct x as [l|e].
  - split; [keep_history|]. intros l' i [= <-] Hi. exists l. split; [done|]. left. do 2 eexists. by apply elem_of_cons; left.
  - sat_step. sat_step; [done|]. destruct x as [l|e']; [|by split; [keep_history|]]. split; [keep_history|].
    intros l' i [= <-] Hi. exists l. split; [done|]. right. by apply elem_of_cons; left.
Qed.

Lemma find_instance_elem uid l i : find_instance uid l = Some i -> i ∈ l.
Proof. intros H. apply List.find_some in H as [H _]. by apply list_elem_of_In. Qed.
Lemma listed_extends h h' i : extends h h' -> listed h i -> listed h' i.
Proof. intros He (l & Hi & [(f & v & H)|H]); exists l; (split; [done|]); [left; exists f, v|right]; by apply He. Qed.

Lemma updateInstanceSite_sat {V} uid (update : V -> SiteRevisionStatus -> kprog (V * SiteRevisionStatus)) v h :
  (forall v before h, sat report_request (fun h' x => extends h h' /\ report_ok before x.2) h (update v before)) ->
  sat report_request done_ h (updateInstanceSite uid siteName update v).
Proof.
  intros Hu. unfold updateInstanceSite. apply (retry_assigning_sat _ (fun _ _ => True)); [|done]. clear v h. intros v h _.
  unfold update_site_once. sat_step. eapply sat_mono; [intros ? ? H; exact H| |apply instancesByUID_sat].
  intros h1 [l|e] [He1 Hl]; [|done]. destruct (find_instance uid l) as [i|] eqn:Hi; [|done]. apply find_instance_elem in Hi.
  specialize (Hl _ _ eq_refl Hi). destruct (find_site _ _) as [[[pre before] post]|] eqn:Hs; [|done].
  apply find_site_Some in Hs as [Hs Hn]. sat_step. eapply sat_mono; [intros ? ? H; exact H| |apply Hu].
  intros h2 [v' after] [He2 Hok]. cbn [snd fst] in *. destruct (_ == _); [done|]. sat_step. sat_step; [|by destruct x].
  exists i. left. split; [by eapply listed_extends|]. eexists pre, before, _, post. split_and!; [done|done|by apply report_ok_observed|done].
Qed.

Lemma trigger_sat uid h : sat report_request done_ h (triggerInstanceReconcile uid).
Proof.
  apply (retry_sat _ (fun _ => True)); [|done]. clear h. intros h _. unfold trigger_once.
  sat_step. eapply sat_mono; [intros ? ? H; exact H| |apply instancesByUID_sat].
  intros h1 [l|e] [He1 Hl]; [|done]. destruct (find_instance uid l) as [i|] eqn:Hi; [|done]. apply find_instance_elem in Hi.
  specialize (Hl _ _ eq_refl Hi). sat_step. sat_step; [done|]. sat_step. sat_step; [|by destruct x0].
  split; [eapply listed_extends; [|done]; keep_history|]. by eexists.
Qed.

(** *** Messages about an instance *)
Lemma acknowledge_ok ack before : report_ok before (acknowledge ack before).
Proof.
  unfold acknowledge. case_bool_decide as E; cbn [negb]; [|apply report_ok_refl]. unfold report_ok. destruct (pa_Accepted ack); cbn; auto 10.
Qed.

(** Fields a summary or a condition of a report never changes. *)
Definition same_revisions (a b : SiteRevisionStatus) : Prop :=
  srs_Name a = srs_Name b /\ srs_SiteRegistrationRef a = srs_SiteRegistrationRef b /\ srs_DesiredRevision a = srs_DesiredRevision b /\
  srs_LastHeartbeatTime a = srs_LastHeartbeatTime b /\ srs_AcknowledgedRevision a = srs_AcknowledgedRevision b /\
  srs_AppliedRevision a = srs_AppliedRevision b.

Lemma summaries_same l : forall st flags, same_revisions (foldl progress_summary (st, flags) l).1 st.
Proof.
  induction l as [|[key value] l IH]; intros st [a c]; [done|]. cbn [foldl progress_summary].
  destruct (CutPrefix key "address/"); destruct (CutPrefix key "condition/"); try destruct (json_Unmarshal value);
    match goal with |- same_revisions (foldl _ (?st', ?fl) _).1 _ => destruct (IH st' fl) as (? & ? & ? & ? & ? & ?) end; split_and!; done.
Qed.

Lemma apply_progress_sat progress flags before h :
  sat report_request (fun h' x => extends h h' /\ report_ok before x.2) h (apply_progress progress flags before).
Proof.
  unfold apply_progress. destruct (_ != _); [by split; [apply extends_refl|apply report_ok_refl]|].
  pose proof (summaries_same (map_to_list (pp_ResourceSummaries progress)) (before <| srs_Phase := pp_Phase progress |>) flags) as Hs.
  destruct (foldl progress_summary _ _) as [st fl]. cbn [fst] in Hs. destruct Hs as (? & ? & ? & ? & ? & ?).
  destruct (has_topology progress).
  - sat_step. sat_step; [done|]. split; [keep_history|]. unfold report_ok. cbn. auto 10.
  - split; [apply extends_refl|]. unfold report_ok. cbn. auto 10.
Qed.

Lemma results_same l : forall st, same_revisions (foldl result_condition st l) st.
Proof.
  induction l as [|c l IH]; intros st; [done|]. cbn [foldl].
  unfold same_revisions. destruct (IH (result_condition st c)) as (-> & -> & -> & -> & -> & ->). unfold result_condition. by destruct (_ && _).
Qed.

Lemma apply_result_ok result before : report_ok before (apply_result result before).
Proof.
  unfold apply_result. case_bool_decide as E; cbn [negb]; [|apply report_ok_refl].
  match goal with |- report_ok _ (foldl _ ?st ?l) => destruct (results_same l st) as (? & ? & ? & ? & ? & ?) end.
  unfold report_ok. cbn in *. split_and!; try done; [by left|right; congruence].
Qed.

(** *** Results of directives *)
Lemma conditions_backup object (l : list WireCondition) :
  backup_report object (foldl (fun o c => setInstanceCondition o (wc_Type c) (wc_Status c) (wc_Reason c) (wc_Message c)) object l).
Proof.
  revert object. induction l as [|c l IH]; intros object; [done|]. cbn [foldl].
  destruct (IH (setInstanceCondition object (wc_Type c) (wc_Status c) (wc_Reason c) (wc_Message c))) as (? & ? & ? & ? & ? & ? & ? & ?).
  by split_and!.
Qed.
Lemma backup_report_trans a b c : backup_report a b -> backup_report b c -> backup_report a c.
Proof. intros (? & ? & ? & ? & ? & ? & ? & ?) (? & ? & ? & ? & ? & ? & ? & ?). split_and!; congruence. Qed.

Definition same_but_evidence (a b : MultiSitePostgresStatus) : Prop :=
  st_Sites a = st_Sites b /\ st_ActiveRevision a = st_ActiveRevision b /\ st_PlanFingerprint a = st_PlanFingerprint b /\
  st_Primary a = st_Primary b /\ st_Phase a = st_Phase b /\ st_Operation a = st_Operation b.
Lemma evidence_same l : forall st, same_but_evidence (updateBackupEvidence st l) st.
Proof.
  unfold updateBackupEvidence. induction l as [|c l IH]; intros st; [done|]. cbn [foldl].
  unfold same_but_evidence. destruct (IH (update_evidence st c)) as (-> & -> & -> & -> & -> & ->). unfold update_evidence. by repeat case_match.
Qed.
Lemma recovery_backup o : backup_report o (setRecoveryWindowCondition o).
Proof. unfold setRecoveryWindowCondition. by repeat case_match. Qed.

Lemma evidence_backup o f conditionStatus reason message : (forall st, same_but_evidence (f st) st) ->
  backup_report o (setInstanceCondition (o <| msp_Status ::= f |>) "BackupReady" conditionStatus reason message).
Proof. intros Hf. destruct (Hf (msp_Status o)) as (? & ? & ? & ? & ? & ?). by split_and!. Qed.

Lemma record_instance_sat ns name result h :
  sat report_request done_ h (RetryOnConflict (record_instance_once ns name siteName result)).
Proof.
  apply (retry_sat _ (fun _ => True)); [|done]. clear h. intros h _. unfold record_instance_once.
  sat_step. sat_step; [done|]. destruct x as [object|e]; [|done]. sat_step. sat_step; [|by destruct x].
  exists object. right. split; [do 2 eexists; by apply elem_of_cons; left|].
  eapply backup_report_trans; [apply (conditions_backup object (pr_Conditions result))|].
  destruct (directiveSucceeded _).
  - eapply backup_report_trans; [|apply recovery_backup]. apply evidence_backup. intros st.
    destruct (evidence_same (pr_Conditions result) st) as (? & ? & ? & ? & ? & ?). by split_and!.
  - by apply evidence_backup.
Qed.

Lemma record_evidence_sat ns name result h : sat report_request done_ h (RetryOnConflict (record_backup_evidence_once ns name result)).
Proof.
  apply (retry_sat _ (fun _ => True)); [|done]. clear h. intros h _. unfold record_backup_evidence_once.
  sat_step. sat_step; [done|]. destruct x as [object|e]; [|done]. sat_step. sat_step; [|by destruct x].
  exists object. right. split; [do 2 eexists; by apply elem_of_cons; left|].
  eapply backup_report_trans; [|apply recovery_backup]. apply evidence_backup. apply evidence_same.
Qed.

(** A status write of the object that owns the directive. *)
Lemma owned_sat {k : Kind} kind ns name (change : Object k -> Object k) h : directive_owner h kind name ->
  (forall h' o, read_as_owner h' kind o -> report_request h' (UpdateStatus k (change o))) ->
  sat report_request done_ h (RetryOnConflict (
    let! object := call (Get k ns name) onerr e => Ret (Err e) in
    let! _ := call (UpdateStatus k (change object)) onerr e => Ret (Err e) in
    Ret (Ok tt))).
Proof.
  intros Ho Hc. apply (retry_sat _ (fun h' => extends h h')); [|apply extends_refl]. intros h1 He.
  sat_step. sat_step; [done|]. destruct x as [object|e]; [|by split; [keep_history|]]. sat_step. sat_step.
  - apply Hc. exists ns, name. split; [by apply elem_of_cons; left|].
    destruct Ho as (cms & cm & owner & H1 & ?). exists cms, cm, owner. split; [|done]. by apply elem_of_cons; right; apply He.
  - destruct x; (split; [keep_history|done]).
Qed.


Lemma operation_owner_Some uid l cm owner : operation_owner uid l = Some (cm, owner) ->
  cm ∈ l /\ head (meta_OwnerReferences (cm_Meta cm)) = Some owner.
Proof.
  induction l as [|c l IH]; cbn [operation_owner]; [done|]. destruct (meta_OwnerReferences (cm_Meta c)) as [|ow ows] eqn:Eo.
  - intros H. destruct (IH H). split; [by apply elem_of_cons; right|done].
  - case_bool_decide.
    + intros [= <- <-]. split; [by apply elem_of_cons; left|]. by rewrite Eo.
    + intros Hx. destruct (IH Hx). split; [by apply elem_of_cons; right|done].
Qed.

Lemma directive_result_sat result h : sat report_request done_ h (recordDirectiveResult siteName result).
Proof.
  unfold recordDirectiveResult. sat_step. sat_step; [done|]. destruct x as [cms|e]; [|done].
  destruct (operation_owner _ cms) as [[cm owner]|] eqn:Eo; [|done]. apply operation_owner_Some in Eo as [Hcm Hown].
  match goal with |- sat _ _ ?h1 _ => set (h1' := h1); assert (Hd : directive_owner h1' (or_Kind owner) (or_Name owner)) end.
  { exists cms, cm, owner. split; [by apply elem_of_cons; left|done]. }
  unfold recordOwnedDirectiveResult.
  destruct (or_Kind owner == "MultiSitePostgres"); [apply record_instance_sat|].
  destruct (or_Kind owner == "PostgresDatabase") eqn:E1; bool_to_prop.
  { rewrite E1 in Hd. apply (owned_sat (k:=KDatabase) "PostgresDatabase" _ _ _ _ Hd). intros h' o Ho. by exists o. }
  destruct (or_Kind owner == "PostgresUser") eqn:E2; bool_to_prop.
  { rewrite E2 in Hd. apply (owned_sat (k:=KUser) "PostgresUser" _ _ _ _ Hd). intros h' o Ho. by exists o. }
  destruct (or_Kind owner == "PostgresRestore") eqn:E3; bool_to_prop.
  { rewrite E3 in Hd. apply (owned_sat (k:=KRestore) "PostgresRestore" _ _ _ _ Hd). intros h' o Ho. by exists o. }
  destruct (or_Kind owner == "PostgresUpgrade") eqn:E4; bool_to_prop; [|done]. rewrite E4 in Hd.
  unfold recordUpgradeDirectiveResult. destruct (_ == "Backup").
  2:{ apply (owned_sat (k:=KUpgrade) "PostgresUpgrade" _ _ _ _ Hd). intros h' o Ho. by exists o. }
  unfold recordUpgradeBackupResult. sat_step. eapply sat_mono; [intros ? ? H; exact H| |].
  2:{ apply (owned_sat (k:=KUpgrade) "PostgresUpgrade" _ _ _ _ Hd). intros h' o Ho. exists o. split; [done|]. by destruct (directiveSucceeded _). }
  intros h2 [[]|e] _; [|done]. destruct (negb _); [done|]. apply record_evidence_sat.
Qed.

(** *** Messages about the site *)
Lemma site_status_sat (change : SiteRegistrationStatus -> SiteRegistrationStatus) h :
  (forall st, regst_ClusterUID (change st) = regst_ClusterUID st) ->
  sat report_request done_ h (updateSiteStatus siteName (fun current => Ret (Ok (current <| reg_Status ::= change |>)))).
Proof.
  intros Hc. apply (retry_sat _ (fun _ => True)); [|done]. clear h. intros h _. sat_step. sat_step; [done|].
  destruct x as [cur|e]; [|done]. sat_step. cbn [sat]. sat_step. sat_step; [|by destruct x].
  exists cur. split_and!; [by apply elem_of_cons; left|done|done|apply Hc].
Qed.

Lemma rotate_sat request h : sat report_request done_ h (rotateCertificate SignCertificate site request).
Proof.
  unfold rotateCertificate. destruct SignCertificate as [sign|] eqn:Es; [|done]. destruct (_ || _); [done|].
  unfold ensureSiteActive. sat_step. sat_step. sat_step; [done|]. destruct x as [cur|e]; [|done]. cbn [sat].
  destruct (_ || _) eqn:Ea; [done|]. sat_step.
  match goal with |- sat _ _ ?h1 _ => set (h1' := h1) end.
  eapply sat_mono_later; [| |exact (sign_requests sign eq_refl site (csr_CsrPem request) h1')].
  - intros h' r _. destruct r as [| |k o| | | | | | | | | | |]; try done. by destruct k.
  - intros h2 [[certificatePEM caPEM]|e] He _; [|done]. destruct (pem_Decode certificatePEM) as [[block rest]|]; [|done].
    destruct (ParseCertificate _); [|done]. sat_step. sat_step.
    + exists cur. split; [apply He; by apply elem_of_cons; left|]. revert Ea. case_bool_decide; [|done]. by destruct (regs_Revoked _).
    + destruct x as [[]|e]; [|done]. sat_step. eapply sat_mono; [intros ? ? H; exact H| |by apply site_status_sat]. by intros ? [].
Qed.

Lemma message_sat message h : sat report_request done_ h (record_message SignCertificate site message).
Proof.
  destruct message as [|hb|ack|progress|result|inventory|request|]; cbn [record_message]; try done.
  - unfold recordHeartbeat. sat_step. sat_step; [done|]. sat_step.
    eapply sat_mono; [intros ? ? H; exact H| |by apply site_status_sat]. by intros ? [].
  - unfold recordAcknowledgement. sat_step. eapply sat_mono; [intros ? ? H; exact H| |apply updateInstanceSite_sat]; [done|].
    intros v before h1. split; [apply extends_refl|apply acknowledge_ok].
  - unfold recordProgress. sat_step. eapply sat_mono; [intros ? ? H; exact H| |apply updateInstanceSite_sat, apply_progress_sat].
    intros h1 [flags [[]|e]] _; cbn [fst snd]; [|done]. destruct (_ && _); [done|apply trigger_sat].
  - unfold recordResult. destruct (_ != ""); [apply directive_result_sat|].
    sat_step. eapply sat_mono; [intros ? ? H; exact H| |apply updateInstanceSite_sat].
    + intros h1 [v [[]|e]] _; cbn [snd]; [apply trigger_sat|done].
    + intros v before h1. split; [apply extends_refl|apply apply_result_ok].
  - unfold recordInventory. destruct (_ <? _)%Z; [done|]. destruct (json_Unmarshal _) as [inv|]; [|done]. sat_step.
    eapply sat_mono; [intros ? ? H; exact H| |by apply site_status_sat]. by intros ? [].
  - apply rotate_sat.
Qed.

Lemma receive_sat fuel h : sat report_request done_ h (receive SignCertificate fuel site).
Proof.
  revert h. induction fuel as [|fuel IH]; intros h; [done|]. cbn [receive]. sat_step. sat_step; [done|].
  destruct x as [message|e]; [|done]. sat_step. eapply sat_mono; [intros ? ? H; exact H| |apply message_sat].
  intros h1 [[]|e] _; [apply IH|done].
Qed.
End confinement.

(** ** The two loops of a connection side by side

    [Connect] starts [sendPlans] and [receive] and ends when one of them does.
    They share the stream and the cluster, and nothing else: a step of the
    connection is one exchange of one of them. *)
Section connection.
Context {St : Type} (handle : forall q : Req, St -> Resp q * St).

Record connection := mkConnection {
  cn_cluster : St;
  cn_sender : kprog (option Error);
  cn_sent : khistory;
  cn_receiver : kprog (option Error);
  cn_received : khistory
}.

Inductive connection_step : connection -> connection -> Prop :=
| sender_step s r k x s' h p h' : handle r s = (x, s') ->
    connection_step (mkConnection s (Call r k) h p h') (mkConnection s' (k x) (existT r x :: h) p h')
| receiver_step s r k x s' h p h' : handle r s = (x, s') ->
    connection_step (mkConnection s p h (Call r k) h') (mkConnection s' p h (k x) (existT r x :: h')).

(** What each loop does alone it does in any interleaving. *)
Lemma connection_sat P Q c c' : rtc connection_step c c' ->
  sat P done_ (cn_sent c) (cn_sender c) -> sat Q done_ (cn_received c) (cn_receiver c) ->
  sat P done_ (cn_sent c') (cn_sender c') /\ sat Q done_ (cn_received c') (cn_receiver c').
Proof.
  induction 1 as [c|c c1 c2 Hstep _ IH]; [done|]. intros Hs Hr. destruct Hstep; cbn in *; apply IH; cbn; try done.
  - by apply Hs.
  - by apply Hr.
Qed.
End connection.

(** [Connect] ends without an error when the stream does. *)
Definition Connect_error (e : Error) : option Error :=
  if bool_decide (err_reason e = ErrEOF) || bool_decide (err_reason e = ErrCanceled) then None else Some e.

Section connected.
Context {K : KubeLib} {L : KubeLaws K} {C : Crypto} {TT : TimeText} {X : X509}.
Context {JE : Json Envelope} {JP : Json SitePlan} {JD : Json Payload}.
Context {JB : Json BackupDirective} {JS : Json ScheduledBackup} {JDB : Json PostgresDatabaseSpec} {JU : Json PostgresUserSpec}.
Context {JC : Json ReportedCondition} {JI : Json Inventory} {JL : Json (list string)}.
Context {St : Type} (handle : forall q : Req, St -> Resp q * St) (s : Server) (http : HTTPServer) (site : SiteRegistration).

(** The connection of a site after the handshake, with the hub's signer. *)
Definition Connect_start (sends messages : nat) (cluster : St) : connection :=
  mkConnection cluster (sendPlans s sends (meta_Name (reg_Meta site)) (meta_UID (reg_Meta site))) []
    (receive (Some (SignCSR http)) messages site) [].

Lemma SignCSR_requests site' csr h : sat (fun _ r => signing_request r) done_ h (SignCSR http site' csr).
Proof.
  unfold SignCSR, ensureCA. repeat (sat_step; try exact I).
Qed.

End connected.

(** ** Conditions of an instance from those of its sites *)
Section aggregation.
Context {K : KubeLib}.

Definition siteRole (instance : MultiSitePostgres) (siteName : string) : string :=
  match List.find (fun site => site_Name site == siteName) (spec_Sites (msp_Spec instance)) with
  | Some site => site_Role site
  | None => ""
  end.

(** One round of the loop over the condition types. *)
Definition aggregate_condition (instance : MultiSitePostgres) (conditionType : string) : MultiSitePostgres :=
  if (conditionType == "TDEVerified") && negb (tde_Enabled (spec_TDE (msp_Spec instance))) then instance
  else
    let applicable := List.filter (fun site =>
      negb (((conditionType == "PatroniReady") || (conditionType == "TDEVerified")) &&
            (siteRole instance (srs_Name site) == SiteRoleWitness))) (st_Sites (msp_Status instance)) in
    if forallb (fun site => conditionTrue (srs_Conditions site) conditionType) applicable && (0 <? length applicable)%nat then
      setInstanceCondition instance conditionType ConditionTrue "AllSitesReady" ("All applicable sites report " +:+ conditionType)
    else
      setInstanceCondition instance conditionType ConditionFalse "AwaitingSites"
        ("Waiting for all applicable sites to report " +:+ conditionType).

(** The loop over the sites with the fingerprint found so far: the conditions
    of the instance, unless no site is applicable. *)
Fixpoint common_trust (instance : MultiSitePostgres) (conditionType : string) (dataSitesOnly : bool) (component : string)
  (sites : list SiteRevisionStatus) (fingerprint : string) (applicable : nat) : MultiSitePostgres :=
  match sites with
  | [] =>
      if (applicable =? 0)%nat then instance
      else setInstanceCondition instance conditionType ConditionTrue "CommonTrustBundle"
        ("All applicable sites use the same " +:+ component +:+ " CA bundle")
  | site :: sites =>
      if dataSitesOnly && (siteRole instance (srs_Name site) == SiteRoleWitness) then
        common_trust instance conditionType dataSitesOnly component sites fingerprint applicable
      else
        match FindStatusCondition (srs_Conditions site) conditionType with
        | Some condition =>
            if cond_Status condition != ConditionTrue then
              setInstanceCondition instance conditionType ConditionFalse "AwaitingSites"
                ("Waiting for all applicable sites to report their " +:+ component +:+ " trust bundle")
            else if fingerprint == "" then
              common_trust instance conditionType dataSitesOnly component sites (cond_Message condition) (S applicable)
            else if cond_Message condition != fingerprint then
              setInstanceCondition instance conditionType ConditionFalse "TrustBundleMismatch"
                (component +:+ " issuers do not publish the same CA bundle across sites")
            else common_trust instance conditionType dataSitesOnly component sites fingerprint (S applicable)
        | None =>
            setInstanceCondition instance conditionType ConditionFalse "AwaitingSites"
              ("Waiting for all applicable sites to report their " +:+ component +:+ " trust bundle")
        end
  end.
Definition aggregateCommonTrust (instance : MultiSitePostgres) (conditionType : string) (dataSitesOnly : bool) (component : string) : MultiSitePostgres :=
  common_trust instance conditionType dataSitesOnly component (st_Sites (msp_Status instance)) "" 0.

Definition aggregateBackupTLS (instance : MultiSitePostgres) : MultiSitePostgres :=
  if is_nil (spec_Backup (msp_Spec instance)) then instance else aggregateCommonTrust instance "BackupTLSReady" true "pgBackRest".

Definition aggregateInstanceConditions (instance : MultiSitePostgres) : MultiSitePostgres :=
  let instance := foldl aggregate_condition instance
    ["LoadBalancersAllocated"; "CertificatesReady"; "EtcdTLSReady"; "EtcdQuorate"; "PatroniReady"; "TDEVerified"] in
  aggregateBackupTLS (aggregateCommonTrust instance "EtcdTLSReady" false "etcd").

Context {L : KubeLaws K}.

(** A site reports the condition with the fingerprint of a trust bundle. *)
Definition reports_trust (conditionType fingerprint : string) (site : SiteRevisionStatus) : Prop :=
  exists condition, FindStatusCondition (srs_Conditions site) conditionType = Some condition /\
    cond_Status condition = ConditionTrue /\ cond_Message condition = fingerprint.

Lemma reported_condition_true i t status reason message :
  instanceTrue (setInstanceCondition i t status reason message) t = (status == ConditionTrue).
Proof.
  change (conditionTrue (setCondition (st_Conditions (msp_Status i)) (meta_Generation (msp_Meta i)) t status reason message) t = (status == ConditionTrue)).
  rewrite conditionTrue_setCondition. by rewrite bool_decide_eq_true_2.
Qed.

Lemma common_trust_exact i t component sites fingerprint n : fingerprint <> "" ->
  instanceTrue (common_trust i t false component sites fingerprint (S n)) t = true <->
  forall site, site ∈ sites -> reports_trust t fingerprint site.
Proof.
  intros Hf. revert n. induction sites as [|site sites IH]; intros n; cbn [common_trust andb].
  - cbn [Nat.eqb]. rewrite reported_condition_true. split; [by intros _ s ?%elem_of_nil|done].
  - assert (Hno : forall reason message, ~ reports_trust t fingerprint site ->
      instanceTrue (setInstanceCondition i t ConditionFalse reason message) t = true <-> forall s, s ∈ site :: sites -> reports_trust t fingerprint s).
    { intros reason message Hn. rewrite reported_condition_true. split; [done|]. intros H. destruct Hn. apply H. by apply elem_of_cons; left. }
    destruct (FindStatusCondition _ t) as [c|] eqn:Ec; [|apply Hno; by intros (c & E & _); rewrite Ec in E].
    case_bool_decide as Es; cbn [negb]; [|apply Hno; intros (c' & E & Et & _); rewrite Ec in E; by injection E as <-].
    rewrite bool_decide_eq_false_2 by done. case_bool_decide as Em; cbn [negb].
    + rewrite IH. split; [|intros H s Hs; apply H; by apply elem_of_cons; right].
      intros H s [->|Hs]%elem_of_cons; [by exists c|by apply H].
    + apply Hno. intros (c' & E & _ & Et). rewrite Ec in E. by injection E as <-.
Qed.

(** The aggregation of the sites' conditions reports the trust in a
    component exactly when it is common: given that the first site reports a
    fingerprint, the instance's condition is true if and only if every site
    reports the condition as true with that fingerprint. *)
Theorem trust_aggregated_exactly i t component first sites fingerprint :
  st_Sites (msp_Status i) = first :: sites -> fingerprint <> "" -> reports_trust t fingerprint first ->
  instanceTrue (aggregateCommonTrust i t false component) t = true <->
  forall site, site ∈ st_Sites (msp_Status i) -> reports_trust t fingerprint site.
Proof.
  intros Hs Hf (c & Hc & Ht & Hm). unfold aggregateCommonTrust. rewrite Hs. cbn [common_trust andb]. rewrite Hc.
  rewrite !bool_decide_eq_true_2 by done. cbn [negb]. rewrite Hm, common_trust_exact by done.
  split; [|intros H s Hin; apply H; by apply elem_of_cons; right].
  intros H s [->|Hin]%elem_of_cons; [by exists c|by apply H].
Qed.
End aggregation.

(** ** Names of sites and of registrations *)
Section names.
Context {K : KubeLib} {L : KubeLaws K} {TT : TimeText}.
Context {JC : Json ReportedCondition} {JL : Json (list string)}.

Definition site_not_found : Error := status_Error NotFound "site is not part of the instance".
(** Every list of the instances with the UID is the given one. *)
Definition always_listed (instanceUID : string) (instances : list MultiSitePostgres) (h : khistory) : Prop :=
  forall x, existT (ListField KInstance None InstanceUIDField instanceUID) x ∈ h -> x = Ok instances.

Lemma find_site_None name sites : name ∉ (srs_Name <$> sites) -> find_site name sites = None.
Proof.
  induction sites as [|s sites IH]; cbn [find_site fmap list_fmap]; [done|]. rewrite not_elem_of_cons. intros [Hn Hs].
  rewrite bool_decide_eq_false_2 by done. by rewrite IH.
Qed.

Lemma update_refused {V} instanceUID siteName (update : V -> SiteRevisionStatus -> kprog (V * SiteRevisionStatus)) v instances instance h :
  find_instance instanceUID instances = Some instance -> siteName ∉ (srs_Name <$> st_Sites (msp_Status instance)) ->
  sat (fun h r => always_listed instanceUID instances h -> match r with UpdateStatus _ _ => False | _ => True end)
    (fun h' x => always_listed instanceUID instances h' -> x.2 = Err site_not_found) h (updateInstanceSite instanceUID siteName update v).
Proof.
  intros Hi Hn. apply (retry_assigning_sat _ (fun _ _ => True)); [|done]. clear v h. intros v h _. unfold update_site_once, instancesByUID.
  sat_step. sat_step. sat_step; [done|].
  assert (Hx : x = Ok instances \/ x <> Ok instances).
  { destruct x as [l|e]; [|by right]. destruct (decide ((l : list MultiSitePostgres) = instances)) as [->|]; [by left|right; congruence]. }
  destruct Hx as [->|Hne]; [cbn [sat]; rewrite Hi, find_site_None by done; by split|].
  assert (Habs : forall h', extends (existT (ListField KInstance None InstanceUIDField instanceUID) x :: h) h' ->
    ~ always_listed instanceUID instances h').
  { intros h' He Ha. apply Hne, Ha, He. by apply elem_of_cons; left. }
  apply sat_all.
  - intros h' q He Ha. by destruct (Habs h' He).
  - intros h' y He. apply sat_all.
    + intros h2 q He2 Ha. destruct (Habs h2); [|done]. by eapply extends_trans.
    + intros h2 z He2. split; [done|]. intros Ha. destruct (Habs h2); [|done]. by eapply extends_trans.
Qed.

(** The hub takes an agent's report on an instance only if the site is
    called like its registration, which nothing requires and the samples do not
    do: where the statuses of an instance's sites have other names than the
    registration, the agent's acknowledgement of a plan is refused with
    [NotFound], which ends its stream, and nothing is recorded. *)
Theorem report_needs_equal_names siteName ack instances instance :
  find_instance (pa_InstanceUid ack) instances = Some instance -> siteName ∉ (srs_Name <$> st_Sites (msp_Status instance)) ->
  sat (fun h r => always_listed (pa_InstanceUid ack) instances h -> match r with UpdateStatus _ _ => False | _ => True end)
    (fun h x => always_listed (pa_InstanceUid ack) instances h -> x = Err site_not_found) [] (recordAcknowledgement siteName ack).
Proof.
  intros Hi Hn. unfold recordAcknowledgement. sat_step.
  eapply sat_mono; [intros ? ? H; exact H| |by eapply update_refused]. intros h' [v x] Hx Ha. by apply Hx.
Qed.
End names.

(** Steps of the receiver alone. *)
Section receiver.
Context {St : Type} (handle : forall q : Req, St -> Resp q * St).
Fixpoint run_receiver (n : nat) (c : connection) : connection :=
  match n, cn_receiver c with
  | S n, Call r k =>
      let '(x, s') := handle r (cn_cluster c) in
      run_receiver n (mkConnection s' (cn_sender c) (cn_sent c) (k x) (existT r x :: cn_received c))
  | _, _ => c
  end.
Lemma run_receiver_steps n c : rtc (connection_step handle) c (run_receiver n c).
Proof.
  revert c. induction n as [|n IH]; intros [s p h [a|r k] h']; cbn [run_receiver cn_receiver cn_cluster cn_sender cn_sent cn_received]; try reflexivity.
  destruct (handle r s) as [x s'] eqn:E. eapply rtc_l; [by apply receiver_step|apply IH].
Qed.
End receiver.

Module RefControlReports.
Import RefCodec.
#[global] Instance serial_ReportedCondition : Serial ReportedCondition.
Proof. refine (serial_iso (fun c => (rc_Status c, rc_Reason c, rc_Message c)) (fun '(a, b, c) => Some (mkReportedCondition a b c)) _). by intros []. Defined.
#[global] Instance json_ReportedCondition : Json ReportedCondition := json_of id.
#[global] Instance json_strings : Json (list string) := json_of id.
#[global] Instance json_Inventory : Json Inventory := {|
  json_Marshal _ := Err (errors_New "not encoded"); json_Compact s := Ok s; json_Unmarshal _ := Ok (mkInventory [] [] []);
  json_wire x := x; json_text _ := True |}.

(** An instance whose site [a] is to apply revision 2. *)
Definition instance : MultiSitePostgres := zero_MultiSitePostgres
  <| msp_Meta := zero_ObjectMeta <| meta_Name := "i" |> <| meta_UID := "i-uid" |> |>
  <| msp_Status ::= fun st => st <| st_Sites := [zero_SiteRevisionStatus <| srs_Name := "a" |> <| srs_DesiredRevision := 2%Z |>] |> |>.
(** The agent acknowledges it. *)
Definition answer (r : Req) : unit -> Resp r * unit := fun _ =>
  (match r return Resp r with
   | Env RecvAgent => Ok (Msg_Acknowledgement (mkPlanAcknowledgement "i-uid" 2 true []))
   | ListField KInstance _ _ _ => Ok [instance]
   | r => (MemServer.serve r (proj1_sig MemServer.empty)).1
   end, tt).
Definition connected : connection (St:=unit) := run_receiver answer 2
  (Connect_start (C:=RefCodec.crypto) (X:=RefRegistration.x509) (mkServer "" 0) RefRegistration.server RefControlServer.site 1 1 tt).
End RefControlReports.


(** A cluster with one instance, whose only site is called like its
    registration. *)
Module RefReadiness.
Import RefControlReports.
Definition registration : SiteRegistration := RefInstance.registration <| reg_Meta ::= fun m => m <| meta_Name := "a" |> |>.
Definition instance : MultiSitePostgres := RefInstance.instance <| msp_Spec ::= fun sp => sp <| spec_Sites ::=
  fmap (fun site => site <| site_SiteRegistrationRef := "a" |>) |> |>.
Definition start : MemServer.mem :=
  (MemServer.put (k:=KInstance) instance (MemServer.put (k:=KRegistration) registration
    (MemServer.mkMem (fun _ => []) (fun _ => []) 1 1000%Z)).2).2.
(** The agent reports its trust bundle and topology, and that it applied the
    first revision. *)
Definition progress : PlanProgress := mkPlanProgress "" "instance" 1 "Ready"
  (list_to_map [("topology/primary", "postgres-a-0");
    ("condition/EtcdTLSReady", RefCodec.ser (mkReportedCondition ConditionTrue "Published" "fingerprint"))]).
Definition applied : PlanResult := mkPlanResult "" "instance" 1 [mkWireCondition "EtcdTLSReady" ConditionTrue "Published" "fingerprint"].
Definition record (message : AgentMessage) (s : MemServer.mem) : MemServer.mem :=
  (run MemServer.serve (record_message (X:=RefRegistration.x509) None registration message) s []).1.2.
Definition reported : MemServer.mem :=
  record (Msg_Result applied) (record (Msg_Progress progress) (RefInstance.round MemServer.serve start)).
Definition reconciled : MemServer.mem := RefInstance.round MemServer.serve reported.
(** A condition of the stored instance: its status and reason. *)
Definition condition (i : MultiSitePostgres) (t : string) : option (string * string) :=
  (fun c => (cond_Status c, cond_Reason c)) <$> FindStatusCondition (st_Conditions (msp_Status i)) t.
End RefReadiness.

(** An instance whose sites have all applied the plan and all report the
    same etcd trust bundle is not ready, and stays waiting for that bundle: the
    hub never derives the instance's condition from those of its sites, since
    the function that does, [aggregateInstanceConditions], is called by tests
    only. With its result the same instance would be ready. *)
Theorem trusted_sites_never_ready : exists i,
  RefInstance.stored_instance RefReadiness.reconciled = Some i /\
  allSitesApplied (st_Sites (msp_Status i)) (st_ActiveRevision (msp_Status i)) = true /\
  (forall site, site ∈ st_Sites (msp_Status i) -> reports_trust "EtcdTLSReady" "fingerprint" site) /\
  RefReadiness.condition i "Ready" = Some (ConditionFalse, "EtcdTrustPending") /\
  RefReadiness.condition (setAppliedInstanceReady (aggregateInstanceConditions i) None None) "Ready" =
    Some (ConditionTrue, "AllSitesReady").
Proof.
  eexists. split; [vm_compute; reflexivity|]. split; [vm_compute; reflexivity|]. split; [|split; vm_compute; reflexivity].
  intros site Hs. cbn [msp_Status st_Sites] in Hs. apply list_elem_of_singleton in Hs as ->. eexists. split_and!; reflexivity.
Qed.

Lemma trust_aggregated_exactly_witness : exists i, RefInstance.stored_instance RefReadiness.reconciled = Some i /\
  instanceTrue (aggregateCommonTrust i "EtcdTLSReady" false "etcd") "EtcdTLSReady" = true.
Proof.
  eexists. split; [vm_compute; reflexivity|].
  match goal with |- instanceTrue (aggregateCommonTrust ?i _ _ _) _ = true =>
    apply (trust_aggregated_exactly (L:=Ref.laws) i "EtcdTLSReady" "etcd" _ [] "fingerprint" eq_refl) end; [discriminate|by eexists|].
  intros site Hs. cbn [msp_Status st_Sites] in Hs. apply list_elem_of_singleton in Hs as ->. by eexists.
Defined.

Lemma report_needs_equal_names_witness :
  sat (fun h r => always_listed "instance" [RefInstance.instance] h -> match r with UpdateStatus _ _ => False | _ => True end)
    (fun h x => always_listed "instance" [RefInstance.instance] h -> x = Err site_not_found) []
    (recordAcknowledgement "reg-a" (mkPlanAcknowledgement "instance" 1 true [])).
Proof.
  apply (report_needs_equal_names "reg-a" (mkPlanAcknowledgement "instance" 1 true []) [RefInstance.instance] RefInstance.instance);
    [reflexivity|vm_compute; by intros ?%elem_of_nil].
Defined.

