(* ===== verification/Client.v ===== *)
(** * The agent's side of the control stream

    [internal/control/client.go]: an agent announces itself, then its main loop
    ([Run]) starts one goroutine per plan and per directive it receives
    ([applyPlan], [applyDirective]) while another sends heartbeats. The site
    reconciler and the executor of directives are fields of the client; here
    they are any programs that keep the contracts of the classes below.

    [applyPlan] goes on reconciling until its context is cancelled; [fuel]
    bounds the rounds that are modelled and [None] is a worker that is still
    running. The callbacks for metrics ([Connection], [Reconcile]) are left
    out. *)
From S2P Require Import Prelude Prog Api Messages Kube ApiServer Codec NetAddr Plan Directive DirectiveState Cache.
From S2P Require Import Registration ControlServer ControlReports.

(** [LocalEvent] and [ApplyResult] of [internal/agent/reconcile.go]. *)
Record LocalEvent := mkLocalEvent { le_Type : string; le_Reason : string; le_Action : string; le_Note : string }.
Record ApplyResult := mkApplyResult {
  ar_Phase : string;
  ar_Addresses : gmap string string;
  ar_Primary : string;
  ar_SynchronousStandbys : list string;
  ar_Conditions : list Condition;
  ar_Events : list LocalEvent
}.
#[global] Instance eta_ApplyResult : Settable ApplyResult := fun r =>
  mkApplyResult (ar_Phase r) (ar_Addresses r) (ar_Primary r) (ar_SynchronousStandbys r) (ar_Conditions r) (ar_Events r).
Definition zero_ApplyResult : ApplyResult := mkApplyResult "" ∅ "" [] [] [].

Record CertificateRotator := mkCertificateRotator {
  cr_Request : kprog (result (option CertificateSigningRequest));
  cr_Install : CertificateResponse -> kprog (result unit)
}.

Record DirectiveStateStore := mkDirectiveStateStore {
  dss_Load : string -> kprog (result (DirectiveState * bool));
  dss_MarkRunning : string -> string -> kprog (result unit);
  dss_MarkTerminal : string -> string -> list Condition -> kprog (result unit)
}.
Definition ConfigMapDirectiveStateStore {K : KubeLib} {C : Crypto} {TT : TimeText} {J : Json (list Condition)}
  (namespace : string) : DirectiveStateStore :=
  mkDirectiveStateStore (DirectiveState.Load namespace) (MarkRunning namespace) (MarkTerminal namespace).

(** The client, with the fields of its [agent.Cache], the [SiteUID] of its
    reconciler and the reconciler's [Apply]. *)
Record AgentClient := mkAgentClient {
  ac_Hello : AgentHello;
  ac_CacheNamespace : string;
  ac_PublicKey : string;
  ac_CacheSiteUID : string;
  ac_SiteUID : string;
  ac_Apply : SitePlan -> SitePlan -> bool -> kprog (ApplyResult * option Error);
  ac_Directives : option (Payload -> kprog (list Condition * option Error));
  ac_DirectiveState : option DirectiveStateStore;
  ac_Inventory : option (kprog (result string));
  ac_Certificates : option CertificateRotator
}.

Section client.
Context {C : Crypto} {TT : TimeText} {R : RawJson}.
Context {JE : Json Envelope} {JP : Json SitePlan} {JD : Json Payload} {JC : Json ReportedCondition}.
Context (c : AgentClient).

Definition send (message : AgentMessage) : kprog (result unit) := call (Env (SendAgent message)).

(** [return err] where [err] is the error of the last call. *)
Definition error_of {A} (x : result A) : option Error := match x with Ok _ => None | Err e => Some e end.

Definition requestCertificate : kprog (result unit) :=
  match ac_Certificates c with
  | None => Ret (Ok tt)
  | Some rotator =>
      let! request := cr_Request rotator onerr e => Ret (Err e) in
      match request with
      | None => Ret (Ok tt)
      | Some request => send (Msg_CertificateSigningRequest request)
      end
  end.

Definition sendInventory : kprog (result unit) :=
  match ac_Inventory c with
  | None => Ret (Ok tt)
  | Some inventory =>
      let! inventory := inventory onerr e => Ret (Err e) in
      send (Msg_Inventory (mkInventoryUpdate inventory))
  end.

(** [Run] up to its loop. *)
Definition Run_start : kprog (result unit) :=
  let! _ := send (Msg_Hello (ac_Hello c)) onerr e => Ret (Err e) in
  let! _ := requestCertificate onerr e => Ret (Err e) in
  sendInventory.

(** ** Heartbeats *)

(** What the [select] of [heartbeats] yields. *)
Inductive tick := HeartbeatTick | InventoryTick | ContextDone (e : Error).

Definition send_heartbeat : kprog (result unit) :=
  let* revisions := call (Env LoadActive) in
  let* now := call Now in
  send (Msg_Heartbeat (mkAgentHeartbeat revisions 0 (Some now))).

Fixpoint heartbeats (ticks : list tick) : kprog (option Error) :=
  match ticks with
  | [] => Ret None
  | ContextDone e :: _ => Ret (Some e)
  | HeartbeatTick :: ticks => let! _ := send_heartbeat onerr e => Ret (Some e) in heartbeats ticks
  | InventoryTick :: ticks => let! _ := sendInventory onerr e => Ret (Some e) in heartbeats ticks
  end.

(** ** Directives *)
Definition wire_condition (condition : Condition) : WireCondition :=
  mkWireCondition (cond_Type condition) (cond_Status condition) (cond_Reason condition) (cond_Message condition).

Definition sendDirectiveResult (message : OperationDirective) (conditions : list Condition) : kprog (result unit) :=
  send (Msg_Result (mkPlanResult (od_OperationUid message) (od_InstanceUid message) 0 (wire_condition <$> conditions))).

(** The conditions of an execution. *)
Definition executed_conditions (executed : list Condition * option Error) : list Condition :=
  match executed.2 with
  | None => executed.1
  | Some e => executed.1 ++ [mkCondition "Succeeded" ConditionFalse 0 "ExecutionFailed" (err_text e)]
  end.

(** [applyDirective] from the progress report on. *)
Definition execute_directive (execute : Payload -> kprog (list Condition * option Error))
  (message : OperationDirective) (payload : Payload) : kprog (option Error) :=
  let! _ := send (Msg_Progress (mkPlanProgress (od_OperationUid message) (od_InstanceUid message) 0 "Running" ∅))
    onerr e => Ret (Some e) in
  let* executed := execute payload in
  let conditions := executed_conditions executed in
  let! _ := match ac_DirectiveState c with
            | None => Ret (Ok tt)
            | Some store => dss_MarkTerminal store (od_OperationUid message) (od_InstanceUid message) conditions
            end onerr e => Ret (Some e) in
  let* x := sendDirectiveResult message conditions in
  Ret (error_of x).

(** Whether the record of an operation says that the directive has ended. *)
Definition has_ended (message : OperationDirective) (state : DirectiveState) (found : bool) : bool :=
  found && (ds_InstanceUID state == od_InstanceUid message) &&
  ((ds_Phase state == directiveStateSucceeded) || (ds_Phase state == directiveStateFailed)).

Definition applyDirective (message : OperationDirective) : kprog (option Error) :=
  match json_Unmarshal (od_DirectiveJson message) with
  | Err e => Ret (Some e)
  | Ok envelope =>
    match Directive.Verify (ac_PublicKey c) envelope (ac_SiteUID c) (od_InstanceUid message) (od_OperationUid message) with
    | Err e => Ret (Some e)
    | Ok payload =>
      match ac_Directives c with
      | None => Ret (Some (errors_New "site agent has no directive executor"))
      | Some execute =>
        match ac_DirectiveState c with
        | None => execute_directive execute message payload
        | Some store =>
          let! loaded := dss_Load store (od_OperationUid message) onerr e => Ret (Some e) in
          if has_ended message loaded.1 loaded.2 then
            let* x := sendDirectiveResult message (ds_Conditions loaded.1) in
            Ret (error_of x)
          else
            let! _ := dss_MarkRunning store (od_OperationUid message) (od_InstanceUid message) onerr e => Ret (Some e) in
            execute_directive execute message payload
        end
      end
    end
  end.

(** ** Plans *)
Definition reject (message : DesiredSitePlan) (validationErr : Error) : kprog (option Error) :=
  let* x := send (Msg_Acknowledgement (mkPlanAcknowledgement (dsp_InstanceUid message) (dsp_Revision message) false [err_text validationErr])) in
  Ret (error_of x).

Definition address_summaries (addresses : gmap string string) : gmap string string :=
  foldl (fun summaries '(member, address) => <["address/" +:+ member := address]> summaries) ∅ (map_to_list addresses).
Definition standby_summaries (standbys : list string) (summaries : gmap string string) : gmap string string :=
  foldl (fun summaries member => <["topology/synchronous/" +:+ member := "healthy"]> summaries) summaries standbys.
Fixpoint condition_summaries (conditions : list Condition) (summaries : gmap string string) : result (gmap string string) :=
  match conditions with
  | [] => Ok summaries
  | condition :: conditions =>
      match json_Marshal (mkReportedCondition (cond_Status condition) (cond_Reason condition) (cond_Message condition)) with
      | Err e => Err e
      | Ok encoded => condition_summaries conditions (<["condition/" +:+ cond_Type condition := encoded]> summaries)
      end
  end.

(** The summaries of a round of [applyPlan]. *)
Definition progress_summaries (result : ApplyResult) (applyErr : option Error) : Prog.result (gmap string string) :=
  let summaries := address_summaries (ar_Addresses result) in
  let summaries := if ar_Primary result != "" then <["topology/primary" := ar_Primary result]> summaries else summaries in
  let summaries := standby_summaries (ar_SynchronousStandbys result) summaries in
  match condition_summaries (ar_Conditions result) summaries with
  | Err e => Err e
  | Ok summaries => Ok (match applyErr with Some e => <["error" := err_text e]> summaries | None => summaries end)
  end.

(** The time to the next round, and the backoff after it. *)
Definition next_delay (applyErr : option Error) (phase : string) (backoff : Duration) : Duration * Duration :=
  match applyErr with
  | None => if phase == "Ready" then (30 * second, backoff)%Z else (5 * second, second)%Z
  | Some _ => (backoff, if (backoff <? minute)%Z then (backoff * 2)%Z else backoff)
  end.

(** One round: [applyPlan] returns, or waits and goes on with a new backoff,
    knowing whether the result was reported. *)
Definition apply_round (message : DesiredSitePlan) (desired previous : SitePlan) (backoff : Duration) (resultReported : bool) :
  kprog (option Error + Duration * Duration * bool) :=
  let* applied := ac_Apply c desired previous true in
  let '(result, applyErr) := applied in
  match progress_summaries result applyErr with
  | Err e => Ret (inl (Some e))
  | Ok summaries =>
      let phase := match applyErr with Some _ => "Retrying" | None => ar_Phase result end in
      let! _ := send (Msg_Progress (mkPlanProgress "" (dsp_InstanceUid message) (dsp_Revision message) phase summaries))
        onerr e => Ret (inl (Some e)) in
      if bool_decide (applyErr = None) && ((phase == "Ready") || (phase == "Deleted")) && negb resultReported then
        let! _ := send (Msg_Result (mkPlanResult "" (dsp_InstanceUid message) (dsp_Revision message) (wire_condition <$> ar_Conditions result)))
          onerr e => Ret (inl (Some e)) in
        let* _ := call (Env (StoreActive (dsp_InstanceUid message) (dsp_Revision message))) in
        if phase == "Deleted" then Ret (inl None) else Ret (inr (next_delay applyErr phase backoff, true))
      else Ret (inr (next_delay applyErr phase backoff, resultReported))
  end.

Fixpoint apply_loop (fuel : nat) (message : DesiredSitePlan) (desired previous : SitePlan) (backoff : Duration) (resultReported : bool) :
  kprog (option (option Error)) :=
  match fuel with
  | O => Ret None
  | S fuel =>
      let* x := apply_round message desired previous backoff resultReported in
      match x with
      | inl e => Ret (Some e)
      | inr (delay, backoff, resultReported) =>
          let! _ := call (Env (WaitTick delay)) onerr e => Ret (Some (Some e)) in
          apply_loop fuel message desired previous backoff resultReported
      end
  end.

Definition applyPlan (fuel : nat) (message : DesiredSitePlan) : kprog (option (option Error)) :=
  let rejected e := let* x := reject message e in Ret (Some x) in
  match json_Unmarshal (dsp_EnvelopeJson message) with
  | Err e => rejected e
  | Ok envelope =>
      let* x := Cache.Load (ac_CacheNamespace c) (ac_PublicKey c) (ac_CacheSiteUID c) (dsp_InstanceUid message) in
      match match x with Ok previous => Ok previous | Err e => if IsNotFound e then Ok zero_SitePlan else Err e end with
      | Err e => rejected e
      | Ok previous =>
          let* y := Cache.Store (ac_CacheNamespace c) (ac_PublicKey c) (ac_CacheSiteUID c) envelope (dsp_InstanceUid message) in
          match y with
          | Err e => rejected e
          | Ok desired =>
              let! _ := send (Msg_Acknowledgement (mkPlanAcknowledgement (dsp_InstanceUid message) (dsp_Revision message) true []))
                onerr e => Ret (Some (Some e)) in
              apply_loop fuel message desired previous second false
          end
      end
  end.

(** ** The main loop *)

(** The maps of [Run]: the plan worker of an instance with its revision and
    its context, the context of the worker of an operation. A context is a
    number; [run_next] is the next one [context.WithCancel] makes. *)
Record run_state := mkRun {
  run_workers : gmap string (Z * nat);
  run_directives : gmap string nat;
  run_next : nat
}.
Definition run_init : run_state := mkRun ∅ ∅ 0.

(** The cases of the [select] in [Run]. *)
Inductive event :=
| Received (message : result HubMessage)
| PlanDone (instanceUID : string) (revision : Z) (err : option Error)
| DirectiveDone (operationUID : string) (err : option Error)
| HeartbeatsEnded (err : Error)
| RunCancelled (err : Error).

(** What the loop does with goroutines: cancel a context, start a worker. *)
Inductive effect :=
| CancelContext (id : nat)
| StartPlan (id : nat) (desired : DesiredSitePlan)
| StartDirective (id : nat) (directive : OperationDirective).

Inductive verdict := Continue (st : run_state) (effects : list effect) | Return (err : option Error).

(** [result.err != nil && !errors.Is(result.err, context.Canceled)] *)
Definition worker_failure (err : option Error) : option Error :=
  match err with
  | Some e => if err_reason e == ErrCanceled then None else Some e
  | None => None
  end.
Definition after_result (err : option Error) (st : run_state) : verdict :=
  match worker_failure err with Some e => Return (Some e) | None => Continue st [] end.

Definition receive_directive (directive : OperationDirective) (st : run_state) : verdict :=
  if od_OperationUid directive == "" then Return (Some (errors_New "hub sent a directive without an operation UID"))
  else match run_directives st !! od_OperationUid directive with
       | Some _ => Continue st []
       | None =>
           let id := run_next st in
           Continue (mkRun (run_workers st) (<[od_OperationUid directive := id]> (run_directives st)) (S id)) [StartDirective id directive]
       end.

Definition receive_plan (desired : DesiredSitePlan) (st : run_state) : verdict :=
  let start effects :=
    let id := run_next st in
    Continue (mkRun (<[dsp_InstanceUid desired := (dsp_Revision desired, id)]> (run_workers st)) (run_directives st) (S id))
      (effects ++ [StartPlan id desired]) in
  match run_workers st !! dsp_InstanceUid desired with
  | Some (revision, cancel) => if (dsp_Revision desired <=? revision)%Z then Continue st [] else start [CancelContext cancel]
  | None => start []
  end.

Definition run_event (e : event) (st : run_state) : kprog verdict :=
  match e with
  | Received (Err e) => Ret (Return (if err_reason e == ErrEOF then None else Some e))
  | Received (Ok (Msg_Certificate response)) =>
      match ac_Certificates c with
      | None => Ret (Return (Some (errors_New "hub sent a certificate response when rotation is disabled")))
      | Some rotator => let! _ := cr_Install rotator response onerr e => Ret (Return (Some e)) in Ret (Continue st [])
      end
  | Received (Ok (Msg_Cancel cancel)) =>
      Ret (Continue st (match run_directives st !! co_OperationUid cancel with Some id => [CancelContext id] | None => [] end))
  | Received (Ok (Msg_Directive directive)) => Ret (receive_directive directive st)
  | Received (Ok (Msg_Plan desired)) => Ret (receive_plan desired st)
  | Received (Ok Msg_HubEmpty) => Ret (Return (Some (errors_New "hub sent an unsupported empty control message")))
  | PlanDone instanceUID revision err =>
      Ret (after_result err
        (match run_workers st !! instanceUID with
         | Some (current, _) =>
             if (current =? revision)%Z then mkRun (delete instanceUID (run_workers st)) (run_directives st) (run_next st) else st
         | None => st
         end))
  | DirectiveDone operationUID err =>
      Ret (after_result err (mkRun (run_workers st) (delete operationUID (run_directives st)) (run_next st)))
  | HeartbeatsEnded err => Ret (Return (if err_reason err == ErrCanceled then None else Some err))
  | RunCancelled err => Ret (Return (Some err))
  end.

(** ** The goroutines of an agent

    The main loop and the workers run side by side: they share the stream, the
    cluster and the map of applied revisions, which [handle] stands for. A step
    is one exchange of a worker, the loop taking the result of a worker that
    has ended, or the loop taking a message of the hub. A cancelled worker that
    waits is told so. *)
Inductive job := PlanJob (desired : DesiredSitePlan) | DirectiveJob (directive : OperationDirective).
Record worker := mkWorker {
  wk_job : job;
  wk_cancelled : bool;
  wk_prog : kprog (option (option Error));
  wk_history : khistory
}.
Definition job_prog (fuel : nat) (j : job) : kprog (option (option Error)) :=
  match j with
  | PlanJob desired => applyPlan fuel desired
  | DirectiveJob directive => let* e := applyDirective directive in Ret (Some e)
  end.
Definition start_worker (fuel : nat) (j : job) : worker := mkWorker j false (job_prog fuel j) [].
Definition cancel_worker (w : worker) : worker := mkWorker (wk_job w) true (wk_prog w) (wk_history w).
Definition job_event (j : job) (err : option Error) : event :=
  match j with
  | PlanJob desired => PlanDone (dsp_InstanceUid desired) (dsp_Revision desired) err
  | DirectiveJob directive => DirectiveDone (od_OperationUid directive) err
  end.

Definition perform (fuel : nat) (workers : gmap nat worker) (f : effect) : gmap nat worker :=
  match f with
  | CancelContext id => alter cancel_worker id workers
  | StartPlan id desired => <[id := start_worker fuel (PlanJob desired)]> workers
  | StartDirective id directive => <[id := start_worker fuel (DirectiveJob directive)]> workers
  end.

Section agent.
Context {St : Type} (handle : forall q : Req, St -> Resp q * St) (fuel : nat).

Definition context_canceled : Error := mkError ErrCanceled "context canceled".
Definition answer (cancelled : bool) (r : Req) (s : St) : Resp r * St :=
  match r return Resp r * St with
  | Env (WaitTick d) => if cancelled then (Err context_canceled, s) else handle (Env (WaitTick d)) s
  | r => handle r s
  end.

Record agent := mkAgent {
  ag_world : St;
  ag_state : run_state;
  ag_workers : gmap nat worker;
  ag_received : list HubMessage
}.
Definition agent_init (s : St) : agent := mkAgent s run_init ∅ [].

Inductive agent_step : agent -> agent -> Prop :=
| worker_step s st ws rc id j b r k h x s' :
    ws !! id = Some (mkWorker j b (Call r k) h) -> answer b r s = (x, s') ->
    agent_step (mkAgent s st ws rc) (mkAgent s' st (<[id := mkWorker j b (k x) (existT r x :: h)]> ws) rc)
| result_step s st ws rc id j b e h s' st' effects h' :
    ws !! id = Some (mkWorker j b (Ret (Some e)) h) ->
    run handle (run_event (job_event j e) st) s [] = (Continue st' effects, s', h') ->
    agent_step (mkAgent s st ws rc) (mkAgent s' st' (foldl (perform fuel) (delete id ws) effects) rc)
| receive_step s st ws rc m s' st' effects h' :
    run handle (run_event (Received (Ok m)) st) s [] = (Continue st' effects, s', h') ->
    agent_step (mkAgent s st ws rc) (mkAgent s' st' (foldl (perform fuel) ws effects) (rc ++ [m])).
End agent.
End client.

(** ** One worker at a time *)

(** The job of each worker and whether it is cancelled. *)
Definition jobs (ws : gmap nat worker) : gmap nat (job * bool) := (fun w => (wk_job w, wk_cancelled w)) <$> ws.

(** How the maps of [Run] describe the workers there are: the context of a
    worker is in use; a directive's worker is the one its operation maps to; a
    plan's worker that is not cancelled is the one its instance maps to and has the
    latest revision received; no two
    workers have the same plan revision of an instance; and the maps name
    workers that exist. *)
Record workers_inv (st : run_state) (js : gmap nat (job * bool)) (plans : list DesiredSitePlan) : Prop := {
  inv_fresh id j b : js !! id = Some (j, b) -> (id < run_next st)%nat;
  inv_directive id d b : js !! id = Some (DirectiveJob d, b) -> run_directives st !! od_OperationUid d = Some id;
  inv_received id d b : js !! id = Some (PlanJob d, b) -> d ∈ plans;
  inv_plan id d : js !! id = Some (PlanJob d, false) -> run_workers st !! dsp_InstanceUid d = Some (dsp_Revision d, id);
  inv_latest id d d' : js !! id = Some (PlanJob d, false) -> d' ∈ plans -> dsp_InstanceUid d' = dsp_InstanceUid d ->
    (dsp_Revision d' <= dsp_Revision d)%Z;
  inv_distinct id d b id' d' b' : js !! id = Some (PlanJob d, b) -> js !! id' = Some (PlanJob d', b') ->
    dsp_InstanceUid d = dsp_InstanceUid d' -> dsp_Revision d = dsp_Revision d' -> id = id';
  inv_entry instanceUID revision id : run_workers st !! instanceUID = Some (revision, id) ->
    exists d b, js !! id = Some (PlanJob d, b) /\ dsp_InstanceUid d = instanceUID /\ dsp_Revision d = revision;
}.

Lemma workers_inv_init : workers_inv run_init ∅ [].
Proof. by split; intros *; rewrite lookup_empty. Qed.

Definition cancel_job (p : job * bool) : job * bool := (p.1, true).
Lemma cancel_lookup (js : gmap nat (job * bool)) i id j b : alter cancel_job i js !! id = Some (j, b) ->
  exists b', js !! id = Some (j, b') /\ (b = false -> b' = false /\ id <> i).
Proof.
  destruct (decide (id = i)) as [->|Hne].
  - rewrite lookup_alter_eq. destruct (js !! i) as [[j' b']|]; [|done]. cbn. intros [= <- <-]. by eexists.
  - rewrite lookup_alter_ne by done. intros ->. by exists b.
Qed.

Lemma workers_inv_cancel st js plans i : workers_inv st js plans -> workers_inv st (alter cancel_job i js) plans.
Proof.
  intros [H1 H2 H3 H4 Hl H5 H6]. split; intros *.
  - intros (? & ? & _)%cancel_lookup. eauto.
  - intros (? & ? & _)%cancel_lookup. eauto.
  - intros (? & ? & _)%cancel_lookup. eauto.
  - intros (? & ? & Hb)%cancel_lookup. destruct (Hb eq_refl) as [-> _]. eauto.
  - intros (? & ? & Hb)%cancel_lookup. destruct (Hb eq_refl) as [-> _]. eauto.
  - intros (? & ? & _)%cancel_lookup (? & ? & _)%cancel_lookup. eauto.
  - intros (d & b & Hd & ? & ?)%H6. destruct (decide (id = i)) as [->|Hne].
    + exists d, true. by rewrite lookup_alter_eq, Hd.
    + exists d, b. by rewrite lookup_alter_ne.
Qed.

Lemma workers_inv_start_directive st js plans d : workers_inv st js plans -> run_directives st !! od_OperationUid d = None ->
  workers_inv (mkRun (run_workers st) (<[od_OperationUid d := run_next st]> (run_directives st)) (S (run_next st)))
    (<[run_next st := (DirectiveJob d, false)]> js) plans.
Proof.
  intros [H1 H2 H3 H4 Hl H5 H6] Hd.
  assert (Hold : forall id, (exists j b, js !! id = Some (j, b)) -> id <> run_next st).
  { intros id (j & b & Hj) ->. apply H1 in Hj. lia. }
  split; cbn [run_workers run_directives run_next]; intros *; rewrite ?lookup_insert_Some.
  - intros [[<- _]|[_ Hj]]; [lia|]. apply H1 in Hj. lia.
  - intros [[<- [= <- _]]|[_ Hj]]; [by left|]. right. apply H2 in Hj. split; [congruence|done].
  - intros [[_ [=]]|[_ Hj]]; eauto.
  - intros [[_ [=]]|[_ Hj]]; eauto.
  - intros [[_ [=]]|[_ Hj]]; eauto.
  - intros [[_ [=]]|[_ Hj]] [[_ [=]]|[_ Hj']]; eauto.
  - intros (d' & b & Hj & ? & ?)%H6. exists d', b. rewrite lookup_insert_ne; [done|]. intros <-. by eapply Hold; eauto.
Qed.

Lemma workers_inv_start_plan st js plans d : workers_inv st js plans ->
  (forall d', d' ∈ plans -> dsp_InstanceUid d' = dsp_InstanceUid d -> (dsp_Revision d' < dsp_Revision d)%Z) ->
  (forall id d', js !! id = Some (PlanJob d', false) -> dsp_InstanceUid d' <> dsp_InstanceUid d) ->
  workers_inv (mkRun (<[dsp_InstanceUid d := (dsp_Revision d, run_next st)]> (run_workers st)) (run_directives st) (S (run_next st)))
    (<[run_next st := (PlanJob d, false)]> js) (plans ++ [d]).
Proof.
  intros [H1 H2 H3 H4 Hl H5 H6] Hrev Hno.
  assert (Hnew : forall id d' b, js !! id = Some (PlanJob d', b) -> dsp_InstanceUid d = dsp_InstanceUid d' -> dsp_Revision d = dsp_Revision d' -> False).
  { intros id d' b Hj Hi Hr. apply H3 in Hj. specialize (Hrev _ Hj (eq_sym Hi)). lia. }
  split; cbn [run_workers run_directives run_next]; intros *; rewrite ?lookup_insert_Some.
  - intros [[<- _]|[_ Hj]]; [lia|]. apply H1 in Hj. lia.
  - intros [[_ [=]]|[_ Hj]]; eauto.
  - rewrite elem_of_app, list_elem_of_singleton. intros [[_ [= -> _]]|[_ Hj]]; [by right|left; eauto].
  - intros [[<- [= <-]]|[_ Hj]]; [by left|]. right. split; [|eauto]. intros E. by eapply Hno.
  - rewrite elem_of_app, list_elem_of_singleton. intros [[<- [= <-]]|[_ Hj]] [Hp| ->] Hi; [specialize (Hrev _ Hp Hi); lia|lia|eauto|].
    exfalso. by eapply Hno.
  - intros [[<- [= <- _]]|[_ Hj]] [[<- [= <- _]]|[_ Hj']]; eauto; [intros Hi Hr; exfalso; eauto..].
  - intros [[<- [= <- <-]]|[Hne Hj]]; [exists d, false; by rewrite lookup_insert_eq|].
    apply H6 in Hj as (d' & b & Hj & ? & ?). exists d', b. rewrite lookup_insert_ne; [done|].
    intros <-. apply H1 in Hj. lia.
Qed.

Lemma delete_job (js : gmap nat (job * bool)) i id x : delete i js !! id = Some x <-> id <> i /\ js !! id = Some x.
Proof. rewrite lookup_delete_Some. naive_solver. Qed.

Lemma workers_inv_directive_done st js plans id d b : workers_inv st js plans -> js !! id = Some (DirectiveJob d, b) ->
  workers_inv (mkRun (run_workers st) (delete (od_OperationUid d) (run_directives st)) (run_next st)) (delete id js) plans.
Proof.
  intros [H1 H2 H3 H4 Hl H5 H6] Hd. split; cbn [run_workers run_directives run_next]; intros *; rewrite ?delete_job.
  - intros [_ Hj]. eauto.
  - intros [Hne Hj]. rewrite lookup_delete_Some. split; [|eauto]. intros E. apply H2 in Hd. apply H2 in Hj. congruence.
  - intros [_ Hj]. eauto.
  - intros [_ Hj]. eauto.
  - intros [_ Hj]. eauto.
  - intros [_ Hj] [_ Hj']. eauto.
  - intros (d' & b' & Hj & ? & ?)%H6. exists d', b'. rewrite delete_job. split; [|done]. split; [congruence|done].
Qed.

Lemma workers_inv_plan_done st js plans id d b : workers_inv st js plans -> js !! id = Some (PlanJob d, b) ->
  workers_inv (match run_workers st !! dsp_InstanceUid d with
      | Some (current, _) => if (current =? dsp_Revision d)%Z
          then mkRun (delete (dsp_InstanceUid d) (run_workers st)) (run_directives st) (run_next st) else st
      | None => st
      end) (delete id js) plans.
Proof.
  intros [H1 H2 H3 H4 Hl H5 H6] Hd.
  assert (Hkeep : forall st', run_workers st' = run_workers st -> run_directives st' = run_directives st -> run_next st' = run_next st ->
    (forall revision i, run_workers st !! dsp_InstanceUid d = Some (revision, i) -> i <> id) -> workers_inv st' (delete id js) plans).
  { intros st' E1 E2 E3 Hne. split; rewrite ?E1, ?E2, ?E3; intros *; rewrite ?delete_job; try (intros [_ Hj]; by eauto).
    - intros [_ Hj] [_ Hj']. eauto.
    - intros Hw. destruct (H6 _ _ _ Hw) as (d' & b' & Hj & Hi & ?). exists d', b'. rewrite delete_job. split; [|done]. split; [|done].
      intros ->. rewrite Hd in Hj. injection Hj as <- <-. by eapply (Hne revision); [rewrite Hi|]. }
  destruct (run_workers st !! dsp_InstanceUid d) as [[current i]|] eqn:Hw; [|by apply Hkeep].
  destruct (H6 _ _ _ Hw) as (d' & b' & Hj & Hi & Hr). destruct (current =? dsp_Revision d)%Z eqn:Er.
  - apply Z.eqb_eq in Er. assert (i = id) as -> by (eapply H5; [exact Hj|exact Hd|done|congruence]).
    split; cbn [run_workers run_directives run_next]; intros *; rewrite ?delete_job; try (intros [_ Hj']; by eauto).
    + intros [Hne Hj']. rewrite lookup_delete_Some. split; [|eauto]. intros E. apply H4 in Hj'. rewrite <- E, Hw in Hj'. by injection Hj' as _ <-.
    + intros [_ Hj1] [_ Hj2]. eauto.
    + rewrite lookup_delete_Some. intros [Hne Hw']. destruct (H6 _ _ _ Hw') as (d2 & b2 & Hj2 & Hi2 & ?). exists d2, b2.
      rewrite delete_job. split; [|done]. split; [|done]. intros ->. rewrite Hd in Hj2. injection Hj2 as <- <-. done.
  - apply Hkeep; [done..|]. intros revision i' [= <- <-] ->. rewrite Hd in Hj. injection Hj as <- <-. apply Z.eqb_neq in Er. congruence.
Qed.

(** The plans among messages, and revisions that increase for each instance. *)
Definition plan_of (m : HubMessage) : option DesiredSitePlan := match m with Msg_Plan d => Some d | _ => None end.
Abbreviation plans_of := (omap plan_of).
Definition revisions_increase (plans : list DesiredSitePlan) : Prop :=
  forall before d after d', plans = before ++ d :: after -> d' ∈ before -> dsp_InstanceUid d' = dsp_InstanceUid d ->
    (dsp_Revision d' < dsp_Revision d)%Z.

Lemma revisions_increase_app l1 l2 : revisions_increase (l1 ++ l2) -> revisions_increase l1.
Proof. intros H before d after d' ->. apply (H before d (after ++ l2)). by rewrite <- app_assoc. Qed.

Section one_worker.
Context {C : Crypto} {TT : TimeText} {R : RawJson}.
Context {JE : Json Envelope} {JP : Json SitePlan} {JD : Json Payload} {JC : Json ReportedCondition}.
Context (c : AgentClient) {St : Type} (handle : forall q : Req, St -> Resp q * St) (fuel : nat).

Lemma jobs_perform ws f : jobs (perform c fuel ws f) =
  match f with
  | CancelContext id => alter cancel_job id (jobs ws)
  | StartPlan id d => <[id := (PlanJob d, false)]> (jobs ws)
  | StartDirective id d => <[id := (DirectiveJob d, false)]> (jobs ws)
  end.
Proof.
  destruct f; cbn [perform]; unfold jobs; [|by rewrite fmap_insert..]. apply map_eq. intros i. rewrite lookup_fmap.
  destruct (decide (i = id)) as [->|Hne]; [rewrite !lookup_alter_eq|rewrite !lookup_alter_ne by done]; rewrite lookup_fmap; [|done].
  by destruct (ws !! id) as [[]|].
Qed.

Abbreviation inv st ws rc := (workers_inv st (jobs ws) (plans_of rc)).

Lemma receive_plan_inv d st ws rc st' effects : revisions_increase (plans_of (rc ++ [Msg_Plan d])) -> inv st ws rc ->
  receive_plan d st = Continue st' effects -> inv st' (foldl (perform c fuel) ws effects) (rc ++ [Msg_Plan d]).
Proof.
  rewrite omap_app. cbn [omap list_omap plan_of]. intros Hinc Hinv. unfold receive_plan.
  assert (Hrev : forall d', d' ∈ plans_of rc -> dsp_InstanceUid d' = dsp_InstanceUid d -> (dsp_Revision d' < dsp_Revision d)%Z)
    by (intros d'; by apply (Hinc _ _ [])).
  destruct (run_workers st !! dsp_InstanceUid d) as [[rev id]|] eqn:Hw.
  - destruct (inv_entry _ _ _ Hinv _ _ _ Hw) as (d' & b & Hj & Hi & <-).
    specialize (Hrev _ (inv_received _ _ _ Hinv _ _ _ Hj) Hi) as Hlt.
    destruct (_ <=? _)%Z eqn:El; [apply Z.leb_le in El; lia|]. intros [= <- <-]. cbn [foldl app].
    rewrite !jobs_perform. apply workers_inv_start_plan; [by apply workers_inv_cancel|done|].
    intros id' d2 (b2 & Hj2 & Hb)%cancel_lookup Hi2. destruct (Hb eq_refl) as [-> Hne].
    apply (inv_plan _ _ _ Hinv) in Hj2. rewrite Hi2, Hw in Hj2. by injection Hj2 as _ <-.
  - intros [= <- <-]. cbn [foldl app]. rewrite jobs_perform. apply workers_inv_start_plan; [done|done|].
    intros id' d2 Hj2 Hi2. apply (inv_plan _ _ _ Hinv) in Hj2. by rewrite Hi2, Hw in Hj2.
Qed.

Lemma receive_directive_inv d st ws rc st' effects : inv st ws rc ->
  receive_directive d st = Continue st' effects -> inv st' (foldl (perform c fuel) ws effects) rc.
Proof.
  intros Hinv. unfold receive_directive. destruct (_ == ""); [done|].
  destruct (run_directives st !! _) eqn:Hd; intros [= <- <-]; [done|]. cbn [foldl]. rewrite jobs_perform.
  by apply workers_inv_start_directive.
Qed.

Lemma received_inv m st ws rc s st' effects s' h' : revisions_increase (plans_of (rc ++ [m])) -> inv st ws rc ->
  run handle (run_event c (Received (Ok m)) st) s [] = (Continue st' effects, s', h') ->
  inv st' (foldl (perform c fuel) ws effects) (rc ++ [m]).
Proof.
  intros Hinc Hinv. destruct m as [d|d|response|cancel|]; cbn [run_event].
  - cbn [run]. intros [= H _ _]. by apply (receive_plan_inv d st).
  - cbn [run]. intros [= H _ _]. rewrite omap_app, app_nil_r. by apply (receive_directive_inv d st).
  - rewrite omap_app, app_nil_r. destruct (ac_Certificates c) as [rotator|]; [|done].
    rewrite run_bind. destruct (run handle (cr_Install rotator response) s []) as [[[[]|e] s1] h1]; [|done].
    cbn [run]. by intros [= <- <- _ _].
  - rewrite omap_app, app_nil_r. cbn [run]. intros [= <- <- _ _]. destruct (_ !! _); [|done]. cbn [foldl].
    rewrite jobs_perform. by apply workers_inv_cancel.
  - done.
Qed.

Lemma after_result_inv e st st' effects : after_result e st = Continue st' effects -> st' = st /\ effects = [].
Proof. unfold after_result. destruct (worker_failure e); [done|]. by intros [= <- <-]. Qed.

Lemma agent_step_inv a a' : agent_step c handle fuel a a' -> revisions_increase (plans_of (ag_received a')) ->
  inv (ag_state a) (ag_workers a) (ag_received a) -> inv (ag_state a') (ag_workers a') (ag_received a').
Proof.
  intros [s st ws rc id j b r k h x s' Hw _|s st ws rc id j b e h s' st' effects h' Hw He|s st ws rc m s' st' effects h' He] Hinc Hinv;
    cbn [ag_state ag_workers ag_received] in *.
  - unfold jobs in *. rewrite fmap_insert. cbn [wk_job wk_cancelled]. rewrite insert_id; [done|]. by rewrite lookup_fmap, Hw.
  - assert (Hj : jobs ws !! id = Some (j, b)) by (unfold jobs; by rewrite lookup_fmap, Hw).
    destruct j as [d|d]; cbn [job_event run_event run] in He; injection He as He _ _; apply after_result_inv in He as [-> ->]; cbn [foldl];
      unfold jobs; rewrite fmap_delete; [by eapply workers_inv_plan_done|by eapply workers_inv_directive_done].
  - by eapply received_inv.
Qed.

Lemma agent_inv s a : rtc (agent_step c handle fuel) (agent_init s) a -> revisions_increase (plans_of (ag_received a)) ->
  inv (ag_state a) (ag_workers a) (ag_received a).
Proof.
  revert a. apply (rtc_ind_r (fun a => revisions_increase (plans_of (ag_received a)) -> inv (ag_state a) (ag_workers a) (ag_received a)));
    [intros _; unfold jobs; cbn; rewrite fmap_empty; apply workers_inv_init|].
  intros a a' _ Hstep IH Hinc. eapply agent_step_inv; [done|done|]. apply IH. destruct Hstep; cbn [ag_received] in *; [done|done|].
  rewrite omap_app in Hinc. by eapply revisions_increase_app.
Qed.
End one_worker.

(** ** The plans a hub sends *)
Definition sent_plan (e : Event (Resp:=Resp)) : option DesiredSitePlan :=
  match projT1 e as r return Resp r -> option DesiredSitePlan with
  | Env (SendHub (Msg_Plan d)) => fun x => match x with Ok _ => Some d | Err _ => None end
  | _ => fun _ => None
  end (projT2 e).
(** Those sent along a stream, in order. *)
Definition sent_plans (h : khistory) : list DesiredSitePlan := omap sent_plan (reverse h).

Lemma sent_plan_Some e d : sent_plan e = Some d -> e = existT (Env (SendHub (Msg_Plan d))) (Ok tt).
Proof.
  destruct e as [r x]. unfold sent_plan. cbn [projT1 projT2]. destruct r as [| | | | | | | | | | | | |[|[d'| | | |]| | | | | | |]]; try done.
  destruct x as [[]|]; [|done]. by intros [= ->].
Qed.

Lemma revisions_increase_snoc l d : revisions_increase l ->
  (forall d', d' ∈ l -> dsp_InstanceUid d' = dsp_InstanceUid d -> (dsp_Revision d' < dsp_Revision d)%Z) -> revisions_increase (l ++ [d]).
Proof.
  intros Hl Hd before d1 after d' E Hin Hi. destruct after as [|x after _] using rev_ind.
  - apply app_inj_tail in E as [-> ->]. by apply Hd.
  - rewrite app_comm_cons, app_assoc in E. apply app_inj_tail in E as [-> _]. by eapply Hl.
Qed.

Section hub.
Context {K : KubeLib} {C : Crypto} {TT : TimeText}.
Context {JE : Json Envelope} {JP : Json SitePlan} {JD : Json Payload}.
Context {JB : Json BackupDirective} {JS : Json ScheduledBackup} {JDB : Json PostgresDatabaseSpec} {JU : Json PostgresUserSpec}.
Context {St : Type} (handle : forall q : Req, St -> Resp q * St) (s : Server) (siteName siteUID : string).

Lemma sent_plans_increase fuel w : revisions_increase (sent_plans (run handle (sendPlans s fuel siteName siteUID) w []).2).
Proof.
  destruct (run _ _ _ _) as [[x w'] h] eqn:Hr. cbn [snd].
  destruct (sat_run_requests handle _ _ _ _ _ _ _ _ (sendPlans_sat s siteName siteUID fuel ∅ ∅ [] eq_refl eq_refl eq_refl) Hr) as (new & -> & Hall).
  clear Hr. rewrite app_nil_r. induction new as [|e new IH]; [by intros [|]|].
  unfold sent_plans. rewrite reverse_cons, omap_app. cbn [omap list_omap].
  assert (Hnew : revisions_increase (sent_plans new)).
  { apply IH. intros e' pre suf ->. by apply (Hall e' pre (e :: suf)). }
  destruct (sent_plan e) as [d|] eqn:Hd; [|by rewrite app_nil_r]. apply revisions_increase_snoc; [exact Hnew|].
  intros d' Hd' Hi. apply sent_plan_Some in Hd as ->. apply list_elem_of_omap in Hd' as (e' & He' & Hd').
  rewrite elem_of_reverse in He'. apply sent_plan_Some in Hd' as ->.
  destruct (Hall _ new [] eq_refl) as [[_ Ha] _]. rewrite app_nil_r in Ha.
  destruct (session_plans siteName siteUID new d' He') as (rev & Hrev & Hle). rewrite Hi in Hrev. rewrite Hrev in Ha. cbn in Ha. lia.
Qed.

Context {R : RawJson} {JC : Json ReportedCondition}.
Context (c : AgentClient) {St' : Type} (handle' : forall q : Req, St' -> Resp q * St').

(** C18: While an agent is connected to a hub, it never works twice on the
    same thing, however its goroutines interleave and whatever they are
    answered: at any time at most one worker per operation carries out a
    directive, and at most one worker per instance that is not cancelled applies
    a plan, the one with the highest revision received. It rests on the hub's
    loop, which sends a site only increasing revisions of an instance. *)
Theorem one_worker_at_a_time sends fuel w s0 a :
  rtc (agent_step c handle' fuel) (agent_init s0) a ->
  plans_of (ag_received a) `prefix_of` sent_plans (run handle (sendPlans s sends siteName siteUID) w []).2 ->
  (forall id id' w w' d d', ag_workers a !! id = Some w -> ag_workers a !! id' = Some w' ->
     wk_job w = DirectiveJob d -> wk_job w' = DirectiveJob d' -> od_OperationUid d = od_OperationUid d' -> id = id') /\
  (forall id id' w w' d d', ag_workers a !! id = Some w -> ag_workers a !! id' = Some w' ->
     wk_job w = PlanJob d -> wk_job w' = PlanJob d' -> dsp_InstanceUid d = dsp_InstanceUid d' ->
     wk_cancelled w = false -> wk_cancelled w' = false -> id = id') /\
  (forall id w d d', ag_workers a !! id = Some w -> wk_job w = PlanJob d -> wk_cancelled w = false ->
     d' ∈ plans_of (ag_received a) -> dsp_InstanceUid d' = dsp_InstanceUid d -> (dsp_Revision d' <= dsp_Revision d)%Z).
Proof.
  intros Ha [rest Hp]. pose proof (sent_plans_increase sends w) as Hinc. rewrite Hp in Hinc. apply revisions_increase_app in Hinc.
  pose proof (agent_inv c handle' fuel s0 a Ha Hinc) as Hinv.
  assert (Hj : forall id wk, ag_workers a !! id = Some wk -> jobs (ag_workers a) !! id = Some (wk_job wk, wk_cancelled wk)).
  { intros id wk Hw. unfold jobs. by rewrite lookup_fmap, Hw. }
  split_and!.
  - intros id id' w1 w2 d d' H1%Hj H2%Hj J1 J2 E. rewrite J1 in H1. rewrite J2 in H2.
    apply (inv_directive _ _ _ Hinv) in H1, H2. congruence.
  - intros id id' w1 w2 d d' H1%Hj H2%Hj J1 J2 E C1 C2. rewrite J1, C1 in H1. rewrite J2, C2 in H2.
    apply (inv_plan _ _ _ Hinv) in H1, H2. congruence.
  - intros id w1 d d' H1%Hj J1 C1. rewrite J1, C1 in H1. by apply (inv_latest _ _ _ Hinv id).
Qed.
End hub.

(** ** What a worker tells the hub *)

(** A request that neither uses the stream, nor waits, nor touches the map of
    applied revisions. *)
Definition off_stream (r : Req) : Prop :=
  match r with
  | Env (SendAgent _) | Env RecvHub | Env (WaitTick _) | Env (StoreActive _ _) | Env LoadActive => False
  | _ => True
  end.

Lemma send_sat (P : khistory -> Req -> Prop) (Q : khistory -> result unit -> Prop) m h :
  P h (Env (SendAgent m)) -> (forall x : result unit, Q (existT (Env (SendAgent m)) x :: h) x) -> sat P Q h (send m).
Proof. by split. Qed.

(** The contract of the site reconciler with the client: it does not talk to
    the hub, and it returns the phase [Ready] or [Deleted] without an error only
    when, by what it was answered, the plan is [Applied]. *)
Class ReconcilerLaws (apply : SitePlan -> SitePlan -> bool -> kprog (ApplyResult * option Error))
  (Applied : khistory -> SitePlan -> Prop) := {
  apply_sat desired previous connected h :
    sat (fun _ => off_stream)
      (fun h' x => x.2 = None -> ar_Phase x.1 = "Ready" \/ ar_Phase x.1 = "Deleted" -> Applied h' desired)
      h (apply desired previous connected);
  applied_later h h' desired : extends h h' -> Applied h desired -> Applied h' desired;
}.

(** The data of a ConfigMap, by the exchanges so far: read, or written over what
    was read, or written anew. *)
Definition config_data (h : khistory) (namespace name : string) (data : gmap string string) : Prop :=
  (exists cm, existT (Get KConfigMap namespace name) (Ok cm) ∈ h /\ cm_Data cm = data) \/
  (exists o o', existT (Create KConfigMap o) (Ok o') ∈ h /\ key_of (k:=KConfigMap) o = (namespace, name) /\ cm_Data o = data) \/
  (exists cm o o', existT (Get KConfigMap namespace name) (Ok cm) ∈ h /\ existT (Update KConfigMap o) (Ok o') ∈ h /\
     key_of (k:=KConfigMap) o = key_of (k:=KConfigMap) cm /\ cm_Data o = data).

Lemma config_data_extends h h' namespace name data : extends h h' -> config_data h namespace name data -> config_data h' namespace name data.
Proof.
  intros He [(cm & ? & ?)|[(o & o' & ? & ? & ?)|(cm & o & o' & ? & ? & ? & ?)]]; [left; exists cm|right; left; exists o, o'|right; right; exists cm, o, o'];
    split_and!; first [done|by apply He].
Qed.

Section plan_worker.
Context {C : Crypto} {TT : TimeText} {R : RawJson}.
Context {JE : Json Envelope} {JP : Json SitePlan} {JC : Json ReportedCondition}.
Context (c : AgentClient) (Applied : khistory -> SitePlan -> Prop) {RL : ReconcilerLaws (ac_Apply c) Applied}.

Abbreviation ns := (ac_CacheNamespace c).
Abbreviation pk := (ac_PublicKey c).
Abbreviation site := (ac_CacheSiteUID c).

(** The plan in a message: signed by the hub for this site and the instance,
    and in the cache. *)
Definition accepted_plan (h : khistory) (d : DesiredSitePlan) (desired : SitePlan) : Prop :=
  exists envelope minimum json data, json_Unmarshal (dsp_EnvelopeJson d) = Ok envelope /\
    Plan.Verify pk envelope site (dsp_InstanceUid d) minimum = Ok desired /\
    raw_Marshal (env_Plan envelope) = Ok json /\ config_data h ns (cacheName (dsp_InstanceUid d)) data /\
    data !!! "site-plan.json" = json /\ data !!! "signature" = env_Signature envelope.

Definition acknowledged (h : khistory) (d : DesiredSitePlan) : Prop :=
  existT (Env (SendAgent (Msg_Acknowledgement (mkPlanAcknowledgement (dsp_InstanceUid d) (dsp_Revision d) true [])))) (Ok tt) ∈ h.

(** No result was sent. *)
Definition unreported (h : khistory) : Prop := forall p, (existT (Env (SendAgent (Msg_Result p))) (Ok tt) ∉ h).

(** What the worker of a plan may ask. *)
Definition plan_request (d : DesiredSitePlan) (h : khistory) (r : Req) : Prop :=
  match r with
  | Env (SendAgent (Msg_Acknowledgement a)) =>
      pa_InstanceUid a = dsp_InstanceUid d /\ pa_Revision a = dsp_Revision d /\
      (pa_Accepted a = true -> exists desired, accepted_plan h d desired)
  | Env (SendAgent (Msg_Progress p)) =>
      pp_OperationUid p = "" /\ pp_InstanceUid p = dsp_InstanceUid d /\ pp_Revision p = dsp_Revision d /\ acknowledged h d
  | Env (SendAgent (Msg_Result p)) =>
      pr_OperationUid p = "" /\ pr_InstanceUid p = dsp_InstanceUid d /\ pr_AppliedRevision p = dsp_Revision d /\
      acknowledged h d /\ (exists desired, accepted_plan h d desired /\ Applied h desired) /\ unreported h
  | Env (StoreActive instanceUID revision) =>
      instanceUID = dsp_InstanceUid d /\ revision = dsp_Revision d /\ ~ unreported h
  | Env (WaitTick delay) => (second <= delay <= 64 * second)%Z
  | Env (SendAgent _) | Env RecvHub | Env LoadActive => False
  | _ => True
  end.

Lemma off_stream_plan d h r : off_stream r -> plan_request d h r.
Proof. by destruct r as [| | | | | | | | | | | | |[| | | | | | | |]]. Qed.

Lemma accepted_plan_extends h h' d desired : extends h h' -> accepted_plan h d desired -> accepted_plan h' d desired.
Proof.
  intros He (envelope & m & json & data & H1 & H2 & H3 & H4 & H5). exists envelope, m, json, data. split_and!; try done; try apply H5.
  by eapply config_data_extends.
Qed.

Lemma unreported_new h h' : (forall e, e ∈ h' -> e ∈ h \/ off_stream (projT1 e)) -> unreported h -> unreported h'.
Proof. intros Hn Hu p [Hin|[]]%Hn. by eapply Hu. Qed.

Lemma Load_sat instanceUID h : sat (fun _ => off_stream) (fun h' _ => extends h h') h (Cache.Load ns pk site instanceUID).
Proof. unfold Cache.Load. sat_step. sat_step; [done|]. destruct x; keep_history. Qed.

Lemma Store_sat envelope instanceUID h :
  sat (fun _ => off_stream) (fun h' x => extends h h' /\ forall desired, x = Ok desired -> exists m json data,
      Plan.Verify pk envelope site instanceUID m = Ok desired /\ raw_Marshal (env_Plan envelope) = Ok json /\
      config_data h' ns (cacheName instanceUID) data /\ data !!! "site-plan.json" = json /\ data !!! "signature" = env_Signature envelope)
    h (Cache.Store ns pk site envelope instanceUID).
Proof.
  unfold Cache.Store. sat_step. eapply sat_mono; [intros ? ? H; exact H| |apply Load_sat]. intros h1 current He.
  destruct (match current with Ok _ => _ | Err _ => _ end) as [m|e]; [|done].
  destruct (Plan.Verify _ _ _ _ _) as [desired|e] eqn:Hv; [|done]. unfold store_verified.
  destruct (raw_Marshal _) as [json|e] eqn:Hm; [|done]. sat_step. sat_step; [done|]. rename x into now. sat_step. sat_step; [done|].
  set (data := record_data desired json (env_Signature envelope) now).
  assert (Hj : data !!! "site-plan.json" = json /\ data !!! "signature" = env_Signature envelope) by (by split).
  destruct x as [cm|e].
  - destruct (_ && _ && _) eqn:Esame; [split; [keep_history|]|].
    { intros desired' [= <-]. exists m, json, (cm_Data cm). bool_to_prop. split_and!; try done; try (destruct Hj; congruence).
      left. exists cm. split; [apply elem_of_cons; by left|done]. }
    destruct (_ == _); [split; [keep_history|done]|]. sat_step. sat_step; [done|]. destruct x as [o'|e]; (split; [keep_history|]); [|done].
    intros desired' [= <-]. exists m, json, data. split_and!; try done; try apply Hj. right. right. eexists cm, _, o'.
    split_and!; [apply elem_of_cons; right; apply elem_of_cons; by left|apply elem_of_cons; by left|done|done].
  - destruct (IsNotFound e); [|split; [keep_history|done]]. sat_step. sat_step; [done|]. destruct x as [o'|e']; (split; [keep_history|]); [|done].
    intros desired' [= <-]. exists m, json, data. split_and!; try done; try apply Hj. right. left. eexists _, o'.
    split_and!; [apply elem_of_cons; by left|done|done].
Qed.

(** The backoff doubles from a second up to the first power of two of at least
    a minute. *)
Definition backoff_step (backoff : Duration) : Prop := exists k, (0 <= k <= 6)%Z /\ backoff = (second * 2 ^ k)%Z.

Lemma backoff_bounds applyErr phase backoff : backoff_step backoff ->
  (second <= (next_delay applyErr phase backoff).1 <= 64 * second)%Z /\ backoff_step (next_delay applyErr phase backoff).2.
Proof.
  intros (k & Hk & ->).
  assert (Hp : (1 <= 2 ^ k <= 64)%Z).
  { pose proof (Z.pow_pos_nonneg 2 k). pose proof (Z.pow_le_mono_r 2 k 6). lia. }
  unfold next_delay. destruct applyErr as [e|].
  - cbn [fst snd]. split; [unfold second; lia|]. destruct (_ <? _)%Z eqn:E; [|by exists k]. apply Z.ltb_lt in E.
    exists (k + 1)%Z. rewrite Z.pow_add_r by lia. split; [|lia]. split; [lia|].
    destruct (decide (k = 6%Z)) as [->|]; [|lia]. unfold minute, second in E. lia.
  - destruct (_ == _); cbn [fst snd]; (split; [unfold second; lia|]); [by exists k|exists 0%Z; lia].
Qed.

(** What holds before each round. *)
Definition round_ready (d : DesiredSitePlan) (desired : SitePlan) (reported : bool) (h : khistory) : Prop :=
  acknowledged h d /\ accepted_plan h d desired /\ (reported = false -> unreported h).

Lemma apply_round_sat d desired previous backoff reported h : round_ready d desired reported h -> backoff_step backoff ->
  sat (plan_request d) (fun h' x => forall delay backoff' reported', x = inr (delay, backoff', reported') ->
      round_ready d desired reported' h' /\ (second <= delay <= 64 * second)%Z /\ backoff_step backoff')
    h (apply_round c d desired previous backoff reported).
Proof.
  intros (Hack & Hacc & Hrep) Hb. unfold apply_round. sat_step.
  eapply sat_mono; [intros h1 r; apply off_stream_plan| |apply sat_extends, sat_new, apply_sat].
  intros h1 [result applyErr] [[Happ Hnew] He]. cbn [fst snd] in Happ.
  destruct (progress_summaries result applyErr) as [summaries|e]; [|done].
  set (phase := match applyErr with Some _ => _ | None => _ end).
  assert (Hu : reported = false -> unreported h1) by (intros E; by eapply unreported_new; [exact Hnew|apply Hrep]).
  assert (Hbounds := backoff_bounds applyErr phase backoff Hb).
  destruct (next_delay applyErr phase backoff) as [delay1 backoff1]. cbn [fst snd] in Hbounds.
  sat_step. apply send_sat; [split_and!; try done; by apply He|]. intros x. destruct x as [[]|e]; [|done].
  match goal with |- sat _ _ ?hh _ => set (h2 := hh) end. assert (He2 : extends h h2) by (intros e' Hin; apply elem_of_cons; right; by apply He).
  assert (Hready : round_ready d desired reported h2).
  { split_and!; [by apply He2|by eapply accepted_plan_extends|]. intros E p [Heq|Hin]%elem_of_cons; [done|by eapply Hu]. }
  destruct (_ && _ && _) eqn:Er.
  - apply andb_true_iff in Er as [[Er Eph]%andb_true_iff Enr]. apply bool_decide_eq_true in Er as ->. apply negb_true_iff in Enr.
    assert (Hph : ar_Phase result = "Ready" \/ ar_Phase result = "Deleted") by (apply orb_true_iff in Eph as [Eph|Eph]; apply bool_decide_eq_true in Eph; auto).
    destruct Hready as (Hack2 & Hacc2 & Hun). sat_step. apply send_sat; [|intros x].
    { split_and!; try done; [|by apply Hun]. exists desired. split; [done|]. eapply applied_later; [|by apply Happ]. apply extends_cons. }
    destruct x as [[]|e]; [|done]. sat_step. sat_step.
    { split_and!; try done. intros Hno. eapply Hno, elem_of_cons. by left. }
    destruct (phase == "Deleted"); [done|]. cbn [sat]. intros delay backoff' reported' [= <- <- <-].
    split; [|exact Hbounds]. split_and!; [by apply elem_of_cons; right; apply elem_of_cons; right| |done].
    eapply accepted_plan_extends; [|exact Hacc2]. intros e' Hin. apply elem_of_cons; right. by apply elem_of_cons; right.
  - cbn [sat]. intros delay backoff' reported' [= <- <- <-]. by split.
Qed.

Lemma apply_loop_sat fuel d desired previous backoff reported h : round_ready d desired reported h -> backoff_step backoff ->
  sat (plan_request d) done_ h (apply_loop c fuel d desired previous backoff reported).
Proof.
  revert backoff reported h. induction fuel as [|fuel IH]; intros backoff reported h Hr Hb; [done|]. cbn [apply_loop]. sat_step.
  eapply sat_mono; [intros ? ? H; exact H| |by apply apply_round_sat].
  intros h1 [e|[[delay backoff'] reported']] Hx; [done|]. destruct (Hx _ _ _ eq_refl) as ((Hack & Hacc & Hrep) & Hd & Hb').
  sat_step. sat_step; [done|]. destruct x as [[]|e]; [|done]. apply IH; [|done].
  split_and!; [by apply elem_of_cons; right|eapply accepted_plan_extends; [apply extends_cons|done]|].
  intros E p [Heq|Hin]%elem_of_cons; [done|by eapply Hrep].
Qed.

Lemma reject_sat d e h : sat (plan_request d) done_ h (reject d e).
Proof. unfold reject. sat_step. apply send_sat; [|done]. by split_and!. Qed.

Lemma applyPlan_sat fuel d : sat (plan_request d) done_ [] (applyPlan c fuel d).
Proof.
  unfold applyPlan.
  assert (Hrej : forall e h, sat (plan_request d) done_ h (let* x := reject d e in Ret (Some x))).
  { intros e h. sat_step. eapply sat_mono; [intros ? ? H; exact H| |apply reject_sat]. done. }
  destruct (json_Unmarshal _) as [envelope|e] eqn:Hu; [|apply Hrej]. sat_step.
  eapply sat_mono; [intros h1 r; apply off_stream_plan| |apply sat_new, Load_sat]. intros h1 x [He1 Hn1].
  destruct (match x with Ok _ => _ | Err _ => _ end) as [previous|e]; [|apply Hrej]. sat_step.
  eapply sat_mono; [intros h2 r; apply off_stream_plan| |apply sat_new, Store_sat]. intros h2 y [[He2 Hs] Hn2].
  destruct y as [desired|e]; [|apply Hrej]. destruct (Hs _ eq_refl) as (m & json & data & Hs').
  assert (Hacc : accepted_plan h2 d desired) by (by exists envelope, m, json, data).
  sat_step. apply send_sat; [split_and!; [done..|]; intros _; by exists desired|]. intros [[]|e]; [|done].
  apply apply_loop_sat; [|exists 0%Z; unfold second; lia].
  split_and!; [apply elem_of_cons; by left|eapply accepted_plan_extends; [apply extends_cons|done]|].
  intros _ p [Heq|Hin]%elem_of_cons; [done|]. destruct (Hn2 _ Hin) as [Hin1|[]]. destruct (Hn1 _ Hin1) as [[]%not_elem_of_nil|[]].
Qed.
End plan_worker.

(** A request that may wait but does not use the stream. *)
Definition executor_request (r : Req) : Prop :=
  match r with Env (WaitTick _) => True | r => off_stream r end.

(** The contract of the executor of directives: when the client has done what
    it must before ([pre]), it does its work without talking to the hub, and
    what it returns is, by what it was answered, the outcome of the directive
    ([Executed]). *)
Class ExecutorLaws (execute : Payload -> kprog (list Condition * option Error)) (pre : Payload -> khistory -> Prop)
  (Executed : Payload -> khistory -> list Condition * option Error -> Prop) := {
  execute_sat payload h : pre payload h -> sat (fun _ => executor_request) (Executed payload) h (execute payload);
  executed_later h h' payload x : extends h h' -> Executed payload h x -> Executed payload h' x;
}.

Section directive_worker.
Context {K : KubeLib} {L : KubeLaws K} {C : Crypto} {TT : TimeText} {R : RawJson}.
Context {JE : Json Envelope} {JD : Json Payload} {JL : Json (list Condition)}.
Context (c : AgentClient) (namespace : string) (Hstore : ac_DirectiveState c = Some (ConfigMapDirectiveStateStore namespace)).
Context (Executed : Payload -> khistory -> list Condition * option Error -> Prop).

(** The payload of a message: signed by the hub for this site, instance and
    operation. *)
Definition verified_directive (d : OperationDirective) (payload : Payload) : Prop :=
  exists envelope, json_Unmarshal (od_DirectiveJson d) = Ok envelope /\
    Directive.Verify (ac_PublicKey c) envelope (ac_SiteUID c) (od_InstanceUid d) (od_OperationUid d) = Ok payload.

(** The data of the record of an operation. *)
Definition record_of (h : khistory) (d : OperationDirective) (data : gmap string string) : Prop :=
  config_data h namespace (directiveStateName (od_OperationUid d)) data.

(** The record was read and does not say that the directive has ended. *)
Definition seen_unended (h : khistory) (d : OperationDirective) : Prop :=
  exists x, existT (Get KConfigMap namespace (directiveStateName (od_OperationUid d))) x ∈ h /\
    match x with
    | Err e => IsNotFound e = true
    | Ok cm => exists state, decodeDirectiveState (cm_Data cm) = Ok state /\ has_ended d state true = false
    end.

Definition running_report (d : OperationDirective) : AgentMessage :=
  Msg_Progress (mkPlanProgress (od_OperationUid d) (od_InstanceUid d) 0 "Running" ∅).

(** What the client does before it has a directive executed. *)
Definition execute_pre (d : OperationDirective) (payload : Payload) (h : khistory) : Prop :=
  verified_directive d payload /\ seen_unended h d /\ (exists data, record_of h d data) /\
  existT (Env (SendAgent (running_report d))) (Ok tt) ∈ h.

(** The conditions of a result: those of the record of an ended directive, or
    what its execution returned. *)
Definition outcome_of (h : khistory) (d : OperationDirective) (payload : Payload) (conditions : list Condition) : Prop :=
  (exists cm state, existT (P := Resp) (Get KConfigMap namespace (directiveStateName (od_OperationUid d))) (Ok cm) ∈ h /\
     decodeDirectiveState (cm_Data cm) = Ok state /\ has_ended d state true = true /\ conditions = ds_Conditions state) \/
  (exists x, Executed payload h x /\ conditions = executed_conditions x).

(** What the worker of a directive may ask. *)
Definition directive_request (d : OperationDirective) (h : khistory) (r : Req) : Prop :=
  match r with
  | Env (SendAgent (Msg_Progress p)) =>
      Msg_Progress p = running_report d /\ (exists payload, verified_directive d payload) /\
      seen_unended h d /\ (exists data, record_of h d data)
  | Env (SendAgent (Msg_Result p)) =>
      pr_OperationUid p = od_OperationUid d /\ pr_InstanceUid p = od_InstanceUid d /\ pr_AppliedRevision p = 0%Z /\
      (exists payload conditions, verified_directive d payload /\ outcome_of h d payload conditions /\
         pr_Conditions p = wire_condition <$> conditions) /\
      (exists data, record_of h d data /\ terminal_phase (data !!! "phase") = true)
  | Env (SendAgent _) | Env RecvHub | Env (StoreActive _ _) | Env LoadActive => False
  | _ => True
  end.

Lemma executor_directive d h r : executor_request r -> directive_request d h r.
Proof. by destruct r as [| | | | | | | | | | | | |[| | | | | | | |]]. Qed.

Lemma off_stream_executor r : off_stream r -> executor_request r.
Proof. by destruct r as [| | | | | | | | | | | | |[| | | | | | | |]]. Qed.

Lemma record_of_extends h h' d data : extends h h' -> record_of h d data -> record_of h' d data.
Proof. apply config_data_extends. Qed.

Lemma decode_phase data state : decodeDirectiveState data = Ok state -> ds_Phase state = data !!! "phase".
Proof.
  unfold decodeDirectiveState. destruct (_ != _); [|by intros [= <-]]. by destruct (json_Unmarshal _); [intros [= <-]|].
Qed.

Lemma encode_phase state now data : encodeDirectiveState state now = Ok data -> data !!! "phase" = ds_Phase state.
Proof. unfold encodeDirectiveState. by destruct (json_Marshal _); [intros [= <-]|]. Qed.

Lemma upsert_sat state h :
  sat (fun _ => off_stream) (fun h' x => extends h h' /\ (x = Ok tt -> exists data,
      config_data h' namespace (directiveStateName (ds_OperationUID state)) data /\
      (terminal_phase (ds_Phase state) = true -> terminal_phase (data !!! "phase") = true)))
    h (upsert namespace state).
Proof.
  unfold upsert. sat_step. sat_step; [done|]. destruct (encodeDirectiveState state x) as [data|e] eqn:He; [|by split; [keep_history|]].
  apply encode_phase in He. apply (retry_sat (fun _ => off_stream) (extends h)); [|keep_history].
  intros h1 He1. unfold upsert_attempt. sat_step. sat_step; [done|]. destruct x0 as [cm|e].
  - destruct (terminal_phase (cm_Data cm !!! "phase")) eqn:Ht.
    { split; [keep_history|]. split; [keep_history|]. intros _. exists (cm_Data cm). split; [|done].
      left. exists cm. split; [apply elem_of_cons; by left|done]. }
    sat_step. sat_step; [done|]. split; [keep_history|]. split; [keep_history|]. destruct x0 as [o'|e]; [|done]. intros _.
    exists data. split; [|by rewrite He]. right. right. eexists cm, _, o'.
    split_and!; [apply elem_of_cons; right; apply elem_of_cons; by left|apply elem_of_cons; by left|done|done].
  - destruct (IsNotFound e); [|by split; [keep_history|split; [keep_history|]]]. sat_step. sat_step; [done|].
    split; [keep_history|]. split; [keep_history|]. destruct x0 as [o'|e']; [|done]. intros _.
    exists data. split; [|by rewrite He]. right. left. eexists _, o'. split_and!; [apply elem_of_cons; by left|done|done].
Qed.

Lemma terminal_outcome_terminal conditions : terminal_phase (terminal_outcome conditions) = true.
Proof. unfold terminal_outcome. by destruct (existsb _ _). Qed.

Lemma result_allowed d h data payload conditions : verified_directive d payload -> outcome_of h d payload conditions -> record_of h d data ->
  terminal_phase (data !!! "phase") = true ->
  directive_request d h (Env (SendAgent (Msg_Result (mkPlanResult (od_OperationUid d) (od_InstanceUid d) 0 (wire_condition <$> conditions))))).
Proof. intros Hv Ho Hr Ht. split_and!; try done; [by exists payload, conditions|by exists data]. Qed.

Lemma execute_directive_sat execute d payload h : ExecutorLaws execute (execute_pre d) Executed -> verified_directive d payload -> seen_unended h d ->
  (exists data, record_of h d data) -> sat (directive_request d) done_ h (execute_directive c execute d payload).
Proof.
  intros HX Hv Hs [data Hr]. unfold execute_directive. sat_step. apply send_sat; [split_and!; [done|by exists payload|done|by exists data]|].
  intros [[]|e]; [|done]. sat_step. eapply sat_mono; [intros h1 r; apply executor_directive| |apply execute_sat].
  2:{ destruct Hs as (x & Hx & Hx'). split_and!; [done|exists x; split; [apply elem_of_cons; by right|done]| |apply elem_of_cons; by left].
      exists data. eapply record_of_extends; [apply extends_cons|done]. }
  intros h1 executed Hex. rewrite Hstore. sat_step. cbn [dss_MarkTerminal ConfigMapDirectiveStateStore]. unfold MarkTerminal.
  eapply sat_mono; [intros h2 r Hr2; apply executor_directive, off_stream_executor, Hr2| |apply upsert_sat].
  intros h2 [[]|e] [He Hx]; [|done]. destruct (Hx eq_refl) as (data' & Hd' & Ht'). sat_step. apply send_sat; [|done].
  eapply result_allowed; [done| |exact Hd'|]; [right; exists executed; split; [by eapply executed_later|done]|]. by apply Ht', terminal_outcome_terminal.
Qed.

Lemma applyDirective_sat d : (forall execute, ac_Directives c = Some execute -> ExecutorLaws execute (execute_pre d) Executed) ->
  sat (directive_request d) done_ [] (applyDirective c d).
Proof.
  intros HX. unfold applyDirective. destruct (json_Unmarshal _) as [envelope|e] eqn:Hu; [|done].
  destruct (Directive.Verify _ _ _ _ _) as [payload|e] eqn:Hv; [|done].
  assert (Hver : verified_directive d payload) by (by exists envelope).
  destruct (ac_Directives c) as [execute|] eqn:Hd; [|done]. rewrite Hstore.
  cbn [dss_Load dss_MarkRunning ConfigMapDirectiveStateStore]. unfold DirectiveState.Load. sat_step. sat_step. sat_step; [done|].
  match goal with |- sat _ _ ?hh _ => set (h1 := hh) end.
  assert (Hrun : seen_unended h1 d -> sat (directive_request d) done_ h1
    (let! _ := MarkRunning namespace (od_OperationUid d) (od_InstanceUid d) onerr e => Ret (Some e) in execute_directive c execute d payload)).
  { intros (y & Hy & Hy'). sat_step. unfold MarkRunning.
    eapply sat_mono; [intros h2 r Hr2; apply executor_directive, off_stream_executor, Hr2| |apply upsert_sat].
    intros h2 [[]|e] [He Hx]; [|done]. destruct (Hx eq_refl) as (data & Hdata & _).
    apply execute_directive_sat; [by apply HX|done|exists y; split; [by apply He|done]|by exists data]. }
  destruct x as [cm|e].
  - destruct (decodeDirectiveState (cm_Data cm)) as [state|e] eqn:Hdec; [|done]. cbn [sat fst snd].
    destruct (has_ended d state true) eqn:Hend.
    + sat_step. apply send_sat; [|done]. eapply (result_allowed d h1 (cm_Data cm) payload); [done| | |].
      * left. exists cm, state. split; [apply elem_of_cons; by left|done].
      * left. exists cm. split; [apply elem_of_cons; by left|done].
      * rewrite <- (decode_phase _ _ Hdec). by apply andb_true_iff in Hend as [_ ?].
    + apply Hrun. exists (Ok cm). split; [apply elem_of_cons; by left|by exists state].
  - destruct (IsNotFound e) eqn:En; [|done]. cbn [sat fst snd]. apply Hrun. exists (Err e). split; [apply elem_of_cons; by left|done].
Qed.

(** A directive that has ended is not carried out again. When the hub
    sends a directive whose record says it succeeded or failed, the agent only
    reports the recorded conditions once more: whatever the executor is, the
    worker does exactly that after it has read the record. *)
Theorem ended_directive_not_repeated {St} (handle : forall q : Req, St -> Resp q * St) d execute s s' h cm state :
  ac_Directives c = Some execute -> (exists payload, verified_directive d payload) ->
  handle (Get KConfigMap namespace (directiveStateName (od_OperationUid d))) s = (Ok cm, s') ->
  decodeDirectiveState (cm_Data cm) = Ok state -> ds_InstanceUID state = od_InstanceUid d -> terminal_phase (ds_Phase state) = true ->
  run handle (applyDirective c d) s h =
  run handle (let* x := sendDirectiveResult d (ds_Conditions state) in Ret (error_of x)) s'
    (existT (Get KConfigMap namespace (directiveStateName (od_OperationUid d))) (Ok cm) :: h).
Proof.
  intros Hd (payload & envelope & Hu & Hv) Hg Hdec Hi Ht. unfold applyDirective. rewrite Hu, Hv, Hd, Hstore.
  cbn [dss_Load ConfigMapDirectiveStateStore]. unfold DirectiveState.Load, call. cbn [bind run]. rewrite Hg, Hdec. cbn [bind fst snd].
  unfold has_ended. rewrite Hi, bool_decide_eq_true_2 by done. unfold terminal_phase in Ht. by rewrite Ht.
Qed.
End directive_worker.

(** ** The workers side by side *)
Section workers.
Context {K : KubeLib} {L : KubeLaws K} {C : Crypto} {TT : TimeText} {R : RawJson}.
Context {JE : Json Envelope} {JP : Json SitePlan} {JD : Json Payload} {JC : Json ReportedCondition} {JL : Json (list Condition)}.
Context (c : AgentClient) (namespace : string) (Hstore : ac_DirectiveState c = Some (ConfigMapDirectiveStateStore namespace)).
Context (Applied : khistory -> SitePlan -> Prop) {RL : ReconcilerLaws (ac_Apply c) Applied}.
Context (Executed : Payload -> khistory -> list Condition * option Error -> Prop).
Context (XL : forall d execute, ac_Directives c = Some execute -> ExecutorLaws execute (execute_pre c namespace d) Executed).
Context {St : Type} (handle : forall q : Req, St -> Resp q * St) (fuel : nat).

Definition job_request (j : job) : khistory -> Req -> Prop :=
  match j with
  | PlanJob d => plan_request c Applied d
  | DirectiveJob d => directive_request c namespace Executed d
  end.

Lemma job_prog_sat j : sat (job_request j) done_ [] (job_prog c fuel j).
Proof.
  destruct j as [d|d]; cbn [job_request job_prog]; [by apply applyPlan_sat|]. sat_step.
  eapply sat_mono; [intros ? ? H; exact H| |apply (applyDirective_sat c namespace Hstore Executed); apply XL]. done.
Qed.

Definition worker_ok (w : worker) : Prop := sat (job_request (wk_job w)) done_ (wk_history w) (wk_prog w).

Lemma perform_ok ws f : map_Forall (fun _ => worker_ok) ws -> map_Forall (fun _ => worker_ok) (perform c fuel ws f).
Proof.
  intros Hws. destruct f as [id|id d|id d]; cbn [perform].
  - intros i w. destruct (decide (i = id)) as [->|Hne]; [rewrite lookup_alter_eq|rewrite lookup_alter_ne by done; by apply Hws].
    destruct (ws !! id) as [w'|] eqn:Hw; [|done]. intros [= <-]. exact (Hws _ _ Hw).
  - apply map_Forall_insert_2; [apply (job_prog_sat (PlanJob d))|done].
  - apply map_Forall_insert_2; [apply (job_prog_sat (DirectiveJob d))|done].
Qed.

Lemma performs_ok effects ws : map_Forall (fun _ => worker_ok) ws -> map_Forall (fun _ => worker_ok) (foldl (perform c fuel) ws effects).
Proof. revert ws. induction effects as [|f effects IH]; intros ws Hws; [done|]. cbn [foldl]. by apply IH, perform_ok. Qed.

Lemma agent_step_ok a a' : agent_step c handle fuel a a' -> map_Forall (fun _ => worker_ok) (ag_workers a) ->
  map_Forall (fun _ => worker_ok) (ag_workers a').
Proof.
  intros [s st ws rc id j b r k h x s' Hw _|s st ws rc id j b e h s' st' effects h' Hw He|s st ws rc m s' st' effects h' He] Hws;
    cbn [ag_workers] in *.
  - apply map_Forall_insert_2; [|done]. destruct (Hws _ _ Hw) as [_ Hk]. apply Hk.
  - by apply performs_ok, map_Forall_delete.
  - by apply performs_ok.
Qed.

Lemma worker_request s a id w r k :
  rtc (agent_step c handle fuel) (agent_init s) a -> ag_workers a !! id = Some w -> wk_prog w = Call r k ->
  job_request (wk_job w) (wk_history w) r.
Proof.
  intros Ha Hw Hp. assert (Hok : map_Forall (fun _ => worker_ok) (ag_workers a)).
  { clear Hw Hp. revert a Ha. apply rtc_ind_r; [by apply map_Forall_empty|]. intros a a' _ Hstep IH. by eapply agent_step_ok. }
  specialize (Hok _ _ Hw). unfold worker_ok in Hok. rewrite Hp in Hok. apply Hok.
Qed.

(** C8: However the goroutines of an agent interleave and whatever they are
    answered, all they tell the hub is justified. A plan is acknowledged as
    accepted only when the hub's signature on it verifies for this site and the
    instance and it is in the cache; progress is reported after that; a revision
    is reported as applied at most once by a worker, after the reconciler has
    applied the plan, and counted as active after that; the waits between
    rounds are of one to 64 seconds. A directive is reported as running after it
    verified for this site, its record did not say it had ended and it was
    recorded; a result is sent only with a record that says so, and its
    conditions are those of that record or what the executor returned. *)
Theorem agent_reports_justified s a id w r k :
  rtc (agent_step c handle fuel) (agent_init s) a -> ag_workers a !! id = Some w -> wk_prog w = Call r k ->
  job_request (wk_job w) (wk_history w) r.
Proof. apply worker_request. Qed.
End workers.

(** ** Progress reports between agent and hub *)
Lemma CutPrefix_Some s p t : CutPrefix s p = Some t <-> s = p +:+ t.
Proof.
  unfold CutPrefix. split.
  - destruct (HasPrefix s p) eqn:E; [|done]. apply prefix_spec in E as [u ->]. intros [= <-]. f_equal.
    clear. induction p as [|a p IH]; [done|]. exact IH.
  - intros ->. rewrite HasPrefix_app. f_equal. induction p as [|a p IH]; [done|]. exact IH.
Qed.

Lemma append_inj_r p s t : (p +:+ s) = (p +:+ t) -> s = t.
Proof. induction p as [|a p IH]; [done|]. rewrite !app_cons_string. intros [= H]. auto. Qed.

(** A summary under another prefix. *)
Definition other_prefix (p key : string) : Prop := forall t, key <> p +:+ t.
Lemma CutPrefix_other s p : other_prefix p s -> CutPrefix s p = None.
Proof. intros H. destruct (CutPrefix s p) as [t|] eqn:E; [|done]. by apply CutPrefix_Some, H in E. Qed.

Section summaries.
Context {JC : Json ReportedCondition}.

Lemma fold_addresses (l : list (string * string)) (m0 : gmap string string) m : NoDup l.*1 ->
  foldl (fun summaries '(member, address) => <["address/" +:+ member := address]> summaries) m0 l !! ("address/" +:+ m) =
  match (list_to_map l : gmap string string) !! m with Some a => Some a | None => m0 !! ("address/" +:+ m) end.
Proof.
  revert m0. induction l as [|[member address] l IH]; intros m0 Hnd; [done|]. cbn in Hnd. apply list.NoDup_cons in Hnd as [Hni Hnd].
  cbn [foldl list_to_map foldr]. rewrite IH by done. destruct (decide (m = member)) as [->|Hne].
  - rewrite not_elem_of_list_to_map_1 by done. by rewrite !lookup_insert_eq.
  - rewrite (lookup_insert_ne _ member m) by done. case_match; [done|]. apply lookup_insert_ne. intros E. by apply append_inj_r in E.
Qed.

Lemma fold_addresses_other (l : list (string * string)) (m0 : gmap string string) key : other_prefix "address/" key ->
  foldl (fun summaries '(member, address) => <["address/" +:+ member := address]> summaries) m0 l !! key = m0 !! key.
Proof.
  intros Ho. revert m0. induction l as [|[member address] l IH]; intros m0; [done|]. cbn [foldl]. rewrite IH. apply lookup_insert_ne.
  intros E. by apply (Ho member).
Qed.

Lemma standby_lookup l m0 m : standby_summaries l m0 !! ("topology/synchronous/" +:+ m) =
  if bool_decide (m ∈ l) then Some "healthy" else m0 !! ("topology/synchronous/" +:+ m).
Proof.
  unfold standby_summaries. revert m0. induction l as [|x l IH]; intros m0; [done|]. cbn [foldl]. rewrite IH.
  destruct (decide (m = x)) as [->|Hne].
  - rewrite lookup_insert_eq, (bool_decide_eq_true_2 (x ∈ x :: l)) by apply list_elem_of_here. by case_bool_decide.
  - rewrite lookup_insert_ne by (intros E; by apply append_inj_r in E).
    destruct (decide (m ∈ l)); [rewrite !bool_decide_eq_true_2 by set_solver; done|rewrite !bool_decide_eq_false_2 by set_solver; done].
Qed.

Lemma standby_other l m0 key : other_prefix "topology/synchronous/" key -> standby_summaries l m0 !! key = m0 !! key.
Proof.
  intros Ho. unfold standby_summaries. revert m0. induction l as [|x l IH]; intros m0; [done|]. cbn [foldl]. rewrite IH.
  apply lookup_insert_ne. intros E. by apply (Ho x).
Qed.

Definition reported_condition (condition : Condition) : ReportedCondition :=
  mkReportedCondition (cond_Status condition) (cond_Reason condition) (cond_Message condition).

Lemma condition_other l m0 m1 key : (forall condition, condition ∈ l -> key <> "condition/" +:+ cond_Type condition) ->
  condition_summaries l m0 = Ok m1 -> m1 !! key = m0 !! key.
Proof.
  revert m0. induction l as [|x l IH]; intros m0 Ho; cbn [condition_summaries]; [by intros [= ->]|].
  destruct (json_Marshal _) as [v|]; [|done]. intros E. rewrite (IH _ (fun y Hy => Ho y (list_elem_of_further _ _ _ Hy)) E).
  apply lookup_insert_ne. intros E'. by apply (Ho x (list_elem_of_here _ _)).
Qed.

Lemma condition_lookup l m0 m1 condition : NoDup (cond_Type <$> l) -> condition ∈ l -> condition_summaries l m0 = Ok m1 ->
  exists v, json_Marshal (reported_condition condition) = Ok v /\ m1 !! ("condition/" +:+ cond_Type condition) = Some v.
Proof.
  revert m0. induction l as [|x l IH]; intros m0 Hnd Hin; [by apply elem_of_nil in Hin|]. cbn [condition_summaries].
  cbn in Hnd. apply list.NoDup_cons in Hnd as [Hni Hnd].
  change (mkReportedCondition _ _ _) with (reported_condition x). destruct (json_Marshal (reported_condition x)) as [v|] eqn:Hv; [|done].
  apply elem_of_cons in Hin as [->|Hin]; [|exact (IH _ Hnd Hin)]. intros E. exists v. split; [done|].
  rewrite (condition_other _ _ _ _ (fun y Hy E' => Hni (eq_ind_r (fun t => t ∈ _) (list_elem_of_fmap_2 cond_Type _ _ Hy) (append_inj_r _ _ _ E'))) E).
  by rewrite lookup_insert_eq.
Qed.
End summaries.

Section reports.
Context {K : KubeLib} {L : KubeLaws K} {JC : Json ReportedCondition}.

Lemma set_site_condition_find site t s r m t' : FindStatusCondition (srs_Conditions (set_site_condition site t s r m)) t' =
  if bool_decide (t' = t) then Some (mkCondition t s 0 r m) else FindStatusCondition (srs_Conditions site) t'.
Proof.
  cbn. unfold setSiteCondition. case_bool_decide as E; [subst; apply (find_set_same _ (mkCondition t s 0 r m))|].
  by rewrite find_set_other.
Qed.

(** One summary: an address, a condition, neither. *)
Lemma summary_address acc key v m : srs_Addresses (progress_summary acc (key, v)).1 !! m =
  if bool_decide (key = "address/" +:+ m) then Some v else srs_Addresses acc.1 !! m.
Proof.
  destruct acc as [site [b1 b2]]. unfold progress_summary. cbn [fst].
  assert (Hc : forall site', srs_Addresses (match CutPrefix key "condition/" with
      | Some t => match json_Unmarshal v with
          | Ok c => (set_site_condition site' t (rc_Status c) (rc_Reason c) (rc_Message c), (b1, true))
          | Err _ => (site', (b1, b2)) end
      | None => (site', (b1, b2)) end).1 = srs_Addresses site').
  { intros site'. destruct (CutPrefix key "condition/"); [destruct (json_Unmarshal v)|]; done. }
  destruct (CutPrefix key "address/") as [member|] eqn:Ea.
  - apply CutPrefix_Some in Ea as ->. rewrite CutPrefix_other by (intros t; discriminate). cbn [fst].
    change (srs_Addresses (site <| srs_Addresses ::= <[member := v]> |>)) with (<[member := v]> (srs_Addresses site)).
    case_bool_decide as E; [apply append_inj_r in E as ->; by rewrite lookup_insert_eq|]. rewrite lookup_insert_ne; [done|]. congruence.
  - rewrite Hc. case_bool_decide as E; [|done]. by rewrite (proj2 (CutPrefix_Some key _ m) E) in Ea.
Qed.

Lemma summary_condition acc key v t : FindStatusCondition (srs_Conditions (progress_summary acc (key, v)).1) t =
  match (if bool_decide (key = "condition/" +:+ t) then json_Unmarshal v else Err (errors_New "")) with
  | Ok c => Some (mkCondition t (rc_Status c) 0 (rc_Reason c) (rc_Message c))
  | Err _ => FindStatusCondition (srs_Conditions acc.1) t
  end.
Proof.
  destruct acc as [site [b1 b2]]. unfold progress_summary. cbn [fst].
  destruct (CutPrefix key "condition/") as [t'|] eqn:Ec.
  - apply CutPrefix_Some in Ec as ->. rewrite (CutPrefix_other _ "address/") by (intros x; discriminate).
    destruct (json_Unmarshal v) as [c|e]; cbn [fst]; [rewrite set_site_condition_find|by case_bool_decide].
    destruct (decide (t = t')) as [->|Hne]; [by rewrite !bool_decide_eq_true_2|].
    rewrite !bool_decide_eq_false_2; [done| |done]. intros E%append_inj_r. congruence.
  - rewrite bool_decide_eq_false_2; [by destruct (CutPrefix key "address/")|].
    intros E. by rewrite (proj2 (CutPrefix_Some key _ t) E) in Ec.
Qed.

Lemma summaries_addresses l acc m : NoDup l.*1 -> srs_Addresses (foldl progress_summary acc l).1 !! m =
  match (list_to_map l : gmap string string) !! ("address/" +:+ m) with Some v => Some v | None => srs_Addresses acc.1 !! m end.
Proof.
  revert acc. induction l as [|[key v] l IH]; intros acc Hnd; [done|]. cbn in Hnd. apply list.NoDup_cons in Hnd as [Hni Hnd].
  cbn [foldl list_to_map foldr]. rewrite IH, summary_address by done. cbn [fst snd]. case_bool_decide as E.
  - subst. rewrite not_elem_of_list_to_map_1 by done. by rewrite lookup_insert_eq.
  - by rewrite lookup_insert_ne.
Qed.

Lemma summaries_conditions l acc t : NoDup l.*1 -> FindStatusCondition (srs_Conditions (foldl progress_summary acc l).1) t =
  match (list_to_map l : gmap string string) !! ("condition/" +:+ t) with
  | Some v => match json_Unmarshal v with
              | Ok c => Some (mkCondition t (rc_Status c) 0 (rc_Reason c) (rc_Message c))
              | Err _ => FindStatusCondition (srs_Conditions acc.1) t
              end
  | None => FindStatusCondition (srs_Conditions acc.1) t
  end.
Proof.
  revert acc. induction l as [|[key v] l IH]; intros acc Hnd; [done|]. cbn in Hnd. apply list.NoDup_cons in Hnd as [Hni Hnd].
  cbn [foldl list_to_map foldr]. rewrite IH, summary_condition by done. cbn [fst snd]. case_bool_decide as E.
  - subst. rewrite not_elem_of_list_to_map_1 by done. by rewrite lookup_insert_eq.
  - by rewrite lookup_insert_ne.
Qed.

(** The rest of a site's status. *)
Definition site_topology (site : SiteRevisionStatus) := (srs_Phase site, srs_Primary site, srs_SynchronousStandbys site).
Lemma summaries_topology l acc : site_topology (foldl progress_summary acc l).1 = site_topology acc.1.
Proof.
  revert acc. induction l as [|[key v] l IH]; intros [site [b1 b2]]; [done|]. cbn [foldl]. rewrite IH. unfold progress_summary.
  destruct (CutPrefix key "address/"); (destruct (CutPrefix key "condition/"); [destruct (json_Unmarshal v)|]); done.
Qed.

(** What the summaries of a round hold. *)
Lemma progress_summaries_lookup result S : progress_summaries result None = Ok S -> NoDup (cond_Type <$> ar_Conditions result) ->
  (forall m, S !! ("address/" +:+ m) = ar_Addresses result !! m) /\
  (S !! "topology/primary" = if ar_Primary result != "" then Some (ar_Primary result) else None) /\
  (forall m, S !! ("topology/synchronous/" +:+ m) = if bool_decide (m ∈ ar_SynchronousStandbys result) then Some "healthy" else None) /\
  (forall condition, condition ∈ ar_Conditions result -> exists v, json_Marshal (reported_condition condition) = Ok v /\
     S !! ("condition/" +:+ cond_Type condition) = Some v) /\
  (forall t, (t ∉ cond_Type <$> ar_Conditions result) -> S !! ("condition/" +:+ t) = None).
Proof.
  unfold progress_summaries. set (m0 := standby_summaries _ _). destruct (condition_summaries _ m0) as [S'|] eqn:E; [|done]. intros [= <-] Hnd.
  assert (Hother : forall key, other_prefix "condition/" key -> S' !! key = m0 !! key) by (intros key Ho; eapply condition_other; [|done]; intros; apply Ho).
  assert (Hbase : forall key, other_prefix "topology/synchronous/" key -> key <> "topology/primary" -> m0 !! key = address_summaries (ar_Addresses result) !! key).
  { intros key Ho Hne. unfold m0. rewrite standby_other by done. destruct (_ != _); [|done]. by rewrite lookup_insert_ne. }
  assert (Haddr : forall key, other_prefix "address/" key -> address_summaries (ar_Addresses result) !! key = None).
  { intros key Ho. unfold address_summaries. rewrite fold_addresses_other by done. apply lookup_empty. }
  split_and!.
  - intros m. rewrite Hother, Hbase; [|intros t; discriminate|discriminate|intros t; discriminate].
    unfold address_summaries. rewrite fold_addresses by apply NoDup_fst_map_to_list. rewrite list_to_map_to_list, lookup_empty. by destruct (_ !! m).
  - rewrite Hother by (intros t; discriminate). unfold m0. rewrite standby_other by (intros t; discriminate).
    destruct (_ != _); [by rewrite lookup_insert_eq|]. apply Haddr. intros t. discriminate.
  - intros m. rewrite Hother by (intros t; discriminate). unfold m0. rewrite standby_lookup. case_bool_decide; [done|].
    destruct (_ != _); [rewrite lookup_insert_ne by discriminate|]; apply Haddr; intros t; discriminate.
  - intros condition Hin. by eapply condition_lookup.
  - intros t Ht. rewrite (condition_other _ _ _ ("condition/" +:+ t)) with (2:=E).
    + rewrite Hbase by (try intros t'; discriminate). apply Haddr. intros t'. discriminate.
    + intros condition Hin E'. apply append_inj_r in E' as ->. apply Ht. by apply list_elem_of_fmap_2.
Qed.

Lemma standbys_healthy p m : m ∈ synchronous_standbys p <-> pp_ResourceSummaries p !! ("topology/synchronous/" +:+ m) = Some "healthy".
Proof.
  unfold synchronous_standbys. rewrite elem_of_SortStrings, list_elem_of_omap. split.
  - intros ([key v] & Hin & Hh). apply elem_of_map_to_list in Hin. unfold healthy_standby in Hh. cbn [fst snd] in Hh.
    destruct (CutPrefix key _) as [m'|] eqn:E; [|done]. apply CutPrefix_Some in E as ->. case_bool_decide; [|done]. by injection Hh as <-; subst.
  - intros H. exists ("topology/synchronous/" +:+ m, "healthy"). split; [by apply elem_of_map_to_list|].
    unfold healthy_standby. cbn [fst snd]. by rewrite (proj2 (CutPrefix_Some _ _ m) eq_refl).
Qed.

Context {JCL : JsonLaws ReportedCondition JC}.

(** C26: The hub records what the agent observed. A round of the agent that
    applied the desired revision without an error is reported as a map of
    strings; from it the hub takes exactly the phase, the members' addresses
    (keeping the known ones of other members), each condition with its status,
    reason and message (leaving other types as they are), and, when there is a
    primary, that primary and the same synchronous standbys. *)
Theorem progress_roundtrip result instanceUID revision summaries flags site h :
  (forall r : ReportedCondition, json_wire r = r) ->
  (forall condition, condition ∈ ar_Conditions result -> json_text (reported_condition condition)) ->
  NoDup (cond_Type <$> ar_Conditions result) -> progress_summaries result None = Ok summaries ->
  srs_DesiredRevision site = revision ->
  sat (fun _ r => r = Now) (fun _ x =>
      srs_Phase x.2 = ar_Phase result /\
      (forall m, srs_Addresses x.2 !! m = match ar_Addresses result !! m with Some a => Some a | None => srs_Addresses site !! m end) /\
      (forall condition, condition ∈ ar_Conditions result -> FindStatusCondition (srs_Conditions x.2) (cond_Type condition) =
         Some (mkCondition (cond_Type condition) (cond_Status condition) 0 (cond_Reason condition) (cond_Message condition))) /\
      (forall t, (t ∉ cond_Type <$> ar_Conditions result) ->
         FindStatusCondition (srs_Conditions x.2) t = FindStatusCondition (srs_Conditions site) t) /\
      (ar_Primary result <> "" -> srs_Primary x.2 = ar_Primary result /\
         forall m, m ∈ srs_SynchronousStandbys x.2 <-> m ∈ ar_SynchronousStandbys result))
    h (apply_progress (mkPlanProgress "" instanceUID revision (ar_Phase result) summaries) flags site).
Proof.
  intros Hwire Htext Hnd HS Hrev. destruct (progress_summaries_lookup _ _ HS Hnd) as (Ha & Hp & Hsy & Hc & Hnc).
  unfold apply_progress. cbn [pp_Revision pp_Phase pp_ResourceSummaries]. rewrite bool_decide_eq_true_2 by done. cbn [negb].
  set (acc := (site <| srs_Phase := ar_Phase result |>, flags)). set (p := mkPlanProgress _ _ _ _ _).
  pose proof (summaries_topology (map_to_list summaries) acc) as Htop.
  pose proof (fun m => summaries_addresses (map_to_list summaries) acc m (NoDup_fst_map_to_list _)) as Haddr.
  pose proof (fun t => summaries_conditions (map_to_list summaries) acc t (NoDup_fst_map_to_list _)) as Hcond.
  destruct (foldl progress_summary acc (map_to_list summaries)) as [site' flags']. cbn [fst] in *.
  assert (Hfacts : srs_Phase site' = ar_Phase result /\
      (forall m, srs_Addresses site' !! m = match ar_Addresses result !! m with Some a => Some a | None => srs_Addresses site !! m end) /\
      (forall condition, condition ∈ ar_Conditions result -> FindStatusCondition (srs_Conditions site') (cond_Type condition) =
         Some (mkCondition (cond_Type condition) (cond_Status condition) 0 (cond_Reason condition) (cond_Message condition))) /\
      (forall t, (t ∉ cond_Type <$> ar_Conditions result) ->
         FindStatusCondition (srs_Conditions site') t = FindStatusCondition (srs_Conditions site) t)).
  { split_and!.
    - by injection Htop.
    - intros m. by rewrite Haddr, list_to_map_to_list, Ha.
    - intros condition Hin. destruct (Hc _ Hin) as (v & Hv & Hl). rewrite Hcond, list_to_map_to_list, Hl.
      by rewrite (unmarshal_marshal _ _ (Htext _ Hin) Hv), Hwire.
    - intros t Ht. by rewrite Hcond, list_to_map_to_list, (Hnc _ Ht). }
  destruct Hfacts as (F1 & F2 & F3 & F4). destruct (has_topology p) eqn:Ht.
  - sat_step. sat_step; [done|]. cbn [sat]. split_and!; [exact F1|exact F2|exact F3|exact F4|]. intros Hne.
    rewrite bool_decide_eq_false_2 in Hp by done. split.
    + cbn. by rewrite lookup_total_alt, Hp.
    + intros m. cbn [snd srs_SynchronousStandbys]. rewrite (standbys_healthy p), Hsy. by case_bool_decide.
  - cbn [sat]. split_and!; [exact F1|exact F2|exact F3|exact F4|]. intros Hne. rewrite bool_decide_eq_false_2 in Hp by done.
    unfold has_topology in Ht. cbn [pp_ResourceSummaries p] in Ht. rewrite Hp, bool_decide_eq_true_2 in Ht; [done|by eexists].
Qed.
End reports.

(** ** Concrete cases *)
Module RefClient.
(** A site whose reconciler and executor succeed at once. *)
Definition client : AgentClient := mkAgentClient (mkAgentHello "uid" "cluster" "v1" [] ProtocolVersion) "agent" RefCache.pk "s1" "s1"
  (fun _ _ _ => Ret (zero_ApplyResult <| ar_Phase := "Ready" |>, None))
  (Some (fun _ => Ret ([mkCondition "Succeeded" ConditionTrue 0 "Done" ""], None)))
  (Some (ConfigMapDirectiveStateStore "agent")) None None.

#[global] Instance reconciler : ReconcilerLaws (ac_Apply client) (fun _ _ => True).
Proof. by split. Qed.
Lemma executor d execute : ac_Directives client = Some execute -> ExecutorLaws execute (execute_pre client "agent" d)
  (fun _ _ x => x.2 = None).
Proof. intros [= <-]. by split. Qed.

(** The agent's cluster, and a stream that works. *)
Definition world (r : Req) (s : MemServer.mem) : Resp r * MemServer.mem :=
  match r return Resp r * MemServer.mem with
  | Env (SendAgent _) => (Ok tt, s)
  | r => MemServer.serve r s
  end.
Definition start : agent := agent_init (proj1_sig MemServer.empty).

(** The hub's cluster holds two revisions of a plan. *)
Definition encoded (e : Envelope) : string := match json_Marshal e with Ok s => s | Err _ => "" end.
Definition d3 : DesiredSitePlan := mkDesiredSitePlan "i1" 3 (encoded RefCache.env3).
Definition d4 : DesiredSitePlan := mkDesiredSitePlan "i1" 4 (encoded RefCache.env4).
Definition plan_map (d : DesiredSitePlan) : ConfigMap := mkConfigMap zero_ObjectMeta {["envelope.json" := dsp_EnvelopeJson d]}.
Definition hub (r : Req) : unit -> Resp r * unit := fun _ =>
  (match r return Resp r with
   | Get KRegistration _ _ => Ok RefControlServer.site
   | List KConfigMap _ _ => Ok [plan_map d3; plan_map d4]
   | ListHasLabel KConfigMap _ => Ok []
   | Env (SendHub _) => Ok tt
   | r => (MemServer.serve r (proj1_sig MemServer.empty)).1
   end, tt).

(** A message received, and an exchange of a worker. *)
Section agent_run.
Context (c : AgentClient) (world : forall q : Req, MemServer.mem -> Resp q * MemServer.mem) (fuel : nat).
Definition deliver_on (m : HubMessage) (a : agent) : agent :=
  let '(v, s', _) := run world (run_event c (Received (Ok m)) (ag_state a)) (ag_world a) [] in
  match v with
  | Continue st' effects => mkAgent s' st' (foldl (perform c fuel) (ag_workers a) effects) (ag_received a ++ [m])
  | Return _ => a
  end.
Definition advance_on (id : nat) (a : agent) : agent :=
  match ag_workers a !! id with
  | Some (mkWorker j b (Call r k) h) =>
      let '(x, s') := answer world b r (ag_world a) in
      mkAgent s' (ag_state a) (<[id := mkWorker j b (k x) (existT r x :: h)]> (ag_workers a)) (ag_received a)
  | _ => a
  end.

Lemma deliver_on_steps m a : rtc (agent_step c world fuel) a (deliver_on m a).
Proof.
  unfold deliver_on. destruct (run _ _ _ _) as [[v s'] h'] eqn:E. destruct v as [st' effects|e]; [|done].
  destruct a. apply rtc_once. by eapply receive_step.
Qed.
Lemma advance_on_steps n id a : rtc (agent_step c world fuel) a (Nat.iter n (advance_on id) a).
Proof.
  induction n as [|n IH]; [done|]. etrans; [exact IH|].
  change (Nat.iter (S n) (advance_on id) a) with (advance_on id (Nat.iter n (advance_on id) a)).
  generalize (Nat.iter n (advance_on id) a). intros b.
  unfold advance_on. destruct b as [s st ws rc]. cbn [ag_world ag_state ag_workers ag_received]. destruct (ws !! id) as [[j x p h]|] eqn:Hw; [|apply rtc_refl].
  destruct p as [y|r k]; [apply rtc_refl|]. destruct (answer world x r s) as [y s'] eqn:Ha. apply rtc_once. by eapply worker_step.
Qed.
End agent_run.
Definition deliver : HubMessage -> agent -> agent := deliver_on client world 3.
Definition advance : nat -> agent -> agent := advance_on world.
Lemma deliver_steps m a : rtc (agent_step client world 3) a (deliver m a).
Proof. apply deliver_on_steps. Qed.
Lemma advance_steps n id a : rtc (agent_step client world 3) a (Nat.iter n (advance id) a).
Proof. apply advance_on_steps. Qed.

(** Both revisions received; the first worker up to its acknowledgement. *)
Definition two_plans : agent := deliver (Msg_Plan d4) (deliver (Msg_Plan d3) start).
Definition acknowledging : agent := Nat.iter 5 (advance 0) (deliver (Msg_Plan d3) start).
Definition next_message (w : worker) : option AgentMessage :=
  match wk_prog w with Call (Env (SendAgent m)) _ => Some m | _ => None end.

Definition directive : OperationDirective := mkOperationDirective "op1" "i1" "Backup"
  (match Directive.Sign RefPlan.sk RefDirective.payload1 with Ok e => encoded e | Err _ => "" end).
Definition failed : list Condition := [mkCondition "Succeeded" ConditionFalse 0 "ExecutionFailed" "disk full"].
(** The cluster after the directive was recorded as failed. *)
Definition ended : MemServer.mem := (run world (MarkTerminal "agent" "op1" "i1" failed) (proj1_sig MemServer.empty) []).1.2.

Definition observed : ApplyResult := mkApplyResult "Ready" {["postgres-a-0" := "10.0.0.1"]} "postgres-a-0" ["postgres-b-0"]
  [mkCondition "EtcdTLSReady" ConditionTrue 2 "Published" "fingerprint"] [].
Definition summaries : gmap string string := match progress_summaries observed None with Ok s => s | Err _ => ∅ end.
Lemma observed_summaries : progress_summaries observed None = Ok summaries.
Proof.
  assert (H : match progress_summaries observed None with Ok _ => true | Err _ => false end = true) by (vm_compute; reflexivity).
  unfold summaries. by destruct (progress_summaries observed None).
Qed.
End RefClient.

Lemma one_worker_at_a_time_witness :
  wk_cancelled <$> ag_workers RefClient.two_plans !! 0%nat = Some true /\ wk_cancelled <$> ag_workers RefClient.two_plans !! 1%nat = Some false /\
  forall id id' w w' d d', ag_workers RefClient.two_plans !! id = Some w -> ag_workers RefClient.two_plans !! id' = Some w' ->
    wk_job w = PlanJob d -> wk_job w' = PlanJob d' -> dsp_InstanceUid d = dsp_InstanceUid d' ->
    wk_cancelled w = false -> wk_cancelled w' = false -> id = id'.
Proof.
  split; [vm_compute; reflexivity|]. split; [vm_compute; reflexivity|].
  refine (proj1 (proj2 (one_worker_at_a_time RefClient.hub (mkServer "" 0) "a" "uid" RefClient.client RefClient.world 1 3 tt _ RefClient.two_plans _ _))).
  - etrans; apply RefClient.deliver_steps.
  - exists []. vm_compute. reflexivity.
Defined.

Lemma agent_reports_justified_witness : exists w desired,
  ag_workers RefClient.acknowledging !! 0%nat = Some w /\
  RefClient.next_message w = Some (Msg_Acknowledgement (mkPlanAcknowledgement "i1" 3 true [])) /\
  accepted_plan RefClient.client (wk_history w) RefClient.d3 desired.
Proof.
  assert (Hn : (w ← ag_workers RefClient.acknowledging !! 0%nat; RefClient.next_message w) =
    Some (Msg_Acknowledgement (mkPlanAcknowledgement "i1" 3 true []))) by (vm_compute; reflexivity).
  assert (Hj : wk_job <$> ag_workers RefClient.acknowledging !! 0%nat = Some (PlanJob RefClient.d3)) by (vm_compute; reflexivity).
  destruct (ag_workers RefClient.acknowledging !! 0%nat) as [w|] eqn:Hw; [|discriminate Hn]. cbn in Hn, Hj. injection Hj as Hj.
  destruct (wk_prog w) as [|r k] eqn:Hp; [unfold RefClient.next_message in Hn; rewrite Hp in Hn; discriminate Hn|].
  assert (Hr : rtc (agent_step RefClient.client RefClient.world 3) RefClient.start RefClient.acknowledging).
  { etrans; [apply RefClient.deliver_steps|apply RefClient.advance_steps]. }
  pose proof (agent_reports_justified (L:=Ref.laws) RefClient.client "agent" eq_refl (fun _ _ => True) _ RefClient.executor RefClient.world 3
    _ RefClient.acknowledging 0 w r k Hr Hw Hp) as H.
  rewrite Hj in H. pose proof Hn as Hn'. unfold RefClient.next_message in Hn'. rewrite Hp in Hn'.
  destruct r as [| | | | | | | | | | | | |[| | |m| | | | |]]; try discriminate Hn'. injection Hn' as ->.
  destruct H as (_ & _ & H). destruct (H eq_refl) as [desired Hd]. exists w, desired. split; [reflexivity|]. split; [exact Hn|exact Hd].
Defined.

Lemma ended_directive_not_repeated_witness :
  (run RefClient.world (applyDirective RefClient.client RefClient.directive) RefClient.ended []).1.1 = None /\
  exists cm, (run RefClient.world (applyDirective RefClient.client RefClient.directive) RefClient.ended []).2 =
    [existT (Env (SendAgent (Msg_Result (mkPlanResult "op1" "i1" 0 (wire_condition <$> RefClient.failed))))) (Ok tt);
     existT (Get KConfigMap "agent" (directiveStateName "op1")) (Ok cm)].
Proof.
  eassert (Hg : RefClient.world (Get KConfigMap "agent" (directiveStateName "op1")) RefClient.ended = (Ok _, _)) by (vm_compute; reflexivity).
  assert (Hv : exists payload, verified_directive RefClient.client RefClient.directive payload) by (eexists _, _; split; vm_compute; reflexivity).
  pose proof (ended_directive_not_repeated RefClient.client "agent" eq_refl RefClient.world RefClient.directive _ RefClient.ended _ [] _
    (mkDirectiveState "op1" "i1" directiveStateFailed RefClient.failed) eq_refl Hv Hg) as H.
  rewrite H; [|vm_compute; reflexivity|reflexivity|reflexivity]. split; [reflexivity|]. eexists. reflexivity.
Defined.

Lemma progress_roundtrip_witness :
  sat (fun _ r => r = Now) (fun _ x => srs_Primary x.2 = "postgres-a-0" /\ srs_Addresses x.2 !! "postgres-a-0" = Some "10.0.0.1")
    [] (apply_progress (mkPlanProgress "" "i1" 3 "Ready" RefClient.summaries) (false, false) (zero_SiteRevisionStatus <| srs_DesiredRevision := 3%Z |>)).
Proof.
  pose proof (progress_roundtrip (L:=Ref.laws) (JCL:=RefCodec.json_of_laws id) RefClient.observed "i1" 3 RefClient.summaries (false, false)
    (zero_SiteRevisionStatus <| srs_DesiredRevision := 3%Z |>) [] (fun _ => eq_refl) (fun _ _ => I)) as H.
  eapply sat_mono; [intros ? ? Hr; exact Hr| |apply H; [|exact RefClient.observed_summaries|reflexivity]].
  - intros h x (_ & Ha & _ & _ & Hp). split; [apply Hp; discriminate|]. rewrite Ha. reflexivity.
  - repeat constructor. apply not_elem_of_nil.
Defined.
