(* ===== verification/RenderBase.v ===== *)
(** * Labels, hashes, quoting and scripts

    What the renderers of [internal/agent] share: the labels of the managed
    objects, the hashes of configuration and operations, the quoting of shell
    words, the phases in which members are stopped, and the functions of
    [strings] and [time] they use.  A raw string literal of the source is
    written with back quotes for its double quotes ([raw]): raw literals contain
    no back quotes. *)

From S2P Require Import Prelude Prog Api Workloads Kube Codec Plan Members.

(** ** Strings *)

(** A raw string literal. *)
Fixpoint raw (s : string) : string :=
  match s with
  | EmptyString => ""
  | String c s => String (if c == "`"%char then "034"%char else c) (raw s)
  end.

(** [strings.ReplaceAll] of a pattern that is not empty. *)
Fixpoint replace_from (fuel : nat) (s old new : string) : string :=
  match fuel with
  | O => s
  | S fuel =>
      if HasPrefix s old then new +:+ replace_from fuel (drop_string (String.length old) s) old new
      else match s with
           | EmptyString => ""
           | String c s => String c (replace_from fuel s old new)
           end
  end.
Definition ReplaceAll (s old new : string) : string := replace_from (S (String.length s)) s old new.

(** [strings.ReplaceAll] of a single byte. *)
Fixpoint replace_byte (s : string) (old : ascii) (new : string) : string :=
  match s with
  | EmptyString => ""
  | String c s => (if c == old then new else String c "") +:+ replace_byte s old new
  end.

Definition newline : string := String "010" "".
Definition lines (l : list string) : string := String.concat "" ((fun s => s +:+ newline) <$> l).

(** ** Dates: [t.UTC().Format] *)

(** Year, month and day of a day number counted from 1970-01-01. *)
Definition civil (days : Z) : Z * Z * Z :=
  (let z := days + 719468 in
   let era := z `div` 146097 in
   let doe := z - era * 146097 in
   let yoe := (doe - doe `div` 1460 + doe `div` 36524 - doe `div` 146096) `div` 365 in
   let doy := doe - (365 * yoe + yoe `div` 4 - yoe `div` 100) in
   let mp := (5 * doy + 2) `div` 153 in
   let d := doy - (153 * mp + 2) `div` 5 + 1 in
   let m := if mp <? 10 then mp + 3 else mp - 9 in
   let y := yoe + era * 400 + (if m <=? 2 then 1 else 0) in
   (y, m, d))%Z.

(** A number with leading zeros. *)
Definition padded (width : nat) (n : Z) : string :=
  let text := FormatInt n in
  String.concat "" (replicate (width - String.length text) "0") +:+ text.

(** [Format("2006-01-02 15:04:05.999999999+00")] of an instant of the years 0 to 9999. *)
Definition format_target_time (t : Time) : string :=
  let '(y, m, d) := civil (t `div` (86400 * second))%Z in
  let s := ((t `div` second) `mod` 86400)%Z in
  padded 4 y +:+ "-" +:+ padded 2 m +:+ "-" +:+ padded 2 d +:+ " " +:+
  padded 2 (s `div` 3600)%Z +:+ ":" +:+ padded 2 ((s `div` 60) `mod` 60)%Z +:+ ":" +:+ padded 2 (s `mod` 60)%Z +:+
  duration_fraction 9 t +:+ "+00".

(** ** Labels *)
Definition managedByLabel : string := "app.kubernetes.io/managed-by".
Definition hubNamespaceLabel : string := "multisite-postgres.dev/hub-namespace".
Definition hubNameLabel : string := "multisite-postgres.dev/hub-name".
Definition instanceUIDLabel : string := "multisite-postgres.dev/instance-uid".
Definition siteNameLabel : string := "multisite-postgres.dev/site-name".
Definition revisionLabel : string := "multisite-postgres.dev/desired-revision".
Definition componentLabel : string := "multisite-postgres.dev/component".
Definition memberLabel : string := "multisite-postgres.dev/member".
Definition workloadServiceAccount : string := "mspsql-workload".

Definition resourceLabels (desired : SitePlan) : gmap string string :=
  {[ managedByLabel := "mspsql-agent";
     hubNamespaceLabel := sp_HubNamespace desired;
     hubNameLabel := sp_HubName desired;
     instanceUIDLabel := sp_InstanceUID desired;
     siteNameLabel := site_Name (sp_Site desired);
     revisionLabel := FormatInt (sp_Revision desired) ]}.

Definition copyMap (input : gmap string string) : gmap string string := input.
Definition stableWorkloadLabels (input : gmap string string) : gmap string string := delete revisionLabel (copyMap input).

(** The metadata of an object literal. *)
Definition new_meta (namespace name : string) (labels : gmap string string) : ObjectMeta :=
  zero_ObjectMeta <| meta_Namespace := namespace |> <| meta_Name := name |> <| meta_Labels := labels |>.

(** ** Hashes *)
Section hashes.
Context {C : Crypto}.

(** What [hashValues] writes to the hash: the length of each value, a zero byte
    and the value. *)
Fixpoint hash_input (values : list string) : string :=
  match values with
  | [] => ""
  | value :: values => FormatInt (Z.of_nat (String.length value)) +:+ String "000" "" +:+ value +:+ hash_input values
  end.
Definition hashValues (values : list string) : string := hex_EncodeToString (sha256 (hash_input values)).

Definition config_values (data : gmap string string) : list string :=
  concat ((fun key => [key; data !!! key]) <$> SortStrings (map_to_list data).*1).
Definition configMapDataHash (data : gmap string string) : string := hashValues (config_values data).

Definition operationHash (operationUID : string) : string :=
  hex_EncodeToString (String.substring 0 8 (sha256 operationUID)).
Definition operationName (operationUID : string) : string := "mspsql-sql-" +:+ operationHash operationUID.

Definition etcdPeerCommonName (desired : SitePlan) : string :=
  "mspsql-etcd-peer-" +:+ hex_EncodeToString (String.substring 0 8 (sha256 (sp_InstanceUID desired))).
End hashes.

(** ** Shell words *)
Definition shellQuote (value : string) : string := "'" +:+ replace_byte value "'" (raw "'`'`'") +:+ "'".

(** ** Pods *)
Definition restrictedContainer : SecurityContext := mkSecurityContext (Some false) (Some false) ["ALL"] None None.
Definition secretKeySelector (variable name key : string) : EnvVar := EnvSecret variable name key.
Definition antiAffinity (labels : gmap string string) : Affinity := mkAffinity 100 "kubernetes.io/hostname" labels.
Definition runtime_default : PodSecurityContext :=
  zero_PodSecurityContext <| psc_RunAsNonRoot := Some true |> <| psc_Seccomp := "RuntimeDefault" |>.
Definition secret_volume (name secret : string) : Volume := mkVolume name (VolSecret secret None []).
Definition config_volume (name config : string) : Volume := mkVolume name (VolConfigMap config None).
Definition claim_volume (name claim : string) : Volume := mkVolume name (VolClaim claim).
Definition empty_volume (name : string) : Volume := mkVolume name VolEmptyDir.
Definition read_only (name path : string) : VolumeMount := mkVolumeMount name path true.
Definition writable (name path : string) : VolumeMount := mkVolumeMount name path false.

(** ** Members *)
Definition memberBelongsToSite (member site : string) : bool := HasPrefix member ("postgres-" +:+ site +:+ "-").

(** The restore, while it is in the phase that recovers the seed member. *)
Definition seeding (desired : SitePlan) : option RestorePlan :=
  match sp_Restore desired with
  | Some restore => if rp_Phase restore == RestorePhaseSeed then Some restore else None
  | None => None
  end.

Definition majorMemberStopped (desired : SitePlan) (member : string) : bool :=
  match sp_MajorUpgrade desired with
  | None => false
  | Some upgrade =>
      let phase := mup_Phase upgrade in
      if bool_decide (phase ∈ [MajorUpgradePhaseStop; MajorUpgradePhaseSnapshot; MajorUpgradePhaseUpgradePrimary;
                               MajorUpgradePhaseStanzaUpgrade; MajorUpgradePhaseRollback]) then true
      else if bool_decide (phase ∈ [MajorUpgradePhaseStartPrimary; MajorUpgradePhaseRollbackStart])
      then member != mup_Primary upgrade
      else false
  end.

Definition majorWriteServiceStopped (desired : SitePlan) : bool :=
  match sp_MajorUpgrade desired with
  | None => false
  | Some upgrade =>
      bool_decide (mup_Phase upgrade ∈
        [MajorUpgradePhaseDrain; MajorUpgradePhaseStop; MajorUpgradePhaseSnapshot; MajorUpgradePhaseUpgradePrimary;
         MajorUpgradePhaseStanzaUpgrade; MajorUpgradePhaseStartPrimary; MajorUpgradePhaseReplicas;
         MajorUpgradePhaseRollback; MajorUpgradePhaseRollbackStart])
  end.

Definition credentialVersionForMember (desired : SitePlan) (member : string) : string :=
  let fallback :=
    if (0 <? sp_RuntimeCredentialVersion desired)%Z then FormatInt (sp_RuntimeCredentialVersion desired) else "" in
  match sp_CredentialRotation desired with
  | Some rotation =>
      if (member == crp_TargetMember rotation) || slices_Contains (crp_UpdatedMembers rotation) member
      then FormatInt (crp_Version rotation)
      else if (0 <? crp_PreviousVersion rotation)%Z then FormatInt (crp_PreviousVersion rotation)
      else fallback
  | None => fallback
  end.

Definition postgresMemberImage (desired : SitePlan) (member : string) : string :=
  let rolling :=
    match sp_Upgrade desired with
    | None => pg_Image (sp_Postgres desired)
    | Some upgrade =>
        if (member == up_TargetMember upgrade) || slices_Contains (up_UpgradedMembers upgrade) member
        then up_TargetImage upgrade
        else pg_Image (sp_Postgres desired)
    end in
  match sp_MajorUpgrade desired with
  | Some upgrade =>
      if mup_Phase upgrade == MajorUpgradePhaseStartPrimary then
        if member == mup_Primary upgrade then mup_TargetImage upgrade else rolling
      else if bool_decide (mup_Phase upgrade ∈ [MajorUpgradePhaseReplicas; MajorUpgradePhaseRestoreWrites;
                                                MajorUpgradePhaseFinalize])
      then mup_TargetImage upgrade
      else rolling
  | None => rolling
  end.

(** The certificates and the backup workloads of a site. *)
Definition backupWorkloadsEnabled (desired : SitePlan) : bool :=
  bool_decide (is_Some (sp_Backup desired)) ||
  match seeding desired with
  | Some restore => site_Name (sp_Site desired) == rp_SeedSite restore
  | None => false
  end.

Definition backupStanza (desired : SitePlan) : string :=
  match seeding desired with
  | Some restore => "mspsql-" +:+ rp_SourceInstanceUID restore
  | None => "mspsql-" +:+ sp_InstanceUID desired
  end.

(** Does the plan expect PostgreSQL of this site to be running?
    ([restoreExpectsPostgres] of [reconcile.go]) *)
Definition restoreExpectsPostgres (desired : SitePlan) : bool :=
  if site_Role (sp_Site desired) != SiteRoleData then false
  else
    let rest := match seeding desired with
      | Some restore => site_Name (sp_Site desired) == rp_SeedSite restore
      | None => true
      end in
    match sp_MajorUpgrade desired with
    | Some upgrade =>
        let phase := mup_Phase upgrade in
        if bool_decide (phase ∈ [MajorUpgradePhaseStop; MajorUpgradePhaseSnapshot; MajorUpgradePhaseUpgradePrimary;
                                 MajorUpgradePhaseStanzaUpgrade; MajorUpgradePhaseRollback]) then false
        else if bool_decide (phase ∈ [MajorUpgradePhaseStartPrimary; MajorUpgradePhaseRollbackStart;
                                      MajorUpgradePhaseRestoreWrites])
        then memberBelongsToSite (mup_Primary upgrade) (site_Name (sp_Site desired))
        else rest
    | None => rest
    end.
