(* ===== verification/MaintenanceJobs.v ===== *)
(** * Maintenance jobs

    The Jobs and rollback objects the agent applies besides the workloads of an
    instance: the jobs of a major upgrade ([major_upgrade.go]), of a credential
    rotation ([credentials.go]) and of an address migration ([render.go]).  A
    function that dereferences the operation of the plan takes the operation as
    an argument of its own. *)

From S2P Require Import Prelude Prog Api Workloads Kube Codec Plan Members RenderBase.

Record Images := mkImages { im_Etcd : string; im_Pgpool : string }.
Record Renderer := mkRenderer { rd_HubDomain : string; rd_Images : Images }.

(** ** Jobs of a major upgrade *)
Definition majorMaintenanceResources : ResourceRequirements :=
  mkResources [("cpu", "100m"); ("memory", "128Mi")] [("cpu", "1"); ("memory", "1Gi")].

Definition majorJobScript (script : string) : string :=
  if script == "" then script
  else
  raw "set -eu
mspsql_job_stderr=`$(mktemp)`
exec 3>&2
trap 'status=$?; if [ -s `$mspsql_job_stderr` ]; then tail -c 2048 `$mspsql_job_stderr` > /dev/termination-log; cat `$mspsql_job_stderr` >&3; fi; rm -f `$mspsql_job_stderr`; exit `$status`' EXIT
exec 2>`$mspsql_job_stderr`
" +:+
  script.

Definition majorJob (desired : SitePlan) (name image script : string) (volumes : list Volume)
  (mounts : list VolumeMount) : Job :=
  zero_Job <| job_Meta := new_meta (site_Namespace (sp_Site desired)) name (resourceLabels desired) |>
    <| job_BackoffLimit := Some 0%Z |> <| job_ActiveDeadlineSeconds := Some (4 * 60 * 60)%Z |>
    <| job_TTLSecondsAfterFinished := Some (7 * 24 * 60 * 60)%Z |>
    <| job_Template := mkPodTemplate (stableWorkloadLabels (resourceLabels desired)) ∅
         (zero_PodSpec <| pod_RestartPolicy := "Never" |> <| pod_ServiceAccountName := workloadServiceAccount |>
            <| pod_AutomountServiceAccountToken := Some false |>
            <| pod_SecurityContext := Some (runtime_default <| psc_FSGroup := Some 26%Z |>
                 <| psc_FSGroupChangePolicy := Some "OnRootMismatch" |>) |>
            <| pod_Containers := [zero_Container <| ctr_Name := "upgrade" |> <| ctr_Image := image |>
                 <| ctr_Command := ["/bin/sh"; "-ec"; majorJobScript script] |>
                 <| ctr_SecurityContext := Some restrictedContainer |> <| ctr_Resources := majorMaintenanceResources |>
                 <| ctr_VolumeMounts := mounts |> <| ctr_TerminationMessagePolicy := "FallbackToLogsOnError" |>] |>
            <| pod_Volumes := volumes |>) |>.

Definition preflight_script (tool tdeChecks : string) : string :=
  "set -eu
test -x /opt/mspsql/old/bin/postgres
test -x /opt/mspsql/old/bin/pg_controldata
test -x /opt/mspsql/new/bin/postgres
test -x /opt/mspsql/new/bin/initdb
test -x /opt/mspsql/new/bin/pg_ctl
command -v " +:+
  tool +:+
  "
" +:+
  tdeChecks.
Definition preflight_tde_checks : string := "
find /opt/mspsql/old/lib -name pg_tde.so -print -quit | grep -q .
find /opt/mspsql/new/lib -name pg_tde.so -print -quit | grep -q .
test -r /vault/token
".

Section jobs.
Context {C : Crypto}.

Definition vault_volume : Volume := secret_volume "pg-tde-vault" "pg-tde-vault".
Definition vault_mount : VolumeMount := read_only "pg-tde-vault" "/vault".

Definition MajorPreflightJob (desired : SitePlan) (upgrade : MajorUpgradePlan) : Job :=
  let tool := if tde_Enabled (sp_TDE desired) then "pg_tde_upgrade" else "pg_upgrade" in
  let tdeChecks := if tde_Enabled (sp_TDE desired) then preflight_tde_checks else "" in
  let volumes := if tde_Enabled (sp_TDE desired) then [vault_volume] else [] in
  let mounts := if tde_Enabled (sp_TDE desired) then [vault_mount] else [] in
  let job := majorJob desired
    ("major-preflight-" +:+ operationHash (mup_OperationUID upgrade +:+ "/" +:+ site_Name (sp_Site desired)))
    (mup_UpgradeImage upgrade) (preflight_script tool tdeChecks) volumes mounts in
  job <| job_Template ::= set pt_Spec (set pod_InitContainers (fun _ =>
    [zero_Container <| ctr_Name := "target-image-contract" |> <| ctr_Image := mup_TargetImage upgrade |>
       <| ctr_Command := ["/bin/sh"; "-ec";
            "command -v postgres; command -v psql; command -v pgbackrest; command -v envsubst"] |>
       <| ctr_SecurityContext := Some restrictedContainer |>])) |>.

Definition upgrade_script (upgrade : MajorUpgradePlan) (tool extraOptions : string) : string :=
  "set -eu
cd /pgdata/data
mkdir -p .mspsql-old-" +:+
  FormatInt (mup_SourceMajor upgrade) +:+
  " .mspsql-new-" +:+
  FormatInt (mup_TargetMajor upgrade) +:+
  "
chmod 0700 .mspsql-old-" +:+
  FormatInt (mup_SourceMajor upgrade) +:+
  " .mspsql-new-" +:+
  FormatInt (mup_TargetMajor upgrade) +:+
  "
find . -mindepth 1 -maxdepth 1 ! -name '.mspsql-old-" +:+
  FormatInt (mup_SourceMajor upgrade) +:+
  "' ! -name '.mspsql-new-" +:+
  FormatInt (mup_TargetMajor upgrade) +:+
  "' \
  -exec mv -- {} .mspsql-old-" +:+
  FormatInt (mup_SourceMajor upgrade) +:+
  "/ \;
export PATH=/opt/mspsql/new/bin:/opt/mspsql/old/bin:$PATH
export LD_LIBRARY_PATH=/opt/mspsql/new/lib:/opt/mspsql/old/lib
/opt/mspsql/new/bin/initdb -D .mspsql-new-" +:+
  FormatInt (mup_TargetMajor upgrade) +:+
  " --encoding=UTF8 --data-checksums
" +:+
  tool +:+
  " --check --link --old-bindir=/opt/mspsql/old/bin --new-bindir=/opt/mspsql/new/bin" +:+
  extraOptions +:+
  " \
  --old-datadir=.mspsql-old-" +:+
  FormatInt (mup_SourceMajor upgrade) +:+
  " --new-datadir=.mspsql-new-" +:+
  FormatInt (mup_TargetMajor upgrade) +:+
  "
" +:+
  tool +:+
  " --link --old-bindir=/opt/mspsql/old/bin --new-bindir=/opt/mspsql/new/bin" +:+
  extraOptions +:+
  " \
  --old-datadir=.mspsql-old-" +:+
  FormatInt (mup_SourceMajor upgrade) +:+
  " --new-datadir=.mspsql-new-" +:+
  FormatInt (mup_TargetMajor upgrade) +:+
  "
find .mspsql-new-" +:+
  FormatInt (mup_TargetMajor upgrade) +:+
  " -mindepth 1 -maxdepth 1 -exec mv -- {} . \;
rmdir .mspsql-new-" +:+
  FormatInt (mup_TargetMajor upgrade) +:+
  "
".

Definition MajorUpgradeJob (desired : SitePlan) (upgrade : MajorUpgradePlan) : Job :=
  let tool := if tde_Enabled (sp_TDE desired) then "pg_tde_upgrade" else "/opt/mspsql/new/bin/pg_upgrade" in
  let oldOptions := "-c ssl=off -c archive_mode=off " +:+
    "-c hba_file=/pgdata/data/.mspsql-old-" +:+ FormatInt (mup_SourceMajor upgrade) +:+ "/pg_hba.conf " +:+
    "-c ident_file=/pgdata/data/.mspsql-old-" +:+ FormatInt (mup_SourceMajor upgrade) +:+ "/pg_ident.conf" +:+
    (if tde_Enabled (sp_TDE desired) then " -c shared_preload_libraries=pg_tde" else "") in
  let newOptions := if tde_Enabled (sp_TDE desired) then " --new-options='-c shared_preload_libraries=pg_tde'" else "" in
  let extraOptions := " --old-options='" +:+ oldOptions +:+ "'" +:+ newOptions in
  let data := claim_volume "data" ("data-" +:+ mup_Primary upgrade +:+ "-0") in
  let volumes := if tde_Enabled (sp_TDE desired) then [data; vault_volume] else [data] in
  let mounts := if tde_Enabled (sp_TDE desired) then [writable "data" "/pgdata"; vault_mount]
                else [writable "data" "/pgdata"] in
  majorJob desired ("major-upgrade-" +:+ operationHash (mup_OperationUID upgrade)) (mup_UpgradeImage upgrade)
    (upgrade_script upgrade tool extraOptions) volumes mounts.

Definition stanza_script (stanza : string) : string :=
  raw "set -eu
umask 077
export S3_ACCESS_KEY=`$(cat /repository/s3-access-key)`
export S3_SECRET_KEY=`$(cat /repository/s3-secret-key)`
export REPO_CIPHER_PASSPHRASE=`$(cat /repository/repo-cipher-passphrase)`
envsubst < /template/pgbackrest.conf > /tmp/pgbackrest.conf
pgbackrest --config=/tmp/pgbackrest.conf --stanza=" +:+
  Quote stanza +:+
  " --no-online stanza-upgrade
".

Definition MajorStanzaUpgradeJob (desired : SitePlan) (upgrade : MajorUpgradePlan) : Job :=
  majorJob desired ("major-stanza-upgrade-" +:+ operationHash (mup_OperationUID upgrade)) (mup_TargetImage upgrade)
    (stanza_script ("mspsql-" +:+ sp_InstanceUID desired))
    [claim_volume "data" ("data-" +:+ mup_Primary upgrade +:+ "-0");
     config_volume "template" ("pgbackrest-" +:+ site_Name (sp_Site desired));
     secret_volume "repository" "pgbackrest-repository";
     secret_volume "pgbackrest-tls" (mup_Primary upgrade +:+ "-pgbackrest-tls")]
    [writable "data" "/var/lib/postgresql"; read_only "template" "/template"; read_only "repository" "/repository";
     read_only "pgbackrest-tls" "/pgbackrest-tls"].

Definition acceptance_script (host : string) (expectedMajor : Z) : string :=
  raw "set -eu
export PGUSER=`$(cat /credentials/superuser-username)`
export PGPASSWORD=`$(cat /credentials/superuser-password)`
export PGSSLMODE=verify-full
export PGSSLROOTCERT=/postgres-tls/ca.crt
ready=false
for attempt in $(seq 1 90); do
  if psql -X -h " +:+
  Quote host +:+
  raw " -d postgres -Atqc 'SELECT 1' >/dev/null 2>&1; then
    ready=true
    break
  fi
  sleep 10
done
test `$ready` = true
test `$(psql -X -h " +:+
  Quote host +:+
  raw " -d postgres -Atqc 'SHOW server_version_num')` -ge " +:+
  FormatInt expectedMajor +:+
  "0000
".
Definition write_test_script (host schemaName : string) : string :=
  "psql -X -h " +:+
  Quote host +:+
  " -d postgres -v ON_ERROR_STOP=1 <<'SQL'
DROP SCHEMA IF EXISTS " +:+
  schemaName +:+
  " CASCADE;
CREATE SCHEMA " +:+
  schemaName +:+
  ";
CREATE TABLE " +:+
  schemaName +:+
  ".write_test (value integer PRIMARY KEY);
INSERT INTO " +:+
  schemaName +:+
  ".write_test VALUES (1);
SELECT 1 / (count(" +:+ "*" +:+ ") = 1)::int FROM " +:+
  schemaName +:+
  ".write_test;
DROP SCHEMA " +:+
  schemaName +:+
  " CASCADE;
SQL
".
Definition read_test_script (host : string) : string :=
  "psql -X -h " +:+
  Quote host +:+
  " -d postgres -Atqc 'SELECT pg_is_in_recovery() IS NOT NULL' >/dev/null
".

Definition majorAcceptanceJob (desired : SitePlan) (upgrade : MajorUpgradePlan) (prefix image : string)
  (expectedMajor : Z) (writeTest : bool) : Job :=
  let host := mup_Primary upgrade +:+ "." +:+ site_Namespace (sp_Site desired) +:+ ".svc" in
  let schemaName := "mspsql_upgrade_" +:+ operationHash (mup_OperationUID upgrade) in
  let script := acceptance_script host expectedMajor +:+
    (if writeTest then write_test_script host schemaName else read_test_script host) in
  majorJob desired (prefix +:+ operationHash (mup_OperationUID upgrade)) image script
    [secret_volume "credentials" "postgres-auth"; secret_volume "postgres-tls" (mup_Primary upgrade +:+ "-tls")]
    [read_only "credentials" "/credentials"; read_only "postgres-tls" "/postgres-tls"].

Definition MajorAcceptanceJob (desired : SitePlan) (upgrade : MajorUpgradePlan) : Job :=
  majorAcceptanceJob desired upgrade "major-acceptance-" (mup_TargetImage upgrade) (mup_TargetMajor upgrade) false.
Definition MajorWriteAcceptanceJob (desired : SitePlan) (upgrade : MajorUpgradePlan) : Job :=
  majorAcceptanceJob desired upgrade "major-write-acceptance-" (mup_TargetImage upgrade) (mup_TargetMajor upgrade) true.
Definition MajorRollbackAcceptanceJob (desired : SitePlan) (upgrade : MajorUpgradePlan) : Job :=
  majorAcceptanceJob desired upgrade "major-rollback-acceptance-" (pg_Image (sp_Postgres desired))
    (mup_SourceMajor upgrade) false.

Definition etcd_endpoints (addresses : gmap string string) : list string :=
  SortStrings ((fun entry => "https://" +:+ entry.2 +:+ ":2379") <$>
    filter (fun entry => HasPrefix entry.1 "etcd-" = true) (map_to_list addresses)).

Definition majorDCSResetJob (r : Renderer) (desired : SitePlan) (upgrade : MajorUpgradePlan) (prefix : string) : Job :=
  let job := majorJob desired (prefix +:+ operationHash (mup_OperationUID upgrade)) (im_Etcd (rd_Images r)) ""
    [secret_volume "tls" "etcd-maintenance-client-tls"] [read_only "tls" "/tls"] in
  let reset (container : Container) :=
    container <| ctr_Command := ["etcdctl"] |>
      <| ctr_Args := ["--endpoints=" +:+ Join (etcd_endpoints (sp_MemberAddresses desired)) ",";
           "--cacert=/tls/ca.crt"; "--cert=/tls/tls.crt"; "--key=/tls/tls.key";
           "del"; "--prefix"; "/service/" +:+ sp_InstanceUID desired +:+ "/"] |>
      <| ctr_Env := [EnvValue "ETCDCTL_API" "3"] |>
      <| ctr_SecurityContext ::= fmap (fun s => s <| sctx_RunAsUser := Some 1000%Z |> <| sctx_RunAsGroup := Some 1000%Z |>) |> in
  job <| job_BackoffLimit := Some 3%Z |>
    <| job_Template ::= set pt_Spec (set pod_Containers (fun l =>
         match l with container :: rest => reset container :: rest | [] => [] end)) |>.
Definition MajorDCSResetJob (r : Renderer) (desired : SitePlan) (upgrade : MajorUpgradePlan) : Job :=
  majorDCSResetJob r desired upgrade "major-dcs-reset-".
Definition MajorRollbackDCSResetJob (r : Renderer) (desired : SitePlan) (upgrade : MajorUpgradePlan) : Job :=
  majorDCSResetJob r desired upgrade "major-rollback-dcs-reset-".

Definition reset_script : string := "set -eu
find /pgdata -mindepth 1 -maxdepth 1 -exec rm -rf -- {} +
".

Definition site_postgres (desired : SitePlan) : list string :=
  member_name "postgres" (site_Name (sp_Site desired)) <$>
    ordinals (sc_PostgresReplicas (site_Components (sp_Site desired))).

Definition MajorReplicaResetJobs (desired : SitePlan) (upgrade : MajorUpgradePlan) : list Job :=
  (fun member =>
    (majorJob desired ("major-reset-" +:+ operationHash (mup_OperationUID upgrade +:+ "/" +:+ member))
      (mup_UpgradeImage upgrade) reset_script [claim_volume "data" ("data-" +:+ member +:+ "-0")]
      [writable "data" "/pgdata"]) <| job_BackoffLimit := Some 3%Z |>) <$>
  filter (fun member => member <> mup_Primary upgrade) (site_postgres desired).

(** ** Rollback storage *)
Definition rollback_name (upgrade : MajorUpgradePlan) (member : string) : string :=
  "rollback-" +:+ operationHash (mup_OperationUID upgrade +:+ "/" +:+ member).
Definition rollbackSourceAnnotation : string := "multisite-postgres.dev/rollback-source".
Definition expiresAtAnnotation : string := "multisite-postgres.dev/expires-at".
Definition oldDataOperationAnnotation : string := "multisite-postgres.dev/old-data-operation".
Definition oldDataPathAnnotation : string := "multisite-postgres.dev/old-data-path".
Definition oldDataExpiresAnnotation : string := "multisite-postgres.dev/old-data-expires-at".

Context {TT : TimeText}.

Definition rollback_expiry (desired : SitePlan) (upgrade : MajorUpgradePlan) : string :=
  FormatSeconds (time_Add (sp_GeneratedAt desired) (mup_RollbackRetention upgrade)).

Definition rollbackRestorePVC (desired : SitePlan) (storage : StorageRequest) (name rollbackName : string)
  (policy : StorageRollbackPolicy) : PersistentVolumeClaim :=
  let dataSource :=
    if srp_Strategy policy == "VolumeSnapshot"
    then mkDataSource (Some "snapshot.storage.k8s.io") "VolumeSnapshot" rollbackName
    else mkDataSource None "PersistentVolumeClaim" rollbackName in
  mkPVC ((new_meta (site_Namespace (sp_Site desired)) name (resourceLabels desired))
           <| meta_Annotations := {[ rollbackSourceAnnotation := rollbackName ]} |>)
    ["ReadWriteOnce"] (Some (sr_StorageClassName storage)) (sr_Size storage) (Some dataSource) "".

Definition volumeSnapshot (desired : SitePlan) (upgrade : MajorUpgradePlan) (name sourcePVC className : string)
  : Unstructured :=
  mkUnstructured ((new_meta (site_Namespace (sp_Site desired)) name (resourceLabels desired))
                    <| meta_Annotations := {[ expiresAtAnnotation := rollback_expiry desired upgrade ]} |>)
    [("spec", VMap [("volumeSnapshotClassName", VStr className);
                    ("source", VMap [("persistentVolumeClaimName", VStr sourcePVC)])])].

Definition rollbackClonePVC (desired : SitePlan) (upgrade : MajorUpgradePlan) (storage : StorageRequest)
  (name sourcePVC : string) : PersistentVolumeClaim :=
  mkPVC ((new_meta (site_Namespace (sp_Site desired)) name (resourceLabels desired))
           <| meta_Annotations := {[ expiresAtAnnotation := rollback_expiry desired upgrade ]} |>)
    ["ReadWriteOnce"] (Some (sr_StorageClassName storage)) (sr_Size storage)
    (Some (mkDataSource None "PersistentVolumeClaim" sourcePVC)) "".

(** ** Jobs of a credential rotation *)
Definition credentialJob (desired : SitePlan) (name script : string) (environment : list EnvVar) : Job :=
  zero_Job <| job_Meta := new_meta (site_Namespace (sp_Site desired)) name (resourceLabels desired) |>
    <| job_BackoffLimit := Some 3%Z |> <| job_ActiveDeadlineSeconds := Some 600%Z |>
    <| job_Template := mkPodTemplate (stableWorkloadLabels (resourceLabels desired)) ∅
         (zero_PodSpec <| pod_RestartPolicy := "Never" |> <| pod_ServiceAccountName := workloadServiceAccount |>
            <| pod_AutomountServiceAccountToken := Some false |>
            <| pod_SecurityContext := Some (runtime_default <| psc_FSGroup := Some 26%Z |>) |>
            <| pod_Containers := [zero_Container <| ctr_Name := "credentials" |>
                 <| ctr_Image := pg_Image (sp_Postgres desired) |> <| ctr_Command := ["/bin/bash"; "-ec"; script] |>
                 <| ctr_Env := environment ++ [EnvValue "PGSSLMODE" "verify-full"; EnvValue "PGSSLROOTCERT" "/tls/ca.crt"] |>
                 <| ctr_SecurityContext := Some restrictedContainer |>
                 <| ctr_VolumeMounts := [read_only "tls" "/tls"] |>] |>
            <| pod_Volumes := [secret_volume "tls" ("postgres-" +:+ site_Name (sp_Site desired) +:+ "-0-tls")] |>) |>.

Definition catalog_script : string :=
  raw "set -euo pipefail
psql -X -h `$PRIMARY` -d postgres -v ON_ERROR_STOP=1 <<'SQL'
\getenv new_superuser NEW_SUPERUSER_PASSWORD
\getenv new_replication NEW_REPLICATION_PASSWORD
\getenv new_superuser_name NEW_SUPERUSER_USERNAME
\getenv new_replication_name NEW_REPLICATION_USERNAME
\getenv old_superuser_name OLD_SUPERUSER_USERNAME
\getenv old_replication_name OLD_REPLICATION_USERNAME
SELECT 1 / (
  :'new_superuser_name' <> :'old_superuser_name'
  AND :'new_replication_name' <> :'old_replication_name'
  AND :'new_superuser_name' <> :'new_replication_name'
)::int;
SELECT format('CREATE ROLE %I LOGIN', :'new_superuser_name')
WHERE NOT EXISTS (SELECT FROM pg_roles WHERE rolname = :'new_superuser_name') \gexec
SELECT format('ALTER ROLE %I LOGIN SUPERUSER PASSWORD %L', :'new_superuser_name', :'new_superuser') \gexec
SELECT format('CREATE ROLE %I LOGIN', :'new_replication_name')
WHERE NOT EXISTS (SELECT FROM pg_roles WHERE rolname = :'new_replication_name') \gexec
SELECT format('ALTER ROLE %I LOGIN REPLICATION PASSWORD %L', :'new_replication_name', :'new_replication') \gexec
SQL
".
Definition verification_script : string :=
  raw "set -euo pipefail
psql -X -h `$TARGET` -d postgres -v ON_ERROR_STOP=1 -Atqc 'SELECT 1' |
  grep -qx 1
".
Definition revoke_script : string :=
  raw "set -euo pipefail
psql -X -h `$PRIMARY` -d postgres -v ON_ERROR_STOP=1 <<'SQL'
\getenv old_superuser OLD_SUPERUSER_USERNAME
\getenv old_replication OLD_REPLICATION_USERNAME
SELECT format('ALTER ROLE %I NOLOGIN', :'old_superuser') \gexec
SELECT format('ALTER ROLE %I NOLOGIN', :'old_replication') \gexec
SQL
".

Definition CredentialCatalogJob (desired : SitePlan) (rotation : CredentialRotationPlan) (primary : string) : Job :=
  credentialJob desired ("credential-catalog-" +:+ FormatInt (crp_Version rotation)) catalog_script
    [EnvValue "PRIMARY" (primary +:+ "." +:+ site_Namespace (sp_Site desired) +:+ ".svc");
     secretKeySelector "PGUSER" "postgres-auth" "superuser-username";
     secretKeySelector "PGPASSWORD" "postgres-auth" "superuser-password";
     secretKeySelector "OLD_SUPERUSER_USERNAME" "postgres-auth" "superuser-username";
     secretKeySelector "OLD_REPLICATION_USERNAME" "postgres-auth" "replication-username";
     secretKeySelector "NEW_SUPERUSER_USERNAME" "postgres-auth-pending" "superuser-username";
     secretKeySelector "NEW_SUPERUSER_PASSWORD" "postgres-auth-pending" "superuser-password";
     secretKeySelector "NEW_REPLICATION_USERNAME" "postgres-auth-pending" "replication-username";
     secretKeySelector "NEW_REPLICATION_PASSWORD" "postgres-auth-pending" "replication-password"].

Definition CredentialVerificationJob (desired : SitePlan) (rotation : CredentialRotationPlan) : Job :=
  let target := crp_TargetMember rotation in
  credentialJob desired
    ("credential-verify-" +:+ operationHash (FormatInt (crp_Version rotation) +:+ "/" +:+ target)) verification_script
    [EnvValue "TARGET" (target +:+ "." +:+ site_Namespace (sp_Site desired) +:+ ".svc");
     secretKeySelector "PGUSER" "postgres-auth-pending" "superuser-username";
     secretKeySelector "PGPASSWORD" "postgres-auth-pending" "superuser-password"].

Definition CredentialRevokeJob (desired : SitePlan) (rotation : CredentialRotationPlan) (primary : string) : Job :=
  credentialJob desired ("credential-revoke-" +:+ FormatInt (crp_Version rotation)) revoke_script
    [EnvValue "PRIMARY" (primary +:+ "." +:+ site_Namespace (sp_Site desired) +:+ ".svc");
     secretKeySelector "PGUSER" "postgres-auth" "superuser-username";
     secretKeySelector "PGPASSWORD" "postgres-auth" "superuser-password";
     secretKeySelector "OLD_SUPERUSER_USERNAME" "postgres-auth-previous" "superuser-username";
     secretKeySelector "OLD_REPLICATION_USERNAME" "postgres-auth-previous" "replication-username"].

(** ** Address migration *)
Definition migration_script (migration : AddressMigrationPlan) (endpoints : list string) : string :=
  "set -eu
export ETCDCTL_API=3
endpoints=" +:+
  Quote (Join endpoints ",") +:+
  raw "
etcdctl --endpoints=`${endpoints}` --cacert=/tls/ca.crt --cert=/tls/tls.crt \
  --key=/tls/tls.key endpoint health
member_id=`$(etcdctl --endpoints=`${endpoints}` --cacert=/tls/ca.crt --cert=/tls/tls.crt \
  --key=/tls/tls.key member list | awk -F', ' -v name=" +:+
  Quote (amp_Member migration) +:+
  raw " '$3 == name {print $1}')`
test -n `${member_id}`
etcdctl --endpoints=`${endpoints}` --cacert=/tls/ca.crt --cert=/tls/tls.crt \
  --key=/tls/tls.key member update `${member_id}` --peer-urls=" +:+
  Quote ("https://" +:+ amp_NewAddress migration +:+ ":2380") +:+
  raw "
etcdctl --endpoints=`${endpoints}` --cacert=/tls/ca.crt --cert=/tls/tls.crt \
  --key=/tls/tls.key member list | grep -F -- " +:+
  Quote ("https://" +:+ amp_NewAddress migration +:+ ":2380") +:+
  "
".

(** The client endpoints of the other etcd members, at their new addresses
    where they have one. *)
Definition other_endpoints (desired : SitePlan) (migration : AddressMigrationPlan) : list string :=
  SortStrings ((fun entry =>
    let candidate := sp_AddressCandidates desired !!! entry.1 in
    "https://" +:+ (if candidate != "" then candidate else entry.2) +:+ ":2379") <$>
    filter (fun entry => HasPrefix entry.1 "etcd-" = true /\ entry.1 <> amp_Member migration)
      (map_to_list (sp_MemberAddresses desired))).

Definition AddressMigrationJob (r : Renderer) (desired : SitePlan) : result (option Job) :=
  match sp_AddressMigration desired with
  | None => Ok None
  | Some migration =>
      if negb (HasPrefix (amp_Member migration) ("etcd-" +:+ site_Name (sp_Site desired) +:+ "-")) then Ok None
      else
        let endpoints := other_endpoints desired migration in
        let totalMembers := (Z.of_nat (length endpoints) + 1)%Z in
        let quorum := (totalMembers `div` 2 + 1)%Z in
        if (Z.of_nat (length endpoints) <? quorum)%Z
        then Err (errors_New ("cannot migrate " +:+ amp_Member migration +:+ " without " +:+ FormatInt quorum +:+
                              " healthy remaining voters"))
        else Ok (Some (zero_Job
          <| job_Meta := new_meta (site_Namespace (sp_Site desired))
               ("address-migration-" +:+ operationHash (amp_OperationUID migration)) (resourceLabels desired) |>
          <| job_BackoffLimit := Some 1%Z |> <| job_ActiveDeadlineSeconds := Some 300%Z |>
          <| job_Template := mkPodTemplate (stableWorkloadLabels (resourceLabels desired)) ∅
               (zero_PodSpec <| pod_RestartPolicy := "Never" |> <| pod_ServiceAccountName := workloadServiceAccount |>
                  <| pod_AutomountServiceAccountToken := Some false |> <| pod_SecurityContext := Some runtime_default |>
                  <| pod_Containers := [zero_Container <| ctr_Name := "etcdctl" |> <| ctr_Image := im_Etcd (rd_Images r) |>
                       <| ctr_Command := ["/bin/sh"; "-ec"; migration_script migration endpoints] |>
                       <| ctr_SecurityContext := Some restrictedContainer |>
                       <| ctr_VolumeMounts := [read_only "tls" "/tls"] |>] |>
                  <| pod_Volumes := [secret_volume "tls" "etcd-maintenance-client-tls"] |>) |>))
  end.
End jobs.
