(* ===== verification/Render.v ===== *)
(** * Rendering a site plan

    [internal/agent/render.go]: the Kubernetes objects a plan stands for at its
    site: load balancers, certificates, network policies, the etcd and
    PostgreSQL members, the pooler and their configuration. *)

From S2P Require Import Prelude Prog Api Workloads Kube Codec NetAddr IpAddr Plan Members RenderBase MaintenanceJobs.

(** [f] of every element, or the first error. *)
Fixpoint collect {A B} (f : A -> result B) (l : list A) : result (list B) :=
  match l with
  | [] => Ok []
  | a :: l =>
      match f a with
      | Ok b => match collect f l with Ok bs => Ok (b :: bs) | Err e => Err e end
      | Err e => Err e
      end
  end.

(** ** Configuration files *)
Definition patroni_tde_parameters : string := "    shared_preload_libraries: pg_tde
".
Definition patroni_tde_binaries : string := "  bin_name:
    pg_basebackup: pg_tde_basebackup
    pg_rewind: pg_tde_rewind
".
Definition patroni_backup_parameters (stanza : string) : string :=
  raw "    archive_mode: `on`
    archive_command: 'pgbackrest --config=/etc/pgbackrest/pgbackrest.conf --stanza=" +:+
  stanza +:+
  " archive-push %p'
    archive_timeout: 60s
".
Definition patroni_initdb : string := "  initdb:
    - encoding: UTF8
    - data-checksums
".
Definition patroni_restore_method : string := "  method: pgbackrest
  pgbackrest:
    command: /restore/restore.sh
    keep_existing_recovery_conf: true
    no_params: true
".
Definition patroni_bootstrap (synchronousConfig bootstrapMethod : string) : string :=
  "bootstrap:
  dcs:
" +:+
  synchronousConfig +:+
  "
    failsafe_mode: true
    postgresql:
      use_pg_rewind: true
      use_slots: true
      parameters:
        password_encryption: scram-sha-256
      pg_hba:
        - local all all peer
        - hostssl replication all 0.0.0.0/0 scram-sha-256
        - hostssl all all 0.0.0.0/0 scram-sha-256
" +:+
  bootstrapMethod.
Definition patroni_yml (desired : SitePlan) (bootstrap : string) (endpoints : list string)
  (tdeBinaries tdeParameters backupParameters : string) : string :=
  "scope: " +:+
  (sp_InstanceUID desired) +:+
  "
name: ${MEMBER_NAME}
" +:+
  bootstrap +:+
  "restapi:
  listen: 0.0.0.0:8008
  connect_address: ${PATRONI_CONNECT_ADDRESS}:8008
  certfile: /postgres-tls/tls.crt
  keyfile: /postgres-tls/tls.key
  cafile: /postgres-tls/ca.crt
  verify_client: required
ctl:
  cacert: /postgres-tls/ca.crt
  certfile: /postgres-tls/tls.crt
  keyfile: /postgres-tls/tls.key
etcd3:
  hosts: " +:+
  (Join endpoints ",") +:+
  "
  protocol: https
  cacert: /etcd-tls/ca.crt
  cert: /etcd-tls/tls.crt
  key: /etcd-tls/tls.key
postgresql:
  listen: 0.0.0.0:5432
  connect_address: ${PATRONI_CONNECT_ADDRESS}:5432
  data_dir: /var/lib/postgresql/data
" +:+
  tdeBinaries +:+
  "  parameters:
" +:+
  tdeParameters +:+
  backupParameters +:+
  raw "    ssl: `on`
    ssl_cert_file: /postgres-tls/tls.crt
    ssl_key_file: /postgres-tls/tls.key
    ssl_ca_file: /postgres-tls/ca.crt
  authentication:
    superuser:
      username: ${POSTGRES_SUPERUSER_USERNAME}
      password: ${POSTGRES_SUPERUSER_PASSWORD}
    replication:
      username: ${POSTGRES_REPLICATION_USERNAME}
      password: ${POSTGRES_REPLICATION_PASSWORD}
tags:
  failover_priority: " +:+
  FormatInt (site_PrimaryPreference (sp_Site desired)) +:+
  "
".

Definition patroniConfig (desired : SitePlan) (labels : gmap string string) : ConfigMap :=
  let endpoints := SortStrings ((fun entry => entry.2 +:+ ":2379") <$>
    filter (fun entry => HasPrefix entry.1 "etcd-" = true) (map_to_list (sp_MemberAddresses desired))) in
  let tde := tde_Enabled (sp_TDE desired) in
  let postInit := if tde && bool_decide (sp_Restore desired = None)
    then "  post_init: /operator/tde-bootstrap.sh" +:+ newline else "" in
  let tdeParameters := if tde then patroni_tde_parameters else "" in
  let tdeBinaries := if tde then patroni_tde_binaries else "" in
  let backupParameters :=
    if bool_decide (is_Some (sp_Backup desired)) then patroni_backup_parameters (backupStanza desired) else "" in
  let initdbTDE := if tde then "    - set: shared_preload_libraries=pg_tde" +:+ newline else "" in
  let synchronousConfig :=
    if (0 <? pg_SynchronousStandbyCount (sp_Postgres desired))%Z
    then raw "    synchronous_mode: `on`
    synchronous_mode_strict: true
    synchronous_node_count: " +:+
  FormatInt (pg_SynchronousStandbyCount (sp_Postgres desired)) +:+
  "
"
    else raw "    synchronous_mode: `off`
" in
  let bootstrapMethod :=
    if bool_decide (is_Some (seeding desired)) then patroni_restore_method
    else patroni_initdb +:+ initdbTDE +:+ postInit in
  mkConfigMap (new_meta (site_Namespace (sp_Site desired)) ("patroni-" +:+ site_Name (sp_Site desired)) (copyMap labels))
    {[ "patroni.yml" := patroni_yml desired (patroni_bootstrap synchronousConfig bootstrapMethod) endpoints
                          tdeBinaries tdeParameters backupParameters ]}.

Definition pgbackrest_conf (repository : BackupRepositorySpec) (hostname port caConfig stanza : string) : string :=
  "[global]
repo1-type=s3
repo1-path=/" +:+
  (Trim (br_Prefix repository) "/") +:+
  "
repo1-s3-bucket=" +:+
  (br_Bucket repository) +:+
  "
repo1-s3-endpoint=" +:+
  hostname +:+
  "
repo1-s3-region=" +:+
  (br_Region repository) +:+
  "
repo1-s3-uri-style=" +:+
  (br_URIStyle repository) +:+
  "
repo1-storage-port=" +:+
  port +:+
  "
repo1-storage-verify-tls=y
" +:+
  caConfig +:+
  "repo1-s3-key=${S3_ACCESS_KEY}
repo1-s3-key-secret=${S3_SECRET_KEY}
repo1-cipher-type=aes-256-cbc
repo1-cipher-pass=${REPO_CIPHER_PASSPHRASE}
archive-async=y
spool-path=/var/spool/pgbackrest
process-max=4
start-fast=y
tls-server-address=*
tls-server-port=8432
tls-server-ca-file=/pgbackrest-tls/ca.crt
tls-server-cert-file=/pgbackrest-tls/tls.crt
tls-server-key-file=/pgbackrest-tls/tls.key
tls-server-auth=pgbackrest-client=" +:+
  stanza +:+
  "

[" +:+
  stanza +:+
  "]
pg1-path=/var/lib/postgresql/data
".

Section render.
Context {C : Crypto} {U : UrlLib}.

Definition with_defaults (repository : BackupRepositorySpec) : BackupRepositorySpec :=
  let repository := if br_Region repository == "" then repository <| br_Region := "us-east-1" |> else repository in
  if br_URIStyle repository == "" then repository <| br_URIStyle := "host" |> else repository.

(** The [strings.ContainsAny(value, "\r\n")] of a value. *)
Definition several_lines (value : string) : bool := ContainsAny value (String "013" (String "010" "")).

(** The endpoint of the repository, which must be an absolute HTTPS URL. *)
Definition repository_url (repository : BackupRepositorySpec) : option URL :=
  let endpoint := if br_Endpoint repository == "" then "https://s3." +:+ br_Region repository +:+ ".amazonaws.com"
                  else br_Endpoint repository in
  match url_Parse endpoint with
  | Ok parsed => if (url_Scheme parsed != "https") || (url_Hostname parsed == "") then None else Some parsed
  | Err _ => None
  end.
Definition repository_port (parsed : URL) : string := if url_Port parsed == "" then "443" else url_Port parsed.
Definition repository_ca (repository : BackupRepositorySpec) : string :=
  if bool_decide (is_Some (br_CABundleSecretRef repository)) then "repo1-storage-ca-file=/repository/ca.crt" +:+ newline
  else "".

Definition pgBackRestConfig (desired : SitePlan) (backup : BackupSpec) (labels : gmap string string)
  : result ConfigMap :=
  let repository := with_defaults (bk_Repository backup) in
  match List.find (fun entry => several_lines entry.2)
    [("bucket", br_Bucket repository); ("prefix", br_Prefix repository); ("region", br_Region repository)] with
  | Some (name, _) => Err (errors_New ("pgBackRest repository " +:+ name +:+ " must be a single line"))
  | None =>
      match repository_url repository with
      | None => Err (errors_New "pgBackRest endpoint must be an absolute HTTPS URL")
      | Some parsed =>
          Ok (mkConfigMap (new_meta (site_Namespace (sp_Site desired)) ("pgbackrest-" +:+ site_Name (sp_Site desired))
                             (copyMap labels))
            {[ "pgbackrest.conf" := pgbackrest_conf repository (url_Hostname parsed) (repository_port parsed)
                                      (repository_ca repository) (backupStanza desired) ]})
      end
  end.

(** The command line of the restore. *)
Definition restore_args (desired : SitePlan) (restore : RestorePlan) : list string :=
  ["pgbackrest"; "--config=/etc/pgbackrest/pgbackrest.conf"; "--stanza=" +:+ backupStanza desired;
   "--pg1-path=/var/lib/postgresql/data"; "--delta"; "--type=time";
   "--target=" +:+ format_target_time (rp_TargetTime restore); "--target-action=promote"] ++
  (if rp_BackupSet restore != "" then ["--set=" +:+ rp_BackupSet restore] else []) ++ ["restore"].

Definition restoreBootstrapConfig (desired : SitePlan) (restore : RestorePlan) (labels : gmap string string) : ConfigMap :=
  mkConfigMap (new_meta (site_Namespace (sp_Site desired)) "restore-bootstrap" (copyMap labels))
    {[ "restore.sh" := "#!/bin/bash" +:+ newline +:+ "set -euo pipefail" +:+ newline +:+ "exec " +:+
         Join (shellQuote <$> restore_args desired restore) " " +:+ newline ]}.

Definition tde_script : string :=
  raw "#!/bin/sh
set -eu

dsn=`$1`
provider=`$(cat /vault/provider-name)`
principal_key=`$(cat /vault/principal-key-name)`
vault_address=`$(cat /vault/address)`
key_path=`$(cat /vault/key-path)`

psql `$dsn` -v ON_ERROR_STOP=1 \
  -v provider=`$provider` \
  -v vault_address=`$vault_address` \
  -v key_path=`$key_path` <<'SQL'
CREATE EXTENSION IF NOT EXISTS pg_tde;
SELECT pg_tde_add_global_key_provider_vault_v2(
  :'provider', :'vault_address', :'key_path', '/vault/token', __CA_ARGUMENT__
) WHERE NOT EXISTS (
  SELECT 1 FROM pg_tde_list_all_global_key_providers() WHERE name = :'provider'
);
SELECT pg_tde_change_global_key_provider_vault_v2(
  :'provider', :'vault_address', :'key_path', '/vault/token', __CA_ARGUMENT__
);
SQL

set_default_key() {
  psql `$dsn` -v ON_ERROR_STOP=1 \
    -v provider=`$provider` -v principal_key=`$principal_key` <<'SQL'
SELECT pg_tde_set_default_key_using_global_key_provider(:'principal_key', :'provider');
SQL
}

if __KEY_CREATOR__; then
  if ! set_default_key; then
    psql `$dsn` -v ON_ERROR_STOP=1 \
      -v provider=`$provider` -v principal_key=`$principal_key` <<'SQL'
SELECT pg_tde_create_key_using_global_key_provider(:'principal_key', :'provider');
SQL
    set_default_key
  fi
else
  attached=false
  for attempt in $(seq 1 60); do
    if set_default_key; then
      attached=true
      break
    fi
    sleep 5
  done
  test `$attached` = true
fi

psql `$dsn` -v ON_ERROR_STOP=1 <<'SQL'
ALTER DATABASE postgres SET default_table_access_method = tde_heap;
ALTER DATABASE postgres SET pg_tde.enforce_encryption = on;
SQL

psql `$dsn` -d template1 -v ON_ERROR_STOP=1 <<'SQL'
CREATE EXTENSION IF NOT EXISTS pg_tde;
ALTER DATABASE template1 SET default_table_access_method = tde_heap;
ALTER DATABASE template1 SET pg_tde.enforce_encryption = on;
SQL
".

Definition tdeBootstrapConfig (desired : SitePlan) (labels : gmap string string) : ConfigMap :=
  let caArgument := match site_VaultAuth (sp_Site desired) with
    | Some auth => if bool_decide (is_Some (va_CABundleSecretRef auth)) then "'/vault/ca.crt'" else "NULL"
    | None => "NULL"
    end in
  let script := ReplaceAll tde_script "__CA_ARGUMENT__" caArgument in
  let script := ReplaceAll script "__KEY_CREATOR__" (if sp_TDEKeyCreator desired then "true" else "false") in
  mkConfigMap (new_meta (site_Namespace (sp_Site desired)) "pg-tde-bootstrap" (copyMap labels))
    {[ "tde-bootstrap.sh" := script ]}.

Definition pgpool_conf : string :=
  "listen_addresses = '*'
port = 5432
backend_clustering_mode = 'streaming_replication'
sr_check_period = 5
sr_check_user = '${POSTGRES_SUPERUSER_USERNAME}'
sr_check_password = '${POSTGRES_SUPERUSER_PASSWORD}'
sr_check_database = 'postgres'
health_check_period = 0
auto_failback = on
failover_on_backend_error = off
enable_pool_hba = on
pool_passwd = ''
ssl = on
ssl_key = '/tls/tls.key'
ssl_cert = '/tls/tls.crt'
ssl_ca_cert = '/backend-ca/ca.crt'
".
Definition pgpool_backend (ordinal : Z) (address : string) : string :=
  "backend_hostname" +:+ FormatInt ordinal +:+ " = '" +:+ address +:+ "'" +:+ newline +:+
  "backend_port" +:+ FormatInt ordinal +:+ " = 5432" +:+ newline +:+
  "backend_weight" +:+ FormatInt ordinal +:+ " = 1" +:+ newline.

Definition pgpoolConfig (desired : SitePlan) (labels : gmap string string) : ConfigMap :=
  let members := SortStrings (filter (fun member => HasPrefix member "postgres-" = true)
    (map_to_list (sp_MemberAddresses desired)).*1) in
  let backends := imap (fun ordinal member =>
    pgpool_backend (Z.of_nat ordinal) (sp_MemberAddresses desired !!! member)) members in
  mkConfigMap (new_meta (site_Namespace (sp_Site desired)) ("pgpool-" +:+ site_Name (sp_Site desired)) (copyMap labels))
    {[ "pgpool.conf" := pgpool_conf +:+ Join backends "";
       "pool_hba.conf" := "hostssl all all 0.0.0.0/0 password" +:+ newline ]}.

Definition postgresConfigHash (desired : SitePlan) : result string :=
  let labels := resourceLabels desired in
  let patroni := configMapDataHash (cm_Data (patroniConfig desired labels)) in
  let tde := if tde_Enabled (sp_TDE desired) then [configMapDataHash (cm_Data (tdeBootstrapConfig desired labels))] else [] in
  let restore := match seeding desired with
    | Some restore => [configMapDataHash (cm_Data (restoreBootstrapConfig desired restore labels))]
    | None => []
    end in
  match sp_Backup desired with
  | Some backup =>
      match pgBackRestConfig desired backup labels with
      | Ok config => Ok (hashValues ([patroni; configMapDataHash (cm_Data config)] ++ tde ++ restore))
      | Err e => Err e
      end
  | None => Ok (hashValues ([patroni] ++ tde ++ restore))
  end.

(** ** Services *)
Definition loadBalancerService (namespace name : string) (labels selector : gmap string string)
  (loadBalancer : option LoadBalancerSpec) (ports : list ServicePort) : Service :=
  let annotations : gmap string string := match loadBalancer with
    | Some spec => if lb_AddressPool spec != "" then {[ "metallb.io/address-pool" := lb_AddressPool spec ]} else ∅
    | None => ∅
    end in
  mkService ((new_meta namespace name (copyMap labels)) <| meta_Annotations := annotations |>) "LoadBalancer" "Local"
    selector ports false [].

Definition memberService (namespace name podName : string) (labels : gmap string string)
  (loadBalancer : option LoadBalancerSpec) (ports : list ServicePort) : Service :=
  (loadBalancerService namespace name labels {[ "statefulset.kubernetes.io/pod-name" := podName ]} loadBalancer ports)
    <| svc_PublishNotReadyAddresses := true |>.

Definition site_etcd (desired : SitePlan) : list string :=
  member_name "etcd" (site_Name (sp_Site desired)) <$> ordinals (sc_EtcdReplicas (site_Components (sp_Site desired))).
Definition pgpool_name (desired : SitePlan) : string := "pgpool-" +:+ site_Name (sp_Site desired).

Definition LoadBalancers (desired : SitePlan) : list Service :=
  let labels := resourceLabels desired in
  let site := sp_Site desired in
  ((fun name => memberService (site_Namespace site) name (name +:+ "-0") labels (site_LoadBalancer site)
      [mkServicePort "client" 2379 2379; mkServicePort "peer" 2380 2380]) <$> site_etcd desired) ++
  ((fun name => memberService (site_Namespace site) name (name +:+ "-0") labels (site_LoadBalancer site)
      ([mkServicePort "postgres" 5432 5432; mkServicePort "patroni" 8008 8008] ++
       if backupWorkloadsEnabled desired then [mkServicePort "pgbackrest" 8432 8432] else [])) <$> site_postgres desired) ++
  (if (0 <? sc_PgpoolReplicas (site_Components site))%Z
   then [loadBalancerService (site_Namespace site) (pgpool_name desired) labels
           (<[componentLabel := "pgpool"]> (stableWorkloadLabels labels)) (site_LoadBalancer site)
           [mkServicePort "postgres" 5432 5432]]
   else []).

(** ** Certificates *)
Definition effectiveIssuer (preferred fallback : IssuerReference) : IssuerReference :=
  if ir_Name preferred != "" then preferred else fallback.

Definition issuer_Value (issuer : IssuerReference) : Value :=
  VMap [("name", VStr (ir_Name issuer)); ("kind", VStr (ir_Kind issuer)); ("group", VStr (ir_Group issuer))].

Definition clientCertificate (namespace name secretName : string) (issuer : IssuerReference)
  (labels : gmap string string) : Unstructured :=
  mkUnstructured (new_meta namespace name labels)
    [("spec", VMap [("secretName", VStr secretName); ("issuerRef", issuer_Value issuer); ("commonName", VStr name);
                    ("usages", strs ["digital signature"; "client auth"])])].

Definition certificateWithCommonName (namespace name secretName : string) (issuer : IssuerReference)
  (labels : gmap string string) (addresses dnsNames : list string) (commonName : string) : Unstructured :=
  let dnsNames := dnsNames ++ filter (fun address => address <> "" /\ ParseIP address = None) addresses in
  let dnsNames := Compact (SortStrings dnsNames) in
  let ipAddresses := filter (fun address => is_Some (ParseIP address)) addresses in
  mkUnstructured (new_meta namespace name labels)
    [("spec", VMap ([("secretName", VStr secretName); ("issuerRef", issuer_Value issuer); ("dnsNames", strs dnsNames);
                     ("usages", strs ["digital signature"; "key encipherment"; "server auth"; "client auth"])] ++
                    (if commonName != "" then [("commonName", VStr commonName)] else []) ++
                    (if bool_decide (ipAddresses = []) then [] else [("ipAddresses", strs ipAddresses)])))].

Definition certificate (namespace name secretName : string) (issuer : IssuerReference)
  (labels : gmap string string) (addresses dnsNames : list string) : Unstructured :=
  certificateWithCommonName namespace name secretName issuer labels addresses dnsNames "".

Definition certificateAddresses (desired : SitePlan) (member : string) : list string :=
  let addresses := [sp_MemberAddresses desired !!! member; sp_AddressCandidates desired !!! member] in
  let addresses := addresses ++
    match site_LoadBalancer (sp_Site desired) with
    | Some spec => if HasPrefix member "etcd-" then lb_PeerSourceAddresses spec else []
    | None => []
    end in
  let addresses := addresses ++
    match sp_AddressMigration desired with
    | Some migration =>
        if (amp_Member migration == member) && (amp_OldAddress migration != "") &&
           (amp_OldAddress migration != amp_NewAddress migration) then [amp_OldAddress migration] else []
    | None => []
    end in
  Compact (SortStrings addresses).

Definition service_names (desired : SitePlan) (name : string) : list string :=
  [name; name +:+ "." +:+ site_Namespace (sp_Site desired) +:+ ".svc"].

Definition Certificates (desired : SitePlan) : list Unstructured :=
  let labels := resourceLabels desired in
  let site := sp_Site desired in
  let ns := site_Namespace site in
  let refs := site_Certificates site in
  let etcdPeerIssuer := effectiveIssuer (crt_EtcdPeerIssuerRef refs) (crt_EtcdIssuerRef refs) in
  let etcdClientIssuer := effectiveIssuer (crt_EtcdClientIssuerRef refs) (crt_EtcdIssuerRef refs) in
  [clientCertificate ns "etcd-maintenance-client" "etcd-maintenance-client-tls" etcdClientIssuer labels] ++
  ((fun name => certificateWithCommonName ns name (name +:+ "-tls") etcdPeerIssuer labels
      (certificateAddresses desired name) (service_names desired name) (etcdPeerCommonName desired)) <$> site_etcd desired) ++
  (if site_Role site == SiteRoleData then
     [clientCertificate ns "patroni-etcd-client" "patroni-etcd-client-tls" etcdClientIssuer labels;
      clientCertificate ns "patroni-api-client" "patroni-api-client-tls" (crt_PostgresIssuerRef refs) labels] ++
     (if backupWorkloadsEnabled desired
      then [clientCertificate ns "pgbackrest-client" "pgbackrest-client-tls" (crt_BackupIssuerRef refs) labels] else [])
   else []) ++
  concat ((fun name =>
    [certificate ns name (name +:+ "-tls") (crt_PostgresIssuerRef refs) labels (certificateAddresses desired name)
       (service_names desired name)] ++
    (if backupWorkloadsEnabled desired
     then [certificate ns (name +:+ "-pgbackrest") (name +:+ "-pgbackrest-tls") (crt_BackupIssuerRef refs) labels
             (certificateAddresses desired name) (service_names desired name)]
     else [])) <$> site_postgres desired) ++
  (if (0 <? sc_PgpoolReplicas (site_Components site))%Z
   then [certificate ns (pgpool_name desired) (pgpool_name desired +:+ "-tls") (crt_PgpoolIssuerRef refs) labels
           (certificateAddresses desired (pgpool_name desired)) (service_names desired (pgpool_name desired))]
   else []).

(** ** Network policies *)
Definition networkPolicy (namespace name : string) (labels selector : gmap string string)
  (ingress : list NetworkPolicyIngressRule) : NetworkPolicy :=
  mkNetworkPolicy (new_meta namespace name (copyMap labels)) selector ["Ingress"] ingress.

Definition sameInstancePeer (labels : gmap string string) : NetworkPolicyPeer :=
  mkPeer (Some (stableWorkloadLabels labels)) None.
Definition siteAgentPeer : NetworkPolicyPeer :=
  mkPeer (Some {[ "app.kubernetes.io/name" := "mspsql-agent" ]}) (Some {[ "kubernetes.io/metadata.name" := "mspsql-agent" ]}).

Definition NetworkPolicies (desired : SitePlan) : list NetworkPolicy :=
  let labels := resourceLabels desired in
  let site := sp_Site desired in
  [networkPolicy (site_Namespace site) ("mspsql-etcd-" +:+ site_Name site) labels {[ componentLabel := "etcd" ]}
     [mkIngressRule [sameInstancePeer labels] [2379; 2380]%Z]] ++
  if site_Role site == SiteRoleWitness then []
  else
    [networkPolicy (site_Namespace site) ("mspsql-postgres-" +:+ site_Name site) labels {[ componentLabel := "postgres" ]}
       [mkIngressRule [sameInstancePeer labels] [5432; 8008; 8432]%Z; mkIngressRule [siteAgentPeer] [8008%Z]]] ++
    (if (0 <? sc_PgpoolReplicas (site_Components site))%Z
     then [networkPolicy (site_Namespace site) ("mspsql-pgpool-" +:+ site_Name site) labels {[ componentLabel := "pgpool" ]}
             [mkIngressRule [] [5432%Z]]]
     else []).

(** ** Members *)
Definition etcd_members (desired : SitePlan) : list (string * string) :=
  filter (fun entry => HasPrefix entry.1 "etcd-" = true) (map_to_list (sp_MemberAddresses desired)).

Definition etcdInitialCluster (desired : SitePlan) : result string :=
  match List.find (fun entry => entry.2 == "") (etcd_members desired) with
  | Some (member, _) => Err (errors_New ("etcd address for " +:+ member +:+ " is not allocated"))
  | None =>
      let members := SortStrings ((fun entry => entry.1 +:+ "=https://" +:+ entry.2 +:+ ":2380") <$> etcd_members desired) in
      if (length members <? 3)%nat || Nat.even (length members)
      then Err (errors_New "complete odd etcd member address set is required")
      else Ok (Join members ",")
  end.

(** [resource.MustParse("1Gi")] *)
Definition one_gibibyte : Quantity := NewQuantity 1073741824.

Definition pvcTemplate (storage : option StorageRequest) (labels : gmap string string) : PersistentVolumeClaim :=
  mkPVC (new_meta "" "data" (copyMap labels)) ["ReadWriteOnce"] (sr_StorageClassName <$> storage)
    (match storage with Some storage => sr_Size storage | None => one_gibibyte end) None "".

Definition etcd_args (desired : SitePlan) (name address initialCluster : string) : list string :=
  ["--name=" +:+ name; "--data-dir=/var/lib/etcd";
   "--listen-client-urls=https://0.0.0.0:2379";
   "--advertise-client-urls=https://" +:+ address +:+ ":2379";
   "--listen-peer-urls=https://0.0.0.0:2380";
   "--initial-advertise-peer-urls=https://" +:+ address +:+ ":2380";
   "--initial-cluster=" +:+ initialCluster; "--initial-cluster-state=new";
   "--initial-cluster-token=" +:+ sp_InstanceUID desired;
   "--cert-file=/tls/tls.crt"; "--key-file=/tls/tls.key";
   "--trusted-ca-file=/tls/ca.crt"; "--client-cert-auth=true";
   "--peer-cert-file=/tls/tls.crt"; "--peer-key-file=/tls/tls.key";
   "--peer-trusted-ca-file=/tls/ca.crt"; "--peer-client-cert-auth=true";
   "--peer-cert-allowed-cn=" +:+ etcdPeerCommonName desired;
   "--auto-compaction-retention=1h"].

Definition etcdStatefulSet (r : Renderer) (desired : SitePlan) (name address initialCluster : string)
  (labels : gmap string string) : StatefulSet :=
  let memberLabels := <[memberLabel := name]> (stableWorkloadLabels labels) in
  zero_StatefulSet <| sts_Meta := new_meta (site_Namespace (sp_Site desired)) name (copyMap labels) |>
    <| sts_ServiceName := name |> <| sts_Replicas := Some 1%Z |> <| sts_Selector := memberLabels |>
    <| sts_Template := mkPodTemplate memberLabels
         {[ "multisite-postgres.dev/tls-hash" := hashValues [sp_RuntimeCertificateHashes desired !!! (name +:+ "-tls")] ]}
         (zero_PodSpec <| pod_ServiceAccountName := workloadServiceAccount |>
            <| pod_AutomountServiceAccountToken := Some false |> <| pod_TerminationGracePeriodSeconds := Some 30%Z |>
            <| pod_SecurityContext := Some (runtime_default <| psc_RunAsUser := Some 1000%Z |>
                 <| psc_RunAsGroup := Some 1000%Z |> <| psc_FSGroup := Some 1000%Z |>) |>
            <| pod_Containers := [zero_Container <| ctr_Name := "etcd" |> <| ctr_Image := im_Etcd (rd_Images r) |>
                 <| ctr_Command := ["etcd"] |> <| ctr_Args := etcd_args desired name address initialCluster |>
                 <| ctr_Ports := [("client", 2379%Z); ("peer", 2380%Z)] |>
                 <| ctr_ReadinessProbe := Some (mkProbe (ProbeExec ["etcdctl"; "--endpoints=https://" +:+ address +:+ ":2379";
                      "--cacert=/tls/ca.crt"; "--cert=/tls/tls.crt"; "--key=/tls/tls.key"; "endpoint"; "health"]) 10 6) |>
                 <| ctr_SecurityContext := Some restrictedContainer |>
                 <| ctr_VolumeMounts := [writable "data" "/var/lib/etcd"; read_only "tls" "/tls"] |>] |>
            <| pod_Volumes := [secret_volume "tls" (name +:+ "-tls")] |>) |>
    <| sts_VolumeClaimTemplates := [pvcTemplate (ss_Etcd (site_Storage (sp_Site desired))) memberLabels] |>.

Definition postgres_command (name address : string) : string :=
  raw "export POSTGRES_SUPERUSER_USERNAME=`$(cat /credentials/superuser-username)`
export POSTGRES_SUPERUSER_PASSWORD=`$(cat /credentials/superuser-password)`
export POSTGRES_REPLICATION_USERNAME=`$(cat /credentials/replication-username)`
export POSTGRES_REPLICATION_PASSWORD=`$(cat /credentials/replication-password)`
export MEMBER_NAME=" +:+
  Quote name +:+
  "
export PATRONI_CONNECT_ADDRESS=" +:+
  Quote address +:+
  "
envsubst < /config/patroni.yml > /tmp/patroni.yml
exec patroni /tmp/patroni.yml".

Definition tls_copy : string :=
  "cp /tls-source/ca.crt /tls/ca.crt; cp /tls-source/tls.crt /tls/tls.crt; " +:+
  "cp /tls-source/tls.key /tls/tls.key; chmod 644 /tls/ca.crt /tls/tls.crt; chmod 600 /tls/tls.key".

(** The containers a backup repository adds to a PostgreSQL member. *)
Definition pgbackrest_init_containers (image : string) : list Container :=
  [zero_Container <| ctr_Name := "pgbackrest-config" |> <| ctr_Image := image |>
     <| ctr_Command := ["/bin/bash"; "-ec"; "umask 077; envsubst < /template/pgbackrest.conf > /runtime/pgbackrest.conf"] |>
     <| ctr_Env := [secretKeySelector "S3_ACCESS_KEY" "pgbackrest-repository" "s3-access-key";
                    secretKeySelector "S3_SECRET_KEY" "pgbackrest-repository" "s3-secret-key";
                    secretKeySelector "REPO_CIPHER_PASSPHRASE" "pgbackrest-repository" "repo-cipher-passphrase"] |>
     <| ctr_SecurityContext := Some restrictedContainer |>
     <| ctr_VolumeMounts := [read_only "pgbackrest-template" "/template"; writable "pgbackrest-runtime" "/runtime"] |>;
   zero_Container <| ctr_Name := "pgbackrest-tls" |> <| ctr_Image := image |>
     <| ctr_Command := ["/bin/bash"; "-ec"; tls_copy] |>
     <| ctr_SecurityContext := Some restrictedContainer |>
     <| ctr_VolumeMounts := [read_only "pgbackrest-tls-source" "/tls-source"; writable "pgbackrest-tls" "/tls"] |>].

Definition pgbackrest_container (image : string) : Container :=
  zero_Container <| ctr_Name := "pgbackrest" |> <| ctr_Image := image |>
    <| ctr_Command := ["pgbackrest"; "--config=/etc/pgbackrest/pgbackrest.conf"; "server"] |>
    <| ctr_Ports := [("pgbackrest", 8432%Z)] |> <| ctr_ReadinessProbe := Some (mkProbe (ProbeTCP "pgbackrest") 10 6) |>
    <| ctr_SecurityContext := Some restrictedContainer |>
    <| ctr_VolumeMounts := [read_only "data" "/var/lib/postgresql"; writable "postgres-socket" "/run/postgresql";
         read_only "pgbackrest-runtime" "/etc/pgbackrest"; read_only "pgbackrest-repository" "/repository";
         writable "pgbackrest-spool" "/var/spool/pgbackrest"; read_only "pgbackrest-tls" "/pgbackrest-tls"] |>.

Definition pgbackrest_volumes (desired : SitePlan) (name : string) : list Volume :=
  [empty_volume "postgres-socket"; config_volume "pgbackrest-template" ("pgbackrest-" +:+ site_Name (sp_Site desired));
   empty_volume "pgbackrest-runtime"; secret_volume "pgbackrest-repository" "pgbackrest-repository";
   empty_volume "pgbackrest-spool"; secret_volume "pgbackrest-tls-source" (name +:+ "-pgbackrest-tls");
   empty_volume "pgbackrest-tls"].

Definition postgres_volumes (desired : SitePlan) (name : string) : list Volume :=
  [config_volume "config" ("patroni-" +:+ site_Name (sp_Site desired)); secret_volume "credentials" "postgres-auth";
   secret_volume "etcd-tls" "patroni-etcd-client-tls"; mkVolume "postgres-tls" (VolSecret (name +:+ "-tls") (Some 288%Z) [])] ++
  (if tde_Enabled (sp_TDE desired)
   then [mkVolume "operator" (VolConfigMap "pg-tde-bootstrap" (Some 360%Z)); secret_volume "pg-tde-vault" "pg-tde-vault"] else []) ++
  (if bool_decide (is_Some (seeding desired))
   then [mkVolume "restore-bootstrap" (VolConfigMap "restore-bootstrap" (Some 360%Z))] else []) ++
  (if bool_decide (is_Some (sp_Backup desired)) then pgbackrest_volumes desired name else []).

Definition postgres_mounts (desired : SitePlan) : list VolumeMount :=
  [writable "data" "/var/lib/postgresql"; read_only "config" "/config"; read_only "credentials" "/credentials";
   read_only "etcd-tls" "/etcd-tls"; read_only "postgres-tls" "/postgres-tls"] ++
  (if tde_Enabled (sp_TDE desired) then [read_only "operator" "/operator"; read_only "pg-tde-vault" "/vault"] else []) ++
  (if bool_decide (is_Some (seeding desired)) then [read_only "restore-bootstrap" "/restore"] else []) ++
  (if bool_decide (is_Some (sp_Backup desired))
   then [writable "postgres-socket" "/run/postgresql"; read_only "pgbackrest-runtime" "/etc/pgbackrest";
         read_only "pgbackrest-repository" "/repository"; writable "pgbackrest-spool" "/var/spool/pgbackrest"]
   else []).

Definition postgres_container (desired : SitePlan) (image name address : string) : Container :=
  zero_Container <| ctr_Name := "postgres-patroni" |> <| ctr_Image := image |>
    <| ctr_Command := ["/bin/bash"; "-ec"; postgres_command name address] |>
    <| ctr_Ports := [("postgres", 5432%Z); ("patroni", 8008%Z)] |>
    <| ctr_ReadinessProbe := Some (mkProbe (ProbeTCP "postgres") 10 6) |>
    <| ctr_SecurityContext := Some restrictedContainer |> <| ctr_VolumeMounts := postgres_mounts desired |>.

Definition postgresStatefulSet (desired : SitePlan) (name address : string) (labels : gmap string string)
  : result StatefulSet :=
  let image := postgresMemberImage desired name in
  let workloadLabels := <[memberLabel := name]> (<[componentLabel := "postgres"]> (stableWorkloadLabels labels)) in
  match postgresConfigHash desired with
  | Err e => Err e
  | Ok configHash =>
      let hashes := sp_RuntimeCertificateHashes desired in
      let podAnnotations : gmap string string :=
        {[ "multisite-postgres.dev/config-hash" := configHash;
           "multisite-postgres.dev/tls-hash" :=
             hashValues [hashes !!! (name +:+ "-tls"); hashes !!! "patroni-etcd-client-tls";
                         hashes !!! (name +:+ "-pgbackrest-tls")] ]} in
      let version := credentialVersionForMember desired name in
      let podAnnotations := if version != "" then <["multisite-postgres.dev/credential-version" := version]> podAnnotations
                            else podAnnotations in
      let backup := bool_decide (is_Some (sp_Backup desired)) in
      Ok (zero_StatefulSet <| sts_Meta := new_meta (site_Namespace (sp_Site desired)) name (copyMap labels) |>
        <| sts_ServiceName := name |> <| sts_Replicas := Some 1%Z |> <| sts_Selector := workloadLabels |>
        <| sts_Template := mkPodTemplate workloadLabels podAnnotations
             (zero_PodSpec <| pod_ServiceAccountName := workloadServiceAccount |>
                <| pod_AutomountServiceAccountToken := Some false |> <| pod_TerminationGracePeriodSeconds := Some 60%Z |>
                <| pod_SecurityContext := Some (runtime_default <| psc_FSGroup := Some 26%Z |>
                     <| psc_FSGroupChangePolicy := Some "OnRootMismatch" |>) |>
                <| pod_Affinity := Some (antiAffinity workloadLabels) |>
                <| pod_InitContainers := if backup then pgbackrest_init_containers image else [] |>
                <| pod_Containers := postgres_container desired image name address ::
                     (if backup then [pgbackrest_container image] else []) |>
                <| pod_Volumes := postgres_volumes desired name |>) |>
        <| sts_VolumeClaimTemplates := [pvcTemplate (ss_Postgres (site_Storage (sp_Site desired))) workloadLabels] |>)
  end.

(** ** The pooler *)
Definition pgpool_prepare_script : string :=
  raw "cp /tls-source/tls.crt /tls/tls.crt; cp /tls-source/tls.key /tls/tls.key; cp /tls-source/ca.crt /tls/ca.crt; chmod 644 /tls/tls.crt /tls/ca.crt; chmod 600 /tls/tls.key; perl -0777 -pe 'BEGIN { open my $u, `<`, `/postgres-auth/superuser-username` or die $!; open my $p, `<`, `/postgres-auth/superuser-password` or die $!; local $/; $user = <$u>; $password = <$p>; chomp $user; chomp $password; } s/\$\{POSTGRES_SUPERUSER_USERNAME\}/$user/g; s/\$\{POSTGRES_SUPERUSER_PASSWORD\}/$password/g' /config-source/pgpool.conf > /config/pgpool.conf; cp /config-source/pool_hba.conf /config/pool_hba.conf; chmod 600 /config/pgpool.conf".

Definition pgpoolDeployment (r : Renderer) (desired : SitePlan) (labels : gmap string string) : Deployment :=
  let workloadLabels := <[componentLabel := "pgpool"]> (stableWorkloadLabels labels) in
  let hashes := sp_RuntimeCertificateHashes desired in
  let site := site_Name (sp_Site desired) in
  let annotations : gmap string string :=
    {[ "multisite-postgres.dev/config-hash" := configMapDataHash (cm_Data (pgpoolConfig desired labels));
       "multisite-postgres.dev/tls-hash" :=
         hashValues [hashes !!! ("pgpool-" +:+ site +:+ "-tls"); hashes !!! ("postgres-" +:+ site +:+ "-0-tls")] ]} in
  let annotations :=
    if (0 <? sp_RuntimeCredentialVersion desired)%Z
    then <["multisite-postgres.dev/credential-version" := FormatInt (sp_RuntimeCredentialVersion desired)]> annotations
    else annotations in
  zero_Deployment <| dep_Meta := new_meta (site_Namespace (sp_Site desired)) ("pgpool-" +:+ site) (copyMap labels) |>
    <| dep_Replicas := Some (sc_PgpoolReplicas (site_Components (sp_Site desired))) |>
    <| dep_Selector := workloadLabels |>
    <| dep_Template := mkPodTemplate workloadLabels annotations
         (zero_PodSpec <| pod_ServiceAccountName := workloadServiceAccount |>
            <| pod_AutomountServiceAccountToken := Some false |> <| pod_SecurityContext := Some runtime_default |>
            <| pod_Affinity := Some (antiAffinity workloadLabels) |>
            <| pod_InitContainers := [zero_Container <| ctr_Name := "prepare-runtime" |> <| ctr_Image := im_Pgpool (rd_Images r) |>
                 <| ctr_Command := ["/bin/sh"; "-ec"; pgpool_prepare_script] |>
                 <| ctr_SecurityContext := Some restrictedContainer |>
                 <| ctr_VolumeMounts := [read_only "tls-source" "/tls-source"; writable "tls" "/tls";
                      read_only "config-source" "/config-source"; writable "config" "/config";
                      read_only "postgres-auth" "/postgres-auth"] |>] |>
            <| pod_Containers := [zero_Container <| ctr_Name := "pgpool" |> <| ctr_Image := im_Pgpool (rd_Images r) |>
                 <| ctr_Command := ["pgpool"; "-n"; "-f"; "/config/pgpool.conf"; "-a"; "/config/pool_hba.conf"] |>
                 <| ctr_Ports := [("postgres", 5432%Z)] |> <| ctr_ReadinessProbe := Some (mkProbe (ProbeTCP "postgres") 5 0) |>
                 <| ctr_SecurityContext := Some restrictedContainer |>
                 <| ctr_VolumeMounts := [read_only "config" "/config"; read_only "tls" "/tls";
                      read_only "backend-ca" "/backend-ca"; writable "runtime" "/var/run/pgpool"] |>] |>
            <| pod_Volumes := [config_volume "config-source" ("pgpool-" +:+ site); empty_volume "config";
                 secret_volume "postgres-auth" "postgres-auth"; secret_volume "tls-source" ("pgpool-" +:+ site +:+ "-tls");
                 empty_volume "tls";
                 mkVolume "backend-ca" (VolSecret ("postgres-" +:+ site +:+ "-0-tls") None [("ca.crt", "ca.crt")]);
                 empty_volume "runtime"] |>) |>.

(** ** The encryption audit *)
Definition audit_script : string :=
  raw "set -euo pipefail
for host in `$@`; do
  ready=false
  for attempt in $(seq 1 60); do
    if psql -X -h `$host` -d postgres -Atqc 'SELECT 1' >/dev/null 2>&1; then
      ready=true
      break
    fi
    sleep 10
  done
  test `$ready` = true
  psql -X -h `$host` -d postgres -Atqc \
    `SELECT datname FROM pg_database WHERE datallowconn AND NOT datistemplate ORDER BY datname` |
  while IFS= read -r database; do
    psql -X -h `$host` -d `$database` -v ON_ERROR_STOP=1 -Atq <<'SQL'
SELECT 1 / ((SELECT count(" +:+ "*" +:+ ") FROM pg_extension WHERE extname = 'pg_tde') = 1)::int;
SELECT 1 / (current_setting('default_table_access_method') = 'tde_heap')::int;
SELECT 1 / (current_setting('pg_tde.enforce_encryption') = 'on')::int;
SELECT pg_tde_verify_key();
SELECT 1 / (NOT EXISTS (
  SELECT 1
  FROM pg_class AS relation
  JOIN pg_namespace AS namespace ON namespace.oid = relation.relnamespace
  JOIN pg_am AS access_method ON access_method.oid = relation.relam
  WHERE relation.relkind IN ('r', 'm')
    AND relation.relpersistence <> 't'
    AND namespace.nspname NOT IN ('pg_catalog', 'information_schema')
    AND namespace.nspname !~ '^pg_toast'
    AND access_method.amname <> 'tde_heap'
    AND NOT EXISTS (
      SELECT 1 FROM pg_depend
      WHERE classid = 'pg_class'::regclass
        AND objid = relation.oid
        AND deptype = 'e'
    )
))::int;
SQL
  done
done
".

(** The PostgreSQL members that run during the restore. *)
Definition rendered_postgres (desired : SitePlan) : list string :=
  match seeding desired with
  | Some restore => filter (fun name => name = rp_SeedMember restore) (site_postgres desired)
  | None => site_postgres desired
  end.

Definition tdeAuditJob (desired : SitePlan) (labels : gmap string string) : Job :=
  let members := (fun name => name +:+ "." +:+ site_Namespace (sp_Site desired) +:+ ".svc") <$> rendered_postgres desired in
  let jobLabels := <[componentLabel := "tde-audit"]> (copyMap labels) in
  zero_Job <| job_Meta := new_meta (site_Namespace (sp_Site desired))
                ("mspsql-tde-audit-" +:+ FormatInt (sp_Revision desired)) jobLabels |>
    <| job_BackoffLimit := Some 3%Z |>
    <| job_Template := mkPodTemplate jobLabels ∅
         (zero_PodSpec <| pod_ServiceAccountName := workloadServiceAccount |>
            <| pod_AutomountServiceAccountToken := Some false |> <| pod_RestartPolicy := "Never" |>
            <| pod_SecurityContext := Some (runtime_default <| psc_FSGroup := Some 26%Z |>) |>
            <| pod_Containers := [zero_Container <| ctr_Name := "audit" |> <| ctr_Image := pg_Image (sp_Postgres desired) |>
                 <| ctr_Command := ["/bin/bash"; "-ec"; audit_script; "tde-audit"] ++ members |>
                 <| ctr_SecurityContext := Some restrictedContainer |>
                 <| ctr_Env := [secretKeySelector "PGUSER" "postgres-auth" "superuser-username";
                      secretKeySelector "PGPASSWORD" "postgres-auth" "superuser-password";
                      EnvValue "PGSSLMODE" "verify-full"; EnvValue "PGSSLROOTCERT" "/postgres-tls/ca.crt"] |>
                 <| ctr_VolumeMounts := [read_only "postgres-tls" "/postgres-tls"] |>] |>
            <| pod_Volumes := [secret_volume "postgres-tls" ("postgres-" +:+ site_Name (sp_Site desired) +:+ "-0-tls")] |>) |>.

(** ** Workloads *)
Definition postgresWorkloads (r : Renderer) (workloadPlan desired : SitePlan) (labels : gmap string string)
  : result (list AnyObject) :=
  match collect (fun name =>
    let address := sp_MemberAddresses desired !!! name in
    if address == "" then Err (errors_New ("address for " +:+ name +:+ " is not allocated"))
    else match postgresStatefulSet workloadPlan name address labels with
         | Err e => Err e
         | Ok statefulSet =>
             Ok (any (k := KStatefulSet)
               (if majorMemberStopped desired name then statefulSet <| sts_Replicas := Some 0%Z |> else statefulSet))
         end) (rendered_postgres desired) with
  | Err e => Err e
  | Ok members =>
      let serving := match sp_Restore desired with
        | None => true
        | Some restore => rp_Phase restore == RestorePhaseVerify
        end in
      let pgpool :=
        if (0 <? sc_PgpoolReplicas (site_Components (sp_Site desired)))%Z && serving then
          let deployment := pgpoolDeployment r desired labels in
          let deployment := if majorWriteServiceStopped desired then deployment <| dep_Replicas := Some 0%Z |> else deployment in
          [any (k := KConfigMap) (pgpoolConfig desired labels); any (k := KDeployment) deployment]
        else [] in
      let audit := if tde_Enabled (sp_TDE desired) && negb (majorWriteServiceStopped desired)
        then [any (k := KJob) (tdeAuditJob desired labels)] else [] in
      Ok (members ++ pgpool ++ audit)
  end.

Definition majorUpgradePhaseJobs (desired : SitePlan) : list AnyObject :=
  match sp_MajorUpgrade desired with
  | None => []
  | Some upgrade =>
      let at_primary := memberBelongsToSite (mup_Primary upgrade) (site_Name (sp_Site desired)) in
      (if (mup_Phase upgrade == MajorUpgradePhasePreflight) && (site_Role (sp_Site desired) == SiteRoleData)
       then [any (k := KJob) (MajorPreflightJob desired upgrade)] else []) ++
      (if (mup_Phase upgrade == MajorUpgradePhaseStartPrimary) && at_primary
       then [any (k := KJob) (MajorAcceptanceJob desired upgrade)] else []) ++
      (if (mup_Phase upgrade == MajorUpgradePhaseRestoreWrites) && at_primary
       then [any (k := KJob) (MajorWriteAcceptanceJob desired upgrade)] else []) ++
      (if (mup_Phase upgrade == MajorUpgradePhaseRollbackStart) && at_primary
       then [any (k := KJob) (MajorRollbackAcceptanceJob desired upgrade)] else [])
  end.

Definition etcd_workloads (r : Renderer) (desired : SitePlan) (initialCluster : string) : result (list AnyObject) :=
  collect (fun name =>
    let address := sp_MemberAddresses desired !!! name in
    if address == "" then Err (errors_New ("address for " +:+ name +:+ " is not allocated"))
    else Ok (any (k := KStatefulSet) (etcdStatefulSet r desired name address initialCluster (resourceLabels desired))))
    (site_etcd desired).

(** The plan the PostgreSQL members are rendered from: while the seed member is
    recovered, its repository is that of the source of the restore. *)
Definition workload_plan (desired : SitePlan) : SitePlan :=
  match seeding desired with
  | Some restore => desired <| sp_Backup := Some (rp_SourceBackup restore) |>
  | None => desired
  end.

(** The objects of a data site, after its policies and etcd members. *)
Definition data_workloads (r : Renderer) (desired : SitePlan) : result (list AnyObject) :=
  let labels := resourceLabels desired in
  let workloadPlan := workload_plan desired in
  let backup := match sp_Backup workloadPlan with
    | Some backup =>
        match pgBackRestConfig workloadPlan backup labels with
        | Ok config => Ok [any (k := KConfigMap) config]
        | Err e => Err e
        end
    | None => Ok []
    end in
  match backup with
  | Err e => Err e
  | Ok backup =>
      let restore := match seeding desired with
        | Some restore => [any (k := KConfigMap) (restoreBootstrapConfig workloadPlan restore labels)]
        | None => []
        end in
      let tde := if tde_Enabled (sp_TDE desired) then [any (k := KConfigMap) (tdeBootstrapConfig desired labels)] else [] in
      match postgresWorkloads r workloadPlan desired labels with
      | Err e => Err e
      | Ok postgres =>
          Ok ([any (k := KConfigMap) (patroniConfig workloadPlan labels)] ++ backup ++ restore ++ tde ++ postgres ++
              majorUpgradePhaseJobs desired)
      end
  end.

Definition Workloads (r : Renderer) (desired : SitePlan) : result (list AnyObject) :=
  match etcdInitialCluster desired with
  | Err e => Err e
  | Ok initialCluster =>
      match etcd_workloads r desired initialCluster with
      | Err e => Err e
      | Ok etcd =>
          let objects := (any (k := KNetworkPolicy) <$> NetworkPolicies desired) ++ etcd in
          let elsewhere := match seeding desired with
            | Some restore => site_Name (sp_Site desired) != rp_SeedSite restore
            | None => false
            end in
          if (site_Role (sp_Site desired) == SiteRoleWitness) || elsewhere then Ok objects
          else match data_workloads r desired with
               | Err e => Err e
               | Ok workloads => Ok (objects ++ workloads)
               end
      end
  end.

Definition Renderer_ServiceAccount (desired : SitePlan) : ServiceAccount :=
  mkServiceAccount (new_meta (site_Namespace (sp_Site desired)) workloadServiceAccount (resourceLabels desired)).
End render.
