(* ===== verification/AgentBase.v ===== *)
(** * Namespaces, applying and observing objects

    What every step of the agent's reconciliation uses: ownership of the target
    namespace ([ownership.go]), server-side apply, the readiness of workloads
    and certificates, the addresses of load balancers ([reconcile.go]) and the
    Events about state changes ([events.go]). *)

From S2P Require Import Prelude Utf8 Prog Api Workloads Messages Kube Codec NetAddr IpAddr Plan Registration Cache Members Client RenderBase.

(** [setLocalCondition] *)
Definition setLocalCondition {K : KubeLib} (result : ApplyResult) (conditionType status reason message : string)
  : ApplyResult :=
  result <| ar_Conditions ::= fun cs => SetStatusCondition cs (mkCondition conditionType status 0 reason message) |>.

(** ** Ownership of the namespace *)
Definition enabledLabel : string := "multisite-postgres.dev/enabled".
Definition hubDomainLabel : string := "multisite-postgres.dev/hub-domain".
Definition siteUIDLabel : string := "multisite-postgres.dev/site-registration-uid".

Definition expected_labels (hubDomain siteUID instanceUID : string) : list (string * string) :=
  [(enabledLabel, "true"); (hubDomainLabel, hubDomain); (siteUIDLabel, siteUID); (instanceUIDLabel, instanceUID)].

Definition namespaceOwnershipConflict (detail : string) : Error :=
  errors_New ("namespace ownership conflict: " +:+ detail).

Definition EnsureNamespace (name hubDomain siteUID instanceUID : string) (connected : bool) : kprog (result unit) :=
  let expected := expected_labels hubDomain siteUID instanceUID in
  let* got := call (Get KNamespace "" name) in
  match got with
  | Err e =>
      if negb (IsNotFound e) then Ret (Err e)
      else if negb connected then
        Ret (Err (namespaceOwnershipConflict "namespace cannot be recreated while disconnected"))
      else
        let! _ := call (Create KNamespace (mkNamespace (new_meta "" name (list_to_map expected)))) onerr e => Ret (Err e) in
        Ret (Ok tt)
  | Ok namespace =>
      match List.find (fun entry => meta_Labels (ns_Meta namespace) !!! entry.1 != entry.2) expected with
      | Some (key, value) =>
          Ret (Err (namespaceOwnershipConflict ("label " +:+ key +:+ " must equal " +:+ Quote value)))
      | None => Ret (Ok tt)
      end
  end.

(** ** Server-side apply *)

(** The [%T] of an object the agent applies. *)
Definition go_type (k : Kind) : string :=
  match k with
  | KCertificate | KVolumeSnapshot => "*unstructured.Unstructured"
  | _ => "*v1." +:+ kind_name k
  end.

Definition apply_object {k : Kind} (o : Object k) : kprog (result (Object k)) :=
  let what := "apply " +:+ go_type k +:+ " " +:+ meta_Namespace (object_meta o) +:+ "/" +:+ meta_Name (object_meta o) in
  let! applied := call (Env (Site (ServerSideApply k o))) onerr e =>
    Ret (Err (wrap_error (if IsConflict e then "field ownership conflict: " +:+ what else what) e)) in
  Ret (Ok applied).

(** The object as the server answers replaces the one sent. *)
Definition apply (object : AnyObject) : kprog (result AnyObject) :=
  let! applied := apply_object (projT2 object) onerr e => Ret (Err e) in
  Ret (Ok (existT (projT1 object) applied)).

(** The objects in order, up to the first error. *)
Fixpoint apply_all (objects : list AnyObject) : kprog (result (list AnyObject)) :=
  match objects with
  | [] => Ret (Ok [])
  | object :: objects =>
      let! applied := apply object onerr e => Ret (Err e) in
      let! rest := apply_all objects onerr e => Ret (Err e) in
      Ret (Ok (applied :: rest))
  end.

(** ** Notes of Events *)

(** [utf8.RuneStart] of a byte. *)
Definition RuneStart (c : ascii) : bool := negb (continuation c).

Fixpoint note_limit (note : list ascii) (limit : nat) : nat :=
  match limit with
  | O => O
  | S limit' =>
      match note !! limit with
      | Some c => if RuneStart c then limit else note_limit note limit'
      | None => limit
      end
  end.

Definition maxNoteBytes : nat := 1024.
Definition boundedEventNote (note : string) : string :=
  if (String.length note <=? maxNoteBytes)%nat then note
  else
    let limit := note_limit (String.list_ascii_of_string note) (maxNoteBytes - 3) in
    String.substring 0 limit note +:+ "...".

(** ** Readiness of workloads *)
Definition first_terminated (statuses : list ContainerStatus) : option string :=
  match List.find (fun status => bool_decide (is_Some (cs_Terminated status))) statuses with
  | Some (mkContainerStatus name (Some terminated)) =>
      Some (if term_Message terminated != "" then term_Message terminated
            else "container " +:+ name +:+ " exited " +:+ FormatInt (term_ExitCode terminated) +:+
                 " (" +:+ term_Reason terminated +:+ ")")
  | _ => None
  end.

#[global] Instance Terminated_eq_dec : EqDecision Terminated.
Proof. solve_decision. Defined.

Definition jobFailureDetail (job : Job) : kprog (result string) :=
  let! pods := call (List KPod (Some (meta_Namespace (job_Meta job))) {[ "job-name" := meta_Name (job_Meta job) ]})
    onerr e => Ret (Err e) in
  Ret (Ok (default "" (head (omap (fun pod => first_terminated (pd_ContainerStatuses pod)) (rev pods))))).

Definition statefulset_ready (observed : StatefulSet) (replicas : Z) : bool :=
  negb ((sts_ObservedGeneration observed <? meta_Generation (sts_Meta observed))%Z ||
        (sts_ReadyReplicas observed != replicas) || (sts_UpdatedReplicas observed != replicas) ||
        (sts_CurrentRevision observed != sts_UpdateRevision observed)).
Definition deployment_ready (observed : Deployment) (replicas : Z) : bool :=
  negb ((dep_ObservedGeneration observed <? meta_Generation (dep_Meta observed))%Z ||
        (dep_AvailableReplicas observed != replicas) || (dep_UpdatedReplicas observed != replicas)).

(** The first condition that ends a Job. *)
Definition job_outcome (conditions : list JobCondition) : option JobCondition :=
  List.find (fun c => ((jc_Type c == "Complete") || (jc_Type c == "Failed")) && (jc_Status c == ConditionTrue)) conditions.
Definition job_complete (conditions : list JobCondition) : bool :=
  match job_outcome conditions with Some c => jc_Type c == "Complete" | None => false end.

(** [None]: the object is as expected. *)
Definition object_ready (expected : AnyObject) : kprog (result (option string)) :=
  match expected with
  | existT KStatefulSet expected =>
      let! observed := call (Get KStatefulSet (meta_Namespace (sts_Meta expected)) (meta_Name (sts_Meta expected)))
        onerr e => Ret (Err e) in
      let replicas := default 1%Z (sts_Replicas expected) in
      Ret (Ok (if statefulset_ready observed replicas then None
               else Some ("StatefulSet " +:+ meta_Name (sts_Meta observed) +:+ " has " +:+
                 FormatInt (sts_ReadyReplicas observed) +:+ "/" +:+ FormatInt replicas +:+ " Ready replicas")))
  | existT KDeployment expected =>
      let! observed := call (Get KDeployment (meta_Namespace (dep_Meta expected)) (meta_Name (dep_Meta expected)))
        onerr e => Ret (Err e) in
      let replicas := default 1%Z (dep_Replicas expected) in
      Ret (Ok (if deployment_ready observed replicas then None
               else Some ("Deployment " +:+ meta_Name (dep_Meta observed) +:+ " has " +:+
                 FormatInt (dep_AvailableReplicas observed) +:+ "/" +:+ FormatInt replicas +:+ " Available replicas")))
  | existT KJob expected =>
      let! observed := call (Get KJob (meta_Namespace (job_Meta expected)) (meta_Name (job_Meta expected)))
        onerr e => Ret (Err e) in
      match job_outcome (job_Conditions observed) with
      | None => Ret (Ok (Some ("Job " +:+ meta_Name (job_Meta observed) +:+ " has not completed")))
      | Some condition =>
          if jc_Type condition == "Complete" then Ret (Ok None)
          else
            let* detail := jobFailureDetail observed in
            let message := jc_Message condition +:+
              match detail with Ok detail => if detail != "" then ": " +:+ detail else "" | Err _ => "" end in
            Ret (Ok (Some ("Job " +:+ meta_Name (job_Meta observed) +:+ " failed: " +:+ boundedEventNote message)))
      end
  | _ => Ret (Ok None)
  end.

Fixpoint workloadsReady (objects : list AnyObject) : kprog (result (option string)) :=
  match objects with
  | [] => Ret (Ok None)
  | expected :: objects =>
      let! message := object_ready expected onerr e => Ret (Err e) in
      match message with
      | Some message => Ret (Ok (Some message))
      | None => workloadsReady objects
      end
  end.

(** Apply one Job and look whether it completed. *)
Definition run_job (job : Job) : kprog (result (option string)) :=
  let! applied := apply (any (k := KJob) job) onerr e => Ret (Err e) in
  workloadsReady [applied].

(** ** Addresses *)
Definition loadBalancerAddress (service : Service) : result string :=
  match svc_Ingress service with
  | [ingress] =>
      if ing_IP ingress != "" then Ok (ing_IP ingress)
      else if ing_Hostname ingress != "" then Ok (ing_Hostname ingress)
      else Err (errors_New ("service " +:+ meta_Name (svc_Meta service) +:+ " ingress address is empty"))
  | _ => Err (errors_New ("service " +:+ meta_Name (svc_Meta service) +:+ " must have exactly one ingress address"))
  end.

Definition mergeAddresses (first second : gmap string string) : gmap string string := maps_Copy (maps_Copy ∅ first) second.

Definition fillMissingAddresses (planned observed : gmap string string) : gmap string string :=
  merge (fun p o => match p, o with
                    | Some p, Some o => Some (if p == "" then o else p)
                    | Some p, None => Some p
                    | None, o => o
                    end) planned observed.

(** ** Events about state changes

    [EventReporter.Observe]: the reporter remembers, for each instance, a
    signature of every event, condition and error it reported. *)
Record EventReporter := mkEventReporter { er_Namespace : string }.

(** One entry: recorded only if its signature is new. *)
Definition observe_entry (regarding : ConfigMap) (current : gmap string string) (key signature etype reason action note : string)
  : kprog (gmap string string) :=
  if current !!! key == signature then Ret current
  else
    let* _ := call (Eventf KConfigMap regarding etype reason action (boundedEventNote note)) in
    Ret (<[key := signature]> current).

Fixpoint observe_events (regarding : ConfigMap) (events : list LocalEvent) (current : gmap string string)
  : kprog (gmap string string) :=
  match events with
  | [] => Ret current
  | event :: events =>
      let* current := observe_entry regarding current ("event/" +:+ le_Reason event +:+ "/" +:+ le_Action event)
        (le_Type event +:+ "/" +:+ le_Reason event +:+ "/" +:+ le_Action event +:+ "/" +:+ le_Note event)
        (le_Type event) (le_Reason event) (le_Action event) (le_Note event) in
      observe_events regarding events current
  end.

Fixpoint observe_conditions (regarding : ConfigMap) (conditions : list Condition) (current : gmap string string)
  : kprog (gmap string string) :=
  match conditions with
  | [] => Ret current
  | condition :: conditions =>
      let* current := observe_entry regarding current ("condition/" +:+ cond_Type condition)
        (cond_Status condition +:+ "/" +:+ cond_Reason condition)
        (if cond_Status condition == ConditionFalse then "Warning" else "Normal")
        (cond_Reason condition) "ConditionChanged" (cond_Type condition +:+ ": " +:+ cond_Message condition) in
      observe_conditions regarding conditions current
  end.

Definition observe_error (regarding : ConfigMap) (phase : string) (reconcileErr : option Error) (current : gmap string string)
  : kprog (gmap string string) :=
  match reconcileErr with
  | Some err =>
      observe_entry regarding current "reconcile/error" (err_text err) "Warning" "ReconcileFailed" "Reconcile"
        ("Revision reconciliation failed: " +:+ err_text err)
  | None =>
      observe_entry regarding current "reconcile/error" "" "Normal" "ReconcileRecovered" "Reconcile"
        ("Revision reconciliation recovered in phase " +:+ phase)
  end.

Definition Observe (reporter : EventReporter) (instanceUID : string) (result : ApplyResult) (reconcileErr : option Error)
  : kprog unit :=
  let* current := call (Env (Site (LoadObserved instanceUID))) in
  let regarding := mkConfigMap (zero_ObjectMeta <| meta_Namespace := er_Namespace reporter |>
    <| meta_Name := cacheName instanceUID |>) ∅ in
  let* current := observe_events regarding (ar_Events result) current in
  let* current := observe_conditions regarding (ar_Conditions result) current in
  let* current := observe_error regarding (ar_Phase result) reconcileErr current in
  let* _ := call (Env (Site (StoreObserved instanceUID current))) in
  Ret tt.
