(* ===== verification/AgentCertificates.v ===== *)
(** * Workload certificates

    The part of [internal/agent/reconcile.go] that looks at the certificates
    cert-manager issues for a site: their readiness and validity, the digests
    that roll the workloads, the fingerprints of the trust bundles, and the
    source addresses issued etcd certificates are kept valid for. *)

From S2P Require Import Prelude Prog Api Workloads Messages Kube Codec NetAddr IpAddr Plan Registration Members Client RenderBase MaintenanceJobs Render AgentBase.

(** Operations of [crypto/x509] and [crypto/tls] on parsed certificates. *)
Class Pki := {
  (** [CertPool.AppendCertsFromPEM]: does the text contain a certificate? *)
  AppendCertsFromPEM : string -> bool;
  (** [certificate.Verify] against the roots of a PEM text, for any of the usages, at a time *)
  cert_Verify : Certificate -> string -> option (list ExtKeyUsage) -> Time -> option Error;
  VerifyHostname : Certificate -> string -> option Error;
  (** [tls.X509KeyPair] of two PEM texts *)
  X509KeyPair : string -> string -> option Error;
  (** [x509.CreateCertificateRequest] with a common name, from random bytes, for a key *)
  CreateCertificateRequest : string -> string -> string -> result string;
}.

Section certificates.
Context {K : KubeLib} {C : Crypto} {X : X509} {P : Pki}.

Definition parseLeafCertificate (data : string) : result Certificate :=
  match pem_Decode data with
  | None => Err (errors_New "missing PEM certificate")
  | Some (block, _) => ParseCertificate (pem_Bytes block)
  end.

(** ** Addresses of etcd peers *)

(** The addresses the plan itself gives to etcd members. *)
Definition etcd_addresses (addresses : gmap string string) : list string :=
  (filter (fun entry => HasPrefix entry.1 "etcd-" = true /\ entry.2 <> "") (map_to_list addresses)).*2.
Definition planned_etcd_addresses (desired : SitePlan) : list string :=
  etcd_addresses (sp_MemberAddresses desired) ++ etcd_addresses (sp_AddressCandidates desired) ++
  match sp_AddressMigration desired with
  | Some migration =>
      if HasPrefix (amp_Member migration) "etcd-"
      then filter (fun address => address <> "") [amp_OldAddress migration; amp_NewAddress migration] else []
  | None => []
  end.

(** The addresses of issued etcd certificates the plan does not account for. *)
Fixpoint issued_sources (desired : SitePlan) (excluded : list string) (members : list string)
  : kprog (result (list string)) :=
  match members with
  | [] => Ret (Ok [])
  | member :: members =>
      let* got := call (Get KSecret (site_Namespace (sp_Site desired)) (member +:+ "-tls")) in
      match got with
      | Err e => if IsNotFound e then issued_sources desired excluded members else Ret (Err e)
      | Ok secret =>
          match parseLeafCertificate (sec_Data secret !!! "tls.crt") with
          | Err e => Ret (Err (wrap_error ("parse issued etcd peer certificate " +:+ meta_Namespace (sec_Meta secret) +:+ "/" +:+
              meta_Name (sec_Meta secret)) e))
          | Ok certificate =>
              let! rest := issued_sources desired excluded members onerr e => Ret (Err e) in
              Ret (Ok (filter (fun address => address ∉ excluded) (IP_String <$> crt_IPAddresses certificate) ++ rest))
          end
      end
  end.

Definition preserveIssuedEtcdPeerSourceAddresses (desired : SitePlan) : kprog (result SitePlan) :=
  let configured := match site_LoadBalancer (sp_Site desired) with Some spec => lb_PeerSourceAddresses spec | None => [] end in
  let! issued := issued_sources desired (planned_etcd_addresses desired) (site_etcd desired) onerr e => Ret (Err e) in
  let sourceAddresses := Compact (SortStrings (configured ++ issued)) in
  Ret (Ok (if bool_decide (sourceAddresses = []) then desired
           else desired <| sp_Site ::= set site_LoadBalancer (fun spec =>
             Some (mkLoadBalancerSpec (match spec with Some spec => lb_AddressPool spec | None => "" end) sourceAddresses)) |>)).

(** ** Digests and fingerprints *)
Definition output_secret (certificate : Unstructured) : option string :=
  match NestedString (us_Object certificate) ["spec"; "secretName"] with
  | Some (Some secretName) => if secretName == "" then None else Some secretName
  | _ => None
  end.

Fixpoint certificateHashes (certificates : list Unstructured) : kprog (result (gmap string string)) :=
  match certificates with
  | [] => Ret (Ok ∅)
  | certificate :: certificates =>
      match output_secret certificate with
      | None => Ret (Err (errors_New ("certificate " +:+ meta_Name (us_Meta certificate) +:+ " has no output Secret")))
      | Some secretName =>
          let! secret := call (Get KSecret (meta_Namespace (us_Meta certificate)) secretName) onerr e => Ret (Err e) in
          let! versions := certificateHashes certificates onerr e => Ret (Err e) in
          let digest := hex_EncodeToString (sha256 (sec_Data secret !!! "ca.crt" +:+ sec_Data secret !!! "tls.crt" +:+
                                                    sec_Data secret !!! "tls.key")) in
          (* a later certificate with the same Secret overwrites an earlier one *)
          Ret (Ok (versions ∪ {[ secretName := digest ]}))
      end
  end.

(** The fingerprints of the certificates of a bundle; every block is at least a
    byte long. *)
Fixpoint bundle_fingerprints (fuel : nat) (remaining : string) : result (list string) :=
  match fuel with
  | O => Err (errors_New "the bundle did not end")
  | S fuel =>
      if remaining == "" then Ok []
      else match pem_Decode remaining with
      | None => Ok []
      | Some (block, rest) =>
          if pem_Type block != "CERTIFICATE" then bundle_fingerprints fuel rest
          else match ParseCertificate (pem_Bytes block) with
          | Err e => Err (wrap_error "parse pgBackRest CA certificate" e)
          | Ok _ =>
              match bundle_fingerprints fuel rest with
              | Ok l => Ok (hex_EncodeToString (sha256 (pem_Bytes block)) :: l)
              | Err e => Err e
              end
          end
      end
  end.

Definition trustBundleFingerprint (namespace secretName : string) : kprog (result string) :=
  let! secret := call (Get KSecret namespace secretName) onerr e => Ret (Err e) in
  let bundle := sec_Data secret !!! "ca.crt" in
  Ret (match bundle_fingerprints (S (String.length bundle)) bundle with
       | Err e => Err e
       | Ok [] => Err (errors_New ("secret " +:+ secretName +:+ " contains no CA certificates"))
       | Ok fingerprints => Ok (Join (SortStrings fingerprints) ",")
       end).

(** ** Readiness *)
Definition integerValue (value : option Value) : Z := match value with Some (VInt z) => z | _ => 0%Z end.

Definition ready_condition (generation : Z) (raw : Value) : bool :=
  match raw with
  | VMap condition =>
      match field condition "type", field condition "status" with
      | Some (VStr type), Some (VStr status) =>
          (type == "Ready") && (status == "True") && (generation <=? integerValue (field condition "observedGeneration"))%Z
      | _, _ => false
      end
  | _ => false
  end.

Definition missing_usage (leaf : Certificate) (usage : string) : option string :=
  if usage == "digital signature" then
    if bool_decide (DigitalSignature ∈ crt_KeyUsage leaf) then None else Some "digital signature key usage is absent"
  else if usage == "key encipherment" then
    if bool_decide (KeyEncipherment ∈ crt_KeyUsage leaf) then None else Some "key encipherment usage is absent"
  else if usage == "server auth" then
    if bool_decide (ServerAuth ∈ crt_ExtKeyUsage leaf) then None else Some "server auth usage is absent"
  else if usage == "client auth" then
    if bool_decide (ClientAuth ∈ crt_ExtKeyUsage leaf) then None else Some "client auth usage is absent"
  else None.

Definition has_address (leaf : Certificate) (address : string) : bool :=
  match ParseIP address with Some ip => existsb (IP_Equal ip) (crt_IPAddresses leaf) | None => false end.

(** The names, addresses and usages a specification asks for; [None] is a field
    of another type. *)
Definition requested (expected : Unstructured) (name : string) : option (list string) :=
  default [] <$> NestedStringSlice (us_Object expected) ["spec"; name].

Definition check_names (expected : Unstructured) (leaf : Certificate) : result unit :=
  match requested expected "dnsNames" with
  | None => Err (errors_New "dnsNames is not a list of strings")
  | Some dnsNames =>
      match List.find (fun name => bool_decide (is_Some (VerifyHostname leaf name))) dnsNames with
      | Some name => Err (errors_New ("required DNS SAN " +:+ Quote name +:+ " is absent"))
      | None =>
          match requested expected "ipAddresses" with
          | None => Err (errors_New "ipAddresses is not a list of strings")
          | Some ipAddresses =>
              match List.find (fun address => negb (has_address leaf address)) ipAddresses with
              | Some address => Err (errors_New ("required IP SAN " +:+ Quote address +:+ " is absent"))
              | None =>
                  match requested expected "usages" with
                  | None => Err (errors_New "usages is not a list of strings")
                  | Some usages =>
                      match omap (missing_usage leaf) usages with
                      | missing :: _ => Err (errors_New missing)
                      | [] => Ok tt
                      end
                  end
              end
          end
      end
  end.

Definition validateIssuedCertificate (expected : Unstructured) (secret : Secret) (now : Time) : result unit :=
  let name := meta_Name (sec_Meta secret) in
  match pem_Decode (sec_Data secret !!! "tls.crt") with
  | None => Err (errors_New ("secret " +:+ name +:+ " has no leaf certificate"))
  | Some (leafBlock, _) =>
      if pem_Type leafBlock != "CERTIFICATE" then Err (errors_New ("secret " +:+ name +:+ " has no leaf certificate"))
      else match ParseCertificate (pem_Bytes leafBlock) with
      | Err e => Err (wrap_error "parse leaf certificate" e)
      | Ok leaf =>
          if time_Before now (crt_NotBefore leaf) || negb (time_Before now (crt_NotAfter leaf))
          then Err (errors_New "leaf certificate is outside its validity period")
          else if negb (AppendCertsFromPEM (sec_Data secret !!! "ca.crt"))
          then Err (errors_New ("secret " +:+ name +:+ " has no valid CA bundle"))
          else match cert_Verify leaf (sec_Data secret !!! "ca.crt") None now with
          | Some e => Err (wrap_error "verify CA chain" e)
          | None => check_names expected leaf
          end
      end
  end.

(** [None]: the certificate is issued and usable. *)
Definition certificate_ready (certificate : Unstructured) : kprog (result (option string)) :=
  let! observed := call (Get KCertificate (meta_Namespace (us_Meta certificate)) (meta_Name (us_Meta certificate)))
    onerr e => Ret (Err e) in
  let name := meta_Name (us_Meta observed) in
  let generation := meta_Generation (us_Meta observed) in
  match NestedSlice (us_Object observed) ["status"; "conditions"] with
  | None => Ret (Err (errors_New "status.conditions is not a list"))
  | Some None => Ret (Ok (Some ("Certificate " +:+ name +:+ " has not reported status")))
  | Some (Some conditions) =>
      if negb (existsb (ready_condition generation) conditions) then
        Ret (Ok (Some ("Certificate " +:+ name +:+ " is not Ready for generation " +:+ FormatInt generation)))
      else match output_secret observed with
      | None =>
          match NestedString (us_Object observed) ["spec"; "secretName"] with
          | None => Ret (Err (errors_New "spec.secretName is not a string"))
          | Some _ => Ret (Ok (Some ("Certificate " +:+ name +:+ " has no output Secret")))
          end
      | Some secretName =>
          let* got := call (Get KSecret (meta_Namespace (us_Meta observed)) secretName) in
          match got with
          | Err e =>
              if IsNotFound e then Ret (Ok (Some ("Certificate " +:+ name +:+ " output Secret is absent"))) else Ret (Err e)
          | Ok secret =>
              let* now := call Now in
              Ret (Ok (match validateIssuedCertificate observed secret now with
                       | Ok _ => None
                       | Err e => Some ("Certificate " +:+ name +:+ " is unusable: " +:+ err_text e)
                       end))
          end
      end
  end.

Fixpoint certificatesReady (certificates : list Unstructured) : kprog (result (option string)) :=
  match certificates with
  | [] => Ret (Ok None)
  | certificate :: certificates =>
      let! message := certificate_ready certificate onerr e => Ret (Err e) in
      match message with
      | Some message => Ret (Ok (Some message))
      | None => certificatesReady certificates
      end
  end.
End certificates.
