(* ===== verification/Patroni.v ===== *)
(** * Observing Patroni

    [internal/agent/patroni.go]: the topology a PostgreSQL member of the site
    reports over Patroni's REST interface, and the request of a switchover. *)

From S2P Require Import Prelude Prog Api Workloads Messages Kube Codec NetAddr Plan Registration Members Client RenderBase MaintenanceJobs AgentBase AgentCertificates.

Record PatroniTopology := mkPatroniTopology { pt_Primary : string; pt_SynchronousStandbys : list string }.

(** The decoded answer of [/cluster] and the body of [/switchover]. *)
Record PatroniMember := mkPatroniMember { pm_Name : string; pm_Role : string; pm_State : string }.
Record PatroniCluster := mkPatroniCluster { pcl_Members : list PatroniMember }.
Record SwitchoverBody := mkSwitchoverBody { sw_Leader : string; sw_Candidate : string }.

(** At most a mebibyte of a body is read. *)
Definition maxResponseBytes : nat := 1024 * 1024.

(** The topology the members of the answer stand for. *)
Fixpoint cluster_topology (members : list PatroniMember) (topology : PatroniTopology) : result PatroniTopology :=
  match members with
  | [] => Ok topology
  | member :: members =>
      if pm_Name member == "" then cluster_topology members topology
      else if pm_Role member == "leader" then
        if pm_State member == "running" then
          if (pt_Primary topology != "") && (pt_Primary topology != pm_Name member)
          then Err (errors_New "patroni reported multiple running leaders")
          else cluster_topology members (mkPatroniTopology (pm_Name member) (pt_SynchronousStandbys topology))
        else cluster_topology members topology
      else if pm_Role member == "sync_standby" then
        if (pm_State member == "running") || (pm_State member == "streaming")
        then cluster_topology members (mkPatroniTopology (pt_Primary topology) (pt_SynchronousStandbys topology ++ [pm_Name member]))
        else cluster_topology members topology
      else cluster_topology members topology
  end.

Definition decode_topology (members : list PatroniMember) : result PatroniTopology :=
  match cluster_topology members (mkPatroniTopology "" []) with
  | Err e => Err e
  | Ok topology =>
      if pt_Primary topology == "" then Err (errors_New "patroni reported no running leader")
      else Ok (mkPatroniTopology (pt_Primary topology) (SortStrings (pt_SynchronousStandbys topology)))
  end.

Section patroni.
Context {X : X509} {P : Pki} {JC : Json PatroniCluster} {JS : Json SwitchoverBody}.

Definition patroniTLSConfig (namespace : string) : kprog (result TLSConfig) :=
  let! secret := call (Get KSecret namespace "patroni-api-client-tls") onerr e => Ret (Err e) in
  let data := sec_Data secret in
  if negb (AppendCertsFromPEM (data !!! "ca.crt"))
  then Ret (Err (errors_New "patroni API client Secret contains no CA certificates"))
  else match X509KeyPair (data !!! "tls.crt") (data !!! "tls.key") with
  | Some e => Ret (Err (wrap_error "load Patroni API client certificate" e))
  | None => Ret (Ok (mkTLSConfig (data !!! "ca.crt") (data !!! "tls.crt") (data !!! "tls.key")))
  end.

Definition observeMember (namespace name : string) : kprog (result PatroniTopology) :=
  let! config := patroniTLSConfig namespace onerr e => Ret (Err e) in
  let url := "https://" +:+ name +:+ "." +:+ namespace +:+ ".svc:8008/cluster" in
  let! response := call (Env (Site (HTTPDo (mkHTTPRequest "GET" url "" None (Some config))))) onerr e => Ret (Err e) in
  if hrs_StatusCode response != 200%Z
  then Ret (Err (errors_New ("patroni returned HTTP " +:+ FormatInt (hrs_StatusCode response))))
  else match hrs_Body response with
  | Err e => Ret (Err e)
  | Ok encoded =>
      if (maxResponseBytes <? String.length encoded)%nat then Ret (Err (errors_New "patroni response exceeds one MiB"))
      else match json_Unmarshal encoded with
      | Err e => Ret (Err (wrap_error "decode Patroni cluster response" e))
      | Ok cluster => Ret (decode_topology (pcl_Members cluster))
      end
  end.

(** The first member that answers; [lastErr] is the error of the one before. *)
Fixpoint observe_members (namespace : string) (members : list string) (lastErr : Error) : kprog (result PatroniTopology) :=
  match members with
  | [] => Ret (Err (wrap_error "observe Patroni topology" lastErr))
  | name :: members =>
      let* got := observeMember namespace name in
      match got with
      | Ok topology => Ret (Ok topology)
      | Err e => observe_members namespace members e
      end
  end.
Definition ObserveTopology (desired : SitePlan) : kprog (result PatroniTopology) :=
  observe_members (site_Namespace (sp_Site desired)) (site_postgres desired) (errors_New "site has no PostgreSQL members").

Definition Switchover (desired : SitePlan) (fromPrimary candidate : string) : kprog (result unit) :=
  if (fromPrimary == "") || (candidate == "") || (fromPrimary == candidate)
  then Ret (Err (errors_New "patroni switchover requires distinct primary and candidate members"))
  else if bool_decide (sp_MemberAddresses desired !! fromPrimary = None)
  then Ret (Err (errors_New ("primary " +:+ Quote fromPrimary +:+ " is absent from the accepted plan")))
  else if bool_decide (sp_MemberAddresses desired !! candidate = None)
  then Ret (Err (errors_New ("candidate " +:+ Quote candidate +:+ " is absent from the accepted plan")))
  else
    let namespace := site_Namespace (sp_Site desired) in
    let! config := patroniTLSConfig namespace onerr e => Ret (Err e) in
    match json_Marshal (mkSwitchoverBody fromPrimary candidate) with
    | Err e => Ret (Err e)
    | Ok body =>
        let url := "https://" +:+ fromPrimary +:+ "." +:+ namespace +:+ ".svc:8008/switchover" in
        let! response := call (Env (Site (HTTPDo (mkHTTPRequest "POST" url "" (Some body) (Some config))))) onerr e => Ret (Err e) in
        if bool_decide (hrs_StatusCode response ∈ [200; 202; 409]%Z) then Ret (Ok tt)
        else
          let message := match hrs_Body response with Ok message => String.substring 0 4096 message | Err _ => "" end in
          Ret (Err (errors_New ("patroni switchover returned HTTP " +:+ FormatInt (hrs_StatusCode response) +:+ ": " +:+ message)))
    end.
End patroni.
