(* ===== verification/Vault.v ===== *)
(** * Vault

    [internal/vault/client.go]: Kubernetes login and reads of KV version 2
    secrets, with the validation of references and the paths requested; and the
    functions of [path] and [strings] it uses. *)

From S2P Require Import Prelude Utf8 Prog Api Workloads Messages Kube Codec NetAddr Plan AgentCertificates.

(** ** Strings and paths *)

(** [strings.TrimSpace] *)
Fixpoint trim_left_space (fuel : nat) (s : string) : string :=
  match fuel with
  | O => s
  | S fuel =>
      match decode_rune s with
      | Some (r, rest) => if IsSpace r then trim_left_space fuel rest else s
      | None => s
      end
  end.
(** A suffix of spaces begins at the boundary of a code point. *)
Fixpoint trim_right_space (s : string) : string :=
  if blank s then ""
  else match s with
       | EmptyString => ""
       | String c s => String c (trim_right_space s)
       end.
Definition TrimSpace (s : string) : string := trim_right_space (trim_left_space (String.length s) s).

(** [path.Clean] of a path that is not empty, by its segments. *)
Fixpoint clean_segments (rooted : bool) (done todo : list string) : list string :=
  match todo with
  | [] => rev done
  | segment :: todo =>
      if (segment == "") || (segment == ".") then clean_segments rooted done todo
      else if segment == ".." then
        match done with
        | last :: rest => if last == ".." then clean_segments rooted (".." :: done) todo else clean_segments rooted rest todo
        | [] => if rooted then clean_segments rooted [] todo else clean_segments rooted [".."] todo
        end
      else clean_segments rooted (segment :: done) todo
  end.
Definition path_Clean (p : string) : string :=
  let rooted := HasPrefix p "/" in
  let cleaned := Join (clean_segments rooted [] (Split p "/")) "/" in
  if rooted then "/" +:+ cleaned else if cleaned == "" then "." else cleaned.
(** [path.Join] *)
Definition path_Join (elements : list string) : string :=
  match filter (fun e => e <> "") elements with
  | [] => ""
  | elements => path_Clean (Join elements "/")
  end.

(** The path of a URL, and the text of the URL with another path. *)
Class UrlPath := {
  url_Path : URL -> string;
  url_StringWithPath : URL -> string -> string;
}.

Definition cleanPath (value : string) : string := Trim (TrimSpace value) "/".

(** ** References *)
Definition line_breaks_nul : string := String "000" (String "013" (String "010" "")).

Definition validatePath (name value : string) : result unit :=
  let malformed := Err (errors_New ("vault KV v2 " +:+ name +:+ " must be a normalized single-line path")) in
  if value == "" then Err (errors_New ("vault KV v2 " +:+ name +:+ " is required"))
  else if (1024 <? String.length value)%nat || (Trim value "/" != value) || ContainsAny value line_breaks_nul ||
    Contains value "//" then malformed
  else if existsb (fun segment => (segment == "") || (segment == ".") || (segment == "..")) (Split value "/") then malformed
  else Ok tt.

Definition ValidateSecretReference (reference : VaultSecretReference) (requireKey : bool) : result unit :=
  match validatePath "mount" (vs_Mount reference) with
  | Err e => Err e
  | Ok _ =>
      match validatePath "path" (vs_Path reference) with
      | Err e => Err e
      | Ok _ =>
          if requireKey && (vs_Key reference == "") then Err (errors_New "vault secret key is required")
          else if (vs_Key reference != "") &&
            ((253 <? String.length (vs_Key reference))%nat || ContainsAny (vs_Key reference) line_breaks_nul)
          then Err (errors_New "vault secret key must be a single-line key no longer than 253 bytes")
          else Ok tt
      end
  end.

(** ** The client *)
Record VaultClient := mkVaultClient { vc_Address : string; vc_AuthMount : string; vc_Role : string; vc_Roots : option string }.
Record VaultToken := mkVaultToken { vt_Value : string; vt_ExpiresAt : Time; vt_Renewable : bool }.
Record VaultSecret := mkVaultSecret { vsec_Data : gmap string string; vsec_Version : Z }.

(** The decoded answers and the body of a login. *)
Record LoginResponse := mkLoginResponse { lr_ClientToken : string; lr_LeaseDuration : Z; lr_Renewable : bool }.
Record LoginBody := mkLoginBody { lob_Jwt : string; lob_Role : string }.
Record KVResponse := mkKVResponse { kv_Data : list (string * Value); kv_Version : Z }.

Definition RequireFields (secret : VaultSecret) (fields : list string) : result unit :=
  match List.find (fun field => vsec_Data secret !!! field == "") fields with
  | Some field => Err (errors_New ("vault secret is missing non-empty field " +:+ Quote field))
  | None => Ok tt
  end.

(** The fields of a secret, which must all be strings. *)
Fixpoint string_fields (fields : list (string * Value)) : result (gmap string string) :=
  match fields with
  | [] => Ok ∅
  | (key, VStr text) :: fields =>
      match string_fields fields with Ok data => Ok (<[key := text]> data) | Err e => Err e end
  | (key, _) :: _ => Err (errors_New ("vault field " +:+ Quote key +:+ " must be a string"))
  end.

Section client.
Context {P : Pki} {U : UrlLib} {UP : UrlPath} {JL : Json LoginResponse} {JB : Json LoginBody} {JK : Json KVResponse}.

(** A bundle is used in addition to the roots of the system. *)
Definition NewClient (auth : VaultAuthSpec) (caBundle : string) : result VaultClient :=
  let invalid := Err (errors_New "vault address must be an absolute HTTPS URL") in
  match url_Parse (va_Address auth) with
  | Err _ => invalid
  | Ok address =>
      if (url_Scheme address != "https") || (url_Host address == "") then invalid
      else if caBundle == "" then Ok (mkVaultClient (va_Address auth) (va_AuthMount auth) (va_AuthRole auth) None)
      else if negb (AppendCertsFromPEM caBundle) then Err (errors_New "vault CA bundle contains no certificates")
      else Ok (mkVaultClient (va_Address auth) (va_AuthMount auth) (va_AuthRole auth) (Some caBundle))
  end.

(** The path a request is sent to. *)
Definition request_path (base : URL) (resource : string) : string := path_Join [url_Path base; "v1"; resource].

Definition vault_maxResponseBytes : nat := 1024 * 1024.

Definition vault_request {T} `{Json T} (c : VaultClient) (method resource token : string) (body : option (result string)) : kprog (result T) :=
  let invalid := Ret (Err (errors_New "vault address must be an absolute URL")) in
  match url_Parse (vc_Address c) with
  | Err _ => invalid
  | Ok base =>
      if (url_Scheme base == "") || (url_Host base == "") then invalid
      else
        let send payload :=
          let! response := call (Env (Site (HTTPDo (mkHTTPRequest method
              (url_StringWithPath base (request_path base resource)) token payload
              ((fun roots => mkTLSConfig roots "" "") <$> vc_Roots c))))) onerr e => Ret (Err e) in
          match hrs_Body response with
          | Err e => Ret (Err e)
          | Ok encoded =>
              if (vault_maxResponseBytes <? String.length encoded)%nat then Ret (Err (errors_New "vault response exceeds one MiB"))
              else if (hrs_StatusCode response <? 200)%Z || (300 <=? hrs_StatusCode response)%Z
              then Ret (Err (errors_New ("vault returned HTTP " +:+ FormatInt (hrs_StatusCode response))))
              else match json_Unmarshal encoded with
                   | Err e => Ret (Err (wrap_error "decode Vault response" e))
                   | Ok output => Ret (Ok output)
                   end
          end in
        match body with
        | None => send None
        | Some (Ok encoded) => send (Some encoded)
        | Some (Err e) => Ret (Err e)
        end
  end.

Definition LoginKubernetes (c : VaultClient) (jwt : string) : kprog (result VaultToken) :=
  if (TrimSpace jwt == "") || (vc_Role c == "") then Ret (Err (errors_New "vault Kubernetes login requires JWT and role"))
  else
    let! response := vault_request c "POST" ("auth/" +:+ cleanPath (vc_AuthMount c) +:+ "/login") ""
        (Some (json_Marshal (mkLoginBody jwt (vc_Role c)))) onerr e =>
      Ret (Err (wrap_error "vault Kubernetes login failed" e)) in
    if (lr_ClientToken response == "") || (lr_LeaseDuration response <=? 0)%Z
    then Ret (Err (errors_New "vault Kubernetes login returned an invalid token lease"))
    else
      let* now := call Now in
      Ret (Ok (mkVaultToken (lr_ClientToken response) (time_Add now (int64 (lr_LeaseDuration response * second)))
                            (lr_Renewable response))).

Definition kv_resource (reference : VaultSecretReference) : string :=
  cleanPath (vs_Mount reference) +:+ "/data/" +:+ cleanPath (vs_Path reference).

Definition ReadKV2 (c : VaultClient) (token : string) (reference : VaultSecretReference) : kprog (result VaultSecret) :=
  match ValidateSecretReference reference false with
  | Err e => Ret (Err e)
  | Ok _ =>
      let! response := vault_request c "GET" (kv_resource reference) token None onerr e =>
        Ret (Err (wrap_error "read Vault KV v2 secret" e)) in
      match string_fields (kv_Data response) with
      | Err e => Ret (Err e)
      | Ok data =>
          if (kv_Version response <? 1)%Z then Ret (Err (errors_New "vault KV v2 response has no metadata version"))
          else Ret (Ok (mkVaultSecret data (kv_Version response)))
      end
  end.
End client.
