(* ===== verification/Secrets.v ===== *)
(** * Secrets of an instance

    [internal/agent/secrets.go]: the Secrets of the target namespace that carry
    what Vault holds for an instance.  The credentials in use are replaced only
    by the version they came from; a new version waits in a Secret of its own. *)

From S2P Require Import Prelude Utf8 Prog Api Workloads Messages Kube Codec NetAddr Plan Members Client RenderBase AgentBase AgentCertificates Vault.

Record SecretMaterializer := mkSecretMaterializer { sm_SourceNamespace : string }.

Definition vaultVersionAnnotation : string := "multisite-postgres.dev/vault-version".

(** [value, _ := strconv.ParseInt(s, 10, 64)]: zero for bad syntax, the nearest
    integer for a number out of range. *)
Definition parsed_version (s : string) : Z :=
  match parse_signed s with Some v => Z.max min_int64 (Z.min max_int64 v) | None => 0%Z end.

Section secrets.
Context {P : Pki} {U : UrlLib} {UP : UrlPath} {JL : Json LoginResponse} {JB : Json LoginBody} {JK : Json KVResponse} {TT : TimeText}.

Definition reconcileSecret (desired : SitePlan) (name : string) (version : Z) (data : gmap string string)
  : kprog (result unit) :=
  let labels := resourceLabels desired in
  let annotations : gmap string string :=
    if (0 <? version)%Z then {[ vaultVersionAnnotation := FormatInt version ]} else ∅ in
  let namespace := site_Namespace (sp_Site desired) in
  let* got := call (Get KSecret namespace name) in
  match got with
  | Err e =>
      if negb (IsNotFound e) then Ret (Err e)
      else
        let! _ := call (Create KSecret (mkSecret ((new_meta namespace name labels) <| meta_Annotations := annotations |>) None data))
          onerr e => Ret (Err e) in
        Ret (Ok tt)
  | Ok secret =>
      let! _ := call (Update KSecret (secret <| sec_Meta ::= fun m => m <| meta_Labels := labels |>
          <| meta_Annotations := annotations |> |> <| sec_Data := data |>)) onerr e => Ret (Err e) in
      Ret (Ok tt)
  end.

Definition secretDataEqual (left right : gmap string string) : bool :=
  (size left =? size right)%nat && forallb (fun entry => right !!! entry.1 == entry.2) (map_to_list left).

Definition reconcilePostgresCredentials (desired : SitePlan) (version : Z) (data : gmap string string) : kprog (result unit) :=
  let* got := call (Get KSecret (site_Namespace (sp_Site desired)) "postgres-auth") in
  match got with
  | Err e => if IsNotFound e then reconcileSecret desired "postgres-auth" version data else Ret (Err e)
  | Ok active =>
      let activeVersion := parsed_version (meta_Annotations (sec_Meta active) !!! vaultVersionAnnotation) in
      if (activeVersion == version) || ((activeVersion == 0%Z) && secretDataEqual (sec_Data active) data)
      then reconcileSecret desired "postgres-auth" version data
      else if negb (HasPrefix (data !!! "superuser-username") "mspsql_admin_") ||
              negb (HasPrefix (data !!! "replication-username") "mspsql_replication_")
      then Ret (Err (errors_New "rotated PostgreSQL usernames must use the reserved mspsql_admin_ and mspsql_replication_ prefixes"))
      else reconcileSecret desired "postgres-auth-pending" version data
  end.

Definition secretValue (m : SecretMaterializer) (reference : SecretKeyReference) : kprog (result string) :=
  let key := if skr_Key reference == "" then "ca.crt" else skr_Key reference in
  let! secret := call (Get KSecret (sm_SourceNamespace m) (skr_Name reference)) onerr e => Ret (Err e) in
  let caBundle := sec_Data secret !!! key in
  if caBundle == "" then
    Ret (Err (errors_New ("secret " +:+ sm_SourceNamespace m +:+ "/" +:+ skr_Name reference +:+ " has no non-empty key " +:+ Quote key)))
  else Ret (Ok caBundle).

Definition vaultCABundle (m : SecretMaterializer) (auth : VaultAuthSpec) : kprog (result string) :=
  match va_CABundleSecretRef auth with
  | None => Ret (Ok "")
  | Some reference =>
      let! value := secretValue m reference onerr e => Ret (Err (wrap_error "read Vault CA Secret" e)) in
      Ret (Ok value)
  end.

(** The client of the site's Vault, logged in as the workload's service account. *)
Definition vault_session (m : SecretMaterializer) (desired : SitePlan) (auth : VaultAuthSpec)
  : kprog (result (VaultClient * VaultToken * string)) :=
  let! jwt := call (Env (Site (RequestToken (site_Namespace (sp_Site desired)) workloadServiceAccount))) onerr e =>
    Ret (Err (wrap_error "request projected Vault service-account token" e)) in
  let! caBundle := vaultCABundle m auth onerr e => Ret (Err e) in
  match NewClient auth caBundle with
  | Err e => Ret (Err (wrap_error "configure Vault client" e))
  | Ok vaultClient =>
      let! token := LoginKubernetes vaultClient jwt onerr e => Ret (Err e) in
      Ret (Ok (vaultClient, token, caBundle))
  end.

Definition Resolve (m : SecretMaterializer) (desired : SitePlan) (reference : VaultSecretReference) : kprog (result VaultSecret) :=
  match site_VaultAuth (sp_Site desired) with
  | None => Ret (Err (errors_New "site has no Vault authentication configuration"))
  | Some auth =>
      let! session := vault_session m desired auth onerr e => Ret (Err e) in
      let '(vaultClient, token, _) := session in
      ReadKV2 vaultClient (vt_Value token) reference
  end.

(** A secret with the fields it must have. *)
Definition read_fields (vaultClient : VaultClient) (token : VaultToken) (reference : VaultSecretReference)
  (context : string) (fields : list string) : kprog (result VaultSecret) :=
  let! secret := ReadKV2 vaultClient (vt_Value token) reference onerr e => Ret (Err e) in
  match RequireFields secret fields with
  | Err e => Ret (Err (wrap_error context e))
  | Ok _ => Ret (Ok secret)
  end.

Definition postgres_secret (desired : SitePlan) (vaultClient : VaultClient) (token : VaultToken) : kprog (result unit) :=
  let! postgres := read_fields vaultClient token (ics_PostgresVaultRef (sp_Credentials desired))
      "postgresql bootstrap credential schema"
      ["superuserUsername"; "superuserPassword"; "replicationUsername"; "replicationPassword"] onerr e => Ret (Err e) in
  let data := vsec_Data postgres in
  reconcilePostgresCredentials desired (vsec_Version postgres)
    {[ "superuser-username" := data !!! "superuserUsername"; "superuser-password" := data !!! "superuserPassword";
       "replication-username" := data !!! "replicationUsername"; "replication-password" := data !!! "replicationPassword" ]}.

Definition pgpool_secret (desired : SitePlan) (vaultClient : VaultClient) (token : VaultToken) : kprog (result unit) :=
  if negb (0 <? sc_PgpoolReplicas (site_Components (sp_Site desired)))%Z then Ret (Ok tt)
  else
    let! pgpool := read_fields vaultClient token (ics_PgpoolVaultRef (sp_Credentials desired)) "pgpool credential schema"
        ["adminUsername"; "adminPassword"] onerr e => Ret (Err e) in
    reconcileSecret desired "pgpool-auth" (vsec_Version pgpool)
      {[ "admin-username" := vsec_Data pgpool !!! "adminUsername"; "admin-password" := vsec_Data pgpool !!! "adminPassword" ]}.

Definition repository_secret (m : SecretMaterializer) (desired : SitePlan) (vaultClient : VaultClient) (token : VaultToken)
  : kprog (result unit) :=
  let backup := match seeding desired with Some restore => Some (rp_SourceBackup restore) | None => sp_Backup desired end in
  match backup with
  | None => Ret (Ok tt)
  | Some backup =>
      let repository := bk_Repository backup in
      let! secret := read_fields vaultClient token (br_CredentialVaultRef repository) "pgBackRest repository credentials"
          ["s3AccessKey"; "s3SecretKey"; "repositoryCipherPassphrase"] onerr e => Ret (Err e) in
      let data : gmap string string :=
        {[ "s3-access-key" := vsec_Data secret !!! "s3AccessKey"; "s3-secret-key" := vsec_Data secret !!! "s3SecretKey";
           "repo-cipher-passphrase" := vsec_Data secret !!! "repositoryCipherPassphrase" ]} in
      match br_CABundleSecretRef repository with
      | None => reconcileSecret desired "pgbackrest-repository" (vsec_Version secret) data
      | Some reference =>
          let! repositoryCA := secretValue m reference onerr e => Ret (Err (wrap_error "read backup repository CA Secret" e)) in
          reconcileSecret desired "pgbackrest-repository" (vsec_Version secret) (<["ca.crt" := repositoryCA]> data)
      end
  end.

Definition tde_secret (desired : SitePlan) (auth : VaultAuthSpec) (token : VaultToken) (caBundle : string) : kprog (result unit) :=
  if negb (tde_Enabled (sp_TDE desired)) then Ret (Ok tt)
  else match tde_Vault (sp_TDE desired) with
  | None => Ret (Err (errors_New "tde is enabled without a Vault key identity"))
  | Some vault =>
      let data : gmap string string :=
        {[ "token" := vt_Value token; "token-expires-at" := FormatSeconds (vt_ExpiresAt token); "address" := va_Address auth;
           "kv-mount" := tv_KVMount vault;
           "key-path" := Trim (tv_KVMount vault) "/" +:+ "/data/" +:+ Trim (tv_KeyPath vault) "/";
           "provider-name" := tv_ProviderName vault; "principal-key-name" := tv_PrincipalKeyName vault ]} in
      reconcileSecret desired "pg-tde-vault" 0 (if caBundle != "" then <["ca.crt" := caBundle]> data else data)
  end.

Definition Secrets_Reconcile (m : SecretMaterializer) (desired : SitePlan) : kprog (result unit) :=
  if site_Role (sp_Site desired) == SiteRoleWitness then Ret (Ok tt)
  else match site_VaultAuth (sp_Site desired) with
  | None => Ret (Err (errors_New ("data site " +:+ site_Name (sp_Site desired) +:+ " has no Vault authentication configuration")))
  | Some auth =>
      let! session := vault_session m desired auth onerr e => Ret (Err e) in
      let '(vaultClient, token, caBundle) := session in
      let! _ := postgres_secret desired vaultClient token onerr e => Ret (Err e) in
      let! _ := pgpool_secret desired vaultClient token onerr e => Ret (Err e) in
      let! _ := repository_secret m desired vaultClient token onerr e => Ret (Err e) in
      tde_secret desired auth token caBundle
  end.
End secrets.
