(* ===== verification/AgentOperations.v ===== *)
(** * Coordinated operations at a site

    The steps the agent takes for the operation of a plan before it applies the
    workloads: the rotation of the PostgreSQL credentials ([credentials.go]),
    the phases of a major upgrade with its rollback storage
    ([major_upgrade.go]), and an address migration ([reconcile.go]).  A step
    returns the result it extends, and whether the workloads may follow. *)

From S2P Require Import Prelude Utf8 Prog Api Workloads Messages Kube Codec NetAddr Plan Members Client RenderBase MaintenanceJobs Render AgentBase Secrets.

Section operations.
Context {K : KubeLib} {C : Crypto} {U : UrlLib} {TT : TimeText}.

Definition Step : Type := ApplyResult * result bool.
Definition proceed (result : ApplyResult) : Step := (result, Ok true).
Definition wait (result : ApplyResult) : Step := (result, Ok false).
Definition stop (result : ApplyResult) (e : Error) : Step := (result, Err e).

(** ** Address migration *)
Definition reconcileAddressMigration (r : Renderer) (desired : SitePlan) (result : ApplyResult) : kprog Step :=
  let updated result := setLocalCondition result "AddressChangeBlocked" ConditionFalse "MembershipUpdated"
    "Address migration preconditions and etcd membership update completed" in
  match AddressMigrationJob r desired with
  | Err e => Ret (stop (setLocalCondition result "AddressChangeBlocked" ConditionTrue "QuorumUnsafe" (err_text e)) e)
  | Ok None => Ret (proceed (updated result))
  | Ok (Some job) =>
      let! message := run_job job onerr e => Ret (stop result e) in
      match message with
      | Some message => Ret (wait (setLocalCondition result "AddressChangeBlocked" ConditionTrue "MembershipUpdatePending" message))
      | None => Ret (proceed (updated result))
      end
  end.

(** ** Credential rotation *)
Fixpoint delete_secrets (namespace : string) (names : list string) : kprog (result unit) :=
  match names with
  | [] => Ret (Ok tt)
  | name :: names =>
      let* deleted := call (Delete KSecret (mkSecret (new_meta namespace name ∅) None ∅)) in
      match deleted with
      | Err e => if IsNotFound e then delete_secrets namespace names else Ret (Err e)
      | Ok _ => delete_secrets namespace names
      end
  end.
Definition deleteCredentialRotationSecrets (namespace : string) : kprog (result unit) :=
  delete_secrets namespace ["postgres-auth-pending"; "postgres-auth-previous"].

Definition promotePendingCredentials (namespace : string) : kprog (result unit) :=
  let! pending := call (Get KSecret namespace "postgres-auth-pending") onerr e => Ret (Err e) in
  let! active := call (Get KSecret namespace "postgres-auth") onerr e => Ret (Err e) in
  let* previous := call (Get KSecret namespace "postgres-auth-previous") in
  let activate : kprog (result unit) :=
    let! _ := call (Update KSecret (active <| sec_Data := sec_Data pending |>
        <| sec_Meta ::= set meta_Annotations (insert vaultVersionAnnotation
             (meta_Annotations (sec_Meta pending) !!! vaultVersionAnnotation)) |>)) onerr e => Ret (Err e) in
    Ret (Ok tt) in
  match previous with
  | Ok _ => activate
  | Err e =>
      if negb (IsNotFound e) then Ret (Err e)
      else
        let! _ := call (Create KSecret (active <| sec_Meta ::= fun m => m <| meta_ResourceVersion := "" |> <| meta_UID := "" |>
            <| meta_Name := "postgres-auth-previous" |> |>)) onerr e => Ret (Err e) in
        activate
  end.

Definition prepareCredentialRotation (desired : SitePlan) (result : ApplyResult) : kprog Step :=
  match sp_CredentialRotation desired with
  | None => Ret (proceed result)
  | Some rotation =>
      let namespace := site_Namespace (sp_Site desired) in
      if crp_Phase rotation == CredentialRotationPhaseFinalize then
        let! _ := deleteCredentialRotationSecrets namespace onerr e => Ret (stop result e) in
        Ret (proceed (setLocalCondition result "CredentialRotationPending" ConditionFalse "RotationCompleted"
                        (FormatInt (crp_Version rotation))))
      else if crp_Phase rotation == CredentialRotationPhaseMember then
        if negb (memberBelongsToSite (crp_TargetMember rotation) (site_Name (sp_Site desired))) then Ret (proceed result)
        else
          let result := result <| ar_Phase := "VerifyingCredentials" |> in
          let! message := run_job (CredentialVerificationJob desired rotation) onerr e => Ret (stop result e) in
          match message with
          | Some message =>
              Ret (wait (setLocalCondition result "CredentialRotationBlocked" ConditionTrue "CatalogReplicationPending" message))
          | None =>
              let! _ := promotePendingCredentials namespace onerr e => Ret (stop result e) in
              Ret (proceed (setLocalCondition result "CredentialRotationBlocked" ConditionFalse "CredentialVerified"
                              "The staged credential authenticates against the target member"))
          end
      else Ret (proceed result)
  end.

Definition reconcileCredentialCatalog (desired : SitePlan) (result : ApplyResult) : kprog (ApplyResult * option Error) :=
  match sp_CredentialRotation desired with
  | None => Ret (result, None)
  | Some rotation =>
      let revoking := crp_Phase rotation == CredentialRotationPhaseRevoke in
      if ((crp_Phase rotation != CredentialRotationPhaseCatalog) && negb revoking) ||
         negb (memberBelongsToSite (ar_Primary result) (site_Name (sp_Site desired)))
      then Ret (result, None)
      else
        let job := if revoking then CredentialRevokeJob desired rotation (ar_Primary result)
                   else CredentialCatalogJob desired rotation (ar_Primary result) in
        let! message := run_job job onerr e => Ret (result, Some e) in
        match message with
        | Some message =>
            Ret ((setLocalCondition result "CredentialRotationBlocked" ConditionTrue "CatalogUpdatePending" message)
                   <| ar_Phase := "RotatingCredentials" |>, None)
        | None =>
            Ret (setLocalCondition result (if revoking then "PreviousCredentialsRevoked" else "CredentialCatalogUpdated")
                   ConditionTrue (if revoking then "PreviousRolesDisabled" else "RolesCreated")
                   (FormatInt (crp_Version rotation)), None)
        end
  end.

Definition setCredentialMemberCondition (desired : SitePlan) (result : ApplyResult) : ApplyResult :=
  match sp_CredentialRotation desired with
  | None => result
  | Some rotation =>
      if (crp_Phase rotation != CredentialRotationPhaseMember) ||
         negb (memberBelongsToSite (crp_TargetMember rotation) (site_Name (sp_Site desired)))
      then result
      else
        let members := Compact (SortStrings (crp_UpdatedMembers rotation ++ [crp_TargetMember rotation])) in
        setLocalCondition result "CredentialMembersUpdated" ConditionTrue "MemberReloaded"
          (FormatInt (crp_Version rotation) +:+ ":" +:+ Join members ",")
  end.

(** ** Major upgrade *)
Definition appendMajorUpgradeFailureEvent (result : ApplyResult) (reason note : string) : ApplyResult :=
  result <| ar_Events ::= fun l => l ++ [mkLocalEvent "Warning" reason "MajorUpgradeFailed" note] |>.

(** The result while a Job of the upgrade is not complete. *)
Definition job_blocked (result : ApplyResult) (pending failed message : string) : ApplyResult :=
  if Contains message " failed:" then
    setLocalCondition (appendMajorUpgradeFailureEvent result failed message) "MajorUpgradeBlocked" ConditionTrue failed message
  else setLocalCondition result "MajorUpgradeBlocked" ConditionTrue pending message.

(** Jobs one after the other, each complete before the next is applied. *)
Fixpoint run_jobs (jobs : list Job) (result : ApplyResult) (pending failed : string) : kprog Step :=
  match jobs with
  | [] => Ret (proceed result)
  | job :: jobs =>
      let! message := run_job job onerr e => Ret (stop result e) in
      match message with
      | Some message => Ret (wait (job_blocked result pending failed message))
      | None => run_jobs jobs result pending failed
      end
  end.

Definition reconcileMajorReplicaReset (desired : SitePlan) (upgrade : MajorUpgradePlan) (result : ApplyResult)
  (pendingReason failedReason : string) : kprog Step :=
  run_jobs (MajorReplicaResetJobs desired upgrade) result pendingReason failedReason.

Definition markOldDataRetention (desired : SitePlan) (upgrade : MajorUpgradePlan) : kprog (result unit) :=
  let! claim := call (Get KPersistentVolumeClaim (site_Namespace (sp_Site desired)) ("data-" +:+ mup_Primary upgrade +:+ "-0"))
    onerr e => Ret (Err e) in
  if meta_Annotations (pvc_Meta claim) !!! oldDataOperationAnnotation == mup_OperationUID upgrade then Ret (Ok tt)
  else
    let* now := call Now in
    let annotate (annotations : gmap string string) : gmap string string :=
      <[oldDataExpiresAnnotation := FormatSeconds (time_Add now (mup_RollbackRetention upgrade))]>
      (<[oldDataPathAnnotation := "data/.mspsql-old-" +:+ FormatInt (mup_SourceMajor upgrade)]>
      (<[oldDataOperationAnnotation := mup_OperationUID upgrade]> annotations)) in
    let! _ := call (Patch KPersistentVolumeClaim claim (claim <| pvc_Meta ::= set meta_Annotations annotate |>))
      onerr e => Ret (Err e) in
    Ret (Ok tt).

Definition isRollbackStoppedWorkload (object : AnyObject) (siteName : string) : bool :=
  match object with
  | existT KStatefulSet o => HasPrefix (meta_Name (sts_Meta o)) "postgres-"
  | existT KDeployment o => meta_Name (dep_Meta o) == "pgpool-" +:+ siteName
  | _ => false
  end.

Definition ensureRollbackWorkloadsStopped (r : Renderer) (desired : SitePlan) (result : ApplyResult) : kprog Step :=
  match Workloads r desired with
  | Err e => Ret (stop result e)
  | Ok objects =>
      let stopped := filter (fun object => isRollbackStoppedWorkload object (site_Name (sp_Site desired)) = true) objects in
      let! applied := apply_all stopped onerr e => Ret (stop result e) in
      let! message := workloadsReady applied onerr e => Ret (stop result e) in
      match message with
      | Some message => Ret (wait (setLocalCondition result "RollbackRestored" ConditionFalse "WorkloadsStopping" message))
      | None => Ret (proceed result)
      end
  end.

(** The rollback policy of the site, if it has data to roll back. *)
Definition rollback_policy (desired : SitePlan) (upgrade : MajorUpgradePlan) : option StorageRollbackPolicy :=
  if site_Role (sp_Site desired) != SiteRoleData then None
  else mup_RollbackPolicies upgrade !! site_Name (sp_Site desired).

(** A nil pointer dereference ends the process. *)
Definition nil_dereference : Error := errors_New "invalid memory address or nil pointer dereference".

Fixpoint capture_members (desired : SitePlan) (upgrade : MajorUpgradePlan) (policy : StorageRollbackPolicy)
  (result : ApplyResult) (members : list string) : kprog Step :=
  match members with
  | [] => Ret (proceed (setLocalCondition result "RollbackReady" ConditionTrue "RollbackCaptured"
                          "Every local PostgreSQL PVC has a retained rollback artifact"))
  | member :: members =>
      let sourcePVC := "data-" +:+ member +:+ "-0" in
      let name := rollback_name upgrade member in
      if srp_Strategy policy == "VolumeSnapshot" then
        let snapshot := volumeSnapshot desired upgrade name sourcePVC (srp_VolumeSnapshotClassName policy) in
        let! _ := apply (any (k := KVolumeSnapshot) snapshot) onerr e => Ret (stop result e) in
        let! observed := call (Get KVolumeSnapshot (site_Namespace (sp_Site desired)) name) onerr e => Ret (stop result e) in
        let ready := match NestedBool (us_Object observed) ["status"; "readyToUse"] with Some (Some b) => b | _ => false end in
        if ready then capture_members desired upgrade policy result members
        else Ret (wait (setLocalCondition result "RollbackReady" ConditionFalse "SnapshotPending"
                          ("Waiting for VolumeSnapshot " +:+ name)))
      else if srp_Strategy policy == "PVCClone" then
        match ss_Postgres (site_Storage (sp_Site desired)) with
        | None => Ret (stop result nil_dereference)
        | Some storage =>
            let claim := rollbackClonePVC desired upgrade storage name sourcePVC in
            let! _ := apply (any (k := KPersistentVolumeClaim) claim) onerr e => Ret (stop result e) in
            let! observed := call (Get KPersistentVolumeClaim (site_Namespace (sp_Site desired)) name)
              onerr e => Ret (stop result e) in
            if pvc_Phase observed != "Bound"
            then Ret (wait (setLocalCondition result "RollbackReady" ConditionFalse "ClonePending"
                              ("Waiting for rollback PVC " +:+ name)))
            else capture_members desired upgrade policy result members
        end
      else Ret (stop result (errors_New ("unsupported rollback strategy " +:+ Quote (srp_Strategy policy))))
  end.

Definition reconcileRollbackStorage (desired : SitePlan) (upgrade : MajorUpgradePlan) (result : ApplyResult) : kprog Step :=
  match rollback_policy desired upgrade with
  | None => Ret (proceed result)
  | Some policy => capture_members desired upgrade policy result (site_postgres desired)
  end.

(** *** Consumers of a claim *)
Definition uses_claim (pod : Pod) (claimName : string) : bool :=
  existsb (fun volume => vol_Source volume == VolClaim claimName) (pod_Volumes (pd_Spec pod)).

Fixpoint delete_controlling_jobs (pod : Pod) (owners : list OwnerReference) : kprog (result unit) :=
  match owners with
  | [] => Ret (Ok tt)
  | owner :: owners =>
      if (or_Controller owner == Some true) && (or_Kind owner == "Job") then
        let* deleted := call (Delete KJob (zero_Job <| job_Meta := new_meta (meta_Namespace (pd_Meta pod)) (or_Name owner) ∅ |>)) in
        match deleted with
        | Err e => if IsNotFound e then delete_controlling_jobs pod owners else Ret (Err e)
        | Ok _ => delete_controlling_jobs pod owners
        end
      else delete_controlling_jobs pod owners
  end.

(** Has no Pod the claim mounted? *)
Fixpoint delete_consumers (desired : SitePlan) (claimName : string) (pods : list Pod) : kprog (result bool) :=
  match pods with
  | [] => Ret (Ok true)
  | pod :: pods =>
      if negb (uses_claim pod claimName) then delete_consumers desired claimName pods
      else if meta_Labels (pd_Meta pod) !!! instanceUIDLabel != sp_InstanceUID desired
      then Ret (Err (errors_New ("PVC " +:+ claimName +:+ " is used by unmanaged Pod " +:+ meta_Name (pd_Meta pod))))
      else
        let! _ := delete_controlling_jobs pod (meta_OwnerReferences (pd_Meta pod)) onerr e => Ret (Err e) in
        let* deleted := call (Delete KPod pod) in
        let rest : kprog (result bool) :=
          let! _ := delete_consumers desired claimName pods onerr e => Ret (Err e) in Ret (Ok false) in
        match deleted with
        | Err e => if IsNotFound e then rest else Ret (Err e)
        | Ok _ => rest
        end
  end.
Definition deleteManagedPVCConsumers (desired : SitePlan) (claimName : string) : kprog (result bool) :=
  let! pods := call (List KPod (Some (site_Namespace (sp_Site desired))) ∅) onerr e => Ret (Err e) in
  delete_consumers desired claimName pods.

Fixpoint restore_members (desired : SitePlan) (upgrade : MajorUpgradePlan) (policy : StorageRollbackPolicy)
  (result : ApplyResult) (members : list string) : kprog Step :=
  match members with
  | [] => Ret (proceed (setLocalCondition result "RollbackRestored" ConditionTrue "AllPVCsRestored"
                          "Every local PostgreSQL PVC was restored from rollback storage"))
  | member :: members =>
      let claimName := "data-" +:+ member +:+ "-0" in
      let rollbackName := rollback_name upgrade member in
      let* got := call (Get KPersistentVolumeClaim (site_Namespace (sp_Site desired)) claimName) in
      match got with
      | Ok observed =>
          if meta_Annotations (pvc_Meta observed) !!! rollbackSourceAnnotation != rollbackName then
            let! consumersGone := deleteManagedPVCConsumers desired claimName onerr e => Ret (stop result e) in
            if negb consumersGone then
              Ret (wait (setLocalCondition result "RollbackRestored" ConditionFalse "PVCConsumersDeleting"
                           ("Deleting failed upgrade Pods using " +:+ claimName)))
            else
              let! _ := call (Delete KPersistentVolumeClaim observed) onerr e => Ret (stop result e) in
              Ret (wait (setLocalCondition result "RollbackRestored" ConditionFalse "SourcePVCDeleting"
                           ("Deleting failed data PVC " +:+ claimName)))
          else if pvc_Phase observed != "Bound" then
            Ret (wait (setLocalCondition result "RollbackRestored" ConditionFalse "RestorePVCBinding"
                         ("Waiting for restored PVC " +:+ claimName)))
          else restore_members desired upgrade policy result members
      | Err e =>
          if negb (IsNotFound e) then Ret (stop result e)
          else match ss_Postgres (site_Storage (sp_Site desired)) with
          | None => Ret (stop result nil_dereference)
          | Some storage =>
              let creating := setLocalCondition result "RollbackRestored" ConditionFalse "RestorePVCCreating"
                ("Restoring data PVC " +:+ claimName) in
              let* created := call (Create KPersistentVolumeClaim (rollbackRestorePVC desired storage claimName rollbackName policy)) in
              match created with
              | Ok _ => Ret (wait creating)
              | Err e => if IsAlreadyExists e then Ret (wait creating) else Ret (stop result e)
              end
          end
      end
  end.

Definition reconcileRollbackRestore (desired : SitePlan) (upgrade : MajorUpgradePlan) (result : ApplyResult) : kprog Step :=
  match rollback_policy desired upgrade with
  | None => Ret (proceed result)
  | Some policy => restore_members desired upgrade policy result (site_postgres desired)
  end.

(** *** Phases *)
Definition upgrade_primary (r : Renderer) (desired : SitePlan) (upgrade : MajorUpgradePlan) (result : ApplyResult) : kprog Step :=
  if negb (memberBelongsToSite (mup_Primary upgrade) (site_Name (sp_Site desired))) then Ret (proceed result)
  else
    let result := result <| ar_Phase := "UpgradingPrimary" |> in
    let* step := run_jobs [MajorUpgradeJob desired upgrade; MajorDCSResetJob r desired upgrade] result
      "PrimaryConversionPending" "PrimaryConversionFailed" in
    match step with
    | (result, Ok true) =>
        let! _ := markOldDataRetention desired upgrade onerr e => Ret (stop result e) in
        Ret (proceed (setLocalCondition result "MajorUpgradeBlocked" ConditionFalse "PrimaryConverted"
                        "Primary data and Patroni DCS initialization state are upgraded"))
    | _ => Ret step
    end.

Definition roll_back (r : Renderer) (desired : SitePlan) (upgrade : MajorUpgradePlan) (result : ApplyResult) : kprog Step :=
  let result := result <| ar_Phase := "RollingBack" |> in
  let* stopped := ensureRollbackWorkloadsStopped r desired result in
  match stopped with
  | (result, Ok true) =>
      let* restored := reconcileRollbackRestore desired upgrade result in
      match restored with
      | (result, Ok true) =>
          run_jobs [MajorRollbackDCSResetJob r desired upgrade] result "RollbackDCSResetPending" "RollbackDCSResetFailed"
      | _ => Ret restored
      end
  | _ => Ret stopped
  end.

Definition prepareMajorUpgrade (r : Renderer) (desired : SitePlan) (upgrade : MajorUpgradePlan) (result : ApplyResult)
  : kprog Step :=
  let phase := mup_Phase upgrade in
  if phase == MajorUpgradePhaseSnapshot then
    reconcileRollbackStorage desired upgrade (result <| ar_Phase := "CapturingRollback" |>)
  else if phase == MajorUpgradePhaseUpgradePrimary then upgrade_primary r desired upgrade result
  else if phase == MajorUpgradePhaseStanzaUpgrade then
    if negb (memberBelongsToSite (mup_Primary upgrade) (site_Name (sp_Site desired))) then Ret (proceed result)
    else run_jobs [MajorStanzaUpgradeJob desired upgrade] (result <| ar_Phase := "UpgradingBackupStanza" |>)
           "BackupStanzaUpgradePending" "BackupStanzaUpgradeFailed"
  else if phase == MajorUpgradePhaseReplicas then
    reconcileMajorReplicaReset desired upgrade (result <| ar_Phase := "ResettingReplicas" |>)
      "ReplicaResetPending" "ReplicaResetFailed"
  else if phase == MajorUpgradePhaseRollback then roll_back r desired upgrade result
  else if phase == MajorUpgradePhaseRollbackStart then
    reconcileMajorReplicaReset desired upgrade (result <| ar_Phase := "ResettingRollbackReplicas" |>)
      "RollbackReplicaResetPending" "RollbackReplicaResetFailed"
  else Ret (proceed result).

Definition prepareOperations (r : Renderer) (desired : SitePlan) (result : ApplyResult) : kprog Step :=
  let* migrated := match sp_AddressMigration desired with
    | Some _ => reconcileAddressMigration r desired (result <| ar_Phase := "MigratingAddress" |>)
    | None => Ret (proceed result)
    end in
  match migrated with
  | (result, Ok true) =>
      let* rotated := prepareCredentialRotation desired result in
      match rotated with
      | (result, Ok true) =>
          match sp_MajorUpgrade desired with
          | Some upgrade => prepareMajorUpgrade r desired upgrade result
          | None => Ret (proceed result)
          end
      | _ => Ret rotated
      end
  | _ => Ret migrated
  end.
End operations.
