(* ===== verification/Reconciler.v ===== *)
(** * The agent's reconciliation

    [internal/agent/reconcile.go]: the pipeline that brings a site to the state
    its plan describes, the deletion of an instance, the removal of what an
    older revision left behind, and of expired rollback storage
    ([major_upgrade.go]). *)

From S2P Require Import Prelude Utf8 Prog Api Workloads Messages Kube Codec NetAddr IpAddr Plan Registration Members Client RenderBase MaintenanceJobs Render AgentBase AgentCertificates Patroni Vault Secrets AgentOperations.

(** The per-instance mutex of [lockInstance] orders the runs for one instance;
    a run is one program here. *)
Record Reconciler := mkReconciler {
  rc_Renderer : Renderer;
  rc_Secrets : option SecretMaterializer;
  rc_Topology : bool;
  rc_HubDomain : string;
  rc_SiteUID : string;
  rc_Events : option EventReporter
}.

Section reconciler.
Context {K : KubeLib} {C : Crypto} {X : X509} {P : Pki} {U : UrlLib} {UP : UrlPath} {TT : TimeText} {PJ : PlanJson}.
Context {JC : Json PatroniCluster} {JS : Json SwitchoverBody}.
Context {JL : Json LoginResponse} {JB : Json LoginBody} {JK : Json KVResponse}.
Context (r : Reconciler).

(** ** Secrets *)
Definition setCredentialConditions (desired : SitePlan) (result : ApplyResult) : kprog (ApplyResult * Prog.result Z) :=
  let namespace := site_Namespace (sp_Site desired) in
  let! active := call (Get KSecret namespace "postgres-auth") onerr e => Ret (result, Err e) in
  let activeVersion := meta_Annotations (sec_Meta active) !!! vaultVersionAnnotation in
  let invalid := errors_New ("postgres-auth has invalid Vault version " +:+ Quote activeVersion) in
  match ParseInt 64 activeVersion with
  | None => Ret (result, Err invalid)
  | Some version =>
      if (version <? 1)%Z then Ret (result, Err invalid)
      else
        let result := setLocalCondition result "PostgresCredentialsActive" ConditionTrue "VaultVersionActive" activeVersion in
        let* pending := call (Get KSecret namespace "postgres-auth-pending") in
        match pending with
        | Ok pending =>
            Ret (setLocalCondition result "CredentialRotationPending" ConditionTrue "VaultVersionChanged"
                   (meta_Annotations (sec_Meta pending) !!! vaultVersionAnnotation), Ok version)
        | Err e =>
            if negb (IsNotFound e) then Ret (result, Err e)
            else Ret (setLocalCondition result "CredentialRotationPending" ConditionFalse "ActiveVersionCurrent" activeVersion, Ok version)
        end
  end.

Definition reconcileSecrets (m : SecretMaterializer) (desired : SitePlan) (result : ApplyResult)
  : kprog (ApplyResult * Prog.result SitePlan) :=
  let! _ := Secrets_Reconcile m desired onerr e =>
    Ret (setLocalCondition result "VaultReady" ConditionFalse "SecretResolutionFailed" (err_text e), Err e) in
  let result := setLocalCondition result "VaultReady" ConditionTrue "SecretsResolved" "Required Vault references were resolved" in
  if site_Role (sp_Site desired) != SiteRoleData then Ret (result, Ok desired)
  else
    let* got := setCredentialConditions desired result in
    match got with
    | (result, Err e) => Ret (result, Err e)
    | (result, Ok version) => Ret (result, Ok (desired <| sp_RuntimeCredentialVersion := version |>))
    end.

(** ** Load balancers *)
Fixpoint allocate (connected : bool) (services : list Service) (result : ApplyResult) : kprog Step :=
  match services with
  | [] => Ret (proceed (setLocalCondition result "LoadBalancersAllocated" ConditionTrue "AddressesAllocated"
                          "All member addresses are allocated"))
  | object :: services =>
      let namespace := meta_Namespace (svc_Meta object) in
      let name := meta_Name (svc_Meta object) in
      let continue : kprog Step :=
        let! service := call (Get KService namespace name) onerr e => Ret (stop result e) in
        match loadBalancerAddress service with
        | Err e => Ret (wait (setLocalCondition result "LoadBalancersAllocated" ConditionFalse "AddressPending" (err_text e)))
        | Ok address => allocate connected services (result <| ar_Addresses ::= insert (meta_Name (svc_Meta service)) address |>)
        end in
      if connected then
        let! _ := apply (any (k := KService) object) onerr e => Ret (stop result e) in
        continue
      else
        let! _ := call (Get KService namespace name) onerr e =>
          Ret (stop (if IsNotFound e then setLocalCondition result "AddressChangeBlocked" ConditionTrue "HubDisconnected"
                       "LoadBalancer Services are not recreated while disconnected" else result) e) in
        continue
  end.
Definition reconcileLoadBalancers (desired : SitePlan) (connected : bool) (result : ApplyResult) : kprog Step :=
  allocate connected (LoadBalancers desired) result.

(** ** Certificates *)
Fixpoint apply_certificates (certificates : list Unstructured) : kprog (Prog.result (list Unstructured)) :=
  match certificates with
  | [] => Ret (Ok [])
  | certificate :: certificates =>
      let! applied := apply_object (k := KCertificate) certificate onerr e => Ret (Err e) in
      let! rest := apply_certificates certificates onerr e => Ret (Err e) in
      Ret (Ok (applied :: rest))
  end.

Definition backup_tls (desired : SitePlan) (result : ApplyResult) : kprog Step :=
  if bool_decide (sp_Backup desired = None) || (site_Role (sp_Site desired) == SiteRoleWitness) then Ret (proceed result)
  else
    let! fingerprint := trustBundleFingerprint (site_Namespace (sp_Site desired)) "pgbackrest-client-tls" onerr e =>
      Ret (stop (setLocalCondition result "BackupTLSReady" ConditionFalse "TrustBundleInvalid" (err_text e)) e) in
    Ret (proceed (setLocalCondition result "BackupTLSReady" ConditionTrue "TrustBundleObserved" fingerprint)).

(** The plan with the source addresses and digests of the issued certificates. *)
Definition reconcileCertificates (desired : SitePlan) (result : ApplyResult) : kprog (SitePlan * Step) :=
  let! desired := preserveIssuedEtcdPeerSourceAddresses desired onerr e => Ret (desired, stop result e) in
  let! certificates := apply_certificates (Certificates desired) onerr e => Ret (desired, stop result e) in
  let! message := certificatesReady certificates onerr e => Ret (desired, stop result e) in
  match message with
  | Some message =>
      Ret (desired, wait (setLocalCondition result "CertificatesReady" ConditionFalse "IssuancePending" message))
  | None =>
      let result := setLocalCondition result "CertificatesReady" ConditionTrue "CertificatesIssued"
        "All workload certificates are Ready" in
      let! versions := certificateHashes certificates onerr e => Ret (desired, stop result e) in
      let desired := desired <| sp_RuntimeCertificateHashes := versions |> in
      let! fingerprint := trustBundleFingerprint (site_Namespace (sp_Site desired)) "etcd-maintenance-client-tls" onerr e =>
        Ret (desired, stop (setLocalCondition result "EtcdTLSReady" ConditionFalse "TrustBundleInvalid" (err_text e)) e) in
      let* step := backup_tls desired (setLocalCondition result "EtcdTLSReady" ConditionTrue "TrustBundleObserved" fingerprint) in
      Ret (desired, step)
  end.

(** The same while disconnected: nothing is applied. *)
Definition issued_certificates (desired : SitePlan) (result : ApplyResult) : kprog (SitePlan * Step) :=
  let! desired := preserveIssuedEtcdPeerSourceAddresses desired onerr e => Ret (desired, stop result e) in
  let! versions := certificateHashes (Certificates desired) onerr e =>
    Ret (desired, stop (setLocalCondition result "CertificatesReady" ConditionFalse "LastIssuedMaterialUnavailable" (err_text e)) e) in
  Ret (desired <| sp_RuntimeCertificateHashes := versions |>, proceed result).

(** ** Workloads *)
Definition setMajorUpgradeProgressCondition (desired : SitePlan) (result : ApplyResult) (message : string) : ApplyResult :=
  match sp_MajorUpgrade desired with
  | None => result
  | Some upgrade =>
      let reason :=
        if negb (Contains message " failed:") then "WorkloadsPending"
        else if mup_Phase upgrade == MajorUpgradePhasePreflight then "PreflightRejected"
        else if mup_Phase upgrade == MajorUpgradePhaseStartPrimary then "PrimaryAcceptanceFailed"
        else if mup_Phase upgrade == MajorUpgradePhaseRollbackStart then "RollbackAcceptanceFailed"
        else "WorkloadsFailed" in
      setLocalCondition result "MajorUpgradeBlocked" ConditionTrue reason message
  end.

Definition reconcileWorkloads (desired : SitePlan) (objects : list AnyObject) (result : ApplyResult) : kprog Step :=
  let! applied := apply_all objects onerr e => Ret (stop result e) in
  let! message := workloadsReady applied onerr e => Ret (stop result e) in
  match message with
  | Some message =>
      Ret (wait (setMajorUpgradeProgressCondition desired
        (setLocalCondition result "Ready" ConditionFalse "WorkloadsProgressing" message) message))
  | None =>
      Ret (proceed (match sp_MajorUpgrade desired with
        | Some _ => setLocalCondition result "MajorUpgradeBlocked" ConditionFalse "PhaseAccepted"
                      "The local major-upgrade phase completed"
        | None => result
        end))
  end.

(** ** The data plane *)
Definition observeTopology (desired : SitePlan) (result : ApplyResult) : kprog (ApplyResult * option Error) :=
  if negb (rc_Topology r) then Ret (result, None)
  else
    let! topology := ObserveTopology desired onerr e =>
      Ret (setLocalCondition result "TopologyReady" ConditionFalse "ObservationFailed" (err_text e), Some e) in
    Ret (setLocalCondition (result <| ar_Primary := pt_Primary topology |>
           <| ar_SynchronousStandbys := pt_SynchronousStandbys topology |>)
           "TopologyReady" ConditionTrue "PatroniObserved" "Patroni topology is observable", None).

Definition reconcileUpgradeAction (desired : SitePlan) (result : ApplyResult) : kprog (ApplyResult * option Error) :=
  match sp_Upgrade desired with
  | None => Ret (result, None)
  | Some upgrade =>
      if (up_Phase upgrade != UpgradePhaseSwitchover) ||
         negb (memberBelongsToSite (up_FromPrimary upgrade) (site_Name (sp_Site desired)))
      then Ret (result, None)
      else if ar_Primary result == up_Candidate upgrade then
        Ret (setLocalCondition result "SwitchoverCompleted" ConditionTrue "CandidatePromoted"
               "Patroni reports the upgraded candidate as primary", None)
      else if ar_Primary result != up_FromPrimary upgrade then
        Ret (result, Some (errors_New ("patroni primary changed unexpectedly from " +:+ up_FromPrimary upgrade +:+ " to " +:+ ar_Primary result)))
      else if negb (rc_Topology r) then
        Ret (result, Some (errors_New "patroni topology client is required for switchover"))
      else
        let! _ := Switchover desired (up_FromPrimary upgrade) (up_Candidate upgrade) onerr e =>
          Ret (result, Some (wrap_error "request Patroni switchover" e)) in
        Ret (setLocalCondition result "SwitchoverCompleted" ConditionFalse "RequestAccepted"
               "Patroni accepted the controlled switchover request", None)
  end.

Definition setDataPlaneConditions (desired : SitePlan) (result : ApplyResult) : kprog (ApplyResult * option Error) :=
  if restoreExpectsPostgres desired then
    let result := setLocalCondition result "PatroniReady" ConditionTrue "AllMembersHealthy"
      "All Patroni member readiness checks are passing" in
    let* observed := observeTopology desired result in
    match observed with
    | (result, Some e) => Ret (result, Some e)
    | (result, None) =>
        let* rotated := reconcileCredentialCatalog desired result in
        match rotated with
        | (result, Some e) => Ret (result, Some e)
        | (result, None) =>
            let* upgraded := reconcileUpgradeAction desired result in
            match upgraded with
            | (result, Some e) => Ret (result, Some e)
            | (result, None) =>
                Ret (if tde_Enabled (sp_TDE desired)
                     then setLocalCondition result "TDEVerified" ConditionTrue "DatabaseAuditPassed"
                            "Every local member resolved its pg_tde key and reported no unencrypted user relations"
                     else result, None)
            end
        end
    end
  else if site_Role (sp_Site desired) == SiteRoleData then
    Ret (match sp_MajorUpgrade desired with
         | Some _ => setLocalCondition result "MajorUpgradeWaiting" ConditionTrue "PostgreSQLIntentionallyStopped"
                       "PostgreSQL remains stopped for the active major-upgrade phase"
         | None => setLocalCondition result "RestoreWaiting" ConditionTrue "SeedRecoveryInProgress"
                     "PostgreSQL remains stopped until the restored seed member is promoted"
         end, None)
  else Ret (result, None).

(** ** Removal *)

(** The objects of one kind that carry the labels of the instance, except those
    of the revision to keep. *)
Fixpoint delete_objects {k : Kind} (objects : list (Object k)) (keepRevision : string) : kprog (Prog.result unit) :=
  match objects with
  | [] => Ret (Ok tt)
  | managed :: objects =>
      if (keepRevision != "") && (meta_Labels (object_meta managed) !!! revisionLabel == keepRevision)
      then delete_objects objects keepRevision
      else
        let* deleted := call (Delete k managed) in
        match deleted with
        | Err e => if IsNotFound e then delete_objects objects keepRevision else Ret (Err e)
        | Ok _ => delete_objects objects keepRevision
        end
  end.

Definition managed_labels (desired : SitePlan) : gmap string string :=
  {[ managedByLabel := "mspsql-agent"; instanceUIDLabel := sp_InstanceUID desired ]}.
Definition managed_kinds : list Kind := [KService; KConfigMap; KStatefulSet; KDeployment; KJob; KCronJob; KCertificate].

Fixpoint delete_kinds (desired : SitePlan) (keepRevision : string) (kinds : list Kind) : kprog (Prog.result unit) :=
  match kinds with
  | [] => Ret (Ok tt)
  | k :: kinds =>
      let! objects := call (List k (Some (site_Namespace (sp_Site desired))) (managed_labels desired)) onerr e => Ret (Err e) in
      let! _ := delete_objects objects keepRevision onerr e => Ret (Err e) in
      delete_kinds desired keepRevision kinds
  end.
Definition deleteManagedObjects (desired : SitePlan) (keepRevision : string) : kprog (Prog.result unit) :=
  delete_kinds desired keepRevision managed_kinds.
Definition pruneStaleObjects (desired : SitePlan) : kprog (Prog.result unit) :=
  deleteManagedObjects desired (FormatInt (sp_Revision desired)).

(** *** Rollback storage past its retention *)

(** The path of retained data is [data/.mspsql-old-] and a version number. *)
Definition old_data_prefix : string := "data/.mspsql-old-".
Definition valid_old_data_path (path : string) : bool :=
  let major := TrimPrefix path old_data_prefix in
  negb ((major == path) || (major == "") || ContainsAny major ("/" +:+ String "092" "")) &&
  digits major && (digits_value major <=? 4294967295)%Z.

Definition cleanup_job (desired : SitePlan) (operation path claim : string) : Job :=
  majorJob desired ("major-cleanup-" +:+ operationHash operation) (pg_Image (sp_Postgres desired))
    ("set -eu" +:+ newline +:+ "rm -rf -- /pgdata/" +:+ path +:+ newline) [claim_volume "data" claim] [writable "data" "/pgdata"].

Definition cleanupExpiredOldData (desired : SitePlan) (claim : PersistentVolumeClaim) (now : Time) : kprog (Prog.result bool) :=
  let annotations := meta_Annotations (pvc_Meta claim) in
  let path := annotations !!! oldDataPathAnnotation in
  let expires := annotations !!! oldDataExpiresAnnotation in
  let operation := annotations !!! oldDataOperationAnnotation in
  if (path == "") || (expires == "") || (operation == "") then Ret (Ok false)
  else if negb (valid_old_data_path path) then Ret (Err (errors_New ("refusing invalid retained old-data path " +:+ Quote path)))
  else match ParseTime expires with
  | None => Ret (Ok true)
  | Some expiresAt =>
      if time_Before now expiresAt then Ret (Ok true)
      else
        let! message := run_job (cleanup_job desired operation path (meta_Name (pvc_Meta claim))) onerr e => Ret (Err e) in
        match message with
        | Some _ => Ret (Ok true)
        | None =>
            let! _ := call (Patch KPersistentVolumeClaim claim (claim <| pvc_Meta ::= set meta_Annotations (fun annotations =>
                delete oldDataExpiresAnnotation (delete oldDataPathAnnotation (delete oldDataOperationAnnotation annotations))) |>))
              onerr e => Ret (Err e) in
            Ret (Ok true)
        end
  end.

Definition rollback_expired (m : ObjectMeta) (now : Time) : bool :=
  HasPrefix (meta_Name m) "rollback-" &&
  match ParseTime (meta_Annotations m !!! expiresAtAnnotation) with
  | Some expiresAt => negb (time_Before now expiresAt)
  | None => false
  end.

Fixpoint cleanup_claims (desired : SitePlan) (now : Time) (claims : list PersistentVolumeClaim) : kprog (Prog.result unit) :=
  match claims with
  | [] => Ret (Ok tt)
  | claim :: claims =>
      let! cleaned := cleanupExpiredOldData desired claim now onerr e => Ret (Err e) in
      if negb cleaned && rollback_expired (pvc_Meta claim) now then
        let! _ := call (Delete KPersistentVolumeClaim claim) onerr e => Ret (Err e) in
        cleanup_claims desired now claims
      else cleanup_claims desired now claims
  end.

Fixpoint cleanup_snapshots (now : Time) (snapshots : list Unstructured) : kprog (Prog.result unit) :=
  match snapshots with
  | [] => Ret (Ok tt)
  | snapshot :: snapshots =>
      if rollback_expired (us_Meta snapshot) now then
        let! _ := call (Delete KVolumeSnapshot snapshot) onerr e => Ret (Err e) in
        cleanup_snapshots now snapshots
      else cleanup_snapshots now snapshots
  end.

Definition cleanupExpiredRollback (desired : SitePlan) (now : Time) : kprog (Prog.result unit) :=
  let namespace := Some (site_Namespace (sp_Site desired)) in
  let labels : gmap string string := {[ instanceUIDLabel := sp_InstanceUID desired ]} in
  let snapshots_ : kprog (Prog.result unit) :=
    let* got := call (List KVolumeSnapshot namespace labels) in
    match got with
    | Err e => if IsNoMatchError e then Ret (Ok tt) else Ret (Err e)
    | Ok snapshots => cleanup_snapshots now snapshots
    end in
  let* got := call (List KPersistentVolumeClaim namespace labels) in
  match got with
  | Err e => if IsNoMatchError e then snapshots_ else Ret (Err e)
  | Ok claims =>
      let! _ := cleanup_claims desired now claims onerr e => Ret (Err e) in
      snapshots_
  end.

(** ** Deletion *)
Fixpoint retain_claims (instanceUID : string) (claims : list PersistentVolumeClaim) : kprog (Prog.result unit) :=
  match claims with
  | [] => Ret (Ok tt)
  | claim :: claims =>
      let! _ := call (Patch KPersistentVolumeClaim claim (claim <| pvc_Meta ::= set meta_Labels
          (insert "multisite-postgres.dev/retained-instance-uid" instanceUID) |>)) onerr e => Ret (Err e) in
      retain_claims instanceUID claims
  end.

Definition deleteInstance (desired : SitePlan) (deletion : DeletionPlan) : kprog (ApplyResult * option Error) :=
  let result := zero_ApplyResult <| ar_Phase := "Deleting" |> in
  let* got := call (Get KNamespace "" (site_Namespace (sp_Site desired))) in
  match got with
  | Err e =>
      if IsNotFound e then
        Ret (setLocalCondition (result <| ar_Phase := "Deleted" |>) "Deleted" ConditionTrue "NamespaceAbsent"
               "The target namespace no longer exists", None)
      else Ret (result, Some e)
  | Ok namespace =>
      let! _ := EnsureNamespace (site_Namespace (sp_Site desired)) (rc_HubDomain r) (rc_SiteUID r) (sp_InstanceUID desired) true
        onerr e => Ret (result, Some e) in
      if dp_Policy deletion == DeletionPolicyDelete then
        let terminating := setLocalCondition result "Deleted" ConditionFalse "NamespaceTerminating"
          "Waiting for the target namespace to terminate" in
        let* deleted := call (Delete KNamespace namespace) in
        match deleted with
        | Err e => if IsNotFound e then Ret (terminating, None) else Ret (result, Some e)
        | Ok _ => Ret (terminating, None)
        end
      else
        let! _ := deleteManagedObjects desired "" onerr e => Ret (result, Some e) in
        let! claims := call (List KPersistentVolumeClaim (Some (site_Namespace (sp_Site desired))) (managed_labels desired))
          onerr e => Ret (result, Some e) in
        let! _ := retain_claims (sp_InstanceUID desired) claims onerr e => Ret (result, Some e) in
        Ret (setLocalCondition (result <| ar_Phase := "Deleted" |>) "Deleted" ConditionTrue "WorkloadsRemoved"
               "Active workloads were removed and persistent data was retained", None)
  end.

(** ** The pipeline *)
(** Conditions of the ready workloads, then the topology, then what is stale. *)
Definition finish_workloads (desired : SitePlan) (result : ApplyResult) : kprog (ApplyResult * option Error) :=
  let result := setLocalCondition result "EtcdQuorate" ConditionTrue "AllMembersHealthy"
    "All etcd member readiness checks are passing" in
  let result := match sp_AddressMigration desired with
    | Some migration =>
        setLocalCondition result "AddressMigrated" ConditionTrue "ConsumersUpdated"
          (amp_Member migration +:+ " migrated from " +:+ amp_OldAddress migration +:+ " to " +:+ amp_NewAddress migration)
    | None => result
    end in
  let result := setCredentialMemberCondition desired result in
  let* observed := setDataPlaneConditions desired result in
  match observed with
  | (result, Some e) => Ret (result, Some e)
  | (result, None) =>
      if ar_Phase result == "RotatingCredentials" then Ret (result, None)
      else
        let! _ := pruneStaleObjects desired onerr e => Ret (result, Some e) in
        let* now := call Now in
        let! _ := cleanupExpiredRollback desired now onerr e => Ret (result, Some e) in
        Ret (setLocalCondition (result <| ar_Phase := "Ready" |>) "Ready" ConditionTrue "DesiredStateApplied"
               "All locally managed resources match the signed plan", None)
  end.

Definition apply_workloads (desired : SitePlan) (result : ApplyResult) : kprog (ApplyResult * option Error) :=
  let result := result <| ar_Phase := "ReconcilingWorkloads" |> in
  let desired := desired <| sp_MemberAddresses ::= fun planned => fillMissingAddresses planned (ar_Addresses result) |> in
  match Workloads (rc_Renderer r) desired with
  | Err e => Ret (setLocalCondition result "Ready" ConditionFalse "GlobalAddressesPending" (err_text e), None)
  | Ok objects =>
      let* step := reconcileWorkloads desired objects result in
      match step with
      | (result, Ok true) => finish_workloads desired result
      | (result, Ok false) => Ret (result, None)
      | (result, Err e) => Ret (result, Some e)
      end
  end.

(** From the issued certificates on. *)
Definition reconcile_certified (certified : SitePlan * Step) : kprog (ApplyResult * option Error) :=
    match certified with
    | (_, (result, Err e)) => Ret (result, Some e)
    | (_, (result, Ok false)) => Ret (result, None)
    | (desired, (result, Ok true)) =>
        let* prepared := prepareOperations (rc_Renderer r) desired result in
        match prepared with
        | (result, Err e) => Ret (result, Some e)
        | (result, Ok false) => Ret (result, None)
        | (result, Ok true) => apply_workloads desired result
        end
    end.

(** From the allocated addresses on; comparing plans that cannot be encoded ends
    the process. *)
Definition reconcile_addressed (desired previous : SitePlan) (connected : bool) (result : ApplyResult)
  : kprog (ApplyResult * option Error) :=
  if connected then
    let* certified := reconcileCertificates
      (desired <| sp_MemberAddresses ::= fun planned => fillMissingAddresses planned (ar_Addresses result) |>
         <| sp_AddressCandidates ::= fun candidates => mergeAddresses candidates (ar_Addresses result) |>)
      (result <| ar_Phase := "IssuingCertificates" |>) in
    reconcile_certified certified
  else match Classify previous desired with
  | None => Ret (result, Some (errors_New "plans cannot be compared"))
  | Some MutationCoordinated =>
      Ret (setLocalCondition (result <| ar_Phase := "WaitingForHub" |>) "Ready" ConditionFalse "HubRequired"
             "The desired revision contains globally coordinated changes", None)
  | Some MutationSafe =>
      let* certified := issued_certificates desired result in
      reconcile_certified certified
  end.

Definition reconcile (desired previous : SitePlan) (connected : bool) : kprog (ApplyResult * option Error) :=
  let result := zero_ApplyResult <| ar_Phase := "CreatingNamespaces" |> in
  match sp_Deletion desired with
  | Some deletion =>
      if negb connected then
        Ret (setLocalCondition (result <| ar_Phase := "WaitingForHub" |>) "Deleted" ConditionFalse "HubRequired"
               "Deletion is blocked while disconnected from the hub", None)
      else deleteInstance desired deletion
  | None =>
      let! _ := EnsureNamespace (site_Namespace (sp_Site desired)) (rc_HubDomain r) (rc_SiteUID r) (sp_InstanceUID desired) connected
        onerr e => Ret (setLocalCondition result "Ready" ConditionFalse "NamespaceOwnershipConflict" (err_text e), Some e) in
      let! _ := apply (any (k := KServiceAccount) (Renderer_ServiceAccount desired)) onerr e => Ret (result, Some e) in
      let* resolved := match rc_Secrets r with
        | Some m => reconcileSecrets m desired (result <| ar_Phase := "ResolvingSecrets" |>)
        | None => Ret (result, Ok desired)
        end in
      match resolved with
      | (result, Err e) => Ret (result, Some e)
      | (result, Ok desired) =>
          let* allocated := reconcileLoadBalancers desired connected (result <| ar_Phase := "AllocatingLoadBalancers" |>) in
          match allocated with
          | (result, Err e) => Ret (result, Some e)
          | (result, Ok false) => Ret (result, None)
          | (result, Ok true) => reconcile_addressed desired previous connected result
          end
      end
  end.

Definition Reconciler_Apply (desired previous : SitePlan) (connected : bool) : kprog (ApplyResult * option Error) :=
  let* outcome := reconcile desired previous connected in
  match rc_Events r with
  | Some reporter => let* _ := Observe reporter (sp_InstanceUID desired) outcome.1 outcome.2 in Ret outcome
  | None => Ret outcome
  end.
End reconciler.
