(* ===== verification/Sql.v ===== *)
(** * SQL of database and user directives

    The scripts [internal/agent/directives.go] has psql run on the primary: the
    statements that bring a database or a role to its declaration, with names
    quoted as identifiers or literals. *)

From S2P Require Import Prelude Utf8 Prog Api Workloads Messages Kube Codec RenderBase.

Definition dquote : ascii := "034".
Definition squote : ascii := "'".
Definition bslash : string := String "092" "".

Definition quoted (quote : ascii) (value : string) : string :=
  String quote (replace_byte value quote (String quote (String quote "")) +:+ String quote "").
Definition quoteIdentifier (value : string) : string := quoted dquote value.
Definition quoteLiteral (value : string) : string := quoted squote value.

(** A line of the script. *)
Definition sql_line (parts : list string) : string := String.concat "" parts +:+ newline.

(** [Duration.Milliseconds] *)
Definition milliseconds (d : Duration) : Z := Z.quot d 1000000.
(** [(quantity.Value() + 1023) / 1024] *)
Definition kilobytes (limit : Quantity) : Z := Z.quot (int64 (quantity_Value limit + 1023)) 1024.

(** ** Settings *)
Definition appendDatabaseSetting (database setting : string) (duration : option Duration) : string :=
  match duration with
  | None => ""
  | Some d => sql_line ["ALTER DATABASE "; database; " SET "; setting; " = "; quoteLiteral (FormatInt (milliseconds d) +:+ "ms"); ";"]
  end.
Definition appendRoleSetting (role setting : string) (duration : option Duration) : string :=
  match duration with
  | None => ""
  | Some d => sql_line ["ALTER ROLE "; role; " SET "; setting; " = "; quoteLiteral (FormatInt (milliseconds d) +:+ "ms"); ";"]
  end.

(** ** Databases *)
Definition advisory_lock (key : string) : string :=
  sql_line ["SELECT pg_advisory_lock(hashtextextended("; quoteLiteral key; ", 0));"].

Definition role_schema_grants (profile quotedSchema quotedRole : string) : string :=
  if profile == "Owner" then sql_line ["GRANT ALL ON SCHEMA "; quotedSchema; " TO "; quotedRole; ";"]
  else if profile == "ReadWrite" then
    sql_line ["GRANT USAGE, CREATE ON SCHEMA "; quotedSchema; " TO "; quotedRole; ";"] +:+
    sql_line ["GRANT SELECT, INSERT, UPDATE, DELETE ON ALL TABLES IN SCHEMA "; quotedSchema; " TO "; quotedRole; ";"] +:+
    sql_line ["GRANT USAGE, SELECT, UPDATE ON ALL SEQUENCES IN SCHEMA "; quotedSchema; " TO "; quotedRole; ";"]
  else if profile == "ReadOnly" then
    sql_line ["GRANT USAGE ON SCHEMA "; quotedSchema; " TO "; quotedRole; ";"] +:+
    sql_line ["GRANT SELECT ON ALL TABLES IN SCHEMA "; quotedSchema; " TO "; quotedRole; ";"] +:+
    sql_line ["GRANT SELECT ON ALL SEQUENCES IN SCHEMA "; quotedSchema; " TO "; quotedRole; ";"]
  else "".

Definition appendDatabaseRoleSQL (database : string) (schemas : list string) (owner : string) (role : DatabaseRole) : string :=
  let quotedRole := quoteIdentifier (dr_Name role) in
  sql_line ["GRANT CONNECT ON DATABASE "; quoteIdentifier database; " TO "; quotedRole; ";"] +:+
  String.concat "" ((fun schema =>
    let quotedSchema := quoteIdentifier schema in
    role_schema_grants (dr_Profile role) quotedSchema quotedRole +:+
    (if (owner != "") && (dr_Profile role != "Owner") then
       sql_line ["ALTER DEFAULT PRIVILEGES FOR ROLE "; quoteIdentifier owner; " IN SCHEMA "; quotedSchema; " ";
         "GRANT "; if dr_Profile role == "ReadWrite" then "SELECT, INSERT, UPDATE, DELETE" else "SELECT";
         " ON TABLES TO "; quotedRole; ";"]
     else "")) <$> schemas).

(** The one owner of the database; several are refused. *)
Fixpoint database_owner (roles : list DatabaseRole) (owner : string) : result string :=
  match roles with
  | [] => Ok owner
  | role :: roles =>
      if dr_Profile role == "Owner" then
        if owner != "" then Err (errors_New "database has multiple Owner roles") else database_owner roles (dr_Name role)
      else database_owner roles owner
  end.

Definition tde_check : string :=
  "SELECT count(" +:+ "*" +:+ ") = 0 AS tde_verified
FROM pg_class c
JOIN pg_namespace n ON n.oid = c.relnamespace
JOIN pg_am a ON a.oid = c.relam
WHERE c.relkind IN ('r','m')
  AND n.nspname NOT IN ('pg_catalog','information_schema')
  AND n.nspname !~ '^pg_toast'
  AND a.amname <> 'tde_heap' \gset
\if :tde_verified
\else
\quit 1
\endif
".
Definition audit_query (tdeVerified : string) : string :=
  "\pset tuples_only on
\pset format unaligned
\o /dev/termination-log
SELECT json_build_object(
  'observedSizeBytes', pg_database_size(current_database()),
  'tdeVerified', " +:+
  tdeVerified +:+
  "
);
\o
".

Definition create_database (name : string) : string :=
  sql_line ["SELECT format('CREATE DATABASE %I TEMPLATE template1', "; quoteLiteral name; ") ";
            "WHERE NOT EXISTS (SELECT FROM pg_database WHERE datname = "; quoteLiteral name; ") "; bslash; "gexec"].
Definition create_role (login name : string) : string :=
  sql_line ["SELECT format('CREATE ROLE %I "; login; "', "; quoteLiteral name; ") ";
            "WHERE NOT EXISTS (SELECT FROM pg_roles WHERE rolname = "; quoteLiteral name; ") "; bslash; "gexec"].

Definition databaseSQL (spec : PostgresDatabaseSpec) (tdeEnabled deleting : bool) : result string :=
  let database := quoteIdentifier (dbs_DatabaseName spec) in
  if deleting then Ok (sql_line ["DROP DATABASE IF EXISTS "; database; " WITH (FORCE);"])
  else match database_owner (dbs_Roles spec) "" with
  | Err e => Err e
  | Ok owner =>
      let quotas := dq_RoleQuotas (dbs_Quotas spec) in
      let schemas := SortStrings (dbs_Schemas spec) in
      Ok (String.concat "" ([
        advisory_lock ("mspsql/database/" +:+ dbs_DatabaseName spec);
        create_database (dbs_DatabaseName spec);
        String.concat "" ((fun role => create_role "NOLOGIN" (dr_Name role)) <$> dbs_Roles spec);
        if owner != "" then sql_line ["ALTER DATABASE "; database; " OWNER TO "; quoteIdentifier owner; ";"] else "";
        match rq_ConnectionLimit quotas with
        | Some limit => sql_line ["ALTER DATABASE "; database; " CONNECTION LIMIT "; FormatInt limit; ";"]
        | None => ""
        end;
        appendDatabaseSetting database "statement_timeout" (rq_StatementTimeout quotas);
        appendDatabaseSetting database "lock_timeout" (rq_LockTimeout quotas);
        appendDatabaseSetting database "idle_in_transaction_session_timeout" (rq_IdleInTransactionSessionTimeout quotas);
        match rq_TempFileLimit quotas with
        | Some limit => sql_line ["ALTER DATABASE "; database; " SET temp_file_limit = ";
                                  quoteLiteral (FormatInt (kilobytes limit) +:+ "kB"); ";"]
        | None => ""
        end;
        sql_line [bslash; "connect "; database];
        String.concat "" ((fun schema => sql_line ["CREATE SCHEMA IF NOT EXISTS "; quoteIdentifier schema; " AUTHORIZATION ";
          if owner != "" then quoteIdentifier owner else "postgres"; ";"]) <$> schemas);
        String.concat "" (appendDatabaseRoleSQL (dbs_DatabaseName spec) schemas owner <$> dbs_Roles spec);
        if tdeEnabled then tde_check else "";
        audit_query (if tdeEnabled then "true" else "false")]))
  end.

(** ** Users *)
Definition userSQL (spec : PostgresUserSpec) : string :=
  let role := quoteIdentifier (usrs_RoleName spec) in
  let quotas := usrs_Quotas spec in
  String.concat "" [
    advisory_lock ("mspsql/user/" +:+ usrs_RoleName spec);
    create_role "LOGIN" (usrs_RoleName spec);
    sql_line [bslash; "getenv user_password USER_PASSWORD"];
    sql_line ["ALTER ROLE "; role; " LOGIN PASSWORD :'user_password';"];
    String.concat "" ((fun membership => sql_line ["GRANT "; quoteIdentifier (rm_Role membership); " TO "; role; ";"]) <$>
      usrs_MemberOf spec);
    match rq_ConnectionLimit quotas with
    | Some limit => sql_line ["ALTER ROLE "; role; " CONNECTION LIMIT "; FormatInt limit; ";"]
    | None => ""
    end;
    appendRoleSetting role "statement_timeout" (rq_StatementTimeout quotas);
    appendRoleSetting role "lock_timeout" (rq_LockTimeout quotas);
    appendRoleSetting role "idle_in_transaction_session_timeout" (rq_IdleInTransactionSessionTimeout quotas);
    match rq_TempFileLimit quotas with
    | Some limit => sql_line ["ALTER ROLE "; role; " SET temp_file_limit = "; quoteLiteral (FormatInt (kilobytes limit) +:+ "kB"); ";"]
    | None => ""
    end;
    sql_line ["SELECT pg_advisory_unlock(hashtextextended("; quoteLiteral ("mspsql/user/" +:+ usrs_RoleName spec); ", 0));"]].
Definition dropUserSQL (spec : PostgresUserSpec) : string :=
  sql_line ["DROP ROLE IF EXISTS "; quoteIdentifier (usrs_RoleName spec); ";"].
