(* ===== verification/Executor.v ===== *)
(** * Executing directives

    [internal/agent/directives.go]: a directive of the hub becomes a Job in the
    namespace of the instance, whose completion and result are reported as
    conditions.  [waitForJob] polls until its context is cancelled; [rounds] is
    the number of polls after which that happens. *)

From S2P Require Import Prelude Utf8 Prog Api Workloads Messages Kube ApiServer Codec NetAddr Plan Directive Cache Members Client RenderBase MaintenanceJobs Render AgentBase AgentCertificates Vault Secrets Sql.

(** The fields of [agent.Cache] and the materializer of Secrets. *)
Record DirectiveExecutor := mkDirectiveExecutor {
  ex_CacheNamespace : string;
  ex_PublicKey : string;
  ex_SiteUID : string;
  ex_Secrets : option SecretMaterializer
}.

(** What the Jobs write as their termination messages. *)
Record BackupMetadata := mkBackupMetadata {
  bm_BackupSet : string; bm_CompletedAt : Z; bm_RecoveryWindowStart : Z; bm_ArchiveMin : string; bm_ArchiveMax : string }.
Record DatabaseMetadata := mkDatabaseMetadata { dm_ObservedSizeBytes : Z; dm_TDEVerified : bool }.
Record databaseInventory := mkDatabaseInventory { di_Schemas : list string; di_Roles : list string }.

Definition operationUIDLabel : string := "multisite-postgres.dev/operation-uid".

(** ** Jobs *)
Definition preflight_sql : string :=
  "SELECT NOT pg_is_in_recovery() AS is_primary \gset
\if :is_primary
\else
\quit 1
\endif
".

(** The script of a Job: psql reads the statements from a here-document. *)
Definition sql_command (sql : string) (userPassword : bool) : string :=
  (if userPassword then raw "export USER_PASSWORD=`$(cat /user-credential/password)`" +:+ newline else "") +:+
  "psql -X -v ON_ERROR_STOP=1 -f - <<'SQL'" +:+ newline +:+ preflight_sql +:+ sql +:+ "SQL" +:+ newline.

Definition operation_labels (payload : Payload) : gmap string string :=
  {[ instanceUIDLabel := pl_InstanceUID payload; operationUIDLabel := pl_OperationUID payload ]}.

Definition sqlJob (desired : SitePlan) (payload : Payload) (name sql : string) (userPassword : bool) : Job :=
  let host := pl_Primary payload +:+ "." +:+ site_Namespace (sp_Site desired) +:+ ".svc" in
  zero_Job <| job_Meta := new_meta (site_Namespace (sp_Site desired)) name (operation_labels payload) |>
    <| job_BackoffLimit := Some 3%Z |> <| job_ActiveDeadlineSeconds := Some 300%Z |> <| job_TTLSecondsAfterFinished := Some 86400%Z |>
    <| job_Template := mkPodTemplate {[ operationUIDLabel := pl_OperationUID payload ]} ∅
         (zero_PodSpec <| pod_RestartPolicy := "Never" |> <| pod_ServiceAccountName := workloadServiceAccount |>
            <| pod_AutomountServiceAccountToken := Some false |> <| pod_TerminationGracePeriodSeconds := Some 30%Z |>
            <| pod_SecurityContext := Some runtime_default |>
            <| pod_Containers := [zero_Container <| ctr_Name := "psql" |> <| ctr_Image := pg_Image (sp_Postgres desired) |>
                 <| ctr_Command := ["/bin/bash"; "-ec"; sql_command sql userPassword] |>
                 <| ctr_Env := [EnvValue "PGHOST" host; EnvValue "PGPORT" "5432"; EnvValue "PGDATABASE" "postgres";
                      secretKeySelector "PGUSER" "postgres-auth" "superuser-username"; EnvValue "PGSSLMODE" "verify-full";
                      EnvValue "PGSSLROOTCERT" "/tls/ca.crt";
                      secretKeySelector "PGPASSWORD" "postgres-auth" "superuser-password"] |>
                 <| ctr_SecurityContext := Some restrictedContainer |>
                 <| ctr_VolumeMounts := read_only "tls" "/tls" ::
                      (if userPassword then [read_only "user-credential" "/user-credential"] else []) |>] |>
            <| pod_Volumes := secret_volume "tls" (pl_Primary payload +:+ "-tls") ::
                 (if userPassword then [secret_volume "user-credential" (name +:+ "-credential")] else []) |>) |>.

Definition pgBackRestHostConfig (index : Z) (address : string) : string :=
  "pg" +:+
  FormatInt index +:+
  "-host=" +:+
  address +:+
  "
pg" +:+
  FormatInt index +:+
  "-host-type=tls
pg" +:+
  FormatInt index +:+
  "-host-port=8432
pg" +:+
  FormatInt index +:+
  "-host-user=postgres
pg" +:+
  FormatInt index +:+
  "-host-ca-file=/tls/ca.crt
pg" +:+
  FormatInt index +:+
  "-host-cert-file=/tls/tls.crt
pg" +:+
  FormatInt index +:+
  "-host-key-file=/tls/tls.key
pg" +:+
  FormatInt index +:+
  "-path=/var/lib/postgresql/data
".

Definition coordinator_conf (repository : BackupRepositorySpec) (hostname port caConfig : string) (retentionDays : Z)
  (backupStandby stanza hostConfig : string) : string :=
  "[global]
repo1-type=s3
repo1-path=/" +:+
  (Trim (br_Prefix repository) "/") +:+
  "
repo1-s3-bucket=" +:+
  (br_Bucket repository) +:+
  "
repo1-s3-endpoint=" +:+
  hostname +:+
  "
repo1-s3-region=" +:+
  (br_Region repository) +:+
  "
repo1-s3-uri-style=" +:+
  (br_URIStyle repository) +:+
  "
repo1-storage-port=" +:+
  port +:+
  "
repo1-storage-verify-tls=y
" +:+
  caConfig +:+
  "repo1-s3-key=${S3_ACCESS_KEY}
repo1-s3-key-secret=${S3_SECRET_KEY}
repo1-cipher-type=aes-256-cbc
repo1-cipher-pass=${REPO_CIPHER_PASSPHRASE}
repo1-retention-full-type=time
repo1-retention-full=" +:+
  FormatInt retentionDays +:+
  "
process-max=4
start-fast=y
backup-standby=" +:+
  backupStandby +:+
  "

[" +:+
  stanza +:+
  "]
" +:+
  hostConfig.

(** Days of the retention, rounded up. *)
Definition retention_days (retention : Duration) : Z :=
  if (0 <? retention)%Z then Z.quot (int64 (retention + 24 * hour - 1)) (24 * hour) else 7%Z.

Definition backup_script (config stanza backupType : string) : string :=
  raw "umask 077
export S3_ACCESS_KEY=`$(cat /repository/s3-access-key)`
export S3_SECRET_KEY=`$(cat /repository/s3-secret-key)`
export REPO_CIPHER_PASSPHRASE=`$(cat /repository/repo-cipher-passphrase)`
envsubst > /tmp/pgbackrest.conf <<'CONFIG'
" +:+
  config +:+
  "
CONFIG
pgbackrest --config=/tmp/pgbackrest.conf --stanza=" +:+
  stanza +:+
  " stanza-create
pgbackrest --config=/tmp/pgbackrest.conf --stanza=" +:+
  stanza +:+
  " check
pgbackrest --config=/tmp/pgbackrest.conf --stanza=" +:+
  stanza +:+
  " --type=" +:+
  backupType +:+
  " backup
pgbackrest --config=/tmp/pgbackrest.conf --stanza=" +:+
  stanza +:+
  " check
pgbackrest --config=/tmp/pgbackrest.conf --stanza=" +:+
  stanza +:+
  " --output=json info > /tmp/pgbackrest-info.json
python3 - <<'PY' > /dev/termination-log
import json
with open('/tmp/pgbackrest-info.json', encoding='utf-8') as stream:
    stanza = json.load(stream)[0]
backups = stanza.get('backup', [])
archives = stanza.get('archive', [])
if not backups or not archives or not archives[-1].get('max'):
    raise SystemExit('pgBackRest repository metadata is incomplete')
print(json.dumps({
    'backupSet': backups[-1]['label'],
    'completedAt': backups[-1]['timestamp']['stop'],
    'recoveryWindowStart': backups[0]['timestamp']['start'],
    'archiveMin': archives[-1].get('min', ''),
    'archiveMax': archives[-1]['max'],
}, separators=(',', ':')))
PY
".

Definition backupJob (desired : SitePlan) (payload : Payload) (name config : string) : Job :=
  zero_Job <| job_Meta := new_meta (site_Namespace (sp_Site desired)) name (operation_labels payload) |>
    <| job_BackoffLimit := Some 1%Z |> <| job_ActiveDeadlineSeconds := Some (24 * 60 * 60)%Z |>
    <| job_TTLSecondsAfterFinished := Some (7 * 24 * 60 * 60)%Z |>
    <| job_Template := mkPodTemplate {[ operationUIDLabel := pl_OperationUID payload ]} ∅
         (zero_PodSpec <| pod_RestartPolicy := "Never" |> <| pod_ServiceAccountName := workloadServiceAccount |>
            <| pod_AutomountServiceAccountToken := Some false |> <| pod_TerminationGracePeriodSeconds := Some 30%Z |>
            <| pod_SecurityContext := Some runtime_default |>
            <| pod_InitContainers := [zero_Container <| ctr_Name := "prepare-tls" |> <| ctr_Image := pg_Image (sp_Postgres desired) |>
                 <| ctr_Command := ["/bin/bash"; "-ec"; tls_copy] |> <| ctr_SecurityContext := Some restrictedContainer |>
                 <| ctr_VolumeMounts := [read_only "tls-source" "/tls-source"; writable "tls" "/tls"] |>] |>
            <| pod_Containers := [zero_Container <| ctr_Name := "pgbackrest" |> <| ctr_Image := pg_Image (sp_Postgres desired) |>
                 <| ctr_Command := ["/bin/bash"; "-ec";
                      backup_script config ("mspsql-" +:+ sp_InstanceUID desired) (pl_BackupType payload)] |>
                 <| ctr_SecurityContext := Some restrictedContainer |>
                 <| ctr_VolumeMounts := [read_only "repository" "/repository"; read_only "tls" "/tls"] |>] |>
            <| pod_Volumes := [secret_volume "repository" "pgbackrest-repository"; secret_volume "tls-source" "pgbackrest-client-tls";
                 empty_volume "tls"] |>) |>.

Definition removedDeclarations (previous current : databaseInventory) : list string :=
  SortStrings (
    ((fun name => "schema:" +:+ name) <$> filter (fun name => name ∉ di_Schemas current) (di_Schemas previous)) ++
    ((fun name => "role:" +:+ name) <$> filter (fun name => name ∉ di_Roles current) (di_Roles previous))).

Section executor.
Context {C : Crypto} {R : RawJson} {JP : Json SitePlan} {JDb : Json PostgresDatabaseSpec} {JU : Json PostgresUserSpec}.
Context {JBM : Json BackupMetadata} {JDM : Json DatabaseMetadata} {JDI : Json databaseInventory} {JO : Json (list string)}.
Context {P : Pki} {U : UrlLib} {UP : UrlPath} {JL : Json LoginResponse} {JB : Json LoginBody} {JK : Json KVResponse} {TT : TimeText}.
Context (e : DirectiveExecutor) (rounds : nat).

Definition backupCoordinatorConfig (desired : SitePlan) (backup : BackupSpec) (payload : Payload) : result string :=
  let repository := with_defaults (bk_Repository backup) in
  match repository_url repository with
  | None => Err (errors_New "backup repository endpoint must be an absolute HTTPS URL")
  | Some parsed =>
      match sp_MemberAddresses desired !! pl_Primary payload, sp_MemberAddresses desired !! pl_BackupSource payload with
      | Some primaryAddress, Some sourceAddress =>
          if existsb several_lines [br_Bucket repository; br_Prefix repository; br_Region repository; br_URIStyle repository;
                                    primaryAddress; sourceAddress]
          then Err (errors_New "backup configuration values must be single-line")
          else
            let standby := pl_BackupSource payload != pl_Primary payload in
            Ok (coordinator_conf repository (url_Hostname parsed) (repository_port parsed) (repository_ca repository)
                  (retention_days (bret_Duration (bk_Retention backup))) (if standby then "y" else "n")
                  ("mspsql-" +:+ sp_InstanceUID desired)
                  (pgBackRestHostConfig 1 primaryAddress +:+ if standby then pgBackRestHostConfig 2 sourceAddress else ""))
      | _, _ => Err (errors_New "backup source addresses are absent from the accepted plan")
      end
  end.

(** ** Waiting *)
Fixpoint waitForJob (rounds : nat) (namespace name reason message : string) : kprog (list Condition * option Error) :=
  let! job := call (Get KJob namespace name) onerr e => Ret ([], Some e) in
  match job_outcome (job_Conditions job) with
  | Some condition =>
      if jc_Type condition == "Complete" then Ret ([mkCondition "Succeeded" ConditionTrue 0 reason message], None)
      else Ret ([], Some (errors_New ("SQL Job failed: " +:+ jc_Message condition)))
  | None =>
      let! _ := call (Env (WaitTick (2 * second)%Z)) onerr e => Ret ([], Some e) in
      match rounds with
      | O => Ret ([], Some (mkError ErrCanceled "context canceled"))
      | S rounds => waitForJob rounds namespace name reason message
      end
  end.

(** The termination message of a container of the Job's first Pod that has one. *)
Definition termination_message (container : string) (pods : list Pod) : option string :=
  head (omap (fun status => if cs_Name status == container then term_Message <$> cs_Terminated status else None)
    (concat (pd_ContainerStatuses <$> pods))).

Definition job_message (namespace jobName container missing : string) : kprog (result string) :=
  let! pods := call (List KPod (Some namespace) {[ "job-name" := jobName ]}) onerr e => Ret (Err e) in
  Ret (match termination_message container pods with Some message => Ok message | None => Err (errors_New missing) end).

(** ** Backups *)
Definition verified_metadata (type message : string) : Condition := mkCondition type ConditionTrue 0 "RepositoryVerified" message.

Definition backupMetadata (namespace jobName : string) : kprog (list Condition * option Error) :=
  let! message := job_message namespace jobName "pgbackrest" "pgBackRest Job has no terminated coordinator status" onerr e =>
    Ret ([], Some e) in
  match json_Unmarshal message with
  | Err e => Ret ([], Some (wrap_error "decode pgBackRest repository metadata" e))
  | Ok metadata =>
      if (bm_BackupSet metadata == "") || (bm_CompletedAt metadata <=? 0)%Z || (bm_RecoveryWindowStart metadata <=? 0)%Z ||
         (bm_ArchiveMax metadata == "")
      then Ret ([], Some (errors_New "pgBackRest repository metadata is incomplete"))
      else Ret ([verified_metadata "BackupSet" (bm_BackupSet metadata);
                 verified_metadata "BackupCompletedAt" (FormatSeconds (bm_CompletedAt metadata * second)%Z);
                 verified_metadata "RecoveryWindowStart" (FormatSeconds (bm_RecoveryWindowStart metadata * second)%Z);
                 verified_metadata "WALArchive" (bm_ArchiveMin metadata +:+ "/" +:+ bm_ArchiveMax metadata)], None)
  end.

Definition backup_completed (namespace name : string) : kprog (list Condition * option Error) :=
  let* waited := waitForJob rounds namespace name "BackupCompleted" "pgBackRest completed and verified repository metadata" in
  match waited with
  | (conditions, Some err) => Ret (conditions, Some err)
  | (conditions, None) =>
      let* metadata := backupMetadata namespace name in
      Ret (conditions ++ metadata.1, metadata.2)
  end.

Definition executeBackup (desired : SitePlan) (payload : Payload) : kprog (list Condition * option Error) :=
  match sp_Backup desired with
  | None => Ret ([], Some (errors_New "backup directive targets an instance without a repository"))
  | Some backup =>
      if (pl_BackupSource payload == "") || (pl_Primary payload == "")
      then Ret ([], Some (errors_New "backup directive has no selected source or primary"))
      else if bool_decide (pl_BackupType payload ∉ ["full"; "diff"; "incr"])
      then Ret ([], Some (errors_New ("unsupported backup type " +:+ Quote (pl_BackupType payload))))
      else match backupCoordinatorConfig desired backup payload with
      | Err err => Ret ([], Some err)
      | Ok config =>
          let namespace := site_Namespace (sp_Site desired) in
          let name := "mspsql-backup-" +:+ operationHash (pl_OperationUID payload) in
          let* got := call (Get KJob namespace name) in
          match got with
          | Ok _ => backup_completed namespace name
          | Err err =>
              if negb (IsNotFound err) then Ret ([], Some err)
              else
                let* created := call (Create KJob (backupJob desired payload name config)) in
                match created with
                | Err err => if IsAlreadyExists err then backup_completed namespace name else Ret ([], Some err)
                | Ok _ => backup_completed namespace name
                end
          end
      end
  end.

(** ** Statements *)
Definition sql_applied (namespace name : string) : kprog (list Condition * option Error) :=
  waitForJob rounds namespace name "SQLApplied" "PostgreSQL accepted the idempotent declaration".

Definition credential_secret (namespace name : string) (data : gmap string string) : Secret :=
  mkSecret (new_meta namespace (name +:+ "-credential") ∅) None data.

Definition create_sql_job (desired : SitePlan) (payload : Payload) (name sql userPassword : string)
  : kprog (list Condition * option Error) :=
  let namespace := site_Namespace (sp_Site desired) in
  let finished : kprog (list Condition * option Error) :=
    let* outcome := sql_applied namespace name in
    if userPassword == "" then Ret outcome
    else
      let* _ := call (Delete KSecret (credential_secret namespace name ∅)) in
      Ret outcome in
  let* created := call (Create KJob (sqlJob desired payload name sql (userPassword != ""))) in
  match created with
  | Err err => if IsAlreadyExists err then finished else Ret ([], Some err)
  | Ok _ => finished
  end.

Definition runSQLJob (desired : SitePlan) (payload : Payload) (sql userPassword : string) : kprog (list Condition * option Error) :=
  let name := operationName (pl_OperationUID payload) in
  let namespace := site_Namespace (sp_Site desired) in
  let* got := call (Get KJob namespace name) in
  match got with
  | Ok _ => sql_applied namespace name
  | Err err =>
      if negb (IsNotFound err) then Ret ([], Some err)
      else if userPassword == "" then create_sql_job desired payload name sql userPassword
      else
        let* created := call (Create KSecret (credential_secret namespace name {[ "password" := userPassword ]})) in
        match created with
        | Err err => if IsAlreadyExists err then create_sql_job desired payload name sql userPassword else Ret ([], Some err)
        | Ok _ => create_sql_job desired payload name sql userPassword
        end
  end.

(** ** Databases *)
Definition databaseMetadata (namespace jobName : string) : kprog (result (list Condition)) :=
  let! message := job_message namespace jobName "psql" "database SQL Job has no terminated audit status" onerr e => Ret (Err e) in
  match json_Unmarshal message with
  | Err e => Ret (Err (wrap_error "decode database audit metadata" e))
  | Ok metadata =>
      if (dm_ObservedSizeBytes metadata <=? 0)%Z then Ret (Err (errors_New "database audit metadata has no observed size"))
      else Ret (Ok [mkCondition "ObservedSize" ConditionTrue 0 "DatabaseAudited" (FormatInt (dm_ObservedSizeBytes metadata));
                    mkCondition "TDEVerified" (if dm_TDEVerified metadata then ConditionTrue else ConditionFalse) 0
                      "DatabaseAudited" "All managed user relations were inspected"])
  end.

Definition inventoryName (payload : Payload) : string := "mspsql-database-inventory-" +:+ operationHash (pl_ObjectUID payload).

(** The declarations removed since the last directive, and the new inventory stored. *)
Definition reconcileDatabaseInventory (desired : SitePlan) (payload : Payload) (spec : PostgresDatabaseSpec)
  : kprog (result (list string)) :=
  let namespace := site_Namespace (sp_Site desired) in
  let current := mkDatabaseInventory (SortStrings (dbs_Schemas spec)) (SortStrings (dr_Name <$> dbs_Roles spec)) in
  let* got := call (Get KConfigMap namespace (inventoryName payload)) in
  match got with
  | Err err =>
      if negb (IsNotFound err) then Ret (Err err)
      else match json_Marshal current with
      | Err err => Ret (Err err)
      | Ok encoded =>
          let! _ := call (Create KConfigMap (mkConfigMap (new_meta namespace (inventoryName payload)
              {[ instanceUIDLabel := pl_InstanceUID payload; "multisite-postgres.dev/database-uid" := pl_ObjectUID payload ]})
              {[ "inventory.json" := encoded ]})) onerr err => Ret (Err err) in
          Ret (Ok (removedDeclarations (mkDatabaseInventory [] []) current))
      end
  | Ok observed =>
      match json_Unmarshal (cm_Data observed !!! "inventory.json") with
      | Err err => Ret (Err (wrap_error "decode database declaration inventory" err))
      | Ok previous =>
          match json_Marshal current with
          | Err err => Ret (Err err)
          | Ok encoded =>
              let! _ := call (Update KConfigMap (observed <| cm_Data ::= insert "inventory.json" encoded |>)) onerr err => Ret (Err err) in
              Ret (Ok (removedDeclarations previous current))
          end
      end
  end.

Definition audit_database (desired : SitePlan) (payload : Payload) (spec : PostgresDatabaseSpec) (conditions : list Condition)
  : kprog (list Condition * option Error) :=
  let! metadata := databaseMetadata (site_Namespace (sp_Site desired)) (operationName (pl_OperationUID payload)) onerr err =>
    Ret (conditions, Some err) in
  let conditions := conditions ++ metadata in
  let! orphaned := reconcileDatabaseInventory desired payload spec onerr err => Ret (conditions, Some err) in
  match json_Marshal orphaned with
  | Err err => Ret (conditions, Some err)
  | Ok encoded => Ret (conditions ++ [mkCondition "OrphanedDeclarations" ConditionTrue 0 "RetainedObjectsAudited" encoded], None)
  end.

Definition executeDatabase (desired : SitePlan) (payload : Payload) : kprog (list Condition * option Error) :=
  match json_Unmarshal (pl_Spec payload) with
  | Err err => Ret ([], Some (wrap_error "decode database directive" err))
  | Ok spec =>
      match databaseSQL spec (tde_Enabled (sp_TDE desired)) (pl_Deleting payload) with
      | Err err => Ret ([], Some err)
      | Ok sql =>
          let* ran := runSQLJob desired payload sql "" in
          match ran with
          | (conditions, Some err) => Ret (conditions, Some err)
          | (conditions, None) => if pl_Deleting payload then Ret (conditions, None) else audit_database desired payload spec conditions
          end
      end
  end.

(** ** Users *)
Definition executeUser (desired : SitePlan) (payload : Payload) : kprog (list Condition * option Error) :=
  match json_Unmarshal (T := PostgresUserSpec) (pl_Spec payload) with
  | Err err => Ret ([], Some (wrap_error "decode user directive" err))
  | Ok spec =>
      if pl_Deleting payload then runSQLJob desired payload (dropUserSQL spec) ""
      else match ex_Secrets e with
      | None => Ret ([], Some (errors_New "user directive requires Vault secret resolution"))
      | Some m =>
          let! credential := Resolve m desired (usrs_PasswordVaultRef spec) onerr err => Ret ([], Some err) in
          match RequireFields credential [vs_Key (usrs_PasswordVaultRef spec)] with
          | Err err => Ret ([], Some (wrap_error "user credential schema" err))
          | Ok _ =>
              let* ran := runSQLJob desired payload (userSQL spec) (vsec_Data credential !!! vs_Key (usrs_PasswordVaultRef spec)) in
              match ran with
              | (conditions, Some err) => Ret (conditions, Some err)
              | (conditions, None) =>
                  Ret (conditions ++ [mkCondition "CredentialVersion" ConditionTrue 0 "VaultVersionApplied"
                                        (FormatInt (vsec_Version credential))], None)
              end
          end
      end
  end.

Definition Execute (payload : Payload) : kprog (list Condition * option Error) :=
  let! desired := Cache.Load (ex_CacheNamespace e) (ex_PublicKey e) (ex_SiteUID e) (pl_InstanceUID payload) onerr err =>
    Ret ([], Some (wrap_error "load accepted site plan" err)) in
  if pl_Primary payload == "" then Ret ([], Some (errors_New "directive has no observed primary"))
  else if bool_decide (sp_MemberAddresses desired !! pl_Primary payload = None)
  then Ret ([], Some (errors_New ("primary " +:+ Quote (pl_Primary payload) +:+ " is not in the accepted site plan")))
  else if pl_Type payload == "Database" then executeDatabase desired payload
  else if pl_Type payload == "User" then executeUser desired payload
  else if pl_Type payload == "Backup" then executeBackup desired payload
  else Ret ([], Some (errors_New ("unsupported directive type " +:+ Quote (pl_Type payload)))).
End executor.
