(* ===== verification/SiteIdentity.v ===== *)
(** * Renewal of the agent's certificate

    [internal/siteidentity/rotation.go]: an agent asks the hub to sign a new
    certificate while the old one is about to expire, validates the answer,
    stores it in the one of two Secrets its Deployment does not use and rolls
    the Deployment over to it.  The rotator's [pending] field is read and
    written by [LoadPending] and [StorePending]. *)

From S2P Require Import Prelude Prog Api Workloads Messages Kube Codec Registration AgentCertificates Vault.

#[global] Instance PublicKey_eq_dec : EqDecision PublicKey.
Proof. solve_decision. Defined.

Definition managedLabel : string := "multisite-postgres.dev/agent-identity".
Definition volumeName : string := "identity".
Definition identitySlotNames : list string := ["mspsql-agent-identity-a"; "mspsql-agent-identity-b"].

Record Rotator := mkRotator {
  rot_Namespace : string;
  rot_DeploymentName : string;
  rot_MountPath : string;
  rot_RegistrationUID : string;
  rot_RenewBefore : Duration
}.

(** The Secret of the volume that holds the identity; empty without one. *)
Definition deploymentIdentitySecretName (deployment : Deployment) : string :=
  default "" (head (omap (fun volume =>
    match vol_Source volume with VolSecret name _ _ => if vol_Name volume == volumeName then Some name else None | _ => None end)
    (pod_Volumes (pt_Spec (dep_Template deployment))))).

(** The volume moved to another Secret, if it uses one. *)
Definition move_volume (name : string) (volume : Volume) : Volume :=
  match vol_Source volume with
  | VolSecret _ mode items => if vol_Name volume == volumeName then mkVolume (vol_Name volume) (VolSecret name mode items) else volume
  | _ => volume
  end.
Definition moved (name : string) (deployment : Deployment) : Deployment :=
  deployment <| dep_Template ::= fun template => template
    <| pt_Spec ::= set pod_Volumes (fmap (move_volume name)) |>
    <| pt_Annotations ::= insert "multisite-postgres.dev/agent-identity-secret" name |> |>.

Section identity.
Context {K : KubeLib} {X : X509} {P : Pki}.

(** A certificate and its [Raw] bytes. *)
Definition parseCertificate (value : string) : result (Certificate * string) :=
  match pem_Decode value with
  | None => Err (errors_New "identity contains no PEM certificate")
  | Some (block, _) =>
      if pem_Type block != "CERTIFICATE" then Err (errors_New "identity contains no PEM certificate")
      else match ParseCertificate (pem_Bytes block) with
      | Err e => Err e
      | Ok certificate => Ok (certificate, pem_Bytes block)
      end
  end.

Definition tlsKeyPair (certificatePEM privateKeyPEM : string) : result string :=
  match pem_Decode certificatePEM, pem_Decode privateKeyPEM with
  | Some (certificateBlock, _), Some (keyBlock, _) =>
      match ParseCertificate (pem_Bytes certificateBlock) with
      | Err e => Err e
      | Ok certificate =>
          match ParseECPrivateKey (pem_Bytes keyBlock) with
          | Err e => Err e
          | Ok privateKey =>
              match crt_PublicKey certificate with
              | EcdsaKey curve key =>
                  if bool_decide (EcdsaKey curve key = PublicOf privateKey) then Ok privateKey
                  else Err (errors_New "certificate public key differs from private key")
              | OtherKey _ => Err (errors_New "certificate public key differs from private key")
              end
          end
      end
  | _, _ => Err (errors_New "certificate or private key PEM is invalid")
  end.

Definition randomID : kprog (result string) :=
  let! value := call (RandomBytes 16) onerr e => Ret (Err e) in
  Ret (Ok (hex_EncodeToString value)).

Context (r : Rotator).

Definition identity_file (name : string) : kprog (result string) := call (Env (ReadFile (path_Join [rot_MountPath r; name]))).

Definition CurrentCertificate : kprog (result (Certificate * string)) :=
  let! value := identity_file "tls.crt" onerr e => Ret (Err e) in
  Ret (parseCertificate value).

Definition deploymentIdentity : kprog (result (Deployment * (Certificate * string))) :=
  let! deployment := call (Get KDeployment (rot_Namespace r) (rot_DeploymentName r)) onerr e => Ret (Err e) in
  let secretName := deploymentIdentitySecretName deployment in
  if secretName == "" then Ret (Err (errors_New "agent Deployment has no identity Secret volume"))
  else
    let! secret := call (Get KSecret (rot_Namespace r) secretName) onerr e => Ret (Err e) in
    match parseCertificate (sec_Data secret !!! "tls.crt") with
    | Err e => Ret (Err e)
    | Ok certificate => Ret (Ok (deployment, certificate))
    end.

(** ** Cleanup *)
Fixpoint cleanup_slots (current : string) (names : list string) : kprog (result unit) :=
  match names with
  | [] => Ret (Ok tt)
  | name :: names =>
      let* got := call (Get KSecret (rot_Namespace r) name) in
      match got with
      | Err e => if IsNotFound e then cleanup_slots current names else Ret (Err e)
      | Ok secret =>
          if meta_Labels (sec_Meta secret) !!! managedLabel != "true" then cleanup_slots current names
          else match parseCertificate (sec_Data secret !!! "tls.crt") with
          | Err e => Ret (Err (wrap_error ("parse managed identity Secret " +:+ meta_Name (sec_Meta secret)) e))
          | Ok (_, raw) =>
              if raw == current then cleanup_slots current names
              else
                let* deleted := call (Delete KSecret secret) in
                match deleted with
                | Err e => if IsNotFound e then cleanup_slots current names else Ret (Err e)
                | Ok _ => cleanup_slots current names
                end
          end
      end
  end.

Definition cleanup (deployment : Deployment) (current : string) : kprog (result unit) :=
  match dep_Replicas deployment with
  | None => Ret (Err (errors_New "agent Deployment has no replica count"))
  | Some replicas =>
      if (dep_ObservedGeneration deployment != meta_Generation (dep_Meta deployment)) ||
         (dep_UpdatedReplicas deployment != replicas) || (dep_AvailableReplicas deployment != replicas)
      then Ret (Ok tt)
      else cleanup_slots current (filter (fun name => name <> deploymentIdentitySecretName deployment) identitySlotNames)
  end.

(** ** Requests *)
Definition renew_before : Duration := if rot_RenewBefore r == 0%Z then (8 * hour)%Z else rot_RenewBefore r.

Definition new_request : kprog (result (option CertificateSigningRequest)) :=
  let! seed := call (RandomBytes 32) onerr e => Ret (Err e) in
  match GenerateKey seed with
  | Err e => Ret (Err e)
  | Ok privateKey =>
      let! entropy := call (RandomBytes 32) onerr e => Ret (Err e) in
      match CreateCertificateRequest (rot_RegistrationUID r) entropy privateKey with
      | Err e => Ret (Err e)
      | Ok csrDER =>
          match MarshalECPrivateKey privateKey with
          | Err e => Ret (Err e)
          | Ok keyDER =>
              let! requestID := randomID onerr e => Ret (Err e) in
              let* _ := call (Env (Site (StorePending (Some (mkPendingRequest requestID
                (pem_EncodeToMemory (mkPemBlock "EC PRIVATE KEY" keyDER))))))) in
              Ret (Ok (Some (mkCertificateSigningRequest requestID
                (pem_EncodeToMemory (mkPemBlock "CERTIFICATE REQUEST" csrDER)))))
          end
      end
  end.

Definition Request : kprog (result (option CertificateSigningRequest)) :=
  let! current := CurrentCertificate onerr e => Ret (Err e) in
  let! desired := deploymentIdentity onerr e => Ret (Err e) in
  if current.2 != desired.2.2 then Ret (Ok None)
  else
    let! _ := cleanup desired.1 current.2 onerr e => Ret (Err e) in
    let* now := call Now in
    if time_Before (time_Add now renew_before) (crt_NotAfter current.1) then Ret (Ok None)
    else new_request.

(** ** Installation *)
Definition validateResponse (pending : PendingRequest) (response : CertificateResponse) : kprog (result Certificate) :=
  match parseCertificate (crs_CertificatePem response) with
  | Err e => Ret (Err e)
  | Ok (certificate, _) =>
      match tlsKeyPair (crs_CertificatePem response) (pr_keyPEM pending) with
      | Err e => Ret (Err (wrap_error "renewed certificate does not match generated private key" e))
      | Ok _ =>
          if negb (AppendCertsFromPEM (crs_CaBundlePem response))
          then Ret (Err (errors_New "renewed certificate response contains no CA certificates"))
          else
            let* now := call Now in
            match cert_Verify certificate (crs_CaBundlePem response) (Some [ClientAuth]) now with
            | Some e => Ret (Err (wrap_error "verify renewed certificate" e))
            | None =>
                if (crt_CommonName certificate != rot_RegistrationUID r) ||
                   (crt_URIs certificate != [site_identity (rot_RegistrationUID r)])
                then Ret (Err (errors_New "renewed certificate identity does not match the site registration"))
                else if crs_NotAfter response != Some (crt_NotAfter certificate)
                then Ret (Err (errors_New "renewed certificate expiry does not match the signed certificate"))
                else Ret (Ok certificate)
            end
      end
  end.

Definition optional_keys : list string := ["wg0.conf"; "wireguard-private-key"; "wireguard-public-key"].

Fixpoint read_keys (keys : list string) : kprog (result (gmap string string)) :=
  match keys with
  | [] => Ret (Ok ∅)
  | key :: keys =>
      let* got := identity_file key in
      match got with
      | Err e => if os_IsNotExist e && bool_decide (key ∈ optional_keys) then read_keys keys else Ret (Err e)
      | Ok value =>
          let! data := read_keys keys onerr e => Ret (Err e) in
          Ret (Ok (<[key := value]> data))
      end
  end.

Definition readCurrentIdentity : kprog (result (gmap string string)) :=
  read_keys ["ca.crt"; "plan-public-key"; "tls.crt"; "tls.key"; "wg0.conf"; "wireguard-private-key"; "wireguard-public-key"].

Definition nextIdentitySecretName : kprog (result string) :=
  let! deployment := deploymentIdentity onerr e => Ret (Err e) in
  Ret (Ok (if deploymentIdentitySecretName deployment.1 == "mspsql-agent-identity-a"
           then "mspsql-agent-identity-b" else "mspsql-agent-identity-a")).

Definition useSecret (name : string) : kprog (result unit) :=
  RetryOnConflict (
    let! deployment := call (Get KDeployment (rot_Namespace r) (rot_DeploymentName r)) onerr e => Ret (Err e) in
    if bool_decide (fmap (move_volume name) (pod_Volumes (pt_Spec (dep_Template deployment))) =
                    pod_Volumes (pt_Spec (dep_Template deployment)))
    then Ret (Ok tt)
    else
      let! _ := call (Update KDeployment (moved name deployment)) onerr e => Ret (Err e) in
      Ret (Ok tt)).

Definition identity_secret (name : string) (data : gmap string string) : Secret :=
  mkSecret (zero_ObjectMeta <| meta_Namespace := rot_Namespace r |> <| meta_Name := name |>
    <| meta_Labels := {[ managedLabel := "true" ]} |>) (Some true) data.

(** Create the Secret, or accept one that has the certificate already. *)
Definition store_identity (name : string) (data : gmap string string) (response : CertificateResponse) : kprog (result unit) :=
  let* created := call (Create KSecret (identity_secret name data)) in
  match created with
  | Ok _ => Ret (Ok tt)
  | Err e =>
      if negb (IsAlreadyExists e) then Ret (Err e)
      else
        let! existing := call (Get KSecret (rot_Namespace r) name) onerr e => Ret (Err e) in
        Ret (if sec_Data existing !!! "tls.crt" != crs_CertificatePem response
             then Err (errors_New ("identity Secret " +:+ name +:+ " already exists with different certificate data"))
             else Ok tt)
  end.

Definition finish_install (name : string) (data : gmap string string) (response : CertificateResponse) : kprog (result unit) :=
  let! _ := store_identity name data response onerr e => Ret (Err e) in
  let! _ := useSecret name onerr e => Ret (Err e) in
  let* _ := call (Env (Site (StorePending None))) in
  Ret (Ok tt).

Definition Install (response : CertificateResponse) : kprog (result unit) :=
  let* pending := call (Env (Site LoadPending)) in
  match pending with
  | None => Ret (Err (errors_New "certificate response does not match the pending request"))
  | Some pending =>
      if crs_RequestId response != pr_id pending
      then Ret (Err (errors_New "certificate response does not match the pending request"))
      else
        let! _ := validateResponse pending response onerr e => Ret (Err e) in
        let! data := readCurrentIdentity onerr e => Ret (Err e) in
        let data := <["ca.crt" := crs_CaBundlePem response]> (<["tls.key" := pr_keyPEM pending]>
                      (<["tls.crt" := crs_CertificatePem response]> data)) in
        let! name := nextIdentitySecretName onerr e => Ret (Err e) in
        let* deleted := call (Delete KSecret (mkSecret (zero_ObjectMeta <| meta_Namespace := rot_Namespace r |>
          <| meta_Name := name |>) None ∅)) in
        match deleted with
        | Err e => if IsNotFound e then finish_install name data response else Ret (Err e)
        | Ok _ => finish_install name data response
        end
  end.
End identity.
