(* ===== verification/Inventory.v ===== *)
(** * Site inventory

    [internal/agent/inventory.go]: the storage classes, snapshot classes and
    certificate issuers of a cluster, as the agent reports them to the hub. *)

From S2P Require Import Prelude Prog Api Workloads Messages Kube Codec RenderBase.

Record SiteInventory := mkSiteInventory {
  inv_StorageClasses : list StorageClassInventory;
  inv_VolumeSnapshotClasses : list VolumeSnapshotClassInventory;
  inv_Issuers : list IssuerReference
}.

Definition topologyTerms (terms : list (list TopologySelector)) : list string :=
  Compact (SortStrings (concat ((fun expression => (fun value => tps_Key expression +:+ "=" +:+ value) <$> tps_Values expression) <$>
    concat terms))).

Definition storage_inventory (storageClass : StorageClass) : StorageClassInventory :=
  mkStorageClassInventory (meta_Name (scl_Meta storageClass)) (scl_Provisioner storageClass)
    (default "" (scl_ReclaimPolicy storageClass)) (default "" (scl_VolumeBindingMode storageClass))
    (default false (scl_AllowVolumeExpansion storageClass)) (topologyTerms (scl_AllowedTopologies storageClass)) [].

(** [slices.CompactFunc(l, ==)] *)
Fixpoint compact {A} `{EqDecision A} (l : list A) : list A :=
  match l with
  | x :: ((y :: _) as rest) => if bool_decide (x = y) then compact rest else x :: compact rest
  | l => l
  end.

(** The order of issuers: by kind, then by name. *)
Definition issuer_le (left right : IssuerReference) : Prop :=
  if bool_decide (ir_Kind left = ir_Kind right) then String.le (ir_Name left) (ir_Name right)
  else String.le (ir_Kind left) (ir_Kind right).
#[global] Instance issuer_le_dec left right : Decision (issuer_le left right).
Proof. unfold issuer_le. case_bool_decide; apply _. Defined.

Definition list_issuers (kind : string) : kprog (result (list IssuerReference)) :=
  let names (items : list Unstructured) : list IssuerReference :=
    (fun item => mkIssuerReference (meta_Name (us_Meta item)) kind "cert-manager.io") <$> items in
  let failed (e : Error) : result (list IssuerReference) :=
    if IsNoMatchError e then Ok [] else Err (wrap_error ("list cert-manager " +:+ kind +:+ " resources") e) in
  if kind == "Issuer" then
    let! items := call (List KIssuer None ∅) onerr e => Ret (failed e) in
    Ret (Ok (names items))
  else
    let! items := call (List KClusterIssuer None ∅) onerr e => Ret (failed e) in
    Ret (Ok (names items)).

Definition discoverIssuers : kprog (result (list IssuerReference)) :=
  let! namespaced := list_issuers "Issuer" onerr e => Ret (Err e) in
  let! cluster := list_issuers "ClusterIssuer" onerr e => Ret (Err e) in
  Ret (Ok (compact (merge_sort issuer_le (namespaced ++ cluster)))).

Definition nested_text (o : list (string * Value)) (name : string) : string :=
  match NestedString o [name] with Some (Some text) => text | _ => "" end.

Definition snapshot_le (left right : VolumeSnapshotClassInventory) : Prop := String.le (vsci_Name left) (vsci_Name right).
#[global] Instance snapshot_le_dec left right : Decision (snapshot_le left right).
Proof. unfold snapshot_le. apply _. Defined.

Definition discoverVolumeSnapshotClasses : kprog (result (list VolumeSnapshotClassInventory)) :=
  let! items := call (List KVolumeSnapshotClass None ∅) onerr e =>
    Ret (if IsNoMatchError e then Ok [] else Err (wrap_error "list VolumeSnapshotClasses" e)) in
  Ret (Ok (merge_sort snapshot_le ((fun item =>
    mkVolumeSnapshotClassInventory (meta_Name (us_Meta item)) (nested_text (us_Object item) "driver")
      (nested_text (us_Object item) "deletionPolicy")) <$> items))).

Definition storage_le (left right : StorageClassInventory) : Prop := String.le (sci_Name left) (sci_Name right).
#[global] Instance storage_le_dec left right : Decision (storage_le left right).
Proof. unfold storage_le. apply _. Defined.

Definition DiscoverInventory {J : Json SiteInventory} : kprog (result string) :=
  let! storageClasses := call (List KStorageClass None ∅) onerr e => Ret (Err (wrap_error "list StorageClasses" e)) in
  let! issuers := discoverIssuers onerr e => Ret (Err e) in
  let! snapshotClasses := discoverVolumeSnapshotClasses onerr e => Ret (Err e) in
  Ret (json_Marshal (mkSiteInventory (merge_sort storage_le (storage_inventory <$> storageClasses)) snapshotClasses issuers)).
