(* ===== verification/Bootstrap.v ===== *)
(** * The agent's first identity

    [cmd/site-agent/bootstrap.go]: an agent without an identity makes its keys,
    binds itself to the site with the registration token, stores what the hub
    answers and removes the token from its cluster.  The HTTP client of the
    binding has the system's roots. *)

From S2P Require Import Prelude Prog Api Messages Kube Codec NetAddr WireGuard Registration AgentCertificates Vault.

Definition bootstrapSecret : string := "mspsql-agent-bootstrap".
Definition applied_annotation : string := "kubectl.kubernetes.io/last-applied-configuration".

(** [json.NewDecoder(io.LimitReader(body, 64<<10)).Decode] *)
Class ReplyCodec := { DecodeReply : string -> result BindResponse }.

Section bootstrap.
Context {K : KubeLib} {Cu : Curve} {X : X509} {P : Pki} {JR : Json BindRequest} {RC : ReplyCodec}.

Definition readTrimmed (path : string) : kprog (result string) :=
  let! value := call (Env (ReadFile path)) onerr e => Ret (Err e) in
  Ret (Ok (TrimSpace value)).

Definition scrubBootstrapCredential (namespace : string) : kprog (result unit) :=
  RetryOnConflict (
    let* got := call (Get KSecret namespace bootstrapSecret) in
    match got with
    | Err e => Ret (if IsNotFound e then Ok tt else Err e)
    | Ok secret =>
        if bool_decide (sec_Data secret !! "registration-token" = None) &&
           bool_decide (meta_Annotations (sec_Meta secret) !! applied_annotation = None)
        then Ret (Ok tt)
        else
          let! _ := call (Update KSecret (secret <| sec_Data ::= delete "registration-token" |>
            <| sec_Meta ::= set meta_Annotations (delete applied_annotation) |>)) onerr e => Ret (Err e) in
          Ret (Ok tt)
    end).

(** The keys an agent starts with: its TLS key, the DER of a request for it, and its WireGuard keys. *)
Definition bootstrap_keys : kprog (result (string * string * string * string)) :=
  let! seed := call (RandomBytes 32) onerr e => Ret (Err e) in
  match GenerateKey seed with
  | Err e => Ret (Err e)
  | Ok tlsKey =>
      let! entropy := call (RandomBytes 32) onerr e => Ret (Err e) in
      match CreateCertificateRequest "mspsql-site-agent-bootstrap" entropy tlsKey with
      | Err e => Ret (Err e)
      | Ok csrDER =>
          let! scalar := call (RandomBytes curve25519_ScalarSize) onerr e => Ret (Err e) in
          match X25519_base (clamp scalar) with
          | Err e => Ret (Err e)
          | Ok wireGuardPublic => Ret (Ok (tlsKey, csrDER, clamp scalar, wireGuardPublic))
          end
      end
  end.

(** The body of a response, at most [limit] bytes of it. *)
Definition limited (limit : nat) (body : result string) : result string :=
  match body with Ok text => Ok (String.substring 0 limit text) | Err e => Err e end.

Definition bind_url (publicURL token : string) : string := trim_right_slash publicURL +:+ "/" +:+ token +:+ "/bind".

Definition bind_agent (publicURL token : string) (request : BindRequest) : kprog (result BindResponse) :=
  match json_Marshal request with
  | Err e => Ret (Err e)
  | Ok requestBody =>
      let! response := call (Env (Site (HTTPDo (mkHTTPRequest "POST" (bind_url publicURL token) "" (Some requestBody) None))))
        onerr e => Ret (Err e) in
      if hrs_StatusCode response != 200%Z then
        Ret (Err (errors_New ("registration failed with HTTP " +:+ FormatInt (hrs_StatusCode response) +:+ ": " +:+
          match limited 4096 (hrs_Body response) with Ok message => TrimSpace message | Err _ => "" end)))
      else match limited (64 * 1024) (hrs_Body response) with
      | Err e => Ret (Err e)
      | Ok text => Ret (DecodeReply text)
      end
  end.

Definition bootstrap_identity (namespace keyDER wireGuardPrivate wireGuardPublic : string) (binding : BindResponse) : Secret :=
  mkSecret (zero_ObjectMeta <| meta_Namespace := namespace |> <| meta_Name := "mspsql-agent-identity" |>) (Some true)
    (list_to_map [
      ("tls.crt", bp_CertificatePEM binding);
      ("tls.key", pem_EncodeToMemory (mkPemBlock "EC PRIVATE KEY" keyDER));
      ("ca.crt", bp_CABundlePEM binding);
      ("plan-public-key", bp_PlanPublicKey binding);
      ("plan-public-key-id", bp_PlanPublicKeyID binding);
      ("wireguard-private-key", Base64.std_EncodeToString wireGuardPrivate);
      ("wireguard-public-key", Base64.std_EncodeToString wireGuardPublic);
      ("wireguard-key-id", bp_WireGuardKeyID binding);
      ("revocation-epoch", bp_RevocationEpoch binding);
      ("wg0.conf", "[Interface]" +:+ lf +:+ "PrivateKey = " +:+ Base64.std_EncodeToString wireGuardPrivate +:+ lf +:+ bp_WireGuardPeerState binding)]).

Definition bootstrapIfRequired (namespace identityPath bootstrapPath clusterUID : string) : kprog (result bool) :=
  let* identity := call (Env (Site (Stat identityPath))) in
  match identity with
  | Ok _ => let! _ := scrubBootstrapCredential namespace onerr e => Ret (Err e) in Ret (Ok false)
  | Err e =>
      if negb (os_IsNotExist e) then Ret (Err e)
      else
        let! publicURL := readTrimmed (bootstrapPath +:+ "/registration-url") onerr e => Ret (Err e) in
        let! token := readTrimmed (bootstrapPath +:+ "/registration-token") onerr e => Ret (Err e) in
        let! keys := bootstrap_keys onerr e => Ret (Err e) in
        let '(tlsKey, csrDER, wireGuardPrivate, wireGuardPublic) := keys in
        let! binding := bind_agent publicURL token (mkBindRequest clusterUID
          (pem_EncodeToMemory (mkPemBlock "CERTIFICATE REQUEST" csrDER)) (Base64.std_EncodeToString wireGuardPublic))
          onerr e => Ret (Err e) in
        match MarshalECPrivateKey tlsKey with
        | Err e => Ret (Err e)
        | Ok keyDER =>
            let! _ := call (Create KSecret (bootstrap_identity namespace keyDER wireGuardPrivate wireGuardPublic binding))
              onerr e => Ret (Err e) in
            let! _ := scrubBootstrapCredential namespace onerr e => Ret (Err e) in
            Ret (Ok true)
        end
  end.
End bootstrap.
