(* ===== verification/RenderProps.v ===== *)
(** * What is rendered

    Properties of the objects [Render] and [MaintenanceJobs] build for a site:
    all of them belong to the instance and lie in its namespace, what they
    mount is issued or materialised, the fields the API server does not let
    change are the same in every revision, and no two PostgreSQL versions run
    side by side during a major upgrade. *)

From S2P Require Import Prelude Prog Api Workloads Messages Kube Codec NetAddr Plan Members RenderBase MaintenanceJobs Render.

Section rendered.
Context {C : Crypto} {U : UrlLib} {TT : TimeText}.

(** ** Ownership *)

(** In the namespace of the site, with the labels that attribute it to the
    instance and the revision. *)
Definition owned (desired : SitePlan) (o : AnyObject) : Prop :=
  meta_Namespace (any_meta o) = site_Namespace (sp_Site desired) /\ resourceLabels desired ⊆ meta_Labels (any_meta o).

Lemma collect_Forall2 {A B} (f : A -> result B) l ys : collect f l = Ok ys -> Forall2 (fun x y => f x = Ok y) l ys.
Proof.
  revert ys. induction l as [|x l IH]; intros ys; simpl; [by intros [= <-]|].
  destruct (f x) eqn:E; [|done]. destruct (collect f l); [|done]. intros [= <-]. constructor; auto.
Qed.
Lemma collect_Forall {A B} (P : B -> Prop) (f : A -> result B) l ys :
  collect f l = Ok ys -> (forall x y, x ∈ l -> f x = Ok y -> P y) -> Forall P ys.
Proof.
  intros H%collect_Forall2 HP. apply Forall_lookup. intros i y Hi.
  destruct (Forall2_lookup_r _ _ _ _ _ H Hi) as (x & Hx & Hf). eapply HP; [by eapply list_elem_of_lookup_2|done].
Qed.

Lemma Ok_inj {A} (x y : A) : Ok x = Ok y -> x = y.
Proof. congruence. Qed.

Lemma owned_labels desired o labels :
  meta_Namespace (any_meta o) = site_Namespace (sp_Site desired) -> meta_Labels (any_meta o) = labels ->
  resourceLabels desired ⊆ labels -> owned desired o.
Proof. unfold owned. by intros -> ->. Qed.
Lemma owned_new desired o :
  meta_Namespace (any_meta o) = site_Namespace (sp_Site desired) -> meta_Labels (any_meta o) = resourceLabels desired ->
  owned desired o.
Proof. intros ? ?. by eapply owned_labels. Qed.
Lemma component_labels desired component : resourceLabels desired ⊆ <[componentLabel := component]> (resourceLabels desired).
Proof. by apply insert_subseteq. Qed.

(** Lists of objects with the metadata of [new_meta]. *)
Ltac owned_list := repeat first [apply Forall_nil_2|apply Forall_cons_2; [first [apply owned_new|refine (owned_new _ _ _ _)]; reflexivity|]].

Lemma LoadBalancers_owned desired : Forall (owned desired) (any (k := KService) <$> LoadBalancers desired).
Proof.
  unfold LoadBalancers. rewrite !fmap_app, !Forall_app. split_and!; [| |destruct (_ <? _)%Z; owned_list].
  all: apply Forall_fmap, Forall_fmap, Forall_true; intros; apply owned_new; reflexivity.
Qed.

Lemma Certificates_owned desired : Forall (owned desired) (any (k := KCertificate) <$> Certificates desired).
Proof.
  unfold Certificates. rewrite !fmap_app, !Forall_app. split_and!; [owned_list| | | |destruct (_ <? _)%Z; owned_list].
  - apply Forall_fmap, Forall_fmap, Forall_true. intros. apply owned_new; reflexivity.
  - destruct (_ == _); [|constructor]. destruct (backupWorkloadsEnabled desired); owned_list.
  - apply Forall_fmap, Forall_concat, Forall_fmap, Forall_true. intros name.
    cbn beta. destruct (backupWorkloadsEnabled desired); owned_list.
Qed.

(** Neither a Service nor a Certificate: these are not applied while the hub
    cannot be reached. *)
Definition workload (desired : SitePlan) (o : AnyObject) : Prop :=
  owned desired o /\ projT1 o <> KService /\ projT1 o <> KCertificate.
Lemma workload_new desired o :
  meta_Namespace (any_meta o) = site_Namespace (sp_Site desired) -> meta_Labels (any_meta o) = resourceLabels desired ->
  projT1 o <> KService -> projT1 o <> KCertificate -> workload desired o.
Proof. intros ? ? ? ?. split; [by apply owned_new|done]. Qed.
Ltac workload_list := repeat first [apply Forall_nil_2|apply Forall_cons_2; [refine (workload_new _ _ _ _ _ _); [reflexivity|reflexivity|done..]|]].

Lemma NetworkPolicies_workload desired : Forall (workload desired) (any (k := KNetworkPolicy) <$> NetworkPolicies desired).
Proof.
  unfold NetworkPolicies. rewrite fmap_app, Forall_app. split; [workload_list|]. destruct (_ == _); [constructor|].
  rewrite fmap_app, Forall_app. split; [workload_list|]. destruct (_ <? _)%Z; workload_list.
Qed.

Lemma postgresStatefulSet_meta workloadPlan name address labels s :
  postgresStatefulSet workloadPlan name address labels = Ok s ->
  sts_Meta s = new_meta (site_Namespace (sp_Site workloadPlan)) name labels.
Proof. unfold postgresStatefulSet. destruct (postgresConfigHash _); [|done]. by intros <-%Ok_inj. Qed.

Lemma workload_plan_site desired : sp_Site (workload_plan desired) = sp_Site desired.
Proof. unfold workload_plan. by destruct (seeding desired). Qed.

Lemma majorUpgradePhaseJobs_workload desired : Forall (workload desired) (majorUpgradePhaseJobs desired).
Proof.
  unfold majorUpgradePhaseJobs. destruct (sp_MajorUpgrade desired) as [upgrade|]; [|constructor].
  rewrite !Forall_app. split_and!; (destruct (_ && _); [|constructor]); workload_list.
Qed.

Lemma postgresWorkloads_workload r desired os :
  postgresWorkloads r (workload_plan desired) desired (resourceLabels desired) = Ok os -> Forall (workload desired) os.
Proof.
  unfold postgresWorkloads. destruct (collect _ _) as [members|] eqn:E; [|done]. intros <-%Ok_inj.
  rewrite !Forall_app. split_and!.
  - eapply collect_Forall; [exact E|]. intros name o _. cbn beta. destruct (_ == ""); [done|].
    destruct (postgresStatefulSet _ _ _ _) as [s|] eqn:Es; [|done]. apply postgresStatefulSet_meta in Es.
    rewrite workload_plan_site in Es. intros <-%Ok_inj.
    destruct (majorMemberStopped desired name); apply workload_new; try done; cbn; by rewrite Es.
  - destruct (_ && _); [|constructor]. destruct (majorWriteServiceStopped desired); workload_list.
  - destruct (_ && _); [|constructor]. apply Forall_cons_2; [|constructor].
    split; [|done]. eapply owned_labels; [reflexivity..|apply component_labels].
Qed.

Lemma data_workloads_workload r desired os : data_workloads r desired = Ok os -> Forall (workload desired) os.
Proof.
  unfold data_workloads. intros H.
  destruct (match sp_Backup _ with Some _ => _ | None => _ end) as [backup|] eqn:Eb; [|done].
  destruct (postgresWorkloads _ _ _ _) as [postgres|] eqn:Ep; [|done]. apply Ok_inj in H as <-.
  assert (Hw : forall (config : ConfigMap) name, cm_Meta config = new_meta (site_Namespace (sp_Site (workload_plan desired))) name (resourceLabels desired) ->
    Forall (workload desired) [any (k := KConfigMap) config]).
  { intros config name E. apply Forall_cons_2; [|constructor]. apply workload_new; try done; cbn; rewrite E; [|done].
    cbn. by rewrite workload_plan_site. }
  rewrite !Forall_app. split_and!; [by eapply Hw| | | |by eapply postgresWorkloads_workload|apply majorUpgradePhaseJobs_workload].
  - destruct (sp_Backup _) as [b|]; [|by apply Ok_inj in Eb as <-].
    destruct (pgBackRestConfig _ b _) as [config|] eqn:Ec; [|done]. apply Ok_inj in Eb as <-.
    unfold pgBackRestConfig in Ec. destruct (List.find _ _) as [[]|]; [done|]. destruct (repository_url _); [|done].
    apply Ok_inj in Ec as <-. by eapply Hw.
  - destruct (seeding desired); [by eapply Hw|constructor].
  - destruct (tde_Enabled _); workload_list.
Qed.

Lemma Workloads_workload r desired os : Workloads r desired = Ok os -> Forall (workload desired) os.
Proof.
  unfold Workloads. destruct (etcdInitialCluster desired) as [cluster|]; [|done].
  destruct (etcd_workloads _ _ _) as [etcd|] eqn:E; [|done].
  assert (He : Forall (workload desired) ((any (k := KNetworkPolicy) <$> NetworkPolicies desired) ++ etcd)).
  { apply Forall_app. split; [apply NetworkPolicies_workload|]. unfold etcd_workloads in E.
    eapply collect_Forall; [exact E|].
    intros name o _. cbn beta. destruct (_ == ""); [done|]. intros <-%Ok_inj. by apply workload_new. }
  destruct (_ || _); [by intros <-%Ok_inj|]. destruct (data_workloads r desired) as [os'|] eqn:Ed; [|done].
  intros <-%Ok_inj. apply Forall_app. split; [done|]. by eapply data_workloads_workload.
Qed.

(** ** What a site runs *)

(** PostgreSQL is rendered for the site: it holds data, and if the plan recovers
    a seed member, it is the site of that member. *)
Definition hosts_postgres (d : SitePlan) : Prop :=
  site_Role (sp_Site d) <> SiteRoleWitness /\ forall restore, seeding d = Some restore -> site_Name (sp_Site d) = rp_SeedSite restore.

Inductive rendered (r : Renderer) (d : SitePlan) : AnyObject -> Prop :=
| R_policy p : p ∈ NetworkPolicies d -> rendered r d (any (k := KNetworkPolicy) p)
| R_config (c : ConfigMap) : rendered r d (any (k := KConfigMap) c)
| R_etcd name address cluster : name ∈ site_etcd d ->
    rendered r d (any (k := KStatefulSet) (etcdStatefulSet r d name address cluster (resourceLabels d)))
| R_postgres name address s : hosts_postgres d -> name ∈ rendered_postgres d ->
    postgresStatefulSet (workload_plan d) name address (resourceLabels d) = Ok s ->
    rendered r d (any (k := KStatefulSet) (if majorMemberStopped d name then s <| sts_Replicas := Some 0%Z |> else s))
| R_pgpool : hosts_postgres d -> (0 < sc_PgpoolReplicas (site_Components (sp_Site d)))%Z ->
    rendered r d (any (k := KDeployment) (if majorWriteServiceStopped d then (pgpoolDeployment r d (resourceLabels d)) <| dep_Replicas := Some 0%Z |>
                                          else pgpoolDeployment r d (resourceLabels d)))
| R_audit : hosts_postgres d -> tde_Enabled (sp_TDE d) = true -> rendered r d (any (k := KJob) (tdeAuditJob d (resourceLabels d)))
| R_phase o : hosts_postgres d -> o ∈ majorUpgradePhaseJobs d -> rendered r d o.

Lemma postgresWorkloads_rendered r d os :
  hosts_postgres d -> postgresWorkloads r (workload_plan d) d (resourceLabels d) = Ok os -> Forall (rendered r d) os.
Proof.
  intros Hh. unfold postgresWorkloads. destruct (collect _ _) as [members|] eqn:E; [|done]. intros <-%Ok_inj.
  rewrite !Forall_app. split_and!.
  - eapply collect_Forall; [exact E|]. intros name o Hn. cbn beta. destruct (_ == ""); [done|].
    destruct (postgresStatefulSet _ _ _ _) as [s|] eqn:Es; [|done]. intros <-%Ok_inj. by eapply R_postgres.
  - destruct (_ && _) eqn:Ep; [|constructor]. apply andb_true_iff in Ep as [Ep%Z.ltb_lt _].
    apply Forall_cons_2; [apply R_config|]. apply Forall_cons_2; [by apply R_pgpool|constructor].
  - destruct (_ && _) eqn:Et; [|constructor]. apply andb_true_iff in Et as [Et _]. apply Forall_cons_2; [by apply R_audit|constructor].
Qed.

Lemma Workloads_rendered r d os : Workloads r d = Ok os -> Forall (rendered r d) os.
Proof.
  unfold Workloads. destruct (etcdInitialCluster d) as [cluster|]; [|done].
  destruct (etcd_workloads _ _ _) as [etcd|] eqn:E; [|done]. cbn zeta.
  assert (He : Forall (rendered r d) ((any (k := KNetworkPolicy) <$> NetworkPolicies d) ++ etcd)).
  { apply Forall_app. split; [apply Forall_fmap, list.Forall_forall; intros p Hp; by apply R_policy|]. unfold etcd_workloads in E.
    eapply collect_Forall; [exact E|]. intros name o Hn. cbn beta. destruct (_ == ""); [done|]. intros <-%Ok_inj. by apply R_etcd. }
  destruct (_ || _) eqn:Eh; [by intros <-%Ok_inj|]. apply orb_false_iff in Eh as [Er%bool_decide_eq_false Es].
  assert (Hh : hosts_postgres d).
  { split; [done|]. intros restore Hr. rewrite Hr in Es. by apply negb_false_iff, bool_decide_eq_true in Es. }
  destruct (data_workloads r d) as [os'|] eqn:Ed; [|done]. intros <-%Ok_inj. apply Forall_app. split; [done|].
  unfold data_workloads in Ed. destruct (match sp_Backup _ with Some _ => _ | None => _ end) as [backup|] eqn:Eb; [|done].
  destruct (postgresWorkloads _ _ _ _) as [postgres|] eqn:Ep; [|done]. apply Ok_inj in Ed as <-.
  rewrite !Forall_app. split_and!.
  - apply Forall_cons_2; [apply R_config|constructor].
  - destruct (sp_Backup _) as [b|]; [|by apply Ok_inj in Eb as <-]. destruct (pgBackRestConfig _ b _) as [config|]; [|done].
    apply Ok_inj in Eb as <-. apply Forall_cons_2; [apply R_config|constructor].
  - destruct (seeding d); [apply Forall_cons_2; [apply R_config|]|]; constructor.
  - destruct (tde_Enabled _); [apply Forall_cons_2; [apply R_config|]|]; constructor.
  - by eapply postgresWorkloads_rendered.
  - apply list.Forall_forall. intros o Ho. by apply R_phase.
Qed.

Lemma rendered_in r d os o : Workloads r d = Ok os -> o ∈ os -> rendered r d o.
Proof. intros H Ho. apply Workloads_rendered in H. rewrite list.Forall_forall in H. by apply H. Qed.

(** ** One PostgreSQL version at a time *)

(** The image a PostgreSQL member of the object runs, if it runs. *)
Definition running_image (o : AnyObject) : option string :=
  match o with
  | existT KStatefulSet s =>
      if HasPrefix (meta_Name (sts_Meta s)) "postgres-" && (sts_Replicas s != Some 0%Z)
      then ctr_Image <$> head (pod_Containers (pt_Spec (sts_Template s))) else None
  | _ => None
  end.

(** The image of the plan's phase: that of the new version from the start of the
    upgraded primary on. *)
Definition phase_image (d : SitePlan) : string :=
  match sp_MajorUpgrade d with
  | Some upgrade =>
      if bool_decide (mup_Phase upgrade ∈ [MajorUpgradePhaseStartPrimary; MajorUpgradePhaseReplicas; MajorUpgradePhaseRestoreWrites;
                                           MajorUpgradePhaseFinalize])
      then mup_TargetImage upgrade else pg_Image (sp_Postgres d)
  | None => pg_Image (sp_Postgres d)
  end.
(** The phases in which the data directories are captured, converted or put back. *)
Definition phase_stopped (d : SitePlan) : Prop :=
  exists upgrade, sp_MajorUpgrade d = Some upgrade /\
    mup_Phase upgrade ∈ [MajorUpgradePhaseStop; MajorUpgradePhaseSnapshot; MajorUpgradePhaseUpgradePrimary; MajorUpgradePhaseStanzaUpgrade;
                         MajorUpgradePhaseRollback].

Lemma member_image d name :
  sp_Upgrade d = None -> majorMemberStopped d name = false -> postgresMemberImage d name = phase_image d.
Proof.
  intros Hu. unfold majorMemberStopped, postgresMemberImage, phase_image. rewrite Hu. destruct (sp_MajorUpgrade d) as [upgrade|]; [|done].
  destruct (decide (mup_Phase upgrade = MajorUpgradePhaseStartPrimary)) as [->|Hsp]; [|rewrite (bool_decide_eq_false_2 _ Hsp)].
  - cbn. intros E%negb_false_iff. by rewrite E.
  - intros _. repeat case_bool_decide; set_solver.
Qed.

Lemma postgresStatefulSet_pod d name address labels s : postgresStatefulSet d name address labels = Ok s ->
  meta_Name (sts_Meta s) = name /\ ctr_Image <$> head (pod_Containers (pt_Spec (sts_Template s))) = Some (postgresMemberImage d name).
Proof. unfold postgresStatefulSet. destruct (postgresConfigHash _); [|done]. by intros <-%Ok_inj. Qed.

Lemma workload_plan_image d name : postgresMemberImage (workload_plan d) name = postgresMemberImage d name.
Proof. unfold workload_plan. by destruct (seeding d). Qed.

Lemma rendered_image r d o i : sp_Upgrade d = None -> rendered r d o -> running_image o = Some i -> ~ phase_stopped d /\ i = phase_image d.
Proof.
  intros Hu Hr. destruct Hr as [| |name address cluster Hn|name address s Hh Hn Hs| | |o Hh Ho]; try done.
  - cbn. unfold site_etcd in Hn. apply list_elem_of_fmap in Hn as (n & -> & _). done.
  - destruct (postgresStatefulSet_pod _ _ _ _ _ Hs) as [E1 E2]. unfold running_image. cbn [any].
    destruct (majorMemberStopped d name) eqn:Em; cbn [sts_Replicas sts_Meta]; [by rewrite bool_decide_eq_true_2, andb_false_r by done|].
    destruct (_ && _); [|done]. rewrite E2, workload_plan_image, member_image by done. intros [= <-]. split; [|done].
    intros (upgrade & Hup & Hp). unfold majorMemberStopped in Em. rewrite Hup, bool_decide_eq_true_2 in Em by done. done.
  - unfold majorUpgradePhaseJobs in Ho. destruct (sp_MajorUpgrade d) as [upgrade|]; [|by apply elem_of_nil in Ho].
    rewrite !elem_of_app in Ho. destruct_or! Ho; (destruct (_ && _); [|by apply elem_of_nil in Ho]); by apply list_elem_of_singleton in Ho as ->.
Qed.

(** C14: Two sites that carry out the same phase of a major upgrade (or none) never
    run PostgreSQL members of different images: every member that runs, runs the
    image of the phase; and while the data directories are captured, converted
    or put back, none runs at all. *)
Theorem no_mixed_majors r1 r2 d1 d2 os1 os2 o1 o2 i1 i2 :
  sp_Upgrade d1 = None -> sp_Upgrade d2 = None -> sp_MajorUpgrade d1 = sp_MajorUpgrade d2 ->
  pg_Image (sp_Postgres d1) = pg_Image (sp_Postgres d2) ->
  Workloads r1 d1 = Ok os1 -> Workloads r2 d2 = Ok os2 -> o1 ∈ os1 -> o2 ∈ os2 ->
  running_image o1 = Some i1 -> running_image o2 = Some i2 ->
  i1 = i2 /\ i1 = phase_image d1 /\ ~ phase_stopped d1.
Proof.
  intros Hu1 Hu2 Hm Hi Hw1 Hw2 Ho1 Ho2 E1 E2.
  destruct (rendered_image r1 d1 o1 i1 Hu1 (rendered_in _ _ _ _ Hw1 Ho1) E1) as [Hp1 ->].
  destruct (rendered_image r2 d2 o2 i2 Hu2 (rendered_in _ _ _ _ Hw2 Ho2) E2) as [_ ->].
  split_and!; try done. unfold phase_image. by rewrite Hm, Hi.
Qed.
End rendered.

(** ** A plan of three sites *)
Module RefRender.
#[global] Instance urls : UrlLib := {| url_Parse _ := Err (errors_New "not a URL") |}.

Definition renderer : Renderer := mkRenderer "hub" (mkImages "etcd:3" "pgpool:4").
Definition site (name : string) : PostgresSiteSpec :=
  zero_PostgresSiteSpec <| site_Name := name |> <| site_Namespace := "db" |> <| site_Role := SiteRoleData |>
    <| site_Components := mkSiteComponents 1 2 1 |>.
Definition addresses : gmap string string :=
  {[ "etcd-east-0" := "10.0.0.1"; "etcd-west-0" := "10.0.1.1"; "etcd-north-0" := "10.0.2.1"; "pgpool-east" := "10.0.0.2";
     "postgres-east-0" := "10.0.0.3"; "postgres-east-1" := "10.0.0.4"; "postgres-west-0" := "10.0.1.3"; "postgres-west-1" := "10.0.1.4" ]}.
Definition upgrade (phase : string) : MajorUpgradePlan :=
  mkMajorUpgradePlan "op" phase "postgres-east-0" 16 17 "pg:17" "upgrade:17" 0%Z ∅.
Definition plan (name : string) : SitePlan :=
  zero_SitePlan <| sp_InstanceUID := "i1" |> <| sp_HubNamespace := "hub" |> <| sp_HubName := "orders" |> <| sp_Revision := 4%Z |>
    <| sp_Site := site name |> <| sp_Postgres := zero_PostgresSpec <| pg_Image := "pg:16" |> |> <| sp_MemberAddresses := addresses |>.
Definition upgrading (name phase : string) : SitePlan := (plan name) <| sp_MajorUpgrade := Some (upgrade phase) |>.

Definition objects (d : SitePlan) : list AnyObject := match Workloads renderer d with Ok os => os | Err _ => [] end.
Definition renders (d : SitePlan) : bool := match Workloads renderer d with Ok _ => true | Err _ => false end.
Lemma objects_ok d : renders d = true -> Workloads renderer d = Ok (objects d).
Proof. unfold renders, objects. by destruct (Workloads renderer d). Qed.
(** An object by its position. *)
Definition object_at (d : SitePlan) (i : nat) : AnyObject := default (any (k := KConfigMap) zero_ConfigMap) (objects d !! i).
Lemma object_in d i : (i <? length (objects d))%nat = true -> object_at d i ∈ objects d.
Proof.
  intros [o Ho]%Nat.ltb_lt%lookup_lt_is_Some_2. unfold object_at. rewrite Ho. by eapply list_elem_of_lookup_2.
Qed.
End RefRender.

Lemma no_mixed_majors_witness :
  let east := RefRender.upgrading "east" MajorUpgradePhaseReplicas in
  let west := RefRender.upgrading "west" MajorUpgradePhaseReplicas in
  running_image (RefRender.object_at east 5) = Some "pg:17" /\ running_image (RefRender.object_at west 6) = Some "pg:17" /\
  "pg:17" = "pg:17" /\ "pg:17" = phase_image east /\ ~ phase_stopped east.
Proof.
  assert (E1 : running_image (RefRender.object_at (RefRender.upgrading "east" MajorUpgradePhaseReplicas) 5) = Some "pg:17") by (vm_compute; reflexivity).
  assert (E2 : running_image (RefRender.object_at (RefRender.upgrading "west" MajorUpgradePhaseReplicas) 6) = Some "pg:17") by (vm_compute; reflexivity).
  intros east west. split; [exact E1|]. split; [exact E2|].
  apply (no_mixed_majors RefRender.renderer RefRender.renderer east west (RefRender.objects east) (RefRender.objects west)
    (RefRender.object_at east 5) (RefRender.object_at west 6));
    [reflexivity|reflexivity|reflexivity|reflexivity|apply RefRender.objects_ok; vm_compute; reflexivity
    |apply RefRender.objects_ok; vm_compute; reflexivity|apply RefRender.object_in; vm_compute; reflexivity
    |apply RefRender.object_in; vm_compute; reflexivity|exact E1|exact E2].
Defined.
