(* ===== verification/SqlProps.v ===== *)
(** * Names cannot change the statements

    The scripts of [Sql] as the programs that read them see them.  psql and the
    server split a script into quoted tokens and other characters; the shell
    ends a here-document at the first line that is its delimiter.  Both readers
    are small automata over the characters ([scan]), and the theorems are about
    what they read: a quoted name is read back as the name, two declarations
    that differ in names only give the same statements, and no admitted name
    ends the here-document. *)

From Stdlib Require Import DecimalString.
From S2P Require Import Prelude Utf8 Prog Api Workloads Messages Kube Codec NetAddr Plan Members Admission RenderBase Directive Cache Client MaintenanceJobs Render AgentBase AgentCertificates Vault Secrets Sql Executor RenderProps.

(** ** Automata over characters *)
Section scanner.
Context {St Out : Type} (step : St -> ascii -> St * list Out).

Fixpoint scan (st : St) (s : string) : St * list Out :=
  match s with
  | EmptyString => (st, [])
  | String c s =>
      let '(st1, out1) := step st c in
      let '(st2, out2) := scan st1 s in (st2, out1 ++ out2)
  end.

Lemma scan_app st s t :
  scan st (s +:+ t) = let '(st1, out1) := scan st s in let '(st2, out2) := scan st1 t in (st2, out1 ++ out2).
Proof.
  revert st. induction s as [|c s IH]; intros st.
  { change ("" +:+ t) with t. cbn [scan]. by destruct (scan st t). }
  rewrite app_cons_string. cbn. destruct (step st c) as [st1 out1]. rewrite IH. destruct (scan st1 s) as [st2 out2].
  destruct (scan st2 t) as [st3 out3]. by rewrite app_assoc.
Qed.

(** Two texts are read alike from [st], ending in [st']. *)
Definition alike (st : St) (s t : string) (st' : St) : Prop := scan st s = scan st t /\ (scan st s).1 = st'.

Lemma alike_refl st s st' : (scan st s).1 = st' -> alike st s s st'.
Proof. by split. Qed.
Lemma alike_app st s t st1 s' t' st2 : alike st s t st1 -> alike st1 s' t' st2 -> alike st (s +:+ s') (t +:+ t') st2.
Proof.
  intros [E1 E2] [E3 E4]. unfold alike. rewrite !scan_app, <- E1. destruct (scan st s) as [x out]. cbn in E2. subst x.
  rewrite <- E3. split; [done|]. by destruct (scan st1 s').
Qed.
Lemma alike_nil st : alike st "" "" st.
Proof. by apply alike_refl. Qed.
Lemma alike_cons st s t st1 l l' st2 :
  alike st s t st1 -> alike st1 (String.concat "" l) (String.concat "" l') st2 ->
  alike st (String.concat "" (s :: l)) (String.concat "" (t :: l')) st2.
Proof.
  intros H1 H2. assert (Hc : forall x (l : list string), String.concat "" (x :: l) = x +:+ String.concat "" l).
  { intros x [|y l0]; cbn; [by rewrite app_nil_string|done]. }
  rewrite !Hc. by eapply alike_app.
Qed.
(** Lists of texts that are read alike one by one, each ending where it began. *)
Lemma alike_concat {A} (f g : A -> string) (l l' : list A) (R : A -> A -> Prop) st :
  Forall2 R l l' -> (forall x y, R x y -> alike st (f x) (g y) st) ->
  alike st (String.concat "" (f <$> l)) (String.concat "" (g <$> l')) st.
Proof. intros H Hf. induction H as [|x y l l' Hxy H IH]; [apply alike_nil|]. rewrite !fmap_cons. eapply alike_cons; eauto. Qed.
End scanner.

(** ** Quoting *)
Inductive mode := Normal | Inside (quote : ascii) | Closing (quote : ascii).
Inductive token := Char (c : ascii) | Quoted (quote : ascii).

Definition is_quote (c : ascii) : bool := (c == dquote) || (c == squote).
Definition open_step (c : ascii) : mode * list token := if is_quote c then (Inside c, []) else (Normal, [Char c]).
(** A doubled quote inside a token stands for itself. *)
Definition sql_step (m : mode) (c : ascii) : mode * list token :=
  match m with
  | Normal => open_step c
  | Inside q => if c == q then (Closing q, []) else (Inside q, [])
  | Closing q => if c == q then (Inside q, []) else let '(m, out) := open_step c in (m, Quoted q :: out)
  end.
Abbreviation statements := (scan sql_step).

(** The value of the quoted token a text begins with, and what follows it. *)
Fixpoint read_body (q : ascii) (s : string) : option (string * string) :=
  match s with
  | EmptyString => None
  | String c s =>
      if c == q then
        match s with
        | String c' s' => if c' == q then match read_body q s' with Some (v, rest) => Some (String q v, rest) | None => None end
                          else Some ("", s)
        | EmptyString => Some ("", "")
        end
      else match read_body q s with Some (v, rest) => Some (String c v, rest) | None => None end
  end.
Definition read_quoted (q : ascii) (s : string) : option (string * string) :=
  match s with String c s => if c == q then read_body q s else None | EmptyString => None end.

Definition starts_with (c : ascii) (s : string) : Prop := exists s', s = String c s'.

Lemma eqb_same (c : ascii) : (c == c) = true.
Proof. by apply bool_decide_eq_true_2. Qed.
Lemma eqb_other (c d : ascii) : c <> d -> (c == d) = false.
Proof. by apply bool_decide_eq_false_2. Qed.

Lemma read_body_end q rest : ~ starts_with q rest -> read_body q (String q rest) = Some ("", rest).
Proof.
  intros Hr. unfold read_body. rewrite eqb_same. destruct rest as [|c rest]; [done|].
  rewrite eqb_other; [done|]. intros ->. apply Hr. by eexists.
Qed.
Lemma read_body_double q s : read_body q (String q (String q s)) = match read_body q s with Some (v, rest) => Some (String q v, rest) | None => None end.
Proof. cbn [read_body]. by rewrite !eqb_same. Qed.
Lemma read_body_plain q c s : c <> q -> read_body q (String c s) = match read_body q s with Some (v, rest) => Some (String c v, rest) | None => None end.
Proof. intros H. cbn [read_body]. by rewrite eqb_other. Qed.

(** The characters between the quotes. *)
Definition body (q : ascii) (v : string) : string := replace_byte v q (String q (String q "")).
Lemma body_cons q c v : body q (String c v) = if c == q then String q (String q (body q v)) else String c (body q v).
Proof. unfold body. cbn [replace_byte]. by destruct (c == q). Qed.

Lemma read_body_quoted q v rest : ~ starts_with q rest -> read_body q (body q v +:+ String q rest) = Some (v, rest).
Proof.
  intros Hr. induction v as [|c v IH]; [by apply read_body_end|]. rewrite body_cons. case_bool_decide as E.
  - subst. rewrite !app_cons_string, read_body_double. by rewrite IH.
  - rewrite app_cons_string, read_body_plain by done. by rewrite IH.
Qed.
Lemma quoted_app q v rest : quoted q v +:+ rest = String q (body q v +:+ String q rest).
Proof. unfold quoted. rewrite app_cons_string, <- app_assoc_string. done. Qed.

(** Whatever a name contains, quoting it as an identifier or a literal and
    reading the quoted token back gives the name, and leaves what follows. *)
Theorem quoting_roundtrip value rest :
  ~ starts_with dquote rest -> ~ starts_with squote rest ->
  read_quoted dquote (quoteIdentifier value +:+ rest) = Some (value, rest) /\
  read_quoted squote (quoteLiteral value +:+ rest) = Some (value, rest).
Proof.
  intros Hd Hs. unfold quoteIdentifier, quoteLiteral, read_quoted. rewrite !quoted_app, !eqb_same. by rewrite !read_body_quoted.
Qed.

Lemma quoting_roundtrip_witness :
  read_quoted dquote (quoteIdentifier "a'; --" +:+ " TO x;") = Some ("a'; --", " TO x;") /\
  read_quoted squote (quoteLiteral "a'; --" +:+ " TO x;") = Some ("a'; --", " TO x;").
Proof. apply (quoting_roundtrip "a'; --" " TO x;"); intros [s H]; discriminate. Defined.

(** A quoted value is one token, whatever it contains. *)
Lemma body_statements q v : statements (Inside q) (body q v +:+ String q "") = (Closing q, []).
Proof.
  induction v as [|c v IH]; [cbn [body replace_byte scan sql_step]; change ("" +:+ String q "") with (String q ""); cbn [scan sql_step]; by rewrite eqb_same|].
  rewrite body_cons. case_bool_decide as E.
  - subst. rewrite !app_cons_string. cbn [scan sql_step]. rewrite eqb_same. cbn [scan sql_step]. by rewrite eqb_same, IH.
  - rewrite app_cons_string. cbn [scan sql_step]. by rewrite eqb_other, IH.
Qed.
Lemma quoted_alike q v v' : is_quote q = true -> alike sql_step Normal (quoted q v) (quoted q v') (Closing q).
Proof.
  intros Hq. assert (H : forall w, statements Normal (quoted q w) = (Closing q, [])).
  { intros w. unfold quoted. cbn [scan sql_step]. unfold open_step. rewrite Hq. fold (body q w). by rewrite body_statements. }
  unfold alike. by rewrite !H.
Qed.

Lemma plain_char c s : is_quote c = false -> (statements Normal (String c s)).1 = (statements Normal s).1.
Proof. intros H. cbn [scan sql_step]. unfold open_step. rewrite H. by destruct (statements Normal s). Qed.
Lemma number_alike v : alike sql_step Normal (FormatInt v) (FormatInt v) Normal.
Proof.
  apply alike_refl. unfold FormatInt.
  assert (Hu : forall d, (statements Normal (NilEmpty.string_of_uint d)).1 = Normal).
  { induction d; [done|..]; cbn [NilEmpty.string_of_uint]; by rewrite plain_char by reflexivity. }
  assert (Hz : forall d, (statements Normal (NilZero.string_of_uint d)).1 = Normal) by (intros []; [done|apply (Hu (_ _))..]).
  destruct (Z.to_int v) as [d|d]; cbn [NilZero.string_of_int]; [apply Hz|]. by rewrite plain_char by reflexivity.
Qed.

(** Two texts made of the same parts, but for what is quoted. *)
Ltac alike_part := first
  [apply quoted_alike; reflexivity|apply number_alike|apply alike_refl; vm_compute; reflexivity|eassumption].
Ltac alike_parts := repeat first [apply alike_nil|eapply alike_cons; [alike_part|]].
Ltac alike_line := unfold sql_line; eapply alike_app; [alike_parts|apply alike_refl; vm_compute; reflexivity].

(** *** Users *)

(** The declarations ask for the same, but for the names. *)
Definition same_user_shape (s1 s2 : PostgresUserSpec) : Prop :=
  usrs_Quotas s1 = usrs_Quotas s2 /\ length (usrs_MemberOf s1) = length (usrs_MemberOf s2).

Lemma Forall2_length_true {A B} (l : list A) (l' : list B) : length l = length l' -> Forall2 (fun _ _ => True) l l'.
Proof. revert l'. induction l as [|x l IH]; intros [|y l'] H; try done; constructor; auto. Qed.

Lemma role_setting_alike r1 r2 setting d :
  setting ∈ ["statement_timeout"; "lock_timeout"; "idle_in_transaction_session_timeout"] ->
  alike sql_step Normal (appendRoleSetting (quoteIdentifier r1) setting d) (appendRoleSetting (quoteIdentifier r2) setting d) Normal.
Proof.
  intros Hs. destruct d as [d|]; [|apply alike_nil]. unfold appendRoleSetting.
  rewrite !elem_of_cons, elem_of_nil in Hs. destruct Hs as [->|[->|[->|[]]]]; alike_line.
Qed.
Lemma database_setting_alike r1 r2 setting d :
  setting ∈ ["statement_timeout"; "lock_timeout"; "idle_in_transaction_session_timeout"] ->
  alike sql_step Normal (appendDatabaseSetting (quoteIdentifier r1) setting d) (appendDatabaseSetting (quoteIdentifier r2) setting d) Normal.
Proof.
  intros Hs. destruct d as [d|]; [|apply alike_nil]. unfold appendDatabaseSetting.
  rewrite !elem_of_cons, elem_of_nil in Hs. destruct Hs as [->|[->|[->|[]]]]; alike_line.
Qed.
Lemma advisory_lock_alike k1 k2 : alike sql_step Normal (advisory_lock k1) (advisory_lock k2) Normal.
Proof. unfold advisory_lock. alike_line. Qed.
Lemma create_role_alike login r1 r2 :
  login ∈ ["LOGIN"; "NOLOGIN"] -> alike sql_step Normal (create_role login r1) (create_role login r2) Normal.
Proof. intros Hl. rewrite !elem_of_cons, elem_of_nil in Hl. unfold create_role. destruct Hl as [->|[->|[]]]; alike_line. Qed.

Lemma userSQL_alike s1 s2 : same_user_shape s1 s2 -> alike sql_step Normal (userSQL s1) (userSQL s2) Normal.
Proof.
  intros [Hq Hm]. unfold userSQL. rewrite Hq. repeat (eapply alike_cons; [|try apply alike_nil]).
  - apply advisory_lock_alike.
  - apply create_role_alike. by left.
  - alike_line.
  - alike_line.
  - eapply (alike_concat _ _ _ _ _ (fun _ _ => True)); [by apply Forall2_length_true|]. intros m1 m2 _. alike_line.
  - destruct (rq_ConnectionLimit _); [alike_line|apply alike_nil].
  - apply role_setting_alike; set_solver.
  - apply role_setting_alike; set_solver.
  - apply role_setting_alike; set_solver.
  - destruct (rq_TempFileLimit _); [alike_line|apply alike_nil].
  - alike_line.
Qed.

(** *** Databases *)
Definition same_role_shape (r1 r2 : DatabaseRole) : Prop := dr_Profile r1 = dr_Profile r2 /\ dr_Name r1 <> "" /\ dr_Name r2 <> "".
Definition same_database_shape (s1 s2 : PostgresDatabaseSpec) : Prop :=
  dq_RoleQuotas (dbs_Quotas s1) = dq_RoleQuotas (dbs_Quotas s2) /\ length (dbs_Schemas s1) = length (dbs_Schemas s2) /\
  Forall2 same_role_shape (dbs_Roles s1) (dbs_Roles s2).

Lemma schema_grants_alike profile s1 s2 r1 r2 :
  alike sql_step Normal (role_schema_grants profile (quoteIdentifier s1) (quoteIdentifier r1))
    (role_schema_grants profile (quoteIdentifier s2) (quoteIdentifier r2)) Normal.
Proof.
  unfold role_schema_grants. destruct (profile == "Owner"); [alike_line|].
  destruct (profile == "ReadWrite"); [|destruct (profile == "ReadOnly"); [|apply alike_nil]];
    (eapply alike_app; [alike_line|]; eapply alike_app; alike_line).
Qed.

Lemma sorted_length l l' : length l = length l' -> Forall2 (fun _ _ : string => True) (SortStrings l) (SortStrings l').
Proof. intros H. apply Forall2_length_true. by rewrite !SortStrings_perm. Qed.

(** Both owners are absent, or none is. *)
Definition same_owner (o1 o2 : string) : Prop := (o1 != "") = (o2 != "").

Lemma database_role_alike d1 d2 l l' o1 o2 r1 r2 :
  length l = length l' -> same_owner o1 o2 -> same_role_shape r1 r2 ->
  alike sql_step Normal (appendDatabaseRoleSQL d1 (SortStrings l) o1 r1) (appendDatabaseRoleSQL d2 (SortStrings l') o2 r2) Normal.
Proof.
  intros Hl Ho [Hp _]. unfold appendDatabaseRoleSQL. rewrite Hp, Ho. eapply alike_app; [alike_line|].
  eapply (alike_concat _ _ _ _ _ (fun _ _ => True)); [by apply sorted_length|]. intros s1 s2 _.
  eapply alike_app; [apply schema_grants_alike|]. destruct (_ && _); [|apply alike_nil].
  destruct (dr_Profile r2 == "ReadWrite"); alike_line.
Qed.

Lemma owner_alike roles1 roles2 o1 o2 owner1 :
  Forall2 same_role_shape roles1 roles2 -> same_owner o1 o2 -> database_owner roles1 o1 = Ok owner1 ->
  exists owner2, database_owner roles2 o2 = Ok owner2 /\ same_owner owner1 owner2.
Proof.
  intros H. revert o1 o2. induction H as [|r1 r2 roles1 roles2 (Hp & Hn1 & Hn2) H IH]; intros o1 o2 Ho; cbn [database_owner].
  { intros [= <-]. eauto. }
  rewrite Hp, Ho. destruct (_ == "Owner"); [|by apply IH]. destruct (o2 != ""); [done|]. apply IH. unfold same_owner.
  by rewrite !bool_decide_eq_false_2.
Qed.

Lemma databaseSQL_alike s1 s2 tde deleting x1 :
  same_database_shape s1 s2 -> databaseSQL s1 tde deleting = Ok x1 ->
  exists x2, databaseSQL s2 tde deleting = Ok x2 /\ alike sql_step Normal x1 x2 Normal.
Proof.
  intros (Hq & Hs & Hr). unfold databaseSQL. destruct deleting; [intros <-%Ok_inj; eexists; split; [done|]; alike_line|].
  destruct (database_owner (dbs_Roles s1) "") as [o1|] eqn:E1; [|done]. intros <-%Ok_inj.
  destruct (owner_alike _ _ "" "" o1 Hr eq_refl E1) as (o2 & -> & Ho). eexists. split; [reflexivity|]. rewrite Hq.
  repeat (eapply alike_cons; [|try apply alike_nil]).
  - apply advisory_lock_alike.
  - unfold create_database. alike_line.
  - eapply alike_concat; [exact Hr|]. intros r1 r2 _. apply create_role_alike. set_solver.
  - rewrite Ho. destruct (o2 != ""); [alike_line|apply alike_nil].
  - destruct (rq_ConnectionLimit _); [alike_line|apply alike_nil].
  - apply database_setting_alike; set_solver.
  - apply database_setting_alike; set_solver.
  - apply database_setting_alike; set_solver.
  - destruct (rq_TempFileLimit _); [alike_line|apply alike_nil].
  - alike_line.
  - eapply (alike_concat _ _ _ _ _ (fun _ _ => True)); [by apply sorted_length|]. intros c1 c2 _. rewrite Ho. destruct (o2 != ""); alike_line.
  - eapply alike_concat; [exact Hr|]. intros r1 r2 Hrs. by apply database_role_alike.
  - apply alike_refl. destruct tde; vm_compute; reflexivity.
  - apply alike_refl. destruct tde; vm_compute; reflexivity.
Qed.


(** ** The here-document *)

(** How much of the delimiter the current line is. *)
Inductive line := Matched (n : nat) | Other.
Definition newline_char : ascii := "010".
Definition delimiter : string := "SQL".
(** The shell ends the document at a line that is the delimiter. *)
Definition line_step (l : line) (c : ascii) : line * list unit :=
  if c == newline_char then (Matched 0, match l with Matched 3 => [tt] | _ => [] end)
  else match l with
       | Matched n => match String.get n delimiter with
                      | Some d => if c == d then (Matched (S n), []) else (Other, [])
                      | None => (Other, [])
                      end
       | Other => (Other, [])
       end.
Abbreviation document := (scan line_step).

(** The document goes on after the text. *)
Definition quiet (l : line) (s : string) (l' : line) : Prop := document l s = (l', []).

Lemma quiet_app l s l1 t l2 : quiet l s l1 -> quiet l1 t l2 -> quiet l (s +:+ t) l2.
Proof. unfold quiet. intros E1 E2. by rewrite scan_app, E1, E2. Qed.
Lemma quiet_nil l : quiet l "" l.
Proof. done. Qed.
Lemma quiet_cons l s l1 rest l2 : quiet l s l1 -> quiet l1 (String.concat "" rest) l2 -> quiet l (String.concat "" (s :: rest)) l2.
Proof.
  intros H1 H2. assert (String.concat "" (s :: rest) = s +:+ String.concat "" rest) as ->.
  { destruct rest as [|y rest]; cbn; [by rewrite app_nil_string|done]. }
  by eapply quiet_app.
Qed.
Lemma quiet_concat {A} (f : A -> string) (xs : list A) (R : A -> Prop) l :
  Forall R xs -> (forall x, R x -> quiet l (f x) l) -> quiet l (String.concat "" (f <$> xs)) l.
Proof. intros H Hf. induction H as [|x xs Hx H IH]; [done|]. rewrite fmap_cons. eapply quiet_cons; eauto. Qed.

Definition one_line (s : string) : Prop := in_string newline_char s = false.
Lemma one_line_other s : one_line s -> quiet Other s Other.
Proof.
  unfold one_line, quiet. induction s as [|c s IH]; [done|]. cbn [in_string]. intros [Hc Hs]%orb_false_iff.
  cbn [scan]. unfold line_step at 1. by rewrite Hc, IH.
Qed.

Lemma body_one_line q v : one_line v -> (q == newline_char) = false -> one_line (body q v).
Proof.
  unfold one_line. intros Hv Hq. induction v as [|c v IH]; [done|]. cbn [in_string] in Hv. apply orb_false_iff in Hv as [Hc Hv].
  rewrite body_cons. destruct (c == q); cbn [in_string]; rewrite ?Hq, ?Hc; by apply IH.
Qed.
Lemma in_string_app c s t : in_string c (s +:+ t) = in_string c s || in_string c t.
Proof. induction s as [|d s IH]; [done|]. rewrite app_cons_string. cbn [in_string]. by rewrite IH, orb_assoc. Qed.
Lemma quoted_quiet q v : one_line v -> is_quote q = true -> quiet Other (quoted q v) Other.
Proof.
  intros Hv Hq. apply one_line_other. unfold one_line, quoted. fold (body q v).
  assert (Hn : (q == newline_char) = false).
  { apply bool_decide_eq_false_2. intros ->. done. }
  cbn [in_string]. rewrite Hn, in_string_app, (body_one_line q v Hv Hn). cbn [in_string]. by rewrite Hn.
Qed.
Lemma number_one_line v : one_line (FormatInt v).
Proof.
  unfold one_line, FormatInt. assert (Hu : forall d, in_string newline_char (NilEmpty.string_of_uint d) = false) by (by induction d).
  assert (Hz : forall d, in_string newline_char (NilZero.string_of_uint d) = false) by (intros []; [done|apply (Hu (_ _))..]).
  destruct (Z.to_int v) as [d|d]; cbn [NilZero.string_of_int in_string]; by rewrite Hz.
Qed.
Lemma suffixed_one_line v s : one_line s -> one_line (FormatInt v +:+ s).
Proof. unfold one_line. intros H. rewrite in_string_app, H. by rewrite number_one_line. Qed.
Lemma prefixed_one_line s v : one_line s -> one_line v -> one_line (s +:+ v).
Proof. unfold one_line. intros H1 H2. by rewrite in_string_app, H1, H2. Qed.

Create HintDb lines discriminated.
#[export] Hint Resolve number_one_line suffixed_one_line prefixed_one_line : lines.
#[export] Hint Extern 5 (one_line _) => (vm_compute; reflexivity) : lines.
Ltac quiet_part := first
  [apply quoted_quiet; [solve [eauto with lines]|reflexivity]|apply one_line_other, number_one_line|vm_compute; reflexivity].
Ltac quiet_parts := repeat first [apply quiet_nil|eapply quiet_cons; [quiet_part|]].
Ltac quiet_line := unfold sql_line; eapply quiet_app; [quiet_parts|vm_compute; reflexivity].

Lemma advisory_lock_quiet k : one_line k -> quiet (Matched 0) (advisory_lock k) (Matched 0).
Proof. intros. unfold advisory_lock. quiet_line. Qed.
Lemma create_role_quiet login role : login ∈ ["LOGIN"; "NOLOGIN"] -> one_line role -> quiet (Matched 0) (create_role login role) (Matched 0).
Proof. intros Hl Hr. rewrite !elem_of_cons, elem_of_nil in Hl. unfold create_role. destruct Hl as [->|[->|[]]]; quiet_line. Qed.

Lemma sql_identifier_one_line name : sql_identifier name = true -> one_line name.
Proof.
  intros H. apply not_true_is_false. intros Hin. destruct (sql_identifier_printable name H _ (in_string_elem _ _ Hin)) as [Hc _].
  by vm_compute in Hc.
Qed.
#[local] Hint Resolve sql_identifier_one_line : lines.

Lemma duration_quiet (lead role setting : string) d :
  lead ∈ ["ALTER ROLE "; "ALTER DATABASE "] -> one_line role ->
  setting ∈ ["statement_timeout"; "lock_timeout"; "idle_in_transaction_session_timeout"] ->
  quiet (Matched 0) (sql_line [lead; quoteIdentifier role; " SET "; setting; " = "; quoteLiteral (FormatInt (milliseconds d) +:+ "ms"); ";"]) (Matched 0).
Proof.
  intros Hl Hr Hs. rewrite !elem_of_cons, elem_of_nil in Hl. rewrite !elem_of_cons, elem_of_nil in Hs. destruct Hl as [->|[->|[]]], Hs as [->|[->|[->|[]]]]; quiet_line.
Qed.

Lemma userSQL_quiet obj : user_admissible obj -> quiet (Matched 0) (userSQL (usr_Spec obj)) (Matched 0).
Proof.
  intros (_ & Hr & _ & _ & Hm & _). apply sql_identifier_one_line in Hr. unfold userSQL.
  repeat (eapply quiet_cons; [|try apply quiet_nil]).
  - apply advisory_lock_quiet. eauto with lines.
  - apply create_role_quiet; [set_solver|done].
  - quiet_line.
  - quiet_line.
  - eapply quiet_concat; [exact Hm|]. intros m [_ Hn%sql_identifier_one_line]. quiet_line.
  - destruct (rq_ConnectionLimit _); [quiet_line|done].
  - destruct (rq_StatementTimeout _); [apply duration_quiet; set_solver|done].
  - destruct (rq_LockTimeout _); [apply duration_quiet; set_solver|done].
  - destruct (rq_IdleInTransactionSessionTimeout _); [apply duration_quiet; set_solver|done].
  - destruct (rq_TempFileLimit _); [quiet_line|done].
  - quiet_line.
Qed.

Lemma schema_grants_quiet profile schema role : one_line schema -> one_line role ->
  quiet (Matched 0) (role_schema_grants profile (quoteIdentifier schema) (quoteIdentifier role)) (Matched 0).
Proof.
  intros. unfold role_schema_grants. destruct (profile == "Owner"); [quiet_line|].
  destruct (profile == "ReadWrite"); [|destruct (profile == "ReadOnly"); [|done]];
    (eapply quiet_app; [quiet_line|]; eapply quiet_app; quiet_line).
Qed.

Lemma database_role_quiet database schemas owner role :
  one_line database -> Forall one_line schemas -> one_line owner -> one_line (dr_Name role) ->
  quiet (Matched 0) (appendDatabaseRoleSQL database schemas owner role) (Matched 0).
Proof.
  intros Hd Hs Ho Hr. unfold appendDatabaseRoleSQL. eapply quiet_app; [quiet_line|]. eapply quiet_concat; [exact Hs|]. intros schema Hschema.
  eapply quiet_app; [by apply schema_grants_quiet|]. destruct (_ && _); [|done]. destruct (dr_Profile role == "ReadWrite"); quiet_line.
Qed.

Lemma owner_one_line roles o owner :
  Forall (fun role => one_line (dr_Name role)) roles -> one_line o -> database_owner roles o = Ok owner -> one_line owner.
Proof.
  intros H. revert o. induction H as [|role roles Hr H IH]; intros o Ho; cbn [database_owner]; [by intros [= <-]|].
  destruct (_ == "Owner"); [|by apply IH]. destruct (o != ""); [done|]. by apply IH.
Qed.

Lemma databaseSQL_quiet obj tde deleting x :
  database_admissible obj -> databaseSQL (db_Spec obj) tde deleting = Ok x -> quiet (Matched 0) x (Matched 0).
Proof.
  intros (_ & _ & Hn%sql_identifier_one_line & Hroles & _ & _ & Hschemas). unfold databaseSQL.
  assert (Hr : Forall (fun role => one_line (dr_Name role)) (dbs_Roles (db_Spec obj))).
  { eapply list.Forall_impl; [exact Hroles|]. intros role [? _]. eauto with lines. }
  assert (Hs : Forall one_line (SortStrings (dbs_Schemas (db_Spec obj)))).
  { rewrite SortStrings_perm. eapply list.Forall_impl; [exact Hschemas|]. eauto with lines. }
  destruct deleting; [intros <-%Ok_inj; quiet_line|].
  destruct (database_owner _ "") as [owner|] eqn:Eo; [|done]. intros <-%Ok_inj. apply (owner_one_line _ "" owner Hr eq_refl) in Eo.
  repeat (eapply quiet_cons; [|try apply quiet_nil]).
  - apply advisory_lock_quiet. eauto with lines.
  - unfold create_database. quiet_line.
  - eapply quiet_concat; [exact Hr|]. intros role Hrole. apply create_role_quiet; [set_solver|done].
  - destruct (owner != ""); [quiet_line|done].
  - destruct (rq_ConnectionLimit _); [quiet_line|done].
  - destruct (rq_StatementTimeout _); [apply duration_quiet; set_solver|done].
  - destruct (rq_LockTimeout _); [apply duration_quiet; set_solver|done].
  - destruct (rq_IdleInTransactionSessionTimeout _); [apply duration_quiet; set_solver|done].
  - destruct (rq_TempFileLimit _); [quiet_line|done].
  - quiet_line.
  - eapply quiet_concat; [exact Hs|]. intros schema Hschema. destruct (owner != ""); quiet_line.
  - eapply quiet_concat; [exact Hr|]. intros role Hrole. by apply database_role_quiet.
  - destruct tde; vm_compute; reflexivity.
  - destruct tde; vm_compute; reflexivity.
Qed.

