(* ===== verification/RenderSecrets.v ===== *)
(** * Fields that cannot change and Secrets that must exist

    Two facts the rendering of [Render] owes to the API server.  The fields of a
    StatefulSet or Deployment the server does not let change are the same in
    every plan of an instance with the same storage, so that a new revision can
    always be applied.  And every Secret a rendered Pod mounts or reads is one
    the plan provides: the output of a Certificate it renders, or one of those
    [Secrets_Reconcile] materialises. *)

From S2P Require Import Prelude Utf8 Prog Api Workloads Messages Kube Codec NetAddr IpAddr Plan Registration Members Client.
From S2P Require Import RenderBase MaintenanceJobs Render RenderProps AgentBase AgentCertificates Vault Secrets.

Section fields.
Context {C : Crypto} {U : UrlLib} {TT : TimeText}.

(** ** Immutable fields *)

(** What the API server does not let change in an object. *)
Definition immutable (o : AnyObject) : option (string * gmap string string * list PersistentVolumeClaim) :=
  match o with
  | existT KStatefulSet s => Some (sts_ServiceName s, sts_Selector s, sts_VolumeClaimTemplates s)
  | existT KDeployment d => Some ("", dep_Selector d, [])
  | _ => None
  end.

(** The parts of a plan that do not change for an instance at a site. *)
Definition same_identity (d1 d2 : SitePlan) : Prop :=
  sp_InstanceUID d1 = sp_InstanceUID d2 /\ sp_HubNamespace d1 = sp_HubNamespace d2 /\ sp_HubName d1 = sp_HubName d2 /\
  site_Name (sp_Site d1) = site_Name (sp_Site d2) /\ site_Storage (sp_Site d1) = site_Storage (sp_Site d2).

(** The immutable fields of the object of that kind and name. *)
Definition expected_immutable (d : SitePlan) (k : Kind) (name : string) : option (string * gmap string string * list PersistentVolumeClaim) :=
  let stable := stableWorkloadLabels (resourceLabels d) in
  match k with
  | KStatefulSet =>
      let postgres := HasPrefix name "postgres-" in
      let labels := <[memberLabel := name]> (if postgres then <[componentLabel := "postgres"]> stable else stable) in
      let storage := site_Storage (sp_Site d) in
      Some (name, labels, [pvcTemplate (if postgres then ss_Postgres storage else ss_Etcd storage) labels])
  | KDeployment => Some ("", <[componentLabel := "pgpool"]> stable, [])
  | _ => None
  end.

Lemma postgresStatefulSet_immutable d name address s :
  postgresStatefulSet d name address (resourceLabels d) = Ok s -> HasPrefix name "postgres-" = true ->
  immutable (any (k := KStatefulSet) s) = expected_immutable d KStatefulSet name.
Proof.
  unfold postgresStatefulSet. destruct (postgresConfigHash _); [|done]. intros <-%Ok_inj Hn. unfold expected_immutable. by rewrite Hn.
Qed.

Lemma postgres_prefix d name : name ∈ site_postgres d -> HasPrefix name "postgres-" = true.
Proof. intros (n & -> & _)%list_elem_of_fmap. exact (HasPrefix_app "postgres-" _). Qed.
Lemma rendered_postgres_site d name : name ∈ rendered_postgres d -> name ∈ site_postgres d.
Proof. unfold rendered_postgres. destruct (seeding d); [|done]. by intros [_ ?]%list_elem_of_filter. Qed.

Lemma phase_job_kind d o : o ∈ majorUpgradePhaseJobs d -> exists job upgrade, o = any (k := KJob) job /\ sp_MajorUpgrade d = Some upgrade /\
  (job = MajorPreflightJob d upgrade \/
   memberBelongsToSite (mup_Primary upgrade) (site_Name (sp_Site d)) = true /\
   (job = MajorAcceptanceJob d upgrade \/ job = MajorWriteAcceptanceJob d upgrade \/ job = MajorRollbackAcceptanceJob d upgrade)).
Proof.
  unfold majorUpgradePhaseJobs. destruct (sp_MajorUpgrade d) as [upgrade|]; [|by intros ?%elem_of_nil].
  rewrite !elem_of_app. intros Ho. destruct_or! Ho; (destruct (_ && _) eqn:E; [|by apply elem_of_nil in Ho]);
    apply list_elem_of_singleton in Ho as ->; apply andb_true_iff in E as [_ E]; eexists _, upgrade; (split; [reflexivity|]); naive_solver.
Qed.

Lemma rendered_immutable r d o : rendered r d o -> immutable o = expected_immutable d (projT1 o) (meta_Name (any_meta o)).
Proof.
  intros Hr. destruct Hr as [| |name address cluster Hn|name address s Hh Hn Hs| | |o Hh Ho]; try done.
  - unfold site_etcd in Hn. apply list_elem_of_fmap in Hn as (n & -> & _). done.
  - assert (Hp : HasPrefix name "postgres-" = true) by (eapply postgres_prefix, rendered_postgres_site, Hn).
    assert (Hw : sp_Site (workload_plan d) = sp_Site d /\ resourceLabels (workload_plan d) = resourceLabels d) by (unfold workload_plan; by destruct (seeding d)).
    destruct Hw as [Hw1 Hw2]. destruct (postgresStatefulSet_pod _ _ _ _ _ Hs) as [Hm _]. rewrite <- Hw2 in Hs.
    assert (Hi := postgresStatefulSet_immutable _ _ _ _ Hs Hp).
    assert (Hx : expected_immutable (workload_plan d) KStatefulSet name = expected_immutable d KStatefulSet name).
    { unfold expected_immutable. by rewrite Hw1, Hw2. }
    destruct (majorMemberStopped d name); cbn in *; rewrite Hm; rewrite Hi; exact Hx.
  - by destruct (majorWriteServiceStopped d).
  - apply phase_job_kind in Ho as (job & upgrade & -> & _). done.
Qed.

Lemma expected_same d1 d2 k name : same_identity d1 d2 -> expected_immutable d1 k name = expected_immutable d2 k name.
Proof.
  intros (E1 & E2 & E3 & E4 & E5). unfold expected_immutable, stableWorkloadLabels, copyMap.
  assert (delete revisionLabel (resourceLabels d1) = delete revisionLabel (resourceLabels d2)) as ->.
  { unfold resourceLabels. rewrite E1, E2, E3, E4. rewrite !delete_insert_ne by done. by rewrite !delete_singleton_eq. }
  by rewrite E5.
Qed.

(** C31: The selector, the governing Service and the claim templates of a workload do
    not depend on the revision, the addresses, the images, the credentials or
    the operation of a plan: for two plans of an instance at a site that agree on
    the storage, objects of the same kind and name have the same immutable
    fields, so the second plan can be applied over the first. *)
Theorem immutable_fields_stable r1 r2 d1 d2 os1 os2 o1 o2 :
  same_identity d1 d2 -> Workloads r1 d1 = Ok os1 -> Workloads r2 d2 = Ok os2 -> o1 ∈ os1 -> o2 ∈ os2 ->
  projT1 o1 = projT1 o2 -> meta_Name (any_meta o1) = meta_Name (any_meta o2) -> immutable o1 = immutable o2.
Proof.
  intros Hid Hw1 Hw2 Ho1 Ho2 Hk Hn. rewrite (rendered_immutable r1 d1 o1), (rendered_immutable r2 d2 o2) by (by eapply rendered_in).
  rewrite Hk, Hn. by apply expected_same.
Qed.

(** ** Secrets *)
Definition volume_secret (v : Volume) : list string := match vol_Source v with VolSecret name _ _ => [name] | _ => [] end.
Definition env_secret (e : EnvVar) : list string := match e with EnvSecret _ name _ => [name] | EnvValue _ _ => [] end.
(** The Secrets a Pod needs to start. *)
Definition pod_secrets (spec : PodSpec) : list string :=
  (pod_Volumes spec ≫= volume_secret) ++ ((pod_InitContainers spec ++ pod_Containers spec) ≫= fun c => ctr_Env c ≫= env_secret).
Definition pod_of (o : AnyObject) : option PodSpec :=
  match o with
  | existT KStatefulSet s => Some (pt_Spec (sts_Template s))
  | existT KDeployment d => Some (pt_Spec (dep_Template d))
  | existT KJob j => Some (pt_Spec (job_Template j))
  | _ => None
  end.

Definition certificate_secrets (d : SitePlan) : list string := omap output_secret (Certificates d).
(** The Secrets [Secrets_Reconcile] writes for a plan of a data site. *)
Definition vault_secrets (d : SitePlan) : list string :=
  ["postgres-auth"] ++
  (if (0 <? sc_PgpoolReplicas (site_Components (sp_Site d)))%Z then ["pgpool-auth"] else []) ++
  (if bool_decide (is_Some (seeding d) \/ is_Some (sp_Backup d)) then ["pgbackrest-repository"] else []) ++
  (if tde_Enabled (sp_TDE d) then ["pg-tde-vault"] else []).
Definition provided (d : SitePlan) (secret : string) : Prop :=
  secret ∈ certificate_secrets d \/ secret ∈ vault_secrets d.

Lemma certificate_provided d c secret : c ∈ Certificates d -> output_secret c = Some secret -> provided d secret.
Proof. intros Hc Hs. left. apply list_elem_of_omap. by exists c. Qed.

Lemma elem_of_concat {A} (x : A) l ls : l ∈ ls -> x ∈ l -> x ∈ concat ls.
Proof. rewrite !list_elem_of_In. intros ? ?. apply in_concat. by exists l. Qed.

Ltac in_certificates := unfold Certificates; rewrite ?elem_of_app.
Lemma etcd_tls d name : name ∈ site_etcd d -> provided d (name +:+ "-tls").
Proof.
  intros Hn. eapply certificate_provided; [in_certificates; right; left; apply list_elem_of_fmap; by exists name|].
  unfold site_etcd in Hn. by apply list_elem_of_fmap in Hn as (n & -> & _).
Qed.
Lemma postgres_tls d name : name ∈ site_postgres d -> provided d (name +:+ "-tls").
Proof.
  intros Hn. eapply certificate_provided.
  - in_certificates. do 3 right. left. eapply elem_of_concat; [apply list_elem_of_fmap; by exists name|]. by left.
  - by apply list_elem_of_fmap in Hn as (n & -> & _).
Qed.
Lemma pgbackrest_tls d name : name ∈ site_postgres d -> backupWorkloadsEnabled d = true -> provided d (name +:+ "-pgbackrest-tls").
Proof.
  intros Hn Hb. eapply certificate_provided.
  - in_certificates. do 3 right. left. eapply elem_of_concat; [apply list_elem_of_fmap; by exists name|].
    rewrite Hb. right. by left.
  - by apply list_elem_of_fmap in Hn as (n & -> & _).
Qed.
Lemma patroni_tls d : site_Role (sp_Site d) = SiteRoleData -> provided d "patroni-etcd-client-tls".
Proof.
  intros Hr. eapply certificate_provided; [in_certificates; do 2 right; left; rewrite Hr; by left|done].
Qed.
Lemma pgpool_tls d : (0 < sc_PgpoolReplicas (site_Components (sp_Site d)))%Z -> provided d ("pgpool-" +:+ site_Name (sp_Site d) +:+ "-tls").
Proof.
  intros Hp%Z.ltb_lt. eapply certificate_provided; [in_certificates; do 4 right; rewrite Hp; by left|done].
Qed.

Lemma first_postgres d : (0 < sc_PostgresReplicas (site_Components (sp_Site d)))%Z -> ("postgres-" +:+ site_Name (sp_Site d) +:+ "-0") ∈ site_postgres d.
Proof. intros Hp. apply list_elem_of_fmap. exists 0%Z. split; [done|]. apply elem_of_ordinals. lia. Qed.

Lemma vault_provided d secret : secret ∈ vault_secrets d -> provided d secret.
Proof. by right. Qed.
Lemma auth_provided d : provided d "postgres-auth".
Proof. right. by left. Qed.
Lemma tde_provided d : tde_Enabled (sp_TDE d) = true -> provided d "pg-tde-vault".
Proof. intros H. right. unfold vault_secrets. rewrite H, !elem_of_app. do 3 right. by left. Qed.
Lemma repository_provided d : is_Some (sp_Backup (workload_plan d)) -> provided d "pgbackrest-repository".
Proof.
  intros H. right. unfold vault_secrets. rewrite !elem_of_app. do 2 right. left. rewrite bool_decide_eq_true_2; [by left|].
  unfold workload_plan in H. destruct (seeding d); [by left|by right].
Qed.

(** The Secrets of the PostgreSQL members. *)
Lemma postgres_pod_secrets d name address labels s :
  postgresStatefulSet d name address labels = Ok s ->
  forall secret, secret ∈ pod_secrets (pt_Spec (sts_Template s)) ->
    secret ∈ ["postgres-auth"; "patroni-etcd-client-tls"; name +:+ "-tls"] \/
    tde_Enabled (sp_TDE d) = true /\ secret = "pg-tde-vault" \/
    is_Some (sp_Backup d) /\ (secret = "pgbackrest-repository" \/ secret = name +:+ "-pgbackrest-tls").
Proof.
  unfold postgresStatefulSet. destruct (postgresConfigHash _); [|done]. intros <-%Ok_inj secret. unfold pod_secrets.
  cbn [pt_Spec sts_Template pod_Volumes pod_InitContainers pod_Containers]. unfold postgres_volumes.
  destruct (tde_Enabled (sp_TDE d)), (bool_decide (is_Some (seeding d))), (bool_decide (is_Some (sp_Backup d))) eqn:Eb; bool_to_prop; set_solver.
Qed.

(** A plan of a data site, with the primary of a major upgrade that is at the
    site among the site's members. *)
Definition well_placed (d : SitePlan) : Prop :=
  (site_Role (sp_Site d) = SiteRoleData /\ (0 < sc_PostgresReplicas (site_Components (sp_Site d)))%Z \/ site_Role (sp_Site d) = SiteRoleWitness) /\
  forall upgrade, sp_MajorUpgrade d = Some upgrade -> memberBelongsToSite (mup_Primary upgrade) (site_Name (sp_Site d)) = true ->
    mup_Primary upgrade ∈ site_postgres d.

Lemma rendered_secrets r d o spec secret :
  well_placed d -> rendered r d o -> pod_of o = Some spec -> secret ∈ pod_secrets spec -> provided d secret.
Proof.
  intros [Hrole Hprimary] Hr. destruct Hr as [| |name address cluster Hn|name address s Hh Hn Hs|Hh Hp|Hh Ht|o Hh Ho]; try done.
  - intros [= <-] H. cbn in H. apply list_elem_of_singleton in H as ->. by apply etcd_tls.
  - assert (Hdata : site_Role (sp_Site d) = SiteRoleData) by (destruct Hh, Hrole as [[]|]; done).
    assert (Hin := rendered_postgres_site _ _ Hn). intros Hspec Hsec.
    assert (spec = pt_Spec (sts_Template s)) as -> by (destruct (majorMemberStopped d name); injection Hspec as <-; done).
    destruct (postgres_pod_secrets _ _ _ _ _ Hs secret Hsec) as [H|[[Ht ->]|[Hb H]]].
    + rewrite !elem_of_cons, elem_of_nil in H. destruct H as [->|[->|[->|[]]]];
        [apply auth_provided|by apply patroni_tls|by apply postgres_tls].
    + apply tde_provided. unfold workload_plan in Ht. by destruct (seeding d).
    + destruct H as [->| ->]; [by apply repository_provided|]. apply pgbackrest_tls; [done|].
      unfold backupWorkloadsEnabled, workload_plan in *. destruct (seeding d) as [restore|] eqn:Es.
      * destruct Hh as [_ Hh]. rewrite (bool_decide_eq_true_2 (_ = _)) by (by apply Hh). by rewrite orb_true_r.
      * by rewrite bool_decide_eq_true_2.
  - destruct Hrole as [[Hrole Hreplicas]|Hrole]; [|by destruct Hh].
    intros Hspec Hsec. assert (Hl : secret ∈ ["postgres-auth"; "pgpool-" +:+ site_Name (sp_Site d) +:+ "-tls"; ("postgres-" +:+ site_Name (sp_Site d) +:+ "-0") +:+ "-tls"]).
    { destruct (majorWriteServiceStopped d); injection Hspec as <-; cbn in Hsec; rewrite <- !app_assoc_string; set_solver. }
    rewrite !elem_of_cons, elem_of_nil in Hl. destruct Hl as [->|[->|[->|[]]]];
      [apply auth_provided|by apply pgpool_tls|by apply postgres_tls, first_postgres].
  - destruct Hrole as [[Hrole Hreplicas]|Hrole]; [|by destruct Hh]. intros [= <-] Hsec.
    assert (Hl : secret ∈ ["postgres-auth"; ("postgres-" +:+ site_Name (sp_Site d) +:+ "-0") +:+ "-tls"]).
    { cbn in Hsec. rewrite <- !app_assoc_string. set_solver. }
    rewrite !elem_of_cons, elem_of_nil in Hl. destruct Hl as [->|[->|[]]]; [apply auth_provided|by apply postgres_tls, first_postgres].
  - apply phase_job_kind in Ho as (job & upgrade & -> & Hu & [->|[Hm Hj]]).
    + intros [= <-] Hsec. unfold MajorPreflightJob in Hsec. cbn in Hsec. destruct (tde_Enabled _) eqn:Et; cbn in Hsec; [|by apply elem_of_nil in Hsec].
      apply list_elem_of_singleton in Hsec as ->. by apply tde_provided.
    + intros Hspec Hsec. assert (Hl : secret ∈ ["postgres-auth"; mup_Primary upgrade +:+ "-tls"]).
      { destruct_or! Hj; subst; injection Hspec as <-; exact Hsec. }
      rewrite !elem_of_cons, elem_of_nil in Hl. destruct Hl as [->|[->|[]]]; [apply auth_provided|by apply postgres_tls, Hprimary].
Qed.

End fields.

(** Another revision, in another phase. *)
Lemma immutable_fields_stable_witness :
  let before := RefRender.plan "east" in
  let after := (RefRender.upgrading "east" MajorUpgradePhaseStop) <| sp_Revision := 5%Z |> in
  immutable (RefRender.object_at before 5) = immutable (RefRender.object_at after 5).
Proof.
  intros before after.
  apply (immutable_fields_stable RefRender.renderer RefRender.renderer before after (RefRender.objects before) (RefRender.objects after)
    (RefRender.object_at before 5) (RefRender.object_at after 5));
    [repeat split|apply RefRender.objects_ok; vm_compute; reflexivity|apply RefRender.objects_ok; vm_compute; reflexivity
    |apply RefRender.object_in; vm_compute; reflexivity|apply RefRender.object_in; vm_compute; reflexivity|vm_compute; reflexivity|vm_compute; reflexivity].
Defined.

