(* ===== verification/SitePhases.v ===== *)
(** * The phase of an unfinished reconciliation

    Only the last step of a reconciliation calls a plan ready, and only the
    deletion calls an instance deleted: whatever any other step is answered, the
    result it returns is [unsettled]. *)

From S2P Require Import Prelude Utf8 Prog Api Workloads Messages Kube ApiServer Codec NetAddr IpAddr Plan Registration Members Client.
From S2P Require Import RenderBase MaintenanceJobs Render AgentBase AgentCertificates Patroni Vault Secrets AgentOperations Reconciler.

Definition settled (result : ApplyResult) : Prop := ar_Phase result = "Ready" \/ ar_Phase result = "Deleted".
Definition unsettled (result : ApplyResult) : Prop := ~ settled result.


Lemma phase_unsettled (p : string) (result : ApplyResult) : p <> "Ready" -> p <> "Deleted" -> unsettled (result <| ar_Phase := p |>).
Proof. intros ? ? [H|H]; cbn in H; congruence. Qed.

Create HintDb phases discriminated.
(** One step: into what is known of a component's result, over anything else. *)
Ltac unsettled_goal := cbn [fst snd]; unfold stop, proceed, wait in *; cbn [fst snd] in *; first
  [assumption|by apply phase_unsettled|lazymatch goal with |- unsettled (match ?x with _ => _ end) => destruct x; unsettled_goal end].
#[export] Hint Extern 1 (unsettled _) => unsettled_goal : phases.
Ltac phase_step :=
  lazymatch goal with
  | |- sat _ _ _ (bind _ _) => apply sat_bind; first
      [eapply sat_mono; [| |solve [eauto with phases]]; [done|]; intros ? ? ?
      |apply sat_all; [done|]; intros ? ? _]
  | |- sat _ _ _ (Ret _) => cbn [sat]
  | |- sat _ _ _ (let '(_, _) := ?x in _) => destruct x
  | |- sat _ _ _ (match ?x with _ => _ end) => destruct x
  | |- sat _ _ _ _ => first [solve [eauto with phases]|eapply sat_mono; [| |solve [eauto with phases]]; [done|]; intros ? ? ?]
  | |- unsettled _ => unsettled_goal
  end.
Ltac phases := intros; cbn zeta; repeat (phase_step; cbn zeta).

Section phases.
Context {K : KubeLib} {C : Crypto} {X : X509} {P : Pki} {U : UrlLib} {UP : UrlPath} {TT : TimeText} {PJ : PlanJson}.
Context {JC : Json PatroniCluster} {JS : Json SwitchoverBody}.
Context {JL : Json LoginResponse} {JB : Json LoginBody} {JK : Json KVResponse}.

(** Results of the form [ApplyResult * B]. *)
Local Abbreviation keeps f := (forall result h, unsettled result -> sat (fun _ _ => True) (fun _ x => unsettled x.1) h (f result)).

Lemma condition_unsettled result t s reason m : unsettled result -> unsettled (setLocalCondition result t s reason m).
Proof. done. Qed.

Lemma setCredentialConditions_phase d : keeps (setCredentialConditions d).
Proof. unfold setCredentialConditions. phases. Qed.
Hint Resolve setCredentialConditions_phase : phases.
Lemma reconcileSecrets_phase m d : keeps (reconcileSecrets m d).
Proof. unfold reconcileSecrets. phases. Qed.
Lemma allocate_phase connected services : keeps (allocate connected services).
Proof. induction services as [|service services IH]; cbn [allocate]; phases. Qed.
Lemma backup_tls_phase d : keeps (backup_tls d).
Proof. unfold backup_tls. phases. Qed.
Hint Resolve backup_tls_phase : phases.
Lemma reconcileCertificates_phase d result h :
  unsettled result -> sat (fun _ _ => True) (fun _ x => unsettled x.2.1) h (reconcileCertificates d result).
Proof. unfold reconcileCertificates. phases. Qed.
Lemma issued_certificates_phase d result h :
  unsettled result -> sat (fun _ _ => True) (fun _ x => unsettled x.2.1) h (issued_certificates d result).
Proof. unfold issued_certificates. phases. Qed.
Lemma reconcileAddressMigration_phase r d : keeps (reconcileAddressMigration r d).
Proof. unfold reconcileAddressMigration. phases. Qed.
Hint Resolve reconcileAddressMigration_phase : phases.
Lemma prepareCredentialRotation_phase d : keeps (prepareCredentialRotation d).
Proof. unfold prepareCredentialRotation. phases. Qed.
Hint Resolve prepareCredentialRotation_phase : phases.
Lemma run_jobs_phase jobs pending failed result h :
  unsettled result -> sat (fun _ _ => True) (fun _ x => unsettled x.1) h (run_jobs jobs result pending failed).
Proof. revert h. induction jobs as [|job jobs IH]; cbn [run_jobs]; phases; unfold job_blocked; by destruct (Contains _ _). Qed.
Hint Resolve run_jobs_phase : phases.
Lemma ensureRollbackWorkloadsStopped_phase r d : keeps (ensureRollbackWorkloadsStopped r d).
Proof. unfold ensureRollbackWorkloadsStopped. phases. Qed.
Hint Resolve ensureRollbackWorkloadsStopped_phase : phases.
Lemma capture_members_phase d upgrade policy members result h :
  unsettled result -> sat (fun _ _ => True) (fun _ x => unsettled x.1) h (capture_members d upgrade policy result members).
Proof. revert h. induction members as [|member members IH]; cbn [capture_members]; phases. Qed.
Lemma restore_members_phase d upgrade policy members result h :
  unsettled result -> sat (fun _ _ => True) (fun _ x => unsettled x.1) h (restore_members d upgrade policy result members).
Proof. revert h. induction members as [|member members IH]; cbn [restore_members]; phases. Qed.
Hint Resolve capture_members_phase restore_members_phase : phases.
Lemma reconcileRollbackStorage_phase d upgrade : keeps (reconcileRollbackStorage d upgrade).
Proof. unfold reconcileRollbackStorage. phases. Qed.
Lemma reconcileRollbackRestore_phase d upgrade : keeps (reconcileRollbackRestore d upgrade).
Proof. unfold reconcileRollbackRestore. phases. Qed.
Hint Resolve reconcileRollbackStorage_phase reconcileRollbackRestore_phase : phases.
Lemma upgrade_primary_phase r d upgrade : keeps (upgrade_primary r d upgrade).
Proof. unfold upgrade_primary. phases. Qed.
Lemma roll_back_phase r d upgrade : keeps (roll_back r d upgrade).
Proof. unfold roll_back. phases. Qed.
Hint Resolve upgrade_primary_phase roll_back_phase : phases.
Lemma prepareMajorUpgrade_phase r d upgrade : keeps (prepareMajorUpgrade r d upgrade).
Proof. unfold prepareMajorUpgrade, reconcileMajorReplicaReset. phases. Qed.
Hint Resolve prepareMajorUpgrade_phase : phases.
Lemma prepareOperations_phase r d : keeps (prepareOperations r d).
Proof.
  intros result h H. unfold prepareOperations. apply sat_bind.
  eapply (sat_mono _ _ (fun _ x => unsettled x.1)); [done| |destruct (sp_AddressMigration d); phases].
  intros h1 [result1 x] H1. phases.
Qed.

Lemma reconcileWorkloads_phase d objects : keeps (reconcileWorkloads d objects).
Proof. unfold reconcileWorkloads, setMajorUpgradeProgressCondition. phases. Qed.
Lemma observeTopology_phase r d : keeps (observeTopology r d).
Proof. unfold observeTopology. phases. Qed.
Hint Resolve observeTopology_phase : phases.
Lemma reconcileCredentialCatalog_phase d : keeps (reconcileCredentialCatalog d).
Proof. unfold reconcileCredentialCatalog. phases. Qed.
Lemma reconcileUpgradeAction_phase r d : keeps (reconcileUpgradeAction r d).
Proof. unfold reconcileUpgradeAction. phases. Qed.
Hint Resolve reconcileCredentialCatalog_phase reconcileUpgradeAction_phase : phases.
Lemma setDataPlaneConditions_phase r d : keeps (setDataPlaneConditions r d).
Proof. unfold setDataPlaneConditions. phases. Qed.
End phases.
