(* ===== verification/SiteWrites.v ===== *)
(** * What the agent may do to a site

    The requests a reconciliation may send ([site_write]), each with what must
    have been answered before it, and what it means that a plan is applied
    ([Applied]); with the lemmas on the steps of the reconciliation that only
    apply and observe objects.  [ReconcilerProps] shows that the reconciliation
    keeps to both. *)

From S2P Require Import Prelude Utf8 Prog Api Workloads Messages Kube ApiServer Codec NetAddr IpAddr Plan Registration Members Client.
From S2P Require Import RenderBase MaintenanceJobs Render RenderProps AgentBase AgentCertificates Patroni Vault Secrets AgentOperations Reconciler.

(** ** Sequences *)
Lemma sat_seq (P : khistory -> Req -> Prop) {A B} (Q : khistory -> A -> Prop) (R : khistory -> B -> Prop) h p (f : A -> kprog B) :
  sat P Q h p -> (forall h' a, extends h h' -> Q h' a -> sat P R h' (f a)) -> sat P R h (bind p f).
Proof.
  intros Hp Hf. apply sat_bind. eapply sat_mono; [| |apply sat_extends, Hp]; [done|].
  intros h' a [HQ He]. by apply Hf.
Qed.
Lemma sat_ask (P : khistory -> Req -> Prop) {B} (R : khistory -> B -> Prop) h r (f : Resp r -> kprog B) :
  P h r -> (forall x, sat P R (existT r x :: h) (f x)) -> sat P R h (bind (call r) f).
Proof. by split. Qed.

(** ** What was observed *)

(** The server answered a request. *)
Abbreviation answered h q x := (existT (P := Resp) q x ∈ h).

(** An object is ready, by the answer to a read of it. *)
Definition observed_ready (h : khistory) (o : AnyObject) : Prop :=
  match o with
  | existT KStatefulSet expected =>
      exists observed, answered h (Get KStatefulSet (meta_Namespace (sts_Meta expected)) (meta_Name (sts_Meta expected))) (Ok observed) /\
        statefulset_ready observed (default 1%Z (sts_Replicas expected)) = true
  | existT KDeployment expected =>
      exists observed, answered h (Get KDeployment (meta_Namespace (dep_Meta expected)) (meta_Name (dep_Meta expected))) (Ok observed) /\
        deployment_ready observed (default 1%Z (dep_Replicas expected)) = true
  | existT KJob expected =>
      exists observed, answered h (Get KJob (meta_Namespace (job_Meta expected)) (meta_Name (job_Meta expected))) (Ok observed) /\
        job_complete (job_Conditions observed) = true
  | _ => True
  end.

(** An object was applied, and the server answered with [o']. *)
Definition applied_as (h : khistory) (o o' : AnyObject) : Prop :=
  exists x : Object (projT1 o), answered h (Env (Site (ServerSideApply (projT1 o) (projT2 o)))) (Ok x) /\ o' = existT (projT1 o) x.
(** It was applied, and what the server answered was observed to be ready. *)
Definition applied_ready (h : khistory) (o : AnyObject) : Prop := exists o', applied_as h o o' /\ observed_ready h o'.
(** A Job was applied and ran to completion. *)
Definition completed (h : khistory) (job : Job) : Prop := applied_ready h (any (k := KJob) job).

Lemma observed_ready_later h h' o : extends h h' -> observed_ready h o -> observed_ready h' o.
Proof. intros He. destruct o as [[] o]; cbn; try done; intros (x & Hx & ?); exists x; eauto. Qed.
Lemma applied_as_later h h' o o' : extends h h' -> applied_as h o o' -> applied_as h' o o'.
Proof. intros He (x & Hx & ?). exists x. eauto. Qed.
Lemma applied_ready_later h h' o : extends h h' -> applied_ready h o -> applied_ready h' o.
Proof. intros He (o' & ? & ?). exists o'. eauto using observed_ready_later, applied_as_later. Qed.

(** The primary of a topology a Patroni member answered with. *)
Definition observed_primary {JC : Json PatroniCluster} (h : khistory) (primary : string) : Prop :=
  exists request response encoded cluster topology,
    answered h (Env (Site (HTTPDo request))) (Ok response) /\ hrs_Body response = Ok encoded /\
    json_Unmarshal encoded = Ok cluster /\ decode_topology (pcl_Members cluster) = Ok topology /\ pt_Primary topology = primary.

(** ** The plan at run time *)

(** A plan that differs from the accepted one only in what the agent fills in:
    addresses, digests of issued certificates, the version of the credentials
    and the source addresses certificates were issued for. *)
Definition runtime (plan d : SitePlan) : Prop :=
  exists addresses candidates version hashes lb,
    d = plan <| sp_MemberAddresses := addresses |> <| sp_AddressCandidates := candidates |>
             <| sp_RuntimeCredentialVersion := version |> <| sp_RuntimeCertificateHashes := hashes |>
             <| sp_Site ::= set site_LoadBalancer (fun _ => lb) |>.

Lemma runtime_refl plan : runtime plan plan.
Proof.
  exists (sp_MemberAddresses plan), (sp_AddressCandidates plan), (sp_RuntimeCredentialVersion plan),
    (sp_RuntimeCertificateHashes plan), (site_LoadBalancer (sp_Site plan)).
  destruct plan as [? ? ? ? ? ? ? site]. by destruct site.
Qed.

Section runtime.
Context (plan d : SitePlan) (Hd : runtime plan d).
Lemma runtime_site : site_Namespace (sp_Site d) = site_Namespace (sp_Site plan) /\ site_Name (sp_Site d) = site_Name (sp_Site plan) /\
  site_Role (sp_Site d) = site_Role (sp_Site plan) /\ site_Components (sp_Site d) = site_Components (sp_Site plan) /\
  site_Storage (sp_Site d) = site_Storage (sp_Site plan).
Proof. by destruct Hd as (? & ? & ? & ? & ? & ->). Qed.
Lemma runtime_labels : resourceLabels d = resourceLabels plan.
Proof. by destruct Hd as (? & ? & ? & ? & ? & ->). Qed.
Lemma runtime_operations : sp_AddressMigration d = sp_AddressMigration plan /\ sp_CredentialRotation d = sp_CredentialRotation plan /\
  sp_Upgrade d = sp_Upgrade plan /\ sp_MajorUpgrade d = sp_MajorUpgrade plan /\ sp_Restore d = sp_Restore plan /\
  sp_Deletion d = sp_Deletion plan.
Proof. by destruct Hd as (? & ? & ? & ? & ? & ->). Qed.
Lemma runtime_identity : sp_InstanceUID d = sp_InstanceUID plan /\ sp_Revision d = sp_Revision plan.
Proof. by destruct Hd as (? & ? & ? & ? & ? & ->). Qed.
Lemma runtime_owned o : owned d o <-> owned plan o.
Proof. unfold owned. rewrite runtime_labels. by destruct runtime_site as (-> & _). Qed.
Lemma runtime_set_addresses f : runtime plan (set sp_MemberAddresses f d).
Proof. destruct Hd as (a & c & v & m & lb & ->). by exists (f a), c, v, m, lb. Qed.
Lemma runtime_set_candidates f : runtime plan (set sp_AddressCandidates f d).
Proof. destruct Hd as (a & c & v & m & lb & ->). by exists a, (f c), v, m, lb. Qed.
Lemma runtime_set_hashes f : runtime plan (set sp_RuntimeCertificateHashes f d).
Proof. destruct Hd as (a & c & v & m & lb & ->). by exists a, c, v, (f m), lb. Qed.
Lemma runtime_set_version f : runtime plan (set sp_RuntimeCredentialVersion f d).
Proof. destruct Hd as (a & c & v & m & lb & ->). by exists a, c, (f v), m, lb. Qed.
Lemma runtime_set_balancer f : runtime plan (set sp_Site (set site_LoadBalancer f) d).
Proof. destruct Hd as (a & c & v & m & lb & ->). by exists a, c, v, m, (f lb). Qed.
End runtime.

Section site.
Context {K : KubeLib} {C : Crypto} {U : UrlLib} {TT : TimeText} {PJ : PlanJson}.
Context {JC : Json PatroniCluster} {JS : Json SwitchoverBody} {JB : Json LoginBody}.
Context (r : Reconciler) (plan previous : SitePlan) (connected : bool).

Definition target : string := site_Namespace (sp_Site plan).
Definition ownership : list (string * string) := expected_labels (rc_HubDomain r) (rc_SiteUID r) (sp_InstanceUID plan).
Definition target_Namespace : Namespace := mkNamespace (new_meta "" target (list_to_map ownership)).

(** The namespace carries the labels of hub, site and instance: it was read with
    them, or it did not exist and was created with them. *)
Definition verified (h : khistory) : Prop :=
  (exists o, answered h (Get KNamespace "" target) (Ok o) /\ Forall (fun e => meta_Labels (ns_Meta o) !!! e.1 = e.2) ownership) \/
  (exists o, answered h (Create KNamespace target_Namespace) (Ok o)).

(** Listed in the namespace with the labels. *)
Definition listed_here {k : Kind} (h : khistory) (labels : gmap string string) (o : Object k) : Prop :=
  exists os, answered h (List k (Some target) labels) (Ok os) /\ o ∈ os.

(** The PostgreSQL and pooler workloads were applied as the plan renders them
    and observed so; in a phase that stops them, they are rendered with no
    replicas. *)
Definition workloads_stopped (h : khistory) : Prop :=
  exists d objects, runtime plan d /\ Workloads (rc_Renderer r) d = Ok objects /\
    forall o, o ∈ objects -> isRollbackStoppedWorkload o (site_Name (sp_Site plan)) = true -> applied_ready h o.

Definition in_phase (phase : string) (upgrade : MajorUpgradePlan) : Prop :=
  sp_MajorUpgrade plan = Some upgrade /\ mup_Phase upgrade = phase.

Definition materialized : list string :=
  ["postgres-auth"; "postgres-auth-pending"; "pgpool-auth"; "pgbackrest-repository"; "pg-tde-vault"].

(** The credentials in use are replaced by the version they came from, or, if
    they carry none, by equal ones. *)
Definition same_credentials (h : khistory) (o : Secret) : Prop :=
  (exists e, answered h (Get KSecret target "postgres-auth") (Err e) /\ IsNotFound e = true) \/
  exists active, answered h (Get KSecret target "postgres-auth") (Ok active) /\
    let version := parsed_version (meta_Annotations (sec_Meta active) !!! vaultVersionAnnotation) in
    (meta_Annotations (sec_Meta o) !!! vaultVersionAnnotation = FormatInt version \/
     version = 0%Z /\ secretDataEqual (sec_Data active) (sec_Data o) = true).

(** The staged credentials were tried against the member. *)
Definition credentials_tried (h : khistory) : Prop :=
  exists d rotation, runtime plan d /\ sp_CredentialRotation plan = Some rotation /\
    crp_Phase rotation = CredentialRotationPhaseMember /\
    memberBelongsToSite (crp_TargetMember rotation) (site_Name (sp_Site plan)) = true /\
    completed h (CredentialVerificationJob d rotation).

(** A Pod of the instance that has the claim mounted. *)
Definition consumer (h : khistory) (claim : string) (pod : Pod) : Prop :=
  listed_here (k := KPod) h ∅ pod /\ uses_claim pod claim = true /\
  meta_Labels (pd_Meta pod) !!! instanceUIDLabel = sp_InstanceUID plan.

Definition data_claim (member : string) : string := "data-" +:+ member +:+ "-0".

(** The data of a member is being replaced by what was captured before the
    upgrade: the site rolls back, and its workloads were observed stopped. *)
Definition rolling_back (h : khistory) (member : string) : Prop :=
  exists upgrade, in_phase MajorUpgradePhaseRollback upgrade /\ member ∈ site_postgres plan /\ workloads_stopped h.

(** Requests that change nothing in the cluster. *)
Definition site_read (q : Req) : Prop :=
  match q with
  | Get _ _ _ | List _ _ _ | Now | Eventf _ _ _ _ _ _ => True
  | Env (Site (LoadObserved _)) | Env (Site (StoreObserved _ _)) | Env (Site (RequestToken _ _)) => True
  | Env (Site (HTTPDo request)) => hr_Method request = "GET"
  | _ => False
  end.

Inductive site_write (h : khistory) : Req -> Prop :=
| W_read q : site_read q -> site_write h q
(** a login with a token of the workloads' service account *)
| W_login url body tls jwt role :
    answered h (Env (Site (RequestToken target workloadServiceAccount))) (Ok jwt) -> json_Marshal (mkLoginBody jwt role) = Ok body ->
    site_write h (Env (Site (HTTPDo (mkHTTPRequest "POST" url "" (Some body) tls))))
(** the switchover of a minor upgrade, asked of the observed primary *)
| W_switchover upgrade body tls :
    verified h -> sp_Upgrade plan = Some upgrade -> up_Phase upgrade = UpgradePhaseSwitchover ->
    memberBelongsToSite (up_FromPrimary upgrade) (site_Name (sp_Site plan)) = true ->
    observed_primary h (up_FromPrimary upgrade) ->
    json_Marshal (mkSwitchoverBody (up_FromPrimary upgrade) (up_Candidate upgrade)) = Ok body ->
    site_write h (Env (Site (HTTPDo (mkHTTPRequest "POST"
      ("https://" +:+ up_FromPrimary upgrade +:+ "." +:+ target +:+ ".svc:8008/switchover") "" (Some body) tls))))
| W_create_namespace e :
    connected = true -> answered h (Get KNamespace "" target) (Err e) -> IsNotFound e = true ->
    site_write h (Create KNamespace target_Namespace)
| W_delete_namespace deletion o :
    connected = true -> sp_Deletion plan = Some deletion -> dp_Policy deletion = DeletionPolicyDelete -> verified h ->
    answered h (Get KNamespace "" target) (Ok o) -> site_write h (Delete KNamespace o)
(** objects of the instance, while the change may be made *)
| W_apply k (o : Object k) :
    verified h -> sp_Deletion plan = None -> owned plan (any o) ->
    (connected = true \/ k = KServiceAccount \/ Classify previous plan = Some MutationSafe /\ k <> KService /\ k <> KCertificate) ->
    site_write h (Env (Site (ServerSideApply k o)))
| W_create_secret e o name :
    verified h -> name ∈ materialized -> answered h (Get KSecret target name) (Err e) -> IsNotFound e = true ->
    key_of (k := KSecret) o = (target, name) -> meta_Labels (sec_Meta o) = resourceLabels plan ->
    (name = "postgres-auth" -> same_credentials h o) -> site_write h (Create KSecret o)
| W_update_secret base o name :
    verified h -> name ∈ materialized -> answered h (Get KSecret target name) (Ok base) ->
    key_of (k := KSecret) o = key_of (k := KSecret) base -> meta_Labels (sec_Meta o) = resourceLabels plan ->
    (name = "postgres-auth" -> same_credentials h o) -> site_write h (Update KSecret o)
(** the credentials in use are kept before they are replaced by tried ones *)
| W_keep_previous active e o :
    verified h -> credentials_tried h -> answered h (Get KSecret target "postgres-auth") (Ok active) ->
    answered h (Get KSecret target "postgres-auth-previous") (Err e) -> IsNotFound e = true ->
    meta_Name (sec_Meta o) = "postgres-auth-previous" -> meta_Namespace (sec_Meta o) = meta_Namespace (sec_Meta active) ->
    sec_Data o = sec_Data active -> site_write h (Create KSecret o)
| W_promote active pending o :
    verified h -> credentials_tried h -> answered h (Get KSecret target "postgres-auth") (Ok active) ->
    answered h (Get KSecret target "postgres-auth-pending") (Ok pending) ->
    ((exists kept, answered h (Get KSecret target "postgres-auth-previous") (Ok kept)) \/
     (exists kept x, answered h (Create KSecret kept) (Ok x) /\ meta_Name (sec_Meta kept) = "postgres-auth-previous" /\
        sec_Data kept = sec_Data active)) ->
    key_of (k := KSecret) o = key_of (k := KSecret) active -> sec_Data o = sec_Data pending -> site_write h (Update KSecret o)
| W_delete_secret rotation name :
    verified h -> sp_CredentialRotation plan = Some rotation -> crp_Phase rotation = CredentialRotationPhaseFinalize ->
    name ∈ ["postgres-auth-pending"; "postgres-auth-previous"] ->
    site_write h (Delete KSecret (mkSecret (new_meta target name ∅) None ∅))
(** labels and annotations of a claim *)
| W_annotate_claim (base o : PersistentVolumeClaim) :
    verified h ->
    ((exists name, answered h (Get KPersistentVolumeClaim target name) (Ok base)) \/
     (exists labels, listed_here (k := KPersistentVolumeClaim) h labels base)) ->
    (exists labels annotations, o = base <| pvc_Meta ::= fun m => m <| meta_Labels := labels |> <| meta_Annotations := annotations |> |>) ->
    site_write h (Patch KPersistentVolumeClaim base o)
(** what an older revision left, or everything of a deleted instance *)
| W_delete_managed k (o : Object k) :
    verified h -> k ∈ managed_kinds -> listed_here h (managed_labels plan) o ->
    (is_Some (sp_Deletion plan) /\ connected = true \/ meta_Labels (object_meta o) !!! revisionLabel <> FormatInt (sp_Revision plan)) ->
    site_write h (Delete k o)
(** data that is rolled back, and what uses it *)
| W_delete_pod member pod :
    verified h -> rolling_back h member -> consumer h (data_claim member) pod -> site_write h (Delete KPod pod)
| W_delete_controller member pod owner :
    verified h -> rolling_back h member -> consumer h (data_claim member) pod -> owner ∈ meta_OwnerReferences (pd_Meta pod) ->
    or_Controller owner = Some true -> or_Kind owner = "Job" ->
    site_write h (Delete KJob (zero_Job <| job_Meta := new_meta (meta_Namespace (pd_Meta pod)) (or_Name owner) ∅ |>))
| W_delete_data upgrade member observed pods :
    verified h -> rolling_back h member -> sp_MajorUpgrade plan = Some upgrade ->
    answered h (Get KPersistentVolumeClaim target (data_claim member)) (Ok observed) ->
    meta_Annotations (pvc_Meta observed) !!! rollbackSourceAnnotation <> rollback_name upgrade member ->
    answered h (List KPod (Some target) ∅) (Ok pods) -> Forall (fun pod => uses_claim pod (data_claim member) = false) pods ->
    site_write h (Delete KPersistentVolumeClaim observed)
| W_restore_data upgrade member e d storage policy :
    verified h -> rolling_back h member -> sp_MajorUpgrade plan = Some upgrade -> runtime plan d ->
    answered h (Get KPersistentVolumeClaim target (data_claim member)) (Err e) -> IsNotFound e = true ->
    mup_RollbackPolicies upgrade !! site_Name (sp_Site plan) = Some policy ->
    site_write h (Create KPersistentVolumeClaim (rollbackRestorePVC d storage (data_claim member) (rollback_name upgrade member) policy))
(** rollback storage past its retention *)
| W_delete_expired k (o : Object k) now :
    verified h -> k = KPersistentVolumeClaim \/ k = KVolumeSnapshot -> answered h Now now ->
    listed_here h {[ instanceUIDLabel := sp_InstanceUID plan ]} o -> rollback_expired (object_meta o) now = true ->
    site_write h (Delete k o).

Lemma verified_later h h' : extends h h' -> verified h -> verified h'.
Proof. intros He [(o & ? & ?)|(o & ?)]; [left|right]; exists o; eauto. Qed.
Lemma workloads_stopped_later h h' : extends h h' -> workloads_stopped h -> workloads_stopped h'.
Proof. intros He (d & objects & ? & ? & H). exists d, objects. split_and!; eauto using applied_ready_later. Qed.
Lemma rolling_back_later h h' member : extends h h' -> rolling_back h member -> rolling_back h' member.
Proof. intros He (u & ? & ? & ?). exists u. eauto using workloads_stopped_later. Qed.
Lemma credentials_tried_later h h' : extends h h' -> credentials_tried h -> credentials_tried h'.
Proof. intros He (d & rotation & ? & ? & ? & ? & ?). exists d, rotation. split_and!; try done. by eapply applied_ready_later. Qed.
Lemma consumer_later h h' claim pod : extends h h' -> consumer h claim pod -> consumer h' claim pod.
Proof. intros He ((os & ? & ?) & ? & ?). split_and!; try done. exists os. eauto. Qed.

(** ** Applying and observing *)
Local Abbreviation safe := (sat site_write).

Lemma ask_read {B} (R : khistory -> B -> Prop) h q (f : Resp q -> kprog B) :
  site_read q -> (forall x, safe R (existT q x :: h) (f x)) -> safe R h (bind (call q) f).
Proof. intros Hq Hf. apply sat_ask; [by apply W_read|done]. Qed.

Lemma EnsureNamespace_safe b h :
  (b = true -> connected = true) ->
  safe (fun h' x => x = Ok tt -> verified h') h
    (EnsureNamespace target (rc_HubDomain r) (rc_SiteUID r) (sp_InstanceUID plan) b).
Proof.
  intros Hb. unfold EnsureNamespace. apply ask_read; [done|]. intros [o|e].
  - destruct (List.find _ _) as [[key value]|] eqn:E; [done|]. intros _. left. exists o. split; [by left|].
    apply list.Forall_forall. intros entry Hin%list_elem_of_In. assert (H := List.find_none _ _ E entry Hin). cbn in H. by bool_to_prop.
  - destruct (IsNotFound e) eqn:He; [|done]. destruct b; [|done]. cbn [negb].
    apply sat_ask; [eapply W_create_namespace; [by apply Hb|by left|done]|]. intros [o|e']; [|done].
    intros _. right. exists o. by left.
Qed.

(** An object of the instance may be applied now. *)
Definition appliable (o : AnyObject) : Prop :=
  owned plan o /\ (connected = true \/ Classify previous plan = Some MutationSafe /\ projT1 o <> KService /\ projT1 o <> KCertificate).

Section applying.
Context (Hdeletion : sp_Deletion plan = None).

Lemma apply_object_safe {k} (o : Object k) h :
  verified h -> appliable (any o) ->
  safe (fun h' x => forall o', x = Ok o' -> answered h' (Env (Site (ServerSideApply k o))) (Ok o')) h (apply_object o).
Proof.
  intros Hv [Ho Hc]. unfold apply_object. apply sat_ask; [apply W_apply; try done; naive_solver|].
  intros [o'|e]; [|done]. intros ? [= <-]. by left.
Qed.

Lemma apply_safe o h :
  verified h -> appliable o -> safe (fun h' x => forall o', x = Ok o' -> applied_as h' o o') h (apply o).
Proof.
  intros Hv Ho. unfold apply. eapply sat_seq; [apply apply_object_safe; [done|by destruct o]|].
  intros h' [o'|e] _ H; [|done]. cbn. intros ? [= <-]. exists o'. split; [by apply H|done].
Qed.

Lemma apply_all_safe objects h :
  verified h -> Forall appliable objects ->
  safe (fun h' x => forall l, x = Ok l -> Forall2 (applied_as h') objects l) h (apply_all objects).
Proof.
  revert h. induction objects as [|o objects IH]; intros h Hv Hf; cbn [apply_all]; [by intros l [= <-]|].
  apply list.Forall_cons in Hf as [Ho Hf]. eapply sat_seq; [by apply apply_safe|]. intros h1 [o'|e] He1 H1; [|done].
  eapply sat_seq; [apply IH; eauto using verified_later|]. intros h2 [l|e] He2 H2; [|done].
  intros ? [= <-]. constructor; [eapply applied_as_later; eauto|by apply H2].
Qed.

Lemma jobFailureDetail_safe job h : safe done_ h (jobFailureDetail job).
Proof. unfold jobFailureDetail. apply ask_read; [done|]. by intros [pods|e]. Qed.

Lemma object_ready_safe o h : safe (fun h' x => x = Ok None -> observed_ready h' o) h (object_ready o).
Proof.
  destruct o as [[] o]; try done; unfold object_ready; (apply ask_read; [done|]); intros [observed|e]; try done.
  - cbn [sat]. destruct (deployment_ready _ _) eqn:E; [|done]. intros _. exists observed. split; [by left|done].
  - cbn [sat]. destruct (statefulset_ready _ _) eqn:E; [|done]. intros _. exists observed. split; [by left|done].
  - destruct (job_outcome _) as [condition|] eqn:E; [|done].
    destruct (jc_Type condition == "Complete") eqn:Ec; [|by eapply sat_seq; [apply jobFailureDetail_safe|]].
    intros _. exists observed. split; [by left|]. unfold job_complete. by rewrite E.
Qed.

Lemma workloadsReady_safe objects h :
  safe (fun h' x => x = Ok None -> Forall (observed_ready h') objects) h (workloadsReady objects).
Proof.
  revert h. induction objects as [|o objects IH]; intros h; cbn [workloadsReady]; [by constructor|].
  eapply sat_seq; [apply object_ready_safe|]. intros h1 [[message|]|e] He1 H1; try done.
  eapply sat_mono_later; [| |apply IH]; [done|]. intros h2 x He2 H2 Hx. constructor; [|by apply H2].
  eapply observed_ready_later; [exact He2|by apply H1].
Qed.

Lemma applied_observed objects l h h' :
  extends h h' -> Forall2 (applied_as h) objects l -> Forall (observed_ready h') l -> Forall (applied_ready h') objects.
Proof.
  intros He H. induction H as [|o o' objects l Ho H IH]; intros Hr; [constructor|].
  apply list.Forall_cons in Hr as [Hr Hrs]. constructor; [|by apply IH]. exists o'. eauto using applied_as_later.
Qed.

(** Apply objects, then look whether all of them are ready. *)
Lemma apply_ready_safe {B} objects h (failed : Error -> kprog B) (next : option string -> kprog B) (R : khistory -> B -> Prop) :
  verified h -> Forall appliable objects ->
  (forall h' e, extends h h' -> safe R h' (failed e)) ->
  (forall h' m, extends h h' -> (m = None -> Forall (applied_ready h') objects) -> safe R h' (next m)) ->
  safe R h (let! applied := apply_all objects onerr e => failed e in let! message := workloadsReady applied onerr e => failed e in next message).
Proof.
  intros Hv Hf Herr Hnext. eapply sat_seq; [by apply apply_all_safe|]. intros h1 [l|e] He1 H1; [|by apply Herr].
  eapply sat_seq; [apply workloadsReady_safe|]. intros h2 [m|e] He2 H2; [|by apply Herr; eauto using extends_trans].
  apply Hnext; [by eapply extends_trans|]. intros ->. eapply applied_observed; [exact He2|by apply H1|by apply H2].
Qed.

Lemma run_job_safe job h :
  verified h -> appliable (any (k := KJob) job) -> safe (fun h' x => x = Ok None -> completed h' job) h (run_job job).
Proof.
  intros Hv Ho. unfold run_job. eapply sat_seq; [by apply apply_safe|]. intros h1 [o'|e] He1 H1; [|done].
  eapply sat_mono_later; [| |apply workloadsReady_safe]; [done|]. intros h2 x He2 H2 Hx. exists o'.
  split; [eapply applied_as_later; eauto|]. by apply H2, list.Forall_cons in Hx as [Hx _].
Qed.
End applying.
End site.
