(* ===== verification/SiteSteps.v ===== *)
(** * Secrets, addresses and certificates of a site

    The steps of a reconciliation before the operations of the plan: they send
    only what [SiteWrites.site_write] allows, and what they conclude was
    observed. *)

From S2P Require Import Prelude Utf8 Prog Api Workloads Messages Kube ApiServer Codec NetAddr IpAddr Plan Registration Members Client.
From S2P Require Import RenderBase MaintenanceJobs Render RenderProps AgentBase AgentCertificates Patroni Vault Secrets AgentOperations Reconciler SiteWrites.

(** Into the cases of the outermost condition. *)
Tactic Notation "branch" "as" ident(E) := lazymatch goal with |- sat _ _ _ (if ?b then _ else _) => destruct b eqn:E end.

(** ** Reading Vault

    For a component whose requests are confined to [P]: it may read, and log in
    to Vault with a token of the workloads' service account of a namespace. *)
Class Reads (P : khistory -> Req -> Prop) := { may_read h q : site_read q -> P h q }.
Class LogsIn {JB : Json LoginBody} (P : khistory -> Req -> Prop) (namespace : string) := { may_login h url body tls jwt role :
  answered h (Env (Site (RequestToken namespace workloadServiceAccount))) (Ok jwt) -> json_Marshal (mkLoginBody jwt role) = Ok body ->
  P h (Env (Site (HTTPDo (mkHTTPRequest "POST" url "" (Some body) tls)))) }.

(** Over a read, into the cases of its answer. *)
Ltac read := apply sat_ask; [by apply may_read|].

Section vault.
Context {P : Pki} {U : UrlLib} {UP : UrlPath} {TT : TimeText}.
Context {JL : Json LoginResponse} {JB : Json LoginBody} {JK : Json KVResponse}.
Context (A : khistory -> Req -> Prop) {HR : Reads A}.

Lemma vault_request_get {T} `{Json T} c resource token h : sat A done_ h (vault_request (T := T) c "GET" resource token None).
Proof.
  unfold vault_request. destruct (url_Parse _); [|done]. destruct (_ || _); [done|]. read. intros [response|e]; [|done].
  destruct (hrs_Body response); [|done]. destruct (_ <? _)%nat; [done|]. destruct (_ || _); [done|]. by destruct (json_Unmarshal _).
Qed.

Lemma LoginKubernetes_safe namespace `{!LogsIn A namespace} c jwt h :
  answered h (Env (Site (RequestToken namespace workloadServiceAccount))) (Ok jwt) -> sat A done_ h (LoginKubernetes c jwt).
Proof.
  intros Hj. unfold LoginKubernetes. destruct (_ || _); [done|]. apply (sat_seq _ done_).
  - unfold vault_request. destruct (url_Parse _); [|done]. destruct (_ || _); [done|].
    destruct (json_Marshal _) as [body|] eqn:Eb; [|done]. apply sat_ask; [by eapply may_login|]. intros [response|e]; [|done].
    destruct (hrs_Body response); [|done]. destruct (_ <? _)%nat; [done|]. destruct (_ || _); [done|]. by destruct (json_Unmarshal _).
  - intros h1 [response|e] _ _; [|done]. destruct (_ || _); [done|]. by read.
Qed.

Lemma ReadKV2_safe c token reference h :
  sat A (fun _ x => forall s, x = Ok s -> (1 <= vsec_Version s)%Z) h (ReadKV2 c token reference).
Proof.
  unfold ReadKV2. destruct (ValidateSecretReference _ _); [|done]. eapply sat_seq; [apply vault_request_get|].
  intros h1 [response|e] _ _; [|done]. destruct (string_fields _); [|done]. destruct (_ <? 1)%Z eqn:E; [done|].
  intros s [= <-]. apply Z.ltb_ge in E. exact E.
Qed.

Lemma read_fields_safe c token reference context fields h :
  sat A (fun _ x => forall s, x = Ok s -> (1 <= vsec_Version s)%Z) h (read_fields c token reference context fields).
Proof.
  unfold read_fields. eapply sat_seq; [apply ReadKV2_safe|]. intros h1 [s|e] _ H; [|done].
  destruct (RequireFields _ _); [|done]. by intros ? [= <-]; apply H.
Qed.

Lemma secretValue_safe m reference h : sat A done_ h (secretValue m reference).
Proof. unfold secretValue. read. intros [secret|e]; [|done]. by destruct (_ == ""). Qed.

Lemma vaultCABundle_safe m auth h : sat A done_ h (vaultCABundle m auth).
Proof.
  unfold vaultCABundle. destruct (va_CABundleSecretRef auth); [|done]. eapply sat_seq; [apply secretValue_safe|]. by intros h1 [].
Qed.

Lemma vault_session_safe m d auth h : LogsIn A (site_Namespace (sp_Site d)) -> sat A done_ h (vault_session m d auth).
Proof.
  intros Hl. unfold vault_session. read. intros [jwt|e]; [|done].
  eapply sat_seq; [apply vaultCABundle_safe|]. intros h1 [bundle|e] He _; [|done]. destruct (NewClient _ _); [|done].
  eapply sat_seq; [eapply LoginKubernetes_safe; [done|apply He; by left]|]. by intros h2 [].
Qed.

Lemma Resolve_safe m d reference h : LogsIn A (site_Namespace (sp_Site d)) -> sat A done_ h (Resolve m d reference).
Proof.
  intros Hl. unfold Resolve. destruct (site_VaultAuth _); [|done]. eapply sat_seq; [by apply vault_session_safe|].
  intros h1 [[[c token] bundle]|e] _ _; [|done]. by eapply sat_mono; [| |apply ReadKV2_safe].
Qed.
End vault.

Section site_requests.
Context {K : KubeLib} {C : Crypto} {U : UrlLib} {TT : TimeText} {PJ : PlanJson}.
Context {JC : Json PatroniCluster} {JS : Json SwitchoverBody} {JB : Json LoginBody}.
Context (r : Reconciler) (plan previous : SitePlan) (connected : bool).
#[global] Instance site_reads : Reads (site_write r plan previous connected).
Proof. split. intros h q. apply W_read. Qed.
Lemma site_logs_in d : runtime plan d -> LogsIn (site_write r plan previous connected) (site_Namespace (sp_Site d)).
Proof. intros Hd. split. intros h url body tls jwt role. destruct (runtime_site plan d Hd) as (-> & _). apply W_login. Qed.
End site_requests.

Section safety.
Context {K : KubeLib} {C : Crypto} {X : X509} {P : Pki} {U : UrlLib} {UP : UrlPath} {TT : TimeText} {PJ : PlanJson}.
Context {JC : Json PatroniCluster} {JS : Json SwitchoverBody}.
Context {JL : Json LoginResponse} {JB : Json LoginBody} {JK : Json KVResponse}.
Context (r : Reconciler) (plan previous : SitePlan) (connected : bool).

Local Abbreviation safe := (sat (site_write r plan previous connected)).
Local Abbreviation verified := (verified r plan).
Local Abbreviation target := (target plan).

Lemma safe_weaken {A} (Q Q' : khistory -> A -> Prop) h p : (forall h' a, extends h h' -> Q h' a -> Q' h' a) -> safe Q h p -> safe Q' h p.
Proof. intros H. by apply sat_mono_later. Qed.
Lemma safe_done {A} (Q : khistory -> A -> Prop) h p : safe Q h p -> safe done_ h p.
Proof. by apply safe_weaken. Qed.

(** ** Secrets *)

(** What [reconcileSecret] writes. *)
Definition secret_annotations (version : Z) : gmap string string :=
  if (0 <? version)%Z then {[ vaultVersionAnnotation := FormatInt version ]} else ∅.

Lemma reconcileSecret_safe d name version data h :
  runtime plan d -> verified h -> name ∈ materialized ->
  (name = "postgres-auth" -> forall h' o, extends h h' -> meta_Annotations (sec_Meta o) = secret_annotations version -> sec_Data o = data ->
     same_credentials plan h' o) ->
  safe done_ h (reconcileSecret d name version data).
Proof.
  intros Hd Hv Hn Hc. unfold reconcileSecret. rewrite (runtime_labels plan d Hd). destruct (runtime_site plan d Hd) as (-> & _).
  read. intros [secret|e].
  - apply sat_ask; [|by intros []]. eapply (W_update_secret _ _ _ _ _ secret _ name); try done; [|by left|].
    + eapply verified_later; [apply extends_cons|done].
    + intros ->. apply Hc; [done|apply extends_cons|done..].
  - destruct (IsNotFound e) eqn:Ee; [|done]. apply sat_ask; [|by intros []].
    eapply (W_create_secret _ _ _ _ _ e _ name); try done; [|by left|].
    + eapply verified_later; [apply extends_cons|done].
    + intros ->. apply Hc; [done|apply extends_cons|done..].
Qed.

Lemma reconcilePostgresCredentials_safe d version data h :
  runtime plan d -> verified h -> (1 <= version)%Z -> safe done_ h (reconcilePostgresCredentials d version data).
Proof.
  intros Hd Hv Hver. unfold reconcilePostgresCredentials. destruct (runtime_site plan d Hd) as (Hns & _). rewrite Hns.
  read. match goal with |- forall x, sat _ _ (@?H x) _ => assert (Hv1 : forall x, verified (H x)) by (intros; eapply verified_later; [apply extends_cons|done]) end.
  intros [active|e].
  - branch as Ea.
    + apply reconcileSecret_safe; [done|apply Hv1|by left|]. intros _ h' o He Ho Hdata. right. exists active.
      split; [apply He; by left|]. cbn zeta. apply orb_true_iff in Ea as [Ea|[Ez Eq]%andb_true_iff].
      * left. apply bool_decide_eq_true in Ea. rewrite Ea, Ho. unfold secret_annotations.
        rewrite (proj2 (Z.ltb_lt 0 version)) by lia. by rewrite lookup_total_singleton.
      * right. apply bool_decide_eq_true in Ez. by rewrite Hdata.
    + branch as Eb; [done|]. apply reconcileSecret_safe; [done|apply Hv1|by right; left|done].
  - destruct (IsNotFound e) eqn:Ee; [|done]. apply reconcileSecret_safe; [done|apply Hv1|by left|].
    intros _ h' o He _ _. left. exists e. split; [apply He; by left|done].
Qed.

Lemma Secrets_Reconcile_safe m d h : runtime plan d -> verified h -> safe done_ h (Secrets_Reconcile m d).
Proof.
  intros Hd Hv. unfold Secrets_Reconcile. destruct (_ == _); [done|]. destruct (site_VaultAuth _) as [auth|]; [|done].
  eapply sat_seq; [apply vault_session_safe; [apply _|by apply site_logs_in]|]. intros h1 [[[c token] bundle]|e] He1 _; [|done].
  apply (verified_later r plan h h1 He1) in Hv. clear He1.
  apply (sat_seq _ done_).
  { unfold postgres_secret. eapply sat_seq; [apply read_fields_safe; apply _|]. intros h2 [s|e] He Hs; [|done].
    apply reconcilePostgresCredentials_safe; [done|by eapply verified_later|by apply Hs]. }
  intros h2 [[]|e] He2 _; [|done]. apply (verified_later r plan h1 h2 He2) in Hv. clear He2.
  apply (sat_seq _ done_).
  { unfold pgpool_secret. destruct (negb _); [done|]. eapply sat_seq; [apply read_fields_safe; apply _|]. intros h3 [s|e] He Hs; [|done].
    apply reconcileSecret_safe; [done|by eapply verified_later|by do 2 right; left|done]. }
  intros h3 [[]|e] He3 _; [|done]. apply (verified_later r plan h2 h3 He3) in Hv. clear He3.
  assert (Hrepo : forall h4 s data, extends h3 h4 -> safe done_ h4 (reconcileSecret d "pgbackrest-repository" s data)).
  { intros. apply reconcileSecret_safe; [done|by eapply verified_later|by do 3 right; left|done]. }
  apply (sat_seq _ done_).
  { unfold repository_secret. destruct (match seeding d with Some _ => _ | None => _ end) as [backup|]; [|done].
    eapply sat_seq; [apply read_fields_safe; apply _|]. intros h4 [s|e] He Hs; [|done].
    destruct (br_CABundleSecretRef _); [|by apply Hrepo]. eapply sat_seq; [apply secretValue_safe; apply _|].
    intros h5 [ca|e] He5 _; [|done]. apply Hrepo. by eapply extends_trans. }
  intros h4 [[]|e] He4 _; [|done]. unfold tde_secret. destruct (negb _); [done|]. destruct (tde_Vault _); [|done].
  apply reconcileSecret_safe; [done|by eapply verified_later|by do 4 right; left|done].
Qed.

Lemma reconcileSecrets_safe m d result h :
  runtime plan d -> verified h ->
  safe (fun _ x => forall d', x.2 = Ok d' -> runtime plan d' /\ Classify previous d' = Classify previous d /\ sp_MemberAddresses d' = sp_MemberAddresses d) h
    (reconcileSecrets m d result).
Proof.
  intros Hd Hv. unfold reconcileSecrets. eapply sat_seq; [by apply Secrets_Reconcile_safe|]. intros h1 [[]|e] He1 _; [|done].
  destruct (_ != _); [by intros ? [= <-]|]. apply (sat_seq _ done_).
  - unfold setCredentialConditions. read. intros [active|e]; [|done]. destruct (ParseInt _ _); [|done].
    destruct (_ <? _)%Z; [done|]. read. intros [pending|e]; [done|]. by destruct (IsNotFound e).
  - intros h2 [result' [version|e]] _ _; [|done]. intros ? <-%Ok_inj. split; [|done].
    exact (runtime_set_version plan d Hd (fun _ => version)).
Qed.

(** ** Load balancers *)

(** The Service exists, with exactly one address. *)
Definition has_load_balancer (h : khistory) (service : Service) : Prop :=
  exists observed address, answered h (Get KService (meta_Namespace (svc_Meta service)) (meta_Name (svc_Meta service))) (Ok observed) /\
    loadBalancerAddress observed = Ok address.
Lemma has_load_balancer_later h h' service : extends h h' -> has_load_balancer h service -> has_load_balancer h' service.
Proof. intros He (o & a & ? & ?). exists o, a. eauto. Qed.

Context (Hdeletion : sp_Deletion plan = None).

Lemma allocate_safe services result h :
  verified h -> Forall (owned plan) (any (k := KService) <$> services) ->
  safe (fun h' x => x.2 = Ok true -> Forall (has_load_balancer h') services) h (allocate connected services result).
Proof.
  revert result h. induction services as [|service services IH]; intros result h Hv Ho; cbn [allocate]; [by constructor|].
  rewrite fmap_cons, list.Forall_cons in Ho. destruct Ho as [Ho Hos]. cbn zeta.
  assert (Hnext : forall h1, extends h h1 -> safe (fun h' x => x.2 = Ok true -> Forall (has_load_balancer h') (service :: services)) h1
    (let! observed := call (Get KService (meta_Namespace (svc_Meta service)) (meta_Name (svc_Meta service))) onerr e => Ret (stop result e) in
     match loadBalancerAddress observed with
     | Err e => Ret (wait (setLocalCondition result "LoadBalancersAllocated" ConditionFalse "AddressPending" (err_text e)))
     | Ok address => allocate connected services (result <| ar_Addresses ::= insert (meta_Name (svc_Meta observed)) address |>)
     end)).
  { intros h1 He. read. intros [observed|e]; [|done]. destruct (loadBalancerAddress observed) as [address|e] eqn:Ea; [|done].
    eapply safe_weaken; [|apply IH; [eapply verified_later; [|exact Hv]; by apply extends_cons_r|done]].
    intros h2 x He2 H2 Hx. constructor; [|by apply H2]. exists observed, address. split; [apply He2; by left|done]. }
  destruct connected eqn:Hc.
  - eapply sat_seq; [apply apply_safe; [done|done|split; [done|by left]]|]. intros h1 [o|e] He _; [|done]. by apply Hnext.
  - read. intros [o|e]; [|by destruct (IsNotFound e)]. apply Hnext, extends_cons.
Qed.

Lemma reconcileLoadBalancers_safe d result h :
  runtime plan d -> verified h ->
  safe (fun h' x => x.2 = Ok true -> Forall (has_load_balancer h') (LoadBalancers d)) h (reconcileLoadBalancers d connected result).
Proof.
  intros Hd Hv. apply allocate_safe; [done|]. eapply list.Forall_impl; [apply LoadBalancers_owned|]. intros o Ho. by apply (runtime_owned plan d Hd).
Qed.

(** ** Certificates *)

(** cert-manager has issued what the Certificate asks for: its output Secret
    holds a leaf that is valid now, chains to the bundle and has the names,
    addresses and usages. *)
Definition issued (h : khistory) (certificate : Unstructured) : Prop :=
  exists observed name secret now,
    answered h (Get KCertificate (meta_Namespace (us_Meta certificate)) (meta_Name (us_Meta certificate))) (Ok observed) /\
    output_secret observed = Some name /\ answered h (Get KSecret (meta_Namespace (us_Meta observed)) name) (Ok secret) /\
    answered h Now now /\ validateIssuedCertificate observed secret now = Ok tt.
Definition certified (h : khistory) (certificate : Unstructured) : Prop :=
  exists applied, answered h (Env (Site (ServerSideApply KCertificate certificate))) (Ok applied) /\ issued h applied.
Lemma issued_later h h' certificate : extends h h' -> issued h certificate -> issued h' certificate.
Proof. intros He (o & n & s & t & ? & ? & ? & ? & ?). exists o, n, s, t. split_and!; eauto. Qed.
Lemma certified_later h h' certificate : extends h h' -> certified h certificate -> certified h' certificate.
Proof. intros He (o & ? & ?). exists o. eauto using issued_later. Qed.

Lemma issued_sources_safe d excluded members h : safe done_ h (issued_sources d excluded members).
Proof.
  revert h. induction members as [|member members IH]; intros h; cbn [issued_sources]; [done|]. read. intros [secret|e].
  - destruct (parseLeafCertificate _); [|done]. eapply sat_seq; [apply IH|]. by intros h1 [].
  - destruct (IsNotFound e); [apply IH|done].
Qed.

Lemma preserve_safe d h :
  runtime plan d ->
  safe (fun _ x => forall d', x = Ok d' -> runtime plan d' /\ sp_MemberAddresses d' = sp_MemberAddresses d) h
    (preserveIssuedEtcdPeerSourceAddresses d).
Proof.
  intros Hd. unfold preserveIssuedEtcdPeerSourceAddresses. eapply sat_seq; [apply issued_sources_safe|].
  intros h1 [sources|e] _ _; [|done]. intros ? <-%Ok_inj. destruct (bool_decide _); [done|]. split; [|done].
  by apply runtime_set_balancer.
Qed.

Lemma apply_certificates_safe certificates h :
  verified h -> connected = true -> Forall (owned plan) (any (k := KCertificate) <$> certificates) ->
  safe (fun h' x => forall l, x = Ok l ->
      Forall2 (fun c c' => answered h' (Env (Site (ServerSideApply KCertificate c))) (Ok c')) certificates l) h
    (apply_certificates certificates).
Proof.
  intros Hv Hc. revert h Hv. induction certificates as [|c certificates IH]; intros h Hv Ho; cbn [apply_certificates]; [by intros l [= <-]|].
  rewrite fmap_cons, list.Forall_cons in Ho. destruct Ho as [Ho Hos].
  eapply sat_seq; [apply (apply_object_safe _ _ _ _ Hdeletion (k := KCertificate)); [done|split; [done|by left]]|].
  intros h1 [c'|e] He1 H1; [|done]. eapply sat_seq; [apply IH; [by eapply verified_later|done]|].
  intros h2 [l|e] He2 H2; [|done]. intros ? <-%Ok_inj. constructor; [by apply He2, H1|by apply H2].
Qed.

Lemma certificate_ready_safe c h : safe (fun h' x => x = Ok None -> issued h' c) h (certificate_ready c).
Proof.
  unfold certificate_ready. read. intros [observed|e]; [|done]. destruct (NestedSlice _ _) as [[conditions|]|]; [|done|done].
  destruct (negb _); [done|]. destruct (output_secret observed) as [name|] eqn:Eo; [|by destruct (NestedString _ _)].
  read. intros [secret|e]; [|by destruct (IsNotFound e)]. read. intros now. cbn [sat].
  destruct (validateIssuedCertificate _ _ _) as [[]|] eqn:Ev; [|done]. intros _. exists observed, name, secret, now.
  split_and!; try done; repeat first [by left|right].
Qed.

Lemma certificatesReady_safe certificates h : safe (fun h' x => x = Ok None -> Forall (issued h') certificates) h (certificatesReady certificates).
Proof.
  revert h. induction certificates as [|c certificates IH]; intros h; cbn [certificatesReady]; [by constructor|].
  eapply sat_seq; [apply certificate_ready_safe|]. intros h1 [[m|]|e] He1 H1; try done.
  eapply safe_weaken; [|apply IH]. intros h2 x He2 H2 Hx. constructor; [|by apply H2]. eapply issued_later; [exact He2|by apply H1].
Qed.

Lemma certified_all certificates l h h' : extends h h' ->
  Forall2 (fun c c' => answered h (Env (Site (ServerSideApply KCertificate c))) (Ok c')) certificates l ->
  Forall (issued h') l -> Forall (certified h') certificates.
Proof.
  intros He H. induction H as [|c c' certificates l Hc H IH]; intros Hi; [constructor|].
  apply list.Forall_cons in Hi as [Hi Hl]. constructor; [|by apply IH]. exists c'. eauto.
Qed.

Lemma certificateHashes_safe certificates h : safe done_ h (certificateHashes certificates).
Proof.
  revert h. induction certificates as [|c certificates IH]; intros h; cbn [certificateHashes]; [done|].
  destruct (output_secret c); [|done]. read. intros [secret|e]; [|done]. eapply sat_seq; [apply IH|]. by intros h1 [].
Qed.

Lemma trustBundleFingerprint_safe namespace name h : safe done_ h (trustBundleFingerprint namespace name).
Proof. unfold trustBundleFingerprint. read. by intros []. Qed.

(** What the certificate step hands on. *)
Definition certificates_done (h : khistory) (d0 : SitePlan) (x : SitePlan * Step) : Prop :=
  x.2.2 = Ok true -> runtime plan x.1 /\ sp_MemberAddresses x.1 = sp_MemberAddresses d0 /\
    (connected = true -> exists d, runtime plan d /\ Forall (certified h) (Certificates d)).

Lemma reconcileCertificates_safe d result h :
  runtime plan d -> verified h -> connected = true -> safe (fun h' => certificates_done h' d) h (reconcileCertificates d result).
Proof.
  intros Hd Hv Hc. unfold reconcileCertificates. eapply sat_seq; [by apply preserve_safe|]. intros h1 [d1|e] He1 H1; [|done].
  destruct (H1 d1 eq_refl) as [Hd1 Ha1].
  eapply sat_seq; [apply apply_certificates_safe; [by eapply verified_later|done|]|].
  { eapply list.Forall_impl; [apply Certificates_owned|]. intros o Ho. by apply (runtime_owned plan d1 Hd1). }
  intros h2 [l|e] He2 H2; [|done]. eapply sat_seq; [apply certificatesReady_safe|]. intros h3 [[m|]|e] He3 H3; [done| |done].
  assert (Hall := certified_all _ _ _ _ He3 (H2 l eq_refl) (H3 eq_refl)).
  eapply sat_seq; [apply certificateHashes_safe|]. intros h4 [versions|e] He4 _; [|done].
  eapply sat_seq; [apply trustBundleFingerprint_safe|]. intros h5 [fingerprint|e] He5 _; [|done].
  apply (sat_seq _ done_); [unfold backup_tls; destruct (_ || _); [done|]; eapply sat_seq; [apply trustBundleFingerprint_safe|by intros ? []]|].
  intros h6 step He6 _ _. split_and!; [by apply (runtime_set_hashes _ _ Hd1)|done|]. intros _. exists d1. split; [done|].
  eapply list.Forall_impl; [exact Hall|]. intros c. apply certified_later. by do 2 (eapply extends_trans; [|eassumption]).
Qed.

Lemma issued_certificates_safe d result h :
  runtime plan d -> connected = false -> safe (fun h' => certificates_done h' d) h (issued_certificates d result).
Proof.
  intros Hd Hc. unfold issued_certificates. eapply sat_seq; [by apply preserve_safe|]. intros h1 [d1|e] He1 H1; [|done].
  destruct (H1 d1 eq_refl) as [Hd1 Ha1]. eapply sat_seq; [apply certificateHashes_safe|]. intros h4 [versions|e] He4 _; [|done].
  intros _. split_and!; [by apply (runtime_set_hashes _ _ Hd1)|done|]. by rewrite Hc.
Qed.
End safety.
