(* ===== verification/OperationProps.v ===== *)
(** * Coordinated operations at a site

    The steps of [AgentOperations] send only what [SiteWrites.site_write]
    allows; and they let the reconciliation go on only when the local work of
    the operation is done: [operation_done] is what the hub concludes from a
    site that reports the plan of a phase as ready. *)

From S2P Require Import Prelude Utf8 Prog Api Workloads Messages Kube ApiServer Codec NetAddr IpAddr Plan Registration Members Client.
From S2P Require Import RenderBase MaintenanceJobs Render RenderProps AgentBase AgentCertificates Patroni Vault Secrets AgentOperations Reconciler SiteWrites SiteSteps.

Section operations.
Context {K : KubeLib} {C : Crypto} {U : UrlLib} {TT : TimeText} {PJ : PlanJson}.
Context {JC : Json PatroniCluster} {JS : Json SwitchoverBody} {JB : Json LoginBody}.
Context (r : Reconciler) (plan previous : SitePlan) (connected : bool).

Local Abbreviation safe := (sat (site_write r plan previous connected)).
Local Abbreviation verified := (verified r plan).
Local Abbreviation target := (target plan).

(** The change may be made now. *)
Definition mutable : Prop := connected = true \/ Classify previous plan = Some MutationSafe.

Context (Hdeletion : sp_Deletion plan = None) (Hmutable : mutable).

Lemma appliable_workload d o : runtime plan d -> workload d o -> appliable plan previous connected o.
Proof. intros Hd (Ho & ? & ?). split; [by apply (runtime_owned plan d Hd)|]. destruct Hmutable; [by left|by right]. Qed.
Lemma appliable_job d job :
  runtime plan d -> meta_Namespace (job_Meta job) = site_Namespace (sp_Site d) -> meta_Labels (job_Meta job) = resourceLabels d ->
  appliable plan previous connected (any (k := KJob) job).
Proof. intros Hd ? ?. by eapply appliable_workload, workload_new. Qed.

(** ** What the operations leave *)
Definition captured (h : khistory) (upgrade : MajorUpgradePlan) (policy : StorageRollbackPolicy) (member : string) : Prop :=
  srp_Strategy policy = "VolumeSnapshot" /\
    (exists observed, answered h (Get KVolumeSnapshot target (rollback_name upgrade member)) (Ok observed) /\
       NestedBool (us_Object observed) ["status"; "readyToUse"] = Some (Some true)) \/
  srp_Strategy policy = "PVCClone" /\
    (exists observed, answered h (Get KPersistentVolumeClaim target (rollback_name upgrade member)) (Ok observed) /\ pvc_Phase observed = "Bound").

(** The data of the member is a bound copy of what was captured. *)
Definition restored (h : khistory) (upgrade : MajorUpgradePlan) (member : string) : Prop :=
  exists observed, answered h (Get KPersistentVolumeClaim target (data_claim member)) (Ok observed) /\
    meta_Annotations (pvc_Meta observed) !!! rollbackSourceAnnotation = rollback_name upgrade member /\ pvc_Phase observed = "Bound".

Definition here (member : string) : Prop := memberBelongsToSite member (site_Name (sp_Site plan)) = true.

Definition upgrade_done (h : khistory) (d : SitePlan) (upgrade : MajorUpgradePlan) : Prop :=
  (mup_Phase upgrade = MajorUpgradePhaseSnapshot ->
     forall policy, rollback_policy plan upgrade = Some policy -> Forall (captured h upgrade policy) (site_postgres plan)) /\
  (mup_Phase upgrade = MajorUpgradePhaseUpgradePrimary -> here (mup_Primary upgrade) ->
     completed h (MajorUpgradeJob d upgrade) /\ completed h (MajorDCSResetJob (rc_Renderer r) d upgrade)) /\
  (mup_Phase upgrade = MajorUpgradePhaseStanzaUpgrade -> here (mup_Primary upgrade) -> completed h (MajorStanzaUpgradeJob d upgrade)) /\
  (mup_Phase upgrade = MajorUpgradePhaseReplicas \/ mup_Phase upgrade = MajorUpgradePhaseRollbackStart ->
     Forall (completed h) (MajorReplicaResetJobs d upgrade)) /\
  (mup_Phase upgrade = MajorUpgradePhaseRollback ->
     workloads_stopped r plan h /\
     (forall policy, rollback_policy plan upgrade = Some policy -> Forall (restored h upgrade) (site_postgres plan)) /\
     completed h (MajorRollbackDCSResetJob (rc_Renderer r) d upgrade)).

Definition rotation_done (h : khistory) (rotation : CredentialRotationPlan) : Prop :=
  crp_Phase rotation = CredentialRotationPhaseMember -> here (crp_TargetMember rotation) ->
  credentials_tried plan h /\
  exists active pending o x, answered h (Get KSecret target "postgres-auth") (Ok active) /\
    answered h (Get KSecret target "postgres-auth-pending") (Ok pending) /\ answered h (Update KSecret o) (Ok x) /\
    key_of (k := KSecret) o = key_of (k := KSecret) active /\ sec_Data o = sec_Data pending.

Definition operation_done (h : khistory) (d : SitePlan) : Prop :=
  (forall job, AddressMigrationJob (rc_Renderer r) d = Ok (Some job) -> completed h job) /\
  (forall rotation, sp_CredentialRotation plan = Some rotation -> rotation_done h rotation) /\
  (forall upgrade, sp_MajorUpgrade plan = Some upgrade -> upgrade_done h d upgrade).

Lemma captured_later h h' upgrade policy member : extends h h' -> captured h upgrade policy member -> captured h' upgrade policy member.
Proof. intros He [(? & o & ? & ?)|(? & o & ? & ?)]; [left|right]; (split; [done|]); exists o; eauto. Qed.
Lemma restored_later h h' upgrade member : extends h h' -> restored h upgrade member -> restored h' upgrade member.
Proof. intros He (o & ? & ? & ?). exists o. eauto. Qed.
Lemma completed_later h h' job : extends h h' -> completed h job -> completed h' job.
Proof. apply applied_ready_later. Qed.
Lemma upgrade_done_later h h' d upgrade : extends h h' -> upgrade_done h d upgrade -> upgrade_done h' d upgrade.
Proof.
  intros He (H1 & H2 & H3 & H4 & H5). split_and!.
  - intros Hp policy Hpol. eapply list.Forall_impl; [by apply H1|]. intros m. by apply captured_later.
  - intros Hp Hh. destruct (H2 Hp Hh). eauto using completed_later.
  - eauto using completed_later.
  - intros Hp. eapply list.Forall_impl; [by apply H4|]. intros j. by apply completed_later.
  - intros Hp. destruct (H5 Hp) as (? & Hr & ?). split_and!; eauto using completed_later, workloads_stopped_later.
    intros policy Hpol. eapply list.Forall_impl; [by eapply Hr|]. intros m. by apply restored_later.
Qed.
Lemma rotation_done_later h h' rotation : extends h h' -> rotation_done h rotation -> rotation_done h' rotation.
Proof.
  intros He H Hp Hh. destruct (H Hp Hh) as (? & a & p & o & x & ? & ? & ? & ? & ?).
  split; [by eapply credentials_tried_later|]. exists a, p, o, x. split_and!; eauto.
Qed.
Lemma operation_done_later h h' d : extends h h' -> operation_done h d -> operation_done h' d.
Proof. intros He (? & ? & ?). split_and!; eauto using completed_later, rotation_done_later, upgrade_done_later. Qed.

(** ** Address migration *)
Lemma AddressMigrationJob_meta d job : AddressMigrationJob (rc_Renderer r) d = Ok (Some job) ->
  meta_Namespace (job_Meta job) = site_Namespace (sp_Site d) /\ meta_Labels (job_Meta job) = resourceLabels d.
Proof.
  unfold AddressMigrationJob. destruct (sp_AddressMigration d); [|done]. destruct (negb _); [done|]. cbn zeta.
  destruct (_ <? _)%Z; [done|]. intros H%Ok_inj. by injection H as <-.
Qed.

Lemma reconcileAddressMigration_safe d result h :
  runtime plan d -> verified h ->
  safe (fun h' x => x.2 = Ok true -> forall job, AddressMigrationJob (rc_Renderer r) d = Ok (Some job) -> completed h' job) h
    (reconcileAddressMigration (rc_Renderer r) d result).
Proof.
  intros Hd Hv. unfold reconcileAddressMigration. destruct (AddressMigrationJob _ d) as [[job|]|e] eqn:Ej; [|done|done].
  destruct (AddressMigrationJob_meta d job Ej). eapply sat_seq; [apply run_job_safe; [done|done|by eapply appliable_job]|].
  intros h1 [[m|]|e] He H1; [done| |done]. intros _ ? [= <-]. by apply H1.
Qed.

(** ** Credential rotation *)
Lemma delete_secrets_safe rotation names h :
  verified h -> sp_CredentialRotation plan = Some rotation -> crp_Phase rotation = CredentialRotationPhaseFinalize ->
  names ⊆ ["postgres-auth-pending"; "postgres-auth-previous"] -> safe done_ h (delete_secrets target names).
Proof.
  intros Hv Hr Hp. revert h Hv. induction names as [|name names IH]; intros h Hv Hn; cbn [delete_secrets]; [done|].
  apply sat_ask; [eapply W_delete_secret; try done; set_solver|].
  intros x. assert (safe done_ (existT (Delete KSecret (mkSecret (new_meta target name ∅) None ∅)) x :: h) (delete_secrets target names)).
  { apply IH; [eapply verified_later; [apply extends_cons|done]|set_solver]. }
  destruct x as [[]|e]; [done|]. by destruct (IsNotFound e).
Qed.

Lemma promotePendingCredentials_safe h :
  verified h -> credentials_tried plan h ->
  safe (fun h' x => x = Ok tt -> exists active pending o y, answered h' (Get KSecret target "postgres-auth") (Ok active) /\
    answered h' (Get KSecret target "postgres-auth-pending") (Ok pending) /\ answered h' (Update KSecret o) (Ok y) /\
    key_of (k := KSecret) o = key_of (k := KSecret) active /\ sec_Data o = sec_Data pending) h (promotePendingCredentials target).
Proof.
  intros Hv Ht. unfold promotePendingCredentials. read. intros [pending|e]; [|done]. read. intros [active|e]; [|done]. read.
  intros previous_. cbn zeta.
  match goal with |- sat _ _ ?hh _ => set (h1 := hh) end.
  assert (He1 : extends h h1) by (do 3 apply extends_cons_r; apply extends_refl).
  assert (Ha : answered h1 (Get KSecret target "postgres-auth") (Ok active)) by (right; by left).
  assert (Hp : answered h1 (Get KSecret target "postgres-auth-pending") (Ok pending)) by (do 2 right; by left).
  assert (Hact : forall h2, extends h1 h2 ->
    ((exists kept, answered h2 (Get KSecret target "postgres-auth-previous") (Ok kept)) \/
     (exists kept x, answered h2 (Create KSecret kept) (Ok x) /\ meta_Name (sec_Meta kept) = "postgres-auth-previous" /\ sec_Data kept = sec_Data active)) ->
    safe (fun h' x => x = Ok tt -> exists active pending o y, answered h' (Get KSecret target "postgres-auth") (Ok active) /\
      answered h' (Get KSecret target "postgres-auth-pending") (Ok pending) /\ answered h' (Update KSecret o) (Ok y) /\
      key_of (k := KSecret) o = key_of (k := KSecret) active /\ sec_Data o = sec_Data pending) h2
      (let! _ := call (Update KSecret (active <| sec_Data := sec_Data pending |>
          <| sec_Meta ::= set meta_Annotations (insert vaultVersionAnnotation (meta_Annotations (sec_Meta pending) !!! vaultVersionAnnotation)) |>))
        onerr e => Ret (Err e) in Ret (Ok tt))).
  { intros h2 He2 Hkept. apply sat_ask.
    - eapply (W_promote _ _ _ _ _ active pending); eauto using verified_later, credentials_tried_later, extends_trans.
    - intros [y|e]; [|done]. intros _. exists active, pending. eexists _, y. split_and!; [right; by apply He2|right; by apply He2|by left|done|done]. }
  destruct previous_ as [kept|e].
  - apply Hact; [apply extends_refl|]. left. exists kept. by left.
  - destruct (IsNotFound e) eqn:Ee; [|done]. apply sat_ask.
    + eapply (W_keep_previous _ _ _ _ _ active e); eauto using verified_later, credentials_tried_later. by left.
    + intros [x|e']; [|done]. apply Hact; [apply extends_cons|]. right. eexists _, x. split; [by left|done].
Qed.

Lemma prepareCredentialRotation_safe d result h :
  runtime plan d -> verified h ->
  safe (fun h' x => x.2 = Ok true -> forall rotation, sp_CredentialRotation plan = Some rotation -> rotation_done h' rotation) h
    (prepareCredentialRotation d result).
Proof.
  intros Hd Hv. unfold prepareCredentialRotation. destruct (runtime_operations plan d Hd) as (_ & -> & _).
  destruct (runtime_site plan d Hd) as (-> & -> & _).
  destruct (sp_CredentialRotation plan) as [rotation|] eqn:Er; [|done]. branch as Ef.
  { apply bool_decide_eq_true in Ef. eapply sat_seq; [by eapply delete_secrets_safe|]. intros h1 [[]|e] He _; [|done].
    intros _ ? [= <-]. unfold rotation_done. by rewrite Ef. }
  branch as Em; [|intros _ ? [= <-] Hp; by rewrite Hp in Em]. apply bool_decide_eq_true in Em.
  branch as Eb; [intros _ ? [= <-] _ Hh; unfold here in Hh; by rewrite Hh in Eb|]. apply negb_false_iff in Eb.
  eapply sat_seq; [apply run_job_safe; [done|done|by eapply appliable_job]|]. intros h1 [[m|]|e] He H1; [done| |done].
  assert (Ht : credentials_tried plan h1) by (exists d, rotation; split_and!; auto).
  eapply sat_seq; [apply promotePendingCredentials_safe; [by eapply verified_later|done]|].
  intros h2 [[]|e] He2 H2; [|done]. intros _ ? [= <-] _ _. split; [by eapply credentials_tried_later|by apply H2].
Qed.

(** ** Major upgrade *)
Lemma run_jobs_safe jobs result pending failed h :
  verified h -> Forall (fun job => appliable plan previous connected (any (k := KJob) job)) jobs ->
  safe (fun h' x => x.2 = Ok true -> Forall (completed h') jobs) h (run_jobs jobs result pending failed).
Proof.
  revert h. induction jobs as [|job jobs IH]; intros h Hv Hj; cbn [run_jobs]; [by constructor|].
  apply list.Forall_cons in Hj as [Hj Hjs]. eapply sat_seq; [by apply run_job_safe|]. intros h1 [[m|]|e] He H1; [done| |done].
  eapply sat_mono_later; [| |apply IH; [by eapply verified_later|done]]; [done|]. intros h2 x He2 H2 Hx.
  constructor; [eapply completed_later; [exact He2|by apply H1]|by apply H2].
Qed.

Ltac jobs_appliable := repeat first [apply Forall_nil_2|apply Forall_cons_2; [by eapply appliable_job|]].

Lemma reset_jobs_appliable d upgrade :
  runtime plan d -> Forall (fun job => appliable plan previous connected (any (k := KJob) job)) (MajorReplicaResetJobs d upgrade).
Proof. intros Hd. unfold MajorReplicaResetJobs. apply Forall_fmap, Forall_true. intros m. by eapply appliable_job. Qed.

Lemma markOldDataRetention_safe d upgrade h : runtime plan d -> verified h -> safe done_ h (markOldDataRetention d upgrade).
Proof.
  intros Hd Hv. unfold markOldDataRetention. destruct (runtime_site plan d Hd) as (-> & _). read. intros [claim|e]; [|done].
  branch as Eo; [done|]. read. intros now. apply sat_ask; [|by intros []]. apply W_annotate_claim.
  - eapply verified_later; [|exact Hv]. do 2 apply extends_cons_r. apply extends_refl.
  - left. eexists. right. by left.
  - by eexists (meta_Labels (pvc_Meta claim)), _.
Qed.

Lemma ensureRollbackWorkloadsStopped_safe d result h :
  runtime plan d -> verified h ->
  safe (fun h' x => x.2 = Ok true -> workloads_stopped r plan h') h (ensureRollbackWorkloadsStopped (rc_Renderer r) d result).
Proof.
  intros Hd Hv. unfold ensureRollbackWorkloadsStopped. destruct (Workloads _ d) as [objects|e] eqn:Ew; [|done].
  destruct (runtime_site plan d Hd) as (_ & -> & _). apply (apply_ready_safe _ _ _ _ Hdeletion); [done| |done|].
  - apply list.Forall_forall. intros o [_ Ho]%list_elem_of_filter. eapply appliable_workload; [exact Hd|].
    assert (Hw := Workloads_workload _ _ _ Ew). rewrite list.Forall_forall in Hw. by apply Hw.
  - intros h1 [m|] He H1; [done|]. intros _. exists d, objects. split_and!; [done|done|]. intros o Ho Hs.
    assert (Hf := H1 eq_refl). rewrite list.Forall_forall in Hf. apply Hf, list_elem_of_filter. done.
Qed.

Lemma capture_members_safe d upgrade policy result members h :
  runtime plan d -> verified h ->
  safe (fun h' x => x.2 = Ok true -> Forall (captured h' upgrade policy) members) h (capture_members d upgrade policy result members).
Proof.
  intros Hd. revert h. induction members as [|member members IH]; intros h Hv; cbn [capture_members]; [by constructor|].
  destruct (runtime_site plan d Hd) as (Hns & _ & _ & _ & _). rewrite Hns. branch as Es.
  - eapply sat_seq; [apply apply_safe; [done|done|by eapply appliable_workload, workload_new]|]. intros h1 [o|e] He1 _; [|done].
    read. intros [observed|e]; [|done]. branch as Er; [|done].
    eapply sat_mono_later; [| |apply IH; eapply verified_later; [|exact Hv]; by apply extends_cons_r]; [done|].
    intros h2 x He2 H2 Hx. constructor; [|by apply H2]. left. apply bool_decide_eq_true in Es. split; [done|]. exists observed.
    split; [apply He2; by left|]. destruct (NestedBool _ _) as [[[]|]|]; done.
  - branch as Ec; [|done]. destruct (ss_Postgres _) as [storage|]; [|done].
    eapply sat_seq; [apply apply_safe; [done|done|by eapply appliable_workload, workload_new]|]. intros h1 [o|e] He1 _; [|done].
    read. intros [observed|e]; [|done]. branch as Er; [done|].
    eapply sat_mono_later; [| |apply IH; eapply verified_later; [|exact Hv]; by apply extends_cons_r]; [done|].
    intros h2 x He2 H2 Hx. constructor; [|by apply H2]. right. apply bool_decide_eq_true in Ec. split; [done|]. exists observed.
    apply negb_false_iff, bool_decide_eq_true in Er. split; [apply He2; by left|done].
Qed.

Lemma delete_controlling_jobs_safe member pod owners h :
  verified h -> rolling_back r plan h member -> consumer plan h (data_claim member) pod -> owners ⊆ meta_OwnerReferences (pd_Meta pod) ->
  safe done_ h (delete_controlling_jobs pod owners).
Proof.
  revert h. induction owners as [|owner owners IH]; intros h Hv Hr Hc Ho; cbn [delete_controlling_jobs]; [done|].
  assert (Hos : owners ⊆ meta_OwnerReferences (pd_Meta pod)) by set_solver. branch as Ej; [|by apply IH].
  apply andb_true_iff in Ej as [E1%bool_decide_eq_true E2%bool_decide_eq_true].
  apply sat_ask; [eapply W_delete_controller; try done; set_solver|]. intros x.
  match goal with |- sat _ _ ?hh _ => assert (safe done_ hh (delete_controlling_jobs pod owners)) end.
  { apply IH; [eapply verified_later; [|exact Hv]|eapply rolling_back_later; [|exact Hr]|eapply consumer_later; [|exact Hc]|done];
      apply extends_cons. }
  destruct x as [[]|e]; [done|]. by destruct (IsNotFound e).
Qed.

Lemma delete_consumers_safe d member pods h :
  runtime plan d -> verified h -> rolling_back r plan h member ->
  (forall pod, pod ∈ pods -> listed_here plan (k := KPod) h ∅ pod) ->
  safe (fun _ x => x = Ok true -> Forall (fun pod => uses_claim pod (data_claim member) = false) pods) h
    (delete_consumers d (data_claim member) pods).
Proof.
  intros Hd. revert h. induction pods as [|pod pods IH]; intros h Hv Hr Hl; cbn [delete_consumers]; [by constructor|].
  assert (Hrest : forall h', extends h h' -> safe (fun _ x => x = Ok true -> Forall (fun pod => uses_claim pod (data_claim member) = false) pods) h'
    (delete_consumers d (data_claim member) pods)).
  { intros h' He. apply IH; [by eapply verified_later|by eapply rolling_back_later|]. intros p Hp.
    destruct (Hl p) as (os & ? & ?); [by right|]. exists os. eauto. }
  branch as Eu; [apply negb_true_iff in Eu; eapply sat_mono; [| |apply Hrest, extends_refl]; [done|]; intros h' x H Hx; constructor; auto|].
  apply negb_false_iff in Eu. branch as El; [done|]. apply negb_false_iff, bool_decide_eq_true in El.
  destruct (runtime_identity plan d Hd) as [Hid _]. rewrite Hid in El.
  assert (Hc : consumer plan h (data_claim member) pod) by (split_and!; [apply Hl; by left|done|done]).
  eapply sat_seq; [by apply (delete_controlling_jobs_safe member)|]. intros h1 [[]|e] He1 _; [|done].
  apply sat_ask; [eapply W_delete_pod; eauto using verified_later, rolling_back_later, consumer_later|]. intros x. cbn zeta.
  match goal with |- sat _ _ ?hh _ => assert (He2 : extends h hh) by (by apply extends_cons_r) end.
  destruct x as [[]|e]; [|branch as En; [|done]]; (eapply sat_seq; [by apply Hrest|]); by intros h3 [].
Qed.

Lemma deleteManagedPVCConsumers_safe d member h :
  runtime plan d -> verified h -> rolling_back r plan h member ->
  safe (fun h' x => x = Ok true -> exists pods, answered h' (List KPod (Some target) ∅) (Ok pods) /\
      Forall (fun pod => uses_claim pod (data_claim member) = false) pods) h (deleteManagedPVCConsumers d (data_claim member)).
Proof.
  intros Hd Hv Hr. unfold deleteManagedPVCConsumers. destruct (runtime_site plan d Hd) as (-> & _). read. intros [pods|e]; [|done].
  eapply sat_mono_later; [| |apply delete_consumers_safe; [done|eapply verified_later; [|exact Hv]|eapply rolling_back_later; [|exact Hr]|]].
  - done.
  - intros h' x He H Hx. exists pods. split; [apply He; by left|by apply H].
  - apply extends_cons.
  - apply extends_cons.
  - intros pod Hpod. exists pods. split; [by left|done].
Qed.

Lemma restore_members_safe d upgrade policy result members h :
  runtime plan d -> verified h -> in_phase plan MajorUpgradePhaseRollback upgrade -> workloads_stopped r plan h ->
  mup_RollbackPolicies upgrade !! site_Name (sp_Site plan) = Some policy -> members ⊆ site_postgres plan ->
  safe (fun h' x => x.2 = Ok true -> Forall (restored h' upgrade) members) h (restore_members d upgrade policy result members).
Proof.
  intros Hd Hv Hp Hs Hpol. revert h Hv Hs. induction members as [|member members IH]; intros h Hv Hs Hm; cbn [restore_members]; [by constructor|].
  destruct (runtime_site plan d Hd) as (Hns & _ & _ & _ & _). rewrite Hns. read. intros got.
  match goal with |- sat _ _ ?hh _ => set (h1 := hh) end. assert (He1 : extends h h1) by apply extends_cons.
  assert (Hr : rolling_back r plan h1 member) by (exists upgrade; split_and!; [done|set_solver|by eapply workloads_stopped_later]).
  assert (Hv1 : verified h1) by (by eapply verified_later). destruct got as [observed|e].
  - branch as Ea.
    + apply negb_true_iff, bool_decide_eq_false in Ea. eapply sat_seq; [by apply deleteManagedPVCConsumers_safe|].
      intros h2 [[]|e] He2 H2; [|done|done]. destruct (H2 eq_refl) as (pods & Hpods & Hunused). cbn [negb].
      apply sat_ask; [|by intros []].
      eapply (W_delete_data _ _ _ _ _ upgrade member observed pods); eauto using verified_later, rolling_back_later; [apply Hp|].
      apply He2. by left.
    + apply negb_false_iff, bool_decide_eq_true in Ea. branch as Eb; [done|]. apply negb_false_iff, bool_decide_eq_true in Eb.
      eapply sat_mono_later; [| |apply IH; [done|by eapply workloads_stopped_later|set_solver]]; [done|].
      intros h2 x He2 H2 Hx. constructor; [|by apply H2]. exists observed. split; [apply He2; by left|done].
  - branch as En; [done|]. apply negb_false_iff in En. destruct (ss_Postgres _) as [storage|]; [|done].
    apply sat_ask; [|intros [x|e']; [done|by destruct (IsAlreadyExists e')]].
    eapply (W_restore_data _ _ _ _ _ upgrade member e d); eauto; [apply Hp|by left].
Qed.

(** *** The phases *)
Lemma rollback_policy_runtime d upgrade : runtime plan d -> rollback_policy d upgrade = rollback_policy plan upgrade.
Proof. intros Hd. unfold rollback_policy. by destruct (runtime_site plan d Hd) as (_ & -> & -> & _). Qed.
Lemma site_postgres_runtime d : runtime plan d -> site_postgres d = site_postgres plan.
Proof. intros Hd. unfold site_postgres. by destruct (runtime_site plan d Hd) as (_ & -> & _ & -> & _). Qed.

Lemma reconcileRollbackStorage_safe d upgrade result h :
  runtime plan d -> verified h ->
  safe (fun h' x => x.2 = Ok true -> forall policy, rollback_policy plan upgrade = Some policy ->
      Forall (captured h' upgrade policy) (site_postgres plan)) h (reconcileRollbackStorage d upgrade result).
Proof.
  intros Hd Hv. unfold reconcileRollbackStorage. rewrite (rollback_policy_runtime d), (site_postgres_runtime d) by done.
  destruct (rollback_policy plan upgrade) as [policy|]; [|done].
  eapply sat_mono; [| |by apply capture_members_safe]; [done|]. intros h' x H Hx ? [= <-]. by apply H.
Qed.

Lemma reconcileRollbackRestore_safe d upgrade result h :
  runtime plan d -> verified h -> in_phase plan MajorUpgradePhaseRollback upgrade -> workloads_stopped r plan h ->
  safe (fun h' x => x.2 = Ok true -> forall policy, rollback_policy plan upgrade = Some policy ->
      Forall (restored h' upgrade) (site_postgres plan)) h (reconcileRollbackRestore d upgrade result).
Proof.
  intros Hd Hv Hp Hs. unfold reconcileRollbackRestore. rewrite (rollback_policy_runtime d), (site_postgres_runtime d) by done.
  destruct (rollback_policy plan upgrade) as [policy|] eqn:E; [|done].
  eapply sat_mono; [| |apply restore_members_safe; try done]; [done| |].
  - intros h' x H Hx ? [= <-]. by apply H.
  - unfold rollback_policy in E. by destruct (_ != _).
Qed.

Lemma upgrade_primary_safe d upgrade result h :
  runtime plan d -> verified h ->
  safe (fun h' x => x.2 = Ok true -> here (mup_Primary upgrade) ->
      completed h' (MajorUpgradeJob d upgrade) /\ completed h' (MajorDCSResetJob (rc_Renderer r) d upgrade)) h
    (upgrade_primary (rc_Renderer r) d upgrade result).
Proof.
  intros Hd Hv. unfold upgrade_primary. destruct (runtime_site plan d Hd) as (_ & -> & _). branch as Eh.
  { intros _ Hh. unfold here in Hh. by rewrite Hh in Eh. }
  eapply sat_seq; [apply run_jobs_safe; [done|]; jobs_appliable|].
  intros h1 [result1 [[]|e]] He H1; [|done|done]. assert (H2 := H1 eq_refl). rewrite !list.Forall_cons in H2.
  destruct H2 as (Hu & Hr & _).
  eapply sat_seq; [apply markOldDataRetention_safe; [done|by eapply verified_later]|]. intros h2 [[]|e] He2 _; [|done].
  intros _ _. eauto using completed_later.
Qed.

Lemma roll_back_safe d upgrade result h :
  runtime plan d -> verified h -> in_phase plan MajorUpgradePhaseRollback upgrade ->
  safe (fun h' x => x.2 = Ok true -> workloads_stopped r plan h' /\
      (forall policy, rollback_policy plan upgrade = Some policy -> Forall (restored h' upgrade) (site_postgres plan)) /\
      completed h' (MajorRollbackDCSResetJob (rc_Renderer r) d upgrade)) h (roll_back (rc_Renderer r) d upgrade result).
Proof.
  intros Hd Hv Hp. unfold roll_back. eapply sat_seq; [by apply ensureRollbackWorkloadsStopped_safe|].
  intros h1 [result1 [[]|e]] He1 H1; [|done|done]. eapply sat_seq; [apply reconcileRollbackRestore_safe; eauto using verified_later|].
  intros h2 [result2 [[]|e]] He2 H2; [|done|done].
  eapply sat_mono_later; [| |apply run_jobs_safe]; [done| |eapply verified_later; [|exact Hv]; by eapply extends_trans|
    jobs_appliable].
  intros h3 x He3 H3 Hx. split_and!.
  - eapply workloads_stopped_later; [|by apply H1]. by eapply extends_trans.
  - intros policy Hpol. eapply list.Forall_impl; [by eapply H2|]. intros m. by apply restored_later.
  - by apply H3, list.Forall_cons in Hx as [Hx _].
Qed.

Lemma prepareMajorUpgrade_safe d upgrade result h :
  runtime plan d -> verified h -> sp_MajorUpgrade plan = Some upgrade ->
  safe (fun h' x => x.2 = Ok true -> upgrade_done h' d upgrade) h (prepareMajorUpgrade (rc_Renderer r) d upgrade result).
Proof.
  intros Hd Hv Hu. unfold prepareMajorUpgrade, upgrade_done. cbn zeta.
  assert (Hresets : forall result pending failed, safe (fun h' x => x.2 = Ok true -> Forall (completed h') (MajorReplicaResetJobs d upgrade)) h
    (reconcileMajorReplicaReset d upgrade result pending failed)) by (intros; apply run_jobs_safe; [done|by apply reset_jobs_appliable]).
  branch as E1; [apply bool_decide_eq_true in E1; rewrite E1; eapply sat_mono; [| |by apply reconcileRollbackStorage_safe]; [done|]; naive_solver|].
  branch as E2; [apply bool_decide_eq_true in E2; rewrite E2; eapply sat_mono; [| |by apply upgrade_primary_safe]; [done|]; naive_solver|].
  branch as E3.
  { apply bool_decide_eq_true in E3. rewrite E3. destruct (runtime_site plan d Hd) as (_ & -> & _). branch as Eh.
    { intros _. unfold here. apply negb_true_iff in Eh. split_and!; try done; [intros _; by rewrite Eh|by intros []]. }
    eapply sat_mono; [| |apply run_jobs_safe; [done|jobs_appliable]]; [done|].
    intros h' x H Hx. apply H, list.Forall_cons in Hx as [Hx _]. split_and!; try done. by intros []. }
  branch as E4; [apply bool_decide_eq_true in E4; rewrite E4; eapply sat_mono; [| |by apply Hresets]; [done|]; naive_solver|].
  branch as E5.
  { apply bool_decide_eq_true in E5. eapply sat_mono; [| |by apply roll_back_safe]; [done|]. rewrite E5. naive_solver. }
  branch as E6; [apply bool_decide_eq_true in E6; rewrite E6; eapply sat_mono; [| |by apply Hresets]; [done|]; naive_solver|].
  intros _. bool_to_prop. naive_solver.
Qed.

Lemma prepareOperations_safe d result h :
  runtime plan d -> verified h ->
  safe (fun h' x => x.2 = Ok true -> operation_done h' d) h (prepareOperations (rc_Renderer r) d result).
Proof.
  intros Hd Hv. unfold prepareOperations. destruct (runtime_operations plan d Hd) as (_ & _ & _ & Hmu & _).
  eapply (sat_seq _ (fun h' x => x.2 = Ok true -> forall job, AddressMigrationJob (rc_Renderer r) d = Ok (Some job) -> completed h' job)).
  { destruct (sp_AddressMigration d) eqn:E; [by apply reconcileAddressMigration_safe|]. intros _ job. unfold AddressMigrationJob. by rewrite E. }
  intros h1 [result1 [[]|e]] He1 H1; [|done|done].
  eapply sat_seq; [apply prepareCredentialRotation_safe; eauto using verified_later|].
  intros h2 [result2 [[]|e]] He2 H2; [|done|done]. rewrite Hmu. destruct (sp_MajorUpgrade plan) as [upgrade|] eqn:Eu.
  - eapply sat_mono_later; [| |apply prepareMajorUpgrade_safe; eauto using verified_later, extends_trans]; [done|].
    intros h3 x He3 H3 Hx. assert (extends h1 h3) by (by eapply extends_trans).
    split_and!; [eauto using completed_later|eauto using rotation_done_later|].
    intros ? Eu'. rewrite Eu in Eu'. injection Eu' as <-. by apply H3.
  - intros _. split_and!; [eauto using completed_later|eauto|by rewrite Eu].
Qed.

Lemma reconcileCredentialCatalog_safe d result h :
  runtime plan d -> verified h -> safe (fun _ x => ar_Primary x.1 = ar_Primary result) h (reconcileCredentialCatalog d result).
Proof.
  intros Hd Hv. unfold reconcileCredentialCatalog. destruct (sp_CredentialRotation d); [|done]. branch as E; [done|].
  eapply sat_seq; [apply run_job_safe; [done|done|]|by intros h1 [[]|]]. destruct (_ == CredentialRotationPhaseRevoke); by eapply appliable_job.
Qed.
End operations.
