(* ===== verification/ReconcilerProps.v ===== *)
(** * Correctness of the agent's reconciliation

    A reconciliation only does what [SiteWrites.site_write] allows, whatever the
    cluster, Vault and Patroni answer; and it reports a plan as ready only when
    everything the plan renders was applied and observed ready, the work of the
    coordinated operation of the plan is done, and nothing an older revision
    left was kept.  With this it discharges the contract the control client
    has with it ([Client.ReconcilerLaws]). *)

From S2P Require Import Prelude Utf8 Prog Api Workloads Messages Kube ApiServer Codec NetAddr IpAddr Plan Registration Members Client.
From S2P Require Import RenderBase MaintenanceJobs Render RenderProps AgentBase AgentCertificates Patroni Vault Secrets AgentOperations Reconciler.
From S2P Require Import SitePhases SiteWrites SiteSteps OperationProps.

Section reconciler.
Context {K : KubeLib} {C : Crypto} {X : X509} {P : Pki} {U : UrlLib} {UP : UrlPath} {TT : TimeText} {PJ : PlanJson}.
Context {JC : Json PatroniCluster} {JS : Json SwitchoverBody}.
Context {JL : Json LoginResponse} {JB : Json LoginBody} {JK : Json KVResponse}.
Context (r : Reconciler) (plan previous : SitePlan) (connected : bool).

Local Abbreviation safe := (sat (site_write r plan previous connected)).
Local Abbreviation verified := (verified r plan).
Local Abbreviation target := (target plan).

Lemma if_true {A} (b : bool) (x y : A) : b = true -> (if b then x else y) = x.
Proof. by intros ->. Qed.
Lemma if_false {A} (b : bool) (x y : A) : b = false -> (if b then x else y) = y.
Proof. by intros ->. Qed.

Lemma safe_phase {A} (Q : khistory -> A -> Prop) (f : A -> ApplyResult) h p :
  safe Q h p -> sat (fun _ _ => True) (fun _ x => unsettled (f x)) h p -> safe (fun h' x => Q h' x /\ unsettled (f x)) h p.
Proof. intros H1 H2. eapply sat_mono; [| |apply (sat_and _ _ _ _ _ _ H1 H2)]; [by intros ? ? []|done]. Qed.

(** ** The data plane *)
Lemma patroniTLSConfig_safe namespace h : safe done_ h (patroniTLSConfig namespace).
Proof. unfold patroniTLSConfig. read. intros [secret|e]; [|done]. destruct (negb _); [done|]. by destruct (X509KeyPair _ _). Qed.

Lemma observeMember_safe namespace name h :
  safe (fun h' x => forall topology, x = Ok topology -> observed_primary h' (pt_Primary topology)) h (observeMember namespace name).
Proof.
  unfold observeMember. eapply sat_seq; [apply patroniTLSConfig_safe|]. intros h1 [config|e] _ _; [|done]. read.
  intros [response|e]; [|done]. branch as E1; [done|]. destruct (hrs_Body response) as [encoded|e] eqn:Eb; [|done]. branch as E2; [done|].
  destruct (json_Unmarshal encoded) as [cluster|e] eqn:Ej; [|done]. intros topology Ht.
  eexists _, response, encoded, cluster, topology. split_and!; try done. by left.
Qed.

Lemma ObserveTopology_safe d h :
  safe (fun h' x => forall topology, x = Ok topology -> observed_primary h' (pt_Primary topology)) h (ObserveTopology d).
Proof.
  unfold ObserveTopology. generalize (errors_New "site has no PostgreSQL members"). revert h.
  induction (site_postgres d) as [|name members IH]; intros h e; cbn [observe_members]; [done|].
  eapply sat_seq; [apply observeMember_safe|]. intros h1 [topology|e'] _ H; [|apply IH]. exact H.
Qed.

Lemma observeTopology_safe d result h :
  safe (fun h' x => x.2 = None -> rc_Topology r = true -> observed_primary h' (ar_Primary x.1)) h (observeTopology r d result).
Proof.
  unfold observeTopology. destruct (rc_Topology r); [|done]. cbn [negb]. eapply sat_seq; [apply ObserveTopology_safe|].
  intros h1 [topology|e] _ H; [|done]. intros _ _. by apply H.
Qed.

Lemma observed_primary_later h h' primary : extends h h' -> observed_primary h primary -> observed_primary h' primary.
Proof. intros He (q & x & e & c & t & ? & ?). exists q, x, e, c, t. eauto. Qed.

Lemma Switchover_safe d upgrade h :
  runtime plan d -> verified h -> sp_Upgrade plan = Some upgrade -> up_Phase upgrade = UpgradePhaseSwitchover ->
  memberBelongsToSite (up_FromPrimary upgrade) (site_Name (sp_Site plan)) = true -> observed_primary h (up_FromPrimary upgrade) ->
  safe done_ h (Switchover d (up_FromPrimary upgrade) (up_Candidate upgrade)).
Proof.
  intros Hd Hv Hu Hp Hm Ho. unfold Switchover. destruct (runtime_site plan d Hd) as (-> & _). branch as E1; [done|]. branch as E2; [done|].
  branch as E3; [done|]. eapply sat_seq; [apply patroniTLSConfig_safe|]. intros h1 [config|e] He _; [|done].
  destruct (json_Marshal _) as [body|e] eqn:Eb; [|done].
  apply sat_ask; [eapply W_switchover; eauto using verified_later, observed_primary_later|]. intros [response|e]; [|done].
  branch as E4; [done|done].
Qed.

Lemma reconcileUpgradeAction_safe d result h :
  runtime plan d -> verified h -> (rc_Topology r = true -> observed_primary h (ar_Primary result)) ->
  safe done_ h (reconcileUpgradeAction r d result).
Proof.
  intros Hd Hv Ho. unfold reconcileUpgradeAction. destruct (runtime_operations plan d Hd) as (_ & _ & -> & _).
  destruct (sp_Upgrade plan) as [upgrade|] eqn:Eu; [|done]. destruct (runtime_site plan d Hd) as (_ & -> & _).
  branch as E1; [done|]. apply orb_false_iff in E1 as [E1%negb_false_iff%bool_decide_eq_true E2%negb_false_iff].
  branch as E3; [done|]. branch as E4; [done|]. apply negb_false_iff, bool_decide_eq_true in E4. branch as E5; [done|]. apply negb_false_iff in E5.
  rewrite E4 in Ho. eapply sat_seq; [by apply Switchover_safe; auto|]. by intros h1 [].
Qed.

Section unsuspended.
Context (Hdeletion : sp_Deletion plan = None) (Hmutable : mutable plan previous connected).

Lemma setDataPlaneConditions_safe d result h : runtime plan d -> verified h -> safe done_ h (setDataPlaneConditions r d result).
Proof.
  intros Hd Hv. unfold setDataPlaneConditions. branch as E; [|by branch as E1].
  eapply sat_seq; [apply observeTopology_safe|]. intros h1 [result1 [e|]] He1 H1; [done|].
  eapply sat_seq; [apply reconcileCredentialCatalog_safe; eauto using verified_later|]. intros h2 [result2 [e|]] He2 H2; [done|].
  eapply sat_seq; [apply reconcileUpgradeAction_safe; eauto using verified_later, extends_trans|].
  - intros Ht. cbn [fst] in H2. rewrite H2. eapply observed_primary_later; [exact He2|by apply H1].
  - by intros h3 [result3 []].
Qed.
End unsuspended.

(** ** Removal *)

(** Everything of a kind in the instance's namespace, with its labels, was
    deleted, but for what carries the revision to keep. *)
Definition removed_kind (h : khistory) (keepRevision : string) (k : Kind) : Prop :=
  exists os, answered h (List k (Some target) (managed_labels plan)) (Ok os) /\
    forall o, o ∈ os -> keepRevision <> "" /\ meta_Labels (object_meta o) !!! revisionLabel = keepRevision \/
      exists x, answered h (Delete k o) x /\ (x = Ok tt \/ exists e, x = Err e /\ IsNotFound e = true).
Definition removed (h : khistory) (keepRevision : string) : Prop := Forall (removed_kind h keepRevision) managed_kinds.

Lemma removed_kind_later h h' keep k : extends h h' -> removed_kind h keep k -> removed_kind h' keep k.
Proof.
  intros He (os & Hl & Ho). exists os. split; [by apply He|]. intros o Hin. destruct (Ho o Hin) as [?|(x & ? & ?)]; [by left|right; exists x; eauto].
Qed.
Lemma removed_later h h' keep : extends h h' -> removed h keep -> removed h' keep.
Proof. intros He H. eapply list.Forall_impl; [exact H|]. intros k. by apply removed_kind_later. Qed.

(** All of a deleted instance, or of an instance's older revisions. *)
Definition removal (keepRevision : string) : Prop :=
  is_Some (sp_Deletion plan) /\ connected = true \/ keepRevision = FormatInt (sp_Revision plan).

Lemma delete_objects_safe {k} (objects all : list (Object k)) keep h :
  verified h -> removal keep -> k ∈ managed_kinds -> answered h (List k (Some target) (managed_labels plan)) (Ok all) -> objects ⊆ all ->
  safe (fun h' x => x = Ok tt -> forall o, o ∈ objects -> keep <> "" /\ meta_Labels (object_meta o) !!! revisionLabel = keep \/
      exists x, answered h' (Delete k o) x /\ (x = Ok tt \/ exists e, x = Err e /\ IsNotFound e = true)) h (delete_objects objects keep).
Proof.
  intros Hv Hr Hk. revert h Hv. induction objects as [|o objects IH]; intros h Hv Hl Hin; cbn [delete_objects]; [by intros _ o Ho%elem_of_nil|].
  assert (Hos : objects ⊆ all) by set_solver. branch as Ek.
  - apply andb_true_iff in Ek as [E1%negb_true_iff%bool_decide_eq_false E2%bool_decide_eq_true].
    eapply sat_mono; [| |by apply IH]; [done|]. intros h' x H Hx o' [->|Ho']%elem_of_cons; [by left|by apply H].
  - apply sat_ask.
    + apply W_delete_managed; [done|done|by exists all; split; [|set_solver]|].
      destruct Hr as [?|Hr]; [by left|right]. apply andb_false_iff in Ek as [Ek|Ek]; bool_to_prop; [|by rewrite <- Hr].
      by rewrite Hr in Ek; apply MemServer.FormatInt_nonempty in Ek.
    + intros x. match goal with |- sat _ _ ?hh _ => set (h1 := hh) end.
      assert (He : extends h h1) by apply extends_cons.
      assert (Hrest : (x = Ok tt \/ exists e, x = Err e /\ IsNotFound e = true) ->
        safe (fun h' x => x = Ok tt -> forall o', o' ∈ o :: objects -> keep <> "" /\ meta_Labels (object_meta o') !!! revisionLabel = keep \/
          exists x, answered h' (Delete k o') x /\ (x = Ok tt \/ exists e, x = Err e /\ IsNotFound e = true)) h1 (delete_objects objects keep)).
      { intros Hx. eapply sat_mono_later; [| |apply IH; [by eapply verified_later|by apply He|done]]; [done|].
        intros h2 y He2 H2 Hy o' [->|Ho']%elem_of_cons; [|by apply H2]. right. exists x. split; [apply He2; by left|done]. }
      destruct x as [[]|e]; [by apply Hrest; left|]. destruct (IsNotFound e) eqn:Ee; [apply Hrest; right; by exists e|done].
Qed.

Lemma delete_kinds_safe d keep kinds h :
  runtime plan d -> verified h -> removal keep -> kinds ⊆ managed_kinds ->
  safe (fun h' x => x = Ok tt -> Forall (removed_kind h' keep) kinds) h (delete_kinds d keep kinds).
Proof.
  intros Hd. revert h. induction kinds as [|k kinds IH]; intros h Hv Hr Hk; cbn [delete_kinds]; [by constructor|].
  unfold managed_labels. destruct (runtime_site plan d Hd) as (-> & _), (runtime_identity plan d Hd) as (-> & _). fold (managed_labels plan).
  read. intros [os|e]; [|done]. match goal with |- sat _ _ ?hh _ => set (h1 := hh) end. assert (He : extends h h1) by apply extends_cons.
  eapply sat_seq; [apply (delete_objects_safe os os); [by eapply verified_later|done|set_solver|by left|done]|].
  intros h2 [[]|e] He2 H2; [|done]. eapply sat_mono_later; [| |apply IH; [eapply verified_later; [|exact Hv]; by eapply extends_trans|done|set_solver]]; [done|].
  intros h3 x He3 H3 Hx. constructor; [|by apply H3]. eapply removed_kind_later; [exact He3|]. exists os. split; [apply He2; by left|].
  by apply H2.
Qed.

Lemma deleteManagedObjects_safe d keep h :
  runtime plan d -> verified h -> removal keep -> safe (fun h' x => x = Ok tt -> removed h' keep) h (deleteManagedObjects d keep).
Proof. intros. by apply delete_kinds_safe. Qed.

(** ** Rollback storage past its retention *)
Section cleanup.
Context (Hdeletion : sp_Deletion plan = None) (Hmutable : mutable plan previous connected).
Context (d : SitePlan) (Hd : runtime plan d) (now : Time).

Local Abbreviation instance_labels := ({[ instanceUIDLabel := sp_InstanceUID plan ]} : gmap string string).

Lemma cleanupExpiredOldData_safe claim h :
  verified h -> listed_here plan (k := KPersistentVolumeClaim) h instance_labels claim -> safe done_ h (cleanupExpiredOldData d claim now).
Proof.
  intros Hv Hl. unfold cleanupExpiredOldData. branch as E1; [done|]. branch as E2; [done|]. destruct (ParseTime _) as [expires|]; [|done].
  branch as E3; [done|]. eapply sat_seq; [apply run_job_safe; [done|done|by eapply appliable_job]|].
  intros h1 [[m|]|e] He H1; [done| |done]. apply sat_ask; [|by intros []]. apply W_annotate_claim.
  - by eapply verified_later.
  - right. destruct Hl as (os & ? & ?). exists instance_labels, os. eauto.
  - by eexists (meta_Labels (pvc_Meta claim)), _.
Qed.

Lemma cleanup_claims_safe claims all h :
  verified h -> answered h Now now -> answered h (List KPersistentVolumeClaim (Some target) instance_labels) (Ok all) -> claims ⊆ all ->
  safe done_ h (cleanup_claims d now claims).
Proof.
  revert h. induction claims as [|claim claims IH]; intros h Hv Hn Hl Hin; cbn [cleanup_claims]; [done|].
  assert (Hc : listed_here plan (k := KPersistentVolumeClaim) h instance_labels claim) by (exists all; split; [done|set_solver]).
  eapply sat_seq; [by apply cleanupExpiredOldData_safe|]. intros h1 [cleaned|e] He _; [|done].
  assert (Hrest : forall h2, extends h1 h2 -> safe done_ h2 (cleanup_claims d now claims)).
  { intros h2 He2. apply IH; [eapply verified_later; [|exact Hv]; by eapply extends_trans|auto|auto|set_solver]. }
  branch as E; [|apply Hrest, extends_refl]. apply andb_true_iff in E as [_ E]. apply sat_ask.
  - eapply (W_delete_expired _ _ _ _ _ KPersistentVolumeClaim); eauto using verified_later. exists all. split; [auto|set_solver].
  - intros [[]|e]; [|done]. apply Hrest, extends_cons.
Qed.

Lemma cleanup_snapshots_safe snapshots all h :
  verified h -> answered h Now now -> answered h (List KVolumeSnapshot (Some target) instance_labels) (Ok all) -> snapshots ⊆ all ->
  safe done_ h (cleanup_snapshots now snapshots).
Proof.
  revert h. induction snapshots as [|o snapshots IH]; intros h Hv Hn Hl Hin; cbn [cleanup_snapshots]; [done|].
  branch as E; [|apply IH; [done|done|done|set_solver]]. apply sat_ask.
  - eapply (W_delete_expired _ _ _ _ _ KVolumeSnapshot); eauto. exists all. split; [done|set_solver].
  - intros [[]|e]; [|done]. apply IH; [eapply verified_later; [apply extends_cons|done]|by right|by right|set_solver].
Qed.

Lemma cleanupExpiredRollback_safe h : verified h -> answered h Now now -> safe done_ h (cleanupExpiredRollback d now).
Proof.
  intros Hv Hn. unfold cleanupExpiredRollback. destruct (runtime_site plan d Hd) as (-> & _), (runtime_identity plan d Hd) as (-> & _). cbn zeta.
  assert (Hs : forall h1, extends h h1 -> safe done_ h1
    (let* got := call (List KVolumeSnapshot (Some (site_Namespace (sp_Site plan))) instance_labels) in
     match got with Err e => if IsNoMatchError e then Ret (Ok tt) else Ret (Err e) | Ok snapshots => cleanup_snapshots now snapshots end)).
  { intros h1 He. read. intros [snapshots|e]; [|by destruct (IsNoMatchError e)].
    apply (cleanup_snapshots_safe snapshots snapshots); [eapply verified_later; [|exact Hv]; by apply extends_cons_r|right; by apply He|by left|done]. }
  read. intros [claims|e]; [|branch as E; [apply Hs, extends_cons|done]].
  eapply sat_seq; [apply (cleanup_claims_safe claims claims); [eapply verified_later; [|exact Hv]; apply extends_cons|by right|by left|done]|].
  intros h1 [[]|e] He _; [|done]. apply Hs. eapply extends_trans; [apply extends_cons|exact He].
Qed.
End cleanup.

(** ** Deletion *)
Definition labelled_retained (claim : PersistentVolumeClaim) : PersistentVolumeClaim :=
  claim <| pvc_Meta ::= set meta_Labels (insert "multisite-postgres.dev/retained-instance-uid" (sp_InstanceUID plan)) |>.
(** The claim is marked as retained data of the instance. *)
Definition retained (h : khistory) (claim : PersistentVolumeClaim) : Prop :=
  exists x, answered h (Patch KPersistentVolumeClaim claim (labelled_retained claim)) (Ok x).

Lemma retain_claims_safe claims all h :
  verified h -> answered h (List KPersistentVolumeClaim (Some target) (managed_labels plan)) (Ok all) -> claims ⊆ all ->
  safe (fun h' x => x = Ok tt -> Forall (retained h') claims) h (retain_claims (sp_InstanceUID plan) claims).
Proof.
  revert h. induction claims as [|claim claims IH]; intros h Hv Hl Hin; cbn [retain_claims]; [by constructor|].
  apply sat_ask.
  - apply W_annotate_claim; [done|right; exists (managed_labels plan), all; split; [done|set_solver]|].
    by eexists _, (meta_Annotations (pvc_Meta claim)).
  - intros [x|e]; [|done]. eapply sat_mono_later; [| |apply IH; [eapply verified_later; [apply extends_cons|done]|by right|set_solver]]; [done|].
    intros h' y He H Hy. constructor; [|by apply H]. exists x. apply He. by left.
Qed.

(** The namespace is gone; or, unless the policy is to delete it, nothing of the
    instance runs in it any more and its data is marked as retained. *)
Definition deleted_plan (h : khistory) (deletion : DeletionPlan) : Prop :=
  (exists e, answered h (Get KNamespace "" target) (Err e) /\ IsNotFound e = true) \/
  dp_Policy deletion <> DeletionPolicyDelete /\ verified h /\ removed h "" /\
    exists claims, answered h (List KPersistentVolumeClaim (Some target) (managed_labels plan)) (Ok claims) /\ Forall (retained h) claims.

Lemma deleting_unsettled t s reason m : unsettled (setLocalCondition (zero_ApplyResult <| ar_Phase := "Deleting" |>) t s reason m).
Proof. intros [H|H]; done. Qed.

Lemma deleteInstance_safe deletion h :
  sp_Deletion plan = Some deletion -> connected = true ->
  safe (fun h' x => x.2 = None -> settled x.1 -> deleted_plan h' deletion) h (deleteInstance r plan deletion).
Proof.
  intros Hdel Hc. unfold deleteInstance. read. intros [namespace|e].
  2:{ branch as E; [|done]. intros _ _. left. exists e. split; [by left|done]. }
  eapply sat_seq; [by apply EnsureNamespace_safe|]. intros h1 [[]|e] He1 H1; [|done]. assert (Hv := H1 eq_refl). branch as Ep.
  { apply bool_decide_eq_true in Ep. apply sat_ask; [eapply W_delete_namespace; eauto; apply He1; by left|].
    intros [[]|e]; [|branch as E; [|done]]; intros _ Hs; by apply deleting_unsettled in Hs. }
  apply bool_decide_eq_false in Ep.
  eapply sat_seq; [apply deleteManagedObjects_safe; [apply runtime_refl|done|left; by rewrite Hdel]|]. intros h2 [[]|e] He2 H2; [|done].
  read. intros [claims|e]; [|done]. match goal with |- sat _ _ ?hh _ => set (h3 := hh) end. assert (He3 : extends h2 h3) by apply extends_cons.
  assert (Hv3 : verified h3) by (eapply verified_later; [|exact Hv]; by eapply extends_trans).
  eapply sat_seq; [apply (retain_claims_safe claims claims); [done|by left|done]|]. intros h4 [[]|e] He4 H4; [|done].
  intros _ _. right. split_and!; [done|by eapply verified_later| |].
  - eapply removed_later; [|by apply H2]. by eapply extends_trans.
  - exists claims. split; [apply He4; by left|by apply H4].
Qed.

(** ** The pipeline *)

(** An address of the plan is never replaced by an observed one. *)
Definition keeps_addresses (d : SitePlan) : Prop :=
  forall member address, sp_MemberAddresses plan !! member = Some address -> address <> "" -> sp_MemberAddresses d !! member = Some address.

Lemma fill_keeps d observed :
  keeps_addresses d -> keeps_addresses (d <| sp_MemberAddresses ::= fun planned => fillMissingAddresses planned observed |>).
Proof.
  intros H member address Hm Ha. cbn. unfold fillMissingAddresses. rewrite lookup_merge, (H member address Hm Ha). cbn.
  destruct (observed !! member); cbn; [|done]. by rewrite bool_decide_eq_false_2.
Qed.
Lemma same_addresses_keep d d' : sp_MemberAddresses d' = sp_MemberAddresses d -> keeps_addresses d -> keeps_addresses d'.
Proof. unfold keeps_addresses. by intros ->. Qed.

(** What it takes for a plan to be applied. *)
Definition applied_plan (h : khistory) : Prop :=
  verified h /\
  (exists d, runtime plan d /\ Forall (has_load_balancer h) (LoadBalancers d)) /\
  (connected = true -> exists d, runtime plan d /\ Forall (certified h) (Certificates d)) /\
  (exists d, runtime plan d /\ operation_done r plan h d) /\
  (exists d objects, runtime plan d /\ keeps_addresses d /\ Workloads (rc_Renderer r) d = Ok objects /\ Forall (applied_ready h) objects) /\
  removed h (FormatInt (sp_Revision plan)).

(** What is known before the workloads are applied. *)
Definition prepared (h : khistory) : Prop :=
  (exists d, runtime plan d /\ Forall (has_load_balancer h) (LoadBalancers d)) /\
  (connected = true -> exists d, runtime plan d /\ Forall (certified h) (Certificates d)) /\
  (exists d, runtime plan d /\ operation_done r plan h d).

Definition finishes (h : khistory) (x : ApplyResult * option Error) : Prop := x.2 = None -> settled x.1 -> applied_plan h.
Lemma unsettled_finishes h x : unsettled x.1 -> finishes h x.
Proof. by intros H _ Hs. Qed.

Section live.
Context (Hdeletion : sp_Deletion plan = None).

Lemma load_balancers_later h h' d : extends h h' -> Forall (has_load_balancer h) (LoadBalancers d) -> Forall (has_load_balancer h') (LoadBalancers d).
Proof. intros He H. eapply list.Forall_impl; [exact H|]. intros o. by apply has_load_balancer_later. Qed.
Lemma certified_all_later h h' d : extends h h' -> Forall (certified h) (Certificates d) -> Forall (certified h') (Certificates d).
Proof. intros He H. eapply list.Forall_impl; [exact H|]. intros o. by apply certified_later. Qed.
Lemma prepared_later h h' : extends h h' -> prepared h -> prepared h'.
Proof.
  intros He ((d & ? & ?) & Hc & (d' & ? & ?)). split_and!.
  - exists d. eauto using load_balancers_later.
  - intros E. destruct (Hc E) as (d1 & ? & ?). exists d1. eauto using certified_all_later.
  - exists d'. eauto using operation_done_later.
Qed.

Lemma finish_workloads_safe d objects result h :
  mutable plan previous connected -> runtime plan d -> keeps_addresses d -> verified h -> prepared h -> unsettled result ->
  Workloads (rc_Renderer r) d = Ok objects -> Forall (applied_ready h) objects -> safe finishes h (finish_workloads r d result).
Proof.
  intros Hm Hd Hk Hv Hp Hu Hw Ho. unfold finish_workloads. cbn zeta.
  match goal with |- sat _ _ _ (bind (setDataPlaneConditions r d ?x) _) => set (result1 := x); assert (Hu1 : unsettled result1) end.
  { subst result1. unfold setCredentialMemberCondition. destruct (sp_AddressMigration d), (sp_CredentialRotation d) as [rotation|]; try done;
      by destruct (_ || _). }
  eapply sat_seq; [apply safe_phase; [by apply setDataPlaneConditions_safe|by apply setDataPlaneConditions_phase]|].
  intros h1 [result2 [e|]] He1 [_ Hu2]; [done|]. branch as E; [by apply unsettled_finishes|].
  unfold pruneStaleObjects. destruct (runtime_identity plan d Hd) as (_ & ->).
  eapply sat_seq; [apply deleteManagedObjects_safe; [done|by eapply verified_later|by right]|]. intros h2 [[]|e] He2 H2; [|done].
  read. intros now. match goal with |- sat _ _ ?hh _ => set (h3 := hh) end. assert (He3 : extends h2 h3) by apply extends_cons.
  assert (Hh3 : extends h h3) by (do 2 (eapply extends_trans; [eassumption|]); done).
  eapply sat_seq; [apply cleanupExpiredRollback_safe; [done|done|done|by eapply verified_later|by left]|].
  intros h4 [[]|e] He4 _; [|done]. assert (Hh4 : extends h h4) by (by eapply extends_trans).
  intros _ _. destruct (prepared_later h h4 Hh4 Hp) as (? & ? & ?). split_and!; try done; [by eapply verified_later| |].
  - exists d, objects. split_and!; try done. eapply list.Forall_impl; [exact Ho|]. intros o. by apply applied_ready_later.
  - eapply removed_later; [|by apply H2]. by eapply extends_trans.
Qed.

Lemma reconcileWorkloads_safe d objects result h :
  mutable plan previous connected -> runtime plan d -> verified h -> Workloads (rc_Renderer r) d = Ok objects ->
  safe (fun h' x => x.2 = Ok true -> Forall (applied_ready h') objects) h (reconcileWorkloads d objects result).
Proof.
  intros Hm Hd Hv Hw. unfold reconcileWorkloads. apply (apply_ready_safe _ _ _ _ Hdeletion); [done| |done|].
  - eapply list.Forall_impl; [by eapply Workloads_workload|]. intros o. by apply appliable_workload.
  - intros h1 [m|] He H1; [done|]. intros _. by apply H1.
Qed.

Lemma apply_workloads_safe d result h :
  mutable plan previous connected -> runtime plan d -> keeps_addresses d -> verified h -> prepared h ->
  safe finishes h (apply_workloads r d result).
Proof.
  intros Hm Hd Hk Hv Hp. unfold apply_workloads. cbn zeta.
  assert (Hu : unsettled (result <| ar_Phase := "ReconcilingWorkloads" |>)) by (by apply phase_unsettled).
  match goal with |- context [Workloads _ ?x] => set (d1 := x) end.
  assert (Hd1 : runtime plan d1) by (by apply runtime_set_addresses). assert (Hk1 : keeps_addresses d1) by (by apply fill_keeps).
  destruct (Workloads (rc_Renderer r) d1) as [objects|e] eqn:Ew; [|by apply unsettled_finishes].
  eapply sat_seq; [apply safe_phase; [by apply reconcileWorkloads_safe|by apply reconcileWorkloads_phase]|].
  intros h1 [result1 [[]|e]] He1 [H1 Hu1]; [|by apply unsettled_finishes|done].
  by eapply finish_workloads_safe; eauto using verified_later, prepared_later.
Qed.

Lemma reconcile_certified_safe certified_ d0 h :
  mutable plan previous connected -> certificates_done plan connected h d0 certified_ -> keeps_addresses d0 -> unsettled certified_.2.1 -> verified h ->
  (exists d, runtime plan d /\ Forall (has_load_balancer h) (LoadBalancers d)) -> safe finishes h (reconcile_certified r certified_).
Proof.
  intros Hm Hc Hk Hu Hv (dl & Hdl & Hl). unfold reconcile_certified. destruct certified_ as [d [result [[]|e]]]; [|by apply unsettled_finishes|done].
  destruct (Hc eq_refl) as (Hd & Ha & Hcert). cbn [fst snd] in *.
  eapply sat_seq; [apply safe_phase; [by apply prepareOperations_safe|by apply prepareOperations_phase]|].
  intros h1 [result1 [[]|e]] He1 [H1 Hu1]; [|by apply unsettled_finishes|done].
  apply apply_workloads_safe; [done|done|by eapply same_addresses_keep|by eapply verified_later|]. split_and!.
  - exists dl. eauto using load_balancers_later.
  - intros E. destruct (Hcert E) as (d1 & ? & ?). exists d1. eauto using certified_all_later.
  - exists d. split; [done|by apply H1].
Qed.

Lemma reconcile_addressed_safe d result h :
  runtime plan d -> Classify previous d = Classify previous plan -> keeps_addresses d -> unsettled result -> verified h ->
  Forall (has_load_balancer h) (LoadBalancers d) -> safe finishes h (reconcile_addressed r d previous connected result).
Proof.
  intros Hd Hcl Hk Hu Hv Hl. unfold reconcile_addressed. destruct (decide (connected = true)) as [Ec|Ec%not_true_is_false].
  - rewrite if_true by exact Ec. match goal with |- sat _ _ _ (bind (reconcileCertificates ?x ?y) _) => set (d1 := x); set (result1 := y) end.
    assert (Hd1 : runtime plan d1) by (apply runtime_set_candidates, runtime_set_addresses, Hd).
    assert (Hk1 : keeps_addresses d1) by (by apply (fill_keeps d)).
    eapply sat_seq; [apply safe_phase; [apply reconcileCertificates_safe; try done|by apply reconcileCertificates_phase, phase_unsettled]|].
    intros h1 x He [H1 Hu1]. eapply reconcile_certified_safe; eauto using verified_later; [by left|].
    exists d. eauto using load_balancers_later.
  - rewrite if_false by exact Ec. rewrite Hcl. destruct (Classify previous plan) as [[]|] eqn:Ecl; [|by apply unsettled_finishes, phase_unsettled|done].
    eapply sat_seq; [apply safe_phase; [by apply issued_certificates_safe|by apply issued_certificates_phase]|].
    intros h1 x He [H1 Hu1]. eapply reconcile_certified_safe; eauto using verified_later; [by right|].
    exists d. eauto using load_balancers_later.
Qed.

Lemma live_safe h : safe finishes h (reconcile r plan previous connected).
Proof.
  unfold reconcile. rewrite Hdeletion. cbn zeta.
  eapply sat_seq; [by apply (EnsureNamespace_safe _ _ _ _ connected)|]. intros h1 [[]|e] He1 H1; [|done]. assert (Hv1 := H1 eq_refl).
  eapply (sat_seq _ done_); [|intros h2 [sa|e] He2 _; [|done]].
  { unfold apply, apply_object. cbn [projT1 projT2 any]. apply sat_bind. apply sat_ask.
    - apply W_apply; [done|done|by apply owned_new|by right; left].
    - by intros []. }
  assert (Hv2 : verified h2) by (by eapply verified_later).
  eapply (sat_seq _ (fun h' x => (forall d', x.2 = Ok d' -> runtime plan d' /\ Classify previous d' = Classify previous plan /\
    sp_MemberAddresses d' = sp_MemberAddresses plan) /\ unsettled x.1)).
  { destruct (rc_Secrets r) as [m|].
    - apply safe_phase; [by apply reconcileSecrets_safe; [apply runtime_refl|]|by apply reconcileSecrets_phase, phase_unsettled].
    - split; [|by apply phase_unsettled]. intros ? <-%Ok_inj. by split; [apply runtime_refl|]. }
  intros h3 [result3 [d|e]] He3 [H3 Hu3]; [|done]. destruct (H3 d eq_refl) as (Hd & Hcl & Ha).
  assert (Hv3 : verified h3) by (by eapply verified_later).
  eapply sat_seq; [apply safe_phase; [by apply reconcileLoadBalancers_safe|by apply allocate_phase, phase_unsettled]|].
  intros h4 [result4 [[]|e]] He4 [H4 Hu4]; [|by apply unsettled_finishes|done].
  apply reconcile_addressed_safe; eauto using verified_later. by intros member address; rewrite Ha.
Qed.
End live.

(** The plan is applied, or the deletion it asks for is done. *)
Definition settled_plan (h : khistory) : Prop :=
  match sp_Deletion plan with Some deletion => deleted_plan h deletion | None => applied_plan h end.

Lemma reconcile_safe h : safe (fun h' x => x.2 = None -> settled x.1 -> settled_plan h') h (reconcile r plan previous connected).
Proof.
  unfold settled_plan. destruct (sp_Deletion plan) as [deletion|] eqn:Ed; [|by apply live_safe].
  unfold reconcile. rewrite Ed. destruct (decide (connected = true)) as [Ec|Ec%not_true_is_false].
  - rewrite if_false by (by rewrite Ec). by apply deleteInstance_safe.
  - rewrite if_true by (by rewrite Ec). by intros _ [Hs|Hs].
Qed.

Lemma Observe_safe reporter uid result err h : safe done_ h (Observe reporter uid result err).
Proof.
  assert (Hentry : forall regarding current key signature t reason action note h,
    safe done_ h (observe_entry regarding current key signature t reason action note)).
  { intros. unfold observe_entry. branch as E; [done|]. by read. }
  unfold Observe. read. intros current. apply (sat_seq _ done_).
  { match goal with |- sat _ _ ?hh _ => generalize hh end. revert current.
    induction (ar_Events result) as [|event events IH]; intros current h1; cbn [observe_events]; [done|].
    eapply sat_seq; [apply Hentry|]. intros h2 current2 _ _. apply IH. }
  intros h1 current1 _ _. apply (sat_seq _ done_).
  { revert current1 h1. induction (ar_Conditions result) as [|condition conditions IH]; intros current1 h1; cbn [observe_conditions]; [done|].
    eapply sat_seq; [apply Hentry|]. intros h2 current2 _ _. apply IH. }
  intros h2 current2 _ _. eapply sat_seq; [unfold observe_error; destruct err; apply Hentry|]. intros h3 current3 _ _. by read.
Qed.

Lemma settled_plan_later h h' : extends h h' -> settled_plan h -> settled_plan h'.
Proof.
  intros He H. unfold settled_plan in *. destruct (sp_Deletion plan) as [deletion|].
  - destruct H as [(e & ? & ?)|(? & ? & ? & claims & ? & Hr)]; [left; exists e; eauto|right].
    split_and!; [done|by eapply verified_later|by eapply removed_later|]. exists claims. split; [auto|].
    eapply list.Forall_impl; [exact Hr|]. intros claim (x & ?). exists x. auto.
  - destruct H as (? & Hl & Hc & Ho & (d & objects & ? & ? & ? & Hr) & ?).
    destruct (prepared_later h h' He (conj Hl (conj Hc Ho))) as (? & ? & ?).
    split_and!; try done; [by eapply verified_later| |by eapply removed_later]. exists d, objects. split_and!; try done.
    eapply list.Forall_impl; [exact Hr|]. intros o. by apply applied_ready_later.
Qed.

Lemma Reconciler_Apply_safe h :
  safe (fun h' x => x.2 = None -> settled x.1 -> settled_plan h') h (Reconciler_Apply r plan previous connected).
Proof.
  unfold Reconciler_Apply. eapply sat_seq; [apply reconcile_safe|]. intros h1 outcome He H. destruct (rc_Events r); [|done].
  eapply sat_seq; [apply Observe_safe|]. intros h2 [] He2 _ Herr Hs. eapply settled_plan_later; [exact He2|by apply H].
Qed.

Lemma site_write_off_stream h q : site_write r plan previous connected h q -> off_stream q.
Proof.
  intros H. destruct H as [q Hq| | | | | | | | | | | | | | | | |]; try done.
  destruct q as [| | | | | | | | | | | | |[]]; done.
Qed.

(** C4: Whatever the cluster, Vault and Patroni answer, a reconciliation sends only
    requests that [site_write] allows: every write is to the namespace whose
    ownership labels were verified, or creates it while the hub is connected; an
    object is applied only with the labels of the instance, and while
    disconnected only if the change is safe and the object neither a Service nor
    a Certificate; the credentials in use are replaced only by their own version
    or by staged ones a Job authenticated with, after the old ones were kept; a
    switchover is asked only of the observed primary; data of a member is
    deleted only in a rollback, when the workloads were observed stopped and no
    Pod mounts it; and nothing else is deleted than stale objects of the
    instance, expired rollback storage, and what a deletion policy says. *)
Theorem reconcile_confined : forall h,
  sat (site_write r plan previous connected) done_ h (Reconciler_Apply r plan previous connected).
Proof. intros h. eapply sat_mono; [| |apply Reconciler_Apply_safe]; done. Qed.

(** C5: A reconciliation reports the phase Ready only when all the plan asks for was
    observed: the namespace is owned, every member has a load balancer address,
    every certificate is issued and valid (while connected), the local work of
    the coordinated operation is done, every rendered object was applied and is
    ready with no address of the plan replaced, and no managed object of another
    revision is left; and it reports Deleted only when the namespace is gone or,
    if data is retained, no workload is left and every claim is marked. *)
Theorem ready_means_applied h :
  sat (fun _ _ => True) (fun h' x => x.2 = None -> settled x.1 -> settled_plan h') h (Reconciler_Apply r plan previous connected).
Proof. eapply sat_mono; [| |apply Reconciler_Apply_safe]; done. Qed.
End reconciler.

(** The reconciler keeps its contract with the control client. *)
#[global] Instance Reconciler_laws {K : KubeLib} {C : Crypto} {X : X509} {P : Pki} {U : UrlLib} {UP : UrlPath} {TT : TimeText} {PJ : PlanJson}
  {JC : Json PatroniCluster} {JS : Json SwitchoverBody} {JL : Json LoginResponse} {JB : Json LoginBody} {JK : Json KVResponse} (r : Reconciler) :
  ReconcilerLaws (Reconciler_Apply r) (fun h plan => exists connected, settled_plan r plan connected h).
Proof.
  split.
  - intros plan previous connected h. eapply sat_mono; [| |apply Reconciler_Apply_safe]; [by intros; eapply site_write_off_stream|].
    intros h' x H He Hs. exists connected. by apply H.
  - intros h h' plan He (connected & H). exists connected. by eapply settled_plan_later.
Qed.
