(* ===== verification/IdentityProps.v ===== *)
(** * Renewal of the agent's identity

    What [SiteIdentity.Install] may do with a certificate of the hub: it is
    checked before anything is written, the identity in use is never touched,
    and the Deployment moves to the new one only when that is stored. *)

From S2P Require Import Prelude Prog Api Workloads Messages Kube Codec Registration AgentCertificates SiteIdentity SiteWrites SiteSteps.

Section install.
Context {K : KubeLib} {L : KubeLaws K} {X : X509} {P : Pki} (r : Rotator) (response : CertificateResponse).

(** The certificate is for the request that is pending: for the key the agent
    made, for this site, verified under the CA it came with. *)
Definition validated (h : khistory) (pending : PendingRequest) : Prop :=
  answered h (Env (Site LoadPending)) (Some pending) /\ crs_RequestId response = pr_id pending /\
  exists certificate raw key now, parseCertificate (crs_CertificatePem response) = Ok (certificate, raw) /\
    tlsKeyPair (crs_CertificatePem response) (pr_keyPEM pending) = Ok key /\ answered h Now now /\
    cert_Verify certificate (crs_CaBundlePem response) (Some [ClientAuth]) now = None /\
    crt_CommonName certificate = rot_RegistrationUID r /\ crt_URIs certificate = [site_identity (rot_RegistrationUID r)] /\
    crs_NotAfter response = Some (crt_NotAfter certificate).

(** The slot the Deployment does not use. *)
Definition free_slot (h : khistory) (name : string) : Prop :=
  name ∈ identitySlotNames /\ exists deployment,
    answered h (Get KDeployment (rot_Namespace r) (rot_DeploymentName r)) (Ok deployment) /\ deploymentIdentitySecretName deployment <> name.

(** The new identity is stored: its Secret was created with the certificate and
    its key, or found with the certificate. *)
Definition identity_stored (h : khistory) (pending : PendingRequest) (name : string) : Prop :=
  (exists data x, answered h (Create KSecret (identity_secret r name data)) (Ok x) /\
     data !!! "tls.crt" = crs_CertificatePem response /\ data !!! "tls.key" = pr_keyPEM pending /\ data !!! "ca.crt" = crs_CaBundlePem response) \/
  (exists existing, answered h (Get KSecret (rot_Namespace r) name) (Ok existing) /\ sec_Data existing !!! "tls.crt" = crs_CertificatePem response).

Inductive install_request (h : khistory) : Req -> Prop :=
| I_read q : match q with Get KDeployment _ _ | Get KSecret _ _ | Now | Env (ReadFile _) | Env (Site LoadPending) => True | _ => False end ->
    install_request h q
(** the Secret of the free slot, old and new *)
| I_delete pending o : validated h pending -> meta_Namespace (sec_Meta o) = rot_Namespace r -> free_slot h (meta_Name (sec_Meta o)) ->
    install_request h (Delete KSecret o)
| I_create pending name data : validated h pending -> free_slot h name ->
    data !!! "tls.crt" = crs_CertificatePem response -> data !!! "tls.key" = pr_keyPEM pending -> data !!! "ca.crt" = crs_CaBundlePem response ->
    install_request h (Create KSecret (identity_secret r name data))
(** the Deployment, to the stored identity *)
| I_move pending name deployment : validated h pending -> free_slot h name -> identity_stored h pending name ->
    answered h (Get KDeployment (rot_Namespace r) (rot_DeploymentName r)) (Ok deployment) ->
    install_request h (Update KDeployment (moved name deployment))
(** the request is forgotten *)
| I_forget pending name : validated h pending -> identity_stored h pending name -> install_request h (Env (Site (StorePending None))).

Lemma validated_later h h' pending : extends h h' -> validated h pending -> validated h' pending.
Proof.
  intros He (H1 & H2 & c & raw & key & now & H3 & H4 & H5 & H6). split_and!; [by apply He|done|]. exists c, raw, key, now. split_and!; try done; [by apply He|apply H6..].
Qed.
Lemma free_slot_later h h' name : extends h h' -> free_slot h name -> free_slot h' name.
Proof. intros He (H & d & Hd & Hn). split; [done|]. exists d. eauto. Qed.
Lemma identity_stored_later h h' pending name : extends h h' -> identity_stored h pending name -> identity_stored h' pending name.
Proof. intros He [(data & x & H & Hd)|(s & H & Hd)]; [left; exists data, x|right; exists s]; eauto. Qed.

Local Abbreviation safe := (sat install_request).

Lemma validateResponse_safe pending h : answered h (Env (Site LoadPending)) (Some pending) -> crs_RequestId response = pr_id pending ->
  safe (fun h' x => forall c, x = Ok c -> validated h' pending) h (validateResponse r pending response).
Proof.
  intros Hp Hid. unfold validateResponse. destruct (parseCertificate _) as [[certificate raw]|e] eqn:Ec; [|done].
  destruct (tlsKeyPair _ _) as [key|e] eqn:Ek; [|done]. destruct (AppendCertsFromPEM _); [|done]. cbn [negb].
  apply sat_ask; [by apply I_read|]. intros now. destruct (cert_Verify _ _ _ _) eqn:Ev; [done|].
  branch as Ei; [done|]. branch as En; [done|]. bool_to_prop. intros c _. split_and!; [by right|done|]. exists certificate, raw, key, now.
  split_and!; try done. by left.
Qed.

Lemma read_keys_safe keys h : safe done_ h (read_keys r keys).
Proof.
  revert h. induction keys as [|key keys IH]; intros h; cbn [read_keys]; [done|]. apply sat_ask; [by apply I_read|].
  intros [value|e]; [|by destruct (_ && _)]. apply (sat_seq _ done_); [apply IH|]. by intros h' [].
Qed.

Lemma nextIdentitySecretName_safe h : safe (fun h' x => forall name, x = Ok name -> free_slot h' name) h (nextIdentitySecretName r).
Proof.
  unfold nextIdentitySecretName. apply (sat_seq _ (fun h' x => forall y, x = Ok y ->
    answered h' (Get KDeployment (rot_Namespace r) (rot_DeploymentName r)) (Ok y.1))).
  - unfold deploymentIdentity. apply sat_ask; [by apply I_read|]. intros [deployment|e]; [|done]. branch as E; [done|].
    apply sat_ask; [by apply I_read|]. intros [secret|e]; [|done]. destruct (parseCertificate _); [|done]. intros y [= <-]. right. by left.
  - intros h1 [[deployment certificate]|e] _ H; [|done]. specialize (H _ eq_refl). intros name [= <-]. split.
    + destruct (_ == _); [right; by left|by left].
    + exists deployment. split; [done|]. cbn [fst]. destruct (deploymentIdentitySecretName deployment == _) eqn:E; bool_to_prop; [by rewrite E|done].
Qed.

Section slot.
Context (pending : PendingRequest) (name : string).

Lemma useSecret_safe h : validated h pending -> free_slot h name -> identity_stored h pending name ->
  safe (fun h' _ => validated h' pending /\ identity_stored h' pending name) h (useSecret r name).
Proof.
  intros Hv Hf Hs. unfold useSecret. apply (retry_sat _ (fun h => validated h pending /\ free_slot h name /\ identity_stored h pending name)); [|done].
  clear h Hv Hf Hs. intros h (Hv & Hf & Hs). apply sat_ask; [by apply I_read|]. intros x.
  assert (H1 : forall x, let h1 := existT (P := Resp) (Get KDeployment (rot_Namespace r) (rot_DeploymentName r)) x :: h in
    validated h1 pending /\ free_slot h1 name /\ identity_stored h1 pending name).
  { intros y h1. assert (He : extends h h1) by apply extends_cons.
    split_and!; [by eapply validated_later|by eapply free_slot_later|by eapply identity_stored_later]. }
  destruct (H1 x) as (Hv1 & Hf1 & Hs1). destruct x as [deployment|e]; [|by split_and!].
  branch as E; [by split_and!|]. apply sat_ask; [eapply I_move; try done; by left|]. intros y.
  match goal with |- sat _ _ ?hh _ => set (h2 := hh) end. assert (He : extends (existT (P := Resp) (Get KDeployment (rot_Namespace r) (rot_DeploymentName r)) (Ok deployment) :: h) h2) by apply extends_cons.
  assert (H2 : (validated h2 pending /\ free_slot h2 name /\ identity_stored h2 pending name) /\ validated h2 pending /\ identity_stored h2 pending name)
    by (split_and!; first [by eapply validated_later|by eapply free_slot_later|by eapply identity_stored_later]).
  clearbody h2. by destruct y.
Qed.

Lemma store_identity_safe data h : validated h pending -> free_slot h name ->
  data !!! "tls.crt" = crs_CertificatePem response -> data !!! "tls.key" = pr_keyPEM pending -> data !!! "ca.crt" = crs_CaBundlePem response ->
  safe (fun h' x => x = Ok tt -> identity_stored h' pending name) h (store_identity r name data response).
Proof.
  intros Hv Hf H1 H2 H3. unfold store_identity. apply sat_ask; [by eapply I_create|]. intros [o|e].
  - intros _. left. exists data, o. split_and!; [by left|done..].
  - destruct (IsAlreadyExists e); [|done]. cbn [negb]. apply sat_ask; [by apply I_read|]. intros [existing|e']; [|done].
    cbn [sat]. destruct (_ != _) eqn:E; [done|]. intros _. bool_to_prop. right. exists existing. split; [by left|done].
Qed.

Lemma finish_install_safe data h : validated h pending -> free_slot h name ->
  data !!! "tls.crt" = crs_CertificatePem response -> data !!! "tls.key" = pr_keyPEM pending -> data !!! "ca.crt" = crs_CaBundlePem response ->
  safe done_ h (finish_install r name data response).
Proof.
  intros Hv Hf H1 H2 H3. unfold finish_install. eapply sat_seq; [by apply store_identity_safe|]. intros h1 [[]|e] He Hs; [|done].
  eapply sat_seq; [apply useSecret_safe; [by eapply validated_later|by eapply free_slot_later|by apply Hs]|].
  intros h2 [[]|e] He2 [Hv2 Hs2]; [|done]. apply sat_ask; [by eapply I_forget|done].
Qed.
End slot.

End install.

(** ** A concrete case *)
Module RefIdentity.
Definition pki : Pki := {|
  AppendCertsFromPEM text := text != ""; cert_Verify _ _ _ _ := None; VerifyHostname _ _ := None; X509KeyPair _ _ := None;
  CreateCertificateRequest _ _ key := Ok key |}.
Definition rotator : Rotator := mkRotator "agent" "mspsql-agent" "/identity" "s1" 0%Z.
Definition response : CertificateResponse := mkCertificateResponse "certificate" "ca" "" "request" (Some 5%Z).
End RefIdentity.

