(* ===== verification/EventNotes.v ===== *)
(** * Notes of Events

    [boundedEventNote] of [internal/agent/events.go] cuts a note to what the API
    server accepts, at the start of a code point. *)

From S2P Require Import Prelude Utf8 Prog Api Kube AgentBase.

Local Abbreviation bytes := String.list_ascii_of_string.

(** ** Code points *)

(** The bytes of one code point. *)
Definition one_rune (rune : string) : Prop :=
  (1 <= String.length rune <= 4)%nat /\ Forall (fun c => continuation c = true) (tail (bytes rune)) /\
  (forall c, head (bytes rune) = Some c -> RuneStart c = true) /\
  exists r, forall rest, decode_rune (rune +:+ rest) = Some (r, rest).

Inductive utf8 : string -> Prop :=
| utf8_nil : utf8 ""
| utf8_rune rune rest : one_rune rune -> utf8 rest -> utf8 (rune +:+ rest).

Ltac one_rune rune := exists rune; split; [|done]; split_and!; cbn [String.length]; [lia|lia|cbn; repeat (apply Forall_cons_2; [done|]); apply Forall_nil_2|
    intros x [= <-]; apply negb_true_iff, not_true_iff_false; unfold continuation; intros Ex; bool_to_prop; lia|];
  eexists; intros rest; rewrite ?app_cons_string; change ("" +:+ rest) with rest; cbn [decode_rune];
  repeat match goal with E : _ = true |- _ => rewrite E | E : _ = false |- _ => rewrite E end; reflexivity.

Lemma decode_rune_one s r t : decode_rune s = Some (r, t) -> exists rune, one_rune rune /\ s = rune +:+ t.
Proof.
  destruct s as [|a s]; [done|]. cbn [decode_rune]. destruct (code a <=? 127)%Z eqn:Ea; [intros [= <- <-]; one_rune (String a "")|].
  destruct s as [|b s]; [done|]. destruct (continuation b) eqn:Eb; [|done]. cbn [negb].
  destruct ((194 <=? code a)%Z && (code a <=? 223)%Z) eqn:E2; [intros [= <- <-]; one_rune (String a (String b ""))|].
  destruct s as [|c s]; [done|]. destruct (continuation c) eqn:Ec; [|done]. cbn [negb].
  destruct ((224 <=? code a)%Z && (code a <=? 239)%Z) eqn:E3.
  { cbv zeta. lazymatch goal with |- (if ?b then _ else _) = _ -> _ => destruct b eqn:Er; [|done] end. intros [= <- <-]. one_rune (String a (String b (String c ""))). }
  destruct s as [|d s]; [done|]. destruct (continuation d) eqn:Ed; [|done]. cbn [negb].
  cbv zeta. lazymatch goal with |- (if ?b then _ else _) = _ -> _ => destruct b eqn:Er; [|done] end. intros [= <- <-]. one_rune (String a (String b (String c (String d "")))).
Qed.

Lemma length_append a b : String.length (a +:+ b) = (String.length a + String.length b)%nat.
Proof. induction a as [|x a IH]; [done|]. rewrite app_cons_string. cbn [String.length]. by rewrite IH. Qed.
Lemma append_assoc a b c : (a +:+ b) +:+ c = a +:+ (b +:+ c).
Proof. induction a as [|x a IH]; [done|]. rewrite !app_cons_string. by rewrite IH. Qed.
Lemma bytes_append a b : bytes (a +:+ b) = bytes a ++ bytes b.
Proof. induction a as [|x a IH]; [done|]. rewrite app_cons_string. cbn. by rewrite IH. Qed.
Lemma length_bytes a : length (bytes a) = String.length a.
Proof. induction a as [|x a IH]; [done|]. cbn. by rewrite IH. Qed.
Lemma substring_append a b n : (String.length a <= n)%nat -> String.substring 0 n (a +:+ b) = a +:+ String.substring 0 (n - String.length a) b.
Proof.
  revert n. induction a as [|x a IH]; intros n Hn; [by rewrite Nat.sub_0_r|]. rewrite !app_cons_string. destruct n as [|n]; cbn in Hn; [lia|].
  cbn [String.substring String.length Nat.sub]. rewrite IH by lia. done.
Qed.
Lemma substring_split s n : (n <= String.length s)%nat -> exists rest, s = String.substring 0 n s +:+ rest /\ String.length (String.substring 0 n s) = n.
Proof.
  revert n. induction s as [|x s IH]; intros [|n] Hn; cbn in *; [by exists ""|lia|by exists (String x s)|].
  destruct (IH n) as (rest & E & El); [lia|]. exists rest. rewrite app_cons_string, El. split; [|done]. by f_equal.
Qed.

Lemma decode_runes_utf8 fuel s l : decode_runes fuel s = Some l -> utf8 s.
Proof.
  revert s l. induction fuel as [|fuel IH]; intros [|a s] l H; try done; try constructor.
  cbn [decode_runes] in H. destruct (decode_rune (String a s)) as [[r t]|] eqn:E; [|done]. destruct (decode_runes fuel t) eqn:E'; [|done].
  destruct (decode_rune_one _ _ _ E) as (rune & Hr & ->). by constructor; [|eapply IH].
Qed.
Lemma utf8_decode_runes s : utf8 s -> forall fuel, (String.length s <= fuel)%nat -> exists l, decode_runes fuel s = Some l.
Proof.
  induction 1 as [|rune rest (Hl & _ & _ & r & Hr) _ IH]; intros fuel Hf; [exists []; by destruct fuel|].
  rewrite length_append in Hf. specialize (Hr rest). destruct rune as [|a rune]; cbn in Hl, Hf; [lia|].
  destruct fuel as [|fuel]; [lia|]. destruct (IH fuel) as [l El]; [lia|]. exists (r :: l).
  rewrite app_cons_string in *. cbn [decode_runes]. by rewrite Hr, El.
Qed.
Lemma utf8_valid s : utf8_ValidString s = true <-> utf8 s.
Proof.
  unfold utf8_ValidString, runes. split.
  - destruct (decode_runes _ s) eqn:E; [|done]. intros _. by eapply decode_runes_utf8.
  - intros H. by destruct (utf8_decode_runes s H (String.length s)) as [l ->].
Qed.
Lemma utf8_append a b : utf8 a -> utf8 b -> utf8 (a +:+ b).
Proof. induction 1 as [|rune rest Hr _ IH]; intros Hb; [done|]. rewrite append_assoc. constructor; auto. Qed.

(** ** Where a note is cut *)
Definition boundary (l : list ascii) (n : nat) : Prop := n = 0%nat \/ forall c, l !! n = Some c -> RuneStart c = true.

Lemma inside_rune rune rest n : one_rune rune -> (1 <= n < String.length rune)%nat -> ~ boundary (bytes (rune +:+ rest)) n.
Proof.
  intros (_ & Hc & _) Hn [->|Hb]; [lia|]. destruct (bytes rune !! n) as [c|] eqn:E; [|apply lookup_ge_None in E; rewrite length_bytes in E; lia].
  assert (Hr : RuneStart c = true) by (apply Hb; rewrite bytes_append; by apply lookup_app_l_Some).
  unfold RuneStart in Hr. destruct (bytes rune) as [|x l]; [done|]. destruct n as [|n]; [lia|]. cbn in E, Hc.
  rewrite list.Forall_forall in Hc. by rewrite (Hc c) in Hr by (by eapply list_elem_of_lookup_2).
Qed.

Lemma utf8_cut s n : utf8 s -> (n <= String.length s)%nat -> boundary (bytes s) n -> utf8 (String.substring 0 n s).
Proof.
  intros Hs. revert n. induction Hs as [|rune rest Hr Hs IH]; intros n Hn Hb; [by destruct n; constructor|].
  destruct (decide (n = 0)%nat) as [->|Hz]; [destruct (rune +:+ rest); constructor|].
  destruct (decide (n < String.length rune)%nat) as [Hlt|Hge]; [by destruct (inside_rune rune rest n Hr); [lia|]|].
  rewrite length_append in Hn. rewrite substring_append by lia. constructor; [done|]. apply IH; [lia|].
  destruct Hb as [->|Hb]; [done|]. right. intros c Hc. apply Hb. rewrite bytes_append, lookup_app_r; rewrite length_bytes; [done|lia].
Qed.

Lemma boundary_near s n : utf8 s -> (n <= String.length s)%nat -> exists m, (n <= m + 3)%nat /\ (m <= n)%nat /\ boundary (bytes s) m.
Proof.
  intros Hs. revert n. induction Hs as [|rune rest Hr Hs IH]; intros n Hn; [exists 0%nat; split_and!; cbn in Hn; [lia|lia|by left]|].
  pose proof Hr as (Hl & _). rewrite length_append in Hn. destruct (decide (n < String.length rune)%nat) as [Hlt|Hge].
  - exists 0%nat. split_and!; [lia|lia|by left].
  - destruct (IH (n - String.length rune)%nat) as (m & H1 & H2 & Hb); [lia|]. exists (String.length rune + m)%nat. split_and!; [lia|lia|].
    destruct Hb as [->|Hb].
    + right. intros c Hc. rewrite Nat.add_0_r, bytes_append, lookup_app_r, length_bytes, Nat.sub_diag in Hc by (rewrite length_bytes; lia).
      destruct Hs as [|rune' rest' (Hl' & _ & Hh & _) _]; [done|]. apply Hh. rewrite bytes_append in Hc.
      destruct rune' as [|x rune']; cbn in Hl'; [lia|]. exact Hc.
    + right. intros c Hc. rewrite bytes_append, lookup_app_r in Hc by (rewrite length_bytes; lia).
      rewrite length_bytes in Hc. apply Hb. by replace (String.length rune + m - String.length rune)%nat with m in Hc by lia.
Qed.

Lemma note_limit_spec l n : (note_limit l n <= n)%nat /\ boundary l (note_limit l n) /\ forall m, (m <= n)%nat -> boundary l m -> (m <= note_limit l n)%nat.
Proof.
  induction n as [|n (H1 & H2 & H3)]; cbn [note_limit]; [split_and!; [lia|by left|lia]|]. destruct (l !! S n) as [c|] eqn:E.
  - destruct (RuneStart c) eqn:Er; [split_and!; [lia| |lia]; right; intros c' Hc'; congruence|]. split_and!; [lia|done|].
    intros m Hm Hb. destruct (decide (m = S n)) as [->|]; [|apply H3; [lia|done]]. destruct Hb as [|Hb]; [done|]. by rewrite (Hb c E) in Er.
  - split_and!; [lia| |lia]. right. intros c Hc. congruence.
Qed.

(** C36: A note fits in the 1024 bytes an Event has for it, whatever it says; a short
    note is left as it is, of a longer one a beginning is kept and marked; and a
    note that is valid UTF-8 stays valid, and loses no more than the mark and the
    code point it would split. *)
Theorem event_note_bounded note :
  (String.length (boundedEventNote note) <= 1024)%nat /\
  ((String.length note <= 1024)%nat -> boundedEventNote note = note) /\
  ((1024 < String.length note)%nat -> exists kept rest, note = kept +:+ rest /\ boundedEventNote note = kept +:+ "..." /\
     (utf8_ValidString note = true -> (1018 <= String.length kept)%nat)) /\
  (utf8_ValidString note = true -> utf8_ValidString (boundedEventNote note) = true).
Proof.
  unfold boundedEventNote, maxNoteBytes. destruct (Nat.leb_spec (String.length note) 1024) as [Hs|Hs]; [split_and!; [done..|lia|done]|].
  change (1024 - 3)%nat with 1021%nat. destruct (note_limit_spec (bytes note) 1021) as (H1 & H2 & H3). set (n := note_limit _ _) in *. clearbody n.
  destruct (substring_split note n) as (rest & E & El); [lia|]. split_and!.
  - rewrite length_append, El. cbn. lia.
  - lia.
  - intros _. exists (String.substring 0 n note), rest. split_and!; [done..|]. rewrite El, utf8_valid. intros Hu.
    destruct (boundary_near note 1021 Hu) as (m & Hm1 & Hm2 & Hb); [lia|]. specialize (H3 m Hm2 Hb). lia.
  - rewrite !utf8_valid. intros Hu. apply utf8_append; [apply utf8_cut; [done|lia|done]|]. apply utf8_valid. reflexivity.
Qed.
