(* ===== verification/ExecutorProps.v ===== *)
(** * What a directive may do to a site

    The requests [Executor.Execute] may send ([executor_write]), each with what
    must have been answered before it, and what it means that a directive is
    reported as carried out ([executed]). *)

From S2P Require Import Prelude Utf8 Prog Api Workloads Messages Kube ApiServer Codec NetAddr Plan Directive Cache Members Client.
From S2P Require Import RenderBase MaintenanceJobs Render AgentBase AgentCertificates Vault Secrets Sql Executor SiteWrites SiteSteps.

Section executor.
Context {C : Crypto} {R : RawJson} {JP : Json SitePlan} {JDb : Json PostgresDatabaseSpec} {JU : Json PostgresUserSpec}.
Context {JBM : Json BackupMetadata} {JDM : Json DatabaseMetadata} {JDI : Json databaseInventory} {JO : Json (list string)}.
Context {P : Pki} {U : UrlLib} {UP : UrlPath} {JL : Json LoginResponse} {JB : Json LoginBody} {JK : Json KVResponse} {TT : TimeText}.
Context (e : DirectiveExecutor) (payload : Payload).

(** The directive runs against the plan in the cache, signed by the hub for
    this site and the instance, which has the address of the directive's
    primary. *)
Definition accepted (h : khistory) (desired : SitePlan) : Prop :=
  (exists cm, answered h (Get KConfigMap (ex_CacheNamespace e) (cacheName (pl_InstanceUID payload))) (Ok cm) /\
     Cache.load_record (ex_PublicKey e) (ex_SiteUID e) (pl_InstanceUID payload) cm = Ok desired) /\
  pl_Primary payload <> "" /\ is_Some (sp_MemberAddresses desired !! pl_Primary payload).

Definition directive_namespace (desired : SitePlan) : string := site_Namespace (sp_Site desired).
Definition directive_name : string :=
  if pl_Type payload == "Backup" then "mspsql-backup-" +:+ operationHash (pl_OperationUID payload) else operationName (pl_OperationUID payload).

(** The Job that carries out the directive. *)
Inductive directive_job (desired : SitePlan) : Job -> Prop :=
| J_database spec sql :
    pl_Type payload = "Database" -> json_Unmarshal (pl_Spec payload) = Ok spec ->
    databaseSQL spec (tde_Enabled (sp_TDE desired)) (pl_Deleting payload) = Ok sql ->
    directive_job desired (sqlJob desired payload directive_name sql false)
| J_user spec :
    pl_Type payload = "User" -> pl_Deleting payload = false -> json_Unmarshal (pl_Spec payload) = Ok spec ->
    directive_job desired (sqlJob desired payload directive_name (userSQL spec) true)
| J_drop_user spec :
    pl_Type payload = "User" -> pl_Deleting payload = true -> json_Unmarshal (pl_Spec payload) = Ok spec ->
    directive_job desired (sqlJob desired payload directive_name (dropUserSQL spec) false)
| J_backup backup config :
    pl_Type payload = "Backup" -> sp_Backup desired = Some backup -> pl_BackupType payload ∈ ["full"; "diff"; "incr"] ->
    backupCoordinatorConfig desired backup payload = Ok config ->
    directive_job desired (backupJob desired payload directive_name config).

(** No Job of the directive existed. *)
Definition job_missing (h : khistory) (desired : SitePlan) : Prop :=
  exists err, answered h (Get KJob (directive_namespace desired) directive_name) (Err err) /\ IsNotFound err = true.
(** The Job of the directive was observed to be complete. *)
Definition job_done (h : khistory) (desired : SitePlan) : Prop :=
  exists job, answered h (Get KJob (directive_namespace desired) directive_name) (Ok job) /\ job_complete (job_Conditions job) = true.

Definition credential (desired : SitePlan) (data : gmap string string) : Secret :=
  credential_secret (directive_namespace desired) directive_name data.

(** What the executor may send. *)
Inductive executor_write (h : khistory) : Req -> Prop :=
| X_read q : site_read q -> executor_write h q
| X_wait : executor_write h (Env (WaitTick (2 * second)%Z))
| X_login desired url body tls jwt role :
    accepted h desired -> answered h (Env (Site (RequestToken (directive_namespace desired) workloadServiceAccount))) (Ok jwt) ->
    json_Marshal (mkLoginBody jwt role) = Ok body ->
    executor_write h (Env (Site (HTTPDo (mkHTTPRequest "POST" url "" (Some body) tls))))
| X_job desired job :
    accepted h desired -> directive_job desired job -> job_missing h desired -> executor_write h (Create KJob job)
(** the password of a declared user, before the Job that reads it *)
| X_credential desired password :
    accepted h desired -> pl_Type payload = "User" -> pl_Deleting payload = false -> password <> "" -> job_missing h desired ->
    executor_write h (Create KSecret (credential desired {[ "password" := password ]}))
(** and its removal, once the Job was created *)
| X_drop_credential desired job x :
    accepted h desired -> pl_Type payload = "User" -> directive_job desired job -> answered h (Create KJob job) x ->
    executor_write h (Delete KSecret (credential desired ∅))
(** the inventory of a database whose Job is complete *)
| X_create_inventory desired err o :
    accepted h desired -> pl_Type payload = "Database" -> pl_Deleting payload = false -> job_done h desired ->
    answered h (Get KConfigMap (directive_namespace desired) (inventoryName payload)) (Err err) -> IsNotFound err = true ->
    meta_Namespace (cm_Meta o) = directive_namespace desired -> meta_Name (cm_Meta o) = inventoryName payload ->
    executor_write h (Create KConfigMap o)
| X_update_inventory desired observed encoded :
    accepted h desired -> pl_Type payload = "Database" -> pl_Deleting payload = false -> job_done h desired ->
    answered h (Get KConfigMap (directive_namespace desired) (inventoryName payload)) (Ok observed) ->
    executor_write h (Update KConfigMap (observed <| cm_Data ::= insert "inventory.json" encoded |>)).

(** A condition that says the directive succeeded appears only when its Job was
    observed to be complete; without an error there is one, and a backup has
    the name of its set. *)
Definition executed (h : khistory) (x : list Condition * option Error) : Prop :=
  (forall c, c ∈ x.1 -> cond_Type c = "Succeeded" -> exists desired, accepted h desired /\ job_done h desired) /\
  (x.2 = None -> exists reason message, mkCondition "Succeeded" ConditionTrue 0 reason message ∈ x.1) /\
  (x.2 = None -> pl_Type payload = "Backup" -> exists set, set <> "" /\ verified_metadata "BackupSet" set ∈ x.1).

Local Abbreviation safe := (sat executor_write).

Lemma accepted_later h h' desired : extends h h' -> accepted h desired -> accepted h' desired.
Proof. intros He [(cm & Hc & Hl) Hp]. split; [exists cm; eauto|done]. Qed.
Lemma job_missing_later h h' desired : extends h h' -> job_missing h desired -> job_missing h' desired.
Proof. intros He (err & H & Hn). exists err. eauto. Qed.
Lemma job_done_later h h' desired : extends h h' -> job_done h desired -> job_done h' desired.
Proof. intros He (job & H & Hn). exists job. eauto. Qed.

Lemma failed_executed h err : executed h ([], Some err).
Proof. split_and!; [|done..]. by intros c []%not_elem_of_nil. Qed.

#[local] Instance executor_reads : Reads executor_write.
Proof. split. intros h q. apply X_read. Qed.

(** ** Jobs *)
Section job.
Context (desired : SitePlan).

(** A wait that ended with the Job complete, or with an error and no condition. *)
Definition waited (h : khistory) (x : list Condition * option Error) : Prop :=
  (exists reason message, x = ([mkCondition "Succeeded" ConditionTrue 0 reason message], None) /\ job_done h desired) \/
  (exists err, x = ([], Some err)).

Lemma waitForJob_safe rounds reason message h :
  safe waited h (waitForJob rounds (directive_namespace desired) directive_name reason message).
Proof.
  revert h. induction rounds as [|rounds IH]; intros h; cbn [waitForJob]; read; intros [job|err]; try by right; exists err.
  all: destruct (job_outcome (job_Conditions job)) as [condition|] eqn:Eo.
  1,3: destruct (jc_Type condition == "Complete") eqn:Ec; [|by right; eexists].
  1,2: left; exists reason, message; split; [done|]; exists job; split; [by left|]; unfold job_complete; by rewrite Eo.
  all: apply sat_ask; [apply X_wait|]; intros [[]|err]; [|by right; eexists].
  - by right; eexists.
  - apply IH.
Qed.

Lemma waited_executed h x : accepted h desired -> pl_Type payload <> "Backup" -> waited h x -> executed h x.
Proof.
  intros Ha Hb [(reason & message & -> & Hd)|[err ->]]; [|by apply failed_executed]. split_and!; [|by exists reason, message; left|done].
  intros c Hc _. by exists desired.
Qed.

Lemma create_sql_job_safe rounds sql password h :
  accepted h desired -> directive_job desired (sqlJob desired payload directive_name sql (password != "")) -> job_missing h desired ->
  (password <> "" -> pl_Type payload = "User") ->
  safe waited h (create_sql_job rounds desired payload directive_name sql password).
Proof.
  intros Ha Hj Hm Hp. unfold create_sql_job. apply sat_ask; [by eapply X_job|].
  intros x. match goal with |- sat _ _ ?hh _ => set (h1 := hh) end.
  assert (Hf : safe waited h1
    (let* outcome := sql_applied rounds (directive_namespace desired) directive_name in
     if password == "" then Ret outcome
     else let* _ := call (Delete KSecret (credential_secret (directive_namespace desired) directive_name ∅)) in Ret outcome)).
  { eapply sat_seq; [apply waitForJob_safe|]. intros h2 outcome He Hw. destruct (password == "") eqn:Ep; [done|].
    apply sat_ask; [|].
    - eapply (X_drop_credential _ desired _ x); [|apply Hp; by apply bool_decide_eq_false in Ep|exact Hj|apply He; by left].
      eapply accepted_later; [|exact Ha]. intros z Hz. apply He. by right.
    - intros deleted. destruct Hw as [(reason & message & -> & Hd)|Herr]; [left|by right]. exists reason, message. split; [done|].
      eapply job_done_later; [apply extends_cons|done]. }
  subst h1. destruct x as [o|err]; [exact Hf|]. destruct (IsAlreadyExists err); [exact Hf|]. by right; exists err.
Qed.

Lemma runSQLJob_safe rounds sql password h :
  accepted h desired -> directive_name = operationName (pl_OperationUID payload) ->
  directive_job desired (sqlJob desired payload directive_name sql (password != "")) ->
  (password <> "" -> pl_Type payload = "User" /\ pl_Deleting payload = false) ->
  safe waited h (runSQLJob rounds desired payload sql password).
Proof.
  intros Ha Hn Hj Hp. unfold runSQLJob. rewrite <- Hn. read. intros [job|err]; [apply waitForJob_safe|].
  destruct (IsNotFound err) eqn:En; [|by right; exists err]. cbn [negb].
  match goal with |- sat _ _ ?hh _ => set (h1 := hh) end.
  assert (Hm : job_missing h1 desired) by (exists err; split; [by left|done]).
  assert (Ha1 : accepted h1 desired) by (eapply accepted_later; [apply extends_cons|done]).
  assert (Hc : forall h2, extends h1 h2 -> safe waited h2 (create_sql_job rounds desired payload directive_name sql password)).
  { intros h2 He. apply create_sql_job_safe; [by eapply accepted_later|done|by eapply job_missing_later|]. intros H. by apply Hp. }
  destruct (password == "") eqn:Ep; [by apply Hc|]. apply bool_decide_eq_false in Ep. destruct (Hp Ep) as [Ht Hdel].
  apply sat_ask; [by apply X_credential|]. intros [o|err']; [by apply Hc, extends_cons|].
  destruct (IsAlreadyExists err'); [by apply Hc, extends_cons|]. by right; exists err'.
Qed.
End job.

(** ** The three types of directives *)
Lemma metadata_safe {A} (Q : khistory -> A -> Prop) h namespace name container missing (f : result string -> kprog A) :
  (forall h' x, extends h h' -> safe Q h' (f x)) -> safe Q h (bind (job_message namespace name container missing) f).
Proof.
  intros Hf. apply (sat_seq _ done_); [|intros h' x He _; by apply Hf]. unfold job_message. read. by intros [].
Qed.

Lemma audit_database_safe desired spec conditions h :
  accepted h desired -> pl_Type payload = "Database" -> pl_Deleting payload = false -> job_done h desired ->
  waited desired h (conditions, None) -> safe executed h (audit_database desired payload spec conditions).
Proof.
  intros Ha Ht Hd Hj Hw.
  assert (Hex : forall h' more err, extends h h' -> executed h' (conditions ++ more, err)).
  { intros h' more err He. destruct Hw as [(reason & message & [= ->] & _)|[? [=]]]. split_and!.
    - intros c _ _. exists desired. split; [by eapply accepted_later|by eapply job_done_later].
    - intros _. exists reason, message. by left.
    - intros _. by rewrite Ht. }
  unfold audit_database. apply (sat_seq _ done_).
  { unfold databaseMetadata. apply metadata_safe. intros h1 [message|err] _; [|done]. destruct (json_Unmarshal message) as [metadata|err]; [|done].
    by destruct (_ <=? 0)%Z. }
  intros h1 [more|err] He1 _; [|by rewrite <- (app_nil_r conditions); apply Hex].
  apply (sat_seq _ done_).
  - unfold reconcileDatabaseInventory. read. intros [observed|err].
    + destruct (json_Unmarshal _) as [previous|err]; [|done]. destruct (json_Marshal _) as [encoded|err]; [|done].
      apply sat_ask; [|by intros []]. eapply (X_update_inventory _ desired observed); try done; [| |by left].
      * eapply accepted_later; [by apply extends_cons_r|done].
      * eapply job_done_later; [by apply extends_cons_r|done].
    + destruct (IsNotFound err) eqn:En; [|done]. cbn [negb]. destruct (json_Marshal _) as [encoded|err']; [|done].
      apply sat_ask; [|by intros []]. eapply (X_create_inventory _ desired err); try done; [| |by left].
      * eapply accepted_later; [by apply extends_cons_r|done].
      * eapply job_done_later; [by apply extends_cons_r|done].
  - intros h2 [orphaned|err] He2 _; [|by eapply Hex, extends_trans].
    destruct (json_Marshal orphaned) as [encoded|err]; [|by eapply Hex, extends_trans].
    cbn [sat]. rewrite <- app_assoc. by eapply Hex, extends_trans.
Qed.

Lemma sql_name : pl_Type payload <> "Backup" -> directive_name = operationName (pl_OperationUID payload).
Proof. intros H. unfold directive_name. by rewrite bool_decide_eq_false_2. Qed.

Lemma executeDatabase_safe rounds desired h :
  accepted h desired -> pl_Type payload = "Database" -> safe executed h (executeDatabase rounds desired payload).
Proof.
  intros Ha Ht. assert (Hb : pl_Type payload <> "Backup") by (by rewrite Ht). unfold executeDatabase.
  destruct (json_Unmarshal _) as [spec|err] eqn:Es; [|by apply failed_executed].
  destruct (databaseSQL _ _ _) as [sql|err] eqn:Eq; [|by apply failed_executed].
  eapply sat_seq; [apply (runSQLJob_safe desired); [done|by apply sql_name|by eapply J_database|done]|].
  intros h1 [conditions [err|]] He Hw; (assert (Ha1 : accepted h1 desired) by by eapply accepted_later).
  - by eapply waited_executed.
  - destruct (pl_Deleting payload) eqn:Ed; [by eapply waited_executed|]. apply audit_database_safe; try done.
    by destruct Hw as [(? & ? & _ & Hd)|[? [=]]].
Qed.

#[local] Instance executor_logs_in desired : LogsIn (fun h q => accepted h desired -> executor_write h q) (site_Namespace (sp_Site desired)).
Proof. split. intros h url body tls jwt role Hj Hm Ha. by eapply X_login. Qed.
#[local] Instance accepted_reads desired : Reads (fun h q => accepted h desired -> executor_write h q).
Proof. split. intros h q Hq _. by apply X_read. Qed.

Lemma executeUser_safe rounds desired h :
  accepted h desired -> pl_Type payload = "User" -> safe executed h (executeUser e rounds desired payload).
Proof.
  intros Ha Ht. assert (Hb : pl_Type payload <> "Backup") by (by rewrite Ht). unfold executeUser.
  destruct (json_Unmarshal _) as [spec|err] eqn:Es; [|by apply failed_executed]. destruct (pl_Deleting payload) eqn:Ed.
  { eapply sat_mono; [done| |apply sat_extends, (runSQLJob_safe desired); [done|by apply sql_name|by eapply J_drop_user|done]].
    intros h1 x [Hw He]. eapply waited_executed; [by eapply accepted_later|done..]. }
  destruct (ex_Secrets e) as [m|]; [|by apply failed_executed].
  apply (sat_seq _ done_).
  { eapply (sat_mono_later (fun h' q => accepted h' desired -> executor_write h' q) _ done_); [|done|by apply Resolve_safe; apply _].
    intros h1 q He H. by eapply H, accepted_later. }
  intros h1 [secret|err] He1 _; [|by apply failed_executed]. unfold RequireFields. cbn [List.find].
  destruct (_ == "") eqn:Ep; [by apply failed_executed|]. apply bool_decide_eq_false in Ep.
  eapply sat_seq; [apply (runSQLJob_safe desired); [by eapply accepted_later|by apply sql_name| |done]|].
  { rewrite (bool_decide_eq_false_2 _ Ep). by eapply J_user. }
  intros h2 [conditions [err|]] He2 Hw; (assert (Ha2 : accepted h2 desired) by by eapply accepted_later, accepted_later).
  - by eapply waited_executed.
  - destruct (waited_executed _ _ _ Ha2 Hb Hw) as (H1 & H2 & _). destruct Hw as [(reason & message & [= ->] & Hd)|[? [=]]]. split_and!.
    + intros c _ _. by exists desired.
    + intros _. exists reason, message. by left.
    + by rewrite Ht.
Qed.

Lemma backup_completed_safe rounds desired h :
  accepted h desired -> pl_Type payload = "Backup" -> safe executed h (backup_completed rounds (directive_namespace desired) directive_name).
Proof.
  intros Ha Ht. unfold backup_completed. eapply sat_seq; [apply waitForJob_safe|].
  intros h1 [conditions [err|]] He [(reason & message & [=] & Hd)|[err' [=]]]; subst; [by apply failed_executed|].
  assert (Hex : forall h2 more err, extends h1 h2 -> (err = None -> exists set, set <> "" /\ verified_metadata "BackupSet" set ∈ more) ->
    executed h2 ([mkCondition "Succeeded" ConditionTrue 0 reason message] ++ more, err)).
  { intros h2 more err He2 Hmore. split_and!.
    - intros c _ _. exists desired. split; [by eapply accepted_later, accepted_later|by eapply job_done_later].
    - intros _. exists reason, message. by left.
    - intros Hn _. destruct (Hmore Hn) as (set & Hs & Hin). exists set. split; [done|]. by right. }
  apply (sat_seq _ (fun _ x => x.2 = None -> exists set, set <> "" /\ verified_metadata "BackupSet" set ∈ x.1)).
  - unfold backupMetadata. apply metadata_safe. intros h2 [text|err] _; [|done].
    destruct (json_Unmarshal text) as [metadata|err]; [|done]. destruct (bm_BackupSet metadata == "") eqn:Eb; [done|]. cbn [orb].
    branch as Em; [done|]. intros _. exists (bm_BackupSet metadata). split; [by apply bool_decide_eq_false in Eb|by left].
  - intros h2 [more err] He2 Hm. by apply Hex.
Qed.

Lemma executeBackup_safe rounds desired h :
  accepted h desired -> pl_Type payload = "Backup" -> safe executed h (executeBackup rounds desired payload).
Proof.
  intros Ha Ht. unfold executeBackup. destruct (sp_Backup desired) as [backup|] eqn:Eb; [|by apply failed_executed].
  destruct (_ || _); [by apply failed_executed|]. branch as Et; [by apply failed_executed|].
  destruct (backupCoordinatorConfig _ _ _) as [config|err] eqn:Ec; [|by apply failed_executed].
  assert (Hn : "mspsql-backup-" +:+ operationHash (pl_OperationUID payload) = directive_name)
    by (unfold directive_name; by rewrite Ht). rewrite Hn. clear Hn.
  assert (Hw : forall h', extends h h' -> safe executed h' (backup_completed rounds (directive_namespace desired) directive_name))
    by (intros h' He; apply backup_completed_safe; [by eapply accepted_later|done]).
  read. intros [job|err]; [apply Hw, extends_cons|]. destruct (IsNotFound err) eqn:En; [|by apply failed_executed]. cbn [negb].
  apply sat_ask.
  - apply (X_job _ desired); [eapply accepted_later; [apply extends_cons|done]| |exists err; split; [by left|done]].
    apply bool_decide_eq_false, dec_stable in Et. by eapply J_backup.
  - intros [job|err']; [by apply Hw, extends_cons_r, extends_cons|].
    destruct (IsAlreadyExists err'); [by apply Hw, extends_cons_r, extends_cons|by apply failed_executed].
Qed.

Lemma Execute_safe rounds h : safe executed h (Execute e rounds payload).
Proof.
  unfold Execute. apply (sat_seq _ (fun h' x => forall desired, x = Ok desired ->
    exists cm, answered h' (Get KConfigMap (ex_CacheNamespace e) (cacheName (pl_InstanceUID payload))) (Ok cm) /\
      Cache.load_record (ex_PublicKey e) (ex_SiteUID e) (pl_InstanceUID payload) cm = Ok desired)).
  { unfold Cache.Load. read. intros [cm|err]; [|done]. intros desired Hl. exists cm. split; [by left|done]. }
  intros h1 [desired|err] _ Hl; [|by apply failed_executed]. branch as Ep; [by apply failed_executed|].
  branch as Em; [by apply failed_executed|]. apply bool_decide_eq_false in Ep, Em.
  assert (Ha : accepted h1 desired) by (split_and!; [by apply Hl|done|by apply not_eq_None_Some]).
  branch as Ed; [apply bool_decide_eq_true in Ed; by apply executeDatabase_safe|].
  branch as Eu; [apply bool_decide_eq_true in Eu; by apply executeUser_safe|].
  branch as Eb; [apply bool_decide_eq_true in Eb; by apply executeBackup_safe|by apply failed_executed].
Qed.


Lemma executor_write_request h q : executor_write h q -> executor_request q.
Proof.
  intros H. destruct H as [q Hq| | | | | | |]; try done. by destruct q as [| | | | | | | | | | | | |[]].
Qed.
End executor.

(** The executor keeps its contract with the control client. *)
#[global] Instance Execute_laws {C : Crypto} {R : RawJson} {JP : Json SitePlan} {JDb : Json PostgresDatabaseSpec} {JU : Json PostgresUserSpec}
  {JBM : Json BackupMetadata} {JDM : Json DatabaseMetadata} {JDI : Json databaseInventory} {JO : Json (list string)} {P : Pki} {U : UrlLib}
  {UP : UrlPath} {JL : Json LoginResponse} {JB : Json LoginBody} {JK : Json KVResponse} {TT : TimeText}
  (e : DirectiveExecutor) (rounds : nat) (pre : Payload -> khistory -> Prop) :
  ExecutorLaws (Execute e rounds) pre (executed e).
Proof.
  split.
  - intros payload h _. eapply sat_mono; [| |apply Execute_safe]; [|done]. intros h' q. apply executor_write_request.
  - intros h h' payload x He (Hs & H). split; [|done]. intros c Hc Ht. destruct (Hs c Hc Ht) as (desired & Ha & Hd). exists desired.
    split; [by eapply accepted_later|by eapply job_done_later].
Qed.
