(* ===== verification/Telemetry.v ===== *)
(** * Metrics

    [internal/telemetry]: what an agent counts about its reconciliations, and
    the series the hub computes from its objects for a scrape.  A gauge is the
    value it was set to, before the conversion to a float; a histogram is the
    list of its observations, a vector of metrics a map from label values. *)

From S2P Require Import Prelude Prog Api Messages Kube Status Client.

(** [localCondition] and [conditionValue] *)
Definition conditionValue (conditions : list Condition) (conditionType : string) : bool :=
  match FindStatusCondition conditions conditionType with
  | Some condition => cond_Status condition == ConditionTrue
  | None => false
  end.

(** ** The agent *)
Record AgentMetrics := mkAgentMetrics {
  am_connected : bool;
  am_certificate : Z;
  am_cacheAge : gmap string Duration;
  am_revisionLag : gmap string bool;
  am_reconcileTime : gmap string (list Duration);
  am_reconcileError : gmap string Z;
  am_backoff : Duration;
  am_etcdQuorate : gmap string bool;
  am_patroniReady : gmap string bool;
  am_synchronous : gmap string bool;
  am_tdeVerified : gmap string bool;
  (** series with the value one *)
  am_primary : gset (string * string);
  am_addressChanges : gmap (string * string) Z;
  am_primaries : gmap string string;
  am_addresses : gmap string (gmap string string)
}.
#[global] Instance eta_AgentMetrics : Settable AgentMetrics := fun m =>
  mkAgentMetrics (am_connected m) (am_certificate m) (am_cacheAge m) (am_revisionLag m) (am_reconcileTime m) (am_reconcileError m)
    (am_backoff m) (am_etcdQuorate m) (am_patroniReady m) (am_synchronous m) (am_tdeVerified m) (am_primary m) (am_addressChanges m)
    (am_primaries m) (am_addresses m).

Definition NewAgentMetrics : AgentMetrics := mkAgentMetrics false 0%Z ∅ ∅ ∅ ∅ 0%Z ∅ ∅ ∅ ∅ ∅ ∅ ∅ ∅.

Definition SetConnected (connected : bool) (m : AgentMetrics) : AgentMetrics :=
  let m := m <| am_connected := connected |> in
  if connected then m <| am_backoff := 0%Z |> else m.
Definition SetCertificateExpiry (expiry : Time) (m : AgentMetrics) : AgentMetrics := m <| am_certificate := time_Unix expiry |>.
Definition SetBackoff (delay : Duration) (m : AgentMetrics) : AgentMetrics := m <| am_backoff := delay |>.
Definition SetCacheAge (instanceUID : string) (age : Duration) (m : AgentMetrics) : AgentMetrics :=
  m <| am_cacheAge ::= insert instanceUID (Z.max 0 age) |>.

Definition observePrimary (instanceUID primary : string) (m : AgentMetrics) : AgentMetrics :=
  let previous := am_primaries m !!! instanceUID in
  let m := if (previous != "") && (previous != primary) then m <| am_primary ::= fun series => series ∖ {[ (instanceUID, previous) ]} |> else m in
  if primary != "" then m <| am_primary ::= fun series => {[ (instanceUID, primary) ]} ∪ series |> <| am_primaries ::= insert instanceUID primary |>
  else m.

Definition observe_address (instanceUID : string) (x : gmap string string * AgentMetrics) (entry : string * string)
  : gmap string string * AgentMetrics :=
  let '(previous, m) := x in
  let '(member, address) := entry in
  let old := previous !!! member in
  (<[member := address]> previous,
   if (old != "") && (old != address)
   then m <| am_addressChanges ::= fun counts => <[(instanceUID, member) := (counts !!! (instanceUID, member) + 1)%Z]> counts |> else m).

Definition observeAddresses (instanceUID : string) (addresses : gmap string string) (m : AgentMetrics) : AgentMetrics :=
  let '(previous, m) := foldl (observe_address instanceUID) (am_addresses m !!! instanceUID, m) (map_to_list addresses) in
  m <| am_addresses ::= insert instanceUID previous |>.

Definition ObserveReconcile (instanceUID : string) (duration : Duration) (result : ApplyResult) (err : option Error) (m : AgentMetrics) : AgentMetrics :=
  let m := m <| am_reconcileTime ::= fun times => <[instanceUID := times !!! instanceUID ++ [duration]]> times |> in
  let m := match err with
           | Some _ => m <| am_reconcileError ::= fun errors => <[instanceUID := (errors !!! instanceUID + 1)%Z]> errors |>
           | None => m
           end in
  let m := m <| am_revisionLag ::= insert instanceUID ((ar_Phase result != "Ready") && (ar_Phase result != "Deleted")) |>
    <| am_etcdQuorate ::= insert instanceUID (conditionValue (ar_Conditions result) "EtcdQuorate") |>
    <| am_patroniReady ::= insert instanceUID (conditionValue (ar_Conditions result) "PatroniReady") |>
    <| am_synchronous ::= insert instanceUID (conditionValue (ar_Conditions result) "SynchronousReplicationReady") |>
    <| am_tdeVerified ::= insert instanceUID (conditionValue (ar_Conditions result) "TDEVerified") |> in
  observeAddresses instanceUID (ar_Addresses result) (observePrimary instanceUID (ar_Primary result) m).

(** ** The hub *)

(** A value before its conversion: a truth value, a number, seconds as the
    duration, a quantity. *)
Inductive Reading := Flag (b : bool) | Number (n : Z) | Seconds (d : Duration) | Amount (q : Quantity).

(** A sample of a scrape: the key of its description, the values of its labels. *)
Record Sample := mkSample { smp_Desc : string; smp_Labels : list string; smp_Value : Reading }.
Definition gauge (description : string) (value : Reading) (labels : list string) : Sample := mkSample description labels value.

(** [NewHubCollector]: the metric of each key, and the names of its labels. *)
Definition instance_labels : list string := ["namespace"; "instance"].
Definition hub_descriptions : list (string * (string * list string)) := [
  ("agent_connected", ("mspsql_agent_connected", ["site"]));
  ("agent_heartbeat_age", ("mspsql_agent_heartbeat_age_seconds", ["site"]));
  ("agent_certificate_expiry", ("mspsql_agent_certificate_expiry_timestamp_seconds", ["site"]));
  ("plan_revision_lag", ("mspsql_plan_revision_lag", instance_labels ++ ["site"]));
  ("etcd_quorate", ("mspsql_etcd_quorate", instance_labels));
  ("patroni_ready", ("mspsql_patroni_ready", instance_labels));
  ("synchronous_write", ("mspsql_synchronous_write_available", instance_labels));
  ("synchronous_standbys", ("mspsql_synchronous_standbys", instance_labels));
  ("primary", ("mspsql_patroni_primary", instance_labels ++ ["member"]));
  ("tde_verified", ("mspsql_tde_verified", instance_labels));
  ("address_migration", ("mspsql_load_balancer_address_change_blocked", instance_labels));
  ("backup_age", ("mspsql_backup_age_seconds", instance_labels));
  ("recovery_window", ("mspsql_recovery_window_seconds", instance_labels));
  ("database_size", ("mspsql_database_size_bytes", ["namespace"; "database"; "instance"]));
  ("database_threshold", ("mspsql_database_storage_threshold_bytes", ["namespace"; "database"; "instance"]));
  ("upgrade_phase", ("mspsql_upgrade_phase", ["namespace"; "upgrade"; "instance"; "phase"]));
  ("upgrade_outage", ("mspsql_upgrade_write_outage_seconds", ["namespace"; "upgrade"; "instance"]));
  ("operation_attempt", ("mspsql_operation_attempt", ["namespace"; "operation"; "instance"; "kind"; "phase"]));
  ("operation_deadline", ("mspsql_operation_deadline_seconds", ["namespace"; "operation"; "instance"; "kind"; "phase"]));
  ("operation_manual", ("mspsql_operation_manual_intervention_required", ["namespace"; "operation"; "instance"; "kind"; "phase"]))].

Definition optional {A} (x : option A) (f : A -> Sample) : list Sample := match x with Some a => [f a] | None => [] end.
Definition age (now : Time) (t : Time) : Reading := Seconds (Z.max 0 (time_Sub now t)).

Definition collect_site (now : Time) (site : SiteRegistration) : list Sample :=
  let labels := [meta_Name (reg_Meta site)] in
  [gauge "agent_connected" (Flag (regst_Phase (reg_Status site) == "Connected")) labels] ++
  optional (regst_LastHeartbeatTime (reg_Status site)) (fun t => gauge "agent_heartbeat_age" (age now t) labels) ++
  optional (regst_AgentCertificateExpiresAt (reg_Status site)) (fun t => gauge "agent_certificate_expiry" (Number (time_Unix t)) labels).

Definition collect_instance (now : Time) (instance : MultiSitePostgres) : list Sample :=
  let labels := [meta_Namespace (msp_Meta instance); meta_Name (msp_Meta instance)] in
  let status := msp_Status instance in
  let condition type := Flag (conditionValue (st_Conditions status) type) in
  ((fun site => gauge "plan_revision_lag" (Number (Z.max 0 (int64 (srs_DesiredRevision site - srs_AppliedRevision site)))) (labels ++ [srs_Name site]))
     <$> st_Sites status) ++
  [gauge "etcd_quorate" (condition "EtcdQuorate") labels;
   gauge "patroni_ready" (condition "PatroniReady") labels;
   gauge "synchronous_write" (condition "SynchronousReplicationReady") labels;
   gauge "synchronous_standbys" (Number (Z.of_nat (length (st_SynchronousStandbys status)))) labels] ++
  (if st_Primary status != "" then [gauge "primary" (Number 1) (labels ++ [st_Primary status])] else []) ++
  [gauge "tde_verified" (condition "TDEVerified") labels;
   gauge "address_migration" (condition "AddressChangeBlocked") labels] ++
  optional (st_LastBackupTime status) (fun t => gauge "backup_age" (age now t) labels) ++
  optional (st_RecoveryWindowStart status) (fun t => gauge "recovery_window" (age now t) labels).

Definition collect_database (database : PostgresDatabase) : list Sample :=
  let labels := [meta_Namespace (db_Meta database); meta_Name (db_Meta database); dbs_InstanceRef (db_Spec database)] in
  gauge "database_size" (Amount (dbst_ObservedSize (db_Status database))) labels ::
  optional (dq_StorageAlertThreshold (dbs_Quotas (db_Spec database))) (fun q => gauge "database_threshold" (Amount q) labels).

Definition collect_upgrade (now : Time) (upgrade : PostgresUpgrade) : list Sample :=
  let labels := [meta_Namespace (upg_Meta upgrade); meta_Name (upg_Meta upgrade); us_InstanceRef (upg_Spec upgrade)] in
  let status := upg_Status upgrade in
  let phase := if ust_Phase status == "" then "Pending" else ust_Phase status in
  gauge "upgrade_phase" (Number 1) (labels ++ [phase]) ::
  optional (ust_WriteOutageStartedAt status) (fun started =>
    gauge "upgrade_outage" (age (default now (ust_WriteServiceRestoredAt status)) started) labels).

Definition collectOperation (now : Time) (namespace name instance kind : string) (operation : option OperationProgressStatus) : list Sample :=
  match operation with
  | None => []
  | Some operation =>
      let phase := if op_Phase operation == "" then "Pending" else op_Phase operation in
      let labels := [namespace; name; instance; kind; phase] in
      [gauge "operation_attempt" (Number (op_Attempt operation)) labels;
       gauge "operation_manual" (Flag (op_ManualInterventionRequired operation)) labels] ++
      optional (op_DeadlineAt operation) (fun deadline => gauge "operation_deadline" (Seconds (time_Sub deadline now)) labels)
  end.
Definition collect_restore_operation (now : Time) (restore : PostgresRestore) : list Sample :=
  collectOperation now (meta_Namespace (res_Meta restore)) (meta_Name (res_Meta restore)) (rs_TargetInstanceRef (res_Spec restore))
    "restore" (rst_Operation (res_Status restore)).
Definition collect_upgrade_operation (now : Time) (upgrade : PostgresUpgrade) : list Sample :=
  collectOperation now (meta_Namespace (upg_Meta upgrade)) (meta_Name (upg_Meta upgrade)) (us_InstanceRef (upg_Spec upgrade))
    "upgrade" (ust_Operation (upg_Status upgrade)).

(** What a scrape yields: samples, and invalid metrics that carry an error. *)
Definition Collected : Type := list Sample * list (string * Error).

Definition list_all (k : Kind) : kprog (result (list (Object k))) := call (List k None ∅).

(** The samples of all objects of a kind, or an invalid metric. *)
Definition collect_kind {k : Kind} (description : string) (f : Object k -> list Sample) (out : Collected) : kprog Collected :=
  let! objects := list_all k onerr e => Ret (out.1, out.2 ++ [(description, e)]) in
  Ret (out.1 ++ (objects ≫= f), out.2).

Definition collectSites (now : Time) : Collected -> kprog Collected := collect_kind (k := KRegistration) "agent_connected" (collect_site now).
Definition collectInstances (now : Time) : Collected -> kprog Collected := collect_kind (k := KInstance) "plan_revision_lag" (collect_instance now).
Definition collectDatabases : Collected -> kprog Collected := collect_kind (k := KDatabase) "database_size" collect_database.
Definition collectUpgrades (now : Time) : Collected -> kprog Collected := collect_kind (k := KUpgrade) "upgrade_phase" (collect_upgrade now).
Definition collectOperations (now : Time) (out : Collected) : kprog Collected :=
  let! restores := list_all KRestore onerr e => Ret (out.1, out.2 ++ [("operation_attempt", e)]) in
  let out := (out.1 ++ (restores ≫= collect_restore_operation now), out.2) in
  collect_kind (k := KUpgrade) "operation_attempt" (collect_upgrade_operation now) out.

Definition Collect : kprog Collected :=
  let* now := call Now in
  let* out := collectSites now ([], []) in
  let* out := collectInstances now out in
  let* out := collectDatabases out in
  let* out := collectUpgrades now out in
  collectOperations now out.

(** ** What the agent exports *)

(** The series of an instance's primary is that of the last one observed. *)
Definition primaries_ok (m : AgentMetrics) : Prop := forall u p, (u, p) ∈ am_primary m -> am_primaries m !! u = Some p /\ p <> "".

Lemma observePrimary_series u primary m : primaries_ok m ->
  primaries_ok (observePrimary u primary m) /\
  (forall q, (u, q) ∈ am_primary (observePrimary u primary m) <-> q = primary /\ primary <> "").
Proof.
  intros Hok. unfold observePrimary. set (previous := am_primaries m !!! u).
  assert (Hprev : forall q, (u, q) ∈ am_primary m -> q = previous /\ previous <> "").
  { intros q [Hq Hne]%Hok. unfold previous. by rewrite lookup_total_alt, Hq. }
  set (m1 := if _ && _ then _ else m).
  assert (H1 : am_primaries m1 = am_primaries m /\ am_primary m1 ⊆ am_primary m /\ forall q, (u, q) ∈ am_primary m1 -> q = primary /\ q <> "").
  { unfold m1. destruct (previous != "") eqn:E1; [destruct (previous != primary) eqn:E2|]; cbn [andb]; bool_to_prop.
    - split_and!; [done|set_solver|]. intros q Hq. exfalso. assert (q = previous) by (apply Hprev; set_solver). set_solver.
    - split_and!; [done..|]. intros q [-> ?]%Hprev. done.
    - split_and!; [done..|]. intros q [-> ?]%Hprev. done. }
  clearbody m1. destruct H1 as (Ep & Hsub & Hu). destruct (primary != "") eqn:E; bool_to_prop.
  - split.
    + intros v p. cbn. rewrite elem_of_union, elem_of_singleton. intros [[= -> ->]|Hin]; [by rewrite lookup_insert_eq|].
      destruct (decide (v = u)) as [->|Hne]; [destruct (Hu _ Hin) as [-> ?]; by rewrite lookup_insert_eq|].
      rewrite lookup_insert_ne, Ep by done. by apply Hok, Hsub.
    + intros q. cbn. rewrite elem_of_union, elem_of_singleton. split; [|intros [-> _]; by left].
      intros [[= ->]|[-> ?]%Hu]; done.
  - split.
    + intros v p Hin. rewrite Ep. by apply Hok, Hsub.
    + intros q. split; [intros [-> ?]%Hu; done|by intros [_ ?]].
Qed.

(** What changes the metrics of an agent. *)
Inductive metrics_step (m : AgentMetrics) : AgentMetrics -> Prop :=
| step_connected connected : metrics_step m (SetConnected connected m)
| step_certificate expiry : metrics_step m (SetCertificateExpiry expiry m)
| step_backoff delay : metrics_step m (SetBackoff delay m)
| step_cache_age u age : metrics_step m (SetCacheAge u age m)
| step_reconcile u duration result err : metrics_step m (ObserveReconcile u duration result err m).

Lemma observeAddresses_primary u addresses m :
  am_primary (observeAddresses u addresses m) = am_primary m /\ am_primaries (observeAddresses u addresses m) = am_primaries m.
Proof.
  unfold observeAddresses. destruct (foldl _ _ _) as [previous m'] eqn:E. cbn.
  change m' with (previous, m').2. rewrite <- E. generalize (am_addresses m !!! u). clear. revert m.
  induction (map_to_list addresses) as [|[member address] l IH]; intros m p; [done|]. cbn [foldl observe_address].
  destruct (IH (if (p !!! member != "") && (p !!! member != address) then
    m <| am_addressChanges ::= fun counts => <[(u, member) := (counts !!! (u, member) + 1)%Z]> counts |> else m) (<[member:=address]> p)) as [-> ->].
  by destruct (_ && _).
Qed.

Lemma ObserveReconcile_primary u duration result err m : primaries_ok m ->
  primaries_ok (ObserveReconcile u duration result err m) /\
  (forall q, (u, q) ∈ am_primary (ObserveReconcile u duration result err m) <-> q = ar_Primary result /\ ar_Primary result <> "").
Proof.
  intros Hok. unfold ObserveReconcile. set (m1 := _ <| am_tdeVerified ::= _ |>).
  destruct (observePrimary_series u (ar_Primary result) m1) as [H1 H2]; [by unfold m1; destruct err|].
  unfold primaries_ok. by destruct (observeAddresses_primary u (ar_Addresses result) (observePrimary u (ar_Primary result) m1)) as [-> ->].
Qed.

(** However an agent's metrics change, an instance has at most one series that
    names its primary; after a reconciliation it is the primary observed in it,
    and there is none when none was observed. *)
Theorem one_primary_series m : rtc metrics_step NewAgentMetrics m ->
  (forall u p q, (u, p) ∈ am_primary m -> (u, q) ∈ am_primary m -> p = q) /\
  (forall u duration result err q, (u, q) ∈ am_primary (ObserveReconcile u duration result err m) <-> q = ar_Primary result /\ ar_Primary result <> "").
Proof.
  intros Hm. assert (Hok : primaries_ok m).
  { revert m Hm. apply rtc_ind_r; [done|]. intros m m' _ Hstep IH.
    destruct Hstep; try done; [by destruct connected|by apply ObserveReconcile_primary]. }
  split; [|intros; by apply ObserveReconcile_primary]. intros u p q [Hp _]%Hok [Hq _]%Hok. congruence.
Qed.

(** ** What a scrape of the hub yields *)

(** Prometheus identifies a series by its description and label values. *)
Definition series (s : Sample) : string * list string := (smp_Desc s, smp_Labels s).

Section owners.
Context {A B I K : Type} (id : B -> I) (key : A -> K) (owner : I -> K) (f : A -> list B).

(** Lists of what objects with different keys own have no common element. *)
Lemma NoDup_owned l : NoDup (key <$> l) -> (forall a, a ∈ l -> NoDup (id <$> f a)) ->
  (forall a b, a ∈ l -> b ∈ f a -> owner (id b) = key a) -> NoDup (id <$> (l ≫= f)).
Proof.
  intros Hk Hf Ho. induction l as [|a l IH]; [constructor|]. rewrite fmap_cons in Hk. apply list.NoDup_cons in Hk as [Hni Hk].
  rewrite bind_cons, fmap_app. apply list.NoDup_app. split_and!; [by apply Hf; left| |apply IH; [done|intros; apply Hf; by right|intros; apply Ho; [by right|done]]].
  intros i (b & -> & Hb)%list_elem_of_fmap (b' & E & (a' & Hb' & Ha')%list_elem_of_bind)%list_elem_of_fmap.
  apply Hni, list_elem_of_fmap. exists a'. split; [|done]. rewrite <- (Ho a b), <- (Ho a' b'), E; [done|by right|done|by left|done].
Qed.
End owners.

Lemma NoDup_descriptions (l : list Sample) : NoDup (smp_Desc <$> l) -> NoDup (series <$> l).
Proof. intros H. apply (NoDup_fmap_1 fst). by rewrite <- list_fmap_compose. Qed.

(** Samples of some descriptions, whose first labels are those of an object. *)
Definition described (descriptions : list string) (labels : list string) (s : Sample) : Prop :=
  smp_Desc s ∈ descriptions /\ take (length labels) (smp_Labels s) = labels.

Ltac described := unfold described;
  repeat first [apply Forall_cons_2; [split; [apply (bool_decide_unpack _); vm_compute; exact I|reflexivity]|] | apply Forall_nil_2].

Definition site_descriptions : list string := ["agent_connected"; "agent_heartbeat_age"; "agent_certificate_expiry"].
Definition instance_descriptions : list string :=
  ["plan_revision_lag"; "etcd_quorate"; "patroni_ready"; "synchronous_write"; "synchronous_standbys"; "primary"; "tde_verified";
   "address_migration"; "backup_age"; "recovery_window"].
Definition database_descriptions : list string := ["database_size"; "database_threshold"].
Definition upgrade_descriptions : list string := ["upgrade_phase"; "upgrade_outage"].
Definition operation_descriptions : list string := ["operation_attempt"; "operation_manual"; "operation_deadline"].

Lemma collect_site_series now site :
  NoDup (series <$> collect_site now site) /\ Forall (described site_descriptions [meta_Name (reg_Meta site)]) (collect_site now site).
Proof.
  unfold collect_site. destruct (regst_LastHeartbeatTime _), (regst_AgentCertificateExpiresAt _); cbn [app optional];
    (split; [apply NoDup_descriptions, (bool_decide_unpack _); vm_compute; exact I|described]).
Qed.

Abbreviation object_labels m := [meta_Namespace m; meta_Name m].

Lemma collect_instance_series now instance : NoDup (srs_Name <$> st_Sites (msp_Status instance)) ->
  NoDup (series <$> collect_instance now instance) /\
  Forall (described instance_descriptions (object_labels (msp_Meta instance))) (collect_instance now instance).
Proof.
  intros Hs. unfold collect_instance. set (lag := (fun site => gauge _ _ _) <$> _).
  assert (Hlag : Forall (fun s => smp_Desc s = "plan_revision_lag" /\ take 2 (smp_Labels s) = object_labels (msp_Meta instance)) lag)
    by (apply list.Forall_fmap, list.Forall_forall; by intros site _).
  assert (Hnd : NoDup (series <$> lag)).
  { assert (E : series <$> lag = (fun name => ("plan_revision_lag", object_labels (msp_Meta instance) ++ [name])) <$>
      (srs_Name <$> st_Sites (msp_Status instance))) by (unfold lag; by rewrite <- !list_fmap_compose).
    rewrite E. apply NoDup_fmap_2; [|done]. by intros a b [= ->]. }
  match goal with |- NoDup (series <$> lag ++ ?r) /\ _ => set (rest := r) end.
  assert (Hrest : NoDup (smp_Desc <$> rest) /\ Forall (fun s => smp_Desc s <> "plan_revision_lag") rest /\
    Forall (described instance_descriptions (object_labels (msp_Meta instance))) rest).
  { unfold rest. destruct (st_Primary _ != ""), (st_LastBackupTime _), (st_RecoveryWindowStart _); cbn [app optional];
      (split_and!; [apply (bool_decide_unpack _); vm_compute; exact I|by repeat (apply Forall_cons_2; [done|])|described]). }
  clearbody rest lag. destruct Hrest as (H1 & H2 & H3). rewrite list.Forall_forall in Hlag, H2. split.
  - rewrite fmap_app. apply list.NoDup_app. split_and!; [done| |by apply NoDup_descriptions].
    intros i (s & -> & Hin)%list_elem_of_fmap (s' & E & Hin')%list_elem_of_fmap. injection E as E _.
    apply (H2 _ Hin'). rewrite <- E. by apply Hlag.
  - apply list.Forall_app. split; [|done]. apply list.Forall_forall. intros s [Hd Hl]%Hlag. split; [rewrite Hd; by left|done].
Qed.

Lemma collect_database_series database : NoDup (series <$> collect_database database) /\
  Forall (described database_descriptions (object_labels (db_Meta database))) (collect_database database).
Proof.
  unfold collect_database. destruct (dq_StorageAlertThreshold _); cbn [optional];
    (split; [apply NoDup_descriptions, (bool_decide_unpack _); vm_compute; exact I|described]).
Qed.

Lemma collect_upgrade_series now upgrade : NoDup (series <$> collect_upgrade now upgrade) /\
  Forall (described upgrade_descriptions (object_labels (upg_Meta upgrade))) (collect_upgrade now upgrade).
Proof.
  unfold collect_upgrade. destruct (ust_WriteOutageStartedAt _); cbn [optional app];
    (split; [apply NoDup_descriptions, (bool_decide_unpack _); vm_compute; exact I|described]).
Qed.

(** The samples of an operation name its kind. *)
Definition of_kind (kind : string) (s : Sample) : Prop := smp_Labels s !! 3%nat = Some kind.
Lemma collectOperation_series now namespace name instance kind operation :
  NoDup (series <$> collectOperation now namespace name instance kind operation) /\
  Forall (described operation_descriptions [namespace; name]) (collectOperation now namespace name instance kind operation) /\
  Forall (of_kind kind) (collectOperation now namespace name instance kind operation).
Proof.
  unfold collectOperation. destruct operation as [operation|]; [|split_and!; constructor].
  destruct (op_DeadlineAt _); cbn [optional app];
    (split_and!; [apply NoDup_descriptions, (bool_decide_unpack _); vm_compute; exact I|described|by repeat (apply Forall_cons_2; [done|])]).
Qed.

(** ** The scrape *)

(** The server lists every object once, sites by their name alone, and a status
    names every site once. *)
Definition distinct_objects (h : khistory) : Prop :=
  (forall k os, existT (P := Resp) (List k None ∅) (Ok os) ∈ h -> NoDup ((fun o : Object k => object_labels (object_meta o)) <$> os)) /\
  (forall os, existT (P := Resp) (List KRegistration None ∅) (Ok os) ∈ h -> NoDup ((fun site => [meta_Name (reg_Meta site)]) <$> os)) /\
  (forall os instance, existT (P := Resp) (List KInstance None ∅) (Ok os) ∈ h -> instance ∈ os ->
     NoDup (srs_Name <$> st_Sites (msp_Status instance))).

(** Samples of some descriptions, all different. *)
Definition part (descriptions : list string) (extra : Sample -> Prop) (l : list Sample) : Prop :=
  NoDup (series <$> l) /\ Forall (fun s => smp_Desc s ∈ descriptions /\ extra s) l.

Lemma part_objects {A} (labels : A -> list string) n descriptions extra (f : A -> list Sample) l :
  (forall a, length (labels a) = n) -> NoDup (labels <$> l) ->
  (forall a, a ∈ l -> NoDup (series <$> f a) /\ Forall (described descriptions (labels a)) (f a) /\ Forall extra (f a)) ->
  part descriptions extra (l ≫= f).
Proof.
  intros Hn Hl Hf. split.
  - apply (NoDup_owned series labels (fun i => take n i.2)); [done|intros a Ha; by apply Hf|].
    intros a s Ha Hin. destruct (Hf a Ha) as (_ & Hd & _). rewrite list.Forall_forall in Hd. destruct (Hd s Hin) as [_ <-]. by rewrite Hn.
  - apply list.Forall_forall. intros s (a & Hin & Ha)%list_elem_of_bind. destruct (Hf a Ha) as (_ & Hd & He).
    rewrite list.Forall_forall in Hd, He. split; [by apply Hd|by apply He].
Qed.

Lemma part_app descriptions descriptions' extra extra' l l' : part descriptions extra l -> part descriptions' extra' l' ->
  (forall s s', series s = series s' -> smp_Desc s ∈ descriptions -> extra s -> smp_Desc s' ∈ descriptions' -> extra' s' -> False) ->
  part (descriptions ++ descriptions') (fun _ => True) (l ++ l').
Proof.
  intros [N F] [N' F'] Hx. rewrite list.Forall_forall in F, F'. split.
  - rewrite fmap_app. apply list.NoDup_app. split_and!; [done| |done].
    intros i (s & -> & Hs)%list_elem_of_fmap (s' & E & Hs')%list_elem_of_fmap. destruct (F s Hs), (F' s' Hs'). by eapply Hx.
  - apply list.Forall_app. split; apply list.Forall_forall; intros s Hs; split; try done; apply elem_of_app; [left; by apply F|right; by apply F'].
Qed.

Section scrape.
Local Abbreviation any_request := (fun (_ : khistory) (_ : Req) => True).
Local Abbreviation anything := (fun _ : Sample => True).

(** A step adds a part. *)
Definition adds (descriptions : list string) (extra : Sample -> Prop) (before : Collected) (h : khistory) (after : Collected) : Prop :=
  exists l, after.1 = before.1 ++ l /\ (distinct_objects h -> part descriptions extra l).

Lemma part_nil descriptions extra : part descriptions extra [].
Proof. split; constructor. Qed.
Lemma adds_nothing descriptions extra out errors h : adds descriptions extra out h (out.1, errors).
Proof. exists []. split; [by rewrite app_nil_r|]. intros _. apply part_nil. Qed.

Lemma collect_kind_adds {k} description (f : Object k -> list Sample) descriptions extra out h :
  (forall h' os, distinct_objects h' -> existT (P := Resp) (List k None ∅) (Ok os) ∈ h' -> part descriptions extra (os ≫= f)) ->
  sat any_request (adds descriptions extra out) h (collect_kind description f out).
Proof.
  intros Hf. unfold collect_kind, list_all. cbn [bind call sat]. split; [done|]. intros [os|e]; cbn [sat]; [|apply adds_nothing].
  exists (os ≫= f). split; [done|]. intros Hd. apply (Hf _ os Hd). by left.
Qed.

Lemma Forall_anything (l : list Sample) : Forall anything l.
Proof. by apply list.Forall_true. Qed.

Lemma collectSites_adds now out h : sat any_request (adds site_descriptions anything out) h (collectSites now out).
Proof.
  apply collect_kind_adds. intros h' os (_ & Hs & _) Hin. eapply (part_objects (fun site => [meta_Name (reg_Meta site)]) 1); [done|by apply Hs|].
  intros site _. destruct (collect_site_series now site). auto using Forall_anything.
Qed.
Lemma collectInstances_adds now out h : sat any_request (adds instance_descriptions anything out) h (collectInstances now out).
Proof.
  apply collect_kind_adds. intros h' os (Hk & _ & Hn) Hin.
  eapply (part_objects (fun o => object_labels (msp_Meta o)) 2); [done|exact (Hk KInstance _ Hin)|].
  intros o Ho. destruct (collect_instance_series now o (Hn _ _ Hin Ho)). auto using Forall_anything.
Qed.
Lemma collectDatabases_adds out h : sat any_request (adds database_descriptions anything out) h (collectDatabases out).
Proof.
  apply collect_kind_adds. intros h' os (Hk & _) Hin.
  eapply (part_objects (fun o => object_labels (db_Meta o)) 2); [done|exact (Hk KDatabase _ Hin)|].
  intros o _. destruct (collect_database_series o). auto using Forall_anything.
Qed.
Lemma collectUpgrades_adds now out h : sat any_request (adds upgrade_descriptions anything out) h (collectUpgrades now out).
Proof.
  apply collect_kind_adds. intros h' os (Hk & _) Hin.
  eapply (part_objects (fun o => object_labels (upg_Meta o)) 2); [done|exact (Hk KUpgrade _ Hin)|].
  intros o _. destruct (collect_upgrade_series now o). auto using Forall_anything.
Qed.

Lemma distinct_earlier h h' : extends h h' -> distinct_objects h' -> distinct_objects h.
Proof. intros He (H1 & H2 & H3). split_and!; eauto. Qed.

Lemma collectOperations_adds now out h : sat any_request (adds operation_descriptions anything out) h (collectOperations now out).
Proof.
  unfold collectOperations, list_all. cbn [bind call sat]. split; [done|]. intros [restores|e]; cbn [sat]; [|apply adds_nothing].
  eapply sat_mono_later; [done| |apply (collect_kind_adds _ _ operation_descriptions (of_kind "upgrade"))].
  - intros h' out' He (l & E & Hl). exists ((restores ≫= collect_restore_operation now) ++ l). split; [by rewrite E, app_assoc|].
    intros Hd. assert (Hr : part operation_descriptions (of_kind "restore") (restores ≫= collect_restore_operation now)).
    { destruct Hd as (Hk & _). eapply (part_objects (fun o => object_labels (res_Meta o)) 2); [done|apply (Hk KRestore), He; by left|].
      intros o _. apply collectOperation_series. }
    destruct (part_app _ _ _ _ _ _ Hr (Hl Hd)) as [N F].
    { intros s s' [= _ E'] _ H1 _ H2. unfold of_kind in H1, H2. rewrite <- E', H1 in H2. done. }
    split; [done|]. eapply list.Forall_impl; [exact F|]. intros s [Hs _]. split; [|done]. by apply elem_of_app in Hs as [?|?].
  - intros h' os (Hk & _) Hin. eapply (part_objects (fun o => object_labels (upg_Meta o)) 2); [done|exact (Hk KUpgrade _ Hin)|].
    intros o _. apply collectOperation_series.
Qed.

(** Parts with different descriptions. *)
Lemma part_disjoint D D' l l' : part D anything l -> part D' anything l' -> (forall d, d ∈ D -> d ∈ D' -> False) -> part (D ++ D') anything (l ++ l').
Proof. intros H H' Hd. eapply part_app; [done..|]. intros s s' [= E _] Hs _ Hs' _. rewrite E in Hs. by eapply Hd. Qed.

(** A scrape has no two samples of one series, for which Prometheus would
    refuse the whole of it, whatever the hub's objects are and whichever lists
    fail; provided that the server lists no object twice and that no status
    names a site twice. *)
Theorem scrape_without_duplicates : forall h,
  sat any_request (fun h' out => distinct_objects h' -> NoDup (series <$> out.1)) h Collect.
Proof.
  intros h. unfold Collect. cbn [bind call sat]. split; [done|]. intros now.
  apply sat_bind. eapply sat_mono_later; [done| |apply collectSites_adds]. intros h1 o1 He1 (l1 & E1 & H1).
  apply sat_bind. eapply sat_mono_later; [done| |apply collectInstances_adds]. intros h2 o2 He2 (l2 & E2 & H2).
  apply sat_bind. eapply sat_mono_later; [done| |apply collectDatabases_adds]. intros h3 o3 He3 (l3 & E3 & H3).
  apply sat_bind. eapply sat_mono_later; [done| |apply collectUpgrades_adds]. intros h4 o4 He4 (l4 & E4 & H4).
  eapply sat_mono_later; [done| |apply collectOperations_adds]. intros h5 o5 He5 (l5 & E5 & H5) Hd.
  rewrite E5, E4, E3, E2, E1. cbn [fst app].
  assert (D4 := distinct_earlier _ _ He5 Hd). assert (D3 := distinct_earlier _ _ He4 D4). assert (D2 := distinct_earlier _ _ He3 D3).
  assert (D1 := distinct_earlier _ _ He2 D2).
  eapply proj1, part_disjoint; [|by apply H5|]; [eapply part_disjoint; [|by apply H4|]; [eapply part_disjoint; [|by apply H3|];
    [eapply part_disjoint; [by apply H1|by apply H2|]|]|]|]; set_solver.
Qed.
End scrape.

(** ** Labels *)

(** [prometheus.MustNewConstMetric] panics unless a sample has as many label
    values as its description has labels. *)
Definition well_labelled (s : Sample) : bool :=
  match List.find (fun entry => entry.1 == smp_Desc s) hub_descriptions with
  | Some (_, (_, labels)) => (length labels =? length (smp_Labels s))%nat
  | None => false
  end.

Lemma collect_kind_labelled {k} description (f : Object k -> list Sample) out h :
  (forall o, Forall (fun s => well_labelled s = true) (f o)) -> Forall (fun s => well_labelled s = true) out.1 ->
  sat (fun _ _ => True) (fun _ out => Forall (fun s => well_labelled s = true) out.1) h (collect_kind description f out).
Proof.
  intros Hf Ho. unfold collect_kind, list_all. cbn [bind call sat]. split; [done|]. intros [os|e]; cbn [sat fst]; [|done].
  apply list.Forall_app. split; [done|]. apply list.Forall_forall. intros s (o & Hin & _)%list_elem_of_bind.
  specialize (Hf o). rewrite list.Forall_forall in Hf. by apply Hf.
Qed.

Ltac labelled := cbn [optional app]; repeat first [apply Forall_cons_2; [vm_compute; reflexivity|] | apply Forall_nil_2].

Lemma collect_site_labelled now site : Forall (fun s => well_labelled s = true) (collect_site now site).
Proof. unfold collect_site. destruct (regst_LastHeartbeatTime _), (regst_AgentCertificateExpiresAt _); labelled. Qed.
Lemma collect_instance_labelled now instance : Forall (fun s => well_labelled s = true) (collect_instance now instance).
Proof.
  unfold collect_instance. apply list.Forall_app. split; [by apply list.Forall_fmap, list.Forall_true|].
  destruct (st_Primary _ != ""), (st_LastBackupTime _), (st_RecoveryWindowStart _); labelled.
Qed.
Lemma collect_database_labelled database : Forall (fun s => well_labelled s = true) (collect_database database).
Proof. unfold collect_database. destruct (dq_StorageAlertThreshold _); labelled. Qed.
Lemma collect_upgrade_labelled now upgrade : Forall (fun s => well_labelled s = true) (collect_upgrade now upgrade).
Proof. unfold collect_upgrade. destruct (ust_WriteOutageStartedAt _); labelled. Qed.
Lemma collectOperation_labelled now namespace name instance kind operation :
  Forall (fun s => well_labelled s = true) (collectOperation now namespace name instance kind operation).
Proof. unfold collectOperation. destruct operation as [operation|]; [|constructor]. destruct (op_DeadlineAt _); labelled. Qed.

(** Every sample of a scrape has a description with as many labels as the sample
    has values, so that a scrape never panics. *)
Theorem samples_match_descriptions : forall h,
  sat (fun _ _ => True) (fun _ out => Forall (fun s => well_labelled s = true) out.1) h Collect.
Proof.
  intros h. unfold Collect. cbn [bind call sat]. split; [done|]. intros now.
  apply sat_bind. eapply sat_mono; [done| |apply collect_kind_labelled; [apply collect_site_labelled|constructor]]. intros h1 o1 H1.
  apply sat_bind. eapply sat_mono; [done| |apply collect_kind_labelled; [apply collect_instance_labelled|done]]. intros h2 o2 H2.
  apply sat_bind. eapply sat_mono; [done| |apply collect_kind_labelled; [apply collect_database_labelled|done]]. intros h3 o3 H3.
  apply sat_bind. eapply sat_mono; [done| |apply collect_kind_labelled; [apply collect_upgrade_labelled|done]]. intros h4 o4 H4.
  unfold collectOperations, list_all. cbn [bind call sat]. split; [done|]. intros [restores|e]; cbn [sat fst]; [|done].
  apply collect_kind_labelled; [intros o; apply collectOperation_labelled|]. cbn [fst]. apply list.Forall_app. split; [done|].
  apply list.Forall_forall. intros s (o & Hin & _)%list_elem_of_bind. by eapply list.Forall_forall in Hin; [|apply collectOperation_labelled].
Qed.
