(* ===== verification/SiteAgent.v ===== *)
(** * The agent's command

    [cmd/site-agent/main.go]: how the agent starts, how its parts are put
    together, how it reconciles the plans of its cache, with and without the
    hub, and how it reconnects.  [main] ends when it wins the election of the
    leader; [runControlLoop] is what the leader then does.  The control stream
    is the program [stream]; each number of [draws] is a round of the loop, and
    stands for what [rand.Int64N] draws in it. *)

From S2P Require Import Prelude Utf8 Prog Api Workloads Messages Kube ApiServer Codec NetAddr Plan WireGuard Registration Directive DirectiveState Cache Members Client.
From S2P Require Import RenderBase MaintenanceJobs Render AgentBase AgentCertificates Patroni Vault Secrets AgentOperations Reconciler Sql Executor SiteIdentity Inventory Bootstrap Telemetry.

(** The flags. *)
Record AgentOptions := mkAgentOptions {
  ao_hub_address : string;
  ao_namespace : string;
  ao_registration_uid : string;
  ao_hub_domain : string;
  ao_plan_public_key : string;
  ao_tls_certificate : string;
  ao_tls_private_key : string;
  ao_tls_ca : string;
  ao_bootstrap_path : string;
  ao_etcd_image : string;
  ao_pgpool_image : string;
  ao_check_ready : string
}.

(** How [main] ends before it leads: it returns, exits with a code or panics. *)
Inductive Ending (A : Type) := Returned | Exited (code : Z) | Panicked (text : string) | Leads (a : A).
Arguments Returned {A}.
Arguments Exited {A} code.
Arguments Panicked {A} text.
Arguments Leads {A} a.

Definition agent_capabilities : list string :=
  ["signed-cache"; "server-side-apply"; "cert-manager-v1"; "metallb"; "inventory-v1"; "major-upgrade-sync-before-writes"].

(** ** Files *)
Section files.
Context {X : X509} {P : Pki}.

Definition readPublicKey (path : string) : kprog (result string) :=
  let! encoded := call (Env (ReadFile path)) onerr e => Ret (Err e) in
  Ret (match Base64.DecodeString encoded with
       | None => Err (errors_New "illegal base64 data")
       | Some key =>
           if String.length key =? ed25519_PublicKeySize then Ok key else Err (errors_New "plan verification key has an invalid size")
       end)%nat.

(** The bytes of the first certificate of a PEM text, as [tls.X509KeyPair] finds it. *)
Fixpoint first_certificate (fuel : nat) (text : string) : option string :=
  match fuel with
  | O => None
  | S fuel =>
      match pem_Decode text with
      | None => None
      | Some (block, rest) => if pem_Type block == "CERTIFICATE" then Some (pem_Bytes block) else first_certificate fuel rest
      end
  end.

(** The leaf of the agent's identity and the roots it trusts. *)
Definition clientTLS (certificatePath privateKeyPath caPath : string) : kprog (result (Certificate * string)) :=
  let! certificatePEM := call (Env (ReadFile certificatePath)) onerr e => Ret (Err e) in
  let! keyPEM := call (Env (ReadFile privateKeyPath)) onerr e => Ret (Err e) in
  match X509KeyPair certificatePEM keyPEM with
  | Some e => Ret (Err e)
  | None =>
      match first_certificate (S (String.length certificatePEM)) certificatePEM with
      | None => Ret (Err (errors_New "agent certificate chain is empty"))
      | Some der =>
          match ParseCertificate der with
          | Err e => Ret (Err e)
          | Ok leaf =>
              let! caPEM := call (Env (ReadFile caPath)) onerr e => Ret (Err e) in
              Ret (if AppendCertsFromPEM caPEM then Ok (leaf, caPEM) else Err (errors_New "hub CA contains no certificates"))
          end
      end
  end.
End files.

Section agent.
Context {K : KubeLib} {C : Crypto} {R : RawJson} {X : X509} {P : Pki} {U : UrlLib} {UP : UrlPath} {TT : TimeText} {PJ : PlanJson}.
Context {Cu : Curve} {JR : Json BindRequest} {RC : ReplyCodec} {JI : Json SiteInventory}.
Context {JP : Json SitePlan} {JDb : Json PostgresDatabaseSpec} {JU : Json PostgresUserSpec} {JCs : Json (list Condition)}.
Context {JBM : Json BackupMetadata} {JDM : Json DatabaseMetadata} {JDI : Json databaseInventory} {JO : Json (list string)}.
Context {JC : Json PatroniCluster} {JS : Json SwitchoverBody} {JL : Json LoginResponse} {JB : Json LoginBody} {JK : Json KVResponse}.
Context (o : AgentOptions) (version : string) (rounds : nat).

(** ** The parts *)
Definition agent_secrets : SecretMaterializer := mkSecretMaterializer (ao_namespace o).
Definition agent_reconciler : Reconciler :=
  mkReconciler (mkRenderer (ao_hub_domain o) (mkImages (ao_etcd_image o) (ao_pgpool_image o))) (Some agent_secrets) true
    (ao_hub_domain o) (ao_registration_uid o) (Some (mkEventReporter (ao_namespace o))).
Definition agent_executor (publicKey : string) : DirectiveExecutor :=
  mkDirectiveExecutor (ao_namespace o) publicKey (ao_registration_uid o) (Some agent_secrets).
Definition agent_rotator : Rotator :=
  mkRotator (ao_namespace o) "mspsql-agent" "/etc/mspsql/identity" (ao_registration_uid o) 0%Z.

Definition control_client (publicKey clusterUID : string) : AgentClient :=
  mkAgentClient (mkAgentHello (ao_registration_uid o) clusterUID version agent_capabilities ProtocolVersion)
    (ao_namespace o) publicKey (ao_registration_uid o) (ao_registration_uid o)
    (Reconciler_Apply agent_reconciler) (Some (Execute (agent_executor publicKey) rounds))
    (Some (ConfigMapDirectiveStateStore (ao_namespace o))) (Some DiscoverInventory)
    (Some (mkCertificateRotator (SiteIdentity.Request agent_rotator) (SiteIdentity.Install agent_rotator))).

(** ** The start *)
Definition clusterUID : kprog (result string) :=
  let! namespace := call (Get KNamespace "" "kube-system") onerr e => Ret (Err e) in
  Ret (Ok (meta_UID (ns_Meta namespace))).

(** The ready check of the Pod: is the file there, and not empty? *)
Definition check_ready : kprog (Ending (AgentClient * AgentMetrics)) :=
  let* info := call (Env (Site (Stat (ao_check_ready o)))) in
  Ret (match info with
       | Err _ => Exited 1
       | Ok size => if size == 0%Z then Exited 1 else Returned
       end).

Definition main : kprog (Ending (AgentClient * AgentMetrics)) :=
  if ao_check_ready o != "" then check_ready
  else if (ao_hub_address o == "") || (ao_registration_uid o == "") || (ao_hub_domain o == "") then Ret (Exited 2)
  else
    let! clusterUID := clusterUID onerr e => Ret (Panicked (err_text e)) in
    let! bootstrapped := bootstrapIfRequired (ao_namespace o) (ao_plan_public_key o) (ao_bootstrap_path o) clusterUID
      onerr e => Ret (Exited 1) in
    if (bootstrapped : bool) then Ret Returned
    else
      let! publicKey := readPublicKey (ao_plan_public_key o) onerr e => Ret (Panicked (err_text e)) in
      let! tls := clientTLS (ao_tls_certificate o) (ao_tls_private_key o) (ao_tls_ca o) onerr e => Ret (Panicked (err_text e)) in
      Ret (Leads (control_client publicKey clusterUID, SetCertificateExpiry (crt_NotAfter tls.1) NewAgentMetrics)).

(** ** The plans of the cache *)
Context (publicKey : string).

Definition observe_age (instanceUID : string) (m : AgentMetrics) : kprog AgentMetrics :=
  let! age := Cache.Age (ao_namespace o) instanceUID onerr e => Ret m in
  Ret (SetCacheAge instanceUID age m).

Fixpoint reconcile_plans (plans : list SitePlan) (connected : bool) (m : AgentMetrics) : kprog AgentMetrics :=
  match plans with
  | [] => Ret m
  | desired :: plans =>
      let* m := observe_age (sp_InstanceUID desired) m in
      let* started := call Now in
      let* applied := Reconciler_Apply agent_reconciler desired desired connected in
      let* now := call Now in
      reconcile_plans plans connected
        (ObserveReconcile (sp_InstanceUID desired) (time_Sub now started) applied.1 applied.2 m)
  end.

Definition reconcileCached (connected : bool) (m : AgentMetrics) : kprog AgentMetrics :=
  let! plans := Cache.ListPlans (ao_namespace o) publicKey (ao_registration_uid o) onerr e => Ret m in
  reconcile_plans plans connected m.

(** The goroutine beside the stream: [ticks] is the number of ticks it waits for. *)
Fixpoint reconcilePeriodically (ticks : nat) (m : AgentMetrics) : kprog AgentMetrics :=
  match ticks with
  | O => Ret m
  | S ticks =>
      let! _ := call (Env (WaitTick (2 * minute)%Z)) onerr e => Ret m in
      let* m := reconcileCached true m in
      reconcilePeriodically ticks m
  end.

(** ** Reconnecting *)
Definition reconnect_delay (backoff draw : Z) : Duration := (backoff + draw `mod` (Z.quot backoff 2 + 1))%Z.
Definition next_backoff (backoff : Duration) : Duration := if (backoff <? minute)%Z then (backoff * 2)%Z else backoff.

Context (stream : AgentMetrics -> kprog AgentMetrics).

Fixpoint control_rounds (draws : list Z) (backoff : Duration) (m : AgentMetrics) : kprog AgentMetrics :=
  match draws with
  | [] => Ret m
  | draw :: draws =>
      let* m := reconcileCached false m in
      let* m := stream m in
      let delay := reconnect_delay backoff draw in
      let m := SetBackoff delay m in
      let! _ := call (Env (WaitTick delay)) onerr e => Ret m in
      control_rounds draws (next_backoff backoff) m
  end.
Definition runControlLoop (draws : list Z) : AgentMetrics -> kprog AgentMetrics := control_rounds draws second.
End agent.
