(* ===== verification/AgentProps.v ===== *)
(** * The agent as it is put together

    The parts of [SiteAgent] together: what the control client tells the hub,
    with the site reconciler and the executor of directives the command gives
    it; the reconciliation of the plans in the cache; and reconnecting. *)

From S2P Require Import Prelude Utf8 Prog Api Workloads Messages Kube ApiServer Codec NetAddr IpAddr Plan WireGuard Registration Directive DirectiveState Cache Members ControlReports Client.
From S2P Require Import RenderBase MaintenanceJobs Render RenderProps AgentBase AgentCertificates Patroni Vault Secrets AgentOperations Reconciler Sql Executor SiteIdentity Inventory Bootstrap.
From S2P Require Import SiteWrites SiteSteps ReconcilerProps ExecutorProps Telemetry SiteAgent.

(** ** What the hub counts as a success *)

(** A result counts as a success when a condition says so and none denies it. *)
Lemma directiveSucceeded_conditions reported : directiveSucceeded reported = true ->
  (exists c, c ∈ reported /\ wc_Type c = "Succeeded") /\ forall c, c ∈ reported -> wc_Type c = "Succeeded" -> wc_Status c = ConditionTrue.
Proof.
  unfold directiveSucceeded. assert (H : forall found, directive_succeeded found reported = true ->
    (found = false -> exists c, c ∈ reported /\ wc_Type c = "Succeeded") /\
    forall c, c ∈ reported -> wc_Type c = "Succeeded" -> wc_Status c = ConditionTrue).
  2:{ intros Hs%H. split; [by apply Hs|apply Hs]. }
  induction reported as [|c reported IH]; intros found; cbn [directive_succeeded].
  - intros ->. split; [done|]. by intros c []%not_elem_of_nil.
  - destruct (wc_Type c == "Succeeded") eqn:Et; [destruct (wc_Status c != ConditionTrue) eqn:Es; [done|]|]; intros Hs; bool_to_prop.
    + destruct (IH _ Hs) as [_ Hc]. split; [intros _; exists c; split; [by left|done]|]. intros c' [->|Hin]%elem_of_cons; [done|by apply Hc].
    + destruct (IH _ Hs) as [He Hc]. split.
      * intros Hf. destruct (He Hf) as (c' & Hin & Ht). exists c'. split; [by right|done].
      * intros c' [->|Hin]%elem_of_cons; [done|by apply Hc].
Qed.

(** A counted success of an execution has a condition of its own. *)
Lemma executed_succeeded x : directiveSucceeded (wire_condition <$> executed_conditions x) = true ->
  exists c, c ∈ x.1 /\ cond_Type c = "Succeeded".
Proof.
  intros [(wc & (c & -> & Hc)%list_elem_of_fmap & Ht) Hall]%directiveSucceeded_conditions. unfold executed_conditions in *.
  destruct x as [conditions [e|]]; cbn in *; [|by exists c].
  exfalso. specialize (Hall (mkWireCondition "Succeeded" ConditionFalse "ExecutionFailed" (err_text e))). cbn in Hall.
  assert (H : ConditionFalse = ConditionTrue); [apply Hall; [|done]|done].
  rewrite fmap_app. apply elem_of_app. right. by left.
Qed.

Section agent.
Context {K : KubeLib} {C : Crypto} {R : RawJson} {X : X509} {P : Pki} {U : UrlLib} {UP : UrlPath} {TT : TimeText} {PJ : PlanJson}.
Context {JI : Json SiteInventory} {JE : Json Envelope} {JD : Json Payload} {JRC : Json ReportedCondition}.
Context {JP : Json SitePlan} {JDb : Json PostgresDatabaseSpec} {JU : Json PostgresUserSpec} {JCs : Json (list Condition)}.
Context {JBM : Json BackupMetadata} {JDM : Json DatabaseMetadata} {JDI : Json databaseInventory} {JO : Json (list string)}.
Context {JC : Json PatroniCluster} {JS : Json SwitchoverBody} {JL : Json LoginResponse} {JB : Json LoginBody} {JK : Json KVResponse}.
Context (o : AgentOptions) (version publicKey clusterUID : string) (rounds : nat).
Local Abbreviation client := (control_client o version rounds publicKey clusterUID).
Local Abbreviation reconciler := (agent_reconciler o).

(** ** Results *)

(** The record of a directive was read, and says that it has ended with these
    conditions. *)
Definition recorded (h : khistory) (d : OperationDirective) (conditions : list Condition) : Prop :=
  exists cm state, answered h (Get KConfigMap (ao_namespace o) (directiveStateName (od_OperationUid d))) (Ok cm) /\
    decodeDirectiveState (cm_Data cm) = Ok state /\ has_ended d state true = true /\ conditions = ds_Conditions state.

(** C3: However the goroutines of the agent interleave and whatever the cluster, the
    hub, Vault and Patroni answer: the agent tells the hub that it has applied a
    revision only when the hub signed that plan for this site and everything the
    plan asks for was observed (or the deletion it asks for is done); and a
    result of a directive that the hub counts as a success repeats the record of
    an ended directive, or the Job of the directive was observed to be complete,
    against a plan the hub signed. *)
Theorem agent_results_observed {L : KubeLaws K} {St} (handle : forall q : Req, St -> Resp q * St) fuel s a id w p k :
  rtc (agent_step client handle fuel) (agent_init s) a -> ag_workers a !! id = Some w ->
  wk_prog w = Call (Env (SendAgent (Msg_Result p))) k ->
  match wk_job w with
  | PlanJob d => exists desired connected,
      accepted_plan client (wk_history w) d desired /\ settled_plan reconciler desired connected (wk_history w)
  | DirectiveJob d => exists payload conditions,
      verified_directive client d payload /\ pr_Conditions p = wire_condition <$> conditions /\
      (recorded (wk_history w) d conditions \/
       (directiveSucceeded (pr_Conditions p) = true -> exists desired,
          accepted (agent_executor o publicKey) payload (wk_history w) desired /\ job_done payload (wk_history w) desired))
  end.
Proof.
  intros Ha Hw Hp. assert (H := worker_request client (ao_namespace o) eq_refl _ (RL := Reconciler_laws reconciler)
    (executed (agent_executor o publicKey)) (fun d execute => ltac:(intros [= <-]; apply _)) handle fuel s a id w _ k Ha Hw Hp).
  destruct (wk_job w) as [d|d]; cbn [job_request] in H.
  - destruct H as (_ & _ & _ & _ & (desired & Hacc & connected & Hset) & _). by exists desired, connected.
  - destruct H as (_ & _ & _ & (payload & conditions & Hv & Ho & Hc) & _). exists payload, conditions. split_and!; [done..|].
    destruct Ho as [Hr|(x & [Hx _] & ->)]; [by left|right]. rewrite Hc.
    intros (c & Hin & Ht)%executed_succeeded. by apply (Hx c).
Qed.

(** ** The cache *)
Definition cache_request (q : Req) : Prop :=
  match q with
  | Get KConfigMap namespace _ => namespace = ao_namespace o
  | List KConfigMap namespace _ => namespace = Some (ao_namespace o)
  | Now => True
  | _ => False
  end.

(** A plan of the cache, signed by the hub for this site. *)
Definition cached_plan (h : khistory) (plan : SitePlan) : Prop :=
  exists instanceUID cm, answered h (Get KConfigMap (ao_namespace o) (cacheName instanceUID)) (Ok cm) /\
    Cache.load_record publicKey (ao_registration_uid o) instanceUID cm = Ok plan.
Lemma cached_plan_later h h' plan : extends h h' -> cached_plan h plan -> cached_plan h' plan.
Proof. intros He (u & cm & Hc & Hl). exists u, cm. eauto. Qed.

(** What the reconciliation of the cache may send. *)
Definition cached_request (connected : bool) (h : khistory) (q : Req) : Prop :=
  cache_request q \/ exists plan, cached_plan h plan /\ site_write reconciler plan plan connected h q.

Lemma load_all_sat connected records plans h : Forall (cached_plan h) plans ->
  sat (cached_request connected) (fun h' x => forall loaded, x = Ok loaded -> Forall (cached_plan h') loaded) h
    (Cache.load_all (ao_namespace o) publicKey (ao_registration_uid o) records plans).
Proof.
  revert plans h. induction records as [|record records IH]; intros plans h Hp; cbn [Cache.load_all]; [by intros ? <-%Ok_inj|].
  unfold Cache.Load. apply sat_ask; [by left|]. intros [cm|e]; [|done]. cbn [bind].
  destruct (Cache.load_record _ _ _ cm) as [desired|e] eqn:El; [|done]. apply IH. apply list.Forall_app. split.
  - eapply list.Forall_impl; [exact Hp|]. intros plan. apply cached_plan_later, extends_cons.
  - apply list.Forall_singleton. eexists _, cm. split; [by left|exact El].
Qed.

Lemma reconcile_plans_sat connected plans m h : Forall (cached_plan h) plans ->
  sat (cached_request connected) done_ h (reconcile_plans o plans connected m).
Proof.
  revert m h. induction plans as [|plan plans IH]; intros m h Hp; cbn [reconcile_plans]; [done|].
  apply list.Forall_cons in Hp as [Hp Hps]. apply (sat_seq _ done_).
  { unfold observe_age, Cache.Age. apply sat_ask; [by left|]. intros [cm|e]; [|done]. destruct (ParseTime _); [|done]. by apply sat_ask; [left|]. }
  intros h1 m1 He1 _. apply sat_ask; [by left|]. intros started. apply (sat_seq _ done_).
  { eapply sat_mono_later; [| |apply (Reconciler_Apply_safe reconciler plan plan connected)]; [|done].
    intros h2 q He2 Hq. right. exists plan. split; [|done]. eapply cached_plan_later; [|exact Hp]. intros x Hx. apply He2. right. by apply He1. }
  intros h2 applied He2 _. apply sat_ask; [by left|]. intros now. apply IH.
  eapply list.Forall_impl; [exact Hps|]. intros plan'. apply cached_plan_later. intros x Hx. right. apply He2. right. by apply He1.
Qed.

(** With and without the hub, the reconciliation of the cache reads the cache,
    and else sends only what a reconciliation may for a plan read from it and
    signed by the hub for this site; so without the hub no namespace is created
    and nothing that takes coordination is changed. *)
Lemma reconcileCached_sat connected m : forall h,
  sat (cached_request connected) done_ h (reconcileCached o publicKey connected m).
Proof.
  intros h. unfold reconcileCached, Cache.ListPlans. apply (sat_seq _ (fun h' x => forall loaded, x = Ok loaded -> Forall (cached_plan h') loaded)).
  - apply sat_ask; [by left|]. intros [records|e]; [|done]. by apply load_all_sat.
  - intros h1 [plans|e] He Hp; [|done]. by apply reconcile_plans_sat, Hp.
Qed.

(** ** Records of directives in the list of cached plans *)
Definition record_instance (record : ConfigMap) : string := meta_Labels (cm_Meta record) !!! "multisite-postgres.dev/instance-uid".

Section stray.
Context {St : Type} (handle : forall q : Req, St -> Resp q * St).
(** Nothing is written while the agent reads. *)
Context (Hread : forall name s, (handle (Get KConfigMap (ao_namespace o) name) s).2 = s).

Lemma load_all_stray records record missing plans s h : record ∈ records ->
  (handle (Get KConfigMap (ao_namespace o) (cacheName (record_instance record))) s).1 = Err missing ->
  exists e s' h', run handle (Cache.load_all (ao_namespace o) publicKey (ao_registration_uid o) records plans) s h = (Err e, s', h' ++ h) /\
    Forall (fun event => cache_request (projT1 event)) h'.
Proof.
  intros Hin Hstray. revert plans h. induction records as [|r records IH]; intros plans h; [by apply not_elem_of_nil in Hin|].
  cbn [Cache.load_all]. unfold Cache.Load, call. cbn [bind run].
  fold (record_instance r). destruct (handle (Get KConfigMap (ao_namespace o) (cacheName (record_instance r))) s) as [x s1] eqn:Ex.
  pose proof (f_equal fst Ex) as Ex1. pose proof (f_equal snd Ex) as Ex2.
  cbn [fst snd] in Ex1, Ex2. rewrite Hread in Ex2. subst s1.
  assert (Hstop : forall e, exists e' s' h', (Err (A := list SitePlan) e, s, existT (P := Resp) (Get KConfigMap (ao_namespace o) (cacheName (record_instance r))) x :: h) =
      (Err e', s', h' ++ h) /\ Forall (fun event => cache_request (projT1 event)) h').
  { intros e. eexists e, s, [_]. split; [done|]. by repeat constructor. }
  destruct x as [cm|e]; cbn [bind run]; [|by apply Hstop].
  apply elem_of_cons in Hin as [->|Hin].
  { rewrite Ex1 in Hstray. done. }
  destruct (Cache.load_record _ _ _ cm) as [desired|e]; cbn [bind run]; [|by apply Hstop].
  destruct (IH Hin (plans ++ [desired]) (existT (P := Resp) (Get KConfigMap (ao_namespace o) (cacheName (record_instance r))) (Ok cm) :: h))
    as (e & s' & h' & Hr & Hf).
  exists e, s', (h' ++ [existT (P := Resp) (Get KConfigMap (ao_namespace o) (cacheName (record_instance r))) (Ok cm)]).
  split; [by rewrite <- app_assoc|]. apply list.Forall_app. split; [done|]. by repeat constructor.
Qed.

End stray.

(** ** Reconnecting *)
Definition is_backoff (backoff : Duration) : Prop := exists n : Z, (0 <= n <= 6)%Z /\ backoff = (2 ^ n * second)%Z.

Lemma next_backoff_ok backoff : is_backoff backoff -> is_backoff (next_backoff backoff).
Proof.
  intros (n & Hn & ->). unfold next_backoff, minute. destruct (Z.ltb_spec (2 ^ n * second) (60 * second)) as [H|H]; [|by exists n].
  exists (n + 1)%Z. assert (n <> 6)%Z by (intros ->; by vm_compute in H). split; [lia|]. rewrite Z.pow_add_r by lia. lia.
Qed.

Lemma reconnect_delay_bounds backoff draw : is_backoff backoff -> (second <= reconnect_delay backoff draw <= 96 * second)%Z.
Proof.
  intros (n & Hn & ->). unfold reconnect_delay. assert (1 <= 2 ^ n <= 64)%Z as Hp.
  { split; [apply (Z.pow_le_mono_r 2 0 n); lia|apply (Z.pow_le_mono_r 2 n 6); lia]. }
  assert (Hb : (second <= 2 ^ n * second <= 64 * second)%Z) by (unfold second; lia). revert Hb. generalize (2 ^ n * second)%Z as b.
  intros b Hb. assert (0 < second)%Z by done. rewrite Z.quot_div_nonneg by lia.
  assert (Hq : (0 <= b `div` 2 <= 32 * second)%Z).
  { split; [apply Z.div_pos; lia|]. change (32 * second)%Z with ((64 * second) `div` 2)%Z. apply Z.div_le_mono; lia. }
  pose proof (Z.mod_pos_bound draw (b `div` 2 + 1)). lia.
Qed.

(** The requests of the leader: those of the stream, the reconciliation of the
    cache without the hub, and the waits before reconnecting. *)
Definition leader_request (streamed : khistory -> Req -> Prop) (h : khistory) (q : Req) : Prop :=
  streamed h q \/ cached_request false h q \/ exists delay, q = Env (WaitTick delay) /\ (second <= delay <= 96 * second)%Z.

End agent.

(** ** Concrete cases *)
Module RefAgent.
Definition no_json {T} : Json T :=
  {| json_Marshal _ := Err (errors_New "unsupported"); json_Compact s := Ok s; json_Unmarshal _ := Err (errors_New "unsupported");
     json_wire x := x; json_text _ := True |}.
#[global] Instance json_any T : Json T | 100 := no_json.
#[global] Instance x509 : X509 := RefRegistration.x509.
#[global] Instance pki : Pki := {|
  AppendCertsFromPEM text := text != ""; cert_Verify _ _ _ _ := None; VerifyHostname _ _ := None; X509KeyPair _ _ := None;
  CreateCertificateRequest _ _ key := Ok key |}.
#[global] Instance url_path : UrlPath := {| url_Path _ := ""; url_StringWithPath _ path := path |}.

Definition options : AgentOptions :=
  mkAgentOptions "hub:9444" "agent" "s1" "hub" "/identity/plan-public-key" "/identity/tls.crt" "/identity/tls.key" "/identity/ca.crt" "/bootstrap"
    "etcd:3" "pgpool:4" "".
Definition client : AgentClient := control_client options "v1" 3 RefCache.pk "cluster".

(** A plan that deletes the instance, in a cluster without its namespace: the
    worker up to its result. *)
Definition deleting : SitePlan := RefPlan.plan3 <| sp_Site ::= set site_Namespace (fun _ => "db") |> <| sp_Deletion := Some (mkDeletionPlan "Delete") |>.
Definition plan : DesiredSitePlan := mkDesiredSitePlan "i1" 3 (RefClient.encoded (RefCache.sign deleting)).
Definition reporting : agent :=
  Nat.iter 11 (RefClient.advance_on RefClient.world 0) (RefClient.deliver_on client RefClient.world 3 (Msg_Plan plan) RefClient.start).

(** A cluster with the plan of one instance in the cache and the record of a
    directive for another. *)
Definition stray : MemServer.mem :=
  let s := (run RefClient.world (Cache.Store "agent" RefCache.pk "s1" RefCache.env3 "i1") (proj1_sig MemServer.empty) []).1.2 in
  (run RefClient.world (MarkRunning "agent" "op" "i2") s []).1.2.
Definition listing : result (list ConfigMap) :=
  (RefClient.world (List KConfigMap (Some "agent") {["app.kubernetes.io/managed-by" := "mspsql-agent"]}) stray).1.
Definition records : list ConfigMap := match listing with Ok records => records | Err _ => [] end.
End RefAgent.

Lemma agent_results_observed_witness : exists w p desired connected,
  ag_workers RefAgent.reporting !! 0%nat = Some w /\ RefClient.next_message w = Some (Msg_Result p) /\
  accepted_plan RefAgent.client (wk_history w) RefAgent.plan desired /\
  settled_plan (agent_reconciler RefAgent.options) desired connected (wk_history w).
Proof.
  assert (Hn : match w ← ag_workers RefAgent.reporting !! 0%nat; RefClient.next_message w with Some (Msg_Result _) => true | _ => false end = true)
    by (vm_compute; reflexivity).
  assert (Hj : wk_job <$> ag_workers RefAgent.reporting !! 0%nat = Some (PlanJob RefAgent.plan)) by (vm_compute; reflexivity).
  destruct (ag_workers RefAgent.reporting !! 0%nat) as [w|] eqn:Hw; [|discriminate Hn]. cbn in Hn, Hj. injection Hj as Hj.
  destruct (RefClient.next_message w) as [[]|] eqn:Hm; try discriminate Hn.
  destruct (wk_prog w) as [|q k] eqn:Hp; unfold RefClient.next_message in Hm; rewrite Hp in Hm; [discriminate Hm|].
  destruct q as [| | | | | | | | | | | | |[| | |message| | | | |]]; try discriminate Hm. injection Hm as ->.
  assert (Hr : rtc (agent_step RefAgent.client RefClient.world 3) RefClient.start RefAgent.reporting).
  { etrans; [apply RefClient.deliver_on_steps|apply RefClient.advance_on_steps]. }
  pose proof (agent_results_observed (L := Ref.laws) RefAgent.options "v1" RefCache.pk "cluster" 3 RefClient.world 3 _ RefAgent.reporting 0 w _ k Hr Hw Hp) as H.
  rewrite Hj in H. destruct H as (desired & connected & Ha & Hs). eexists w, _, desired, connected.
  split; [reflexivity|]. split; [unfold RefClient.next_message; rewrite Hp; reflexivity|]. split; [exact Ha|exact Hs].
Defined.


