(* ===== verification/ControlListener.v ===== *)
(** * The listener of the hub's control service

    [internal/control/runnable.go]: the configuration the gRPC server of the
    agents is started with.  [Start] ends when the server listens. *)

From S2P Require Import Prelude Prog Api Messages Kube Registration AgentCertificates.

Record RunnableServer := mkRunnableServer { rs_Address : string; rs_Certificate : string; rs_PrivateKey : string; rs_ClientCA : string }.

Inductive ClientAuthType := NoClientCert | RequireAndVerifyClientCert.
Inductive TLSVersion := VersionTLS12 | VersionTLS13.

(** The options of the gRPC server, with the identity as a PEM pair. *)
Record ServerConfig := mkServerConfig {
  scf_MinVersion : TLSVersion;
  scf_Identity : string * string;
  scf_ClientAuth : ClientAuthType;
  scf_ClientCAs : string;
  scf_KeepaliveTime : Duration;
  scf_KeepaliveTimeout : Duration;
  scf_MinPingTime : Duration;
  scf_PermitWithoutStream : bool;
  scf_Address : string
}.

Definition NeedLeaderElection : bool := false.

Section listener.
Context {P : Pki} (r : RunnableServer).

Definition LoadX509KeyPair (certificatePath keyPath : string) : kprog (result (string * string)) :=
  let! certificate := call (Env (ReadFile certificatePath)) onerr e => Ret (Err e) in
  let! key := call (Env (ReadFile keyPath)) onerr e => Ret (Err e) in
  Ret (match X509KeyPair certificate key with Some e => Err e | None => Ok (certificate, key) end).

Definition Start : kprog (result ServerConfig) :=
  let! certificate := LoadX509KeyPair (rs_Certificate r) (rs_PrivateKey r) onerr e => Ret (Err (wrap_error "load gRPC server identity" e)) in
  let! caPEM := call (Env (ReadFile (rs_ClientCA r))) onerr e => Ret (Err (wrap_error "read gRPC client CA" e)) in
  Ret (if AppendCertsFromPEM caPEM
       then Ok (mkServerConfig VersionTLS13 certificate RequireAndVerifyClientCert caPEM (2 * minute)%Z (20 * second)%Z minute false (rs_Address r))
       else Err (errors_New "gRPC client CA contains no certificates")).

(** The service starts only with a valid identity and the certificates of the
    configured CA, and only for clients whose certificate verifies against it. *)
Lemma Start_authenticates h :
  sat (fun _ q => q ∈ (fun path => Env (ReadFile path)) <$> [rs_Certificate r; rs_PrivateKey r; rs_ClientCA r])
    (fun h' x => forall config, x = Ok config ->
       scf_ClientAuth config = RequireAndVerifyClientCert /\ AppendCertsFromPEM (scf_ClientCAs config) = true /\
       existT (P := Resp) (Env (ReadFile (rs_ClientCA r))) (Ok (scf_ClientCAs config)) ∈ h' /\
       X509KeyPair (scf_Identity config).1 (scf_Identity config).2 = None) h Start.
Proof.
  unfold Start, LoadX509KeyPair. cbn [bind call sat]. split; [by left|]. intros [certificate|e]; [|done]. cbn [bind call sat].
  split; [right; by left|]. intros [key|e]; [|done]. cbn [bind call sat]. destruct (X509KeyPair certificate key) eqn:Ek; [done|].
  cbn [bind call sat]. split; [right; right; by left|]. intros [caPEM|e]; [|done]. cbn [sat].
  destruct (AppendCertsFromPEM caPEM) eqn:Ea; [|done]. intros config [= <-]. split_and!; [done|done|by left|done].
Qed.
End listener.
