(* ===== verification/DevicePlugin.v ===== *)
(** * The TUN device plugin

    [cmd/tun-device-plugin/main.go]: a node offers a number of allocations of
    its TUN device, so that the WireGuard Pods need no privileged mount. *)

From Stdlib Require Import Eqdep_dec.
From S2P Require Import Prelude Prog.

Definition tunPath : string := "/dev/net/tun".
Definition resourceName : string := "multisite-postgres.dev/tun".
Definition socketName : string := "mspsql-tun.sock".

Record Device := mkDevice { dev_ID : string; dev_Health : string }.
Record DeviceSpec := mkDeviceSpec { ds_HostPath : string; ds_ContainerPath : string; ds_Permissions : string }.

Definition device_id (i : nat) : string := "tun-" +:+ FormatInt (Z.of_nat i).
Definition makeDevices (capacity : nat) : list Device := (fun i => mkDevice (device_id i) "Healthy") <$> seq 0 capacity.

(** The device each container of a request gets. *)
Definition tun_device : DeviceSpec := mkDeviceSpec tunPath tunPath "mrw".

Fixpoint allocate_containers (known : gset string) (requests : list (list string)) (responses : list (list DeviceSpec))
  : result (list (list DeviceSpec)) :=
  match requests with
  | [] => Ok responses
  | ids :: requests =>
      match List.find (fun id => bool_decide (id ∉ known)) ids with
      | Some id => Err (errors_New ("unknown TUN allocation " +:+ Quote id))
      | None => allocate_containers known requests (responses ++ [[tun_device]])
      end
  end.
Definition Allocate (devices : list Device) (requests : list (list string)) : result (list (list DeviceSpec)) :=
  allocate_containers (list_to_set (dev_ID <$> devices)) requests [].

(** ** The run of the plugin *)
Inductive PluginReq := RemoveSocket | Listen | Serve | Register | StopServer | GracefulStop | CloseListener | AwaitEnd.
#[global] Instance PluginReq_eq_dec : EqDecision PluginReq.
Proof. solve_decision. Defined.
Definition PluginResp (r : PluginReq) : Type :=
  match r with
  | RemoveSocket | Listen | Register => result unit
  | Serve | StopServer | GracefulStop | CloseListener => unit
  (** the context is done, or the server ended with an error *)
  | AwaitEnd => option Error
  end.
Abbreviation pprog := (prog PluginResp).

Definition finish (outcome : option Error) : pprog (option Error) :=
  let* _ := call (Resp := PluginResp) CloseListener in
  let* _ := call (Resp := PluginResp) RemoveSocket in
  Ret outcome.

Definition run_plugin : pprog (option Error) :=
  let* removed := call (Resp := PluginResp) RemoveSocket in
  let unusable := match removed with Ok _ => None | Err e => if os_IsNotExist e then None else Some e end in
  match unusable with
  | Some e => Ret (Some e)
  | None =>
      let* listening := call (Resp := PluginResp) Listen in
      match listening with
      | Err e => Ret (Some e)
      | Ok _ =>
          let* _ := call (Resp := PluginResp) Serve in
          let* registered := call (Resp := PluginResp) Register in
          match registered with
          | Err e =>
              let* _ := call (Resp := PluginResp) StopServer in
              finish (Some e)
          | Ok _ =>
              let* ended := call (Resp := PluginResp) AwaitEnd in
              match ended with
              | Some e => finish (Some e)
              | None =>
                  let* _ := call (Resp := PluginResp) GracefulStop in
                  finish None
              end
          end
      end
  end.

(** ** Properties *)
Lemma device_id_inj i j : device_id i = device_id j -> i = j.
Proof. unfold device_id. cbn. intros [= H%FormatInt_inj]. lia. Qed.

Lemma known_devices capacity id : id ∈ dev_ID <$> makeDevices capacity <-> exists i, (i < capacity)%nat /\ id = device_id i.
Proof.
  unfold makeDevices. rewrite <- list_fmap_compose, list_elem_of_fmap. split.
  - intros (i & -> & [_ Hi]%elem_of_seq). exists i. split; [lia|done].
  - intros (i & Hi & ->). exists i. split; [done|]. apply elem_of_seq. lia.
Qed.

Lemma allocate_containers_exact known requests before responses :
  allocate_containers known requests before = Ok responses <->
  responses = before ++ replicate (length requests) [tun_device] /\ Forall (Forall (fun id => id ∈ known)) requests.
Proof.
  revert before. induction requests as [|ids requests IH]; intros before; cbn [allocate_containers length replicate].
  - rewrite app_nil_r. split; [by intros [= ->]|by intros [-> _]].
  - rewrite list.Forall_cons. destruct (List.find _ ids) as [id|] eqn:E.
    + apply List.find_some in E as [Hin Hid]. apply list_elem_of_In in Hin. apply bool_decide_eq_true in Hid.
      split; [done|]. intros (_ & Hall & _). rewrite list.Forall_forall in Hall. by destruct Hid; apply Hall.
    + rewrite IH, <- app_assoc. assert (Forall (fun id => id ∈ known) ids); [|tauto].
      apply list.Forall_forall. intros id Hin%list_elem_of_In. apply (List.find_none _ _ E) in Hin. cbn in Hin.
      by apply bool_decide_eq_false, dec_stable in Hin.
Qed.

(** A node offers as many different devices as its capacity, and an allocation
    succeeds exactly when it names only those; every container then gets the TUN
    device and nothing else. *)
Theorem allocation_exact capacity requests :
  length (makeDevices capacity) = capacity /\ NoDup (dev_ID <$> makeDevices capacity) /\
  forall responses, Allocate (makeDevices capacity) requests = Ok responses <->
    responses = replicate (length requests) [tun_device] /\
    Forall (Forall (fun id => exists i, (i < capacity)%nat /\ id = device_id i)) requests.
Proof.
  split_and!.
  - unfold makeDevices. by rewrite length_fmap, length_seq.
  - unfold makeDevices. rewrite <- list_fmap_compose. apply NoDup_fmap_2; [|apply NoDup_seq]. intros i j. apply device_id_inj.
  - intros responses. unfold Allocate. rewrite allocate_containers_exact. cbn [app]. f_equiv.
    split; (intros H; eapply list.Forall_impl; [exact H|]; intros ids Hids; eapply list.Forall_impl; [exact Hids|]; intros id);
      rewrite elem_of_list_to_set; apply known_devices.
Qed.

(** The plugin registers only while it serves, and once it listens it closes the
    listener and removes its socket before it returns, whatever fails. *)
Theorem plugin_cleans_up : sat
  (fun h q => q = Register -> existT (P := PluginResp) Serve tt ∈ h)
  (fun h _ => (exists u, existT (P := PluginResp) Listen (Ok u) ∈ h) ->
     exists x h', h = existT (P := PluginResp) RemoveSocket x :: existT (P := PluginResp) CloseListener tt :: h') [] run_plugin.
Proof.
  assert (Hf : forall h outcome, sat (fun h q => q = Register -> existT (P := PluginResp) Serve tt ∈ h)
    (fun h _ => (exists u, existT (P := PluginResp) Listen (Ok u) ∈ h) ->
       exists x h', h = existT (P := PluginResp) RemoveSocket x :: existT (P := PluginResp) CloseListener tt :: h') h (finish outcome)).
  { intros h outcome. cbn. split; [done|]. intros []. split; [done|]. intros x _. by eexists x, _. }
  unfold run_plugin. cbn -[finish]. split; [done|]. intros removed.
  assert (Hno : forall r' : result unit, ~ (exists u, existT (P := PluginResp) Listen (Ok u) ∈ [existT (P := PluginResp) RemoveSocket r'])).
  { intros r' (u & [H|[]%not_elem_of_nil]%elem_of_cons). by apply (f_equal (@projT1 _ _)) in H. }
  assert (Hne : forall (r' : result unit) e, ~ (exists u, existT (P := PluginResp) Listen (Ok u) ∈
    [existT (P := PluginResp) Listen (Err e); existT (P := PluginResp) RemoveSocket r'])).
  { intros r' e (u & [H|H]%elem_of_cons); [|by apply (Hno r'); exists u].
    apply (inj_pair2_eq_dec _ (fun a b => decide (a = b))) in H. done. }
  destruct (match removed with Ok _ => None | Err e => if os_IsNotExist e then None else Some e end); [by intros ?%Hno|].
  cbn -[finish]. split; [done|]. intros [u|e]; [|by intros ?%Hne]. cbn -[finish]. split; [done|]. intros []. split; [by left|].
  intros [u'|e]; cbn -[finish]; (split; [done|]); [intros [e|]; cbn -[finish]; [apply Hf|split; [done|]; intros []; apply Hf]|].
  intros []. apply Hf.
Qed.
