(* ===== verification/LeaseGate.v ===== *)
(** * The gate of the WireGuard gateway

    [cmd/lease-gate/main.go]: the gateway Pod that holds the lease activates its
    interface and marks itself as the one the Service selects.  [rounds] is the
    number of polls after which the context of the leader is cancelled. *)

From Stdlib Require Import Eqdep_dec.
From S2P Require Import Prelude Prog.

(** ** What the gate does *)
Inductive GateReq :=
| MkdirAll (path : string)
| WriteFile (path data : string)
| StatFile (path : string)
| PollTick
| PatchLabel (active : bool)
| RemoveFile (path : string)
| AwaitDone.
#[global] Instance GateReq_eq_dec : EqDecision GateReq.
Proof. solve_decision. Defined.
(** A tick or the end of the context; a file's size. *)
Definition GateResp (r : GateReq) : Type :=
  match r with
  | MkdirAll _ | WriteFile _ _ | PatchLabel _ | RemoveFile _ | PollTick => result unit
  | StatFile _ => result Z
  | AwaitDone => unit
  end.
Abbreviation gprog := (prog GateResp).
Abbreviation ask r := (call (Resp := GateResp) r).

(** How the callback ends. *)
Inductive GateEnd := GateReturned | GatePanicked (e : Error).

Section gate.
Context (directory activationPath readyPath identity : string).

Fixpoint waitForFile (rounds : nat) (path : string) : gprog (result unit) :=
  let* info := ask (StatFile path) in
  let poll :=
    let! _ := ask PollTick onerr e => Ret (Err e) in
    match rounds with
    | O => Ret (Err (mkError ErrCanceled "context canceled"))
    | S rounds => waitForFile rounds path
    end in
  match info with
  | Ok size => if (0 <? size)%Z then Ret (Ok tt) else poll
  | Err _ => poll
  end.

Definition OnStartedLeading (rounds : nat) : gprog GateEnd :=
  let! _ := ask (MkdirAll directory) onerr e => Ret (GatePanicked e) in
  let! _ := ask (WriteFile activationPath identity) onerr e => Ret (GatePanicked e) in
  let* ready := waitForFile rounds readyPath in
  match ready with
  | Err _ => let* _ := ask (RemoveFile activationPath) in Ret GateReturned
  | Ok _ =>
      let* labelled := ask (PatchLabel true) in
      match labelled with
      | Err _ => let* _ := ask (RemoveFile activationPath) in Ret GateReturned
      | Ok _ =>
          let* _ := ask AwaitDone in
          let* _ := ask (PatchLabel false) in
          let* _ := ask (RemoveFile activationPath) in
          let* _ := ask (RemoveFile readyPath) in
          Ret GateReturned
      end
  end.

Definition OnStoppedLeading : gprog unit :=
  let* _ := ask (RemoveFile activationPath) in
  let* _ := ask (PatchLabel false) in
  Ret tt.

(** ** Properties *)
Abbreviation gate_answered h q x := (existT (P := GateResp) q x ∈ h).

(** A Pod marks itself as active only when the file of its WireGuard process
    was seen with content, after it activated the process. *)
Definition gate_request (h : list {r : GateReq & GateResp r}) (q : GateReq) : Prop :=
  match q with
  | PatchLabel true => gate_answered h (WriteFile activationPath identity) (Ok tt) /\ exists size, gate_answered h (StatFile readyPath) (Ok size) /\ (0 < size)%Z
  | _ => True
  end.

(** When the callback returns, the activation file was removed; and if the Pod
    was marked, the mark was removed. *)
Definition gate_ended (h : list {r : GateReq & GateResp r}) (outcome : GateEnd) : Prop :=
  outcome = GateReturned -> (exists x, gate_answered h (RemoveFile activationPath) x) /\
    (gate_answered h (PatchLabel true) (Ok tt) -> exists x, gate_answered h (PatchLabel false) x).

Lemma waitForFile_sat rounds (h0 h : list {r : GateReq & GateResp r}) : gate_answered h0 (WriteFile activationPath identity) (Ok tt) -> (forall x, x ∈ h0 -> x ∈ h) ->
  (forall x : result unit, (existT (P := GateResp) (PatchLabel true) x ∉ h)) ->
  sat gate_request (fun h' x => (forall x, x ∈ h0 -> x ∈ h') /\ (forall x : result unit, existT (P := GateResp) (PatchLabel true) x ∉ h') /\
    (x = Ok tt -> exists size, gate_answered h' (StatFile readyPath) (Ok size) /\ (0 < size)%Z)) h (waitForFile rounds readyPath).
Proof.
  intros Hw. revert h. induction rounds as [|rounds IH]; intros h Hh Hn; cbn [waitForFile bind call sat]; (split; [done|]); intros info.
  all: set (h1 := existT (P := GateResp) (StatFile readyPath) info :: h).
  all: assert (Hh1 : forall x, x ∈ h0 -> x ∈ h1) by (intros x Hx; right; by apply Hh).
  all: assert (Hn1 : forall x : result unit, existT (P := GateResp) (PatchLabel true) x ∉ h1)
    by (intros x [H|H]%elem_of_cons; [by apply (f_equal (@projT1 _ _)) in H|by apply (Hn x)]).
  all: assert (Hn2 : forall y x : result unit, existT (P := GateResp) (PatchLabel true) x ∉ existT (P := GateResp) PollTick y :: h1)
    by (intros y x [H|H]%elem_of_cons; [by apply (f_equal (@projT1 _ _)) in H|by apply (Hn1 x)]).
  all: destruct info as [size|e]; [destruct (0 <? size)%Z eqn:E|].
  all: try (apply Z.ltb_lt in E; cbn [sat]; split_and!; [done..|]; intros _; exists size; split; [by left|done]).
  all: cbn [bind call sat]; (split; [done|]); intros [[]|e']; cbn [sat]; try (split_and!; [intros x Hx; right; by apply Hh1|apply Hn2|done]).
  all: apply IH; [intros x Hx; right; by apply Hh1|apply Hn2].
Qed.

(** A gateway is marked as the active one only after it has activated WireGuard
    and WireGuard has reported to be ready; when it stops leading, however far it
    came, the activation is withdrawn, and the mark if it was set. *)
Theorem gateway_gated rounds : sat gate_request gate_ended [] (OnStartedLeading rounds).
Proof.
  unfold OnStartedLeading. cbn [bind call sat]. split; [done|]. intros [[]|e]; [|done]. cbn [bind call sat]. split; [done|].
  intros [[]|e]; [|done]. match goal with |- sat _ _ ?hh _ => set (h0 := hh) end. apply sat_bind.
  eapply sat_mono; [done| |apply (waitForFile_sat rounds h0 h0); [by left|done|]].
  2:{ intros x [H|[H|[]%not_elem_of_nil]%elem_of_cons]%elem_of_cons; by apply (f_equal (@projT1 _ _)) in H. }
  intros h [[]|e] (Hh & Hn & Hs); cbn [bind call sat].
  2:{ split; [done|]. intros x _. split; [eexists; by left|].
      intros [H|H]%elem_of_cons; [by apply (f_equal (@projT1 _ _)) in H|by apply Hn in H]. }
  split; [split; [apply Hh; by left|by apply Hs]|]. intros [[]|e]; cbn [bind call sat].
  - split; [done|]. intros []. split; [done|]. intros x. split; [done|]. intros y. split; [done|]. intros z _.
    split; [exists y; right; by left|]. intros _. exists x. right. right. by left.
  - split; [done|]. intros x _. split; [eexists; by left|]. intros [H|[H|H]%elem_of_cons]%elem_of_cons; [by apply (f_equal (@projT1 _ _)) in H| |by apply Hn in H].
    apply (inj_pair2_eq_dec _ (fun a b => decide (a = b))) in H. done.
Qed.
End gate.
